(* ===== verification/_CoqProject ===== *)
-Q . S2P
Prelude.v
Arc4.v
BlockHash.v
Md5.v
Sha.v
Hmac.v
AesTables.v
Aes.v
AesChain.v
AesCcm.v
AesCmac.v
AesCbc.v
AesKeyWrap.v
Mlme.v
MlmeMachine.v
WpaCmm.v
WpaKeys.v
WpaData.v
RsnIe.v
Wep.v
Tkip.v
EapolMsg.v
EapolRecv.v
WpaSm.v
WpaHandshake.v
MacTable.v
BssEntry.v
BssTable.v
BssSort.v
Sanity.v
Beacon.v
Dot11.v
SoftAes.v
Ccmp.v
SoftCrypt.v
BaReorder.v
Link.v
BaSession.v
BaOriginator.v
