(* ===== verification/Prelude.v ===== *)
(** * Verified models of the rgb-clock system software

    The repository holds the software of a clock radio: a C++ application
    under [rgbclock/], older test programs under [tests/], and the C sources
    of the two Wi-Fi drivers the device uses, [linux/Arch/rt5370.driver]
    (Ralink) and [linux/Arch/dwa-131] (Realtek).  This library models the
    Ralink driver's protocol code, the part that decides what happens to a
    frame: how a network is chosen, how the keys are agreed, how frames are
    protected, and how aggregated frames are put back in order.  All paths
    below are relative to [src/linux/Arch/rt5370.driver/].

    ** How the parts work together

    [Beacon] reads the beacons of a scan and hands them to the table of
    [BssTable], whose entries [BssEntry] fills, and [BssSort] makes the list of
    networks to try.  [Sanity] reads the other frames of an association.  The
    association request carries the element [RsnIe] builds; its answer makes
    [MacTable] register the access point.  The 4-way and group handshakes
    ([EapolMsg], [EapolRecv], [WpaSm]) install keys, with the key derivation
    of [WpaKeys] and the ciphers of the crypto files; received management and
    EAPOL frames get to their handlers through the queue and the tables of
    [Mlme] and [MlmeMachine].  Data is protected by [Wep], [Tkip], [Ccmp],
    which [SoftCrypt] selects, and aggregated data passes the sessions and
    buffers of [BaSession], [BaOriginator] and [BaReorder].

    ** Files, components and sources

    - [Prelude]: C integers of 8, 16 and 32 bits as [Z] with the wrap-around
      written out, arrays, counted loops, memory with bounds ([load], [store],
      [None] outside), byte order, the environment of a call, and the shared
      lemmas and hints.
    - [Arc4]: [common/crypt_arc4.c].  The context, [ARC4_INIT],
      [ARC4_Compute], [ARC4_Discard_KeyLength].
    - [BlockHash], [Md5], [Sha], [Hmac]: [common/crypt_md5.c],
      [common/crypt_sha2.c], [common/crypt_hmac.c].  [BlockHash] has the
      context, Init, Append and End that the three hashes share and the type
      classes a compression function implements; [Md5] and [Sha] are the
      instances with the functions of the source; [Hmac] is proved against
      the interface of a streaming hash.
    - [AesTables], [Aes], [AesChain], [AesCcm], [AesCmac], [AesCbc],
      [AesKeyWrap]: [common/crypt_aes.c], tables, cipher and modes.
    - [WpaCmm], [Wep]: [common/cmm_wep.c], with the key record of
      [include/wpa_cmm.h].
    - [Tkip]: [common/cmm_tkip.c].
    - [Dot11], [SoftAes], [Ccmp]: [common/cmm_aes.c].  [SoftAes] is the older
      [RTMPSoftDecryptAES] with its own AES-128, [Ccmp] the pair
      [RTMPSoftEncryptCCMP] and [RTMPSoftDecryptCCMP] over [AesCcm]; [Dot11]
      has the header fields both use.
    - [SoftCrypt]: the functions of [common/cmm_wpa.c] that choose the key and
      the cipher of a frame encrypted by software.
    - [Mlme], [MlmeMachine]: the ring buffer of messages of [common/mlme.c] and
      its readers, the classification of received frames, the tables of the
      state machines with the state that their construction in [sta/auth.c],
      [sta/assoc.c], [sta/sync.c], [sta/auth_rsp.c], [common/action.c] and
      [common/cmm_wpa.c] gives them, and [MlmeHandler].
    - [WpaKeys], [WpaData]: the key derivations of [common/cmm_wpa.c], and the
      records of stations, adapter and EAPOL-Key messages.
    - [RsnIe]: the station's RSN element ([RTMPMakeRSNIE], [sta/assoc.c]) and
      the readers of the access point's.
    - [EapolMsg], [EapolRecv]: [ConstructEapolMsg] and what it calls; the checks
      and effects of a received message, [PeerWpaMessageSanity] and the parser
      of its key data.
    - [WpaSm], [WpaHandshake]: the handlers of the EAPOL-Key messages and of the
      start of the authenticator; the handshakes of a station and a standard
      authenticator as sequences of their steps.
    - [MacTable]: the table of stations, [common/cmm_data.c], with its users in
      [sta/assoc.c] and [sta/connect.c].
    - [BssEntry], [BssTable], [BssSort]: the scan table, [common/mlme.c] from
      [BssTableInit] to [BssCipherParse], with [MaintainBssTable] of
      [sta/connect.c], the end of [PeerBeaconAtScanAction] of [sta/sync.c] and
      [RadarChannelCheck] of [common/cmm_radar.c].
    - [Sanity]: [sta/sanity.c] and the parsers and checks of
      [common/cmm_sanity.c] for association, authentication, deauthentication
      and probe frames, with the loop over elements all parsers share.
    - [Beacon]: [PeerBeaconAndProbeRspSanity] of [common/cmm_sanity.c], and
      [PeerBeaconAtScanAction] of [sta/sync.c], which passes its results on.
    - [BaReorder]: [common/ba_action.c], one session's reordering buffer, the
      pool of blocks, the loops that pass frames up, timeouts, data frames and
      block-ack requests.
    - [Link]: the invariant of entries and indices that the two session
      tables share.
    - [BaSession]: [common/ba_action.c] and [BATableInit] of [common/mlme.c],
      the recipient's table: set-up, tear-down, timers, and the entry points
      that find a session and call [BaReorder].
    - [BaOriginator]: [common/ba_action.c], [common/action.c],
      [common/cmm_sanity.c], the originator's table, the retries of a request
      and the handlers of ADDBA and DELBA frames, which use both tables.

    Definitions keep the names of the source.  A function that loops is a
    fold over the counter or a [Fixpoint] with fuel; a function that reads or
    writes through pointers works on a list of bytes that stands for the
    memory the pointers lead to and returns [None] when an access leaves it.
    [E : env] is what a call sees of the outside: whether an allocation of a
    size succeeds, and the contents of uninitialised local arrays.  Stateful
    components are explicit state passing over records; a pointer to an
    element of an array is its index, a pointer that may be NULL an option,
    buffers that several records point to a heap.  Calls that leave the model
    are events of a trace in the state, and a function pointer is the name of
    the function.

    ** What the theorems show

    - Refinement of published algorithms: [RT_MD5], [RT_SHA1], [RT_SHA256]
      (every chunking of the message), [RT_HMAC], [RT_AES_Encrypt] and
      [RT_AES_Decrypt], AES-CCM, AES-CMAC, AES-CBC, AES key wrap, Michael, the
      TKIP key mixing, PBKDF2 and the key derivations of IEEE 802.11i equal
      reference definitions written from the standards, on every branch,
      refusals and failed allocations included; memory outside the output does
      not change.
    - Round trips: AES, AES-CBC, key wrap, WEP, TKIP, CCMP and ARC4 give the
      plain text back; CCMP also under the header changes a retransmission
      makes; a frame protected under [SoftCrypt] comes back at a receiver with
      the key; an EAPOL-Key message passes the checks of a peer with the same
      keys; an RSN element is read back whole.
    - What is accepted: the WEP, TKIP and CCMP decryptors answer TRUE exactly
      for the right integrity value; an EAPOL-Key message changes the adapter
      only with a fresh counter and, message 1 apart, a right MIC, for the key
      descriptor versions that have one ([unknown_version_needs_no_key] is about
      the others).
    - The handshakes ([WpaHandshake]): a station and a standard authenticator
      end with the same keys installed, for WPA and WPA2; what a repeated or
      forged message does.
    - Messages ([Mlme], [MlmeMachine]): the queue is first in, first out, keeps
      its bounds and admits received frames to half of it, as long as nothing is
      posted to 39 waiting messages while a handler runs
      ([mlme_enqueue_overwrites_running]); a frame gets to the function its table
      names; [MlmeHandler] ends if the handlers do and post less than they
      handle.
    - Tables ([MacTable], [BssTable], [BaSession], [BaOriginator]): invariants of
      every reachable state, and that every admissible input is handled - the
      loops end, no index leaves its array, no NULL is followed; what
      association, a beacon and a deletion change and what they leave.
    - Choosing a network ([BssEntry], [BssSort]): the ciphers and key managements
      of well-formed elements are read as IEEE 802.11 numbers them, and a frame
      fills every field of its entry; the list of networks is a permutation of
      exactly those that fit the station ([candidate]), sorted by signal
      strength, where the WPA and WPA2 group ciphers of a network agree
      ([wpa2_group_of_wpa] is about the others).  The request of an association
      carries the element of the settings, or the supplicant's.
    - Received frames ([Sanity], [Beacon]): no frame makes a parser leave an
      array, within the stated lengths; a TIM element says what IEEE 802.11 says;
      a beacon of well-formed elements makes the step of the scan table that
      belongs to its contents.
    - The reordering buffer ([BaReorder]): sorted, inside the window, no block
      lost, bounds, termination of every loop, delivery in order and at most
      once while data frames arrive less than half the sequence space ahead and
      no timeout, EAPOL frame or block-ack request comes between, and draining
      by timeouts.
    - Where the code does not do what it means to: theorems and lemmas about it
      as it is - indices and lengths a peer chooses and nothing checks
      ([ba_tid_unchecked], [gtk_kde_length], [assoc_store_rsnie_spec],
      [BssCipherParse_overrun], [registrar_overruns]), keys installed again or replaced
      ([msg3_reinstalls_key], [forged_msg1_replaces_ptk]), lost blocks and
      buffers ([eapol_frame_leaks_block], [probe_response_wiped],
      [second_selection_wipes]), and others beside the component they are
      about.

    ** Fuel

    [while_opt] loops of the ciphers get one more step than the data has
    bytes or blocks; the specifications prove a result, so it is enough.  The
    loops over the reordering buffer get the length of its list plus one:
    each turn removes an element, and [reorder_handles_input] and
    [ba_table_handles_input] prove that a result is reached.  Michael's
    padding loop gets four steps, which [RTMPTkipGetMIC_michael] shows is
    enough.  The parser of key data gets 129 turns, as an element has at least
    two of at most 255 bytes; the walk along a chain of stations one turn for
    each entry of the table, enough when there is no cycle
    ([mac_table_invariant]); [MlmeHandler] one more turn than its queue weighs
    ([MlmeHandler_terminates]); the loops over elements of frames one turn for
    each byte, and each turn takes two; the search among the attributes of Wi-Fi
    Protected Setup 64 turns of at least four of at most 251 bytes.

    ** Assumptions of the models

    - A little-endian 32-bit target: [ULONG] has 32 bits, [cpu2le16] and the
      like are the identity, [RT_BIG_ENDIAN] and [CONSISTENT_PN_ORDER] are
      off; station mode, with [SOFT_ENCRYPT], [APCLI_SUPPORT],
      [CONFIG_MULTI_CHANNEL], [EXT_BUILD_CHANNEL_LIST], [CARRIER_DETECTION_SUPPORT],
      [QOS_DLS_SUPPORT] and [RSSI_FEEDBACK] off and [WPA_SUPPLICANT_SUPPORT],
      [NATIVE_WPA_SUPPLICANT_SUPPORT] and [DOT11_N_SUPPORT] on; [DBG] output is
      left out, and [ASSERT], which only prints, is an event.
    - The allocator gives the same answer for the same size within a call.
    - [get] reads 0 outside an array; that indices stay inside is part of the
      specifications' well-formedness hypotheses.  ARC4 with an empty key is
      undefined in C and excluded.
    - The buffers of AES-CBC and of key wrap do not overlap; those of ARC4,
      CCM and the frame functions may.
    - [RTMPReportMicError] is a flag of the result.  Packets of the TKIP MIC
      helpers are linear buffers.
    - A packet in the reordering buffer is its sequence number and an
      identity; the conversion of its bytes is not modelled.  Spin locks are
      not modelled: operations are atomic steps.  [Indicate_Legacy_Packet]
      may call the timeout flush again for the same session in the USB build;
      it finds no expired timer then and is left out.
    - Timers are the value they were started with; that the operating system
      fires a pending timer is the input of the state machine.
    - Admissible inputs of the session tables have TIDs below eight
      ([ba_tid_unchecked] is about the others), leave a block in the pool and
      are not EAPOL frames ([eapol_frame_leaks_block] is about those).
      Admissible frames of the scan table have well-formed elements
      ([BssCipherParse_overrun] is about others) and the lengths
      [common/cmm_sanity.c] lets pass; [beacon_scanned] shows that a beacon of
      well-formed elements gives such a frame.
    - Behind a received message the queue element it lies in has at least 260
      bytes, as the parsers look at the header of one more element and compare
      identifiers before lengths.
    - The authenticator of the handshake theorems is one that sends the
      messages of IEEE 802.11i; the pointers of the driver's own authenticator
      are NULL in a station, as its adapter leaves them.

    ** Not modelled

    - Of the modelled parts: [MlmeDeAuthAction] and the functions of
      [common/cmm_wpa.c] that only print; the byte layout of the action frames,
      [MlmeDELBAAction], which only sends two frames, and the PSMP and A-MSDU
      conversions of the block-ack code; the fields of stations and networks
      that the modelled functions do not touch.
    - The bodies of the association, authentication and scanning handlers,
      which build frames over kernel packets and program the chip, and the
      rate control, whose inputs are the chip's statistics.
    - The parser of the profile, [common/cmm_profile.c]; of a scan the time
      stamps of an entry and the table of 20/40 coexistence.
    - The data path over kernel packets and USB requests, hardware access (its
      meaning is the chip's), ioctls and operating-system glue.
    - The Realtek driver, a second driver for the same purpose that shares no
      code with the first; the C++ application, which is threads over I2C and
      SPI devices and a third-party XML library, and the first prototypes. *)

From stdpp Require Import base list numbers list_numbers.
From Stdlib Require Import ZArith Lia Btauto.

Open Scope Z_scope.

(** ** C integers

    A C object of an unsigned type is the integer it denotes; a store into
    an object of [w] bits keeps the value modulo [2^w]. *)

Declare Scope c_scope.
Delimit Scope c_scope with C.

Definition u8 (x : Z) : Z := x mod 256.
Definition u16 (x : Z) : Z := x mod 65536.
Definition u32 (x : Z) : Z := x mod 4294967296.
Definition u64 (x : Z) : Z := x mod 18446744073709551616.

Infix "^^" := Z.lxor (at level 42, left associativity) : c_scope.
Infix "&" := Z.land (at level 41, left associativity) : c_scope.
Infix ".|" := Z.lor (at level 43, left associativity) : c_scope.
Infix ">>" := Z.shiftr (at level 39, left associativity) : c_scope.
Notation "x <<8 n" := (u8 (Z.shiftl x n)) (at level 39, left associativity) : c_scope.
Notation "x <<32 n" := (u32 (Z.shiftl x n)) (at level 39, left associativity) : c_scope.
Notation "x +8 y" := (u8 (x + y)) (at level 50, left associativity) : c_scope.
Notation "x +32 y" := (u32 (x + y)) (at level 50, left associativity) : c_scope.

Open Scope c_scope.

(** Ticks are 32 bits; the difference of two of them is signed. *)
Definition signed32 (x : Z) : Z := if u32 x <? 0x80000000 then u32 x else u32 x - 0x100000000.
Definition RTMP_TIME_AFTER (a b : Z) : bool := signed32 (b - a) <? 0.

(** [~x] of a 32-bit object. *)
Definition not32 (x : Z) : Z := 4294967295 - x.

(** ** Ranges *)

Definition fits (w : Z) (x : Z) : Prop := 0 <= x < 2 ^ w.
Abbreviation byte := (fits 8).
Abbreviation word := (fits 32).
Abbreviation bytes := (Forall (fits 8)).
Abbreviation words := (Forall (fits 32)).

(** ** Arrays *)

(** Reading element [i] of a C array; the bound is a proof obligation of
    the theorems, not of the definitions. *)
Definition get (a : list Z) (i : nat) : Z := nth i a 0.
Notation "a .[ i ]" := (get a i) (at level 1, left associativity, format "a .[ i ]") : c_scope.
Notation "a .[ i <- v ]" := (<[i%nat := v]> a) (at level 1, left associativity, format "a .[ i  <-  v ]") : c_scope.

Arguments get : simpl never.

(** [for (i = lo; i < lo + n; i++) body] over an explicit state. *)
Definition loop {S} (lo n : nat) (body : nat → S → S) (s : S) : S :=
  foldl (λ s i, body i s) s (seq lo n).

(** [for (i = lo + n - 1; i >= lo; i--) body]. *)
Definition loop_down {S} (lo n : nat) (body : nat → S → S) (s : S) : S :=
  foldl (λ s i, body i s) s (rev (seq lo n)).

(** [while (c) body], with fuel; [None] is "out of fuel". *)
Fixpoint while {S} (fuel : nat) (c : S → bool) (body : S → S) (s : S) : option S :=
  match fuel with
  | O => None
  | Datatypes.S k => if c s then while k c body (body s) else Some s
  end.

(** The same with a body that may leave the memory it is given. *)
Fixpoint while_opt {S} (fuel : nat) (c : S → bool) (body : S → option S) (s : S) : option S :=
  match fuel with
  | O => None
  | Datatypes.S k => if c s then s' ← body s; while_opt k c body s' else Some s
  end.

(** A counted loop whose body may leave the memory it is given. *)
Fixpoint loop_opt {S} (lo n : nat) (body : nat → S → option S) (s : S) : option S :=
  match n with
  | O => Some s
  | Datatypes.S k => s' ← body lo s; loop_opt (Datatypes.S lo) k body s'
  end.

(** [NdisMoveMemory(a + off, src, n)] where [bs] are the [n] source bytes. *)
Definition put (a : list Z) (off : nat) (bs : list Z) : list Z := list_inserts off bs a.

Arguments put : simpl never.

(** The [n] bytes at [a + off]. *)
Definition slice (a : list Z) (off n : nat) : list Z := take n (drop off a).

Definition zeros (n : nat) : list Z := replicate n 0.

Definition xorl (a b : list Z) : list Z := zip_with Z.lxor a b.

(** ** Bounded memory

    A buffer handed over by a caller is a list; reads and writes at a
    pointer are checked, and [None] is an access outside the buffer. *)

Definition load (m : list Z) (p : Z) (n : Z) : option (list Z) :=
  if (0 <=? p) && (0 <=? n) && (p + n <=? Z.of_nat (length m))
  then Some (slice m (Z.to_nat p) (Z.to_nat n)) else None.

Definition store (m : list Z) (p : Z) (bs : list Z) : option (list Z) :=
  if (0 <=? p) && (p + Z.of_nat (length bs) <=? Z.of_nat (length m))
  then Some (put m (Z.to_nat p) bs) else None.

(** [for (i = 0; i < n; i++) m[dst + i] = m[src + i] ^ ks[i]], byte by byte, for any
    overlap of the two areas. *)
Fixpoint xor_copy (m : list Z) (src dst : Z) (ks : list Z) : option (list Z) :=
  match ks with
  | [] => Some m
  | k :: ks =>
      b ← load m src 1;
      m ← store m dst [b.[0] ^^ k];
      xor_copy m (src + 1) (dst + 1) ks
  end.

(** ** Byte order *)

Fixpoint le_bytes (n : nat) (x : Z) : list Z :=
  match n with
  | O => []
  | S k => x & 255 :: le_bytes k (x >> 8)
  end.

Definition be_bytes (n : nat) (x : Z) : list Z := rev (le_bytes n x).

Fixpoint le_word (l : list Z) : Z :=
  match l with
  | [] => 0
  | b :: r => b .| Z.shiftl (le_word r) 8
  end.

Definition be_word (l : list Z) : Z := le_word (rev l).

(** ** The environment of a call

    What the driver takes from the kernel and from the compiler: whether
    the allocator satisfies a request of a given size during the call, and
    the indeterminate contents of local arrays. *)

Record env := { kmalloc : Z → bool; garbage : list Z }.

(** An uninitialised local array of [n] bytes. *)
Definition local_array (E : env) (n : nat) : list Z := take n (garbage E ++ zeros n).

(** ** Automation *)

Create HintDb rt.
Create Rewrite HintDb len.

(** Close an equation between bitwise expressions bit by bit. *)
Ltac zbits :=
  apply Z.bits_inj'; intros ?i ?Hi;
  repeat rewrite ?Z.lxor_spec, ?Z.land_spec, ?Z.lor_spec, ?Z.bits_0;
  btauto.

(** Destruct a list of known (small) length into its elements. *)
Ltac list_cases l H :=
  repeat (destruct l as [|? l]; cbn [length] in H; [try discriminate H | try discriminate H]).

(** ** Bit operations stay in range *)

Lemma fits_pow w x : fits w x ↔ 0 <= x < 2 ^ w.
Proof. done. Qed.

Lemma fits_bits w x : 0 <= w → fits w x ↔ 0 <= x ∧ ∀ i, w <= i → Z.testbit x i = false.
Proof.
  intros Hw. unfold fits. split.
  - intros [H0 H1]. split; [done|]. intros i Hi.
    rewrite <- (Z.mod_small x (2 ^ w)) by lia. apply Z.mod_pow2_bits_high. lia.
  - intros [H0 Hb]. split; [done|].
    assert (x mod 2 ^ w = x) as <-; [|apply Z.mod_pos_bound; lia].
    apply Z.bits_inj'. intros i Hi. destruct (decide (i < w)).
    + by rewrite Z.mod_pow2_bits_low by lia.
    + rewrite Z.mod_pow2_bits_high by lia. symmetry. apply Hb. lia.
Qed.

Lemma fits_lxor w a b : 0 <= w → fits w a → fits w b → fits w (a ^^ b).
Proof.
  intros Hw [Ha Ha']%fits_bits [Hb Hb']%fits_bits; [|done..].
  apply fits_bits; [done|]. split; [by apply Z.lxor_nonneg|].
  intros i Hi. by rewrite Z.lxor_spec, Ha', Hb'.
Qed.

Lemma fits_lor w a b : 0 <= w → fits w a → fits w b → fits w (a .| b).
Proof.
  intros Hw [Ha Ha']%fits_bits [Hb Hb']%fits_bits; [|done..].
  apply fits_bits; [done|]. split; [by apply Z.lor_nonneg|].
  intros i Hi. by rewrite Z.lor_spec, Ha', Hb'.
Qed.

Lemma fits_land_l w a b : 0 <= w → fits w a → fits w (a & b).
Proof.
  intros Hw [Ha Ha']%fits_bits; [|done].
  apply fits_bits; [done|]. split; [apply Z.land_nonneg; by left|].
  intros i Hi. by rewrite Z.land_spec, Ha'.
Qed.

Lemma fits_land_r w a b : 0 <= w → fits w b → fits w (a & b).
Proof. rewrite Z.land_comm. apply fits_land_l. Qed.

Lemma fits_shiftr w a n : 0 <= n → fits w a → fits w (a >> n).
Proof.
  intros Hn [H0 H1]. rewrite Z.shiftr_div_pow2 by done. split.
  - apply Z.div_pos; lia.
  - apply Z.div_lt_upper_bound; nia.
Qed.

Lemma fits_u8 x : byte (u8 x).
Proof. unfold u8, fits. apply Z.mod_pos_bound. lia. Qed.

Lemma fits_u32 x : word (u32 x).
Proof. unfold u32, fits. apply Z.mod_pos_bound. lia. Qed.

Lemma fits_not32 x : word x → word (not32 x).
Proof. unfold not32, fits. lia. Qed.

Lemma fits_weaken v w x : v <= w → fits v x → fits w x.
Proof.
  intros Hvw [H0 H1]. split; [done|].
  destruct (decide (0 <= v)); [|rewrite Z.pow_neg_r in H1; lia].
  pose proof (Z.pow_le_mono_r 2 v w). lia.
Qed.

Lemma u8_small x : byte x → u8 x = x.
Proof. apply Z.mod_small. Qed.

Lemma u32_small x : word x → u32 x = x.
Proof. apply Z.mod_small. Qed.

Lemma u32_add_l x y : u32 (u32 x + y) = u32 (x + y).
Proof. apply Zplus_mod_idemp_l. Qed.

Lemma u32_add_r x y : u32 (x + u32 y) = u32 (x + y).
Proof. apply Zplus_mod_idemp_r. Qed.

(** Sums of several terms reduced after every addition. *)
Lemma u32_sum4 a b c d : a +32 b +32 c +32 d = u32 (a + b + c + d).
Proof.
  unfold u32. rewrite (Zplus_mod_idemp_l (_ mod _ + c)).
  rewrite <- (Z.add_assoc (_ mod _)), Zplus_mod_idemp_l. f_equal. lia.
Qed.

Lemma u32_sum5 a b c d e : a +32 b +32 c +32 d +32 e = u32 (a + b + c + d + e).
Proof.
  rewrite u32_sum4. unfold u32.
  rewrite <- !(Z.add_assoc (_ mod _)), Zplus_mod_idemp_l. f_equal. lia.
Qed.

Lemma land_255 x : x & 255 = x mod 256.
Proof. change 255 with (Z.ones 8). by rewrite Z.land_ones. Qed.

Lemma fits_land_255 x : byte (x & 255).
Proof. rewrite land_255. apply fits_u8. Qed.

#[export] Hint Resolve fits_u8 fits_u32 fits_not32 fits_land_255 : rt.
#[export] Hint Extern 2 (fits _ (Z.lxor _ _)) => apply fits_lxor; [lia| |] : rt.
#[export] Hint Extern 2 (fits _ (Z.lor _ _)) => apply fits_lor; [lia| |] : rt.
#[export] Hint Extern 3 (fits _ (Z.land _ _)) => apply fits_land_l; [lia|] : rt.
#[export] Hint Extern 3 (fits _ (Z.shiftr _ _)) => apply fits_shiftr; [lia|] : rt.

Lemma lxor_cancel_r a b : a ^^ b ^^ b = a.
Proof. zbits. Qed.

Lemma lxor_cancel_l a b : b ^^ (b ^^ a) = a.
Proof. zbits. Qed.

(** ** Lists of bytes *)

Lemma bytes_get l i : bytes l → byte l.[i].
Proof.
  intros H. unfold get. destruct (decide (i < length l)%nat) as [Hi|Hi].
  - rewrite Forall_forall in H. apply H. apply list_elem_of_In, nth_In. lia.
  - rewrite nth_overflow by lia. unfold fits. lia.
Qed.

Lemma words_get l i : words l → word l.[i].
Proof.
  intros H. unfold get. destruct (decide (i < length l)%nat) as [Hi|Hi].
  - rewrite Forall_forall in H. apply H. apply list_elem_of_In, nth_In. lia.
  - rewrite nth_overflow by lia. unfold fits. lia.
Qed.

Lemma fits_zeros w n : 0 <= w → Forall (fits w) (zeros n).
Proof. intros. apply Forall_replicate. unfold fits. pose proof (Z.pow_pos_nonneg 2 w). lia. Qed.

Lemma length_zeros n : length (zeros n) = n.
Proof. apply length_replicate. Qed.

Lemma length_xorl a b : length a = length b → length (xorl a b) = length a.
Proof. intros H. unfold xorl. rewrite length_zip_with. lia. Qed.

Lemma xorl_bytes a b : bytes a → bytes b → bytes (xorl a b).
Proof.
  intros Ha. revert b. induction Ha as [|x a Hx Ha IH]; intros b Hb; [constructor|].
  destruct Hb as [|y b Hy Hb]; [constructor|]. constructor; [|by apply IH].
  by apply fits_lxor.
Qed.

Lemma xorl_cancel_r a b : (length a <= length b)%nat → xorl (xorl a b) b = a.
Proof.
  revert b. induction a as [|x a IH]; intros [|y b] H; cbn in *; [done|done|lia|].
  f_equal; [apply lxor_cancel_r|]. apply IH. lia.
Qed.

Lemma xorl_cancel_l a b : (length a <= length b)%nat → xorl b (xorl b a) = a.
Proof.
  revert b. induction a as [|x a IH]; intros [|y b] H; cbn in *; [done|done|lia|].
  f_equal; [apply lxor_cancel_l|]. apply IH. lia.
Qed.

Lemma xorl_comm a b : xorl a b = xorl b a.
Proof.
  revert b. induction a as [|x a IH]; intros [|y b]; cbn; try done.
  f_equal; [apply Z.lxor_comm|apply IH].
Qed.

Lemma get_lookup l i : (i < length l)%nat → l !! i = Some l.[i].
Proof. intros H. unfold get. rewrite nth_lookup. by destruct (lookup_lt_is_Some_2 l i H) as [x ->]. Qed.

Lemma get_insert_eq l i v : (i < length l)%nat → (l.[i <- v]).[i] = v.
Proof. intros H. unfold get. rewrite nth_lookup, list_lookup_insert_eq by done. done. Qed.

Lemma get_insert_ne l i j v : i ≠ j → (l.[i <- v]).[j] = l.[j].
Proof. intros H. unfold get. by rewrite !nth_lookup, list_lookup_insert_ne. Qed.

Lemma swap_Permutation (l : list Z) i j :
  (i < length l)%nat → (j < length l)%nat → (l.[i <- l.[j]]).[j <- l.[i]] ≡ₚ l.
Proof.
  intros Hi Hj. apply Permutation_inj. rewrite !length_insert. split; [done|].
  exists (λ k, if decide (k = i) then j else if decide (k = j) then i else k). split.
  - intros a b; repeat case_decide; congruence.
  - intros k. destruct (decide (k = j)) as [->|Hkj].
    + rewrite list_lookup_insert_eq by (rewrite length_insert; done).
      case_decide; [subst|destruct (decide (j = j)); [|done]]; by rewrite get_lookup.
    + rewrite list_lookup_insert_ne by done. case_decide; subst.
      * rewrite list_lookup_insert_eq by done. by rewrite get_lookup.
      * rewrite list_lookup_insert_ne by done. by destruct (decide (k = j)).
Qed.

(** ** Writing a block into an array *)


Lemma length_put a off bs : length (put a off bs) = length a.
Proof. apply length_inserts. Qed.

Lemma put_app a b c bs :
  length b = length bs → put (a ++ b ++ c) (length a) bs = a ++ bs ++ c.
Proof.
  intros H. unfold put.
  rewrite <- (Nat.add_0_r (length a)), list_inserts_app_r. f_equal.
  by apply list_inserts_0_r.
Qed.

Lemma put_splice a off bs :
  (off + length bs <= length a)%nat →
  put a off bs = take off a ++ bs ++ drop (off + length bs) a.
Proof.
  intros H.
  rewrite <- (take_drop off a) at 1.
  rewrite <- (take_drop (length bs) (drop off a)), drop_drop.
  etransitivity; [|apply put_app with (b := take (length bs) (drop off a))].
  - by rewrite length_take_le by lia.
  - rewrite length_take, length_drop. lia.
Qed.

Lemma slice_put_eq a off bs :
  (off + length bs <= length a)%nat → slice (put a off bs) off (length bs) = bs.
Proof.
  intros H. unfold slice. rewrite put_splice by done.
  rewrite drop_app_length' by (rewrite length_take; lia).
  by rewrite take_app_length.
Qed.

Lemma put_put a off bs cs :
  length bs = length cs → (off + length bs <= length a)%nat →
  put (put a off bs) off cs = put a off cs.
Proof.
  intros H Ha. rewrite (put_splice (put a off bs)) by (rewrite length_put; lia).
  rewrite !put_splice by lia. rewrite take_app_length' by (rewrite length_take; lia).
  do 2 f_equal. rewrite <- drop_drop.
  rewrite drop_app_length' by (rewrite length_take; lia).
  rewrite drop_app_length' by done. f_equal. lia.
Qed.

Lemma put_slice_id a off n : (off + n <= length a)%nat → put a off (slice a off n) = a.
Proof.
  intros H. assert (length (slice a off n) = n) as Hl.
  { unfold slice. rewrite length_take, length_drop. lia. }
  rewrite put_splice by lia. rewrite Hl. unfold slice.
  rewrite <- drop_drop, take_drop. apply take_drop.
Qed.

Lemma length_slice a off n : (off + n <= length a)%nat → length (slice a off n) = n.
Proof. intros H. unfold slice. rewrite length_take, length_drop. lia. Qed.

Lemma bytes_slice a off n : bytes a → bytes (slice a off n).
Proof. intros H. unfold slice. by apply Forall_take, Forall_drop. Qed.

Lemma bytes_put a off bs : bytes a → bytes bs → bytes (put a off bs).
Proof.
  intros Ha Hb. unfold put. revert off.
  induction Hb as [|x bs Hx Hb IH]; intros off; cbn; [done|].
  apply Forall_insert; [apply IH|done].
Qed.

Lemma load_spec m p n bs :
  load m p n = Some bs ↔
  0 <= p ∧ 0 <= n ∧ p + n <= Z.of_nat (length m) ∧ bs = slice m (Z.to_nat p) (Z.to_nat n).
Proof.
  unfold load. destruct (0 <=? p) eqn:?, (0 <=? n) eqn:?, (p + n <=? _) eqn:?;
    cbn; split; intros H; try lia; try discriminate H; [injection H as <-|];
    repeat split; try lia. by destruct H as (_&_&_&->).
Qed.

Lemma load_ok m p n :
  0 <= p → 0 <= n → p + n <= Z.of_nat (length m) →
  load m p n = Some (slice m (Z.to_nat p) (Z.to_nat n)).
Proof. intros. by apply load_spec. Qed.

Lemma load_None m p n : p < 0 ∨ n < 0 ∨ Z.of_nat (length m) < p + n → load m p n = None.
Proof. intros H. unfold load. destruct (0 <=? p) eqn:?, (0 <=? n) eqn:?, (p + n <=? _) eqn:?; cbn; lia || done. Qed.

Lemma store_ok m p bs :
  0 <= p → p + Z.of_nat (length bs) <= Z.of_nat (length m) →
  store m p bs = Some (put m (Z.to_nat p) bs).
Proof. intros. unfold store. destruct (0 <=? p) eqn:?, (p + _ <=? _) eqn:?; cbn; lia || done. Qed.

Lemma slice_1 m i : (i < length m)%nat → slice m i 1 = [m.[i]].
Proof.
  intros H. unfold slice, get. rewrite nth_lookup.
  destruct (lookup_lt_is_Some_2 m i H) as [x Hx]. rewrite Hx. cbn.
  rewrite (drop_S _ x) by done. done.
Qed.

Lemma slice_S m i n : (i < length m)%nat → slice m i (S n) = m.[i] :: slice m (S i) n.
Proof.
  intros H. unfold slice, get. rewrite nth_lookup.
  destruct (lookup_lt_is_Some_2 m i H) as [x Hx]. rewrite Hx. cbn.
  by rewrite (drop_S _ x).
Qed.

Lemma slice_map_seq l off n :
  (off + n <= length l)%nat → slice l off n = map (λ i, l.[off + i]) (seq 0 n).
Proof.
  revert off. induction n as [|n IH]; intros off H; [unfold slice; apply take_0|].
  rewrite slice_S, IH by lia. cbn [seq map]. rewrite Nat.add_0_r, <- seq_shift, map_map.
  f_equal. apply map_ext. intros i. by rewrite Nat.add_succ_comm.
Qed.

Lemma get_map_seq f n i : (i < n)%nat → (map f (seq 0 n)).[i] = f i.
Proof.
  intros H. unfold get. rewrite (nth_indep _ 0 (f 0%nat)) by (rewrite length_map, length_seq; lia).
  rewrite map_nth, seq_nth by done. done.
Qed.

(** A list of known length, for definitions that compute on its elements. *)
Lemma list_as_map (l : list Z) n : length l = n → ∃ g : nat → Z, l = map g (seq 0 n).
Proof.
  intros <-. exists (get l). rewrite <- (slice_map_seq l 0) by lia.
  unfold slice. by rewrite drop_0, take_ge.
Qed.

Lemma list_get_ext a b :
  length a = length b → (∀ i, (i < length a)%nat → a.[i] = b.[i]) → a = b.
Proof. intros Hl H. apply (nth_ext a b 0 0); [done|]. exact H. Qed.

Lemma get_app_l a b i : (i < length a)%nat → (a ++ b).[i] = a.[i].
Proof. apply app_nth1. Qed.

Lemma get_app_r a b i : (length a <= i)%nat → (a ++ b).[i] = b.[i - length a].
Proof. intros H. unfold get. rewrite app_nth2; [done|lia]. Qed.

Lemma slice_insert_lt m i j n v : (i < j)%nat → slice (m.[i <- v]) j n = slice m j n.
Proof. intros H. unfold slice. by rewrite drop_insert_lt. Qed.

Lemma slice_insert_ge m i j n v : (j + n <= i)%nat → slice (m.[i <- v]) j n = slice m j n.
Proof. intros H. unfold slice. rewrite drop_insert_ge by lia. rewrite take_insert_ge by lia. done. Qed.

Lemma length_local_array E n : length (local_array E n) = n.
Proof. unfold local_array. rewrite length_take, length_app, length_zeros. lia. Qed.

(** ** Loops *)

Lemma loop_0 {S} lo (f : nat → S → S) s : loop lo 0 f s = s.
Proof. done. Qed.

Lemma loop_S {S} lo n (f : nat → S → S) s :
  loop lo (Datatypes.S n) f s = loop (Datatypes.S lo) n f (f lo s).
Proof. done. Qed.

Lemma loop_snoc {S} lo n (f : nat → S → S) s :
  loop lo (Datatypes.S n) f s = f (lo + n)%nat (loop lo n f s).
Proof. unfold loop. by rewrite seq_S, foldl_app. Qed.

Lemma loop_add {S} lo n k (f : nat → S → S) s :
  loop lo (n + k) f s = loop (lo + n) k f (loop lo n f s).
Proof. unfold loop. by rewrite seq_app, foldl_app. Qed.

Lemma loop_inv {S} (P : nat → S → Prop) lo n (f : nat → S → S) s :
  P lo s →
  (∀ i s, (lo <= i < lo + n)%nat → P i s → P (Datatypes.S i) (f i s)) →
  P (lo + n)%nat (loop lo n f s).
Proof.
  revert lo s. induction n as [|n IH]; intros lo s H0 Hf.
  - by rewrite Nat.add_0_r.
  - rewrite loop_S, <- Nat.add_succ_comm. apply IH; [apply Hf; [lia|done]|].
    intros i s' Hi. apply Hf. lia.
Qed.

Lemma loop_ext {S} lo n (f g : nat → S → S) s :
  (∀ i s, (lo <= i < lo + n)%nat → f i s = g i s) → loop lo n f s = loop lo n g s.
Proof.
  revert lo s. induction n as [|n IH]; intros lo s H; [done|].
  rewrite !loop_S, H by lia. apply IH. intros i s' Hi. apply H. lia.
Qed.

(** Running one step of the option monad, without computing anything else. *)
(** Decide the comparisons of constants. *)
Ltac decide_constants :=
  repeat match goal with
  | |- context [?a =? ?b] =>
      let r := eval vm_compute in (a =? b) in
      lazymatch r with true => change (a =? b) with true | false => change (a =? b) with false end
  end; cbn [orb andb negb].

Lemma Some_bind {A B} (x : A) (f : A → option B) : Some x ≫= f = f x.
Proof. reflexivity. Qed.

Lemma loop_opt_S {S} lo n (f : nat → S → option S) s :
  loop_opt lo (Datatypes.S n) f s = (s' ← f lo s; loop_opt (Datatypes.S lo) n f s').
Proof. done. Qed.

Lemma loop_opt_snoc {S} lo n (f : nat → S → option S) s :
  loop_opt lo (Datatypes.S n) f s = (s' ← loop_opt lo n f s; f (lo + n)%nat s').
Proof.
  revert lo s. induction n as [|n IH]; intros lo s.
  - cbn. rewrite Nat.add_0_r. by destruct (f lo s).
  - rewrite loop_opt_S, (loop_opt_S lo n). destruct (f lo s) as [s'|]; [|done]. cbn [mbind option_bind].
    by rewrite IH, Nat.add_succ_comm.
Qed.

(** The states of a loop that never leaves its memory. *)
(** A counted loop whose body succeeds and keeps a property. *)
Lemma loop_opt_inv {S} (P : S → Prop) lo n (f : nat → S → option S) s :
  P s → (∀ i s, (lo <= i < lo + n)%nat → P s → ∃ s', f i s = Some s' ∧ P s') →
  ∃ s', loop_opt lo n f s = Some s' ∧ P s'.
Proof.
  revert lo s. induction n as [|n IH]; intros lo s Hs Hf; [by exists s|]. cbn [loop_opt].
  destruct (Hf lo s ltac:(lia) Hs) as (s1 & -> & Hs1). rewrite Some_bind. apply IH; [done|].
  intros i s' Hi. apply Hf. lia.
Qed.

Lemma loop_opt_inv_at {S} (P : nat → S → Prop) lo n (f : nat → S → option S) s :
  P lo s → (∀ i s, (lo <= i < lo + n)%nat → P i s → ∃ s', f i s = Some s' ∧ P (Datatypes.S i) s') →
  ∃ s', loop_opt lo n f s = Some s' ∧ P (lo + n)%nat s'.
Proof.
  revert lo s. induction n as [|n IH]; intros lo s Hs Hf; [rewrite Nat.add_0_r; by exists s|]. rewrite loop_opt_S.
  destruct (Hf lo s ltac:(lia) Hs) as (s1 & -> & Hs1). rewrite Some_bind, <- Nat.add_succ_comm. apply IH; [done|].
  intros i s' Hi. apply Hf. lia.
Qed.

Lemma loop_opt_states {S} (I : nat → S) lo n (f : nat → S → option S) :
  (∀ i, (lo <= i < lo + n)%nat → f i (I i) = Some (I (Datatypes.S i))) →
  loop_opt lo n f (I lo) = Some (I (lo + n)%nat).
Proof.
  revert lo. induction n as [|n IH]; intros lo H; [by rewrite Nat.add_0_r|].
  rewrite loop_opt_S, H by lia. cbn [mbind option_bind].
  rewrite IH by (intros; apply H; lia). by rewrite Nat.add_succ_comm.
Qed.

(** A terminating [while]: a measure that decreases on every iteration
    bounds the fuel. *)
Lemma while_inv {S} (P : S → Prop) (m : S → nat) fuel c (body : S → S) s :
  P s → (m s < fuel)%nat →
  (∀ s, P s → c s = true → P (body s) ∧ (m (body s) < m s)%nat) →
  ∃ s', while fuel c body s = Some s' ∧ P s' ∧ c s' = false.
Proof.
  revert s. induction fuel as [|k IH]; intros s HP Hm Hb; [lia|].
  cbn. destruct (c s) eqn:Hc; [|by eauto].
  destruct (Hb s HP Hc) as [HP' Hm']. apply IH; [done|lia|done].
Qed.

(** ** In-place and overlapping XOR *)

Lemma xor_copy_app m src dst a b :
  xor_copy m src dst (a ++ b) =
    (m ← xor_copy m src dst a;
     xor_copy m (src + Z.of_nat (length a)) (dst + Z.of_nat (length a)) b).
Proof.
  revert m src dst. induction a as [|x a IH]; intros m src dst.
  - cbn. by rewrite !Z.add_0_r.
  - cbn [app xor_copy length]. destruct (load m src 1); [|done]. cbn [mbind option_bind].
    destruct (store m dst _); [|done]. cbn [mbind option_bind]. rewrite IH.
    by replace (src + 1 + Z.of_nat (length a)) with (src + Z.of_nat (S (length a))) by lia;
      replace (dst + 1 + Z.of_nat (length a)) with (dst + Z.of_nat (S (length a))) by lia.
Qed.

Lemma put_nil m d : put m d [] = m.
Proof. done. Qed.

Lemma put_1 m d x : put m d [x] = m.[d <- x].
Proof. done. Qed.

Lemma put_cons m d x l :
  (d < length m)%nat → put (m.[d <- x]) (S d) l = put m d (x :: l).
Proof.
  intros H. revert d H. unfold put. cbn [list_inserts]. intros d H.
  rewrite list_insert_inserts_lt by lia. done.
Qed.

(** Without a byte overwritten before it is read, the loop is the XOR of the
    source with the key stream. *)
Lemma xor_copy_spec ks m (s d : nat) :
  (d <= s ∨ s + length ks <= d)%nat →
  (s + length ks <= length m)%nat → (d + length ks <= length m)%nat →
  xor_copy m (Z.of_nat s) (Z.of_nat d) ks = Some (put m d (xorl (slice m s (length ks)) ks)).
Proof.
  revert m s d. induction ks as [|k ks IH]; intros m s d Hsd Hs Hd; cbn [length] in *.
  - done.
  - cbn [xor_copy]. rewrite load_ok by lia. cbn [mbind option_bind].
    rewrite store_ok by (cbn [length]; lia). cbn [mbind option_bind].
    rewrite Nat2Z.id. replace (Z.of_nat s + 1) with (Z.of_nat (S s)) by lia.
    replace (Z.of_nat d + 1) with (Z.of_nat (S d)) by lia.
    rewrite Nat2Z.id. change (Z.to_nat 1) with 1%nat.
    rewrite IH by (rewrite ?length_put; lia). f_equal.
    rewrite slice_1, put_1 by lia. rewrite (slice_S m s) by lia.
    unfold xorl. cbn [zip_with]. rewrite <- put_cons by lia. do 2 f_equal.
    unfold get at 2. cbn [nth]. destruct Hsd.
    + rewrite slice_insert_lt by lia. done.
    + rewrite slice_insert_ge by lia. done.
Qed.

(** ** Byte order *)

Lemma length_le_bytes n x : length (le_bytes n x) = n.
Proof. revert x. induction n as [|n IH]; intros x; cbn; by rewrite ?IH. Qed.

Lemma length_be_bytes n x : length (be_bytes n x) = n.
Proof. unfold be_bytes. rewrite length_rev. apply length_le_bytes. Qed.

Lemma bytes_le_bytes n x : bytes (le_bytes n x).
Proof. revert x. induction n as [|n IH]; intros x; cbn; constructor; auto with rt. Qed.

Lemma bytes_be_bytes n x : bytes (be_bytes n x).
Proof. apply Forall_rev, bytes_le_bytes. Qed.

#[export] Hint Resolve bytes_le_bytes bytes_be_bytes xorl_bytes bytes_slice bytes_put : rt.
#[export] Hint Rewrite length_le_bytes length_be_bytes length_zeros length_put
  length_local_array @length_app @length_take @length_drop @length_replicate
  @length_rev @length_insert : len.

Lemma testbit_byte_high b i : byte b → 8 <= i → Z.testbit b i = false.
Proof. intros [_ H]%fits_bits Hi; [by apply H|lia]. Qed.

Lemma join_low b w : byte b → (b .| Z.shiftl w 8) & 255 = b.
Proof.
  intros Hb. apply Z.bits_inj'. intros i Hi. change 255 with (Z.ones 8).
  rewrite Z.land_spec, Z.lor_spec, Z.shiftl_spec by done.
  destruct (decide (i < 8)).
  - rewrite Z.ones_spec_low, (Z.testbit_neg_r w) by lia. btauto.
  - rewrite Z.ones_spec_high by lia. rewrite (testbit_byte_high b) by (done || lia). btauto.
Qed.

Lemma join_high b w : byte b → (b .| Z.shiftl w 8) >> 8 = w.
Proof.
  intros Hb. apply Z.bits_inj'. intros i Hi.
  rewrite Z.shiftr_spec, Z.lor_spec, Z.shiftl_spec by lia.
  rewrite (testbit_byte_high b) by (done || lia). cbn. f_equal. lia.
Qed.

Lemma le_bytes_le_word l : bytes l → le_bytes (length l) (le_word l) = l.
Proof.
  induction 1 as [|b l Hb Hl IH]; [done|]. cbn [length le_bytes le_word].
  by rewrite join_low, join_high, IH.
Qed.

Lemma le_word_le_bytes n x : le_word (le_bytes n x) = x mod 2 ^ (8 * Z.of_nat n).
Proof.
  revert x. induction n as [|n IH]; intros x; cbn [le_bytes le_word].
  { change (8 * Z.of_nat 0) with 0. by rewrite Z.mod_1_r. }
  rewrite IH. apply Z.bits_inj'. intros i Hi. change 255 with (Z.ones 8).
  rewrite Z.lor_spec, Z.land_spec, Z.shiftl_spec by done.
  destruct (decide (i < 8)).
  - rewrite Z.ones_spec_low, (Z.testbit_neg_r _ (i - 8)), Z.mod_pow2_bits_low by lia. btauto.
  - rewrite Z.ones_spec_high by lia.
    destruct (decide (i < 8 * Z.of_nat (S n))).
    + rewrite !Z.mod_pow2_bits_low, Z.shiftr_spec by lia.
      replace (i - 8 + 8) with i by lia. btauto.
    + rewrite !Z.mod_pow2_bits_high by lia. btauto.
Qed.

Lemma fits_le_word l : bytes l → fits (8 * Z.of_nat (length l)) (le_word l).
Proof.
  intros H. rewrite <- (le_bytes_le_word l H) at 2. rewrite le_word_le_bytes.
  apply Z.mod_pos_bound. lia.
Qed.

(** The bytes of a number by position. *)
Lemma le_bytes_seq n x : le_bytes n x = map (λ i, x >> (8 * Z.of_nat i) & 255) (seq 0 n).
Proof.
  revert x. induction n as [|n IH]; intros x; [done|].
  cbn [le_bytes seq map]. rewrite <- seq_shift, map_map, IH. f_equal.
  apply map_ext. intros i. rewrite Z.shiftr_shiftr by lia. do 2 f_equal. lia.
Qed.

Lemma shiftr_small x n : 0 <= n → 0 <= x < 2 ^ n → x >> n = 0.
Proof. intros Hn H. rewrite Z.shiftr_div_pow2 by done. by apply Z.div_small. Qed.

(** A number of one byte in a wider field. *)
Lemma be_bytes_small q x : byte x → be_bytes (S q) x = zeros q ++ [x].
Proof.
  intros Hx. unfold be_bytes. cbn [le_bytes]. rewrite (shiftr_small x 8) by (unfold fits in Hx; lia).
  assert (le_bytes q 0 = zeros q) as ->.
  { induction q as [|q IH]; [done|]. cbn [le_bytes]. rewrite Z.shiftr_0_l, IH. done. }
  cbn [rev]. rewrite land_255, Z.mod_small by (unfold fits in Hx; lia). f_equal.
  rewrite rev_alt. apply reverse_replicate.
Qed.

(** ** Blocks next to each other *)

Lemma put_put_adjacent a off bs cs :
  (off + length bs + length cs <= length a)%nat →
  put (put a off bs) (off + length bs) cs = put a off (bs ++ cs).
Proof.
  intros H. rewrite (put_splice a off (bs ++ cs)), (put_splice a off bs) by (autorewrite with len; lia).
  rewrite length_app, Nat.add_assoc.
  assert (drop (off + length bs + length cs) a = drop (length cs) (drop (off + length bs) a)) as ->
    by (rewrite drop_drop; f_equal; lia).
  set (t := drop (off + length bs) a).
  assert (length cs <= length t)%nat as Ht by (unfold t; autorewrite with len; lia).
  rewrite <- (take_drop (length cs) t) at 1. rewrite app_assoc.
  assert (length (take off a ++ bs) = off + length bs)%nat as <- by (autorewrite with len; lia).
  rewrite put_app by (autorewrite with len; lia). by rewrite <- !app_assoc.
Qed.

Lemma slice_put_within a off bs i n :
  (off + length bs <= length a)%nat → (i + n <= length bs)%nat →
  slice (put a off bs) (off + i) n = slice bs i n.
Proof.
  intros H Hi. unfold slice. rewrite put_splice by done.
  rewrite drop_app_ge by (autorewrite with len; lia).
  replace (off + i - length (take off a))%nat with i by (autorewrite with len; lia).
  rewrite drop_app_le, take_app_le by (autorewrite with len; lia). done.
Qed.

Lemma le_bytes_0 n : le_bytes n 0 = zeros n.
Proof. induction n as [|n IH]; [done|]. cbn [le_bytes]. by rewrite Z.shiftr_0_l, IH. Qed.

Lemma le_bytes_app a b x : le_bytes (a + b) x = le_bytes a x ++ le_bytes b (x >> (8 * Z.of_nat a)).
Proof.
  rewrite !le_bytes_seq, seq_app, map_app. f_equal.
  rewrite (Nat.add_comm 0 a), <- (fmap_add_seq a 0 b). unfold fmap, list_fmap. fold (map (Nat.add a)).
  rewrite map_map. apply map_ext.
  intros i. rewrite Z.shiftr_shiftr by lia. do 2 f_equal. lia.
Qed.

(** A number of [b] bytes in a field of [a + b]. *)
Lemma be_bytes_4 x : be_bytes 4 x = [x >> 24 & 255; x >> 16 & 255; x >> 8 & 255; x & 255].
Proof. unfold be_bytes. rewrite le_bytes_seq. reflexivity. Qed.

Lemma be_bytes_wide a b x :
  0 <= x < 2 ^ (8 * Z.of_nat b) → be_bytes (b + a) x = zeros a ++ be_bytes b x.
Proof.
  intros Hx. unfold be_bytes. rewrite le_bytes_app, (shiftr_small x) by lia.
  rewrite rev_app_distr, le_bytes_0. f_equal. rewrite rev_alt. apply reverse_replicate.
Qed.

Lemma xorl_take_r a b n : (length a <= n)%nat → xorl a (take n b) = xorl a b.
Proof.
  revert b n. induction a as [|x a IH]; intros b n H; [done|]. cbn [length] in H.
  destruct n as [|n]; [lia|]. destruct b as [|y b]; [done|]. unfold xorl in *. cbn.
  f_equal. apply IH. lia.
Qed.

Lemma length_xorl_le a b : (length a <= length b)%nat → length (xorl a b) = length a.
Proof. intros H. unfold xorl. rewrite length_zip_with. lia. Qed.

Lemma take_put a off bs k :
  (off + length bs <= length a)%nat → (k <= off)%nat → take k (put a off bs) = take k a.
Proof.
  intros H Hk. rewrite put_splice by done.
  rewrite take_app_le, take_take by (autorewrite with len; lia). f_equal. lia.
Qed.

Lemma drop_put a off bs k :
  (off + length bs <= k)%nat → (off + length bs <= length a)%nat → drop k (put a off bs) = drop k a.
Proof.
  intros Hk H. rewrite put_splice, app_assoc by done.
  rewrite drop_app_ge by (autorewrite with len; lia). rewrite drop_drop. f_equal.
  autorewrite with len. lia.
Qed.

Lemma slice_app_l a b off n : (off + n <= length a)%nat → slice (a ++ b) off n = slice a off n.
Proof. intros H. unfold slice. rewrite drop_app_le, take_app_le by (rewrite ?length_drop; lia). done. Qed.

Lemma slice_app_r a b off n : slice (a ++ b) (length a + off) n = slice b off n.
Proof. unfold slice. by rewrite <- drop_drop, drop_app_length. Qed.

Lemma load_app_r a b k n :
  0 <= n → (k + Z.to_nat n <= length b)%nat →
  load (a ++ b) (Z.of_nat (length a + k)) n = Some (slice b k (Z.to_nat n)).
Proof. intros Hn H. by rewrite load_ok, !Nat2Z.id, slice_app_r by (rewrite ?length_app; lia). Qed.

Lemma get_slice l i n k : (i + n <= length l)%nat → (k < n)%nat → (slice l i n).[k] = l.[i + k].
Proof. intros Hl Hk. rewrite slice_map_seq by done. by rewrite get_map_seq. Qed.

Lemma slice_all l n : length l = n → slice l 0 n = l.
Proof. intros <-. unfold slice. rewrite drop_0. by apply take_ge. Qed.

(** ** Numbers and their bytes *)

Lemma lor_shift_add b w : byte b → b .| Z.shiftl w 8 = b + 256 * w.
Proof.
  intros Hb. replace (256 * w) with (Z.shiftl w 8) by (rewrite Z.shiftl_mul_pow2; lia).
  assert (b & Z.shiftl w 8 = 0) as H0.
  { apply Z.bits_inj'. intros i Hi. rewrite Z.land_spec, Z.shiftl_spec, Z.bits_0 by done.
    destruct (decide (i < 8)); [rewrite (Z.testbit_neg_r w) by lia
      |rewrite (testbit_byte_high b) by (done || lia)]; btauto. }
  rewrite Z.add_nocarry_lxor by done. symmetry. by apply Z.lxor_lor.
Qed.

Lemma le_word_app a b :
  bytes a → le_word (a ++ b) = le_word a + 2 ^ (8 * Z.of_nat (length a)) * le_word b.
Proof.
  induction 1 as [|x a Hx Ha IH]; [cbn [app le_word length]; lia|].
  cbn [app le_word length]. rewrite !lor_shift_add, IH by done.
  replace (8 * Z.of_nat (S (length a))) with (8 + 8 * Z.of_nat (length a)) by lia.
  rewrite Z.pow_add_r by lia. lia.
Qed.

Lemma be_word_cons b l :
  bytes l → byte b → be_word (b :: l) = b * 2 ^ (8 * Z.of_nat (length l)) + be_word l.
Proof.
  intros Hl Hb. unfold be_word. cbn [rev]. rewrite le_word_app by (by apply Forall_rev).
  rewrite length_rev. cbn [le_word]. rewrite lor_shift_add by done. lia.
Qed.

Lemma fits_be_word l : bytes l → fits (8 * Z.of_nat (length l)) (be_word l).
Proof. intros H. unfold be_word. rewrite <- length_rev. apply fits_le_word. by apply Forall_rev. Qed.

Lemma be_bytes_be_word l : bytes l → be_bytes (length l) (be_word l) = l.
Proof.
  intros H. unfold be_bytes, be_word. rewrite <- length_rev, le_bytes_le_word by (by apply Forall_rev).
  apply rev_involutive.
Qed.

Lemma be_word_be_bytes n x : be_word (be_bytes n x) = x mod 2 ^ (8 * Z.of_nat n).
Proof. unfold be_word, be_bytes. rewrite rev_involutive. apply le_word_le_bytes. Qed.

Lemma le_bytes_lxor n x y : le_bytes n (x ^^ y) = xorl (le_bytes n x) (le_bytes n y).
Proof.
  revert x y. induction n as [|n IH]; intros x y; [done|]. cbn [le_bytes]. unfold xorl. cbn [zip_with].
  f_equal.
  - apply Z.bits_inj'. intros i Hi. rewrite !Z.land_spec, !Z.lxor_spec, !Z.land_spec. btauto.
  - rewrite Z.shiftr_lxor. apply IH.
Qed.

Lemma xorl_rev a b : length a = length b → xorl (rev a) (rev b) = rev (xorl a b).
Proof.
  revert b. induction a as [|x a IH]; intros [|y b] H; try done. cbn [length] in H.
  unfold xorl in *. cbn [rev zip_with]. rewrite zip_with_app by (rewrite !length_rev; lia).
  rewrite IH by lia. done.
Qed.

Lemma be_bytes_lxor n x y : be_bytes n (x ^^ y) = xorl (be_bytes n x) (be_bytes n y).
Proof. unfold be_bytes. rewrite le_bytes_lxor, xorl_rev by (by rewrite !length_le_bytes). done. Qed.

Lemma xorl_assoc a b c : xorl a (xorl b c) = xorl (xorl a b) c.
Proof.
  revert b c. induction a as [|x a IH]; intros [|y b] [|z c]; try done. unfold xorl in *. cbn [zip_with].
  f_equal; [by rewrite Z.lxor_assoc|apply IH].
Qed.

Lemma xorl_zeros_r l : xorl l (zeros (length l)) = l.
Proof.
  induction l as [|x l IH]; [done|]. unfold xorl, zeros in *. cbn [length replicate zip_with].
  by rewrite IH, Z.lxor_0_r.
Qed.

(** ** Reduction and loops backwards *)

Lemma u8_land x : u8 x = x & 255.
Proof. symmetry. apply land_255. Qed.

Lemma u8_lxor x t : byte x → u8 (x ^^ t) = x ^^ u8 t.
Proof.
  intros Hx. rewrite !u8_land. rewrite <- (u8_small x) at 2 by done. rewrite u8_land.
  apply Z.bits_inj'. intros i Hi. rewrite !Z.land_spec, !Z.lxor_spec, !Z.land_spec. btauto.
Qed.

Lemma loop_down_0 {S} lo (f : nat → S → S) s : loop_down lo 0 f s = s.
Proof. done. Qed.

Lemma loop_down_S {S} lo n (f : nat → S → S) s :
  loop_down lo (Datatypes.S n) f s = loop_down lo n f (f (lo + n)%nat s).
Proof. unfold loop_down. by rewrite seq_S, rev_app_distr. Qed.

Lemma loop_down_ext {S} lo n (f g : nat → S → S) s :
  (∀ i s, (lo <= i < lo + n)%nat → f i s = g i s) → loop_down lo n f s = loop_down lo n g s.
Proof.
  revert s. induction n as [|n IH]; intros s H; [done|].
  rewrite !loop_down_S, H by lia. apply IH. intros i s' Hi. apply H. lia.
Qed.

(** Undoing a loop step by step from its end. *)
Lemma loop_down_loop {S} (P : S → Prop) lo n (f g : nat → S → S) s :
  P s → (∀ i s, (lo <= i < lo + n)%nat → P s → P (f i s) ∧ g i (f i s) = s) →
  loop_down lo n g (loop lo n f s) = s.
Proof.
  intros Hs Hfg. assert (∀ k, (k <= n)%nat → P (loop lo k f s) ∧ loop_down lo k g (loop lo k f s) = s) as H.
  { intros k. induction k as [|k IH]; intros Hk; [done|]. destruct IH as [HP HE]; [lia|].
    rewrite loop_snoc, loop_down_S. destruct (Hfg (lo + k)%nat _ ltac:(lia) HP) as [HP' ->]. done. }
  by apply H.
Qed.

(** Two loops whose states stay related. *)
Lemma loop_sim {S T} (R : S → T → Prop) lo n (f : nat → S → S) (g : nat → T → T) s t :
  R s t → (∀ i s t, (lo <= i < lo + n)%nat → R s t → R (f i s) (g i t)) →
  R (loop lo n f s) (loop lo n g t).
Proof.
  revert lo s t. induction n as [|n IH]; intros lo s t H0 H; [done|].
  rewrite !loop_S. apply IH; [apply H; [lia|done]|]. intros i s' t' Hi. apply H. lia.
Qed.

Lemma loop_down_sim {S T} (R : S → T → Prop) lo n (f : nat → S → S) (g : nat → T → T) s t :
  R s t → (∀ i s t, (lo <= i < lo + n)%nat → R s t → R (f i s) (g i t)) →
  R (loop_down lo n f s) (loop_down lo n g t).
Proof.
  revert s t. induction n as [|n IH]; intros s t H0 H; [done|].
  rewrite !loop_down_S. apply IH; [apply H; [lia|done]|]. intros i s' t' Hi. apply H. lia.
Qed.

(** ** Properties of all bytes *)

(** All bytes, and checking a property of all of them by evaluation. *)
Definition all_bytes : list Z := map Z.of_nat (seq 0 256).

Lemma all_bytes_spec (P : Z → bool) : forallb P all_bytes = true → ∀ x, byte x → P x = true.
Proof.
  intros H x Hx. rewrite forallb_forall in H. apply H. unfold all_bytes. apply in_map_iff.
  exists (Z.to_nat x). unfold fits in Hx. split; [lia|]. apply in_seq. lia.
Qed.

Ltac by_all_bytes x Hx :=
  apply Z.eqb_eq; revert x Hx; apply all_bytes_spec; vm_compute; reflexivity.

Lemma bytes_forallb l : forallb (λ x, (0 <=? x) && (x <? 256)) l = true → bytes l.
Proof.
  intros H. rewrite forallb_forall in H. apply Forall_forall. intros x Hx.
  apply list_elem_of_In, H in Hx. unfold fits. lia.
Qed.

Ltac bytes_table := apply bytes_forallb; vm_compute; reflexivity.
