(* ===== verification/Arc4.v ===== *)
(** * The ARC4 stream cipher of the rt5370 driver

    Models [linux/Arch/rt5370.driver/common/crypt_arc4.c].  The cipher
    context keeps the two block indices and the 256-byte key block.
    [ARC4_Compute] reads [InputBlock] and writes [OutputBlock] byte by byte
    and its callers pass overlapping buffers, so both are pointers into one
    memory. *)

From stdpp Require Import base list numbers list_numbers.
From Stdlib Require Import ZArith Lia.
From S2P Require Import Prelude.

Definition ARC4_KEY_BLOCK_SIZE : nat := 256.

Record ARC4_CTX_STRUC := ARC4_CTX {
  BlockIndex1 : Z;
  BlockIndex2 : Z;
  KeyBlock : list Z;
}.

(** One iteration of the key schedule; the state is the key block and
    [SWAPIndex]. *)
Definition ARC4_INIT_step (pKey : list Z) (KeyLength : Z) (BlockIndex : nat)
    (s : list Z * Z) : list Z * Z :=
  let '(KB, SWAPIndex) := s in
  let TempValue := KB.[BlockIndex] in
  let KeyIndex := Z.of_nat BlockIndex mod KeyLength in
  let SWAPIndex := (SWAPIndex + TempValue + pKey.[Z.to_nat KeyIndex]) & 255 in
  let KB := KB.[BlockIndex <- KB.[Z.to_nat SWAPIndex]] in
  let KB := KB.[Z.to_nat SWAPIndex <- TempValue] in
  (KB, SWAPIndex).

Definition ARC4_INIT (pKey : list Z) (KeyLength : Z) : ARC4_CTX_STRUC :=
  let KB := loop 0 ARC4_KEY_BLOCK_SIZE (λ i KB, KB.[i <- u8 (Z.of_nat i)]) (zeros 256) in
  let '(KB, _) := loop 0 ARC4_KEY_BLOCK_SIZE (ARC4_INIT_step pKey KeyLength) (KB, 0) in
  ARC4_CTX 0 0 KB.

(** The state update shared by [ARC4_Compute] and [ARC4_Discard_KeyLength];
    it returns [TempValue], the value moved to the second index. *)
Definition ARC4_update (c : ARC4_CTX_STRUC) : ARC4_CTX_STRUC * Z :=
  let i1 := (BlockIndex1 c + 1) & 255 in
  let TempValue := (KeyBlock c).[Z.to_nat i1] in
  let i2 := (BlockIndex2 c + TempValue) & 255 in
  let KB := (KeyBlock c).[Z.to_nat i1 <- (KeyBlock c).[Z.to_nat i2]] in
  let KB := KB.[Z.to_nat i2 <- TempValue] in
  (ARC4_CTX i1 i2 KB, TempValue).

(** One output byte of the key stream. *)
Definition ARC4_byte (c : ARC4_CTX_STRUC) : ARC4_CTX_STRUC * Z :=
  let '(c', TempValue) := ARC4_update c in
  let TempValue := (TempValue + (KeyBlock c').[Z.to_nat (BlockIndex1 c')]) & 255 in
  (c', (KeyBlock c').[Z.to_nat TempValue]).

Arguments ARC4_update : simpl never.
Arguments ARC4_byte : simpl never.

(** [ARC4_Compute(ctx, m + src, n, m + dst)]; [None] when it leaves [m]. *)
Fixpoint ARC4_Compute (c : ARC4_CTX_STRUC) (m : list Z) (src : Z) (n : nat) (dst : Z)
    : option (ARC4_CTX_STRUC * list Z) :=
  match n with
  | O => Some (c, m)
  | S k =>
      let '(c', ks) := ARC4_byte c in
      b ← load m src 1;
      m' ← store m dst [b.[0] ^^ ks];
      ARC4_Compute c' m' (src + 1) k (dst + 1)
  end.

Definition ARC4_Discard_KeyLength (c : ARC4_CTX_STRUC) (Length : nat) : ARC4_CTX_STRUC :=
  loop 0 Length (λ _ c, (ARC4_update c).1) c.

Arguments ARC4_Discard_KeyLength : simpl never.

(** ** Key stream *)

Fixpoint keystream (c : ARC4_CTX_STRUC) (n : nat) : list Z :=
  match n with
  | O => []
  | S k => let '(c', ks) := ARC4_byte c in ks :: keystream c' k
  end.

Example ARC4_INIT_vector :
  keystream (ARC4_INIT [1;2;3;4;5] 5) 4 = [0xb2;0x39;0x63;0x05].
Proof. vm_compute. reflexivity. Qed.

(** ** Well-formed contexts *)

(** Both indices are bytes and the key block is a permutation of 0..255. *)
Definition arc4_wf (c : ARC4_CTX_STRUC) : Prop :=
  byte (BlockIndex1 c) ∧ byte (BlockIndex2 c) ∧ KeyBlock c ≡ₚ seqZ 0 256.

Lemma perm256_bytes l : l ≡ₚ seqZ 0 256 → bytes l ∧ length l = 256%nat.
Proof.
  intros H. split.
  - rewrite H. apply Forall_forall. intros x Hx%elem_of_seqZ. unfold fits. lia.
  - by rewrite H, length_seqZ.
Qed.

Lemma byte_index (l : list Z) x : length l = 256%nat → byte x → (Z.to_nat x < length l)%nat.
Proof. unfold fits. lia. Qed.

Lemma swap_perm256 l i j :
  l ≡ₚ seqZ 0 256 → byte i → byte j →
  (l.[Z.to_nat i <- l.[Z.to_nat j]]).[Z.to_nat j <- l.[Z.to_nat i]] ≡ₚ seqZ 0 256.
Proof.
  intros Hl Hi Hj. destruct (perm256_bytes _ Hl) as [_ Hlen].
  rewrite swap_Permutation; [done|by apply byte_index..].
Qed.

Lemma ARC4_update_wf c : arc4_wf c → arc4_wf (ARC4_update c).1.
Proof.
  intros (H1 & H2 & H3). unfold ARC4_update. split_and!; cbn; [auto with rt..|].
  apply swap_perm256; auto with rt.
Qed.

Lemma ARC4_byte_ctx c : (ARC4_byte c).1 = (ARC4_update c).1.
Proof. done. Qed.

Lemma ARC4_byte_wf c : arc4_wf c → arc4_wf (ARC4_byte c).1 ∧ byte (ARC4_byte c).2.
Proof.
  intros H%ARC4_update_wf. rewrite ARC4_byte_ctx. split; [done|].
  destruct H as (_ & _ & H). unfold ARC4_byte.
  destruct (ARC4_update c) as [c' t]. apply bytes_get, perm256_bytes, H.
Qed.

Lemma key_block_identity :
  loop 0 ARC4_KEY_BLOCK_SIZE (λ i KB, KB.[i <- u8 (Z.of_nat i)]) (zeros 256) = seqZ 0 256.
Proof. vm_compute. reflexivity. Qed.

Lemma ARC4_INIT_step_perm pKey KeyLength i s :
  (i < 256)%nat → s.1 ≡ₚ seqZ 0 256 → (ARC4_INIT_step pKey KeyLength i s).1 ≡ₚ seqZ 0 256.
Proof.
  intros Hi H. destruct s as [KB SW]. unfold ARC4_INIT_step. cbn [fst] in *.
  generalize (fits_land_255 (SW + KB.[i] + pKey.[Z.to_nat (Z.of_nat i mod KeyLength)])).
  generalize ((SW + KB.[i] + pKey.[Z.to_nat (Z.of_nat i mod KeyLength)]) & 255). intros j Hj.
  rewrite <- (Nat2Z.id i). apply swap_perm256; [done| |done]. unfold fits. lia.
Qed.

Lemma ARC4_INIT_wf pKey KeyLength : arc4_wf (ARC4_INIT pKey KeyLength).
Proof.
  unfold ARC4_INIT. rewrite key_block_identity.
  pose proof (loop_inv (λ _ s, s.1 ≡ₚ seqZ 0 256) 0 256
    (ARC4_INIT_step pKey KeyLength) (seqZ 0 256, 0)) as H.
  change ARC4_KEY_BLOCK_SIZE with 256%nat.
  destruct (loop _ _ _ _) as [KB SW]. cbn [fst] in H.
  split_and!; cbn [BlockIndex1 BlockIndex2 KeyBlock]; [unfold fits; lia..|].
  apply H; [done|]. intros i s Hi. apply ARC4_INIT_step_perm. lia.
Qed.

Lemma ARC4_Discard_wf c n : arc4_wf c → arc4_wf (ARC4_Discard_KeyLength c n).
Proof.
  intros H. apply (loop_inv (λ _ c, arc4_wf c)); [done|].
  intros i c' _. apply ARC4_update_wf.
Qed.

Lemma length_keystream c n : length (keystream c n) = n.
Proof. revert c. induction n as [|n IH]; intros c; [done|]. cbn. destruct (ARC4_byte c). cbn. by rewrite IH. Qed.

Lemma keystream_bytes c n : arc4_wf c → bytes (keystream c n).
Proof.
  revert c. induction n as [|n IH]; intros c H; cbn; [constructor|].
  apply ARC4_byte_wf in H as [H Hb]. revert H Hb. destruct (ARC4_byte c) as [c' ks].
  intros H Hb. constructor; [done|by apply IH].
Qed.

Lemma Discard_S c n : ARC4_Discard_KeyLength c (S n) = ARC4_Discard_KeyLength (ARC4_update c).1 n.
Proof.
  unfold ARC4_Discard_KeyLength, loop. cbn. rewrite <- seq_shift, foldl_fmap. done.
Qed.

Lemma keystream_app c n k :
  keystream c (n + k) = keystream c n ++ keystream (ARC4_Discard_KeyLength c n) k.
Proof.
  revert c. induction n as [|n IH]; intros c; [done|].
  rewrite Discard_S, <- ARC4_byte_ctx. cbn [keystream Nat.add].
  destruct (ARC4_byte c) as [c' ks]. cbn. by rewrite IH.
Qed.

(** ** The memory effect of [ARC4_Compute] *)

Lemma ARC4_Compute_spec n c m src dst :
  (dst <= src ∨ src + n <= dst)%nat →
  (src + n <= length m)%nat → (dst + n <= length m)%nat →
  ARC4_Compute c m (Z.of_nat src) n (Z.of_nat dst) =
    Some (ARC4_Discard_KeyLength c n, put m dst (xorl (slice m src n) (keystream c n))).
Proof.
  revert c m src dst. induction n as [|n IH]; intros c m src dst Hov Hsl Hdl; [done|].
  rewrite Discard_S. cbn [ARC4_Compute keystream]. rewrite <- ARC4_byte_ctx.
  destruct (ARC4_byte c) as [c' ks]. cbn [fst].
  rewrite load_ok, !Nat2Z.id, slice_1 by lia. cbn [mbind option_bind].
  rewrite store_ok, !Nat2Z.id by (cbn; lia). cbn [mbind option_bind put list_inserts].
  replace (Z.of_nat src + 1) with (Z.of_nat (S src)) by lia.
  replace (Z.of_nat dst + 1) with (Z.of_nat (S dst)) by lia.
  change (put m dst ?x) with (list_inserts dst x m). cbn [list_inserts].
  rewrite IH by (rewrite ?length_insert; lia).
  assert (slice (m.[dst <- [m.[src]].[0] ^^ ks]) (S src) n = slice m (S src) n) as ->.
  { destruct Hov; [apply slice_insert_lt|apply slice_insert_ge]; lia. }
  do 2 f_equal. rewrite (slice_S m src) by lia. unfold put, xorl; cbn.
  symmetry. apply list_insert_inserts_lt. lia.
Qed.

Lemma ARC4_Compute_ctx n c m src dst c' m' :
  ARC4_Compute c m src n dst = Some (c', m') → c' = ARC4_Discard_KeyLength c n.
Proof.
  revert c m src dst. induction n as [|n IH]; intros c m src dst; cbn; [by intros [= -> ->]|].
  rewrite Discard_S, <- ARC4_byte_ctx. destruct (ARC4_byte c) as [c1 ks].
  destruct (load m src 1); cbn; [|done]. destruct (store _ _ _); cbn; [|done]. apply IH.
Qed.

(** ** Properties *)

(** The key schedule establishes, and encrypting or discarding any
    number of bytes preserves, the invariant that both indices are bytes
    and the key block is a permutation of 0..255 (so no table access of the
    cipher leaves the key block). *)
Lemma arc4_permutation_invariant :
  (∀ pKey KeyLength, arc4_wf (ARC4_INIT pKey KeyLength)) ∧
  (∀ c n, arc4_wf c → arc4_wf (ARC4_Discard_KeyLength c n)) ∧
  (∀ c m src n dst c' m', arc4_wf c →
     ARC4_Compute c m src n dst = Some (c', m') → arc4_wf c').
Proof.
  split_and!; [apply ARC4_INIT_wf|apply ARC4_Discard_wf|].
  intros c m src n dst c' m' H ->%ARC4_Compute_ctx. by apply ARC4_Discard_wf.
Qed.

(** encrypting [n] bytes in place and decrypting them from the same
    initial context succeeds without leaving the buffer and restores every
    byte of the memory. *)
Theorem arc4_roundtrip c m p n :
  (p + n <= length m)%nat →
  ∃ c' m1, ARC4_Compute c m (Z.of_nat p) n (Z.of_nat p) = Some (c', m1) ∧
           ARC4_Compute c m1 (Z.of_nat p) n (Z.of_nat p) = Some (c', m).
Proof.
  intros H. rewrite ARC4_Compute_spec by lia. do 2 eexists. split; [done|].
  set (ks := xorl (slice m p n) (keystream c n)).
  assert (length ks = n) as Hks.
  { unfold ks. rewrite length_xorl; rewrite length_slice, ?length_keystream; lia. }
  rewrite ARC4_Compute_spec by (rewrite ?length_put; lia).
  assert (slice (put m p ks) p n = ks) as ->.
  { rewrite <- Hks at 1. apply slice_put_eq. lia. }
  do 2 f_equal. unfold ks. rewrite xorl_cancel_r by (rewrite length_slice, length_keystream; lia).
  fold ks. by rewrite put_put, put_slice_id by (rewrite ?length_slice; lia).
Qed.

Lemma arc4_roundtrip_witness :
  (1 + 3 <= length [9; 1; 2; 3])%nat ∧
  ∃ c' m1, ARC4_Compute (ARC4_INIT [1;2;3;4;5] 5) [9; 1; 2; 3] 1 3 1 = Some (c', m1) ∧
           ARC4_Compute (ARC4_INIT [1;2;3;4;5] 5) m1 1 3 1 = Some (c', [9; 1; 2; 3]).
Proof.
  split; [cbn; lia|]. apply (arc4_roundtrip (ARC4_INIT [1;2;3;4;5] 5) [9; 1; 2; 3] 1 3).
  cbn. lia.
Defined.

(** The cipher is a stream: processing [n + k] bytes in one call is the
    same, on every memory and for any overlap of the two buffers, as
    processing [n] bytes and then the [k] bytes that follow with the updated
    context. *)
Lemma arc4_compute_split n k c m src dst :
  ARC4_Compute c m src (n + k) dst =
  ('(c1, m1) ← ARC4_Compute c m src n dst;
   ARC4_Compute c1 m1 (src + Z.of_nat n) k (dst + Z.of_nat n)).
Proof.
  revert c m src dst. induction n as [|n IH]; intros c m src dst.
  - cbn. by rewrite !Z.add_0_r.
  - cbn [ARC4_Compute Nat.add]. destruct (ARC4_byte c) as [c1 ks].
    destruct (load m src 1); [|done]. cbn [mbind option_bind].
    destruct (store _ _ _); [|done]. cbn [mbind option_bind]. rewrite IH.
    replace (src + 1 + Z.of_nat n) with (src + Z.of_nat (S n)) by lia.
    by replace (dst + 1 + Z.of_nat n) with (dst + Z.of_nat (S n)) by lia.
Qed.
