(* ===== verification/BlockHash.v ===== *)
(** * Block-buffered hash functions

    [RT_MD5_*], [RT_SHA1_*] and [RT_SHA256_*] of the rt5370 driver share one
    structure: a context with the chaining value, a 64-byte block and the
    number of bytes in it; [Append] fills the block and hashes it when it is
    full, [End] pads.  The three copies differ in the block function, the
    default hash value and the byte order of lengths and digests, which are
    the arguments of the definitions here; Md5.v and Sha.v instantiate them.

    The second half is the contract: whatever the chunking of the calls, the
    digest is the iterated block function over the padded message
    ([stream_hash]).  Hmac.v is proved against that interface only. *)

From stdpp Require Import base list numbers list_numbers.
From Stdlib Require Import ZArith Lia.
From S2P Require Import Prelude.

(** [MD5_CTX_STRUC], [SHA1_CTX_STRUC] and [SHA256_CTX_STRUC]. *)
Record HASH_CTX_STRUC := HASH_CTX {
  HashValue : list Z;
  MessageLen : Z;
  Block : list Z;
  BlockLen : Z;
}.

Definition HASH_BLOCK_SIZE : Z := 64.

(** [cpu2be32], [cpu2be64], [cpu2le32] and [cpu2le64] on a little-endian
    machine, and the words of an array of bytes. *)
Definition cpu2be32 (x : Z) : Z := le_word (be_bytes 4 x).
Definition cpu2be64 (x : Z) : Z := le_word (be_bytes 8 x).
Definition cpu2le32 (x : Z) : Z := x.
Definition cpu2le64 (x : Z) : Z := x.

Definition load_words (n : nat) (b : list Z) : list Z :=
  map (λ i, le_word (slice b (4 * i) 4)) (seq 0 n).

Definition store_words (w : list Z) : list Z := flat_map (le_bytes 4) w.

Section Operations.
Context (Hash : HASH_CTX_STRUC → HASH_CTX_STRUC).
Context (DefaultHashValue : list Z).
Context (swap32 swap64 : Z → Z).

Definition Init : HASH_CTX_STRUC :=
  HASH_CTX DefaultHashValue 0 (zeros 64) 0.

(** The body of the [while] of [Append]; the state is the context and
    [appendLen]. *)
Definition Append_body (Message : list Z) (MsgLen : Z) (s : HASH_CTX_STRUC * Z)
    : HASH_CTX_STRUC * Z :=
  let '(c, appendLen) := s in
  let diffLen := u32 (MsgLen - appendLen) in
  if u32 (BlockLen c + diffLen) <? HASH_BLOCK_SIZE then
    (HASH_CTX (HashValue c) (MessageLen c)
       (put (Block c) (Z.to_nat (BlockLen c))
          (slice Message (Z.to_nat appendLen) (Z.to_nat diffLen)))
       (u32 (BlockLen c + diffLen)),
     u32 (appendLen + diffLen))
  else
    (Hash (HASH_CTX (HashValue c) (MessageLen c)
       (put (Block c) (Z.to_nat (BlockLen c))
          (slice Message (Z.to_nat appendLen) (Z.to_nat (HASH_BLOCK_SIZE - BlockLen c))))
       HASH_BLOCK_SIZE),
     u32 (appendLen + (HASH_BLOCK_SIZE - BlockLen c))).

Definition Append (c : HASH_CTX_STRUC) (Message : list Z) (MsgLen : Z)
    : option HASH_CTX_STRUC :=
  '(c, _) ← while (S (Z.to_nat MsgLen)) (λ s, negb (s.2 =? MsgLen))
              (Append_body Message MsgLen) (c, 0);
  Some (HASH_CTX (HashValue c) (u64 (MessageLen c + MsgLen)) (Block c) (BlockLen c)).

(** [End] with a digest of [n] words. *)
Definition End (n : nat) (c : HASH_CTX_STRUC) : list Z :=
  let c := HASH_CTX (HashValue c) (MessageLen c)
             (put (Block c) (Z.to_nat (BlockLen c)) [128]) (BlockLen c) in
  let c := if 55 <? BlockLen c then Hash c else c in
  let message_length_bits := swap64 (u64 (MessageLen c * 8)) in
  let c := HASH_CTX (HashValue c) (MessageLen c)
             (put (Block c) 56 (le_bytes 8 message_length_bits)) (BlockLen c) in
  let c := Hash c in
  store_words (map swap32 (take n (HashValue c))).

Definition Digest (n : nat) (Message : list Z) (MsgLen : Z) : option (list Z) :=
  c ← Append Init Message MsgLen;
  Some (End n c).
End Operations.

(** ** The mathematical hash *)

(** The block function applied to the first [n] blocks of [l]. *)
Fixpoint md_fold (f : list Z → list Z → list Z) (n : nat) (h l : list Z) : list Z :=
  match n with
  | O => h
  | S k => md_fold f k (f h (take 64 l)) (drop 64 l)
  end.

(** A one bit, zeros, and the length in bits as 8 bytes, to a multiple of
    64 bytes. *)
Definition md_pad (enc64 : Z → list Z) (msg : list Z) : list Z :=
  let n := Z.of_nat (length msg) in
  msg ++ 128 :: zeros (Z.to_nat ((55 - n) mod 64)) ++ enc64 (u64 (8 * n)).

Definition md_hash (f : list Z → list Z → list Z) (iv : list Z)
    (enc32 enc64 : Z → list Z) (msg : list Z) : list Z :=
  let p := md_pad enc64 msg in
  flat_map enc32 (md_fold f (length p / 64) iv p).

(** ** Interfaces *)

(** What a block function of the driver is: it folds the block into the
    hash value and clears the block. *)
Class BlockFunction (Hash : HASH_CTX_STRUC → HASH_CTX_STRUC)
    (f : list Z → list Z → list Z) : Prop :=
  block_function c : bytes (Block c) → length (Block c) = 64%nat →
    Hash c = HASH_CTX (f (HashValue c) (Block c)) (MessageLen c) (zeros 64) 0.

(** The messages the interface is about: bytes, shorter than the wrap-around
    of the loop in [Append]. *)
Definition message (m : list Z) : Prop := bytes m ∧ Z.of_nat (length m) < 2 ^ 32 - 64.

(** Hash the chunks of a message one call at a time. *)
Definition hash_chunks (init : HASH_CTX_STRUC)
    (append : HASH_CTX_STRUC → list Z → Z → option HASH_CTX_STRUC)
    (fin : HASH_CTX_STRUC → list Z) (chunks : list (list Z)) : option (list Z) :=
  c ← foldl (λ o m, c ← o; append c m (Z.of_nat (length m))) (Some init) chunks;
  Some (fin c).

(** What the driver's streaming interface promises its clients: appending
    the chunks of a message one by one always returns, and [End] then gives
    the digest [H] of their concatenation, a digest of [n] bytes. *)
Class StreamHash (init : HASH_CTX_STRUC)
    (append : HASH_CTX_STRUC → list Z → Z → option HASH_CTX_STRUC)
    (fin : HASH_CTX_STRUC → list Z) (H : list Z → list Z) (n : nat) : Prop := {
  stream_hash chunks :
    Forall message chunks → hash_chunks init append fin chunks = Some (H (concat chunks));
  stream_length m : length (H m) = n;
  stream_bytes m : bytes (H m);
}.

(** The one-call form. *)
Lemma stream_one `{StreamHash init append fin H n} m :
  message m → (c ← append init m (Z.of_nat (length m)); Some (fin c)) = Some (H m).
Proof.
  intros Hm. rewrite <- (app_nil_r m) at 3. apply (stream_hash [m]). by constructor.
Qed.

(** ** Folding over blocks *)

Lemma md_fold_snoc f n h l :
  md_fold f (S n) h l = f (md_fold f n h l) (slice l (64 * n) 64).
Proof.
  revert h l. induction n as [|n IH]; intros h l; [done|].
  change (md_fold f (S (S n)) h l) with (md_fold f (S n) (f h (take 64 l)) (drop 64 l)).
  rewrite IH. cbn [md_fold]. unfold slice. rewrite drop_drop. do 3 f_equal. lia.
Qed.

Lemma md_fold_app f n h a b :
  (64 * n <= length a)%nat → md_fold f n h (a ++ b) = md_fold f n h a.
Proof.
  revert h a. induction n as [|n IH]; intros h a H; [done|]. cbn [md_fold].
  rewrite take_app_le, drop_app_le by lia. apply IH. rewrite length_drop. lia.
Qed.

(** ** What a context has absorbed *)

Section Absorbed.
Context (Hash : HASH_CTX_STRUC → HASH_CTX_STRUC) (f : list Z → list Z → list Z).
Context `{!BlockFunction Hash f}.
Context (iv : list Z).

(** The context after absorbing [msg]: the full blocks are folded into the
    hash value, the rest is in the block, followed by zeros. *)
Definition absorbed (msg : list Z) (c : HASH_CTX_STRUC) : Prop :=
  let k := (length msg / 64)%nat in
  let rest := drop (64 * k) msg in
  bytes msg ∧
  HashValue c = md_fold f k iv msg ∧
  Block c = rest ++ zeros (64 - length rest) ∧
  BlockLen c = Z.of_nat (length rest).

Lemma length_rest (msg : list Z) :
  (length (drop (64 * (length msg / 64)) msg) = length msg mod 64)%nat.
Proof. rewrite length_drop, Nat.Div0.mod_eq. done. Qed.

Lemma absorbed_init : absorbed [] (Init iv).
Proof. split; [constructor|done]. Qed.

Lemma absorbed_block msg c :
  absorbed msg c → length (Block c) = 64%nat ∧ 0 <= BlockLen c < 64.
Proof.
  intros (_ & _ & -> & ->). rewrite length_rest, length_app, length_zeros, length_rest.
  pose proof (Nat.mod_upper_bound (length msg) 64). lia.
Qed.

Lemma absorbed_block_ok msg c :
  absorbed msg c → bytes (Block c) ∧ length (Block c) = 64%nat.
Proof.
  intros Ha. split; [|by apply (absorbed_block msg)].
  destruct Ha as (Hbm & _ & -> & _). apply Forall_app. split.
  - by apply Forall_drop.
  - by apply fits_zeros.
Qed.

Lemma put_rest (rest x : list Z) n :
  (length rest + length x <= n)%nat →
  put (rest ++ zeros (n - length rest)) (length rest) x =
    (rest ++ x) ++ zeros (n - length (rest ++ x)).
Proof.
  intros H. replace (zeros (n - length rest)) with (zeros (length x) ++ zeros (n - length (rest ++ x))).
  - rewrite <- (app_assoc rest x). apply put_app. apply length_zeros.
  - unfold zeros. rewrite <- replicate_add. f_equal. rewrite length_app. lia.
Qed.

(** Adding a piece that does not fill the block. *)
Lemma absorbed_part msg c x :
  bytes x → absorbed msg c → BlockLen c + Z.of_nat (length x) < 64 →
  absorbed (msg ++ x)
    (HASH_CTX (HashValue c) (MessageLen c) (put (Block c) (Z.to_nat (BlockLen c)) x)
       (BlockLen c + Z.of_nat (length x))).
Proof.
  intros Hbx Ha Hx. destruct Ha as (Hbm & Hh & Hb & Hl). rewrite Hl, length_rest in Hx.
  assert (length (msg ++ x) / 64 = length msg / 64)%nat as Hk.
  { rewrite length_app. pose proof (Nat.div_mod_eq (length msg) 64).
    symmetry. apply Nat.div_unique with (length msg mod 64 + length x)%nat; lia. }
  assert (64 * (length msg / 64) <= length msg)%nat as Hle by (apply Nat.Div0.mul_div_le).
  unfold absorbed. rewrite Hk. cbn [HashValue Block BlockLen].
  rewrite md_fold_app, drop_app_le by done. split_and!; [by apply Forall_app|done| |].
  - rewrite Hb, Hl, Nat2Z.id. apply put_rest. rewrite length_rest. lia.
  - rewrite Hl, !length_app. lia.
Qed.

(** Filling the block: it is hashed. *)
Lemma absorbed_full msg c x :
  bytes x → absorbed msg c → BlockLen c + Z.of_nat (length x) = 64 →
  absorbed (msg ++ x)
    (Hash (HASH_CTX (HashValue c) (MessageLen c)
       (put (Block c) (Z.to_nat (BlockLen c)) x) HASH_BLOCK_SIZE)).
Proof.
  intros Hbx Ha Hx. destruct (absorbed_block_ok _ _ Ha) as [Hbb Hbl].
  destruct Ha as (Hbm & Hh & Hb & Hl). rewrite Hl, length_rest in Hx.
  assert (length (msg ++ x) = 64 * S (length msg / 64))%nat as Hlen.
  { rewrite length_app. pose proof (Nat.div_mod_eq (length msg) 64). lia. }
  assert (length (msg ++ x) / 64 = S (length msg / 64))%nat as Hk.
  { rewrite Hlen. rewrite Nat.mul_comm. by apply Nat.div_mul. }
  assert (64 * (length msg / 64) <= length msg)%nat as Hle by (apply Nat.Div0.mul_div_le).
  unfold absorbed. rewrite Hk, (block_function (f := f))
    by (cbn [Block]; rewrite ?length_put; auto with rt).
  cbn [HashValue Block BlockLen].
  rewrite <- Hlen, drop_all. split_and!; [by apply Forall_app| |done..].
  rewrite md_fold_snoc, md_fold_app by done. f_equal; [done|].
  rewrite Hb, Hl, Nat2Z.id, put_rest by (rewrite length_rest; lia).
  unfold slice. rewrite drop_app_le by done.
  rewrite (take_ge (_ ++ x)) by (rewrite length_app, length_rest; lia).
  replace (64 - _)%nat with 0%nat; [by rewrite app_nil_r|].
  rewrite length_app, length_rest. lia.
Qed.
End Absorbed.

(** ** [Append] and [End] *)

Section Streaming.
Context (Hash : HASH_CTX_STRUC → HASH_CTX_STRUC) (f : list Z → list Z → list Z).
Context `{!BlockFunction Hash f}.
Context (iv : list Z) (swap32 swap64 : Z → Z) (enc32 enc64 : Z → list Z) (n : nat).
Context (enc32_swap : ∀ x, le_bytes 4 (swap32 x) = enc32 x).
Context (enc64_swap : ∀ x, le_bytes 8 (swap64 x) = enc64 x).
Context (length_f : ∀ h b, length (f h b) = n).

Abbreviation absorbed := (absorbed f iv).

Lemma Append_body_absorbs msg m c k :
  bytes m → Z.of_nat (length m) < 2 ^ 32 - 64 → (k < length m)%nat → absorbed (msg ++ take k m) c →
  ∃ c' k', Append_body Hash m (Z.of_nat (length m)) (c, Z.of_nat k) = (c', Z.of_nat k') ∧
    (k < k' <= length m)%nat ∧ absorbed (msg ++ take k' m) c' ∧ MessageLen c' = MessageLen c.
Proof.
  intros Hbm Hm Hk Ha. destruct (absorbed_block _ _ _ _ Ha) as [_ HB].
  destruct (absorbed_block_ok _ _ _ _ Ha) as [Hbb Hbl]. unfold Append_body. rewrite (u32_small (Z.of_nat (length m) - _)) by (unfold fits; lia).
  rewrite (u32_small (BlockLen c + _)) by (unfold fits; lia).
  destruct (Z.ltb_spec (BlockLen c + (Z.of_nat (length m) - Z.of_nat k)) HASH_BLOCK_SIZE) as [Hlt|Hge];
    unfold HASH_BLOCK_SIZE in *.
  - exists (HASH_CTX (HashValue c) (MessageLen c)
      (put (Block c) (Z.to_nat (BlockLen c)) (drop k m))
      (BlockLen c + Z.of_nat (length (drop k m)))), (length m).
    rewrite u32_small by (unfold fits; lia). split_and!; [|lia|lia| |done].
    + rewrite length_drop. unfold slice. rewrite take_ge by (rewrite length_drop; lia).
      rewrite Nat2Z.id. do 2 f_equal; lia.
    + rewrite take_ge by lia. rewrite <- (take_drop k m) at 1. rewrite app_assoc.
      apply absorbed_part; [by apply Forall_drop|done|]. rewrite length_drop. lia.
  - set (x := slice m (Z.to_nat (Z.of_nat k)) (Z.to_nat (64 - BlockLen c))).
    assert (length x = Z.to_nat (64 - BlockLen c)) as Hx.
    { unfold x. apply length_slice. lia. }
    eexists _, (k + length x)%nat. split_and!.
    + rewrite u32_small by (unfold fits; lia). f_equal. lia.
    + lia.
    + lia.
    + replace (take (k + length x) m) with (take k m ++ x).
      * rewrite app_assoc. apply absorbed_full; [done|by apply bytes_slice|done|lia].
      * unfold x, slice. rewrite Nat2Z.id, length_take, length_drop.
        rewrite take_take_drop. f_equal. lia.
    + rewrite (block_function (f := f)); [done|cbn [Block]..].
      * apply bytes_put; [done|by apply bytes_slice].
      * by rewrite length_put.
Qed.

Lemma Append_absorbs msg m c :
  bytes m → Z.of_nat (length m) < 2 ^ 32 - 64 → absorbed msg c →
  ∃ c', Append Hash c m (Z.of_nat (length m)) = Some c' ∧ absorbed (msg ++ m) c' ∧
        MessageLen c' = u64 (MessageLen c + Z.of_nat (length m)).
Proof.
  intros Hbm Hm Ha. unfold Append.
  destruct (while_inv (λ s, ∃ k, s.2 = Z.of_nat k ∧ (k <= length m)%nat ∧
      absorbed (msg ++ take k m) s.1 ∧ MessageLen s.1 = MessageLen c)
    (λ s, (length m - Z.to_nat s.2)%nat) (S (Z.to_nat (Z.of_nat (length m))))
    (λ s, negb (s.2 =? Z.of_nat (length m)))
    (Append_body Hash m (Z.of_nat (length m))) (c, 0))
    as ([c' a] & -> & (k & Hk & Hle & Ha' & Hml) & Hc).
  - exists 0%nat. rewrite take_0, app_nil_r. split_and!; [done|lia|done|done].
  - cbn. lia.
  - intros [c1 a1] (k & Hk & Hle & Ha1 & Hml1) Hc1. cbn in Hk, Ha1, Hml1, Hc1. subst a1.
    destruct (Append_body_absorbs msg m c1 k) as (c2 & k' & -> & Hk' & Ha2 & Hml2);
      [done|done|lia|done|].
    split; [exists k'; cbn; split_and!; [done|lia|done|congruence]|cbn; lia].
  - cbn in Hk, Hc, Ha', Hml. subst a. assert (k = length m) as -> by lia.
    rewrite take_ge in Ha' by lia. cbn. eexists. split; [done|]. split; [done|]. cbn. by rewrite Hml.
Qed.

Lemma pad_blocks (msg : list Z) :
  let r := (length msg mod 64)%nat in
  Z.to_nat ((55 - Z.of_nat (length msg)) mod 64) =
    if (r <=? 55)%nat then (55 - r)%nat else (119 - r)%nat.
Proof.
  intros r. pose proof (Nat.div_mod_eq (length msg) 64) as E.
  pose proof (Nat.mod_upper_bound (length msg) 64).
  set (q := (length msg / 64)%nat) in *. fold r in E, H.
  destruct (Nat.leb_spec r 55).
  - replace ((55 - Z.of_nat (length msg)) mod 64) with (55 - Z.of_nat r); [lia|].
    apply Z.mod_unique with (- Z.of_nat q); lia.
  - replace ((55 - Z.of_nat (length msg)) mod 64) with (119 - Z.of_nat r); [lia|].
    apply Z.mod_unique with (- Z.of_nat q - 1); lia.
Qed.

Lemma put_tail (a L : list Z) k :
  length L = 8%nat → (length a + k = 56)%nat →
  put (a ++ zeros (k + 8)) 56 L = a ++ zeros k ++ L.
Proof.
  intros HL Hk. unfold zeros. rewrite replicate_add. rewrite (app_assoc a).
  replace 56%nat with (length (a ++ replicate k 0)) by (rewrite length_app, length_replicate; lia).
  rewrite <- (app_nil_r (replicate 8 0)), put_app by (by rewrite HL).
  by rewrite app_nil_r, <- app_assoc.
Qed.

(** The padded message ends with one block when the length fits after
    the rest of the message, with two otherwise. *)
Lemma md_fold_pad_one (msg L : list Z) :
  let q := (length msg / 64)%nat in
  let rest := drop (64 * q) msg in
  length L = 8%nat → (length rest <= 55)%nat →
  let p := msg ++ 128 :: zeros (55 - length rest) ++ L in
  md_fold f (length p / 64) iv p =
    f (md_fold f q iv msg) ((rest ++ [128]) ++ zeros (55 - length rest) ++ L).
Proof.
  intros q rest HL Hr p.
  assert (64 * q <= length msg)%nat as Hle by (apply Nat.Div0.mul_div_le).
  assert (length msg = 64 * q + length rest)%nat as Hlen by (unfold rest; rewrite length_drop; lia).
  replace (length p / 64)%nat with (S q).
  2:{ unfold p. autorewrite with len. cbn [length]. autorewrite with len. rewrite HL, Hlen.
      apply Nat.div_unique with 0%nat; lia. }
  rewrite md_fold_snoc. unfold p. rewrite md_fold_app by done. f_equal.
  unfold slice. rewrite drop_app_le by done. fold rest.
  rewrite take_ge by (autorewrite with len; cbn [length]; autorewrite with len; lia).
  by rewrite <- app_assoc.
Qed.

Lemma md_fold_pad_two (msg L : list Z) :
  let q := (length msg / 64)%nat in
  let rest := drop (64 * q) msg in
  length L = 8%nat → (55 < length rest < 64)%nat →
  let p := msg ++ 128 :: zeros (119 - length rest) ++ L in
  md_fold f (length p / 64) iv p =
    f (f (md_fold f q iv msg) ((rest ++ [128]) ++ zeros (63 - length rest))) (zeros 56 ++ L).
Proof.
  intros q rest HL Hr p.
  assert (64 * q <= length msg)%nat as Hle by (apply Nat.Div0.mul_div_le).
  assert (length msg = 64 * q + length rest)%nat as Hlen by (unfold rest; rewrite length_drop; lia).
  replace (length p / 64)%nat with (S (S q)).
  2:{ unfold p. autorewrite with len. cbn [length]. autorewrite with len. rewrite HL, Hlen.
      apply Nat.div_unique with 0%nat; lia. }
  assert (p = (msg ++ 128 :: zeros (63 - length rest)) ++ (zeros 56 ++ L)) as ->.
  { unfold p. replace (119 - length rest)%nat with ((63 - length rest) + 56)%nat by lia.
    unfold zeros. rewrite replicate_add, <- !app_assoc. done. }
  rewrite !md_fold_snoc. rewrite <- app_assoc at 1. rewrite md_fold_app by done. f_equal.
  - f_equal. unfold slice. rewrite <- !app_assoc, drop_app_le by done. fold rest.
    rewrite (app_assoc rest), take_app_length'; [done|].
    rewrite length_app. cbn [length]. rewrite length_zeros. lia.
  - unfold slice. rewrite drop_app_length'.
    + apply take_ge. rewrite length_app, length_zeros. lia.
    + rewrite length_app. cbn [length]. rewrite length_zeros. lia.
Qed.

Lemma digest_words h b : store_words (map swap32 (take n (f h b))) = flat_map enc32 (f h b).
Proof.
  rewrite take_ge by (by rewrite length_f).
  unfold store_words. rewrite flat_map_concat_map, map_map, <- flat_map_concat_map.
  apply flat_map_ext, enc32_swap.
Qed.

Lemma End_absorbed msg c :
  absorbed msg c → MessageLen c = u64 (Z.of_nat (length msg)) →
  End Hash swap32 swap64 n c = md_hash f iv enc32 enc64 msg.
Proof.
  intros Ha Hml. destruct (absorbed_block _ _ _ _ Ha) as [_ HB].
  destruct (absorbed_block_ok _ _ _ _ Ha) as [Hbb Hbl].
  destruct Ha as (Hbm & Hh & Hb & Hl). unfold End, md_hash, md_pad.
  rewrite pad_blocks, <- length_rest.
  set (L := enc64 (u64 (8 * Z.of_nat (length msg)))).
  assert (length L = 8%nat) as HL by (unfold L; by rewrite <- enc64_swap, length_le_bytes).
  assert (bytes L) as HbL by (unfold L; rewrite <- enc64_swap; apply bytes_le_bytes).
  assert (bytes [128]) as H128 by (constructor; [unfold fits; lia|constructor]).
  assert (le_bytes 8 (swap64 (u64 (MessageLen c * 8))) = L) as HLc.
  { rewrite enc64_swap, Hml. unfold L, u64. f_equal. rewrite Zmult_mod_idemp_l. f_equal. lia. }
  cbn [BlockLen Block HashValue MessageLen].
  assert (bytes (put (Block c) (Z.to_nat (BlockLen c)) [128])) as Hb1 by auto with rt.
  assert (length (put (Block c) (Z.to_nat (BlockLen c)) [128]) = 64%nat) as Hl1
    by (by rewrite length_put).
  revert Hb1 Hl1.
  rewrite Hb, Hl, Nat2Z.id, put_rest by (cbn [length]; lia). rewrite length_app. cbn [length].
  intros Hb1 Hl1.
  destruct (Nat.leb_spec (length (drop (64 * (length msg / 64)) msg)) 55) as [H55|H55].
  - rewrite (proj2 (Z.ltb_ge _ _)) by lia.
    rewrite (block_function (f := f))
      by (cbn [Block MessageLen]; rewrite ?HLc, ?length_put; auto with rt).
    cbn [BlockLen Block HashValue MessageLen].
    rewrite HLc, digest_words, md_fold_pad_one, Hh by done.
    replace (64 - (_ + 1))%nat
      with ((55 - length (drop (64 * (length msg / 64)) msg)) + 8)%nat by lia.
    by rewrite put_tail by (rewrite ?length_app; cbn [length]; lia).
  - rewrite (proj2 (Z.ltb_lt _ _)) by lia.
    rewrite (block_function (f := f) (HASH_CTX _ _ (_ ++ _) _)) by done.
    cbn [BlockLen Block HashValue MessageLen].
    rewrite (block_function (f := f))
      by (cbn [Block MessageLen]; rewrite ?HLc, ?length_put, ?length_zeros; try apply bytes_put; auto using fits_zeros with lia).
    cbn [BlockLen Block HashValue MessageLen].
    rewrite HLc, digest_words, md_fold_pad_two, Hh by (done || lia).
    replace (64 - (_ + 1))%nat
      with (63 - length (drop (64 * (length msg / 64)) msg))%nat by lia.
    change (zeros 64) with ([] ++ zeros (56 + 8)). by rewrite put_tail.
Qed.

Lemma stream_from chunks msg c :
  Forall message chunks →
  absorbed msg c → MessageLen c = u64 (Z.of_nat (length msg)) →
  foldl (λ o m, c ← o; Append Hash c m (Z.of_nat (length m))) (Some c) chunks ≫=
    (λ c, Some (End Hash swap32 swap64 n c)) =
  Some (md_hash f iv enc32 enc64 (msg ++ concat chunks)).
Proof.
  intros Hc. revert msg c. induction Hc as [|m chunks [Hbm Hm] Hc IH]; intros msg c Ha Hml.
  - cbn. rewrite app_nil_r. f_equal. by apply End_absorbed.
  - cbn [foldl mbind option_bind concat].
    destruct (Append_absorbs msg m c Hbm Hm Ha) as (c' & -> & Ha' & Hml').
    rewrite app_assoc. apply IH; [done|]. rewrite Hml', Hml, length_app. unfold u64.
    rewrite Zplus_mod_idemp_l. f_equal. lia.
Qed.

Lemma length_flat_enc l : length (flat_map enc32 l) = (4 * length l)%nat.
Proof.
  induction l as [|x l IH]; [done|]. cbn [flat_map length]. rewrite length_app, IH.
  rewrite <- enc32_swap, length_le_bytes. lia.
Qed.

Lemma pad_has_block msg : (1 <= length (md_pad enc64 msg) / 64)%nat.
Proof.
  apply Nat.div_le_lower_bound; [done|]. unfold md_pad.
  rewrite pad_blocks, length_app. cbn [length].
  rewrite length_app, length_zeros, <- enc64_swap, length_le_bytes.
  pose proof (Nat.div_mod_eq (length msg) 64).
  pose proof (Nat.mod_upper_bound (length msg) 64).
  destruct (Nat.leb_spec (length msg mod 64) 55); lia.
Qed.

Lemma block_stream_hash :
  StreamHash (Init iv) (Append Hash) (End Hash swap32 swap64 n)
    (md_hash f iv enc32 enc64) (4 * n).
Proof.
  split.
  - intros chunks Hc. apply (stream_from chunks []); [done|apply absorbed_init|done].
  - intros m. unfold md_hash. rewrite length_flat_enc. f_equal.
    pose proof (pad_has_block m). destruct (_ / 64)%nat as [|k]; [lia|].
    by rewrite md_fold_snoc, length_f.
  - intros m. unfold md_hash. apply Forall_flat_map, Forall_forall. intros x _.
    rewrite <- enc32_swap. apply bytes_le_bytes.
Qed.
End Streaming.

Lemma be32_swap x : le_bytes 4 (cpu2be32 x) = be_bytes 4 x.
Proof.
  unfold cpu2be32. rewrite <- (length_be_bytes 4 x) at 1.
  apply le_bytes_le_word, bytes_be_bytes.
Qed.

Lemma be64_swap x : le_bytes 8 (cpu2be64 x) = be_bytes 8 x.
Proof.
  unfold cpu2be64. rewrite <- (length_be_bytes 8 x) at 1.
  apply le_bytes_le_word, bytes_be_bytes.
Qed.
