(* ===== verification/Md5.v ===== *)
(** * MD5

    Models [linux/Arch/rt5370.driver/common/crypt_md5.c]: the four basic
    functions, the unrolled block function [RT_MD5_Hash], and, through
    BlockHash.v, [RT_MD5_Init], [RT_MD5_Append], [RT_MD5_End] and [RT_MD5].
    The reference is the loop form of RFC 1321: message word and rotation of
    step [i] are computed from [i], and the working variables rotate. *)

From stdpp Require Import base list numbers list_numbers.
From Stdlib Require Import ZArith Lia.
From S2P Require Import Prelude BlockHash.

(** The macros [F], [G], [H] and [I] on 32-bit words. *)
Definition F (x y z : Z) : Z := (x & y) .| (not32 x & z).
Definition G (x y z : Z) : Z := (x & z) .| (y & not32 z).
Definition H (x y z : Z) : Z := x ^^ y ^^ z.
Definition I (x y z : Z) : Z := y ^^ (x .| not32 z).

(** [ROTL32(x,n)]. *)
Definition ROTL32 (x n : Z) : Z := (x <<32 n) .| (x >> (32 - n)).

(** The macros [ROUND1] .. [ROUND4]: the new value of [a]. *)
Definition ROUND1 (a b c d x s ac : Z) : Z := ROTL32 (a +32 u32 (F b c d + x + ac)) s +32 b.
Definition ROUND2 (a b c d x s ac : Z) : Z := ROTL32 (a +32 u32 (G b c d + x + ac)) s +32 b.
Definition ROUND3 (a b c d x s ac : Z) : Z := ROTL32 (a +32 u32 (H b c d + x + ac)) s +32 b.
Definition ROUND4 (a b c d x s ac : Z) : Z := ROTL32 (a +32 u32 (I b c d + x + ac)) s +32 b.

Definition MD5_DefaultHashValue : list Z :=
  [0x67452301; 0xefcdab89; 0x98badcfe; 0x10325476].

(** A statement [ROUNDn(a, b, c, d, X[k], s, ac)] of [RT_MD5_Hash]: the
    macro, its first argument (the variable it assigns; the other three
    follow in cyclic order), the index [k], the rotation and the constant. *)
Inductive md5_var := Va | Vb | Vc | Vd.

Definition md5_stmt : Type := (Z → Z → Z → Z → Z → Z → Z → Z) * md5_var * nat * Z * Z.

Definition md5_exec (X : list Z) (st : Z * Z * Z * Z) (p : md5_stmt) : Z * Z * Z * Z :=
  let '(a, b, c, d) := st in
  let '(R, v, k, s, ac) := p in
  match v with
  | Va => (R a b c d X.[k] s ac, b, c, d)
  | Vd => (a, b, c, R d a b c X.[k] s ac)
  | Vc => (a, b, R c d a b X.[k] s ac, d)
  | Vb => (a, R b c d a X.[k] s ac, c, d)
  end.

(** The 64 statements, in program order. *)
Definition md5_program : list md5_stmt := [
  (ROUND1, Va, 0%nat, 7, 0xd76aa478);
  (ROUND1, Vd, 1%nat, 12, 0xe8c7b756);
  (ROUND1, Vc, 2%nat, 17, 0x242070db);
  (ROUND1, Vb, 3%nat, 22, 0xc1bdceee);
  (ROUND1, Va, 4%nat, 7, 0xf57c0faf);
  (ROUND1, Vd, 5%nat, 12, 0x4787c62a);
  (ROUND1, Vc, 6%nat, 17, 0xa8304613);
  (ROUND1, Vb, 7%nat, 22, 0xfd469501);
  (ROUND1, Va, 8%nat, 7, 0x698098d8);
  (ROUND1, Vd, 9%nat, 12, 0x8b44f7af);
  (ROUND1, Vc, 10%nat, 17, 0xffff5bb1);
  (ROUND1, Vb, 11%nat, 22, 0x895cd7be);
  (ROUND1, Va, 12%nat, 7, 0x6b901122);
  (ROUND1, Vd, 13%nat, 12, 0xfd987193);
  (ROUND1, Vc, 14%nat, 17, 0xa679438e);
  (ROUND1, Vb, 15%nat, 22, 0x49b40821);
  (ROUND2, Va, 1%nat, 5, 0xf61e2562);
  (ROUND2, Vd, 6%nat, 9, 0xc040b340);
  (ROUND2, Vc, 11%nat, 14, 0x265e5a51);
  (ROUND2, Vb, 0%nat, 20, 0xe9b6c7aa);
  (ROUND2, Va, 5%nat, 5, 0xd62f105d);
  (ROUND2, Vd, 10%nat, 9, 0x2441453);
  (ROUND2, Vc, 15%nat, 14, 0xd8a1e681);
  (ROUND2, Vb, 4%nat, 20, 0xe7d3fbc8);
  (ROUND2, Va, 9%nat, 5, 0x21e1cde6);
  (ROUND2, Vd, 14%nat, 9, 0xc33707d6);
  (ROUND2, Vc, 3%nat, 14, 0xf4d50d87);
  (ROUND2, Vb, 8%nat, 20, 0x455a14ed);
  (ROUND2, Va, 13%nat, 5, 0xa9e3e905);
  (ROUND2, Vd, 2%nat, 9, 0xfcefa3f8);
  (ROUND2, Vc, 7%nat, 14, 0x676f02d9);
  (ROUND2, Vb, 12%nat, 20, 0x8d2a4c8a);
  (ROUND3, Va, 5%nat, 4, 0xfffa3942);
  (ROUND3, Vd, 8%nat, 11, 0x8771f681);
  (ROUND3, Vc, 11%nat, 16, 0x6d9d6122);
  (ROUND3, Vb, 14%nat, 23, 0xfde5380c);
  (ROUND3, Va, 1%nat, 4, 0xa4beea44);
  (ROUND3, Vd, 4%nat, 11, 0x4bdecfa9);
  (ROUND3, Vc, 7%nat, 16, 0xf6bb4b60);
  (ROUND3, Vb, 10%nat, 23, 0xbebfbc70);
  (ROUND3, Va, 13%nat, 4, 0x289b7ec6);
  (ROUND3, Vd, 0%nat, 11, 0xeaa127fa);
  (ROUND3, Vc, 3%nat, 16, 0xd4ef3085);
  (ROUND3, Vb, 6%nat, 23, 0x4881d05);
  (ROUND3, Va, 9%nat, 4, 0xd9d4d039);
  (ROUND3, Vd, 12%nat, 11, 0xe6db99e5);
  (ROUND3, Vc, 15%nat, 16, 0x1fa27cf8);
  (ROUND3, Vb, 2%nat, 23, 0xc4ac5665);
  (ROUND4, Va, 0%nat, 6, 0xf4292244);
  (ROUND4, Vd, 7%nat, 10, 0x432aff97);
  (ROUND4, Vc, 14%nat, 15, 0xab9423a7);
  (ROUND4, Vb, 5%nat, 21, 0xfc93a039);
  (ROUND4, Va, 12%nat, 6, 0x655b59c3);
  (ROUND4, Vd, 3%nat, 10, 0x8f0ccc92);
  (ROUND4, Vc, 10%nat, 15, 0xffeff47d);
  (ROUND4, Vb, 1%nat, 21, 0x85845dd1);
  (ROUND4, Va, 8%nat, 6, 0x6fa87e4f);
  (ROUND4, Vd, 15%nat, 10, 0xfe2ce6e0);
  (ROUND4, Vc, 6%nat, 15, 0xa3014314);
  (ROUND4, Vb, 13%nat, 21, 0x4e0811a1);
  (ROUND4, Va, 4%nat, 6, 0xf7537e82);
  (ROUND4, Vd, 11%nat, 10, 0xbd3af235);
  (ROUND4, Vc, 2%nat, 15, 0x2ad7d2bb);
  (ROUND4, Vb, 9%nat, 21, 0xeb86d391) ].

Definition md5_rounds (X : list Z) (st : Z * Z * Z * Z) : Z * Z * Z * Z :=
  foldl (md5_exec X) st md5_program.

Definition RT_MD5_Hash (ctx : HASH_CTX_STRUC) : HASH_CTX_STRUC :=
  let X := map cpu2le32 (load_words 16 (Block ctx)) in
  let HV := HashValue ctx in
  let '(a, b, c, d) := md5_rounds X (HV.[0], HV.[1], HV.[2], HV.[3]) in
  HASH_CTX [HV.[0] +32 a; HV.[1] +32 b; HV.[2] +32 c; HV.[3] +32 d]
    (MessageLen ctx) (zeros 64) 0.

Definition RT_MD5_Init : HASH_CTX_STRUC := Init MD5_DefaultHashValue.
Definition RT_MD5_Append : HASH_CTX_STRUC → list Z → Z → option HASH_CTX_STRUC :=
  Append RT_MD5_Hash.
Definition RT_MD5_End : HASH_CTX_STRUC → list Z := End RT_MD5_Hash cpu2le32 cpu2le64 4.
Definition RT_MD5 (Message : list Z) (MsgLen : Z) : option (list Z) :=
  c ← RT_MD5_Append RT_MD5_Init Message MsgLen; Some (RT_MD5_End c).

(** ** Reference *)

Definition md5_T : list Z :=
  [ 0xd76aa478; 0xe8c7b756; 0x242070db; 0xc1bdceee;
    0xf57c0faf; 0x4787c62a; 0xa8304613; 0xfd469501;
    0x698098d8; 0x8b44f7af; 0xffff5bb1; 0x895cd7be;
    0x6b901122; 0xfd987193; 0xa679438e; 0x49b40821;
    0xf61e2562; 0xc040b340; 0x265e5a51; 0xe9b6c7aa;
    0xd62f105d; 0x2441453; 0xd8a1e681; 0xe7d3fbc8;
    0x21e1cde6; 0xc33707d6; 0xf4d50d87; 0x455a14ed;
    0xa9e3e905; 0xfcefa3f8; 0x676f02d9; 0x8d2a4c8a;
    0xfffa3942; 0x8771f681; 0x6d9d6122; 0xfde5380c;
    0xa4beea44; 0x4bdecfa9; 0xf6bb4b60; 0xbebfbc70;
    0x289b7ec6; 0xeaa127fa; 0xd4ef3085; 0x4881d05;
    0xd9d4d039; 0xe6db99e5; 0x1fa27cf8; 0xc4ac5665;
    0xf4292244; 0x432aff97; 0xab9423a7; 0xfc93a039;
    0x655b59c3; 0x8f0ccc92; 0xffeff47d; 0x85845dd1;
    0x6fa87e4f; 0xfe2ce6e0; 0xa3014314; 0x4e0811a1;
    0xf7537e82; 0xbd3af235; 0x2ad7d2bb; 0xeb86d391 ].

Definition md5_shift (i : nat) : Z :=
  [7; 12; 17; 22; 5; 9; 14; 20; 4; 11; 16; 23; 6; 10; 15; 21].[4 * (i / 16) + i mod 4].

Definition md5_index (i : nat) : nat :=
  match (i / 16)%nat with
  | 0%nat => i
  | 1%nat => (5 * i + 1) mod 16
  | 2%nat => (3 * i + 5) mod 16
  | _ => (7 * i) mod 16
  end.

Definition md5_fun (i : nat) (b c d : Z) : Z :=
  match (i / 16)%nat with
  | 0%nat => (b & c) .| (not32 b & d)
  | 1%nat => (b & d) .| (c & not32 d)
  | 2%nat => b ^^ c ^^ d
  | _ => c ^^ (b .| not32 d)
  end.

(** One step: [a := b + ((a + fun(b,c,d) + X[k] + T[i]) <<< s)], then the
    variables rotate. *)
Definition md5_step (X : list Z) (i : nat) (st : Z * Z * Z * Z) : Z * Z * Z * Z :=
  let '(a, b, c, d) := st in
  let t := u32 (a + md5_fun i b c d + X.[md5_index i] + md5_T.[i]) in
  (d, u32 (b + ROTL32 t (md5_shift i)), b, c).

Definition md5_block (h block : list Z) : list Z :=
  let X := map (λ i, le_word (slice block (4 * i) 4)) (seq 0 16) in
  let '(a, b, c, d) := loop 0 64 (md5_step X) (h.[0], h.[1], h.[2], h.[3]) in
  [u32 (h.[0] + a); u32 (h.[1] + b); u32 (h.[2] + c); u32 (h.[3] + d)].

Definition md5 : list Z → list Z :=
  md_hash md5_block MD5_DefaultHashValue (le_bytes 4) (le_bytes 8).

Example md5_abc :
  RT_MD5 [97; 98; 99] 3 =
    Some [0x90;0x01;0x50;0x98;0x3c;0xd2;0x4f;0xb0;0xd6;0x96;0x3f;0x7d;0x28;0xe1;0x7f;0x72].
Proof. vm_compute. reflexivity. Qed.

(** ** The unrolled rounds are the loop *)

Lemma round_sum a y b s : ROTL32 (a +32 u32 y) s +32 b = u32 (b + ROTL32 (u32 (a + y)) s).
Proof. unfold u32. by rewrite Zplus_mod_idemp_r, (Z.add_comm b). Qed.

Definition md5_ROUND (i : nat) : Z → Z → Z → Z → Z → Z → Z → Z :=
  match (i / 16)%nat with 0%nat => ROUND1 | 1%nat => ROUND2 | 2%nat => ROUND3 | _ => ROUND4 end.

Definition md5_target (i : nat) : md5_var :=
  match (i mod 4)%nat with 0%nat => Va | 1%nat => Vd | 2%nat => Vc | _ => Vb end.

(** Statement [i] as a function of [i]. *)
Lemma md5_program_seq :
  md5_program =
    map (λ i, (md5_ROUND i, md5_target i, md5_index i, md5_shift i, md5_T.[i])) (seq 0 64).
Proof. reflexivity. Qed.

Lemma md5_step_round (X : list Z) i a b c d :
  md5_step X i (a, b, c, d) =
    (d, md5_ROUND i a b c d X.[md5_index i] (md5_shift i) md5_T.[i], b, c).
Proof.
  unfold md5_step, md5_fun, md5_ROUND. do 3 f_equal.
  destruct (i / 16)%nat as [|[|[|]]]; unfold ROUND1, ROUND2, ROUND3, ROUND4;
    rewrite round_sum, !Z.add_assoc; done.
Qed.

(** The variables in the order the reference names them at step [i]. *)
Definition md5_view (i : nat) (st : Z * Z * Z * Z) : Z * Z * Z * Z :=
  let '(a, b, c, d) := st in
  match (i mod 4)%nat with
  | 0%nat => (a, b, c, d)
  | 1%nat => (d, a, b, c)
  | 2%nat => (c, d, a, b)
  | _ => (b, c, d, a)
  end.

Lemma md5_exec_view X i st :
  md5_view (S i) (md5_exec X st (md5_ROUND i, md5_target i, md5_index i, md5_shift i, md5_T.[i])) =
    md5_step X i (md5_view i st).
Proof.
  destruct st as [[[a b] c] d]. unfold md5_view, md5_target, md5_exec.
  assert (S i mod 4 = S (i mod 4) mod 4)%nat as ->.
  { change (S i) with (1 + i)%nat. change (S (i mod 4)) with (1 + i mod 4)%nat.
    by rewrite Nat.Div0.add_mod_idemp_r. }
  pose proof (Nat.mod_upper_bound i 4) as Hi.
  destruct (i mod 4)%nat as [|[|[|[|]]]]; [| | | |lia]; by rewrite md5_step_round.
Qed.

Lemma md5_rounds_loop X st : md5_rounds X st = loop 0 64 (md5_step X) st.
Proof.
  enough (∀ n, md5_view n (foldl (md5_exec X) st (map (λ i, (md5_ROUND i, md5_target i, md5_index i,
    md5_shift i, md5_T.[i])) (seq 0 n))) = loop 0 n (md5_step X) st) as Hn.
  { unfold md5_rounds. rewrite md5_program_seq, <- Hn. by destruct (foldl _ _ _) as [[[? ?] ?] ?]. }
  induction n as [|n IH]; [by destruct st as [[[? ?] ?] ?]|].
  rewrite seq_S, map_app, foldl_app, loop_snoc, <- IH. apply md5_exec_view.
Qed.

#[export] Instance RT_MD5_block_function : BlockFunction RT_MD5_Hash md5_block.
Proof.
  intros c _ _. unfold RT_MD5_Hash, md5_block. rewrite md5_rounds_loop.
  unfold load_words. rewrite map_map. by destruct (loop _ _ _ _) as [[[??]?]?].
Qed.

#[export] Instance RT_MD5_stream :
  StreamHash RT_MD5_Init RT_MD5_Append RT_MD5_End md5 16.
Proof.
  apply (block_stream_hash RT_MD5_Hash md5_block); [done|done|].
  intros h b. unfold md5_block. by destruct (loop _ _ _ _) as [[[??]?]?].
Qed.

(** ** The property *)

(** [RT_MD5], and any sequence of [RT_MD5_Append] calls between
    [RT_MD5_Init] and [RT_MD5_End], return (the loops of [Append] terminate)
    the RFC 1321 digest of the message, whatever its length and however it is cut
    into chunks (each shorter than [2^32 - 64] bytes). *)
Theorem RT_MD5_correct (chunks : list (list Z)) (m : list Z) :
  Forall message chunks → message m →
  hash_chunks RT_MD5_Init RT_MD5_Append RT_MD5_End chunks = Some (md5 (concat chunks)) ∧
  RT_MD5 m (Z.of_nat (length m)) = Some (md5 m) ∧ length (md5 m) = 16%nat.
Proof.
  intros Hc Hm. split_and!; [by apply stream_hash|exact (stream_one m Hm)|apply stream_length].
Qed.

Lemma RT_MD5_correct_witness :
  let chunks := [[97]; []; [98; 99]] in
  hash_chunks RT_MD5_Init RT_MD5_Append RT_MD5_End chunks = Some (md5 [97; 98; 99]) ∧
  RT_MD5 [97; 98; 99] 3 = Some (md5 [97; 98; 99]) ∧ length (md5 [97; 98; 99]) = 16%nat.
Proof.
  apply (RT_MD5_correct [[97]; []; [98; 99]] [97; 98; 99]);
    repeat constructor; unfold fits; cbn; lia.
Defined.
