(* ===== verification/Sha.v ===== *)
(** * SHA-1 and SHA-256

    Models [linux/Arch/rt5370.driver/common/crypt_sha2.c]: the block
    functions [RT_SHA1_Hash] and [RT_SHA256_Hash], and, through BlockHash.v,
    the [Init], [Append], [End] and one-call functions of both hashes.

    The message schedule [W] is a local array filled from index 0 up; the
    model keeps its initialised prefix, so [W[t] = x] at the next index
    appends.  The references are FIPS 180-4: SHA-1 with one step function
    indexed by [t] instead of four loops, SHA-256 with the schedule computed
    before the rounds instead of inside them. *)

From stdpp Require Import base list numbers list_numbers.
From Stdlib Require Import ZArith Lia.
From S2P Require Import Prelude BlockHash.

(** The macros on 32-bit words. *)
Definition SHR (x n : Z) : Z := x >> n.
Definition ROTR32 (x n : Z) : Z := (x >> n) .| (x <<32 (32 - n)).
Definition ROTL32 (x n : Z) : Z := (x <<32 n) .| (x >> (32 - n)).
Definition Ch (x y z : Z) : Z := (x & y) ^^ (not32 x & z).
Definition Maj (x y z : Z) : Z := (x & y) ^^ (x & z) ^^ (y & z).
Definition Parity (x y z : Z) : Z := x ^^ y ^^ z.
Definition Zsigma_256_0 (x : Z) : Z := ROTR32 x 2 ^^ ROTR32 x 13 ^^ ROTR32 x 22.
Definition Zsigma_256_1 (x : Z) : Z := ROTR32 x 6 ^^ ROTR32 x 11 ^^ ROTR32 x 25.
Definition Sigma_256_0 (x : Z) : Z := ROTR32 x 7 ^^ ROTR32 x 18 ^^ SHR x 3.
Definition Sigma_256_1 (x : Z) : Z := ROTR32 x 17 ^^ ROTR32 x 19 ^^ SHR x 10.

Definition SHA1_K : list Z := [0x5a827999; 0x6ed9eba1; 0x8f1bbcdc; 0xca62c1d6].
Definition SHA1_DefaultHashValue : list Z :=
  [0x67452301; 0xefcdab89; 0x98badcfe; 0x10325476; 0xc3d2e1f0].

Definition SHA256_K : list Z :=
  [ 0x428A2F98; 0x71374491; 0xB5C0FBCF; 0xE9B5DBA5;
    0x3956C25B; 0x59F111F1; 0x923F82A4; 0xAB1C5ED5;
    0xD807AA98; 0x12835B01; 0x243185BE; 0x550C7DC3;
    0x72BE5D74; 0x80DEB1FE; 0x9BDC06A7; 0xC19BF174;
    0xE49B69C1; 0xEFBE4786; 0x0FC19DC6; 0x240CA1CC;
    0x2DE92C6F; 0x4A7484AA; 0x5CB0A9DC; 0x76F988DA;
    0x983E5152; 0xA831C66D; 0xB00327C8; 0xBF597FC7;
    0xC6E00BF3; 0xD5A79147; 0x06CA6351; 0x14292967;
    0x27B70A85; 0x2E1B2138; 0x4D2C6DFC; 0x53380D13;
    0x650A7354; 0x766A0ABB; 0x81C2C92E; 0x92722C85;
    0xA2BFE8A1; 0xA81A664B; 0xC24B8B70; 0xC76C51A3;
    0xD192E819; 0xD6990624; 0xF40E3585; 0x106AA070;
    0x19A4C116; 0x1E376C08; 0x2748774C; 0x34B0BCB5;
    0x391C0CB3; 0x4ED8AA4A; 0x5B9CCA4F; 0x682E6FF3;
    0x748F82EE; 0x78A5636F; 0x84C87814; 0x8CC70208;
    0x90BEFFFA; 0xA4506CEB; 0xBEF9A3F7; 0xC67178F2 ].
Definition SHA256_DefaultHashValue : list Z :=
  [0x6A09E667; 0xBB67AE85; 0x3C6EF372; 0xA54FF53A;
   0x510E527F; 0x9B05688C; 0x1F83D9AB; 0x5BE0CD19].

(** ** SHA-1 *)

(** The working variables [a], [b], [c], [d], [e]. *)
Definition sha1_vars : Type := Z * Z * Z * Z * Z.

(** One iteration of a round loop with the round function [f_t] and [K]. *)
Definition SHA1_iteration (f_t : Z → Z → Z → Z) (K : Z) (W : list Z) (t : nat)
    (v : sha1_vars) : sha1_vars :=
  let '(a, b, c, d, e) := v in
  let T := ROTL32 a 5 +32 f_t b c d +32 e +32 K +32 W.[t] in
  (T, a, ROTL32 b 30, c, d).

Definition RT_SHA1_Hash (ctx : HASH_CTX_STRUC) : HASH_CTX_STRUC :=
  let W := map cpu2be32 (load_words 16 (Block ctx)) in
  let W := loop 16 64 (λ i W,
    W ++ [ROTL32 (W.[i - 3] ^^ W.[i - 8] ^^ W.[i - 14] ^^ W.[i - 16]) 1]) W in
  let HV := HashValue ctx in
  let v := (HV.[0], HV.[1], HV.[2], HV.[3], HV.[4]) in
  let v := loop 0 20 (SHA1_iteration Ch SHA1_K.[0] W) v in
  let v := loop 20 20 (SHA1_iteration Parity SHA1_K.[1] W) v in
  let v := loop 40 20 (SHA1_iteration Maj SHA1_K.[2] W) v in
  let v := loop 60 20 (SHA1_iteration Parity SHA1_K.[3] W) v in
  let '(a, b, c, d, e) := v in
  HASH_CTX [HV.[0] +32 a; HV.[1] +32 b; HV.[2] +32 c; HV.[3] +32 d; HV.[4] +32 e]
    (MessageLen ctx) (zeros 64) 0.

Definition RT_SHA1_Init : HASH_CTX_STRUC := Init SHA1_DefaultHashValue.
Definition RT_SHA1_Append : HASH_CTX_STRUC → list Z → Z → option HASH_CTX_STRUC :=
  Append RT_SHA1_Hash.
Definition RT_SHA1_End : HASH_CTX_STRUC → list Z := End RT_SHA1_Hash cpu2be32 cpu2be64 5.
Definition RT_SHA1 (Message : list Z) (MsgLen : Z) : option (list Z) :=
  c ← RT_SHA1_Append RT_SHA1_Init Message MsgLen; Some (RT_SHA1_End c).

(** ** SHA-256 *)

Definition sha256_vars : Type := Z * Z * Z * Z * Z * Z * Z * Z.

(** One iteration of the round loop of [RT_SHA256_Hash], which extends the
    schedule as it goes. *)
Definition SHA256_iteration (t : nat) (s : list Z * sha256_vars) : list Z * sha256_vars :=
  let '(W, (a, b, c, d, e, f, g, h)) := s in
  let W := if (15 <? t)%nat
           then W ++ [Sigma_256_1 W.[t - 2] +32 W.[t - 7] +32 Sigma_256_0 W.[t - 15] +32 W.[t - 16]]
           else W in
  let T1 := h +32 Zsigma_256_1 e +32 Ch e f g +32 SHA256_K.[t] +32 W.[t] in
  let T2 := Zsigma_256_0 a +32 Maj a b c in
  (W, (T1 +32 T2, a, b, c, d +32 T1, e, f, g)).

Definition RT_SHA256_Hash (ctx : HASH_CTX_STRUC) : HASH_CTX_STRUC :=
  let W := map cpu2be32 (load_words 16 (Block ctx)) in
  let HV := HashValue ctx in
  let v := (HV.[0], HV.[1], HV.[2], HV.[3], HV.[4], HV.[5], HV.[6], HV.[7]) in
  let '(_, (a, b, c, d, e, f, g, h)) := loop 0 64 SHA256_iteration (W, v) in
  HASH_CTX [HV.[0] +32 a; HV.[1] +32 b; HV.[2] +32 c; HV.[3] +32 d;
            HV.[4] +32 e; HV.[5] +32 f; HV.[6] +32 g; HV.[7] +32 h]
    (MessageLen ctx) (zeros 64) 0.

Definition RT_SHA256_Init : HASH_CTX_STRUC := Init SHA256_DefaultHashValue.
Definition RT_SHA256_Append : HASH_CTX_STRUC → list Z → Z → option HASH_CTX_STRUC :=
  Append RT_SHA256_Hash.
Definition RT_SHA256_End : HASH_CTX_STRUC → list Z := End RT_SHA256_Hash cpu2be32 cpu2be64 8.
Definition RT_SHA256 (Message : list Z) (MsgLen : Z) : option (list Z) :=
  c ← RT_SHA256_Append RT_SHA256_Init Message MsgLen; Some (RT_SHA256_End c).

(** ** References (FIPS 180-4) *)

Definition be_words (block : list Z) : list Z :=
  map (λ i, be_word (slice block (4 * i) 4)) (seq 0 16).

(** The schedule of [n] words, from the recurrence [next]. *)
Definition schedule (next : list Z → nat → Z) (block : list Z) (n : nat) : list Z :=
  loop 0 n (λ t W, W ++ [if (t <? 16)%nat then (be_words block).[t] else next W t]) [].

Definition sha1_f (t : nat) : Z → Z → Z → Z :=
  if (t <? 20)%nat then Ch else if (t <? 40)%nat then Parity
  else if (t <? 60)%nat then Maj else Parity.

Definition sha1_next (W : list Z) (t : nat) : Z :=
  ROTL32 (W.[t - 3] ^^ W.[t - 8] ^^ W.[t - 14] ^^ W.[t - 16]) 1.

Definition sha1_step (W : list Z) (t : nat) (v : sha1_vars) : sha1_vars :=
  let '(a, b, c, d, e) := v in
  (u32 (ROTL32 a 5 + sha1_f t b c d + e + SHA1_K.[t / 20] + W.[t]), a, ROTL32 b 30, c, d).

Definition sha1_block (h block : list Z) : list Z :=
  let W := schedule sha1_next block 80 in
  let '(a, b, c, d, e) := loop 0 80 (sha1_step W) (h.[0], h.[1], h.[2], h.[3], h.[4]) in
  [u32 (h.[0] + a); u32 (h.[1] + b); u32 (h.[2] + c); u32 (h.[3] + d); u32 (h.[4] + e)].

Definition sha1 : list Z → list Z :=
  md_hash sha1_block SHA1_DefaultHashValue (be_bytes 4) (be_bytes 8).

Definition sha256_next (W : list Z) (t : nat) : Z :=
  u32 (Sigma_256_1 W.[t - 2] + W.[t - 7] + Sigma_256_0 W.[t - 15] + W.[t - 16]).

Definition sha256_step (W : list Z) (t : nat) (v : sha256_vars) : sha256_vars :=
  let '(a, b, c, d, e, f, g, h) := v in
  let T1 := h + Zsigma_256_1 e + Ch e f g + SHA256_K.[t] + W.[t] in
  let T2 := Zsigma_256_0 a + Maj a b c in
  (u32 (T1 + T2), a, b, c, u32 (d + T1), e, f, g).

Definition sha256_block (h block : list Z) : list Z :=
  let W := schedule sha256_next block 64 in
  let '(a, b, c, d, e, f, g, h') :=
    loop 0 64 (sha256_step W) (h.[0], h.[1], h.[2], h.[3], h.[4], h.[5], h.[6], h.[7]) in
  zip_with (λ x y, u32 (x + y)) [h.[0]; h.[1]; h.[2]; h.[3]; h.[4]; h.[5]; h.[6]; h.[7]]
    [a; b; c; d; e; f; g; h'].

Definition sha256 : list Z → list Z :=
  md_hash sha256_block SHA256_DefaultHashValue (be_bytes 4) (be_bytes 8).

Example sha1_abc :
  RT_SHA1 [97; 98; 99] 3 = Some (flat_map (be_bytes 4)
    [0xa9993e36; 0x4706816a; 0xba3e2571; 0x7850c26c; 0x9cd0d89d]).
Proof. vm_compute. reflexivity. Qed.

Example sha256_abc :
  RT_SHA256 [97; 98; 99] 3 = Some (flat_map (be_bytes 4)
    [0xba7816bf; 0x8f01cfea; 0x414140de; 0x5dae2223;
     0xb00361a3; 0x96177a9c; 0xb410ff61; 0xf20015ad]).
Proof. vm_compute. reflexivity. Qed.

(** ** Words and schedules *)

Lemma cpu2be32_le_word s : length s = 4%nat → bytes s → cpu2be32 (le_word s) = be_word s.
Proof.
  intros Hl Hs. unfold cpu2be32, be_word, be_bytes. by rewrite <- Hl, le_bytes_le_word.
Qed.

Lemma be_words_loaded block :
  bytes block → length block = 64%nat → map cpu2be32 (load_words 16 block) = be_words block.
Proof.
  intros Hb Hl. unfold load_words, be_words. rewrite map_map. apply map_ext_in.
  intros i Hi%in_seq. apply cpu2be32_le_word; [|by apply bytes_slice].
  apply length_slice. lia.
Qed.

Lemma schedule_S next block n :
  schedule next block (S n) = schedule next block n ++
    [if (n <? 16)%nat then (be_words block).[n] else next (schedule next block n) n].
Proof. unfold schedule. by rewrite loop_snoc. Qed.

Lemma length_schedule next block n : length (schedule next block n) = n.
Proof. induction n as [|n IH]; [done|]. rewrite schedule_S, length_app, IH. cbn. lia. Qed.

Lemma schedule_16 next block : schedule next block 16 = be_words block.
Proof. reflexivity. Qed.

(** A longer schedule has the same words at the indices of a shorter one. *)
Lemma schedule_get next block n m t :
  (t < n <= m)%nat → (schedule next block m).[t] = (schedule next block n).[t].
Proof.
  intros H. induction m as [|m IH]; [lia|].
  destruct (decide (n = S m)) as [->|]; [done|].
  rewrite schedule_S, get_app_l by (rewrite length_schedule; lia). apply IH. lia.
Qed.

Lemma schedule_extend next block n :
  loop 16 n (λ i W, W ++ [next W i]) (be_words block) = schedule next block (16 + n).
Proof.
  rewrite <- (schedule_16 next). induction n as [|n IH]; [done|].
  rewrite loop_snoc, IH, Nat.add_succ_r, schedule_S.
  by rewrite (proj2 (Nat.ltb_ge _ _)) by lia.
Qed.

(** ** SHA-1 *)

Lemma SHA1_iteration_step (f : Z → Z → Z → Z) K W t v :
  sha1_f t = f → SHA1_K.[t / 20] = K → SHA1_iteration f K W t v = sha1_step W t v.
Proof.
  intros <- <-. destruct v as [[[[a b] c] d] e]. unfold SHA1_iteration, sha1_step.
  by rewrite u32_sum5.
Qed.

Lemma sha1_rounds_20 W r v f K :
  (∀ t, (20 * r <= t < 20 * r + 20)%nat → sha1_f t = f) → SHA1_K.[r] = K →
  loop (20 * r) 20 (SHA1_iteration f K W) v = loop (20 * r) 20 (sha1_step W) v.
Proof.
  intros Hf HK. apply loop_ext. intros t s Ht. apply SHA1_iteration_step; [by apply Hf|].
  replace (t / 20)%nat with r; [done|]. apply Nat.div_unique with (t - 20 * r)%nat; lia.
Qed.

Ltac sha1_f_tac :=
  let t := fresh "t" in
  intros t ?; unfold sha1_f;
  destruct (Nat.ltb_spec t 20), (Nat.ltb_spec t 40), (Nat.ltb_spec t 60);
  first [lia | reflexivity].

Lemma sha1_rounds W v :
  loop 60 20 (SHA1_iteration Parity SHA1_K.[3] W)
   (loop 40 20 (SHA1_iteration Maj SHA1_K.[2] W)
     (loop 20 20 (SHA1_iteration Parity SHA1_K.[1] W)
       (loop 0 20 (SHA1_iteration Ch SHA1_K.[0] W) v))) = loop 0 80 (sha1_step W) v.
Proof.
  rewrite (sha1_rounds_20 W 0), (sha1_rounds_20 W 1), (sha1_rounds_20 W 2), (sha1_rounds_20 W 3)
    by (done || sha1_f_tac).
  rewrite (loop_add 0 20 60), (loop_add 20 20 40), (loop_add 40 20 20). done.
Qed.

#[export] Instance RT_SHA1_block_function : BlockFunction RT_SHA1_Hash sha1_block.
Proof.
  intros c Hb Hl. unfold RT_SHA1_Hash, sha1_block.
  rewrite be_words_loaded, sha1_rounds, (schedule_extend sha1_next) by done.
  by destruct (loop 0 80 (sha1_step _) _) as [[[[??]?]?]?].
Qed.

#[export] Instance RT_SHA1_stream :
  StreamHash RT_SHA1_Init RT_SHA1_Append RT_SHA1_End sha1 20.
Proof.
  apply (block_stream_hash RT_SHA1_Hash sha1_block); [apply be32_swap|apply be64_swap|].
  intros h b. unfold sha1_block. by destruct (loop 0 80 (sha1_step _) _) as [[[[??]?]?]?].
Qed.

(** ** SHA-256 *)

Lemma SHA256_extend (block : list Z) t :
  let W := schedule sha256_next block (Nat.max 16 t) in
  (if (15 <? t)%nat
   then W ++ [Sigma_256_1 W.[t - 2] +32 W.[t - 7] +32 Sigma_256_0 W.[t - 15] +32 W.[t - 16]]
   else W) = schedule sha256_next block (Nat.max 16 (S t)).
Proof.
  intros W. subst W. destruct (Nat.ltb_spec 15 t).
  - rewrite !Nat.max_r by lia. rewrite schedule_S, (proj2 (Nat.ltb_ge _ _)) by lia.
    do 2 f_equal. apply u32_sum4.
  - by rewrite !Nat.max_l by lia.
Qed.

Lemma SHA256_iteration_step (block : list Z) t v :
  SHA256_iteration t (schedule sha256_next block (Nat.max 16 t), v) =
    (schedule sha256_next block (Nat.max 16 (S t)), sha256_step (schedule sha256_next block (S t)) t v).
Proof.
  destruct v as [[[[[[[a b] c] d] e] f] g] h]. unfold SHA256_iteration, sha256_step.
  rewrite SHA256_extend, (schedule_get _ _ (S t) (Nat.max 16 (S t)) t) by lia.
  by rewrite (u32_sum5 h), u32_add_r, u32_add_l, u32_add_r.
Qed.

Lemma sha256_rounds block v :
  (loop 0 64 SHA256_iteration (be_words block, v)).2 =
    loop 0 64 (sha256_step (schedule sha256_next block 64)) v.
Proof.
  enough (∀ n, (n <= 64)%nat → loop 0 n SHA256_iteration (be_words block, v) =
    (schedule sha256_next block (Nat.max 16 n),
     loop 0 n (sha256_step (schedule sha256_next block 64)) v)) as Hn by (by rewrite Hn).
  intros n. induction n as [|n IH]; intros Hle; [done|].
  rewrite !loop_snoc, IH, SHA256_iteration_step by lia. f_equal.
  destruct (loop 0 n _ v) as [[[[[[[a b] c] d] e] f] g] h]. unfold sha256_step.
  by rewrite (schedule_get _ _ (S n) 64) by lia.
Qed.

#[export] Instance RT_SHA256_block_function : BlockFunction RT_SHA256_Hash sha256_block.
Proof.
  intros c Hb Hl. unfold RT_SHA256_Hash, sha256_block.
  rewrite be_words_loaded, <- sha256_rounds by done.
  by destruct (loop 0 64 SHA256_iteration _) as [W [[[[[[[??]?]?]?]?]?]?]].
Qed.

#[export] Instance RT_SHA256_stream :
  StreamHash RT_SHA256_Init RT_SHA256_Append RT_SHA256_End sha256 32.
Proof.
  apply (block_stream_hash RT_SHA256_Hash sha256_block); [apply be32_swap|apply be64_swap|].
  intros h b. unfold sha256_block. by destruct (loop 0 64 (sha256_step _) _) as [[[[[[[??]?]?]?]?]?]?].
Qed.

(** ** The property *)

(** [RT_SHA1], and any sequence of [RT_SHA1_Append] calls between
    [RT_SHA1_Init] and [RT_SHA1_End], return (the loops of [Append] terminate)
    the FIPS 180-4 SHA-1 digest of the message, whatever its length and however it is cut
    into chunks (each shorter than [2^32 - 64] bytes). *)
Theorem RT_SHA1_correct (chunks : list (list Z)) (m : list Z) :
  Forall message chunks → message m →
  hash_chunks RT_SHA1_Init RT_SHA1_Append RT_SHA1_End chunks = Some (sha1 (concat chunks)) ∧
  RT_SHA1 m (Z.of_nat (length m)) = Some (sha1 m) ∧ length (sha1 m) = 20%nat.
Proof.
  intros Hc Hm. split_and!; [by apply stream_hash|exact (stream_one m Hm)|apply stream_length].
Qed.

Lemma RT_SHA1_correct_witness :
  let chunks := [[97]; []; [98; 99]] in
  hash_chunks RT_SHA1_Init RT_SHA1_Append RT_SHA1_End chunks = Some (sha1 [97; 98; 99]) ∧
  RT_SHA1 [97; 98; 99] 3 = Some (sha1 [97; 98; 99]) ∧ length (sha1 [97; 98; 99]) = 20%nat.
Proof.
  apply (RT_SHA1_correct [[97]; []; [98; 99]] [97; 98; 99]);
    repeat constructor; unfold fits; cbn; lia.
Defined.

(** [RT_SHA256], and any sequence of [RT_SHA256_Append] calls between
    [RT_SHA256_Init] and [RT_SHA256_End], return (the loops of [Append] terminate)
    the FIPS 180-4 SHA-256 digest of the message, whatever its length and however it is cut
    into chunks (each shorter than [2^32 - 64] bytes). *)
Theorem RT_SHA256_correct (chunks : list (list Z)) (m : list Z) :
  Forall message chunks → message m →
  hash_chunks RT_SHA256_Init RT_SHA256_Append RT_SHA256_End chunks = Some (sha256 (concat chunks)) ∧
  RT_SHA256 m (Z.of_nat (length m)) = Some (sha256 m) ∧ length (sha256 m) = 32%nat.
Proof.
  intros Hc Hm. split_and!; [by apply stream_hash|exact (stream_one m Hm)|apply stream_length].
Qed.

Lemma RT_SHA256_correct_witness :
  let chunks := [[97]; []; [98; 99]] in
  hash_chunks RT_SHA256_Init RT_SHA256_Append RT_SHA256_End chunks = Some (sha256 [97; 98; 99]) ∧
  RT_SHA256 [97; 98; 99] 3 = Some (sha256 [97; 98; 99]) ∧ length (sha256 [97; 98; 99]) = 32%nat.
Proof.
  apply (RT_SHA256_correct [[97]; []; [98; 99]] [97; 98; 99]);
    repeat constructor; unfold fits; cbn; lia.
Defined.
