(* ===== verification/Hmac.v ===== *)
(** * HMAC

    Models [linux/Arch/rt5370.driver/common/crypt_hmac.c]: the three
    functions [RT_HMAC_SHA1], [RT_HMAC_SHA256] and [RT_HMAC_MD5] are one text
    over the streaming interface of a hash, here [HMAC].  Keys, messages and
    the output buffer are the caller's memory: an access outside of them is
    [None].

    The reference is RFC 2104; the proof uses only the interface
    [StreamHash], so it holds for every hash that implements it. *)

From stdpp Require Import base list numbers list_numbers.
From Stdlib Require Import ZArith Lia.
From S2P Require Import Prelude BlockHash Md5 Sha.

Section HMAC.
Context (init : HASH_CTX_STRUC)
  (append : HASH_CTX_STRUC → list Z → Z → option HASH_CTX_STRUC)
  (fin : HASH_CTX_STRUC → list Z)
  (one : list Z → Z → option (list Z))
  (DIGEST_SIZE : nat).

(** The digest of two appended pieces. *)
Definition hash2 (a : list Z) (la : Z) (b : list Z) (lb : Z) : option (list Z) :=
  c ← append init a la;
  c ← append c b lb;
  Some (fin c).

Definition HMAC (Key : list Z) (KeyLen : Z) (Message : list Z) (MessageLen : Z)
    (MAC : list Z) (MACLen : Z) : option (list Z) :=
  Key ← load Key 0 KeyLen;
  Message ← load Message 0 MessageLen;
  K0 ← (if KeyLen <=? HASH_BLOCK_SIZE then Some (put (zeros 64) 0 Key)
        else Digest ← one Key KeyLen; Some (put (zeros 64) 0 Digest));
  let K0 := map (λ x, x ^^ 0x36) K0 in
  Digest ← hash2 K0 64 Message MessageLen;
  let K0 := map (λ x, x ^^ (0x36 ^^ 0x5c)) K0 in
  Digest ← hash2 K0 64 Digest (Z.of_nat DIGEST_SIZE);
  if Z.of_nat DIGEST_SIZE <? MACLen then store MAC 0 (take DIGEST_SIZE Digest)
  else store MAC 0 (take (Z.to_nat MACLen) Digest).
End HMAC.

Definition RT_HMAC_SHA1 : list Z → Z → list Z → Z → list Z → Z → option (list Z) :=
  HMAC RT_SHA1_Init RT_SHA1_Append RT_SHA1_End RT_SHA1 20.
Definition RT_HMAC_SHA256 : list Z → Z → list Z → Z → list Z → Z → option (list Z) :=
  HMAC RT_SHA256_Init RT_SHA256_Append RT_SHA256_End RT_SHA256 32.
Definition RT_HMAC_MD5 : list Z → Z → list Z → Z → list Z → Z → option (list Z) :=
  HMAC RT_MD5_Init RT_MD5_Append RT_MD5_End RT_MD5 16.

(** ** Reference (RFC 2104) *)

Definition hmac_key (H : list Z → list Z) (key : list Z) : list Z :=
  let k := if (length key <=? 64)%nat then key else H key in
  k ++ zeros (64 - length k).

Definition hmac (H : list Z → list Z) (key msg : list Z) : list Z :=
  let k := hmac_key H key in
  H (map (Z.lxor 0x5c) k ++ H (map (Z.lxor 0x36) k ++ msg)).

(** RFC 4231, test case 2. *)
Example hmac_sha256_jefe :
  RT_HMAC_SHA256 [0x4a; 0x65; 0x66; 0x65] 4
    [0x77;0x68;0x61;0x74;0x20;0x64;0x6f;0x20;0x79;0x61;0x20;0x77;0x61;0x6e;0x74;0x20;
     0x66;0x6f;0x72;0x20;0x6e;0x6f;0x74;0x68;0x69;0x6e;0x67;0x3f] 28 (zeros 8) 8 =
  Some [0x5b;0xdc;0xc1;0x46;0xbf;0x60;0x75;0x4e].
Proof. vm_compute. reflexivity. Qed.

(** ** The driver's HMAC over any hash with the streaming interface *)

Lemma bytes_xor_pad x l : byte x → bytes l → bytes (map (λ y, y ^^ x) l).
Proof.
  intros Hx Hl. induction Hl as [|y l Hy Hl IH]; cbn; constructor; [|done].
  by apply fits_lxor.
Qed.

Lemma put_zeros_0 k n : (length k <= n)%nat → put (zeros n) 0 k = k ++ zeros (n - length k).
Proof.
  intros H. rewrite put_splice, take_0 by (rewrite length_zeros; lia). cbn [app]. f_equal.
  apply drop_replicate.
Qed.

Section Correctness.
Context (init : HASH_CTX_STRUC)
  (append : HASH_CTX_STRUC → list Z → Z → option HASH_CTX_STRUC)
  (fin : HASH_CTX_STRUC → list Z) (H : list Z → list Z) (n : nat).
Context `{!StreamHash init append fin H n}.
Context (one : list Z → Z → option (list Z)).
Context (one_spec : ∀ m, message m → one m (Z.of_nat (length m)) = Some (H m)).
Context (n_block : (n <= 64)%nat).

Lemma hash2_spec a b :
  message a → message b →
  hash2 init append fin a (Z.of_nat (length a)) b (Z.of_nat (length b)) = Some (H (a ++ b)).
Proof.
  intros Ha Hb. rewrite <- (app_nil_r b) at 3.
  rewrite <- (stream_hash [a; b]) by (repeat constructor; apply Ha || apply Hb).
  unfold hash2, hash_chunks. cbn [foldl mbind option_bind].
  by destruct (append init a _).
Qed.

Lemma length_hmac_key key : length (hmac_key H key) = 64%nat.
Proof.
  unfold hmac_key. rewrite length_app, length_zeros.
  destruct (Nat.leb_spec (length key) 64); rewrite ?stream_length; lia.
Qed.

Lemma bytes_hmac_key key : bytes key → bytes (hmac_key H key).
Proof.
  intros Hk. apply Forall_app. split; [|by apply fits_zeros].
  destruct (_ <=? _)%nat; [done|apply stream_bytes].
Qed.

Lemma hmac_key_K0 key :
  message key →
  (if Z.of_nat (length key) <=? HASH_BLOCK_SIZE then Some (put (zeros 64) 0 key)
   else Digest ← one key (Z.of_nat (length key)); Some (put (zeros 64) 0 Digest)) =
  Some (hmac_key H key).
Proof.
  intros Hk. unfold hmac_key, HASH_BLOCK_SIZE.
  destruct (Z.leb_spec (Z.of_nat (length key)) 64).
  - rewrite put_zeros_0 by lia. by rewrite (proj2 (Nat.leb_le _ _)) by lia.
  - rewrite one_spec by done. cbn [mbind option_bind].
    rewrite put_zeros_0 by (rewrite stream_length; lia).
    by rewrite (proj2 (Nat.leb_gt _ _)) by lia.
Qed.

Lemma message_small m : bytes m → (length m <= 64)%nat → message m.
Proof. intros Hb Hl. split; [done|lia]. Qed.

Lemma HMAC_spec key msg MAC MACLen :
  message key → message msg → 0 <= MACLen → Z.min MACLen (Z.of_nat n) <= Z.of_nat (length MAC) →
  HMAC init append fin one n key (Z.of_nat (length key)) msg (Z.of_nat (length msg)) MAC MACLen =
  Some (put MAC 0 (take (Z.to_nat (Z.min MACLen (Z.of_nat n))) (hmac H key msg))).
Proof.
  intros Hk Hm HL HM. pose proof (bytes_hmac_key key (proj1 Hk)) as Hkb.
  pose proof (length_hmac_key key) as Hkl.
  assert (∀ x, byte x → message (map (λ y, y ^^ x) (hmac_key H key))) as Hpad.
  { intros x Hx. apply message_small; [by apply bytes_xor_pad|rewrite length_map; lia]. }
  unfold HMAC. rewrite !load_ok by lia. cbn [mbind option_bind].
  unfold slice. rewrite !Nat2Z.id, !take_ge by (rewrite length_drop; lia).
  rewrite hmac_key_K0 by done. cbn [mbind option_bind drop Z.to_nat].
  set (k := hmac_key H key) in *.
  assert (64 = Z.of_nat (length (map (λ x, x ^^ 54) k))) as E64 by (rewrite length_map; lia).
  rewrite E64 at 1. rewrite hash2_spec by (apply Hpad || done; unfold fits; lia).
  cbn [mbind option_bind]. rewrite map_map.
  assert (map (λ x, x ^^ 54 ^^ (54 ^^ 92)) k = map (λ x, x ^^ 92) k) as ->.
  { apply map_ext. intros x. rewrite <- !Z.lxor_assoc, lxor_cancel_r. done. }
  assert (64 = Z.of_nat (length (map (λ x, x ^^ 92) k))) as -> by (rewrite length_map; lia).
  rewrite <- (stream_length (map (λ x, x ^^ 54) k ++ msg)) at 1.
  rewrite hash2_spec.
  2:{ apply Hpad. unfold fits. lia. }
  2:{ apply message_small; [apply stream_bytes|rewrite stream_length; lia]. }
  cbn [mbind option_bind].
  assert (∀ x, map (λ y, y ^^ x) k = map (Z.lxor x) k) as Hc
    by (intros; apply map_ext; intros; apply Z.lxor_comm).
  rewrite !Hc. change (H (map (Z.lxor 92) k ++ _)) with (hmac H key msg).
  assert (length (hmac H key msg) = n) as Hn by (unfold hmac; apply stream_length).
  destruct (Z.ltb_spec (Z.of_nat n) MACLen); rewrite store_ok; do 2 f_equal; try f_equal;
    rewrite ?length_take; lia.
Qed.
End Correctness.

(** The calls of other files: a prefix of the key and message buffers. *)
Lemma HMAC_prefix {init append fin one n} Key (kl : nat) Msg (ml : nat) MAC MACLen :
  (kl <= length Key)%nat → (ml <= length Msg)%nat →
  HMAC init append fin one n Key (Z.of_nat kl) Msg (Z.of_nat ml) MAC MACLen =
  HMAC init append fin one n (take kl Key) (Z.of_nat (length (take kl Key)))
    (take ml Msg) (Z.of_nat (length (take ml Msg))) MAC MACLen.
Proof.
  intros Hk Hm. unfold HMAC. rewrite !length_take, !Nat.min_l by done.
  rewrite !load_ok by (rewrite ?length_take; lia). cbn [mbind option_bind].
  unfold slice. rewrite !Nat2Z.id, !drop_0, !take_take, !Nat.min_id. done.
Qed.

Section Calls.
Context (Key : list Z) (kl : nat) (Msg : list Z) (ml : nat) (MAC : list Z) (n : nat).
Context (key_len : (kl <= length Key)%nat) (msg_len : (ml <= length Msg)%nat).
Context (key_ok : message (take kl Key)) (msg_ok : message (take ml Msg)).
Context (mac_len : (n <= length MAC)%nat).

Lemma RT_HMAC_SHA1_ok :
  (n <= 20)%nat →
  RT_HMAC_SHA1 Key (Z.of_nat kl) Msg (Z.of_nat ml) MAC (Z.of_nat n) =
  Some (put MAC 0 (take n (hmac sha1 (take kl Key) (take ml Msg)))).
Proof.
  intros Hn. unfold RT_HMAC_SHA1. rewrite HMAC_prefix by done.
  rewrite (HMAC_spec _ _ _ sha1 20 RT_SHA1); try (done || lia || exact stream_one).
  by rewrite Z.min_l, Nat2Z.id by lia.
Qed.

Lemma RT_HMAC_SHA256_ok :
  (n <= 32)%nat →
  RT_HMAC_SHA256 Key (Z.of_nat kl) Msg (Z.of_nat ml) MAC (Z.of_nat n) =
  Some (put MAC 0 (take n (hmac sha256 (take kl Key) (take ml Msg)))).
Proof.
  intros Hn. unfold RT_HMAC_SHA256. rewrite HMAC_prefix by done.
  rewrite (HMAC_spec _ _ _ sha256 32 RT_SHA256); try (done || lia || exact stream_one).
  by rewrite Z.min_l, Nat2Z.id by lia.
Qed.

Lemma RT_HMAC_MD5_ok :
  (n <= 16)%nat →
  RT_HMAC_MD5 Key (Z.of_nat kl) Msg (Z.of_nat ml) MAC (Z.of_nat n) =
  Some (put MAC 0 (take n (hmac md5 (take kl Key) (take ml Msg)))).
Proof.
  intros Hn. unfold RT_HMAC_MD5. rewrite HMAC_prefix by done.
  rewrite (HMAC_spec _ _ _ md5 16 RT_MD5); try (done || lia || exact stream_one).
  by rewrite Z.min_l, Nat2Z.id by lia.
Qed.
End Calls.

Lemma length_hmac_sha1 k m : length (hmac sha1 k m) = 20%nat.
Proof. unfold hmac. apply stream_length. Qed.
Lemma length_hmac_sha256 k m : length (hmac sha256 k m) = 32%nat.
Proof. unfold hmac. apply stream_length. Qed.
Lemma length_hmac_md5 k m : length (hmac md5 k m) = 16%nat.
Proof. unfold hmac. apply stream_length. Qed.
Lemma bytes_hmac_sha1 k m : bytes (hmac sha1 k m).
Proof. unfold hmac. apply stream_bytes. Qed.
Lemma bytes_hmac_sha256 k m : bytes (hmac sha256 k m).
Proof. unfold hmac. apply stream_bytes. Qed.
Lemma bytes_hmac_md5 k m : bytes (hmac md5 k m).
Proof. unfold hmac. apply stream_bytes. Qed.

#[export] Hint Resolve bytes_hmac_sha1 bytes_hmac_sha256 bytes_hmac_md5 : rt.
#[export] Hint Rewrite length_hmac_sha1 length_hmac_sha256 length_hmac_md5 : len.

(** ** The property *)

(** the three HMAC functions write the first [MACLen] bytes of the
    RFC 2104 MAC (all of it when [MACLen] is larger) at the start of the
    output buffer and change nothing else, for keys of every length: short,
    of one block and longer ones, which are hashed first. *)
Theorem RT_HMAC_correct (key msg MAC : list Z) (MACLen : Z) :
  message key → message msg → 0 <= MACLen → MACLen <= Z.of_nat (length MAC) →
  let out H n := Some (put MAC 0 (take (Z.to_nat (Z.min MACLen n)) (hmac H key msg))) in
  let kl := Z.of_nat (length key) in
  let ml := Z.of_nat (length msg) in
  RT_HMAC_SHA1 key kl msg ml MAC MACLen = out sha1 20 ∧
  RT_HMAC_SHA256 key kl msg ml MAC MACLen = out sha256 32 ∧
  RT_HMAC_MD5 key kl msg ml MAC MACLen = out md5 16.
Proof.
  intros Hk Hm HL HM out kl ml.
  split_and!; [eapply (HMAC_spec _ _ _ sha1 20 RT_SHA1) | eapply (HMAC_spec _ _ _ sha256 32 RT_SHA256)
    | eapply (HMAC_spec _ _ _ md5 16 RT_MD5)]; first [done | lia | exact stream_one].
Qed.

Lemma RT_HMAC_correct_witness :
  let key := repeat 0xaa 80 in
  RT_HMAC_SHA1 key 80 [1; 2; 3] 3 (zeros 12) 12 = Some (take 12 (hmac sha1 key [1; 2; 3])) ∧
  RT_HMAC_SHA256 key 80 [1; 2; 3] 3 (zeros 12) 12 = Some (take 12 (hmac sha256 key [1; 2; 3])) ∧
  RT_HMAC_MD5 key 80 [1; 2; 3] 3 (zeros 12) 12 = Some (take 12 (hmac md5 key [1; 2; 3])).
Proof.
  pose proof (RT_HMAC_correct (repeat 0xaa 80) [1; 2; 3] (zeros 12) 12) as H.
  split_and!; [refine (eq_trans (proj1 (H _ _ _ _)) _)
    |refine (eq_trans (proj1 (proj2 (H _ _ _ _))) _)
    |refine (eq_trans (proj2 (proj2 (H _ _ _ _))) _)];
    first [vm_compute; reflexivity | split; [repeat constructor|] | idtac]; cbn; lia.
Defined.
