(* ===== verification/Aes.v ===== *)
(** * AES block cipher

    Models [RT_AES_KeyExpansion], [RT_AES_Encrypt] and [RT_AES_Decrypt] of
    [linux/Arch/rt5370.driver/common/crypt_aes.c] with their guards and the
    allocation of the context, and proves them equal to FIPS 197 and inverse
    of each other.

    [State[r][c]] is element [4 * r + c] of a list of 16 and
    [KeyWordExpansion[r][i]] element [60 * r + i] of a list of 240.  The
    context comes from [os_alloc_mem] with indeterminate contents. *)

From stdpp Require Import base list numbers list_numbers.
From Stdlib Require Import ZArith Lia.
From S2P Require Import Prelude AesTables.

Definition AES_BLOCK_SIZES : Z := 16.
Definition sizeof_AES_CTX_STRUC : Z := 256.

(** ** Key expansion *)

(** One turn of the first [while]: the key bytes of word [i]. *)
Definition KeyExpansion_copy (Key : list Z) (i : nat) (W : list Z) : list Z :=
  loop 0 4 (λ r W, W.[60 * r + i <- Key.[4 * i + r]]) W.

(** The last four statements of the second [while]. *)
Definition KeyExpansion_store (Nk i : nat) (T : Z * Z * Z * Z) (W : list Z) : list Z :=
  let '(T0, T1, T2, T3) := T in
  let W := W.[60 * 0 + i <- W.[60 * 0 + (i - Nk)] ^^ T0] in
  let W := W.[60 * 1 + i <- W.[60 * 1 + (i - Nk)] ^^ T1] in
  let W := W.[60 * 2 + i <- W.[60 * 2 + (i - Nk)] ^^ T2] in
  W.[60 * 3 + i <- W.[60 * 3 + (i - Nk)] ^^ T3].

(** One turn of the second [while]. *)
Definition KeyExpansion_word (Nk : nat) (i : nat) (W : list Z) : list Z :=
  let T0 := W.[60 * 0 + (i - 1)] in
  let T1 := W.[60 * 1 + (i - 1)] in
  let T2 := W.[60 * 2 + (i - 1)] in
  let T3 := W.[60 * 3 + (i - 1)] in
  KeyExpansion_store Nk i
    (if (i mod Nk =? 0)%nat then
      let Temprcon := aes_rcon.[i / Nk] in
      (u8 (tab aes_sbox_enc T1 ^^ (Temprcon >> 24 & 255)),
       u8 (tab aes_sbox_enc T2 ^^ (Temprcon >> 16 & 255)),
       u8 (tab aes_sbox_enc T3 ^^ (Temprcon >> 8 & 255)),
       u8 (tab aes_sbox_enc T0 ^^ (Temprcon & 255)))
    else if (6 <? Nk)%nat && (i mod Nk =? 4)%nat then
      (tab aes_sbox_enc T0, tab aes_sbox_enc T1, tab aes_sbox_enc T2, tab aes_sbox_enc T3)
    else (T0, T1, T2, T3)) W.

Definition RT_AES_KeyExpansion (Key : list Z) (KeyLength : Z) (W : list Z) : list Z :=
  let NumberOfWordOfKey := Z.to_nat (KeyLength >> 2) in
  let W := loop 0 NumberOfWordOfKey (KeyExpansion_copy Key) W in
  let NumberOfWordOfKeyExpansion := (4 * (NumberOfWordOfKey + 6 + 1))%nat in
  loop NumberOfWordOfKey (NumberOfWordOfKeyExpansion - NumberOfWordOfKey)
    (KeyExpansion_word NumberOfWordOfKey) W.

(** ** The transformations of the state *)

(** [for (RowIndex ...) for (ColumnIndex ...) State[..][..] = f ...]. *)
Definition for_state (f : nat → nat → Z → Z) (S : list Z) : list Z :=
  loop 0 4 (λ r S, loop 0 4 (λ c S, S.[4 * r + c <- f r c S.[4 * r + c]]) S) S.

Definition AES_LoadState (Block : list Z) (S : list Z) : list Z :=
  for_state (λ r c _, Block.[r + 4 * c]) S.

Definition AES_StoreState (S : list Z) (Block : list Z) : list Z :=
  loop 0 4 (λ r B, loop 0 4 (λ c B, B.[r + 4 * c <- S.[4 * r + c]]) B) Block.

Definition AES_AddRoundKey (W : list Z) (RoundIndex : nat) : list Z → list Z :=
  for_state (λ r c x, x ^^ W.[60 * r + (RoundIndex * 4 + c)]).

Definition AES_SubBytes : list Z → list Z := for_state (λ _ _ x, tab aes_sbox_enc x).
Definition AES_InvSubBytes : list Z → list Z := for_state (λ _ _ x, tab aes_sbox_dec x).

Definition AES_ShiftRows (S : list Z) : list Z :=
  let Temp := S.[4] in
  let S := S.[4 <- S.[5]] in
  let S := S.[5 <- S.[6]] in
  let S := S.[6 <- S.[7]] in
  let S := S.[7 <- Temp] in
  let Temp := S.[8] in
  let S := S.[8 <- S.[10]] in
  let S := S.[10 <- Temp] in
  let Temp := S.[9] in
  let S := S.[9 <- S.[11]] in
  let S := S.[11 <- Temp] in
  let Temp := S.[15] in
  let S := S.[15 <- S.[14]] in
  let S := S.[14 <- S.[13]] in
  let S := S.[13 <- S.[12]] in
  S.[12 <- Temp].

Definition AES_InvShiftRows (S : list Z) : list Z :=
  let Temp := S.[7] in
  let S := S.[7 <- S.[6]] in
  let S := S.[6 <- S.[5]] in
  let S := S.[5 <- S.[4]] in
  let S := S.[4 <- Temp] in
  let Temp := S.[8] in
  let S := S.[8 <- S.[10]] in
  let S := S.[10 <- Temp] in
  let Temp := S.[9] in
  let S := S.[9 <- S.[11]] in
  let S := S.[11 <- Temp] in
  let Temp := S.[12] in
  let S := S.[12 <- S.[13]] in
  let S := S.[13 <- S.[14]] in
  let S := S.[14 <- S.[15]] in
  S.[15 <- Temp].

(** The body of both loops over columns, with the four tables of a row of
    the matrix. *)
Definition AES_MixColumn (c : nat) (S : list Z) : list Z :=
  let Row0 := S.[4 * 0 + c] in let Row1 := S.[4 * 1 + c] in
  let Row2 := S.[4 * 2 + c] in let Row3 := S.[4 * 3 + c] in
  let S := S.[4 * 0 + c <- tab aes_mul_2 Row0 ^^ tab aes_mul_3 Row1 ^^ Row2 ^^ Row3] in
  let S := S.[4 * 1 + c <- Row0 ^^ tab aes_mul_2 Row1 ^^ tab aes_mul_3 Row2 ^^ Row3] in
  let S := S.[4 * 2 + c <- Row0 ^^ Row1 ^^ tab aes_mul_2 Row2 ^^ tab aes_mul_3 Row3] in
  S.[4 * 3 + c <- tab aes_mul_3 Row0 ^^ Row1 ^^ Row2 ^^ tab aes_mul_2 Row3].

Definition AES_MixColumns (S : list Z) : list Z := loop 0 4 AES_MixColumn S.

Definition AES_InvMixColumn (c : nat) (S : list Z) : list Z :=
  let Row0 := S.[4 * 0 + c] in let Row1 := S.[4 * 1 + c] in
  let Row2 := S.[4 * 2 + c] in let Row3 := S.[4 * 3 + c] in
  let S := S.[4 * 0 + c <- tab aes_mul_e Row0 ^^ tab aes_mul_b Row1 ^^ tab aes_mul_d Row2 ^^ tab aes_mul_9 Row3] in
  let S := S.[4 * 1 + c <- tab aes_mul_9 Row0 ^^ tab aes_mul_e Row1 ^^ tab aes_mul_b Row2 ^^ tab aes_mul_d Row3] in
  let S := S.[4 * 2 + c <- tab aes_mul_d Row0 ^^ tab aes_mul_9 Row1 ^^ tab aes_mul_e Row2 ^^ tab aes_mul_b Row3] in
  S.[4 * 3 + c <- tab aes_mul_b Row0 ^^ tab aes_mul_d Row1 ^^ tab aes_mul_9 Row2 ^^ tab aes_mul_e Row3].

Definition AES_InvMixColumns (S : list Z) : list Z := loop 0 4 AES_InvMixColumn S.

(** ** Encryption and decryption *)

(** The rounds of [RT_AES_Encrypt] on the state, and of [RT_AES_Decrypt]. *)
Definition AES_EncryptRounds (W : list Z) (NumberOfRound : nat) (S : list Z) : list Z :=
  let S := AES_AddRoundKey W 0 S in
  let S := loop 1 (NumberOfRound - 1) (λ RoundIndex S,
    AES_AddRoundKey W RoundIndex (AES_MixColumns (AES_ShiftRows (AES_SubBytes S)))) S in
  AES_AddRoundKey W NumberOfRound (AES_ShiftRows (AES_SubBytes S)).

Definition AES_DecryptRounds (W : list Z) (NumberOfRound : nat) (S : list Z) : list Z :=
  let S := AES_AddRoundKey W NumberOfRound S in
  let S := loop_down 1 (NumberOfRound - 1) (λ RoundIndex S,
    AES_InvMixColumns (AES_AddRoundKey W RoundIndex (AES_InvSubBytes (AES_InvShiftRows S)))) S in
  AES_AddRoundKey W 0 (AES_InvSubBytes (AES_InvShiftRows S)).

Definition AES_KeyLength_ok (KeyLength : Z) : bool :=
  (KeyLength =? 16) || (KeyLength =? 24) || (KeyLength =? 32).

(** The result is the caller's buffer and its size after the call. *)
Definition RT_AES_Encrypt (E : env) (PlainBlock : list Z) (PlainBlockSize : Z)
    (Key : list Z) (KeyLength : Z) (CipherBlock : list Z) (CipherBlockSize : Z)
    : list Z * Z :=
  if negb (PlainBlockSize =? AES_BLOCK_SIZES) then (CipherBlock, CipherBlockSize)
  else if negb (AES_KeyLength_ok KeyLength) then (CipherBlock, CipherBlockSize)
  else if CipherBlockSize <? AES_BLOCK_SIZES then (CipherBlock, CipherBlockSize)
  else if negb (kmalloc E sizeof_AES_CTX_STRUC) then (CipherBlock, CipherBlockSize)
  else
    let ctx := local_array E 256 in
    let S := AES_LoadState PlainBlock (slice ctx 0 16) in
    let W := RT_AES_KeyExpansion Key KeyLength (slice ctx 16 240) in
    let NumberOfRound := Z.to_nat ((KeyLength >> 2) + 6) in
    let S := AES_EncryptRounds W NumberOfRound S in
    (AES_StoreState S CipherBlock, 16).

Definition RT_AES_Decrypt (E : env) (CipherBlock : list Z) (CipherBlockSize : Z)
    (Key : list Z) (KeyLength : Z) (PlainBlock : list Z) (PlainBlockSize : Z)
    : list Z * Z :=
  if PlainBlockSize <? AES_BLOCK_SIZES then (PlainBlock, PlainBlockSize)
  else if negb (AES_KeyLength_ok KeyLength) then (PlainBlock, PlainBlockSize)
  else if negb (CipherBlockSize =? AES_BLOCK_SIZES) then (PlainBlock, PlainBlockSize)
  else if negb (kmalloc E sizeof_AES_CTX_STRUC) then (PlainBlock, PlainBlockSize)
  else
    let ctx := local_array E 256 in
    let S := AES_LoadState CipherBlock (slice ctx 0 16) in
    let W := RT_AES_KeyExpansion Key KeyLength (slice ctx 16 240) in
    let NumberOfRound := Z.to_nat ((KeyLength >> 2) + 6) in
    let S := AES_DecryptRounds W NumberOfRound S in
    (AES_StoreState S PlainBlock, 16).

(** ** Reference (FIPS 197)

    A block is 16 bytes in the order of the input, the columns of the state
    one after another; the expanded key is the sequence of its words. *)

Definition sub_bytes : list Z → list Z := map (tab aes_sbox_enc).
Definition inv_sub_bytes : list Z → list Z := map (tab aes_sbox_dec).

Definition shift_rows (b : list Z) : list Z :=
  map (λ i, b.[i mod 4 + 4 * ((i / 4 + i mod 4) mod 4)]) (seq 0 16).

Definition inv_shift_rows (b : list Z) : list Z :=
  map (λ i, b.[i mod 4 + 4 * ((i / 4 + 4 - i mod 4) mod 4)]) (seq 0 16).

(** Multiplication of every column by the circulant matrix with first row
    [m0 m1 m2 m3]. *)
Definition mix (m : list Z) (b : list Z) : list Z :=
  map (λ i, foldl Z.lxor 0
    (map (λ k, gmul m.[(k + 4 - i mod 4) mod 4] b.[4 * (i / 4) + k]) (seq 0 4))) (seq 0 16).

Definition mix_columns : list Z → list Z := mix [2; 3; 1; 1].
Definition inv_mix_columns : list Z → list Z := mix [14; 11; 13; 9].

Definition rot_word (w : list Z) : list Z := [w.[1]; w.[2]; w.[3]; w.[0]].
Definition rcon (i : nat) : list Z := [Nat.iter (i - 1) xtime 1; 0; 0; 0].

Definition key_word (Nk : nat) (i : nat) (w : list Z) : list Z :=
  let temp := slice w (4 * (i - 1)) 4 in
  let temp :=
    if (i mod Nk =? 0)%nat then xorl (sub_bytes (rot_word temp)) (rcon (i / Nk))
    else if (6 <? Nk)%nat && (i mod Nk =? 4)%nat then sub_bytes temp
    else temp in
  w ++ xorl (slice w (4 * (i - Nk)) 4) temp.

Definition key_expansion (key : list Z) : list Z :=
  let Nk := (length key / 4)%nat in
  loop Nk (4 * (Nk + 7) - Nk) (key_word Nk) key.

Definition add_round_key (w : list Z) (round : nat) (b : list Z) : list Z :=
  xorl b (slice w (16 * round) 16).

Definition cipher (key b : list Z) : list Z :=
  let w := key_expansion key in
  let Nr := (length key / 4 + 6)%nat in
  let b := add_round_key w 0 b in
  let b := loop 1 (Nr - 1) (λ r b,
    add_round_key w r (mix_columns (shift_rows (sub_bytes b)))) b in
  add_round_key w Nr (shift_rows (sub_bytes b)).

Definition inv_cipher (key b : list Z) : list Z :=
  let w := key_expansion key in
  let Nr := (length key / 4 + 6)%nat in
  let b := add_round_key w Nr b in
  let b := loop_down 1 (Nr - 1) (λ r b,
    inv_mix_columns (add_round_key w r (inv_sub_bytes (inv_shift_rows b)))) b in
  add_round_key w 0 (inv_sub_bytes (inv_shift_rows b)).

(** FIPS 197, appendix C. *)
Example aes_fips197 :
  let E := {| kmalloc := λ _, true; garbage := [] |} in
  let plain := map (λ i, 17 * Z.of_nat i) (seq 0 16) in
  let key n := map Z.of_nat (seq 0 n) in
  RT_AES_Encrypt E plain 16 (key 16%nat) 16 (zeros 16) 16 =
    ([0x69;0xc4;0xe0;0xd8;0x6a;0x7b;0x04;0x30;0xd8;0xcd;0xb7;0x80;0x70;0xb4;0xc5;0x5a], 16) ∧
  RT_AES_Encrypt E plain 16 (key 24%nat) 24 (zeros 16) 16 =
    ([0xdd;0xa9;0x7c;0xa4;0x86;0x4c;0xdf;0xe0;0x6e;0xaf;0x70;0xa0;0xec;0x0d;0x71;0x91], 16) ∧
  RT_AES_Encrypt E plain 16 (key 32%nat) 32 (zeros 16) 16 =
    ([0x8e;0xa2;0xb7;0xca;0x51;0x67;0x45;0xbf;0xea;0xfc;0x49;0x90;0x4b;0x49;0x60;0x89], 16).
Proof. vm_compute. done. Qed.

Example cipher_fips197 :
  cipher (map Z.of_nat (seq 0 32)) (map (λ i, 17 * Z.of_nat i) (seq 0 16)) =
    [0x8e;0xa2;0xb7;0xca;0x51;0x67;0x45;0xbf;0xea;0xfc;0x49;0x90;0x4b;0x49;0x60;0x89].
Proof. vm_compute. done. Qed.

(** ** States *)

(** The state of a block: element [4 * r + c] is byte [r + 4 * c]. *)
Definition rows (b : list Z) : list Z := map (λ i, b.[i / 4 + 4 * (i mod 4)]) (seq 0 16).

Ltac destruct_16 l H :=
  do 16 (destruct l as [|? l]; [discriminate H|]); destruct l; [clear H|discriminate H].

Lemma length_rows b : length (rows b) = 16%nat.
Proof. done. Qed.

Lemma AES_LoadState_rows b S :
  length b = 16%nat → length S = 16%nat → AES_LoadState b S = rows b.
Proof. intros Hb HS. destruct_16 b Hb. destruct_16 S HS. reflexivity. Qed.

Lemma AES_StoreState_rows b out :
  length b = 16%nat → (16 <= length out)%nat → AES_StoreState (rows b) out = put out 0 b.
Proof.
  intros Hb Ho. destruct_16 b Hb.
  do 16 (destruct out as [|? out]; [cbn in Ho; lia|]). reflexivity.
Qed.

Lemma AES_SubBytes_rows b : length b = 16%nat → AES_SubBytes (rows b) = rows (sub_bytes b).
Proof. intros Hb. destruct_16 b Hb. reflexivity. Qed.

Lemma AES_InvSubBytes_rows b :
  length b = 16%nat → AES_InvSubBytes (rows b) = rows (inv_sub_bytes b).
Proof. intros Hb. destruct_16 b Hb. reflexivity. Qed.

Lemma AES_ShiftRows_rows b : AES_ShiftRows (rows b) = rows (shift_rows b).
Proof. reflexivity. Qed.

Lemma AES_InvShiftRows_rows b : AES_InvShiftRows (rows b) = rows (inv_shift_rows b).
Proof. reflexivity. Qed.

(** The key bytes of a round, in the order of the block. *)
Definition round_key (W : list Z) (r : nat) : list Z :=
  map (λ i, W.[60 * (i mod 4) + (r * 4 + i / 4)]) (seq 0 16).

Lemma AES_AddRoundKey_rows W r b :
  length b = 16%nat → AES_AddRoundKey W r (rows b) = rows (xorl b (round_key W r)).
Proof. intros Hb. destruct_16 b Hb. reflexivity. Qed.

Lemma gmul_1 x : byte x → gmul 1 x = x.
Proof. intros Hx. by_all_bytes x Hx. Qed.

Ltac bytes_of H := repeat match type of H with Forall _ (_ :: _) => inversion_clear H as [|? ? ? H'];
  rename H' into H end.

Lemma Forall_16 b : bytes b → length b = 16%nat → ∀ i, byte b.[i].
Proof. intros H _ i. by apply bytes_get. Qed.

(** The columns after multiplication, byte by byte. *)
Lemma mix_explicit m0 m1 m2 m3 b :
  mix [m0; m1; m2; m3] b =
    flat_map (λ c,
      [0 ^^ gmul m0 b.[4 * c] ^^ gmul m1 b.[4 * c + 1] ^^ gmul m2 b.[4 * c + 2] ^^ gmul m3 b.[4 * c + 3];
       0 ^^ gmul m3 b.[4 * c] ^^ gmul m0 b.[4 * c + 1] ^^ gmul m1 b.[4 * c + 2] ^^ gmul m2 b.[4 * c + 3];
       0 ^^ gmul m2 b.[4 * c] ^^ gmul m3 b.[4 * c + 1] ^^ gmul m0 b.[4 * c + 2] ^^ gmul m1 b.[4 * c + 3];
       0 ^^ gmul m1 b.[4 * c] ^^ gmul m2 b.[4 * c + 1] ^^ gmul m3 b.[4 * c + 2] ^^ gmul m0 b.[4 * c + 3]])
      (seq 0 4).
Proof. reflexivity. Qed.

Lemma AES_MixColumns_rows b :
  bytes b → length b = 16%nat → AES_MixColumns (rows b) = rows (mix_columns b).
Proof.
  intros Hb Hl. pose proof (λ i, bytes_get b i Hb) as Hg. unfold mix_columns.
  rewrite mix_explicit. cbn [flat_map seq app].
  rewrite !gmul_1, <- !aes_mul_2_gmul, <- !aes_mul_3_gmul, !Z.lxor_0_l by apply Hg.
  reflexivity.
Qed.

Lemma AES_InvMixColumns_rows b :
  bytes b → length b = 16%nat → AES_InvMixColumns (rows b) = rows (inv_mix_columns b).
Proof.
  intros Hb Hl. pose proof (λ i, bytes_get b i Hb) as Hg. unfold inv_mix_columns.
  rewrite mix_explicit. cbn [flat_map seq app].
  rewrite <- !aes_mul_9_gmul, <- !aes_mul_b_gmul, <- !aes_mul_d_gmul, <- !aes_mul_e_gmul,
    !Z.lxor_0_l by apply Hg.
  reflexivity.
Qed.

(** ** MixColumns and its inverse *)

Lemma inv_mix_coeff_1 x : byte x →
  gmul 14 (gmul 2 x) = x ^^ gmul 11 x ^^ gmul 13 x ^^ gmul 9 (gmul 3 x).
Proof. intros Hx. by_all_bytes x Hx. Qed.

Lemma inv_mix_coeff_2 x : byte x →
  gmul 14 (gmul 3 x) = gmul 11 (gmul 2 x) ^^ gmul 13 x ^^ gmul 9 x.
Proof. intros Hx. by_all_bytes x Hx. Qed.

Lemma inv_mix_coeff_3 x : byte x →
  gmul 14 x = gmul 11 (gmul 3 x) ^^ gmul 13 (gmul 2 x) ^^ gmul 9 x.
Proof. intros Hx. by_all_bytes x Hx. Qed.

Lemma inv_mix_coeff_4 x : byte x →
  gmul 14 x = gmul 11 x ^^ gmul 13 (gmul 3 x) ^^ gmul 9 (gmul 2 x).
Proof. intros Hx. by_all_bytes x Hx. Qed.

(** Four bytes of a column through both matrices, the row starting at [a]. *)
Ltac inv_mix_row a b c d :=
  rewrite !gmul_lxor, (inv_mix_coeff_1 a), (inv_mix_coeff_2 b), (inv_mix_coeff_3 c),
    (inv_mix_coeff_4 d) by done;
  generalize (gmul 9 (gmul 3 a)), (gmul 11 (gmul 2 b)), (gmul 11 (gmul 3 c)), (gmul 13 (gmul 2 c)),
    (gmul 13 (gmul 3 d)), (gmul 9 (gmul 2 d)); intros; zbits.

Lemma inv_mix_column a b c d :
  byte a → byte b → byte c → byte d →
  let M0 := gmul 2 a ^^ gmul 3 b ^^ c ^^ d in
  let M1 := a ^^ gmul 2 b ^^ gmul 3 c ^^ d in
  let M2 := a ^^ b ^^ gmul 2 c ^^ gmul 3 d in
  let M3 := gmul 3 a ^^ b ^^ c ^^ gmul 2 d in
  gmul 14 M0 ^^ gmul 11 M1 ^^ gmul 13 M2 ^^ gmul 9 M3 = a ∧
  gmul 9 M0 ^^ gmul 14 M1 ^^ gmul 11 M2 ^^ gmul 13 M3 = b ∧
  gmul 13 M0 ^^ gmul 9 M1 ^^ gmul 14 M2 ^^ gmul 11 M3 = c ∧
  gmul 11 M0 ^^ gmul 13 M1 ^^ gmul 9 M2 ^^ gmul 14 M3 = d.
Proof.
  intros Ha Hb Hc Hd. cbv zeta. split_and!.
  - inv_mix_row a b c d.
  - inv_mix_row b c d a.
  - inv_mix_row c d a b.
  - inv_mix_row d a b c.
Qed.

Lemma bytes_mix m b : bytes b → bytes (mix m b).
Proof.
  intros Hb. apply Forall_map, Forall_forall. intros i _.
  assert (∀ l a, byte a → bytes l → byte (foldl Z.lxor a l)) as Hf.
  { intros l. induction l as [|x l IH]; intros a Ha Hl; [done|].
    apply Forall_cons in Hl as [Hx Hl]. apply IH; [by apply fits_lxor|done]. }
  apply Hf; [unfold fits; lia|]. apply Forall_map, Forall_forall. intros k _.
  by apply byte_gmul, bytes_get.
Qed.

(** Row [k] of column [c] of a product. *)
Lemma mix_get m0 m1 m2 m3 b c :
  (c < 4)%nat →
  let x k := b.[4 * c + k] in let y k := (mix [m0; m1; m2; m3] b).[4 * c + k] in
  y 0%nat = gmul m0 (x 0%nat) ^^ gmul m1 (x 1%nat) ^^ gmul m2 (x 2%nat) ^^ gmul m3 (x 3%nat) ∧
  y 1%nat = gmul m3 (x 0%nat) ^^ gmul m0 (x 1%nat) ^^ gmul m1 (x 2%nat) ^^ gmul m2 (x 3%nat) ∧
  y 2%nat = gmul m2 (x 0%nat) ^^ gmul m3 (x 1%nat) ^^ gmul m0 (x 2%nat) ^^ gmul m1 (x 3%nat) ∧
  y 3%nat = gmul m1 (x 0%nat) ^^ gmul m2 (x 1%nat) ^^ gmul m3 (x 2%nat) ^^ gmul m0 (x 3%nat).
Proof.
  intros Hc x y. subst x y. rewrite mix_explicit. cbn beta.
  do 4 (destruct c as [|c]; [split_and!; cbn [flat_map seq app]; exact eq_refl|]). lia.
Qed.

Lemma length_mix m b : length (mix m b) = 16%nat.
Proof. done. Qed.

Lemma inv_mix_mix b : bytes b → length b = 16%nat → inv_mix_columns (mix_columns b) = b.
Proof.
  intros Hb Hl. pose proof (λ i, bytes_get b i Hb) as Hg.
  apply list_get_ext; [done|]. intros i Hi. change (i < 16)%nat in Hi.
  rewrite (Nat.div_mod_eq i 4). assert (i / 4 < 4)%nat as Hc by (apply Nat.Div0.div_lt_upper_bound; lia).
  pose proof (Nat.mod_upper_bound i 4) as Hk.
  unfold inv_mix_columns, mix_columns.
  destruct (mix_get 14 11 13 9 (mix [2; 3; 1; 1] b) _ Hc) as (E0 & E1 & E2 & E3).
  destruct (mix_get 2 3 1 1 b _ Hc) as (F0 & F1 & F2 & F3).
  rewrite !gmul_1 in F0, F1, F2, F3 by apply Hg.
  destruct (inv_mix_column b.[4 * (i / 4) + 0] b.[4 * (i / 4) + 1] b.[4 * (i / 4) + 2]
    b.[4 * (i / 4) + 3]) as (G0 & G1 & G2 & G3); [apply Hg..|].
  rewrite F0, F1, F2, F3 in E0, E1, E2, E3.
  destruct (i mod 4)%nat as [|[|[|[|]]]]; [| | | |lia]; congruence.
Qed.

(** ** Key expansion *)

(** The first [n] words of [w] are the first [n] columns of
    [KeyWordExpansion]. *)
Definition same_words (W w : list Z) (n : nat) : Prop :=
  length W = 240%nat ∧ length w = (4 * n)%nat ∧ bytes w ∧
  ∀ j r, (j < n)%nat → (r < 4)%nat → W.[60 * r + j] = w.[4 * j + r].

(** Storing a column. *)
Lemma get_column W i a0 a1 a2 a3 r j :
  length W = 240%nat → (i < 60)%nat → (j < 60)%nat → (r < 4)%nat →
  ((((W.[60 * 0 + i <- a0]).[60 * 1 + i <- a1]).[60 * 2 + i <- a2]).[60 * 3 + i <- a3]).[60 * r + j] =
    if decide (j = i) then [a0; a1; a2; a3].[r] else W.[60 * r + j].
Proof.
  intros HW Hi Hj Hr. destruct (decide (j = i)) as [->|Hne].
  - destruct r as [|[|[|[|r]]]]; [| | | |lia];
      repeat (rewrite get_insert_ne by lia);
      rewrite get_insert_eq by (rewrite ?length_insert; lia); done.
  - do 4 (rewrite get_insert_ne by lia). done.
Qed.

Lemma KeyExpansion_copy_words key W n :
  length W = 240%nat → bytes key → length key = (4 * n)%nat → (n <= 60)%nat →
  same_words (loop 0 n (KeyExpansion_copy key) W) key n.
Proof.
  intros HW Hk Hl Hn.
  destruct (loop_inv (λ i V, length V = 240%nat ∧
    ∀ j r, (j < i)%nat → (r < 4)%nat → V.[60 * r + j] = key.[4 * j + r])
    0 n (KeyExpansion_copy key) W) as [H1 H2]; [split; [done|lia]| |by split_and!].
  intros i V Hi [HV Hj]. unfold KeyExpansion_copy, loop. cbn [seq foldl].
  split; [by rewrite !length_insert|]. intros j r Hj' Hr.
  rewrite get_column by lia. case_decide; [subst|apply Hj; lia].
  do 4 (destruct r as [|r]; [done|]). lia.
Qed.

Lemma aes_rcon_bytes i : (1 <= i <= 10)%nat →
  aes_rcon.[i] >> 24 & 255 = (rcon i).[0] ∧ aes_rcon.[i] >> 16 & 255 = 0 ∧
  aes_rcon.[i] >> 8 & 255 = 0 ∧ aes_rcon.[i] & 255 = 0 ∧ byte (rcon i).[0].
Proof.
  intros Hi. do 11 (destruct i as [|i]; [lia || (vm_compute; repeat split; discriminate)|]). lia.
Qed.

Lemma slice_word w i : (4 * i + 4 <= length w)%nat →
  slice w (4 * i) 4 = [w.[4 * i + 0]; w.[4 * i + 1]; w.[4 * i + 2]; w.[4 * i + 3]].
Proof. intros H. by rewrite slice_map_seq by lia. Qed.

(** Storing the next word. *)
Lemma KeyExpansion_store_words W w Nk i t0 t1 t2 t3 l :
  (1 <= Nk <= i)%nat → (i < 60)%nat → same_words W w i → bytes l → l = [t0; t1; t2; t3] →
  same_words (KeyExpansion_store Nk i (t0, t1, t2, t3) W)
    (w ++ xorl (slice w (4 * (i - Nk)) 4) l) (S i).
Proof.
  intros HNk Hi (HW & Hl & Hb & Hw) Hbl ->. rewrite slice_word by lia.
  unfold KeyExpansion_store. cbv zeta.
  do 6 (rewrite get_insert_ne by lia).
  rewrite !(Hw (i - Nk)%nat) by lia. split_and!.
  - by rewrite !length_insert.
  - rewrite length_app. cbn. lia.
  - apply Forall_app. split; [done|]. apply xorl_bytes; [|done].
    repeat constructor; by apply bytes_get.
  - intros j r Hj Hr. rewrite get_column by lia. case_decide.
    + subst j. rewrite get_app_r by lia. replace (4 * i + r - length w)%nat with r by lia.
      do 4 (destruct r as [|r]; [done|]). lia.
    + rewrite get_app_l by lia. apply Hw; lia.
Qed.

Lemma KeyExpansion_word_words W w Nk i :
  (1 <= Nk <= i)%nat → (i < 60)%nat → (i / Nk <= 10)%nat → same_words W w i →
  same_words (KeyExpansion_word Nk i W) (key_word Nk i w) (S i).
Proof.
  intros HNk Hi Hrc Hs. pose proof Hs as (HW & Hl & Hb & Hw).
  pose proof (λ j, bytes_get w j Hb) as Hg.
  assert (1 <= i / Nk)%nat as Hrc1 by (apply Nat.div_le_lower_bound; lia).
  destruct (aes_rcon_bytes (i / Nk)) as (R0 & R1 & R2 & R3 & Rb); [lia|].
  unfold KeyExpansion_word, key_word.
  rewrite (slice_word w (i - 1)), !(Hw (i - 1)%nat) by lia. cbv zeta.
  assert (∀ a b c d, bytes [w.[a]; w.[b]; w.[c]; w.[d]]) as Hg4 by (intros; repeat constructor; apply Hg).
  assert (∀ a b c d, bytes (sub_bytes [a; b; c; d])) as Hs4
    by (intros; repeat (constructor; [auto with rt|]); constructor).
  rewrite R0, R1, R2, R3, !Z.lxor_0_r, !(u8_small (tab _ _)) by auto with rt.
  rewrite u8_small by (apply fits_lxor; [lia|auto with rt|exact Rb]).
  assert (bytes (rcon (i / Nk))) as Hbr.
  { constructor; [done|]. repeat constructor; unfold fits; lia. }
  destruct (i mod Nk =? 0)%nat; [|destruct (_ && _)];
    apply KeyExpansion_store_words; try done.
  - apply xorl_bytes; [apply Hs4|done].
  - unfold rot_word, rcon, sub_bytes, xorl. cbn [map zip_with]. by rewrite !Z.lxor_0_r.
Qed.

Lemma RT_AES_KeyExpansion_words key W :
  length W = 240%nat → bytes key → length key ∈ [16; 24; 32]%nat →
  let Nk := (length key / 4)%nat in
  same_words (RT_AES_KeyExpansion key (Z.of_nat (length key)) W) (key_expansion key) (4 * (Nk + 7)).
Proof.
  intros HW Hk Hl Nk. unfold RT_AES_KeyExpansion, key_expansion. fold Nk.
  assert (Z.to_nat (Z.of_nat (length key) >> 2) = Nk) as ->.
  { unfold Nk. rewrite Z.shiftr_div_pow2 by lia. change (2 ^ 2) with (Z.of_nat 4).
    by rewrite <- Nat2Z.inj_div, Nat2Z.id. }
  assert (length key = (4 * Nk)%nat ∧ (Nk = 4 ∨ Nk = 6 ∨ Nk = 8)%nat) as [HNk HN].
  { unfold Nk. clear -Hl. repeat (apply elem_of_cons in Hl as [->|Hl]; [cbn; auto|]).
    by apply elem_of_nil in Hl. }
  assert (∀ m, (Nk + m <= 4 * (Nk + 7))%nat →
    same_words (loop Nk m (KeyExpansion_word Nk) (loop 0 Nk (KeyExpansion_copy key) W))
      (loop Nk m (key_word Nk) key) (Nk + m)) as Hm.
  { intros m. induction m as [|m IH]; intros Hle.
    - rewrite Nat.add_0_r. apply KeyExpansion_copy_words; [done..|lia].
    - rewrite !loop_snoc, Nat.add_succ_r. apply KeyExpansion_word_words; [lia|lia| |apply IH; lia].
      apply Nat.lt_succ_r, Nat.Div0.div_lt_upper_bound. lia. }
  replace (4 * (Nk + 6 + 1))%nat with (4 * (Nk + 7))%nat by lia.
  replace (4 * (Nk + 7))%nat with (Nk + (4 * (Nk + 7) - Nk))%nat at 3 by lia.
  apply Hm. lia.
Qed.

Lemma round_key_words W w n r :
  same_words W w n → (4 * r + 4 <= n)%nat → round_key W r = slice w (16 * r) 16.
Proof.
  intros (HW & Hl & _ & Hw) Hr. rewrite slice_map_seq by lia. apply map_ext_in.
  intros i Hi%in_seq. rewrite Hw.
  - f_equal. pose proof (Nat.div_mod_eq i 4). lia.
  - pose proof (Nat.Div0.div_lt_upper_bound i 4 4). lia.
  - by apply Nat.mod_upper_bound.
Qed.

(** ** Encryption *)

Lemma bytes_sub_bytes b : bytes (sub_bytes b).
Proof. apply Forall_map, Forall_forall. auto with rt. Qed.

Lemma bytes_inv_sub_bytes b : bytes (inv_sub_bytes b).
Proof. apply Forall_map, Forall_forall. auto with rt. Qed.

Lemma bytes_shift_rows b : bytes b → bytes (shift_rows b).
Proof. intros Hb. apply Forall_map, Forall_forall. intros i _. by apply bytes_get. Qed.

Lemma bytes_inv_shift_rows b : bytes b → bytes (inv_shift_rows b).
Proof. intros Hb. apply Forall_map, Forall_forall. intros i _. by apply bytes_get. Qed.

#[export] Hint Resolve bytes_sub_bytes bytes_inv_sub_bytes bytes_shift_rows bytes_inv_shift_rows
  bytes_mix : rt.

Lemma length_sub_bytes b : length b = 16%nat → length (sub_bytes b) = 16%nat.
Proof. intros. unfold sub_bytes. by rewrite length_map. Qed.

Lemma length_add_round_key w r b :
  length b = 16%nat → (16 * r + 16 <= length w)%nat → length (add_round_key w r b) = 16%nat.
Proof. intros Hb Hw. unfold add_round_key. rewrite length_xorl; [done|]. by rewrite length_slice. Qed.

Lemma bytes_add_round_key w r b : bytes b → bytes w → bytes (add_round_key w r b).
Proof. intros. unfold add_round_key. auto with rt. Qed.

Section Rounds.
Context (W w : list Z) (Nr : nat).
Context (HW : same_words W w (4 * (Nr + 1))).

Lemma AES_AddRoundKey_block r b :
  length b = 16%nat → (r <= Nr)%nat →
  AES_AddRoundKey W r (rows b) = rows (add_round_key w r b).
Proof.
  intros Hb Hr. rewrite AES_AddRoundKey_rows by done.
  by rewrite (round_key_words W w (4 * (Nr + 1))) by (done || lia).
Qed.

Lemma length_ark r b : length b = 16%nat → (r <= Nr)%nat → length (add_round_key w r b) = 16%nat.
Proof. intros Hb Hr. apply length_add_round_key; [done|]. destruct HW as (_ & -> & _). lia. Qed.

(** One round, and its state. *)
Definition round (r : nat) (b : list Z) : list Z :=
  add_round_key w r (mix_columns (shift_rows (sub_bytes b))).

Definition inv_round (r : nat) (b : list Z) : list Z :=
  inv_mix_columns (add_round_key w r (inv_sub_bytes (inv_shift_rows b))).

Lemma rounds_ok n b :
  length b = 16%nat → bytes b → (n <= Nr)%nat →
  length (loop 1 n round b) = 16%nat ∧ bytes (loop 1 n round b).
Proof.
  intros Hb Hbb Hn. destruct HW as (_ & _ & Hw & _).
  apply (loop_inv (λ _ b, length b = 16%nat ∧ bytes b)); [done|].
  intros r c Hr [Hc Hcb]. split; [apply length_ark; [done|lia]|].
  apply bytes_add_round_key; [|done]. unfold mix_columns. auto with rt.
Qed.

Lemma AES_EncryptRounds_block b :
  length b = 16%nat → bytes b → (1 <= Nr)%nat →
  AES_EncryptRounds W Nr (rows b) =
    rows (add_round_key w Nr (shift_rows (sub_bytes (loop 1 (Nr - 1) round (add_round_key w 0 b))))).
Proof.
  intros Hb Hbb HNr. unfold AES_EncryptRounds. pose proof HW as (_ & _ & Hw & _).
  rewrite AES_AddRoundKey_block by (done || lia).
  set (b0 := add_round_key w 0 b).
  assert (length b0 = 16%nat) as Hl0 by (apply length_ark; [done|lia]).
  assert (bytes b0) as Hb0 by (by apply bytes_add_round_key).
  assert (∀ n, (n <= Nr - 1)%nat →
    loop 1 n (λ r S, AES_AddRoundKey W r (AES_MixColumns (AES_ShiftRows (AES_SubBytes S)))) (rows b0)
    = rows (loop 1 n round b0)) as Hloop.
  { intros n. induction n as [|n IH]; intros Hn; [done|].
    rewrite !loop_snoc, IH by lia. destruct (rounds_ok n b0) as [Hl Hbn]; [done|done|lia|].
    rewrite AES_SubBytes_rows, AES_ShiftRows_rows, AES_MixColumns_rows by auto with rt.
    rewrite AES_AddRoundKey_block; [done|done|lia]. }
  rewrite Hloop by lia. destruct (rounds_ok (Nr - 1) b0) as [Hl Hbn]; [done|done|lia|].
  rewrite AES_SubBytes_rows, AES_ShiftRows_rows by done.
  by rewrite AES_AddRoundKey_block.
Qed.

Lemma inv_rounds_ok n lo b :
  length b = 16%nat → bytes b →
  let s := loop_down lo n inv_round b in length s = 16%nat ∧ bytes s.
Proof.
  intros Hb Hbb. unfold loop_down. generalize (rev (seq lo n)) as l. intros l. revert b Hb Hbb.
  destruct HW as (_ & _ & Hw & _).
  induction l as [|i l IH]; intros b Hb Hbb; [done|]. cbn [foldl]. apply IH; [done|].
  unfold inv_round, inv_mix_columns. apply bytes_mix, bytes_add_round_key; auto with rt.
Qed.

Lemma AES_DecryptRounds_block b :
  length b = 16%nat → bytes b → (1 <= Nr)%nat →
  AES_DecryptRounds W Nr (rows b) =
    rows (add_round_key w 0 (inv_sub_bytes (inv_shift_rows
      (loop_down 1 (Nr - 1) inv_round (add_round_key w Nr b))))).
Proof.
  intros Hb Hbb HNr. unfold AES_DecryptRounds. pose proof HW as (_ & _ & Hw & _).
  rewrite AES_AddRoundKey_block by (done || lia).
  set (b0 := add_round_key w Nr b).
  assert (length b0 = 16%nat) as Hl0 by (apply length_ark; [done|lia]).
  assert (bytes b0) as Hb0 by (by apply bytes_add_round_key).
  assert (∀ n b, (n <= Nr - 1)%nat → length b = 16%nat → bytes b →
    loop_down 1 n (λ r S, AES_InvMixColumns (AES_AddRoundKey W r
      (AES_InvSubBytes (AES_InvShiftRows S)))) (rows b)
    = rows (loop_down 1 n inv_round b)) as Hloop.
  { intros n. induction n as [|n IH]; intros c Hn Hc Hcb; [done|].
    rewrite !loop_down_S. rewrite AES_InvShiftRows_rows, AES_InvSubBytes_rows by done.
    rewrite AES_AddRoundKey_block by (done || lia).
    rewrite AES_InvMixColumns_rows; [|auto using bytes_add_round_key with rt|apply length_ark; [done|lia]].
    apply IH; [lia|done|].
    unfold inv_round, inv_mix_columns. apply bytes_mix, bytes_add_round_key; auto with rt. }
  rewrite Hloop by (done || lia).
  rewrite AES_InvShiftRows_rows, AES_InvSubBytes_rows by done.
  by rewrite AES_AddRoundKey_block by (done || lia).
Qed.

(** *** Decryption inverts encryption *)

Lemma inv_sub_sub b : bytes b → inv_sub_bytes (sub_bytes b) = b.
Proof.
  intros Hb. unfold inv_sub_bytes, sub_bytes. rewrite map_map.
  induction Hb as [|x b Hx Hb IH]; [done|]. cbn [map]. by rewrite aes_sbox_dec_enc, IH.
Qed.

Lemma inv_shift_shift b : length b = 16%nat → inv_shift_rows (shift_rows b) = b.
Proof. intros Hb. destruct_16 b Hb. reflexivity. Qed.

Lemma ark_ark r b :
  length b = 16%nat → (r <= Nr)%nat → add_round_key w r (add_round_key w r b) = b.
Proof.
  intros Hb Hr. unfold add_round_key. apply xorl_cancel_r. rewrite length_slice; [lia|].
  destruct HW as (_ & -> & _). lia.
Qed.

Lemma undo_round b : bytes b → length b = 16%nat →
  inv_sub_bytes (inv_shift_rows (shift_rows (sub_bytes b))) = b.
Proof. intros Hb Hl. rewrite inv_shift_shift by (by apply length_sub_bytes). by apply inv_sub_sub. Qed.

Lemma undo_rounds n b :
  length b = 16%nat → bytes b → (n < Nr)%nat →
  loop_down 1 n inv_round (shift_rows (sub_bytes (loop 1 n round b))) = shift_rows (sub_bytes b).
Proof.
  intros Hl Hb. induction n as [|n IH]; intros Hn; [done|].
  rewrite loop_snoc, loop_down_S. destruct (rounds_ok n b) as [Hln Hbn]; [done|done|lia|].
  rewrite <- IH by lia. f_equal. set (c := loop 1 n round b) in *.
  destruct HW as (_ & _ & Hw & _).
  unfold inv_round. rewrite undo_round.
  - unfold round. rewrite ark_ark by (done || lia).
    apply inv_mix_mix; auto with rt.
  - unfold round. apply bytes_add_round_key; [|done]. unfold mix_columns. auto with rt.
  - unfold round. apply length_ark; [done|lia].
Qed.

Lemma undo_all b :
  length b = 16%nat → bytes b → (1 <= Nr)%nat →
  add_round_key w 0 (inv_sub_bytes (inv_shift_rows (loop_down 1 (Nr - 1) inv_round
    (add_round_key w Nr (add_round_key w Nr (shift_rows (sub_bytes
      (loop 1 (Nr - 1) round (add_round_key w 0 b))))))))) = b.
Proof.
  intros Hl Hb HNr. rewrite ark_ark by (done || lia).
  destruct HW as (_ & _ & Hw & _).
  rewrite undo_rounds; [|by apply length_ark; [|lia]|by apply bytes_add_round_key|lia].
  rewrite undo_round; [|by apply bytes_add_round_key|by apply length_ark; [|lia]].
  apply ark_ark; [done|lia].
Qed.
End Rounds.

(** ** The driver's functions *)

Lemma AES_KeyLength_ok_spec n :
  AES_KeyLength_ok (Z.of_nat n) = true ↔ n ∈ [16; 24; 32]%nat.
Proof.
  unfold AES_KeyLength_ok. rewrite !elem_of_cons, elem_of_nil, !orb_true_iff, !Z.eqb_eq. lia.
Qed.

Section Block.
Context (key : list Z) (key_bytes : bytes key).
Context (key_length : AES_KeyLength_ok (Z.of_nat (length key)) = true).

Let Nr := (length key / 4 + 6)%nat.

Lemma expanded W : length W = 240%nat →
  same_words (RT_AES_KeyExpansion key (Z.of_nat (length key)) W) (key_expansion key) (4 * (Nr + 1)).
Proof.
  intros HW. replace (4 * (Nr + 1))%nat with (4 * (length key / 4 + 7))%nat by lia.
  apply RT_AES_KeyExpansion_words; [done..|]. by apply AES_KeyLength_ok_spec.
Qed.

Lemma rounds_of_key : Z.to_nat ((Z.of_nat (length key) >> 2) + 6) = Nr.
Proof.
  rewrite Z.shiftr_div_pow2 by lia. change (2 ^ 2) with (Z.of_nat 4).
  rewrite <- Nat2Z.inj_div. lia.
Qed.

Lemma inv_cipher_cipher b :
  length b = 16%nat → bytes b → inv_cipher key (cipher key b) = b.
Proof.
  intros Hl Hb. exact (undo_all _ _ Nr (expanded (zeros 240) eq_refl) b Hl Hb ltac:(lia)).
Qed.

Lemma cipher_block b :
  length b = 16%nat → bytes b → length (cipher key b) = 16%nat ∧ bytes (cipher key b).
Proof.
  intros Hl Hb. pose proof (expanded (zeros 240) eq_refl) as HW.
  destruct (rounds_ok _ _ _ HW (Nr - 1) (add_round_key (key_expansion key) 0 b)) as [Hl' Hb'];
    [apply (length_ark _ _ _ HW); [done|lia]|apply bytes_add_round_key; [done|apply HW]|lia|].
  split.
  - apply (length_ark _ _ _ HW); done.
  - apply bytes_add_round_key; [|apply HW]. auto with rt.
Qed.

Lemma inv_cipher_block b :
  length b = 16%nat → bytes b → length (inv_cipher key b) = 16%nat ∧ bytes (inv_cipher key b).
Proof.
  intros Hl Hb. pose proof (expanded (zeros 240) eq_refl) as HW.
  split; [apply (length_ark _ _ _ HW); [done|lia]|].
  apply bytes_add_round_key; [|apply HW]. auto with rt.
Qed.

Context (E : env).

Lemma context_State : length (slice (local_array E 256) 0 16) = 16%nat.
Proof. apply length_slice. rewrite length_local_array. lia. Qed.

Lemma context_KeyWordExpansion : length (slice (local_array E 256) 16 240) = 240%nat.
Proof. apply length_slice. rewrite length_local_array. lia. Qed.

Context (memory : kmalloc E sizeof_AES_CTX_STRUC = true).

Lemma RT_AES_Encrypt_ok b out size :
  length b = 16%nat → bytes b → 16 <= size → (16 <= length out)%nat →
  RT_AES_Encrypt E b 16 key (Z.of_nat (length key)) out size = (put out 0 (cipher key b), 16).
Proof.
  intros Hl Hb Hs Ho. unfold RT_AES_Encrypt, AES_BLOCK_SIZES.
  rewrite key_length, memory, (proj2 (Z.ltb_ge _ _)) by lia. cbn [negb Z.eqb Pos.eqb].
  rewrite AES_LoadState_rows by (done || apply context_State).
  rewrite rounds_of_key.
  rewrite (AES_EncryptRounds_block _ _ Nr (expanded _ context_KeyWordExpansion)) by (done || lia).
  f_equal. apply AES_StoreState_rows; [|done]. apply (cipher_block b Hl Hb).
Qed.

Lemma RT_AES_Decrypt_ok b out size :
  length b = 16%nat → bytes b → 16 <= size → (16 <= length out)%nat →
  RT_AES_Decrypt E b 16 key (Z.of_nat (length key)) out size = (put out 0 (inv_cipher key b), 16).
Proof.
  intros Hl Hb Hs Ho. unfold RT_AES_Decrypt, AES_BLOCK_SIZES.
  rewrite key_length, memory, (proj2 (Z.ltb_ge _ _)) by lia. cbn [negb Z.eqb Pos.eqb].
  rewrite AES_LoadState_rows by (done || apply context_State).
  rewrite rounds_of_key.
  rewrite (AES_DecryptRounds_block _ _ Nr (expanded _ context_KeyWordExpansion)) by (done || lia).
  f_equal. apply AES_StoreState_rows; [|done]. apply (inv_cipher_block b Hl Hb).
Qed.
End Block.

(** When the guards of the two functions pass. *)
Definition aes_guards (E : env) (in_size keylen out_size : Z) : bool :=
  (in_size =? 16) && AES_KeyLength_ok keylen && (16 <=? out_size) && kmalloc E sizeof_AES_CTX_STRUC.

Lemma RT_AES_Encrypt_error E pt ptsize key keylen out size :
  aes_guards E ptsize keylen size = false →
  RT_AES_Encrypt E pt ptsize key keylen out size = (out, size).
Proof.
  unfold aes_guards, RT_AES_Encrypt, AES_BLOCK_SIZES. rewrite Z.leb_antisym.
  destruct (ptsize =? 16), (AES_KeyLength_ok keylen), (size <? 16), (kmalloc E _); done.
Qed.

Lemma RT_AES_Decrypt_error E ct ctsize key keylen out size :
  aes_guards E ctsize keylen size = false →
  RT_AES_Decrypt E ct ctsize key keylen out size = (out, size).
Proof.
  unfold aes_guards, RT_AES_Decrypt, AES_BLOCK_SIZES. rewrite Z.leb_antisym.
  destruct (ctsize =? 16), (AES_KeyLength_ok keylen), (size <? 16), (kmalloc E _); done.
Qed.

Lemma aes_guards_true E n k s :
  aes_guards E n k s = true ↔
  n = 16 ∧ AES_KeyLength_ok k = true ∧ 16 <= s ∧ kmalloc E sizeof_AES_CTX_STRUC = true.
Proof. unfold aes_guards. rewrite !andb_true_iff, Z.eqb_eq, Z.leb_le. tauto. Qed.

(** ** The properties *)

(** C35: [RT_AES_Encrypt] writes the FIPS 197 cipher of its block at the start
    of the output buffer and sets its size to 16 when the block is 16 bytes,
    the key 16, 24 or 32 bytes, the output large enough and the context can
    be allocated, whatever the allocated memory holds; otherwise it changes
    neither. *)
Theorem RT_AES_Encrypt_spec (E : env) (pt key out : list Z) (size : Z) :
  bytes pt → bytes key → size <= Z.of_nat (length out) →
  RT_AES_Encrypt E pt (Z.of_nat (length pt)) key (Z.of_nat (length key)) out size =
    if aes_guards E (Z.of_nat (length pt)) (Z.of_nat (length key)) size
    then (put out 0 (cipher key pt), 16) else (out, size).
Proof.
  intros Hp Hk Ho. destruct (aes_guards _ _ _ _) eqn:HG; [|by apply RT_AES_Encrypt_error].
  apply aes_guards_true in HG as (Hl & HK & Hs & HM). rewrite Hl.
  apply RT_AES_Encrypt_ok; first [done | lia].
Qed.

Lemma RT_AES_Encrypt_spec_witness :
  let E := {| kmalloc := λ _, true; garbage := [7; 7; 7] |} in
  RT_AES_Encrypt E (zeros 16) 16 (zeros 24) 24 (zeros 20) 20 =
    (put (zeros 20) 0 (cipher (zeros 24) (zeros 16)), 16) ∧
  RT_AES_Encrypt E (zeros 16) 16 (zeros 17) 17 (zeros 20) 20 = (zeros 20, 20).
Proof.
  intros E. split.
  - apply (RT_AES_Encrypt_spec E (zeros 16) (zeros 24) (zeros 20) 20);
      [by apply fits_zeros..|cbn; lia].
  - apply (RT_AES_Encrypt_spec E (zeros 16) (zeros 17) (zeros 20) 20);
      [by apply fits_zeros..|cbn; lia].
Defined.

(** [RT_AES_Decrypt] likewise with the FIPS 197 inverse cipher. *)
Theorem RT_AES_Decrypt_spec (E : env) (ct key out : list Z) (size : Z) :
  bytes ct → bytes key → size <= Z.of_nat (length out) →
  RT_AES_Decrypt E ct (Z.of_nat (length ct)) key (Z.of_nat (length key)) out size =
    if aes_guards E (Z.of_nat (length ct)) (Z.of_nat (length key)) size
    then (put out 0 (inv_cipher key ct), 16) else (out, size).
Proof.
  intros Hp Hk Ho. destruct (aes_guards _ _ _ _) eqn:HG; [|by apply RT_AES_Decrypt_error].
  apply aes_guards_true in HG as (Hl & HK & Hs & HM). rewrite Hl.
  apply RT_AES_Decrypt_ok; first [done | lia].
Qed.

Lemma RT_AES_Decrypt_spec_witness :
  let E := {| kmalloc := λ _, true; garbage := [7; 7; 7] |} in
  RT_AES_Decrypt E (zeros 16) 16 (zeros 32) 32 (zeros 16) 16 = (inv_cipher (zeros 32) (zeros 16), 16).
Proof.
  intros E. refine (eq_trans (RT_AES_Decrypt_spec E (zeros 16) (zeros 32) (zeros 16) 16 _ _ _) _);
    [by apply fits_zeros..|cbn; lia|vm_compute; reflexivity].
Defined.

(** C36: decrypting what was encrypted gives the block back, for the three
    key sizes. *)
Theorem aes_roundtrip (E1 E2 : env) (pt key out1 out2 : list Z) :
  bytes pt → length pt = 16%nat → bytes key →
  AES_KeyLength_ok (Z.of_nat (length key)) = true →
  kmalloc E1 sizeof_AES_CTX_STRUC = true → kmalloc E2 sizeof_AES_CTX_STRUC = true →
  length out1 = 16%nat → length out2 = 16%nat →
  let kl := Z.of_nat (length key) in
  let '(ct, n) := RT_AES_Encrypt E1 pt 16 key kl out1 16 in
  RT_AES_Decrypt E2 ct n key kl out2 16 = (pt, 16).
Proof.
  intros Hp Hl Hk HK H1 H2 Ho1 Ho2 kl. unfold kl.
  rewrite RT_AES_Encrypt_ok by (done || lia).
  destruct (cipher_block key Hk HK pt Hl Hp) as [Hcl Hcb].
  assert (put out1 0 (cipher key pt) = cipher key pt) as ->.
  { rewrite put_splice, take_0, drop_ge, app_nil_r by lia. done. }
  rewrite RT_AES_Decrypt_ok, inv_cipher_cipher by (done || lia).
  rewrite put_splice, take_0, drop_ge, app_nil_r by lia. done.
Qed.

Lemma aes_roundtrip_witness :
  let E := {| kmalloc := λ _, true; garbage := [1; 2] |} in
  let '(ct, n) := RT_AES_Encrypt E (repeat 7 16) 16 (repeat 9 32) 32 (zeros 16) 16 in
  RT_AES_Decrypt E ct n (repeat 9 32) 32 (zeros 16) 16 = (repeat 7 16, 16).
Proof.
  intros E. apply (aes_roundtrip E E (repeat 7 16) (repeat 9 32) (zeros 16) (zeros 16));
    first [reflexivity | repeat constructor; unfold fits; lia].
Defined.
