(* ===== verification/AesChain.v ===== *)
(** * Chaining AES blocks

    What the modes of operation of [linux/Arch/rt5370.driver/common/crypt_aes.c]
    share: the call of [RT_AES_Encrypt] and [RT_AES_Decrypt] on one block, the
    number of blocks of a message and CBC chaining. *)

From stdpp Require Import base list numbers list_numbers.
From Stdlib Require Import ZArith Lia.
From S2P Require Import Prelude AesTables Aes.

(** [RT_AES_Encrypt(Block, 16, Key, KeyLength, Out, &Length)] with an output
    array of 16 bytes. *)
Definition encrypt_block (E : env) (Key : list Z) (KeyLength : Z) (Block Out : list Z) : list Z :=
  (RT_AES_Encrypt E Block 16 Key KeyLength Out 16).1.

(** The same with [RT_AES_Decrypt]. *)
Definition decrypt_block (E : env) (Key : list Z) (KeyLength : Z) (Block Out : list Z) : list Z :=
  (RT_AES_Decrypt E Block 16 Key KeyLength Out 16).1.

(** The number of blocks that hold [n] bytes. *)
Definition blocks (n : nat) : nat := (n + 15) / 16.

Definition pad16 (b : list Z) : list Z := b ++ zeros (16 - length b).

(** CBC chaining of the first [k] blocks of [l], the last one padded with
    zeros, from [x]. *)
Fixpoint cbc_fold (key : list Z) (k : nat) (x l : list Z) : list Z :=
  match k with
  | O => x
  | S k => cbc_fold key k (cipher key (xorl (pad16 (take 16 l)) x)) (drop 16 l)
  end.

Definition cbc_mac (key x l : list Z) : list Z := cbc_fold key (blocks (length l)) x l.

(** ** Blocks *)

Lemma blocks_0 : blocks 0 = 0%nat.
Proof. done. Qed.

Lemma blocks_pos n : (0 < n)%nat → blocks n = S (blocks (n - 16)).
Proof.
  intros H. unfold blocks. destruct (Nat.le_gt_cases n 16).
  - replace (n - 16)%nat with 0%nat by lia.
    change ((0 + 15) / 16)%nat with 0%nat. symmetry.
    apply Nat.div_unique with (n - 1)%nat; lia.
  - replace (n + 15)%nat with (n - 16 + 15 + 1 * 16)%nat by lia.
    rewrite Nat.div_add by lia. lia.
Qed.

Lemma blocks_bounds n : (n <= 16 * blocks n < n + 16)%nat.
Proof.
  unfold blocks. pose proof (Nat.div_mod_eq (n + 15) 16).
  pose proof (Nat.mod_upper_bound (n + 15) 16). lia.
Qed.

Lemma length_pad16 b : (length b <= 16)%nat → length (pad16 b) = 16%nat.
Proof. intros H. unfold pad16. autorewrite with len. lia. Qed.

Lemma bytes_pad16 b : bytes b → bytes (pad16 b).
Proof. intros H. apply Forall_app. split; [done|by apply fits_zeros]. Qed.

Lemma pad16_put b : (length b <= 16)%nat → put (zeros 16) 0 b = pad16 b.
Proof.
  intros H. rewrite put_splice, take_0 by (rewrite length_zeros; lia). cbn [app].
  unfold pad16. f_equal. apply drop_replicate.
Qed.

#[export] Hint Resolve bytes_pad16 : rt.

(** The bytes of the loop's next block. *)
Lemma next_chunk (n i : nat) :
  (i <= n)%nat →
  (if 16 <? Z.of_nat n - Z.of_nat i then 16 else Z.of_nat n - Z.of_nat i) =
    Z.of_nat (Nat.min 16 (n - i)).
Proof. intros H. destruct (Z.ltb_spec 16 (Z.of_nat n - Z.of_nat i)); lia. Qed.

Lemma slice_min (l : list Z) off k n :
  (off + n <= length l)%nat → slice l off (Nat.min k n) = take k (slice l off n).
Proof. intros H. unfold slice. by rewrite take_take. Qed.

Lemma slice_drop (l : list Z) off k n : drop k (slice l off n) = slice l (off + k) (n - k).
Proof. unfold slice. by rewrite skipn_firstn_comm, drop_drop. Qed.

(** What is left of a list after its next block. *)
Lemma slice_rest (l : list Z) off (n i : nat) :
  (i < n)%nat → drop 16 (slice l (off + i) (n - i)) =
    slice l (off + (i + Nat.min 16 (n - i))) (n - (i + Nat.min 16 (n - i))).
Proof.
  intros H. rewrite slice_drop. destruct (Nat.le_gt_cases 16 (n - i)).
  - rewrite Nat.min_l by lia. f_equal; lia.
  - rewrite Nat.min_r by lia. unfold slice.
    by replace (n - (i + (n - i)))%nat with 0%nat by lia; replace (n - i - 16)%nat with 0%nat by lia.
Qed.

(** A 16-byte block. *)
Definition block (b : list Z) : Prop := length b = 16%nat ∧ bytes b.

Lemma block_xor_pad b x : bytes b → (length b <= 16)%nat → block x → block (xorl (pad16 b) x).
Proof.
  intros Hb Hl [Hxl Hx]. split.
  - rewrite length_xorl, length_pad16; [done|lia|]. rewrite length_pad16; lia.
  - auto with rt.
Qed.

Lemma block_xorl a b : block a → block b → block (xorl a b).
Proof. intros [Ha Ha'] [Hb Hb']. split; [rewrite length_xorl; lia|auto with rt]. Qed.

Lemma cbc_mac_nil key x : cbc_mac key x [] = x.
Proof. done. Qed.

Lemma cbc_mac_step key x l : (0 < length l)%nat →
  cbc_mac key x l = cbc_mac key (cipher key (xorl (pad16 (take 16 l)) x)) (drop 16 l).
Proof. intros H. unfold cbc_mac. by rewrite length_drop, blocks_pos. Qed.

(** Writing a whole buffer. *)
Lemma put_all a b : length a = length b → put a 0 b = b.
Proof. intros H. by rewrite put_splice, take_0, drop_ge, app_nil_r by lia. Qed.

(** ** One block *)

Section AnyKey.
Context (E : env) (key : list Z).
Context (key_bytes : bytes key).
Context (key_ok : AES_KeyLength_ok (Z.of_nat (length key)) = true).
Context (memory : kmalloc E sizeof_AES_CTX_STRUC = true).

Lemma block_cipher_any b : block b → block (cipher key b).
Proof. intros [Hl Hb]. by apply cipher_block. Qed.

Lemma block_inv_cipher_any b : block b → block (inv_cipher key b).
Proof. intros [Hl Hb]. by apply inv_cipher_block. Qed.

Lemma encrypt_block_any b out :
  block b → length out = 16%nat →
  encrypt_block E key (Z.of_nat (length key)) b out = cipher key b.
Proof.
  intros [Hl Hb] Ho. unfold encrypt_block. rewrite RT_AES_Encrypt_ok by (done || lia).
  apply put_all. rewrite Ho. symmetry. by apply block_cipher_any.
Qed.

Lemma decrypt_block_any b out :
  block b → length out = 16%nat →
  decrypt_block E key (Z.of_nat (length key)) b out = inv_cipher key b.
Proof.
  intros [Hl Hb] Ho. unfold decrypt_block. rewrite RT_AES_Decrypt_ok by (done || lia).
  apply put_all. rewrite Ho. symmetry. by apply block_inv_cipher_any.
Qed.
End AnyKey.

(** The same for the 128-bit keys of CCM and CMAC. *)
Section Key128.
Context (E : env) (key : list Z).
Context (key_bytes : bytes key) (key_length : length key = 16%nat).
Context (memory : kmalloc E sizeof_AES_CTX_STRUC = true).

Lemma key_length_ok : AES_KeyLength_ok (Z.of_nat (length key)) = true.
Proof. by rewrite key_length. Qed.

Lemma block_cipher b : block b → block (cipher key b).
Proof. apply block_cipher_any; [done|apply key_length_ok]. Qed.

Lemma encrypt_block_ok b out :
  block b → length out = 16%nat → encrypt_block E key 16 b out = cipher key b.
Proof.
  intros Hb Ho. rewrite <- (encrypt_block_any E key key_bytes key_length_ok memory b out Hb Ho).
  by rewrite key_length.
Qed.

Lemma block_cbc_fold k x l : block x → bytes l → block (cbc_fold key k x l).
Proof.
  revert x l. induction k as [|k IH]; intros x l Hx Hl; [done|]. cbn [cbc_fold].
  apply IH; [|by apply Forall_drop]. apply block_cipher, block_xor_pad; [by apply Forall_take| |done].
  rewrite length_take. lia.
Qed.

Lemma block_cbc_mac x l : block x → bytes l → block (cbc_mac key x l).
Proof. apply block_cbc_fold. Qed.

Lemma block_next l x :
  bytes l → block x → block (cipher key (xorl (pad16 (take 16 l)) x)).
Proof.
  intros Hl Hx. apply block_cipher, block_xor_pad; [by apply Forall_take|rewrite length_take; lia|done].
Qed.
End Key128.
