(* ===== verification/AesCcm.v ===== *)
(** * AES-CCM

    Models [AES_CCM_MAC], [AES_CCM_Encrypt] and [AES_CCM_Decrypt] of
    [linux/Arch/rt5370.driver/common/crypt_aes.c].  The driver encrypts and
    decrypts frames in place, so plain text and cipher text are pointers into
    one memory; key, nonce and AAD are separate arrays.  A failed allocation
    inside [RT_AES_Encrypt] leaves its output block as it was, as in the code.

    The reference is RFC 3610 (the formatting of B_0, of the associated data
    and of the counter blocks); the counter of the code is the last byte of
    the counter block only, which is enough for 255 blocks. *)

From stdpp Require Import base list numbers list_numbers.
From Stdlib Require Import ZArith Lia.
From S2P Require Import Prelude AesTables Aes AesChain.

(** ** The MAC *)

(** Part 1 of [AES_CCM_MAC]: control information, nonce and length. *)
Definition CCM_B0 (PayloadLength : Z) (Nonce : list Z) (NonceLength AADLength MACLength : Z)
    : list Z :=
  let Block := zeros 16 in
  let Block := if 0 <? AADLength then Block.[0 <- Block.[0] .| 0x40] else Block in
  let Temp_Value := u32 (u32 (MACLength - 2) >> 1 <<32 3) in
  let Block := Block.[0 <- u8 (Block.[0] .| Temp_Value)] in
  let Temp_Value := u32 (u32 (15 - NonceLength) - 1) in
  let Block := Block.[0 <- u8 (Block.[0] .| Temp_Value)] in
  let Block := loop 0 (Z.to_nat NonceLength) (λ i Block, Block.[i + 1 <- Nonce.[i]]) Block in
  let Block := if NonceLength <? 12 then Block.[12 <- PayloadLength >> 24 & 0xff] else Block in
  let Block := if NonceLength <? 13 then Block.[13 <- PayloadLength >> 16 & 0xff] else Block in
  let Block := Block.[14 <- PayloadLength >> 8 & 0xff] in
  Block.[15 <- PayloadLength & 0xff].

(** Part 2: the first bytes of the associated data. *)
Definition CCM_AADHeader (AADLength : Z) : list Z * Z :=
  let Block := zeros 16 in
  if (0 <? AADLength) && (AADLength <? 0xFF00) then
    ((Block.[0 <- AADLength >> 8 & 0xff]).[1 <- AADLength & 0xff], 2)
  else
    ((((Block.[2 <- AADLength >> 24 & 0xff]).[3 <- AADLength >> 16 & 0xff])
        .[4 <- AADLength >> 8 & 0xff]).[5 <- AADLength & 0xff], 6).

(** One turn of the loop over the associated data; the state is [Block],
    [Block_MAC], [Block_Index] and [ADD_Index]. *)
Definition CCM_AADStep (E : env) (Key : list Z) (KeyLength : Z) (AAD : list Z) (AADLength : Z)
    (s : list Z * list Z * Z * Z) : option (list Z * list Z * Z * Z) :=
  let '(Block, Block_MAC, Block_Index, ADD_Index) := s in
  let Copy_Length := AADLength - ADD_Index in
  let Copy_Length := if 16 <? Copy_Length then 16 else Copy_Length in
  let Copy_Length := if 16 <? Copy_Length + Block_Index then 16 - Block_Index else Copy_Length in
  data ← load AAD ADD_Index Copy_Length;
  let Block := xorl (put Block (Z.to_nat Block_Index) data) Block_MAC in
  let Block_MAC := encrypt_block E Key KeyLength Block (zeros 16) in
  Some (zeros 16, Block_MAC, 0, ADD_Index + Copy_Length).

(** One turn of the loop over the payload at [m + Payload]; the state is
    [Block_MAC] and [Payload_Index]. *)
Definition CCM_PayloadStep (E : env) (Key : list Z) (KeyLength : Z) (m : list Z)
    (Payload PayloadLength : Z) (s : list Z * Z) : option (list Z * Z) :=
  let '(Block_MAC, Payload_Index) := s in
  let Copy_Length := PayloadLength - Payload_Index in
  let Copy_Length := if 16 <? Copy_Length then 16 else Copy_Length in
  data ← load m (Payload + Payload_Index) Copy_Length;
  let Block := xorl (put (zeros 16) 0 data) Block_MAC in
  let Block_MAC := encrypt_block E Key KeyLength Block (zeros 16) in
  Some (Block_MAC, Payload_Index + Copy_Length).

Definition AES_CCM_MAC (E : env) (m : list Z) (Payload PayloadLength : Z)
    (Key : list Z) (KeyLength : Z) (Nonce : list Z) (NonceLength : Z)
    (AAD : list Z) (AADLength MACLength : Z) (MACText : list Z) : option (list Z) :=
  let Block := CCM_B0 PayloadLength Nonce NonceLength AADLength MACLength in
  let Block_MAC := encrypt_block E Key KeyLength Block (zeros 16) in
  let '(Block, Block_Index) := CCM_AADHeader AADLength in
  '(_, Block_MAC, _, _) ←
    while_opt (S (Z.to_nat AADLength)) (λ s, s.2 <? AADLength)
      (CCM_AADStep E Key KeyLength AAD AADLength) (Block, Block_MAC, Block_Index, 0);
  '(Block_MAC, _) ←
    while_opt (S (Z.to_nat PayloadLength)) (λ s, s.2 <? PayloadLength)
      (CCM_PayloadStep E Key KeyLength m Payload PayloadLength) (Block_MAC, 0);
  store MACText 0 (take (Z.to_nat MACLength) Block_MAC).

(** ** Encryption and decryption *)

(** The counter block of both functions. *)
Definition CCM_CTR0 (Nonce : list Z) (NonceLength : Z) : list Z :=
  let Block_CTR := zeros 16 in
  let Temp_Value := u32 (u32 (15 - NonceLength) - 1) in
  let Block_CTR := Block_CTR.[0 <- u8 (Block_CTR.[0] .| Temp_Value)] in
  loop 0 (Z.to_nat NonceLength) (λ i B, B.[i + 1 <- Nonce.[i]]) Block_CTR.

(** One turn of the loop that encrypts or decrypts [n] bytes; the state is
    the memory, [Block_CTR], [Block_CTR_Cipher] and [Cipher_Index]. *)
Definition CCM_CTRStep (E : env) (Key : list Z) (KeyLength : Z) (src dst n : Z)
    (s : list Z * list Z * list Z * Z) : option (list Z * list Z * list Z * Z) :=
  let '(m, Block_CTR, Block_CTR_Cipher, Cipher_Index) := s in
  let Block_CTR := Block_CTR.[15 <- u8 (Block_CTR.[15] + 1)] in
  let Block_CTR_Cipher := encrypt_block E Key KeyLength Block_CTR Block_CTR_Cipher in
  let Copy_Length := n - Cipher_Index in
  let Copy_Length := if 16 <? Copy_Length then 16 else Copy_Length in
  m ← xor_copy m (src + Cipher_Index) (dst + Cipher_Index)
        (take (Z.to_nat Copy_Length) Block_CTR_Cipher);
  Some (m, Block_CTR, Block_CTR_Cipher, Cipher_Index + Copy_Length).

Definition CCM_MACLength_ok (n : Z) : bool :=
  (n =? 4) || (n =? 6) || (n =? 8) || (n =? 10) || (n =? 12) || (n =? 14) || (n =? 16).

(** The checks common to both functions, in their order; 0 when they pass. *)
Definition CCM_check (KeyLength NonceLength MACLength available needed : Z) : Z :=
  if negb (KeyLength =? 16) then -1
  else if (NonceLength <? 7) || (13 <? NonceLength) then -2
  else if negb (CCM_MACLength_ok MACLength) then -3
  else if available <? needed then -4
  else 0.

(** The return value, the memory and [*CipherTextLength]. *)
Definition AES_CCM_Encrypt (E : env) (m : list Z) (PlainText PlainTextLength : Z)
    (Key : list Z) (KeyLength : Z) (Nonce : list Z) (NonceLength : Z)
    (AAD : list Z) (AADLength MACLength : Z) (CipherText CipherTextLength : Z)
    : option (Z * list Z * Z) :=
  let code := CCM_check KeyLength NonceLength MACLength CipherTextLength
                (u32 (PlainTextLength + MACLength)) in
  if negb (code =? 0) then Some (code, m, CipherTextLength)
  else
    let Block_CTR := CCM_CTR0 Nonce NonceLength in
    Block_MAC ← AES_CCM_MAC E m PlainText PlainTextLength Key KeyLength Nonce NonceLength
                  AAD AADLength MACLength (local_array E 16);
    let Block_CTR_Cipher := encrypt_block E Key KeyLength Block_CTR (local_array E 16) in
    let Block_MAC := xorl (take (Z.to_nat MACLength) Block_MAC) Block_CTR_Cipher in
    '(m, _, _, _) ←
      while_opt (S (Z.to_nat PlainTextLength)) (λ s, s.2 <? PlainTextLength)
        (CCM_CTRStep E Key KeyLength PlainText CipherText PlainTextLength)
        (m, Block_CTR, Block_CTR_Cipher, 0);
    m ← store m (CipherText + PlainTextLength) Block_MAC;
    Some (0, m, PlainTextLength + MACLength).

Definition AES_CCM_Decrypt (E : env) (m : list Z) (CipherText CipherTextLength : Z)
    (Key : list Z) (KeyLength : Z) (Nonce : list Z) (NonceLength : Z)
    (AAD : list Z) (AADLength MACLength : Z) (PlainText PlainTextLength : Z)
    : option (Z * list Z * Z) :=
  let n := u32 (CipherTextLength - MACLength) in
  let code := CCM_check KeyLength NonceLength MACLength PlainTextLength n in
  if negb (code =? 0) then Some (code, m, PlainTextLength)
  else
    let Block_CTR := CCM_CTR0 Nonce NonceLength in
    let Block_CTR_Cipher := encrypt_block E Key KeyLength Block_CTR (local_array E 16) in
    mac ← load m (CipherText + n) (CipherTextLength - n);
    let Block_MAC_From_Cipher := xorl mac Block_CTR_Cipher in
    '(m, _, _, _) ←
      while_opt (S (Z.to_nat n)) (λ s, s.2 <? n)
        (CCM_CTRStep E Key KeyLength CipherText PlainText n)
        (m, Block_CTR, Block_CTR_Cipher, 0);
    Block_MAC ← AES_CCM_MAC E m PlainText n Key KeyLength Nonce NonceLength
                  AAD AADLength MACLength (local_array E 16);
    if decide (take (Z.to_nat MACLength) Block_MAC_From_Cipher = take (Z.to_nat MACLength) Block_MAC)
    then Some (0, m, n) else Some (-5, m, n).

(** ** Reference (RFC 3610) *)

Definition ccm_b0 (M : nat) (nonce aad msg : list Z) : list Z :=
  let q := (15 - length nonce)%nat in
  let adata := if decide (aad = []) then 0 else 1 in
  [64 * adata + 8 * ((Z.of_nat M - 2) / 2) + Z.of_nat (q - 1)] ++ nonce ++
  be_bytes q (Z.of_nat (length msg)).

Definition ccm_aad (aad : list Z) : list Z :=
  if decide (aad = []) then [] else be_bytes 2 (Z.of_nat (length aad)) ++ aad.

Definition ccm_tag (key : list Z) (M : nat) (nonce aad msg : list Z) : list Z :=
  let x := cipher key (ccm_b0 M nonce aad msg) in
  let x := cbc_mac key x (ccm_aad aad) in
  take M (cbc_mac key x msg).

Definition ccm_ctr (nonce : list Z) (i : nat) : list Z :=
  let q := (15 - length nonce)%nat in
  [Z.of_nat (q - 1)] ++ nonce ++ be_bytes q (Z.of_nat i).

(** [k] blocks of key stream from counter [i]. *)
Fixpoint ccm_stream (key nonce : list Z) (i k : nat) : list Z :=
  match k with
  | O => []
  | S k => cipher key (ccm_ctr nonce i) ++ ccm_stream key nonce (S i) k
  end.

(** The encrypted message and the encrypted tag. *)
Definition ccm_xor (key nonce msg : list Z) : list Z :=
  xorl msg (ccm_stream key nonce 1 (blocks (length msg))).

Definition ccm_seal_tag (key : list Z) (M : nat) (nonce aad msg : list Z) : list Z :=
  xorl (ccm_tag key M nonce aad msg) (cipher key (ccm_ctr nonce 0)).

(** RFC 3610, packet vector 1. *)
Example ccm_packet_vector_1 :
  let E := {| kmalloc := λ _, true; garbage := [] |} in
  let key := map (λ i, 0xc0 + Z.of_nat i) (seq 0 16) in
  let nonce := [0;0;0;3;2;1;0;0xa0;0xa1;0xa2;0xa3;0xa4;0xa5] in
  let aad := map Z.of_nat (seq 0 8) in
  let msg := map Z.of_nat (seq 8 23) in
  AES_CCM_Encrypt E (msg ++ zeros 8) 0 23 key 16 nonce 13 aad 8 8 0 31 =
    Some (0, [0x58;0x8c;0x97;0x9a;0x61;0xc6;0x63;0xd2;0xf0;0x66;0xd0;0xc2;0xc0;0xf9;0x89;0x80;
              0x6d;0x5f;0x6b;0x61;0xda;0xc3;0x84;0x17;0xe8;0xd1;0x2c;0xfd;0xf9;0x26;0xe0], 31).
Proof. vm_compute. reflexivity. Qed.

(** ** The loops of the MAC *)

Section Loops.
Context (E : env) (key : list Z).
Context (key_bytes : bytes key) (key_length : length key = 16%nat).
Context (memory : kmalloc E sizeof_AES_CTX_STRUC = true).

Lemma CCM_PayloadStep_ok m p n x i :
  bytes m → (p + n <= length m)%nat → block x → (i < n)%nat →
  let l := slice m (p + i) (n - i) in
  CCM_PayloadStep E key 16 m (Z.of_nat p) (Z.of_nat n) (x, Z.of_nat i) =
    Some (cipher key (xorl (pad16 (take 16 l)) x), Z.of_nat (i + Nat.min 16 (n - i))).
Proof.
  intros Hm Hp Hx Hi l. unfold CCM_PayloadStep. rewrite next_chunk by lia.
  rewrite load_ok by lia. cbn [mbind option_bind].
  replace (Z.to_nat (Z.of_nat p + Z.of_nat i)) with (p + i)%nat by lia. rewrite Nat2Z.id.
  rewrite slice_min by lia. fold l.
  assert (bytes l) as Hbl by (by apply bytes_slice).
  rewrite pad16_put by (rewrite length_take; lia).
  rewrite (encrypt_block_ok E key key_bytes key_length memory); [do 2 f_equal; lia| |apply length_zeros].
  apply block_xor_pad; [by apply Forall_take|rewrite length_take; lia|done].
Qed.

Lemma CCM_Payload_loop m p n fuel x i :
  bytes m → (p + n <= length m)%nat → block x → (i <= n)%nat → (n - i < fuel)%nat →
  while_opt fuel (λ s, s.2 <? Z.of_nat n)
    (CCM_PayloadStep E key 16 m (Z.of_nat p) (Z.of_nat n)) (x, Z.of_nat i) =
  Some (cbc_mac key x (slice m (p + i) (n - i)), Z.of_nat n).
Proof.
  intros Hm Hp. revert x i. induction fuel as [|fuel IH]; intros x i Hx Hi Hf; [lia|].
  cbn [while_opt snd]. destruct (Z.ltb_spec (Z.of_nat i) (Z.of_nat n)) as [Hlt|Hge].
  - rewrite CCM_PayloadStep_ok by (done || lia). cbn [mbind option_bind].
    rewrite IH; [|apply (block_next key key_bytes key_length); [by apply bytes_slice|done]|lia|lia].
    rewrite (cbc_mac_step key x) by (rewrite length_slice; lia).
    by rewrite slice_rest by lia.
  - assert (i = n) as -> by lia. rewrite Nat.sub_diag. unfold slice. by rewrite take_0.
Qed.

(** The loop over the associated data, after its first turn. *)
Lemma CCM_AADStep_ok aad Block x (hd : list Z) (i : nat) :
  let n := length aad in
  bytes aad → bytes hd → block x → (i < n)%nat → (length hd <= 16)%nat →
  Block = hd ++ zeros (16 - length hd) →
  let c := Nat.min (16 - length hd) (n - i) in
  CCM_AADStep E key 16 aad (Z.of_nat n) (Block, x, Z.of_nat (length hd), Z.of_nat i) =
    Some (zeros 16, cipher key (xorl (pad16 (hd ++ slice aad i c)) x), 0, Z.of_nat (i + c)).
Proof.
  intros n Ha Hh Hx Hi Hl -> c. unfold CCM_AADStep. rewrite next_chunk by lia.
  assert ((if 16 <? Z.of_nat (Nat.min 16 (n - i)) + Z.of_nat (length hd) then 16 - Z.of_nat (length hd)
    else Z.of_nat (Nat.min 16 (n - i))) = Z.of_nat c) as ->.
  { destruct (Z.ltb_spec 16 (Z.of_nat (Nat.min 16 (n - i)) + Z.of_nat (length hd))); lia. }
  rewrite load_ok by lia. cbn [mbind option_bind]. rewrite !Nat2Z.id.
  assert (length (slice aad i c) = c) as Hc by (apply length_slice; lia).
  assert (put (hd ++ zeros (16 - length hd)) (length hd) (slice aad i c) =
    pad16 (hd ++ slice aad i c)) as ->.
  { unfold zeros at 1. replace (16 - length hd)%nat with (c + (16 - length hd - c))%nat by lia.
    rewrite replicate_add, put_app by (rewrite length_replicate; lia).
    unfold pad16. rewrite <- app_assoc. do 2 f_equal. unfold zeros. f_equal. rewrite length_app. lia. }
  rewrite (encrypt_block_ok E key key_bytes key_length memory); [do 2 f_equal; lia| |apply length_zeros].
  apply block_xor_pad; [apply Forall_app; split; [done|by apply bytes_slice]|rewrite length_app; lia|done].
Qed.

Lemma CCM_AAD_loop aad fuel x i :
  let n := length aad in
  bytes aad → block x → (i <= n)%nat → (n - i < fuel)%nat →
  while_opt fuel (λ s, s.2 <? Z.of_nat n) (CCM_AADStep E key 16 aad (Z.of_nat n))
    (zeros 16, x, 0, Z.of_nat i) =
  Some (zeros 16, cbc_mac key x (drop i aad), 0, Z.of_nat n).
Proof.
  intros n Ha. revert x i. induction fuel as [|fuel IH]; intros x i Hx Hi Hf; [lia|].
  cbn [while_opt snd]. destruct (Z.ltb_spec (Z.of_nat i) (Z.of_nat n)) as [Hlt|Hge].
  - pose proof (CCM_AADStep_ok aad (zeros 16) x [] i Ha (Forall_nil_2 _) Hx ltac:(lia)
      ltac:(cbn; lia) eq_refl) as Hs.
    cbn [length app Nat.sub] in Hs. change (Z.of_nat 0) with 0 in Hs. fold n in Hs.
    rewrite Hs. cbn [mbind option_bind].
    assert (slice aad i (Nat.min 16 (n - i)) = take 16 (drop i aad)) as ->.
    { unfold slice. destruct (Nat.le_gt_cases 16 (n - i)).
      - by rewrite Nat.min_l by lia.
      - rewrite Nat.min_r by lia. rewrite !take_ge; rewrite ?length_drop; done || lia. }
    rewrite IH; [|apply (block_next key key_bytes key_length); [by apply Forall_drop|done]|lia|lia].
    rewrite (cbc_mac_step key x) by (rewrite length_drop; lia). rewrite drop_drop.
    do 5 f_equal. destruct (Nat.le_gt_cases 16 (n - i)).
    + by rewrite Nat.min_l by lia.
    + rewrite Nat.min_r by lia. rewrite !drop_ge by lia. done.
  - assert (i = n) as -> by lia. by rewrite drop_ge by lia.
Qed.
End Loops.

(** ** Formatting *)

(** A nonce of one of the allowed lengths. *)
Lemma nonce_cases (nonce : list Z) : (7 <= length nonce <= 13)%nat →
  ∃ g L, nonce = map g (seq 0 L) ∧ (L = 7 ∨ L = 8 ∨ L = 9 ∨ L = 10 ∨ L = 11 ∨ L = 12 ∨ L = 13)%nat.
Proof. intros H. destruct (list_as_map nonce (length nonce) eq_refl) as [g ->]. exists g. eexists. split; [done|]. lia. Qed.

Definition M_ok (M : nat) : Prop := CCM_MACLength_ok (Z.of_nat M) = true.

Lemma M_ok_cases M : M_ok M → (M = 4 ∨ M = 6 ∨ M = 8 ∨ M = 10 ∨ M = 12 ∨ M = 14 ∨ M = 16)%nat.
Proof.
  unfold M_ok, CCM_MACLength_ok. intros H.
  repeat (apply orb_true_iff in H as [H|H]); apply Z.eqb_eq in H; lia.
Qed.

(** The first byte of B_0. *)
Lemma CCM_flags (M L : nat) (a : bool) :
  M_ok M → (7 <= L <= 13)%nat →
  u8 (u8 ((if a then 64 else 0) .| u32 (u32 (Z.of_nat M - 2) >> 1 <<32 3)) .|
    u32 (u32 (15 - Z.of_nat L) - 1)) =
  64 * (if a then 1 else 0) + 8 * ((Z.of_nat M - 2) / 2) + Z.of_nat (15 - L - 1).
Proof.
  intros HM%M_ok_cases HL.
  assert (L = 7 ∨ L = 8 ∨ L = 9 ∨ L = 10 ∨ L = 11 ∨ L = 12 ∨ L = 13)%nat as HL' by lia.
  destruct HM as [->|[->|[->|[->|[->|[->| ->]]]]]], HL' as [->|[->|[->|[->|[->|[->| ->]]]]]];
    by destruct a.
Qed.

Lemma be_bytes_3 x : be_bytes 3 x = [x >> 16 & 255; x >> 8 & 255; x & 255].
Proof. unfold be_bytes. rewrite le_bytes_seq. reflexivity. Qed.

Lemma be_bytes_2 x : be_bytes 2 x = [x >> 8 & 255; x & 255].
Proof. unfold be_bytes. rewrite le_bytes_seq. reflexivity. Qed.

Lemma CCM_B0_ok n nonce (a : Z) M :
  M_ok M → (7 <= length nonce <= 13)%nat → 0 <= n < 2 ^ 32 →
  CCM_B0 n nonce (Z.of_nat (length nonce)) a (Z.of_nat M) =
    [64 * (if 0 <? a then 1 else 0) + 8 * ((Z.of_nat M - 2) / 2) + Z.of_nat (15 - length nonce - 1)] ++
    nonce ++ be_bytes (15 - length nonce) n.
Proof.
  intros HM HL Hn. rewrite <- (CCM_flags M (length nonce) (0 <? a)) by done.
  assert (∀ d, be_bytes (4 + d) n = zeros d ++ be_bytes 4 n) as Hw by (intros; by apply be_bytes_wide).
  unfold CCM_B0.
  generalize (u32 (u32 (Z.of_nat M - 2) >> 1 <<32 3)). intros T.
  destruct (nonce_cases nonce HL) as (g & L & -> & H7).
  rewrite length_map, length_seq. clear HL.
  destruct H7 as [->|[->|[->|[->|[->|[->| ->]]]]]]; cbn [Nat.sub seq map];
    [rewrite (Hw 4%nat : be_bytes 8 n = _)|rewrite (Hw 3%nat : be_bytes 7 n = _)
    |rewrite (Hw 2%nat : be_bytes 6 n = _)|rewrite (Hw 1%nat : be_bytes 5 n = _)| |rewrite be_bytes_3|rewrite be_bytes_2]; rewrite ?be_bytes_4; destruct (0 <? a); reflexivity.
Qed.

Lemma CCM_CTR0_ok nonce :
  (7 <= length nonce <= 13)%nat → CCM_CTR0 nonce (Z.of_nat (length nonce)) = ccm_ctr nonce 0.
Proof.
  intros HL. unfold CCM_CTR0, ccm_ctr, be_bytes. rewrite le_bytes_0.
  destruct (nonce_cases nonce HL) as (g & L & -> & H7). rewrite length_map, length_seq. clear HL.
  destruct H7 as [->|[->|[->|[->|[->|[->| ->]]]]]]; reflexivity.
Qed.

(** Incrementing the last byte is incrementing the counter, up to 255. *)
Lemma ccm_ctr_shape nonce i :
  (7 <= length nonce <= 13)%nat → (i < 256)%nat →
  ccm_ctr nonce i = ([Z.of_nat (15 - length nonce - 1)] ++ nonce ++ zeros (14 - length nonce)) ++
    [Z.of_nat i].
Proof.
  intros HL Hi. unfold ccm_ctr. replace (15 - length nonce)%nat with (S (14 - length nonce)) at 2 by lia.
  rewrite be_bytes_small by (unfold fits; lia). by rewrite <- !app_assoc.
Qed.

Lemma ccm_ctr_next nonce i :
  (7 <= length nonce <= 13)%nat → (i < 255)%nat →
  (ccm_ctr nonce i).[15 <- u8 ((ccm_ctr nonce i).[15] + 1)] = ccm_ctr nonce (S i).
Proof.
  intros HL Hi. rewrite !ccm_ctr_shape by lia.
  set (h := _ ++ nonce ++ _).
  assert (length h = 15)%nat as Hh by (unfold h; rewrite !length_app, length_zeros; cbn [length]; lia).
  rewrite get_app_r by lia. rewrite Hh. cbn [Nat.sub]. unfold get. cbn [nth].
  rewrite insert_app_r_alt by lia. rewrite Hh.
  assert (u8 (Z.of_nat i + 1) = Z.of_nat (S i)) as -> by (rewrite u8_small; unfold fits; lia).
  done.
Qed.

Lemma block_ctr nonce i : (7 <= length nonce <= 13)%nat → bytes nonce → (i < 256)%nat →
  block (ccm_ctr nonce i).
Proof.
  intros HL Hb Hi. rewrite ccm_ctr_shape by done. split.
  - rewrite !length_app, length_zeros. cbn [length]. lia.
  - repeat (apply Forall_app; split); try done.
    + constructor; [unfold fits; lia|constructor].
    + by apply fits_zeros.
    + constructor; [unfold fits; lia|constructor].
Qed.

(** ** The MAC of a message *)

Lemma M_ok_small M : M_ok M → (4 <= M <= 16)%nat.
Proof. intros H%M_ok_cases. lia. Qed.

Section Modes.
Context (E : env) (key : list Z).
Context (key_bytes : bytes key) (key_length : length key = 16%nat).
Context (memory : kmalloc E sizeof_AES_CTX_STRUC = true).
Context (nonce : list Z) (nonce_bytes : bytes nonce) (nonce_length : (7 <= length nonce <= 13)%nat).

Lemma CCM_AADHeader_ok n :
  (0 < n)%nat → Z.of_nat n < 0xFF00 →
  CCM_AADHeader (Z.of_nat n) = (be_bytes 2 (Z.of_nat n) ++ zeros 14, 2).
Proof.
  intros H0 H1. unfold CCM_AADHeader.
  rewrite (proj2 (Z.ltb_lt _ _)), (proj2 (Z.ltb_lt (Z.of_nat n) _)) by lia.
  by rewrite be_bytes_2.
Qed.

(** The associated data is chained after its length. *)
Lemma CCM_AAD_all aad x :
  bytes aad → block x → Z.of_nat (length aad) < 0xFF00 →
  ∃ b i,
    (let '(Block, Block_Index) := CCM_AADHeader (Z.of_nat (length aad)) in
     while_opt (S (Z.to_nat (Z.of_nat (length aad)))) (λ s, s.2 <? Z.of_nat (length aad))
       (CCM_AADStep E key 16 aad (Z.of_nat (length aad))) (Block, x, Block_Index, 0)) =
    Some (b, cbc_mac key x (ccm_aad aad), i, Z.of_nat (length aad)).
Proof.
  intros Ha Hx Hn. unfold ccm_aad. case_decide as Hd.
  - subst aad. by eexists _, _.
  - assert (0 < length aad)%nat as H0 by (destruct aad; [done|cbn; lia]).
    rewrite CCM_AADHeader_ok by done. rewrite Nat2Z.id. set (n := length aad) in *.
    exists (zeros 16), 0.
    pose proof (CCM_AADStep_ok E key key_bytes key_length memory aad
      (be_bytes 2 (Z.of_nat n) ++ zeros 14) x (be_bytes 2 (Z.of_nat n)) 0 Ha (bytes_be_bytes _ _)
      Hx H0 ltac:(rewrite length_be_bytes; lia) ltac:(by rewrite length_be_bytes)) as Hs.
    rewrite length_be_bytes in Hs. change (Z.of_nat 2) with 2 in Hs.
    change (Z.of_nat 0) with 0 in Hs. cbn [Nat.sub Nat.add] in Hs. rewrite Nat.sub_0_r in Hs. fold n in Hs.
    cbn [while_opt snd]. rewrite (proj2 (Z.ltb_lt _ _)), Hs by lia. cbn [mbind option_bind].
    assert (be_bytes 2 (Z.of_nat n) ++ slice aad 0 (Nat.min 14 n) =
      take 16 (be_bytes 2 (Z.of_nat n) ++ aad)) as ->.
    { rewrite take_app_ge by (rewrite length_be_bytes; lia). f_equal.
      rewrite length_be_bytes. unfold slice. rewrite drop_0. cbn [Nat.sub].
      destruct (Nat.le_gt_cases 14 n); [by rewrite Nat.min_l by lia|].
      rewrite Nat.min_r, !take_ge by (unfold n in *; lia). done. }
    unfold n. rewrite (CCM_AAD_loop E key key_bytes key_length memory aad); [|done| |lia|lia].
    + fold n. rewrite (cbc_mac_step key x (_ ++ aad)) by (rewrite length_app, length_be_bytes; lia).
      do 4 f_equal. rewrite drop_app_ge by (rewrite length_be_bytes; lia).
      rewrite length_be_bytes. cbn [Nat.sub].
      destruct (Nat.le_gt_cases 14 n); [by rewrite Nat.min_l by lia|].
      rewrite !drop_ge; [done|unfold n in *; lia|rewrite Nat.min_r; unfold n in *; lia].
    + apply block_next; [done|done| |done]. apply Forall_app. split; [apply bytes_be_bytes|done].
Qed.

Lemma block_b0 M aad msg : M_ok M → block (ccm_b0 M nonce aad msg).
Proof.
  intros HM. unfold ccm_b0. split.
  - rewrite !length_app, length_be_bytes. cbn [length]. lia.
  - apply Forall_app; split; [|apply Forall_app; split; [done|apply bytes_be_bytes]].
    constructor; [|constructor]. apply M_ok_cases in HM.
    assert (0 <= (Z.of_nat M - 2) / 2 <= 7) as HMb
      by (destruct HM as [->|[->|[->|[->|[->|[->| ->]]]]]]; vm_compute; split; discriminate).
    unfold fits. change (2 ^ 8) with 256. case_decide; lia.
Qed.

Lemma bytes_ccm_aad aad : bytes aad → bytes (ccm_aad aad).
Proof.
  intros Ha. unfold ccm_aad. case_decide; [constructor|].
  apply Forall_app. split; [apply bytes_be_bytes|done].
Qed.

Lemma AES_CCM_MAC_ok m p n aad M out :
  bytes m → (p + n <= length m)%nat → Z.of_nat n < 2 ^ 32 → bytes aad →
  Z.of_nat (length aad) < 0xFF00 → M_ok M → length out = 16%nat →
  AES_CCM_MAC E m (Z.of_nat p) (Z.of_nat n) key 16 nonce (Z.of_nat (length nonce))
    aad (Z.of_nat (length aad)) (Z.of_nat M) out =
  Some (put out 0 (ccm_tag key M nonce aad (slice m p n))).
Proof.
  intros Hm Hp Hn Ha Hal HM Ho. unfold AES_CCM_MAC.
  rewrite CCM_B0_ok by (done || lia).
  assert ((if 0 <? Z.of_nat (length aad) then 1 else 0) = (if decide (aad = []) then 0 else 1)) as ->.
  { destruct aad; cbn [length]; [done|]. rewrite (proj2 (Z.ltb_lt _ _)) by lia. done. }
  assert (length (slice m p n) = n) as Hsl by (by apply length_slice).
  assert (∀ l, l = ccm_b0 M nonce aad (slice m p n) →
    block l → encrypt_block E key 16 l (zeros 16) = cipher key (ccm_b0 M nonce aad (slice m p n))) as He.
  { intros l -> Hl. by apply encrypt_block_ok. }
  assert (block (ccm_b0 M nonce aad (slice m p n))) as Hb0 by (by apply block_b0).
  rewrite He; [|unfold ccm_b0; by rewrite Hsl|].
  2:{ revert Hb0. unfold ccm_b0. by rewrite Hsl. }
  assert (block (cipher key (ccm_b0 M nonce aad (slice m p n)))) as Hx
    by (by apply block_cipher).
  destruct (CCM_AAD_all aad _ Ha Hx Hal) as (b & i & HA). revert HA.
  destruct (CCM_AADHeader _) as [B0 I0]. intros ->. cbn [mbind option_bind].
  set (x := cbc_mac key _ (ccm_aad aad)).
  assert (block x) as Hxx.
  { apply block_cbc_mac; [done..|]. by apply bytes_ccm_aad. }
  pose proof (CCM_Payload_loop E key key_bytes key_length memory m p n (S n) x 0 Hm Hp Hxx
    ltac:(lia) ltac:(lia)) as HP.
  rewrite (Nat2Z.id n). change (Z.of_nat 0) with 0 in HP. rewrite HP. cbn [mbind option_bind].
  rewrite Nat.add_0_r, Nat.sub_0_r, (Nat2Z.id M), store_ok; [done|lia|].
  apply M_ok_cases in HM. rewrite length_take. lia.
Qed.

(** ** The key stream *)

Lemma length_ccm_stream i k :
  (i + k <= 256)%nat → length (ccm_stream key nonce i k) = (16 * k)%nat.
Proof.
  revert i. induction k as [|k IH]; intros i Hi; [done|]. cbn [ccm_stream].
  rewrite length_app, IH by lia.
  destruct (block_cipher key key_bytes key_length (ccm_ctr nonce i)) as [-> _];
    [apply block_ctr; done || lia|lia].
Qed.

Lemma bytes_ccm_stream i k :
  (i + k <= 256)%nat → bytes (ccm_stream key nonce i k).
Proof.
  revert i. induction k as [|k IH]; intros i Hi; [constructor|]. cbn [ccm_stream].
  apply Forall_app. split; [|apply IH; lia].
  apply block_cipher; [done..|]. apply block_ctr; done || lia.
Qed.

Lemma CCM_CTRStep_ok s d n m j c i :
  (i < n)%nat → (j < 255)%nat → length c = 16%nat →
  let n' := Nat.min 16 (n - i) in
  let k := cipher key (ccm_ctr nonce (S j)) in
  CCM_CTRStep E key 16 s d (Z.of_nat n) (m, ccm_ctr nonce j, c, Z.of_nat i) =
    (m' ← xor_copy m (s + Z.of_nat i) (d + Z.of_nat i) (take n' k);
     Some (m', ccm_ctr nonce (S j), k, Z.of_nat (i + n'))).
Proof.
  intros Hi Hj Hc n' k. unfold CCM_CTRStep. rewrite next_chunk by lia.
  rewrite Nat2Z.id, ccm_ctr_next, encrypt_block_ok by (try done; apply block_ctr; done || lia).
  by replace (Z.of_nat i + Z.of_nat (Nat.min 16 (n - i))) with (Z.of_nat (i + n')) by lia.
Qed.

(** The loop over the blocks is one pass of XOR with the key stream from the
    next counter. *)
Lemma CCM_CTR_loop s d n fuel m j c i :
  (i <= n)%nat → (n - i < fuel)%nat → (j + blocks (n - i) <= 255)%nat → length c = 16%nat →
  ∃ ctr' c',
  while_opt fuel (λ st, st.2 <? Z.of_nat n)
    (CCM_CTRStep E key 16 s d (Z.of_nat n)) (m, ccm_ctr nonce j, c, Z.of_nat i) =
  (m' ← xor_copy m (s + Z.of_nat i) (d + Z.of_nat i)
          (take (n - i) (ccm_stream key nonce (S j) (blocks (n - i))));
   Some (m', ctr', c', Z.of_nat n)).
Proof.
  revert m j c i. induction fuel as [|fuel IH]; intros m j c i Hi Hf Hj Hc; [lia|].
  cbn [while_opt snd]. destruct (Z.ltb_spec (Z.of_nat i) (Z.of_nat n)) as [Hlt|Hge].
  - rewrite blocks_pos in Hj |- * by lia. cbn [ccm_stream].
    rewrite CCM_CTRStep_ok by (done || lia).
    assert (block (ccm_ctr nonce (S j))) as Hb by (apply block_ctr; done || lia).
    destruct (block_cipher key key_bytes key_length _ Hb) as [Hl _].
    set (k := cipher key _) in *. set (n' := Nat.min 16 (n - i)) in *.
    assert (take (n - i) (k ++ ccm_stream key nonce (S (S j)) (blocks (n - i - 16))) =
      take n' k ++ take (n - i - 16) (ccm_stream key nonce (S (S j)) (blocks (n - i - 16)))) as ->.
    { unfold n'. rewrite take_app, Hl. f_equal. destruct (Nat.le_gt_cases 16 (n - i)).
      - rewrite Nat.min_l, !take_ge by lia. done.
      - by rewrite Nat.min_r by lia. }
    rewrite xor_copy_app, length_take, Hl.
    replace (Nat.min n' 16) with n' by lia.
    destruct (xor_copy m _ _ (take n' k)) as [m1|]; cbn [mbind option_bind].
    + destruct (IH m1 (S j) k (i + n')%nat) as (ctr' & c' & HIH); [lia|lia| |done|].
      { replace (n - (i + n'))%nat with (n - i - 16)%nat by lia. lia. }
      exists ctr', c'. replace (Z.of_nat i + Z.of_nat n') with (Z.of_nat (i + n')) by lia.
      rewrite HIH. replace (n - (i + n'))%nat with (n - i - 16)%nat by lia.
      by rewrite <- !Z.add_assoc, <- Nat2Z.inj_add.
    + by exists c, c.
  - assert (i = n) as -> by lia. exists (ccm_ctr nonce j), c. by rewrite Nat.sub_diag.
Qed.

(** The whole loop, for buffers in place or such that the output does not
    run into input still to be read. *)
Lemma CCM_CTR_all s d n m c :
  (n <= 4080)%nat → length c = 16%nat → (d <= s ∨ s + n <= d)%nat →
  (s + n <= length m)%nat → (d + n <= length m)%nat →
  ∃ ctr' c',
  while_opt (S (Z.to_nat (Z.of_nat n))) (λ st, st.2 <? Z.of_nat n)
    (CCM_CTRStep E key 16 (Z.of_nat s) (Z.of_nat d) (Z.of_nat n)) (m, ccm_ctr nonce 0, c, 0) =
  Some (put m d (ccm_xor key nonce (slice m s n)), ctr', c', Z.of_nat n).
Proof.
  intros Hn Hc Hsd Hs Hd. rewrite Nat2Z.id. pose proof (blocks_bounds n) as Hb.
  destruct (CCM_CTR_loop (Z.of_nat s) (Z.of_nat d) n (S n) m 0 c 0) as (ctr' & c' & H);
    [lia|lia|rewrite Nat.sub_0_r; lia|done|].
  exists ctr', c'. change (Z.of_nat 0) with 0 in H. rewrite H, !Z.add_0_r, Nat.sub_0_r.
  set (ks := ccm_stream key nonce 1 (blocks n)).
  assert (length ks = 16 * blocks n)%nat as Hk by (apply length_ccm_stream; lia).
  rewrite xor_copy_spec by (rewrite length_take; lia). cbn [mbind option_bind].
  do 5 f_equal. unfold ccm_xor. rewrite length_take, Nat.min_l, length_slice by lia.
  fold ks. apply xorl_take_r. rewrite length_slice; lia.
Qed.

(** ** Encryption and decryption *)

Lemma length_ccm_tag M aad msg :
  M_ok M → bytes aad → bytes msg → length (ccm_tag key M nonce aad msg) = M.
Proof.
  intros HM Ha Hm. unfold ccm_tag. rewrite length_take.
  destruct (block_cbc_mac key key_bytes key_length
    (cbc_mac key (cipher key (ccm_b0 M nonce aad msg)) (ccm_aad aad)) msg) as [Hl _]; [|done|].
  - apply block_cbc_mac; [done..| |].
    + apply block_cipher; [done..|]. by apply block_b0.
    + apply bytes_ccm_aad, Ha.
  - apply M_ok_cases in HM. lia.
Qed.

Lemma length_seal_tag M aad msg :
  M_ok M → bytes aad → bytes msg → length (ccm_seal_tag key M nonce aad msg) = M.
Proof.
  intros HM Ha Hm. unfold ccm_seal_tag.
  destruct (block_cipher key key_bytes key_length (ccm_ctr nonce 0)) as [Hl _];
    [apply block_ctr; done || lia|].
  rewrite length_xorl_le; rewrite length_ccm_tag by done; [done|].
  apply M_ok_cases in HM. lia.
Qed.

Lemma length_ccm_xor msg : (length msg <= 4080)%nat → length (ccm_xor key nonce msg) = length msg.
Proof.
  intros H. pose proof (blocks_bounds (length msg)). unfold ccm_xor.
  rewrite length_xorl_le; [done|]. rewrite length_ccm_stream; lia.
Qed.

Lemma ccm_xor_involutive msg :
  (length msg <= 4080)%nat → ccm_xor key nonce (ccm_xor key nonce msg) = msg.
Proof.
  intros H. unfold ccm_xor at 1. rewrite length_ccm_xor by done. unfold ccm_xor.
  pose proof (blocks_bounds (length msg)). apply xorl_cancel_r. rewrite length_ccm_stream; lia.
Qed.

Lemma bytes_ccm_xor msg : (length msg <= 4080)%nat → bytes msg → bytes (ccm_xor key nonce msg).
Proof.
  intros H Hm. pose proof (blocks_bounds (length msg)).
  apply xorl_bytes; [done|]. apply bytes_ccm_stream. lia.
Qed.

Lemma CCM_check_ok M avail needed :
  M_ok M → needed <= avail → CCM_check 16 (Z.of_nat (length nonce)) (Z.of_nat M) avail needed = 0.
Proof.
  intros HM Hn. unfold CCM_check. rewrite (HM : CCM_MACLength_ok _ = true).
  rewrite (proj2 (Z.ltb_ge _ _)), (proj2 (Z.ltb_ge 13 _)), (proj2 (Z.ltb_ge avail _)) by lia. done.
Qed.

Context (M : nat) (M_valid : M_ok M) (aad : list Z) (aad_bytes : bytes aad).
Context (aad_length : Z.of_nat (length aad) < 0xFF00).

Lemma AES_CCM_Encrypt_ok m s d n avail :
  bytes m → (n <= 4080)%nat → (d <= s ∨ s + n <= d)%nat → (s + n <= length m)%nat →
  (d + n + M <= length m)%nat → Z.of_nat (n + M) <= avail →
  let msg := slice m s n in
  AES_CCM_Encrypt E m (Z.of_nat s) (Z.of_nat n) key 16 nonce (Z.of_nat (length nonce))
    aad (Z.of_nat (length aad)) (Z.of_nat M) (Z.of_nat d) avail =
  Some (0, put m d (ccm_xor key nonce msg ++ ccm_seal_tag key M nonce aad msg), Z.of_nat (n + M)).
Proof.
  intros Hm Hn Hsd Hs Hd Hav msg. pose proof (M_ok_small M M_valid) as HM.
  assert (length msg = n) as Hmsg by (by apply length_slice).
  assert (bytes msg) as Hmb by (by apply bytes_slice).
  unfold AES_CCM_Encrypt. rewrite <- Nat2Z.inj_add, u32_small by (unfold fits; lia).
  rewrite CCM_check_ok by (done || lia). cbn [negb Z.eqb].
  rewrite AES_CCM_MAC_ok by (done || lia || apply length_local_array). cbn [mbind option_bind].
  rewrite CCM_CTR0_ok by done.
  rewrite encrypt_block_ok by first [done | apply length_local_array | apply block_ctr; done || lia].
  destruct (CCM_CTR_all s d n m (cipher key (ccm_ctr nonce 0))) as (ctr' & c' & ->); [done| |done|lia|lia|].
  { apply block_cipher; [done..|]. apply block_ctr; done || lia. }
  cbn [mbind option_bind]. fold msg.
  assert (take (Z.to_nat (Z.of_nat M)) (put (local_array E 16) 0 (ccm_tag key M nonce aad msg)) =
    ccm_tag key M nonce aad msg) as ->.
  { pose proof (length_ccm_tag M aad msg M_valid aad_bytes Hmb) as Ht. rewrite Nat2Z.id.
    rewrite put_splice, take_0 by (rewrite length_local_array; lia). cbn [app].
    by rewrite take_app_le, take_ge by lia. }
  fold (ccm_seal_tag key M nonce aad msg).
  pose proof (length_seal_tag M aad msg M_valid aad_bytes Hmb) as Hst.
  pose proof (length_ccm_xor msg ltac:(lia)) as Hx. rewrite Hmsg in Hx.
  rewrite store_ok by (rewrite ?length_put; lia). cbn [mbind option_bind].
  replace (Z.to_nat (Z.of_nat d + Z.of_nat n)) with (d + length (ccm_xor key nonce msg))%nat by lia.
  rewrite put_put_adjacent by lia. done.
Qed.

(** The message that a sealed one at [c] decrypts to, and its tag. *)
Lemma AES_CCM_Decrypt_ok m c p n avail :
  bytes m → (n <= 4080)%nat → (p <= c ∨ c + n <= p)%nat → (c + n + M <= length m)%nat →
  (p + n <= length m)%nat → Z.of_nat n <= avail →
  let msg := ccm_xor key nonce (slice m c n) in
  AES_CCM_Decrypt E m (Z.of_nat c) (Z.of_nat (n + M)) key 16 nonce (Z.of_nat (length nonce))
    aad (Z.of_nat (length aad)) (Z.of_nat M) (Z.of_nat p) avail =
  Some (if decide (slice m (c + n) M = ccm_seal_tag key M nonce aad msg) then 0 else -5,
        put m p msg, Z.of_nat n).
Proof.
  intros Hm Hn Hsd Hc Hp Hav msg. pose proof (M_ok_small M M_valid) as HM.
  assert (length (slice m c n) = n) as Hcl by (apply length_slice; lia).
  assert (bytes (slice m c n)) as Hcb by (by apply bytes_slice).
  assert (length msg = n) as Hml by (unfold msg; rewrite length_ccm_xor; lia).
  assert (bytes msg) as Hmb by (apply bytes_ccm_xor; [lia|done]).
  unfold AES_CCM_Decrypt. replace (Z.of_nat (n + M) - Z.of_nat M) with (Z.of_nat n) by lia.
  rewrite u32_small by (unfold fits; lia).
  rewrite CCM_check_ok by (done || lia). cbn [negb Z.eqb].
  rewrite CCM_CTR0_ok by done.
  rewrite encrypt_block_ok by first [done | apply length_local_array | apply block_ctr; done || lia].
  rewrite load_ok by lia. cbn [mbind option_bind].
  replace (Z.to_nat (Z.of_nat c + Z.of_nat n)) with (c + n)%nat by lia.
  replace (Z.to_nat (Z.of_nat (n + M) - Z.of_nat n)) with M by lia.
  destruct (CCM_CTR_all c p n m (cipher key (ccm_ctr nonce 0))) as (ctr' & c' & ->);
    [done| |done|lia|done|].
  { apply block_cipher; [done..|]. apply block_ctr; done || lia. }
  cbn [mbind option_bind]. fold msg.
  assert (bytes (put m p msg)) as Hpb by (by apply bytes_put).
  rewrite AES_CCM_MAC_ok by first [done | rewrite ?length_put; lia | apply length_local_array].
  cbn [mbind option_bind].
  assert (slice (put m p msg) p n = msg) as ->.
  { rewrite <- Hml at 1. apply slice_put_eq. lia. }
  pose proof (length_ccm_tag M aad msg M_valid aad_bytes Hmb) as Ht. rewrite Nat2Z.id.
  rewrite (put_splice (local_array E 16)), take_0 by (rewrite length_local_array; lia). cbn [app].
  rewrite take_app_le, (take_ge (ccm_tag _ _ _ _ _)) by lia.
  destruct (block_cipher key key_bytes key_length (ccm_ctr nonce 0)) as [Hk _];
    [apply block_ctr; done || lia|].
  assert (length (slice m (c + n) M) = M) as Hsl by (apply length_slice; lia).
  rewrite take_ge by (rewrite length_xorl_le; lia).
  unfold ccm_seal_tag.
  destruct (decide (xorl (slice m (c + n) M) _ = _)) as [<-|Hne].
  - rewrite xorl_cancel_r by lia. by rewrite decide_True by done.
  - rewrite decide_False; [done|]. intros He. apply Hne. rewrite He. apply xorl_cancel_r. lia.
Qed.
End Modes.

(** ** The properties *)

Definition ccm_args (E : env) (key nonce aad : list Z) (M : nat) : Prop :=
  kmalloc E sizeof_AES_CTX_STRUC = true ∧
  bytes key ∧ length key = 16%nat ∧ bytes nonce ∧ (7 <= length nonce <= 13)%nat ∧
  bytes aad ∧ Z.of_nat (length aad) < 0xFF00 ∧ M_ok M.

(** C37: [AES_CCM_Encrypt] returns its error codes in order (-1 key length, -2
    nonce length, -3 MAC length, -4 output too small) without touching the
    memory.  Otherwise, for up to 4080 bytes of data and less than 0xff00 of AAD,
    in place or with output that does not run into the input, and when the AES
    context is allocated, it writes the RFC 3610 encryption and tag at the output,
    nothing else, and returns 0.  [CCM_counter_wraps] and [CCM_long_AAD_marker]
    show what it does with more data and with more AAD. *)
Theorem AES_CCM_Encrypt_spec E key nonce aad M m (s d n : nat) avail :
  (∀ src len KeyLength NonceLength AADLength MACLength dst code,
    code = CCM_check KeyLength NonceLength MACLength avail (u32 (len + MACLength)) → code ≠ 0 →
    AES_CCM_Encrypt E m src len key KeyLength nonce NonceLength aad AADLength MACLength dst avail =
    Some (code, m, avail)) ∧
  (ccm_args E key nonce aad M → bytes m → (n <= 4080)%nat →
   (d <= s ∨ s + n <= d)%nat → (s + n <= length m)%nat → (d + n + M <= length m)%nat →
   Z.of_nat (n + M) <= avail →
   let msg := slice m s n in
   AES_CCM_Encrypt E m (Z.of_nat s) (Z.of_nat n) key 16 nonce (Z.of_nat (length nonce))
     aad (Z.of_nat (length aad)) (Z.of_nat M) (Z.of_nat d) avail =
   Some (0, put m d (ccm_xor key nonce msg ++ ccm_seal_tag key M nonce aad msg), Z.of_nat (n + M))).
Proof.
  split.
  - intros src len KL NL AL ML dst code -> Hc. unfold AES_CCM_Encrypt.
    by rewrite (proj2 (Z.eqb_neq _ _)).
  - intros (? & ? & ? & ? & ? & ? & ? & ?) Hm Hn Hsd Hs Hd Hav msg. by apply AES_CCM_Encrypt_ok.
Qed.

Lemma AES_CCM_Encrypt_spec_witness :
  let E := {| kmalloc := λ _, true; garbage := [9] |} in
  let m := repeat 5 40 in
  AES_CCM_Encrypt E m 0 20 (zeros 16) 16 (zeros 13) 13 [1; 2] 2 8 0 28 =
    Some (0, put m 0 (ccm_xor (zeros 16) (zeros 13) (repeat 5 20) ++
      ccm_seal_tag (zeros 16) 8 (zeros 13) [1; 2] (repeat 5 20)), 28) ∧
  AES_CCM_Encrypt E m 0 20 (zeros 16) 16 (zeros 14) 14 [1; 2] 2 8 0 28 = Some (-2, m, 28).
Proof.
  intros E m. split.
  - apply (proj2 (AES_CCM_Encrypt_spec E (zeros 16) (zeros 13) [1; 2] 8 m 0 0 20 28));
      [split_and!|..]; first [reflexivity | lia | by apply fits_zeros | repeat constructor; unfold fits; lia
        | cbn; lia].
  - apply (proj1 (AES_CCM_Encrypt_spec E (zeros 16) (zeros 14) [1; 2] 8 m 0 0 20 28)
      0 20 16 14 2 8 0 (-2)); [reflexivity|discriminate].
Defined.

(** [AES_CCM_Decrypt] writes the decryption of the message at the output
    and returns 0 exactly when the received tag is the RFC 3610 tag of that
    message and the associated data, -5 otherwise (the output has been
    written in both cases). *)
Theorem AES_CCM_Decrypt_spec E key nonce aad M m (c p n : nat) avail :
  ccm_args E key nonce aad M → bytes m → (n <= 4080)%nat →
  (p <= c ∨ c + n <= p)%nat → (c + n + M <= length m)%nat → (p + n <= length m)%nat →
  Z.of_nat n <= avail →
  let msg := ccm_xor key nonce (slice m c n) in
  ∃ code,
  AES_CCM_Decrypt E m (Z.of_nat c) (Z.of_nat (n + M)) key 16 nonce (Z.of_nat (length nonce))
    aad (Z.of_nat (length aad)) (Z.of_nat M) (Z.of_nat p) avail =
    Some (code, put m p msg, Z.of_nat n) ∧
  (code = 0 ∨ code = -5) ∧
  (code = 0 ↔ slice m (c + n) M = ccm_seal_tag key M nonce aad msg).
Proof.
  intros (? & ? & ? & ? & ? & ? & ? & ?) Hm Hn Hsd Hc Hp Hav msg.
  eexists. split; [by apply AES_CCM_Decrypt_ok|]. fold msg.
  case_decide; split; try tauto; split; done.
Qed.

Lemma AES_CCM_Decrypt_spec_witness :
  let E := {| kmalloc := λ _, true; garbage := [] |} in
  AES_CCM_Decrypt E (zeros 30) 0 28 (zeros 16) 16 (zeros 13) 13 [] 0 8 0 20 =
    Some (-5, put (zeros 30) 0 (ccm_xor (zeros 16) (zeros 13) (zeros 20)), 20).
Proof.
  intros E.
  destruct (AES_CCM_Decrypt_spec E (zeros 16) (zeros 13) [] 8 (zeros 30) 0 0 20 20)
    as (code & He & [->| ->] & Hc);
    [split_and!; first [reflexivity | by apply fits_zeros | cbn; lia | constructor]
    |by apply fits_zeros|lia|lia|cbn; lia|cbn; lia|lia|exfalso|exact He].
  revert Hc. vm_compute. intros [Hc _]. discriminate (Hc eq_refl).
Defined.

(** A message encrypted in place and decrypted in place is accepted and
    restored. *)
Lemma aes_ccm_roundtrip E1 E2 key nonce aad M m (p n : nat) :
  ccm_args E1 key nonce aad M → kmalloc E2 sizeof_AES_CTX_STRUC = true →
  bytes m → (n <= 4080)%nat → (p + n + M <= length m)%nat →
  let P := Z.of_nat p in let N := Z.of_nat n in let L := Z.of_nat (length nonce) in
  let A := Z.of_nat (length aad) in let T := Z.of_nat M in
  ∃ m1 m2,
    AES_CCM_Encrypt E1 m P N key 16 nonce L aad A T P (N + T) = Some (0, m1, N + T) ∧
    AES_CCM_Decrypt E2 m1 P (N + T) key 16 nonce L aad A T P (N + T) = Some (0, m2, N) ∧
    slice m2 p n = slice m p n ∧ take p m2 = take p m ∧
    drop (p + n + M) m2 = drop (p + n + M) m.
Proof.
  intros (H1 & Hk & Hkl & Hno & Hnl & Ha & Hal & HM) H2 Hm Hn Hp P N L A T. subst P N L A T.
  pose proof (M_ok_small M HM) as HMs. set (msg := slice m p n).
  assert (length msg = n) as Hml by (apply length_slice; lia).
  assert (bytes msg) as Hmb by (by apply bytes_slice).
  set (ct := ccm_xor key nonce msg). set (tag := ccm_seal_tag key M nonce aad msg).
  assert (length ct = n) as Hcl by (unfold ct; rewrite length_ccm_xor; done || lia).
  assert (length tag = M) as Htl by (unfold tag; by rewrite length_seal_tag).
  assert (bytes ct) as Hcb by (unfold ct; apply bytes_ccm_xor; done || lia).
  assert (bytes tag) as Htb.
  { unfold tag, ccm_seal_tag. apply xorl_bytes.
    - apply Forall_take, block_cbc_mac; [done..| |done].
      apply block_cbc_mac; [done..| |by apply bytes_ccm_aad].
      apply block_cipher; [done..|]. by apply (block_b0 key).
    - apply block_cipher; [done..|]. apply block_ctr; done || lia. }
  set (m1 := put m p (ct ++ tag)).
  rewrite <- Nat2Z.inj_add. exists m1, (put m1 p msg).
  split; [by apply AES_CCM_Encrypt_ok; first [done | lia]|].
  assert (length m1 = length m) as Hl1 by apply length_put.
  assert (slice m1 p n = ct) as Hs1.
  { unfold m1. rewrite <- (Nat.add_0_r p) at 2. rewrite slice_put_within by (rewrite length_app; lia).
    unfold slice. by rewrite drop_0, take_app_le, take_ge by lia. }
  assert (slice m1 (p + n) M = tag) as Hs2.
  { unfold m1. rewrite slice_put_within by (rewrite length_app; lia).
    unfold slice. rewrite drop_app_length' by lia. by rewrite take_ge by lia. }
  split.
  - rewrite AES_CCM_Decrypt_ok; first [done | lia | idtac].
    2:{ apply bytes_put; [done|]. by apply Forall_app. }
    rewrite Hs1, Hs2. unfold ct. rewrite ccm_xor_involutive by (done || lia).
    by rewrite decide_True by done.
  - split_and!.
    + rewrite <- Hml. apply slice_put_eq. lia.
    + rewrite take_put by lia. unfold m1. rewrite take_put; rewrite ?length_app; done || lia.
    + rewrite drop_put by lia. unfold m1. rewrite drop_put; rewrite ?length_app; done || lia.
Qed.

Lemma aes_ccm_roundtrip_witness :
  let E := {| kmalloc := λ _, true; garbage := [3] |} in
  let m := repeat 7 60 in
  ∃ m1 m2,
    AES_CCM_Encrypt E m 4 40 (zeros 16) 16 (zeros 13) 13 [1] 1 8 4 48 = Some (0, m1, 48) ∧
    AES_CCM_Decrypt E m1 4 48 (zeros 16) 16 (zeros 13) 13 [1] 1 8 4 48 = Some (0, m2, 40) ∧
    slice m2 4 40 = slice m 4 40 ∧ take 4 m2 = take 4 m ∧ drop (4 + 40 + 8) m2 = drop (4 + 40 + 8) m.
Proof.
  intros E m. apply (aes_ccm_roundtrip E E (zeros 16) (zeros 13) [1] 8 m 4 40);
    [split_and!; first [reflexivity | bytes_table | cbn; lia]
    |reflexivity|bytes_table|lia|cbn; lia].
Defined.

(** ** Limits of the implementation *)

(** After 255 blocks the counter, one byte, is 0 again: the next block is
    encrypted with the key stream that masks the tag. *)
Lemma CCM_counter_wraps E key nonce s d n m c i :
  (7 <= length nonce <= 13)%nat →
  CCM_CTRStep E key 16 s d n (m, ccm_ctr nonce 255, c, i) =
  (let k := encrypt_block E key 16 (ccm_ctr nonce 0) c in
   let l := if 16 <? n - i then 16 else n - i in
   m' ← xor_copy m (s + i) (d + i) (take (Z.to_nat l) k);
   Some (m', ccm_ctr nonce 0, k, i + l)).
Proof.
  intros HL. unfold CCM_CTRStep.
  assert ((ccm_ctr nonce 255).[15 <- u8 ((ccm_ctr nonce 255).[15] + 1)] = ccm_ctr nonce 0) as ->; [|done].
  rewrite !ccm_ctr_shape by lia. set (h := _ ++ nonce ++ _).
  assert (length h = 15)%nat as Hh by (unfold h; rewrite !length_app, length_zeros; cbn [length]; lia).
  rewrite get_app_r, insert_app_r_alt by lia. by rewrite Hh.
Qed.

(** The length field of long associated data lacks the marker FF FE of
    RFC 3610. *)
Lemma CCM_long_AAD_marker n :
  0xFF00 <= n < 2 ^ 32 → take 2 (CCM_AADHeader n).1 = [0; 0] ∧ (CCM_AADHeader n).2 = 6.
Proof.
  intros H. unfold CCM_AADHeader. rewrite (proj2 (Z.ltb_ge n _)), andb_false_r by lia. done.
Qed.
