(* ===== verification/AesCmac.v ===== *)
(** * AES-CMAC

    Models [AES_CMAC_GenerateSubKey] and [AES_CMAC] of
    [linux/Arch/rt5370.driver/common/crypt_aes.c].  The reference is
    RFC 4493 with blocks read as 128-bit numbers: a subkey is the double of
    the previous one in GF(2^128). *)

From stdpp Require Import base list numbers list_numbers.
From Stdlib Require Import ZArith Lia.
From S2P Require Import Prelude AesTables Aes AesChain.

Definition Const_Zero : list Z := zeros 16.
Definition Const_Rb : list Z := zeros 15 ++ [0x87].

(** The [Top_Bit] of a byte. *)
Definition Top_Bit (x : Z) : Z := if x & 0x80 =? 0 then 0 else 1.

(** The two loops that shift an array of 16 bytes left by one bit into
    [Dst]: the first subkey is shifted in place, the second from the first. *)
Definition CMAC_Shift (Src Dst : list Z) : list Z :=
  let Dst := loop 0 15 (λ i Dst, Dst.[i <- (Src.[i] <<8 1) .| Top_Bit Src.[i + 1]]) Dst in
  Dst.[15 <- Src.[15] <<8 1].

Definition CMAC_ShiftInPlace (SubKey1 : list Z) : list Z :=
  let SubKey1 := loop 0 15 (λ i K,
    let Top_Bit := Top_Bit K.[i + 1] in
    let K := K.[i <- K.[i] <<8 1] in
    K.[i <- K.[i] .| Top_Bit]) SubKey1 in
  SubKey1.[15 <- SubKey1.[15] <<8 1].

(** [for (Index = 0; Index < 16; Index++) K[Index] ^= Const_Rb[Index]]. *)
Definition CMAC_XorRb (K : list Z) : list Z := loop 0 16 (λ i K, K.[i <- K.[i] ^^ Const_Rb.[i]]) K.

Definition AES_CMAC_GenerateSubKey (E : env) (Key : list Z) (KeyLength : Z)
    (SubKey1 SubKey2 : list Z) : list Z * list Z :=
  if negb (KeyLength =? 16) then (SubKey1, SubKey2)
  else
    let SubKey1 := (RT_AES_Encrypt E Const_Zero 16 Key KeyLength SubKey1 16).1 in
    let MSB_L := SubKey1.[0] & 0x80 in
    let SubKey1 := CMAC_ShiftInPlace SubKey1 in
    let SubKey1 := if 0 <? MSB_L then CMAC_XorRb SubKey1 else SubKey1 in
    let MSB_K1 := SubKey1.[0] & 0x80 in
    let SubKey2 := CMAC_Shift SubKey1 SubKey2 in
    let SubKey2 := if 0 <? MSB_K1 then CMAC_XorRb SubKey2 else SubKey2 in
    (SubKey1, SubKey2).

(** One turn of the [while] of [AES_CMAC]; the state is [X], [Y] and
    [PlainBlockStart]. *)
Definition CMAC_Step (E : env) (Key : list Z) (KeyLength : Z) (PlainText : list Z)
    (s : list Z * list Z * Z) : option (list Z * list Z * Z) :=
  let '(X, Y, PlainBlockStart) := s in
  data ← load PlainText PlainBlockStart 16;
  let Y := xorl data X in
  let X := encrypt_block E Key KeyLength Y X in
  Some (X, Y, u32 (PlainBlockStart + 16)).

(** The result is [MACText] and [*MACTextLength]. *)
Definition AES_CMAC (E : env) (PlainText : list Z) (PlainTextLength : Z)
    (Key : list Z) (KeyLength : Z) (MACText : list Z) (MACTextLength : Z)
    : option (list Z * Z) :=
  if MACTextLength <? 16 then Some (MACText, MACTextLength)
  else if negb (KeyLength =? 16) then Some (MACText, MACTextLength)
  else
    let '(SubKey1, SubKey2) := AES_CMAC_GenerateSubKey E Key KeyLength (zeros 16) (zeros 16) in
    let X := put (local_array E 16) 0 Const_Zero in
    '(X, Y, PlainBlockStart) ←
      while_opt (S (Z.to_nat PlainTextLength)) (λ s, 16 <? u32 (PlainTextLength - s.2))
        (CMAC_Step E Key KeyLength PlainText) (X, local_array E 16, 0);
    let left := u32 (PlainTextLength - PlainBlockStart) in
    data ← load PlainText PlainBlockStart left;
    Y ← (if left =? 16 then Some (xorl (xorl data X) SubKey1)
         else
           let Y := put (zeros 16) 0 data in
           Y ← store Y left [0x80];
           Some (xorl (xorl Y X) SubKey2));
    Some (RT_AES_Encrypt E Y 16 Key KeyLength MACText MACTextLength).

(** ** Reference (RFC 4493) *)

(** Doubling in GF(2^128). *)
Definition dbl128 (x : Z) : Z :=
  Z.lxor ((2 * x) mod 2 ^ 128) (if Z.testbit x 127 then 0x87 else 0).

Definition cmac_key1 (key : list Z) : list Z :=
  be_bytes 16 (dbl128 (be_word (cipher key (zeros 16)))).

Definition cmac_key2 (key : list Z) : list Z := be_bytes 16 (dbl128 (be_word (cmac_key1 key))).

Definition cmac (key msg : list Z) : list Z :=
  let n := Nat.max 1 (blocks (length msg)) in
  let last := drop (16 * (n - 1)) msg in
  let last :=
    if (length last =? 16)%nat then xorl last (cmac_key1 key)
    else xorl (pad16 (last ++ [0x80])) (cmac_key2 key) in
  let x := cbc_fold key (n - 1) (zeros 16) msg in
  cipher key (xorl last x).

(** RFC 4493, examples 1, 2 and 3. *)
Example cmac_rfc4493 :
  let E := {| kmalloc := λ _, true; garbage := [] |} in
  let key := be_bytes 16 0x2b7e151628aed2a6abf7158809cf4f3c in
  let msg := be_bytes 40
    0x6bc1bee22e409f96e93d7e117393172aae2d8a571e03ac9c9eb76fac45af8e5130c81c46a35ce411 in
  AES_CMAC E [] 0 key 16 (zeros 16) 16 =
    Some (be_bytes 16 0xbb1d6929e95937287fa37d129b756746, 16) ∧
  AES_CMAC E (take 16 msg) 16 key 16 (zeros 16) 16 =
    Some (be_bytes 16 0x070a16b46b4d4144f79bdd9dd04a287c, 16) ∧
  AES_CMAC E msg 40 key 16 (zeros 16) 16 =
    Some (be_bytes 16 0xdfa66747de9ae63030ca32611497c827, 16) ∧
  cmac key msg = be_bytes 16 0xdfa66747de9ae63030ca32611497c827.
Proof. vm_compute. done. Qed.

(** ** Subkeys *)

(** Shifting a list of bytes left by one bit. *)
Fixpoint shl_bytes (l : list Z) : list Z :=
  match l with
  | [] => []
  | b :: r => match r with [] => [b <<8 1] | c :: _ => ((b <<8 1) .| Top_Bit c) :: shl_bytes r end
  end.

Lemma CMAC_Shift_shl l d : length l = 16%nat → length d = 16%nat → CMAC_Shift l d = shl_bytes l.
Proof.
  intros Hl Hd. destruct (list_as_map l 16 Hl) as [g ->]. destruct (list_as_map d 16 Hd) as [h ->].
  reflexivity.
Qed.

Lemma CMAC_ShiftInPlace_shl l : length l = 16%nat → CMAC_ShiftInPlace l = shl_bytes l.
Proof. intros Hl. destruct (list_as_map l 16 Hl) as [g ->]. reflexivity. Qed.

Lemma CMAC_XorRb_xorl l : length l = 16%nat → CMAC_XorRb l = xorl l Const_Rb.
Proof. intros Hl. destruct (list_as_map l 16 Hl) as [g ->]. reflexivity. Qed.

Lemma Top_Bit_div c : byte c → Top_Bit c = c / 128.
Proof. intros Hc. by_all_bytes c Hc. Qed.

Lemma shl_byte_add b t : byte b → 0 <= t <= 1 → (b <<8 1) .| t = (2 * b) mod 256 + t.
Proof.
  intros Hb Ht. assert (t = 0 ∨ t = 1) as [->| ->] by lia.
  - rewrite Z.lor_0_r, Z.add_0_r. by_all_bytes b Hb.
  - by_all_bytes b Hb.
Qed.

Lemma shl_bytes_length l : length (shl_bytes l) = length l.
Proof. induction l as [|b [|c r] IH]; [done..|]. cbn [shl_bytes length] in *. by rewrite IH. Qed.

Lemma shl_bytes_bytes l : bytes l → bytes (shl_bytes l).
Proof.
  induction 1 as [|b r Hb Hr IH]; [constructor|]. cbn [shl_bytes]. destruct r as [|c r].
  - constructor; [apply fits_u8|constructor].
  - apply Forall_cons in Hr as [Hc Hr]. constructor; [|exact IH].
    apply fits_lor; [lia|apply fits_u8|]. rewrite Top_Bit_div by done. unfold fits in *.
    split; [apply Z.div_pos; lia|]. apply Z.div_lt_upper_bound; lia.
Qed.

(** The arithmetic of one byte of the shift: [W] is the weight of the byte,
    [V] the value of the bytes below, whose top byte is [c]. *)
Lemma shl_arith b c V W W' :
  byte b → byte c → 0 < W' → W = 256 * W' → c * W' <= V < (c + 1) * W' →
  ((2 * b) mod 256 + c / 128) * W + (2 * V) mod W = (2 * (b * W + V)) mod (256 * W).
Proof.
  intros Hb Hc HW' -> HV. unfold fits in *.
  assert (2 * V = (c / 128) * (256 * W') + (2 * V) mod (256 * W')) as E2.
  { rewrite (Z.div_mod (2 * V) (256 * W')) at 1 by lia. f_equal.
    rewrite (Z.mul_comm (c / 128)). f_equal. symmetry.
    pose proof (Z.div_mod c 128 ltac:(lia)). pose proof (Z.mod_pos_bound c 128 ltac:(lia)).
    apply Z.div_unique with (2 * V - c / 128 * (256 * W')); [|lia]. left.
    assert (c / 128 = 0 ∨ c / 128 = 1) as [E0|E0].
    { assert (0 <= c / 128 < 2); [|lia]. split; [apply Z.div_pos; lia|apply Z.div_lt_upper_bound; lia]. }
    all: rewrite E0 in *; nia. }
  pose proof (Z.mod_pos_bound (2 * V) (256 * W') ltac:(lia)) as HM.
  pose proof (Z.mod_pos_bound (2 * b) 256 ltac:(lia)) as HB.
  pose proof (Z.div_mod (2 * b) 256 ltac:(lia)) as EB.
  assert (0 <= c / 128 <= 1) as HC.
  { split; [apply Z.div_pos; lia|]. apply Z.lt_succ_r, Z.div_lt_upper_bound; lia. }
  apply Z.mod_unique with (2 * b / 256).
  - left. assert ((2 * b) mod 256 <= 254) as HE; [|nia].
    rewrite (Zmult_mod_distr_l b 128 2 : (2 * b) mod 256 = _).
    pose proof (Z.mod_pos_bound b 128 ltac:(lia)). lia.
  - nia.
Qed.

Lemma be_word_shl l :
  bytes l → be_word (shl_bytes l) = (2 * be_word l) mod 2 ^ (8 * Z.of_nat (length l)).
Proof.
  induction 1 as [|b r Hb Hr IH]; [done|]. cbn [shl_bytes]. destruct r as [|c r].
  - unfold be_word. cbn [rev app le_word]. rewrite !Z.shiftl_0_l, !Z.lor_0_r. unfold u8.
    rewrite Z.shiftl_mul_pow2 by lia. cbn [length]. change (2 ^ (8 * Z.of_nat 1)) with 256.
    change (2 ^ 1) with 2. f_equal. lia.
  - pose proof Hr as Hr'. apply Forall_cons in Hr' as [Hc Hr'].
    pose proof (fits_be_word r Hr') as HV. unfold fits in HV.
    assert (0 <= c / 128 <= 1) as HC.
    { unfold fits in Hc. split; [apply Z.div_pos; lia|]. apply Z.lt_succ_r, Z.div_lt_upper_bound; lia. }
    rewrite be_word_cons; [|by apply shl_bytes_bytes|].
    2:{ rewrite Top_Bit_div, shl_byte_add by done.
        rewrite (Zmult_mod_distr_l b 128 2 : (2 * b) mod 256 = _). unfold fits.
        pose proof (Z.mod_pos_bound b 128 ltac:(lia)). lia. }
    rewrite IH, Top_Bit_div, shl_byte_add, shl_bytes_length, (be_word_cons b) by done.
    replace (8 * Z.of_nat (length (b :: c :: r))) with (8 + 8 * Z.of_nat (length (c :: r)))
      by (cbn [length]; lia).
    rewrite Z.pow_add_r by lia. change (2 ^ 8) with 256.
    apply (shl_arith b c _ _ (2 ^ (8 * Z.of_nat (length r)))); [done|done|lia| |].
    + replace (8 * Z.of_nat (length (c :: r))) with (8 + 8 * Z.of_nat (length r)) by (cbn [length]; lia).
      rewrite Z.pow_add_r by lia. done.
    + rewrite be_word_cons by done. lia.
Qed.

(** The most significant bit. *)
Lemma be_word_msb l :
  bytes l → length l = 16%nat → (0 <? l.[0] & 0x80) = Z.testbit (be_word l) 127.
Proof.
  intros Hl Hn. destruct l as [|b r]; [done|]. apply Forall_cons in Hl as [Hb Hr].
  injection Hn as Hn. unfold get. cbn [nth].
  rewrite be_word_cons, Hn by done. change (2 ^ (8 * Z.of_nat 15)) with (2 ^ 120).
  pose proof (fits_be_word r Hr) as HV. rewrite Hn in HV. unfold fits in HV.
  change (2 ^ (8 * Z.of_nat 15)) with (2 ^ 120) in HV.
  rewrite Z.testbit_odd, Z.shiftr_div_pow2 by lia.
  assert ((b * 2 ^ 120 + be_word r) / 2 ^ 127 = b / 128) as ->.
  { change (2 ^ 127) with (2 ^ 120 * 128). rewrite <- Z.div_div by lia. f_equal.
    rewrite Z.div_add_l by lia. rewrite (Z.div_small (be_word r)) by lia. lia. }
  assert (Bool.eqb (0 <? b & 128) (Z.odd (b / 128)) = true) as H; [|by apply eqb_true_iff].
  revert b Hb. apply (all_bytes_spec (λ b, Bool.eqb (0 <? b & 128) (Z.odd (b / 128)))).
  vm_compute. reflexivity.
Qed.

(** Both subkeys are doubled the same way. *)
Lemma CMAC_double l :
  block l →
  (if 0 <? l.[0] & 0x80 then xorl (shl_bytes l) Const_Rb else shl_bytes l) =
  be_bytes 16 (dbl128 (be_word l)).
Proof.
  intros [Hl Hb]. rewrite be_word_msb by done. unfold dbl128. rewrite be_bytes_lxor.
  assert (be_bytes 16 ((2 * be_word l) mod 2 ^ 128) = shl_bytes l) as ->.
  { pose proof (be_word_shl l Hb) as E. rewrite Hl in E. change (8 * Z.of_nat 16) with 128 in E.
    rewrite <- E. rewrite <- Hl, <- shl_bytes_length. apply be_bytes_be_word. by apply shl_bytes_bytes. }
  destruct (Z.testbit (be_word l) 127); [done|].
  change (be_bytes 16 0) with (zeros 16). symmetry.
  rewrite <- Hl, <- shl_bytes_length. apply xorl_zeros_r.
Qed.

Section CMAC.
Context (E : env) (key : list Z).
Context (key_bytes : bytes key) (key_length : length key = 16%nat).
Context (memory : kmalloc E sizeof_AES_CTX_STRUC = true).

Lemma block_zeros : block (zeros 16).
Proof. split; [done|by apply fits_zeros]. Qed.

Lemma block_be_bytes x : block (be_bytes 16 x).
Proof. split; [apply length_be_bytes|apply bytes_be_bytes]. Qed.

Lemma AES_CMAC_GenerateSubKey_ok :
  AES_CMAC_GenerateSubKey E key 16 (zeros 16) (zeros 16) = (cmac_key1 key, cmac_key2 key).
Proof.
  unfold AES_CMAC_GenerateSubKey. cbn [negb Z.eqb Pos.eqb].
  fold (encrypt_block E key 16 Const_Zero (zeros 16)).
  rewrite (encrypt_block_ok E key key_bytes key_length memory) by (apply block_zeros || done).
  pose proof (block_cipher key key_bytes key_length Const_Zero block_zeros) as HL.
  set (L := cipher key Const_Zero) in *.
  rewrite CMAC_ShiftInPlace_shl by apply HL.
  rewrite (CMAC_XorRb_xorl (shl_bytes L)) by (rewrite shl_bytes_length; apply HL).
  rewrite CMAC_double by done. change (be_bytes 16 (dbl128 (be_word L))) with (cmac_key1 key).
  rewrite CMAC_Shift_shl by (done || apply length_be_bytes).
  rewrite CMAC_XorRb_xorl by (rewrite shl_bytes_length; apply length_be_bytes).
  rewrite CMAC_double by apply block_be_bytes. done.
Qed.

Lemma pad16_full b : length b = 16%nat → pad16 b = b.
Proof. intros H. unfold pad16. rewrite H. apply app_nil_r. Qed.

(** The loop chains all blocks but the last one. *)
Lemma CMAC_loop msg fuel x y i :
  bytes msg → Z.of_nat (length msg) < 2 ^ 32 → block x → (i <= length msg)%nat →
  (length msg - i < fuel)%nat →
  let k := (blocks (length msg - i) - 1)%nat in
  ∃ y',
  while_opt fuel (λ s, 16 <? u32 (Z.of_nat (length msg) - s.2))
    (CMAC_Step E key 16 msg) (x, y, Z.of_nat i) =
  Some (cbc_fold key k x (drop i msg), y', Z.of_nat (i + 16 * k)).
Proof.
  intros Hb Hn. revert x y i. induction fuel as [|fuel IH]; intros x y i Hx Hi Hf k; [lia|].
  cbn [while_opt snd]. rewrite u32_small by (unfold fits; lia).
  destruct (Z.ltb_spec 16 (Z.of_nat (length msg) - Z.of_nat i)) as [Hlt|Hge].
  - unfold CMAC_Step at 2. rewrite load_ok by lia. cbn [mbind option_bind]. rewrite Nat2Z.id.
    change (Z.to_nat 16) with 16%nat.
    assert (length (slice msg i 16) = 16%nat) as Hs by (apply length_slice; lia).
    assert (block (slice msg i 16)) as Hbs by (split; [done|by apply bytes_slice]).
    rewrite (encrypt_block_ok E key key_bytes key_length memory)
      by (apply block_xorl || apply Hx; done).
    rewrite u32_small by (unfold fits; lia).
    replace (Z.of_nat i + 16) with (Z.of_nat (i + 16)) by lia.
    destruct (IH (cipher key (xorl (slice msg i 16) x)) (xorl (slice msg i 16) x) (i + 16)%nat)
      as (y' & ->); [|lia|lia|].
    { apply block_cipher; [done..|]. by apply block_xorl. }
    exists y'. subst k. rewrite (blocks_pos (length msg - i)) by lia.
    rewrite Nat.sub_add_distr, (blocks_pos (length msg - i - 16)) by lia.
    cbn [Nat.sub]. rewrite !Nat.sub_0_r. cbn [cbc_fold]. rewrite drop_drop.
    fold (slice msg i 16). rewrite pad16_full by done. do 3 f_equal; lia.
  - exists y. subst k. replace (blocks (length msg - i) - 1)%nat with 0%nat.
    + by rewrite Nat.mul_0_r, Nat.add_0_r.
    + pose proof (blocks_bounds (length msg - i)). lia.
Qed.

Lemma AES_CMAC_ok msg out size :
  bytes msg → Z.of_nat (length msg) < 2 ^ 32 - 16 → 16 <= size → (16 <= length out)%nat →
  AES_CMAC E msg (Z.of_nat (length msg)) key 16 out size = Some (put out 0 (cmac key msg), 16).
Proof.
  intros Hb Hn Hs Ho. unfold AES_CMAC. rewrite (proj2 (Z.ltb_ge _ _)) by done.
  cbn [negb Z.eqb Pos.eqb]. rewrite AES_CMAC_GenerateSubKey_ok.
  rewrite (put_all _ Const_Zero) by apply length_local_array. rewrite Nat2Z.id.
  change Const_Zero with (zeros 16).
  destruct (CMAC_loop msg (S (length msg)) (zeros 16) (local_array E 16) 0) as (y' & Hloop);
    [done|lia|apply block_zeros|lia|lia|].
  change (Z.of_nat 0) with 0 in Hloop. rewrite Hloop. clear Hloop. cbn [mbind option_bind].
  rewrite drop_0, Nat.sub_0_r, Nat.add_0_l. unfold cmac.
  set (n := Nat.max 1 (blocks (length msg))).
  replace (blocks (length msg) - 1)%nat with (n - 1)%nat by lia.
  pose proof (blocks_bounds (length msg)) as Hbb.
  assert (16 * (n - 1) <= length msg ∧ length msg - 16 * (n - 1) <= 16)%nat as [Hl1 Hl2] by lia.
  set (last := drop (16 * (n - 1)) msg).
  assert (length last = length msg - 16 * (n - 1))%nat as Hll by apply length_drop.
  assert (bytes last) as Hlb by (by apply Forall_drop).
  assert (block (cbc_fold key (n - 1) (zeros 16) msg)) as Hx
    by (apply block_cbc_fold; try done; apply block_zeros).
  set (x := cbc_fold key (n - 1) (zeros 16) msg) in *.
  rewrite u32_small by (unfold fits; lia).
  replace (Z.of_nat (length msg) - Z.of_nat (16 * (n - 1))) with (Z.of_nat (length last)) by lia.
  rewrite load_ok by lia. cbn [mbind option_bind]. rewrite !Nat2Z.id.
  unfold slice. fold last. rewrite take_ge by lia.
  assert (∀ Y, block Y → Some (RT_AES_Encrypt E Y 16 key 16 out size) = Some (put out 0 (cipher key Y), 16))
    as Henc.
  { intros Y [HY1 HY2]. f_equal.
    pose proof (RT_AES_Encrypt_ok key key_bytes (key_length_ok key key_length) E memory Y out size HY1 HY2 Hs Ho) as R.
    by rewrite key_length in R. }
  assert (∀ a k, xorl (xorl a x) k = xorl (xorl a k) x) as Hswap.
  { intros a k. by rewrite <- !xorl_assoc, (xorl_comm x k). }
  destruct (Nat.eqb_spec (length last) 16) as [H16|H16].
  - rewrite (proj2 (Z.eqb_eq _ _)) by lia. cbn [mbind option_bind].
    rewrite Hswap. apply Henc. apply block_xorl; [|done].
    apply block_xorl; [done|apply block_be_bytes].
  - rewrite (proj2 (Z.eqb_neq _ _)) by lia. rewrite pad16_put by lia.
    rewrite store_ok by (rewrite ?length_pad16 by lia; cbn [length]; lia). cbn [mbind option_bind].
    assert (put (pad16 last) (Z.to_nat (Z.of_nat (length last))) [128] = pad16 (last ++ [128])) as ->.
    { rewrite Nat2Z.id. unfold pad16, zeros. rewrite length_app. cbn [length].
      replace (16 - length last)%nat with (1 + (16 - (length last + 1)))%nat by lia.
      rewrite replicate_add, put_app by done. by rewrite <- app_assoc. }
    rewrite Hswap. apply Henc.
    assert (bytes (last ++ [128])) as H80.
    { apply Forall_app. split; [done|]. constructor; [unfold fits; lia|constructor]. }
    apply block_xorl; [|done]. apply block_xorl; [|apply block_be_bytes].
    split; [apply length_pad16; rewrite length_app; cbn [length]; lia|by apply bytes_pad16].
Qed.

Lemma block_cmac msg : bytes msg → block (cmac key msg).
Proof.
  intros Hb. unfold cmac. apply (block_cipher key key_bytes key_length).
  set (n := Nat.max 1 (blocks (length msg))). pose proof (blocks_bounds (length msg)) as Hbb.
  set (last := drop (16 * (n - 1)) msg).
  assert (length last <= 16)%nat as Hll by (unfold last; rewrite length_drop; lia).
  assert (bytes last) as Hlb by (by apply Forall_drop).
  apply block_xorl; [|apply (block_cbc_fold key key_bytes key_length); [apply block_zeros|done]].
  destruct (Nat.eqb_spec (length last) 16).
  - apply block_xorl; [done|apply block_be_bytes].
  - apply block_xorl; [|apply block_be_bytes]. split.
    + apply length_pad16. rewrite length_app. cbn [length]. lia.
    + apply bytes_pad16, Forall_app. split; [done|]. apply Forall_singleton. unfold fits. lia.
Qed.
End CMAC.

(** ** The property *)

(** [AES_CMAC] writes the RFC 4493 MAC of a message of any length, the
    empty one included, to the output and sets its size to 16; with a short
    output or a key that is not 128 bits it changes nothing; and the two
    subkeys are the doubles in GF(2^128) of the cipher of the zero block. *)
Theorem AES_CMAC_spec E key msg out size :
  (size < 16 ∨ length key ≠ 16%nat →
   AES_CMAC E msg (Z.of_nat (length msg)) key (Z.of_nat (length key)) out size = Some (out, size)) ∧
  (bytes key → length key = 16%nat → kmalloc E sizeof_AES_CTX_STRUC = true →
   AES_CMAC_GenerateSubKey E key 16 (zeros 16) (zeros 16) = (cmac_key1 key, cmac_key2 key) ∧
   (bytes msg → Z.of_nat (length msg) < 2 ^ 32 - 16 → 16 <= size → (16 <= length out)%nat →
    AES_CMAC E msg (Z.of_nat (length msg)) key 16 out size = Some (put out 0 (cmac key msg), 16))).
Proof.
  split.
  - intros Hsk. unfold AES_CMAC. destruct (Z.ltb_spec size 16); [done|].
    by rewrite (proj2 (Z.eqb_neq _ _)) by lia.
  - intros Hk Hl HM. split; [by apply AES_CMAC_GenerateSubKey_ok|]. intros. by apply AES_CMAC_ok.
Qed.

Lemma AES_CMAC_spec_witness :
  let E := {| kmalloc := λ _, true; garbage := [1] |} in
  AES_CMAC E [1; 2; 3] 3 (zeros 16) 16 (zeros 20) 20 =
    Some (put (zeros 20) 0 (cmac (zeros 16) [1; 2; 3]), 16) ∧
  AES_CMAC E [1; 2; 3] 3 (zeros 16) 16 (zeros 8) 8 = Some (zeros 8, 8).
Proof.
  intros E. split.
  - apply (proj2 (AES_CMAC_spec E (zeros 16) [1; 2; 3] (zeros 20) 20));
      first [reflexivity | bytes_table | cbn; lia].
  - apply (proj1 (AES_CMAC_spec E (zeros 16) [1; 2; 3] (zeros 8) 8)). left. lia.
Defined.
