(* ===== verification/AesCbc.v ===== *)
(** * AES-CBC

    Models [AES_CBC_Encrypt] and [AES_CBC_Decrypt] of
    [linux/Arch/rt5370.driver/common/crypt_aes.c].  Input and output are
    separate buffers of the caller; every access to them is checked, so that
    [None] is an access outside of a buffer.

    The reference is CBC mode (NIST 800-38A) with the padding of RFC 3602:
    1 to 16 bytes, each the number of bytes of padding. *)

From stdpp Require Import base list numbers list_numbers.
From Stdlib Require Import ZArith Lia.
From S2P Require Import Prelude AesTables Aes AesChain.

(** A block operation whose output pointer is [Out + off]. *)
Definition block_at (f : list Z → Z → list Z * Z) (Out : list Z) (off size : Z) : list Z * Z :=
  let '(rest, size) := f (drop (Z.to_nat off) Out) size in
  (take (Z.to_nat off) Out ++ rest, size).

(** One turn of the loop of [AES_CBC_Encrypt]; the state is [CipherText],
    [Block], [PlainBlockStart] and [CipherBlockStart]. *)
Definition CBC_EncryptStep (E : env) (PlainText Key : list Z) (KeyLength : Z) (IV : list Z)
    (CipherTextLength : Z) (s : list Z * list Z * Z * Z) : option (list Z * list Z * Z * Z) :=
  let '(CipherText, Block, PlainBlockStart, CipherBlockStart) := s in
  data ← load PlainText PlainBlockStart 16;
  prev ← (if CipherBlockStart =? 0 then load IV 0 16
          else load CipherText (u32 (CipherBlockStart - 16)) 16);
  let Block := xorl data prev in
  let CipherBlockSize := u32 (CipherTextLength - CipherBlockStart) in
  let '(CipherText, CipherBlockSize) :=
    block_at (RT_AES_Encrypt E Block 16 Key KeyLength) CipherText CipherBlockStart CipherBlockSize in
  Some (CipherText, Block, u32 (PlainBlockStart + 16), u32 (CipherBlockStart + CipherBlockSize)).

(** The result is [CipherText] and [*CipherTextLength]. *)
Definition AES_CBC_Encrypt (E : env) (PlainText : list Z) (PlainTextLength : Z)
    (Key : list Z) (KeyLength : Z) (IV : list Z) (IVLength : Z)
    (CipherText : list Z) (CipherTextLength : Z) : option (list Z * Z) :=
  let PaddingSize := 16 - PlainTextLength mod 16 in
  if CipherTextLength <? u32 (PlainTextLength + PaddingSize) then Some (CipherText, CipherTextLength)
  else if negb (AES_KeyLength_ok KeyLength) then Some (CipherText, CipherTextLength)
  else if negb (IVLength =? 16) then Some (CipherText, CipherTextLength)
  else
    '(CipherText, Block, PlainBlockStart, CipherBlockStart) ←
      while_opt (S (Z.to_nat PlainTextLength)) (λ s, 16 <=? u32 (PlainTextLength - s.1.2))
        (CBC_EncryptStep E PlainText Key KeyLength IV CipherTextLength)
        (CipherText, local_array E 16, 0, 0);
    data ← load PlainText PlainBlockStart (u32 (PlainTextLength - PlainBlockStart));
    let Block := put Block 0 data in
    let Block := put Block (Z.to_nat (16 - PaddingSize))
                   (replicate (Z.to_nat PaddingSize) (u8 PaddingSize)) in
    prev ← (if CipherBlockStart =? 0 then load IV 0 16
            else load CipherText (u32 (CipherBlockStart - 16)) 16);
    let Block := xorl Block prev in
    let CipherBlockSize := u32 (CipherTextLength - CipherBlockStart) in
    let '(CipherText, CipherBlockSize) :=
      block_at (RT_AES_Encrypt E Block 16 Key KeyLength) CipherText CipherBlockStart CipherBlockSize in
    Some (CipherText, u32 (CipherBlockStart + CipherBlockSize)).

(** One turn of the loop of [AES_CBC_Decrypt]; the state is [PlainText],
    [CipherBlockStart] and [PlainBlockStart]. *)
Definition CBC_DecryptStep (E : env) (CipherText Key : list Z) (KeyLength : Z) (IV : list Z)
    (PlainTextLength : Z) (s : list Z * Z * Z) : option (list Z * Z * Z) :=
  let '(PlainText, CipherBlockStart, PlainBlockStart) := s in
  let PlainBlockSize := u32 (PlainTextLength - PlainBlockStart) in
  block ← load CipherText CipherBlockStart 16;
  let '(PlainText, PlainBlockSize) :=
    block_at (RT_AES_Decrypt E block 16 Key KeyLength) PlainText PlainBlockStart PlainBlockSize in
  prev ← (if PlainBlockStart =? 0 then load IV 0 16
          else load CipherText (u32 (CipherBlockStart - 16)) 16);
  data ← load PlainText PlainBlockStart 16;
  PlainText ← store PlainText PlainBlockStart (xorl data prev);
  Some (PlainText, u32 (CipherBlockStart + 16), u32 (PlainBlockStart + PlainBlockSize)).

(** The result is [PlainText] and [*PlainTextLength].  The first check is
    [(CipherTextLength % AES_BLOCK_SIZES) != 0] with the macro
    [AES_STATE_ROWS*AES_STATE_COLUMNS], without parentheses. *)
Definition AES_CBC_Decrypt (E : env) (CipherText : list Z) (CipherTextLength : Z)
    (Key : list Z) (KeyLength : Z) (IV : list Z) (IVLength : Z)
    (PlainText : list Z) (PlainTextLength : Z) : option (list Z * Z) :=
  if negb (CipherTextLength mod 4 * 4 =? 0) then Some (PlainText, PlainTextLength)
  else if negb (AES_KeyLength_ok KeyLength) then Some (PlainText, PlainTextLength)
  else if negb (IVLength =? 16) then Some (PlainText, PlainTextLength)
  else
    '(PlainText, _, PlainBlockStart) ←
      while_opt (S (Z.to_nat CipherTextLength)) (λ s, 16 <=? u32 (CipherTextLength - s.1.2))
        (CBC_DecryptStep E CipherText Key KeyLength IV PlainTextLength) (PlainText, 0, 0);
    PaddingSize ← load PlainText (u32 (PlainBlockStart - 1)) 1;
    Some (PlainText, u32 (PlainBlockStart - PaddingSize.[0])).

(** ** Reference *)

Definition pkcs7 (msg : list Z) : list Z :=
  let p := (16 - length msg mod 16)%nat in
  msg ++ replicate p (Z.of_nat p).

(** The first [k] blocks of [l] in CBC mode from [x]. *)
Fixpoint cbc_encrypt (key : list Z) (k : nat) (x l : list Z) : list Z :=
  match k with
  | O => []
  | S k => let c := cipher key (xorl (take 16 l) x) in c ++ cbc_encrypt key k c (drop 16 l)
  end.

Fixpoint cbc_decrypt (key : list Z) (k : nat) (x l : list Z) : list Z :=
  match k with
  | O => []
  | S k => xorl (inv_cipher key (take 16 l)) x ++ cbc_decrypt key k (take 16 l) (drop 16 l)
  end.

(** RFC 3602, case 1 (the second block is the padding). *)
Example cbc_rfc3602 :
  let E := {| kmalloc := λ _, true; garbage := [] |} in
  let key := be_bytes 16 0x06a9214036b8a15b512e03d534120006 in
  let iv := be_bytes 16 0x3dafba429d9eb430b422da802c9fac41 in
  let msg := be_bytes 16 0x53696e676c6520626c6f636b206d7367 in
  match AES_CBC_Encrypt E msg 16 key 16 iv 16 (zeros 32) 32 with
  | Some (c, n) => take 16 c = be_bytes 16 0xe353779c1079aeb82708942dbe77181a ∧ n = 32 ∧
      AES_CBC_Decrypt E c 32 key 16 iv 16 (zeros 32) 32 = Some (msg ++ replicate 16 16, 16)
  | None => False
  end.
Proof. vm_compute. done. Qed.

(** ** Both loops *)

Fixpoint cbc_last (key : list Z) (k : nat) (x l : list Z) : list Z :=
  match k with
  | O => x
  | S k => cbc_last key k (cipher key (xorl (take 16 l) x)) (drop 16 l)
  end.

Lemma cbc_encrypt_snoc key k x l :
  cbc_encrypt key (S k) x l = cbc_encrypt key k x l ++
    cipher key (xorl (slice l (16 * k) 16) (cbc_last key k x l)).
Proof.
  revert x l. induction k as [|k IH]; intros x l.
  - cbn [cbc_encrypt cbc_last app]. by rewrite app_nil_r.
  - change (cbc_encrypt key (S (S k)) x l) with
      (cipher key (xorl (take 16 l) x) ++ cbc_encrypt key (S k) (cipher key (xorl (take 16 l) x)) (drop 16 l)).
    rewrite IH. cbn [cbc_encrypt cbc_last]. rewrite <- app_assoc. unfold slice. rewrite drop_drop.
    by replace (16 + 16 * k)%nat with (16 * S k)%nat by lia.
Qed.

Lemma cbc_encrypt_app key k x a b :
  (16 * k <= length a)%nat → cbc_encrypt key k x (a ++ b) = cbc_encrypt key k x a.
Proof.
  revert x a. induction k as [|k IH]; intros x a H; [done|]. cbn [cbc_encrypt].
  rewrite take_app_le, drop_app_le by lia. f_equal. apply IH. rewrite length_drop. lia.
Qed.

Lemma cbc_last_app key k x a b :
  (16 * k <= length a)%nat → cbc_last key k x (a ++ b) = cbc_last key k x a.
Proof.
  revert x a. induction k as [|k IH]; intros x a H; [done|]. cbn [cbc_last].
  rewrite take_app_le, drop_app_le by lia. apply IH. rewrite length_drop. lia.
Qed.

(** The block before position [length d] of a buffer that starts with [d]:
    the initialization vector at the start. *)
Definition chained (iv d x : list Z) : Prop :=
  (d = [] ∧ x = iv) ∨ ∃ e, d = e ++ x.

Lemma chained_load iv d x rest :
  length iv = 16%nat → length x = 16%nat → Z.of_nat (length d) < 2 ^ 32 → chained iv d x →
  (if Z.of_nat (length d) =? 0 then load iv 0 16
   else load (d ++ rest) (u32 (Z.of_nat (length d) - 16)) 16) = Some x.
Proof.
  intros Hiv Hx Hd [[-> ->]|[e ->]].
  - cbn [length Z.of_nat Z.eqb]. rewrite load_ok by lia. unfold slice. by rewrite drop_0, take_ge by lia.
  - rewrite length_app in *. rewrite (proj2 (Z.eqb_neq _ _)) by lia.
    rewrite u32_small by (unfold fits; lia).
    rewrite load_ok by (rewrite ?length_app; lia). f_equal. unfold slice.
    replace (Z.to_nat (Z.of_nat (length e + length x) - 16)) with (length e) by lia.
    rewrite <- app_assoc, drop_app_length. change (Z.to_nat 16) with 16%nat.
    by rewrite take_app_length' by lia.
Qed.

Section CBC.
Context (E : env) (key : list Z) (key_bytes : bytes key).
Context (key_ok : AES_KeyLength_ok (Z.of_nat (length key)) = true).
Context (memory : kmalloc E sizeof_AES_CTX_STRUC = true).
Context (iv : list Z) (iv_block : block iv).

Lemma block_at_encrypt b d rest size :
  block b → 16 <= size → (16 <= length rest)%nat →
  block_at (RT_AES_Encrypt E b 16 key (Z.of_nat (length key))) (d ++ rest) (Z.of_nat (length d)) size =
    (d ++ cipher key b ++ drop 16 rest, 16).
Proof.
  intros Hb Hs Hr. unfold block_at. rewrite Nat2Z.id, drop_app_length, take_app_length.
  destruct (block_cipher_any key key_bytes key_ok b Hb) as [Hc _]. destruct Hb as [Hl Hb].
  rewrite RT_AES_Encrypt_ok by (done || lia). by rewrite put_splice, take_0, Hc by lia.
Qed.

Lemma block_at_decrypt b d rest size :
  block b → 16 <= size → (16 <= length rest)%nat →
  block_at (RT_AES_Decrypt E b 16 key (Z.of_nat (length key))) (d ++ rest) (Z.of_nat (length d)) size =
    (d ++ inv_cipher key b ++ drop 16 rest, 16).
Proof.
  intros Hb Hs Hr. unfold block_at. rewrite Nat2Z.id, drop_app_length, take_app_length.
  destruct (block_inv_cipher_any key key_bytes key_ok b Hb) as [Hc _]. destruct Hb as [Hl Hb].
  rewrite RT_AES_Decrypt_ok by (done || lia). by rewrite put_splice, take_0, Hc by lia.
Qed.

Lemma block_slice l i : bytes l → (i + 16 <= length l)%nat → block (slice l i 16).
Proof. intros Hl Hi. split; [by apply length_slice|by apply bytes_slice]. Qed.

Lemma CBC_EncryptStep_ok msg size d x rest blk :
  let i := length d in
  bytes msg → (i + 16 <= length msg)%nat → block x → chained iv d x →
  Z.of_nat (length msg) + 16 < 2 ^ 32 → Z.of_nat (i + 16) <= size < 2 ^ 32 →
  (16 <= length rest)%nat →
  let b := xorl (slice msg i 16) x in
  CBC_EncryptStep E msg key (Z.of_nat (length key)) iv size (d ++ rest, blk, Z.of_nat i, Z.of_nat i) =
    Some ((d ++ cipher key b) ++ drop 16 rest, b, Z.of_nat (i + 16), Z.of_nat (i + 16)).
Proof.
  cbv zeta. intros Hm Hi Hx Hc Hn Hs Hr. set (i := length d) in *. set (b := xorl _ x). unfold CBC_EncryptStep. rewrite (load_ok msg) by lia.
  cbn [mbind option_bind]. subst i. rewrite (chained_load iv d x) by (done || lia || apply iv_block || apply Hx). set (i := length d) in *.
  cbn [mbind option_bind]. rewrite Nat2Z.id. change (Z.to_nat 16) with 16%nat. fold b.
  assert (block b) as Hb by (apply block_xorl; [by apply block_slice|done]).
  rewrite !(u32_small (_ - _)), block_at_encrypt by (try done; unfold fits; lia).
  rewrite !u32_small by (unfold fits; lia).
  rewrite <- app_assoc. by replace (Z.of_nat i + 16) with (Z.of_nat (i + 16)) by lia.
Qed.

Lemma CBC_Encrypt_loop msg size fuel d x rest blk :
  let i := length d in
  bytes msg → (i <= length msg)%nat → block x → chained iv d x →
  Z.of_nat (length msg) + 16 < 2 ^ 32 → Z.of_nat (length msg) <= size < 2 ^ 32 →
  (length msg - i <= length rest)%nat → (length msg - i < fuel)%nat →
  let k := ((length msg - i) / 16)%nat in
  let l := drop i msg in
  ∃ blk' d',
  while_opt fuel (λ s, 16 <=? u32 (Z.of_nat (length msg) - s.1.2))
    (CBC_EncryptStep E msg key (Z.of_nat (length key)) iv size)
    (d ++ rest, blk, Z.of_nat i, Z.of_nat i) =
  Some (d' ++ drop (16 * k) rest, blk', Z.of_nat (i + 16 * k), Z.of_nat (i + 16 * k)) ∧
  d' = d ++ cbc_encrypt key k x l ∧ length d' = (i + 16 * k)%nat ∧
  chained iv d' (cbc_last key k x l) ∧ block (cbc_last key k x l) ∧ (length blk = 16 → length blk' = 16)%nat.
Proof.
  cbv zeta. intros Hm. revert d x rest blk. induction fuel as [|fuel IH];
    intros d x rest blk Hi Hx Hc Hn Hs Hr Hf; [lia|].
  cbn [while_opt fst snd]. rewrite u32_small by (unfold fits; lia).
  destruct (Z.leb_spec 16 (Z.of_nat (length msg) - Z.of_nat (length d))) as [Hge|Hlt].
  - rewrite (CBC_EncryptStep_ok msg size d x) by (done || lia). cbn [mbind option_bind].
    set (c := cipher key (xorl (slice msg (length d) 16) x)).
    assert (block c) as Hcb
      by (apply block_cipher_any; [done..|]; apply block_xorl; [apply block_slice; done || lia|done]).
    assert (length (d ++ c) = length d + 16)%nat as Hdc by (rewrite length_app; destruct Hcb; lia).
    destruct (IH (d ++ c) c (drop 16 rest) (xorl (slice msg (length d) 16) x))
      as (blk' & d' & Hw & Hd' & Hl' & Hc' & Hb' & Hblk).
    { lia. } { done. } { right. by eexists. } { done. } { done. }
    { rewrite length_drop. lia. } { lia. }
    rewrite Hdc in *. exists blk', d'.
    assert (((length msg - length d) / 16 = S ((length msg - (length d + 16)) / 16))%nat) as ->.
    { replace (length msg - length d)%nat with (length msg - (length d + 16) + 1 * 16)%nat by lia.
      rewrite Nat.div_add by lia. lia. }
    cbn [cbc_encrypt cbc_last]. rewrite drop_drop. fold (slice msg (length d) 16). fold c.
    rewrite drop_drop in Hw. split_and!.
    + rewrite Hw. set (k' := ((length msg - (length d + 16)) / 16)%nat).
      replace (16 + 16 * k')%nat with (16 * S k')%nat by lia.
      by replace (length d + 16 + 16 * k')%nat with (length d + 16 * S k')%nat by lia.
    + by rewrite Hd', <- app_assoc.
    + lia.
    + done.
    + done.
    + intros _. apply Hblk. apply block_xorl; [apply block_slice; done || lia|done].
  - assert ((length msg - length d) / 16 = 0)%nat as -> by (apply Nat.div_small; lia).
    exists blk, d. cbn [cbc_encrypt cbc_last]. rewrite Nat.mul_0_r, Nat.add_0_r, app_nil_r. by split_and!.
Qed.

Lemma bytes_pkcs7 msg : bytes msg → bytes (pkcs7 msg).
Proof.
  intros H. apply Forall_app. split; [done|]. apply Forall_replicate.
  pose proof (Nat.mod_upper_bound (length msg) 16). unfold fits. lia.
Qed.

Lemma length_pkcs7 msg : length (pkcs7 msg) = (16 * (length msg / 16 + 1))%nat.
Proof.
  unfold pkcs7. rewrite length_app, length_replicate.
  pose proof (Nat.mod_upper_bound (length msg) 16). pose proof (Nat.div_mod_eq (length msg) 16). lia.
Qed.

Lemma PaddingSize_pkcs7 (n : nat) :
  16 - Z.of_nat n mod 16 = Z.of_nat (16 - n mod 16).
Proof. change 16 with (Z.of_nat 16). rewrite <- Nat2Z.inj_mod. pose proof (Nat.mod_upper_bound n 16). lia. Qed.

(** Its last byte is the number of bytes of padding. *)
Lemma pkcs7_last msg k :
  k = length (pkcs7 msg) → (pkcs7 msg).[k - 1] = Z.of_nat k - Z.of_nat (length msg).
Proof.
  intros ->. unfold pkcs7. rewrite length_app, length_replicate.
  pose proof (Nat.mod_upper_bound (length msg) 16).
  rewrite get_app_r by lia. unfold get. rewrite nth_lookup, lookup_replicate_2 by lia. cbn [from_option id]. lia.
Qed.

(** The last block of the padded message. *)
Lemma CBC_padded_block msg blk :
  let k := (length msg / 16)%nat in
  let p := (16 - length msg mod 16)%nat in
  length blk = 16%nat →
  put (put blk 0 (drop (16 * k) msg)) (16 - p) (replicate p (u8 (Z.of_nat p))) =
    slice (pkcs7 msg) (16 * k) 16.
Proof.
  intros k p Hb. pose proof (Nat.mod_upper_bound (length msg) 16) as Hm.
  pose proof (Nat.div_mod_eq (length msg) 16) as Hd. fold k in Hd.
  assert (length (drop (16 * k) msg) = 16 - p)%nat as Hl by (rewrite length_drop; lia).
  rewrite u8_small by (unfold fits; lia).
  rewrite (put_splice blk), take_0 by lia. cbn [app]. rewrite <- Hl at 1.
  rewrite <- (app_nil_r (drop _ blk)), put_app by (rewrite length_drop, length_replicate; lia).
  rewrite app_nil_r. unfold slice, pkcs7. fold p. rewrite drop_app_le by lia.
  by rewrite take_ge by (rewrite length_app, length_replicate; lia).
Qed.

Lemma AES_CBC_Encrypt_ok msg out size :
  let n := length msg in
  bytes msg → Z.of_nat n + 32 < 2 ^ 32 → Z.of_nat (length (pkcs7 msg)) <= size < 2 ^ 32 →
  size <= Z.of_nat (length out) →
  AES_CBC_Encrypt E msg (Z.of_nat n) key (Z.of_nat (length key)) iv 16 out size =
    Some (put out 0 (cbc_encrypt key (n / 16 + 1) iv (pkcs7 msg)), Z.of_nat (length (pkcs7 msg))).
Proof.
  cbv zeta. intros Hm Hn Hs Ho. unfold AES_CBC_Encrypt. rewrite PaddingSize_pkcs7.
  pose proof (length_pkcs7 msg) as Hpl. pose proof (Nat.mod_upper_bound (length msg) 16) as Hmod.
  pose proof (Nat.div_mod_eq (length msg) 16) as Hd. set (k := (length msg / 16)%nat) in *.
  set (p := (16 - length msg mod 16)%nat).
  rewrite (u32_small (Z.of_nat (length msg) + _)) by (unfold fits; lia).
  rewrite (proj2 (Z.ltb_ge _ _)), key_ok by lia. cbn [negb Z.eqb Pos.eqb].
  destruct (CBC_Encrypt_loop msg size (S (length msg)) [] iv out (local_array E 16))
    as (blk & d & Hw & Hd' & Hdl & Hc & Hxb & Hblk);
    [done|cbn; lia|done|by left|lia|lia|cbn [length]; lia|cbn [length]; lia|].
  cbn [length app] in Hw, Hd', Hdl. rewrite Nat.sub_0_r, drop_0, Nat.add_0_l in *. fold k in Hw, Hd', Hdl, Hc, Hxb.
  change (Z.of_nat 0) with 0 in Hw. rewrite (Nat2Z.id (length msg)), Hw. cbn [mbind option_bind].
  rewrite <- Hdl in *.
  rewrite !(u32_small (_ - Z.of_nat (length d))) by (unfold fits; lia).
  rewrite (load_ok msg) by lia. cbn [mbind option_bind].
  rewrite (chained_load iv d (cbc_last key k iv msg)) by (done || lia || apply iv_block || apply Hxb).
  cbn [mbind option_bind].
  assert (slice msg (Z.to_nat (Z.of_nat (length d))) (Z.to_nat (Z.of_nat (length msg) - Z.of_nat (length d)))
    = drop (16 * k) msg) as ->.
  { rewrite Nat2Z.id, Hdl. unfold slice. rewrite take_ge; [done|]. rewrite length_drop. lia. }
  replace (Z.to_nat (16 - Z.of_nat p)) with (16 - p)%nat by lia. rewrite Nat2Z.id. unfold p, k.
  rewrite CBC_padded_block by (apply Hblk, length_local_array). fold k.
  assert (block (slice (pkcs7 msg) (16 * k) 16)) as Hlast
    by (apply block_slice; [by apply bytes_pkcs7|lia]).
  assert (block (xorl (slice (pkcs7 msg) (16 * k) 16) (cbc_last key k iv msg))) as Hlx
    by (by apply block_xorl).
  rewrite block_at_encrypt by (done || rewrite ?length_drop; lia).
  rewrite u32_small by (unfold fits; lia).
  do 2 f_equal; [|lia].
  rewrite Nat.add_1_r, cbc_encrypt_snoc.
  assert (cbc_encrypt key k iv (pkcs7 msg) = d) as ->.
  { unfold pkcs7. rewrite cbc_encrypt_app by lia. done. }
  assert (cbc_last key k iv (pkcs7 msg) = cbc_last key k iv msg) as ->
    by (unfold pkcs7; by rewrite cbc_last_app by lia).
  destruct (block_cipher_any key key_bytes key_ok _ Hlx) as [Hlc _].
  rewrite put_splice, take_0 by (rewrite length_app; lia). cbn [app].
  rewrite <- app_assoc, drop_drop, length_app. do 3 f_equal. lia.
Qed.

(** ** Decryption *)

(** The block before position [i] of the cipher text. *)
Definition prev_block (ct : list Z) (i : nat) : list Z :=
  if (i =? 0)%nat then iv else slice ct (i - 16) 16.

Lemma CBC_DecryptStep_ok ct size d rest :
  let i := length d in
  bytes ct → (i + 16 <= length ct)%nat → (i = 0 ∨ 16 <= i)%nat →
  Z.of_nat (length ct) + 16 < 2 ^ 32 → Z.of_nat (i + 16) <= size < 2 ^ 32 →
  (16 <= length rest)%nat →
  CBC_DecryptStep E ct key (Z.of_nat (length key)) iv size (d ++ rest, Z.of_nat i, Z.of_nat i) =
    Some ((d ++ xorl (inv_cipher key (slice ct i 16)) (prev_block ct i)) ++ drop 16 rest,
          Z.of_nat (i + 16), Z.of_nat (i + 16)).
Proof.
  cbv zeta. intros Hm Hi Hi0 Hn Hs Hr. unfold CBC_DecryptStep.
  rewrite (load_ok ct (Z.of_nat (length d))) by lia.
  cbn [mbind option_bind]. rewrite Nat2Z.id. change (Z.to_nat 16) with 16%nat.
  assert (block (slice ct (length d) 16)) as Hb by (by apply block_slice).
  rewrite !(u32_small (_ - _)) by (unfold fits; lia).
  rewrite block_at_decrypt by (done || lia).
  destruct (block_inv_cipher_any key key_bytes key_ok _ Hb) as [Hc _].
  assert ((if Z.of_nat (length d) =? 0 then load iv 0 16
    else load ct (u32 (Z.of_nat (length d) - 16)) 16) = Some (prev_block ct (length d))) as ->.
  { unfold prev_block. destruct (Nat.eqb_spec (length d) 0) as [->|].
    - cbn [Z.of_nat Z.eqb]. destruct iv_block as [Hiv _]. rewrite load_ok by lia.
      unfold slice. by rewrite drop_0, take_ge by lia.
    - rewrite (proj2 (Z.eqb_neq _ _)), u32_small by (unfold fits; lia).
      rewrite load_ok by lia. do 2 f_equal. lia. }
  cbn [mbind option_bind].
  assert (length (prev_block ct (length d)) = 16%nat) as Hpl.
  { unfold prev_block. destruct (Nat.eqb_spec (length d) 0); [apply iv_block|]. apply length_slice. lia. }
  rewrite load_ok by (rewrite ?length_app; lia). cbn [mbind option_bind].
  assert (slice (d ++ inv_cipher key (slice ct (length d) 16) ++ drop 16 rest)
    (Z.to_nat (Z.of_nat (length d))) (Z.to_nat 16) = inv_cipher key (slice ct (length d) 16)) as ->.
  { rewrite Nat2Z.id. unfold slice at 1. rewrite drop_app_length. by rewrite take_app_length' by lia. }
  rewrite store_ok by (rewrite ?length_xorl, ?length_app; lia). cbn [mbind option_bind].
  rewrite Nat2Z.id, put_app by (rewrite length_xorl; lia).
  rewrite !u32_small by (unfold fits; lia). rewrite <- app_assoc.
  by replace (Z.of_nat (length d) + 16) with (Z.of_nat (length d + 16)) by lia.
Qed.

Lemma CBC_Decrypt_loop ct size fuel d rest :
  let i := length d in
  bytes ct → (i <= length ct)%nat → (i = 0 ∨ 16 <= i)%nat →
  Z.of_nat (length ct) + 16 < 2 ^ 32 → Z.of_nat (length ct) <= size < 2 ^ 32 →
  (length ct - i <= length rest)%nat → (length ct - i < fuel)%nat →
  let k := ((length ct - i) / 16)%nat in
  while_opt fuel (λ s, 16 <=? u32 (Z.of_nat (length ct) - s.1.2))
    (CBC_DecryptStep E ct key (Z.of_nat (length key)) iv size) (d ++ rest, Z.of_nat i, Z.of_nat i) =
  Some (d ++ cbc_decrypt key k (prev_block ct i) (drop i ct) ++ drop (16 * k) rest,
        Z.of_nat (i + 16 * k), Z.of_nat (i + 16 * k)).
Proof.
  cbv zeta. intros Hm. revert d rest. induction fuel as [|fuel IH];
    intros d rest Hi Hi0 Hn Hs Hr Hf; [lia|].
  cbn [while_opt fst snd]. rewrite u32_small by (unfold fits; lia).
  destruct (Z.leb_spec 16 (Z.of_nat (length ct) - Z.of_nat (length d))) as [Hge|Hlt].
  - rewrite CBC_DecryptStep_ok by (done || lia). cbn [mbind option_bind].
    set (b := xorl (inv_cipher key (slice ct (length d) 16)) (prev_block ct (length d))).
    assert (block (slice ct (length d) 16)) as Hb by (apply block_slice; done || lia).
    destruct (block_inv_cipher_any key key_bytes key_ok _ Hb) as [Hc _].
    assert (length (prev_block ct (length d)) = 16%nat) as Hpl.
    { unfold prev_block. destruct (Nat.eqb_spec (length d) 0); [apply iv_block|]. apply length_slice. lia. }
    assert (length (d ++ b) = length d + 16)%nat as Hdb
      by (unfold b; rewrite length_app, length_xorl; lia).
    pose proof (IH (d ++ b) (drop 16 rest)) as Hw. rewrite Hdb in Hw.
    rewrite Hw by (rewrite ?length_drop; lia).
    assert (((length ct - length d) / 16 = S ((length ct - (length d + 16)) / 16))%nat) as ->.
    { replace (length ct - length d)%nat with (length ct - (length d + 16) + 1 * 16)%nat by lia.
      rewrite Nat.div_add by lia. lia. }
    set (k' := ((length ct - (length d + 16)) / 16)%nat).
    cbn [cbc_decrypt]. rewrite !drop_drop. fold (slice ct (length d) 16). fold b.
    replace (16 + 16 * k')%nat with (16 * S k')%nat by lia.
    replace (length d + 16 + 16 * k')%nat with (length d + 16 * S k')%nat by lia.
    rewrite <- !app_assoc. unfold prev_block at 1.
    rewrite (proj2 (Nat.eqb_neq _ _)) by lia.
    by replace (length d + 16 - 16)%nat with (length d) by lia.
  - assert ((length ct - length d) / 16 = 0)%nat as -> by (apply Nat.div_small; lia).
    cbn [cbc_decrypt app]. by rewrite Nat.mul_0_r, Nat.add_0_r, drop_0.
Qed.

Lemma AES_CBC_Decrypt_ok ct out size k :
  bytes ct → length ct = (16 * k)%nat → (0 < k)%nat → Z.of_nat (length ct) + 16 < 2 ^ 32 →
  Z.of_nat (length ct) <= size < 2 ^ 32 → size <= Z.of_nat (length out) →
  let pt := cbc_decrypt key k iv ct in
  length pt = length ct →
  AES_CBC_Decrypt E ct (Z.of_nat (length ct)) key (Z.of_nat (length key)) iv 16 out size =
    Some (put out 0 pt, u32 (Z.of_nat (length ct) - pt.[length ct - 1])).
Proof.
  intros Hb Hl Hk Hn Hs Ho pt Hpt. unfold AES_CBC_Decrypt.
  assert (Z.of_nat (length ct) mod 4 = 0) as ->.
  { rewrite Hl. replace (Z.of_nat (16 * k)) with (Z.of_nat k * 4 * 4) by lia. by rewrite Z.mod_mul. }
  rewrite key_ok. cbn [negb Z.eqb Pos.eqb]. rewrite Nat2Z.id.
  pose proof (CBC_Decrypt_loop ct size (S (length ct)) [] out) as Hw. cbn [length app] in Hw.
  rewrite Nat.sub_0_r, drop_0 in Hw. change (Z.of_nat 0) with 0 in Hw. rewrite Hw by (done || lia).
  cbn [mbind option_bind]. rewrite Nat.add_0_l.
  assert (length ct / 16 = k)%nat as -> by (rewrite Hl, Nat.mul_comm; by apply Nat.div_mul).
  change (prev_block ct 0) with iv. fold pt. rewrite <- Hl, u32_small by (unfold fits; lia).
  assert (put out 0 pt = pt ++ drop (length ct) out) as <-.
  { rewrite put_splice, take_0 by lia. cbn [app]. by rewrite Hpt. }
  rewrite load_ok by (rewrite ?length_put; lia). cbn [mbind option_bind].
  replace (Z.to_nat (Z.of_nat (length ct) - 1)) with (length ct - 1)%nat by lia.
  rewrite slice_1 by (rewrite length_put; lia). do 3 f_equal. f_equal.
  rewrite put_splice, take_0 by lia. cbn [app]. unfold get at 1. cbn [nth].
  by rewrite get_app_l by lia.
Qed.

(** *** Decryption inverts encryption *)

Lemma cbc_encrypt_block k x l :
  block x → bytes l → (16 * k <= length l)%nat →
  length (cbc_encrypt key k x l) = (16 * k)%nat ∧ bytes (cbc_encrypt key k x l).
Proof.
  revert x l. induction k as [|k IH]; intros x l Hx Hl Hk; [split; [done|constructor]|].
  cbn [cbc_encrypt].
  assert (block (xorl (take 16 l) x)) as Hb.
  { apply block_xorl; [|done]. split; [rewrite length_take; lia|by apply Forall_take]. }
  destruct (block_cipher_any key key_bytes key_ok _ Hb) as [Hc Hcb].
  destruct (IH (cipher key (xorl (take 16 l) x)) (drop 16 l)) as [Hl' Hb'];
    [done|by apply Forall_drop|rewrite length_drop; lia|].
  split; [rewrite length_app; lia|by apply Forall_app].
Qed.

Lemma cbc_decrypt_encrypt k x l :
  block x → bytes l → (16 * k <= length l)%nat →
  cbc_decrypt key k x (cbc_encrypt key k x l) = take (16 * k) l.
Proof.
  revert x l. induction k as [|k IH]; intros x l Hx Hl Hk; [by rewrite take_0|].
  cbn [cbc_decrypt cbc_encrypt].
  assert (block (take 16 l)) as Ht by (split; [rewrite length_take; lia|by apply Forall_take]).
  assert (block (xorl (take 16 l) x)) as Hb by (by apply block_xorl).
  set (c := cipher key (xorl (take 16 l) x)).
  assert (block c) as Hc by (by apply block_cipher_any).
  rewrite take_app_le, drop_app_ge, take_ge by (destruct Hc; lia).
  replace (16 - length c)%nat with 0%nat by (destruct Hc; lia). rewrite drop_0.
  rewrite IH by (first [done | by apply Forall_drop | rewrite length_drop; lia]).
  unfold c. rewrite inv_cipher_cipher by (done || apply Hb).
  rewrite xorl_cancel_r by (destruct Ht, Hx; lia).
  rewrite <- (take_drop 16 l) at 3. rewrite take_app_ge by (destruct Ht; lia).
  f_equal. f_equal. destruct Ht. lia.
Qed.
End CBC.

(** ** The properties *)

Definition cbc_args (E : env) (key iv : list Z) : Prop :=
  kmalloc E sizeof_AES_CTX_STRUC = true ∧ bytes key ∧
  AES_KeyLength_ok (Z.of_nat (length key)) = true ∧ block iv.

(** [AES_CBC_Encrypt] changes nothing when the output is shorter than the
    padded message or the key or IV length is wrong; otherwise it writes the
    CBC encryption of the padded message (always at least one byte of
    padding), in bounds, and returns its length. *)
Theorem AES_CBC_Encrypt_spec E key iv msg out size :
  let n := Z.of_nat (length msg) in
  let kl := Z.of_nat (length key) in
  n + 32 < 2 ^ 32 →
  (size < Z.of_nat (length (pkcs7 msg)) ∨ AES_KeyLength_ok kl = false ∨ length iv ≠ 16%nat →
   AES_CBC_Encrypt E msg n key kl iv (Z.of_nat (length iv)) out size = Some (out, size)) ∧
  (cbc_args E key iv → bytes msg → Z.of_nat (length (pkcs7 msg)) <= size < 2 ^ 32 →
   size <= Z.of_nat (length out) →
   AES_CBC_Encrypt E msg n key kl iv 16 out size =
     Some (put out 0 (cbc_encrypt key (length (pkcs7 msg) / 16) iv (pkcs7 msg)),
           Z.of_nat (length (pkcs7 msg)))).
Proof.
  cbv zeta. intros Hn. pose proof (length_pkcs7 msg) as Hp. split.
  - intros Hg. unfold AES_CBC_Encrypt. rewrite PaddingSize_pkcs7.
    pose proof (Nat.mod_upper_bound (length msg) 16). pose proof (Nat.div_mod_eq (length msg) 16).
    rewrite u32_small by (unfold fits; lia).
    destruct (Z.ltb_spec size (Z.of_nat (length msg) + Z.of_nat (16 - length msg mod 16))); [done|].
    destruct (AES_KeyLength_ok (Z.of_nat (length key))); [|done]. cbn [negb].
    destruct Hg as [|[|]]; [lia|done|]. by rewrite (proj2 (Z.eqb_neq _ _)) by lia.
  - intros (HM & Hk & HK & Hiv) Hm Hs Ho.
    rewrite AES_CBC_Encrypt_ok by done. do 3 f_equal. f_equal.
    rewrite Hp, Nat.mul_comm. symmetry. by apply Nat.div_mul.
Qed.

Lemma AES_CBC_Encrypt_spec_witness :
  let E := {| kmalloc := λ _, true; garbage := [] |} in
  AES_CBC_Encrypt E (repeat 1 20) 20 (zeros 16) 16 (zeros 16) 16 (zeros 40) 40 =
    Some (put (zeros 40) 0 (cbc_encrypt (zeros 16) 2 (zeros 16) (pkcs7 (repeat 1 20))), 32) ∧
  AES_CBC_Encrypt E (repeat 1 20) 20 (zeros 16) 16 (zeros 16) 16 (zeros 31) 31 = Some (zeros 31, 31).
Proof.
  intros E. split.
  - apply (proj2 (AES_CBC_Encrypt_spec E (zeros 16) (zeros 16) (repeat 1 20) (zeros 40) 40 ltac:(cbn; lia)));
      [split_and!; first [reflexivity | bytes_table | split; [reflexivity|bytes_table]]
      |bytes_table|cbn; lia|cbn; lia].
  - apply (proj1 (AES_CBC_Encrypt_spec E (zeros 16) (zeros 16) (repeat 1 20) (zeros 31) 31 ltac:(cbn; lia))).
    left. cbn. lia.
Defined.

(** decrypting the output of [AES_CBC_Encrypt] with [AES_CBC_Decrypt]
    gives the message back: the returned length is that of the message and
    the buffer starts with it. *)
Theorem aes_cbc_roundtrip E1 E2 key iv msg out1 out2 size1 size2 :
  cbc_args E1 key iv → kmalloc E2 sizeof_AES_CTX_STRUC = true → bytes msg →
  Z.of_nat (length msg) + 48 < 2 ^ 32 →
  Z.of_nat (length (pkcs7 msg)) <= size1 < 2 ^ 32 → size1 <= Z.of_nat (length out1) →
  Z.of_nat (length (pkcs7 msg)) <= size2 < 2 ^ 32 → size2 <= Z.of_nat (length out2) →
  let kl := Z.of_nat (length key) in
  ∃ ct n pt,
    AES_CBC_Encrypt E1 msg (Z.of_nat (length msg)) key kl iv 16 out1 size1 = Some (ct, n) ∧
    AES_CBC_Decrypt E2 (take (Z.to_nat n) ct) n key kl iv 16 out2 size2 =
      Some (pt, Z.of_nat (length msg)) ∧
    take (length msg) pt = msg.
Proof.
  cbv zeta. intros (HM & Hk & HK & Hiv) HM2 Hm Hn Hs1 Ho1 Hs2 Ho2.
  pose proof (length_pkcs7 msg) as Hp. pose proof (bytes_pkcs7 msg Hm) as Hpb.
  set (k := (length msg / 16 + 1)%nat) in *.
  assert (16 * k <= length msg + 16)%nat as Hkn
    by (unfold k; pose proof (Nat.div_mod_eq (length msg) 16); lia).
  destruct (cbc_encrypt_block key Hk HK k iv (pkcs7 msg) Hiv Hpb) as [Hcl Hcb]; [lia|].
  set (ct := cbc_encrypt key k iv (pkcs7 msg)) in *.
  exists (put out1 0 ct), (Z.of_nat (length (pkcs7 msg))), (put out2 0 (pkcs7 msg)).
  split; [apply AES_CBC_Encrypt_ok; done || lia|].
  assert (cbc_decrypt key k iv ct = pkcs7 msg) as Hd.
  { unfold ct. rewrite cbc_decrypt_encrypt by (done || lia). apply take_ge. lia. }
  assert (take (Z.to_nat (Z.of_nat (length (pkcs7 msg)))) (put out1 0 ct) = ct) as ->.
  { rewrite Nat2Z.id, put_splice, take_0 by lia. cbn [app]. by rewrite take_app_le, take_ge by lia. }
  assert (length (pkcs7 msg) = length ct) as Hcp by lia. rewrite Hcp.
  split.
  - rewrite (AES_CBC_Decrypt_ok E2 key Hk HK HM2 iv Hiv ct out2 size2 k);
      [|done|lia|lia|lia|lia|lia|rewrite Hd; lia].
    rewrite Hd. do 2 f_equal. rewrite pkcs7_last by done. rewrite u32_small; unfold fits; lia.
  - rewrite put_splice, take_0 by lia. cbn [app]. unfold pkcs7. rewrite <- app_assoc.
    by rewrite take_app_length.
Qed.

Lemma aes_cbc_roundtrip_witness :
  let E := {| kmalloc := λ _, true; garbage := [] |} in
  ∃ ct n pt,
    AES_CBC_Encrypt E (repeat 1 20) 20 (zeros 32) 32 (zeros 16) 16 (zeros 40) 40 = Some (ct, n) ∧
    AES_CBC_Decrypt E (take (Z.to_nat n) ct) n (zeros 32) 32 (zeros 16) 16 (zeros 32) 32 = Some (pt, 20) ∧
    take 20 pt = repeat 1 20.
Proof.
  intros E. apply (aes_cbc_roundtrip E E (zeros 32) (zeros 16) (repeat 1 20) (zeros 40) (zeros 32) 40 32);
    first [reflexivity | bytes_table | cbn; lia | idtac].
  split_and!; first [reflexivity | bytes_table | split; [reflexivity|bytes_table]].
Defined.

(** ** Output buffers of [AES_CBC_Decrypt]

    The size of the output is not checked against the cipher text: with an
    output shorter than the cipher text, the loop leaves the buffer. *)
Lemma AES_CBC_Decrypt_overrun :
  let E := {| kmalloc := λ _, true; garbage := [] |} in
  AES_CBC_Decrypt E (zeros 16) 16 (zeros 16) 16 (zeros 16) 16 (zeros 8) 8 = None ∧
  AES_CBC_Decrypt E [] 0 (zeros 16) 16 (zeros 16) 16 (zeros 8) 8 = None.
Proof. vm_compute. done. Qed.

(** The check that the cipher text is a whole number of blocks lets every
    multiple of 4 through: the last 12 bytes here are ignored. *)
Lemma AES_CBC_Decrypt_partial_block :
  let E := {| kmalloc := λ _, true; garbage := [] |} in
  ∃ pt n, pt ≠ zeros 32 ∧
    AES_CBC_Decrypt E (zeros 28) 28 (zeros 16) 16 (zeros 16) 16 (zeros 32) 32 = Some (pt, n) ∧
    AES_CBC_Decrypt E (zeros 16) 16 (zeros 16) 16 (zeros 16) 16 (zeros 32) 32 = Some (pt, n).
Proof. do 2 eexists. split; [|split; vm_compute; reflexivity]. vm_compute. discriminate. Qed.
