(* ===== verification/AesKeyWrap.v ===== *)
(** * AES key wrap

    Models [AES_Key_Wrap] and [AES_Key_Unwrap] of
    [linux/Arch/rt5370.driver/common/crypt_aes.c] (the WPA2 group key in
    EAPOL-Key frames is wrapped with them), with the allocation of the
    intermediate buffer.  The caller's output buffer is checked.

    The reference is RFC 3394, with a 64-bit step counter; the code folds the
    counter into one byte, which is the same for up to 42 blocks. *)

From stdpp Require Import base list numbers list_numbers.
From Stdlib Require Import ZArith Lia.
From S2P Require Import Prelude AesTables Aes AesChain.

Definition Default_IV : list Z := replicate 8 0xa6.

(** One turn of the inner loop of [AES_Key_Wrap]; the state is [IV],
    [Block_B] and [pResult]. *)
Definition KeyWrap_Step (E : env) (Key : list Z) (KeyLength : Z) (Number_Of_Block : Z)
    (Index_j Index_i : nat) (s : list Z * list Z * list Z) : list Z * list Z * list Z :=
  let '(IV, Block_B, pResult) := s in
  let Block_Input := IV ++ slice pResult (Index_i * 8) 8 in
  let Block_B := encrypt_block E Key KeyLength Block_Input Block_B in
  let IV := take 8 Block_B in
  let IV := IV.[7 <- u8 (Block_B.[7] ^^
                         u32 (u32 (u32 (Number_Of_Block * Z.of_nat Index_j) + Z.of_nat Index_i) + 1))] in
  (IV, Block_B, put pResult (Index_i * 8) (slice Block_B 8 8)).

(** The return value, [CipherText] and [*CipherTextLength] when it is set. *)
Definition AES_Key_Wrap (E : env) (PlainText : list Z) (PlainTextLength : Z)
    (Key : list Z) (KeyLength : Z) (CipherText : list Z) : option (Z * list Z * option Z) :=
  if negb (AES_KeyLength_ok KeyLength) then Some (-1, CipherText, None)
  else if negb (kmalloc E PlainTextLength) then Some (-2, CipherText, None)
  else
    pResult ← load PlainText 0 PlainTextLength;
    let Number_Of_Block := PlainTextLength / 8 in
    let '(IV, _, pResult) :=
      loop 0 6 (λ j, loop 0 (Z.to_nat Number_Of_Block)
        (KeyWrap_Step E Key KeyLength Number_Of_Block j))
        (Default_IV, local_array E 16, pResult) in
    CipherText ← store CipherText 0 IV;
    CipherText ← store CipherText 8 pResult;
    Some (0, CipherText, Some (u32 (PlainTextLength + 8))).

(** One turn of the inner loop of [AES_Key_Unwrap]. *)
Definition KeyUnwrap_Step (E : env) (Key : list Z) (KeyLength : Z) (Number_Of_Block : Z)
    (Index_j Index_i : nat) (s : list Z * list Z * list Z) : list Z * list Z * list Z :=
  let '(IV, Block_B, pResult) := s in
  let IV := IV.[7 <- u8 (IV.[7] ^^
                         u32 (u32 (u32 (Number_Of_Block * Z.of_nat Index_j) + Z.of_nat Index_i) + 1))] in
  let Block_Input := IV ++ slice pResult (Index_i * 8) 8 in
  let Block_B := decrypt_block E Key KeyLength Block_Input Block_B in
  (take 8 Block_B, Block_B, put pResult (Index_i * 8) (slice Block_B 8 8)).

Definition AES_Key_Unwrap (E : env) (CipherText : list Z) (CipherTextLength : Z)
    (Key : list Z) (KeyLength : Z) (PlainText : list Z) : option (Z * list Z * option Z) :=
  let PlainLength := u32 (CipherTextLength - 8) in
  if negb (AES_KeyLength_ok KeyLength) then Some (-1, PlainText, None)
  else if negb (kmalloc E PlainLength) then Some (-2, PlainText, None)
  else
    let Number_Of_Block := PlainLength / 8 in
    IV ← load CipherText 0 8;
    pResult ← load CipherText 8 PlainLength;
    let '(IV, _, pResult) :=
      loop_down 0 6 (λ j, loop_down 0 (Z.to_nat Number_Of_Block)
        (KeyUnwrap_Step E Key KeyLength Number_Of_Block j)) (IV, local_array E 16, pResult) in
    PlainText ← store PlainText 0 pResult;
    Some (0, PlainText, Some PlainLength).

(** ** Reference (RFC 3394)

    The state is the integrity register [A] and the blocks [R]. *)

Definition wrap_step (key : list Z) (n j i : nat) (s : list Z * list Z) : list Z * list Z :=
  let '(A, R) := s in
  let B := cipher key (A ++ slice R (i * 8) 8) in
  (xorl (take 8 B) (be_bytes 8 (Z.of_nat (n * j + i + 1))), put R (i * 8) (drop 8 B)).

Definition unwrap_step (key : list Z) (n j i : nat) (s : list Z * list Z) : list Z * list Z :=
  let '(A, R) := s in
  let B := inv_cipher key (xorl A (be_bytes 8 (Z.of_nat (n * j + i + 1))) ++ slice R (i * 8) 8) in
  (take 8 B, put R (i * 8) (drop 8 B)).

Definition rfc3394_wrap (key pt : list Z) : list Z :=
  let n := (length pt / 8)%nat in
  let '(A, R) := loop 0 6 (λ j, loop 0 n (wrap_step key n j)) (Default_IV, pt) in
  A ++ R.

(** The plain text and the integrity register to compare with the initial
    value. *)
Definition rfc3394_unwrap (key ct : list Z) : list Z * list Z :=
  let n := (length ct / 8 - 1)%nat in
  let '(A, R) := loop_down 0 6 (λ j, loop_down 0 n (unwrap_step key n j)) (take 8 ct, drop 8 ct) in
  (A, R).

(** RFC 3394, 4.1. *)
Example key_wrap_rfc3394 :
  let E := {| kmalloc := λ _, true; garbage := [] |} in
  let key := map Z.of_nat (seq 0 16) in
  let data := map (λ i, 17 * Z.of_nat i) (seq 0 16) in
  AES_Key_Wrap E data 16 key 16 (zeros 24) =
    Some (0, be_bytes 24 0x1fa68b0a8112b447aef34bd8fb5a7b829d3e862371d2cfe5, Some 24).
Proof. vm_compute. reflexivity. Qed.

(** ** Steps with any mask

    The code xors the counter into the last byte of the register, the RFC
    into all eight; both are a step with a mask of eight bytes. *)

Definition wrap_mask (key msk : list Z) (i : nat) (s : list Z * list Z) : list Z * list Z :=
  let '(A, R) := s in
  let B := cipher key (A ++ slice R (i * 8) 8) in
  (xorl (take 8 B) msk, put R (i * 8) (drop 8 B)).

Definition unwrap_mask (key msk : list Z) (i : nat) (s : list Z * list Z) : list Z * list Z :=
  let '(A, R) := s in
  let B := inv_cipher key (xorl A msk ++ slice R (i * 8) 8) in
  (take 8 B, put R (i * 8) (drop 8 B)).

(** The mask of the code. *)
Definition code_mask (t : Z) : list Z := zeros 7 ++ [u8 t].

Lemma code_mask_be t : byte t → code_mask t = be_bytes 8 t.
Proof. intros Ht. rewrite (be_bytes_small 7) by done. unfold code_mask. by rewrite u8_small. Qed.

(** The register and [m] bytes of blocks. *)
Definition wrap_state (m : nat) (s : list Z * list Z) : Prop :=
  length s.1 = 8%nat ∧ bytes s.1 ∧ length s.2 = m ∧ bytes s.2.

Section Steps.
Context (E : env) (key : list Z) (key_bytes : bytes key).
Context (key_ok : AES_KeyLength_ok (Z.of_nat (length key)) = true).
Context (memory : kmalloc E sizeof_AES_CTX_STRUC = true).
Context (m : nat).

Abbreviation n := (m / 8)%nat.

Lemma block_in_range i : (i < n)%nat → (i * 8 + 8 <= m)%nat.
Proof. intros H. pose proof (Nat.Div0.mul_div_le m 8). lia. Qed.

Lemma wrap_block i A R :
  wrap_state m (A, R) → (i < n)%nat → block (A ++ slice R (i * 8) 8).
Proof.
  intros (HA & HAb & HR & HRb) Hi. pose proof (block_in_range i Hi). cbn [fst snd] in *.
  split; [rewrite length_app, length_slice; lia|apply Forall_app; split; [done|by apply bytes_slice]].
Qed.

Lemma wrap_mask_state msk i s :
  wrap_state m s → (i < n)%nat → length msk = 8%nat → bytes msk → wrap_state m (wrap_mask key msk i s).
Proof.
  destruct s as [A R]. intros Hs Hi Hm Hmb.
  destruct (block_cipher_any key key_bytes key_ok _ (wrap_block i A R Hs Hi)) as [Hl Hb].
  destruct Hs as (HA & HAb & HR & HRb). unfold wrap_mask, wrap_state. cbn [fst snd] in *. split_and!.
  - rewrite length_xorl; rewrite length_take; lia.
  - apply xorl_bytes; [by apply Forall_take|done].
  - by rewrite length_put.
  - apply bytes_put; [done|by apply Forall_drop].
Qed.

Lemma unwrap_wrap_mask msk i s :
  wrap_state m s → (i < n)%nat → length msk = 8%nat → bytes msk →
  unwrap_mask key msk i (wrap_mask key msk i s) = s.
Proof.
  destruct s as [A R]. intros Hs Hi Hm Hmb. pose proof (block_in_range i Hi) as Hr.
  pose proof (wrap_block i A R Hs Hi) as HB.
  destruct (block_cipher_any key key_bytes key_ok _ HB) as [Hl Hb].
  destruct Hs as (HA & HAb & HR & HRb). cbn [fst snd] in *. unfold wrap_mask, unwrap_mask.
  set (B := cipher key _) in *.
  assert (length (drop 8 B) = 8%nat) as Hd by (rewrite length_drop; lia).
  rewrite xorl_cancel_r by (rewrite length_take; lia).
  pose proof (slice_put_eq R (i * 8) (drop 8 B) ltac:(lia)) as HS. rewrite Hd in HS.
  rewrite HS, take_drop.
  assert (inv_cipher key B = A ++ slice R (i * 8) 8) as -> by (by apply inv_cipher_cipher; try apply HB).
  rewrite take_app_length', drop_app_length' by done. f_equal.
  rewrite put_put by (rewrite ?length_slice; lia). apply put_slice_id. lia.
Qed.

Lemma unwrap_mask_state msk i s :
  wrap_state m s → (i < n)%nat → length msk = 8%nat → bytes msk →
  wrap_state m (unwrap_mask key msk i s).
Proof.
  destruct s as [A R]. intros Hs Hi Hm Hmb.
  assert (wrap_state m (xorl A msk, R)) as Hs'.
  { destruct Hs as (HA & HAb & HR & HRb). cbn [fst snd] in *. unfold wrap_state. cbn [fst snd].
    split_and!; [rewrite length_xorl; lia|by apply xorl_bytes|done|done]. }
  destruct (block_inv_cipher_any key key_bytes key_ok _ (wrap_block i _ _ Hs' Hi)) as [Hl Hb].
  destruct Hs as (HA & HAb & HR & HRb). unfold unwrap_mask, wrap_state. cbn [fst snd] in *. split_and!.
  - rewrite length_take; lia.
  - by apply Forall_take.
  - by rewrite length_put.
  - apply bytes_put; [done|by apply Forall_drop].
Qed.

(** *** The code's steps *)

Definition counter (j i : nat) : Z := Z.of_nat (n * j + i + 1).

Lemma counter_u32 j i : Z.of_nat m < 2 ^ 31 → (j < 6)%nat → (i < n)%nat →
  u32 (u32 (u32 (Z.of_nat n * Z.of_nat j) + Z.of_nat i) + 1) = counter j i.
Proof.
  intros Hm Hj Hi. unfold counter. pose proof (Nat.Div0.mul_div_le m 8).
  rewrite <- Nat2Z.inj_mul. assert (n * j <= 5 * n)%nat by nia.
  generalize dependent (n * j)%nat. intros nj Hnj. rewrite (u32_small (Z.of_nat nj)) by (unfold fits; lia).
  rewrite (u32_small (Z.of_nat nj + _)) by (unfold fits; lia). rewrite u32_small by (unfold fits; lia). lia.
Qed.

(** The code's state is the reference's and a block. *)
Definition step_rel (s : list Z * list Z * list Z) (t : list Z * list Z) : Prop :=
  s.1.1 = t.1 ∧ s.2 = t.2 ∧ length s.1.2 = 16%nat ∧ wrap_state m t.

Lemma mask_last A t : length A = 8%nat → bytes A → A.[7 <- u8 (A.[7] ^^ t)] = xorl A (code_mask t).
Proof.
  intros HA Hb. rewrite u8_lxor by (by apply bytes_get).
  destruct (list_as_map A 8 HA) as [g ->]. unfold code_mask, xorl.
  cbn -[Z.lxor u8]. rewrite !Z.lxor_0_r. reflexivity.
Qed.

Lemma length_code_mask t : length (code_mask t) = 8%nat.
Proof. done. Qed.

Lemma bytes_code_mask t : bytes (code_mask t).
Proof. apply Forall_app. split; [by apply fits_zeros|]. constructor; [apply fits_u8|constructor]. Qed.

Lemma KeyWrap_Step_ok j i s t :
  Z.of_nat m < 2 ^ 31 → (j < 6)%nat → (i < n)%nat → step_rel s t →
  step_rel (KeyWrap_Step E key (Z.of_nat (length key)) (Z.of_nat n) j i s)
    (wrap_mask key (code_mask (counter j i)) i t).
Proof.
  destruct s as [[IV B] R], t as [A R']. intros Hm Hj Hi (HA & HR & HB & Hs).
  cbn [fst snd] in HA, HR, HB. subst A R'.
  pose proof (wrap_block i IV R Hs Hi) as Hb. unfold KeyWrap_Step.
  rewrite (encrypt_block_any E key key_bytes key_ok memory) by done. rewrite counter_u32 by done.
  destruct (block_cipher_any key key_bytes key_ok _ Hb) as [Hl Hbb].
  assert (∀ C, length C = 16%nat → C.[7] = (take 8 C).[7]) as Hg.
  { intros C HC. rewrite <- (take_drop 8 C) at 1. apply get_app_l. rewrite length_take. lia. }
  rewrite (Hg (cipher _ _)) by done.
  rewrite mask_last by (rewrite ?length_take; lia || by apply Forall_take).
  split_and!; [done| |done|].
  - unfold wrap_mask. cbn [fst snd]. f_equal. unfold slice at 1. rewrite take_ge; [done|].
    rewrite length_drop. lia.
  - apply wrap_mask_state; [done|done|apply length_code_mask|apply bytes_code_mask].
Qed.

Lemma KeyUnwrap_Step_ok j i s t :
  Z.of_nat m < 2 ^ 31 → (j < 6)%nat → (i < n)%nat → step_rel s t →
  step_rel (KeyUnwrap_Step E key (Z.of_nat (length key)) (Z.of_nat n) j i s)
    (unwrap_mask key (code_mask (counter j i)) i t).
Proof.
  destruct s as [[IV B] R], t as [A R']. intros Hm Hj Hi (HA & HR & HB & Hs).
  cbn [fst snd] in HA, HR, HB. subst A R'. unfold KeyUnwrap_Step. rewrite counter_u32 by done.
  destruct Hs as (HA & HAb & HR & HRb). cbn [fst snd] in *. rewrite mask_last by done.
  assert (wrap_state m (xorl IV (code_mask (counter j i)), R)) as Hs'.
  { unfold wrap_state. cbn [fst snd]. split_and!; try done; [|apply xorl_bytes; [done|apply bytes_code_mask]].
    rewrite length_xorl; rewrite ?length_code_mask; lia. }
  pose proof (wrap_block i _ R Hs' Hi) as Hb.
  rewrite (decrypt_block_any E key key_bytes key_ok memory) by done.
  destruct (block_inv_cipher_any key key_bytes key_ok _ Hb) as [Hl Hbb].
  split_and!; [done| |done|].
  - unfold unwrap_mask. cbn [fst snd]. f_equal. unfold slice at 1. rewrite take_ge; [done|].
    rewrite length_drop. lia.
  - apply unwrap_mask_state; [done|done|apply length_code_mask|apply bytes_code_mask].
Qed.
End Steps.

(** ** All steps *)

Definition wrap_all (key : list Z) (n : nat) (s : list Z * list Z) : list Z * list Z :=
  loop 0 6 (λ j, loop 0 n (λ i, wrap_mask key (code_mask (Z.of_nat (n * j + i + 1))) i)) s.

Definition unwrap_all (key : list Z) (n : nat) (s : list Z * list Z) : list Z * list Z :=
  loop_down 0 6 (λ j, loop_down 0 n (λ i, unwrap_mask key (code_mask (Z.of_nat (n * j + i + 1))) i)) s.

(** Up to 42 blocks the masks are those of the RFC. *)
Lemma wrap_all_rfc3394 key n s : (6 * n < 256)%nat →
  wrap_all key n s = loop 0 6 (λ j, loop 0 n (wrap_step key n j)) s.
Proof.
  intros Hn. apply loop_ext. intros j s' Hj. apply loop_ext. intros i [A R] Hi.
  unfold wrap_mask, wrap_step. rewrite code_mask_be; [done|]. unfold fits. nia.
Qed.

Lemma unwrap_all_rfc3394 key n s : (6 * n < 256)%nat →
  unwrap_all key n s = loop_down 0 6 (λ j, loop_down 0 n (unwrap_step key n j)) s.
Proof.
  intros Hn. apply loop_down_ext. intros j s' Hj. apply loop_down_ext. intros i [A R] Hi.
  unfold unwrap_mask, unwrap_step. rewrite code_mask_be; [done|]. unfold fits. nia.
Qed.

Section All.
Context (E : env) (key : list Z) (key_bytes : bytes key).
Context (key_ok : AES_KeyLength_ok (Z.of_nat (length key)) = true).
Context (memory : kmalloc E sizeof_AES_CTX_STRUC = true).
Context (m : nat) (m_small : Z.of_nat m + 8 < 2 ^ 31).

Abbreviation n := (m / 8)%nat.

Lemma wrap_all_state s : wrap_state m s → wrap_state m (wrap_all key n s).
Proof.
  intros Hs. unfold wrap_all. apply (loop_inv (λ _, wrap_state m)); [done|]. intros j s' _ Hs'.
  apply (loop_inv (λ _, wrap_state m)); [done|]. intros i s'' Hi Hs''.
  apply wrap_mask_state; try done; [lia|apply bytes_code_mask].
Qed.

Lemma unwrap_wrap_all s : wrap_state m s → unwrap_all key n (wrap_all key n s) = s.
Proof.
  intros Hs. unfold unwrap_all, wrap_all. apply (loop_down_loop (wrap_state m)); [done|].
  intros j s' Hj Hs'. split.
  - apply (loop_inv (λ _, wrap_state m)); [done|]. intros i s'' Hi Hs''.
    apply wrap_mask_state; try done; [lia|apply bytes_code_mask].
  - apply (loop_down_loop (wrap_state m)); [done|]. intros i s'' Hi Hs''. split.
    + apply wrap_mask_state; try done; [lia|apply bytes_code_mask].
    + apply (unwrap_wrap_mask key key_bytes key_ok m); try done; [lia|apply bytes_code_mask].
Qed.

Lemma KeyWrap_loops s t : step_rel m s t →
  step_rel m
    (loop 0 6 (λ j, loop 0 n (KeyWrap_Step E key (Z.of_nat (length key)) (Z.of_nat n) j)) s)
    (wrap_all key n t).
Proof.
  intros H. apply loop_sim; [done|]. intros j s' t' Hj H'. apply loop_sim; [done|].
  intros i s'' t'' Hi H''. apply (KeyWrap_Step_ok E key key_bytes key_ok memory m); try done; lia.
Qed.

Lemma KeyUnwrap_loops s t : step_rel m s t →
  step_rel m
    (loop_down 0 6 (λ j, loop_down 0 n (KeyUnwrap_Step E key (Z.of_nat (length key)) (Z.of_nat n) j)) s)
    (unwrap_all key n t).
Proof.
  intros H. apply loop_down_sim; [done|]. intros j s' t' Hj H'. apply loop_down_sim; [done|].
  intros i s'' t'' Hi H''. apply (KeyUnwrap_Step_ok E key key_bytes key_ok memory m); try done; lia.
Qed.

Lemma number_of_blocks : Z.of_nat m / 8 = Z.of_nat n.
Proof. change 8 with (Z.of_nat 8). by rewrite <- Nat2Z.inj_div. Qed.

Lemma AES_Key_Wrap_ok pt out :
  kmalloc E (Z.of_nat m) = true → bytes pt → length pt = m → (m + 8 <= length out)%nat →
  AES_Key_Wrap E pt (Z.of_nat m) key (Z.of_nat (length key)) out =
    Some (0, put out 0 ((wrap_all key n (Default_IV, pt)).1 ++ (wrap_all key n (Default_IV, pt)).2),
          Some (Z.of_nat (m + 8))).
Proof.
  intros HM Hb Hl Ho. unfold AES_Key_Wrap. rewrite key_ok, HM. cbn [negb].
  rewrite load_ok by lia. cbn [mbind option_bind]. unfold slice. rewrite drop_0, Nat2Z.id, take_ge by lia.
  rewrite number_of_blocks, Nat2Z.id.
  assert (wrap_state m (Default_IV, pt)) as Hw by (split_and!; try done; bytes_table).
  pose proof (KeyWrap_loops (Default_IV, local_array E 16, pt) (Default_IV, pt)) as Hr.
  destruct (loop _ _ _ _) as [[A B] R].
  destruct Hr as (HA & HR & _ & HlA & HbA & HlR & HbR); [split_and!; try done; apply length_local_array|].
  cbn [fst snd] in *. rewrite <- HA, <- HR in *.
  rewrite store_ok by lia. cbn [mbind option_bind].
  rewrite store_ok by (rewrite ?length_put; lia). cbn [mbind option_bind].
  rewrite u32_small by (unfold fits; lia). replace (Z.of_nat m + 8) with (Z.of_nat (m + 8)) by lia.
  change (Z.to_nat 0) with 0%nat. replace (Z.to_nat 8) with (0 + length A)%nat by lia.
  rewrite put_put_adjacent by lia. done.
Qed.

Lemma AES_Key_Unwrap_ok ct out :
  kmalloc E (Z.of_nat m) = true → bytes ct → length ct = (m + 8)%nat → (m <= length out)%nat →
  AES_Key_Unwrap E ct (Z.of_nat (m + 8)) key (Z.of_nat (length key)) out =
    Some (0, put out 0 (unwrap_all key n (take 8 ct, drop 8 ct)).2, Some (Z.of_nat m)).
Proof.
  intros HM Hb Hl Ho. unfold AES_Key_Unwrap.
  replace (Z.of_nat (m + 8) - 8) with (Z.of_nat m) by lia. rewrite u32_small by (unfold fits; lia).
  rewrite key_ok, HM. cbn [negb]. rewrite load_ok by lia. cbn [mbind option_bind].
  rewrite load_ok by lia. cbn [mbind option_bind]. rewrite number_of_blocks, !Nat2Z.id.
  assert (slice ct (Z.to_nat 0) (Z.to_nat 8) = take 8 ct) as -> by (unfold slice; by rewrite drop_0).
  assert (slice ct (Z.to_nat 8) m = drop 8 ct) as ->
    by (unfold slice; apply take_ge; rewrite length_drop; lia).
  assert (wrap_state m (take 8 ct, drop 8 ct)) as Hw.
  { split_and!; cbn [fst snd]; [rewrite length_take; lia|by apply Forall_take|rewrite length_drop; lia
      |by apply Forall_drop]. }
  pose proof (KeyUnwrap_loops (take 8 ct, local_array E 16, drop 8 ct) (take 8 ct, drop 8 ct)) as Hr.
  destruct (loop_down _ _ _ _) as [[A B] R].
  destruct Hr as (HA & HR & _ & _ & _ & HlR & _); [split_and!; try done; apply length_local_array|].
  cbn [fst snd] in *. rewrite <- HR in *. rewrite store_ok by lia. done.
Qed.
End All.

Definition wrap_args (E : env) (key : list Z) (m : nat) : Prop :=
  kmalloc E sizeof_AES_CTX_STRUC = true ∧ kmalloc E (Z.of_nat m) = true ∧ bytes key ∧
  AES_KeyLength_ok (Z.of_nat (length key)) = true ∧ Z.of_nat m + 8 < 2 ^ 31.

(** *** The calls of other files: a prefix of a buffer *)

Lemma AES_Key_Wrap_prefix E Key_Data (m : nat) key kl out :
  (m <= length Key_Data)%nat →
  AES_Key_Wrap E Key_Data (Z.of_nat m) key kl out = AES_Key_Wrap E (take m Key_Data) (Z.of_nat m) key kl out.
Proof.
  intros Hm. unfold AES_Key_Wrap. rewrite !load_ok by (rewrite ?length_take; lia).
  unfold slice. by rewrite Nat2Z.id, !drop_0, take_take, Nat.min_id.
Qed.

Lemma AES_Key_Unwrap_prefix E ct (m : nat) key kl out :
  (8 <= m <= length ct)%nat → Z.of_nat m < 2 ^ 32 →
  AES_Key_Unwrap E ct (Z.of_nat m) key kl out = AES_Key_Unwrap E (take m ct) (Z.of_nat m) key kl out.
Proof.
  intros Hm H32. unfold AES_Key_Unwrap. rewrite u32_small by (unfold fits; lia).
  rewrite !load_ok by (rewrite ?length_take; lia). unfold slice.
  replace (Z.to_nat (Z.of_nat m - 8)) with (m - 8)%nat by lia.
  change (Z.to_nat 0) with 0%nat. change (Z.to_nat 8) with 8%nat.
  rewrite !drop_0, take_take, Nat.min_l, skipn_firstn_comm, take_take, Nat.min_id by lia. done.
Qed.

Lemma AES_Key_Wrap_call E key Key_Data (m : nat) out :
  wrap_args E key m → (m <= length Key_Data)%nat → bytes (take m Key_Data) → (6 * (m / 8) < 256)%nat →
  (m + 8 <= length out)%nat →
  AES_Key_Wrap E Key_Data (Z.of_nat m) key (Z.of_nat (length key)) out =
    Some (0, put out 0 (rfc3394_wrap key (take m Key_Data)), Some (Z.of_nat (m + 8))) ∧
  length (rfc3394_wrap key (take m Key_Data)) = (m + 8)%nat ∧ bytes (rfc3394_wrap key (take m Key_Data)).
Proof.
  intros (HM & HMm & Hk & HK & Hm) Hl Hb Hn Ho. rewrite AES_Key_Wrap_prefix by done.
  assert (length (take m Key_Data) = m) as Hlt by (rewrite length_take; lia).
  set (pt := take m Key_Data) in *. clearbody pt. subst m.
  assert (wrap_state (length pt) (Default_IV, pt)) as Hw by (split_and!; try done; bytes_table).
  rewrite AES_Key_Wrap_ok by done. unfold rfc3394_wrap.
  pose proof (wrap_all_state key Hk HK (length pt) _ Hw) as (HA & HAb & HR & HRb).
  rewrite <- wrap_all_rfc3394 by done. destruct (wrap_all _ _ _) as [A R]. cbn [fst snd] in *.
  split_and!; [done|rewrite length_app; lia|by apply Forall_app].
Qed.

Lemma AES_Key_Unwrap_call E key pt ct (m : nat) out :
  wrap_args E key m → bytes pt → length pt = m → (6 * (m / 8) < 256)%nat →
  (m + 8 <= length ct)%nat → take (m + 8) ct = rfc3394_wrap key pt → (m <= length out)%nat →
  AES_Key_Unwrap E ct (Z.of_nat (m + 8)) key (Z.of_nat (length key)) out = Some (0, put out 0 pt, Some (Z.of_nat m)).
Proof.
  intros (HM & HMm & Hk & HK & Hm) Hb <- Hn Hl Hct Ho.
  rewrite AES_Key_Unwrap_prefix, Hct by lia.
  assert (wrap_state (length pt) (Default_IV, pt)) as Hw by (split_and!; try done; bytes_table).
  pose proof (wrap_all_state key Hk HK (length pt) _ Hw) as (HA & HAb & HR & HRb).
  pose proof (unwrap_wrap_all key Hk HK (length pt) _ Hw) as Hu.
  unfold rfc3394_wrap. rewrite <- wrap_all_rfc3394 by done. destruct (wrap_all _ _ _) as [A R]. cbn [fst snd] in *.
  rewrite AES_Key_Unwrap_ok; [|done..|by apply Forall_app|rewrite length_app; lia|done].
  by rewrite take_app_length', drop_app_length', Hu by lia.
Qed.

(** ** The properties *)

(** [AES_Key_Wrap] returns -1 for a bad key length and -2 when the buffer
    cannot be allocated, with the output untouched; otherwise it returns 0
    and writes, for up to 42 blocks of 8 bytes, the RFC 3394 wrapping, 8
    bytes longer than the plain text. *)
Theorem AES_Key_Wrap_spec E key pt out :
  let m := length pt in
  (AES_KeyLength_ok (Z.of_nat (length key)) = false →
   AES_Key_Wrap E pt (Z.of_nat m) key (Z.of_nat (length key)) out = Some (-1, out, None)) ∧
  (AES_KeyLength_ok (Z.of_nat (length key)) = true → kmalloc E (Z.of_nat m) = false →
   AES_Key_Wrap E pt (Z.of_nat m) key (Z.of_nat (length key)) out = Some (-2, out, None)) ∧
  (wrap_args E key m → bytes pt → (6 * (m / 8) < 256)%nat → (m + 8 <= length out)%nat →
   AES_Key_Wrap E pt (Z.of_nat m) key (Z.of_nat (length key)) out =
     Some (0, put out 0 (rfc3394_wrap key pt), Some (Z.of_nat (m + 8))) ∧
   length (rfc3394_wrap key pt) = (m + 8)%nat).
Proof.
  cbv zeta. split_and!.
  - intros HK. unfold AES_Key_Wrap. by rewrite HK.
  - intros HK HM. unfold AES_Key_Wrap. by rewrite HK, HM.
  - intros (HM & HMm & Hk & HK & Hm) Hb Hn Ho. unfold rfc3394_wrap.
    rewrite (AES_Key_Wrap_ok E key Hk HK HM _ Hm) by done.
    assert (wrap_state (length pt) (Default_IV, pt)) as Hw by (split_and!; try done; bytes_table).
    pose proof (wrap_all_state key Hk HK (length pt) _ Hw) as (HA & _ & HR & _).
    rewrite <- wrap_all_rfc3394 by done. destruct (wrap_all _ _ _) as [A R]. cbn [fst snd] in *.
    split; [done|]. rewrite length_app. lia.
Qed.

Lemma AES_Key_Wrap_spec_witness :
  let E := {| kmalloc := λ _, true; garbage := [] |} in
  AES_Key_Wrap E (zeros 32) 32 (zeros 16) 16 (zeros 40) =
    Some (0, put (zeros 40) 0 (rfc3394_wrap (zeros 16) (zeros 32)), Some 40) ∧
  AES_Key_Wrap E (zeros 32) 32 (zeros 15) 15 (zeros 40) = Some (-1, zeros 40, None).
Proof.
  intros E. split.
  - apply (proj2 (proj2 (AES_Key_Wrap_spec E (zeros 16) (zeros 32) (zeros 40))));
      [split_and!; first [reflexivity | bytes_table]|bytes_table|cbn; lia|cbn; lia].
  - apply (proj1 (AES_Key_Wrap_spec E (zeros 15) (zeros 32) (zeros 40))). reflexivity.
Defined.

(** unwrapping a wrapped key of any size, also one that is not a multiple
    of 8 bytes or longer than 42 blocks, returns 0 and the key. *)
Theorem aes_key_wrap_roundtrip E1 E2 key pt out1 out2 :
  let m := length pt in
  let kl := Z.of_nat (length key) in
  wrap_args E1 key m → wrap_args E2 key m → bytes pt →
  length out1 = (m + 8)%nat → (m <= length out2)%nat →
  ∃ ct, AES_Key_Wrap E1 pt (Z.of_nat m) key kl out1 = Some (0, ct, Some (Z.of_nat (m + 8))) ∧
        AES_Key_Unwrap E2 ct (Z.of_nat (m + 8)) key kl out2 = Some (0, put out2 0 pt, Some (Z.of_nat m)).
Proof.
  cbv zeta. intros (HM & HMm & Hk & HK & Hm) (HM2 & HMm2 & _ & _ & _) Hb Ho1 Ho2.
  assert (wrap_state (length pt) (Default_IV, pt)) as Hw by (split_and!; try done; bytes_table).
  pose proof (wrap_all_state key Hk HK (length pt) _ Hw) as (HA & HAb & HR & HRb).
  pose proof (unwrap_wrap_all key Hk HK (length pt) _ Hw) as Hu.
  eexists. split; [apply AES_Key_Wrap_ok; done || lia|].
  destruct (wrap_all _ _ _) as [A R]. cbn [fst snd] in *.
  rewrite put_all by (rewrite length_app; lia).
  rewrite AES_Key_Unwrap_ok; [|done..| |rewrite length_app; lia|done].
  - by rewrite take_app_length', drop_app_length', Hu by lia.
  - by apply Forall_app.
Qed.

Lemma aes_key_wrap_roundtrip_witness :
  let E := {| kmalloc := λ _, true; garbage := [] |} in
  ∃ ct, AES_Key_Wrap E (repeat 3 20) 20 (zeros 16) 16 (zeros 28) = Some (0, ct, Some 28) ∧
        AES_Key_Unwrap E ct 28 (zeros 16) 16 (zeros 20) = Some (0, repeat 3 20, Some 20).
Proof.
  intros E. apply (aes_key_wrap_roundtrip E E (zeros 16) (repeat 3 20) (zeros 28) (zeros 20));
    [split_and!; first [reflexivity | bytes_table]..|bytes_table|reflexivity|cbn; lia].
Defined.

(** for every cipher text, wrapped with this key or not, [AES_Key_Unwrap]
    returns 0 and writes the blocks of the RFC 3394 unwrapping: the value of
    the integrity register has no influence on the result, unlike in the RFC,
    where an unwrapping with another value than A6...A6 fails. *)
Theorem AES_Key_Unwrap_unchecked E key ct out :
  let m := (length ct - 8)%nat in
  wrap_args E key m → bytes ct → (8 <= length ct)%nat → (6 * (m / 8) < 256)%nat → (m <= length out)%nat →
  AES_Key_Unwrap E ct (Z.of_nat (length ct)) key (Z.of_nat (length key)) out =
    Some (0, put out 0 (rfc3394_unwrap key ct).2, Some (Z.of_nat m)).
Proof.
  cbv zeta. intros (HM & HMm & Hk & HK & Hm) Hb Hl Hn Ho.
  replace (Z.of_nat (length ct)) with (Z.of_nat (length ct - 8 + 8)) at 1 by lia.
  rewrite (AES_Key_Unwrap_ok E key Hk HK HM _ Hm) by (done || lia).
  unfold rfc3394_unwrap.
  assert ((length ct - 8) / 8 = length ct / 8 - 1)%nat as <-.
  { replace (length ct) with (length ct - 8 + 1 * 8)%nat at 2 by lia. rewrite Nat.div_add by lia. lia. }
  rewrite unwrap_all_rfc3394 by done. by destruct (loop_down _ _ _ _).
Qed.

Lemma AES_Key_Unwrap_unchecked_witness :
  let E := {| kmalloc := λ _, true; garbage := [] |} in
  AES_Key_Unwrap E (zeros 24) 24 (zeros 16) 16 (zeros 16) =
    Some (0, put (zeros 16) 0 (rfc3394_unwrap (zeros 16) (zeros 24)).2, Some 16) ∧
  (rfc3394_unwrap (zeros 16) (zeros 24)).1 ≠ Default_IV.
Proof.
  intros E. split.
  - apply (AES_Key_Unwrap_unchecked E (zeros 16) (zeros 24) (zeros 16));
      [split_and!; first [reflexivity | bytes_table]|bytes_table|cbn; lia|cbn; lia|cbn; lia].
  - vm_compute. discriminate.
Defined.
