(* ===== verification/Mlme.v ===== *)
(** * The message queue of the MLME

    Models the queue of [linux/Arch/rt5370.driver/common/mlme.c] through which
    timers, ioctls and received frames reach the state machines:
    [MlmeQueueInit], [MlmeEnqueue], [MlmeEnqueueForRecv], [MlmeDequeue],
    [MlmeQueueEmpty], [MlmeQueueFull], [MlmeQueueDestroy], and [MsgTypeSubst],
    which chooses the machine of a received frame.

    The queue is a ring of [MAX_LEN_OF_MLME_QUEUE] elements.  [MlmeDequeue]
    hands out a pointer into the ring; the element stays [Occupied] until
    [MlmeHandler] has run its handler.  The theorems show the ring as a queue
    of messages: in order, each handed out once and with the contents it was
    posted with, as long as nobody posts a message to a queue of 39 while one
    is being handled - and what happens then.

    Every operation holds the queue's lock once, or, for posting, twice: for
    the test and for the insertion.  Operations are atomic steps here. *)

From stdpp Require Import base list numbers list_numbers.
From Stdlib Require Import ZArith Lia.
From S2P Require Import Prelude.

(** ** Data *)

Definition MAX_LEN_OF_MLME_QUEUE : nat := 40.
Definition MGMT_DMA_BUFFER_SIZE : nat := Z.to_nat 1600.
Definition RESERVED_WCID : Z := 0xff.
Definition LENGTH_802_11 : Z := 24.
Definition LENGTH_802_1_H : Z := 8.

(** [Msg] is the whole buffer of [MGMT_DMA_BUFFER_SIZE] bytes, [MsgLen] what
    the message takes of it; [Elem_Channel] is the source's [Channel]. *)
Record MLME_QUEUE_ELEM := {
  Msg : list Z;
  Machine : Z;
  MsgType : Z;
  MsgLen : Z;
  TimeStampLow : Z;
  TimeStampHigh : Z;
  Rssi0 : Z;
  Rssi1 : Z;
  Rssi2 : Z;
  Signal : Z;
  Elem_Channel : Z;
  Wcid : Z;
  Occupied : bool;
  OpMode : Z;
  Priv : Z;
}.

Record MLME_QUEUE := {
  Num : Z;
  Head : nat;
  Tail : nat;
  Entry : list MLME_QUEUE_ELEM;
}.

(** [i++; if (i == MAX_LEN_OF_MLME_QUEUE) i = 0;] *)
Definition next_index (i : nat) : nat := if (S i =? MAX_LEN_OF_MLME_QUEUE)%nat then 0%nat else S i.

Definition set_occupied (e : MLME_QUEUE_ELEM) (o : bool) (len : Z) (msg : list Z) : MLME_QUEUE_ELEM :=
  {| Msg := msg; Machine := Machine e; MsgType := MsgType e; MsgLen := len; TimeStampLow := TimeStampLow e;
     TimeStampHigh := TimeStampHigh e; Rssi0 := Rssi0 e; Rssi1 := Rssi1 e; Rssi2 := Rssi2 e; Signal := Signal e;
     Elem_Channel := Elem_Channel e; Wcid := Wcid e; Occupied := o; OpMode := OpMode e; Priv := Priv e |}.

Definition set_element (q : MLME_QUEUE) (i : nat) (e : MLME_QUEUE_ELEM) : MLME_QUEUE :=
  {| Num := Num q; Head := Head q; Tail := Tail q; Entry := <[i := e]> (Entry q) |}.

(** ** Operations *)

Definition MlmeQueueInit (q : MLME_QUEUE) : option MLME_QUEUE :=
  loop_opt 0 MAX_LEN_OF_MLME_QUEUE
    (λ i q, e ← Entry q !! i; Some (set_element q i (set_occupied e false 0 (zeros MGMT_DMA_BUFFER_SIZE))))
    {| Num := 0; Head := 0; Tail := 0; Entry := Entry q |}.

Definition MlmeQueueEmpty (q : MLME_QUEUE) : bool := Num q =? 0.

Definition MlmeQueueFull (q : MLME_QUEUE) (SendId : Z) : option bool :=
  if SendId =? 0 then
    if Z.of_nat MAX_LEN_OF_MLME_QUEUE / 2 <=? Num q then Some true
    else e ← Entry q !! Tail q; Some (Occupied e)
  else Some (Num q =? Z.of_nat MAX_LEN_OF_MLME_QUEUE).

(** [Tail = Queue->Tail; Queue->Tail++; Queue->Num++; ...] *)
Definition take_tail (q : MLME_QUEUE) : MLME_QUEUE :=
  {| Num := u32 (Num q + 1); Head := Head q; Tail := next_index (Tail q); Entry := Entry q |}.

(** [if (Msg != NULL) NdisMoveMemory(Entry[Tail].Msg, Msg, MsgLen);] *)
Definition move_message (buf : list Z) (msg : option (list Z)) (MsgLen : Z) : option (list Z) :=
  match msg with
  | None => Some buf
  | Some m => bs ← load m 0 MsgLen; store buf 0 bs
  end.

(** The insertion of [MlmeEnqueue], under its own lock. *)
Definition post_element (q : MLME_QUEUE) (Mach Type_ Len : Z) (msg : option (list Z)) (Priv_ : Z) : option MLME_QUEUE :=
  e ← Entry q !! Tail q;
  buf ← move_message (Msg e) msg Len;
  Some (set_element (take_tail q) (Tail q)
    {| Msg := buf; Machine := Mach; MsgType := Type_; MsgLen := Len; TimeStampLow := TimeStampLow e;
       TimeStampHigh := TimeStampHigh e; Rssi0 := Rssi0 e; Rssi1 := Rssi1 e; Rssi2 := Rssi2 e; Signal := Signal e;
       Elem_Channel := Elem_Channel e; Wcid := RESERVED_WCID; Occupied := true; OpMode := OpMode e; Priv := Priv_ |}).

(** [halted] is the test of [fRTMP_ADAPTER_HALT_IN_PROGRESS] and
    [fRTMP_ADAPTER_NIC_NOT_EXIST]. *)
Definition MlmeEnqueue (halted : bool) (q : MLME_QUEUE) (Mach Type_ Len : Z) (msg : option (list Z)) (Priv_ : Z)
    : option (bool * MLME_QUEUE) :=
  if halted then Some (false, q)
  else if Z.of_nat MGMT_DMA_BUFFER_SIZE <? Len then Some (false, q)
  else
    full ← MlmeQueueFull q 1;
    if (full : bool) then Some (false, q)
    else q ← post_element q Mach Type_ Len msg Priv_; Some (true, q).

(** ** Which machine a frame is for *)

Definition ASSOC_STATE_MACHINE : Z := 1.
Definition AUTH_STATE_MACHINE : Z := 2.
Definition AUTH_RSP_STATE_MACHINE : Z := 3.
Definition SYNC_STATE_MACHINE : Z := 4.
Definition MLME_CNTL_STATE_MACHINE : Z := 5.
Definition WPA_PSK_STATE_MACHINE : Z := 6.
Definition ACTION_STATE_MACHINE : Z := 9.
Definition WPA_STATE_MACHINE : Z := 23.

Definition BTYPE_DATA : Z := 2.
Definition SUBTYPE_ASSOC_REQ : Z := 0.
Definition SUBTYPE_ASSOC_RSP : Z := 1.
Definition SUBTYPE_REASSOC_REQ : Z := 2.
Definition SUBTYPE_REASSOC_RSP : Z := 3.
Definition SUBTYPE_PROBE_REQ : Z := 4.
Definition SUBTYPE_PROBE_RSP : Z := 5.
Definition SUBTYPE_BEACON : Z := 8.
Definition SUBTYPE_ATIM : Z := 9.
Definition SUBTYPE_DISASSOC : Z := 10.
Definition SUBTYPE_AUTH : Z := 11.
Definition SUBTYPE_DEAUTH : Z := 12.
Definition SUBTYPE_ACTION : Z := 13.
Definition SUBTYPE_ACTION_NO_ACK : Z := 14.
Definition AUTH_MODE_OPEN : Z := 0.
Definition AUTH_MODE_KEY : Z := 1.

Definition MT2_PEER_DISASSOC_REQ : Z := 3.
Definition MT2_PEER_ASSOC_REQ : Z := 4.
Definition MT2_PEER_ASSOC_RSP : Z := 5.
Definition MT2_PEER_REASSOC_REQ : Z := 6.
Definition MT2_PEER_REASSOC_RSP : Z := 7.
Definition MT2_PEER_AUTH_EVEN : Z := 1.
Definition MT2_PEER_AUTH_ODD : Z := 1.
Definition MT2_PEER_DEAUTH : Z := 2.
Definition MT2_PEER_BEACON : Z := 3.
Definition MT2_PEER_PROBE_RSP : Z := 4.
Definition MT2_PEER_ATIM : Z := 5.
Definition MT2_PEER_PROBE_REQ : Z := 9.
Definition MAX_PEER_CATE_MSG : Z := 17.
Definition MT2_ACT_INVALID : Z := 23.

Definition EAPPacket : Z := 0.
Definition EAPOLStart : Z := 1.
Definition EAPOLLogoff : Z := 2.
Definition EAPOLKey : Z := 3.
Definition EAPOLASFAlert : Z := 4.

Definition MT2_EAPPacket : Z := 0.
Definition MT2_EAPOLStart : Z := 1.
Definition MT2_EAPOLLogoff : Z := 2.
Definition MT2_EAPOLKey : Z := 3.
Definition MT2_EAPOLASFAlert : Z := 4.

Definition WpaMsgTypeSubst (EAPType : Z) : option Z :=
  if EAPType =? EAPPacket then Some MT2_EAPPacket
  else if EAPType =? EAPOLStart then Some MT2_EAPOLStart
  else if EAPType =? EAPOLLogoff then Some MT2_EAPOLLogoff
  else if EAPType =? EAPOLKey then Some MT2_EAPOLKey
  else if EAPType =? EAPOLASFAlert then Some MT2_EAPOLASFAlert
  else None.

(** [pFrame] is the memory from the frame control field on.  The outer [None]
    is a read behind its end, the inner one the answer FALSE; [Machine] and
    [MsgType] come in as 0xff and 0. *)
Definition MsgTypeSubst (pFrame : list Z) : option (option (Z * Z)) :=
  fc ← load pFrame 0 1;
  let Type_ := (fc.[0] >> 2) & 3 in
  let SubType := fc.[0] >> 4 in
  if Type_ =? BTYPE_DATA then
    EAPType ← load pFrame (LENGTH_802_11 + LENGTH_802_1_H + 1) 1;
    Some (t ← WpaMsgTypeSubst EAPType.[0]; Some (WPA_STATE_MACHINE, t))
  else if SubType =? SUBTYPE_ASSOC_REQ then Some (Some (ASSOC_STATE_MACHINE, MT2_PEER_ASSOC_REQ))
  else if SubType =? SUBTYPE_ASSOC_RSP then Some (Some (ASSOC_STATE_MACHINE, MT2_PEER_ASSOC_RSP))
  else if SubType =? SUBTYPE_REASSOC_REQ then Some (Some (ASSOC_STATE_MACHINE, MT2_PEER_REASSOC_REQ))
  else if SubType =? SUBTYPE_REASSOC_RSP then Some (Some (ASSOC_STATE_MACHINE, MT2_PEER_REASSOC_RSP))
  else if SubType =? SUBTYPE_PROBE_REQ then Some (Some (SYNC_STATE_MACHINE, MT2_PEER_PROBE_REQ))
  else if SubType =? SUBTYPE_PROBE_RSP then Some (Some (SYNC_STATE_MACHINE, MT2_PEER_PROBE_RSP))
  else if SubType =? SUBTYPE_BEACON then Some (Some (SYNC_STATE_MACHINE, MT2_PEER_BEACON))
  else if SubType =? SUBTYPE_ATIM then Some (Some (SYNC_STATE_MACHINE, MT2_PEER_ATIM))
  else if SubType =? SUBTYPE_DISASSOC then Some (Some (ASSOC_STATE_MACHINE, MT2_PEER_DISASSOC_REQ))
  else if SubType =? SUBTYPE_AUTH then
    seq ← load pFrame 26 2;
    alg ← load pFrame 24 2;
    let Seq := le_word seq in
    let Alg := le_word alg in
    if (Seq =? 1) || (Seq =? 3) then Some (Some (AUTH_RSP_STATE_MACHINE, MT2_PEER_AUTH_ODD))
    else if (Seq =? 2) || (Seq =? 4) then
      if (Alg =? AUTH_MODE_OPEN) || (Alg =? AUTH_MODE_KEY) then Some (Some (AUTH_STATE_MACHINE, MT2_PEER_AUTH_EVEN))
      else Some (Some (0xff, 0))
    else Some None
  else if SubType =? SUBTYPE_DEAUTH then Some (Some (AUTH_RSP_STATE_MACHINE, MT2_PEER_DEAUTH))
  else if (SubType =? SUBTYPE_ACTION) || (SubType =? SUBTYPE_ACTION_NO_ACK) then
    cat ← load pFrame 24 1;
    let Category := cat.[0] & 0x7f in
    Some (Some (ACTION_STATE_MACHINE, if MAX_PEER_CATE_MSG <? Category then MT2_ACT_INVALID else Category))
  else Some None.

(** What the receive path says about a frame beside its bytes. *)
Record rx_info := {
  rx_wcid : Z;
  rx_time_high : Z;
  rx_time_low : Z;
  rx_rssi0 : Z;
  rx_rssi1 : Z;
  rx_rssi2 : Z;
  rx_signal : Z;
  rx_opmode : Z;
}.

Definition recv_element (q : MLME_QUEUE) (Mach Type_ Len : Z) (msg : list Z) (rx : rx_info) (channel : Z)
    : option MLME_QUEUE :=
  e ← Entry q !! Tail q;
  buf ← move_message (Msg e) (Some msg) Len;
  Some (set_element (take_tail q) (Tail q)
    {| Msg := buf; Machine := Mach; MsgType := Type_; MsgLen := Len; TimeStampLow := rx_time_low rx;
       TimeStampHigh := rx_time_high rx; Rssi0 := rx_rssi0 rx; Rssi1 := rx_rssi1 rx; Rssi2 := rx_rssi2 rx;
       Signal := rx_signal rx; Elem_Channel := channel; Wcid := u8 (rx_wcid rx); Occupied := true;
       OpMode := u8 (rx_opmode rx); Priv := 0 |}).

(** [msg] is the memory from the frame on; [channel] is
    [pAd->LatchRfRegs.Channel].  The call of [RTMP_MLME_HANDLER], which wakes
    the thread of [MlmeHandler], is the answer TRUE. *)
Definition MlmeEnqueueForRecv (halted : bool) (q : MLME_QUEUE) (rx : rx_info) (Len : Z) (msg : list Z) (channel : Z)
    : option (bool * MLME_QUEUE) :=
  if halted then Some (false, q)
  else if Z.of_nat MGMT_DMA_BUFFER_SIZE <? Len then Some (false, q)
  else
    full ← MlmeQueueFull q 0;
    if (full : bool) then Some (false, q)
    else
      subst ← MsgTypeSubst msg;
      match subst with
      | None => Some (false, q)
      | Some (Mach, Type_) => q ← recv_element q Mach Type_ Len msg rx channel; Some (true, q)
      end.

(** The index of the element stands for the pointer [*Elem]. *)
Definition MlmeDequeue (q : MLME_QUEUE) : nat * MLME_QUEUE :=
  (Head q, {| Num := u32 (Num q - 1); Head := next_index (Head q); Tail := Tail q; Entry := Entry q |}).

(** [Elem->Occupied = FALSE; Elem->MsgLen = 0;] at the end of a turn of
    [MlmeHandler]. *)
Definition release_element (q : MLME_QUEUE) (i : nat) : option MLME_QUEUE :=
  e ← Entry q !! i;
  Some (set_element q i (set_occupied e false 0 (Msg e))).

Definition MlmeQueueDestroy (q : MLME_QUEUE) : MLME_QUEUE :=
  {| Num := 0; Head := 0; Tail := 0; Entry := Entry q |}.

(** ** The ring as a queue of messages *)

Module Ring.

(** What was posted; [None] for a message without contents. *)
Inductive message :=
| Posted (Mach Type_ Len : Z) (msg : option (list Z)) (Priv_ : Z)
| Received (Mach Type_ Len : Z) (msg : list Z) (rx : rx_info) (channel : Z).

(** The element holds the message. *)
Definition holds (e : MLME_QUEUE_ELEM) (x : message) : Prop :=
  match x with
  | Posted Mach Type_ Len msg Priv_ =>
      Machine e = Mach ∧ MsgType e = Type_ ∧ MsgLen e = Len ∧ Wcid e = RESERVED_WCID ∧ Priv e = Priv_ ∧
      match msg with Some m => take (Z.to_nat Len) (Msg e) = take (Z.to_nat Len) m | None => True end
  | Received Mach Type_ Len m rx channel =>
      Machine e = Mach ∧ MsgType e = Type_ ∧ MsgLen e = Len ∧ Wcid e = u8 (rx_wcid rx) ∧ Priv e = 0 ∧
      take (Z.to_nat Len) (Msg e) = take (Z.to_nat Len) m ∧
      (TimeStampHigh e, TimeStampLow e) = (rx_time_high rx, rx_time_low rx) ∧
      (Rssi0 e, Rssi1 e, Rssi2 e, Signal e) = (rx_rssi0 rx, rx_rssi1 rx, rx_rssi2 rx, rx_signal rx) ∧
      Elem_Channel e = channel ∧ OpMode e = u8 (rx_opmode rx)
  end.

(** The place [k] behind index [h]. *)
Definition slot (h k : nat) : nat := if (h + k <? 40)%nat then (h + k)%nat else (h + k - 40)%nat.

Definition buffers (q : MLME_QUEUE) : Prop :=
  length (Entry q) = 40%nat ∧ Forall (λ e, length (Msg e) = MGMT_DMA_BUFFER_SIZE) (Entry q).

(** Queue [q] has the messages [ws] waiting and, while a handler runs, the
    message [cur] in element [r]. *)
Record ring (q : MLME_QUEUE) (r : option nat) (ws : list message) (cur : option message) : Prop := {
  ring_buffers : buffers q;
  ring_num : Num q = Z.of_nat (length ws);
  ring_bound : (length ws + (if r is Some _ then 1 else 0) <= 40)%nat;
  ring_head : (Head q < 40)%nat;
  ring_tail : Tail q = slot (Head q) (length ws);
  ring_waiting k x : ws !! k = Some x →
    ∃ e, Entry q !! slot (Head q) k = Some e ∧ holds e x ∧ Occupied e = true;
  ring_free k e : (length ws <= k < 40)%nat → Entry q !! slot (Head q) k = Some e → r ≠ Some (slot (Head q) k) →
    Occupied e = false;
  ring_running :
    match r, cur with
    | Some i, Some x => i = slot (Head q) 39 ∧ ∃ e, Entry q !! i = Some e ∧ holds e x ∧ Occupied e = true
    | None, None => True
    | _, _ => False
    end;
}.

Ltac slot_lia :=
  unfold slot, next_index, MAX_LEN_OF_MLME_QUEUE in *;
  repeat match goal with
    | |- context [Nat.ltb ?a ?b] => destruct (Nat.ltb_spec a b)
    | |- context [Nat.eqb ?a ?b] => destruct (Nat.eqb_spec a b)
    | H : context [Nat.ltb ?a ?b] |- _ => destruct (Nat.ltb_spec a b)
    end; try lia.

Lemma slot_lt h k : (h < 40)%nat → (k <= 40)%nat → (slot h k < 40)%nat.
Proof. slot_lia. Qed.

Lemma slot_inj h j k : (h < 40)%nat → (j < 40)%nat → (k < 40)%nat → slot h j = slot h k → j = k.
Proof. slot_lia. Qed.

Lemma slot_next h k : (h < 40)%nat → (k < 40)%nat → slot (next_index h) k = slot h (S k).
Proof. slot_lia. Qed.

Lemma next_slot h k : (h < 40)%nat → (k < 40)%nat → next_index (slot h k) = slot h (S k).
Proof. slot_lia. Qed.

Lemma slot_0 h : (h < 40)%nat → slot h 0 = h.
Proof. slot_lia. Qed.

(** Moving a message into a buffer. *)
Lemma move_message_ok buf m len :
  length buf = MGMT_DMA_BUFFER_SIZE → 0 <= len <= Z.of_nat (length m) → len <= Z.of_nat MGMT_DMA_BUFFER_SIZE →
  ∃ buf', move_message buf (Some m) len = Some buf' ∧ length buf' = MGMT_DMA_BUFFER_SIZE ∧
          take (Z.to_nat len) buf' = take (Z.to_nat len) m.
Proof.
  intros Hb Hl Hm. cbn [move_message]. rewrite load_ok, Some_bind by lia. change (Z.to_nat 0) with 0%nat.
  assert (length (slice m 0 (Z.to_nat len)) = Z.to_nat len) as Hs by (rewrite length_slice; lia).
  rewrite store_ok by lia. change (Z.to_nat 0) with 0%nat. eexists. split; [reflexivity|]. rewrite length_put. split; [done|].
  pose proof (slice_put_eq buf 0 (slice m 0 (Z.to_nat len)) ltac:(lia)) as H. rewrite Hs in H. exact H.
Qed.

Definition room (r : option nat) (ws : list message) : Prop := (length ws + (if r is Some _ then 1 else 0) < 40)%nat.

(** An insertion at the tail appends its message. *)
Lemma ring_insert q r ws cur e x :
  ring q r ws cur → room r ws → holds e x → Occupied e = true → length (Msg e) = MGMT_DMA_BUFFER_SIZE →
  ring (set_element (take_tail q) (Tail q) e) r (ws ++ [x]) cur.
Proof.
  intros [[Hl Hb] Hn Hbd Hh Ht Hw Hf Hr] Hroom Hx He Hm. unfold room in Hroom.
  assert (length ws < 40)%nat as Hws by lia.
  assert (Tail q < 40)%nat as Htl by (rewrite Ht; apply slot_lt; lia).
  split; cbn [set_element take_tail Entry Num Head Tail].
  - split; unfold set_element; cbn [Entry]; [rewrite length_insert; done|by apply Forall_insert].
  - rewrite Hn, length_app, u32_small by (unfold fits; lia). cbn [length]. lia.
  - rewrite length_app. cbn [length]. lia.
  - done.
  - rewrite Ht, next_slot, length_app by lia. cbn [length]. f_equal. lia.
  - intros k y Hk. destruct (decide (k = length ws)) as [->|Hne].
    + rewrite lookup_app_r, Nat.sub_diag in Hk by lia. injection Hk as <-. exists e.
      rewrite <- Ht, list_lookup_insert_eq by lia. done.
    + assert (k < length ws)%nat as Hk' by (apply lookup_lt_Some in Hk; rewrite length_app in Hk; cbn in Hk; lia).
      rewrite lookup_app_l in Hk by lia. destruct (Hw k y Hk) as (e1 & H1 & H2 & H3). exists e1.
      rewrite list_lookup_insert_ne; [done|]. rewrite Ht. intros Heq. apply slot_inj in Heq; lia.
  - intros k e1 Hk H1 Hne. rewrite length_app in Hk. cbn [length] in Hk.
    rewrite list_lookup_insert_ne in H1; [apply (Hf k); [lia|done|done]|].
    rewrite Ht. intros Heq. apply slot_inj in Heq; lia.
  - destruct r as [i|], cur as [y|]; try done. destruct Hr as [-> (e1 & H1 & H2)]. split; [done|]. exists e1.
    rewrite list_lookup_insert_ne; [by split|]. rewrite Ht. intros Heq. apply slot_inj in Heq; lia.
Qed.

Lemma ring_element q r ws cur i : ring q r ws cur → (i < 40)%nat → ∃ e, Entry q !! i = Some e ∧ length (Msg e) = MGMT_DMA_BUFFER_SIZE.
Proof.
  intros [[Hl Hb] _ _ _ _ _ _ _] Hi. destruct (lookup_lt_is_Some_2 (Entry q) i) as [e He]; [by rewrite Hl|].
  exists e. split; [done|]. exact (Forall_lookup_1 _ _ _ _ Hb He).
Qed.

Lemma ring_tail_lt q r ws cur : ring q r ws cur → (Tail q < 40)%nat.
Proof. intros [_ _ Hb Hh -> _ _ _]. apply slot_lt; [done|]. lia. Qed.

(** The memory a message is moved from covers its length. *)
Definition covers (msg : option (list Z)) (Len : Z) : Prop :=
  match msg with Some m => Len <= Z.of_nat (length m) | None => True end.

(** *** [MlmeEnqueue] *)

Lemma MlmeEnqueue_ok halted q r ws cur Mach Type_ Len msg Priv_ :
  ring q r ws cur → 0 <= Len → covers msg Len →
  ∃ q', MlmeEnqueue halted q Mach Type_ Len msg Priv_ =
          Some (negb halted && (Len <=? 1600) && (Num q <? 40), q') ∧
        (if negb halted && (Len <=? 1600) && (Num q <? 40)
         then (length ws ≠ 39 ∨ r = None)%nat → ring q' r (ws ++ [Posted Mach Type_ Len msg Priv_]) cur else q' = q).
Proof.
  intros Hr HL Hc. unfold MlmeEnqueue. destruct halted; [by eexists|]. cbn [negb andb].
  change (Z.of_nat MGMT_DMA_BUFFER_SIZE) with 1600.
  destruct (Z.ltb_spec 1600 Len) as [H1|H1]; [rewrite (proj2 (Z.leb_gt _ _)) by lia; by eexists|].
  rewrite (proj2 (Z.leb_le _ _)) by lia. cbn [andb]. unfold MlmeQueueFull. cbn [Z.eqb]. rewrite Some_bind.
  change (Z.of_nat MAX_LEN_OF_MLME_QUEUE) with 40.
  pose proof (ring_num _ _ _ _ Hr) as Hn. pose proof (ring_bound _ _ _ _ Hr) as Hb.
  destruct (Z.eqb_spec (Num q) 40) as [H2|H2]; [rewrite (proj2 (Z.ltb_ge _ _)) by lia; by eexists|].
  rewrite (proj2 (Z.ltb_lt _ _)) by lia. cbn [andb].
  destruct (ring_element q r ws cur (Tail q) Hr (ring_tail_lt _ _ _ _ Hr)) as (e & He & Hm).
  unfold post_element. rewrite He, Some_bind.
  assert (∃ buf, move_message (Msg e) msg Len = Some buf ∧ length buf = MGMT_DMA_BUFFER_SIZE ∧
            match msg with Some m => take (Z.to_nat Len) buf = take (Z.to_nat Len) m | None => True end)
    as (buf & -> & Hbl & Hbt).
  { destruct msg as [m|]; [|by exists (Msg e)]. destruct (move_message_ok (Msg e) m Len Hm) as (buf & ? & ? & ?).
    - cbn in Hc. lia.
    - change (Z.of_nat MGMT_DMA_BUFFER_SIZE) with 1600. lia.
    - by exists buf. }
  rewrite !Some_bind. eexists. split; [reflexivity|]. intros Hroom.
  apply ring_insert; try done. unfold room. destruct r; [destruct Hroom as [?|?]; [lia|done]|lia].
Qed.

(** *** [MlmeEnqueueForRecv] *)

Definition accepts_recv (halted : bool) (q : MLME_QUEUE) (Len : Z) : bool := negb halted && (Len <=? 1600) && (Num q <? 20).

Lemma MlmeEnqueueForRecv_ok halted q r ws cur rx Len msg channel subst :
  ring q r ws cur → 0 <= Len <= Z.of_nat (length msg) → MsgTypeSubst msg = Some subst →
  ∃ q' ok, MlmeEnqueueForRecv halted q rx Len msg channel = Some (ok, q') ∧
    match subst with
    | Some (Mach, Type_) =>
        ok = accepts_recv halted q Len ∧
        if ok then ring q' r (ws ++ [Received Mach Type_ Len msg rx channel]) cur else q' = q
    | None => ok = false ∧ q' = q
    end.
Proof.
  intros Hr HL Hs. unfold MlmeEnqueueForRecv, accepts_recv.
  destruct halted; [exists q, false; by destruct subst as [[]|]|]. cbn [negb andb].
  change (Z.of_nat MGMT_DMA_BUFFER_SIZE) with 1600.
  destruct (Z.ltb_spec 1600 Len) as [H1|H1].
  { rewrite (proj2 (Z.leb_gt _ _)) by lia. exists q, false. by destruct subst as [[]|]. }
  rewrite (proj2 (Z.leb_le _ _)) by lia. cbn [andb]. unfold MlmeQueueFull. cbn [Z.eqb].
  change (Z.of_nat MAX_LEN_OF_MLME_QUEUE / 2) with 20.
  pose proof (ring_num _ _ _ _ Hr) as Hn.
  destruct (Z.leb_spec 20 (Num q)) as [H2|H2].
  { rewrite (proj2 (Z.ltb_ge _ _)), Some_bind by lia. exists q, false. by destruct subst as [[]|]. }
  rewrite (proj2 (Z.ltb_lt _ _)) by lia.
  destruct (ring_element q r ws cur (Tail q) Hr (ring_tail_lt _ _ _ _ Hr)) as (e & He & Hm).
  rewrite He, Some_bind, Some_bind.
  assert (Occupied e = false) as ->.
  { pose proof Hr as [_ _ _ Hh Ht _ Hf Hrun]. rewrite Ht in He. apply (Hf (length ws)); [lia|done|].
    intros ->. destruct cur; [|done]. destruct Hrun as [Heq _]. apply slot_inj in Heq; lia. }
  rewrite Hs, Some_bind. destruct subst as [[Mach Type_]|]; [|by exists q, false].
  unfold recv_element. rewrite He, Some_bind.
  destruct (move_message_ok (Msg e) msg Len Hm) as (buf & -> & Hbl & Hbt); [lia|change (Z.of_nat MGMT_DMA_BUFFER_SIZE) with 1600; lia|].
  rewrite !Some_bind. eexists _, true. split; [reflexivity|]. split; [done|]. apply ring_insert; try done.
  unfold room. destruct r; lia.
Qed.

(** *** [MlmeDequeue] and the end of a turn *)

Lemma MlmeDequeue_ok q ws x cur :
  ring q None (x :: ws) cur →
  ring (MlmeDequeue q).2 (Some (MlmeDequeue q).1) ws (Some x) ∧ (MlmeDequeue q).1 = Head q.
Proof.
  intros [Hb Hn Hbd Hh Ht Hw Hf _]. split; [|done]. cbn [length] in *.
  split; cbn [MlmeDequeue fst snd Num Head Tail Entry]; try done.
  - rewrite Hn, u32_small by (unfold fits; lia). lia.
  - lia.
  - slot_lia.
  - rewrite Ht, slot_next by lia. done.
  - intros k y Hk. pose proof (lookup_lt_Some _ _ _ Hk). rewrite slot_next by lia. by apply (Hw (S k)).
  - intros k e Hk He Hne. destruct (decide (k = 39)%nat) as [->|Hk'].
    + destruct Hne. f_equal. slot_lia.
    + rewrite slot_next in He, Hne by lia. apply (Hf (S k)); [lia|done|done].
  - split; [slot_lia|]. destruct (Hw 0%nat x eq_refl) as (e & He). rewrite slot_0 in He by lia. by exists e.
Qed.

Lemma release_element_ok q i ws x :
  ring q (Some i) ws (Some x) → ∃ q', release_element q i = Some q' ∧ ring q' None ws None ∧ Num q' = Num q.
Proof.
  intros Hr. pose proof Hr as [[Hl Hb] Hn Hbd Hh Ht Hw Hf [-> (e & He & _)]].
  unfold release_element. rewrite He, Some_bind. eexists. split; [reflexivity|]. split; [|done].
  split; cbn [set_element Num Head Tail Entry]; try done.
  - split; unfold set_element; cbn [Entry]; [by rewrite length_insert|]. apply Forall_insert; [done|]. cbn.
    exact (Forall_lookup_1 _ _ _ _ Hb He).
  - lia.
  - intros k y Hk. pose proof (lookup_lt_Some _ _ _ Hk). destruct (Hw k y Hk) as (e1 & H1 & H2). exists e1.
    rewrite list_lookup_insert_ne; [done|]. intros Heq. apply slot_inj in Heq; lia.
  - intros k e1 Hk H1 _. apply list_lookup_insert_Some in H1 as [(_ & <- & _)|[Hne H1]]; [done|].
    apply (Hf k); [lia|done|]. congruence.
Qed.

(** ** Runs

    The threads that post messages and the one of [MlmeHandler] take turns.
    [running] is the element [MlmeHandler] is busy with: [bRunning] keeps a
    second one from starting.  A post that [MlmeEnqueue] accepts while 39
    messages wait and a handler runs is an event of its own: it goes into the
    element of that handler. *)

Record sys := { queue : MLME_QUEUE; running : option nat }.

Inductive event := Accepted (x : message) | Overwrote (x : message) | Refused | Handled (i : nat) | Released.

Definition posted (s : sys) (x : message) : event :=
  if (Num (queue s) =? 39) && bool_decide (running s ≠ None) then Overwrote x else Accepted x.

Inductive step : sys → event → sys → Prop :=
| step_post s halted Mach Type_ Len msg Priv_ (ok : bool) q' :
    0 <= Len → covers msg Len →
    MlmeEnqueue halted (queue s) Mach Type_ Len msg Priv_ = Some (ok, q') →
    step s (if ok then posted s (Posted Mach Type_ Len msg Priv_) else Refused) {| queue := q'; running := running s |}
| step_recv s halted rx Len msg channel Mach Type_ (ok : bool) q' :
    0 <= Len <= Z.of_nat (length msg) → MsgTypeSubst msg = Some (Some (Mach, Type_)) →
    MlmeEnqueueForRecv halted (queue s) rx Len msg channel = Some (ok, q') →
    step s (if ok then Accepted (Received Mach Type_ Len msg rx channel) else Refused)
      {| queue := q'; running := running s |}
| step_unknown s halted rx Len msg channel (ok : bool) q' :
    0 <= Len <= Z.of_nat (length msg) → MsgTypeSubst msg = Some None →
    MlmeEnqueueForRecv halted (queue s) rx Len msg channel = Some (ok, q') →
    step s Refused {| queue := q'; running := running s |}
| step_dequeue s :
    running s = None → MlmeQueueEmpty (queue s) = false →
    step s (Handled (MlmeDequeue (queue s)).1)
      {| queue := (MlmeDequeue (queue s)).2; running := Some (MlmeDequeue (queue s)).1 |}
| step_release s i q' :
    running s = Some i → release_element (queue s) i = Some q' →
    step s Released {| queue := q'; running := None |}.

Inductive steps : sys → list event → sys → Prop :=
| steps_nil s : steps s [] s
| steps_snoc s es s1 ev s2 : steps s es s1 → step s1 ev s2 → steps s (es ++ [ev]) s2.

Definition accepted (es : list event) : list message :=
  omap (λ ev, match ev with Accepted x | Overwrote x => Some x | _ => None end) es.

(** No message was posted into the element of a running handler. *)
Definition intact (es : list event) : Prop := ∀ x, Overwrote x ∉ es.

Definition handled (es : list event) : nat := length (omap (λ ev, if ev is Handled i then Some i else None) es).

Lemma accepted_snoc es ev : accepted (es ++ [ev]) = accepted es ++ match ev with Accepted x | Overwrote x => [x] | _ => [] end.
Proof. unfold accepted. rewrite omap_app. by destruct ev. Qed.

Lemma handled_snoc es ev : handled (es ++ [ev]) = (handled es + (if ev is Handled _ then 1 else 0))%nat.
Proof. unfold handled. rewrite omap_app, length_app. by destruct ev. Qed.

Lemma MlmeQueueInit_ok q :
  buffers q → ∃ q', MlmeQueueInit q = Some q' ∧ ring q' None [] None ∧ Num q' = 0 ∧ Head q' = 0%nat.
Proof.
  intros [Hl Hb]. unfold MlmeQueueInit.
  set (free := λ e, set_occupied e false 0 (zeros MGMT_DMA_BUFFER_SIZE)).
  assert (∀ n lo q, buffers q → Num q = 0 → Head q = 0%nat → Tail q = 0%nat → (lo + n = 40)%nat →
    (∀ i e, (i < lo)%nat → Entry q !! i = Some e → Occupied e = false) →
    ∃ q', loop_opt lo n (λ i q, e ← Entry q !! i; Some (set_element q i (free e))) q = Some q' ∧
      ring q' None [] None ∧ Num q' = 0 ∧ Head q' = 0%nat) as H.
  { clear. induction n as [|n IH]; intros lo q [Hl Hb] Hn Hh Ht Hlo Hf; cbn [loop_opt].
    - exists q. split_and!; try done. split; try done.
      + cbn. lia.
      + lia.
      + by rewrite Ht, Hh.
      + intros k e Hk He _. apply (Hf (slot (Head q) k)); [|done]. apply lookup_lt_Some in He. lia.
    - destruct (lookup_lt_is_Some_2 (Entry q) lo) as [e He]; [lia|]. rewrite He, !Some_bind.
      apply IH; unfold set_element; cbn [Num Head Tail Entry]; try done; try lia.
      + split; cbn [Entry]; [by rewrite length_insert|]. apply Forall_insert; [done|]. apply length_zeros.
      + intros i e1 Hi H1. apply list_lookup_insert_Some in H1 as [(_ & <- & _)|[Hne H1]]; [done|].
        apply (Hf i); [lia|done]. }
  apply (H 40%nat 0%nat); try done. lia.
Qed.

Lemma step_ring s ev s' ws cur :
  step s ev s' → ring (queue s) (running s) ws cur →
  match ev with
  | Accepted x => ring (queue s') (running s') (ws ++ [x]) cur
  | Overwrote _ => Num (queue s) = 39 ∧ running s ≠ None
  | Refused => s' = s
  | Handled i => ∃ x ws', ws = x :: ws' ∧ running s' = Some i ∧ ring (queue s') (running s') ws' (Some x)
  | Released => ∃ x, cur = Some x ∧ running s' = None ∧ ring (queue s') (running s') ws None
  end.
Proof.
  intros Hs Hr. pose proof (ring_num _ _ _ _ Hr) as Hn. destruct Hs as
    [s halted Mach Ty Len msg pr ok q' HL Hc Hq|s halted rx Len msg ch Mach Ty ok q' HL Hsub Hq
    |s halted rx Len msg ch ok q' HL Hsub Hq|s Hrun Hne|s i q' Hrun Hq]; cbn [queue running].
  - destruct (MlmeEnqueue_ok halted (queue s) _ ws cur Mach Ty Len msg pr Hr HL Hc) as (q1 & Hq1 & Hres).
    rewrite Hq1 in Hq. injection Hq as <- <-. destruct (_ && _ && _).
    { unfold posted. destruct (Z.eqb_spec (Num (queue s)) 39) as [H39|]; cbn [andb].
      - case_bool_decide as Hrun; [done|]. apply Hres. right. destruct (running s); [by destruct Hrun|done].
      - apply Hres. left. lia. }
    rewrite Hres. by destruct s.
  - destruct (MlmeEnqueueForRecv_ok halted (queue s) _ ws cur rx Len msg ch _ Hr HL Hsub) as (q1 & ok1 & Hq1 & -> & Hres).
    rewrite Hq1 in Hq. injection Hq as <- <-. destruct (accepts_recv _ _ _); [done|]. rewrite Hres. by destruct s.
  - destruct (MlmeEnqueueForRecv_ok halted (queue s) _ ws cur rx Len msg ch _ Hr HL Hsub) as (q1 & ok1 & Hq1 & -> & Hres).
    rewrite Hq1 in Hq. injection Hq as <- <-. rewrite Hres. by destruct s.
  - destruct ws as [|x ws]; [unfold MlmeQueueEmpty in Hne; by rewrite Hn in Hne|]. rewrite Hrun in Hr.
    exists x, ws. split_and!; try done. by apply (MlmeDequeue_ok _ _ _ cur).
  - rewrite Hrun in Hr. pose proof (ring_running _ _ _ _ Hr) as Hx. cbn in Hx. destruct cur as [x|]; [|done]. exists x.
    destruct (release_element_ok (queue s) i ws x Hr) as (q1 & Hq1 & Hr1 & _). rewrite Hq1 in Hq. by injection Hq as <-.
Qed.

Lemma intact_snoc es ev : intact (es ++ [ev]) → intact es ∧ ∀ x, ev ≠ Overwrote x.
Proof. intros H. split; [intros x Hx|intros x ->]; apply (H x), elem_of_app; [by left|right; by constructor]. Qed.

Lemma steps_ring q0 q es s :
  buffers q0 → MlmeQueueInit q0 = Some q → steps {| queue := q; running := None |} es s → intact es →
  ∃ past waiting,
    accepted es = past ++ waiting ∧ length past = handled es ∧
    ring (queue s) (running s) waiting (if running s is Some _ then last past else None).
Proof.
  intros Hb Hi Hs. destruct (MlmeQueueInit_ok q0 Hb) as (q1 & Hq1 & Hr1 & _). rewrite Hi in Hq1. injection Hq1 as <-.
  remember {| queue := q; running := None |} as s0 eqn:Hs0.
  induction Hs as [|s es s1 ev s2 Hs IH Hst]; intros Hin; [by subst; exists [], []|].
  apply intact_snoc in Hin as [Hin Hev]. destruct (IH Hs0 Hin) as (past & waiting & Ha & Hl & Hr).
  rewrite accepted_snoc, handled_snoc, Ha, <- Hl, <- app_assoc.
  pose proof (step_ring _ _ _ _ _ Hst Hr) as H. destruct ev as [x|x| |i|].
  - exists past, (waiting ++ [x]). split_and!; [done|lia|].
    assert (running s2 = running s1) as Hrs by (inversion Hst; subst; by try destruct ok). by rewrite Hrs in *.
  - by destruct (Hev x).
  - subst s2. exists past, waiting. rewrite app_nil_r. split_and!; [done|lia|done].
  - destruct H as (x & ws & -> & Hrun & H). exists (past ++ [x]), ws. rewrite Hrun in *.
    rewrite length_app, last_snoc, app_nil_r, <- app_assoc. done.
  - destruct H as (x & Hx & Hrun & H). exists past, waiting. rewrite Hrun in *. rewrite app_nil_r. split_and!; [done|lia|done].
Qed.

(** C12: The message queue is first in, first out, as long as no message is
    posted to 39 waiting ones while a handler runs, which [MlmeEnqueue] does not
    prevent.  In every such run from [MlmeQueueInit] the messages accepted so far are those handed to
    [MlmeHandler], in that order and once each, followed by those that wait;
    the element handed out last still holds its message while its handler
    runs, whatever is posted meanwhile; and the elements from [Head] on hold
    the waiting messages, at most 40 of them. *)
Theorem mlme_queue_fifo q0 q es s :
  buffers q0 → MlmeQueueInit q0 = Some q → steps {| queue := q; running := None |} es s → intact es →
  ∃ past waiting,
    accepted es = past ++ waiting ∧ length past = handled es ∧ Num (queue s) = Z.of_nat (length waiting) ∧
    (length waiting <= 40)%nat ∧
    (∀ k x, waiting !! k = Some x → ∃ e, Entry (queue s) !! slot (Head (queue s)) k = Some e ∧ holds e x) ∧
    (∀ i, running s = Some i → ∃ e x, last past = Some x ∧ Entry (queue s) !! i = Some e ∧ holds e x ∧ Occupied e = true).
Proof.
  intros Hb Hi Hs Hin. destruct (steps_ring q0 q es s Hb Hi Hs Hin) as (past & ws & Ha & Hl & Hr).
  exists past, ws. pose proof Hr as [_ Hn Hbd _ _ Hw _ Hrun]. split_and!; try done.
  - lia.
  - intros k x Hk. destruct (Hw k x Hk) as (e & ? & ? & _). by exists e.
  - intros i Hi'. rewrite Hi' in Hrun. destruct (last past) as [x|]; [|done].
    destruct Hrun as [_ (e & ? & ? & ?)]. by exists e, x.
Qed.

(** Received frames fill half of the queue at most, so that 20 places are left
    for the driver's own messages; and no operation of a run leaves the array:
    posting, receiving and releasing always succeed, and answer TRUE exactly
    when there is room, the device is not halted, the message fits and, for a
    frame, a machine is known for it. *)
Theorem mlme_queue_admission q0 q es s :
  buffers q0 → MlmeQueueInit q0 = Some q → steps {| queue := q; running := None |} es s → intact es →
  (∀ halted Mach Type_ Len msg Priv_, 0 <= Len → covers msg Len →
     ∃ q', MlmeEnqueue halted (queue s) Mach Type_ Len msg Priv_ =
             Some (negb halted && (Len <=? 1600) && (Num (queue s) <? 40), q')) ∧
  (∀ halted rx Len msg channel subst, 0 <= Len <= Z.of_nat (length msg) → MsgTypeSubst msg = Some subst →
     ∃ q', MlmeEnqueueForRecv halted (queue s) rx Len msg channel =
             Some (negb halted && (Len <=? 1600) && (Num (queue s) <? 20) && bool_decide (subst ≠ None), q') ∧
           (Num (queue s) < 20 → Num q' <= 20)) ∧
  (∀ i, running s = Some i → ∃ q', release_element (queue s) i = Some q' ∧ Num q' = Num (queue s)).
Proof.
  intros Hb Hi Hs Hin. destruct (steps_ring q0 q es s Hb Hi Hs Hin) as (past & ws & _ & _ & Hr).
  set (cur := if running s is Some _ then last past else None) in Hr.
  pose proof (ring_num _ _ _ _ Hr) as Hn. split_and!.
  - intros halted Mach Ty Len msg pr HL Hc.
    destruct (MlmeEnqueue_ok halted (queue s) _ ws cur Mach Ty Len msg pr Hr HL Hc) as (q' & Hq' & _).
    by exists q'.
  - intros halted rx Len msg ch subst HL Hsub.
    destruct (MlmeEnqueueForRecv_ok halted (queue s) _ ws cur rx Len msg ch _ Hr HL Hsub) as (q' & ok & Hq' & Hres).
    exists q'. rewrite Hq'. fold (accepts_recv halted (queue s) Len). destruct subst as [[Mach Ty]|].
    + destruct Hres as [-> Hres]. rewrite bool_decide_true, andb_true_r by done. split; [done|]. intros Hlt.
      destruct (accepts_recv _ _ _); [|subst q'; lia]. rewrite (ring_num _ _ _ _ Hres), length_app. cbn. lia.
    + destruct Hres as [-> ->]. rewrite bool_decide_false, andb_false_r by (intros H; by apply H). split; [done|lia].
  - intros i Hrun. rewrite Hrun in Hr. pose proof (ring_running _ _ _ _ Hr) as Hx. cbn in Hx.
    subst cur. rewrite Hrun in Hr, Hx. destruct (last past) as [x|]; [|done].
    destruct (release_element_ok _ _ _ _ Hr) as (q' & ? & _ & ?). by exists q'.
Qed.

(** A message posted to a queue of 39 while one is being handled: the test of
    [MlmeQueueFull] counts the waiting messages only, so the new message is
    written into the element whose handler is still running - the handler
    goes on with other contents - and when the handler ends, the element is
    marked free and its length cleared although the message is still in the
    queue: it is handed out later with length 0. *)
Theorem mlme_enqueue_overwrites_running q0 q es s i Mach Type_ Len m Priv_ :
  buffers q0 → MlmeQueueInit q0 = Some q → steps {| queue := q; running := None |} es s → intact es →
  running s = Some i → Num (queue s) = 39 → 0 <= Len <= Z.of_nat (length m) → Len <= 1600 →
  ∃ q' q'' e' e'',
    MlmeEnqueue false (queue s) Mach Type_ Len (Some m) Priv_ = Some (true, q') ∧
    Entry q' !! i = Some e' ∧ holds e' (Posted Mach Type_ Len (Some m) Priv_) ∧
    release_element q' i = Some q'' ∧ Num q'' = 40 ∧
    Entry q'' !! slot (Head q'') 39 = Some e'' ∧ MsgType e'' = Type_ ∧ MsgLen e'' = 0 ∧ Occupied e'' = false.
Proof.
  intros Hb Hi Hs Hin Hrun Hnum HL H16. destruct (steps_ring q0 q es s Hb Hi Hs Hin) as (past & ws & _ & _ & Hr).
  rewrite Hrun in Hr. pose proof Hr as [[Hl _] Hn _ Hh Ht _ _ Hx]. destruct (last past) as [x|]; [|done].
  destruct Hx as [-> _]. assert (length ws = 39%nat) as Hws by lia. rewrite Hws in Ht.
  destruct (ring_element _ _ _ _ (Tail (queue s)) Hr (ring_tail_lt _ _ _ _ Hr)) as (e & He & Hm).
  destruct (move_message_ok (Msg e) m Len Hm HL) as (buf & Hbuf & Hbl & Hbt).
  { change (Z.of_nat MGMT_DMA_BUFFER_SIZE) with 1600. lia. }
  unfold MlmeEnqueue. change (Z.of_nat MGMT_DMA_BUFFER_SIZE) with 1600. rewrite (proj2 (Z.ltb_ge _ _)) by lia.
  unfold MlmeQueueFull. cbn [Z.eqb]. rewrite Some_bind, Hnum.
  change (39 =? Z.of_nat MAX_LEN_OF_MLME_QUEUE) with false. cbv iota.
  unfold post_element. rewrite He, Some_bind, Hbuf, !Some_bind, <- Ht.
  assert (Tail (queue s) < 40)%nat as Htl by (rewrite Ht; apply slot_lt; lia).
  set (e1 := Build_MLME_QUEUE_ELEM _ _ _ _ _ _ _ _ _ _ _ _ _ _ _).
  exists (set_element (take_tail (queue s)) (Tail (queue s)) e1).
  exists (set_element (set_element (take_tail (queue s)) (Tail (queue s)) e1) (Tail (queue s)) (set_occupied e1 false 0 (Msg e1))).
  exists e1, (set_occupied e1 false 0 (Msg e1)). unfold release_element, set_element, take_tail. cbn [Entry Num Head Tail].
  rewrite <- Ht, !list_lookup_insert_eq by (rewrite ?length_insert; lia). rewrite Some_bind, Hnum. done.
Qed.

(** *** Witnesses *)

Definition empty_element : MLME_QUEUE_ELEM :=
  {| Msg := zeros MGMT_DMA_BUFFER_SIZE; Machine := 0; MsgType := 0; MsgLen := 0; TimeStampLow := 0; TimeStampHigh := 0;
     Rssi0 := 0; Rssi1 := 0; Rssi2 := 0; Signal := 0; Elem_Channel := 0; Wcid := 0; Occupied := false; OpMode := 0; Priv := 0 |}.

Definition empty_queue : MLME_QUEUE :=
  {| Num := 0; Head := 0; Tail := 0; Entry := replicate 40 empty_element |}.

Lemma empty_buffers : buffers empty_queue.
Proof. split; [done|]. apply Forall_replicate, length_zeros. Qed.

(** [n] messages that wait. *)
Lemma post_many q n :
  MlmeQueueInit empty_queue = Some q → (n <= 40)%nat →
  ∃ es s ws, steps {| queue := q; running := None |} es s ∧ intact es ∧ running s = None ∧ ring (queue s) None ws None ∧ length ws = n ∧ handled es = 0%nat.
Proof.
  intros Hi. induction n as [|n IH]; intros Hn.
  - exists [], {| queue := q; running := None |}, []. destruct (MlmeQueueInit_ok _ empty_buffers) as (q1 & Hq1 & Hr & _).
    split_and!; try done; [constructor|by intros ? ?%elem_of_nil|]. cbn [queue]. congruence.
  - destruct (IH ltac:(lia)) as (es & s & ws & Hs & Hin & Hrun & Hr & Hl & Hh). pose proof (ring_num _ _ _ _ Hr) as Hnum.
    destruct (MlmeEnqueue_ok false (queue s) None ws None SYNC_STATE_MACHINE 0 0 None 0 Hr) as (q' & Hq' & Hr').
    { lia. } { done. }
    rewrite (proj2 (Z.ltb_lt _ _)) in Hq', Hr' by lia. cbn [negb andb Z.leb Z.compare] in Hq', Hr'. specialize (Hr' (or_intror eq_refl)).
    eexists (es ++ [_]), {| queue := q'; running := None |}, _. split_and!; [| |done|exact Hr'| |].
    + eapply steps_snoc; [exact Hs|]. pose proof (step_post s false _ 0 0 None 0 true q' (Z.le_refl 0) I Hq') as H.
      unfold posted in H. rewrite (bool_decide_false (running s ≠ None)), andb_false_r, Hrun in H by (by intros []). exact H.
    + intros x [Hx|Hx]%elem_of_app; [by apply (Hin x)|]. by apply list_elem_of_singleton in Hx.
    + rewrite length_app, Hl. cbn. lia.
    + rewrite handled_snoc, Hh. done.
Qed.

(** One message being handled and [n] more that wait. *)
Lemma busy_run n :
  (n < 40)%nat →
  ∃ q es s i, MlmeQueueInit empty_queue = Some q ∧ steps {| queue := q; running := None |} es s ∧
    intact es ∧ running s = Some i ∧ Num (queue s) = Z.of_nat n ∧ handled es = 1%nat.
Proof.
  intros Hn40. destruct (MlmeQueueInit_ok _ empty_buffers) as (q & Hq & _).
  destruct (post_many q (S n) Hq) as (es & s & ws & Hs & Hin & Hrun & Hr & Hl & Hh); [lia|].
  pose proof (ring_num _ _ _ _ Hr) as Hn. destruct ws as [|x ws]; [done|]. cbn [length] in Hl, Hn.
  assert (MlmeQueueEmpty (queue s) = false) as Hne by (unfold MlmeQueueEmpty; apply Z.eqb_neq; lia).
  destruct (MlmeDequeue_ok _ _ _ _ Hr) as [Hr' _].
  eexists q, _, _, _. split; [done|]. split; [exact (steps_snoc _ _ _ _ _ Hs (step_dequeue s Hrun Hne))|].
  cbn [queue running]. rewrite (ring_num _ _ _ _ Hr'), handled_snoc. split_and!; [|done|lia|lia].
  intros y [Hy|Hy]%elem_of_app; [by apply (Hin y)|]. by apply list_elem_of_singleton in Hy.
Qed.

Lemma mlme_queue_fifo_witness :
  ∃ q es s past waiting, MlmeQueueInit empty_queue = Some q ∧ Num (queue s) = 2 ∧
    accepted es = past ++ waiting ∧ length past = 1%nat ∧ length waiting = 2%nat.
Proof.
  destruct (busy_run 2) as (q & es & s & i & Hq & Hs & Hin & Hrun & Hn & Hh); [lia|].
  destruct (mlme_queue_fifo empty_queue q es s empty_buffers Hq Hs Hin) as (past & waiting & Ha & Hp & Hw & _).
  exists q, es, s, past, waiting. split_and!; [done|done|done|lia|lia].
Defined.

Lemma mlme_queue_admission_witness :
  ∃ q s, MlmeQueueInit empty_queue = Some q ∧ Num (queue s) = 30 ∧
    (∃ q', MlmeEnqueue false (queue s) SYNC_STATE_MACHINE 0 0 None 0 = Some (true, q')) ∧
    (∀ rx channel, ∃ q', MlmeEnqueueForRecv false (queue s) rx 34 (0x80 :: zeros 33) channel = Some (false, q')).
Proof.
  destruct (busy_run 30) as (q & es & s & i & Hq & Hs & Hin & Hrun & Hn & _); [lia|].
  destruct (mlme_queue_admission empty_queue q es s empty_buffers Hq Hs Hin) as (H1 & H2 & _).
  exists q, s. split; [done|]. split; [lia|]. split.
  - destruct (H1 false SYNC_STATE_MACHINE 0 0 None 0) as (q' & Hq'); [lia|done|]. exists q'. by rewrite Hq', Hn.
  - intros rx ch. destruct (H2 false rx 34 (0x80 :: zeros 33) ch (Some (SYNC_STATE_MACHINE, MT2_PEER_BEACON)))
      as (q' & Hq' & _); [cbn; lia|done|]. exists q'. by rewrite Hq', Hn.
Defined.

Lemma mlme_enqueue_overwrites_running_witness :
  ∃ q s i q' q'' e' e'',
    MlmeQueueInit empty_queue = Some q ∧ running s = Some i ∧
    MlmeEnqueue false (queue s) SYNC_STATE_MACHINE MT2_PEER_BEACON 2 (Some [1; 2]) 0 = Some (true, q') ∧
    Entry q' !! i = Some e' ∧ holds e' (Posted SYNC_STATE_MACHINE MT2_PEER_BEACON 2 (Some [1; 2]) 0) ∧
    release_element q' i = Some q'' ∧ Num q'' = 40 ∧
    Entry q'' !! slot (Head q'') 39 = Some e'' ∧ MsgType e'' = MT2_PEER_BEACON ∧ MsgLen e'' = 0 ∧ Occupied e'' = false.
Proof.
  destruct (busy_run 39) as (q & es & s & i & Hq & Hs & Hin & Hrun & Hn & _); [lia|].
  destruct (mlme_enqueue_overwrites_running empty_queue q es s i
    SYNC_STATE_MACHINE MT2_PEER_BEACON 2 [1; 2] 0 empty_buffers Hq Hs Hin Hrun Hn) as (q' & q'' & e' & e'' & H).
  - cbn. lia.
  - lia.
  - exists q, s, i, q', q'', e', e''. split; [exact Hq|]. split; [exact Hrun|]. exact H.
Defined.

End Ring.
