(* ===== verification/MlmeMachine.v ===== *)
(** * The state machines of the MLME

    Models the state machines of [linux/Arch/rt5370.driver/common/mlme.c]
    ([StateMachineInit], [StateMachineSetAction], [StateMachinePerformAction],
    [MlmeRestartStateMachine], [MlmeHandler], the machines' part of
    [MlmeInit]) with the tables of a station: [sta/assoc.c], [sta/auth.c],
    [sta/auth_rsp.c], [sta/sync.c], [common/action.c], [common/cmm_wpa.c].

    A function pointer is the name of the function.  What the functions do is
    the argument [run] of [MlmeHandler]: any function of the state, which
    contains the queue, and of the element it is handed. *)

From stdpp Require Import base list numbers list_numbers.
From Stdlib Require Import ZArith Lia.
From S2P Require Import Prelude Mlme.

(** ** Function pointers *)

Inductive STATE_MACHINE_FUNC :=
| Drop
| MlmeAssocReqAction | MlmeReassocReqAction | MlmeDisassocReqAction | PeerDisassocAction
| InvalidStateWhenAssoc | InvalidStateWhenReassoc | InvalidStateWhenDisassociate
| PeerAssocRspAction | PeerReassocRspAction | AssocTimeoutAction | ReassocTimeoutAction | DisassocTimeoutAction
| MlmeAuthReqAction | InvalidStateWhenAuth | PeerAuthRspAtSeq2Action | PeerAuthRspAtSeq4Action | AuthTimeoutAction
| PeerDeauthAction
| MlmeScanReqAction | MlmeForceScanReqAction | MlmeJoinReqAction | MlmeForceJoinReqAction | MlmeStartReqAction
| PeerBeacon | PeerProbeReqAction | InvalidStateWhenStart | PeerBeaconAtJoinAction | BeaconTimeoutAtJoinAction
| PeerBeaconAtScanAction | ScanTimeoutAction
| PeerSpectrumAction | PeerQOSAction | ReservedAction | PeerBAAction | PeerHTAction | MlmeADDBAAction
| MlmeDELBAAction | PeerPublicAction | PeerRMAction | MlmeQOSAction | MlmeDLSAction | MlmeInvalidAction
| WpaEAPPacketAction | WpaEAPOLStartAction | WpaEAPOLLogoffAction | WpaEAPOLKeyAction | WpaEAPOLASFAlertAction
| MlmeCntlMachinePerformAction.

#[export] Instance func_eq_dec : EqDecision STATE_MACHINE_FUNC.
Proof. solve_decision. Defined.

(** ** State machines *)

(** [TransFunc] is the array behind the pointer; the empty array stands for a
    NULL pointer, an element [None] for a NULL function. *)
Record STATE_MACHINE := {
  Base : Z;
  NrState : Z;
  NrMsg : Z;
  CurrState : Z;
  TransFunc : list (option STATE_MACHINE_FUNC);
}.

Definition set_cell (t : list (option STATE_MACHINE_FUNC)) (i : Z) (f : STATE_MACHINE_FUNC)
    : option (list (option STATE_MACHINE_FUNC)) :=
  if (Z.to_nat i <? length t)%nat then Some (<[Z.to_nat i := Some f]> t) else None.

Definition StateMachineInit (Trans : list (option STATE_MACHINE_FUNC)) (StNr MsgNr : Z) (DefFunc : STATE_MACHINE_FUNC)
    (InitState Base_ : Z) : option STATE_MACHINE :=
  t ← loop_opt 0 (Z.to_nat StNr)
        (λ i t, loop_opt 0 (Z.to_nat MsgNr) (λ j t, set_cell t (Z.of_nat i * MsgNr + Z.of_nat j) DefFunc) t) Trans;
  Some {| Base := Base_; NrState := StNr; NrMsg := MsgNr; CurrState := InitState; TransFunc := t |}.

Definition StateMachineSetAction (S : STATE_MACHINE) (St Msg_ : Z) (Func : STATE_MACHINE_FUNC) : option STATE_MACHINE :=
  let MsgIdx := u32 (Msg_ - Base S) in
  if (St <? NrState S) && (MsgIdx <? NrMsg S) then
    t ← set_cell (TransFunc S) (u32 (St * NrMsg S + MsgIdx)) Func;
    Some {| Base := Base S; NrState := NrState S; NrMsg := NrMsg S; CurrState := CurrState S; TransFunc := t |}
  else Some S.

(** The function that is called, if it is not NULL; the outer [None] is a
    place behind the table. *)
Definition StateMachinePerformAction (S : STATE_MACHINE) (Type_ CurrState_ : Z) : option (option STATE_MACHINE_FUNC) :=
  TransFunc S !! Z.to_nat (u32 (CurrState_ * NrMsg S + Type_ - Base S)).

(** ** The machines of a station *)

Definition ASSOC_IDLE : Z := 0.
Definition ASSOC_WAIT_RSP : Z := 1.
Definition REASSOC_WAIT_RSP : Z := 2.
Definition DISASSOC_WAIT_RSP : Z := 3.
Definition MAX_ASSOC_STATE : Z := 4.
Definition ASSOC_MACHINE_BASE : Z := 0.
Definition MT2_MLME_ASSOC_REQ : Z := 0.
Definition MT2_MLME_REASSOC_REQ : Z := 1.
Definition MT2_MLME_DISASSOC_REQ : Z := 2.
Definition MT2_DISASSOC_TIMEOUT : Z := 8.
Definition MT2_ASSOC_TIMEOUT : Z := 9.
Definition MT2_REASSOC_TIMEOUT : Z := 10.
Definition MAX_ASSOC_MSG : Z := 11.

Definition AssocStateMachineInit (Trans : list (option STATE_MACHINE_FUNC)) : option STATE_MACHINE :=
  S ← StateMachineInit Trans MAX_ASSOC_STATE MAX_ASSOC_MSG Drop ASSOC_IDLE ASSOC_MACHINE_BASE;
  S ← StateMachineSetAction S ASSOC_IDLE MT2_MLME_ASSOC_REQ MlmeAssocReqAction;
  S ← StateMachineSetAction S ASSOC_IDLE MT2_MLME_REASSOC_REQ MlmeReassocReqAction;
  S ← StateMachineSetAction S ASSOC_IDLE MT2_MLME_DISASSOC_REQ MlmeDisassocReqAction;
  S ← StateMachineSetAction S ASSOC_IDLE MT2_PEER_DISASSOC_REQ PeerDisassocAction;
  S ← StateMachineSetAction S ASSOC_WAIT_RSP MT2_MLME_ASSOC_REQ InvalidStateWhenAssoc;
  S ← StateMachineSetAction S ASSOC_WAIT_RSP MT2_MLME_REASSOC_REQ InvalidStateWhenReassoc;
  S ← StateMachineSetAction S ASSOC_WAIT_RSP MT2_MLME_DISASSOC_REQ InvalidStateWhenDisassociate;
  S ← StateMachineSetAction S ASSOC_WAIT_RSP MT2_PEER_DISASSOC_REQ PeerDisassocAction;
  S ← StateMachineSetAction S ASSOC_WAIT_RSP MT2_PEER_ASSOC_RSP PeerAssocRspAction;
  S ← StateMachineSetAction S ASSOC_WAIT_RSP MT2_PEER_REASSOC_RSP PeerAssocRspAction;
  S ← StateMachineSetAction S ASSOC_WAIT_RSP MT2_ASSOC_TIMEOUT AssocTimeoutAction;
  S ← StateMachineSetAction S REASSOC_WAIT_RSP MT2_MLME_ASSOC_REQ InvalidStateWhenAssoc;
  S ← StateMachineSetAction S REASSOC_WAIT_RSP MT2_MLME_REASSOC_REQ InvalidStateWhenReassoc;
  S ← StateMachineSetAction S REASSOC_WAIT_RSP MT2_MLME_DISASSOC_REQ InvalidStateWhenDisassociate;
  S ← StateMachineSetAction S REASSOC_WAIT_RSP MT2_PEER_DISASSOC_REQ PeerDisassocAction;
  S ← StateMachineSetAction S REASSOC_WAIT_RSP MT2_PEER_REASSOC_RSP PeerReassocRspAction;
  S ← StateMachineSetAction S REASSOC_WAIT_RSP MT2_PEER_ASSOC_RSP PeerReassocRspAction;
  S ← StateMachineSetAction S REASSOC_WAIT_RSP MT2_REASSOC_TIMEOUT ReassocTimeoutAction;
  S ← StateMachineSetAction S DISASSOC_WAIT_RSP MT2_MLME_ASSOC_REQ InvalidStateWhenAssoc;
  S ← StateMachineSetAction S DISASSOC_WAIT_RSP MT2_MLME_REASSOC_REQ InvalidStateWhenReassoc;
  S ← StateMachineSetAction S DISASSOC_WAIT_RSP MT2_MLME_DISASSOC_REQ InvalidStateWhenDisassociate;
  S ← StateMachineSetAction S DISASSOC_WAIT_RSP MT2_PEER_DISASSOC_REQ PeerDisassocAction;
  StateMachineSetAction S DISASSOC_WAIT_RSP MT2_DISASSOC_TIMEOUT DisassocTimeoutAction.

Definition AUTH_REQ_IDLE : Z := 0.
Definition AUTH_WAIT_SEQ2 : Z := 1.
Definition AUTH_WAIT_SEQ4 : Z := 2.
Definition MAX_AUTH_STATE : Z := 3.
Definition AUTH_MACHINE_BASE : Z := 0.
Definition MT2_MLME_AUTH_REQ : Z := 0.
Definition MT2_AUTH_TIMEOUT : Z := 2.
Definition MAX_AUTH_MSG : Z := 3.

Definition AuthStateMachineInit (Trans : list (option STATE_MACHINE_FUNC)) : option STATE_MACHINE :=
  S ← StateMachineInit Trans MAX_AUTH_STATE MAX_AUTH_MSG Drop AUTH_REQ_IDLE AUTH_MACHINE_BASE;
  S ← StateMachineSetAction S AUTH_REQ_IDLE MT2_MLME_AUTH_REQ MlmeAuthReqAction;
  S ← StateMachineSetAction S AUTH_WAIT_SEQ2 MT2_MLME_AUTH_REQ InvalidStateWhenAuth;
  S ← StateMachineSetAction S AUTH_WAIT_SEQ2 MT2_PEER_AUTH_EVEN PeerAuthRspAtSeq2Action;
  S ← StateMachineSetAction S AUTH_WAIT_SEQ2 MT2_AUTH_TIMEOUT AuthTimeoutAction;
  S ← StateMachineSetAction S AUTH_WAIT_SEQ4 MT2_MLME_AUTH_REQ InvalidStateWhenAuth;
  S ← StateMachineSetAction S AUTH_WAIT_SEQ4 MT2_PEER_AUTH_EVEN PeerAuthRspAtSeq4Action;
  StateMachineSetAction S AUTH_WAIT_SEQ4 MT2_AUTH_TIMEOUT AuthTimeoutAction.

Definition AUTH_RSP_IDLE : Z := 0.
Definition AUTH_RSP_WAIT_CHAL : Z := 1.
Definition MAX_AUTH_RSP_STATE : Z := 2.
Definition AUTH_RSP_MACHINE_BASE : Z := 0.
Definition MAX_AUTH_RSP_MSG : Z := 3.

Definition AuthRspStateMachineInit (Trans : list (option STATE_MACHINE_FUNC)) : option STATE_MACHINE :=
  S ← StateMachineInit Trans MAX_AUTH_RSP_STATE MAX_AUTH_RSP_MSG Drop AUTH_RSP_IDLE AUTH_RSP_MACHINE_BASE;
  S ← StateMachineSetAction S AUTH_RSP_IDLE MT2_PEER_DEAUTH PeerDeauthAction;
  StateMachineSetAction S AUTH_RSP_WAIT_CHAL MT2_PEER_DEAUTH PeerDeauthAction.

Definition SYNC_IDLE : Z := 0.
Definition JOIN_WAIT_BEACON : Z := 1.
Definition SCAN_LISTEN : Z := 2.
Definition SCAN_PENDING : Z := 3.
Definition MAX_SYNC_STATE : Z := 4.
Definition SYNC_MACHINE_BASE : Z := 0.
Definition MT2_MLME_SCAN_REQ : Z := 0.
Definition MT2_MLME_JOIN_REQ : Z := 1.
Definition MT2_MLME_START_REQ : Z := 2.
Definition MT2_SCAN_TIMEOUT : Z := 6.
Definition MT2_BEACON_TIMEOUT : Z := 7.
Definition MT2_MLME_FORCE_JOIN_REQ : Z := 10.
Definition MT2_MLME_FORCE_SCAN_REQ : Z := 11.
Definition MAX_SYNC_MSG : Z := 12.

Definition SyncStateMachineInit (Trans : list (option STATE_MACHINE_FUNC)) : option STATE_MACHINE :=
  S ← StateMachineInit Trans MAX_SYNC_STATE MAX_SYNC_MSG Drop SYNC_IDLE SYNC_MACHINE_BASE;
  S ← StateMachineSetAction S SYNC_IDLE MT2_MLME_SCAN_REQ MlmeScanReqAction;
  S ← StateMachineSetAction S SYNC_IDLE MT2_MLME_FORCE_SCAN_REQ MlmeForceScanReqAction;
  S ← StateMachineSetAction S SYNC_IDLE MT2_MLME_JOIN_REQ MlmeJoinReqAction;
  S ← StateMachineSetAction S SYNC_IDLE MT2_MLME_FORCE_JOIN_REQ MlmeForceJoinReqAction;
  S ← StateMachineSetAction S SYNC_IDLE MT2_MLME_START_REQ MlmeStartReqAction;
  S ← StateMachineSetAction S SYNC_IDLE MT2_PEER_BEACON PeerBeacon;
  S ← StateMachineSetAction S SYNC_IDLE MT2_PEER_PROBE_REQ PeerProbeReqAction;
  S ← StateMachineSetAction S JOIN_WAIT_BEACON MT2_MLME_JOIN_REQ MlmeJoinReqAction;
  S ← StateMachineSetAction S JOIN_WAIT_BEACON MT2_MLME_START_REQ InvalidStateWhenStart;
  S ← StateMachineSetAction S JOIN_WAIT_BEACON MT2_PEER_BEACON PeerBeaconAtJoinAction;
  S ← StateMachineSetAction S JOIN_WAIT_BEACON MT2_BEACON_TIMEOUT BeaconTimeoutAtJoinAction;
  S ← StateMachineSetAction S JOIN_WAIT_BEACON MT2_PEER_PROBE_RSP PeerBeaconAtScanAction;
  S ← StateMachineSetAction S SCAN_LISTEN MT2_MLME_JOIN_REQ MlmeJoinReqAction;
  S ← StateMachineSetAction S SCAN_LISTEN MT2_MLME_START_REQ InvalidStateWhenStart;
  S ← StateMachineSetAction S SCAN_LISTEN MT2_PEER_BEACON PeerBeaconAtScanAction;
  S ← StateMachineSetAction S SCAN_LISTEN MT2_PEER_PROBE_RSP PeerBeaconAtScanAction;
  S ← StateMachineSetAction S SCAN_LISTEN MT2_SCAN_TIMEOUT ScanTimeoutAction;
  S ← StateMachineSetAction S SCAN_PENDING MT2_MLME_SCAN_REQ MlmeScanReqAction;
  StateMachineSetAction S SCAN_PENDING MT2_PEER_BEACON PeerBeacon.

Definition ACT_IDLE : Z := 0.
Definition MAX_ACT_STATE : Z := 1.
Definition ACT_MACHINE_BASE : Z := 0.
Definition MT2_PEER_SPECTRUM_CATE : Z := 0.
Definition MT2_PEER_QOS_CATE : Z := 1.
Definition MT2_PEER_DLS_CATE : Z := 2.
Definition MT2_PEER_BA_CATE : Z := 3.
Definition MT2_PEER_PUBLIC_CATE : Z := 4.
Definition MT2_PEER_RM_CATE : Z := 5.
Definition MT2_PEER_HT_CATE : Z := 7.
Definition MT2_MLME_ADD_BA_CATE : Z := 18.
Definition MT2_MLME_ORI_DELBA_CATE : Z := 19.
Definition MT2_MLME_REC_DELBA_CATE : Z := 20.
Definition MT2_MLME_QOS_CATE : Z := 21.
Definition MT2_MLME_DLS_CATE : Z := 22.
Definition MAX_ACT_MSG : Z := 24.

Definition ActionStateMachineInit (Trans : list (option STATE_MACHINE_FUNC)) : option STATE_MACHINE :=
  S ← StateMachineInit Trans MAX_ACT_STATE MAX_ACT_MSG Drop ACT_IDLE ACT_MACHINE_BASE;
  S ← StateMachineSetAction S ACT_IDLE MT2_PEER_SPECTRUM_CATE PeerSpectrumAction;
  S ← StateMachineSetAction S ACT_IDLE MT2_PEER_QOS_CATE PeerQOSAction;
  S ← StateMachineSetAction S ACT_IDLE MT2_PEER_DLS_CATE ReservedAction;
  S ← StateMachineSetAction S ACT_IDLE MT2_PEER_BA_CATE PeerBAAction;
  S ← StateMachineSetAction S ACT_IDLE MT2_PEER_HT_CATE PeerHTAction;
  S ← StateMachineSetAction S ACT_IDLE MT2_MLME_ADD_BA_CATE MlmeADDBAAction;
  S ← StateMachineSetAction S ACT_IDLE MT2_MLME_ORI_DELBA_CATE MlmeDELBAAction;
  S ← StateMachineSetAction S ACT_IDLE MT2_MLME_REC_DELBA_CATE MlmeDELBAAction;
  S ← StateMachineSetAction S ACT_IDLE MT2_PEER_PUBLIC_CATE PeerPublicAction;
  S ← StateMachineSetAction S ACT_IDLE MT2_PEER_RM_CATE PeerRMAction;
  S ← StateMachineSetAction S ACT_IDLE MT2_MLME_QOS_CATE MlmeQOSAction;
  S ← StateMachineSetAction S ACT_IDLE MT2_MLME_DLS_CATE MlmeDLSAction;
  StateMachineSetAction S ACT_IDLE MT2_ACT_INVALID MlmeInvalidAction.

Definition WPA_PTK : Z := 0.
Definition MAX_WPA_PTK_STATE : Z := 1.
Definition WPA_MACHINE_BASE : Z := 0.
Definition MAX_WPA_MSG : Z := 5.

Definition WpaStateMachineInit (Trans : list (option STATE_MACHINE_FUNC)) : option STATE_MACHINE :=
  S ← StateMachineInit Trans MAX_WPA_PTK_STATE MAX_WPA_MSG Drop WPA_PTK WPA_MACHINE_BASE;
  S ← StateMachineSetAction S WPA_PTK MT2_EAPPacket WpaEAPPacketAction;
  S ← StateMachineSetAction S WPA_PTK MT2_EAPOLStart WpaEAPOLStartAction;
  S ← StateMachineSetAction S WPA_PTK MT2_EAPOLLogoff WpaEAPOLLogoffAction;
  S ← StateMachineSetAction S WPA_PTK MT2_EAPOLKey WpaEAPOLKeyAction;
  StateMachineSetAction S WPA_PTK MT2_EAPOLASFAlert WpaEAPOLASFAlertAction.

(** ** The MLME *)

Definition CNTL_IDLE : Z := 0.
Definition MT2_RESET_CONF : Z := 45.
Definition fRTMP_ADAPTER_MLME_RESET_IN_PROGRESS : Z := 0x20.
Definition fRTMP_ADAPTER_HALT_IN_PROGRESS : Z := 0x40.
Definition fRTMP_ADAPTER_NIC_NOT_EXIST : Z := 0x100.

(** Calls that leave the model. *)
Inductive mlme_event :=
| CancelTimers
| AsicSwitchChannel (channel : Z)
| AsicLockChannel (channel : Z)
| RTMPResumeMsduTransmission
| IllegalMachine (machine : Z).

(** The part of the adapter that the MLME itself uses; [Flags] is
    [pAd->Flags], [cfg_Channel] is [pAd->CommonCfg.Channel]. *)
Record mlme := {
  Queue : MLME_QUEUE;
  bRunning : bool;
  Flags : Z;
  cfg_Channel : Z;
  AssocMachine : STATE_MACHINE;
  AuthMachine : STATE_MACHINE;
  AuthRspMachine : STATE_MACHINE;
  SyncMachine : STATE_MACHINE;
  CntlState : Z;
  WpaPskMachine : STATE_MACHINE;
  ActMachine : STATE_MACHINE;
  WpaMachine : STATE_MACHINE;
  mlme_log : list mlme_event;
}.

Definition RTMP_TEST_FLAG (m : mlme) (F : Z) : bool := negb (Flags m & F =? 0).

Definition set_queue (m : mlme) (q : MLME_QUEUE) : mlme :=
  {| Queue := q; bRunning := bRunning m; Flags := Flags m; cfg_Channel := cfg_Channel m; AssocMachine := AssocMachine m;
     AuthMachine := AuthMachine m; AuthRspMachine := AuthRspMachine m; SyncMachine := SyncMachine m;
     CntlState := CntlState m; WpaPskMachine := WpaPskMachine m; ActMachine := ActMachine m; WpaMachine := WpaMachine m;
     mlme_log := mlme_log m |}.

Definition set_running (m : mlme) (b : bool) : mlme :=
  {| Queue := Queue m; bRunning := b; Flags := Flags m; cfg_Channel := cfg_Channel m; AssocMachine := AssocMachine m;
     AuthMachine := AuthMachine m; AuthRspMachine := AuthRspMachine m; SyncMachine := SyncMachine m;
     CntlState := CntlState m; WpaPskMachine := WpaPskMachine m; ActMachine := ActMachine m; WpaMachine := WpaMachine m;
     mlme_log := mlme_log m |}.

Definition note (m : mlme) (ev : mlme_event) : mlme :=
  {| Queue := Queue m; bRunning := bRunning m; Flags := Flags m; cfg_Channel := cfg_Channel m; AssocMachine := AssocMachine m;
     AuthMachine := AuthMachine m; AuthRspMachine := AuthRspMachine m; SyncMachine := SyncMachine m;
     CntlState := CntlState m; WpaPskMachine := WpaPskMachine m; ActMachine := ActMachine m; WpaMachine := WpaMachine m;
     mlme_log := mlme_log m ++ [ev] |}.

Definition go_to (S : STATE_MACHINE) (st : Z) : STATE_MACHINE :=
  {| Base := Base S; NrState := NrState S; NrMsg := NrMsg S; CurrState := st; TransFunc := TransFunc S |}.

(** The queue, the machines and the lock's flag; the arrays of the tables are
    the adapter's. *)
Definition MlmeInit (m : mlme) : option mlme :=
  q ← MlmeQueueInit (Queue m);
  assoc ← AssocStateMachineInit (TransFunc (AssocMachine m));
  auth ← AuthStateMachineInit (TransFunc (AuthMachine m));
  auth_rsp ← AuthRspStateMachineInit (TransFunc (AuthRspMachine m));
  sync ← SyncStateMachineInit (TransFunc (SyncMachine m));
  wpa ← WpaStateMachineInit (TransFunc (WpaMachine m));
  act ← ActionStateMachineInit (TransFunc (ActMachine m));
  Some {| Queue := q; bRunning := false; Flags := Flags m; cfg_Channel := cfg_Channel m; AssocMachine := assoc;
          AuthMachine := auth; AuthRspMachine := auth_rsp; SyncMachine := sync; CntlState := CNTL_IDLE;
          WpaPskMachine := WpaPskMachine m; ActMachine := act; WpaMachine := wpa; mlme_log := mlme_log m |}.

Definition MlmeRestartStateMachine (m : mlme) : mlme :=
  let m := note m CancelTimers in
  let m := note m (AsicSwitchChannel (cfg_Channel m)) in
  let m := note m (AsicLockChannel (cfg_Channel m)) in
  let m := note m RTMPResumeMsduTransmission in
  {| Queue := Queue m; bRunning := bRunning m; Flags := Flags m; cfg_Channel := cfg_Channel m;
     AssocMachine := go_to (AssocMachine m) ASSOC_IDLE; AuthMachine := go_to (AuthMachine m) AUTH_REQ_IDLE;
     AuthRspMachine := go_to (AuthRspMachine m) AUTH_RSP_IDLE; SyncMachine := go_to (SyncMachine m) SYNC_IDLE;
     CntlState := CNTL_IDLE; WpaPskMachine := WpaPskMachine m; ActMachine := go_to (ActMachine m) ACT_IDLE;
     WpaMachine := WpaMachine m; mlme_log := mlme_log m |}.

Section Handler.
(** What a function does to the state when it is handed element [i]. *)
Variable run : STATE_MACHINE_FUNC → mlme → nat → option mlme.

Definition perform (m : mlme) (S : STATE_MACHINE) (i : nat) (Elem : MLME_QUEUE_ELEM) : option mlme :=
  f ← StateMachinePerformAction S (MsgType Elem) (CurrState S);
  match f with Some f => run f m i | None => Some m end.

(** The [switch (Elem->Machine)] of [MlmeHandler]. *)
Definition mlme_dispatch (m : mlme) (i : nat) (Elem : MLME_QUEUE_ELEM) : option mlme :=
  if Machine Elem =? ASSOC_STATE_MACHINE then perform m (AssocMachine m) i Elem
  else if Machine Elem =? AUTH_STATE_MACHINE then perform m (AuthMachine m) i Elem
  else if Machine Elem =? AUTH_RSP_STATE_MACHINE then perform m (AuthRspMachine m) i Elem
  else if Machine Elem =? SYNC_STATE_MACHINE then perform m (SyncMachine m) i Elem
  else if Machine Elem =? MLME_CNTL_STATE_MACHINE then run MlmeCntlMachinePerformAction m i
  else if Machine Elem =? WPA_PSK_STATE_MACHINE then perform m (WpaPskMachine m) i Elem
  else if Machine Elem =? ACTION_STATE_MACHINE then perform m (ActMachine m) i Elem
  else if Machine Elem =? WPA_STATE_MACHINE then perform m (WpaMachine m) i Elem
  else Some (note m (IllegalMachine (Machine Elem))).

(** One turn of the loop of [MlmeHandler], from a queue that is not empty. *)
Definition mlme_turn (m : mlme) : option mlme :=
  let '(i, q) := MlmeDequeue (Queue m) in
  let m := set_queue m q in
  e ← Entry q !! i;
  m ← (if MsgType e =? MT2_RESET_CONF then Some (MlmeRestartStateMachine m) else mlme_dispatch m i e);
  q ← release_element (Queue m) i;
  Some (set_queue m q).

Definition mlme_stopped (m : mlme) : bool :=
  RTMP_TEST_FLAG m fRTMP_ADAPTER_MLME_RESET_IN_PROGRESS || RTMP_TEST_FLAG m fRTMP_ADAPTER_HALT_IN_PROGRESS ||
  RTMP_TEST_FLAG m fRTMP_ADAPTER_NIC_NOT_EXIST.

(** [MlmeHandler], with fuel for the loop. *)
Definition MlmeHandler (fuel : nat) (m : mlme) : option mlme :=
  if bRunning m then Some m
  else
    m ← while_opt fuel (λ m, negb (MlmeQueueEmpty (Queue m)) && negb (mlme_stopped m)) mlme_turn (set_running m true);
    Some (set_running m false).
End Handler.

(** ** The tables as functions

    What each machine does with a message in a state. *)

Definition assoc_ref (st type : Z) : STATE_MACHINE_FUNC :=
  if type =? MT2_MLME_ASSOC_REQ then (if st =? ASSOC_IDLE then MlmeAssocReqAction else InvalidStateWhenAssoc)
  else if type =? MT2_MLME_REASSOC_REQ then (if st =? ASSOC_IDLE then MlmeReassocReqAction else InvalidStateWhenReassoc)
  else if type =? MT2_MLME_DISASSOC_REQ then (if st =? ASSOC_IDLE then MlmeDisassocReqAction else InvalidStateWhenDisassociate)
  else if type =? MT2_PEER_DISASSOC_REQ then PeerDisassocAction
  else if (type =? MT2_PEER_ASSOC_RSP) || (type =? MT2_PEER_REASSOC_RSP) then
    (if st =? ASSOC_WAIT_RSP then PeerAssocRspAction else if st =? REASSOC_WAIT_RSP then PeerReassocRspAction else Drop)
  else if (type =? MT2_ASSOC_TIMEOUT) && (st =? ASSOC_WAIT_RSP) then AssocTimeoutAction
  else if (type =? MT2_REASSOC_TIMEOUT) && (st =? REASSOC_WAIT_RSP) then ReassocTimeoutAction
  else if (type =? MT2_DISASSOC_TIMEOUT) && (st =? DISASSOC_WAIT_RSP) then DisassocTimeoutAction
  else Drop.

Definition auth_ref (st type : Z) : STATE_MACHINE_FUNC :=
  if type =? MT2_MLME_AUTH_REQ then (if st =? AUTH_REQ_IDLE then MlmeAuthReqAction else InvalidStateWhenAuth)
  else if st =? AUTH_REQ_IDLE then Drop
  else if type =? MT2_AUTH_TIMEOUT then AuthTimeoutAction
  else if st =? AUTH_WAIT_SEQ2 then PeerAuthRspAtSeq2Action else PeerAuthRspAtSeq4Action.

Definition auth_rsp_ref (_ type : Z) : STATE_MACHINE_FUNC := if type =? MT2_PEER_DEAUTH then PeerDeauthAction else Drop.

Definition sync_ref (st type : Z) : STATE_MACHINE_FUNC :=
  if type =? MT2_PEER_BEACON then
    (if st =? JOIN_WAIT_BEACON then PeerBeaconAtJoinAction else if st =? SCAN_LISTEN then PeerBeaconAtScanAction else PeerBeacon)
  else if type =? MT2_PEER_PROBE_RSP then
    (if (st =? JOIN_WAIT_BEACON) || (st =? SCAN_LISTEN) then PeerBeaconAtScanAction else Drop)
  else if type =? MT2_MLME_SCAN_REQ then (if (st =? SYNC_IDLE) || (st =? SCAN_PENDING) then MlmeScanReqAction else Drop)
  else if type =? MT2_MLME_JOIN_REQ then (if st =? SCAN_PENDING then Drop else MlmeJoinReqAction)
  else if type =? MT2_MLME_START_REQ then
    (if st =? SYNC_IDLE then MlmeStartReqAction else if st =? SCAN_PENDING then Drop else InvalidStateWhenStart)
  else if (type =? MT2_BEACON_TIMEOUT) && (st =? JOIN_WAIT_BEACON) then BeaconTimeoutAtJoinAction
  else if (type =? MT2_SCAN_TIMEOUT) && (st =? SCAN_LISTEN) then ScanTimeoutAction
  else if negb (st =? SYNC_IDLE) then Drop
  else if type =? MT2_PEER_PROBE_REQ then PeerProbeReqAction
  else if type =? MT2_MLME_FORCE_SCAN_REQ then MlmeForceScanReqAction
  else if type =? MT2_MLME_FORCE_JOIN_REQ then MlmeForceJoinReqAction
  else Drop.

Definition act_ref (_ type : Z) : STATE_MACHINE_FUNC :=
  nth (Z.to_nat type)
    [PeerSpectrumAction; PeerQOSAction; ReservedAction; PeerBAAction; PeerPublicAction; PeerRMAction; Drop; PeerHTAction;
     Drop; Drop; Drop; Drop; Drop; Drop; Drop; Drop; Drop; Drop;
     MlmeADDBAAction; MlmeDELBAAction; MlmeDELBAAction; MlmeQOSAction; MlmeDLSAction; MlmeInvalidAction] Drop.

Definition wpa_ref (_ type : Z) : STATE_MACHINE_FUNC :=
  nth (Z.to_nat type)
    [WpaEAPPacketAction; WpaEAPOLStartAction; WpaEAPOLLogoffAction; WpaEAPOLKeyAction; WpaEAPOLASFAlertAction] Drop.

(** [S] does what [ref] says in each of its states. *)
Definition table_is (S : STATE_MACHINE) (states msgs : Z) (ref : Z → Z → STATE_MACHINE_FUNC) : bool :=
  (NrState S =? states) &&
  forallb (λ st, forallb (λ type, bool_decide (StateMachinePerformAction S type st = Some (Some (ref st type)))) (seqZ 0 msgs))
    (seqZ 0 states).

(** From a cleared table of [states * msgs] places [init] makes a machine in
    state 0 that does what [ref] says. *)
Definition implements (init : list (option STATE_MACHINE_FUNC) → option STATE_MACHINE) (states msgs : Z)
    (ref : Z → Z → STATE_MACHINE_FUNC) : Prop :=
  ∃ S, init (replicate (Z.to_nat (states * msgs)) None) = Some S ∧ CurrState S = 0 ∧ table_is S states msgs ref = true.

Ltac table := eexists; split; [vm_compute; reflexivity|split; vm_compute; reflexivity].

Lemma assoc_table : implements AssocStateMachineInit MAX_ASSOC_STATE MAX_ASSOC_MSG assoc_ref.
Proof. table. Qed.
Lemma auth_table : implements AuthStateMachineInit MAX_AUTH_STATE MAX_AUTH_MSG auth_ref.
Proof. table. Qed.
Lemma auth_rsp_table : implements AuthRspStateMachineInit MAX_AUTH_RSP_STATE MAX_AUTH_RSP_MSG auth_rsp_ref.
Proof. table. Qed.
Lemma sync_table : implements SyncStateMachineInit MAX_SYNC_STATE MAX_SYNC_MSG sync_ref.
Proof. table. Qed.
Lemma act_table : implements ActionStateMachineInit MAX_ACT_STATE MAX_ACT_MSG act_ref.
Proof. table. Qed.
Lemma wpa_table : implements WpaStateMachineInit MAX_WPA_PTK_STATE MAX_WPA_MSG wpa_ref.
Proof. table. Qed.

(** ** Machines in use *)

(** [S] is the machine that [init] makes of a cleared table, in some state. *)
Definition in_use (init : list (option STATE_MACHINE_FUNC) → option STATE_MACHINE) (size : Z) (S : STATE_MACHINE) : Prop :=
  ∃ S0 st, init (replicate (Z.to_nat size) None) = Some S0 ∧ S = go_to S0 st ∧ 0 <= st < NrState S0.

Record ready (m : mlme) : Prop := {
  ready_assoc : in_use AssocStateMachineInit (MAX_ASSOC_STATE * MAX_ASSOC_MSG) (AssocMachine m);
  ready_auth : in_use AuthStateMachineInit (MAX_AUTH_STATE * MAX_AUTH_MSG) (AuthMachine m);
  ready_auth_rsp : in_use AuthRspStateMachineInit (MAX_AUTH_RSP_STATE * MAX_AUTH_RSP_MSG) (AuthRspMachine m);
  ready_sync : in_use SyncStateMachineInit (MAX_SYNC_STATE * MAX_SYNC_MSG) (SyncMachine m);
  ready_act : in_use ActionStateMachineInit (MAX_ACT_STATE * MAX_ACT_MSG) (ActMachine m);
  ready_wpa : in_use WpaStateMachineInit (MAX_WPA_PTK_STATE * MAX_WPA_MSG) (WpaMachine m);
}.

Section Table.
Context (init : list (option STATE_MACHINE_FUNC) → option STATE_MACHINE) (states msgs : Z) (ref : Z → Z → STATE_MACHINE_FUNC).
Context (init_table : implements init states msgs ref).

Lemma init_in_use :
  0 < states → ∃ S, init (replicate (Z.to_nat (states * msgs)) None) = Some S ∧ in_use init (states * msgs) S.
Proof.
  destruct init_table as (S & H & Hc & Ht). intros Hs. exists S. split; [done|]. exists S, 0. split_and!; [done| |done|].
  - destruct S. cbn in Hc. by rewrite Hc.
  - unfold table_is in Ht. rewrite andb_true_iff, Z.eqb_eq in Ht. destruct Ht as [-> _]. done.
Qed.

Lemma in_use_action S type :
  in_use init (states * msgs) S → 0 <= type < msgs →
  StateMachinePerformAction S type (CurrState S) = Some (Some (ref (CurrState S) type)) ∧ 0 <= CurrState S < states.
Proof.
  destruct init_table as (S1 & H1 & _ & Ht). intros (S0 & st & H0 & -> & Hst) Hty. rewrite H0 in H1. injection H1 as ->.
  unfold table_is in Ht. rewrite andb_true_iff, Z.eqb_eq, forallb_forall in Ht. destruct Ht as [Hn Ht].
  rewrite Hn in Hst. split; [|done]. specialize (Ht st). rewrite forallb_forall in Ht.
  change (StateMachinePerformAction (go_to S1 st) type (CurrState (go_to S1 st))) with (StateMachinePerformAction S1 type st).
  eapply bool_decide_eq_true_1, Ht; apply list_elem_of_In, elem_of_seqZ; lia.
Qed.
End Table.

(** A cleared adapter: the tables have their size and hold NULL. *)
Definition cleared (S : STATE_MACHINE) (size : Z) : Prop := TransFunc S = replicate (Z.to_nat size) None.

(** [MlmeInit] succeeds: no table is too small for its machine. *)
Lemma MlmeInit_ok m :
  Ring.buffers (Queue m) →
  cleared (AssocMachine m) (MAX_ASSOC_STATE * MAX_ASSOC_MSG) → cleared (AuthMachine m) (MAX_AUTH_STATE * MAX_AUTH_MSG) →
  cleared (AuthRspMachine m) (MAX_AUTH_RSP_STATE * MAX_AUTH_RSP_MSG) → cleared (SyncMachine m) (MAX_SYNC_STATE * MAX_SYNC_MSG) →
  cleared (ActMachine m) (MAX_ACT_STATE * MAX_ACT_MSG) → cleared (WpaMachine m) (MAX_WPA_PTK_STATE * MAX_WPA_MSG) →
  ∃ m', MlmeInit m = Some m' ∧ ready m' ∧ Ring.ring (Queue m') None [] None ∧ bRunning m' = false ∧ Flags m' = Flags m.
Proof.
  intros Hb H1 H2 H3 H4 H5 H6. unfold MlmeInit. destruct (Ring.MlmeQueueInit_ok _ Hb) as (q & -> & Hr & _).
  rewrite H1, H2, H3, H4, H5, H6, Some_bind.
  destruct (init_in_use _ _ _ _ assoc_table) as (s1 & -> & U1); [done|].
  destruct (init_in_use _ _ _ _ auth_table) as (s2 & -> & U2); [done|].
  destruct (init_in_use _ _ _ _ auth_rsp_table) as (s3 & -> & U3); [done|].
  destruct (init_in_use _ _ _ _ sync_table) as (s4 & -> & U4); [done|].
  destruct (init_in_use _ _ _ _ act_table) as (s5 & -> & U5); [done|].
  destruct (init_in_use _ _ _ _ wpa_table) as (s6 & -> & U6); [done|].
  rewrite !Some_bind. eexists. split; [reflexivity|]. by split_and!.
Qed.

(** ** Where a message goes *)

(** The function for a message, by the states of the machines. *)
Definition handler (m : mlme) (mach type : Z) : STATE_MACHINE_FUNC :=
  if mach =? ASSOC_STATE_MACHINE then assoc_ref (CurrState (AssocMachine m)) type
  else if mach =? AUTH_STATE_MACHINE then auth_ref (CurrState (AuthMachine m)) type
  else if mach =? AUTH_RSP_STATE_MACHINE then auth_rsp_ref (CurrState (AuthRspMachine m)) type
  else if mach =? SYNC_STATE_MACHINE then sync_ref (CurrState (SyncMachine m)) type
  else if mach =? MLME_CNTL_STATE_MACHINE then MlmeCntlMachinePerformAction
  else if mach =? ACTION_STATE_MACHINE then act_ref (CurrState (ActMachine m)) type
  else wpa_ref (CurrState (WpaMachine m)) type.

(** Machine and message are in the tables. *)
Definition in_table (mach type : Z) : Prop :=
  mach = ASSOC_STATE_MACHINE ∧ 0 <= type < MAX_ASSOC_MSG ∨ mach = AUTH_STATE_MACHINE ∧ 0 <= type < MAX_AUTH_MSG ∨
  mach = AUTH_RSP_STATE_MACHINE ∧ 0 <= type < MAX_AUTH_RSP_MSG ∨ mach = SYNC_STATE_MACHINE ∧ 0 <= type < MAX_SYNC_MSG ∨
  mach = MLME_CNTL_STATE_MACHINE ∨
  mach = ACTION_STATE_MACHINE ∧ 0 <= type < MAX_ACT_MSG ∨ mach = WPA_STATE_MACHINE ∧ 0 <= type < MAX_WPA_MSG.

Lemma in_table_dispatch run m i Elem :
  ready m → in_table (Machine Elem) (MsgType Elem) →
  mlme_dispatch run m i Elem = run (handler m (Machine Elem) (MsgType Elem)) m i.
Proof.
  intros [H1 H2 H3 H4 H5 H6] Ht. unfold mlme_dispatch, handler, perform.
  destruct Ht as [[-> Ht]|[[-> Ht]|[[-> Ht]|[[-> Ht]|[->|[[-> Ht]|[-> Ht]]]]]]]; cbn [Z.eqb Pos.eqb].
  - by rewrite (proj1 (in_use_action _ _ _ _ assoc_table _ _ H1 Ht)).
  - by rewrite (proj1 (in_use_action _ _ _ _ auth_table _ _ H2 Ht)).
  - by rewrite (proj1 (in_use_action _ _ _ _ auth_rsp_table _ _ H3 Ht)).
  - by rewrite (proj1 (in_use_action _ _ _ _ sync_table _ _ H4 Ht)).
  - done.
  - by rewrite (proj1 (in_use_action _ _ _ _ act_table _ _ H5 Ht)).
  - by rewrite (proj1 (in_use_action _ _ _ _ wpa_table _ _ H6 Ht)).
Qed.

(** The functions that act on a message of the driver itself: requests,
    timeouts and the control machine. *)
Definition for_own_messages (f : STATE_MACHINE_FUNC) : bool :=
  match f with
  | MlmeAssocReqAction | MlmeReassocReqAction | MlmeDisassocReqAction | InvalidStateWhenAssoc | InvalidStateWhenReassoc
  | InvalidStateWhenDisassociate | AssocTimeoutAction | ReassocTimeoutAction | DisassocTimeoutAction | MlmeAuthReqAction
  | InvalidStateWhenAuth | AuthTimeoutAction | MlmeScanReqAction | MlmeForceScanReqAction | MlmeJoinReqAction
  | MlmeForceJoinReqAction | MlmeStartReqAction | InvalidStateWhenStart | BeaconTimeoutAtJoinAction | ScanTimeoutAction
  | MlmeADDBAAction | MlmeDELBAAction | MlmeQOSAction | MlmeDLSAction | MlmeCntlMachinePerformAction => true
  | _ => false
  end.

(** What [MsgTypeSubst] can answer. *)
Definition frame_messages : list (Z * Z) :=
  [(1, 4); (1, 5); (1, 6); (1, 7); (4, 9); (4, 4); (4, 3); (4, 5); (1, 3); (3, 1); (2, 1); (0xff, 0); (3, 2); (9, 23)] ++
  map (pair 9) (seqZ 0 18) ++ map (pair 23) (seqZ 0 5).

Lemma WpaMsgTypeSubst_range t x : WpaMsgTypeSubst t = Some x → 0 <= x < 5.
Proof.
  unfold WpaMsgTypeSubst. repeat case_match; intros [= <-];
    unfold MT2_EAPPacket, MT2_EAPOLStart, MT2_EAPOLLogoff, MT2_EAPOLKey, MT2_EAPOLASFAlert; lia.
Qed.

Lemma MsgTypeSubst_range frame p : bytes frame → MsgTypeSubst frame = Some (Some p) → p ∈ frame_messages.
Proof.
  intros Hb. unfold MsgTypeSubst. destruct (load frame 0 1) as [fc|]; [|done]. rewrite Some_bind. cbv zeta.
  assert (∀ a b, a = (p : Z * Z) → b = true → bool_decide (a ∈ frame_messages) = b → p ∈ frame_messages) as H.
  { intros a b <- -> Hd. by apply bool_decide_eq_true_1 in Hd. }
  repeat match goal with
  | |- (if ?c then _ else _) = _ → _ => destruct c
  | |- Some (Some ?a) = _ → _ => let E := fresh in intros E; injection E as E; apply (H _ _ E eq_refl); reflexivity
  | |- Some None = _ → _ => discriminate
  end.
  - destruct (load frame (LENGTH_802_11 + LENGTH_802_1_H + 1) 1) as [t|]; [|done]. rewrite Some_bind.
    destruct (WpaMsgTypeSubst t.[0]) as [x|] eqn:Ht; [|done]. intros [= <-]. apply WpaMsgTypeSubst_range in Ht.
    apply elem_of_app. right. apply elem_of_app. right. apply list_elem_of_fmap. exists x. split; [done|]. apply elem_of_seqZ. lia.
  - destruct (load frame 26 2) as [s|]; [|done]. destruct (load frame 24 2) as [al|]; [|done]. rewrite !Some_bind.
    repeat match goal with
    | |- (if ?c then _ else _) = _ → _ => destruct c
    | |- Some (Some ?a) = _ → _ => let E := fresh in intros E; injection E as E; apply (H _ _ E eq_refl); reflexivity
    | |- Some None = _ → _ => discriminate
    end.
  - destruct (load frame 24 1) as [c|] eqn:Hc; [|done]. rewrite Some_bind.
    assert (0 <= c.[0] & 0x7f) as H0 by (apply Z.land_nonneg; lia).
    destruct (Z.ltb_spec MAX_PEER_CATE_MSG (c.[0] & 0x7f)); intros [= <-]; [by apply (H (9, 23) true eq_refl)|].
    unfold MAX_PEER_CATE_MSG in *. apply elem_of_app. right. apply elem_of_app. left. apply list_elem_of_fmap.
    eexists. split; [reflexivity|]. apply elem_of_seqZ. lia.
Qed.

(** What a frame may lead to: no function for the driver's own messages, and a
    response only in the state that waits for it. *)
Definition obeyed (m : mlme) (f : STATE_MACHINE_FUNC) : Prop :=
  for_own_messages f = false ∧
  (f = PeerAssocRspAction → CurrState (AssocMachine m) = ASSOC_WAIT_RSP) ∧
  (f = PeerReassocRspAction → CurrState (AssocMachine m) = REASSOC_WAIT_RSP) ∧
  (f = PeerAuthRspAtSeq2Action → CurrState (AuthMachine m) = AUTH_WAIT_SEQ2) ∧
  (f = PeerAuthRspAtSeq4Action → CurrState (AuthMachine m) = AUTH_WAIT_SEQ4).

(** The tables, for the messages of frames. *)
Lemma assoc_obeyed m ty : ty ∈ [3; 4; 5; 6; 7] → obeyed m (assoc_ref (CurrState (AssocMachine m)) ty).
Proof.
  revert ty. apply Forall_forall. unfold obeyed, assoc_ref, MT2_PEER_ASSOC_RSP, MT2_PEER_REASSOC_RSP. repeat constructor; try done; cbn.
  all: destruct (Z.eqb_spec (CurrState (AssocMachine m)) ASSOC_WAIT_RSP) as [H|H]; try done.
  all: destruct (Z.eqb_spec (CurrState (AssocMachine m)) REASSOC_WAIT_RSP) as [H'|H']; done.
Qed.

Lemma auth_obeyed m : 0 <= CurrState (AuthMachine m) < MAX_AUTH_STATE → obeyed m (auth_ref (CurrState (AuthMachine m)) 1).
Proof.
  intros H. assert (CurrState (AuthMachine m) = 0 ∨ CurrState (AuthMachine m) = 1 ∨ CurrState (AuthMachine m) = 2) as Hc
    by (unfold MAX_AUTH_STATE in H; lia).
  unfold obeyed. by destruct Hc as [-> | [-> | ->]].
Qed.

Lemma sync_obeyed m ty : ty ∈ [3; 4; 5; 9] → obeyed m (sync_ref (CurrState (SyncMachine m)) ty).
Proof.
  revert ty. apply Forall_forall. unfold obeyed, sync_ref. repeat constructor; try done; cbn.
  all: destruct (_ =? _); try done; destruct (_ =? _); done.
Qed.

Lemma frame_message_obeyed m p :
  0 <= CurrState (AuthMachine m) < MAX_AUTH_STATE → p ∈ frame_messages →
  p = (0xff, 0) ∨ in_table p.1 p.2 ∧ p.2 ≠ MT2_RESET_CONF ∧ obeyed m (handler m p.1 p.2).
Proof.
  intros Hst Hp. revert p Hp. apply Forall_forall.
  let l := eval vm_compute in frame_messages in change frame_messages with l.
  repeat (apply Forall_cons_2; [|]); [..|by apply Forall_nil_2].
  all: first [by left|right]; cbn [fst snd].
  all: split_and!; [unfold in_table, ASSOC_STATE_MACHINE, AUTH_STATE_MACHINE, AUTH_RSP_STATE_MACHINE, SYNC_STATE_MACHINE,
         ACTION_STATE_MACHINE, WPA_STATE_MACHINE, MAX_ASSOC_MSG, MAX_AUTH_MSG, MAX_AUTH_RSP_MSG, MAX_SYNC_MSG, MAX_ACT_MSG,
         MAX_WPA_MSG; lia|done|].
  all: first [by apply assoc_obeyed, list_elem_of_In; cbn; tauto | by apply auth_obeyed
             | apply sync_obeyed, list_elem_of_In; cbn; tauto | by split_and!].
Qed.

(** C13: A received frame, whatever its bytes are, is handed to a function of its
    machine's table, the one the reference tables name for the machine's
    state, or counted as illegal (an authentication response with an unknown
    algorithm); it never restarts the state machines and never reaches a
    function that is meant for the driver's own requests and timeouts; and
    responses are obeyed only in the state that waits for them. *)
Theorem received_frame_dispatch run m i Elem frame :
  ready m → bytes frame → MsgTypeSubst frame = Some (Some (Machine Elem, MsgType Elem)) →
  (Machine Elem = 0xff ∧ MsgType Elem = 0 ∧ mlme_dispatch run m i Elem = Some (note m (IllegalMachine 0xff))) ∨
  (mlme_dispatch run m i Elem = run (handler m (Machine Elem) (MsgType Elem)) m i ∧
   MsgType Elem ≠ MT2_RESET_CONF ∧ obeyed m (handler m (Machine Elem) (MsgType Elem))).
Proof.
  intros Hr Hb Hs. apply MsgTypeSubst_range in Hs; [|done].
  pose proof (in_use_action _ _ _ _ auth_table _ 0 (ready_auth m Hr)) as [_ Hst]; [done|].
  destruct (frame_message_obeyed m _ Hst Hs) as [[= H1 H2]|(Ht & Hne & Ho)].
  - left. unfold mlme_dispatch. by rewrite H1, H2.
  - right. split; [by apply in_table_dispatch|done].
Qed.

(** ** The loop of [MlmeHandler] *)

(** What is waiting may be dispatched. *)
Definition msg_place (x : Ring.message) : Z * Z :=
  match x with Ring.Posted mach type _ _ _ | Ring.Received mach type _ _ _ _ => (mach, type) end.

Definition dispatchable (x : Ring.message) : Prop :=
  msg_place x = (0xff, 0) ∨ in_table (msg_place x).1 (msg_place x).2.

(** While a handler runs, messages are only posted. *)
Definition only_posts (es : list Ring.event) : Prop :=
  Forall (λ ev, match ev with Ring.Accepted _ | Ring.Refused => True | _ => False end) es.

Definition total (weight : Ring.message → nat) (xs : list Ring.message) : nat := list_sum (map weight xs).

Lemma total_cons weight x xs : total weight (x :: xs) = (weight x + total weight xs)%nat.
Proof. done. Qed.

Lemma total_app weight xs ys : total weight (xs ++ ys) = (total weight xs + total weight ys)%nat.
Proof. unfold total. by rewrite map_app, list_sum_app. Qed.

Lemma holds_place e x : Ring.holds e x → msg_place x = (Machine e, MsgType e).
Proof. destruct x; cbn; intros (-> & -> & _); done. Qed.

(** Posting appends to what waits. *)
Lemma posts_ring i q es q' ws cur :
  Ring.steps {| Ring.queue := q; Ring.running := Some i |} es {| Ring.queue := q'; Ring.running := Some i |} → only_posts es →
  Ring.ring q (Some i) ws cur → Ring.ring q' (Some i) (ws ++ Ring.accepted es) cur.
Proof.
  intros Hs Hp Hr. remember {| Ring.queue := q; Ring.running := Some i |} as s0 eqn:H0.
  remember {| Ring.queue := q'; Ring.running := Some i |} as s1 eqn:H1.
  assert (Ring.ring (Ring.queue s1) (Ring.running s1) (ws ++ Ring.accepted es) cur ∧ Ring.running s1 = Some i) as [H _];
    [|by subst s1].
  clear H1. induction Hs as [|s es s1 ev s2 Hs IH Hst]; [subst; cbn; by rewrite app_nil_r|].
  apply Forall_app in Hp as [Hp Hev]. apply Forall_cons in Hev as [Hev _]. destruct (IH H0 Hp) as [Hr1 Hi].
  pose proof (Ring.step_ring _ _ _ _ _ Hst Hr1) as H. rewrite Ring.accepted_snoc. destruct ev as [x|x| |j|]; try done.
  - rewrite app_assoc. split; [done|]. rewrite <- Hi. inversion Hst; subst; try by destruct ok.
  - subst s2. by rewrite app_nil_r.
Qed.

Section Loop.
Context (run : STATE_MACHINE_FUNC → mlme → nat → option mlme) (weight : Ring.message → nat).

(** A handler of message [x] keeps the tables, posts messages only, which may
    be dispatched in their turn and together weigh less than [x]; other
    threads may post while it runs, with the same restriction. *)
Definition well_behaved : Prop :=
  ∀ f m i x e, ready m → Entry (Queue m) !! i = Some e → Ring.holds e x →
  ∃ m' es, run f m i = Some m' ∧ ready m' ∧ only_posts es ∧
    Ring.steps {| Ring.queue := Queue m; Ring.running := Some i |} es {| Ring.queue := Queue m'; Ring.running := Some i |} ∧
    Forall dispatchable (Ring.accepted es) ∧ (total weight (Ring.accepted es) < weight x)%nat.

Context (run_ok : well_behaved) (weight_pos : ∀ x, (0 < weight x)%nat).

Lemma restart_ready m : ready m → ready (MlmeRestartStateMachine m) ∧ Queue (MlmeRestartStateMachine m) = Queue m.
Proof.
  intros [H1 H2 H3 H4 H5 H6]. split; [|done].
  assert (∀ init size S, in_use init size S → in_use init size (go_to S 0)) as Hg.
  { intros init size S (S0 & st0 & H0 & -> & Hst). exists S0, 0. split_and!; try done. lia. }
  split; cbn; try done; by apply Hg.
Qed.

Lemma mlme_turn_ok m x ws :
  ready m → Ring.ring (Queue m) None (x :: ws) None → dispatchable x →
  ∃ m' xs, mlme_turn run m = Some m' ∧ ready m' ∧ Ring.ring (Queue m') None (ws ++ xs) None ∧
    Forall dispatchable xs ∧ (total weight xs < weight x)%nat.
Proof.
  intros Hr Hq Hd. destruct (Ring.MlmeDequeue_ok _ _ _ _ Hq) as [Hq1 _].
  unfold mlme_turn. destruct (MlmeDequeue (Queue m)) as [i q]. cbn [fst snd] in Hq1.
  destruct (Ring.ring_running _ _ _ _ Hq1) as [_ (e & He & Hh & _)]. rewrite He, Some_bind.
  set (m1 := set_queue m q).
  assert (∃ m2 xs, (if MsgType e =? MT2_RESET_CONF then Some (MlmeRestartStateMachine m1) else mlme_dispatch run m1 i e) = Some m2 ∧
            ready m2 ∧ Ring.ring (Queue m2) (Some i) (ws ++ xs) (Some x) ∧ Forall dispatchable xs ∧
            (total weight xs < weight x)%nat) as (m2 & xs & -> & Hr2 & Hq2 & Hxs & Hw).
  { assert (ready m1) as Hr1 by (by destruct Hr; split). pose proof (holds_place _ _ Hh) as Hpl.
    destruct (Z.eqb_spec (MsgType e) MT2_RESET_CONF) as [_|_].
    { destruct (restart_ready m1 Hr1) as [? HQ]. eexists _, []. split; [done|]. rewrite HQ, app_nil_r. split_and!; [done|done|done|apply weight_pos]. }
    destruct Hd as [Hff|Ht]; rewrite Hpl in *.
    { injection Hff as Hm _. unfold mlme_dispatch. rewrite Hm. eexists _, []. split; [done|]. rewrite app_nil_r.
      split_and!; [by destruct Hr1; split|done|done|apply weight_pos]. }
    rewrite (in_table_dispatch run m1 i e Hr1 Ht).
    destruct (run_ok (handler m1 (Machine e) (MsgType e)) m1 i x e Hr1 He Hh) as (m2 & es & -> & Hr2 & Hp & Hs & Hes & Hw).
    exists m2, (Ring.accepted es). split_and!; try done. by apply (posts_ring i q es). }
  rewrite Some_bind. destruct (Ring.release_element_ok _ _ _ _ Hq2) as (q3 & -> & Hq3 & _). rewrite Some_bind.
  exists (set_queue m2 q3), xs. split_and!; try done. by destruct Hr2; split.
Qed.

Lemma mlme_loop_ok fuel m ws :
  ready m → Ring.ring (Queue m) None ws None → Forall dispatchable ws → (total weight ws < fuel)%nat →
  ∃ m' ws', while_opt fuel (λ m, negb (MlmeQueueEmpty (Queue m)) && negb (mlme_stopped m)) (mlme_turn run) m = Some m' ∧
    ready m' ∧ Ring.ring (Queue m') None ws' None ∧ (MlmeQueueEmpty (Queue m') = true ∨ mlme_stopped m' = true).
Proof.
  revert m ws. induction fuel as [|fuel IH]; intros m ws Hr Hq Hd Hf; [lia|]. cbn [while_opt].
  destruct (MlmeQueueEmpty (Queue m)) eqn:He; cbn [negb andb]; [exists m, ws; split_and!; try done; by left|].
  destruct (mlme_stopped m) eqn:Hst; cbn [negb]; [exists m, ws; split_and!; try done; by right|].
  destruct ws as [|x ws]; [unfold MlmeQueueEmpty in He; by rewrite (Ring.ring_num _ _ _ _ Hq) in He|].
  apply Forall_cons in Hd as [Hx Hd].
  destruct (mlme_turn_ok m x ws Hr Hq Hx) as (m1 & xs & -> & Hr1 & Hq1 & Hxs & Hw). rewrite Some_bind.
  apply (IH m1 (ws ++ xs) Hr1 Hq1); [by apply Forall_app|].
  rewrite total_cons in Hf. rewrite total_app. lia.
Qed.
End Loop.

(** [MlmeHandler] ends when the handlers do and post only messages that weigh
    less than the one they handle - a request leads to a confirmation, that to
    nothing.  It comes back with the queue empty, or with messages left in it
    when the device is halted meanwhile, and can be called again.  That the
    handlers behave so is a hypothesis on them. *)
Theorem MlmeHandler_terminates run weight m ws :
  well_behaved run weight → (∀ x, (0 < weight x)%nat) →
  ready m → bRunning m = false → Ring.ring (Queue m) None ws None → Forall dispatchable ws →
  ∃ m' ws', MlmeHandler run (S (total weight ws)) m = Some m' ∧ bRunning m' = false ∧ ready m' ∧
    Ring.ring (Queue m') None ws' None ∧ (ws' = [] ∨ mlme_stopped m' = true).
Proof.
  intros Hrun Hw Hr Hb Hq Hd. unfold MlmeHandler. rewrite Hb.
  destruct (mlme_loop_ok run weight Hrun Hw (S (total weight ws)) (set_running m true) ws) as (m' & ws' & -> & Hr' & Hq' & Hend).
  { by destruct Hr; split. } { done. } { done. } { lia. }
  rewrite Some_bind. exists (set_running m' false), ws'. split_and!; try done; [by destruct Hr'; split|].
  destruct Hend as [He|Hst]; [left|by right]. unfold MlmeQueueEmpty in He. rewrite (Ring.ring_num _ _ _ _ Hq') in He.
  destruct ws'; [done|]. apply Z.eqb_eq in He. cbn [length] in He. lia.
Qed.

(** ** Witnesses *)

Module Sample.
Definition cleared_machine (size : Z) : STATE_MACHINE :=
  {| Base := 0; NrState := 0; NrMsg := 0; CurrState := 0; TransFunc := replicate (Z.to_nat size) None |}.

Definition adapter : mlme :=
  {| Queue := Ring.empty_queue; bRunning := false; Flags := 0; cfg_Channel := 6;
     AssocMachine := cleared_machine (MAX_ASSOC_STATE * MAX_ASSOC_MSG); AuthMachine := cleared_machine (MAX_AUTH_STATE * MAX_AUTH_MSG);
     AuthRspMachine := cleared_machine (MAX_AUTH_RSP_STATE * MAX_AUTH_RSP_MSG);
     SyncMachine := cleared_machine (MAX_SYNC_STATE * MAX_SYNC_MSG); CntlState := 0; WpaPskMachine := cleared_machine 0;
     ActMachine := cleared_machine (MAX_ACT_STATE * MAX_ACT_MSG); WpaMachine := cleared_machine (MAX_WPA_PTK_STATE * MAX_WPA_MSG);
     mlme_log := [] |}.

Lemma adapter_ready : ∃ m, MlmeInit adapter = Some m ∧ ready m ∧ Ring.ring (Queue m) None [] None ∧ bRunning m = false.
Proof.
  destruct (MlmeInit_ok adapter) as (m & Hm & Hr & Hq & Hb & _);
    [exact Ring.empty_buffers|unfold cleared; reflexivity..|].
  exists m. split; [exact Hm|]. split; [exact Hr|]. split; [exact Hq|exact Hb].
Qed.

(** A beacon in the queue. *)
Definition beacon : MLME_QUEUE_ELEM :=
  {| Msg := 0x80 :: zeros 33; Machine := SYNC_STATE_MACHINE; MsgType := MT2_PEER_BEACON; MsgLen := 34; TimeStampLow := 0;
     TimeStampHigh := 0; Rssi0 := 0; Rssi1 := 0; Rssi2 := 0; Signal := 0; Elem_Channel := 6; Wcid := 0; Occupied := true;
     OpMode := 0; Priv := 0 |}.

(** Handlers that only write down that they were called. *)
Definition run (f : STATE_MACHINE_FUNC) (m : mlme) (i : nat) : option mlme := Some (note m (IllegalMachine (Z.of_nat i))).

Lemma run_well_behaved : well_behaved run (λ _, 1%nat).
Proof.
  intros f m i x e [H1 H2 H3 H4 H5 H6] _ _. eexists _, []. split; [reflexivity|].
  split; [by split|]. split; [constructor|]. split; [constructor|]. split; [constructor|]. cbn. lia.
Qed.

Lemma queue_with_beacon :
  ∃ m, ready m ∧ bRunning m = false ∧
       Ring.ring (Queue m) None [Ring.Posted SYNC_STATE_MACHINE MT2_PEER_BEACON 2 (Some [1; 2]) 0] None.
Proof.
  destruct adapter_ready as (m & _ & [H1 H2 H3 H4 H5 H6] & Hq & Hb).
  destruct (Ring.MlmeEnqueue_ok false (Queue m) None [] None SYNC_STATE_MACHINE MT2_PEER_BEACON 2 (Some [1; 2]) 0 Hq)
    as (q & _ & Hr); [lia|cbn; lia|].
  rewrite (Ring.ring_num _ _ _ _ Hq) in Hr. cbn in Hr. exists (set_queue m q). split_and!; [by split|done|].
  apply Hr. by right.
Qed.
End Sample.

Lemma received_frame_dispatch_witness :
  ∃ m, MlmeInit Sample.adapter = Some m ∧
    ((Machine Sample.beacon = 0xff ∧ MsgType Sample.beacon = 0 ∧
      mlme_dispatch Sample.run m 0 Sample.beacon = Some (note m (IllegalMachine 0xff))) ∨
     (mlme_dispatch Sample.run m 0 Sample.beacon =
        Sample.run (handler m SYNC_STATE_MACHINE MT2_PEER_BEACON) m 0 ∧
      MsgType Sample.beacon ≠ MT2_RESET_CONF ∧ obeyed m (handler m SYNC_STATE_MACHINE MT2_PEER_BEACON))).
Proof.
  destruct Sample.adapter_ready as (m & Hm & Hr & _). exists m. split; [exact Hm|].
  apply (received_frame_dispatch Sample.run m 0 Sample.beacon (0x80 :: zeros 33) Hr).
  - repeat constructor; lia.
  - reflexivity.
Defined.

Lemma MlmeHandler_terminates_witness :
  ∃ m ws m' ws', length ws = 1%nat ∧ MlmeHandler Sample.run (S (total (λ _, 1%nat) ws)) m = Some m' ∧ bRunning m' = false ∧
    ready m' ∧ Ring.ring (Queue m') None ws' None ∧ (ws' = [] ∨ mlme_stopped m' = true).
Proof.
  destruct Sample.queue_with_beacon as (m & Hr & Hb & Hq).
  destruct (MlmeHandler_terminates Sample.run (λ _, 1%nat) m
    [Ring.Posted SYNC_STATE_MACHINE MT2_PEER_BEACON 2 (Some [1; 2]) 0] Sample.run_well_behaved) as (m' & ws' & H).
  - intros _. lia.
  - exact Hr.
  - exact Hb.
  - exact Hq.
  - constructor; [right; do 3 right; left; split; [reflexivity|cbn; unfold MT2_PEER_BEACON, MAX_SYNC_MSG; lia]|constructor].
  - exists m, [Ring.Posted SYNC_STATE_MACHINE MT2_PEER_BEACON 2 (Some [1; 2]) 0], m', ws'. split; [reflexivity|exact H].
Defined.
