(* ===== verification/WpaCmm.v ===== *)
(** * Shared WPA data of the rt5370 driver

    The cipher key that the WEP, TKIP and CCMP routines are given
    ([include/wpa_cmm.h]) and the header and trailer lengths of
    [include/dot11i_wpa.h]. *)

From stdpp Require Import base list numbers list_numbers.
From Stdlib Require Import ZArith Lia.
From S2P Require Import Prelude.

Definition LEN_WEP_IV_HDR : Z := 4.
Definition LEN_ICV : Z := 4.
Definition LEN_WEP_TSC : Z := 3.
Definition LEN_TKIP_IV_HDR : Z := 8.
Definition LEN_TKIP_MIC : Z := 8.
Definition LEN_CCMP_HDR : Z := 8.
Definition LEN_CCMP_MIC : Z := 8.
Definition LEN_KEY_DESC_IV : Z := 16.
Definition LEN_PTK_KEK : Z := 16.
Definition MAC_ADDR_LEN : Z := 6.

Record CIPHER_KEY := {
  Key : list Z;
  TxMic : list Z;
  RxMic : list Z;
  TxTsc : list Z;
  RxTsc : list Z;
  CipherAlg : Z;
  KeyLen : Z;
  Type_ : Z;
}.

(** The arrays have the sizes of the struct and hold bytes. *)
Definition key_wf (k : CIPHER_KEY) : Prop :=
  length (Key k) = 16%nat ∧ bytes (Key k) ∧
  length (TxMic k) = 8%nat ∧ bytes (TxMic k) ∧
  length (RxMic k) = 8%nat ∧ bytes (RxMic k) ∧ byte (KeyLen k).
