(* ===== verification/WpaKeys.v ===== *)
(** * Key derivation of WPA

    Models the key derivation functions of
    [linux/Arch/rt5370.driver/common/cmm_wpa.c] over the HMAC of [Hmac], with
    [RTMPCompareMemory] of [common/rtmp_init.c]: the packet counter increment,
    the PRF of IEEE 802.11i, the PBKDF2 of a pass phrase, the KDF of IEEE
    802.11r, the PMKID, the pairwise and the group key and the nonces.

    Pointers into a buffer are the part of the buffer behind them ([call_at]).
    The references are IEEE 802.11i 8.5.1 and Annex H, RFC 2898 and IEEE
    802.11r 8.5.1.5.2. *)

From stdpp Require Import base list numbers list_numbers.
From Stdlib Require Import ZArith Lia.
From S2P Require Import Prelude BlockHash Md5 Sha Hmac WpaCmm.

Definition SHA1_DIGEST_SIZE : Z := 20.
Definition PMK_LEN : Z := 32.
Definition LEN_PMK : Z := 32.
Definition LEN_PMKID : Z := 16.
Definition LEN_PTK : Z := 64.

(** A call that is given the pointer [&m[off]]. *)
Definition call_at (m : list Z) (off : Z) (f : list Z → option (list Z)) : option (list Z) :=
  rest ← load m off (Z.of_nat (length m) - off);
  rest ← f rest;
  Some (take (Z.to_nat off) m ++ rest).

(** [for (pos = 0; pos < len; pos++)] of [inc_iv_byte]: [n] bytes are left. *)
Fixpoint inc_iv_loop (n pos : nat) (carry : bool) (cnt : Z) (iv : list Z) : list Z :=
  match n with
  | O => iv
  | S n =>
      let pre_iv := iv.[pos] in
      let iv := if carry then iv.[pos <- u8 (pre_iv + 1)] else iv.[pos <- u8 (pre_iv + cnt)] in
      if pre_iv <? iv.[pos] then iv else inc_iv_loop n (S pos) true cnt iv
  end.

Definition inc_iv_byte (iv : list Z) (len : nat) (cnt : Z) : list Z :=
  inc_iv_loop len 0 false cnt iv.

(** [input = prefix || 0 || data || 0] and its length. *)
Definition PRF_input (input prefix : list Z) (prefix_len : Z) (data : list Z) (data_len : Z)
    : option (list Z * Z) :=
  p ← load prefix 0 prefix_len;
  input ← store input 0 p;
  input ← store input prefix_len [0];
  d ← load data 0 data_len;
  input ← store input (prefix_len + 1) d;
  let total_len := prefix_len + 1 + data_len in
  input ← store input total_len [0];
  Some (input, total_len + 1).

Definition PRF (E : env) (key : list Z) (key_len : Z) (prefix : list Z) (prefix_len : Z)
    (data : list Z) (data_len : Z) (output : list Z) (len : Z) : option (list Z) :=
  if negb (kmalloc E 1024) then Some output
  else
    '(input, total_len) ← PRF_input (local_array E 1024) prefix prefix_len data data_len;
    '(output, _) ←
      loop_opt 0 (Z.to_nat (Z.quot (len + 19) 20))
        (λ i '(output, input),
           output ← call_at output (20 * Z.of_nat i)
                      (λ out, RT_HMAC_SHA1 key key_len input total_len out SHA1_DIGEST_SIZE);
           let last := Z.to_nat (total_len - 1) in
           Some (output, input.[last <- u8 (input.[last] + 1)]))
        (output, input);
    Some output.

(** [strlen]: the characters before the terminator. *)
Fixpoint strlen (s : list Z) : option Z :=
  match s with
  | [] => None
  | c :: s => if c =? 0 then Some 0 else n ← strlen s; Some (n + 1)
  end.

Definition F (E : env) (password ssid : list Z) (ssidlength iterations count : Z) (output : list Z)
    : option (list Z) :=
  len ← strlen password;
  s ← load ssid 0 ssidlength;
  digest ← store (local_array E 36) 0 s;
  digest ← store digest ssidlength [Z.shiftr count 24 & 0xff];
  digest ← store digest (ssidlength + 1) [Z.shiftr count 16 & 0xff];
  digest ← store digest (ssidlength + 2) [Z.shiftr count 8 & 0xff];
  digest ← store digest (ssidlength + 3) [count & 0xff];
  digest1 ← RT_HMAC_SHA1 password len digest (ssidlength + 4) (local_array E 20) SHA1_DIGEST_SIZE;
  output ← store output 0 digest1;
  '(output, _, _) ←
    loop_opt 1 (Z.to_nat (iterations - 1))
      (λ _ '(output, digest, digest1),
         digest ← RT_HMAC_SHA1 password len digest1 SHA1_DIGEST_SIZE digest SHA1_DIGEST_SIZE;
         digest1 ← store digest1 0 (take 20 digest);
         output ← xor_copy output 0 0 (take 20 digest);
         Some (output, digest, digest1))
      (output, digest, digest1);
  Some output.

(** The return value and [output]. *)
Definition RtmpPasswordHash (E : env) (password ssid : list Z) (ssidlength : Z) (output : list Z)
    : option (Z * list Z) :=
  len ← strlen password;
  if (63 <? len) || (32 <? ssidlength) then Some (0, output)
  else
    output ← F E password ssid ssidlength 4096 1 output;
    output ← call_at output SHA1_DIGEST_SIZE (F E password ssid ssidlength 4096 2);
    Some (1, output).

Definition KDF (E : env) (key : list Z) (key_len : Z) (label : list Z) (label_len : Z)
    (data : list Z) (data_len : Z) (output : list Z) (len : Z) : option (list Z) :=
  let len_in_bits := Z.shiftl len 3 in
  if negb (kmalloc E 1024) then Some output
  else
    let input := (zeros 1024).[0 <- 1] in
    let total_len := 2 in
    l ← load label 0 label_len;
    input ← store input total_len l;
    let total_len := total_len + label_len in
    d ← load data 0 data_len;
    input ← store input total_len d;
    let total_len := total_len + data_len in
    input ← store input total_len [len_in_bits & 0xff];
    input ← store input (total_len + 1) [Z.shiftr (len_in_bits & 0xff00) 8];
    let total_len := total_len + 2 in
    '(output, _) ←
      loop_opt 0 (Z.to_nat ((len_in_bits + 255) / 256))
        (λ i '(output, input),
           output ← call_at output (32 * Z.of_nat i)
                      (λ out, RT_HMAC_SHA256 key key_len input total_len out 32);
           Some (output, input.[0 <- u8 (input.[0] + 1)]))
        (output, input);
    Some output.

(** ["PMK Name"] and the labels of the PRF. *)
Definition PMKID_Name : list Z := [0x50; 0x4d; 0x4b; 0x20; 0x4e; 0x61; 0x6d; 0x65].
Definition PTK_Prefix : list Z :=
  [0x50; 0x61; 0x69; 0x72; 0x77; 0x69; 0x73; 0x65; 0x20; 0x6b; 0x65; 0x79; 0x20;
   0x65; 0x78; 0x70; 0x61; 0x6e; 0x73; 0x69; 0x6f; 0x6e].
Definition GTK_Prefix : list Z :=
  [0x47; 0x72; 0x6f; 0x75; 0x70; 0x20; 0x6b; 0x65; 0x79; 0x20;
   0x65; 0x78; 0x70; 0x61; 0x6e; 0x73; 0x69; 0x6f; 0x6e].
Definition Counter_Prefix : list Z :=
  [0x49; 0x6e; 0x69; 0x74; 0x20; 0x43; 0x6f; 0x75; 0x6e; 0x74; 0x65; 0x72].

Definition RTMPDerivePMKID (E : env) (pAaddr pSpaddr pKey pPMKID : list Z) : option (list Z) :=
  text_buf ← store (local_array E 20) 0 PMKID_Name;
  a ← load pAaddr 0 MAC_ADDR_LEN;
  text_buf ← store text_buf 8 a;
  s ← load pSpaddr 0 MAC_ADDR_LEN;
  text_buf ← store text_buf 14 s;
  digest ← RT_HMAC_SHA1 pKey PMK_LEN text_buf 20 (local_array E 80) SHA1_DIGEST_SIZE;
  store pPMKID 0 (take 16 digest).

(** 0 for equal memory, 1 when the first is larger, 2 when it is smaller;
    [n] bytes are left. *)
Fixpoint compare_from (a b : list Z) (Index n : nat) : Z :=
  match n with
  | O => 0
  | S n =>
      if b.[Index] <? a.[Index] then 1
      else if a.[Index] <? b.[Index] then 2
      else compare_from a b (S Index) n
  end.

Definition RTMPCompareMemory (pSrc1 pSrc2 : list Z) (Length : Z) : option Z :=
  a ← load pSrc1 0 Length;
  b ← load pSrc2 0 Length;
  Some (compare_from a b 0 (Z.to_nat Length)).

(** The two addresses and the two nonces, each pair in ascending order. *)
Definition PTK_concatenation (ANonce AA SNonce SA : list Z) : option (list Z) :=
  let temp := zeros 32 in
  let concatenation := zeros 76 in
  c ← RTMPCompareMemory SA AA 6;
  small ← load (if c =? 1 then AA else SA) 0 6;
  concatenation ← store concatenation 0 small;
  large ← load (if c =? 1 then SA else AA) 0 6;
  concatenation ← store concatenation 6 large;
  temp ← store temp 0 (slice concatenation 6 6);
  c ← RTMPCompareMemory ANonce SNonce 32;
  small ← load (if c =? 0 then temp else if c =? 1 then SNonce else ANonce) 0 32;
  concatenation ← store concatenation 12 small;
  large ← load (if c =? 0 then temp else if c =? 1 then ANonce else SNonce) 0 32;
  store concatenation 44 large.

Definition WpaDerivePTK (E : env) (PMK ANonce AA SNonce SA output : list Z) (len : Z)
    : option (list Z) :=
  concatenation ← PTK_concatenation ANonce AA SNonce SA;
  PRF E PMK LEN_PMK PTK_Prefix 22 concatenation 76 output len.

Definition WpaDeriveGTK (E : env) (GMK GNonce AA output : list Z) (len : Z) : option (list Z) :=
  a ← load AA 0 6;
  concatenation ← store (local_array E 76) 0 a;
  n ← load GNonce 0 32;
  concatenation ← store concatenation 6 n;
  temp ← PRF E GMK PMK_LEN GTK_Prefix 19 concatenation 38 (local_array E 80) len;
  t ← load temp 0 len;
  store output 0 t.

(** [uptime i] is what [NdisGetSystemUpTime] answers in turn [i]. *)
Definition GenRandom (E : env) (uptime : nat → Z) (macAddr random : list Z) : option (list Z) :=
  let KeyCounter := zeros 32 in
  '(result, _) ←
    loop_opt 0 32
      (λ i '(result, local),
         a ← load macAddr 0 MAC_ADDR_LEN;
         local ← store local 0 a;
         local ← store local 6 (le_bytes 4 (uptime i));
         local ← store local 10 (take 32 result);
         local ← store local 42 (le_bytes 2 (Z.of_nat i));
         result ← PRF E KeyCounter 32 Counter_Prefix 12 local 44 result 32;
         Some (result, local))
      (zeros 80, zeros 80);
  store random 0 (take 32 result).

(** ** References *)

(** H-SHA-1 and PRF of IEEE 802.11i 8.5.1.1, lengths in bytes. *)
Definition h_sha1 (K A B : list Z) (i : nat) : list Z :=
  hmac sha1 K (A ++ [0] ++ B ++ [Z.of_nat i]).

Definition prf_blocks (K A B : list Z) (n : nat) : list Z := concat (map (h_sha1 K A B) (seq 0 n)).

Definition prf (K A B : list Z) (len : nat) : list Z := take len (prf_blocks K A B ((len + 19) / 20)).

(** PBKDF2 of RFC 2898 with HMAC-SHA-1: [T_i = U_1 xor ... xor U_c]. *)
Fixpoint pbkdf2_U (P S : list Z) (i c : nat) : list Z :=
  match c with
  | O => hmac sha1 P (S ++ be_bytes 4 (Z.of_nat i))
  | Datatypes.S c => hmac sha1 P (pbkdf2_U P S i c)
  end.

Fixpoint pbkdf2_T (P S : list Z) (i c : nat) : list Z :=
  match c with
  | O => pbkdf2_U P S i 0
  | Datatypes.S c' => xorl (pbkdf2_T P S i c') (pbkdf2_U P S i c)
  end.

(** [c] iterations, [n] blocks. *)
Definition pbkdf2 (P S : list Z) (c n : nat) : list Z :=
  concat (map (λ i, pbkdf2_T P S (i + 1) (c - 1)) (seq 0 n)).

(** KDF of IEEE 802.11r 8.5.1.5.2 for a length in bytes, 16-bit integers
    little-endian. *)
Definition kdf_blocks (K label context : list Z) (len n : nat) : list Z :=
  concat (map (λ i, hmac sha256 K (le_bytes 2 (Z.of_nat (i + 1)) ++ label ++ context ++
                                   le_bytes 2 (8 * Z.of_nat len))) (seq 0 n)).

Definition kdf (K label context : list Z) (len : nat) : list Z :=
  take len (kdf_blocks K label context len ((len + 31) / 32)).

(** The smaller and the larger string as numbers, first byte first. *)
Definition min_be (a b : list Z) : list Z := if be_word a <=? be_word b then a else b.
Definition max_be (a b : list Z) : list Z := if be_word a <=? be_word b then b else a.

(** The pairwise key of IEEE 802.11i 8.5.1.2. *)
Definition ptk_data (AA SPA ANonce SNonce : list Z) : list Z :=
  min_be AA SPA ++ max_be AA SPA ++ min_be ANonce SNonce ++ max_be ANonce SNonce.

Definition ptk (PMK AA SPA ANonce SNonce : list Z) (len : nat) : list Z :=
  prf PMK PTK_Prefix (ptk_data AA SPA ANonce SNonce) len.

Definition gtk (GMK AA GNonce : list Z) (len : nat) : list Z := prf GMK GTK_Prefix (AA ++ GNonce) len.

(** IEEE 802.11i, H.3: the first PRF test vector. *)
Example PRF_vector :
  PRF {| kmalloc := λ _, true; garbage := [7; 7; 7] |} (repeat 0x0b 20) 20
    [0x70; 0x72; 0x65; 0x66; 0x69; 0x78] 6 [0x48; 0x69; 0x20; 0x54; 0x68; 0x65; 0x72; 0x65] 8 (zeros 40) 24 =
  Some [0xbc;0xd4;0xc6;0x50;0xb3;0x0b;0x96;0x84;0x95;0x18;0x29;0xe0;0xd7;0x5f;0x9d;0x54;
        0xb8;0x62;0x17;0x5e;0xd9;0xf0;0x06;0x06;0xe1;0x7d;0x8d;0xa3;0x54;0x02;0xff;0xee;
        0x75;0xdf;0x78;0xc3;0xd3;0x1e;0x0f;0x88].
Proof. vm_compute. reflexivity. Qed.

(** RFC 6070: two iterations of PBKDF2 for "password" and "salt". *)
Example F_vector :
  F {| kmalloc := λ _, true; garbage := [1] |} [0x70;0x61;0x73;0x73;0x77;0x6f;0x72;0x64;0]
    [0x73;0x61;0x6c;0x74] 4 2 1 (zeros 20) =
  Some [0xea;0x6c;0x01;0x4d;0xc7;0x2d;0x6f;0x8c;0xcd;0x1e;0xd9;0x2a;0xce;0x1d;0x41;0xf0;0xd8;0xde;0x89;0x57].
Proof. vm_compute. reflexivity. Qed.

(** ** Memory *)

Lemma call_at_ok m (off : nat) f bs :
  (off + length bs <= length m)%nat →
  f (drop off m) = Some (put (drop off m) 0 bs) →
  call_at m (Z.of_nat off) f = Some (put m off bs).
Proof.
  intros H Hf. unfold call_at. rewrite load_ok by lia. rewrite Some_bind, Nat2Z.id.
  assert (slice m off (Z.to_nat (Z.of_nat (length m) - Z.of_nat off)) = drop off m) as ->
    by (unfold slice; apply take_ge; rewrite length_drop; lia).
  rewrite Hf, Some_bind. rewrite (put_splice m), (put_splice (drop off m)) by (rewrite ?length_drop; lia).
  cbn [take app]. by rewrite drop_drop.
Qed.

(** Blocks written one behind the other from the start of a buffer. *)
Lemma put_start m bs : (length bs <= length m)%nat → put m 0 bs = bs ++ drop (length bs) m.
Proof. intros H. by rewrite put_splice by lia. Qed.

Lemma put_next m bs cs :
  (length bs + length cs <= length m)%nat → put (put m 0 bs) (length bs) cs = put m 0 (bs ++ cs).
Proof. intros H. apply (put_put_adjacent m 0). lia. Qed.

Lemma take_put_start m bs : (length bs <= length m)%nat → take (length bs) (put m 0 bs) = bs.
Proof. intros H. by rewrite put_start, take_app_length. Qed.

Lemma store_next m bs cs :
  (length bs + length cs <= length m)%nat →
  store (put m 0 bs) (Z.of_nat (length bs)) cs = Some (put m 0 (bs ++ cs)).
Proof. intros H. rewrite store_ok, Nat2Z.id, put_next by (rewrite ?length_put; lia). done. Qed.

Lemma load_all m n : n = Z.of_nat (length m) → load m 0 n = Some m.
Proof. intros ->. rewrite load_ok by lia. f_equal. rewrite Nat2Z.id. by apply slice_all. Qed.

(** ** The packet counter *)

Lemma le_bytes_S n y V : byte y → le_bytes (S n) (y + 256 * V) = y :: le_bytes n V.
Proof. intros Hy. rewrite <- lor_shift_add by done. cbn [le_bytes]. by rewrite join_low, join_high. Qed.

Lemma le_word_slice_S m i n :
  bytes m → (i < length m)%nat → le_word (slice m i (S n)) = m.[i] + 256 * le_word (slice m (S i) n).
Proof. intros Hb Hi. rewrite slice_S by done. cbn [le_word]. apply lor_shift_add. by apply bytes_get. Qed.

Lemma inc_iv_loop_eq (n pos : nat) (carry : bool) (cnt : Z) (iv : list Z) :
  let c := if carry then 1 else cnt in
  1 <= c < 256 → bytes iv → (pos + n <= length iv)%nat →
  inc_iv_loop n pos carry cnt iv = put iv pos (le_bytes n (le_word (slice iv pos n) + c)).
Proof.
  cbv zeta. revert pos carry iv. induction n as [|n IH]; intros pos carry iv Hc Hb Hl; [done|].
  set (c := if carry then 1 else cnt) in *. cbn [inc_iv_loop].
  assert (byte iv.[pos]) as Hx by (by apply bytes_get). unfold fits in Hx.
  rewrite le_word_slice_S by (done || lia).
  assert ((if carry then iv.[pos <- u8 (iv.[pos] + 1)] else iv.[pos <- u8 (iv.[pos] + cnt)]) =
          iv.[pos <- u8 (iv.[pos] + c)]) as -> by (unfold c; by destruct carry).
  rewrite get_insert_eq by lia. set (W := le_word (slice iv (S pos) n)).
  destruct (decide (iv.[pos] + c < 256)) as [Hlt|Hge].
  - rewrite u8_small by (unfold fits; lia). rewrite (proj2 (Z.ltb_lt _ _)) by lia.
    replace (iv.[pos] + 256 * W + c) with (iv.[pos] + c + 256 * W) by lia.
    rewrite le_bytes_S, <- put_cons by (unfold fits; lia). unfold W.
    assert (length (slice iv (S pos) n) = n) as Hn by (apply length_slice; lia).
    rewrite <- Hn at 1. rewrite le_bytes_le_word by (by apply bytes_slice).
    rewrite <- (slice_insert_lt iv pos (S pos) n (iv.[pos] + c)) by lia.
    by rewrite put_slice_id by (rewrite length_insert; lia).
  - assert (u8 (iv.[pos] + c) = iv.[pos] + c - 256) as ->.
    { unfold u8. replace (iv.[pos] + c) with (iv.[pos] + c - 256 + 1 * 256) by lia.
      rewrite Z.mod_add, Z.mod_small by lia. lia. }
    rewrite (proj2 (Z.ltb_ge _ _)) by lia.
    rewrite (IH (S pos) true) by first [lia | rewrite length_insert; lia
      | apply Forall_insert; [done|unfold fits; lia]].
    rewrite slice_insert_lt by lia. fold W.
    replace (iv.[pos] + 256 * W + c) with (iv.[pos] + c - 256 + 256 * (W + 1)) by lia.
    by rewrite le_bytes_S, <- put_cons by (unfold fits; lia).
Qed.

(** ** Comparing memory *)

Lemma compare_from_spec a b i n :
  bytes a → bytes b → (i + n <= length a)%nat → (i + n <= length b)%nat →
  compare_from a b i n =
  match be_word (slice a i n) ?= be_word (slice b i n) with Eq => 0 | Gt => 1 | Lt => 2 end.
Proof.
  intros Ha Hb. revert i. induction n as [|n IH]; intros i Hla Hlb; [done|].
  cbn [compare_from]. rewrite !slice_S by lia.
  assert (byte a.[i]) as Hx by (by apply bytes_get). assert (byte b.[i]) as Hy by (by apply bytes_get).
  rewrite !be_word_cons by (done || by apply bytes_slice). rewrite !length_slice by lia.
  pose proof (fits_be_word (slice a (S i) n) (bytes_slice _ _ _ Ha)) as Hsa.
  pose proof (fits_be_word (slice b (S i) n) (bytes_slice _ _ _ Hb)) as Hsb.
  rewrite length_slice in Hsa, Hsb by lia. unfold fits in *.
  set (P := 2 ^ (8 * Z.of_nat n)) in *.
  destruct (Z.ltb_spec b.[i] a.[i]).
  { rewrite (proj2 (Z.compare_gt_iff _ _)) by nia. done. }
  destruct (Z.ltb_spec a.[i] b.[i]).
  { rewrite (proj2 (Z.compare_lt_iff _ _)) by nia. done. }
  assert (a.[i] = b.[i]) as -> by lia. rewrite Z.add_compare_mono_l. apply IH; lia.
Qed.

Lemma be_word_inj a b :
  bytes a → bytes b → length a = length b → be_word a = be_word b → a = b.
Proof.
  intros Ha Hb Hl H. rewrite <- (be_bytes_be_word a), <- (be_bytes_be_word b), Hl, H by done. done.
Qed.

Lemma RTMPCompareMemory_eq a b :
  bytes a → bytes b → length a = length b →
  RTMPCompareMemory a b (Z.of_nat (length a)) =
  Some (match be_word a ?= be_word b with Eq => 0 | Gt => 1 | Lt => 2 end).
Proof.
  intros Ha Hb Hl. unfold RTMPCompareMemory. rewrite !load_all, !Some_bind by lia. rewrite Nat2Z.id.
  rewrite compare_from_spec by (done || lia). by rewrite !slice_all by done.
Qed.

(** ** The PRF *)

Lemma length_concat_map {A} (f : A → list Z) k l :
  (∀ x, length (f x) = k) → length (concat (map f l)) = (length l * k)%nat.
Proof. intros H. induction l as [|x l IH]; [done|]. cbn. rewrite length_app, H, IH. lia. Qed.

Lemma concat_map_snoc {A} (f : nat → list A) n :
  concat (map f (seq 0 (S n))) = concat (map f (seq 0 n)) ++ f n.
Proof. rewrite seq_S, map_app, concat_app. cbn. by rewrite app_nil_r. Qed.

Lemma length_prf_blocks K A B n : length (prf_blocks K A B n) = (20 * n)%nat.
Proof.
  unfold prf_blocks. rewrite (length_concat_map _ 20) by (intros; apply length_hmac_sha1).
  rewrite length_seq. lia.
Qed.

Lemma bytes_concat_map {A} (f : A → list Z) l : (∀ x, bytes (f x)) → bytes (concat (map f l)).
Proof. intros H. induction l; cbn; [constructor|]. by apply Forall_app. Qed.

Lemma bytes_prf_blocks K A B n : bytes (prf_blocks K A B n).
Proof. apply bytes_concat_map. intros. apply bytes_hmac_sha1. Qed.

Lemma bytes_prf K A B n : bytes (prf K A B n).
Proof. apply Forall_take, bytes_prf_blocks. Qed.

Lemma prf_blocks_enough n : (n <= 20 * ((n + 19) / 20) < n + 20)%nat.
Proof.
  pose proof (Nat.div_mod_eq (n + 19) 20). pose proof (Nat.mod_upper_bound (n + 19) 20). lia.
Qed.

Lemma length_prf K A B n : length (prf K A B n) = n.
Proof. pose proof (prf_blocks_enough n). unfold prf. rewrite length_take, length_prf_blocks. lia. Qed.

Lemma PRF_input_ok g prefix data (pl dl : nat) :
  length prefix = pl → (dl <= length data)%nat → (pl + dl + 2 <= length g)%nat →
  PRF_input g prefix (Z.of_nat pl) data (Z.of_nat dl) =
  Some (put g 0 (prefix ++ [0] ++ take dl data ++ [0]), Z.of_nat (pl + dl + 2)).
Proof.
  intros <- Hd Hg. unfold PRF_input.
  rewrite (load_all prefix), Some_bind by done.
  rewrite store_ok, Some_bind by lia. change (Z.to_nat 0) with 0%nat.
  rewrite store_next, Some_bind by (cbn [length]; lia).
  rewrite (load_ok data), Some_bind by lia. change (Z.to_nat 0) with 0%nat. rewrite Nat2Z.id.
  change (slice data 0 dl) with (take dl data).
  assert (length (take dl data) = dl) as Ht by (rewrite length_take; lia).
  replace (Z.of_nat (length prefix) + 1) with (Z.of_nat (length (prefix ++ [0])))
    by (rewrite length_app; cbn [length]; lia).
  rewrite store_next, Some_bind by (rewrite ?length_app; cbn [length]; lia).
  replace (Z.of_nat (length (prefix ++ [0])) + Z.of_nat dl)
    with (Z.of_nat (length ((prefix ++ [0]) ++ take dl data)))
    by (rewrite ?length_app; cbn [length]; lia).
  rewrite store_next, Some_bind by (rewrite ?length_app; cbn [length]; lia).
  rewrite <- !app_assoc. do 2 f_equal. autorewrite with len. cbn [length]. lia.
Qed.

(** The counter is the last byte of the input. *)
Lemma put_last_count g A x y :
  (length A + 1 <= length g)%nat →
  (put g 0 (A ++ [x])).[length A <- y] = put g 0 (A ++ [y]) ∧ (put g 0 (A ++ [x])).[length A] = x.
Proof.
  intros Hg. rewrite !put_start by (rewrite length_app; cbn [length]; lia).
  rewrite <- !app_assoc. split.
  - rewrite insert_app_r_alt by lia. rewrite Nat.sub_diag, !length_app. done.
  - rewrite get_app_r by lia. by rewrite Nat.sub_diag.
Qed.

Lemma message_short m : bytes m → (length m <= 2048)%nat → message m.
Proof. intros Hb Hl. split; [done|lia]. Qed.

Lemma prf_blocks_S K A B n : prf_blocks K A B (S n) = prf_blocks K A B n ++ h_sha1 K A B n.
Proof. apply concat_map_snoc. Qed.

(** One turn of the loop: a block of output, and the counter goes up. *)
Lemma PRF_block key (kl : nat) A B g output i :
  let K := take kl key in
  let input i := put g 0 (A ++ [0] ++ B ++ [u8 (Z.of_nat i)]) in
  let total_len := Z.of_nat (length A + length B + 2) in
  let out i := put output 0 (prf_blocks K A B i) in
  bytes key → (kl <= length key)%nat → (kl <= 2048)%nat → bytes A → bytes B →
  (length A + length B + 2 <= length g)%nat → (length A + length B + 2 <= 2048)%nat →
  (i < 256)%nat → (20 * S i <= length output)%nat →
  call_at (out i) (20 * Z.of_nat i)
    (λ o, RT_HMAC_SHA1 key (Z.of_nat kl) (input i) total_len o SHA1_DIGEST_SIZE) = Some (out (S i)) ∧
  (input i).[Z.to_nat (total_len - 1) <- u8 ((input i).[Z.to_nat (total_len - 1)] + 1)] = input (S i).
Proof.
  cbv zeta. intros Hk Hkl Hk2 HA HB Hg H2 Hi Ho.
  assert (Z.to_nat (Z.of_nat (length A + length B + 2) - 1) = length (A ++ [0] ++ B)) as ->
    by (rewrite !length_app; cbn [length]; lia).
  replace (A ++ [0] ++ B ++ [u8 (Z.of_nat i)]) with ((A ++ [0] ++ B) ++ [u8 (Z.of_nat i)])
    by (by rewrite <- !app_assoc).
  replace (A ++ [0] ++ B ++ [u8 (Z.of_nat (S i))]) with ((A ++ [0] ++ B) ++ [u8 (Z.of_nat (S i))])
    by (by rewrite <- !app_assoc).
  set (C := A ++ [0] ++ B).
  assert (length C = length A + length B + 1)%nat as HC by (unfold C; rewrite !length_app; cbn [length]; lia).
  set (m := C ++ [u8 (Z.of_nat i)]).
  assert (length m = length A + length B + 2)%nat as Hm by (unfold m; rewrite length_app; cbn [length]; lia).
  assert (bytes m) as Hmb.
  { unfold m, C. rewrite !Forall_app, !Forall_singleton. split_and!; auto with rt. unfold fits. lia. }
  split.
  - replace (20 * Z.of_nat i) with (Z.of_nat (20 * i)) by lia. rewrite prf_blocks_S.
    rewrite (call_at_ok _ (20 * i) _ (h_sha1 (take kl key) A B i)).
    + f_equal. rewrite <- (length_prf_blocks (take kl key) A B i).
      rewrite put_next; [done|]. rewrite length_prf_blocks. unfold h_sha1. rewrite length_hmac_sha1. lia.
    + unfold h_sha1. rewrite length_put, length_hmac_sha1. lia.
    + change SHA1_DIGEST_SIZE with (Z.of_nat 20). rewrite RT_HMAC_SHA1_ok;
        rewrite ?length_drop, ?length_put, <- ?Hm, ?take_put_start; try lia.
      * rewrite (take_ge (hmac _ _ _)) by (rewrite length_hmac_sha1; lia). do 2 f_equal. unfold h_sha1, m, C.
        rewrite u8_small by (unfold fits; lia). by rewrite <- !app_assoc.
      * apply message_short; [by apply Forall_take|rewrite length_take; lia].
      * apply message_short; [done|lia].
  - destruct (put_last_count g C (u8 (Z.of_nat i)) (u8 (Z.of_nat (S i)))) as [Hu Hr]; [lia|].
    unfold m. rewrite Hr. assert (u8 (u8 (Z.of_nat i) + 1) = u8 (Z.of_nat (S i))) as ->; [|done].
    unfold u8. rewrite Zplus_mod_idemp_l. f_equal. lia.
Qed.

Lemma PRF_ok E key (kl : nat) prefix data (pl dl : nat) output len :
  let n := ((len + 19) / 20)%nat in
  kmalloc E 1024 = true → bytes key → (kl <= length key)%nat → (kl <= 2048)%nat →
  bytes prefix → length prefix = pl → bytes (take dl data) → (dl <= length data)%nat → (pl + dl + 2 <= 1024)%nat →
  (20 * n <= length output)%nat → (n <= 256)%nat →
  PRF E key (Z.of_nat kl) prefix (Z.of_nat pl) data (Z.of_nat dl) output (Z.of_nat len) =
  Some (put output 0 (prf_blocks (take kl key) prefix (take dl data) n)).
Proof.
  cbv zeta. intros HE Hk Hkl Hk2 Hp <- HB Hdl Hin Ho Hn. unfold PRF. rewrite HE. cbn [negb].
  rewrite PRF_input_ok, Some_bind by (rewrite ?length_local_array; done). cbv beta iota.
  set (n := ((len + 19) / 20)%nat) in *.
  assert (Z.to_nat (Z.quot (Z.of_nat len + 19) 20) = n) as ->.
  { rewrite Z.quot_div_nonneg by lia. unfold n. rewrite <- (Nat2Z.id ((len + 19) / 20)), Nat2Z.inj_div.
    f_equal. f_equal. lia. }
  assert (length (take dl data) = dl) as HD by (rewrite length_take; lia).
  set (B := take dl data) in *. set (g := local_array E 1024).
  assert (length g = 1024%nat) as Hg by apply length_local_array.
  set (I i := (put output 0 (prf_blocks (take kl key) prefix B i),
               put g 0 (prefix ++ [0] ++ B ++ [u8 (Z.of_nat i)]))).
  change (output, put g 0 (prefix ++ [0] ++ B ++ [0])) with (I 0%nat).
  rewrite (loop_opt_states I); [done|]. intros i Hi. unfold I at 1.
  destruct (PRF_block key kl prefix B g output i) as [Hc Hl]; [done || lia..|].
  rewrite HD in Hc, Hl. rewrite Hc, Some_bind. cbv zeta. by rewrite Hl.
Qed.

Lemma PRF_no_memory E key kl prefix pl data dl output len :
  kmalloc E 1024 = false → PRF E key kl prefix pl data dl output len = Some output.
Proof. intros HE. unfold PRF. by rewrite HE. Qed.

(** ** The pairwise key *)

(** How the comparison result selects. *)
Lemma compare_selects a b :
  bytes a → bytes b → length a = length b →
  let c := match be_word a ?= be_word b with Eq => 0 | Gt => 1 | Lt => 2 end in
  (if c =? 1 then b else a) = min_be b a ∧ (if c =? 1 then a else b) = max_be b a ∧
  (c =? 0) = bool_decide (a = b).
Proof.
  intros Ha Hb Hl. unfold min_be, max_be. cbv zeta.
  destruct (Z.compare_spec (be_word a) (be_word b)) as [H|H|H]; cbn [Z.eqb].
  - assert (a = b) as -> by (by apply be_word_inj). rewrite Z.leb_refl, bool_decide_true; done.
  - rewrite (proj2 (Z.leb_gt _ _)), bool_decide_false by (lia || (intros ->; lia)). done.
  - rewrite (proj2 (Z.leb_le _ _)), bool_decide_false by (lia || (intros ->; lia)). done.
Qed.

Lemma min_be_comm a b : bytes a → bytes b → length a = length b → min_be a b = min_be b a.
Proof.
  intros Ha Hb Hl. unfold min_be. destruct (Z.leb_spec (be_word a) (be_word b)), (Z.leb_spec (be_word b) (be_word a));
    try done; try lia. by apply be_word_inj; try done; lia.
Qed.

Lemma max_be_comm a b : bytes a → bytes b → length a = length b → max_be a b = max_be b a.
Proof.
  intros Ha Hb Hl. unfold max_be. destruct (Z.leb_spec (be_word a) (be_word b)), (Z.leb_spec (be_word b) (be_word a));
    try done; try lia. by apply be_word_inj; try done; lia.
Qed.

Lemma min_be_cases a b : min_be a b = a ∨ min_be a b = b.
Proof. unfold min_be. destruct (_ <=? _); auto. Qed.
Lemma max_be_cases a b : max_be a b = a ∨ max_be a b = b.
Proof. unfold max_be. destruct (_ <=? _); auto. Qed.

(** What the driver hashes when both nonces are the same: the larger address,
    filled up with zeros, twice. *)
Definition nonce_patch (AA SPA : list Z) : list Z := max_be AA SPA ++ zeros 26.

Definition ptk_input (AA SPA ANonce SNonce : list Z) : list Z :=
  if decide (ANonce = SNonce)
  then min_be AA SPA ++ max_be AA SPA ++ nonce_patch AA SPA ++ nonce_patch AA SPA
  else ptk_data AA SPA ANonce SNonce.

Lemma length_min_be a b n : length a = n → length b = n → length (min_be a b) = n.
Proof. intros. by destruct (min_be_cases a b) as [-> | ->]. Qed.
Lemma length_max_be a b n : length a = n → length b = n → length (max_be a b) = n.
Proof. intros. by destruct (max_be_cases a b) as [-> | ->]. Qed.

Lemma PTK_concatenation_ok ANonce AA SNonce SA :
  bytes ANonce → length ANonce = 32%nat → bytes SNonce → length SNonce = 32%nat →
  bytes AA → length AA = 6%nat → bytes SA → length SA = 6%nat →
  PTK_concatenation ANonce AA SNonce SA = Some (ptk_input AA SA ANonce SNonce).
Proof.
  intros HA HlA HS HlS HAA HlAA HSA HlSA. unfold PTK_concatenation.
  replace 6 with (Z.of_nat (length SA)) at 1 by lia.
  rewrite RTMPCompareMemory_eq, Some_bind by (done || lia).
  destruct (compare_selects SA AA) as (-> & -> & _); [done|done|lia|].
  pose proof (length_min_be AA SA 6 HlAA HlSA) as Hmin. pose proof (length_max_be AA SA 6 HlAA HlSA) as Hmax.
  rewrite (load_all (min_be AA SA)), Some_bind by lia.
  rewrite store_ok, Some_bind by (rewrite ?length_zeros, ?length_put, ?length_zeros; lia). change (Z.to_nat 0) with 0%nat.
  rewrite (load_all (max_be AA SA)), Some_bind by lia.
  replace 6 with (Z.of_nat (length (min_be AA SA))) at 1 by lia.
  rewrite store_next, Some_bind by (rewrite ?length_zeros, ?length_put, ?length_zeros; lia).
  assert (slice (put (zeros 76) 0 (min_be AA SA ++ max_be AA SA)) 6 6 = max_be AA SA) as ->.
  { rewrite (slice_put_within _ 0 _ 6 6) by (rewrite ?length_app, ?length_zeros; lia).
    rewrite <- (Nat.add_0_r 6), <- Hmin at 1. rewrite slice_app_r. by apply slice_all. }
  rewrite (store_ok (zeros 32)), Some_bind by (rewrite ?length_zeros, ?length_put, ?length_zeros; lia).
  change (Z.to_nat 0) with 0%nat. rewrite (put_zeros_0 _ 32) by lia. rewrite Hmax. change (32 - 6)%nat with 26%nat.
  fold (nonce_patch AA SA).
  replace 32 with (Z.of_nat (length ANonce)) at 1 by lia.
  rewrite RTMPCompareMemory_eq, Some_bind by (done || lia).
  destruct (compare_selects ANonce SNonce) as (H1 & H2 & H3); [done|done|lia|]. cbv zeta in *.
  rewrite H1, H2, H3. unfold ptk_input, ptk_data.
  rewrite (min_be_comm SNonce), (max_be_comm SNonce) by (done || lia).
  pose proof (length_min_be ANonce SNonce 32 HlA HlS). pose proof (length_max_be ANonce SNonce 32 HlA HlS).
  assert (length (nonce_patch AA SA) = 32%nat) by (unfold nonce_patch; rewrite length_app, length_zeros; lia).
  set (C := min_be AA SA ++ max_be AA SA). assert (length C = 12%nat) as HC by (unfold C; rewrite length_app; lia).
  assert (∀ n1 n2 : list Z, length n1 = 32%nat → length n2 = 32%nat →
    (load n1 0 32 ≫= λ small, store (put (zeros 76) 0 C) 12 small ≫= λ c,
     load n2 0 32 ≫= λ large, store c 44 large) = Some (C ++ n1 ++ n2)) as Hfin.
  { intros n1 n2 Hn1 Hn2. rewrite (load_all n1), Some_bind by lia.
    replace 12 with (Z.of_nat (length C)) by lia.
    rewrite store_next, Some_bind by (rewrite ?length_zeros, ?length_put, ?length_zeros; lia). rewrite (load_all n2), Some_bind by lia.
    replace 44 with (Z.of_nat (length (C ++ n1))) by (rewrite length_app; lia).
    rewrite store_next by (rewrite ?length_app, ?length_zeros; lia).
    rewrite put_zeros_0 by (rewrite !length_app; lia). rewrite !length_app, HC, Hn1, Hn2.
    change (zeros (76 - (12 + 32 + 32))) with (@nil Z). by rewrite app_nil_r, <- !app_assoc. }
  case_bool_decide; [rewrite decide_True by done|rewrite decide_False by done];
    rewrite Hfin by done; unfold C; by rewrite <- !app_assoc.
Qed.

Lemma length_ptk_input AA SPA AN SN :
  length AA = 6%nat → length SPA = 6%nat → length AN = 32%nat → length SN = 32%nat →
  length (ptk_input AA SPA AN SN) = 76%nat.
Proof.
  intros Ha Hs HA HS. unfold ptk_input, ptk_data, nonce_patch.
  destruct (decide _); rewrite !length_app, ?length_zeros;
    rewrite !(length_min_be _ _ 6), !(length_max_be _ _ 6) by done; [done|].
  by rewrite (length_min_be _ _ 32), (length_max_be _ _ 32) by done.
Qed.

Lemma bytes_min_be a b : bytes a → bytes b → bytes (min_be a b).
Proof. by destruct (min_be_cases a b) as [-> | ->]. Qed.
Lemma bytes_max_be a b : bytes a → bytes b → bytes (max_be a b).
Proof. by destruct (max_be_cases a b) as [-> | ->]. Qed.

Lemma bytes_ptk_input AA SPA AN SN :
  bytes AA → bytes SPA → bytes AN → bytes SN → bytes (ptk_input AA SPA AN SN).
Proof.
  intros. unfold ptk_input, ptk_data, nonce_patch.
  destruct (decide _); rewrite !Forall_app; split_and!;
    auto using bytes_min_be, bytes_max_be; apply fits_zeros; lia.
Qed.

Lemma ptk_input_comm AA SPA AN SN :
  bytes AA → bytes SPA → bytes AN → bytes SN → length AA = length SPA → length AN = length SN →
  ptk_input SPA AA SN AN = ptk_input AA SPA AN SN.
Proof.
  intros. unfold ptk_input, ptk_data, nonce_patch.
  rewrite (min_be_comm SPA), (max_be_comm SPA), (min_be_comm SN), (max_be_comm SN) by done.
  by destruct (decide (SN = AN)), (decide (AN = SN)).
Qed.

Lemma WpaDerivePTK_ok E PMK ANonce AA SNonce SA output len :
  let n := ((len + 19) / 20)%nat in
  kmalloc E 1024 = true → bytes PMK → (32 <= length PMK)%nat →
  bytes ANonce → length ANonce = 32%nat → bytes SNonce → length SNonce = 32%nat →
  bytes AA → length AA = 6%nat → bytes SA → length SA = 6%nat →
  (20 * n <= length output)%nat → (n <= 256)%nat →
  WpaDerivePTK E PMK ANonce AA SNonce SA output (Z.of_nat len) =
  Some (put output 0 (prf_blocks (take 32 PMK) PTK_Prefix (ptk_input AA SA ANonce SNonce) n)).
Proof.
  cbv zeta. intros HE HP HlP HA HlA HS HlS HAA HlAA HSA HlSA Ho Hn. unfold WpaDerivePTK.
  rewrite PTK_concatenation_ok, Some_bind by done.
  pose proof (length_ptk_input AA SA ANonce SNonce HlAA HlSA HlA HlS) as Hc.
  pose proof (bytes_ptk_input AA SA ANonce SNonce HAA HSA HA HS) as Hb.
  rewrite (PRF_ok E PMK 32 PTK_Prefix _ 22 76) by first [done | lia | bytes_table | by apply Forall_take].
  by rewrite (take_ge (ptk_input _ _ _ _)) by lia.
Qed.

Lemma take_put_blocks output K A B len :
  let n := ((len + 19) / 20)%nat in
  (20 * n <= length output)%nat → take len (put output 0 (prf_blocks K A B n)) = prf K A B len.
Proof.
  cbv zeta. intros Ho. pose proof (prf_blocks_enough len). unfold prf.
  rewrite put_start by (rewrite length_prf_blocks; lia).
  rewrite take_app_le by (rewrite length_prf_blocks; lia). done.
Qed.

(** ** The group key and the nonces *)

Lemma WpaDeriveGTK_ok E GMK GNonce AA output len :
  kmalloc E 1024 = true → bytes GMK → (32 <= length GMK)%nat →
  bytes GNonce → length GNonce = 32%nat → bytes AA → length AA = 6%nat →
  (len <= 80)%nat → (len <= length output)%nat →
  WpaDeriveGTK E GMK GNonce AA output (Z.of_nat len) =
  Some (put output 0 (gtk (take 32 GMK) AA GNonce len)).
Proof.
  intros HE HG HlG HN HlN HA HlA Hl Ho. pose proof (prf_blocks_enough len) as Hn.
  assert ((len + 19) / 20 <= 4)%nat as Hn4.
  { apply (Nat.Div0.div_le_mono _ 99 20). lia. }
  unfold WpaDeriveGTK.
  rewrite (load_all AA), Some_bind by lia.
  rewrite store_ok, Some_bind by (rewrite ?length_local_array; lia). change (Z.to_nat 0) with 0%nat.
  rewrite (load_all GNonce), Some_bind by lia.
  replace 6 with (Z.of_nat (length AA)) by lia.
  rewrite store_next, Some_bind by (rewrite ?length_local_array; lia).
  assert (length (AA ++ GNonce) = 38%nat) as HC by (rewrite length_app; lia).
  assert (bytes (AA ++ GNonce)) as HCb by (by apply Forall_app).
  set (m := put (local_array E 76) 0 (AA ++ GNonce)).
  assert (take 38 m = AA ++ GNonce) as Hm
    by (unfold m; rewrite <- HC; apply take_put_start; rewrite length_local_array; lia).
  rewrite (PRF_ok E GMK 32 GTK_Prefix m 19 38) by first [done | rewrite Hm; done | bytes_table
    | unfold m; rewrite ?length_put, ?length_local_array; lia].
  rewrite Some_bind, Hm, load_ok, Some_bind by (rewrite ?length_put, ?length_local_array; lia).
  unfold slice. change (Z.to_nat 0) with 0%nat. rewrite drop_0, Nat2Z.id.
  rewrite take_put_blocks by (rewrite length_local_array; lia).
  fold (gtk (take 32 GMK) AA GNonce len). rewrite store_ok; [done|done|].
  unfold gtk. rewrite length_prf. lia.
Qed.

(** The nonce of IEEE 802.11i Annex H.5: 32 turns over the address, the time,
    the last result and the turn's number. *)
Fixpoint gen_random (uptime : nat → Z) (mac : list Z) (i : nat) : list Z :=
  match i with
  | O => zeros 40
  | S i => prf_blocks (zeros 32) Counter_Prefix
             (mac ++ le_bytes 4 (uptime i) ++ take 32 (gen_random uptime mac i) ++ le_bytes 2 (Z.of_nat i)) 2
  end.

Lemma length_gen_random uptime mac i : length (gen_random uptime mac i) = 40%nat.
Proof. destruct i; [done|]. cbn [gen_random]. apply length_prf_blocks. Qed.

Lemma bytes_gen_random uptime mac i : bytes (gen_random uptime mac i).
Proof. destruct i; [bytes_table|]. apply bytes_prf_blocks. Qed.

Lemma store_start m bs : (length bs <= length m)%nat → store m 0 bs = Some (put m 0 bs).
Proof. intros H. rewrite store_ok by lia. done. Qed.

Lemma take_put_first m bs k : (k <= length bs)%nat → (length bs <= length m)%nat → take k (put m 0 bs) = take k bs.
Proof. intros Hk H. rewrite put_start, take_app_le by lia. done. Qed.

Lemma GenRandom_turn {A} mac local result t i (k : list Z → option A) :
  length mac = 6%nat → length local = 80%nat → (32 <= length result)%nat →
  (a ← load mac 0 MAC_ADDR_LEN; local ← store local 0 a; local ← store local 6 (le_bytes 4 t);
   local ← store local 10 (take 32 result); local ← store local 42 (le_bytes 2 i); k local) =
  k (put local 0 (mac ++ le_bytes 4 t ++ take 32 result ++ le_bytes 2 i)).
Proof.
  intros Hl Hlo Hr. unfold MAC_ADDR_LEN. rewrite (load_all mac), Some_bind by lia.
  rewrite store_start, Some_bind by lia.
  assert (length (take 32 result) = 32%nat) as Ht by (rewrite length_take; lia).
  replace 6 with (Z.of_nat (length mac)) by lia.
  rewrite store_next, Some_bind by (rewrite length_le_bytes; lia).
  replace 10 with (Z.of_nat (length (mac ++ le_bytes 4 t))) by (rewrite length_app, length_le_bytes; lia).
  rewrite store_next, Some_bind by (rewrite length_app, length_le_bytes; lia).
  replace 42 with (Z.of_nat (length ((mac ++ le_bytes 4 t) ++ take 32 result)))
    by (rewrite !length_app, length_le_bytes; lia).
  rewrite store_next, Some_bind by (rewrite !length_app, !length_le_bytes; lia). by rewrite <- !app_assoc.
Qed.

Lemma put_replace a b c : length b = length a → put (a ++ c) 0 b = b ++ c.
Proof. intros H. by apply (put_app [] a c b). Qed.

Definition gen_local (uptime : nat → Z) (mac : list Z) (i : nat) : list Z :=
  match i with
  | O => zeros 44
  | S i => mac ++ le_bytes 4 (uptime i) ++ take 32 (gen_random uptime mac i) ++ le_bytes 2 (Z.of_nat i)
  end.

Lemma length_gen_local uptime mac i : length mac = 6%nat → length (gen_local uptime mac i) = 44%nat.
Proof.
  intros Hm. destruct i; [done|]. cbn [gen_local].
  rewrite !length_app, !length_le_bytes, length_take, length_gen_random. lia.
Qed.

Lemma bytes_gen_local uptime mac i : bytes mac → bytes (gen_local uptime mac i).
Proof.
  intros Hm. destruct i; [bytes_table|]. cbn [gen_local]. rewrite !Forall_app.
  split_and!; auto with rt. apply Forall_take, bytes_gen_random.
Qed.

Lemma GenRandom_ok E uptime mac random :
  kmalloc E 1024 = true → bytes mac → length mac = 6%nat → (32 <= length random)%nat →
  GenRandom E uptime mac random = Some (put random 0 (take 32 (gen_random uptime mac 32))).
Proof.
  intros HE Hm Hl Hr. unfold GenRandom.
  set (I i := (gen_random uptime mac i ++ zeros 40, gen_local uptime mac i ++ zeros 36)).
  change (zeros 80, zeros 80) with (I 0%nat).
  rewrite (loop_opt_states I).
  - rewrite Some_bind. unfold I. cbv beta iota. rewrite take_app_le by (rewrite length_gen_random; lia).
    apply store_start. rewrite length_take, length_gen_random. lia.
  - intros i _. unfold I at 1. cbv beta iota.
    pose proof (length_gen_random uptime mac i) as HlR. pose proof (length_gen_random uptime mac (S i)) as HlR'.
    pose proof (length_gen_local uptime mac i Hl) as HlL. pose proof (length_gen_local uptime mac (S i) Hl) as HlL'.
    rewrite GenRandom_turn by (rewrite ?length_app, ?length_zeros; done || lia).
    rewrite (take_app_le (gen_random _ _ _)) by lia. fold (gen_local uptime mac (S i)).
    rewrite put_replace by lia.
    assert (take 44 (gen_local uptime mac (S i) ++ zeros 36) = gen_local uptime mac (S i)) as HT
      by (by rewrite take_app_le, take_ge by lia).
    set (m := gen_local uptime mac (S i) ++ zeros 36) in *.
    assert (44 <= length m)%nat as Hlm by (unfold m; rewrite length_app; lia).
    set (o := gen_random uptime mac i ++ zeros 40).
    assert (40 <= length o)%nat as Hlo by (unfold o; rewrite length_app; lia).
    pose proof (PRF_ok E (zeros 32) 32 Counter_Prefix m 12 44 o 32) as HP. cbv zeta in HP.
    change ((32 + 19) / 20)%nat with 2%nat in HP.
    change (Z.of_nat 32) with 32 in HP. change (Z.of_nat 12) with 12 in HP. change (Z.of_nat 44) with 44 in HP.
    rewrite HT in HP. rewrite HP; [|lia || (by apply bytes_gen_local) || bytes_table || done..].
    rewrite Some_bind. unfold I. do 3 f_equal. unfold o.
    by rewrite put_replace by (rewrite length_prf_blocks; lia).
Qed.

(** ** Pass phrases *)

Lemma strlen_app pw rest : Forall (λ c, c ≠ 0) pw → strlen (pw ++ 0 :: rest) = Some (Z.of_nat (length pw)).
Proof.
  induction 1 as [|c pw Hc Hpw IH]; [done|]. cbn [app strlen length].
  rewrite (proj2 (Z.eqb_neq _ _)) by done. rewrite IH. cbn [mbind option_bind]. f_equal. lia.
Qed.

Lemma length_pbkdf2_U P S i c : length (pbkdf2_U P S i c) = 20%nat.
Proof. destruct c; apply length_hmac_sha1. Qed.

Lemma bytes_pbkdf2_U P S i c : bytes (pbkdf2_U P S i c).
Proof. destruct c; apply bytes_hmac_sha1. Qed.

Lemma length_pbkdf2_T P S i c : length (pbkdf2_T P S i c) = 20%nat.
Proof.
  induction c as [|c IH]; cbn [pbkdf2_T]; [apply length_pbkdf2_U|].
  rewrite length_xorl; rewrite ?length_pbkdf2_U; done.
Qed.

Lemma put_whole m bs : length bs = length m → put m 0 bs = bs.
Proof. intros H. rewrite put_start, drop_ge, app_nil_r by lia. done. Qed.

Section PassPhrase.
Context (E : env) (pw rest ssid : list Z) (sl : nat).
Context (pw_bytes : bytes pw) (pw_chars : Forall (λ c, c ≠ 0) pw) (pw_short : (length pw <= 63)%nat).
Context (ssid_len : length ssid = sl) (ssid_short : (sl <= 32)%nat) (ssid_bytes : bytes ssid).

Let password := pw ++ 0 :: rest.

Lemma password_hmac m (ml : nat) mac :
  (ml <= length m)%nat → bytes (take ml m) → (ml <= 64)%nat → (20 <= length mac)%nat →
  RT_HMAC_SHA1 password (Z.of_nat (length pw)) m (Z.of_nat ml) mac SHA1_DIGEST_SIZE =
  Some (put mac 0 (hmac sha1 pw (take ml m))).
Proof.
  intros Hm Hb Hml Hmac. change SHA1_DIGEST_SIZE with (Z.of_nat 20). unfold password.
  assert (take (length pw) (pw ++ 0 :: rest) = pw) as HT by (by rewrite take_app_length).
  rewrite RT_HMAC_SHA1_ok; rewrite ?HT.
  - by rewrite (take_ge (hmac _ _ _)) by (rewrite length_hmac_sha1; lia).
  - rewrite length_app. lia.
  - done.
  - by apply message_short; [|lia].
  - by apply message_short; [|rewrite length_take; lia].
  - done.
  - lia.
Qed.

(** [S || INT(i)] in the local [digest]. *)
Lemma F_digest {A} count (k : list Z → option A) :
  (s ← load ssid 0 (Z.of_nat sl);
   digest ← store (local_array E 36) 0 s;
   digest ← store digest (Z.of_nat sl) [Z.shiftr count 24 & 0xff];
   digest ← store digest (Z.of_nat sl + 1) [Z.shiftr count 16 & 0xff];
   digest ← store digest (Z.of_nat sl + 2) [Z.shiftr count 8 & 0xff];
   digest ← store digest (Z.of_nat sl + 3) [count & 0xff];
   k digest) = k (put (local_array E 36) 0 (ssid ++ be_bytes 4 count)).
Proof.
  pose proof (length_local_array E 36) as Hg. rewrite (load_all ssid), Some_bind by lia.
  rewrite store_start, Some_bind, <- ssid_len by lia.
  rewrite store_next, Some_bind by (cbn [length]; lia).
  rewrite be_bytes_4. set (a := Z.shiftr count 24 & 0xff). set (b := Z.shiftr count 16 & 0xff).
  set (c := Z.shiftr count 8 & 0xff). set (d := count & 0xff).
  replace (Z.of_nat (length ssid) + 1) with (Z.of_nat (length (ssid ++ [a]))) by (rewrite length_app; cbn [length]; lia).
  rewrite store_next, Some_bind by (rewrite length_app; cbn [length]; lia).
  replace (Z.of_nat (length ssid) + 2) with (Z.of_nat (length ((ssid ++ [a]) ++ [b])))
    by (rewrite !length_app; cbn [length]; lia).
  rewrite store_next, Some_bind by (rewrite !length_app; cbn [length]; lia).
  replace (Z.of_nat (length ssid) + 3) with (Z.of_nat (length (((ssid ++ [a]) ++ [b]) ++ [c])))
    by (rewrite !length_app; cbn [length]; lia).
  rewrite store_next, Some_bind by (rewrite !length_app; cbn [length]; lia).
  by rewrite <- !app_assoc.
Qed.

(** One turn of the loop of [F]. *)
Lemma F_turn i c output digest :
  (20 <= length output)%nat → length digest = 36%nat →
  (digest ← RT_HMAC_SHA1 password (Z.of_nat (length pw)) (pbkdf2_U pw ssid i c) SHA1_DIGEST_SIZE digest SHA1_DIGEST_SIZE;
   digest1 ← store (pbkdf2_U pw ssid i c) 0 (take 20 digest);
   output ← xor_copy (put output 0 (pbkdf2_T pw ssid i c)) 0 0 (take 20 digest);
   Some (output, digest, digest1)) =
  Some (put output 0 (pbkdf2_T pw ssid i (S c)), put digest 0 (pbkdf2_U pw ssid i (S c)), pbkdf2_U pw ssid i (S c)).
Proof.
  intros Ho HlD. replace SHA1_DIGEST_SIZE with (Z.of_nat 20) at 1 by done.
  pose proof (length_pbkdf2_U pw ssid i c) as HU. pose proof (length_pbkdf2_U pw ssid i (S c)) as HU'.
  pose proof (length_pbkdf2_T pw ssid i c) as HT.
  rewrite password_hmac, Some_bind by first [done | lia | by apply Forall_take, bytes_pbkdf2_U].
  rewrite (take_ge (pbkdf2_U _ _ _ _)) by lia.
  change (hmac sha1 pw (pbkdf2_U pw ssid i c)) with (pbkdf2_U pw ssid i (S c)).
  rewrite (take_put_first _ (pbkdf2_U pw ssid i (S c))), (take_ge (pbkdf2_U _ _ _ _)) by lia.
  rewrite store_start, Some_bind, (put_whole (pbkdf2_U _ _ _ c)) by lia.
  rewrite (xor_copy_spec _ _ 0 0), Some_bind by (rewrite ?length_put; lia).
  rewrite HU'. assert (slice (put output 0 (pbkdf2_T pw ssid i c)) 0 20 = pbkdf2_T pw ssid i c) as ->
    by (rewrite <- HT; apply slice_put_eq; lia).
  rewrite put_put; [done| |lia]. rewrite length_xorl; lia.
Qed.

Lemma F_ok (c i : nat) output :
  (20 <= length output)%nat →
  F E password ssid (Z.of_nat sl) (Z.of_nat (S c)) (Z.of_nat i) output = Some (put output 0 (pbkdf2_T pw ssid i c)).
Proof.
  intros Ho. unfold F, password. rewrite strlen_app, Some_bind by done. fold password.
  rewrite F_digest. set (digest := put (local_array E 36) 0 (ssid ++ be_bytes 4 (Z.of_nat i))).
  assert (length (ssid ++ be_bytes 4 (Z.of_nat i)) = sl + 4)%nat as Hd by (rewrite length_app, length_be_bytes; lia).
  assert (length digest = 36%nat) as Hld by (unfold digest; rewrite length_put; apply length_local_array).
  assert (take (sl + 4) digest = ssid ++ be_bytes 4 (Z.of_nat i)) as Htd.
  { rewrite <- Hd. apply take_put_start. rewrite length_local_array. lia. }
  replace (Z.of_nat sl + 4) with (Z.of_nat (sl + 4)) by lia.
  assert (bytes (ssid ++ be_bytes 4 (Z.of_nat i))) as Hb by (apply Forall_app; auto with rt).
  rewrite password_hmac, Some_bind by (rewrite ?Htd, ?length_local_array; done || lia).
  rewrite Htd. fold (pbkdf2_U pw ssid i 0). pose proof (length_pbkdf2_U pw ssid i) as HU.
  rewrite put_whole by (rewrite length_local_array; apply HU).
  rewrite store_start, Some_bind by (rewrite HU; lia). fold (pbkdf2_T pw ssid i 0).
  replace (Z.to_nat (Z.of_nat (S c) - 1)) with c by lia.
  set (I j := (put output 0 (pbkdf2_T pw ssid i (j - 1)),
               if (j =? 1)%nat then digest else put digest 0 (pbkdf2_U pw ssid i (j - 1)),
               pbkdf2_U pw ssid i (j - 1))).
  change (put output 0 (pbkdf2_T pw ssid i 0), digest, pbkdf2_U pw ssid i 0) with (I 1%nat).
  rewrite (loop_opt_states I).
  { rewrite Some_bind. unfold I. cbv beta iota. do 3 f_equal. lia. }
  intros j Hj. unfold I at 1. cbv beta iota.
  rewrite F_turn by (repeat case_match; rewrite ?length_put; done). unfold I.
  replace (S (j - 1)) with j by lia. replace (S j - 1)%nat with j by lia. do 3 f_equal.
  rewrite (proj2 (Nat.eqb_neq (S j) 1)) by lia. destruct (j =? 1)%nat; [done|].
  apply put_put; rewrite !HU; lia.
Qed.
End PassPhrase.

(** ** The KDF and the PMKID *)

Lemma length_kdf_blocks K L C len n : length (kdf_blocks K L C len n) = (32 * n)%nat.
Proof.
  unfold kdf_blocks. rewrite (length_concat_map _ 32) by (intros; apply length_hmac_sha256).
  rewrite length_seq. lia.
Qed.

Definition kdf_input (label data : list Z) (i len : nat) : list Z :=
  le_bytes 2 (Z.of_nat i) ++ label ++ data ++ le_bytes 2 (8 * Z.of_nat len).

Lemma kdf_blocks_S K L C len n :
  kdf_blocks K L C len (S n) = kdf_blocks K L C len n ++ hmac sha256 K (kdf_input L C (S n) len).
Proof. unfold kdf_blocks. rewrite concat_map_snoc. unfold kdf_input. by rewrite Nat.add_1_r. Qed.

(** One turn of the loop, for a counter that fits one byte. *)
Lemma KDF_block key (kl : nat) g label data output len i :
  let K := take kl key in
  let input i := put g 0 (kdf_input label data i len) in
  let total_len := Z.of_nat (length label + length data + 4) in
  let out i := put output 0 (kdf_blocks K label data len i) in
  bytes key → (kl <= length key)%nat → (kl <= 2048)%nat → bytes label → bytes data →
  (length label + length data + 4 <= length g)%nat → (length label + length data + 4 <= 2048)%nat →
  (i < 255)%nat → (32 * S i <= length output)%nat →
  call_at (out i) (32 * Z.of_nat i)
    (λ o, RT_HMAC_SHA256 key (Z.of_nat kl) (input (S i)) total_len o 32) = Some (out (S i)) ∧
  ((i < 254)%nat → (input (S i)).[0 <- u8 ((input (S i)).[0] + 1)] = input (S (S i))).
Proof.
  cbv zeta. intros Hk Hkl Hk2 HL HD Hg H2 Hi Ho.
  assert (∀ j, length (kdf_input label data j len) = length label + length data + 4)%nat as Hm
    by (intros; unfold kdf_input; rewrite !length_app, !length_le_bytes; lia).
  assert (∀ j, bytes (kdf_input label data j len)) as Hb
    by (intros; unfold kdf_input; rewrite !Forall_app; split_and!; auto with rt).
  split.
  - replace (32 * Z.of_nat i) with (Z.of_nat (32 * i)) by lia. rewrite kdf_blocks_S.
    rewrite (call_at_ok _ (32 * i) _ (hmac sha256 (take kl key) (kdf_input label data (S i) len))).
    + f_equal. rewrite <- (length_kdf_blocks (take kl key) label data len i).
      rewrite put_next; [done|]. rewrite length_kdf_blocks, length_hmac_sha256. lia.
    + rewrite length_put, length_hmac_sha256. lia.
    + change 32 with (Z.of_nat 32).
      rewrite RT_HMAC_SHA256_ok; rewrite ?length_drop, ?length_put, <- ?(Hm (S i)), ?take_put_start; try (lia || rewrite Hm; lia).
      * by rewrite (take_ge (hmac _ _ _)) by (rewrite length_hmac_sha256; lia).
      * apply message_short; [by apply Forall_take|rewrite length_take; lia].
      * apply message_short; [done|rewrite Hm; lia].
  - intros Hi'. assert (∀ j : nat, (j < 256)%nat → kdf_input label data j len =
      Z.of_nat j :: 0 :: label ++ data ++ le_bytes 2 (8 * Z.of_nat len)) as Hf.
    { intros j Hj. unfold kdf_input. cbn [le_bytes app]. rewrite (shiftr_small _ 8) by lia.
      rewrite land_255, Z.mod_small by lia. done. }
    rewrite !put_start by (rewrite Hm; lia). rewrite !Hm, !Hf by lia. cbn [app].
    unfold get. cbn [nth]. cbn [insert list_insert]. f_equal. rewrite u8_small by (unfold fits; lia). lia.
Qed.

Lemma KDF_ok E key (kl : nat) label data output len :
  let n := ((len + 31) / 32)%nat in
  kmalloc E 1024 = true → bytes key → (kl <= length key)%nat → (kl <= 2048)%nat →
  bytes label → bytes data → (length label + length data + 4 <= 1024)%nat →
  Z.of_nat len <= 8128 → (32 * n <= length output)%nat →
  KDF E key (Z.of_nat kl) label (Z.of_nat (length label)) data (Z.of_nat (length data)) output (Z.of_nat len) =
  Some (put output 0 (kdf_blocks (take kl key) label data len n)).
Proof.
  cbv zeta. intros HE Hk Hkl Hk2 HL HD H1024 Hlen Ho. unfold KDF. rewrite HE. cbn [negb].
  rewrite (Z.shiftl_mul_pow2 _ 3) by lia. change (2 ^ 3) with 8. set (b := Z.of_nat len * 8).
  set (n := ((len + 31) / 32)%nat) in *.
  assert (Z.of_nat n = (Z.of_nat len + 31) / 32) as HnZ by (unfold n; rewrite Nat2Z.inj_div; f_equal; lia).
  assert ((n <= 254)%nat ∧ Z.to_nat ((b + 255) / 256) = n) as [Hn ->]
    by (unfold b; Z.to_euclidean_division_equations; lia).
  assert ((zeros 1024).[0 <- 1] = put (zeros 1024) 0 [1; 0]) as -> by (by rewrite put_start by (cbn; lia)).
  rewrite (load_all label), Some_bind by done. change 2 with (Z.of_nat (length [1; 0])) at 1.
  rewrite store_next, Some_bind by (cbn [length]; rewrite length_zeros; lia).
  rewrite (load_all data), Some_bind by done.
  replace (2 + Z.of_nat (length label)) with (Z.of_nat (length ([1; 0] ++ label))) by (rewrite length_app; cbn [length]; lia).
  rewrite store_next, Some_bind by (rewrite length_app; cbn [length]; rewrite length_zeros; lia).
  replace (Z.of_nat (length ([1; 0] ++ label)) + Z.of_nat (length data))
    with (Z.of_nat (length (([1; 0] ++ label) ++ data))) by (rewrite (length_app _ data); lia).
  set (p := ([1; 0] ++ label) ++ data).
  assert (length p = length label + length data + 2)%nat as Hp by (unfold p; rewrite !length_app; cbn [length]; lia).
  rewrite store_next, Some_bind by (rewrite length_zeros; cbn [length]; lia).
  replace (Z.of_nat (length p) + 1) with (Z.of_nat (length (p ++ [b & 0xff]))) by (rewrite length_app; cbn [length]; lia).
  rewrite store_next, Some_bind by (rewrite length_app, length_zeros; cbn [length]; lia).
  assert ((p ++ [b & 0xff]) ++ [Z.shiftr (b & 0xff00) 8] = kdf_input label data 1 len) as ->.
  { unfold kdf_input, p. rewrite <- !app_assoc. cbn [le_bytes app]. do 2 f_equal. rewrite (Z.mul_comm 8). fold b.
    do 5 f_equal. by rewrite Z.shiftr_land. }
  replace (Z.of_nat (length [1; 0]) + Z.of_nat (length label) + Z.of_nat (length data) + 2)
    with (Z.of_nat (length label + length data + 4)) by (cbn [length]; lia).
  set (I i := (put output 0 (kdf_blocks (take kl key) label data len i),
               put (zeros 1024) 0 (kdf_input label data (S i) len))).
  change (output, put (zeros 1024) 0 (kdf_input label data 1 len)) with (I 0%nat).
  rewrite (loop_opt_states I); [done|]. intros i Hi. unfold I at 1. cbv beta iota.
  destruct (KDF_block key kl (zeros 1024) label data output len i) as [Hc Hl];
    [done || (rewrite ?length_zeros; lia)..|].
  rewrite Hc, Some_bind. cbv zeta. by rewrite Hl by lia.
Qed.

Lemma RTMPDerivePMKID_ok E AA SPA PMK PMKID :
  bytes AA → length AA = 6%nat → bytes SPA → length SPA = 6%nat → bytes PMK → (32 <= length PMK)%nat →
  (16 <= length PMKID)%nat →
  RTMPDerivePMKID E AA SPA PMK PMKID =
  Some (put PMKID 0 (take 16 (hmac sha1 (take 32 PMK) (PMKID_Name ++ AA ++ SPA)))).
Proof.
  intros HA HlA HS HlS HP HlP Ho. unfold RTMPDerivePMKID, MAC_ADDR_LEN.
  assert (length PMKID_Name = 8%nat) as HN by done. set (N := PMKID_Name) in *.
  assert (bytes N) as HNb by bytes_table.
  pose proof (length_local_array E 20) as Hg. set (g := local_array E 20) in *.
  rewrite store_start, Some_bind by lia. rewrite (load_all AA), Some_bind by lia.
  replace 8 with (Z.of_nat (length N)) by lia. rewrite store_next, Some_bind by lia.
  rewrite (load_all SPA), Some_bind by lia.
  replace 14 with (Z.of_nat (length (N ++ AA))) by (rewrite length_app; lia).
  rewrite store_next, Some_bind by (rewrite length_app; lia). rewrite <- app_assoc.
  assert (length (N ++ AA ++ SPA) = 20%nat) as Hl by (rewrite !length_app; lia).
  assert (bytes (N ++ AA ++ SPA)) as Hb by (rewrite !Forall_app; done).
  rewrite put_whole by lia. unfold SHA1_DIGEST_SIZE, PMK_LEN.
  pose proof (RT_HMAC_SHA1_ok PMK 32 (N ++ AA ++ SPA) 20 (local_array E 80) 20) as HH.
  change (Z.of_nat 20) with 20 in HH. change (Z.of_nat 32) with 32 in HH.
  rewrite (take_ge (N ++ _)), (take_ge (hmac _ _ _)) in HH by (rewrite ?length_hmac_sha1; lia).
  rewrite HH, Some_bind; rewrite ?length_local_array; try lia.
  - rewrite take_put_first by (rewrite ?length_local_array, length_hmac_sha1; lia).
    apply store_start. rewrite length_take, length_hmac_sha1. lia.
  - apply message_short; [by apply Forall_take|rewrite length_take; lia].
  - apply message_short; [done|lia].
Qed.

(** ** Properties *)

(** C31: [WpaDerivePTK] writes the pairwise transient key of IEEE 802.11i
    8.5.1.2 - the PRF of the PMK over both addresses and both nonces, each
    pair in ascending order - at the start of its output; it is the same key when
    the two parties change places.  It writes whole blocks of 20 bytes: for the
    64 bytes of a PTK the 16 bytes behind the key are overwritten as well - the
    callers have an array of 80 - and nothing behind the last block.  Two equal
    nonces are replaced by the larger address (the driver's own exception). *)
Theorem WpaDerivePTK_spec E PMK ANonce AA SNonce SA output len :
  let n := ((len + 19) / 20)%nat in
  kmalloc E 1024 = true → bytes PMK → length PMK = 32%nat →
  bytes ANonce → length ANonce = 32%nat → bytes SNonce → length SNonce = 32%nat →
  bytes AA → length AA = 6%nat → bytes SA → length SA = 6%nat →
  (20 * n <= length output)%nat → (n <= 256)%nat →
  ∃ out, WpaDerivePTK E PMK ANonce AA SNonce SA output (Z.of_nat len) = Some out ∧
         WpaDerivePTK E PMK SNonce SA ANonce AA output (Z.of_nat len) = Some out ∧
         length out = length output ∧ drop (20 * n) out = drop (20 * n) output ∧
         take len out = (if decide (ANonce = SNonce)
                         then prf PMK PTK_Prefix (min_be AA SA ++ max_be AA SA ++
                                                  nonce_patch AA SA ++ nonce_patch AA SA) len
                         else ptk PMK AA SA ANonce SNonce len).
Proof.
  cbv zeta. intros HE HP HlP HA HlA HS HlS HAA HlAA HSA HlSA Ho Hn.
  eexists. split_and!.
  - by apply WpaDerivePTK_ok; try lia.
  - rewrite WpaDerivePTK_ok by (done || lia). rewrite ptk_input_comm by (done || lia). done.
  - apply length_put.
  - apply drop_put; rewrite length_prf_blocks; lia.
  - rewrite take_put_blocks, (take_ge PMK) by lia. unfold ptk_input, ptk. by destruct (decide _).
Qed.

Lemma WpaDerivePTK_spec_witness :
  let E := {| kmalloc := λ _, true; garbage := [] |} in
  ∃ out, WpaDerivePTK E (zeros 32) (repeat 1 32) (zeros 6) (repeat 2 32) (repeat 3 6) (zeros 80) (Z.of_nat 64) = Some out ∧
         take 64 out = ptk (zeros 32) (zeros 6) (repeat 3 6) (repeat 1 32) (repeat 2 32) 64.
Proof.
  intros E.
  destruct (WpaDerivePTK_spec E (zeros 32) (repeat 1 32) (zeros 6) (repeat 2 32) (repeat 3 6) (zeros 80) 64)
    as (out & H1 & _ & _ & _ & H2);
    [reflexivity|bytes_table|reflexivity|bytes_table|reflexivity|bytes_table|reflexivity
    |bytes_table|reflexivity|bytes_table|reflexivity| | |].
  1,2: apply Nat.leb_le; vm_compute; reflexivity.
  exists out. split; [exact H1|]. rewrite H2. reflexivity.
Defined.

Lemma F_two_blocks E pw rest ssid c output :
  bytes pw → Forall (λ c, c ≠ 0) pw → bytes ssid → (40 <= length output)%nat →
  (length pw <= 63)%nat → (length ssid <= 32)%nat →
  let F := F E (pw ++ 0 :: rest) ssid (Z.of_nat (length ssid)) (Z.of_nat (S c)) in
  (output ← F 1 output; call_at output SHA1_DIGEST_SIZE (F 2)) = Some (put output 0 (pbkdf2 pw ssid (S c) 2)).
Proof.
  intros Hp Hc Hs Ho H1 H2. cbv zeta. change 1 with (Z.of_nat 1). change 2 with (Z.of_nat 2).
  rewrite (F_ok E pw rest ssid (length ssid) Hp Hc H1 eq_refl H2 Hs c 1), Some_bind by lia.
  change SHA1_DIGEST_SIZE with (Z.of_nat 20).
  rewrite (call_at_ok _ 20 _ (pbkdf2_T pw ssid 2 c)).
  - f_equal. unfold pbkdf2. cbn [seq map concat]. rewrite app_nil_r, Nat.sub_succ, Nat.sub_0_r.
    rewrite <- (length_pbkdf2_T pw ssid 1 c). apply put_next. rewrite !length_pbkdf2_T. lia.
  - rewrite length_put, length_pbkdf2_T. lia.
  - apply (F_ok E pw rest ssid (length ssid) Hp Hc H1 eq_refl H2 Hs c 2).
    rewrite length_drop, length_put. lia.
Qed.

(** [RtmpPasswordHash] turns a pass phrase of at most 63 characters and a
    network name of at most 32 bytes into the 40 bytes whose first 32 are the
    PSK: two blocks of PBKDF2 with 4096 iterations of HMAC-SHA-1 (RFC 2898).
    A longer pass phrase or name is refused and the output is not touched. *)
Theorem RtmpPasswordHash_spec E pw rest ssid output :
  bytes pw → Forall (λ c, c ≠ 0) pw → bytes ssid → (40 <= length output)%nat →
  RtmpPasswordHash E (pw ++ 0 :: rest) ssid (Z.of_nat (length ssid)) output =
  if decide (length pw <= 63 ∧ length ssid <= 32)%nat
  then Some (1, put output 0 (pbkdf2 pw ssid (Z.to_nat 4096) 2)) else Some (0, output).
Proof.
  intros Hp Hc Hs Ho. unfold RtmpPasswordHash. rewrite strlen_app, Some_bind by done.
  destruct (decide _) as [[H1 H2]|Hno].
  - rewrite (proj2 (Z.ltb_ge _ _)), (proj2 (Z.ltb_ge _ _)) by lia. cbn [orb].
    assert (∃ c, 4096 = Z.of_nat (S c)) as [c ->] by (exists (Z.to_nat 4095); lia). rewrite Nat2Z.id.
    pose proof (F_two_blocks E pw rest ssid c output Hp Hc Hs Ho H1 H2) as HF. cbv zeta in HF.
    revert HF. destruct (F _ _ _ _ _ 1 output) as [o|]; [|done]. rewrite !Some_bind. by intros ->.
  - destruct (Z.ltb_spec 63 (Z.of_nat (length pw))), (Z.ltb_spec 32 (Z.of_nat (length ssid))); cbn [orb]; done || lia.
Qed.

Lemma RtmpPasswordHash_spec_witness :
  let E := {| kmalloc := λ _, true; garbage := [] |} in
  RtmpPasswordHash E (repeat 0x61 8 ++ 0 :: []) [0x62] 1 (zeros 40) =
    Some (1, put (zeros 40) 0 (pbkdf2 (repeat 0x61 8) [0x62] (Z.to_nat 4096) 2)) ∧
  RtmpPasswordHash E (repeat 0x61 64 ++ 0 :: []) [0x62] 1 (zeros 40) = Some (0, zeros 40).
Proof.
  intros E. split; (etransitivity; [apply (RtmpPasswordHash_spec E _ [] [0x62] (zeros 40));
    [bytes_table|repeat constructor; discriminate|bytes_table|cbn; lia]|reflexivity]).
Defined.

(** Without memory the PRF reports nothing and leaves its output as it
    was: the nonce of [GenRandom] is 32 zeros, whatever the address and the
    clock, and [WpaDerivePTK] hands back the unwritten buffer of its caller as
    the key. *)
Theorem wpa_keys_without_memory E uptime mac PMK ANonce AA SNonce SA output len :
  kmalloc E 1024 = false → length mac = 6%nat →
  bytes ANonce → length ANonce = 32%nat → bytes SNonce → length SNonce = 32%nat →
  bytes AA → length AA = 6%nat → bytes SA → length SA = 6%nat →
  GenRandom E uptime mac (zeros 32) = Some (zeros 32) ∧
  WpaDerivePTK E PMK ANonce AA SNonce SA output len = Some output.
Proof.
  intros HE Hm HA HlA HS HlS HAA HlAA HSA HlSA. split.
  - unfold GenRandom.
    assert (∀ n lo local, length local = 80%nat → ∃ local', loop_opt lo n
      (λ i '(result, local),
         a ← load mac 0 MAC_ADDR_LEN;
         local ← store local 0 a;
         local ← store local 6 (le_bytes 4 (uptime i));
         local ← store local 10 (take 32 result);
         local ← store local 42 (le_bytes 2 (Z.of_nat i));
         result ← PRF E (zeros 32) 32 Counter_Prefix 12 local 44 result 32;
         Some (result, local)) (zeros 80, local) = Some (zeros 80, local')) as HL.
    { intros n. induction n as [|n IH]; intros lo local Hl; [by eexists|]. rewrite loop_opt_S.
      rewrite GenRandom_turn by (rewrite ?length_zeros; done || lia).
      rewrite PRF_no_memory, !Some_bind by done. apply IH. by rewrite length_put. }
    destruct (HL 32%nat 0%nat (zeros 80) eq_refl) as [local' ->]. done.
  - unfold WpaDerivePTK. rewrite PTK_concatenation_ok, Some_bind by done. by apply PRF_no_memory.
Qed.

Lemma wpa_keys_without_memory_witness :
  let E := {| kmalloc := λ _, false; garbage := [] |} in
  GenRandom E Z.of_nat [1; 2; 3; 4; 5; 6] (zeros 32) = Some (zeros 32) ∧
  WpaDerivePTK E (zeros 32) (repeat 1 32) (zeros 6) (repeat 2 32) (repeat 3 6) (repeat 0xaa 80) 64 = Some (repeat 0xaa 80).
Proof.
  intros E. apply (wpa_keys_without_memory E); first [reflexivity | bytes_table].
Defined.

(** [inc_iv_byte] adds the step to a packet number of [len] bytes, the
    first byte lowest, modulo its size, for steps of one byte other than 0,
    and leaves the bytes behind it. *)
Theorem inc_iv_byte_spec iv len cnt :
  bytes iv → (len <= length iv)%nat → 1 <= cnt < 256 →
  let r := inc_iv_byte iv len cnt in
  le_word (take len r) = (le_word (take len iv) + cnt) mod 2 ^ (8 * Z.of_nat len) ∧
  drop len r = drop len iv ∧ length r = length iv ∧ bytes r.
Proof.
  intros Hb Hl Hc. cbv zeta. unfold inc_iv_byte. rewrite inc_iv_loop_eq by (done || lia). cbv iota.
  change (slice iv 0 len) with (take len iv).
  set (bs := le_bytes len (le_word (take len iv) + cnt)).
  assert (length bs = len) as Hbs by apply length_le_bytes. split_and!.
  - rewrite <- Hbs at 1. rewrite take_put_start by lia. apply le_word_le_bytes.
  - rewrite drop_put by lia. done.
  - apply length_put.
  - apply bytes_put; [done|apply bytes_le_bytes].
Qed.

Lemma inc_iv_byte_spec_witness :
  le_word (take 6 (inc_iv_byte [0xff; 0xff; 0; 0; 0; 0; 9] 6 1)) = 0x10000.
Proof.
  destruct (inc_iv_byte_spec [0xff; 0xff; 0; 0; 0; 0; 9] 6 1) as [-> _]; [bytes_table|cbn; lia|lia|reflexivity].
Defined.

(** A step of 0 is not the identity: the first byte does not grow, so every
    byte of 0xff and the byte behind them change. *)
Example inc_iv_byte_0 : inc_iv_byte [7; 0xff; 0; 0; 0; 0] 6 0 = [7; 0; 1; 0; 0; 0].
Proof. reflexivity. Qed.
