(* ===== verification/WpaData.v ===== *)
(** * WPA data of the rt5370 driver

    The EAPOL-Key frame ([include/dot11i_wpa.h]) as a record with its byte
    layout, the parts of [MAC_TABLE_ENTRY] and of the adapter that the WPA
    handlers of [common/cmm_wpa.c] use ([include/rtmp.h]), the 16-bit and
    64-bit counters in byte arrays ([include/wpa.h]) and the calls that leave
    the model, as events.

    [packet_of] is the cast of a byte pointer to [PEAPOL_PACKET] and
    [packet_bytes] the cast back; they are inverse to each other.  [KeyData]
    is the memory behind the fixed fields. *)

From stdpp Require Import base list numbers list_numbers.
From Stdlib Require Import ZArith Lia Btauto.
From S2P Require Import Prelude Mlme WpaCmm.

(** ** Constants *)

Definition MIN_LEN_OF_EAPOL_KEY_MSG : Z := 95.
Definition LEN_KEY_DESC_NONCE : Z := 32.
Definition LEN_KEY_DESC_REPLAY : Z := 8.
Definition LEN_KEY_DESC_MIC : Z := 16.
Definition EAPOL_VER : Z := 1.
Definition EAPOL_VER2 : Z := 2.
Definition WPA1_KEY_DESC : Z := 0xfe.
Definition WPA2_KEY_DESC : Z := 0x02.
Definition KEY_DESC_TKIP : Z := 1.
Definition KEY_DESC_AES : Z := 2.
Definition KEY_DESC_EXT : Z := 3.
Definition IE_WPA : Z := 221.
Definition IE_RSN : Z := 48.
Definition WPA_KDE_TYPE : Z := 0xdd.
Definition PAIRWISEKEY : Z := 1.
Definition GROUPKEY : Z := 0.
Definition MAX_LEN_OF_RSNIE : Z := 255.
Definition MAX_LEN_GTK : Z := 32.
Definition LEN_WEP64 : Z := 5.
Definition LEN_WEP128 : Z := 13.
Definition LEN_PTK_KCK : Z := 16.
Definition LEN_TK : Z := 16.
Definition LEN_TKIP_GTK : Z := 32.
Definition LEN_AES_GTK : Z := 16.
Definition LEN_TKIP_TK : Z := 32.
Definition LEN_AES_TK : Z := 16.
Definition KDE_GTK : Z := 1.
Definition TX_EAPOL_BUFFER : Z := 1500.
Definition LENGTH_EAPOL_H : Z := 4.
Definition OUI_WPA2 : list Z := [0x00; 0x0f; 0xac].
Definition EAPOL_type : list Z := [0x88; 0x8e].

(** Message types, in the order the code compares them. *)
Definition EAPOL_PAIR_MSG_1 : Z := 1.
Definition EAPOL_PAIR_MSG_2 : Z := 2.
Definition EAPOL_PAIR_MSG_3 : Z := 3.
Definition EAPOL_PAIR_MSG_4 : Z := 4.
Definition EAPOL_GROUP_MSG_1 : Z := 5.
Definition EAPOL_GROUP_MSG_2 : Z := 6.

(** [NDIS_802_11_AUTHENTICATION_MODE] and [NDIS_802_11_WEP_STATUS]: numbers,
    because the code compares them with [<]. *)
Definition Ndis802_11AuthModeWPA : Z := 3.
Definition Ndis802_11AuthModeWPAPSK : Z := 4.
Definition Ndis802_11AuthModeWPANone : Z := 5.
Definition Ndis802_11AuthModeWPA2 : Z := 6.
Definition Ndis802_11AuthModeWPA2PSK : Z := 7.
Definition Ndis802_11AuthModeWPA1WPA2 : Z := 8.
Definition Ndis802_11AuthModeWPA1PSKWPA2PSK : Z := 9.
Definition Ndis802_11Encryption1Enabled : Z := 0.
Definition Ndis802_11WEPDisabled : Z := 1.
Definition Ndis802_11Encryption2Enabled : Z := 4.
Definition Ndis802_11Encryption3Enabled : Z := 6.
Definition Ndis802_11Encryption4Enabled : Z := 8.
Definition Ndis802_11GroupWEP40Enabled : Z := 10.
Definition Ndis802_11GroupWEP104Enabled : Z := 11.

Definition CIPHER_NONE : Z := 0.
Definition CIPHER_WEP64 : Z := 1.
Definition CIPHER_WEP128 : Z := 2.
Definition CIPHER_TKIP : Z := 3.
Definition CIPHER_AES : Z := 4.

(** [AP_WPA_STATE], compared with [<]. *)
Definition AS_INITPMK : Z := 6.
Definition AS_INITPSK : Z := 7.
Definition AS_PTKSTART : Z := 8.
Definition AS_PTKINIT_NEGOTIATING : Z := 9.
Definition AS_PTKINITDONE : Z := 10.

Definition WPA_802_1X_PORT_SECURED : Z := 1.
Definition WPA_802_1X_PORT_NOT_SECURED : Z := 2.

Inductive PRIVACY_FILTER := PrivFilterAcceptAll | PrivFilter8021xWEP.
Inductive SST := SST_NOT_AUTH | SST_AUTH | SST_ASSOC.
Inductive GTK_STATE := REKEY_NEGOTIATING | REKEY_ESTABLISHED | KEYERROR.
Inductive ENTRY_TYPE := ENTRY_NONE | ENTRY_CLIENT | ENTRY_WDS | ENTRY_APCLI | ENTRY_MESH | ENTRY_DLS | ENTRY_TDLS.

#[export] Instance sst_eq_dec : EqDecision SST.
Proof. solve_decision. Defined.
#[export] Instance entry_type_eq_dec : EqDecision ENTRY_TYPE.
Proof. solve_decision. Defined.

(** ** Numbers in byte arrays *)

Definition SET_UINT16_TO_ARRARY (len : Z) : list Z := [u8 (Z.shiftr (u16 len) 8); u16 len & 0xff].
Definition CONV_ARRARY_TO_UINT16 (v : list Z) : Z := Z.shiftl v.[0] 8 .| v.[1].
Definition INC_UINT16_TO_ARRARY (v : list Z) (len : Z) : list Z :=
  let var_len := u16 (CONV_ARRARY_TO_UINT16 v + len) in
  [Z.shiftr (var_len & 0xff00) 8; var_len & 0xff].

(** The loop of [ADD_ONE_To_64BIT_VAR]: [cnt] bytes are left. *)
Fixpoint add_one (v : list Z) (cnt : nat) : list Z :=
  match cnt with
  | O => v
  | S cnt =>
      let v := v.[cnt <- u8 (v.[cnt] + 1)] in
      if v.[cnt] =? 0 then add_one v cnt else v
  end.

Definition ADD_ONE_To_64BIT_VAR (v : list Z) : list Z := add_one v 8.

(** ** The EAPOL-Key frame *)

Record KEY_INFO := {
  KeyMicBit : Z;
  Secure : Z;
  Error_ : Z;
  Request : Z;
  EKD_DL : Z;
  Rsvd : Z;
  KeyDescVer : Z;
  KeyType : Z;
  KeyIndex : Z;
  Install : Z;
  KeyAck : Z;
}.

Record EAPOL_PACKET := {
  ProVer : Z;
  ProType : Z;
  Body_Len : list Z;
  DescType : Z;
  KeyInfo : KEY_INFO;
  KeyLength : list Z;
  ReplayCounter : list Z;
  KeyNonce : list Z;
  KeyIv : list Z;
  KeyRsc : list Z;
  KeyId : list Z;
  KeyMic : list Z;
  KeyDataLen : list Z;
  KeyData : list Z;
}.

(** The bit fields, low bit first. *)
Definition key_info_bytes (k : KEY_INFO) : list Z :=
  [KeyMicBit k .| Z.shiftl (Secure k) 1 .| Z.shiftl (Error_ k) 2 .| Z.shiftl (Request k) 3 .|
     Z.shiftl (EKD_DL k) 4 .| Z.shiftl (Rsvd k) 5;
   KeyDescVer k .| Z.shiftl (KeyType k) 3 .| Z.shiftl (KeyIndex k) 4 .| Z.shiftl (Install k) 6 .|
     Z.shiftl (KeyAck k) 7].

Definition bits (x : Z) (pos width : Z) : Z := (x >> pos) & Z.ones width.

Definition key_info_of (l : list Z) : KEY_INFO :=
  let a := l.[0] in
  let b := l.[1] in
  {| KeyMicBit := bits a 0 1; Secure := bits a 1 1; Error_ := bits a 2 1; Request := bits a 3 1;
     EKD_DL := bits a 4 1; Rsvd := bits a 5 3; KeyDescVer := bits b 0 3; KeyType := bits b 3 1;
     KeyIndex := bits b 4 2; Install := bits b 6 1; KeyAck := bits b 7 1 |}.

(** The 99 bytes in front of the key data. *)
Definition packet_header (p : EAPOL_PACKET) : list Z :=
  [ProVer p; ProType p] ++ Body_Len p ++ [DescType p] ++ key_info_bytes (KeyInfo p) ++ KeyLength p ++
  ReplayCounter p ++ KeyNonce p ++ KeyIv p ++ KeyRsc p ++ KeyId p ++ KeyMic p ++ KeyDataLen p.

Definition packet_bytes (p : EAPOL_PACKET) : list Z := packet_header p ++ KeyData p.

Definition packet_of (l : list Z) : EAPOL_PACKET :=
  {| ProVer := l.[0]; ProType := l.[1]; Body_Len := slice l 2 2; DescType := l.[4];
     KeyInfo := key_info_of (slice l 5 2); KeyLength := slice l 7 2; ReplayCounter := slice l 9 8;
     KeyNonce := slice l 17 32; KeyIv := slice l 49 16; KeyRsc := slice l 65 8; KeyId := slice l 73 8;
     KeyMic := slice l 81 16; KeyDataLen := slice l 97 2; KeyData := drop 99 l |}.

(** ** State *)

(** The part of [MAC_TABLE_ENTRY] that WPA uses. *)
Record wpa_entry := {
  EntryType : ENTRY_TYPE;
  Addr : list Z;
  pNext : option nat;
  Aid : Z;
  apidx : Z;
  Sst : SST;
  AuthMode : Z;
  WepStatus : Z;
  WpaState : Z;
  GTKState : GTK_STATE;
  PortSecured : Z;
  PrivacyFilter : PRIVACY_FILTER;
  R_Counter : list Z;
  ANonce : list Z;
  SNonce : list Z;
  PTK : list Z;
  ReTryCounter : Z;
  PairwiseKey : CIPHER_KEY;
  PMKID_cached : bool;
  EnqueueEapolStartTimerRunning : Z;
}.

(** Calls that leave the model. *)
Inductive wpa_event :=
  | SendPacket (Header802_3 Data : list Z) (bClearFrame : bool) (wcid : Z)
  | AsicAddPairwiseKeyEntry (wcid : Z) (key : CIPHER_KEY)
  | AsicAddSharedKeyEntry (BssIdx KeyIdx : Z) (key : CIPHER_KEY)
  | AsicUpdateWCIDIVEIV (Wcid IV EIV : Z)
  | AsicUpdateWcidAttributeEntry (BssIdx KeyIdx CipherAlg Wcid KeyTabFlag : Z)
  | RTMPSendWirelessEvent (flag : Z) (Addr : list Z) (apidx : Z)
  | RTMPModTimer_Retry (w : nat) (interval : Z)
  | RTMPCancelTimer_Retry (w : nat)
  | RTMPSetTimer_Retry (w : nat) (interval : Z)
  | MlmeEnqueue_EAPOLStart (Addr : list Z)
  | RTMP_IndicateMediaState
  | RTMPCancelTimer_LinkDown.

(** The part of the adapter: [StaCfg], [CurrentAddress], the shared keys of
    BSS 0, the station table and the trace.  [closed] is a reset or halt in
    progress; [scanning] a scan during an infrastructure connection. *)
Record wpa_adapter := {
  CurrentAddress : list Z;
  cfg_PMK : list Z;
  GroupCipher : Z;
  cfg_RSN_IE : list Z;
  cfg_RSNIE_Len : Z;
  bMixCipher : bool;
  cfg_GTK : list Z;
  DefaultKeyId : Z;
  cfg_PTK : list Z;
  cfg_PortSecured : Z;
  SharedKey : list CIPHER_KEY;
  Content : list wpa_entry;
  Hash : list (option nat);
  closed : bool;
  scanning : bool;
  MlmeAux_Channel : Z;
  Channel : Z;
  log : list wpa_event;
}.

(** ** Field updates *)

Definition set_KeyInfo (p : EAPOL_PACKET) (k : KEY_INFO) : EAPOL_PACKET :=
  {| ProVer := ProVer p; ProType := ProType p; Body_Len := Body_Len p; DescType := DescType p; KeyInfo := k;
     KeyLength := KeyLength p; ReplayCounter := ReplayCounter p; KeyNonce := KeyNonce p; KeyIv := KeyIv p;
     KeyRsc := KeyRsc p; KeyId := KeyId p; KeyMic := KeyMic p; KeyDataLen := KeyDataLen p; KeyData := KeyData p |}.

Definition set_KeyMic (p : EAPOL_PACKET) (m : list Z) : EAPOL_PACKET :=
  {| ProVer := ProVer p; ProType := ProType p; Body_Len := Body_Len p; DescType := DescType p;
     KeyInfo := KeyInfo p; KeyLength := KeyLength p; ReplayCounter := ReplayCounter p; KeyNonce := KeyNonce p;
     KeyIv := KeyIv p; KeyRsc := KeyRsc p; KeyId := KeyId p; KeyMic := m; KeyDataLen := KeyDataLen p;
     KeyData := KeyData p |}.

(** The length of the body and the key data with its length. *)
Definition set_data (p : EAPOL_PACKET) (body datalen data : list Z) : EAPOL_PACKET :=
  {| ProVer := ProVer p; ProType := ProType p; Body_Len := body; DescType := DescType p; KeyInfo := KeyInfo p;
     KeyLength := KeyLength p; ReplayCounter := ReplayCounter p; KeyNonce := KeyNonce p; KeyIv := KeyIv p;
     KeyRsc := KeyRsc p; KeyId := KeyId p; KeyMic := KeyMic p; KeyDataLen := datalen; KeyData := data |}.

(** What a handler assigns in the entry: state, counter, nonces and key. *)
Definition set_handshake (e : wpa_entry) (state : Z) (counter anonce snonce ptk : list Z) : wpa_entry :=
  {| EntryType := EntryType e; Addr := Addr e; pNext := pNext e; Aid := Aid e; apidx := apidx e; Sst := Sst e;
     AuthMode := AuthMode e; WepStatus := WepStatus e; WpaState := state; GTKState := GTKState e;
     PortSecured := PortSecured e; PrivacyFilter := PrivacyFilter e; R_Counter := counter; ANonce := anonce;
     SNonce := snonce; PTK := ptk; ReTryCounter := ReTryCounter e; PairwiseKey := PairwiseKey e;
     PMKID_cached := PMKID_cached e; EnqueueEapolStartTimerRunning := EnqueueEapolStartTimerRunning e |}.

Definition set_R_Counter e c := set_handshake e (WpaState e) c (ANonce e) (SNonce e) (PTK e).
Definition set_ANonce e n := set_handshake e (WpaState e) (R_Counter e) n (SNonce e) (PTK e).
Definition set_SNonce e n := set_handshake e (WpaState e) (R_Counter e) (ANonce e) n (PTK e).
Definition set_PTK e k := set_handshake e (WpaState e) (R_Counter e) (ANonce e) (SNonce e) k.
Definition set_WpaState e s := set_handshake e s (R_Counter e) (ANonce e) (SNonce e) (PTK e).

Definition set_port (e : wpa_entry) (port : Z) (filter : PRIVACY_FILTER) : wpa_entry :=
  {| EntryType := EntryType e; Addr := Addr e; pNext := pNext e; Aid := Aid e; apidx := apidx e; Sst := Sst e;
     AuthMode := AuthMode e; WepStatus := WepStatus e; WpaState := WpaState e; GTKState := GTKState e;
     PortSecured := port; PrivacyFilter := filter; R_Counter := R_Counter e; ANonce := ANonce e;
     SNonce := SNonce e; PTK := PTK e; ReTryCounter := ReTryCounter e; PairwiseKey := PairwiseKey e;
     PMKID_cached := PMKID_cached e; EnqueueEapolStartTimerRunning := EnqueueEapolStartTimerRunning e |}.

Definition set_key (e : wpa_entry) (k : CIPHER_KEY) : wpa_entry :=
  {| EntryType := EntryType e; Addr := Addr e; pNext := pNext e; Aid := Aid e; apidx := apidx e; Sst := Sst e;
     AuthMode := AuthMode e; WepStatus := WepStatus e; WpaState := WpaState e; GTKState := GTKState e;
     PortSecured := PortSecured e; PrivacyFilter := PrivacyFilter e; R_Counter := R_Counter e; ANonce := ANonce e;
     SNonce := SNonce e; PTK := PTK e; ReTryCounter := ReTryCounter e; PairwiseKey := k;
     PMKID_cached := PMKID_cached e; EnqueueEapolStartTimerRunning := EnqueueEapolStartTimerRunning e |}.

Definition set_retry (e : wpa_entry) (gtk : GTK_STATE) (retry : Z) : wpa_entry :=
  {| EntryType := EntryType e; Addr := Addr e; pNext := pNext e; Aid := Aid e; apidx := apidx e; Sst := Sst e;
     AuthMode := AuthMode e; WepStatus := WepStatus e; WpaState := WpaState e; GTKState := gtk;
     PortSecured := PortSecured e; PrivacyFilter := PrivacyFilter e; R_Counter := R_Counter e; ANonce := ANonce e;
     SNonce := SNonce e; PTK := PTK e; ReTryCounter := retry; PairwiseKey := PairwiseKey e;
     PMKID_cached := PMKID_cached e; EnqueueEapolStartTimerRunning := EnqueueEapolStartTimerRunning e |}.

(** [gtk], [id], [ptk], [port]: the assigned part of [StaCfg]. *)
Definition set_cfg (a : wpa_adapter) (gtk : list Z) (id : Z) (ptk : list Z) (port : Z) : wpa_adapter :=
  {| CurrentAddress := CurrentAddress a; cfg_PMK := cfg_PMK a; GroupCipher := GroupCipher a;
     cfg_RSN_IE := cfg_RSN_IE a; cfg_RSNIE_Len := cfg_RSNIE_Len a; bMixCipher := bMixCipher a; cfg_GTK := gtk;
     DefaultKeyId := id; cfg_PTK := ptk; cfg_PortSecured := port; SharedKey := SharedKey a; Content := Content a;
     Hash := Hash a; closed := closed a; scanning := scanning a;
     MlmeAux_Channel := MlmeAux_Channel a; Channel := Channel a; log := log a |}.

Definition set_keys (a : wpa_adapter) (keys : list CIPHER_KEY) : wpa_adapter :=
  {| CurrentAddress := CurrentAddress a; cfg_PMK := cfg_PMK a; GroupCipher := GroupCipher a;
     cfg_RSN_IE := cfg_RSN_IE a; cfg_RSNIE_Len := cfg_RSNIE_Len a; bMixCipher := bMixCipher a;
     cfg_GTK := cfg_GTK a; DefaultKeyId := DefaultKeyId a; cfg_PTK := cfg_PTK a; cfg_PortSecured := cfg_PortSecured a;
     SharedKey := keys; Content := Content a; Hash := Hash a; closed := closed a; scanning := scanning a;
     MlmeAux_Channel := MlmeAux_Channel a; Channel := Channel a; log := log a |}.

Definition set_entry (a : wpa_adapter) (w : nat) (e : wpa_entry) : wpa_adapter :=
  {| CurrentAddress := CurrentAddress a; cfg_PMK := cfg_PMK a; GroupCipher := GroupCipher a;
     cfg_RSN_IE := cfg_RSN_IE a; cfg_RSNIE_Len := cfg_RSNIE_Len a; bMixCipher := bMixCipher a;
     cfg_GTK := cfg_GTK a; DefaultKeyId := DefaultKeyId a; cfg_PTK := cfg_PTK a; cfg_PortSecured := cfg_PortSecured a;
     SharedKey := SharedKey a; Content := <[w := e]> (Content a); Hash := Hash a; closed := closed a; scanning := scanning a;
     MlmeAux_Channel := MlmeAux_Channel a; Channel := Channel a; log := log a |}.

Definition note (a : wpa_adapter) (ev : wpa_event) : wpa_adapter :=
  {| CurrentAddress := CurrentAddress a; cfg_PMK := cfg_PMK a; GroupCipher := GroupCipher a;
     cfg_RSN_IE := cfg_RSN_IE a; cfg_RSNIE_Len := cfg_RSNIE_Len a; bMixCipher := bMixCipher a;
     cfg_GTK := cfg_GTK a; DefaultKeyId := DefaultKeyId a; cfg_PTK := cfg_PTK a; cfg_PortSecured := cfg_PortSecured a;
     SharedKey := SharedKey a; Content := Content a; Hash := Hash a; closed := closed a; scanning := scanning a;
     MlmeAux_Channel := MlmeAux_Channel a; Channel := Channel a; log := log a ++ [ev] |}.

Definition set_eapol_timer (e : wpa_entry) (v : Z) : wpa_entry :=
  {| EntryType := EntryType e; Addr := Addr e; pNext := pNext e; Aid := Aid e; apidx := apidx e; Sst := Sst e;
     AuthMode := AuthMode e; WepStatus := WepStatus e; WpaState := WpaState e; GTKState := GTKState e;
     PortSecured := PortSecured e; PrivacyFilter := PrivacyFilter e; R_Counter := R_Counter e; ANonce := ANonce e;
     SNonce := SNonce e; PTK := PTK e; ReTryCounter := ReTryCounter e; PairwiseKey := PairwiseKey e;
     PMKID_cached := PMKID_cached e; EnqueueEapolStartTimerRunning := v |}.

Definition set_MlmeAux_Channel (a : wpa_adapter) (c : Z) : wpa_adapter :=
  {| CurrentAddress := CurrentAddress a; cfg_PMK := cfg_PMK a; GroupCipher := GroupCipher a;
     cfg_RSN_IE := cfg_RSN_IE a; cfg_RSNIE_Len := cfg_RSNIE_Len a; bMixCipher := bMixCipher a;
     cfg_GTK := cfg_GTK a; DefaultKeyId := DefaultKeyId a; cfg_PTK := cfg_PTK a; cfg_PortSecured := cfg_PortSecured a;
     SharedKey := SharedKey a; Content := Content a; Hash := Hash a; closed := closed a; scanning := scanning a;
     MlmeAux_Channel := c; Channel := Channel a; log := log a |}.

(** [NdisZeroMemory(pKey, sizeof(CIPHER_KEY))] *)
Definition zero_key : CIPHER_KEY :=
  {| Key := zeros 16; TxMic := zeros 8; RxMic := zeros 8; TxTsc := zeros 16; RxTsc := zeros 16;
     CipherAlg := 0; KeyLen := 0; Type_ := 0 |}.

(** A buffer of zeros of [n] bytes behind the header. *)
Definition zero_packet (n : nat) : EAPOL_PACKET := packet_of (zeros (99 + n)).

(** ** Well-formedness *)

Definition info_wf (k : KEY_INFO) : Prop :=
  fits 1 (KeyMicBit k) ∧ fits 1 (Secure k) ∧ fits 1 (Error_ k) ∧ fits 1 (Request k) ∧ fits 1 (EKD_DL k) ∧
  fits 3 (Rsvd k) ∧ fits 3 (KeyDescVer k) ∧ fits 1 (KeyType k) ∧ fits 2 (KeyIndex k) ∧ fits 1 (Install k) ∧
  fits 1 (KeyAck k).

(** A field of [n] bytes. *)
Definition field (n : nat) (l : list Z) : Prop := length l = n ∧ bytes l.

Definition packet_wf (p : EAPOL_PACKET) : Prop :=
  byte (ProVer p) ∧ byte (ProType p) ∧ field 2 (Body_Len p) ∧ byte (DescType p) ∧ info_wf (KeyInfo p) ∧
  field 2 (KeyLength p) ∧ field 8 (ReplayCounter p) ∧ field 32 (KeyNonce p) ∧ field 16 (KeyIv p) ∧
  field 8 (KeyRsc p) ∧ field 8 (KeyId p) ∧ field 16 (KeyMic p) ∧ field 2 (KeyDataLen p) ∧ bytes (KeyData p).

(** ** Lemmas *)

(** *** Key information *)

Definition range (n : nat) : list Z := map Z.of_nat (seq 0 n).

Lemma range_spec n x : 0 <= x < Z.of_nat n → In x (range n).
Proof. intros H. apply in_map_iff. exists (Z.to_nat x). split; [lia|]. apply in_seq. lia. Qed.

Lemma forall_range n (P : Z → bool) : forallb P (range n) = true → ∀ x, 0 <= x < Z.of_nat n → P x = true.
Proof. rewrite forallb_forall. intros H x Hx. by apply H, range_spec. Qed.

Definition info_byte0 (a b c d e f : Z) : Z :=
  a .| Z.shiftl b 1 .| Z.shiftl c 2 .| Z.shiftl d 3 .| Z.shiftl e 4 .| Z.shiftl f 5.
Definition info_byte1 (a b c d e : Z) : Z :=
  a .| Z.shiftl b 3 .| Z.shiftl c 4 .| Z.shiftl d 6 .| Z.shiftl e 7.

Lemma info_byte0_ok a b c d e f :
  fits 1 a → fits 1 b → fits 1 c → fits 1 d → fits 1 e → fits 3 f →
  let x := info_byte0 a b c d e f in
  bits x 0 1 = a ∧ bits x 1 1 = b ∧ bits x 2 1 = c ∧ bits x 3 1 = d ∧ bits x 4 1 = e ∧ bits x 5 3 = f ∧ byte x.
Proof.
  intros Ha Hb Hc Hd He Hf.
  assert (forallb (λ a, forallb (λ b, forallb (λ c, forallb (λ d, forallb (λ e, forallb (λ f,
    let x := info_byte0 a b c d e f in
    (bits x 0 1 =? a) && (bits x 1 1 =? b) && (bits x 2 1 =? c) && (bits x 3 1 =? d) && (bits x 4 1 =? e) &&
    (bits x 5 3 =? f) && (0 <=? x) && (x <? 256)) (range 8)) (range 2)) (range 2)) (range 2)) (range 2)) (range 2) = true)
    as H by (vm_compute; reflexivity).
  pose proof (forall_range _ _ (forall_range _ _ (forall_range _ _ (forall_range _ _ (forall_range _ _
    (forall_range _ _ H a Ha) b Hb) c Hc) d Hd) e He) f Hf) as H'. cbv beta zeta in H'.
  unfold fits. cbv zeta. rewrite !andb_true_iff, !Z.eqb_eq, Z.leb_le, Z.ltb_lt in H'. tauto.
Qed.

Lemma info_byte1_ok a b c d e :
  fits 3 a → fits 1 b → fits 2 c → fits 1 d → fits 1 e →
  let x := info_byte1 a b c d e in
  bits x 0 3 = a ∧ bits x 3 1 = b ∧ bits x 4 2 = c ∧ bits x 6 1 = d ∧ bits x 7 1 = e ∧ byte x.
Proof.
  intros Ha Hb Hc Hd He.
  assert (forallb (λ a, forallb (λ b, forallb (λ c, forallb (λ d, forallb (λ e,
    let x := info_byte1 a b c d e in
    (bits x 0 3 =? a) && (bits x 3 1 =? b) && (bits x 4 2 =? c) && (bits x 6 1 =? d) && (bits x 7 1 =? e) &&
    (0 <=? x) && (x <? 256)) (range 2)) (range 2)) (range 4)) (range 2)) (range 8) = true)
    as H by (vm_compute; reflexivity).
  pose proof (forall_range _ _ (forall_range _ _ (forall_range _ _ (forall_range _ _
    (forall_range _ _ H a Ha) b Hb) c Hc) d Hd) e He) as H'. cbv beta zeta in H'.
  unfold fits. cbv zeta. rewrite !andb_true_iff, !Z.eqb_eq, Z.leb_le, Z.ltb_lt in H'. tauto.
Qed.

Lemma key_info_of_bytes k : info_wf k → key_info_of (key_info_bytes k) = k.
Proof.
  intros (H1 & H2 & H3 & H4 & H5 & H6 & H7 & H8 & H9 & H10 & H11).
  destruct (info_byte0_ok _ _ _ _ _ _ H1 H2 H3 H4 H5 H6) as (E1 & E2 & E3 & E4 & E5 & E6 & _).
  destruct (info_byte1_ok _ _ _ _ _ H7 H8 H9 H10 H11) as (F1 & F2 & F3 & F4 & F5 & _).
  unfold key_info_of, key_info_bytes. unfold info_byte0, info_byte1 in *. unfold get. cbn [nth].
  rewrite E1, E2, E3, E4, E5, E6, F1, F2, F3, F4, F5. by destruct k.
Qed.

Lemma field_key_info k : info_wf k → field 2 (key_info_bytes k).
Proof.
  intros (H1 & H2 & H3 & H4 & H5 & H6 & H7 & H8 & H9 & H10 & H11). split; [done|].
  constructor; [by apply info_byte0_ok|]. constructor; [by apply info_byte1_ok|constructor].
Qed.

Lemma bytes_key_info_of l : bytes l → length l = 2%nat → key_info_bytes (key_info_of l) = l.
Proof.
  intros Hb Hl. destruct l as [|x [|y [|]]]; try discriminate.
  apply Forall_cons in Hb as [Ha [Hb _]%Forall_cons].
  unfold key_info_of, key_info_bytes, get. cbn [nth KeyMicBit Secure Error_ Request EKD_DL Rsvd KeyDescVer KeyType KeyIndex Install KeyAck].
  clear Hl. f_equal; [|f_equal]; [clear Hb|clear Ha].
  - by_all_bytes x Ha.
  - by_all_bytes y Hb.
Qed.

Lemma fits_bits_field x pos w : 0 <= w → fits w (bits x pos w).
Proof. intros Hw. unfold bits. rewrite Z.land_ones by done. apply Z.mod_pos_bound. lia. Qed.

Lemma info_wf_of l : info_wf (key_info_of l).
Proof. split_and!; by apply fits_bits_field. Qed.

(** *** The layout of the frame *)

Lemma slice_join l i n : slice l i n ++ drop (i + n) l = drop i l.
Proof. unfold slice. rewrite <- drop_drop. apply take_drop. Qed.

Lemma get_join l i : (i < length l)%nat → l.[i] :: drop (S i) l = drop i l.
Proof. intros H. rewrite <- (slice_join l i 1), slice_1, Nat.add_1_r by done. done. Qed.

Lemma packet_bytes_of l : bytes l → (99 <= length l)%nat → packet_bytes (packet_of l) = l.
Proof.
  intros Hb Hl. unfold packet_bytes, packet_header, packet_of.
  cbn [ProVer ProType Body_Len DescType KeyInfo KeyLength ReplayCounter KeyNonce KeyIv KeyRsc KeyId KeyMic KeyDataLen KeyData].
  rewrite bytes_key_info_of by (by apply bytes_slice || (apply length_slice; lia)).
  rewrite <- !app_assoc, !slice_join. cbn [app Nat.add].
  rewrite (get_join l 4), slice_join by lia. cbn [Nat.add]. by rewrite (get_join l 1), (get_join l 0) by lia.
Qed.

Lemma packet_of_bytes p : packet_wf p → packet_of (packet_bytes p) = p.
Proof.
  intros (_ & _ & [H2 _] & _ & Hk & [H5 _] & [H6 _] & [H7 _] & [H8 _] & [H9 _] & [H10 _] & [H11 _] & [H12 _] & _).
  unfold packet_of, packet_bytes, packet_header.
  destruct p as [pv pt bl dt ki kl rc kn iv rsc id mic dl kd].
  cbn [ProVer ProType Body_Len DescType KeyInfo KeyLength ReplayCounter KeyNonce KeyIv KeyRsc KeyId KeyMic KeyDataLen KeyData] in *.
  destruct (list_as_map bl 2 H2) as [f2 ->], (list_as_map kl 2 H5) as [f5 ->], (list_as_map rc 8 H6) as [f6 ->],
    (list_as_map kn 32 H7) as [f7 ->], (list_as_map iv 16 H8) as [f8 ->], (list_as_map rsc 8 H9) as [f9 ->],
    (list_as_map id 8 H10) as [f10 ->], (list_as_map mic 16 H11) as [f11 ->], (list_as_map dl 2 H12) as [f12 ->].
  f_equal; try reflexivity. exact (key_info_of_bytes ki Hk).
Qed.

Lemma length_packet_header p : packet_wf p → length (packet_header p) = 99%nat.
Proof.
  intros (_ & _ & [H2 _] & _ & Hk & [H5 _] & [H6 _] & [H7 _] & [H8 _] & [H9 _] & [H10 _] & [H11 _] & [H12 _] & _).
  unfold packet_header. rewrite !length_app, H2, H5, H6, H7, H8, H9, H10, H11, H12. done.
Qed.

Lemma bytes_packet p : packet_wf p → bytes (packet_header p) ∧ bytes (packet_bytes p).
Proof.
  intros (H0 & H1 & [_ H2] & H3 & Hk & [_ H5] & [_ H6] & [_ H7] & [_ H8] & [_ H9] & [_ H10] & [_ H11] & [_ H12] & H13).
  assert (bytes (packet_header p)) as Hh; [|split; [done|by apply Forall_app]].
  unfold packet_header. rewrite !Forall_app. destruct (field_key_info _ Hk) as [_ Hki].
  split_and!; first [done | by apply Forall_singleton | by apply Forall_cons; split; [|apply Forall_singleton]].
Qed.

Lemma packet_wf_of l : bytes l → (99 <= length l)%nat → packet_wf (packet_of l).
Proof.
  intros Hb Hl. assert (∀ i n, (i + n <= 99)%nat → field n (slice l i n)) as Hf
    by (intros; split; [apply length_slice; lia|by apply bytes_slice]).
  unfold packet_wf. split_and!; first [by apply bytes_get | apply Hf; lia | apply info_wf_of | by apply Forall_drop].
Qed.

(** *** Counters *)

Lemma CONV_range v : bytes v → 0 <= CONV_ARRARY_TO_UINT16 v < 65536.
Proof.
  intros Hb. unfold CONV_ARRARY_TO_UINT16. pose proof (bytes_get v 0 Hb) as H0. pose proof (bytes_get v 1 Hb) as H1.
  rewrite Z.lor_comm, lor_shift_add by done. unfold fits in *. lia.
Qed.

Lemma SET_CONV n : CONV_ARRARY_TO_UINT16 (SET_UINT16_TO_ARRARY n) = u16 n.
Proof.
  unfold CONV_ARRARY_TO_UINT16, SET_UINT16_TO_ARRARY, get. cbn [nth]. change 0xff with 255.
  assert (0 <= u16 n < 65536) as Hn by (unfold u16; apply Z.mod_pos_bound; lia).
  rewrite Z.lor_comm, lor_shift_add by auto with rt. rewrite land_255, Z.shiftr_div_pow2 by lia.
  change (2 ^ 8) with 256. rewrite u8_small.
  - rewrite Z.add_comm. symmetry. apply Z.div_mod. lia.
  - unfold fits. Z.to_euclidean_division_equations; lia.
Qed.

Lemma field_SET n : field 2 (SET_UINT16_TO_ARRARY n).
Proof. split; [done|]. unfold SET_UINT16_TO_ARRARY. apply Forall_cons; split; [|apply Forall_singleton]; auto with rt. Qed.

Lemma INC_SET v n :
  bytes v → 0 <= n → CONV_ARRARY_TO_UINT16 v + n < 65536 →
  INC_UINT16_TO_ARRARY v n = SET_UINT16_TO_ARRARY (CONV_ARRARY_TO_UINT16 v + n).
Proof.
  intros Hv H0 Hn. pose proof (CONV_range v Hv) as Hc. unfold INC_UINT16_TO_ARRARY, SET_UINT16_TO_ARRARY. f_equal.
  set (x := u16 _). rewrite Z.shiftr_land. change (0xff00 >> 8) with 255. by rewrite u8_land.
Qed.
