(* ===== verification/RsnIe.v ===== *)
(** * RSN and WPA information elements

    Models how the station describes its ciphers in
    [linux/Arch/rt5370.driver/common/cmm_wpa.c] ([RTMPMakeRSNIE] and its three
    parts), how [sta/assoc.c] completes the element for an association request
    and keeps the access point's, and the readers of such elements,
    [WPA_ExtractSuiteFromRSNIE] and [RTMPCheckRSNIE].

    A buffer is a list of bytes and a pointer into it a position; [None] is an
    access outside the buffer. *)

From stdpp Require Import base list numbers list_numbers sets.
From Stdlib Require Import ZArith Lia.
From S2P Require Import Prelude Mlme WpaCmm WpaKeys WpaData.

Definition OUI_WPA_NONE_AKM : list Z := [0x00; 0x50; 0xf2; 0x00].
Definition OUI_WPA_VERSION : list Z := [0x00; 0x50; 0xf2; 0x01].
Definition OUI_WPA_WEP40 : list Z := [0x00; 0x50; 0xf2; 0x01].
Definition OUI_WPA_TKIP : list Z := [0x00; 0x50; 0xf2; 0x02].
Definition OUI_WPA_CCMP : list Z := [0x00; 0x50; 0xf2; 0x04].
Definition OUI_WPA_WEP104 : list Z := [0x00; 0x50; 0xf2; 0x05].
Definition OUI_WPA_8021X_AKM : list Z := [0x00; 0x50; 0xf2; 0x01].
Definition OUI_WPA_PSK_AKM : list Z := [0x00; 0x50; 0xf2; 0x02].
Definition OUI_WPA2_WEP40 : list Z := [0x00; 0x0f; 0xac; 0x01].
Definition OUI_WPA2_TKIP : list Z := [0x00; 0x0f; 0xac; 0x02].
Definition OUI_WPA2_CCMP : list Z := [0x00; 0x0f; 0xac; 0x04].
Definition OUI_WPA2_8021X_AKM : list Z := [0x00; 0x0f; 0xac; 0x01].
Definition OUI_WPA2_PSK_AKM : list Z := [0x00; 0x0f; 0xac; 0x02].
Definition OUI_WPA2_WEP104 : list Z := [0x00; 0x0f; 0xac; 0x05].
Definition WPA_OUI : list Z := [0x00; 0x50; 0xf2; 0x01].
Definition RSN_OUI : list Z := [0x00; 0x0f; 0xac].

Definition Wpa2Ie : Z := 48.
Definition WpaIe : Z := 221.

(** The packed structs: their sizes, and where their fields are. *)
Definition sizeof_RSNIE : Z := 16.
Definition sizeof_RSNIE2 : Z := 12.
Definition sizeof_RSNIE_AUTH : Z := 6.
Definition sizeof_RSN_CAPABILITIES : Z := 2.
Definition sizeof_RSNIE_PMKID : Z := 18.
Definition LEN_OUI_SUITE : Z := 4.
Definition PMKID_NO : nat := 4.

Record rsn_fields := { f_version : Z; f_mcast : Z; f_ucount : Z; f_ucast : Z; f_size : Z }.
Definition RSNIE : rsn_fields :=
  {| f_version := 4; f_mcast := 6; f_ucount := 10; f_ucast := 12; f_size := sizeof_RSNIE |}.
Definition RSNIE2 : rsn_fields :=
  {| f_version := 0; f_mcast := 2; f_ucount := 6; f_ucast := 8; f_size := sizeof_RSNIE2 |}.

(** ** Building the station's element *)

Definition MIX_CIPHER_WPA_TKIP_ON (x : Z) : bool := negb (x & 0x08 =? 0).
Definition MIX_CIPHER_WPA_AES_ON (x : Z) : bool := negb (x & 0x04 =? 0).
Definition MIX_CIPHER_WPA2_TKIP_ON (x : Z) : bool := negb (x & 0x02 =? 0).
Definition MIX_CIPHER_WPA2_AES_ON (x : Z) : bool := negb (x & 0x01 =? 0).
Definition MIX_CIPHER_NOTUSE : Z := 0.

(** One branch of [RTMPMakeRsnIeCipher]: the fields of [F] with the suites
    [tkip] and [ccmp] of the element's family; [tkip_on] and [aes_on] test the
    flexible cipher. *)
Definition cipher_suites (F : rsn_fields) (tkip ccmp wep40 wep104 : list Z) (tkip_on aes_on : bool)
    (WepStatus GroupCipher_ : Z) (bMixCipher_ : bool) (pRsnIe : list Z) (rsn_len : Z) : option (list Z * Z) :=
  '(m, rsn_len) ←
    (if WepStatus =? Ndis802_11Encryption2Enabled then
       m ← store pRsnIe (f_mcast F) tkip;
       m ← store m (f_ucount F) (le_bytes 2 1);
       m ← store m (f_ucast F) tkip;
       Some (m, f_size F)
     else if WepStatus =? Ndis802_11Encryption3Enabled then
       m ← store pRsnIe (f_mcast F) (if bMixCipher_ : bool then tkip else ccmp);
       m ← store m (f_ucount F) (le_bytes 2 1);
       m ← store m (f_ucast F) ccmp;
       Some (m, f_size F)
     else if WepStatus =? Ndis802_11Encryption4Enabled then
       m ← store pRsnIe (f_mcast F) tkip;
       '(m, PairwiseCnt) ←
         (if tkip_on : bool then
            m ← store m (f_ucast F) tkip;
            if aes_on : bool then m ← store m (f_size F) ccmp; Some (m, 2) else Some (m, 1)
          else m ← store m (f_ucast F) ccmp; Some (m, 1));
       m ← store m (f_ucount F) (le_bytes 2 PairwiseCnt);
       Some (m, f_size F + 4 * (PairwiseCnt - 1))
     else Some (pRsnIe, rsn_len));
  m ← (if negb (GroupCipher_ =? Ndis802_11Encryption2Enabled) && negb (GroupCipher_ =? Ndis802_11Encryption3Enabled) then
         if GroupCipher_ =? Ndis802_11GroupWEP40Enabled then store m (f_mcast F) wep40
         else if GroupCipher_ =? Ndis802_11GroupWEP104Enabled then store m (f_mcast F) wep104
         else Some m
       else Some m);
  Some (m, u8 rsn_len).

Definition RTMPMakeRsnIeCipher (ElementID WepStatus GroupCipher_ : Z) (bMixCipher_ : bool) (FlexibleCipher : Z)
    (pRsnIe : list Z) : option (list Z * Z) :=
  if ElementID =? Wpa2Ie then
    m ← store pRsnIe (f_version RSNIE2) (le_bytes 2 1);
    cipher_suites RSNIE2 OUI_WPA2_TKIP OUI_WPA2_CCMP OUI_WPA2_WEP40 OUI_WPA2_WEP104
      (MIX_CIPHER_WPA2_TKIP_ON FlexibleCipher) (MIX_CIPHER_WPA2_AES_ON FlexibleCipher)
      WepStatus GroupCipher_ bMixCipher_ m 0
  else
    m ← store pRsnIe 0 OUI_WPA_VERSION;
    m ← store m (f_version RSNIE) (le_bytes 2 1);
    cipher_suites RSNIE OUI_WPA_TKIP OUI_WPA_CCMP OUI_WPA_WEP40 OUI_WPA_WEP104
      (MIX_CIPHER_WPA_TKIP_ON FlexibleCipher) (MIX_CIPHER_WPA_AES_ON FlexibleCipher)
      WepStatus GroupCipher_ bMixCipher_ m 0.

Definition RTMPMakeRsnIeAKM (ElementID AuthMode : Z) (pRsnIe : list Z) (rsn_len : Z) : option (list Z * Z) :=
  let akm :=
    if ElementID =? Wpa2Ie then
      if (AuthMode =? Ndis802_11AuthModeWPA2) || (AuthMode =? Ndis802_11AuthModeWPA1WPA2) then Some OUI_WPA2_8021X_AKM
      else if (AuthMode =? Ndis802_11AuthModeWPA2PSK) || (AuthMode =? Ndis802_11AuthModeWPA1PSKWPA2PSK) then Some OUI_WPA2_PSK_AKM
      else None
    else
      if (AuthMode =? Ndis802_11AuthModeWPA) || (AuthMode =? Ndis802_11AuthModeWPA1WPA2) then Some OUI_WPA_8021X_AKM
      else if (AuthMode =? Ndis802_11AuthModeWPAPSK) || (AuthMode =? Ndis802_11AuthModeWPA1PSKWPA2PSK) then Some OUI_WPA_PSK_AKM
      else if AuthMode =? Ndis802_11AuthModeWPANone then Some OUI_WPA_NONE_AKM
      else None in
  let AkmCnt := match akm with Some _ => 1 | None => 0 end in
  m ← (match akm with Some oui => store pRsnIe (rsn_len + 2) oui | None => Some pRsnIe end);
  m ← store m rsn_len (le_bytes 2 AkmCnt);
  Some (m, u8 (rsn_len + (sizeof_RSNIE_AUTH + 4 * (AkmCnt - 1)))).

(** On this platform the capability word keeps the value it has. *)
Definition RTMPMakeRsnIeCap (ElementID : Z) (pRsnIe : list Z) (rsn_len : Z) : option (list Z * Z) :=
  if ElementID =? WpaIe then Some (pRsnIe, rsn_len)
  else
    w ← load pRsnIe rsn_len 2;
    m ← store pRsnIe rsn_len w;
    Some (m, u8 (rsn_len + sizeof_RSN_CAPABILITIES)).

Definition WPA_SUPPLICANT_DISABLE : Z := 0x00.
Definition WPA_SUPPLICANT_ENABLE : Z := 0x01.

(** The settings of [pAd->StaCfg]; [rs_WpaSupplicantUP] is [WpaSupplicantUP] and
    [rs_from_supplicant] is [bRSN_IE_FromWpaSupplicant]. *)
Record rsn_settings := {
  rs_AuthMode : Z;
  rs_WepStatus : Z;
  rs_GroupCipher : Z;
  rs_bMixCipher : bool;
  rs_WpaSupplicantUP : Z;
  rs_from_supplicant : bool;
}.

Definition rs_supplicant (s : rsn_settings) : bool := negb (rs_WpaSupplicantUP s =? WPA_SUPPLICANT_DISABLE).

Definition is_WPA1 (AuthMode : Z) : bool :=
  (AuthMode =? Ndis802_11AuthModeWPA) || (AuthMode =? Ndis802_11AuthModeWPAPSK) || (AuthMode =? Ndis802_11AuthModeWPANone) ||
  (AuthMode =? Ndis802_11AuthModeWPA1WPA2) || (AuthMode =? Ndis802_11AuthModeWPA1PSKWPA2PSK).

Definition PrimaryRsnie (AuthMode : Z) : Z := if is_WPA1 AuthMode then WpaIe else Wpa2Ie.

(** [RSN_IE] and [RSNIE_Len]; a mode that has no element leaves them alone. *)
Definition RTMPMakeRSNIE (s : rsn_settings) (RSN_IE : list Z) (RSNIE_Len : Z) : option (list Z * Z) :=
  let AuthMode := rs_AuthMode s in
  if (if rs_supplicant s then AuthMode <? Ndis802_11AuthModeWPA
      else negb (AuthMode =? Ndis802_11AuthModeWPAPSK) && negb (AuthMode =? Ndis802_11AuthModeWPA2PSK) &&
           negb (AuthMode =? Ndis802_11AuthModeWPANone))
  then Some (RSN_IE, RSNIE_Len)
  else
    let id := PrimaryRsnie AuthMode in
    let m := zeros (Z.to_nat MAX_LEN_OF_RSNIE) in
    '(m, p_offset) ← RTMPMakeRsnIeCipher id (rs_WepStatus s) (rs_GroupCipher s) (rs_bMixCipher s) MIX_CIPHER_NOTUSE m;
    '(m, p_offset) ← RTMPMakeRsnIeAKM id AuthMode m p_offset;
    RTMPMakeRsnIeCap id m p_offset.

(** ** The element of an association request *)

(** [for (idx = 0; idx < PMKID_NO; idx++)] over [SavedPMK]: the PMKID saved for
    an access point. *)
Fixpoint find_PMKID (SavedPMK : list (list Z * list Z)) (ApAddr : list Z) : option (list Z) :=
  match SavedPMK with
  | [] => None
  | (BSSID, PMKID) :: r => if bool_decide (ApAddr = BSSID) then Some PMKID else find_PMKID r ApAddr
  end.

Definition append_PMKID (s : rsn_settings) (SavedPMK : list (list Z * list Z)) (ApAddr Bssid LastBssid : list Z)
    (RSN_IE : list Z) (RSNIE_Len : Z) : option (list Z * Z) :=
  if rs_AuthMode s =? Ndis802_11AuthModeWPA2 then
    let FoundPMK := if bool_decide (Bssid = LastBssid) then None else find_PMKID (take PMKID_NO SavedPMK) ApAddr in
    match FoundPMK with
    | None => Some (RSN_IE, RSNIE_Len)
    | Some PMKID =>
        m ← store RSN_IE RSNIE_Len (le_bytes 2 1);
        m ← store m (RSNIE_Len + 2) PMKID;
        Some (m, u8 (RSNIE_Len + 18))
    end
  else Some (RSN_IE, RSNIE_Len).

(** What [MakeOutgoingFrame] appends: identifier, length and contents. *)
Definition outgoing_rsn_element (AuthMode : Z) (RSN_IE : list Z) (RSNIE_Len : Z) : option (list Z) :=
  let RSNIe := if (AuthMode =? Ndis802_11AuthModeWPA2PSK) || (AuthMode =? Ndis802_11AuthModeWPA2) then IE_RSN else IE_WPA in
  ie ← load RSN_IE 0 RSNIE_Len;
  Some ([RSNIe; RSNIE_Len] ++ ie).

(** [(WpaSupplicantUP & WPA_SUPPLICANT_ENABLE) && (bRSN_IE_FromWpaSupplicant == TRUE)]:
    the element sent is the one the supplicant has set. *)
Definition sends_theirs (s : rsn_settings) : bool :=
  negb (rs_WpaSupplicantUP s & WPA_SUPPLICANT_ENABLE =? 0) && rs_from_supplicant s.

(** The end of an association request: the element of the driver, with WPA,
    and the [WpaAssocIeLen] bytes at [pWpaAssocIe], if the supplicant has set
    some. The copy of both in [ReqVarIEs], for an ioctl, is left out. *)
Definition assoc_rsn_element (s : rsn_settings) (SavedPMK : list (list Z * list Z)) (ApAddr Bssid LastBssid : list Z)
    (pWpaAssocIe : list Z) (WpaAssocIeLen : Z) (RSN_IE : list Z) (RSNIE_Len : Z) : option (list Z) :=
  let AuthMode := rs_AuthMode s in
  ours ← (if (AuthMode =? Ndis802_11AuthModeWPAPSK) || (AuthMode =? Ndis802_11AuthModeWPA2PSK) ||
             (AuthMode =? Ndis802_11AuthModeWPA) || (AuthMode =? Ndis802_11AuthModeWPA2)
          then
            '(m, n) ← (if rs_from_supplicant s then Some (RSN_IE, RSNIE_Len)
                       else '(m, n) ← RTMPMakeRSNIE s RSN_IE RSNIE_Len;
                            append_PMKID s SavedPMK ApAddr Bssid LastBssid m n);
            if sends_theirs s then Some [] else outgoing_rsn_element AuthMode m n
          else Some []);
  theirs ← (if sends_theirs s then load pWpaAssocIe 0 WpaAssocIeLen else Some []);
  Some (ours ++ theirs).

(** ** Reading an element *)

Definition GROUP_SUITE : Z := 0.
Definition PAIRWISE_SUITE : Z := 1.
Definition AKM_SUITE : Z := 2.
Definition RSN_CAP_INFO : Z := 3.
Definition PMKID_LIST : Z := 4.

(** A little-endian half word and a byte of a buffer. *)
Definition load16 (m : list Z) (p : Z) : option Z := b ← load m p 2; Some (le_word b).
Definition load8 (m : list Z) (p : Z) : option Z := b ← load m p 1; Some b.[0].

(** The answer is a position in [rsnie], or NULL, and [*count].  [rsnie_len] is
    below 2^31.  [u_cnt], [a_cnt] and [p_count] are promoted to [int] before 1
    is subtracted, and the sum with [sizeof] is not negative. *)
Definition WPA_ExtractSuiteFromRSNIE (rsnie : list Z) (rsnie_len type : Z) : option (option Z * Z) :=
  let out := Some (None, 0) in
  let len := rsnie_len - 2 in
  if len <=? 0 then out
  else
    L ← load8 rsnie 1;
    if negb (L =? len) then out
    else
      Eid ← load8 rsnie 0;
      let pBuf := 2 in
      if negb ((Eid =? IE_WPA) || (Eid =? IE_RSN)) then out
      else
        let F := if Eid =? IE_WPA then RSNIE else RSNIE2 in
        if len <? f_size F then out
        else
          u_cnt ← load16 rsnie (pBuf + f_ucount F);
          let offset := f_size F + LEN_OUI_SUITE * (u_cnt - 1) in
          if len <? offset then out
          else if type =? GROUP_SUITE then Some (Some (pBuf + f_mcast F), 1)
          else if type =? PAIRWISE_SUITE then Some (Some (pBuf + f_ucast F), u8 u_cnt)
          else
            let pBuf := pBuf + offset in
            let len := len - offset in
            if len <? sizeof_RSNIE_AUTH then out
            else
              a_cnt ← load16 rsnie pBuf;
              let offset := sizeof_RSNIE_AUTH + LEN_OUI_SUITE * (a_cnt - 1) in
              if len <? offset then out
              else if type =? AKM_SUITE then Some (Some (pBuf + 2), u8 a_cnt)
              else if Eid =? IE_WPA then out
              else
                let pBuf := pBuf + offset in
                let len := len - offset in
                if len <? sizeof_RSN_CAPABILITIES then out
                else if type =? RSN_CAP_INFO then Some (Some pBuf, 1)
                else
                  let pBuf := pBuf + sizeof_RSN_CAPABILITIES in
                  let len := len - sizeof_RSN_CAPABILITIES in
                  if len <? 2 then out
                  else
                    p_count ← load16 rsnie pBuf;
                    let offset := if 0 <? p_count then sizeof_RSNIE_PMKID + LEN_PMKID * (p_count - 1) else 2 in
                    if (0 <? p_count) && (len <? offset) then out
                    else if type =? PMKID_LIST
                    then Some (if 0 <? p_count then Some (pBuf + 2) else None, u8 p_count)
                    else out.

(** The bytes at position [p] are [b]. *)
Definition equal_at (m : list Z) (p : Z) (b : list Z) : option bool :=
  c ← load m p (Z.of_nat (length b)); Some (bool_decide (c = b)).

(** [RTMPCheckRSNIE], from position [pVIE] with [len] bytes left; the element of
    the entry is [RSN_IE] of length [RSNIE_Len].  The answer and [*Offset]. *)
Fixpoint check_rsnie (fuel : nat) (AuthMode : Z) (RSN_IE : list Z) (RSNIE_Len : Z) (m : list Z) (pVIE len : Z)
    (result : bool) (Offset : Z) : option (bool * Z) :=
  if negb (sizeof_RSNIE2 <? len) then Some (result, Offset)
  else
    match fuel with
    | O => None
    | S fuel =>
        Eid ← load8 m pVIE;
        L ← load8 m (pVIE + 1);
        wpa ← (if Eid =? IE_WPA then equal_at m (pVIE + 2) WPA_OUI else Some false);
        if wpa : bool then
          same ← (if (AuthMode =? Ndis802_11AuthModeWPA) || (AuthMode =? Ndis802_11AuthModeWPAPSK)
                  then ie ← load RSN_IE 0 RSNIE_Len; eq ← equal_at m pVIE ie; Some (eq && (RSNIE_Len =? L + 2))
                  else Some false);
          check_rsnie fuel AuthMode RSN_IE RSNIE_Len m (pVIE + (L + 2)) (u8 (len - (L + 2))) (result || same) (u8 (Offset + (L + 2)))
        else
          rsn ← (if Eid =? IE_RSN then equal_at m (pVIE + 4) RSN_OUI else Some false);
          if rsn : bool then
            same ← (if ((AuthMode =? Ndis802_11AuthModeWPA2) || (AuthMode =? Ndis802_11AuthModeWPA2PSK)) &&
                       (Eid =? RSN_IE.[0]) && (RSNIE_Len <=? L + 2)
                    then ie ← load RSN_IE 2 (RSNIE_Len - 4); equal_at m (pVIE + 2) ie
                    else Some false);
            check_rsnie fuel AuthMode RSN_IE RSNIE_Len m (pVIE + (L + 2)) (u8 (len - (L + 2))) (result || same) (u8 (Offset + (L + 2)))
          else Some (result, Offset)
    end.

Definition RTMPCheckRSNIE (AuthMode : Z) (RSN_IE : list Z) (RSNIE_Len : Z) (pData : list Z) (DataLen : Z) : option (bool * Z) :=
  check_rsnie (length pData) AuthMode RSN_IE RSNIE_Len pData 0 DataLen false 0.

(** The loop of [AssocPostProc] over the elements of the access point's beacon,
    [len] a [USHORT]: [RSN_IE] and [RSNIE_Len] of the entry. *)
Fixpoint store_rsnie (fuel : nat) (AuthMode : Z) (m : list Z) (pVIE len : Z) (RSN_IE : list Z) (RSNIE_Len : Z)
    : option (list Z * Z) :=
  if len =? 0 then Some (RSN_IE, RSNIE_Len)
  else
    match fuel with
    | O => None
    | S fuel =>
        Eid ← load8 m pVIE;
        L ← load8 m (pVIE + 1);
        wpa ← (if Eid =? IE_WPA then equal_at m (pVIE + 2) WPA_OUI else Some false);
        rsn ← (if negb (wpa && ((AuthMode =? Ndis802_11AuthModeWPA) || (AuthMode =? Ndis802_11AuthModeWPAPSK))) && (Eid =? IE_RSN)
               then equal_at m (pVIE + 4) RSN_OUI else Some false);
        '(RSN_IE, RSNIE_Len) ←
          (if (wpa && ((AuthMode =? Ndis802_11AuthModeWPA) || (AuthMode =? Ndis802_11AuthModeWPAPSK))) ||
              (rsn && ((AuthMode =? Ndis802_11AuthModeWPA2) || (AuthMode =? Ndis802_11AuthModeWPA2PSK)))
           then ie ← load m pVIE (L + 2); R ← store RSN_IE 0 ie; Some (R, u8 (L + 2))
           else Some (RSN_IE, RSNIE_Len));
        store_rsnie fuel AuthMode m (pVIE + (L + 2)) (u16 (len - (L + 2))) RSN_IE RSNIE_Len
    end.

(** [AssocPostProc], from "Init variable" on. *)
Definition assoc_store_rsnie (AuthMode : Z) (VarIEs : list Z) (VarIELen : Z) : option (list Z * Z) :=
  let RSN_IE := zeros (Z.to_nat MAX_LEN_OF_RSNIE) in
  if (Ndis802_11AuthModeWPA <=? AuthMode) && negb (VarIELen =? 0)
  then store_rsnie (length VarIEs) AuthMode VarIEs 0 VarIELen RSN_IE 0
  else Some (RSN_IE, 0).

(** ** Elements as IEEE 802.11i writes them *)

(** [r_tail] is the capabilities and, behind them, the list of PMKIDs, of an RSN
    element; a WPA element has none. *)
Record rsn := {
  r_wpa2 : bool;
  r_group : list Z;
  r_pairwise : list (list Z);
  r_akm : list (list Z);
  r_tail : option (list Z * option (list (list Z)));
}.

Definition rsn_head (r : rsn) : list Z := (if r_wpa2 r then [] else OUI_WPA_VERSION) ++ [1; 0].
Definition counted (ls : list (list Z)) : list Z := le_bytes 2 (Z.of_nat (length ls)) ++ concat ls.
Definition rsn_tail (r : rsn) : list Z :=
  match r_tail r with
  | None => []
  | Some (cap, None) => cap
  | Some (cap, Some pmkids) => cap ++ counted pmkids
  end.
Definition rsn_body (r : rsn) : list Z :=
  rsn_head r ++ r_group r ++ counted (r_pairwise r) ++ counted (r_akm r) ++ rsn_tail r.
Definition rsn_encode (r : rsn) : list Z :=
  [if r_wpa2 r then IE_RSN else IE_WPA; Z.of_nat (length (rsn_body r))] ++ rsn_body r.

Definition all_long (n : nat) (ls : list (list Z)) : Prop := Forall (λ l, length l = n) ls.

Record rsn_wf (r : rsn) : Prop := {
  wf_group : length (r_group r) = 4%nat;
  wf_pairwise : all_long 4 (r_pairwise r) ∧ r_pairwise r ≠ [];
  wf_akm : all_long 4 (r_akm r) ∧ r_akm r ≠ [];
  wf_tail : match r_tail r with
            | None => True
            | Some (cap, pmkids) => r_wpa2 r = true ∧ length cap = 2%nat ∧
                match pmkids with Some ls => all_long 16 ls | None => True end
            end;
  wf_length : (length (rsn_body r) <= 255)%nat;
}.

(** [n] fields of [k] bytes from position [p] on. *)
Definition read_fields (m : list Z) (p : Z) (n k : nat) : list (list Z) :=
  (λ i, slice m (Z.to_nat p + k * i) k) <$> seq 0 n.

Definition field_size (type : Z) : nat :=
  if type =? RSN_CAP_INFO then 2 else if type =? PMKID_LIST then 16 else 4.

(** What a caller of [WPA_ExtractSuiteFromRSNIE] reads. *)
Definition extracted (m : list Z) (type : Z) : option (list (list Z)) :=
  '(p, count) ← WPA_ExtractSuiteFromRSNIE m (Z.of_nat (length m)) type;
  match p with
  | None => Some []
  | Some p => Some (read_fields m p (Z.to_nat count) (field_size type))
  end.

Lemma load_at m p a b c :
  m = a ++ b ++ c → p = Z.of_nat (length a) → load m p (Z.of_nat (length b)) = Some b.
Proof.
  intros -> ->. rewrite load_ok by (rewrite ?length_app; lia). rewrite !Nat2Z.id.
  rewrite <- (Nat.add_0_r (length a)), slice_app_r, slice_app_l by lia. by rewrite slice_all.
Qed.

Lemma load16_at m p a x c :
  m = a ++ le_bytes 2 x ++ c → p = Z.of_nat (length a) → 0 <= x < 65536 → load16 m p = Some x.
Proof.
  intros Hm Hp Hx. unfold load16. change 2 with (Z.of_nat (length (le_bytes 2 x))) at 1.
  rewrite (load_at m p a _ c Hm Hp), Some_bind, le_word_le_bytes. f_equal. apply Z.mod_small. lia.
Qed.

Lemma length_concat_all n ls : all_long n ls → length (concat ls) = (n * length ls)%nat.
Proof. induction 1 as [|l ls Hl _ IH]; [cbn; lia|]. cbn [concat length]. rewrite length_app, IH, Hl. lia. Qed.

Lemma length_counted n ls : all_long n ls → length (counted ls) = (2 + n * length ls)%nat.
Proof. intros H. unfold counted. rewrite length_app, length_le_bytes. by rewrite (length_concat_all n). Qed.

Lemma read_fields_concat k ls : ∀ m p a c,
  m = a ++ concat ls ++ c → p = Z.of_nat (length a) → all_long k ls → read_fields m p (length ls) k = ls.
Proof.
  induction ls as [|l ls IH]; intros m p a c Hm Hp Hk; [done|]. inversion Hk as [|? ? Hl Hk']; subst l ls.
  unfold read_fields. cbn [length seq]. rewrite fmap_cons. f_equal.
  - rewrite Hm, Hp, Nat2Z.id, Nat.mul_0_r, slice_app_r. cbn [concat]. rewrite <- app_assoc, slice_app_l by lia.
    rewrite <- Hl. by apply slice_all.
  - specialize (IH m (p + Z.of_nat k) (a ++ x) c). rewrite <- IH at 2; [|cbn [concat] in Hm; by rewrite Hm, <- !app_assoc| |done].
    + unfold read_fields. rewrite <- fmap_S_seq, <- list_fmap_compose. apply list_fmap_ext. intros i j _. cbn. f_equal. lia.
    + rewrite length_app. lia.
Qed.

Definition fields_of (r : rsn) : rsn_fields := if r_wpa2 r then RSNIE2 else RSNIE.

Section Extract.
Context (r : rsn) (Hwf : rsn_wf r).
Let m := rsn_encode r.
Let F := fields_of r.
Let np := Z.of_nat (length (r_pairwise r)).
Let na := Z.of_nat (length (r_akm r)).
Let after_pairwise := counted (r_akm r) ++ rsn_tail r.
Let before_pairwise := [if r_wpa2 r then IE_RSN else IE_WPA; Z.of_nat (length (rsn_body r))] ++ rsn_head r ++ r_group r.

Lemma encode_split : m = before_pairwise ++ counted (r_pairwise r) ++ after_pairwise.
Proof. unfold m, rsn_encode, rsn_body, before_pairwise, after_pairwise. by rewrite <- !app_assoc. Qed.

Lemma length_head : Z.of_nat (length (rsn_head r)) = f_mcast F.
Proof. unfold rsn_head, F, fields_of. by destruct (r_wpa2 r). Qed.

Lemma field_places :
  f_ucount F = f_mcast F + 4 ∧ f_ucast F = f_mcast F + 6 ∧ f_size F = f_mcast F + 10 ∧ 0 <= f_mcast F.
Proof. unfold F, fields_of. by destruct (r_wpa2 r). Qed.

Lemma length_before : Z.of_nat (length before_pairwise) = 2 + f_ucount F.
Proof.
  unfold before_pairwise. rewrite !length_app. cbn [length]. pose proof length_head. pose proof (wf_group _ Hwf).
  pose proof field_places. lia.
Qed.

Lemma length_pairwise : Z.of_nat (length (counted (r_pairwise r))) = 2 + 4 * np.
Proof. destruct (wf_pairwise _ Hwf) as [H _]. rewrite (length_counted 4) by done. lia. Qed.

Lemma length_akm : Z.of_nat (length (counted (r_akm r))) = 2 + 4 * na.
Proof. destruct (wf_akm _ Hwf) as [H _]. rewrite (length_counted 4) by done. lia. Qed.

Lemma counts_positive : 0 < np ∧ 0 < na.
Proof.
  destruct (wf_pairwise _ Hwf) as [_ Hp], (wf_akm _ Hwf) as [_ Ha]. unfold np, na.
  destruct (r_pairwise r), (r_akm r); done.
Qed.

Lemma length_body :
  Z.of_nat (length (rsn_body r)) = f_ucount F + (2 + 4 * np) + (2 + 4 * na) + Z.of_nat (length (rsn_tail r)).
Proof.
  unfold rsn_body. rewrite !length_app. pose proof length_head. pose proof (wf_group _ Hwf). pose proof field_places.
  pose proof length_pairwise. pose proof length_akm. lia.
Qed.

Lemma length_encode : Z.of_nat (length m) = 2 + Z.of_nat (length (rsn_body r)).
Proof. unfold m, rsn_encode. rewrite length_app. cbn [length]. lia. Qed.

Lemma id_known : load8 m 0 = Some (if r_wpa2 r then IE_RSN else IE_WPA) ∧ load8 m 1 = Some (Z.of_nat (length (rsn_body r))).
Proof. unfold load8. pose proof length_encode. rewrite !load_ok by lia. by split. Qed.

Lemma pairwise_count : load16 m (2 + f_ucount F) = Some np.
Proof.
  apply (load16_at _ _ before_pairwise np (concat (r_pairwise r) ++ after_pairwise)).
  - rewrite encode_split. unfold counted. by rewrite <- !app_assoc.
  - by rewrite length_before.
  - pose proof length_body. pose proof (wf_length _ Hwf). pose proof field_places. lia.
Qed.

Lemma pairwise_read : read_fields m (2 + f_ucast F) (length (r_pairwise r)) 4 = r_pairwise r.
Proof.
  destruct (wf_pairwise _ Hwf) as [Hp _].
  apply (read_fields_concat 4 _ _ _ (before_pairwise ++ le_bytes 2 np) after_pairwise); [|by rewrite length_app, length_le_bytes, Nat2Z.inj_add, length_before; pose proof field_places; lia|done].
  rewrite encode_split. unfold counted. by rewrite <- !app_assoc.
Qed.

Lemma group_read : read_fields m (2 + f_mcast F) 1 4 = [r_group r].
Proof.
  pose proof (wf_group _ Hwf) as Hg.
  apply (read_fields_concat 4 [r_group r] _ _ ([if r_wpa2 r then IE_RSN else IE_WPA; Z.of_nat (length (rsn_body r))] ++ rsn_head r)
    (counted (r_pairwise r) ++ after_pairwise)).
  - rewrite encode_split. unfold before_pairwise. cbn [concat]. by rewrite app_nil_r, <- !app_assoc.
  - rewrite length_app, Nat2Z.inj_add, length_head. done.
  - by repeat constructor.
Qed.

Let before_akm := before_pairwise ++ counted (r_pairwise r).

Lemma length_before_akm : Z.of_nat (length before_akm) = 2 + (f_size F + 4 * (np - 1)).
Proof.
  unfold before_akm. rewrite length_app, Nat2Z.inj_add, length_before, length_pairwise. pose proof field_places. lia.
Qed.

Lemma akm_count : load16 m (2 + (f_size F + 4 * (np - 1))) = Some na.
Proof.
  apply (load16_at _ _ before_akm na (concat (r_akm r) ++ rsn_tail r)).
  - rewrite encode_split. unfold before_akm, after_pairwise, counted. by rewrite <- !app_assoc.
  - by rewrite length_before_akm.
  - pose proof length_body. pose proof (wf_length _ Hwf). pose proof field_places. pose proof counts_positive. lia.
Qed.

Lemma akm_read : read_fields m (2 + (f_size F + 4 * (np - 1)) + 2) (length (r_akm r)) 4 = r_akm r.
Proof.
  destruct (wf_akm _ Hwf) as [Ha _].
  apply (read_fields_concat 4 _ _ _ (before_akm ++ le_bytes 2 na) (rsn_tail r)); [| |done].
  - rewrite encode_split. unfold before_akm, after_pairwise, counted. by rewrite <- !app_assoc.
  - rewrite length_app, Nat2Z.inj_add, length_before_akm. done.
Qed.

Let tail_at := 2 + (f_size F + 4 * (np - 1)) + (6 + 4 * (na - 1)).
Let before_tail := before_akm ++ counted (r_akm r).

Lemma length_before_tail : Z.of_nat (length before_tail) = tail_at.
Proof. unfold before_tail. rewrite length_app, Nat2Z.inj_add, length_before_akm, length_akm. unfold tail_at. lia. Qed.

Lemma tail_split : m = before_tail ++ rsn_tail r.
Proof. rewrite encode_split. unfold before_tail, before_akm, after_pairwise. by rewrite <- !app_assoc. Qed.

Lemma cap_read cap rest : rsn_tail r = cap ++ rest → length cap = 2%nat → read_fields m tail_at 1 2 = [cap].
Proof.
  intros Ht Hc. apply (read_fields_concat 2 [cap] _ _ before_tail rest).
  - rewrite tail_split, Ht. cbn [concat]. by rewrite app_nil_r.
  - by rewrite length_before_tail.
  - by repeat constructor.
Qed.

Lemma pmkids_read cap ls : rsn_tail r = cap ++ counted ls → length cap = 2%nat → all_long 16 ls →
  Z.of_nat (length ls) < 65536 →
  load16 m (tail_at + 2) = Some (Z.of_nat (length ls)) ∧ read_fields m (tail_at + 2 + 2) (length ls) 16 = ls.
Proof.
  intros Ht Hc Hl Hb. assert (Z.of_nat (length (before_tail ++ cap)) = tail_at + 2) as Hlen.
  { rewrite length_app, Nat2Z.inj_add, length_before_tail, Hc. done. }
  split.
  - apply (load16_at _ _ (before_tail ++ cap) _ (concat ls)); [|done|lia].
    rewrite tail_split, Ht. unfold counted. by rewrite <- !app_assoc.
  - apply (read_fields_concat 16 _ _ _ (before_tail ++ cap ++ le_bytes 2 (Z.of_nat (length ls))) []); [| |done].
    + rewrite tail_split, Ht. unfold counted. by rewrite app_nil_r, <- !app_assoc.
    + rewrite app_assoc, length_app, Nat2Z.inj_add, Hlen. done.
Qed.

(** The parts before the tail are recognised. *)
Lemma extract_unfold type :
  WPA_ExtractSuiteFromRSNIE m (Z.of_nat (length m)) type =
  if type =? GROUP_SUITE then Some (Some (2 + f_mcast F), 1)
  else if type =? PAIRWISE_SUITE then Some (Some (2 + f_ucast F), np)
  else if type =? AKM_SUITE then Some (Some (2 + (f_size F + 4 * (np - 1)) + 2), na)
  else if negb (r_wpa2 r) then Some (None, 0)
  else
    let len := Z.of_nat (length (rsn_tail r)) in
    if len <? 2 then Some (None, 0)
    else if type =? RSN_CAP_INFO then Some (Some tail_at, 1)
    else if len - 2 <? 2 then Some (None, 0)
    else
      p_count ← load16 m (tail_at + 2);
      let offset := if 0 <? p_count then 18 + 16 * (p_count - 1) else 2 in
      if (0 <? p_count) && (len - 2 <? offset) then Some (None, 0)
      else if type =? PMKID_LIST then Some (if 0 <? p_count then Some (tail_at + 2 + 2) else None, u8 p_count)
      else Some (None, 0).
Proof.
  pose proof length_body as HL. pose proof (wf_length _ Hwf) as H255. pose proof counts_positive as [Hp Ha].
  pose proof field_places as (F1 & F2 & F3 & F4). destruct id_known as [Hid Hlen].
  unfold WPA_ExtractSuiteFromRSNIE, LEN_OUI_SUITE, sizeof_RSNIE_AUTH, sizeof_RSN_CAPABILITIES, sizeof_RSNIE_PMKID, LEN_PMKID.
  rewrite length_encode, Z.add_simpl_l. cbv zeta.
  rewrite (proj2 (Z.leb_gt _ 0)) by lia. rewrite Hlen, Some_bind, Z.eqb_refl, Hid, Some_bind. cbn [negb].
  assert ((if (if r_wpa2 r then IE_RSN else IE_WPA) =? IE_WPA then RSNIE else RSNIE2) = F) as ->
    by (unfold F, fields_of; by destruct (r_wpa2 r)).
  assert (negb (((if r_wpa2 r then IE_RSN else IE_WPA) =? IE_WPA) || ((if r_wpa2 r then IE_RSN else IE_WPA) =? IE_RSN)) = false) as ->
    by (by destruct (r_wpa2 r)).
  assert (((if r_wpa2 r then IE_RSN else IE_WPA) =? IE_WPA) = negb (r_wpa2 r)) as -> by (by destruct (r_wpa2 r)).
  rewrite (proj2 (Z.ltb_ge _ (f_size F))) by lia. rewrite pairwise_count, Some_bind.
  rewrite (proj2 (Z.ltb_ge _ (f_size F + 4 * (np - 1)))) by lia.
  destruct (type =? GROUP_SUITE); [done|]. destruct (type =? PAIRWISE_SUITE); [do 2 f_equal; apply Z.mod_small; lia|].
  rewrite (proj2 (Z.ltb_ge _ 6)) by lia. rewrite akm_count, Some_bind.
  rewrite (proj2 (Z.ltb_ge _ (6 + 4 * (na - 1)))) by lia.
  destruct (type =? AKM_SUITE); [do 2 f_equal; apply Z.mod_small; lia|]. destruct (negb (r_wpa2 r)); [done|].
  replace (Z.of_nat (length (rsn_body r)) - (f_size F + 4 * (np - 1)) - (6 + 4 * (na - 1)))
    with (Z.of_nat (length (rsn_tail r))) by lia. reflexivity.
Qed.
End Extract.

(** C14: Every part of a well-formed element is read back: the group cipher, the
    lists of pairwise ciphers and of key managements, the capabilities and the
    PMKIDs, whichever of the optional parts there are. *)
Theorem rsn_extract_roundtrip r :
  rsn_wf r →
  let e := rsn_encode r in
  extracted e GROUP_SUITE = Some [r_group r] ∧
  extracted e PAIRWISE_SUITE = Some (r_pairwise r) ∧
  extracted e AKM_SUITE = Some (r_akm r) ∧
  extracted e RSN_CAP_INFO = Some (match r_tail r with Some (cap, _) => [cap] | None => [] end) ∧
  extracted e PMKID_LIST = Some (match r_tail r with Some (_, Some pmkids) => pmkids | _ => [] end).
Proof.
  intros Hwf e. unfold extracted, e. rewrite !(extract_unfold r Hwf). split_and!; decide_constants.
  - rewrite Some_bind. exact (f_equal Some (group_read r Hwf)).
  - rewrite Some_bind, Nat2Z.id. exact (f_equal Some (pairwise_read r Hwf)).
  - rewrite Some_bind, Nat2Z.id. exact (f_equal Some (akm_read r Hwf)).
  - pose proof (wf_tail r Hwf) as Ht. destruct (r_tail r) as [[cap pmkids]|] eqn:Htail.
    + destruct Ht as (H2 & Hc & Hp). rewrite H2. cbn [negb].
      assert (∃ rest, rsn_tail r = cap ++ rest) as [rest Hrest].
      { unfold rsn_tail. rewrite Htail. destruct pmkids as [ls|]; [by eexists|exists []; by rewrite app_nil_r]. }
      rewrite Hrest, length_app. rewrite (proj2 (Z.ltb_ge _ 2)) by lia. rewrite Some_bind. exact (f_equal Some (cap_read r Hwf cap rest Hrest Hc)).
    + destruct (negb (r_wpa2 r)); [done|]. unfold rsn_tail. by rewrite Htail.
  - pose proof (wf_tail r Hwf) as Ht. destruct (r_tail r) as [[cap [ls|]]|] eqn:Htail.
    + destruct Ht as (H2 & Hc & Hp). rewrite H2. cbn [negb].
      assert (rsn_tail r = cap ++ counted ls) as Hrest by (unfold rsn_tail; by rewrite Htail).
      pose proof (length_counted 16 ls Hp) as Hcl. pose proof (length_body r Hwf) as HL. pose proof (wf_length r Hwf) as H255.
      assert (length (rsn_tail r) = 2 + (2 + 16 * length ls))%nat as Hlt by (rewrite Hrest, length_app; lia).
      pose proof (counts_positive r Hwf). pose proof (field_places r).
      destruct (pmkids_read r Hwf cap ls Hrest Hc Hp ltac:(lia)) as [Hn Hread].
      rewrite Hlt. rewrite !(proj2 (Z.ltb_ge _ 2)) by lia. cbn [Z.eqb Pos.eqb RSN_CAP_INFO PMKID_LIST].
      rewrite Hn, Some_bind. cbv zeta. destruct ls as [|l ls'] eqn:Hls.
      * rewrite (proj2 (Z.ltb_ge _ _)) by done. done.
      * rewrite (proj2 (Z.ltb_lt 0 _)) by (cbn [length]; lia).
        rewrite (proj2 (Z.ltb_ge _ _)) by lia. cbn [andb]. rewrite Some_bind. f_equal. rewrite <- Hread at 2. f_equal.
        unfold u8. rewrite Z.mod_small by lia. lia.
    + destruct Ht as (H2 & Hc & _). rewrite H2. cbn [negb]. unfold rsn_tail. by rewrite Htail, Hc.
    + destruct (negb (r_wpa2 r)); [done|]. unfold rsn_tail. by rewrite Htail.
Qed.

(** C16: Whatever bytes an element of a peer consists of, the extraction reads
    nothing outside the [rsnie_len] bytes it is given, and what it points to,
    with the count it reports, lies inside them too; the count is the 16-bit
    one of the element although it is stored in a byte. *)
Theorem rsn_extract_in_bounds rsnie rsnie_len type :
  bytes rsnie → 0 <= rsnie_len <= Z.of_nat (length rsnie) → rsnie_len < 2 ^ 31 →
  ∃ p count, WPA_ExtractSuiteFromRSNIE rsnie rsnie_len type = Some (p, count) ∧ 0 <= count <= 62 ∧
    match p with
    | None => count = 0
    | Some p => 2 <= p ∧ p + Z.of_nat (field_size type) * count <= rsnie_len
    end.
Proof.
  intros Hb Hl H31.
  assert (∀ p, 0 <= p → p + 2 <= rsnie_len → ∃ x, load16 rsnie p = Some x ∧ 0 <= x < 65536) as H16.
  { intros p Hp1 Hp2. unfold load16. rewrite load_ok by lia. eexists. split; [reflexivity|].
    pose proof (fits_le_word (slice rsnie (Z.to_nat p) (Z.to_nat 2)) (bytes_slice _ _ _ Hb)) as Hf.
    rewrite length_slice in Hf by lia. unfold fits in Hf. change (2 ^ (8 * Z.of_nat (Z.to_nat 2))) with 65536 in Hf. lia. }
  assert (∀ p, 0 <= p → p + 1 <= rsnie_len → ∃ x, load8 rsnie p = Some x ∧ 0 <= x < 256) as H8.
  { intros p Hp1 Hp2. unfold load8. rewrite load_ok by lia. eexists. split; [reflexivity|].
    apply (bytes_get (slice rsnie (Z.to_nat p) (Z.to_nat 1)) 0). by apply bytes_slice. }
  assert (∃ p count, Some (None, 0) = Some (p, count) ∧ 0 <= count <= 62 ∧
    match p with None => count = 0 | Some p => 2 <= p ∧ p + Z.of_nat (field_size type) * count <= rsnie_len end) as Hnone.
  { exists None, 0. split; [done|]. split; [lia|done]. }
  unfold WPA_ExtractSuiteFromRSNIE, LEN_OUI_SUITE, sizeof_RSNIE_AUTH, sizeof_RSN_CAPABILITIES, sizeof_RSNIE_PMKID, LEN_PMKID.
  cbv zeta. destruct (Z.leb_spec (rsnie_len - 2) 0) as [|H2]; [done|].
  destruct (H8 1) as (L & -> & HL); [lia..|]. rewrite Some_bind. destruct (Z.eqb_spec L (rsnie_len - 2)) as [->|]; [|done].
  destruct (H8 0) as (Eid & -> & _); [lia..|]. rewrite Some_bind. cbn [negb].
  destruct (negb ((Eid =? IE_WPA) || (Eid =? IE_RSN))); [done|].
  set (F := if Eid =? IE_WPA then RSNIE else RSNIE2).
  assert (f_ucount F = f_mcast F + 4 ∧ f_ucast F = f_mcast F + 6 ∧ f_size F = f_mcast F + 10 ∧ 0 <= f_mcast F) as (F1 & F2 & F3 & F4)
    by (unfold F; by destruct (Eid =? IE_WPA)).
  clearbody F.
  destruct (Z.ltb_spec (rsnie_len - 2) (f_size F)) as [|Hs]; [done|].
  destruct (H16 (2 + f_ucount F)) as (u & -> & Hu); [lia..|]. rewrite Some_bind.
  destruct (Z.ltb_spec (rsnie_len - 2) (f_size F + 4 * (u - 1))) as [|Hs1]; [done|].
  destruct (Z.eqb_spec type GROUP_SUITE) as [->|_].
  { do 2 eexists. split; [reflexivity|]. split; [lia|]. cbn. lia. }
  destruct (Z.eqb_spec type PAIRWISE_SUITE) as [->|_].
  { do 2 eexists. split; [reflexivity|]. unfold u8. rewrite Z.mod_small by lia. split; [lia|]. cbn. lia. }
  destruct (Z.ltb_spec (rsnie_len - 2 - (f_size F + 4 * (u - 1))) 6) as [|Hs2]; [done|].
  destruct (H16 (2 + (f_size F + 4 * (u - 1)))) as (a & -> & Ha); [lia..|]. rewrite Some_bind.
  destruct (Z.ltb_spec (rsnie_len - 2 - (f_size F + 4 * (u - 1))) (6 + 4 * (a - 1))) as [|Hs3]; [done|].
  destruct (Z.eqb_spec type AKM_SUITE) as [->|_].
  { do 2 eexists. split; [reflexivity|]. unfold u8. rewrite Z.mod_small by lia. split; [lia|]. cbn. lia. }
  destruct (Eid =? IE_WPA); [done|].
  destruct (Z.ltb_spec (rsnie_len - 2 - (f_size F + 4 * (u - 1)) - (6 + 4 * (a - 1))) 2) as [|Hs4]; [done|].
  destruct (Z.eqb_spec type RSN_CAP_INFO) as [->|_].
  { do 2 eexists. split; [reflexivity|]. split; [lia|]. cbn. lia. }
  destruct (Z.ltb_spec (rsnie_len - 2 - (f_size F + 4 * (u - 1)) - (6 + 4 * (a - 1)) - 2) 2) as [|Hs5]; [done|].
  destruct (H16 (2 + (f_size F + 4 * (u - 1)) + (6 + 4 * (a - 1)) + 2)) as (c & -> & Hc); [lia..|]. rewrite Some_bind.
  destruct (Z.ltb_spec 0 c) as [Hc0|Hc0]; cbn [andb].
  - destruct (Z.ltb_spec (rsnie_len - 2 - (f_size F + 4 * (u - 1)) - (6 + 4 * (a - 1)) - 2) (18 + 16 * (c - 1))) as [|Hs6]; [done|].
    destruct (Z.eqb_spec type PMKID_LIST) as [->|_]; [|done].
    do 2 eexists. split; [reflexivity|]. unfold u8. rewrite Z.mod_small by lia. split; [lia|]. cbn. lia.
  - destruct (Z.eqb_spec type PMKID_LIST) as [->|_]; [|done]. assert (c = 0) as -> by lia. exists None, 0. by split_and!.
Qed.

(** ** What the station sends *)

Definition wpa2_mode (AuthMode : Z) : bool := (AuthMode =? Ndis802_11AuthModeWPA2) || (AuthMode =? Ndis802_11AuthModeWPA2PSK).

(** Modes and ciphers of an infrastructure network with WPA; without a
    supplicant only the pre-shared key modes are built. *)
Record settings_ok (s : rsn_settings) : Prop := {
  so_mode : rs_AuthMode s ∈ (if rs_supplicant s
    then [Ndis802_11AuthModeWPA; Ndis802_11AuthModeWPAPSK; Ndis802_11AuthModeWPA2; Ndis802_11AuthModeWPA2PSK]
    else [Ndis802_11AuthModeWPAPSK; Ndis802_11AuthModeWPA2PSK]);
  so_cipher : rs_WepStatus s ∈ [Ndis802_11Encryption2Enabled; Ndis802_11Encryption3Enabled; Ndis802_11Encryption4Enabled];
  so_group : rs_GroupCipher s ∈ [Ndis802_11Encryption2Enabled; Ndis802_11Encryption3Enabled;
    Ndis802_11GroupWEP40Enabled; Ndis802_11GroupWEP104Enabled];
}.

(** The PMKID the station has for the access point, which it leaves out when it
    was there last. *)
Definition cached_PMKID (s : rsn_settings) (SavedPMK : list (list Z * list Z)) (ApAddr Bssid LastBssid : list Z) : option (list Z) :=
  if (rs_AuthMode s =? Ndis802_11AuthModeWPA2) && negb (bool_decide (Bssid = LastBssid))
  then find_PMKID (take PMKID_NO SavedPMK) ApAddr else None.

(** The element that stands for the settings: TKIP, CCMP or an old WEP group
    cipher, one pairwise cipher, one key management; a station in mixed mode asks
    for CCMP with a TKIP group cipher. *)
Definition rsn_of (s : rsn_settings) (pmkid : option (list Z)) : rsn :=
  let wpa2 := wpa2_mode (rs_AuthMode s) in
  let suite n := (if wpa2 then RSN_OUI else take 3 WPA_OUI) ++ [n] in
  let psk := (rs_AuthMode s =? Ndis802_11AuthModeWPAPSK) || (rs_AuthMode s =? Ndis802_11AuthModeWPA2PSK) in
  {| r_wpa2 := wpa2;
     r_group := suite (if rs_GroupCipher s =? Ndis802_11GroupWEP40Enabled then 1
                       else if rs_GroupCipher s =? Ndis802_11GroupWEP104Enabled then 5
                       else if (rs_WepStatus s =? Ndis802_11Encryption3Enabled) && negb (rs_bMixCipher s) then 4 else 2);
     r_pairwise := [suite (if rs_WepStatus s =? Ndis802_11Encryption2Enabled then 2 else 4)];
     r_akm := [suite (if psk then 2 else 1)];
     r_tail := if wpa2 then Some ([0; 0], (λ p, [p]) <$> pmkid) else None |}.

Lemma find_PMKID_length l a p : Forall (λ x, length x.2 = 16%nat) l → find_PMKID l a = Some p → length p = 16%nat.
Proof.
  induction 1 as [|[b q] l Hq _ IH]; cbn; [done|]. case_bool_decide; [by intros [= <-]|done].
Qed.

Lemma rsn_of_wf s pmkid : (∀ p, pmkid = Some p → length p = 16%nat) → rsn_wf (rsn_of s pmkid).
Proof.
  intros Hp. unfold rsn_of. destruct (wpa2_mode _); destruct pmkid as [p|]; try specialize (Hp p eq_refl);
    (split; cbn [r_wpa2 r_group r_pairwise r_akm r_tail rsn_body];
     [done|split; [by repeat constructor|done]|split; [by repeat constructor|done]| |]);
    try done; try (split_and!; [done|done|by repeat constructor]); unfold rsn_body, rsn_head, rsn_tail, counted; cbn;
    rewrite ?length_app; cbn; lia.
Qed.

Ltac destruct_list l n :=
  match n with
  | O => destruct l; [|discriminate]
  | S ?n => destruct l as [|? l]; [discriminate|]; destruct_list l n
  end.

(** What an association request ends with: the element of the settings; or the
    bytes of the supplicant, when it has set some and is enabled; or, when it
    has set some and was disabled since, the driver's last element. *)
Definition request_element (s : rsn_settings) (pmkid : option (list Z)) (theirs last : list Z) : list Z :=
  if negb (rs_from_supplicant s) then rsn_encode (rsn_of s pmkid)
  else if Z.testbit (rs_WpaSupplicantUP s) 0 then theirs
  else [if wpa2_mode (rs_AuthMode s) then IE_RSN else IE_WPA; Z.of_nat (length last)] ++ last.

(** The driver's own element is the element of the settings. *)
Lemma own_rsn_element s SavedPMK ApAddr Bssid LastBssid RSN_IE RSNIE_Len :
  settings_ok s → Forall (λ x, length x.2 = 16%nat) SavedPMK →
  ('(m, n) ← ('(m, n) ← RTMPMakeRSNIE s RSN_IE RSNIE_Len; append_PMKID s SavedPMK ApAddr Bssid LastBssid m n);
   outgoing_rsn_element (rs_AuthMode s) m n) = Some (rsn_encode (rsn_of s (cached_PMKID s SavedPMK ApAddr Bssid LastBssid))).
Proof.
  intros [Hm Hc Hg] Hs. unfold append_PMKID, cached_PMKID.
  pose proof (λ p, find_PMKID_length (take PMKID_NO SavedPMK) ApAddr p ltac:(by apply Forall_take)) as Hlen.
  destruct (find_PMKID (take PMKID_NO SavedPMK) ApAddr) as [p|];
    [specialize (Hlen p eq_refl); destruct_list p 16%nat|]; clear Hlen Hs;
  destruct s as [am ws gc mix up fs]; cbn [rs_AuthMode rs_WepStatus rs_GroupCipher rs_bMixCipher] in *;
  rewrite !elem_of_cons, elem_of_nil in Hc; rewrite !elem_of_cons, elem_of_nil in Hg;
  (destruct (bool_decide (Bssid = LastBssid)));
  unfold RTMPMakeRSNIE; cbn [rs_AuthMode rs_WepStatus rs_GroupCipher rs_bMixCipher] in *;
  destruct (rs_supplicant _); rewrite !elem_of_cons, elem_of_nil in Hm; destruct_or? Hm; try done; destruct_or? Hc; try done; destruct_or? Hg; try done;
  subst; destruct mix; reflexivity.
Qed.

Lemma settings_wpa s :
  settings_ok s →
  (rs_AuthMode s =? Ndis802_11AuthModeWPAPSK) || (rs_AuthMode s =? Ndis802_11AuthModeWPA2PSK) ||
  (rs_AuthMode s =? Ndis802_11AuthModeWPA) || (rs_AuthMode s =? Ndis802_11AuthModeWPA2) = true.
Proof.
  intros [Hm _ _]. destruct (rs_supplicant s); rewrite !elem_of_cons, elem_of_nil in Hm; destruct_or? Hm; try done; by rewrite Hm.
Qed.

Lemma outgoing_ok AuthMode RSN_IE RSNIE_Len :
  0 <= RSNIE_Len <= Z.of_nat (length RSN_IE) →
  let ie := take (Z.to_nat RSNIE_Len) RSN_IE in
  outgoing_rsn_element AuthMode RSN_IE RSNIE_Len =
    Some ([if wpa2_mode AuthMode then IE_RSN else IE_WPA; Z.of_nat (length ie)] ++ ie).
Proof.
  intros H ie. unfold outgoing_rsn_element, wpa2_mode. rewrite load_ok, Some_bind by lia. subst ie.
  rewrite length_take, Nat.min_l, Z2Nat.id by lia. rewrite (orb_comm (AuthMode =? Ndis802_11AuthModeWPA2)). done.
Qed.

(** C15: An association request ends with the well-formed element of the
    settings - group cipher, pairwise cipher, key management and the cached
    PMKID, which a peer that extracts them finds - unless a supplicant has set
    an element of its own.  Then it ends with exactly the supplicant's bytes
    while the supplicant is enabled, and with the last element of the driver, as
    it is, otherwise. *)
Theorem assoc_rsn_element_spec s SavedPMK ApAddr Bssid LastBssid pWpaAssocIe WpaAssocIeLen RSN_IE RSNIE_Len :
  settings_ok s → Forall (λ x, length x.2 = 16%nat) SavedPMK →
  0 <= WpaAssocIeLen <= Z.of_nat (length pWpaAssocIe) → 0 <= RSNIE_Len <= Z.of_nat (length RSN_IE) →
  let pmkid := cached_PMKID s SavedPMK ApAddr Bssid LastBssid in
  assoc_rsn_element s SavedPMK ApAddr Bssid LastBssid pWpaAssocIe WpaAssocIeLen RSN_IE RSNIE_Len =
    Some (request_element s pmkid (take (Z.to_nat WpaAssocIeLen) pWpaAssocIe) (take (Z.to_nat RSNIE_Len) RSN_IE)) ∧
  rsn_wf (rsn_of s pmkid).
Proof.
  intros Hok Hs Ht Hl pmkid. split.
  2: { apply rsn_of_wf. unfold pmkid, cached_PMKID. intros p. destruct (_ && _); [|done]. apply find_PMKID_length. by apply Forall_take. }
  pose proof (own_rsn_element s SavedPMK ApAddr Bssid LastBssid RSN_IE RSNIE_Len Hok Hs) as Hown.
  unfold assoc_rsn_element, request_element, sends_theirs. rewrite (settings_wpa s Hok).
  replace (rs_WpaSupplicantUP s & WPA_SUPPLICANT_ENABLE =? 0) with (negb (Z.testbit (rs_WpaSupplicantUP s) 0)).
  2: { change WPA_SUPPLICANT_ENABLE with (Z.ones 1). rewrite Z.land_ones, <- Z.bit0_mod by lia. by destruct (Z.testbit _ 0). }
  destruct (rs_from_supplicant s); cbn [negb].
  - rewrite andb_true_r, negb_involutive, Some_bind. destruct (Z.testbit _ 0).
    + rewrite Some_bind, load_ok, Some_bind by lia. done.
    + rewrite outgoing_ok, !Some_bind, app_nil_r by done. done.
  - rewrite andb_false_r. rewrite Hown, !Some_bind, app_nil_r. done.
Qed.

(** ** The access point's element *)

(** Identifier and contents; a beacon's elements one after the other. *)
Definition element := (Z * list Z)%type.
Definition element_bytes (x : element) : list Z := [x.1; Z.of_nat (length x.2)] ++ x.2.
Definition elements_bytes (l : list element) : list Z := concat (element_bytes <$> l).

(** The elements a station in this mode keeps for the handshake. *)
Definition wanted (AuthMode : Z) (x : element) : bool :=
  if (x.1 =? IE_WPA) && bool_decide (take 4 x.2 = WPA_OUI) &&
     ((AuthMode =? Ndis802_11AuthModeWPA) || (AuthMode =? Ndis802_11AuthModeWPAPSK))
  then true
  else (x.1 =? IE_RSN) && bool_decide (slice x.2 2 3 = RSN_OUI) && wpa2_mode AuthMode.

(** The length fits its byte, and an element of one of the two kinds is long
    enough for its OUI. *)
Definition element_wf (x : element) : Prop :=
  (length x.2 <= 255)%nat ∧ (x.1 = IE_WPA ∨ x.1 = IE_RSN → (5 <= length x.2)%nat).

Definition fits_entry (AuthMode : Z) (x : element) : bool := negb (wanted AuthMode x) || (length x.2 <=? 253)%nat.

(** Storing the elements in turn; [None] when one is too long for [RSN_IE]. *)
Fixpoint keep (AuthMode : Z) (l : list element) (RSN_IE : list Z) (n : Z) : option (list Z * Z) :=
  match l with
  | [] => Some (RSN_IE, n)
  | x :: l =>
      if wanted AuthMode x
      then if (length x.2 <=? 253)%nat then keep AuthMode l (put RSN_IE 0 (element_bytes x)) (Z.of_nat (2 + length x.2)) else None
      else keep AuthMode l RSN_IE n
  end.

Lemma length_element x : length (element_bytes x) = (2 + length x.2)%nat.
Proof. unfold element_bytes. by rewrite length_app. Qed.

Lemma equal_at_ok m p b : 0 <= p → p + Z.of_nat (length b) <= Z.of_nat (length m) →
  equal_at m p b = Some (bool_decide (slice m (Z.to_nat p) (length b) = b)).
Proof. intros H1 H2. unfold equal_at. rewrite load_ok, Some_bind, Nat2Z.id by lia. done. Qed.

Lemma slice_inside (a x c : list Z) off n :
  (off + n <= length x)%nat → slice (a ++ x ++ c) (length a + off) n = slice x off n.
Proof. intros H. rewrite slice_app_r. apply slice_app_l. lia. Qed.

Lemma keep_last AuthMode l : ∀ R n,
  length R = 255%nat → forallb (fits_entry AuthMode) l = true →
  ∃ R', keep AuthMode l R n = Some (R', match last (filter (λ x, wanted AuthMode x) l) with
                                        | Some x => Z.of_nat (2 + length x.2) | None => n end) ∧
    length R' = 255%nat ∧
    match last (filter (λ x, wanted AuthMode x) l) with
    | Some x => take (2 + length x.2) R' = element_bytes x
    | None => R' = R
    end.
Proof.
  induction l as [|x l IH]; intros R n HR Hf; [by exists R|]. cbn [forallb keep] in *. apply andb_true_iff in Hf as [Hx Hf].
  rewrite filter_cons. destruct (wanted AuthMode x) eqn:Hw.
  - rewrite decide_True by done. unfold fits_entry in Hx. rewrite Hw in Hx. cbn [negb orb] in Hx. rewrite Hx.
    apply Nat.leb_le in Hx. pose proof (length_element x) as Hlx.
    destruct (IH (put R 0 (element_bytes x)) (Z.of_nat (2 + length x.2))) as (R' & Hk & HR' & Hl); [by rewrite length_put by lia|done|].
    rewrite last_cons. exists R'. rewrite Hk. destruct (last (filter _ l)) as [y|]; [done|]. split; [done|]. split; [done|].
    rewrite Hl, put_splice by lia. rewrite take_0, <- Hlx. by rewrite app_nil_l, take_app_length.
  - rewrite decide_False by (by intros []). by apply IH.
Qed.

Lemma keep_too_long AuthMode l : ∀ R n, forallb (fits_entry AuthMode) l = false → keep AuthMode l R n = None.
Proof.
  induction l as [|x l IH]; intros R n Hf; [done|]. cbn [forallb keep] in *. unfold fits_entry at 1 in Hf.
  destruct (wanted AuthMode x); cbn [negb orb andb] in Hf; [|by apply IH]. destruct (length x.2 <=? 253)%nat; [by apply IH|done].
Qed.

Section Store.
Context (AuthMode : Z) (pad : list Z) (Hpad : (5 <= length pad)%nat).

(** One turn of the loop. *)
Lemma store_rsnie_turn a x l R n fuel :
  element_wf x → length R = 255%nat → Z.of_nat (length (elements_bytes (x :: l))) < 65536 →
  let m := a ++ elements_bytes (x :: l) ++ pad in
  store_rsnie (S fuel) AuthMode m (Z.of_nat (length a)) (Z.of_nat (length (elements_bytes (x :: l)))) R n =
    if wanted AuthMode x
    then if (length x.2 <=? 253)%nat
         then store_rsnie fuel AuthMode m (Z.of_nat (length (a ++ element_bytes x))) (Z.of_nat (length (elements_bytes l)))
                (put R 0 (element_bytes x)) (Z.of_nat (2 + length x.2))
         else None
    else store_rsnie fuel AuthMode m (Z.of_nat (length (a ++ element_bytes x))) (Z.of_nat (length (elements_bytes l))) R n.
Proof.
  intros [Hx Hoff] HR Hb m. set (p := Z.of_nat (length a)).
  assert (m = a ++ element_bytes x ++ (elements_bytes l ++ pad)) as Hm.
  { unfold m, elements_bytes. rewrite fmap_cons. cbn [concat]. by rewrite <- app_assoc. }
  assert (length (elements_bytes (x :: l)) = 2 + length x.2 + length (elements_bytes l))%nat as Hlen.
  { unfold elements_bytes. rewrite fmap_cons. cbn [concat]. by rewrite length_app, length_element. }
  assert (length m = length a + (2 + length x.2) + length (elements_bytes l) + length pad)%nat as Hlm.
  { rewrite Hm, !length_app, length_element. lia. }
  assert (∀ off k, (off + k <= 2 + length x.2)%nat → slice m (length a + off) k = slice (element_bytes x) off k) as Hsl.
  { intros off k Ho. rewrite Hm. apply slice_inside. rewrite length_element. lia. }
  assert (load8 m p = Some x.1) as Hid.
  { unfold load8. rewrite load_ok by lia. unfold p. rewrite Nat2Z.id, <- (Nat.add_0_r (length a)), Hsl by lia. done. }
  assert (load8 m (p + 1) = Some (Z.of_nat (length x.2))) as HL.
  { unfold load8. rewrite load_ok by lia. replace (Z.to_nat (p + 1)) with (length a + 1)%nat by lia. rewrite Hsl by lia. done. }
  assert (x.1 = IE_WPA → equal_at m (p + 2) WPA_OUI = Some (bool_decide (take 4 x.2 = WPA_OUI))) as Hwpa.
  { intros Hi. rewrite equal_at_ok by (cbn [length WPA_OUI]; lia). replace (Z.to_nat (p + 2)) with (length a + 2)%nat by lia.
    cbn [length WPA_OUI]. by rewrite Hsl by (specialize (Hoff (or_introl Hi)); lia). }
  assert (x.1 = IE_RSN → equal_at m (p + 4) RSN_OUI = Some (bool_decide (slice x.2 2 3 = RSN_OUI))) as Hrsn.
  { intros Hi. rewrite equal_at_ok by (cbn [length RSN_OUI]; lia). replace (Z.to_nat (p + 4)) with (length a + 4)%nat by lia.
    cbn [length RSN_OUI]. by rewrite Hsl by (specialize (Hoff (or_intror Hi)); lia). }
  cbn [store_rsnie]. rewrite (proj2 (Z.eqb_neq _ 0)) by lia. rewrite Hid, Some_bind, HL, Some_bind.
  assert (u16 (Z.of_nat (length (elements_bytes (x :: l))) - (Z.of_nat (length x.2) + 2)) = Z.of_nat (length (elements_bytes l))) as ->.
  { rewrite Hlen. unfold u16. rewrite Z.mod_small by lia. lia. }
  replace (p + (Z.of_nat (length x.2) + 2)) with (Z.of_nat (length (a ++ element_bytes x)))
    by (rewrite length_app, length_element; lia).
  assert (load m p (Z.of_nat (length x.2) + 2) = Some (element_bytes x)) as Hld.
  { replace (Z.of_nat (length x.2) + 2) with (Z.of_nat (length (element_bytes x))) by (rewrite length_element; lia).
    by apply (load_at m p a _ (elements_bytes l ++ pad)). }
  assert (store R 0 (element_bytes x) =
    if (length x.2 <=? 253)%nat then Some (put R 0 (element_bytes x)) else None) as Hst.
  { destruct (Nat.leb_spec (length x.2) 253).
    - by rewrite store_ok by (rewrite ?length_element; lia).
    - unfold store. rewrite length_element, HR. cbn [Z.leb Z.compare andb].
      by rewrite (proj2 (Z.leb_gt _ _)) by lia. }
  unfold wanted, wpa2_mode. destruct (Z.eqb_spec x.1 IE_WPA) as [Hi|Hi].
  - rewrite Hwpa, Some_bind by done. rewrite (proj2 (Z.eqb_neq x.1 IE_RSN)) by (rewrite Hi; done). rewrite !andb_false_r, Some_bind.
    cbn [andb orb]. rewrite orb_false_r. destruct (bool_decide _ && _); [|done]. rewrite Hld, Some_bind, Hst.
    destruct (_ <=? _)%nat eqn:Hle; [|done]. rewrite !Some_bind. f_equal. apply Nat.leb_le in Hle. unfold u8. rewrite Z.mod_small; lia.
  - rewrite Some_bind. cbn [andb negb orb]. destruct (Z.eqb_spec x.1 IE_RSN) as [Hj|Hj]; [|by rewrite Some_bind].
    rewrite Hrsn, Some_bind by done. cbn [andb]. destruct (bool_decide _ && _); [|done]. rewrite Hld, Some_bind, Hst.
    destruct (_ <=? _)%nat eqn:Hle; [|done]. rewrite !Some_bind. f_equal. apply Nat.leb_le in Hle. unfold u8. rewrite Z.mod_small; lia.
Qed.

Lemma store_rsnie_ok l : ∀ a R n fuel,
  Forall element_wf l → length R = 255%nat → Z.of_nat (length (elements_bytes l)) < 65536 → (length l <= fuel)%nat →
  store_rsnie fuel AuthMode (a ++ elements_bytes l ++ pad) (Z.of_nat (length a)) (Z.of_nat (length (elements_bytes l))) R n =
    keep AuthMode l R n.
Proof.
  induction l as [|x l IH]; intros a R n fuel Hl HR Hb Hf; [by destruct fuel|]. inversion Hl as [|? ? Hx Hl']; subst.
  destruct fuel as [|fuel]; [cbn in Hf; lia|]. rewrite store_rsnie_turn by done. cbn [keep].
  assert (a ++ elements_bytes (x :: l) ++ pad = (a ++ element_bytes x) ++ elements_bytes l ++ pad) as ->.
  { unfold elements_bytes. rewrite fmap_cons. cbn [concat]. by rewrite <- !app_assoc. }
  assert (Z.of_nat (length (elements_bytes l)) < 65536) as Hb'.
  { unfold elements_bytes in *. rewrite fmap_cons in Hb. cbn [concat] in Hb. rewrite length_app in Hb. lia. }
  cbn [length] in Hf. destruct (wanted AuthMode x); [|apply IH; (done || lia)].
  destruct (Nat.leb_spec (length x.2) 253); [|done]. apply IH; try (done || lia). by rewrite length_put.
Qed.
End Store.

(** C17: [AssocPostProc] keeps the last RSN (or WPA) element of the access point's
    beacon for the handshake - all of it, with its length - exactly when none of
    the elements of that kind is longer than 253 bytes; such an element is
    written past the end of [RSN_IE]. *)
Theorem assoc_store_rsnie_spec AuthMode l pad :
  Ndis802_11AuthModeWPA <= AuthMode → Forall element_wf l → (5 <= length pad)%nat →
  Z.of_nat (length (elements_bytes l)) < 65536 →
  let stored := assoc_store_rsnie AuthMode (elements_bytes l ++ pad) (Z.of_nat (length (elements_bytes l))) in
  if forallb (fits_entry AuthMode) l
  then ∃ RSN_IE RSNIE_Len, stored = Some (RSN_IE, RSNIE_Len) ∧ length RSN_IE = 255%nat ∧
    match last (filter (λ x, wanted AuthMode x) l) with
    | Some x => RSNIE_Len = Z.of_nat (2 + length x.2) ∧ take (2 + length x.2) RSN_IE = element_bytes x
    | None => RSNIE_Len = 0
    end
  else stored = None.
Proof.
  intros Hm Hl Hp Hb stored.
  assert (stored = keep AuthMode l (zeros 255) 0) as ->.
  { subst stored. unfold assoc_store_rsnie. rewrite (proj2 (Z.leb_le _ _)) by done. change (Z.to_nat MAX_LEN_OF_RSNIE) with 255%nat.
    destruct (Z.eqb_spec (Z.of_nat (length (elements_bytes l))) 0) as [H0|H0]; cbn [andb negb].
    - destruct l as [|x l]; [done|]. unfold elements_bytes in H0. rewrite fmap_cons in H0. cbn [concat] in H0.
      rewrite length_app, length_element in H0. lia.
    - apply (store_rsnie_ok AuthMode pad Hp l [] (zeros 255) 0); [done|done|done|].
      trans (length (elements_bytes l)); [|rewrite length_app; lia].
      clear. induction l as [|x l IH]; [done|].
      unfold elements_bytes in *. rewrite fmap_cons. cbn [concat length]. rewrite length_app, length_element. lia. }
  destruct (forallb (fits_entry AuthMode) l) eqn:Hf; [|by apply keep_too_long].
  destruct (keep_last AuthMode l (zeros 255) 0) as (R & Hk & HR & Hlast); [done|done|]. eexists R, _. split; [exact Hk|].
  split; [done|]. by destruct (last _).
Qed.

(** [RTMPCheckRSNIE], which nothing calls, takes the length of an element off a
    [UCHAR] without comparing it with what is left: a long element makes the
    rest 256 bytes longer than it is, and the next turn reads behind the data. *)
Lemma RTMPCheckRSNIE_overrun :
  RTMPCheckRSNIE Ndis802_11AuthModeWPA2 ([IE_RSN; 18] ++ zeros 18) 20 ([IE_RSN; 200; 1; 0] ++ RSN_OUI ++ zeros 10) 17 = None.
Proof. reflexivity. Qed.

Module Sample.
Definition element1 : rsn :=
  {| r_wpa2 := true; r_group := [0; 15; 172; 2]; r_pairwise := [[0; 15; 172; 4]; [0; 15; 172; 2]]; r_akm := [[0; 15; 172; 1]];
     r_tail := Some ([0; 0], Some [seqZ 1 16; seqZ 17 16]) |}.
Definition settings : rsn_settings :=
  {| rs_AuthMode := Ndis802_11AuthModeWPA2; rs_WepStatus := Ndis802_11Encryption3Enabled;
     rs_GroupCipher := Ndis802_11Encryption2Enabled; rs_bMixCipher := true;
     rs_WpaSupplicantUP := WPA_SUPPLICANT_ENABLE; rs_from_supplicant := false |}.

(** The same, with an element of the supplicant. *)
Definition supplicant_settings : rsn_settings :=
  {| rs_AuthMode := Ndis802_11AuthModeWPA2; rs_WepStatus := Ndis802_11Encryption3Enabled;
     rs_GroupCipher := Ndis802_11Encryption3Enabled; rs_bMixCipher := false;
     rs_WpaSupplicantUP := WPA_SUPPLICANT_ENABLE; rs_from_supplicant := true |}.
Definition ap : list Z := [0; 17; 34; 51; 68; 85].
Definition long_rsn : element := (IE_RSN, [1; 0] ++ RSN_OUI ++ zeros 249).
Definition rsn1 : element := (IE_RSN, rsn_body element1).

Lemma rsn_extract_roundtrip_witness :
  rsn_wf element1 ∧ extracted (rsn_encode element1) PMKID_LIST = Some [seqZ 1 16; seqZ 17 16].
Proof.
  assert (rsn_wf element1) as H.
  { split; unfold all_long; cbn [element1 r_group r_pairwise r_akm r_tail r_wpa2]; split_and?;
      first [done | by repeat constructor | vm_compute; lia]. }
  split; [exact H|]. apply (rsn_extract_roundtrip element1 H).
Defined.

Lemma rsn_extract_in_bounds_witness :
  ∃ p count, WPA_ExtractSuiteFromRSNIE [48; 12; 1; 0; 0; 15; 172; 4; 255; 255; 0; 15; 172; 4] 14 PAIRWISE_SUITE = Some (p, count) ∧
    0 <= count <= 62 ∧
    match p with None => count = 0 | Some p => 2 <= p ∧ p + Z.of_nat (field_size PAIRWISE_SUITE) * count <= 14 end.
Proof. apply rsn_extract_in_bounds; [bytes_table|cbn; lia|lia]. Defined.

Lemma assoc_rsn_element_spec_witness :
  assoc_rsn_element settings [(ap, seqZ 1 16)] ap ap (zeros 6) [] 0 (zeros 255) 0 =
    Some (rsn_encode (rsn_of settings (Some (seqZ 1 16)))) ∧
  assoc_rsn_element supplicant_settings [] ap ap (zeros 6) [48; 2; 1; 0] 4 (zeros 255) 0 = Some [48; 2; 1; 0].
Proof.
  assert (settings_ok settings) as H by (split; vm_compute; set_solver).
  assert (settings_ok supplicant_settings) as H' by (split; vm_compute; set_solver).
  split.
  - apply (assoc_rsn_element_spec settings [(ap, seqZ 1 16)] ap ap (zeros 6) [] 0 (zeros 255) 0 H); [by repeat constructor|cbn; lia..].
  - apply (assoc_rsn_element_spec supplicant_settings [] ap ap (zeros 6) [48; 2; 1; 0] 4 (zeros 255) 0 H'); [done|cbn; lia..].
Defined.

Lemma assoc_store_rsnie_spec_witness :
  (∃ R, assoc_store_rsnie Ndis802_11AuthModeWPA2PSK (elements_bytes [rsn1] ++ zeros 5) (Z.of_nat (length (elements_bytes [rsn1]))) =
     Some (R, 60)) ∧
  assoc_store_rsnie Ndis802_11AuthModeWPA2PSK (elements_bytes [long_rsn] ++ zeros 5) (Z.of_nat (length (elements_bytes [long_rsn]))) = None.
Proof.
  split.
  - destruct (assoc_store_rsnie_spec Ndis802_11AuthModeWPA2PSK [rsn1] (zeros 5)) as (R & n & Hs & _ & Hn & _);
      [vm_compute; discriminate|repeat constructor; cbn; lia|cbn; lia|vm_compute; reflexivity|].
    exists R. rewrite Hs. by rewrite Hn.
  - apply (assoc_store_rsnie_spec Ndis802_11AuthModeWPA2PSK [long_rsn] (zeros 5));
      [vm_compute; discriminate|repeat constructor; cbn; lia|cbn; lia|vm_compute; reflexivity].
Defined.
End Sample.
