(* ===== verification/Wep.v ===== *)
(** * WEP encapsulation of the rt5370 driver

    Models [linux/Arch/rt5370.driver/common/cmm_wep.c]: the table driven
    CRC-32, the per-packet RC4 key, and the software encryption and
    decryption of a data frame.  A frame is the memory the pointer [pData]
    points to; [None] is an access outside it.  Each routine also returns
    the number of its allocations that are not freed. *)

From stdpp Require Import base list numbers list_numbers.
From Stdlib Require Import ZArith Lia Btauto.
From S2P Require Import Prelude Arc4 WpaCmm.

Definition FCSTAB_32 : list Z :=
  [0x00000000; 0x77073096; 0xee0e612c; 0x990951ba;
   0x076dc419; 0x706af48f; 0xe963a535; 0x9e6495a3;
   0x0edb8832; 0x79dcb8a4; 0xe0d5e91e; 0x97d2d988;
   0x09b64c2b; 0x7eb17cbd; 0xe7b82d07; 0x90bf1d91;
   0x1db71064; 0x6ab020f2; 0xf3b97148; 0x84be41de;
   0x1adad47d; 0x6ddde4eb; 0xf4d4b551; 0x83d385c7;
   0x136c9856; 0x646ba8c0; 0xfd62f97a; 0x8a65c9ec;
   0x14015c4f; 0x63066cd9; 0xfa0f3d63; 0x8d080df5;
   0x3b6e20c8; 0x4c69105e; 0xd56041e4; 0xa2677172;
   0x3c03e4d1; 0x4b04d447; 0xd20d85fd; 0xa50ab56b;
   0x35b5a8fa; 0x42b2986c; 0xdbbbc9d6; 0xacbcf940;
   0x32d86ce3; 0x45df5c75; 0xdcd60dcf; 0xabd13d59;
   0x26d930ac; 0x51de003a; 0xc8d75180; 0xbfd06116;
   0x21b4f4b5; 0x56b3c423; 0xcfba9599; 0xb8bda50f;
   0x2802b89e; 0x5f058808; 0xc60cd9b2; 0xb10be924;
   0x2f6f7c87; 0x58684c11; 0xc1611dab; 0xb6662d3d;
   0x76dc4190; 0x01db7106; 0x98d220bc; 0xefd5102a;
   0x71b18589; 0x06b6b51f; 0x9fbfe4a5; 0xe8b8d433;
   0x7807c9a2; 0x0f00f934; 0x9609a88e; 0xe10e9818;
   0x7f6a0dbb; 0x086d3d2d; 0x91646c97; 0xe6635c01;
   0x6b6b51f4; 0x1c6c6162; 0x856530d8; 0xf262004e;
   0x6c0695ed; 0x1b01a57b; 0x8208f4c1; 0xf50fc457;
   0x65b0d9c6; 0x12b7e950; 0x8bbeb8ea; 0xfcb9887c;
   0x62dd1ddf; 0x15da2d49; 0x8cd37cf3; 0xfbd44c65;
   0x4db26158; 0x3ab551ce; 0xa3bc0074; 0xd4bb30e2;
   0x4adfa541; 0x3dd895d7; 0xa4d1c46d; 0xd3d6f4fb;
   0x4369e96a; 0x346ed9fc; 0xad678846; 0xda60b8d0;
   0x44042d73; 0x33031de5; 0xaa0a4c5f; 0xdd0d7cc9;
   0x5005713c; 0x270241aa; 0xbe0b1010; 0xc90c2086;
   0x5768b525; 0x206f85b3; 0xb966d409; 0xce61e49f;
   0x5edef90e; 0x29d9c998; 0xb0d09822; 0xc7d7a8b4;
   0x59b33d17; 0x2eb40d81; 0xb7bd5c3b; 0xc0ba6cad;
   0xedb88320; 0x9abfb3b6; 0x03b6e20c; 0x74b1d29a;
   0xead54739; 0x9dd277af; 0x04db2615; 0x73dc1683;
   0xe3630b12; 0x94643b84; 0x0d6d6a3e; 0x7a6a5aa8;
   0xe40ecf0b; 0x9309ff9d; 0x0a00ae27; 0x7d079eb1;
   0xf00f9344; 0x8708a3d2; 0x1e01f268; 0x6906c2fe;
   0xf762575d; 0x806567cb; 0x196c3671; 0x6e6b06e7;
   0xfed41b76; 0x89d32be0; 0x10da7a5a; 0x67dd4acc;
   0xf9b9df6f; 0x8ebeeff9; 0x17b7be43; 0x60b08ed5;
   0xd6d6a3e8; 0xa1d1937e; 0x38d8c2c4; 0x4fdff252;
   0xd1bb67f1; 0xa6bc5767; 0x3fb506dd; 0x48b2364b;
   0xd80d2bda; 0xaf0a1b4c; 0x36034af6; 0x41047a60;
   0xdf60efc3; 0xa867df55; 0x316e8eef; 0x4669be79;
   0xcb61b38c; 0xbc66831a; 0x256fd2a0; 0x5268e236;
   0xcc0c7795; 0xbb0b4703; 0x220216b9; 0x5505262f;
   0xc5ba3bbe; 0xb2bd0b28; 0x2bb45a92; 0x5cb36a04;
   0xc2d7ffa7; 0xb5d0cf31; 0x2cd99e8b; 0x5bdeae1d;
   0x9b64c2b0; 0xec63f226; 0x756aa39c; 0x026d930a;
   0x9c0906a9; 0xeb0e363f; 0x72076785; 0x05005713;
   0x95bf4a82; 0xe2b87a14; 0x7bb12bae; 0x0cb61b38;
   0x92d28e9b; 0xe5d5be0d; 0x7cdcefb7; 0x0bdbdf21;
   0x86d3d2d4; 0xf1d4e242; 0x68ddb3f8; 0x1fda836e;
   0x81be16cd; 0xf6b9265b; 0x6fb077e1; 0x18b74777;
   0x88085ae6; 0xff0f6a70; 0x66063bca; 0x11010b5c;
   0x8f659eff; 0xf862ae69; 0x616bffd3; 0x166ccf45;
   0xa00ae278; 0xd70dd2ee; 0x4e048354; 0x3903b3c2;
   0xa7672661; 0xd06016f7; 0x4969474d; 0x3e6e77db;
   0xaed16a4a; 0xd9d65adc; 0x40df0b66; 0x37d83bf0;
   0xa9bcae53; 0xdebb9ec5; 0x47b2cf7f; 0x30b5ffe9;
   0xbdbdf21c; 0xcabac28a; 0x53b39330; 0x24b4a3a6;
   0xbad03605; 0xcdd70693; 0x54de5729; 0x23d967bf;
   0xb3667a2e; 0xc4614ab8; 0x5d681b02; 0x2a6f2b94;
   0xb40bbe37; 0xc30c8ea1; 0x5a05df1b; 0x2d02ef8d].

Definition PPPINITFCS32 : Z := 0xffffffff.

(** [while (Len--) Fcs = ...] over the [Len] bytes at [Cp]. *)
Definition RTMP_CALC_FCS32 (Fcs : Z) (Cp : list Z) : Z :=
  foldl (λ Fcs b, (Fcs >> 8) ^^ FCSTAB_32.[Z.to_nat ((Fcs ^^ b) & 0xff)]) Fcs Cp.

Definition sizeof_ARC4_CTX_STRUC : Z := 264.

(** What a freshly allocated context holds. *)
Definition ARC4_CTX_fresh (E : env) : ARC4_CTX_STRUC :=
  let g := local_array E 264 in
  ARC4_CTX (le_word (slice g 0 4)) (le_word (slice g 4 4)) (slice g 8 256).

(** The context is left alone when the seed cannot be allocated. *)
Definition RTMPInitWepEngine (E : env) (pIv pKey : list Z) (KeyLen : Z)
    (pARC4_CTX : ARC4_CTX_STRUC) : option ARC4_CTX_STRUC :=
  if negb (kmalloc E 16) then Some pARC4_CTX
  else
    let seed := zeros 16 in
    iv ← load pIv 0 3;
    seed ← store seed 0 iv;
    k ← load pKey 0 KeyLen;
    seed ← store seed 3 k;
    let seed_len := u8 (3 + KeyLen) in
    Some (ARC4_INIT seed seed_len).

Definition RTMPConstructWEPIVHdr (key_idx : Z) (pn : list Z) : option (list Z) :=
  let iv_hdr := zeros (Z.to_nat LEN_WEP_IV_HDR) in
  tsc ← load pn 0 LEN_WEP_TSC;
  iv_hdr ← store iv_hdr 0 tsc;
  Some (iv_hdr.[3 <- key_idx <<8 6]).

Definition RTMPSoftEncryptWEP (E : env) (pIvHdr : list Z) (pKey : CIPHER_KEY)
    (pData : list Z) (DataByteCnt : Z) : option (bool * list Z * nat) :=
  if negb (kmalloc E sizeof_ARC4_CTX_STRUC) then Some (false, pData, 0%nat)
  else if KeyLen pKey =? 0 then Some (false, pData, 1%nat)
  else
    ctx ← RTMPInitWepEngine E pIvHdr (Key pKey) (KeyLen pKey) (ARC4_CTX_fresh E);
    d ← load pData 0 DataByteCnt;
    let FCSCRC32 := RTMP_CALC_FCS32 PPPINITFCS32 d in
    let FCSCRC32 := FCSCRC32 ^^ 0xffffffff in
    pData ← store pData DataByteCnt (le_bytes 4 FCSCRC32);
    '(_, pData) ← ARC4_Compute ctx pData 0 (Z.to_nat (u32 (DataByteCnt + LEN_ICV))) 0;
    Some (true, pData, 0%nat).

(** Returns the result, the frame, [*DataByteCnt] and the live allocations. *)
Definition RTMPSoftDecryptWEP (E : env) (pKey : CIPHER_KEY) (pData : list Z)
    (DataByteCnt : Z) : option (bool * list Z * Z * nat) :=
  if negb (kmalloc E sizeof_ARC4_CTX_STRUC) then Some (false, pData, DataByteCnt, 0%nat)
  else if KeyLen pKey =? 0 then Some (false, pData, DataByteCnt, 1%nat)
  else
    ctx ← RTMPInitWepEngine E pData (Key pKey) (KeyLen pKey) (ARC4_CTX_fresh E);
    let ciphertext_ptr := LEN_WEP_IV_HDR in
    let ciphertext_len := u16 (DataByteCnt - LEN_WEP_IV_HDR) in
    if DataByteCnt <=? LEN_WEP_IV_HDR then Some (false, pData, DataByteCnt, 1%nat)
    else
      '(_, pData) ← ARC4_Compute ctx pData ciphertext_ptr (Z.to_nat ciphertext_len) 0;
      let plaintext_len := u16 (ciphertext_len - LEN_ICV) in
      t ← load pData plaintext_len LEN_ICV;
      let trailfcs := le_word t in
      p ← load pData 0 plaintext_len;
      let crc32 := RTMP_CALC_FCS32 PPPINITFCS32 p in
      let crc32 := crc32 ^^ 0xffffffff in
      if negb (crc32 =? trailfcs) then Some (false, pData, DataByteCnt, 1%nat)
      else Some (true, pData, plaintext_len, 0%nat).

(** ** The checksum is the CRC-32 of IEEE 802

    The reference works bit by bit, with the reflected generator
    polynomial. *)

Definition crc_bit (c : Z) : Z := if Z.testbit c 0 then (c >> 1) ^^ 0xEDB88320 else c >> 1.
Definition crc_bits (n : nat) (c : Z) : Z := Nat.iter n crc_bit c.
Definition crc32 (l : list Z) : Z := foldl (λ c b, crc_bits 8 (c ^^ b)) 0xffffffff l ^^ 0xffffffff.

Lemma crc_bit_lxor a b : crc_bit (a ^^ b) = crc_bit a ^^ crc_bit b.
Proof.
  unfold crc_bit. rewrite Z.lxor_spec, Z.shiftr_lxor.
  destruct (Z.testbit a 0), (Z.testbit b 0); cbn [xorb]; zbits.
Qed.

Lemma crc_bits_lxor n a b : crc_bits n (a ^^ b) = crc_bits n a ^^ crc_bits n b.
Proof.
  unfold crc_bits. induction n as [|n IH]; [done|]. rewrite !Nat.iter_succ.
  by rewrite IH, crc_bit_lxor.
Qed.

Lemma crc_bits_shift n y : crc_bits n (Z.shiftl y (Z.of_nat n)) = y.
Proof.
  revert y. induction n as [|n IH]; intros y; [apply Z.shiftl_0_r|].
  unfold crc_bits in *. rewrite Nat.iter_succ_r. rewrite <- (IH y) at 2. f_equal.
  unfold crc_bit. rewrite Z.shiftl_spec, (Z.testbit_neg_r y) by lia.
  rewrite Z.shiftr_shiftl_l by lia. f_equal. lia.
Qed.

Lemma split_low_byte x : x = Z.shiftl (x >> 8) 8 ^^ (x & 255).
Proof.
  apply Z.bits_inj'. intros i Hi. change 255 with (Z.ones 8).
  rewrite Z.lxor_spec, Z.land_spec, Z.shiftl_spec by done. destruct (decide (i < 8)).
  - rewrite Z.ones_spec_low, (Z.testbit_neg_r _ (i - 8)) by lia. btauto.
  - rewrite Z.ones_spec_high, Z.shiftr_spec by lia. replace (i - 8 + 8) with i by lia. btauto.
Qed.

Lemma FCSTAB_32_entry b : byte b → FCSTAB_32.[Z.to_nat b] = crc_bits 8 b.
Proof. intros Hb. by_all_bytes b Hb. Qed.

Lemma FCS_step c b : byte b → (c >> 8) ^^ FCSTAB_32.[Z.to_nat ((c ^^ b) & 0xff)] = crc_bits 8 (c ^^ b).
Proof.
  intros Hb. rewrite FCSTAB_32_entry by auto with rt.
  rewrite (split_low_byte (c ^^ b)) at 2. rewrite crc_bits_lxor. f_equal.
  rewrite (crc_bits_shift 8). rewrite Z.shiftr_lxor, (shiftr_small b 8) by (done || lia).
  by rewrite Z.lxor_0_r.
Qed.

Lemma CALC_FCS32_crc c l :
  bytes l → RTMP_CALC_FCS32 c l = foldl (λ c b, crc_bits 8 (c ^^ b)) c l.
Proof.
  intros H. unfold RTMP_CALC_FCS32. revert c. induction H as [|b l Hb Hl IH]; intros c; [done|].
  cbn [foldl]. by rewrite FCS_step, IH.
Qed.

Lemma FCS_is_crc32 l : bytes l → RTMP_CALC_FCS32 PPPINITFCS32 l ^^ 0xffffffff = crc32 l.
Proof. intros H. by rewrite CALC_FCS32_crc. Qed.

Lemma crc_bit_word c : word c → word (crc_bit c).
Proof.
  intros H. unfold crc_bit. destruct (Z.testbit c 0); [|by auto with rt].
  apply fits_lxor; [lia|auto with rt|]. unfold fits. lia.
Qed.

Lemma crc_bits_word n c : word c → word (crc_bits n c).
Proof. intros H. induction n as [|n IH]; [done|]. by apply crc_bit_word. Qed.

Lemma crc32_word l : bytes l → word (crc32 l).
Proof.
  intros H. unfold crc32. apply fits_lxor; [lia| |unfold fits; lia].
  assert (word 0xffffffff) as H0 by (unfold fits; lia). revert H0. generalize 0xffffffff.
  induction H as [|b l Hb Hl IH]; intros c Hc; [done|]. cbn [foldl]. apply IH, crc_bits_word.
  apply fits_lxor; [lia|done|]. apply (fits_weaken 8); [lia|done].
Qed.

(** ** Encapsulation *)

(** The RC4 context of a packet and the sealed form of its data. *)
Definition wep_ctx (iv : list Z) (k : CIPHER_KEY) : ARC4_CTX_STRUC :=
  let n := Z.to_nat (KeyLen k) in
  ARC4_INIT (take 3 iv ++ take n (Key k) ++ zeros (13 - n)) (3 + KeyLen k).

Definition wep_plain (d : list Z) : list Z := d ++ le_bytes 4 (crc32 d).

Definition wep_seal (iv : list Z) (k : CIPHER_KEY) (d : list Z) : list Z :=
  xorl (wep_plain d) (keystream (wep_ctx iv k) (length d + 4)).

Lemma RTMPInitWepEngine_ok E pIv k ctx :
  kmalloc E 16 = true → (3 <= length pIv)%nat → length (Key k) = 16%nat →
  0 < KeyLen k <= 13 →
  RTMPInitWepEngine E pIv (Key k) (KeyLen k) ctx = Some (wep_ctx pIv k).
Proof.
  intros HE Hiv Hk Hl. unfold RTMPInitWepEngine. rewrite HE. cbn [negb].
  rewrite (load_ok pIv) by lia. cbn [mbind option_bind].
  change (Z.to_nat 0) with 0%nat. change (Z.to_nat 3) with 3%nat.
  assert (length (slice pIv 0 3) = 3%nat) as H3 by (apply length_slice; lia).
  assert (length (slice (Key k) 0 (Z.to_nat (KeyLen k))) = Z.to_nat (KeyLen k)) as HK
    by (apply length_slice; lia).
  rewrite store_ok by (rewrite ?H3, ?length_zeros; lia). cbn [mbind option_bind].
  rewrite load_ok by lia. cbn [mbind option_bind].
  change (Z.to_nat 0) with 0%nat. change (Z.to_nat 3) with 3%nat.
  rewrite store_ok by (rewrite ?length_put, ?length_zeros, ?HK; lia). cbn [mbind option_bind].
  change (Z.to_nat 3) with 3%nat. unfold wep_ctx. do 2 f_equal.
  -     pose proof (put_put_adjacent (zeros 16) 0 (slice pIv 0 3)
      (slice (Key k) 0 (Z.to_nat (KeyLen k)))) as HP.
    rewrite H3, HK, length_zeros in HP. cbn [Nat.add] in HP. rewrite HP by lia.
    rewrite put_splice by (rewrite length_app, HK, H3, length_zeros; lia).
    rewrite length_app, HK, H3. unfold slice. rewrite !drop_0, take_0. cbn [app Nat.add].
    rewrite <- app_assoc. do 2 f_equal.
    unfold zeros. rewrite drop_replicate. done.
  - apply Z.mod_small. lia.
Qed.

Lemma length_wep_plain d : length (wep_plain d) = (length d + 4)%nat.
Proof. unfold wep_plain. by rewrite length_app, length_le_bytes. Qed.

Lemma length_wep_seal iv k d : length (wep_seal iv k d) = (length d + 4)%nat.
Proof. unfold wep_seal. rewrite length_xorl; rewrite length_wep_plain, ?length_keystream; done. Qed.

Lemma encrypt_body ctx pData n :
  (n + 4 <= length pData)%nat → Z.of_nat n + 4 < 2 ^ 32 → bytes pData →
  let d := take n pData in
  (pData' ← store pData (Z.of_nat n) (le_bytes 4 (crc32 d));
   '(_, pData') ← ARC4_Compute ctx pData' 0 (Z.to_nat (u32 (Z.of_nat n + LEN_ICV))) 0;
   Some (true, pData', 0%nat)) =
  Some (true, put pData 0 (xorl (wep_plain d) (keystream ctx (n + 4))), 0%nat).
Proof.
  intros Hn Hb HB d. rewrite store_ok by (rewrite ?length_le_bytes; lia). cbn [mbind option_bind].
  rewrite Nat2Z.id. unfold u32, LEN_ICV. rewrite Z.mod_small by lia.
  replace (Z.to_nat (Z.of_nat n + 4)) with (n + 4)%nat by lia.
  rewrite (ARC4_Compute_spec _ _ _ 0 0) by (rewrite ?length_put; lia). cbn [mbind option_bind].
  assert (length d = n) as Hd by (unfold d; rewrite length_take; lia).
  assert (put pData n (le_bytes 4 (crc32 d)) = put pData 0 (wep_plain d)) as ->.
  { unfold wep_plain. rewrite <- (put_put_adjacent pData 0)
      by (rewrite length_le_bytes, Hd; lia).
    rewrite Hd. f_equal. unfold d. change (take n pData) with (slice pData 0 n).
    by rewrite put_slice_id by lia. }
  assert (slice (put pData 0 (wep_plain d)) 0 (n + 4) = wep_plain d) as ->.
  { replace (n + 4)%nat with (length (wep_plain d)) by (rewrite length_wep_plain; lia).
    apply slice_put_eq. rewrite length_wep_plain. lia. }
  do 3 f_equal.
  rewrite put_put; [done| |].
  - rewrite length_xorl; [done|]. rewrite length_keystream, length_wep_plain. lia.
  - rewrite length_wep_plain. lia.
Qed.

Lemma RTMPSoftEncryptWEP_eq E pIvHdr k pData n :
  kmalloc E 264 = true → kmalloc E 16 = true → key_wf k → 0 < KeyLen k <= 13 →
  (3 <= length pIvHdr)%nat → bytes pData → (n + 4 <= length pData)%nat → Z.of_nat n + 4 < 2 ^ 32 →
  RTMPSoftEncryptWEP E pIvHdr k pData (Z.of_nat n) =
    Some (true, put pData 0 (wep_seal pIvHdr k (take n pData)), 0%nat).
Proof.
  intros H1 H2 (Hk & _) Hl Hiv HB Hn Hb. unfold RTMPSoftEncryptWEP, sizeof_ARC4_CTX_STRUC.
  rewrite H1. cbn [negb]. destruct (Z.eqb_spec (KeyLen k) 0); [lia|].
  rewrite RTMPInitWepEngine_ok by (done || lia). cbn [mbind option_bind].
  rewrite (load_ok pData) by lia. cbn [mbind option_bind]. rewrite Nat2Z.id.
  change (slice pData (Z.to_nat 0) n) with (take n pData).
  rewrite FCS_is_crc32 by (by apply Forall_take). rewrite encrypt_body by done.
  unfold wep_seal. do 4 f_equal. rewrite length_take. do 2 f_equal. lia.
Qed.

(** What opening a received frame body gives. *)
Definition wep_open (iv : list Z) (k : CIPHER_KEY) (c : list Z) : list Z :=
  xorl c (keystream (wep_ctx iv k) (length c)).

Lemma length_wep_open iv k c : length (wep_open iv k c) = length c.
Proof. unfold wep_open. rewrite length_xorl; by rewrite ?length_keystream. Qed.

Lemma wep_open_seal iv k d : wep_open iv k (wep_seal iv k d) = wep_plain d.
Proof.
  unfold wep_open. rewrite length_wep_seal. unfold wep_seal.
  apply xorl_cancel_r. rewrite length_wep_plain, length_keystream. lia.
Qed.

Lemma ARC4_INIT_ctx_wf iv k : arc4_wf (wep_ctx iv k).
Proof. apply ARC4_INIT_wf. Qed.

Lemma RTMPSoftDecryptWEP_eq E k pData n :
  kmalloc E 264 = true → kmalloc E 16 = true → key_wf k → 0 < KeyLen k <= 13 →
  bytes pData → (8 <= n <= length pData)%nat → Z.of_nat n < 65536 →
  let p := wep_open pData k (slice pData 4 (n - 4)) in
  RTMPSoftDecryptWEP E k pData (Z.of_nat n) =
    Some (if crc32 (take (n - 8) p) =? le_word (drop (n - 8) p)
          then (true, put pData 0 p, Z.of_nat n - 8, 0%nat)
          else (false, put pData 0 p, Z.of_nat n, 1%nat)).
Proof.
  intros H1 H2 (Hk & _) Hl HB Hn Hb p. unfold RTMPSoftDecryptWEP, sizeof_ARC4_CTX_STRUC.
  rewrite H1. cbn [negb]. destruct (Z.eqb_spec (KeyLen k) 0); [lia|].
  rewrite RTMPInitWepEngine_ok by (done || lia). cbn [mbind option_bind].
  unfold LEN_WEP_IV_HDR, LEN_ICV. destruct (Z.leb_spec (Z.of_nat n) 4); [lia|].
  unfold u16. rewrite (Z.mod_small (Z.of_nat n - 4)) by lia.
  replace (Z.to_nat (Z.of_nat n - 4)) with (n - 4)%nat by lia.
  rewrite (ARC4_Compute_spec _ _ _ 4 0) by lia. cbn [mbind option_bind].
  rewrite Z.mod_small by lia. replace (Z.of_nat n - 4 - 4) with (Z.of_nat (n - 8)) by lia.
  assert (length (slice pData 4 (n - 4)) = n - 4)%nat as Hs by (apply length_slice; lia).
  assert (xorl (slice pData 4 (n - 4)) (keystream (wep_ctx pData k) (n - 4)) = p) as ->
    by (unfold p, wep_open; by rewrite Hs).
  assert (length p = n - 4)%nat as Hp by (unfold p; by rewrite length_wep_open).
  assert (bytes p) as HBp.
  { unfold p, wep_open. apply xorl_bytes; [by apply bytes_slice|]. apply keystream_bytes, ARC4_INIT_wf. }
  rewrite (load_ok _ (Z.of_nat (n - 8))) by (rewrite ?length_put; lia). cbn [mbind option_bind].
  rewrite load_ok by (rewrite ?length_put; lia). cbn [mbind option_bind].
  rewrite !Nat2Z.id. change (Z.to_nat 0) with 0%nat. change (Z.to_nat 4) with 4%nat.
  change (slice (put pData 0 p) (n - 8)) with (slice (put pData 0 p) (0 + (n - 8))).
  change (slice (put pData 0 p) 0) with (slice (put pData 0 p) (0 + 0)).
  rewrite !slice_put_within by lia.
  assert (slice p (n - 8) 4 = drop (n - 8) p) as ->
    by (unfold slice; apply take_ge; rewrite length_drop; lia).
  change (slice p 0 (n - 8)) with (take (n - 8) p).
  rewrite FCS_is_crc32 by (by apply Forall_take).
  destruct (crc32 _ =? _); cbn [negb]; [|done].
  do 3 f_equal. lia.
Qed.

(** ** Error detection *)

Lemma crc_bit_0_inv x : word x → crc_bit x = 0 → x = 0.
Proof.
  unfold crc_bit. intros Hx H. destruct (Z.testbit x 0) eqn:Hb.
  - apply Z.lxor_eq in H. rewrite Z.shiftr_div_pow2 in H by lia.
    unfold fits in Hx. pose proof (Z.div_lt_upper_bound x (2 ^ 1) (2 ^ 31)) as Hd. lia.
  - rewrite Z.bit0_odd in Hb. rewrite <- Z.div2_spec in H.
    rewrite (Z.div2_odd x), H, Hb. done.
Qed.

Lemma crc_bits_inj n a b : word a → word b → crc_bits n a = crc_bits n b → a = b.
Proof.
  intros Ha Hb H. apply Z.lxor_eq.
  assert (word (a ^^ b)) as Hw by (apply fits_lxor; [lia|done..]).
  assert (crc_bits n (a ^^ b) = 0) as H0 by (rewrite crc_bits_lxor, H; apply Z.lxor_nilpotent).
  revert H0. clear H Ha Hb. generalize dependent (a ^^ b). clear a b.
  induction n as [|n IH]; intros x Hx H; [done|].
  apply IH; [done|]. apply crc_bit_0_inv; [|exact H]. by apply crc_bits_word.
Qed.

Abbreviation crc_run := (foldl (λ c b, crc_bits 8 (c ^^ b))).

Lemma crc_bits_add n k c : crc_bits (n + k) c = crc_bits n (crc_bits k c).
Proof. apply Nat.iter_add. Qed.

Lemma crc_run_word c l : word c → bytes l → word (crc_run c l).
Proof.
  intros Hc H. revert c Hc. induction H as [|b l Hb Hl IH]; intros c Hc; [done|]. cbn [foldl].
  apply IH, crc_bits_word, fits_lxor; [lia|done|]. apply (fits_weaken 8); [lia|done].
Qed.

(** Shifting a string through the register is shifting its number. *)
Lemma crc_run_le_word c l : bytes l → crc_run c l = crc_bits (8 * length l) (c ^^ le_word l).
Proof.
  intros H. revert c. induction H as [|b l Hb Hl IH]; intros c.
  - cbn. by rewrite Z.lxor_0_r.
  - cbn [foldl]. rewrite IH. cbn [length le_word].
    replace (8 * S (length l))%nat with (8 * length l + 8)%nat by lia.
    rewrite crc_bits_add. f_equal.
    assert (b .| Z.shiftl (le_word l) 8 = b ^^ Z.shiftl (le_word l) 8) as ->.
    { apply Z.bits_inj'. intros i Hi. rewrite Z.lor_spec, Z.lxor_spec, Z.shiftl_spec by done.
      destruct (decide (i < 8)); [rewrite (Z.testbit_neg_r _ (i - 8)) by lia
        |rewrite (testbit_byte_high b) by (done || lia)]; btauto. }
    by rewrite <- Z.lxor_assoc, (crc_bits_lxor 8 (c ^^ b)), (crc_bits_shift 8).
Qed.

Lemma crc_run_inj a b l : word a → word b → bytes l → crc_run a l = crc_run b l → a = b.
Proof.
  intros Ha Hb Hl. revert a b Ha Hb. induction Hl as [|x l Hx Hl IH]; intros a b Ha Hb H; [done|].
  cbn [foldl] in H. assert (word x) by (apply (fits_weaken 8); [lia|done]).
  apply IH in H; [|apply crc_bits_word, fits_lxor; [lia|done..]..].
  apply crc_bits_inj in H; [|apply fits_lxor; [lia|done..]..].
  rewrite <- (lxor_cancel_r a x), H. apply lxor_cancel_r.
Qed.

Lemma le_word_inj a b : bytes a → bytes b → length a = length b → le_word a = le_word b → a = b.
Proof. intros Ha Hb Hl H. by rewrite <- (le_bytes_le_word a), <- (le_bytes_le_word b), Hl, H. Qed.

(** ** Properties *)

(** The table driven checksum is the CRC-32 of IEEE 802 computed bit by
    bit with the generator polynomial EDB88320, for every start value, and
    the complemented checksum that the frames carry is a 32-bit word. *)
Lemma RTMP_CALC_FCS32_correct Fcs l :
  bytes l →
  RTMP_CALC_FCS32 Fcs l = foldl (λ c b, crc_bits 8 (c ^^ b)) Fcs l ∧
  RTMP_CALC_FCS32 PPPINITFCS32 l ^^ 0xffffffff = crc32 l ∧ word (crc32 l).
Proof.
  intros H. split_and!; [by apply CALC_FCS32_crc|by apply FCS_is_crc32|by apply crc32_word].
Qed.

Lemma RTMP_CALC_FCS32_correct_witness :
  bytes [0x31;0x32;0x33;0x34;0x35;0x36;0x37;0x38;0x39] ∧
  RTMP_CALC_FCS32 PPPINITFCS32 [0x31;0x32;0x33;0x34;0x35;0x36;0x37;0x38;0x39] ^^ 0xffffffff
    = 0xCBF43926.
Proof.
  assert (bytes [0x31;0x32;0x33;0x34;0x35;0x36;0x37;0x38;0x39]) as H by bytes_table.
  split; [exact H|].
  destruct (RTMP_CALC_FCS32_correct 0 _ H) as (_ & -> & _). vm_compute. reflexivity.
Defined.

(** The integrity value detects every error burst of at most 32 bits:
    two messages that differ only inside a window of up to four bytes have
    different checksums, whatever surrounds the window. *)
Lemma FCS32_detects_bursts a e e' z :
  bytes a → bytes e → bytes e' → bytes z →
  length e = length e' → (length e <= 4)%nat → e ≠ e' →
  RTMP_CALC_FCS32 PPPINITFCS32 (a ++ e ++ z) ≠ RTMP_CALC_FCS32 PPPINITFCS32 (a ++ e' ++ z).
Proof.
  intros Ha He He' Hz Hl H4 Hne H. apply Hne. clear Hne.
  rewrite !CALC_FCS32_crc in H by (rewrite !Forall_app; done). rewrite !foldl_app in H.
  assert (word (crc_run PPPINITFCS32 a)) as Hw
    by (apply crc_run_word; [unfold fits, PPPINITFCS32; lia|done]).
  apply crc_run_inj in H; [|apply crc_run_word; done..|done].
  rewrite (crc_run_le_word _ e), (crc_run_le_word _ e'), Hl in H by done.
  assert (∀ l, bytes l → (length l <= 4)%nat → word (le_word l)) as HL.
  { intros l Hb Hll. apply (fits_weaken (8 * Z.of_nat (length l))); [lia|by apply fits_le_word]. }
  apply crc_bits_inj in H; [|(apply fits_lxor; [lia|done|]; apply HL; (done || lia))..].
  apply le_word_inj; [done..|]. rewrite <- (lxor_cancel_l (le_word e) (crc_run PPPINITFCS32 a)), H.
  apply lxor_cancel_l.
Qed.

Lemma FCS32_detects_bursts_witness :
  bytes [1; 2] ∧ bytes [3; 4; 5; 6] ∧ bytes [3; 9; 5; 7] ∧
  RTMP_CALC_FCS32 PPPINITFCS32 ([1; 2] ++ [3; 4; 5; 6] ++ [1; 2]) ≠
  RTMP_CALC_FCS32 PPPINITFCS32 ([1; 2] ++ [3; 9; 5; 7] ++ [1; 2]).
Proof.
  assert (bytes [1; 2]) as H1 by bytes_table. assert (bytes [3; 4; 5; 6]) as H2 by bytes_table.
  assert (bytes [3; 9; 5; 7]) as H3 by bytes_table. do 3 (split; [assumption|]).
  apply FCS32_detects_bursts; [assumption..|reflexivity|cbn; lia|discriminate].
Defined.

(** [RTMPSoftEncryptWEP] on every branch.  Without memory for the
    context, or without a key, it refuses and leaves the frame alone (in the
    second case the context stays allocated).  Otherwise it replaces the
    data and the four bytes behind it by the data and its little-endian
    CRC-32, both XORed with the RC4 stream keyed by IV and WEP key; nothing
    behind them changes.  When the seed cannot be allocated it still answers
    TRUE, with the stream of the uninitialised context. *)
Lemma RTMPSoftEncryptWEP_spec E pIvHdr k pData n :
  key_wf k → KeyLen k <= 13 → (3 <= length pIvHdr)%nat → bytes pData →
  (n + 4 <= length pData)%nat → Z.of_nat n + 4 < 2 ^ 32 →
  RTMPSoftEncryptWEP E pIvHdr k pData (Z.of_nat n) =
    if negb (kmalloc E 264) then Some (false, pData, 0%nat)
    else if KeyLen k =? 0 then Some (false, pData, 1%nat)
    else if kmalloc E 16 then Some (true, put pData 0 (wep_seal pIvHdr k (take n pData)), 0%nat)
    else Some (true, put pData 0 (xorl (wep_plain (take n pData))
                                       (keystream (ARC4_CTX_fresh E) (n + 4))), 0%nat).
Proof.
  intros Hk Hl Hiv HB Hn Hb. destruct (kmalloc E 264) eqn:H1; cbn [negb].
  2: { unfold RTMPSoftEncryptWEP, sizeof_ARC4_CTX_STRUC. by rewrite H1. }
  destruct (Z.eqb_spec (KeyLen k) 0) as [H0|H0].
  { unfold RTMPSoftEncryptWEP, sizeof_ARC4_CTX_STRUC. by rewrite H1, H0. }
  assert (0 < KeyLen k <= 13) by (destruct Hk as (_&_&_&_&_&_&Hk); unfold fits in Hk; lia).
  destruct (kmalloc E 16) eqn:H2; [by apply RTMPSoftEncryptWEP_eq|].
  unfold RTMPSoftEncryptWEP, sizeof_ARC4_CTX_STRUC, RTMPInitWepEngine. rewrite H1, H2. cbn [negb].
  destruct (Z.eqb_spec (KeyLen k) 0); [done|]. cbn [mbind option_bind].
  rewrite (load_ok pData) by lia. cbn [mbind option_bind]. rewrite Nat2Z.id.
  change (slice pData (Z.to_nat 0) n) with (take n pData).
  rewrite FCS_is_crc32 by (by apply Forall_take). by apply encrypt_body.
Qed.

(** A 40-bit key. *)
Definition wep40 : CIPHER_KEY :=
  {| Key := [1;2;3;4;5] ++ zeros 11; TxMic := zeros 8; RxMic := zeros 8; TxTsc := zeros 16;
     RxTsc := zeros 16; CipherAlg := 1; KeyLen := 5; Type_ := 0 |}.

Definition kmalloc_all : env := {| kmalloc := λ _, true; garbage := [] |}.

Lemma wep40_wf : key_wf wep40.
Proof. repeat split; (bytes_table || (vm_compute; congruence)). Qed.

Lemma RTMPSoftEncryptWEP_spec_witness :
  bytes (zeros 6) ∧
  RTMPSoftEncryptWEP kmalloc_all [9; 8; 7; 0] wep40 (zeros 6) 2 =
    Some (true, put (zeros 6) 0 (wep_seal [9; 8; 7; 0] wep40 [0; 0]), 0%nat).
Proof.
  assert (bytes (zeros 6)) as H by bytes_table. split; [exact H|].
  apply (RTMPSoftEncryptWEP_spec kmalloc_all [9; 8; 7; 0] wep40 (zeros 6) 2 wep40_wf);
    [cbn; lia|cbn; lia|exact H|cbn; lia|lia].
Defined.

(** [RTMPSoftDecryptWEP] on every branch.  Without memory, without a key
    and for a frame that is nothing but an IV it refuses, leaves frame and
    length alone, and (but for the first) leaks the context.  A frame that
    carries an ICV is decrypted over its own IV header; the answer is TRUE
    exactly when the decrypted ICV is the CRC-32 of the decrypted data, and
    then the length loses IV header and ICV. *)
Theorem RTMPSoftDecryptWEP_spec E k pData n :
  key_wf k → KeyLen k <= 13 → kmalloc E 16 = true → bytes pData →
  (3 <= length pData)%nat → (n <= 4 ∨ 8 <= n)%nat → (n <= length pData)%nat → Z.of_nat n < 65536 →
  let p := wep_open pData k (slice pData 4 (n - 4)) in
  RTMPSoftDecryptWEP E k pData (Z.of_nat n) = Some (
    if negb (kmalloc E 264) then (false, pData, Z.of_nat n, 0%nat)
    else if (KeyLen k =? 0) || (Z.of_nat n <=? 4) then (false, pData, Z.of_nat n, 1%nat)
    else if crc32 (take (n - 8) p) =? le_word (drop (n - 8) p)
         then (true, put pData 0 p, Z.of_nat n - 8, 0%nat)
         else (false, put pData 0 p, Z.of_nat n, 1%nat)).
Proof.
  intros Hk Hl H2 HB H3 Hn Hnm Hb p. destruct (kmalloc E 264) eqn:H1; cbn [negb].
  2: { unfold RTMPSoftDecryptWEP, sizeof_ARC4_CTX_STRUC. by rewrite H1. }
  destruct (Z.eqb_spec (KeyLen k) 0) as [H0|H0]; cbn [orb].
  { unfold RTMPSoftDecryptWEP, sizeof_ARC4_CTX_STRUC. by rewrite H1, H0. }
  assert (0 < KeyLen k <= 13) by (destruct Hk as (_&_&_&_&_&_&Hk); unfold fits in Hk; lia).
  destruct (Z.leb_spec (Z.of_nat n) 4) as [H4|H4]; [|apply RTMPSoftDecryptWEP_eq; (done || lia)].
  destruct Hk as (Hk & _).
  unfold RTMPSoftDecryptWEP, sizeof_ARC4_CTX_STRUC, LEN_WEP_IV_HDR. rewrite H1. cbn [negb].
  destruct (Z.eqb_spec (KeyLen k) 0); [done|].
  rewrite RTMPInitWepEngine_ok by (done || lia). cbn [mbind option_bind].
  by destruct (Z.leb_spec (Z.of_nat n) 4); [|lia].
Qed.

Lemma RTMPSoftDecryptWEP_spec_witness :
  let c := put (zeros 6) 0 (wep_seal [9; 8; 7; 0] wep40 [0; 0]) in
  bytes ([9; 8; 7; 0] ++ c) ∧
  ∃ m, RTMPSoftDecryptWEP kmalloc_all wep40 ([9; 8; 7; 0] ++ c) (Z.of_nat 10) =
         Some (true, m, 2, 0%nat).
Proof.
  cbn zeta. set (m := _ ++ _). assert (bytes m) as H by bytes_table. split; [exact H|].
  rewrite (RTMPSoftDecryptWEP_spec kmalloc_all wep40 m 10 wep40_wf);
    [|cbn; lia|reflexivity|exact H|vm_compute; lia|lia|vm_compute; lia|lia].
  eexists. vm_compute. reflexivity.
Defined.

(** A frame of five to seven bytes makes [plaintext_len] wrap around: the
    ICV is then read 65 thousand bytes behind a frame that does not have
    them. *)
Lemma RTMPSoftDecryptWEP_short_frame E k pData n :
  key_wf k → 0 < KeyLen k <= 13 → kmalloc E 16 = true → kmalloc E 264 = true →
  (5 <= n <= 7)%nat → (n <= length pData)%nat → Z.of_nat (length pData) <= 65533 →
  RTMPSoftDecryptWEP E k pData (Z.of_nat n) = None.
Proof.
  intros (Hk & _) Hl H2 H1 Hn Hnm Hb.
  unfold RTMPSoftDecryptWEP, sizeof_ARC4_CTX_STRUC, LEN_WEP_IV_HDR, LEN_ICV. rewrite H1. cbn [negb].
  destruct (Z.eqb_spec (KeyLen k) 0); [lia|].
  rewrite RTMPInitWepEngine_ok by (done || lia). cbn [mbind option_bind].
  destruct (Z.leb_spec (Z.of_nat n) 4); [lia|]. unfold u16.
  rewrite (Z.mod_small (Z.of_nat n - 4)) by lia.
  replace (Z.to_nat (Z.of_nat n - 4)) with (n - 4)%nat by lia.
  rewrite (ARC4_Compute_spec _ _ _ 4 0) by lia. cbn [mbind option_bind].
  replace (Z.of_nat n - 4 - 4) with (Z.of_nat n - 8 + 65536 + (-1) * 65536) by lia.
  rewrite Z.mod_add, Z.mod_small by lia.
  rewrite (load_None _ _ 4); [reflexivity|]. right; right. rewrite length_put. lia.
Qed.

Lemma wep_ctx_app a b k : (3 <= length a)%nat → wep_ctx (a ++ b) k = wep_ctx a k.
Proof. intros H. unfold wep_ctx. by rewrite take_app_le. Qed.

(** a data frame sealed by [RTMPConstructWEPIVHdr] and
    [RTMPSoftEncryptWEP] is opened by [RTMPSoftDecryptWEP] with the same
    key: it answers TRUE with the length of the original data, whose bytes
    are at the start of the frame, and nothing stays allocated. *)
Theorem wep_roundtrip E k key_idx pn d pad :
  kmalloc E 264 = true → kmalloc E 16 = true → key_wf k → 0 < KeyLen k <= 13 →
  bytes pn → (3 <= length pn)%nat → bytes d → bytes pad → length pad = 4%nat →
  Z.of_nat (length d) + 8 < 65536 →
  ∃ hdr c m,
    RTMPConstructWEPIVHdr key_idx pn = Some hdr ∧
    RTMPSoftEncryptWEP E hdr k (d ++ pad) (Z.of_nat (length d)) = Some (true, c, 0%nat) ∧
    RTMPSoftDecryptWEP E k (hdr ++ c) (Z.of_nat (length d) + 8) =
      Some (true, m, Z.of_nat (length d), 0%nat) ∧
    take (length d) m = d.
Proof.
  intros H1 H2 Hk Hl Hpn Hpl Hd Hpad Hp4 Hb.
  set (hdr := (put (zeros 4) 0 (take 3 pn)).[3 <- key_idx <<8 6]).
  assert (length hdr = 4%nat) as Hh by (unfold hdr; by rewrite length_insert, length_put).
  assert (bytes hdr) as HBh.
  { apply Forall_insert; [|apply fits_u8]. apply bytes_put; [by apply fits_zeros|by apply Forall_take]. }
  set (s := wep_seal hdr k d). assert (length s = length d + 4)%nat as Hs by apply length_wep_seal.
  assert (bytes s) as HBs.
  { apply xorl_bytes; [|apply keystream_bytes, ARC4_INIT_wf].
    apply Forall_app. split; [done|apply bytes_le_bytes]. }
  set (p := wep_plain d). assert (length p = length d + 4)%nat as Hp by apply length_wep_plain.
  exists hdr, s, (put (hdr ++ s) 0 p). split_and!.
  - unfold RTMPConstructWEPIVHdr, LEN_WEP_TSC, LEN_WEP_IV_HDR.
    rewrite load_ok by lia. cbn [mbind option_bind].
    rewrite store_ok; [done|lia|]. change (Z.to_nat 0) with 0%nat. change (Z.to_nat 3) with 3%nat.
    rewrite length_slice by lia. rewrite length_zeros. lia.
  - rewrite RTMPSoftEncryptWEP_eq; try (done || lia || (rewrite ?length_app; lia)).
    + do 3 f_equal. rewrite take_app_length. fold s. rewrite put_splice by (rewrite length_app; lia).
      rewrite take_0, drop_ge by (rewrite length_app; lia). apply app_nil_r.
    + by apply Forall_app.
  - replace (Z.of_nat (length d) + 8) with (Z.of_nat (length d + 8)) by lia.
    rewrite RTMPSoftDecryptWEP_eq; [|done..|by apply Forall_app|rewrite length_app; lia|lia].
    assert (slice (hdr ++ s) 4 (length d + 8 - 4) = s) as ->.
    { unfold slice. rewrite <- Hh, drop_app_length, take_ge by lia. done. }
    assert (wep_open (hdr ++ s) k s = p) as ->.
    { unfold wep_open. rewrite wep_ctx_app by lia. exact (wep_open_seal hdr k d). }
    replace (length d + 8 - 8)%nat with (length d) by lia.
    assert (take (length d) p = d) as -> by apply take_app_length.
    assert (drop (length d) p = le_bytes 4 (crc32 d)) as -> by apply drop_app_length.
    rewrite le_word_le_bytes.
    pose proof (crc32_word d Hd) as Hw. unfold fits in Hw.
    change (8 * Z.of_nat 4) with 32. rewrite Z.mod_small, Z.eqb_refl by done. do 3 f_equal. lia.
  - rewrite put_splice by (rewrite length_app; lia). rewrite take_0. cbn [app].
    unfold p, wep_plain. by rewrite <- !app_assoc, take_app_length.
Qed.

Lemma wep_roundtrip_witness :
  let d := [5; 6] in
  bytes [1; 2; 3] ∧ bytes d ∧ bytes (zeros 4) ∧
  ∃ hdr c m,
    RTMPConstructWEPIVHdr 1 [1; 2; 3] = Some hdr ∧
    RTMPSoftEncryptWEP kmalloc_all hdr wep40 (d ++ zeros 4) (Z.of_nat (length d)) = Some (true, c, 0%nat) ∧
    RTMPSoftDecryptWEP kmalloc_all wep40 (hdr ++ c) (Z.of_nat (length d) + 8) =
      Some (true, m, Z.of_nat (length d), 0%nat) ∧
    take (length d) m = d.
Proof.
  intros d. assert (bytes [1; 2; 3]) as Hpn by bytes_table. assert (bytes d) as Hd by bytes_table.
  assert (bytes (zeros 4)) as Hp by bytes_table. do 3 (split; [assumption|]).
  apply (wep_roundtrip kmalloc_all wep40 1 [1; 2; 3] d (zeros 4) eq_refl eq_refl wep40_wf);
    [cbn; lia|exact Hpn|cbn; lia|exact Hd|exact Hp|reflexivity|cbn; lia].
Defined.
