(* ===== verification/Tkip.v ===== *)
(** * TKIP: Michael, key mixing and frame decryption of the rt5370 driver

    Models [linux/Arch/rt5370.driver/common/cmm_tkip.c]: the Michael MIC
    with its byte accumulator, the two-phase mixing of the RC4 key, the
    software decryption of a TKIP frame, and the RC4 wrapping of the group
    key.  A buffer is the memory its pointer points to; [None] is an access
    outside it.  The adapter's [PrivateInfo.Tx] and [.Rx] are passed as
    values of [TKIP_KEY_INFO]. *)

From stdpp Require Import base list numbers list_numbers.
From Stdlib Require Import ZArith Lia Btauto.
From S2P Require Import Prelude Arc4 AesTables WpaCmm Wep.

Definition ROL32 (A n : Z) : Z := (A <<32 n) .| ((A >> (32 - n)) & ((1 <<32 n) - 1)).
Definition ROR32 (A n : Z) : Z := ROL32 A (32 - n).

Definition Tkip_Sbox_Lower : list Z :=
  [0xA5; 0x84; 0x99; 0x8D; 0x0D; 0xBD; 0xB1; 0x54;
   0x50; 0x03; 0xA9; 0x7D; 0x19; 0x62; 0xE6; 0x9A;
   0x45; 0x9D; 0x40; 0x87; 0x15; 0xEB; 0xC9; 0x0B;
   0xEC; 0x67; 0xFD; 0xEA; 0xBF; 0xF7; 0x96; 0x5B;
   0xC2; 0x1C; 0xAE; 0x6A; 0x5A; 0x41; 0x02; 0x4F;
   0x5C; 0xF4; 0x34; 0x08; 0x93; 0x73; 0x53; 0x3F;
   0x0C; 0x52; 0x65; 0x5E; 0x28; 0xA1; 0x0F; 0xB5;
   0x09; 0x36; 0x9B; 0x3D; 0x26; 0x69; 0xCD; 0x9F;
   0x1B; 0x9E; 0x74; 0x2E; 0x2D; 0xB2; 0xEE; 0xFB;
   0xF6; 0x4D; 0x61; 0xCE; 0x7B; 0x3E; 0x71; 0x97;
   0xF5; 0x68; 0x00; 0x2C; 0x60; 0x1F; 0xC8; 0xED;
   0xBE; 0x46; 0xD9; 0x4B; 0xDE; 0xD4; 0xE8; 0x4A;
   0x6B; 0x2A; 0xE5; 0x16; 0xC5; 0xD7; 0x55; 0x94;
   0xCF; 0x10; 0x06; 0x81; 0xF0; 0x44; 0xBA; 0xE3;
   0xF3; 0xFE; 0xC0; 0x8A; 0xAD; 0xBC; 0x48; 0x04;
   0xDF; 0xC1; 0x75; 0x63; 0x30; 0x1A; 0x0E; 0x6D;
   0x4C; 0x14; 0x35; 0x2F; 0xE1; 0xA2; 0xCC; 0x39;
   0x57; 0xF2; 0x82; 0x47; 0xAC; 0xE7; 0x2B; 0x95;
   0xA0; 0x98; 0xD1; 0x7F; 0x66; 0x7E; 0xAB; 0x83;
   0xCA; 0x29; 0xD3; 0x3C; 0x79; 0xE2; 0x1D; 0x76;
   0x3B; 0x56; 0x4E; 0x1E; 0xDB; 0x0A; 0x6C; 0xE4;
   0x5D; 0x6E; 0xEF; 0xA6; 0xA8; 0xA4; 0x37; 0x8B;
   0x32; 0x43; 0x59; 0xB7; 0x8C; 0x64; 0xD2; 0xE0;
   0xB4; 0xFA; 0x07; 0x25; 0xAF; 0x8E; 0xE9; 0x18;
   0xD5; 0x88; 0x6F; 0x72; 0x24; 0xF1; 0xC7; 0x51;
   0x23; 0x7C; 0x9C; 0x21; 0xDD; 0xDC; 0x86; 0x85;
   0x90; 0x42; 0xC4; 0xAA; 0xD8; 0x05; 0x01; 0x12;
   0xA3; 0x5F; 0xF9; 0xD0; 0x91; 0x58; 0x27; 0xB9;
   0x38; 0x13; 0xB3; 0x33; 0xBB; 0x70; 0x89; 0xA7;
   0xB6; 0x22; 0x92; 0x20; 0x49; 0xFF; 0x78; 0x7A;
   0x8F; 0xF8; 0x80; 0x17; 0xDA; 0x31; 0xC6; 0xB8;
   0xC3; 0xB0; 0x77; 0x11; 0xCB; 0xFC; 0xD6; 0x3A].

Definition Tkip_Sbox_Upper : list Z :=
  [0xC6; 0xF8; 0xEE; 0xF6; 0xFF; 0xD6; 0xDE; 0x91;
   0x60; 0x02; 0xCE; 0x56; 0xE7; 0xB5; 0x4D; 0xEC;
   0x8F; 0x1F; 0x89; 0xFA; 0xEF; 0xB2; 0x8E; 0xFB;
   0x41; 0xB3; 0x5F; 0x45; 0x23; 0x53; 0xE4; 0x9B;
   0x75; 0xE1; 0x3D; 0x4C; 0x6C; 0x7E; 0xF5; 0x83;
   0x68; 0x51; 0xD1; 0xF9; 0xE2; 0xAB; 0x62; 0x2A;
   0x08; 0x95; 0x46; 0x9D; 0x30; 0x37; 0x0A; 0x2F;
   0x0E; 0x24; 0x1B; 0xDF; 0xCD; 0x4E; 0x7F; 0xEA;
   0x12; 0x1D; 0x58; 0x34; 0x36; 0xDC; 0xB4; 0x5B;
   0xA4; 0x76; 0xB7; 0x7D; 0x52; 0xDD; 0x5E; 0x13;
   0xA6; 0xB9; 0x00; 0xC1; 0x40; 0xE3; 0x79; 0xB6;
   0xD4; 0x8D; 0x67; 0x72; 0x94; 0x98; 0xB0; 0x85;
   0xBB; 0xC5; 0x4F; 0xED; 0x86; 0x9A; 0x66; 0x11;
   0x8A; 0xE9; 0x04; 0xFE; 0xA0; 0x78; 0x25; 0x4B;
   0xA2; 0x5D; 0x80; 0x05; 0x3F; 0x21; 0x70; 0xF1;
   0x63; 0x77; 0xAF; 0x42; 0x20; 0xE5; 0xFD; 0xBF;
   0x81; 0x18; 0x26; 0xC3; 0xBE; 0x35; 0x88; 0x2E;
   0x93; 0x55; 0xFC; 0x7A; 0xC8; 0xBA; 0x32; 0xE6;
   0xC0; 0x19; 0x9E; 0xA3; 0x44; 0x54; 0x3B; 0x0B;
   0x8C; 0xC7; 0x6B; 0x28; 0xA7; 0xBC; 0x16; 0xAD;
   0xDB; 0x64; 0x74; 0x14; 0x92; 0x0C; 0x48; 0xB8;
   0x9F; 0xBD; 0x43; 0xC4; 0x39; 0x31; 0xD3; 0xF2;
   0xD5; 0x8B; 0x6E; 0xDA; 0x01; 0xB1; 0x9C; 0x49;
   0xD8; 0xAC; 0xF3; 0xCF; 0xCA; 0xF4; 0x47; 0x10;
   0x6F; 0xF0; 0x4A; 0x5C; 0x38; 0x57; 0x73; 0x97;
   0xCB; 0xA1; 0xE8; 0x3E; 0x96; 0x61; 0x0D; 0x0F;
   0xE0; 0x7C; 0x71; 0xCC; 0x90; 0x06; 0xF7; 0x1C;
   0xC2; 0x6A; 0xAE; 0x69; 0x17; 0x99; 0x3A; 0x27;
   0xD9; 0xEB; 0x2B; 0x22; 0xD2; 0xA9; 0x07; 0x33;
   0x2D; 0x3C; 0x15; 0xC9; 0x87; 0xAA; 0x50; 0xA5;
   0x03; 0x59; 0x09; 0x1A; 0x65; 0xD7; 0x84; 0xD0;
   0x82; 0x29; 0x5A; 0x1E; 0x7B; 0xA8; 0x6D; 0x2C].

Record TKIP_KEY_INFO := {
  nBytesInM : Z;
  IV16 : Z;
  IV32 : Z;
  K0 : Z;
  K1 : Z;
  L : Z;
  R : Z;
  M : Z;
  RC4KEY : list Z;
  MIC : list Z;
}.

Definition RTMPTkipGetUInt32 (pMICKey : list Z) (off : nat) : Z :=
  loop 0 4 (λ i res, res .| (pMICKey.[off + i] <<32 (8 * Z.of_nat i))) 0.

(** The four bytes stored at [pDst]. *)
Definition RTMPTkipPutUInt32 (pDst : list Z) (off : nat) (val : Z) : list Z :=
  (loop 0 4 (λ i '(d, val), (d.[off + i <- val & 0xff], val >> 8)) (pDst, val)).1.

Definition RTMPTkipSetMICKey (pTkip : TKIP_KEY_INFO) (pMICKey : list Z) : TKIP_KEY_INFO :=
  let k0 := RTMPTkipGetUInt32 pMICKey 0 in
  let k1 := RTMPTkipGetUInt32 pMICKey 4 in
  {| nBytesInM := 0; IV16 := IV16 pTkip; IV32 := IV32 pTkip; K0 := k0; K1 := k1;
     L := k0; R := k1; M := 0; RC4KEY := RC4KEY pTkip; MIC := MIC pTkip |}.

(** The state with another accumulator and block state. *)
Definition set_LRM (t : TKIP_KEY_INFO) (n l r m : Z) : TKIP_KEY_INFO :=
  {| nBytesInM := n; IV16 := IV16 t; IV32 := IV32 t; K0 := K0 t; K1 := K1 t;
     L := l; R := r; M := m; RC4KEY := RC4KEY t; MIC := MIC t |}.

Definition set_MIC (t : TKIP_KEY_INFO) (mic : list Z) : TKIP_KEY_INFO :=
  {| nBytesInM := nBytesInM t; IV16 := IV16 t; IV32 := IV32 t; K0 := K0 t; K1 := K1 t;
     L := L t; R := R t; M := M t; RC4KEY := RC4KEY t; MIC := mic |}.

(** The statements that process a full word. *)
Definition process_word (l r m : Z) : Z * Z :=
  let l := l ^^ m in
  let r := r ^^ ROL32 l 17 in
  let l := l +32 r in
  let r := r ^^ (((l & 0xff00ff00) >> 8) .| ((l & 0x00ff00ff) <<32 8)) in
  let l := l +32 r in
  let r := r ^^ ROL32 l 3 in
  let l := l +32 r in
  let r := r ^^ ROR32 l 2 in
  let l := l +32 r in
  (l, r).

Definition RTMPTkipAppendByte (t : TKIP_KEY_INFO) (uChar : Z) : TKIP_KEY_INFO :=
  let m := M t .| (uChar <<32 (8 * nBytesInM t)) in
  let n := nBytesInM t + 1 in
  if 4 <=? n then
    let '(l, r) := process_word (L t) (R t) m in
    set_LRM t 0 l r 0
  else set_LRM t n (L t) (R t) m.

Definition RTMPTkipAppend (t : TKIP_KEY_INFO) (pSrc : list Z) : TKIP_KEY_INFO :=
  foldl RTMPTkipAppendByte t pSrc.

(** The loop appends zeroes until the word is full; at most three are
    needed. *)
Definition RTMPTkipGetMIC (t : TKIP_KEY_INFO) : option TKIP_KEY_INFO :=
  let t := RTMPTkipAppendByte t 0x5a in
  let t := RTMPTkipAppendByte t 0 in
  let t := RTMPTkipAppendByte t 0 in
  let t := RTMPTkipAppendByte t 0 in
  let t := RTMPTkipAppendByte t 0 in
  t ← while 4 (λ t, negb (nBytesInM t =? 0)) (λ t, RTMPTkipAppendByte t 0) t;
  let t := set_MIC t (RTMPTkipPutUInt32 (MIC t) 0 (L t)) in
  Some (set_MIC t (RTMPTkipPutUInt32 (MIC t) 4 (R t))).

(** The effect on [PrivateInfo.Tx]; [pKey] is not used. *)
Definition RTMPInitMICEngine (Tx : TKIP_KEY_INFO) (pDA pSA : list Z) (UserPriority : Z)
    (pMICKey : list Z) : TKIP_KEY_INFO :=
  let Priority := UserPriority in
  let Tx := RTMPTkipSetMICKey Tx pMICKey in
  let Tx := RTMPTkipAppend Tx (take 6 pDA) in
  let Tx := RTMPTkipAppend Tx (take 6 pSA) in
  RTMPTkipAppend Tx (le_bytes 4 Priority).

(** The answer and [PrivateInfo.Rx]. *)
Definition RTMPTkipCompareMICValue (Rx : TKIP_KEY_INFO) (pSrc pDA pSA pMICKey : list Z)
    (UserPriority Len : Z) : option (bool * TKIP_KEY_INFO) :=
  let Priority := UserPriority in
  let Rx := RTMPTkipSetMICKey Rx pMICKey in
  let Rx := RTMPTkipAppend Rx (take 6 pDA) in
  let Rx := RTMPTkipAppend Rx (take 6 pSA) in
  let Rx := RTMPTkipAppend Rx (le_bytes 4 Priority) in
  d ← load pSrc 0 Len;
  let Rx := RTMPTkipAppend Rx d in
  OldMic ← load pSrc Len 8;
  Rx ← RTMPTkipGetMIC Rx;
  Some (bool_decide (MIC Rx = OldMic), Rx).

(** The MIC of an Ethernet packet of [SrcBufLen] bytes at [pSrc], with the
    LLC header [pEncap] if there is one. *)
Definition RTMPCalculateMICValue (Tx : TKIP_KEY_INFO) (pSrc : list Z) (SrcBufLen UserPriority : Z)
    (pEncap : option (list Z)) (pKey : CIPHER_KEY) : option TKIP_KEY_INFO :=
  ethertype ← load pSrc 12 2;
  let vlan_offset :=
    if Z.shiftl ethertype.[0] 8 + ethertype.[1] =? 0x8100 then 4 else 0 in
  let Tx := RTMPInitMICEngine Tx (slice pSrc 0 6) (slice pSrc 6 6) UserPriority (TxMic pKey) in
  Tx ← match pEncap with
       | Some llc =>
           llc ← load llc 0 6;
           proto ← load pSrc (12 + vlan_offset) 2;
           Some (RTMPTkipAppend (RTMPTkipAppend Tx llc) proto)
       | None => Some Tx
       end;
  let SrcBufLen := u32 (SrcBufLen - (14 + vlan_offset)) in
  Tx ← (if 0 <? SrcBufLen then
          d ← load pSrc (14 + vlan_offset) SrcBufLen;
          Some (RTMPTkipAppend Tx d)
        else Some Tx);
  RTMPTkipGetMIC Tx.

Definition tkip_sbox (index : Z) : Z :=
  let index_low := index mod 256 in
  let index_high := (index >> 8) mod 256 in
  let left := Tkip_Sbox_Lower.[Z.to_nat index_low] + Tkip_Sbox_Upper.[Z.to_nat index_low] * 256 in
  let right := Tkip_Sbox_Upper.[Z.to_nat index_high] + Tkip_Sbox_Lower.[Z.to_nat index_high] * 256 in
  left ^^ right.

Definition rotr1 (a : Z) : Z :=
  let b := if (a & 0x01) =? 0x01 then (a >> 1) .| 0x8000 else (a >> 1) & 0x7fff in
  b mod 65536.

(** [(256*key[i]) + key[i-1]] *)
Definition key16 (key : list Z) (hi lo : nat) : Z := 256 * key.[hi] + key.[lo].

Definition phase1_step (key : list Z) (i : nat) (p1k : list Z) : list Z :=
  let j := (2 * Nat.land i 1)%nat in
  let p1k := p1k.[0 <- (p1k.[0] + tkip_sbox ((p1k.[4] ^^ key16 key (1 + j) j) mod 65536)) mod 65536] in
  let p1k := p1k.[1 <- (p1k.[1] + tkip_sbox ((p1k.[0] ^^ key16 key (5 + j) (4 + j)) mod 65536)) mod 65536] in
  let p1k := p1k.[2 <- (p1k.[2] + tkip_sbox ((p1k.[1] ^^ key16 key (9 + j) (8 + j)) mod 65536)) mod 65536] in
  let p1k := p1k.[3 <- (p1k.[3] + tkip_sbox ((p1k.[2] ^^ key16 key (13 + j) (12 + j)) mod 65536)) mod 65536] in
  let p1k := p1k.[4 <- (p1k.[4] + tkip_sbox ((p1k.[3] ^^ key16 key (1 + j) j) mod 65536)) mod 65536] in
  p1k.[4 <- (p1k.[4] + Z.of_nat i) mod 65536].

(** The RC4 key and the phase 1 key. *)
Definition RTMPTkipMixKey (key ta : list Z) (pnl pnh : Z) (p1k : list Z) : list Z * list Z :=
  let tsc0 := (pnh >> 16) mod 65536 in
  let tsc1 := pnh mod 65536 in
  let tsc2 := pnl mod 65536 in
  let p1k := p1k.[0 <- tsc1] in
  let p1k := p1k.[1 <- tsc0] in
  let p1k := p1k.[2 <- ta.[0] + ta.[1] * 256] in
  let p1k := p1k.[3 <- ta.[2] + ta.[3] * 256] in
  let p1k := p1k.[4 <- ta.[4] + ta.[5] * 256] in
  let p1k := loop 0 8 (phase1_step key) p1k in
  let ppk0 := p1k.[0] in
  let ppk1 := p1k.[1] in
  let ppk2 := p1k.[2] in
  let ppk3 := p1k.[3] in
  let ppk4 := p1k.[4] in
  let ppk5 := (p1k.[4] + tsc2) mod 65536 in
  let ppk0 := ppk0 +32 tkip_sbox ((ppk5 ^^ key16 key 1 0) mod 65536) in
  let ppk1 := ppk1 +32 tkip_sbox ((ppk0 ^^ key16 key 3 2) mod 65536) in
  let ppk2 := ppk2 +32 tkip_sbox ((ppk1 ^^ key16 key 5 4) mod 65536) in
  let ppk3 := ppk3 +32 tkip_sbox ((ppk2 ^^ key16 key 7 6) mod 65536) in
  let ppk4 := ppk4 +32 tkip_sbox ((ppk3 ^^ key16 key 9 8) mod 65536) in
  let ppk5 := ppk5 +32 tkip_sbox ((ppk4 ^^ key16 key 11 10) mod 65536) in
  let ppk0 := ppk0 +32 rotr1 (ppk5 ^^ key16 key 13 12) in
  let ppk1 := ppk1 +32 rotr1 (ppk0 ^^ key16 key 15 14) in
  let ppk2 := ppk2 +32 rotr1 ppk1 in
  let ppk3 := ppk3 +32 rotr1 ppk2 in
  let ppk4 := ppk4 +32 rotr1 ppk3 in
  let ppk5 := ppk5 +32 rotr1 ppk4 in
  let rc4key :=
    [(tsc2 >> 8) mod 256; (((tsc2 >> 8) mod 256) .| 0x20) & 0x7f; tsc2 mod 256;
     ((ppk5 ^^ key16 key 1 0) >> 1) mod 256;
     ppk0 mod 256; (ppk0 >> 8) mod 256; ppk1 mod 256; (ppk1 >> 8) mod 256;
     ppk2 mod 256; (ppk2 >> 8) mod 256; ppk3 mod 256; (ppk3 >> 8) mod 256;
     ppk4 mod 256; (ppk4 >> 8) mod 256; ppk5 mod 256; (ppk5 >> 8) mod 256] in
  (rc4key, p1k).

(** Transmitter, destination and source address of a data frame header. *)
Definition frame_addresses (pHdr : list Z) (to_ds from_ds : Z) : list Z * list Z * list Z :=
  let Addr1 := slice pHdr 4 6 in
  let Addr2 := slice pHdr 10 6 in
  let Addr3 := slice pHdr 16 6 in
  let Octet := slice pHdr 24 6 in
  if (to_ds =? 0) && (from_ds =? 1) then (Addr2, Addr1, Addr3)
  else if (to_ds =? 0) && (from_ds =? 0) then (Addr2, Addr1, Addr2)
  else if (to_ds =? 1) && (from_ds =? 0) then (Addr2, Addr3, Addr2)
  else (Addr2, Addr3, Octet).

(** What the call leaves: the answer, the frame, [*DataByteCnt],
    [PrivateInfo.Tx], and whether a MIC failure was reported. *)
Record tkip_result := {
  tkip_ok : bool;
  tkip_data : list Z;
  tkip_cnt : Z;
  tkip_Tx : TKIP_KEY_INFO;
  tkip_mic_failure : bool;
}.

Definition RTMPSoftDecryptTKIP (E : env) (Tx : TKIP_KEY_INFO) (pHdr : list Z) (UserPriority : Z)
    (pKey : CIPHER_KEY) (pData : list Z) (DataByteCnt : Z) : option tkip_result :=
  let result ok d n tx f :=
    {| tkip_ok := ok; tkip_data := d; tkip_cnt := n; tkip_Tx := tx; tkip_mic_failure := f |} in
  if KeyLen pKey =? 0 then Some (result false pData DataByteCnt Tx false)
  else
    let from_ds := (pHdr.[1] & 0x2) >> 1 in
    let to_ds := pHdr.[1] & 0x1 in
    let '(TA, DA, SA) := frame_addresses pHdr to_ds from_ds in
    iv ← load pData 0 8;
    let pnl := Z.shiftl iv.[0] 8 .| iv.[2] in
    let pnh := le_word (slice iv 4 4) in
    let '(RC4Key, _) := RTMPTkipMixKey (Key pKey) TA pnl pnh (local_array E 5) in
    let ciphertext_ptr := LEN_TKIP_IV_HDR in
    let ciphertext_len := u32 (DataByteCnt - LEN_TKIP_IV_HDR) in
    if DataByteCnt <=? LEN_TKIP_IV_HDR then Some (result false pData DataByteCnt Tx false)
    else
      let ARC4_CTX := ARC4_INIT RC4Key 16 in
      '(_, pData) ← ARC4_Compute ARC4_CTX pData ciphertext_ptr (Z.to_nat ciphertext_len) 0;
      let plaintext_len := u32 (ciphertext_len - LEN_ICV) in
      t ← load pData plaintext_len LEN_ICV;
      let trailfcs := le_word t in
      p ← load pData 0 plaintext_len;
      let crc32 := RTMP_CALC_FCS32 PPPINITFCS32 p ^^ 0xffffffff in
      if negb (crc32 =? trailfcs) then Some (result false pData DataByteCnt Tx false)
      else
        let plaintext_len := u32 (plaintext_len - LEN_TKIP_MIC) in
        TrailMIC ← load pData plaintext_len LEN_TKIP_MIC;
        let Tx := RTMPInitMICEngine Tx DA SA UserPriority (RxMic pKey) in
        p ← load pData 0 plaintext_len;
        let Tx := RTMPTkipAppend Tx p in
        Tx ← RTMPTkipGetMIC Tx;
        if negb (bool_decide (MIC Tx = TrailMIC)) then Some (result false pData DataByteCnt Tx true)
        else Some (result true pData plaintext_len Tx false).

(** [input_text] and [output_text] are pointers into one memory. *)
Definition TKIP_GTK_KEY_WRAP (E : env) (key iv : list Z) (m : list Z) (input_text : Z)
    (input_len : nat) (output_text : Z) : option (list Z) :=
  if negb (kmalloc E sizeof_ARC4_CTX_STRUC) then Some m
  else
    let ekey := local_array E 32 in
    i ← load iv 0 LEN_KEY_DESC_IV;
    ekey ← store ekey 0 i;
    k ← load key 0 LEN_PTK_KEK;
    ekey ← store ekey LEN_KEY_DESC_IV k;
    let ctx := ARC4_INIT ekey (LEN_KEY_DESC_IV + LEN_PTK_KEK) in
    let ctx := ARC4_Discard_KeyLength ctx 256 in
    '(_, m) ← ARC4_Compute ctx m input_text input_len output_text;
    Some m.

Definition TKIP_GTK_KEY_UNWRAP (E : env) (key iv : list Z) (m : list Z) (input_text : Z)
    (input_len : nat) (output_text : Z) : option (list Z) :=
  TKIP_GTK_KEY_WRAP E key iv m input_text input_len output_text.

(** ** Michael as IEEE 802.11 defines it *)

Definition rotl32 (x n : Z) : Z := (x * 2 ^ n) mod 2 ^ 32 + x / 2 ^ (32 - n).
Definition rotr32 (x n : Z) : Z := x / 2 ^ n + (x * 2 ^ (32 - n)) mod 2 ^ 32.

(** XSWAP exchanges the two bytes of each half. *)
Definition xswap (x : Z) : Z :=
  let b := le_bytes 4 x in le_word [b.[1]; b.[0]; b.[3]; b.[2]].

Definition michael_block (s : Z * Z) (m : Z) : Z * Z :=
  let '(l, r) := s in
  let l := l ^^ m in
  let r := r ^^ rotl32 l 17 in
  let l := (l + r) mod 2 ^ 32 in
  let r := r ^^ xswap l in
  let l := (l + r) mod 2 ^ 32 in
  let r := r ^^ rotl32 l 3 in
  let l := (l + r) mod 2 ^ 32 in
  let r := r ^^ rotr32 l 2 in
  let l := (l + r) mod 2 ^ 32 in
  (l, r).

Definition words_of (l : list Z) : list Z :=
  map (λ i, le_word (slice l (4 * i) 4)) (seq 0 (length l / 4)).

(** 0x5a and between four and seven zeroes. *)
Definition michael_pad (m : list Z) : list Z := m ++ 0x5a :: zeros (7 - length m mod 4).

Definition michael (key m : list Z) : list Z :=
  let '(l, r) := foldl michael_block (le_word (take 4 key), le_word (drop 4 key))
                       (words_of (michael_pad m)) in
  le_bytes 4 l ++ le_bytes 4 r.

Lemma fits_mod w x : 0 <= w → fits w (x mod 2 ^ w).
Proof. intros H. unfold fits. apply Z.mod_pos_bound. lia. Qed.

Lemma rot_join a b n :
  0 <= n <= 32 → fits n b → (a <<32 n) .| b = (a * 2 ^ n) mod 2 ^ 32 + b.
Proof.
  intros Hn Hb. unfold u32. change 4294967296 with (2 ^ 32). rewrite Z.shiftl_mul_pow2 by lia.
  symmetry. rewrite Z.add_nocarry_lxor; [apply Z.lxor_lor|];
    apply Z.bits_inj'; intros i Hi; rewrite Z.land_spec, Z.bits_0;
    (destruct (decide (i < n)); [rewrite (Z.mod_pow2_bits_low _ 32) by lia;
       rewrite Z.mul_pow2_bits_low by lia; done|]);
    apply fits_bits in Hb as [_ Hb]; [rewrite Hb; [btauto|lia]|lia|rewrite Hb; [btauto|lia]|lia].
Qed.

Lemma ROL32_rotl A n : word A → 0 < n < 32 → ROL32 A n = rotl32 A n.
Proof.
  intros HA Hn. unfold ROL32, rotl32.
  assert (A >> (32 - n) = A / 2 ^ (32 - n)) as Hs by (apply Z.shiftr_div_pow2; lia).
  assert (fits n (A / 2 ^ (32 - n))) as Hf.
  { unfold fits in *. pose proof (Z.pow_pos_nonneg 2 (32 - n)). split; [apply Z.div_pos; lia|].
    apply Z.div_lt_upper_bound; [lia|]. rewrite <- Z.pow_add_r by lia.
    replace (32 - n + n) with 32 by lia. lia. }
  assert ((1 <<32 n) - 1 = Z.ones n) as ->.
  { rewrite Z.ones_equiv. unfold u32. rewrite Z.shiftl_1_l.
    pose proof (Z.pow_lt_mono_r 2 n 32). pose proof (Z.pow_pos_nonneg 2 n).
    rewrite Z.mod_small by lia. lia. }
  rewrite Hs, Z.land_ones by lia. rewrite (Z.mod_small _ (2 ^ n)) by exact Hf.
  apply rot_join; [lia|done].
Qed.

Lemma ROR32_rotr A n : word A → 0 < n < 32 → ROR32 A n = rotr32 A n.
Proof.
  intros HA Hn. unfold ROR32. rewrite ROL32_rotl by (done || lia). unfold rotl32, rotr32.
  replace (32 - (32 - n)) with n by lia. lia.
Qed.

Ltac fold_index :=
  repeat match goal with
  | |- context [?a - ?b] => let k := eval vm_compute in (a - b) in change (a - b) with k
  | |- context [?a + ?b] => let k := eval vm_compute in (a + b) in change (a + b) with k
  end.

Lemma below_32 i : 0 <= i < 32 → In i (map Z.of_nat (seq 0 32)).
Proof. intros H. apply in_map_iff. exists (Z.to_nat i). split; [lia|]. apply in_seq. lia. Qed.

Lemma testbit_word_high x i : word x → 32 <= i → Z.testbit x i = false.
Proof. intros [_ H]%fits_bits Hi; [by apply H|lia]. Qed.

Lemma xswap_eq x : word x → ((x & 0xff00ff00) >> 8) .| ((x & 0x00ff00ff) <<32 8) = xswap x.
Proof.
  intros Hx. assert (word (xswap x)) as Hs.
  { unfold xswap. apply (fits_le_word [_;_;_;_]). repeat constructor; apply bytes_get, bytes_le_bytes. }
  assert (word (((x & 0xff00ff00) >> 8) .| ((x & 0x00ff00ff) <<32 8))) as Hl by auto 10 with rt.
  apply Z.bits_inj'. intros i Hi. destruct (decide (i < 32)).
  2: { rewrite !testbit_word_high by (done || lia). done. }
  clear Hs Hl. unfold xswap, u32, get. cbn [le_bytes nth le_word].
  change 4294967296 with (2 ^ 32). rewrite Z.lor_spec, Z.mod_pow2_bits_low by lia.
  pose proof (below_32 i ltac:(lia)) as Hin. vm_compute in Hin.
  repeat destruct Hin as [<-|Hin]; [..|done];
    repeat (rewrite ?Z.lor_spec, ?Z.shiftr_spec, ?Z.land_spec, ?Z.shiftl_spec by lia; fold_index);
    rewrite ?Z.testbit_neg_r by lia; cbn; btauto.
Qed.

(** ** The byte accumulator *)

Definition words2 (s : Z * Z) : Prop := word s.1 ∧ word s.2.

Lemma process_word_block l r m :
  word l → word r → word m →
  process_word l r m = michael_block (l, r) m ∧ words2 (michael_block (l, r) m).
Proof.
  intros Hl Hr Hm. unfold process_word, michael_block.
  assert (∀ l r, word l → word r → word (r ^^ rotl32 l 17)) as A1.
  { intros. rewrite <- ROL32_rotl by (done || lia). unfold ROL32. auto 10 with rt. }
  assert (∀ l r, word l → word r → word (r ^^ rotl32 l 3)) as A2.
  { intros. rewrite <- ROL32_rotl by (done || lia). unfold ROL32. auto 10 with rt. }
  assert (∀ l r, word l → word r → word (r ^^ rotr32 l 2)) as A3.
  { intros. rewrite <- ROR32_rotr by (done || lia). unfold ROR32, ROL32. auto 10 with rt. }
  assert (∀ l r, word l → word r → word (r ^^ xswap l)) as A4.
  { intros. rewrite <- xswap_eq by done. auto 10 with rt. }
  assert (∀ x, word (x mod 2 ^ 32)) as A5 by (intros; apply fits_mod; lia).
  change (u32 ?x) with (x mod 2 ^ 32). unfold u32. change 4294967296 with (2 ^ 32).
  assert (word (l ^^ m)) as H0 by auto with rt. generalize dependent (l ^^ m). clear l Hl.
  intros l Hl. split.
  - rewrite !ROL32_rotl, ROR32_rotr, xswap_eq by auto 10 with lia. done.
  - split; cbn [fst snd]; auto 10.
Qed.

Lemma length_words_of l : length (words_of l) = (length l / 4)%nat.
Proof. unfold words_of. by rewrite length_map, length_seq. Qed.

Lemma div4_snoc n : ((n mod 4 ≠ 3 → S n / 4 = n / 4 ∧ S n mod 4 = S (n mod 4)) ∧
                     (n mod 4 = 3 → S n / 4 = S (n / 4) ∧ S n mod 4 = 0 ∧ n = 4 * (n / 4) + 3))%nat.
Proof.
  pose proof (Nat.div_mod n 4). pose proof (Nat.div_mod (S n) 4).
  pose proof (Nat.mod_upper_bound n 4). pose proof (Nat.mod_upper_bound (S n) 4). lia.
Qed.

Lemma words_of_snoc_part l b :
  (length l mod 4 ≠ 3)%nat → words_of (l ++ [b]) = words_of l.
Proof.
  intros H. unfold words_of. rewrite length_app. cbn [length]. rewrite Nat.add_1_r.
  destruct (div4_snoc (length l)) as [H1 _]. destruct (H1 H) as [-> _].
  apply map_ext_in. intros i [_ Hi]%in_seq. f_equal. unfold slice.
  pose proof (Nat.div_mod (length l) 4).
  rewrite drop_app_le, take_app_le by (rewrite ?length_drop; lia). done.
Qed.

Lemma words_of_snoc_full l b :
  (length l mod 4 = 3)%nat →
  words_of (l ++ [b]) = words_of l ++ [le_word (drop (4 * (length l / 4)) l ++ [b])].
Proof.
  intros H. unfold words_of. rewrite length_app. cbn [length]. rewrite Nat.add_1_r.
  destruct (div4_snoc (length l)) as [_ H1]. destruct (H1 H) as (-> & _ & Hn).
  rewrite seq_S, map_app. cbn [map]. f_equal.
  - apply map_ext_in. intros i [_ Hi]%in_seq. f_equal. unfold slice.
    rewrite drop_app_le, take_app_le by (rewrite ?length_drop; lia). done.
  - do 2 f_equal. unfold slice. rewrite drop_app_le by lia.
    apply take_ge. rewrite length_app, length_drop. cbn [length]. lia.
Qed.

(** The accumulator after the bytes [bs]. *)
Definition acc (s0 : Z * Z) (t : TKIP_KEY_INFO) (bs : list Z) : Prop :=
  nBytesInM t = Z.of_nat (length bs mod 4) ∧
  M t = le_word (drop (4 * (length bs / 4)) bs) ∧
  (L t, R t) = foldl michael_block s0 (words_of bs) ∧ word (L t) ∧ word (R t).

Lemma le_word_snoc l b :
  bytes l → byte b → (length l < 4)%nat →
  le_word (l ++ [b]) = le_word l .| (b <<32 (8 * Z.of_nat (length l))).
Proof.
  intros Hl Hb Hn. rewrite le_word_app by done. cbn [le_word].
  rewrite Z.shiftl_0_l, Z.lor_0_r.
  pose proof (fits_le_word l Hl) as Hf. rewrite Z.lor_comm.
  rewrite rot_join by (done || lia). rewrite Z.mod_small; [lia|].
  unfold fits in Hb. split; [apply Z.mul_nonneg_nonneg; [lia|apply Z.pow_nonneg; lia]|].
  apply Z.lt_le_trans with (2 ^ 8 * 2 ^ (8 * Z.of_nat (length l))).
  - apply Z.mul_lt_mono_pos_r; [apply Z.pow_pos_nonneg; lia|lia].
  - rewrite <- Z.pow_add_r by lia. apply Z.pow_le_mono_r; lia.
Qed.

Lemma acc_append s0 t bs b :
  acc s0 t bs → bytes bs → byte b → acc s0 (RTMPTkipAppendByte t b) (bs ++ [b]).
Proof.
  intros (Hn & Hm & Hs & HL & HR) Hbs Hb. unfold RTMPTkipAppendByte.
  set (rest := drop (4 * (length bs / 4)) bs) in *.
  assert (length rest = length bs mod 4)%nat as Hr.
  { unfold rest. rewrite length_drop. pose proof (Nat.div_mod (length bs) 4). lia. }
  pose proof (Nat.mod_upper_bound (length bs) 4) as Hlt.
  assert (bytes rest) as HBr by by apply Forall_drop.
  rewrite Hm, Hn, <- Hr, <- le_word_snoc by (done || lia).
  destruct (div4_snoc (length bs)) as [Hp Hf].
  destruct (Z.leb_spec 4 (Z.of_nat (length rest) + 1)) as [H4|H4].
  - assert (length bs mod 4 = 3)%nat as H3 by lia. destruct (Hf H3) as (Hd & Hmod & Hlen).
    assert (word (le_word (rest ++ [b]))) as Hw.
    { apply (fits_weaken (8 * Z.of_nat (length (rest ++ [b])))); [rewrite length_app; cbn [length]; lia|].
      apply fits_le_word, Forall_app. split; [done|]. by constructor. }
    destruct (process_word_block (L t) (R t) _ HL HR Hw) as [-> [W1 W2]].
    destruct (michael_block (L t, R t) _) as [l r] eqn:E. cbn [fst snd] in *.
    unfold acc, set_LRM. cbn [nBytesInM M L R].
    rewrite length_app. cbn [length]. rewrite Nat.add_1_r, Hmod, Hd. split_and!; try done.
    + rewrite drop_ge; [done|]. rewrite length_app. cbn [length]. lia.
    + rewrite words_of_snoc_full by done. fold rest. rewrite foldl_app. cbn [foldl].
      by rewrite <- Hs, E.
  - assert (length bs mod 4 ≠ 3)%nat as H3 by lia. destruct (Hp H3) as (Hd & Hmod).
    unfold acc, set_LRM. cbn [nBytesInM M L R].
    rewrite length_app. cbn [length]. rewrite Nat.add_1_r, Hmod, Hd. split_and!; try done.
    + lia.
    + f_equal. rewrite drop_app_le; [done|]. pose proof (Nat.div_mod (length bs) 4). lia.
    + by rewrite words_of_snoc_part.
Qed.

Lemma acc_appends s0 t bs cs :
  acc s0 t bs → bytes bs → bytes cs → acc s0 (RTMPTkipAppend t cs) (bs ++ cs).
Proof.
  unfold RTMPTkipAppend. intros Ht Hbs Hcs. revert t bs Ht Hbs.
  induction Hcs as [|c cs Hc Hcs IH]; intros t bs Ht Hbs; [by rewrite app_nil_r|].
  cbn [foldl]. replace (bs ++ c :: cs) with ((bs ++ [c]) ++ cs) by (by rewrite <- app_assoc).
  apply IH; [by apply acc_append|]. apply Forall_app. split; [done|]. by constructor.
Qed.

Lemma GetUInt32_le_word l off :
  bytes l → (off + 4 <= length l)%nat → RTMPTkipGetUInt32 l off = le_word (slice l off 4).
Proof.
  intros Hl Ho. rewrite slice_map_seq by done. unfold RTMPTkipGetUInt32, loop. cbn [seq foldl map].
  rewrite !Nat.add_0_r.
  assert (∀ i, byte l.[i]) as Hb by (intros i; by apply bytes_get).
  assert (∀ k i, 0 <= k <= 24 → l.[i] <<32 k = Z.shiftl l.[i] k) as Hs.
  { intros k i Hk. unfold u32. apply Z.mod_small. rewrite Z.shiftl_mul_pow2 by lia.
    destruct (Hb i) as [H0 H1]. pose proof (Z.pow_le_mono_r 2 k 24 ltac:(lia) ltac:(lia)).
    pose proof (Z.pow_pos_nonneg 2 k). split; [apply Z.mul_nonneg_nonneg; lia|].
    apply Z.lt_le_trans with (2 ^ 8 * 2 ^ 24); [|done]. nia. }
  rewrite !Hs by lia. cbn [le_word]. rewrite Z.shiftl_0_l, Z.lor_0_r, Z.lor_0_l.
  rewrite !Z.shiftl_lor, !Z.shiftl_shiftl by lia. rewrite Z.shiftl_0_r, !Z.lor_assoc. done.
Qed.

Lemma PutUInt32_le_bytes l off val :
  (off + 4 <= length l)%nat → RTMPTkipPutUInt32 l off val = put l off (le_bytes 4 val).
Proof.
  intros Ho. unfold RTMPTkipPutUInt32, loop. cbn [seq foldl fst le_bytes].
  rewrite Nat.add_0_r. rewrite <- !put_cons; rewrite ?length_insert; try lia.
  rewrite put_nil. replace (off + 1)%nat with (S off) by lia. replace (off + 2)%nat with (S (S off)) by lia.
  replace (off + 3)%nat with (S (S (S off))) by lia. done.
Qed.

Lemma acc_SetMICKey t key :
  bytes key → length key = 8%nat →
  acc (le_word (take 4 key), le_word (drop 4 key)) (RTMPTkipSetMICKey t key) [].
Proof.
  intros Hb Hl. unfold acc, RTMPTkipSetMICKey. cbn [nBytesInM M L R length].
  rewrite !GetUInt32_le_word by (done || lia).
  assert (slice key 4 4 = drop 4 key) as -> by (apply take_ge; rewrite length_drop; lia).
  change (slice key 0 4) with (take 4 key). split_and!; try done.
  - apply (fits_weaken (8 * Z.of_nat (length (take 4 key)))); [rewrite length_take; lia|].
    by apply fits_le_word, Forall_take.
  - apply (fits_weaken (8 * Z.of_nat (length (drop 4 key)))); [rewrite length_drop; lia|].
    by apply fits_le_word, Forall_drop.
Qed.

(** The padding loop ends after at most three zeroes. *)
Lemma padding_loop t :
  0 <= nBytesInM t <= 3 →
  while 4 (λ t, negb (nBytesInM t =? 0)) (λ t, RTMPTkipAppendByte t 0) t =
  Some (RTMPTkipAppend t (zeros (Z.to_nat ((4 - nBytesInM t) mod 4)))).
Proof.
  intros Hn.
  assert (∀ t, nBytesInM (RTMPTkipAppendByte t 0) = if 4 <=? nBytesInM t + 1 then 0 else nBytesInM t + 1) as H.
  { intros s. unfold RTMPTkipAppendByte. destruct (4 <=? _); [|done]. by destruct (process_word _ _ _). }
  assert (nBytesInM t = 0 ∨ nBytesInM t = 1 ∨ nBytesInM t = 2 ∨ nBytesInM t = 3) as Hc by lia.
  unfold RTMPTkipAppend.
  destruct Hc as [Hc|[Hc|[Hc|Hc]]]; cbn [while]; rewrite ?H, ?Hc; cbn; rewrite ?H, ?Hc; cbn;
    rewrite ?H, ?Hc; done.
Qed.

Lemma pad_length n : ((4 - (n + 5) mod 4) mod 4 + 4 = 7 - n mod 4)%nat.
Proof.
  pose proof (Nat.div_mod n 4). pose proof (Nat.mod_upper_bound n 4).
  pose proof (Nat.div_mod (n + 5) 4). pose proof (Nat.mod_upper_bound (n + 5) 4).
  pose proof (Nat.div_mod (4 - (n + 5) mod 4) 4). pose proof (Nat.mod_upper_bound (4 - (n + 5) mod 4) 4). lia.
Qed.

Lemma MIC_SetMICKey t key : MIC (RTMPTkipSetMICKey t key) = MIC t.
Proof. done. Qed.

Lemma MIC_Append l t : MIC (RTMPTkipAppend t l) = MIC t.
Proof.
  unfold RTMPTkipAppend. revert t. induction l as [|b l IH]; intros t; [done|]. cbn [foldl].
  rewrite IH. unfold RTMPTkipAppendByte. destruct (4 <=? _); [|done]. by destruct (process_word _ _ _).
Qed.

Lemma acc_GetMIC s0 t bs :
  acc s0 t bs → bytes bs → length (MIC t) = 8%nat →
  ∃ t', RTMPTkipGetMIC t = Some t' ∧
        MIC t' = let '(l, r) := foldl michael_block s0 (words_of (michael_pad bs)) in
                 le_bytes 4 l ++ le_bytes 4 r.
Proof.
  intros Ht Hbs HMIC. unfold RTMPTkipGetMIC.
  set (t5 := RTMPTkipAppendByte (RTMPTkipAppendByte _ _) _).
  assert (t5 = RTMPTkipAppend t [0x5a; 0; 0; 0; 0]) as E5 by done.
  assert (acc s0 t5 (bs ++ [0x5a; 0; 0; 0; 0])) as H5.
  { rewrite E5. apply acc_appends; [done..|bytes_table]. }
  assert (bytes (bs ++ [0x5a; 0; 0; 0; 0])) as HB5 by (apply Forall_app; split; [done|bytes_table]).
  assert (nBytesInM t5 = Z.of_nat ((length bs + 5) mod 4)) as Hn5.
  { destruct H5 as [-> _]. by rewrite length_app. }
  pose proof (Nat.mod_upper_bound (length bs + 5) 4).
  rewrite padding_loop by lia. cbn [mbind option_bind]. rewrite Hn5.
  set (k := Z.to_nat _). set (t6 := RTMPTkipAppend t5 (zeros k)).
  assert ((k + 4 = 7 - length bs mod 4)%nat) as Hk.
  { unfold k. rewrite <- pad_length. f_equal.
    replace (4 - Z.of_nat ((length bs + 5) mod 4)) with (Z.of_nat (4 - (length bs + 5) mod 4)) by lia.
    assert (∀ a, Z.of_nat a mod 4 = Z.of_nat (a mod 4)) as Hmod by (intros a; by rewrite Nat2Z.inj_mod).
    by rewrite Hmod, Nat2Z.id. }
  assert (acc s0 t6 (michael_pad bs)) as H6.
  { assert (michael_pad bs = (bs ++ [0x5a; 0; 0; 0; 0]) ++ zeros k) as ->.
    { unfold michael_pad. rewrite <- Hk, Nat.add_comm, <- app_assoc. done. }
    apply acc_appends; [done..|]. by apply fits_zeros. }
  eexists. split; [reflexivity|].
  assert (MIC t6 = MIC t) as HM6 by (unfold t6; by rewrite E5, !MIC_Append).
  destruct H6 as (_ & _ & HLR & _ & _). rewrite <- HLR. cbn [set_MIC MIC R].
  rewrite HM6. rewrite (PutUInt32_le_bytes (MIC t)) by lia.
  rewrite PutUInt32_le_bytes by (rewrite length_put; lia).
  change 4%nat with (0 + length (le_bytes 4 (L t6)))%nat at 2.
  rewrite put_put_adjacent by (rewrite !length_le_bytes; lia).
  rewrite put_splice by (rewrite length_app, !length_le_bytes; lia).
  rewrite take_0, drop_ge by (rewrite length_app, !length_le_bytes; lia). apply app_nil_r.
Qed.

(** From a key that has been set, any message in any pieces. *)
Lemma GetMIC_michael t key bs :
  acc (le_word (take 4 key), le_word (drop 4 key)) t bs → bytes bs → length (MIC t) = 8%nat →
  ∃ t', RTMPTkipGetMIC t = Some t' ∧ MIC t' = michael key bs.
Proof. intros H Hb HM. by apply acc_GetMIC. Qed.

(** The bytes Michael protects: addresses, priority and data. *)
Definition mic_message (da sa : list Z) (prio : Z) (body : list Z) : list Z :=
  da ++ sa ++ [prio; 0; 0; 0] ++ body.

Lemma le_bytes_4_byte x : byte x → le_bytes 4 x = [x; 0; 0; 0].
Proof.
  intros Hx. cbn [le_bytes]. rewrite !Z.shiftr_shiftr by lia.
  rewrite (shiftr_small x (8 + 8 + 8)), (shiftr_small x (8 + 8)), (shiftr_small x 8)
    by (unfold fits in Hx; lia).
  by rewrite land_255, Z.mod_small by (unfold fits in Hx; lia).
Qed.

Lemma bytes_mic_message da sa prio body :
  bytes da → bytes sa → byte prio → bytes body → bytes (mic_message da sa prio body).
Proof.
  intros. unfold mic_message. rewrite !Forall_app. split_and!; try done.
  constructor; [done|bytes_table].
Qed.

(** The engine after key, addresses and priority. *)
Lemma acc_InitMIC t key da sa prio :
  bytes key → length key = 8%nat → bytes da → length da = 6%nat → bytes sa → length sa = 6%nat →
  byte prio →
  acc (le_word (take 4 key), le_word (drop 4 key)) (RTMPInitMICEngine t da sa prio key)
      (mic_message da sa prio []).
Proof.
  intros Hk Hkl Hda Hdl Hsa Hsl Hp. unfold RTMPInitMICEngine, mic_message.
  rewrite (take_ge da), (take_ge sa) by lia. rewrite le_bytes_4_byte, !app_nil_r, !app_assoc by done.
  assert (bytes [prio; 0; 0; 0]) by (constructor; [done|bytes_table]).
  assert (bytes (da ++ sa)) by by apply Forall_app.
  apply acc_appends; [|done..]. apply acc_appends; [|done..].
  change da with ([] ++ da). apply acc_appends; [by apply acc_SetMICKey|done..].
Qed.

Lemma acc_message t key da sa prio body chunk :
  acc key t (mic_message da sa prio body) → bytes chunk → bytes da → bytes sa → byte prio →
  bytes body → acc key (RTMPTkipAppend t chunk) (mic_message da sa prio (body ++ chunk)).
Proof.
  intros. unfold mic_message. rewrite !(app_assoc _ body chunk), !app_assoc.
  apply acc_appends; [by rewrite <- !app_assoc| |done]. rewrite <- !app_assoc.
  by apply (bytes_mic_message da sa prio body).
Qed.

Lemma acc_first_chunk key t da sa prio chunk :
  acc key t (mic_message da sa prio []) → bytes chunk → bytes da → bytes sa → byte prio →
  acc key (RTMPTkipAppend t chunk) (mic_message da sa prio chunk).
Proof. intros. apply (acc_message t key da sa prio [] chunk); done. Qed.

Lemma MIC_InitMIC t da sa prio key : MIC (RTMPInitMICEngine t da sa prio key) = MIC t.
Proof. unfold RTMPInitMICEngine. by rewrite !MIC_Append. Qed.

(** appending a message to the Michael engine in any pieces, byte
    accumulator and padding loop included, terminates and yields the Michael
    value of IEEE 802.11 for the whole message. *)
Theorem RTMPTkipGetMIC_michael t key chunks :
  bytes key → length key = 8%nat → length (MIC t) = 8%nat → Forall (Forall (fits 8)) chunks →
  ∃ t', RTMPTkipGetMIC (foldl RTMPTkipAppend (RTMPTkipSetMICKey t key) chunks) = Some t' ∧
        MIC t' = michael key (concat chunks).
Proof.
  intros Hk Hkl HM Hc. apply GetMIC_michael.
  - change (concat chunks) with ([] ++ concat chunks).
    assert (bytes []) as Hb by constructor. revert Hb.
    pose proof (acc_SetMICKey t key Hk Hkl) as H0. revert H0.
    generalize (RTMPTkipSetMICKey t key) (@nil Z).
    induction Hc as [|c cs Hc Hcs IH]; intros s bs Hs Hbs; cbn [foldl concat]; [by rewrite app_nil_r|].
    rewrite app_assoc. apply IH; [by apply acc_appends|by apply Forall_app].
  - induction Hc as [|c cs Hc Hcs IH]; [constructor|]. cbn. by apply Forall_app.
  - revert HM. rewrite <- (MIC_SetMICKey t key). generalize (RTMPTkipSetMICKey t key). clear.
    induction chunks as [|c cs IH]; intros s HM; [done|]. apply IH. by rewrite MIC_Append.
Qed.

Definition tkip0 : TKIP_KEY_INFO :=
  {| nBytesInM := 0; IV16 := 0; IV32 := 0; K0 := 0; K1 := 0; L := 0; R := 0; M := 0;
     RC4KEY := zeros 16; MIC := zeros 8 |}.

(** The key is zero and the message is "M" in two pieces, one of them empty. *)
Lemma RTMPTkipGetMIC_michael_witness :
  ∃ t', RTMPTkipGetMIC (foldl RTMPTkipAppend (RTMPTkipSetMICKey tkip0 (zeros 8)) [[0x4d]; []]) = Some t' ∧
        MIC t' = michael (zeros 8) [0x4d].
Proof.
  apply (RTMPTkipGetMIC_michael tkip0 (zeros 8) [[0x4d]; []]);
    [bytes_table|reflexivity|reflexivity|repeat constructor; unfold fits; lia].
Defined.

Lemma InitMIC_fold t da sa prio key :
  RTMPTkipAppend (RTMPTkipAppend (RTMPTkipAppend (RTMPTkipSetMICKey t key) (take 6 da)) (take 6 sa))
    (le_bytes 4 prio) = RTMPInitMICEngine t da sa prio key.
Proof. unfold RTMPInitMICEngine. reflexivity. Qed.

Lemma CompareMIC_eq Rx body mic da sa key prio :
  bytes key → length key = 8%nat → bytes da → length da = 6%nat → bytes sa → length sa = 6%nat →
  byte prio → bytes body → length mic = 8%nat → length (MIC Rx) = 8%nat →
  ∃ Rx', RTMPTkipCompareMICValue Rx (body ++ mic) da sa key prio (Z.of_nat (length body)) =
         Some (bool_decide (michael key (mic_message da sa prio body) = mic), Rx').
Proof.
  intros Hk Hkl Hda Hdl Hsa Hsl Hp Hb Hm HR. unfold RTMPTkipCompareMICValue.
  rewrite InitMIC_fold, !load_ok, !Some_bind by (rewrite ?length_app; lia).
  rewrite Nat2Z.id. change (Z.to_nat 0) with 0%nat. change (Z.to_nat 8) with 8%nat.
  assert (slice (body ++ mic) 0 (length body) = body) as -> by apply take_app_length.
  assert (slice (body ++ mic) (length body) 8 = mic) as ->.
  { unfold slice. rewrite drop_app_length. apply take_ge. lia. }
  destruct (GetMIC_michael (RTMPTkipAppend (RTMPInitMICEngine Rx da sa prio key) body) key
    (mic_message da sa prio body)) as (t' & -> & <-).
  - apply acc_first_chunk; try done. by apply acc_InitMIC.
  - by apply bytes_mic_message.
  - by rewrite MIC_Append, MIC_InitMIC.
  - by exists t'.
Qed.

(** ** The MIC of an Ethernet packet *)

(** The bytes that are protected besides the payload. *)
Definition llc_bytes (encap : option (list Z)) (proto : list Z) : list Z :=
  match encap with Some llc => take 6 llc ++ proto | None => [] end.

(** An untagged header (14 bytes) or one with a VLAN tag (18 bytes). *)
Definition vlan_ok (tag proto : list Z) : Prop :=
  (tag = [] ∧ Z.shiftl proto.[0] 8 + proto.[1] ≠ 0x8100) ∨
  (length tag = 4%nat ∧ take 2 tag = [0x81; 0]).

Lemma CalculateMIC_eq Tx da sa tag proto payload prio encap k :
  key_wf k → bytes da → length da = 6%nat → bytes sa → length sa = 6%nat → byte prio →
  bytes tag → bytes proto → length proto = 2%nat → vlan_ok tag proto → bytes payload →
  (∀ llc, encap = Some llc → bytes llc ∧ (6 <= length llc)%nat) →
  Z.of_nat (length payload) < 2 ^ 32 → length (MIC Tx) = 8%nat →
  let pkt := da ++ sa ++ tag ++ proto ++ payload in
  ∃ Tx', RTMPCalculateMICValue Tx pkt (Z.of_nat (length pkt)) prio encap k = Some Tx' ∧
         MIC Tx' = michael (TxMic k) (mic_message da sa prio (llc_bytes encap proto ++ payload)).
Proof.
  intros (_ & _ & Hkl & Hk & _) Hda Hdl Hsa Hsl Hp Htag Hpr Hprl Hvlan Hpay Henc Hlen HM pkt.
  assert (length pkt = 14 + length tag + length payload)%nat as HL
    by (unfold pkt; rewrite !length_app; lia).
  assert (length (da ++ sa) = 12%nat) as H12 by (rewrite length_app; lia).
  assert (slice pkt 0 6 = da) as Eda.
  { unfold pkt. rewrite slice_app_l by lia. by apply slice_all. }
  assert (slice pkt 6 6 = sa) as Esa.
  { unfold pkt. rewrite <- Hdl at 1. rewrite <- (Nat.add_0_r (length da)), slice_app_r.
    rewrite slice_app_l by lia. by apply slice_all. }
  assert (∀ off n, slice pkt (12 + off) n = slice (tag ++ proto ++ payload) off n) as E12.
  { intros. unfold pkt. rewrite app_assoc, <- H12. apply slice_app_r. }
  set (voff := if decide (tag = []) then 0 else 4).
  assert (voff = Z.of_nat (length tag)) as Hvoff.
  { unfold voff. destruct Hvlan as [[E _]|[H4 _]]; case_decide as HE; try done; [by rewrite E|by rewrite HE in H4|lia]. }
  unfold RTMPCalculateMICValue. rewrite load_ok by lia. cbn [mbind option_bind].
  change (Z.to_nat 12) with (12 + 0)%nat. change (Z.to_nat 2) with 2%nat. rewrite E12.
  assert ((if Z.shiftl (slice (tag ++ proto ++ payload) 0 2).[0] 8 +
      (slice (tag ++ proto ++ payload) 0 2).[1] =? 0x8100 then 4 else 0) = voff) as ->.
  { unfold voff. destruct Hvlan as [[E Hne]|[H4 H81]].
    - rewrite E. cbn [app]. rewrite slice_app_l, slice_all by lia. rewrite decide_True by done.
      by destruct (Z.eqb_spec (Z.shiftl proto.[0] 8 + proto.[1]) 0x8100).
    - rewrite slice_app_l by lia. unfold slice. rewrite drop_0, H81, decide_False by (intros HE; by rewrite HE in H4).
      done. }
  rewrite Eda, Esa, Hvoff.
  pose proof (acc_InitMIC Tx (TxMic k) da sa prio Hk Hkl Hda Hdl Hsa Hsl Hp) as H0.
  set (T0 := RTMPInitMICEngine Tx da sa prio (TxMic k)) in *.
  assert (length (MIC T0) = 8%nat) as HM0 by (unfold T0; by rewrite MIC_InitMIC).
  assert (∃ T1, (match encap with
       | Some llc =>
           llc ← load llc 0 6;
           proto ← load pkt (12 + Z.of_nat (length tag)) 2;
           Some (RTMPTkipAppend (RTMPTkipAppend T0 llc) proto)
       | None => Some T0
       end) = Some T1 ∧ length (MIC T1) = 8%nat ∧
       acc (le_word (take 4 (TxMic k)), le_word (drop 4 (TxMic k))) T1
         (mic_message da sa prio (llc_bytes encap proto))) as (T1 & -> & HM1 & H1).
  { destruct encap as [llc|]; [|by exists T0]. destruct (Henc llc eq_refl) as [Hllc Hllcl].
    rewrite !load_ok by lia. cbn [mbind option_bind].
    replace (Z.to_nat (12 + Z.of_nat (length tag))) with (12 + (length tag + 0))%nat by lia.
    rewrite E12, slice_app_r. change (Z.to_nat 2) with 2%nat.
    rewrite slice_app_l, (slice_all proto) by lia.
    eexists. split; [reflexivity|]. split; [by rewrite !MIC_Append|].
    change (slice llc (Z.to_nat 0) (Z.to_nat 6)) with (take 6 llc). cbn [llc_bytes].
    apply acc_message; [|done..|by apply Forall_take].
    apply acc_first_chunk; try done. by apply Forall_take. }
  cbn [mbind option_bind].
  assert (u32 (Z.of_nat (length pkt) - (14 + Z.of_nat (length tag))) = Z.of_nat (length payload)) as ->.
  { unfold u32. rewrite Z.mod_small; lia. }
  assert (∃ T2, (if 0 <? Z.of_nat (length payload) then
      d ← load pkt (14 + Z.of_nat (length tag)) (Z.of_nat (length payload));
      Some (RTMPTkipAppend T1 d) else Some T1) = Some T2 ∧ length (MIC T2) = 8%nat ∧
       acc (le_word (take 4 (TxMic k)), le_word (drop 4 (TxMic k))) T2
         (mic_message da sa prio (llc_bytes encap proto ++ payload))) as (T2 & -> & HM2 & H2).
  { destruct (Z.ltb_spec 0 (Z.of_nat (length payload))).
    - rewrite load_ok by lia. cbn [mbind option_bind]. rewrite Nat2Z.id.
      replace (Z.to_nat (14 + Z.of_nat (length tag))) with (12 + (length tag + (length proto + 0)))%nat by lia.
      rewrite E12, !slice_app_r, slice_all by done.
      eexists. split; [reflexivity|]. split; [by rewrite !MIC_Append|].
      apply acc_message; try done. unfold llc_bytes. destruct encap as [llc|]; [|done].
      destruct (Henc llc eq_refl). apply Forall_app. split; [by apply Forall_take|done].
    - assert (payload = []) as Hnil by (apply nil_length_inv; lia).
      rewrite Hnil, app_nil_r. by exists T1. }
  cbn [mbind option_bind]. apply GetMIC_michael; [done| |done].
  apply bytes_mic_message; try done. apply Forall_app. split; [|done].
  unfold llc_bytes. destruct encap as [llc|]; [|done].
  destruct (Henc llc eq_refl). apply Forall_app. split; [by apply Forall_take|done].
Qed.

(** ** Key mixing as IEEE 802.11 defines it

    All quantities are 16-bit words; the S-box is made from the AES one. *)

Definition lo8 (x : Z) : Z := x mod 256.
Definition hi8 (x : Z) : Z := (x / 256) mod 256.
Definition lo16 (x : Z) : Z := x mod 65536.
Definition mk16 (hi lo : Z) : Z := 256 * hi + lo.

Definition sbox16 (v : Z) : Z :=
  let s := affine (ginv (lo8 v)) in
  let t := affine (ginv (hi8 v)) in
  mk16 (gmul 2 s) (gmul 3 s) ^^ mk16 (gmul 3 t) (gmul 2 t).

Definition rot_r1 (v : Z) : Z := v / 2 + 32768 * (v mod 2).

Definition ttak_round (TK : list Z) (i : nat) (t : Z * Z * Z * Z * Z) : Z * Z * Z * Z * Z :=
  let '(t0, t1, t2, t3, t4) := t in
  let j := if Nat.even i then 0%nat else 2%nat in
  let t0 := lo16 (t0 + sbox16 (t4 ^^ mk16 TK.[1 + j] TK.[j])) in
  let t1 := lo16 (t1 + sbox16 (t0 ^^ mk16 TK.[5 + j] TK.[4 + j])) in
  let t2 := lo16 (t2 + sbox16 (t1 ^^ mk16 TK.[9 + j] TK.[8 + j])) in
  let t3 := lo16 (t3 + sbox16 (t2 ^^ mk16 TK.[13 + j] TK.[12 + j])) in
  let t4 := lo16 (t4 + sbox16 (t3 ^^ mk16 TK.[1 + j] TK.[j]) + Z.of_nat i) in
  (t0, t1, t2, t3, t4).

Definition tkip_phase1 (TK TA : list Z) (IV32 : Z) : Z * Z * Z * Z * Z :=
  loop 0 8 (ttak_round TK)
    (lo16 IV32, lo16 (IV32 / 65536), mk16 TA.[1] TA.[0], mk16 TA.[3] TA.[2], mk16 TA.[5] TA.[4]).

Definition tkip_phase2 (TK : list Z) (t : Z * Z * Z * Z * Z) (IV16 : Z) : list Z :=
  let '(t0, t1, t2, t3, t4) := t in
  let p0 := t0 in let p1 := t1 in let p2 := t2 in let p3 := t3 in let p4 := t4 in
  let p5 := lo16 (t4 + IV16) in
  let p0 := lo16 (p0 + sbox16 (p5 ^^ mk16 TK.[1] TK.[0])) in
  let p1 := lo16 (p1 + sbox16 (p0 ^^ mk16 TK.[3] TK.[2])) in
  let p2 := lo16 (p2 + sbox16 (p1 ^^ mk16 TK.[5] TK.[4])) in
  let p3 := lo16 (p3 + sbox16 (p2 ^^ mk16 TK.[7] TK.[6])) in
  let p4 := lo16 (p4 + sbox16 (p3 ^^ mk16 TK.[9] TK.[8])) in
  let p5 := lo16 (p5 + sbox16 (p4 ^^ mk16 TK.[11] TK.[10])) in
  let p0 := lo16 (p0 + rot_r1 (p5 ^^ mk16 TK.[13] TK.[12])) in
  let p1 := lo16 (p1 + rot_r1 (p0 ^^ mk16 TK.[15] TK.[14])) in
  let p2 := lo16 (p2 + rot_r1 p1) in
  let p3 := lo16 (p3 + rot_r1 p2) in
  let p4 := lo16 (p4 + rot_r1 p3) in
  let p5 := lo16 (p5 + rot_r1 p4) in
  [hi8 IV16; (hi8 IV16 .| 0x20) & 0x7f; lo8 IV16; lo8 ((p5 ^^ mk16 TK.[1] TK.[0]) / 2);
   lo8 p0; hi8 p0; lo8 p1; hi8 p1; lo8 p2; hi8 p2; lo8 p3; hi8 p3; lo8 p4; hi8 p4; lo8 p5; hi8 p5].

Lemma Tkip_Sbox_entries b :
  byte b → Tkip_Sbox_Upper.[Z.to_nat b] = gmul 2 (affine (ginv b)) ∧
           Tkip_Sbox_Lower.[Z.to_nat b] = gmul 3 (affine (ginv b)).
Proof. intros Hb. split; by_all_bytes b Hb. Qed.

Lemma tkip_sbox_sbox16 v : tkip_sbox v = sbox16 v.
Proof.
  unfold tkip_sbox, sbox16, lo8, hi8, mk16. rewrite Z.shiftr_div_pow2 by lia. change (2 ^ 8) with 256.
  destruct (Tkip_Sbox_entries (v mod 256)) as [-> ->]; [apply fits_u8|].
  destruct (Tkip_Sbox_entries ((v / 256) mod 256)) as [-> ->]; [apply fits_u8|].
  f_equal; lia.
Qed.

Lemma lo16_lxor a b : lo16 (a ^^ b) = lo16 (lo16 a ^^ b).
Proof.
  unfold lo16. change 65536 with (2 ^ 16). rewrite <- !Z.land_ones by lia.
  apply Z.bits_inj'. intros i Hi. rewrite !Z.land_spec, !Z.lxor_spec, !Z.land_spec. btauto.
Qed.

Lemma lo8_lo16 a : lo8 (lo16 a) = lo8 a.
Proof. unfold lo8, lo16. change 65536 with (256 * 256). apply Z.mod_mod_divide. by exists 256. Qed.

Lemma hi8_lo16 a : hi8 (lo16 a) = hi8 a.
Proof.
  unfold hi8, lo16. change 65536 with (2 ^ 16). change 256 with (2 ^ 8).
  rewrite <- !Z.land_ones, <- !Z.shiftr_div_pow2 by lia. apply Z.bits_inj'. intros i Hi.
  rewrite !Z.land_spec, !Z.shiftr_spec, Z.land_spec by lia. destruct (decide (i < 8)).
  - rewrite !Z.ones_spec_low by lia. btauto.
  - rewrite (Z.ones_spec_high 8 i) by lia. btauto.
Qed.

Lemma sbox16_lo16 v : sbox16 (lo16 v) = sbox16 v.
Proof. unfold sbox16. by rewrite lo8_lo16, hi8_lo16. Qed.

Lemma sbox16_lxor a b : sbox16 (a ^^ b) = sbox16 (lo16 a ^^ b).
Proof. by rewrite <- sbox16_lo16, lo16_lxor, sbox16_lo16. Qed.

Lemma lo16_idem a : lo16 (lo16 a) = lo16 a.
Proof. apply Z.mod_mod. lia. Qed.

Lemma lo16_add a b : lo16 (a + b) = lo16 (lo16 a + b).
Proof. unfold lo16. by rewrite Zplus_mod_idemp_l. Qed.

Lemma lo16_u32 a : lo16 (u32 a) = lo16 a.
Proof. unfold lo16, u32. apply Z.mod_mod_divide. by exists 65536. Qed.

Lemma rotr1_rot v : 0 <= v → rotr1 v = rot_r1 (lo16 v).
Proof.
  intros Hv. unfold rotr1, rot_r1, lo16.
  change 0x01 with (Z.ones 1). rewrite Z.land_ones by lia. change (2 ^ 1) with 2.
  assert ((v mod 65536) mod 2 = v mod 2) as Hm.
  { apply Z.mod_mod_divide. by exists 32768. }
  rewrite Hm. pose proof (Z.mod_pos_bound v 2). change (Z.ones 1) with 1.
  assert (∀ x, 0 <= x → (x >> 1) & 0x7fff = (x mod 65536) / 2) as Ha.
  { intros x Hx. change 0x7fff with (Z.ones 15). rewrite Z.land_ones, Z.shiftr_div_pow2 by lia.
    change (2 ^ 1) with 2. pose proof (Z.div_mod x 65536). pose proof (Z.mod_pos_bound x 65536).
    set (q := x / 65536) in *. set (r := x mod 65536) in *.
    replace x with (q * 32768 * 2 + r) by lia. rewrite Z.div_add_l by lia.
    change (2 ^ 15) with 32768. rewrite Z.add_comm, Z.mod_add by lia.
    apply Z.mod_small. split; [apply Z.div_pos; lia|apply Z.div_lt_upper_bound; lia]. }
  destruct (Z.eqb_spec (v mod 2) 1) as [H1|H1].
  - rewrite H1, <- Ha by done. change 65536 with (2 ^ 16). rewrite <- Z.land_ones by lia.
    rewrite (Z.add_comm _ (_ * _)), <- (Z.lor_comm 0x8000).
    rewrite Z.add_nocarry_lxor, Z.lxor_lor.
    + apply Z.bits_inj'. intros i Hi. rewrite Z.land_spec, !Z.lor_spec, Z.land_spec.
      change 0x8000 with (2 ^ 15). change (2 ^ 15 * 1) with (2 ^ 15). change 0x7fff with (Z.ones 15).
      rewrite Z.pow2_bits_eqb by lia. destruct (Z.eqb_spec 15 i).
      * rewrite Z.ones_spec_low by lia. btauto.
      * destruct (decide (i < 15)); [rewrite !Z.ones_spec_low by lia
          |rewrite !Z.ones_spec_high by lia]; btauto.
    + apply Z.bits_inj'. intros i Hi. rewrite !Z.land_spec, Z.bits_0.
      change (0x8000 * 1) with (2 ^ 15). change 0x7fff with (Z.ones 15). rewrite Z.pow2_bits_eqb by lia.
      destruct (Z.eqb_spec 15 i); [rewrite Z.ones_spec_high by lia|]; btauto.
    + apply Z.bits_inj'. intros i Hi. rewrite !Z.land_spec, Z.bits_0.
      change (0x8000 * 1) with (2 ^ 15). change 0x7fff with (Z.ones 15). rewrite Z.pow2_bits_eqb by lia.
      destruct (Z.eqb_spec 15 i); [rewrite Z.ones_spec_high by lia|]; btauto.
  - rewrite Ha by done. replace (v mod 2) with 0 by lia. rewrite Z.add_0_r. apply Z.mod_small.
    pose proof (Z.mod_pos_bound v 65536). split; [apply Z.div_pos; lia|apply Z.div_lt_upper_bound; lia].
Qed.

Definition ttak_list (t : Z * Z * Z * Z * Z) : list Z :=
  let '(t0, t1, t2, t3, t4) := t in [t0; t1; t2; t3; t4].

Lemma land_1_even i : (2 * Nat.land i 1 = if Nat.even i then 0 else 2)%nat.
Proof.
  change 1%nat with (Nat.ones 1). rewrite Nat.land_ones. change (2 ^ 1)%nat with 2%nat.
  rewrite <- Nat.negb_odd. pose proof (Nat.div2_odd i). rewrite Nat.div2_div in *.
  pose proof (Nat.div_mod i 2). destruct (Nat.odd i); cbn [negb Nat.b2n] in *; lia.
Qed.

Lemma get_cons_0 x l : (x :: l).[0] = x.
Proof. done. Qed.

Lemma get_cons_S x l i : (x :: l).[S i] = l.[i].
Proof. done. Qed.

Lemma phase1_step_round TK i t : phase1_step TK i (ttak_list t) = ttak_list (ttak_round TK i t).
Proof.
  destruct t as [[[[t0 t1] t2] t3] t4]. unfold phase1_step. rewrite land_1_even.
  unfold ttak_round, key16, mk16. assert (∀ x, x mod 65536 = lo16 x) as Hlo by done. rewrite !Hlo.
  set (j := if Nat.even i then 0%nat else 2%nat). unfold ttak_list.
  repeat (cbn [insert list_insert]; rewrite ?get_cons_S, ?get_cons_0).
  rewrite !tkip_sbox_sbox16, !sbox16_lo16. by rewrite <- lo16_add.
Qed.

Lemma RTMPTkipMixKey_phase1 key ta pnh p1k :
  length p1k = 5%nat →
  loop 0 8 (phase1_step key)
    ((((p1k.[0 <- pnh mod 65536]).[1 <- (pnh >> 16) mod 65536]).[2 <- ta.[0] + ta.[1] * 256])
       .[3 <- ta.[2] + ta.[3] * 256]).[4 <- ta.[4] + ta.[5] * 256] =
  ttak_list (tkip_phase1 key ta pnh).
Proof.
  intros Hl. destruct p1k as [|a [|b [|c [|d [|e [|]]]]]]; try discriminate Hl.
  unfold tkip_phase1. apply (loop_sim (λ l t, l = ttak_list t)).
  - cbn [insert list_insert ttak_list]. unfold mk16. rewrite Z.shiftr_div_pow2 by lia.
    change (2 ^ 16) with 65536. unfold lo16.
    assert (∀ a b, a + b * 256 = 256 * b + a) as Hc by lia. by rewrite !Hc.
  - intros i l t _ ->. apply phase1_step_round.
Qed.

Lemma key16_nonneg key i j : bytes key → 0 <= key16 key i j.
Proof.
  intros H. pose proof (bytes_get key i H) as Hi. pose proof (bytes_get key j H) as Hj.
  unfold fits in *. unfold key16. lia.
Qed.

Lemma lxor_nonneg a b : 0 <= a → 0 <= b → 0 <= a ^^ b.
Proof. intros. apply Z.lxor_nonneg. lia. Qed.

Lemma u32_nonneg a : 0 <= u32 a.
Proof. apply Z.mod_pos_bound. lia. Qed.

Lemma mod256_lo8_lo16 a : a mod 256 = lo8 (lo16 a).
Proof. by rewrite lo8_lo16. Qed.

Lemma shr8_hi8_lo16 a : (a >> 8) mod 256 = hi8 (lo16 a).
Proof. rewrite hi8_lo16. unfold hi8. by rewrite Z.shiftr_div_pow2 by lia. Qed.

Lemma lo8_half_lo16 a : lo8 (lo16 a / 2) = lo8 (a / 2).
Proof.
  unfold lo8, lo16. change 65536 with (2 ^ 16). change 256 with (2 ^ 8).
  change (?x / 2) with (x / 2 ^ 1). rewrite <- !Z.land_ones, <- !Z.shiftr_div_pow2 by lia.
  apply Z.bits_inj'. intros i Hi. rewrite !Z.land_spec, !Z.shiftr_spec, Z.land_spec by lia.
  destruct (decide (i < 8)); [rewrite (Z.ones_spec_low 16) by lia
    |rewrite (Z.ones_spec_high 8) by lia]; btauto.
Qed.

(** One addition of phase 2, seen through its low 16 bits. *)
Lemma ppk_sbox p q p' q' k :
  lo16 p = p' → lo16 q = q' →
  lo16 (p +32 tkip_sbox ((q ^^ k) mod 65536)) = lo16 (p' + sbox16 (q' ^^ k)).
Proof.
  intros <- <-. rewrite lo16_u32, lo16_add, tkip_sbox_sbox16. fold (lo16 (q ^^ k)).
  by rewrite sbox16_lo16, sbox16_lxor.
Qed.

Lemma ppk_rot p q p' q' : 0 <= q → lo16 p = p' → lo16 q = q' → lo16 (p +32 rotr1 q) = lo16 (p' + rot_r1 q').
Proof. intros Hq <- <-. by rewrite lo16_u32, lo16_add, rotr1_rot. Qed.

Lemma lo16_lxor_key q q' key i j :
  bytes key → lo16 q = q' → lo16 (q ^^ key16 key i j) = q' ^^ mk16 key.[i] key.[j].
Proof.
  intros Hk <-. unfold key16, mk16. rewrite lo16_lxor. apply Z.mod_small.
  pose proof (bytes_get key i Hk) as Hi. pose proof (bytes_get key j Hk) as Hj.
  assert (fits 16 (lo16 q)) by (apply (fits_mod 16); lia).
  assert (fits 16 (256 * key.[i] + key.[j])) by (unfold fits in *; lia).
  by apply (fits_lxor 16).
Qed.

Lemma tkip_phase1_lo16 TK TA IV32 :
  let '(t0, t1, t2, t3, t4) := tkip_phase1 TK TA IV32 in
  lo16 t0 = t0 ∧ lo16 t1 = t1 ∧ lo16 t2 = t2 ∧ lo16 t3 = t3 ∧ lo16 t4 = t4.
Proof.
  unfold tkip_phase1. rewrite loop_snoc. destruct (loop 0 7 _ _) as [[[[t0 t1] t2] t3] t4].
  unfold ttak_round. by rewrite !lo16_idem.
Qed.

Lemma shr1_lo8_lo16 a : (a >> 1) mod 256 = lo8 (lo16 a / 2).
Proof. rewrite lo8_half_lo16. unfold lo8. by rewrite Z.shiftr_div_pow2 by lia. Qed.

Lemma RTMPTkipMixKey_eq key ta pnl pnh p1k :
  bytes key → length p1k = 5%nat →
  RTMPTkipMixKey key ta pnl pnh p1k =
  (tkip_phase2 key (tkip_phase1 key ta pnh) (lo16 pnl), ttak_list (tkip_phase1 key ta pnh)).
Proof.
  intros Hk Hl. unfold RTMPTkipMixKey. rewrite RTMPTkipMixKey_phase1 by done.
  pose proof (tkip_phase1_lo16 key ta pnh) as H.
  destruct (tkip_phase1 key ta pnh) as [[[[t0 t1] t2] t3] t4].
  destruct H as (H0 & H1 & H2 & H3 & H4).
  cbn [ttak_list]. rewrite ?get_cons_S, ?get_cons_0. fold (lo16 (t4 + pnl mod 65536)).
  fold (lo16 pnl). set (iv := lo16 pnl).
  assert (Hq : ∀ a, 0 <= u32 a) by apply u32_nonneg.
  unfold tkip_phase2. f_equal.
  assert ((iv >> 8) mod 256 = hi8 iv) as ->.
  { unfold hi8. by rewrite Z.shiftr_div_pow2 by lia. }
  rewrite !shr8_hi8_lo16, !shr1_lo8_lo16, !mod256_lo8_lo16.
  assert (lo16 (lo16 (t4 + iv)) = lo16 (t4 + iv)) as H5 by apply lo16_idem.
  assert (lo16 iv = iv) as Hiv by apply lo16_idem. rewrite Hiv.
  repeat first [ reflexivity | assumption | apply Hq | apply lxor_nonneg | by apply key16_nonneg
    | apply ppk_rot | apply ppk_sbox | apply lo16_lxor_key; [done|]
    | match goal with
      | |- _ :: _ = _ :: _ => f_equal | |- lo8 _ = lo8 _ => f_equal
      | |- hi8 _ = hi8 _ => f_equal | |- _ / 2 = _ / 2 => f_equal
      end ].
Qed.

(** C40: [RTMPTkipMixKey] computes the two-phase key mixing of IEEE 802.11
    on 16-bit words: the phase 1 key it leaves and the RC4 key are those of
    the standard, although phase 2 runs in 32-bit variables that are never
    reduced, and its S-box tables are the doubled and tripled AES S-box. *)
Theorem RTMPTkipMixKey_correct key ta pnl pnh p1k :
  bytes key → length p1k = 5%nat →
  RTMPTkipMixKey key ta pnl pnh p1k =
  (tkip_phase2 key (tkip_phase1 key ta pnh) (lo16 pnl), ttak_list (tkip_phase1 key ta pnh)).
Proof. apply RTMPTkipMixKey_eq. Qed.

(** The test vector of IEEE 802.11, annex on TKIP. *)
Lemma RTMPTkipMixKey_correct_witness :
  bytes (seqZ 0 16) ∧
  RTMPTkipMixKey (seqZ 0 16) [0x10; 0x22; 0x33; 0x44; 0x55; 0x66] 0 0 (zeros 5) =
    ([0x00; 0x20; 0x00; 0x33; 0xEA; 0x8D; 0x2F; 0x60; 0xCA; 0x6D; 0x13; 0x74; 0x23; 0x4A; 0x66; 0x0B],
     [0x3DD2; 0x016E; 0x76F4; 0x8697; 0xB2E8]).
Proof.
  assert (bytes (seqZ 0 16)) as H by bytes_table. split; [exact H|].
  rewrite RTMPTkipMixKey_correct by (exact H || reflexivity). vm_compute. reflexivity.
Defined.

(** ** Opening a TKIP frame *)

(** The RC4 context of a frame from its IV header [iv], the key and the
    transmitter address. *)
Definition tkip_ctx (iv TA : list Z) (k : CIPHER_KEY) : ARC4_CTX_STRUC :=
  ARC4_INIT (tkip_phase2 (Key k) (tkip_phase1 (Key k) TA (le_word (slice iv 4 4)))
                         (mk16 iv.[0] iv.[2])) 16.

Lemma tkip_ctx_eq iv TA k :
  ARC4_INIT (tkip_phase2 (Key k) (tkip_phase1 (Key k) TA (le_word (slice iv 4 4)))
                         (mk16 iv.[0] iv.[2])) 16 = tkip_ctx iv TA k.
Proof. unfold tkip_ctx. reflexivity. Qed.

(** The protected form of the data [d]. *)
Definition tkip_plain (key da sa : list Z) (prio : Z) (d : list Z) : list Z :=
  let dm := d ++ michael key (mic_message da sa prio d) in
  dm ++ le_bytes 4 (crc32 dm).

Definition tkip_seal (iv TA : list Z) (k : CIPHER_KEY) (da sa : list Z) (prio : Z) (d : list Z) : list Z :=
  let p := tkip_plain (RxMic k) da sa prio d in xorl p (keystream (tkip_ctx iv TA k) (length p)).

Definition tkip_open (iv TA : list Z) (k : CIPHER_KEY) (c : list Z) : list Z :=
  xorl c (keystream (tkip_ctx iv TA k) (length c)).

(** The address fields of data frames in IEEE 802.11: which of the four hold the
    transmitter, the destination and the source, by the bits To DS and From DS,
    the two lowest ones of the second byte of the header. *)
Definition address_fields (to_ds from_ds : bool) : nat * nat * nat :=
  match to_ds, from_ds with
  | false, false => (2, 1, 2)%nat
  | false, true => (2, 1, 3)%nat
  | true, false => (2, 3, 2)%nat
  | true, true => (2, 3, 4)%nat
  end.

(** Address 1 to 3 follow the duration, address 4 the sequence control. *)
Definition address (pHdr : list Z) (i : nat) : list Z :=
  slice pHdr (match i with 1 => 4 | 2 => 10 | 3 => 16 | _ => 24 end)%nat 6.

(** Transmitter, destination and source of a header. *)
Definition hdr_addresses (pHdr : list Z) : list Z * list Z * list Z :=
  let '(ta, da, sa) := address_fields (Z.testbit pHdr.[1] 0) (Z.testbit pHdr.[1] 1) in
  (address pHdr ta, address pHdr da, address pHdr sa).

Lemma frame_addresses_hdr pHdr :
  frame_addresses pHdr (pHdr.[1] & 0x1) ((pHdr.[1] & 0x2) >> 1) = hdr_addresses pHdr.
Proof.
  assert (∀ x, x & 1 = Z.b2z (Z.testbit x 0)) as H.
  { intros x. change 1 with (Z.ones 1) at 1. rewrite Z.land_ones by lia. change (2 ^ 1) with 2. by rewrite Z.bit0_mod. }
  rewrite Z.shiftr_land. change (2 >> 1) with 1. rewrite !H, Z.shiftr_spec by lia.
  unfold frame_addresses, hdr_addresses, address_fields, address. change (0 + 1) with 1.
  by destruct (Z.testbit _ 0), (Z.testbit _ 1).
Qed.

Lemma hdr_addresses_wf pHdr TA DA SA :
  bytes pHdr → (30 <= length pHdr)%nat → hdr_addresses pHdr = (TA, DA, SA) →
  bytes TA ∧ length TA = 6%nat ∧ bytes DA ∧ length DA = 6%nat ∧ bytes SA ∧ length SA = 6%nat.
Proof.
  intros Hb Hl. unfold hdr_addresses, address_fields, address.
  destruct (Z.testbit _ 0), (Z.testbit _ 1); intros [= <- <- <-]; split_and!; try (apply length_slice; lia);
    apply bytes_slice; done.
Qed.

Lemma tkip_iv16 iv :
  bytes iv → lo16 (Z.shiftl iv.[0] 8 .| iv.[2]) = mk16 iv.[0] iv.[2].
Proof.
  intros Hb. pose proof (bytes_get iv 0 Hb) as H0. pose proof (bytes_get iv 2 Hb) as H2.
  rewrite Z.lor_comm, lor_shift_add by done. unfold lo16, mk16, fits in *. rewrite Z.mod_small; lia.
Qed.

Lemma length_tkip_open iv TA k c : length (tkip_open iv TA k c) = length c.
Proof. unfold tkip_open. rewrite length_xorl; by rewrite ?length_keystream. Qed.

Lemma bytes_tkip_open iv TA k c : bytes c → bytes (tkip_open iv TA k c).
Proof. intros H. apply xorl_bytes; [done|]. apply keystream_bytes, ARC4_INIT_wf. Qed.

Lemma length_michael key m : length (michael key m) = 8%nat.
Proof. unfold michael. destruct (foldl _ _ _). by rewrite length_app, !length_le_bytes. Qed.

(** What follows the decryption: the checks of ICV and MIC on a buffer that
    starts with the decrypted bytes [p]. *)
Definition tkip_verdict (Tx Tx' : TKIP_KEY_INFO) (k : CIPHER_KEY) (DA SA : list Z) (prio : Z)
    (m p : list Z) (n : nat) : tkip_result :=
  let mk ok cnt tx f :=
    {| tkip_ok := ok; tkip_data := m; tkip_cnt := cnt; tkip_Tx := tx; tkip_mic_failure := f |} in
  if negb (crc32 (take (n - 12) p) =? le_word (drop (n - 12) p)) then mk false (Z.of_nat n) Tx false
  else if bool_decide (michael (RxMic k) (mic_message DA SA prio (take (n - 20) p)) = slice p (n - 20) 8)
       then mk true (Z.of_nat n - 20) Tx' false
       else mk false (Z.of_nat n) Tx' true.

Lemma RTMPSoftDecryptTKIP_eq E Tx pHdr prio k pData n :
  key_wf k → KeyLen k ≠ 0 → bytes pHdr → (30 <= length pHdr)%nat → byte prio → bytes pData →
  (20 <= n <= length pData)%nat → Z.of_nat n < 65536 → length (MIC Tx) = 8%nat →
  let '(TA, DA, SA) := hdr_addresses pHdr in
  let p := tkip_open (take 8 pData) TA k (slice pData 8 (n - 8)) in
  ∃ Tx', RTMPSoftDecryptTKIP E Tx pHdr prio k pData (Z.of_nat n) =
         Some (tkip_verdict Tx Tx' k DA SA prio (put pData 0 p) p n).
Proof.
  intros (_ & HK & _ & _ & Hrl & Hr & _) Hkl Hh Hhl Hp HB Hn Hb HM.
  destruct (hdr_addresses pHdr) as [[TA DA] SA] eqn:EA. intros p.
  assert (p = tkip_open (take 8 pData) TA k (slice pData 8 (n - 8))) as Ep by (unfold p; reflexivity).
  clearbody p.
  destruct (hdr_addresses_wf _ _ _ _ Hh Hhl EA) as (_ & _ & HDA & HDl & HSA & HSl).
  unfold RTMPSoftDecryptTKIP. destruct (Z.eqb_spec (KeyLen k) 0); [done|].
  rewrite frame_addresses_hdr, EA.
  rewrite load_ok, Some_bind by lia.
  change (slice pData (Z.to_nat 0) (Z.to_nat 8)) with (take 8 pData).
  rewrite (RTMPTkipMixKey_eq _ _ _ _ _ HK (length_local_array E 5)).
  rewrite tkip_iv16 by (by apply Forall_take). rewrite tkip_ctx_eq.
  unfold LEN_TKIP_IV_HDR, LEN_ICV, LEN_TKIP_MIC.
  destruct (Z.leb_spec (Z.of_nat n) 8); [lia|].
  unfold u32. rewrite (Z.mod_small (Z.of_nat n - 8)) by lia.
  replace (Z.to_nat (Z.of_nat n - 8)) with (n - 8)%nat by lia.
  rewrite (ARC4_Compute_spec _ _ _ 8 0), Some_bind by lia. cbv beta iota.
  assert (length (slice pData 8 (n - 8)) = n - 8)%nat as Hs by (apply length_slice; lia).
  assert (xorl (slice pData 8 (n - 8)) (keystream (tkip_ctx (take 8 pData) TA k) (n - 8)) = p) as ->
    by (rewrite Ep; unfold tkip_open; by rewrite Hs).
  assert (length p = n - 8)%nat as Hpl by (by rewrite Ep, length_tkip_open).
  assert (bytes p) as HBp by (rewrite Ep; apply bytes_tkip_open; by apply bytes_slice).
  rewrite (Z.mod_small (Z.of_nat n - 8 - 4)), (Z.mod_small (Z.of_nat n - 8 - 4 - 8)) by lia.
  replace (Z.of_nat n - 8 - 4) with (Z.of_nat (n - 12)) by lia.
  replace (Z.of_nat (n - 12) - 8) with (Z.of_nat (n - 20)) by lia.
  rewrite (load_ok _ (Z.of_nat (n - 12))) by (rewrite ?length_put; lia).
  rewrite (load_ok _ 0 (Z.of_nat (n - 12))) by (rewrite ?length_put; lia).
  rewrite (load_ok _ (Z.of_nat (n - 20))) by (rewrite ?length_put; lia).
  rewrite (load_ok _ 0 (Z.of_nat (n - 20))) by (rewrite ?length_put; lia).
  rewrite !Some_bind, !Nat2Z.id. change (Z.to_nat 0) with 0%nat. change (Z.to_nat 4) with 4%nat.
  change (Z.to_nat 8) with 8%nat.
  change (slice (put pData 0 p) (n - 12)) with (slice (put pData 0 p) (0 + (n - 12))).
  change (slice (put pData 0 p) (n - 20)) with (slice (put pData 0 p) (0 + (n - 20))).
  change (slice (put pData 0 p) 0) with (slice (put pData 0 p) (0 + 0)).
  rewrite !slice_put_within by lia.
  change (slice p 0 ?x) with (take x p).
  assert (slice p (n - 12) 4 = drop (n - 12) p) as ->
    by (unfold slice; apply take_ge; rewrite length_drop; lia).
  rewrite FCS_is_crc32 by (by apply Forall_take). unfold tkip_verdict.
  destruct (GetMIC_michael (RTMPTkipAppend (RTMPInitMICEngine Tx DA SA prio (RxMic k)) (take (n - 20) p))
    (RxMic k) (mic_message DA SA prio (take (n - 20) p))) as (t' & -> & HMt).
  - apply acc_first_chunk; try done; [by apply acc_InitMIC|by apply Forall_take].
  - apply bytes_mic_message; try done. by apply Forall_take.
  - by rewrite MIC_Append, MIC_InitMIC.
  - exists t'. destruct (crc32 _ =? _); cbn [negb]; [|done]. rewrite Some_bind, HMt.
    case_bool_decide; cbn [negb]; [|done]. do 2 f_equal. lia.
Qed.

Lemma RTMPSoftDecryptTKIP_short_frame E Tx pHdr prio k pData n :
  key_wf k → KeyLen k ≠ 0 → (9 <= n <= 11)%nat → (n <= length pData)%nat →
  Z.of_nat (length pData) < 4294967000 →
  RTMPSoftDecryptTKIP E Tx pHdr prio k pData (Z.of_nat n) = None.
Proof.
  intros Hk H0 Hn Hl Hb. unfold RTMPSoftDecryptTKIP. destruct (Z.eqb_spec (KeyLen k) 0); [done|].
  destruct (frame_addresses _ _ _) as [[? ?] ?]. rewrite load_ok by lia. cbn [mbind option_bind].
  destruct (RTMPTkipMixKey _ _ _ _ _). unfold LEN_TKIP_IV_HDR, LEN_ICV, u32.
  destruct (Z.leb_spec (Z.of_nat n) 8); [lia|].
  rewrite (Z.mod_small (Z.of_nat n - 8)) by lia.
  replace (Z.to_nat (Z.of_nat n - 8)) with (n - 8)%nat by lia.
  rewrite (ARC4_Compute_spec _ _ _ 8 0) by lia. cbn [mbind option_bind].
  replace (Z.of_nat n - 8 - 4) with (Z.of_nat n - 12 + 4294967296 + (-1) * 4294967296) by lia.
  rewrite Z.mod_add, (Z.mod_small (Z.of_nat n - 12 + 4294967296)) by lia.
  rewrite (load_None _ (Z.of_nat n - 12 + 4294967296)); [reflexivity|].
  right; right. rewrite length_put. lia.
Qed.

(** A frame that has an ICV but no room for a MIC: with a wrong ICV it is
    refused, with a right one the MIC is read outside the frame. *)
Lemma RTMPSoftDecryptTKIP_no_mic E Tx pHdr prio k pData n :
  key_wf k → KeyLen k ≠ 0 → bytes pHdr → (30 <= length pHdr)%nat → bytes pData → (12 <= n <= 19)%nat → (n <= length pData)%nat →
  Z.of_nat (length pData) < 4294967000 →
  let '(TA, _, _) := hdr_addresses pHdr in
  let p := tkip_open (take 8 pData) TA k (slice pData 8 (n - 8)) in
  RTMPSoftDecryptTKIP E Tx pHdr prio k pData (Z.of_nat n) =
    if crc32 (take (n - 12) p) =? le_word (drop (n - 12) p) then None
    else Some {| tkip_ok := false; tkip_data := put pData 0 p; tkip_cnt := Z.of_nat n; tkip_Tx := Tx; tkip_mic_failure := false |}.
Proof.
  intros (_ & HK & _) Hkl Hh Hhl HB Hn Hnl Hb.
  destruct (hdr_addresses pHdr) as [[TA DA] SA] eqn:EA. intros p.
  assert (p = tkip_open (take 8 pData) TA k (slice pData 8 (n - 8))) as Ep by (unfold p; reflexivity).
  clearbody p. unfold RTMPSoftDecryptTKIP. destruct (Z.eqb_spec (KeyLen k) 0); [done|].
  rewrite frame_addresses_hdr, EA.
  rewrite load_ok, Some_bind by lia.
  change (slice pData (Z.to_nat 0) (Z.to_nat 8)) with (take 8 pData).
  rewrite (RTMPTkipMixKey_eq _ _ _ _ _ HK (length_local_array E 5)).
  rewrite tkip_iv16 by (by apply Forall_take). rewrite tkip_ctx_eq.
  unfold LEN_TKIP_IV_HDR, LEN_ICV, LEN_TKIP_MIC.
  destruct (Z.leb_spec (Z.of_nat n) 8); [lia|].
  unfold u32. rewrite (Z.mod_small (Z.of_nat n - 8)) by lia.
  replace (Z.to_nat (Z.of_nat n - 8)) with (n - 8)%nat by lia.
  rewrite (ARC4_Compute_spec _ _ _ 8 0), Some_bind by lia. cbv beta iota.
  assert (length (slice pData 8 (n - 8)) = n - 8)%nat as Hs by (apply length_slice; lia).
  assert (xorl (slice pData 8 (n - 8)) (keystream (tkip_ctx (take 8 pData) TA k) (n - 8)) = p) as ->
    by (rewrite Ep; unfold tkip_open; by rewrite Hs).
  assert (length p = n - 8)%nat as Hpl by (by rewrite Ep, length_tkip_open).
  assert (bytes p) as HBp by (rewrite Ep; apply bytes_tkip_open; by apply bytes_slice).
  rewrite (Z.mod_small (Z.of_nat n - 8 - 4)) by lia.
  replace (Z.of_nat n - 8 - 4) with (Z.of_nat (n - 12)) by lia.
  rewrite (load_ok _ (Z.of_nat (n - 12))) by (rewrite ?length_put; lia).
  rewrite (load_ok _ 0 (Z.of_nat (n - 12))) by (rewrite ?length_put; lia).
  rewrite !Some_bind, !Nat2Z.id. change (Z.to_nat 0) with 0%nat. change (Z.to_nat 4) with 4%nat.
  change (slice (put pData 0 p) (n - 12)) with (slice (put pData 0 p) (0 + (n - 12))).
  change (slice (put pData 0 p) 0) with (slice (put pData 0 p) (0 + 0)).
  rewrite !slice_put_within by lia. change (slice p 0 ?x) with (take x p).
  assert (slice p (n - 12) 4 = drop (n - 12) p) as ->
    by (unfold slice; apply take_ge; rewrite length_drop; lia).
  rewrite FCS_is_crc32 by (by apply Forall_take). destruct (crc32 _ =? _); cbn [negb]; [|done].
  replace (Z.of_nat (n - 12) - 8) with (Z.of_nat (n - 12) - 8 + 4294967296 + (-1) * 4294967296) by lia.
  rewrite Z.mod_add, (Z.mod_small (Z.of_nat (n - 12) - 8 + 4294967296)) by lia.
  rewrite (load_None _ (Z.of_nat (n - 12) - 8 + 4294967296)); [reflexivity|].
  right; right. rewrite length_put. lia.
Qed.

(** C39: [RTMPSoftDecryptTKIP] on every branch, for every length.  Without a key, or
    for a frame that is nothing but its IV header, it refuses and changes nothing.
    A frame that can hold MIC and ICV is decrypted over its IV header with the
    mixed key of IV, temporal key and the transmitter address of IEEE 802.11;
    TRUE is answered exactly when the ICV is the CRC-32 of what precedes it and
    the MIC is the Michael value of destination, source, priority and data, and
    then the length loses IV header, MIC and ICV; a wrong MIC behind a right ICV,
    and nothing else, is reported as a MIC failure.  Shorter frames are not
    checked: with 9 to 11 bytes the function reads outside the frame, with 12 to
    19 it does so when the ICV is right and refuses otherwise. *)
Theorem RTMPSoftDecryptTKIP_spec E Tx pHdr prio k pData n :
  key_wf k → bytes pHdr → (30 <= length pHdr)%nat → byte prio → bytes pData →
  (8 <= length pData)%nat → (n <= length pData)%nat → Z.of_nat (length pData) < 4294967000 →
  Z.of_nat n < 65536 → length (MIC Tx) = 8%nat →
  let '(TA, DA, SA) := hdr_addresses pHdr in
  let p := tkip_open (take 8 pData) TA k (slice pData 8 (n - 8)) in
  let refused m := {| tkip_ok := false; tkip_data := m; tkip_cnt := Z.of_nat n; tkip_Tx := Tx; tkip_mic_failure := false |} in
  ∃ Tx', RTMPSoftDecryptTKIP E Tx pHdr prio k pData (Z.of_nat n) =
    if (KeyLen k =? 0) || (n <=? 8)%nat then Some (refused pData)
    else if (n <? 12)%nat then None
    else if (n <? 20)%nat
    then if crc32 (take (n - 12) p) =? le_word (drop (n - 12) p) then None else Some (refused (put pData 0 p))
    else Some (tkip_verdict Tx Tx' k DA SA prio (put pData 0 p) p n).
Proof.
  intros Hk Hh Hhl Hp HB H8 Hnl Hbig Hb HM.
  pose proof (RTMPSoftDecryptTKIP_eq E Tx pHdr prio k pData n) as Hfull.
  pose proof (RTMPSoftDecryptTKIP_no_mic E Tx pHdr prio k pData n) as Hmid.
  destruct (hdr_addresses pHdr) as [[TA DA] SA] eqn:EA. intros p refused.
  destruct (Z.eqb_spec (KeyLen k) 0) as [H0|H0]; cbn [orb].
  { exists Tx. unfold RTMPSoftDecryptTKIP. by rewrite H0. }
  destruct (Nat.leb_spec n 8) as [Hn8|Hn8].
  { exists Tx. unfold RTMPSoftDecryptTKIP. destruct (Z.eqb_spec (KeyLen k) 0); [done|].
    destruct (frame_addresses _ _ _) as [[? ?] ?]. rewrite load_ok by lia. cbn [mbind option_bind].
    destruct (RTMPTkipMixKey _ _ _ _ _). unfold LEN_TKIP_IV_HDR.
    by destruct (Z.leb_spec (Z.of_nat n) 8); [|lia]. }
  destruct (Nat.ltb_spec n 12); [exists Tx; apply RTMPSoftDecryptTKIP_short_frame; (done || lia)|].
  destruct (Nat.ltb_spec n 20); [exists Tx; apply Hmid; (done || lia)|].
  apply Hfull; (done || lia).
Qed.

(** Key with MIC keys, and a QoS data header from an access point. *)
Definition tkip_key : CIPHER_KEY :=
  {| Key := seqZ 1 16; TxMic := seqZ 3 8; RxMic := seqZ 7 8; TxTsc := zeros 16;
     RxTsc := zeros 16; CipherAlg := 3; KeyLen := 16; Type_ := 0 |}.

Definition from_ds_header : list Z :=
  [0x88; 0x42; 0; 0] ++ seqZ 10 6 ++ seqZ 20 6 ++ seqZ 30 6 ++ zeros 8.

Lemma tkip_key_wf : key_wf tkip_key.
Proof. repeat split; (bytes_table || (vm_compute; congruence)). Qed.

Lemma RTMPSoftDecryptTKIP_spec_witness :
  bytes from_ds_header ∧ bytes (zeros 21) ∧
  ∃ Tx' m, RTMPSoftDecryptTKIP kmalloc_all tkip0 from_ds_header 0 tkip_key (zeros 21) (Z.of_nat 21) =
    Some {| tkip_ok := false; tkip_data := m; tkip_cnt := 21; tkip_Tx := Tx'; tkip_mic_failure := false |}.
Proof.
  assert (bytes from_ds_header) as Hh by bytes_table. assert (bytes (zeros 21)) as Hd by bytes_table.
  assert (byte 0) as H0 by (unfold fits; lia).
  do 2 (split; [assumption|]).
  destruct (RTMPSoftDecryptTKIP_spec kmalloc_all tkip0 from_ds_header 0 tkip_key (zeros 21) 21
    tkip_key_wf Hh ltac:(vm_compute; lia) H0 Hd ltac:(vm_compute; lia) ltac:(vm_compute; lia) ltac:(reflexivity)
    ltac:(lia) eq_refl) as (Tx' & ->).
  do 2 eexists. vm_compute. reflexivity.
Defined.

(** a frame that a station seals as IEEE 802.11 prescribes is opened:
    [RTMPSoftDecryptTKIP] answers TRUE, reports no MIC failure, sets the
    length to that of the data and leaves the data at the start of the
    frame. *)
Theorem tkip_roundtrip E Tx pHdr prio k iv d :
  key_wf k → KeyLen k ≠ 0 → bytes pHdr → (30 <= length pHdr)%nat → byte prio →
  bytes iv → length iv = 8%nat → bytes d → Z.of_nat (length d) + 20 < 65536 → length (MIC Tx) = 8%nat →
  let '(TA, DA, SA) := hdr_addresses pHdr in
  ∃ r, RTMPSoftDecryptTKIP E Tx pHdr prio k (iv ++ tkip_seal iv TA k DA SA prio d)
         (Z.of_nat (length d + 20)) = Some r ∧
       tkip_ok r = true ∧ tkip_mic_failure r = false ∧ tkip_cnt r = Z.of_nat (length d) ∧
       take (length d) (tkip_data r) = d.
Proof.
  intros Hk H0 Hh Hhl Hp Hiv Hivl Hd Hb HM.
  destruct (hdr_addresses pHdr) as [[TA DA] SA] eqn:EA.
  set (mic := michael (RxMic k) (mic_message DA SA prio d)).
  assert (length mic = 8%nat) as Hmic by apply length_michael.
  assert (bytes mic) as HBm.
  { unfold mic, michael. destruct (foldl _ _ _). apply Forall_app; split; apply bytes_le_bytes. }
  set (pl := tkip_plain (RxMic k) DA SA prio d).
  assert (pl = (d ++ mic) ++ le_bytes 4 (crc32 (d ++ mic))) as Epl by done.
  assert (length pl = length d + 12)%nat as Hpl
    by (rewrite Epl, !length_app, length_le_bytes, Hmic; lia).
  set (s := tkip_seal iv TA k DA SA prio d).
  assert (s = xorl pl (keystream (tkip_ctx iv TA k) (length pl))) as Es by done.
  assert (length s = length d + 12)%nat as Hs
    by (rewrite Es, length_xorl; rewrite ?length_keystream; lia).
  assert (bytes (iv ++ s)) as HBs.
  { apply Forall_app. split; [done|]. rewrite Es. apply xorl_bytes.
    - rewrite Epl, !Forall_app. split_and!; [done..|apply bytes_le_bytes].
    - apply keystream_bytes, ARC4_INIT_wf. }
  pose proof (RTMPSoftDecryptTKIP_eq E Tx pHdr prio k (iv ++ s) (length d + 20)) as H.
  rewrite EA in H. destruct H as (Tx' & H); try (done || lia || (rewrite ?length_app; lia)).
  rewrite H. clear H. eexists. split; [reflexivity|].
  assert (slice (iv ++ s) 8 (length d + 20 - 8) = s) as ->.
  { rewrite <- Hivl, <- (Nat.add_0_r (length iv)) at 1. rewrite slice_app_r. apply slice_all. lia. }
  assert (take 8 (iv ++ s) = iv) as -> by (rewrite <- Hivl; apply take_app_length).
  assert (tkip_open iv TA k s = pl) as ->.
  { unfold tkip_open. rewrite Hs, <- Hpl, Es. apply xorl_cancel_r. rewrite length_keystream. lia. }
  unfold tkip_verdict.
  replace (length d + 20 - 12)%nat with (length (d ++ mic)) by (rewrite length_app; lia).
  replace (length d + 20 - 20)%nat with (length d) by lia.
  assert (take (length d) pl = d) as -> by (rewrite Epl, <- app_assoc; apply take_app_length).
  assert (slice pl (length d) 8 = mic) as ->.
  { rewrite Epl, <- app_assoc. rewrite <- (Nat.add_0_r (length d)), slice_app_r, slice_app_l by lia.
    by apply slice_all. }
  assert (take (length (d ++ mic)) pl = d ++ mic) as -> by (rewrite Epl; apply take_app_length).
  assert (drop (length (d ++ mic)) pl = le_bytes 4 (crc32 (d ++ mic))) as ->
    by (rewrite Epl; apply drop_app_length).
  rewrite le_word_le_bytes.
  assert (word (crc32 (d ++ mic))) as Hw by (apply crc32_word; by apply Forall_app).
  unfold fits in Hw. rewrite (Z.mod_small (crc32 (d ++ mic))) by exact Hw.
  rewrite Z.eqb_refl, bool_decide_eq_true_2 by done. cbn [negb tkip_ok tkip_mic_failure tkip_cnt tkip_data].
  split_and!; [done|done|lia|].
  rewrite put_splice by (rewrite length_app; lia). rewrite take_0, Epl. cbn [app].
  by rewrite <- !app_assoc, take_app_length.
Qed.

Lemma tkip_roundtrip_witness :
  let d := [1; 2; 3] in let iv := [0; 0x20; 1; 0x20; 0; 0; 0; 0] in
  ∃ r, RTMPSoftDecryptTKIP kmalloc_all tkip0 from_ds_header 5 tkip_key
         (iv ++ tkip_seal iv (seqZ 20 6) tkip_key (seqZ 10 6) (seqZ 30 6) 5 d)
         (Z.of_nat (length d + 20)) = Some r ∧
       tkip_ok r = true ∧ tkip_mic_failure r = false ∧ tkip_cnt r = Z.of_nat (length d) ∧
       take (length d) (tkip_data r) = d.
Proof.
  intros d iv. assert (bytes from_ds_header) as Hh by bytes_table. assert (bytes d) as Hd by bytes_table.
  assert (bytes iv) as Hiv by bytes_table. assert (byte 5) as H5 by (unfold fits; lia).
  apply (tkip_roundtrip kmalloc_all tkip0 from_ds_header 5 tkip_key iv d tkip_key_wf);
    [vm_compute; congruence|exact Hh|vm_compute; lia|exact H5|exact Hiv|reflexivity|exact Hd|reflexivity|reflexivity].
Defined.

(** the transmit and the receive side agree on the MIC of an Ethernet
    packet, with or without VLAN tag and LLC header: [RTMPCalculateMICValue]
    yields the Michael value of addresses, priority, LLC header, type and
    payload, and [RTMPTkipCompareMICValue] accepts that body exactly with
    those eight bytes behind it. *)
Theorem tkip_mic_agreement Tx Rx da sa tag proto payload prio encap k mic :
  key_wf k → bytes da → length da = 6%nat → bytes sa → length sa = 6%nat → byte prio →
  bytes tag → bytes proto → length proto = 2%nat → vlan_ok tag proto → bytes payload →
  (∀ llc, encap = Some llc → bytes llc ∧ (6 <= length llc)%nat) →
  Z.of_nat (length payload) < 2 ^ 32 → length (MIC Tx) = 8%nat → length (MIC Rx) = 8%nat →
  length mic = 8%nat →
  let pkt := da ++ sa ++ tag ++ proto ++ payload in
  let body := llc_bytes encap proto ++ payload in
  ∃ Tx' Rx',
    RTMPCalculateMICValue Tx pkt (Z.of_nat (length pkt)) prio encap k = Some Tx' ∧
    MIC Tx' = michael (TxMic k) (mic_message da sa prio body) ∧
    RTMPTkipCompareMICValue Rx (body ++ mic) da sa (TxMic k) prio (Z.of_nat (length body)) =
      Some (bool_decide (MIC Tx' = mic), Rx').
Proof.
  intros Hk Hda Hdl Hsa Hsl Hp Htag Hpr Hprl Hvlan Hpay Henc Hlen HT HR Hm pkt body.
  assert (bytes body) as Hb.
  { apply Forall_app. split; [|done]. unfold llc_bytes. destruct encap as [llc|]; [|done].
    destruct (Henc llc eq_refl). apply Forall_app. split; [by apply Forall_take|done]. }
  destruct (CalculateMIC_eq Tx da sa tag proto payload prio encap k) as (Tx' & H & HM); try done.
  destruct Hk as (_ & _ & Hkl & Hkb & _).
  destruct (CompareMIC_eq Rx body mic da sa (TxMic k) prio) as (Rx' & H'); try done.
  exists Tx', Rx'. split_and!; [done|done|]. by rewrite H', HM.
Qed.

Lemma tkip_mic_agreement_witness :
  let pkt := seqZ 1 6 ++ seqZ 11 6 ++ [] ++ [8; 0] ++ [1; 2; 3] in
  let body := [0xaa; 0xaa; 3; 0; 0; 0; 8; 0] ++ [1; 2; 3] in
  ∃ Tx' Rx',
    RTMPCalculateMICValue tkip0 pkt (Z.of_nat (length pkt)) 0 (Some [0xaa; 0xaa; 3; 0; 0; 0]) tkip_key
      = Some Tx' ∧
    MIC Tx' = michael (TxMic tkip_key) (mic_message (seqZ 1 6) (seqZ 11 6) 0 body) ∧
    RTMPTkipCompareMICValue tkip0 (body ++ zeros 8) (seqZ 1 6) (seqZ 11 6) (TxMic tkip_key) 0
      (Z.of_nat (length body)) = Some (bool_decide (MIC Tx' = zeros 8), Rx').
Proof.
  assert (bytes (seqZ 1 6)) as H1 by bytes_table. assert (bytes (seqZ 11 6)) as H2 by bytes_table.
  assert (bytes [8; 0]) as H3 by bytes_table. assert (bytes [1; 2; 3]) as H4 by bytes_table.
  assert (byte 0) as H5 by (unfold fits; lia). assert (bytes []) as H6 by constructor.
  assert (∀ llc, Some [0xaa; 0xaa; 3; 0; 0; 0] = Some llc → bytes llc ∧ (6 <= length llc)%nat) as H7.
  { intros llc [= <-]. split; [bytes_table|cbn; lia]. }
  assert (vlan_ok [] [8; 0]) as H8 by (left; split; [reflexivity|vm_compute; discriminate]).
  apply (tkip_mic_agreement tkip0 tkip0 (seqZ 1 6) (seqZ 11 6) [] [8; 0] [1; 2; 3] 0
    (Some [0xaa; 0xaa; 3; 0; 0; 0]) tkip_key (zeros 8) tkip_key_wf H1 eq_refl H2 eq_refl H5 H6 H3 eq_refl
    H8 H4 H7); reflexivity.
Defined.

(** ** Wrapping of the group key *)

(** The stream that hides the key data: the first 256 bytes are dropped. *)
Definition gtk_ctx (key iv : list Z) : ARC4_CTX_STRUC :=
  ARC4_Discard_KeyLength (ARC4_INIT (take 16 iv ++ take 16 key) 32) 256.

Lemma TKIP_GTK_KEY_WRAP_eq E key iv m src n dst :
  kmalloc E 264 = true → (16 <= length key)%nat → (16 <= length iv)%nat →
  (dst <= src ∨ src + n <= dst)%nat → (src + n <= length m)%nat → (dst + n <= length m)%nat →
  TKIP_GTK_KEY_WRAP E key iv m (Z.of_nat src) n (Z.of_nat dst) =
    Some (put m dst (xorl (slice m src n) (keystream (gtk_ctx key iv) n))).
Proof.
  intros HE Hk Hi Hov Hs Hd. unfold TKIP_GTK_KEY_WRAP, sizeof_ARC4_CTX_STRUC. rewrite HE. cbn [negb].
  unfold LEN_KEY_DESC_IV, LEN_PTK_KEK.
  rewrite (load_ok iv) by lia. cbn [mbind option_bind].
  change (slice iv (Z.to_nat 0) (Z.to_nat 16)) with (take 16 iv).
  assert (length (take 16 iv) = 16%nat) as Hti by (rewrite length_take; lia).
  assert (length (take 16 key) = 16%nat) as Htk by (rewrite length_take; lia).
  rewrite store_ok by (rewrite ?length_local_array; lia). cbn [mbind option_bind].
  rewrite load_ok by lia. cbn [mbind option_bind].
  change (slice key (Z.to_nat 0) (Z.to_nat 16)) with (take 16 key).
  rewrite store_ok by (rewrite ?length_put, ?length_local_array; lia). cbn [mbind option_bind].
  assert (put (put (local_array E 32) (Z.to_nat 0) (take 16 iv)) (Z.to_nat 16) (take 16 key) =
          take 16 iv ++ take 16 key) as ->.
  { change (Z.to_nat 0) with 0%nat. change (Z.to_nat 16) with 16%nat.
    pose proof (put_put_adjacent (local_array E 32) 0 (take 16 iv) (take 16 key)) as HP.
    rewrite Hti, Htk, length_local_array in HP. change (0 + 16)%nat with 16%nat in HP. rewrite HP by lia.
    rewrite put_splice by (rewrite length_app, length_local_array; lia).
    rewrite take_0, drop_ge by (rewrite length_app, length_local_array; lia). apply app_nil_r. }
  rewrite ARC4_Compute_spec by done. done.
Qed.

(** Unwrapping group key data with the same key-encryption key and IV
    gives it back, in place as well as into a buffer of its own; both calls
    stay inside their buffers and touch nothing but the output. *)
Lemma tkip_gtk_roundtrip E key iv m src n dst :
  kmalloc E 264 = true → (16 <= length key)%nat → (16 <= length iv)%nat →
  (dst <= src ∨ src + n <= dst)%nat → (src + n <= length m)%nat → (dst + n <= length m)%nat →
  ∃ m1, TKIP_GTK_KEY_WRAP E key iv m (Z.of_nat src) n (Z.of_nat dst) = Some m1 ∧
        TKIP_GTK_KEY_UNWRAP E key iv m1 (Z.of_nat dst) n (Z.of_nat dst) =
          Some (put m dst (slice m src n)).
Proof.
  intros HE Hk Hi Hov Hs Hd. rewrite TKIP_GTK_KEY_WRAP_eq by done. eexists. split; [reflexivity|].
  unfold TKIP_GTK_KEY_UNWRAP.
  set (c := xorl (slice m src n) (keystream (gtk_ctx key iv) n)).
  assert (length c = n) as Hc.
  { unfold c. rewrite length_xorl; rewrite length_slice, ?length_keystream; lia. }
  rewrite TKIP_GTK_KEY_WRAP_eq by (done || (rewrite ?length_put; lia)).
  assert (slice (put m dst c) dst n = c) as -> by (rewrite <- Hc at 1; apply slice_put_eq; lia).
  unfold c at 2. rewrite xorl_cancel_r by (rewrite length_slice, length_keystream; lia).
  f_equal. apply put_put; rewrite Hc; [|lia]. rewrite length_slice; lia.
Qed.

Lemma tkip_gtk_roundtrip_witness :
  ∃ m1, TKIP_GTK_KEY_WRAP kmalloc_all (zeros 16) (seqZ 1 16) (seqZ 40 8) (Z.of_nat 0) 8 (Z.of_nat 0) = Some m1 ∧
        TKIP_GTK_KEY_UNWRAP kmalloc_all (zeros 16) (seqZ 1 16) m1 (Z.of_nat 0) 8 (Z.of_nat 0) = Some (seqZ 40 8).
Proof.
  apply (tkip_gtk_roundtrip kmalloc_all (zeros 16) (seqZ 1 16) (seqZ 40 8) 0 8 0); first [reflexivity|vm_compute; lia].
Defined.
