(* ===== verification/EapolMsg.v ===== *)
(** * Construction of EAPOL-Key messages

    Models [ConstructEapolMsg] of [linux/Arch/rt5370.driver/common/cmm_wpa.c]
    and what it calls: the KDE header, the insertion of the RSN IE, the key
    data with its padding and encryption, and the MIC over the whole frame.
    A pointer that callers may pass as NULL is an [option]; reading through
    it is [None], like an access outside a buffer.

    The reference is the construction of key data, MIC and frame in IEEE
    802.11i 8.5.2 from the published algorithms. *)

From stdpp Require Import base list numbers list_numbers.
From Stdlib Require Import ZArith Lia.
From S2P Require Import Prelude Mlme Arc4 BlockHash Md5 Sha Hmac AesTables Aes AesChain AesCmac AesKeyWrap WpaCmm WpaKeys WpaData Wep Tkip.

Definition is_WPA2 (e : wpa_entry) : bool :=
  (AuthMode e =? Ndis802_11AuthModeWPA2) || (AuthMode e =? Ndis802_11AuthModeWPA2PSK).

(** [pBuf] is the address in the buffer [m]. *)
Definition WPA_ConstructKdeHdr (data_type data_len : Z) (m : list Z) (pBuf : Z) : option (list Z) :=
  store m pBuf ([WPA_KDE_TYPE; u8 (4 + data_len)] ++ OUI_WPA2 ++ [data_type]).

Definition RTMPInsertRSNIE (m : list Z) (pFrameBuf FrameLen : Z) (rsnie_ptr : list Z) (rsnie_len : Z)
    (pmkid_ptr : list Z) (pmkid_len : Z) : option (list Z * Z) :=
  let list_ok := (0 <? pmkid_len) && (pmkid_len & 0x0f =? 0) in
  let extra_len := if list_ok then u8 (2 + pmkid_len) else 0 in
  let pmk_count := if list_ok then pmkid_len >> 4 else 0 in
  if rsnie_len =? 0 then Some (m, FrameLen)
  else
    oui ← load rsnie_ptr 2 3;
    let rsn := bool_decide (oui = OUI_WPA2) in
    let ie_num := if rsn then IE_RSN else IE_WPA in
    let total_len := if rsn then u8 (rsnie_len + extra_len) else rsnie_len in
    ie ← load rsnie_ptr 0 rsnie_len;
    m ← store m pFrameBuf ([ie_num; total_len] ++ ie);
    let TempLen := 2 + rsnie_len in
    if rsn && (0 <? extra_len) then
      l ← load pmkid_ptr 0 pmkid_len;
      m ← store m (pFrameBuf + TempLen) (le_bytes 2 pmk_count ++ l);
      Some (m, FrameLen + TempLen + (2 + pmkid_len))
    else Some (m, FrameLen + TempLen).

(** The padding in front of the AES key wrap: 0xdd and zeros up to a multiple
    of eight. *)
Definition pad_key_data (Key_Data : list Z) (data_offset : Z) : option (list Z * Z) :=
  let remainder := data_offset & 0x07 in
  if remainder =? 0 then Some (Key_Data, data_offset)
  else
    let pad_len := 8 - remainder in
    m ← store Key_Data data_offset (0xdd :: zeros (Z.to_nat (pad_len - 1)));
    Some (m, data_offset + pad_len).

(** Key data and both length fields. *)
Definition fill_key_data (pMsg : EAPOL_PACKET) (src : list Z) (data_offset : Z) : option EAPOL_PACKET :=
  d ← load src 0 data_offset;
  kd ← store (KeyData pMsg) 0 d;
  Some (set_data pMsg (INC_UINT16_TO_ARRARY (Body_Len pMsg) data_offset) (SET_UINT16_TO_ARRARY data_offset) kd).

(** The GTK in [Key_Data], in a KDE for WPA2. *)
Definition insert_gtk (bWPA2Capable : bool) (GroupKeyWepStatus DefaultKeyIdx : Z) (GTK : option (list Z))
    (Key_Data : list Z) (data_offset : Z) : option (list Z * Z) :=
  let gtk_len := if GroupKeyWepStatus =? Ndis802_11Encryption3Enabled then LEN_AES_GTK else LEN_TKIP_GTK in
  '(Key_Data, data_offset) ←
    (if bWPA2Capable then
       m ← WPA_ConstructKdeHdr KDE_GTK (2 + gtk_len) Key_Data data_offset;
       m ← store m (data_offset + 6) [DefaultKeyIdx & 0x03; 0];
       Some (m, data_offset + 6 + 2)
     else Some (Key_Data, data_offset));
  gtk ← GTK;
  g ← load gtk 0 gtk_len;
  m ← store Key_Data data_offset g;
  Some (m, data_offset + gtk_len).

Definition ConstructEapolKeyData (E : env) (pEntry : wpa_entry)
    (GroupKeyWepStatus keyDescVer MsgType DefaultKeyIdx : Z) (GTK RSNIE : option (list Z)) (RSNIE_LEN : Z)
    (pMsg : EAPOL_PACKET) : option EAPOL_PACKET :=
  let bWPA2Capable := is_WPA2 pEntry in
  if (MsgType =? EAPOL_PAIR_MSG_1) || (MsgType =? EAPOL_PAIR_MSG_4) || (MsgType =? EAPOL_GROUP_MSG_2)
  then Some pMsg
  else if negb (kmalloc E 1500) then Some pMsg
  else
    let eGTK := local_array E 512 in
    let Key_Data := put (local_array E 988) 0 (zeros 512) in
    let pMsg := set_data pMsg (Body_Len pMsg) (SET_UINT16_TO_ARRARY 0) (KeyData pMsg) in
    '(Key_Data, data_offset) ←
      (if negb (RSNIE_LEN =? 0) && ((MsgType =? EAPOL_PAIR_MSG_2) || (MsgType =? EAPOL_PAIR_MSG_3))
       then ie ← RSNIE; RTMPInsertRSNIE Key_Data 0 0 ie RSNIE_LEN [] 0
       else Some (Key_Data, 0));
    if ((MsgType =? EAPOL_PAIR_MSG_3) && bWPA2Capable) || (MsgType =? EAPOL_GROUP_MSG_1) then
      '(Key_Data, data_offset) ←
        insert_gtk bWPA2Capable GroupKeyWepStatus DefaultKeyIdx GTK Key_Data data_offset;
      kek ← load (PTK pEntry) LEN_PTK_KCK LEN_PTK_KEK;
      if keyDescVer =? KEY_DESC_AES then
        '(Key_Data, data_offset) ← pad_key_data Key_Data data_offset;
        '(_, eGTK, wrap_len) ← AES_Key_Wrap E Key_Data data_offset kek LEN_PTK_KEK eGTK;
        fill_key_data pMsg eGTK (default 0 wrap_len)
      else
        m ← TKIP_GTK_KEY_WRAP E kek (KeyIv pMsg) (eGTK ++ Key_Data) 512 (Z.to_nat data_offset) 0;
        fill_key_data pMsg (take 512 m) data_offset
    else fill_key_data pMsg Key_Data data_offset.

(** The MIC of the first [len] bytes of [buf], by the key descriptor version;
    [digest] is the caller's local array. *)
Definition eapol_mic (E : env) (digest : list Z) (KeyDescVer : Z) (PTK buf : list Z) (len : Z)
    : option (list Z) :=
  if KeyDescVer =? KEY_DESC_AES then
    digest ← RT_HMAC_SHA1 PTK LEN_PTK_KCK buf len digest SHA1_DIGEST_SIZE;
    Some (take 16 digest)
  else if KeyDescVer =? KEY_DESC_TKIP then RT_HMAC_MD5 PTK LEN_PTK_KCK buf len (zeros 16) 16
  else if KeyDescVer =? KEY_DESC_EXT then
    kck ← load PTK 0 LEN_PTK_KCK;
    text ← load buf 0 len;
    '(mic, _) ← AES_CMAC E text len kck LEN_PTK_KCK (zeros 16) 16;
    Some mic
  else Some (zeros 16).

Definition CalculateMIC (E : env) (KeyDescVer : Z) (PTK : list Z) (pMsg : EAPOL_PACKET) : option EAPOL_PACKET :=
  if negb (kmalloc E 512) then Some pMsg
  else
    let FrameLen := CONV_ARRARY_TO_UINT16 (Body_Len pMsg) + 4 in
    frame ← load (packet_bytes pMsg) 0 FrameLen;
    OutBuffer ← store (local_array E 512) 0 frame;
    mic ← eapol_mic E (local_array E 80) KeyDescVer PTK OutBuffer FrameLen;
    Some (set_KeyMic pMsg mic).

(** The bits of [KeyInfo] that a message type sets. *)
Definition construct_info (bWPA2 : bool) (KeyDescVer_ MsgType DefaultKeyIdx : Z) (k : KEY_INFO) : KEY_INFO :=
  {| KeyMicBit := if MsgType =? EAPOL_PAIR_MSG_1 then KeyMicBit k else 1;
     Secure := if (bWPA2 && (EAPOL_PAIR_MSG_3 <=? MsgType)) || (negb bWPA2 && (EAPOL_GROUP_MSG_1 <=? MsgType))
               then 1 else Secure k;
     Error_ := Error_ k;
     Request := Request k;
     EKD_DL := if bWPA2 && ((MsgType =? EAPOL_PAIR_MSG_3) || (MsgType =? EAPOL_GROUP_MSG_1)) then 1 else EKD_DL k;
     Rsvd := Rsvd k;
     KeyDescVer := KeyDescVer_;
     KeyType := if EAPOL_GROUP_MSG_1 <=? MsgType then GROUPKEY else PAIRWISEKEY;
     KeyIndex := if negb bWPA2 && (EAPOL_GROUP_MSG_1 <=? MsgType) then DefaultKeyIdx & 3 else KeyIndex k;
     Install := if MsgType =? EAPOL_PAIR_MSG_3 then 1 else Install k;
     KeyAck := if (MsgType =? EAPOL_PAIR_MSG_1) || (MsgType =? EAPOL_PAIR_MSG_3) || (MsgType =? EAPOL_GROUP_MSG_1)
               then 1 else KeyAck k |}.

(** [KeyLength[1]], when the message type sets it. *)
Definition construct_key_length (bWPA2 : bool) (WepStatus GroupKeyWepStatus MsgType : Z) (l : list Z) : list Z :=
  if bWPA2 then
    if (MsgType =? EAPOL_PAIR_MSG_1) || (MsgType =? EAPOL_PAIR_MSG_3)
    then l.[1 <- if WepStatus =? Ndis802_11Encryption2Enabled then LEN_TKIP_TK else LEN_AES_TK] else l
  else if EAPOL_GROUP_MSG_1 <=? MsgType
    then l.[1 <- if GroupKeyWepStatus =? Ndis802_11Encryption2Enabled then LEN_TKIP_GTK else LEN_AES_GTK]
    else l.[1 <- if WepStatus =? Ndis802_11Encryption2Enabled then LEN_TKIP_TK else LEN_AES_TK].

Definition construct_version (pEntry : wpa_entry) (GroupKeyWepStatus : Z) : Z :=
  if (WepStatus pEntry =? Ndis802_11Encryption3Enabled) || (GroupKeyWepStatus =? Ndis802_11Encryption3Enabled)
  then KEY_DESC_AES else KEY_DESC_TKIP.

Definition ConstructEapolMsg (E : env) (pEntry : wpa_entry) (GroupKeyWepStatus MsgType DefaultKeyIdx : Z)
    (Nonce TxRSC GTK RSNIE : option (list Z)) (RSNIE_Len : Z) (pMsg : EAPOL_PACKET) : option EAPOL_PACKET :=
  let bWPA2 := is_WPA2 pEntry in
  let version := construct_version pEntry GroupKeyWepStatus in
  nonce ← (if (MsgType <=? EAPOL_PAIR_MSG_3) || (negb bWPA2 && (MsgType =? EAPOL_GROUP_MSG_1))
           then n ← Nonce; load n 0 LEN_KEY_DESC_NONCE else Some (KeyNonce pMsg));
  iv ← (if negb bWPA2 && (MsgType =? EAPOL_GROUP_MSG_1)
        then n ← Nonce; iv ← load n 16 LEN_KEY_DESC_IV; Some (iv.[15 <- u8 (iv.[15] + 2)])
        else Some (KeyIv pMsg));
  rsc ← (if ((MsgType =? EAPOL_PAIR_MSG_3) && bWPA2) || (MsgType =? EAPOL_GROUP_MSG_1)
         then r ← TxRSC; r ← load r 0 6; store (KeyRsc pMsg) 0 r else Some (KeyRsc pMsg));
  let pMsg :=
    {| ProVer := EAPOL_VER; ProType := EAPOLKey; Body_Len := SET_UINT16_TO_ARRARY MIN_LEN_OF_EAPOL_KEY_MSG;
       DescType := if bWPA2 then WPA2_KEY_DESC else WPA1_KEY_DESC;
       KeyInfo := construct_info bWPA2 version MsgType DefaultKeyIdx (KeyInfo pMsg);
       KeyLength := construct_key_length bWPA2 (WepStatus pEntry) GroupKeyWepStatus MsgType (KeyLength pMsg);
       ReplayCounter := R_Counter pEntry; KeyNonce := nonce; KeyIv := iv; KeyRsc := rsc; KeyId := KeyId pMsg;
       KeyMic := zeros 16; KeyDataLen := KeyDataLen pMsg; KeyData := KeyData pMsg |} in
  pMsg ← ConstructEapolKeyData E pEntry GroupKeyWepStatus version MsgType DefaultKeyIdx GTK RSNIE RSNIE_Len pMsg;
  if MsgType =? EAPOL_PAIR_MSG_1 then Some pMsg else CalculateMIC E version (PTK pEntry) pMsg.

(** ** References *)

(** The EAPOL-Key MIC of IEEE 802.11i 8.5.2, by key descriptor version: HMAC-MD5
    for version 1, HMAC-SHA1-128 for 2, AES-128-CMAC for 3.  No other version has
    a MIC. *)
Definition eapol_mic_ref (version : Z) (kck data : list Z) : option (list Z) :=
  if version =? 2 then Some (take 16 (hmac sha1 kck data))
  else if version =? 1 then Some (hmac md5 kck data)
  else if version =? 3 then Some (cmac kck data)
  else None.

(** What the code has in its [mic] array after its three tests: the MIC of the
    three versions, and for any other version the zeros the array began with. *)
Definition eapol_mic_array (version : Z) (kck data : list Z) : list Z :=
  default (zeros 16) (eapol_mic_ref version kck data).

(** The memory the ciphers need. *)
Definition cipher_memory (E : env) : Prop :=
  kmalloc E sizeof_AES_CTX_STRUC = true ∧ kmalloc E 264 = true.

Lemma eapol_mic_ok E digest version PTK buf (len : nat) :
  cipher_memory E → bytes PTK → length PTK = 64%nat → length digest = 80%nat →
  bytes (take len buf) → (len <= length buf)%nat → Z.of_nat len < 2 ^ 17 →
  eapol_mic E digest version PTK buf (Z.of_nat len) = Some (eapol_mic_array version (take 16 PTK) (take len buf)).
Proof.
  intros [HA HR] HP HlP Hd Hb Hl Hn.
  assert (message (take 16 PTK)) as Hk by (apply message_short; [by apply Forall_take|rewrite length_take; lia]).
  assert (message (take len buf)) as Hm by (split; [done|rewrite length_take; lia]).
  unfold eapol_mic, eapol_mic_array, eapol_mic_ref, KEY_DESC_AES, KEY_DESC_TKIP, KEY_DESC_EXT, LEN_PTK_KCK.
  destruct (version =? 2); cbn [from_option].
  { pose proof (RT_HMAC_SHA1_ok PTK 16 buf len digest 20 ltac:(lia) Hl Hk Hm ltac:(lia) ltac:(lia)) as HH.
    rewrite (take_ge (hmac _ _ _)) in HH by (rewrite length_hmac_sha1; lia).
    change SHA1_DIGEST_SIZE with (Z.of_nat 20). change 16 with (Z.of_nat 16) at 1. rewrite HH, Some_bind.
    by rewrite take_put_first by (rewrite length_hmac_sha1; lia). }
  destruct (version =? 1); cbn [from_option].
  { pose proof (RT_HMAC_MD5_ok PTK 16 buf len (zeros 16) 16 ltac:(lia) Hl Hk Hm) as HH.
    rewrite length_zeros in HH. specialize (HH ltac:(lia) ltac:(lia)).
    rewrite (take_ge (hmac _ _ _)) in HH by (rewrite length_hmac_md5; lia).
    change 16 with (Z.of_nat 16). rewrite HH. f_equal. apply put_whole.
    unfold id. by rewrite length_hmac_md5. }
  destruct (version =? 3); cbn [from_option]; [|done].
  assert (load PTK 0 16 = Some (take 16 PTK)) as -> by (rewrite load_ok by lia; done).
  rewrite Some_bind, load_ok, Some_bind by lia. change (Z.to_nat 0) with 0%nat. rewrite Nat2Z.id.
  change (slice buf 0 len) with (take len buf).
  assert (Z.of_nat len = Z.of_nat (length (take len buf))) as -> by (rewrite length_take; lia).
  assert (bytes (take 16 PTK)) as Hkb by (by apply Forall_take).
  assert (length (take 16 PTK) = 16%nat) as Hkl by (rewrite length_take; lia).
  rewrite (AES_CMAC_ok E _ Hkb Hkl HA), Some_bind by (done || (rewrite ?length_take; cbn; lia)).
  f_equal. apply put_whole. by destruct (block_cmac _ Hkb Hkl (take len buf) Hb).
Qed.

Lemma field_mic_ref version kck data :
  bytes kck → length kck = 16%nat → bytes data → field 16 (eapol_mic_array version kck data).
Proof.
  intros Hk Hl Hd. unfold eapol_mic_array, eapol_mic_ref. repeat case_match; cbn [default from_option id].
  - split; [rewrite length_take, length_hmac_sha1; lia|]. apply Forall_take, bytes_hmac_sha1.
  - split; [apply length_hmac_md5|apply bytes_hmac_md5].
  - by apply block_cmac.
  - split; [done|by apply fits_zeros].
Qed.

(** Enough memory for everything the messages need. *)
Definition ample (E : env) : Prop := ∀ n, 0 <= n <= 2000 → kmalloc E n = true.

(** The RSN IE of a buffer [ie] of which [n] bytes are used. *)
Definition rsn_ie (ie : list Z) (n : nat) : list Z :=
  [if bool_decide (slice ie 2 3 = OUI_WPA2) then IE_RSN else IE_WPA; Z.of_nat n] ++ take n ie.

Definition gtk_kde (idx : Z) (gtk : list Z) : list Z :=
  [WPA_KDE_TYPE; Z.of_nat (6 + length gtk)] ++ OUI_WPA2 ++ [KDE_GTK; idx & 3; 0] ++ gtk.

Definition gtk_size (GroupKeyWepStatus : Z) : nat :=
  if GroupKeyWepStatus =? Ndis802_11Encryption3Enabled then 16 else 32.

(** Messages that carry the GTK, and those that carry the RSN IE. *)
Definition has_gtk (wpa2 : bool) (mt : Z) : bool := ((mt =? 3) && wpa2) || (mt =? 5).
Definition has_rsn (mt : Z) : bool := (mt =? 2) || (mt =? 3).

Definition plain_key_data (wpa2 : bool) (gws mt idx : Z) (gtk ie : list Z) (n : nat) : list Z :=
  (if has_rsn mt && negb (n =? 0)%nat then rsn_ie ie n else []) ++
  (if has_gtk wpa2 mt
   then let g := take (gtk_size gws) gtk in if wpa2 then gtk_kde idx g else g
   else []).

Definition pad8 (l : list Z) : list Z :=
  if (length l mod 8 =? 0)%nat then l else l ++ 0xdd :: zeros (7 - length l mod 8).

Definition wire_key_data (version mt : Z) (wpa2 : bool) (kek iv l : list Z) : list Z :=
  if has_gtk wpa2 mt then
    if version =? KEY_DESC_AES then rfc3394_wrap kek (pad8 l)
    else xorl l (keystream (gtk_ctx kek iv) (length l))
  else l.

(** ** The parts of the key data *)

Lemma RTMPInsertRSNIE_ok m ie (n : nat) :
  (5 <= length ie)%nat → (0 < n <= length ie)%nat → (n <= 255)%nat → (2 + n <= length m)%nat →
  RTMPInsertRSNIE m 0 0 ie (Z.of_nat n) [] 0 = Some (put m 0 (rsn_ie ie n), Z.of_nat (2 + n)).
Proof.
  intros H5 Hn H255 Hm. unfold RTMPInsertRSNIE. cbn [Z.ltb Z.compare andb].
  rewrite (proj2 (Z.eqb_neq (Z.of_nat n) 0)) by lia.
  rewrite (load_ok ie 2 3), Some_bind by lia. rewrite (load_ok ie 0), Some_bind by lia.
  change (Z.to_nat 0) with 0%nat. change (Z.to_nat 2) with 2%nat. change (Z.to_nat 3) with 3%nat.
  rewrite Nat2Z.id, Z.add_0_r, u8_small by (unfold fits; lia). change (slice ie 0 n) with (take n ie).
  assert (∀ b : bool, (if b then Z.of_nat n else Z.of_nat n) = Z.of_nat n) as Hif by (by intros []).
  cbv zeta. rewrite !Z.add_0_r, Hif. fold (rsn_ie ie n).
  assert (length (rsn_ie ie n) = 2 + n)%nat as Hl
    by (unfold rsn_ie; rewrite length_app, length_take; cbn [length]; lia).
  rewrite store_start, Some_bind, andb_false_r by lia. do 2 f_equal. lia.
Qed.

Lemma length_rsn_ie ie n : (n <= length ie)%nat → length (rsn_ie ie n) = (2 + n)%nat.
Proof. intros H. unfold rsn_ie. rewrite length_app, length_take. cbn [length]. lia. Qed.

Lemma bytes_rsn_ie ie n : bytes ie → (n <= 255)%nat → bytes (rsn_ie ie n).
Proof.
  intros Hb Hn. unfold rsn_ie. apply Forall_app. split; [|by apply Forall_take].
  apply Forall_cons. split; [destruct (bool_decide _); unfold IE_RSN, IE_WPA, fits; lia|].
  apply Forall_singleton. unfold fits. lia.
Qed.

Lemma length_gtk_kde idx g : length (gtk_kde idx g) = (8 + length g)%nat.
Proof. unfold gtk_kde, OUI_WPA2. rewrite !length_app. cbn [length]. lia. Qed.

Lemma bytes_gtk_kde idx g : bytes g → (length g <= 200)%nat → bytes (gtk_kde idx g).
Proof.
  intros Hg Hl. unfold gtk_kde. rewrite !Forall_app. split_and!; [| bytes_table | |done].
  - apply Forall_cons. split; [unfold WPA_KDE_TYPE, fits; lia|]. apply Forall_singleton. unfold fits. lia.
  - rewrite !Forall_cons. split_and!; [unfold KDE_GTK, fits; lia| |unfold fits; lia|constructor].
    change 3 with (Z.ones 2). rewrite Z.land_ones by lia. pose proof (Z.mod_pos_bound idx (2 ^ 2)). unfold fits. lia.
Qed.

(** The GTK behind the data written so far. *)
Lemma insert_gtk_ok (wpa2 : bool) gws idx gtk m d :
  (gtk_size gws <= length gtk)%nat → (length d + 8 + gtk_size gws <= length m)%nat →
  let g := take (gtk_size gws) gtk in
  let d' := d ++ (if wpa2 then gtk_kde idx g else g) in
  insert_gtk wpa2 gws idx (Some gtk) (put m 0 d) (Z.of_nat (length d)) = Some (put m 0 d', Z.of_nat (length d')).
Proof.
  intros Hg Hm. cbv zeta.
  assert ((if gws =? Ndis802_11Encryption3Enabled then LEN_AES_GTK else LEN_TKIP_GTK) = Z.of_nat (gtk_size gws)) as Hs
    by (unfold gtk_size; by destruct (_ =? _)).
  assert (length (take (gtk_size gws) gtk) = gtk_size gws) as Hlg by (rewrite length_take; lia).
  assert ((gtk_size gws <= 32)%nat) as H32 by (unfold gtk_size; destruct (_ =? _); lia).
  unfold insert_gtk. rewrite Hs. set (n := gtk_size gws) in *. set (g := take n gtk) in *.
  assert (load gtk 0 (Z.of_nat n) = Some g) as Hload
    by (rewrite load_ok by lia; change (Z.to_nat 0) with 0%nat; by rewrite Nat2Z.id).
  destruct wpa2.
  - unfold WPA_ConstructKdeHdr. set (h1 := [WPA_KDE_TYPE; u8 (4 + (2 + Z.of_nat n))] ++ OUI_WPA2 ++ [KDE_GTK]).
    assert (length h1 = 6%nat) as Hh by done.
    rewrite store_next, Some_bind by lia.
    replace (Z.of_nat (length d) + 6) with (Z.of_nat (length (d ++ h1))) by (rewrite length_app; lia).
    rewrite store_next, !Some_bind by (rewrite length_app; cbn [length]; lia). rewrite Hload, Some_bind.
    replace (Z.of_nat (length (d ++ h1)) + 2) with (Z.of_nat (length ((d ++ h1) ++ [idx & 3; 0])))
      by (rewrite (length_app _ [_; _]); cbn [length]; lia).
    rewrite store_next, Some_bind by (rewrite !length_app; cbn [length]; lia).
    assert (((d ++ h1) ++ [idx & 3; 0]) ++ g = d ++ gtk_kde idx g) as ->.
    { rewrite <- !app_assoc. unfold h1, gtk_kde. rewrite Hlg, u8_small by (unfold fits; lia).
      replace (4 + (2 + Z.of_nat n)) with (Z.of_nat (6 + n)) by lia. done. }
    do 2 f_equal. rewrite !length_app, length_gtk_kde. cbn [length]. lia.
  - rewrite !Some_bind, Hload, Some_bind, store_next, Some_bind by lia. do 2 f_equal. rewrite length_app. lia.
Qed.

Lemma length_pad8 l : length (pad8 l) = (8 * ((length l + 7) / 8))%nat.
Proof.
  unfold pad8. pose proof (Nat.div_mod_eq (length l) 8). pose proof (Nat.mod_upper_bound (length l) 8).
  pose proof (Nat.div_mod_eq (length l + 7) 8). pose proof (Nat.mod_upper_bound (length l + 7) 8).
  destruct (Nat.eqb_spec (length l mod 8) 0); [lia|]. rewrite length_app. cbn [length]. rewrite length_zeros. lia.
Qed.

Lemma bytes_pad8 l : bytes l → bytes (pad8 l).
Proof.
  intros H. unfold pad8. destruct (_ =? _)%nat; [done|]. apply Forall_app. split; [done|].
  apply Forall_cons. split; [unfold fits; lia|]. by apply fits_zeros.
Qed.

Lemma pad_key_data_ok m d :
  (length (pad8 d) <= length m)%nat →
  pad_key_data (put m 0 d) (Z.of_nat (length d)) = Some (put m 0 (pad8 d), Z.of_nat (length (pad8 d))).
Proof.
  intros Hm. unfold pad_key_data. change 0x07 with (Z.ones 3). rewrite Z.land_ones by lia. change (2 ^ 3) with 8.
  replace (Z.of_nat (length d) mod 8) with (Z.of_nat (length d mod 8)) by (rewrite Nat2Z.inj_mod; lia).
  pose proof (Nat.mod_upper_bound (length d) 8). pose proof (length_pad8 d) as Hp. unfold pad8 in *.
  destruct (Nat.eqb_spec (length d mod 8) 0) as [E|E].
  - rewrite E. done.
  - rewrite (proj2 (Z.eqb_neq (Z.of_nat (length d mod 8)) 0)) by lia.
    replace (Z.to_nat (8 - Z.of_nat (length d mod 8) - 1)) with (7 - length d mod 8)%nat by lia.
    rewrite store_next, Some_bind by (rewrite length_app in Hm; lia). do 2 f_equal.
    rewrite length_app. cbn [length]. rewrite length_zeros. lia.
Qed.

(** ** The key data field *)

(** What the callers of [ConstructEapolMsg] provide: memory, a derived PTK,
    the GTK and the RSN IE of [n] bytes where the message carries them. *)
Record construct_args (E : env) (e : wpa_entry) (mt : Z) (GTK RSNIE : option (list Z)) (gtk ie : list Z) (n : nat)
    : Prop := {
  args_memory : ample E;
  args_ptk : field 64 (PTK e);
  args_GTK : has_gtk (is_WPA2 e) mt = true → GTK = Some gtk;
  args_gtk : (32 <= length gtk)%nat ∧ bytes gtk;
  args_RSNIE : has_rsn mt = true → n ≠ 0%nat → RSNIE = Some ie;
  args_ie : (5 <= length ie)%nat ∧ (n <= length ie)%nat ∧ (n <= 255)%nat ∧ bytes ie;
}.

Definition pairwise_kek (ptk : list Z) : list Z := slice ptk 16 16.

Lemma gtk_size_le gws : (gtk_size gws <= 32)%nat.
Proof. unfold gtk_size. destruct (_ =? _); lia. Qed.

Lemma length_plain_key_data wpa2 gws mt idx gtk ie n :
  (32 <= length gtk)%nat → (n <= length ie)%nat → (n <= 255)%nat →
  (length (plain_key_data wpa2 gws mt idx gtk ie n) <= 42 + n)%nat.
Proof.
  intros Hg Hi Hn. pose proof (gtk_size_le gws). unfold plain_key_data. rewrite length_app.
  assert (length (if has_rsn mt && negb (n =? 0)%nat then rsn_ie ie n else []) <= 2 + n)%nat
    by (destruct (_ && _); [rewrite length_rsn_ie by lia|cbn [length]]; lia).
  cbv zeta. match goal with |- (_ + ?x <= _)%nat => assert (x <= 40)%nat; [|lia] end.
  destruct (has_gtk _ _); [destruct wpa2; rewrite ?length_gtk_kde, length_take|cbn [length]]; lia.
Qed.

Lemma bytes_plain_key_data wpa2 gws mt idx gtk ie n :
  bytes gtk → bytes ie → (n <= 255)%nat → bytes (plain_key_data wpa2 gws mt idx gtk ie n).
Proof.
  intros Hg Hi Hn. pose proof (gtk_size_le gws). unfold plain_key_data. cbv zeta. apply Forall_app. split.
  - destruct (_ && _); [by apply bytes_rsn_ie|constructor].
  - assert (bytes (take (gtk_size gws) gtk)) by (by apply Forall_take).
    destruct (has_gtk _ _); [destruct wpa2|constructor]; [|done].
    apply bytes_gtk_kde; [done|]. rewrite length_take. lia.
Qed.

Lemma fill_key_data_ok p src (n b : nat) :
  (n <= length src)%nat → (n <= length (KeyData p))%nat → Body_Len p = SET_UINT16_TO_ARRARY (Z.of_nat b) →
  Z.of_nat (b + n) < 65536 →
  fill_key_data p src (Z.of_nat n) =
    Some (set_data p (SET_UINT16_TO_ARRARY (Z.of_nat (b + n))) (SET_UINT16_TO_ARRARY (Z.of_nat n))
                   (put (KeyData p) 0 (take n src))).
Proof.
  intros Hs Hd Hb Hn. unfold fill_key_data. rewrite (load_ok src), Some_bind by lia.
  change (Z.to_nat 0) with 0%nat. rewrite Nat2Z.id. change (slice src 0 n) with (take n src).
  rewrite store_start, Some_bind by (rewrite length_take; lia). rewrite Hb.
  assert (u16 (Z.of_nat b) = Z.of_nat b) as Hu by (apply Z.mod_small; lia).
  rewrite INC_SET by (rewrite ?SET_CONV, ?Hu; apply field_SET || lia).
  rewrite SET_CONV, Hu, Nat2Z.inj_add. done.
Qed.

(** The reference of the finished packet. *)
Definition with_key_data (p : EAPOL_PACKET) (mt : Z) (w : list Z) : EAPOL_PACKET :=
  if (mt =? 1) || (mt =? 4) || (mt =? 6) then p
  else set_data p (SET_UINT16_TO_ARRARY (Z.of_nat (95 + length w))) (SET_UINT16_TO_ARRARY (Z.of_nat (length w)))
                (put (KeyData p) 0 w).

Lemma ample_wrap E kek m : ample E → field 16 kek → (m <= 2000)%nat → wrap_args E kek m.
Proof.
  intros HE [Hl Hb] Hm. unfold wrap_args. rewrite !HE by (unfold sizeof_AES_CTX_STRUC; lia). rewrite Hl.
  split_and!; try done. lia.
Qed.

Lemma gtk_ctx_wf kek iv : arc4_wf (gtk_ctx kek iv).
Proof. apply ARC4_Discard_wf, ARC4_INIT_wf. Qed.

Lemma wire_bounds E version mt wpa2 kek iv l :
  ample E → field 16 kek → bytes l → field 16 iv → (length l <= 320)%nat →
  let w := wire_key_data version mt wpa2 kek iv l in
  bytes w ∧ (length w <= length l + 15)%nat.
Proof.
  intros HE Hk Hl Hiv Hn. cbv zeta. unfold wire_key_data.
  destruct (has_gtk _ _); [|split; [done|lia]]. destruct (_ =? _).
  - assert (length (pad8 l) <= length l + 7)%nat as Hp
      by (rewrite length_pad8; pose proof (Nat.Div0.mul_div_le (length l + 7) 8); lia).
    destruct (AES_Key_Wrap_call E kek (pad8 l) (length (pad8 l)) (zeros 512)) as (_ & Hw & Hb).
    + apply ample_wrap; [done..|lia].
    + done.
    + by apply Forall_take, bytes_pad8.
    + pose proof (Nat.Div0.mul_div_le (length (pad8 l)) 8). lia.
    + rewrite length_zeros. lia.
    + rewrite take_ge in Hw, Hb by done. rewrite Hw. split; [done|lia].
  - split.
    + apply xorl_bytes; [done|]. by apply keystream_bytes, gtk_ctx_wf.
    + rewrite length_xorl by (by rewrite length_keystream). lia.
Qed.

Lemma field_kck ptk : field 64 ptk → field 16 (take 16 ptk).
Proof. intros [Hl Hb]. split; [rewrite length_take; lia|by apply Forall_take]. Qed.

Lemma field_kek ptk : field 64 ptk → field 16 (pairwise_kek ptk) ∧ load ptk LEN_PTK_KCK LEN_PTK_KEK = Some (pairwise_kek ptk).
Proof.
  intros [Hl Hb]. split; [split; [by apply length_slice; lia|by apply bytes_slice]|].
  rewrite load_ok; [done|unfold LEN_PTK_KCK, LEN_PTK_KEK; lia..].
Qed.

Section KeyData.
Context (E : env) (e : wpa_entry) (mt : Z) (GTK RSNIE : option (list Z)) (gtk ie : list Z) (n : nat).
Context (args : construct_args E e mt GTK RSNIE gtk ie n).
Context (gws idx version : Z).

Let plain := plain_key_data (is_WPA2 e) gws mt idx gtk ie n.
Let kek := pairwise_kek (PTK e).

(** The RSN IE, at the start of the buffer. *)
Lemma rsn_part m :
  (512 <= length m)%nat →
  (if negb (Z.of_nat n =? 0) && ((mt =? EAPOL_PAIR_MSG_2) || (mt =? EAPOL_PAIR_MSG_3))
   then ie ← RSNIE; RTMPInsertRSNIE m 0 0 ie (Z.of_nat n) [] 0 else Some (m, 0)) =
  let d := if has_rsn mt && negb (n =? 0)%nat then rsn_ie ie n else [] in
  Some (put m 0 d, Z.of_nat (length d)).
Proof.
  intros Hm. destruct args as [_ _ _ _ HR (H5 & Hn & H255 & _)].
  change ((mt =? EAPOL_PAIR_MSG_2) || (mt =? EAPOL_PAIR_MSG_3)) with (has_rsn mt). cbv zeta.
  destruct (Nat.eqb_spec n 0) as [->|Hnz].
  { rewrite andb_false_r. done. }
  rewrite (proj2 (Z.eqb_neq (Z.of_nat n) 0)), andb_true_r by lia. cbn [negb andb].
  destruct (has_rsn mt); [|done]. rewrite HR, Some_bind by done.
  rewrite RTMPInsertRSNIE_ok by lia. by rewrite length_rsn_ie by lia.
Qed.

Lemma key_data_bounds : bytes plain ∧ (length plain <= 297)%nat.
Proof.
  destruct args as [_ _ _ [Hg Hgb] _ (H5 & Hn & H255 & Hib)]. split.
  - by apply bytes_plain_key_data.
  - pose proof (length_plain_key_data (is_WPA2 e) gws mt idx gtk ie n Hg Hn H255). subst plain. lia.
Qed.

Lemma ConstructEapolKeyData_ok p :
  Body_Len p = SET_UINT16_TO_ARRARY 95 → (400 <= length (KeyData p))%nat → field 16 (KeyIv p) →
  (mt = 2 ∨ mt = 3 ∨ mt = 5 ∨ (mt = 1 ∨ mt = 4 ∨ mt = 6)) →
  ConstructEapolKeyData E e gws version mt idx GTK RSNIE (Z.of_nat n) p =
    Some (with_key_data p mt (wire_key_data version mt (is_WPA2 e) kek (KeyIv p) plain)).
Proof.
  intros HB HK [Hiv Hivb] Hmt. unfold ConstructEapolKeyData, with_key_data.
  unfold EAPOL_PAIR_MSG_1, EAPOL_PAIR_MSG_4, EAPOL_GROUP_MSG_2.
  destruct ((mt =? 1) || (mt =? 4) || (mt =? 6)) eqn:Hno; [done|].
  destruct args as [HE HP HG [Hg Hgb] HR (H5 & Hn & H255 & Hib)].
  rewrite HE by lia. cbn [negb].
  destruct key_data_bounds as [Hpb Hpl]. fold plain.
  pose proof (wire_bounds E version mt (is_WPA2 e) kek (KeyIv p) plain HE (proj1 (field_kek _ HP)) Hpb
    (conj Hiv Hivb) ltac:(lia)) as [_ Hw].
  set (m := put (local_array E 988) 0 (zeros 512)).
  assert (length m = 988%nat) as Hm by (unfold m; by rewrite length_put, length_local_array).
  rewrite (rsn_part m), Some_bind by lia. cbv zeta.
  set (d := if has_rsn mt && negb (n =? 0)%nat then rsn_ie ie n else []) in *.
  assert (plain = d ++ (if has_gtk (is_WPA2 e) mt
     then if is_WPA2 e then gtk_kde idx (take (gtk_size gws) gtk) else take (gtk_size gws) gtk else [])) as Hplain
    by done.
  change ((mt =? EAPOL_PAIR_MSG_3) && is_WPA2 e || (mt =? EAPOL_GROUP_MSG_1)) with (has_gtk (is_WPA2 e) mt).
  unfold wire_key_data in *. destruct (has_gtk (is_WPA2 e) mt) eqn:Hgtk.
  - rewrite HG by done. pose proof (gtk_size_le gws).
    assert (length d <= 257)%nat as Hd.
    { unfold d. destruct (_ && _); [rewrite length_rsn_ie by lia|cbn [length]]; lia. }
    rewrite insert_gtk_ok, Some_bind by lia. cbv beta match. rewrite <- Hplain.
    destruct (field_kek _ HP) as [Hkek ->]. rewrite Some_bind. fold kek in Hkek |- *. pose proof (proj1 Hkek) as Hlk.
    destruct (version =? KEY_DESC_AES).
    + pose proof (length_pad8 plain) as Hp8. pose proof (Nat.Div0.mul_div_le (length plain + 7) 8).
      rewrite pad_key_data_ok, Some_bind by lia. cbv beta match.
      replace LEN_PTK_KEK with (Z.of_nat (length kek)) by (by rewrite Hlk).
      destruct (AES_Key_Wrap_call E kek (put m 0 (pad8 plain)) (length (pad8 plain)) (local_array E 512)) as (-> & Hwl & Hwb).
      * apply ample_wrap; [done..|lia].
      * rewrite length_put. lia.
      * rewrite take_put_start by lia. by apply bytes_pad8.
      * pose proof (Nat.Div0.mul_div_le (length (pad8 plain)) 8). lia.
      * rewrite length_local_array. lia.
      * rewrite Some_bind. cbn [default from_option id]. rewrite take_put_start in * by lia.
        rewrite (fill_key_data_ok _ _ _ 95); [|rewrite ?length_put, ?length_local_array; cbn [KeyData Body_Len set_data]; (done || lia)..].
        rewrite <- Hwl, take_put_start by (rewrite length_local_array; lia).
        rewrite Hwl. done.
    + pose proof (TKIP_GTK_KEY_WRAP_eq E kek (KeyIv p) (local_array E 512 ++ put m 0 plain) 512 (length plain) 0) as HW.
      rewrite Nat2Z.id. cbn [KeyIv set_data]. change (Z.of_nat 512) with 512 in HW. change (Z.of_nat 0) with 0 in HW.
      rewrite HW, Some_bind by (rewrite ?length_app, ?length_put, ?length_local_array, ?Hlk; first [apply HE; lia | lia]).
      clear HW.
      set (w := xorl plain (keystream (gtk_ctx kek (KeyIv p)) (length plain))) in *.
      assert (slice (local_array E 512 ++ put m 0 plain) 512 (length plain) = plain) as ->.
      { unfold slice. rewrite drop_app_length' by (by rewrite length_local_array). by rewrite take_put_start by lia. }
      fold w. assert (length w = length plain) as Hwl by (unfold w; by rewrite length_xorl by (by rewrite length_keystream)).
      rewrite <- Hwl in *.
      rewrite (fill_key_data_ok _ _ _ 95); cbn [KeyData Body_Len set_data].
      2-5: rewrite ?length_take, ?length_put, ?length_app, ?length_local_array; (done || lia).
      assert (take (length w) (take 512 (put (local_array E 512 ++ put m 0 plain) 0 w)) = w) as ->; [|done].
      rewrite take_take, Nat.min_l, take_put_start by (rewrite ?length_app, ?length_local_array; lia). done.
  - rewrite (fill_key_data_ok _ _ _ 95); cbn [KeyData Body_Len set_data].
    2-5: rewrite ?length_put; (done || (rewrite Hplain, app_nil_r in *; lia)).
    rewrite Hplain, app_nil_r, take_put_start by (rewrite Hplain, app_nil_r in Hpl; lia). done.
Qed.
End KeyData.

(** ** The frame

    IEEE 802.11i 8.5.2: the EAPOL-Key frame with its Key Information word. *)

Definition key_info_word (wpa2 : bool) (version mt idx : Z) : Z :=
  let group := if wpa2 then 0 else Z.shiftl (idx & 3) 4 in
  version + (if mt =? 1 then 0x0088 else if mt =? 2 then 0x0108
             else if mt =? 3 then (if wpa2 then 0x13c8 else 0x01c8)
             else if mt =? 4 then (if wpa2 then 0x0308 else 0x0108)
             else if mt =? 5 then (if wpa2 then 0x1380 else 0x0380) + group
             else 0x0300 + group).

(** Everything of a message but its type: the fields in front of the MIC, the
    MIC key and the key data as sent. *)
Record eapol_message := {
  m_wpa2 : bool;
  m_version : Z;
  m_type : Z;
  m_idx : Z;
  m_keylen : Z;
  m_counter : list Z;
  m_nonce : list Z;
  m_iv : list Z;
  m_rsc : list Z;
  m_data : list Z;
}.

Definition frame_header (m : eapol_message) (mic : list Z) : list Z :=
  [EAPOL_VER; EAPOLKey] ++ be_bytes 2 (95 + Z.of_nat (length (m_data m))) ++
  [if m_wpa2 m then WPA2_KEY_DESC else WPA1_KEY_DESC] ++
  be_bytes 2 (key_info_word (m_wpa2 m) (m_version m) (m_type m) (m_idx m)) ++ be_bytes 2 (m_keylen m) ++
  m_counter m ++ m_nonce m ++ m_iv m ++ m_rsc m ++ zeros 8 ++ mic ++ be_bytes 2 (Z.of_nat (length (m_data m))).

Definition frame_mic (m : eapol_message) (kck : list Z) : list Z :=
  if m_type m =? 1 then zeros 16
  else eapol_mic_array (m_version m) kck (frame_header m (zeros 16) ++ m_data m).

Definition eapol_frame (m : eapol_message) (kck : list Z) : list Z :=
  frame_header m (frame_mic m kck) ++ m_data m.

Definition message_wf (m : eapol_message) : Prop :=
  (m_version m = 1 ∨ m_version m = 2) ∧ 1 <= m_type m <= 6 ∧ byte (m_keylen m) ∧ field 8 (m_counter m) ∧
  field 32 (m_nonce m) ∧ field 16 (m_iv m) ∧ field 8 (m_rsc m) ∧ bytes (m_data m) ∧
  (length (m_data m) <= 400)%nat.

(** What [ConstructEapolMsg] is asked to send. *)
Definition message_of (e : wpa_entry) (gws mt idx : Z) (nonce rsc gtk ie : list Z) (n : nat) : eapol_message :=
  let wpa2 := is_WPA2 e in
  let version := construct_version e gws in
  let group1 := negb wpa2 && (mt =? 5) in
  let iv := if group1 then (slice nonce 16 16).[15 <- u8 (nonce.[31] + 2)] else zeros 16 in
  let tkip s := if s =? Ndis802_11Encryption2Enabled then 32 else 16 in
  {| m_wpa2 := wpa2; m_version := version; m_type := mt; m_idx := idx;
     m_keylen := if wpa2 then (if (mt =? 1) || (mt =? 3) then tkip (WepStatus e) else 0)
                 else if 5 <=? mt then tkip gws else tkip (WepStatus e);
     m_counter := R_Counter e;
     m_nonce := if (mt <=? 3) || group1 then take 32 nonce else zeros 32;
     m_iv := iv;
     m_rsc := if has_gtk wpa2 mt then take 6 rsc ++ zeros 2 else zeros 8;
     m_data := if (mt =? 1) || (mt =? 4) || (mt =? 6) then []
               else wire_key_data version mt wpa2 (pairwise_kek (PTK e)) iv
                      (plain_key_data wpa2 gws mt idx gtk ie n) |}.

(** The packet that holds a message, with [rest] behind the fixed part. *)
Definition packet_for (m : eapol_message) (mic rest : list Z) : EAPOL_PACKET :=
  {| ProVer := EAPOL_VER; ProType := EAPOLKey; Body_Len := be_bytes 2 (95 + Z.of_nat (length (m_data m)));
     DescType := if m_wpa2 m then WPA2_KEY_DESC else WPA1_KEY_DESC;
     KeyInfo := key_info_of (be_bytes 2 (key_info_word (m_wpa2 m) (m_version m) (m_type m) (m_idx m)));
     KeyLength := be_bytes 2 (m_keylen m); ReplayCounter := m_counter m; KeyNonce := m_nonce m; KeyIv := m_iv m;
     KeyRsc := m_rsc m; KeyId := zeros 8; KeyMic := mic;
     KeyDataLen := be_bytes 2 (Z.of_nat (length (m_data m))); KeyData := rest |}.

Lemma bytes_be_2 x : bytes (be_bytes 2 x).
Proof. apply bytes_be_bytes. Qed.

Lemma packet_for_wf m mic rest : message_wf m → field 16 mic → bytes rest → packet_wf (packet_for m mic rest).
Proof.
  intros (Hv & Ht & Hk & Hc & Hn & Hi & Hr & Hd & Hl) Hm Hb. unfold packet_wf, packet_for.
  cbn [ProVer ProType Body_Len DescType KeyInfo KeyLength ReplayCounter KeyNonce KeyIv KeyRsc KeyId KeyMic KeyDataLen KeyData].
  assert (∀ x, field 2 (be_bytes 2 x)) as H2 by (intros x; split; [done|apply bytes_be_bytes]).
  split_and!; try done; try apply H2; try apply info_wf_of.
  - by destruct (m_wpa2 m).
  - split; [done|by apply fits_zeros].
Qed.

Lemma packet_header_for m mic rest : packet_header (packet_for m mic rest) = frame_header m mic.
Proof.
  unfold packet_header, packet_for, frame_header.
  cbn [ProVer ProType Body_Len DescType KeyInfo KeyLength ReplayCounter KeyNonce KeyIv KeyRsc KeyId KeyMic KeyDataLen KeyData].
  by rewrite bytes_key_info_of by (done || apply bytes_be_bytes).
Qed.

Lemma packet_of_frame m mic rest :
  message_wf m → field 16 mic → bytes rest → packet_of (frame_header m mic ++ rest) = packet_for m mic rest.
Proof.
  intros Hm Hmic Hr. rewrite <- (packet_header_for m mic rest).
  change (packet_header (packet_for m mic rest) ++ rest) with (packet_bytes (packet_for m mic rest)).
  by apply packet_of_bytes, packet_for_wf.
Qed.

Lemma field_frame_header m mic : message_wf m → field 16 mic → field 99 (frame_header m mic).
Proof.
  intros Hm Hmic. assert (packet_wf (packet_for m mic [])) as Hp by (by apply packet_for_wf).
  rewrite <- (packet_header_for m mic []). split; [by apply length_packet_header|by apply bytes_packet].
Qed.

(** ** [ConstructEapolMsg] builds the frame *)

Lemma key_index_cases idx (P : Z → Prop) : P 0 → P 1 → P 2 → P 3 → P (idx & 3).
Proof.
  intros H0 H1 H2 H3. change 3 with (Z.ones 2). rewrite Z.land_ones by lia. change (2 ^ 2) with 4.
  pose proof (Z.mod_pos_bound idx 4 ltac:(lia)) as H. set (x := idx mod 4) in *. clearbody x.
  assert (x = 0 ∨ x = 1 ∨ x = 2 ∨ x = 3) as Hx by lia. destruct Hx as [->|[->|[->| ->]]]; done.
Qed.

Lemma construct_info_word wpa2 version mt idx :
  version = 1 ∨ version = 2 → 1 <= mt <= 6 →
  construct_info wpa2 version mt idx (key_info_of [0; 0]) = key_info_of (be_bytes 2 (key_info_word wpa2 version mt idx)).
Proof.
  intros Hv Hmt. assert (mt = 1 ∨ mt = 2 ∨ mt = 3 ∨ mt = 4 ∨ mt = 5 ∨ mt = 6) as H by lia.
  unfold construct_info, key_info_word. apply (key_index_cases idx); clear idx;
  destruct Hv as [-> | ->]; destruct H as [->|[->|[->|[->|[->| ->]]]]]; destruct wpa2; vm_compute; reflexivity.
Qed.

Definition tkip_len (s : Z) : Z := if s =? Ndis802_11Encryption2Enabled then 32 else 16.

Lemma construct_key_length_bytes wpa2 ws gws mt :
  construct_key_length wpa2 ws gws mt (zeros 2) =
    be_bytes 2 (if wpa2 : bool then (if (mt =? 1) || (mt =? 3) then tkip_len ws else 0)
                else if 5 <=? mt then tkip_len gws else tkip_len ws).
Proof.
  unfold construct_key_length, tkip_len, EAPOL_PAIR_MSG_1, EAPOL_PAIR_MSG_3, EAPOL_GROUP_MSG_1.
  repeat case_match; reflexivity.
Qed.

Lemma zero_packet_eq n :
  zero_packet n =
    {| ProVer := 0; ProType := 0; Body_Len := zeros 2; DescType := 0; KeyInfo := key_info_of [0; 0];
       KeyLength := zeros 2; ReplayCounter := zeros 8; KeyNonce := zeros 32; KeyIv := zeros 16; KeyRsc := zeros 8;
       KeyId := zeros 8; KeyMic := zeros 16; KeyDataLen := zeros 2; KeyData := zeros n |}.
Proof. reflexivity. Qed.

Lemma SET_be_bytes n : 0 <= n < 65536 → SET_UINT16_TO_ARRARY n = be_bytes 2 n.
Proof.
  intros Hn. unfold SET_UINT16_TO_ARRARY, be_bytes. cbn [le_bytes rev app].
  assert (u16 n = n) as -> by (by apply Z.mod_small). by rewrite ?u8_land.
Qed.

Lemma CONV_be_bytes n : 0 <= n < 65536 → CONV_ARRARY_TO_UINT16 (be_bytes 2 n) = n.
Proof. intros Hn. rewrite <- SET_be_bytes, SET_CONV by done. by apply Z.mod_small. Qed.

(** The MIC of a packet whose MIC field is clear. *)
Lemma CalculateMIC_ok E version ptk p m rest :
  ample E → field 64 ptk → message_wf m → p = packet_for m (zeros 16) (m_data m ++ rest) → bytes rest →
  CalculateMIC E version ptk p =
    Some (set_KeyMic p (eapol_mic_array version (take 16 ptk) (frame_header m (zeros 16) ++ m_data m))).
Proof.
  intros HE [Hpl Hpb] Hm -> Hr. unfold CalculateMIC. rewrite HE by lia. cbn [negb].
  pose proof Hm as (_ & _ & _ & _ & _ & _ & _ & Hd & Hdl).
  assert (field 16 (zeros 16)) as Hz by (split; [done|by apply fits_zeros]).
  destruct (field_frame_header m _ Hm Hz) as [Hl Hb]. cbn [Body_Len packet_for].
  rewrite CONV_be_bytes by lia. unfold packet_bytes. rewrite packet_header_for. cbn [KeyData packet_for].
  set (f := frame_header m (zeros 16) ++ m_data m).
  assert (length f = 99 + length (m_data m))%nat as Hlf by (unfold f; rewrite length_app; lia).
  assert (bytes f) as Hbf by (by apply Forall_app).
  replace (95 + Z.of_nat (length (m_data m)) + 4) with (Z.of_nat (length f)) by lia.
  rewrite app_assoc. fold f. rewrite load_ok by (rewrite ?length_app; lia). rewrite Some_bind.
  change (Z.to_nat 0) with 0%nat. rewrite Nat2Z.id. unfold slice at 1. rewrite drop_0, take_app_length.
  rewrite store_start, Some_bind by (rewrite length_local_array; lia).
  rewrite eapol_mic_ok; rewrite ?length_put, ?length_local_array, ?take_put_start by (rewrite length_local_array; lia);
    [done| split; apply HE; unfold sizeof_AES_CTX_STRUC; lia|done..|lia|lia].
Qed.

(** What a message takes from its arguments: nonce, sequence counter and
    replay counter. *)
Record message_args (e : wpa_entry) (mt : Z) (Nonce TxRSC : option (list Z)) (nonce rsc : list Z) : Prop := {
  margs_type : 1 <= mt <= 6;
  margs_counter : field 8 (R_Counter e);
  margs_Nonce : mt <= 3 ∨ mt = 5 → Nonce = Some nonce;
  margs_nonce : field 32 nonce;
  margs_TxRSC : has_gtk (is_WPA2 e) mt = true → TxRSC = Some rsc;
  margs_rsc : field 6 rsc;
}.

Lemma tkip_len_byte s : byte (tkip_len s).
Proof. unfold tkip_len. destruct (_ =? _); unfold fits; lia. Qed.

Lemma message_of_wf E e gws mt idx Nonce TxRSC nonce rsc GTK RSNIE gtk ie n :
  construct_args E e mt GTK RSNIE gtk ie n → message_args e mt Nonce TxRSC nonce rsc →
  message_wf (message_of e gws mt idx nonce rsc gtk ie n).
Proof.
  intros Ha Hm. destruct Hm as [Hmt Hc _ [Hnl Hnb] _ [Hrl Hrb]].
  unfold message_wf, message_of. cbn [m_version m_type m_keylen m_counter m_nonce m_iv m_rsc m_data].
  set (iv := if negb (is_WPA2 e) && (mt =? 5) then _ else _).
  assert (∀ k, field k (zeros k)) as Hz by (intros k; split; [apply length_zeros|by apply fits_zeros]).
  assert (field 16 iv) as Hiv.
  { unfold iv. destruct (_ && _); [|apply Hz]. split; [by rewrite length_insert, length_slice by lia|].
    apply Forall_insert; [by apply bytes_slice|apply fits_u8]. }
  destruct (key_data_bounds E e mt GTK RSNIE gtk ie n Ha gws idx) as [Hpb Hpl].
  destruct (wire_bounds E (construct_version e gws) mt (is_WPA2 e) (pairwise_kek (PTK e)) iv _
    (args_memory _ _ _ _ _ _ _ _ Ha) (proj1 (field_kek _ (args_ptk _ _ _ _ _ _ _ _ Ha))) Hpb Hiv ltac:(lia)) as [Hwb Hwl].
  split_and!; try done; try lia.
  - unfold construct_version. destruct (_ || _); auto.
  - pose proof (tkip_len_byte (WepStatus e)). pose proof (tkip_len_byte gws).
    fold (tkip_len gws) (tkip_len (WepStatus e)).
    destruct (is_WPA2 e); [destruct (_ || _)|destruct (_ <=? _)]; done.
  - destruct (_ || _); [|apply Hz]. by rewrite take_ge by lia.
  - destruct (has_gtk _ _); [|apply Hz]. split; [rewrite length_app, length_take, length_zeros; lia|].
    apply Forall_app. split; [by apply Forall_take|by apply fits_zeros].
  - destruct (_ || _); [constructor|done].
  - destruct (_ || _); [cbn [length]|]; lia.
Qed.

(** The packet before the key data is added. *)
Definition bare_packet (m : eapol_message) (len : nat) : EAPOL_PACKET :=
  set_data (packet_for m (zeros 16) (zeros len)) (SET_UINT16_TO_ARRARY 95) (zeros 2) (zeros len).

Lemma with_key_data_packet m w len :
  (if (m_type m =? 1) || (m_type m =? 4) || (m_type m =? 6) then m_data m = [] else m_data m = w) →
  (length (m_data m) <= 400)%nat →
  with_key_data (bare_packet m len) (m_type m) w = packet_for m (zeros 16) (put (zeros len) 0 (m_data m)).
Proof.
  intros Hd Hl. unfold with_key_data, bare_packet, packet_for, set_data.
  cbn [ProVer ProType Body_Len DescType KeyInfo KeyLength ReplayCounter KeyNonce KeyIv KeyRsc KeyId KeyMic KeyDataLen KeyData].
  destruct ((m_type m =? 1) || (m_type m =? 4) || (m_type m =? 6)).
  - rewrite Hd. reflexivity.
  - rewrite Hd in *. rewrite !SET_be_bytes by lia.
    by replace (Z.of_nat (95 + length w)) with (95 + Z.of_nat (length w)) by lia.
Qed.

(** The fields in front of the key data are the reference's. *)
Lemma ConstructEapolMsg_fields E e gws mt idx Nonce TxRSC nonce rsc GTK RSNIE gtk ie n len :
  message_args e mt Nonce TxRSC nonce rsc →
  let m := message_of e gws mt idx nonce rsc gtk ie n in
  ConstructEapolMsg E e gws mt idx Nonce TxRSC GTK RSNIE (Z.of_nat n) (zero_packet len) =
    (p ← ConstructEapolKeyData E e gws (m_version m) mt idx GTK RSNIE (Z.of_nat n) (bare_packet m len);
     if mt =? EAPOL_PAIR_MSG_1 then Some p else CalculateMIC E (m_version m) (PTK e) p).
Proof.
  intros [Hmt Hc HN [Hnl Hnb] HR [Hrl Hrb]] m. unfold ConstructEapolMsg. rewrite zero_packet_eq.
  cbn [ProVer ProType Body_Len DescType KeyInfo KeyLength ReplayCounter KeyNonce KeyIv KeyRsc KeyId KeyMic KeyDataLen KeyData].
  unfold EAPOL_PAIR_MSG_3, EAPOL_GROUP_MSG_1 in *. fold (has_gtk (is_WPA2 e) mt).
  change ((mt =? 3) && is_WPA2 e || (mt =? 5)) with (has_gtk (is_WPA2 e) mt).
  match goal with |- (?x ≫= _) = _ => assert (x = Some (m_nonce m)) as -> end.
  { unfold m, message_of. cbn [m_nonce]. destruct ((mt <=? 3) || _) eqn:Hb; [|done].
    rewrite HN, Some_bind by lia. by rewrite load_ok by (unfold LEN_KEY_DESC_NONCE; lia). }
  rewrite Some_bind. match goal with |- (?x ≫= _) = _ => assert (x = Some (m_iv m)) as -> end.
  { unfold m, message_of. cbn [m_iv]. destruct (negb (is_WPA2 e) && (mt =? 5)) eqn:Hb; [|done].
    rewrite HN, Some_bind by lia. rewrite load_ok, Some_bind by (unfold LEN_KEY_DESC_IV; lia).
    change (slice nonce (Z.to_nat 16) (Z.to_nat LEN_KEY_DESC_IV)) with (slice nonce 16 16).
    by rewrite (get_slice nonce 16 16 15) by (rewrite ?Hnl; lia). }
  rewrite Some_bind. match goal with |- (?x ≫= _) = _ => assert (x = Some (m_rsc m)) as -> end.
  { unfold m, message_of. cbn [m_rsc]. destruct (has_gtk _ _); [|done].
    rewrite HR, Some_bind by done. rewrite load_all, Some_bind by (rewrite Hrl; done).
    rewrite store_start, (take_ge rsc), put_start by (rewrite ?length_zeros; lia). by rewrite Hrl. }
  rewrite Some_bind. cbv zeta. f_equal. f_equal. unfold bare_packet, packet_for, set_data.
  cbn [ProVer ProType Body_Len DescType KeyInfo KeyLength ReplayCounter KeyNonce KeyIv KeyRsc KeyId KeyMic KeyDataLen KeyData].
  rewrite construct_key_length_bytes, construct_info_word; [done| |done].
  unfold construct_version. destruct (_ || _); auto.
Qed.

Lemma ConstructEapolMsg_ok E e gws mt idx Nonce TxRSC nonce rsc GTK RSNIE gtk ie n len :
  construct_args E e mt GTK RSNIE gtk ie n → message_args e mt Nonce TxRSC nonce rsc → (400 <= len)%nat →
  let m := message_of e gws mt idx nonce rsc gtk ie n in
  ConstructEapolMsg E e gws mt idx Nonce TxRSC GTK RSNIE (Z.of_nat n) (zero_packet len) =
    Some (packet_for m (frame_mic m (take 16 (PTK e))) (m_data m ++ zeros (len - length (m_data m)))).
Proof.
  intros Ha Hm Hlen m. pose proof (message_of_wf E e gws mt idx Nonce TxRSC nonce rsc GTK RSNIE gtk ie n Ha Hm) as Hwf.
  fold m in Hwf. pose proof Hwf as (_ & Hmt & _ & _ & _ & Hiv & _ & Hd & Hdl).
  rewrite (ConstructEapolMsg_fields _ _ _ _ _ _ _ nonce rsc _ _ gtk ie) by done. fold m.
  rewrite (ConstructEapolKeyData_ok E e mt GTK RSNIE gtk ie n Ha), Some_bind; cbn [bare_packet set_data packet_for Body_Len KeyData KeyIv].
  2-5: (done || (rewrite length_zeros; lia) || (change (m_type m) with mt in Hmt; lia)).
  change mt with (m_type m). rewrite with_key_data_packet; [|unfold m, message_of; cbn [m_type m_data]; by destruct (_ || _)|done].
  rewrite put_zeros_0 by lia. unfold frame_mic, EAPOL_PAIR_MSG_1. destruct (m_type m =? 1); [done|].
  rewrite (CalculateMIC_ok E _ _ _ m (zeros (len - length (m_data m)))); [done|apply Ha|apply Ha|done..|].
  by apply fits_zeros.
Qed.

(** C10: [ConstructEapolMsg] fills the buffer with the EAPOL-Key frame of IEEE
    802.11i for every message type, WPA and WPA2: version, lengths, Key
    Information word, counters, nonce, IV and RSC as the table says, the RSN
    IE and the GTK as key data, encrypted under the key-encryption key with
    the AES key wrap or ARC4, and the MIC of the frame under the
    key-confirmation key; the rest of the buffer stays zero. *)
Theorem ConstructEapolMsg_spec E e gws mt idx Nonce TxRSC nonce rsc GTK RSNIE gtk ie n len :
  construct_args E e mt GTK RSNIE gtk ie n → message_args e mt Nonce TxRSC nonce rsc → (400 <= len)%nat →
  let m := message_of e gws mt idx nonce rsc gtk ie n in
  ∃ q, ConstructEapolMsg E e gws mt idx Nonce TxRSC GTK RSNIE (Z.of_nat n) (zero_packet len) = Some q ∧
       packet_bytes q = eapol_frame m (take 16 (PTK e)) ++ zeros (len - length (m_data m)).
Proof.
  intros Ha Hm Hlen m. rewrite (ConstructEapolMsg_ok E e gws mt idx _ _ nonce rsc _ _ gtk ie) by done. eexists. split; [done|].
  unfold packet_bytes, eapol_frame. rewrite packet_header_for. cbn [KeyData packet_for]. by rewrite app_assoc.
Qed.

(** An entry for the witnesses: [ptk] derived, no message seen. *)
Definition sample_entry (auth wep : Z) (counter ptk : list Z) : wpa_entry :=
  {| EntryType := ENTRY_CLIENT; Addr := seqZ 11 6; pNext := None; Aid := 1; apidx := 0; Sst := SST_ASSOC;
     AuthMode := auth; WepStatus := wep; WpaState := AS_INITPSK; GTKState := REKEY_NEGOTIATING;
     PortSecured := WPA_802_1X_PORT_NOT_SECURED; PrivacyFilter := PrivFilter8021xWEP; R_Counter := counter;
     ANonce := zeros 32; SNonce := zeros 32; PTK := ptk; ReTryCounter := 0; PairwiseKey := zero_key;
     PMKID_cached := false; EnqueueEapolStartTimerRunning := 0 |}.

(** An RSN IE with AES as pairwise and group cipher. *)
Definition sample_rsnie : list Z :=
  [1; 0; 0; 0x0f; 0xac; 4; 1; 0; 0; 0x0f; 0xac; 4; 1; 0; 0; 0x0f; 0xac; 2; 0; 0].

Lemma ample_all : ample kmalloc_all.
Proof. done. Qed.

Lemma ConstructEapolMsg_spec_witness :
  let e := sample_entry Ndis802_11AuthModeWPA2PSK Ndis802_11Encryption3Enabled (zeros 7 ++ [2]) (seqZ 100 64) in
  let m := message_of e Ndis802_11Encryption3Enabled 3 1 (seqZ 1 32) (seqZ 1 6) (seqZ 50 32) sample_rsnie 20 in
  ∃ q, ConstructEapolMsg kmalloc_all e Ndis802_11Encryption3Enabled 3 1 (Some (seqZ 1 32)) (Some (seqZ 1 6))
         (Some (seqZ 50 32)) (Some sample_rsnie) (Z.of_nat 20) (zero_packet 400) = Some q ∧
       packet_bytes q = eapol_frame m (take 16 (PTK e)) ++ zeros (400 - length (m_data m)).
Proof.
  apply (ConstructEapolMsg_spec kmalloc_all
    (sample_entry Ndis802_11AuthModeWPA2PSK Ndis802_11Encryption3Enabled (zeros 7 ++ [2]) (seqZ 100 64))).
  - split; [apply ample_all|split; [done|bytes_table]|done|split; [vm_compute; lia|bytes_table]|done|].
    split_and!; [vm_compute; lia..|bytes_table].
  - split; [lia|split; [done|bytes_table]|done|split; [done|bytes_table]|done|split; [done|bytes_table]].
  - lia.
Defined.
