(* ===== verification/EapolRecv.v ===== *)
(** * Received EAPOL-Key messages

    Models the checks and effects of a received EAPOL-Key message in
    [linux/Arch/rt5370.driver/common/cmm_wpa.c]: the classification of frames
    ([RTMPCheckWPAframe]), the installation of keys, the
    parser of the decrypted key data ([RTMPParseEapolKeyData]) and
    [PeerWpaMessageSanity], which checks the replay counter and the MIC,
    decrypts the key data and hands it to the parser.

    [None] is an access outside a buffer; the source has fixed-size buffers
    without checks here, see the theorems. *)

From stdpp Require Import base list numbers list_numbers.
From Stdlib Require Import ZArith Lia.
From S2P Require Import Prelude Mlme Arc4 BlockHash Md5 Sha Hmac AesTables Aes AesCmac AesKeyWrap WpaCmm WpaKeys WpaData Wep Tkip EapolMsg.

(** ** Frames *)

Definition SNAP_802_1H : list Z := [0xaa; 0xaa; 0x03; 0x00; 0x00; 0x00].
Definition SNAP_BRIDGE_TUNNEL : list Z := [0xaa; 0xaa; 0x03; 0x00; 0x00; 0xf8].
Definition EAPOL_START_DISABLE : Z := 0.

Definition NdisEqualMemory (a : list Z) (pa : Z) (b : list Z) (pb n : Z) : option bool :=
  x ← load a pa n;
  y ← load b pb n;
  Some (bool_decide (x = y)).

(** The return value and [pEntry->EnqueueEapolStartTimerRunning], whose timer
    is cancelled when it changes. *)
Definition RTMPCheckWPAframe (pData : list Z) (DataByteCount running : Z) : option (bool * Z) :=
  if DataByteCount <? LENGTH_802_1_H + LENGTH_EAPOL_H then Some (false, running)
  else
    snap ← NdisEqualMemory SNAP_802_1H 0 pData 0 6;
    bridge ← NdisEqualMemory SNAP_BRIDGE_TUNNEL 0 pData 0 6;
    let p := if snap || bridge then 6 else 0 in
    eapol ← NdisEqualMemory EAPOL_type 0 pData p 2;
    if negb eapol then Some (false, running)
    else
      let p := p + 2 in
      type ← load pData (p + 1) 1;
      let type := type.[0] in
      if (type =? EAPPacket) || (type =? EAPOLKey) then
        Body_len ← load pData (p + 2) 2;
        Some (true, running)
      else if type =? EAPOLStart then Some (true, EAPOL_START_DISABLE)
      else if (type =? EAPOLLogoff) || (type =? EAPOLASFAlert) then Some (true, running)
      else Some (false, running).

(** ** Installing keys *)

(** [rnd] is what [RandomByte] answers. *)
Definition RTMPSetWcidSecurityInfo (rnd : nat → Z) (a : wpa_adapter) (BssIdx KeyIdx CipherAlg Wcid KeyTabFlag : Z)
    : wpa_adapter :=
  let install IV :=
    note (note a (AsicUpdateWCIDIVEIV Wcid IV 0))
         (AsicUpdateWcidAttributeEntry BssIdx KeyIdx CipherAlg Wcid KeyTabFlag) in
  if (CipherAlg =? CIPHER_WEP64) || (CipherAlg =? CIPHER_WEP128) then
    let TxTsc := map rnd (seq 0 3) in
    let IV_KEYID := u8 (Z.shiftl KeyIdx 6) in
    install (u32 (Z.shiftl IV_KEYID 24) .| Z.shiftl TxTsc.[2] 16 .| Z.shiftl TxTsc.[1] 8 .| TxTsc.[0])
  else if (CipherAlg =? CIPHER_TKIP) || (CipherAlg =? CIPHER_AES) then
    let IV_KEYID := u8 (Z.shiftl KeyIdx 6) .| 0x20 in
    install (u32 (Z.shiftl IV_KEYID 24) .| 1)
  else a.

Definition PAIRWISEKEYTABLE : Z := 1.
Definition SHAREDKEYTABLE : Z := 0.

Definition make_key (cipher len : Z) (key txmic rxmic : list Z) : CIPHER_KEY :=
  {| Key := key; TxMic := txmic; RxMic := rxmic; TxTsc := zeros 16; RxTsc := zeros 16;
     CipherAlg := cipher; KeyLen := len; Type_ := 0 |}.

(** [w] is the index of [pEntry]. *)
Definition WPAInstallPairwiseKey (rnd : nat → Z) (a : wpa_adapter) (BssIdx : Z) (w : nat) (bAE : bool)
    : option wpa_adapter :=
  e ← Content a !! w;
  let cipher :=
    if WepStatus e =? Ndis802_11Encryption2Enabled then CIPHER_TKIP
    else if WepStatus e =? Ndis802_11Encryption3Enabled then CIPHER_AES else CIPHER_NONE in
  if cipher =? CIPHER_NONE then Some (set_entry a w (set_key e zero_key))
  else
    tk ← load (PTK e) 32 LEN_TK;
    m1 ← load (PTK e) 48 LEN_TKIP_MIC;
    m2 ← load (PTK e) 56 LEN_TKIP_MIC;
    let key :=
      if cipher =? CIPHER_TKIP then
        if bAE then make_key cipher LEN_TK tk m1 m2 else make_key cipher LEN_TK tk m2 m1
      else make_key cipher LEN_TK tk (zeros 8) (zeros 8) in
    let a := set_entry a w (set_key e key) in
    let a := note a (AsicAddPairwiseKeyEntry (u8 (Aid e)) key) in
    Some (RTMPSetWcidSecurityInfo rnd a BssIdx 0 cipher (u8 (Aid e)) PAIRWISEKEYTABLE).

Definition WPAInstallSharedKey (rnd : nat → Z) (a : wpa_adapter) (GroupCipher_ BssIdx KeyIdx Wcid : Z) (bAE : bool)
    (pGtk : list Z) (GtkLen : Z) : option wpa_adapter :=
  if 1 <=? BssIdx then Some a
  else
    let store_key (k : CIPHER_KEY) : wpa_adapter := set_keys a (<[Z.to_nat KeyIdx := k]> (SharedKey a)) in
    let finish (k : CIPHER_KEY) : option wpa_adapter :=
      let a := note (store_key k) (AsicAddSharedKeyEntry BssIdx KeyIdx k) in
      Some (if Wcid =? 0 then a
            else RTMPSetWcidSecurityInfo rnd a BssIdx KeyIdx (CipherAlg k) Wcid SHAREDKEYTABLE) in
    _ ← SharedKey a !! Z.to_nat KeyIdx;
    let wep := (GroupCipher_ =? Ndis802_11GroupWEP40Enabled) || (GroupCipher_ =? Ndis802_11GroupWEP104Enabled) in
    let cipher :=
      if GroupCipher_ =? Ndis802_11GroupWEP40Enabled then CIPHER_WEP64
      else if GroupCipher_ =? Ndis802_11GroupWEP104Enabled then CIPHER_WEP128
      else if GroupCipher_ =? Ndis802_11Encryption2Enabled then CIPHER_TKIP
      else if GroupCipher_ =? Ndis802_11Encryption3Enabled then CIPHER_AES else CIPHER_NONE in
    if cipher =? CIPHER_NONE then Some (store_key zero_key)
    else if wep then
      if negb (GtkLen =? LEN_WEP64) && negb (GtkLen =? LEN_WEP128)
      then Some (store_key (make_key cipher 0 (zeros 16) (zeros 8) (zeros 8)))
      else
        k ← load pGtk 0 GtkLen;
        key ← store (zeros 16) 0 k;
        finish (make_key cipher GtkLen key (zeros 8) (zeros 8))
    else if GtkLen <? LEN_TK then Some (store_key (make_key cipher 0 (zeros 16) (zeros 8) (zeros 8)))
    else
      k ← load pGtk 0 LEN_TK;
      if cipher =? CIPHER_TKIP then
        m1 ← load pGtk 16 LEN_TKIP_MIC;
        m2 ← load pGtk 24 LEN_TKIP_MIC;
        finish (if bAE then make_key cipher LEN_TK k m1 m2 else make_key cipher LEN_TK k m2 m1)
      else finish (make_key cipher LEN_TK k (zeros 8) (zeros 8)).

(** ** The key data *)

(** The group key found so far: [GTK], [GTKLEN], [DefaultIdx]. *)
Record gtk_state := { gtk_buf : list Z; gtk_len : Z; gtk_idx : Z }.

(** One element at [skip_offset]; the inner [None] is [return FALSE]. *)
Definition kde_element (pKeyData : list Z) (skip_offset Len : Z) (s : gtk_state) : option (option gtk_state) :=
  eid ← load pKeyData skip_offset 1;
  if negb (eid.[0] =? WPA_KDE_TYPE) then Some (Some s)
  else
    oui ← load pKeyData (skip_offset + 2) 3;
    if negb (bool_decide (oui = OUI_WPA2)) then Some (Some s)
    else
      type ← load pKeyData (skip_offset + 5) 1;
      if negb (type.[0] =? KDE_GTK) then Some (Some s)
      else
        kid ← load pKeyData (skip_offset + 6) 1;
        let GTKLEN := u8 (Len - 6) in
        if GTKLEN <? LEN_WEP64 then Some None
        else
          g ← load pKeyData (skip_offset + 8) GTKLEN;
          GTK ← store (gtk_buf s) 0 g;
          Some (Some {| gtk_buf := GTK; gtk_len := GTKLEN; gtk_idx := kid.[0] & 3 |}).

(** [while ((skip_offset + 2 + pEid->Len) <= KeyDataLength)] *)
Fixpoint kde_loop (fuel : nat) (pKeyData : list Z) (skip_offset KeyDataLength : Z) (s : gtk_state)
    : option (option gtk_state) :=
  match fuel with
  | O => None
  | S fuel =>
      len ← load pKeyData (skip_offset + 1) 1;
      if skip_offset + 2 + len.[0] <=? KeyDataLength then
        r ← kde_element pKeyData skip_offset len.[0] s;
        match r with
        | None => Some None
        | Some s => kde_loop fuel pKeyData (u8 (skip_offset + 2 + len.[0])) KeyDataLength s
        end
      else Some (Some s)
  end.

Definition RTMPParseEapolKeyData (rnd : nat → Z) (a : wpa_adapter) (pKeyData : list Z)
    (KeyDataLen GroupKeyIndex MsgType : Z) (bWPA2 : bool) : option (bool * wpa_adapter) :=
  let KeyDataLength := u8 KeyDataLen in
  let GTK := zeros 32 in
  if (MsgType =? EAPOL_PAIR_MSG_2) || ((MsgType =? EAPOL_PAIR_MSG_3) && negb bWPA2) then Some (true, a)
  else
    r ← (if bWPA2 && ((MsgType =? EAPOL_PAIR_MSG_3) || (MsgType =? EAPOL_GROUP_MSG_1))
         then kde_loop 129 pKeyData 0 KeyDataLength {| gtk_buf := GTK; gtk_len := 0; gtk_idx := 0 |}
         else if negb bWPA2 && (MsgType =? EAPOL_GROUP_MSG_1) then
           g ← load pKeyData 0 KeyDataLength;
           GTK ← store GTK 0 g;
           Some (Some {| gtk_buf := GTK; gtk_len := KeyDataLength; gtk_idx := GroupKeyIndex |})
         else Some (Some {| gtk_buf := GTK; gtk_len := 0; gtk_idx := 0 |}));
    match r with
    | None => Some (false, a)
    | Some s =>
        if 3 <? gtk_idx s then Some (false, a)
        else
          g ← load (gtk_buf s) 0 (gtk_len s);
          gtk ← store (cfg_GTK a) 0 g;
          let a := set_cfg a gtk (gtk_idx s) (cfg_PTK a) (cfg_PortSecured a) in
          a ← WPAInstallSharedKey rnd a (GroupCipher a) 0 (DefaultKeyId a) 0 false (cfg_GTK a) (gtk_len s);
          Some (true, a)
    end.

(** ** Sanity of a received message *)

Definition IW_REPLAY_COUNTER_DIFF_EVENT_FLAG : Z := 0x0205.
Definition IW_MIC_DIFF_EVENT_FLAG : Z := 0x0207.

(** The replay counter test: [true] is [bReplayDiff]. *)
Definition replay_differs (e : wpa_entry) (MsgType : Z) (counter : list Z) : option bool :=
  if (MsgType =? EAPOL_PAIR_MSG_1) || (MsgType =? EAPOL_PAIR_MSG_3) || (MsgType =? EAPOL_GROUP_MSG_1) then
    c ← RTMPCompareMemory counter (R_Counter e) LEN_KEY_DESC_REPLAY;
    z ← RTMPCompareMemory counter (zeros 8) LEN_KEY_DESC_REPLAY;
    Some (negb (c =? 1) && negb (z =? 0))
  else
    same ← NdisEqualMemory counter 0 (R_Counter e) 0 LEN_KEY_DESC_REPLAY;
    Some (negb same).

(** The MIC test: [pMsg] with the MIC field cleared, and whether it matched. *)
Definition check_mic (E : env) (e : wpa_entry) (MsgType : Z) (pMsg : EAPOL_PACKET)
    : option (bool * EAPOL_PACKET) :=
  if MsgType =? EAPOL_PAIR_MSG_1 then Some (true, pMsg)
  else
    let eapol_len := CONV_ARRARY_TO_UINT16 (Body_Len pMsg) + 4 in
    let rcvd_mic := KeyMic pMsg in
    let pMsg := set_KeyMic pMsg (zeros 16) in
    mic ← eapol_mic E (zeros 80) (KeyDescVer (KeyInfo pMsg)) (PTK e) (packet_bytes pMsg) eapol_len;
    same ← NdisEqualMemory rcvd_mic 0 mic 0 LEN_KEY_DESC_MIC;
    Some (same, pMsg).

(** [KEYDATA], [pMsg] with the length the decryption leaves and the index of a
    WPA1 group key; the inner [None] is [goto LabelOK]. *)
Definition open_key_data (E : env) (e : wpa_entry) (MsgType : Z) (bWPA2 : bool) (KEYDATA : list Z)
    (pMsg : EAPOL_PACKET) : option (option (list Z * EAPOL_PACKET * Z)) :=
  let len := CONV_ARRARY_TO_UINT16 (KeyDataLen pMsg) in
  let version := KeyDescVer (KeyInfo pMsg) in
  if ((MsgType =? EAPOL_PAIR_MSG_3) && bWPA2) || (MsgType =? EAPOL_GROUP_MSG_1) then
    kek ← load (PTK e) LEN_PTK_KCK LEN_PTK_KEK;
    let GroupKeyIndex := if negb bWPA2 && (MsgType =? EAPOL_GROUP_MSG_1) then KeyIndex (KeyInfo pMsg) else 0 in
    if (version =? KEY_DESC_EXT) || (version =? KEY_DESC_AES) then
      '(_, KEYDATA, unwrap_len) ← AES_Key_Unwrap E (KeyData pMsg) len kek LEN_PTK_KEK KEYDATA;
      let pMsg := set_data pMsg (Body_Len pMsg) (SET_UINT16_TO_ARRARY (default 0 unwrap_len)) (KeyData pMsg) in
      Some (Some (KEYDATA, pMsg, GroupKeyIndex))
    else
      m ← TKIP_GTK_KEY_UNWRAP E kek (KeyIv pMsg) (KEYDATA ++ KeyData pMsg) 255 (Z.to_nat len) 0;
      _ ← (if kmalloc E sizeof_ARC4_CTX_STRUC then load KEYDATA 0 len else Some []);
      Some (Some (take 255 m, pMsg, GroupKeyIndex))
  else if (MsgType =? EAPOL_PAIR_MSG_2) || ((MsgType =? EAPOL_PAIR_MSG_3) && negb bWPA2) then
    d ← load (KeyData pMsg) 0 len;
    KEYDATA ← store KEYDATA 0 d;
    Some (Some (KEYDATA, pMsg, 0))
  else Some None.

Definition PeerWpaMessageSanity (E : env) (rnd : nat → Z) (a : wpa_adapter) (pMsg : EAPOL_PACKET) (MsgType : Z)
    (e : wpa_entry) : option (bool * EAPOL_PACKET * wpa_adapter) :=
  if negb (kmalloc E MAX_LEN_OF_RSNIE) then Some (false, pMsg, a)
  else
    let KEYDATA := zeros 255 in
    let bWPA2 := is_WPA2 e in
    if (EAPOL_GROUP_MSG_2 <? MsgType) || (MsgType <? EAPOL_PAIR_MSG_1) then Some (false, pMsg, a)
    else
      bReplayDiff ← replay_differs e MsgType (ReplayCounter pMsg);
      if (bReplayDiff : bool)
      then Some (false, pMsg, note a (RTMPSendWirelessEvent IW_REPLAY_COUNTER_DIFF_EVENT_FLAG (Addr e) (apidx e)))
      else
        '(same, pMsg) ← check_mic E e MsgType pMsg;
        if negb same
        then Some (false, pMsg, note a (RTMPSendWirelessEvent IW_MIC_DIFF_EVENT_FLAG (Addr e) (apidx e)))
        else if 0 <? CONV_ARRARY_TO_UINT16 (KeyDataLen pMsg) then
          r ← open_key_data E e MsgType bWPA2 KEYDATA pMsg;
          match r with
          | None => Some (true, pMsg, a)
          | Some (KEYDATA, pMsg, GroupKeyIndex) =>
              '(ok, a) ← RTMPParseEapolKeyData rnd a KEYDATA (CONV_ARRARY_TO_UINT16 (KeyDataLen pMsg))
                           GroupKeyIndex MsgType bWPA2;
              Some (ok, pMsg, a)
          end
        else Some (true, pMsg, a).

(** ** References *)

(** The key in the shared key table for a GTK [g]. *)
Definition group_key (gws : Z) (g : list Z) : CIPHER_KEY :=
  if gws =? Ndis802_11Encryption3Enabled then make_key CIPHER_AES 16 (take 16 g) (zeros 8) (zeros 8)
  else make_key CIPHER_TKIP 16 (take 16 g) (slice g 24 8) (slice g 16 8).

(** The adapter after the group key [g] with index [idx] is installed. *)
Definition gtk_installed (a : wpa_adapter) (g : list Z) (idx : Z) : wpa_adapter :=
  let k := group_key (GroupCipher a) g in
  let a := set_cfg a (put (cfg_GTK a) 0 g) idx (cfg_PTK a) (cfg_PortSecured a) in
  note (set_keys a (<[Z.to_nat idx := k]> (SharedKey a))) (AsicAddSharedKeyEntry 0 idx k).

Definition group_cipher_ok (gws : Z) : Prop :=
  gws = Ndis802_11Encryption2Enabled ∨ gws = Ndis802_11Encryption3Enabled.

(** ** The walk over the key data *)

Lemma load_behind a b (k n : nat) p z :
  p = Z.of_nat (length a + k) → z = Z.of_nat n → (k + n <= length b)%nat → load (a ++ b) p z = Some (slice b k n).
Proof. intros -> -> H. rewrite load_app_r by lia. by rewrite Nat2Z.id. Qed.

Section Walk.
Context (buf : list Z) (KDL : Z) (KDL_small : KDL <= 255).

(** An element of another kind is skipped. *)
Lemma kde_skip f a id len b s :
  buf = a ++ id :: len :: b → byte len → (10 <= length b)%nat →
  Z.of_nat (length a) + 2 + len <= KDL →
  id ≠ WPA_KDE_TYPE ∨ take 3 b ≠ OUI_WPA2 →
  kde_loop (S f) buf (Z.of_nat (length a)) KDL s = kde_loop f buf (Z.of_nat (length a + 2 + Z.to_nat len)) KDL s.
Proof.
  intros Hbuf Hlen Hb Hk Hid. cbn [kde_loop]. unfold kde_element, fits in *.
  rewrite Hbuf at 1. rewrite (load_behind _ _ 1 1 (Z.of_nat (length a) + 1)), Some_bind by (cbn [length]; lia). change ((slice (id :: len :: b) 1 1).[0]) with len.
  rewrite (proj2 (Z.leb_le _ _)) by lia.
  rewrite Hbuf at 1. rewrite (load_behind _ _ 0 1 (Z.of_nat (length a))), Some_bind by (cbn [length]; lia). change ((slice (id :: len :: b) 0 1).[0]) with id.
  assert (u8 (Z.of_nat (length a) + 2 + len) = Z.of_nat (length a + 2 + Z.to_nat len)) as ->
    by (rewrite u8_small; unfold fits; lia).
  destruct (Z.eqb_spec id WPA_KDE_TYPE) as [->|]; cbn [negb]; [|by rewrite Some_bind].
  rewrite Hbuf at 1. rewrite (load_behind _ _ 2 3 (Z.of_nat (length a) + 2)), Some_bind by (cbn [length]; lia).
  change (slice (WPA_KDE_TYPE :: len :: b) 2 3) with (take 3 b).
  rewrite bool_decide_false by (by destruct Hid). done.
Qed.

(** The GTK is taken. *)
Lemma kde_take f a idx g b s :
  buf = a ++ gtk_kde idx g ++ b → (5 <= length g <= 32)%nat → length (gtk_buf s) = 32%nat →
  Z.of_nat (length a + length (gtk_kde idx g)) <= KDL →
  kde_loop (S f) buf (Z.of_nat (length a)) KDL s =
    kde_loop f buf (Z.of_nat (length a + length (gtk_kde idx g))) KDL
      {| gtk_buf := put (gtk_buf s) 0 g; gtk_len := Z.of_nat (length g); gtk_idx := idx & 3 |}.
Proof.
  intros Hbuf Hg Hs Hk. rewrite length_gtk_kde in *. cbn [kde_loop]. unfold kde_element.
  assert (∀ (k n : nat) p z, p = Z.of_nat (length a + k) → z = Z.of_nat n → (k + n <= 8 + length g)%nat →
            load buf p z = Some (slice (gtk_kde idx g) k n)) as Hload.
  { intros k n p z Hp Hz Hkn. rewrite Hbuf, (load_behind _ _ k n) by (rewrite ?length_app, ?length_gtk_kde; lia || done).
    by rewrite slice_app_l by (rewrite length_gtk_kde; lia). }
  rewrite (Hload 1%nat 1%nat (Z.of_nat (length a) + 1) 1), Some_bind by lia. change ((slice (gtk_kde idx g) 1 1).[0]) with (Z.of_nat (6 + length g)).
  rewrite (proj2 (Z.leb_le _ _)) by lia.
  rewrite (Hload 0%nat 1%nat (Z.of_nat (length a)) 1), Some_bind by lia. change ((slice (gtk_kde idx g) 0 1).[0]) with WPA_KDE_TYPE.
  rewrite Z.eqb_refl. cbn [negb].
  rewrite (Hload 2%nat 3%nat (Z.of_nat (length a) + 2) 3), Some_bind by lia. change (slice (gtk_kde idx g) 2 3) with OUI_WPA2.
  rewrite bool_decide_true by done. cbn [negb].
  rewrite (Hload 5%nat 1%nat (Z.of_nat (length a) + 5) 1), Some_bind by lia. change ((slice (gtk_kde idx g) 5 1).[0]) with KDE_GTK.
  rewrite Z.eqb_refl. cbn [negb].
  rewrite (Hload 6%nat 1%nat (Z.of_nat (length a) + 6) 1), Some_bind by lia. change ((slice (gtk_kde idx g) 6 1).[0]) with (idx & 3).
  cbv zeta. replace (Z.of_nat (6 + length g) - 6) with (Z.of_nat (length g)) by lia.
  rewrite (u8_small (Z.of_nat (length g))) by (unfold fits; lia). unfold LEN_WEP64.
  rewrite (proj2 (Z.ltb_ge (Z.of_nat (length g)) 5)) by lia.
  rewrite (Hload 8%nat (length g)), Some_bind by lia.
  assert (slice (gtk_kde idx g) 8 (length g) = g) as ->.
  { change (gtk_kde idx g) with (([WPA_KDE_TYPE; Z.of_nat (6 + length g)] ++ OUI_WPA2 ++ [KDE_GTK; idx & 3; 0]) ++ g).
    set (h := _ ++ OUI_WPA2 ++ _). change 8%nat with (length h + 0)%nat. rewrite slice_app_r. by apply slice_all. }
  rewrite store_start, !Some_bind by lia.
  assert ((idx & 3) & 3 = idx & 3) as -> by (rewrite <- Z.land_assoc; done).
  assert (u8 (Z.of_nat (length a) + 2 + Z.of_nat (6 + length g)) = Z.of_nat (length a + (8 + length g))) as ->
    by (rewrite u8_small; unfold fits; lia).
  done.
Qed.

(** Less than an element is left. *)
Lemma kde_stop f (a : list Z) len s :
  load buf (Z.of_nat (length a) + 1) 1 = Some [len] → 0 <= len → KDL < Z.of_nat (length a) + 2 + len →
  kde_loop (S f) buf (Z.of_nat (length a)) KDL s = Some (Some s).
Proof.
  intros Hl H0 Hk. cbn [kde_loop]. rewrite Hl, Some_bind. change [len].[0] with len.
  by rewrite (proj2 (Z.leb_gt _ _)) by lia.
Qed.
End Walk.

(** What follows the key data in the buffer: zeros, or the padding of the key
    wrap and zeros. *)
Definition kde_tail (b : list Z) : Prop := ∃ j, (20 <= j)%nat ∧ (b = zeros j ∨ b = 0xdd :: zeros j).

Lemma kde_zeros p : ∀ f buf KDL a j s,
  KDL <= 255 → buf = a ++ zeros j → KDL = Z.of_nat (length a + p) → (p <= 7)%nat → (p + 12 <= j)%nat → (p < 2 * f)%nat →
  kde_loop f buf (Z.of_nat (length a)) KDL s = Some (Some s).
Proof.
  induction p as [p IH] using lt_wf_ind. intros f buf KDL a j s H255 Hbuf HK Hp Hj Hf.
  destruct f as [|f]; [lia|].
  destruct (decide (p < 2)%nat) as [Hlt|Hge].
  - apply (kde_stop _ _ _ _ 0); [|lia..].
    rewrite Hbuf, (load_behind _ _ 1 1 (Z.of_nat (length a) + 1)) by (rewrite ?length_zeros; lia).
    destruct j as [|[|j]]; [lia..|done].
  - destruct j as [|[|j]]; [lia..|]. change (zeros (S (S j))) with (0 :: 0 :: zeros j) in Hbuf.
    rewrite (kde_skip buf KDL H255 f a 0 0 (zeros j)); [|done|unfold fits; lia|rewrite length_zeros; lia|lia|left; done].
    replace (length a + 2 + Z.to_nat 0)%nat with (length (a ++ [0; 0])) by (rewrite length_app; cbn [length]; lia).
    apply (IH (p - 2)%nat ltac:(lia) f buf KDL (a ++ [0; 0]) j); try lia.
    + by rewrite <- app_assoc.
    + rewrite length_app. cbn [length]. lia.
Qed.

Lemma kde_end f buf KDL a b p s :
  KDL <= 255 → buf = a ++ b → kde_tail b → KDL = Z.of_nat (length a + p) → (p <= 7)%nat → (5 <= f)%nat →
  p = 0%nat ∨ b.[0] = 0xdd →
  kde_loop f buf (Z.of_nat (length a)) KDL s = Some (Some s).
Proof.
  intros H255 Hbuf (j & Hj & Hb) HK Hp Hf Hp0. destruct f as [|f]; [lia|].
  destruct (decide (p < 2)%nat) as [Hlt|Hge].
  - apply (kde_stop _ _ _ _ 0); [|lia..].
    rewrite Hbuf, (load_behind _ _ 1 1 (Z.of_nat (length a) + 1)) by (destruct Hb; subst b; cbn [length]; rewrite ?length_zeros; lia).
    destruct j as [|[|j]]; [lia..|]. by destruct Hb; subst b.
  - assert (b = 0xdd :: zeros j) as ->.
    { destruct Hb as [-> | ->]; [|done]. destruct Hp0 as [->|Hp0]; [lia|]. by destruct j. }
    destruct j as [|j]; [lia|]. change (zeros (S j)) with (0 :: zeros j) in *.
    rewrite (kde_skip buf KDL H255 f a 0xdd 0 (zeros j)); [|done|unfold fits; lia|rewrite length_zeros; lia|lia|right].
    2: { do 3 (destruct j as [|j]; [lia|]). done. }
    replace (length a + 2 + Z.to_nat 0)%nat with (length (a ++ [0xdd; 0])) by (rewrite length_app; cbn [length]; lia).
    apply (kde_zeros (p - 2) f buf KDL (a ++ [0xdd; 0]) j); try lia.
    + by rewrite <- app_assoc.
    + rewrite length_app. cbn [length]. lia.
Qed.

(** ** Installing the group key *)

(** The adapter's buffers for the group key and its cipher. *)
Record group_ready (a : wpa_adapter) : Prop := {
  ready_cipher : group_cipher_ok (GroupCipher a);
  ready_gtk : (32 <= length (cfg_GTK a))%nat;
  ready_keys : length (SharedKey a) = 4%nat;
}.

Lemma load_put_first m g k (n : nat) z p :
  p = Z.of_nat k → z = Z.of_nat n → (k + n <= length g)%nat → (length g <= length m)%nat →
  load (put m 0 g) p z = Some (slice g k n).
Proof.
  intros -> -> Hk Hm. rewrite put_start by done. rewrite load_ok by (rewrite ?length_app; lia).
  by rewrite !Nat2Z.id, slice_app_l by lia.
Qed.

Lemma install_gtk_ok rnd a g idx :
  group_ready a → length g = gtk_size (GroupCipher a) → 0 <= idx < 4 →
  (gtk ← store (cfg_GTK a) 0 g;
   let a := set_cfg a gtk idx (cfg_PTK a) (cfg_PortSecured a) in
   a ← WPAInstallSharedKey rnd a (GroupCipher a) 0 (DefaultKeyId a) 0 false (cfg_GTK a) (Z.of_nat (length g));
   Some (true, a)) = Some (true, gtk_installed a g idx).
Proof.
  intros [Hc Hg Hs] Hl Hi. pose proof (gtk_size_le (GroupCipher a)) as H32.
  rewrite store_start, Some_bind by lia. cbv zeta. cbn [GroupCipher set_cfg DefaultKeyId cfg_GTK].
  unfold WPAInstallSharedKey. cbn [Z.leb Z.compare SharedKey set_cfg].
  destruct (lookup_lt_is_Some_2 (SharedKey a) (Z.to_nat idx) ltac:(lia)) as [k Hk]. rewrite Hk, Some_bind.
  unfold gtk_installed, group_key. cbv zeta.
  destruct Hc as [Hc|Hc]; rewrite !Hc in *; vm_compute (gtk_size _) in Hl; rewrite !Hl; cbn.
  - change (Z.of_nat 32 <? LEN_TK) with false. cbv iota.
    rewrite (load_put_first _ g 0 16 _ 0), Some_bind by (done || lia).
    rewrite (load_put_first _ g 16 8 _ 16), Some_bind by (done || lia).
    rewrite (load_put_first _ g 24 8 _ 24), !Some_bind by (done || lia). done.
  - change (Z.of_nat 16 <? LEN_TK) with false. cbv iota.
    rewrite (load_put_first _ g 0 16 _ 0), !Some_bind by (done || lia). done.
Qed.

(** The element that may come in front of the group key. *)
Definition rsn_element (d : list Z) : Prop :=
  d = [] ∨ ∃ ie n, d = rsn_ie ie n ∧ slice ie 2 3 = OUI_WPA2 ∧ (n <= length ie)%nat ∧ (n <= 200)%nat.

Lemma kde_loop_gtk d g idx b p s :
  rsn_element d → kde_tail b → (5 <= length g <= 32)%nat → length (gtk_buf s) = 32%nat →
  (p <= 7)%nat → p = 0%nat ∨ b.[0] = 0xdd →
  let plain := d ++ gtk_kde idx g in
  kde_loop 129 (plain ++ b) 0 (Z.of_nat (length plain + p)) s =
    Some (Some {| gtk_buf := put (gtk_buf s) 0 g; gtk_len := Z.of_nat (length g); gtk_idx := idx & 3 |}).
Proof.
  intros Hd Hb Hg Hs Hp Hp0 plain.
  assert (length plain + p <= 255)%nat as Hsmall.
  { unfold plain. rewrite length_app, length_gtk_kde. destruct Hd as [-> |(ie & n & -> & _ & Hn & Hn2)]; [cbn; lia|].
    rewrite length_rsn_ie by lia. lia. }
  set (KDL := Z.of_nat (length plain + p)). set (s' := {| gtk_buf := _ |}).
  assert (∀ f, kde_loop (6 + f) (plain ++ b) (Z.of_nat (length d)) KDL s = Some (Some s')) as Hrest.
  { intros f. change (6 + f)%nat with (S (5 + f)).
    rewrite (kde_take (plain ++ b) KDL ltac:(lia) (5 + f) d idx g b s);
      [|unfold plain; by rewrite <- app_assoc|done|done|unfold KDL, plain; rewrite length_app; lia].
    rewrite <- length_app. fold plain. apply (kde_end _ _ _ _ b p); try done; lia. }
  destruct Hd as [-> |(ie & n & -> & Hoi & Hn & Hn2)]; [apply (Hrest 123%nat)|].
  change 129%nat with (S (6 + 122)). change 0 with (Z.of_nat (length (@nil Z))).
  rewrite (kde_skip (plain ++ b) KDL ltac:(lia) _ [] IE_RSN (Z.of_nat n) (take n ie ++ gtk_kde idx g ++ b)).
  - replace (length (@nil Z) + 2 + Z.to_nat (Z.of_nat n))%nat with (length (rsn_ie ie n)); [apply (Hrest 122%nat)|].
    rewrite length_rsn_ie by done. cbn [length]. lia.
  - unfold plain, rsn_ie. rewrite bool_decide_true by done. by rewrite <- !app_assoc.
  - unfold fits. lia.
  - rewrite !length_app, length_gtk_kde. lia.
  - unfold KDL, plain. rewrite length_app, length_rsn_ie by done. cbn [length]. lia.
  - by left.
Qed.

Lemma parse_wpa2 rnd a d g idx b p gki mt :
  group_ready a → length g = gtk_size (GroupCipher a) → rsn_element d → kde_tail b → (p <= 7)%nat →
  p = 0%nat ∨ b.[0] = 0xdd → mt = 3 ∨ mt = 5 →
  let plain := d ++ gtk_kde idx g in
  RTMPParseEapolKeyData rnd a (plain ++ b) (Z.of_nat (length plain + p)) gki mt true =
    Some (true, gtk_installed a g (idx & 3)).
Proof.
  intros Ha Hg Hd Hb Hp Hp0 Hmt plain.
  assert (16 <= length g <= 32)%nat as Hgl by (rewrite Hg; unfold gtk_size; destruct (_ =? _); lia).
  assert (0 <= idx & 3 < 4) as Hidx by (apply (key_index_cases idx); lia).
  assert (length plain + p <= 255)%nat as Hsmall.
  { unfold plain. rewrite length_app, length_gtk_kde. destruct Hd as [-> |(ie & n & -> & _ & Hn & Hn2)]; [cbn; lia|].
    rewrite length_rsn_ie by lia. lia. }
  unfold RTMPParseEapolKeyData. rewrite u8_small by (unfold fits; lia).
  assert (true && ((mt =? EAPOL_PAIR_MSG_3) || (mt =? EAPOL_GROUP_MSG_1)) = true) as -> by (by destruct Hmt as [-> | ->]).
  assert ((mt =? EAPOL_PAIR_MSG_2) || (mt =? EAPOL_PAIR_MSG_3) && negb true = false) as -> by (by destruct Hmt as [-> | ->]).
  unfold plain. rewrite kde_loop_gtk, Some_bind by (done || lia). cbn [gtk_idx gtk_len gtk_buf].
  rewrite (proj2 (Z.ltb_ge 3 (idx & 3))) by lia.
  rewrite (load_put_first _ g 0 (length g)), Some_bind by (done || lia || (rewrite ?length_zeros; lia)).
  change (slice g 0 (length g)) with (take (length g) g). rewrite take_ge by lia. by apply install_gtk_ok.
Qed.

Lemma parse_wpa1 rnd a g b idx :
  group_ready a → length g = gtk_size (GroupCipher a) → 0 <= idx < 4 →
  RTMPParseEapolKeyData rnd a (g ++ b) (Z.of_nat (length g)) idx EAPOL_GROUP_MSG_1 false = Some (true, gtk_installed a g idx).
Proof.
  intros Ha Hg Hi.
  assert (16 <= length g <= 32)%nat as Hgl by (rewrite Hg; unfold gtk_size; destruct (_ =? _); lia).
  unfold RTMPParseEapolKeyData. rewrite u8_small by (unfold fits; lia).
  cbn [EAPOL_GROUP_MSG_1 EAPOL_PAIR_MSG_2 EAPOL_PAIR_MSG_3 Z.eqb Pos.eqb orb andb negb].
  rewrite (load_ok _ 0), Some_bind by (rewrite ?length_app; lia). rewrite Nat2Z.id.
  change (slice (g ++ b) (Z.to_nat 0) (length g)) with (take (length g) (g ++ b)). rewrite take_app_length.
  rewrite store_start, !Some_bind by (rewrite length_zeros; lia). cbn [gtk_idx gtk_len gtk_buf].
  rewrite (proj2 (Z.ltb_ge 3 idx)) by lia.
  rewrite (load_put_first _ g 0 (length g)), Some_bind by (done || lia || (rewrite ?length_zeros; lia)).
  change (slice g 0 (length g)) with (take (length g) g). rewrite take_ge by lia. by apply install_gtk_ok.
Qed.

(** ** Receiving a message *)

Lemma packet_for_version m mic rest :
  message_wf m → KeyDescVer (KeyInfo (packet_for m mic rest)) = m_version m.
Proof.
  intros (Hv & Ht & _). cbn [KeyInfo packet_for]. by rewrite <- construct_info_word.
Qed.

Lemma packet_for_key_index m mic rest :
  message_wf m → m_wpa2 m = false → m_type m = 5 → KeyIndex (KeyInfo (packet_for m mic rest)) = m_idx m & 3.
Proof.
  intros (Hv & Ht & _) Hw Hm. cbn [KeyInfo packet_for]. rewrite <- construct_info_word by done.
  by rewrite Hw, Hm.
Qed.

Lemma set_KeyMic_for m mic mic' rest : set_KeyMic (packet_for m mic rest) mic' = packet_for m mic' rest.
Proof. done. Qed.

(** The MIC of a packet under the key-confirmation key of an entry, for the key
    descriptor versions that have one, and what the MIC test compares with. *)
Definition packet_mic (r : wpa_entry) (p : EAPOL_PACKET) : option (list Z) :=
  eapol_mic_ref (KeyDescVer (KeyInfo p)) (take 16 (PTK r))
    (take (Z.to_nat (CONV_ARRARY_TO_UINT16 (Body_Len p) + 4)) (packet_bytes (set_KeyMic p (zeros 16)))).

Lemma check_mic_any E r mt p :
  cipher_memory E → field 64 (PTK r) → packet_wf p → mt ≠ 1 →
  CONV_ARRARY_TO_UINT16 (Body_Len p) + 4 <= Z.of_nat (length (packet_bytes p)) →
  check_mic E r mt p = Some (bool_decide (KeyMic p = default (zeros 16) (packet_mic r p)), set_KeyMic p (zeros 16)).
Proof.
  intros HE [Hpl Hpb] Hp Ht Hlen. unfold check_mic, EAPOL_PAIR_MSG_1. rewrite (proj2 (Z.eqb_neq _ _)) by done.
  assert (packet_wf (set_KeyMic p (zeros 16))) as Hp'.
  { unfold packet_wf in *. cbn [ProVer ProType Body_Len DescType KeyInfo KeyLength ReplayCounter KeyNonce KeyIv KeyRsc KeyId KeyMic KeyDataLen KeyData set_KeyMic].
    split_and!; try apply Hp. split; [done|by apply fits_zeros]. }
  assert (length (packet_bytes (set_KeyMic p (zeros 16))) = length (packet_bytes p)) as Hsame.
  { unfold packet_bytes. by rewrite !length_app, !length_packet_header. }
  destruct Hp as (_ & _ & [_ Hbl] & _ & _ & _ & _ & _ & _ & _ & _ & [Hml Hmb] & _).
  pose proof (CONV_range _ Hbl) as Hr. unfold packet_mic. fold (eapol_mic_array (KeyDescVer (KeyInfo p)) (take 16 (PTK r)) (take (Z.to_nat (CONV_ARRARY_TO_UINT16 (Body_Len p) + 4)) (packet_bytes (set_KeyMic p (zeros 16))))).
  set (n := CONV_ARRARY_TO_UINT16 (Body_Len p) + 4) in *. set (f := packet_bytes (set_KeyMic p (zeros 16))) in *.
  assert (bytes f) as Hf by (by apply bytes_packet).
  rewrite <- (Z2Nat.id n) at 1 by lia. change (KeyInfo (set_KeyMic p (zeros 16))) with (KeyInfo p).
  rewrite eapol_mic_ok; [|done|done|done|done|by apply Forall_take|lia|lia]. rewrite Some_bind.
  destruct (field_mic_ref (KeyDescVer (KeyInfo p)) (take 16 (PTK r)) (take (Z.to_nat n) f)) as [Hfl _];
    [by apply Forall_take|rewrite length_take; lia|by apply Forall_take|].
  unfold NdisEqualMemory. rewrite load_all, load_all, !Some_bind by (unfold LEN_KEY_DESC_MIC; lia). done.
Qed.

Lemma check_mic_ok E r m mic rest :
  cipher_memory E → field 64 (PTK r) → message_wf m → field 16 mic → bytes rest → m_type m ≠ 1 →
  check_mic E r (m_type m) (packet_for m mic (m_data m ++ rest)) =
    Some (bool_decide (mic = frame_mic m (take 16 (PTK r))), packet_for m (zeros 16) (m_data m ++ rest)).
Proof.
  intros HE HP Hm Hmic Hr Ht. pose proof Hm as (_ & _ & _ & _ & _ & _ & _ & Hd & Hdl).
  assert (packet_wf (packet_for m mic (m_data m ++ rest))) as Hp by (apply packet_for_wf; [done..|by apply Forall_app]).
  assert (field 16 (zeros 16)) as Hz by (split; [done|by apply fits_zeros]).
  destruct (field_frame_header m _ Hm Hz) as [Hl Hb].
  rewrite check_mic_any; [|done..|].
  - rewrite set_KeyMic_for. unfold packet_mic, frame_mic, eapol_mic_array. rewrite packet_for_version, (proj2 (Z.eqb_neq _ 1)) by done.
    rewrite set_KeyMic_for. cbn [Body_Len packet_for KeyMic]. rewrite CONV_be_bytes by lia.
    unfold packet_bytes. rewrite packet_header_for. cbn [KeyData packet_for]. rewrite app_assoc, take_app_length'; [done|].
    rewrite length_app. lia.
  - unfold packet_bytes. rewrite length_app, length_packet_header by done. cbn [Body_Len packet_for KeyData].
    rewrite CONV_be_bytes, length_app by lia. lia.
Qed.

(** The key data buffer holds the decrypted key data and zeros. *)
Definition opened (m : eapol_message) (plain : list Z) : list Z :=
  if has_gtk (m_wpa2 m) (m_type m) && (m_version m =? KEY_DESC_AES) then pad8 plain else plain.

Lemma open_key_data_ok E r m mic rest plain :
  ample E → field 64 (PTK r) → message_wf m → bytes rest → is_WPA2 r = m_wpa2 m →
  bytes plain → (length plain <= 240)%nat →
  m_data m = wire_key_data (m_version m) (m_type m) (m_wpa2 m) (pairwise_kek (PTK r)) (m_iv m) plain →
  has_gtk (m_wpa2 m) (m_type m) = true →
  ∃ p, open_key_data E r (m_type m) (m_wpa2 m) (zeros 255) (packet_for m mic (m_data m ++ rest)) =
         Some (Some (opened m plain ++ zeros (255 - length (opened m plain)), p,
                     if m_wpa2 m then 0 else m_idx m & 3)) ∧
       KeyDataLen p = be_bytes 2 (Z.of_nat (length (opened m plain))) ∧
       KeyInfo p = KeyInfo (packet_for m (zeros 16) []) ∧ ReplayCounter p = m_counter m ∧ KeyNonce p = m_nonce m.
Proof.
  intros HE HP Hm Hr Hw Hpb Hpl Hd Hg. unfold open_key_data.
  pose proof Hm as (Hv & _ & _ & _ & _ & [Hiv _] & _ & Hdb & Hdl).
  destruct (field_kek _ HP) as [Hkek ->]. rewrite Some_bind, packet_for_version by done.
  change ((m_type m =? EAPOL_PAIR_MSG_3) && m_wpa2 m || (m_type m =? EAPOL_GROUP_MSG_1))
    with (has_gtk (m_wpa2 m) (m_type m)). rewrite Hg.
  assert ((if negb (m_wpa2 m) && (m_type m =? EAPOL_GROUP_MSG_1)
           then KeyIndex (KeyInfo (packet_for m mic (m_data m ++ rest))) else 0) =
          (if m_wpa2 m then 0 else m_idx m & 3)) as ->.
  { unfold has_gtk in Hg. destruct (m_wpa2 m) eqn:Ew; [done|]. rewrite andb_false_r in Hg. cbn [orb negb andb] in *.
    unfold EAPOL_GROUP_MSG_1. rewrite Hg. apply packet_for_key_index; [done|done|lia]. }
  cbv zeta. cbn [KeyDataLen KeyData packet_for KeyIv]. rewrite CONV_be_bytes by lia.
  unfold opened, wire_key_data in *. rewrite Hg in *. cbn [andb].
  assert ((m_version m =? KEY_DESC_EXT) = false) as -> by (destruct Hv as [-> | ->]; done). cbn [orb].
  destruct (m_version m =? KEY_DESC_AES).
  - pose proof (length_pad8 plain) as Hp8. pose proof (Nat.Div0.mul_div_le (length plain + 7) 8).
    set (k := pairwise_kek (PTK r)) in *.
    assert (wrap_args E k (length (pad8 plain))) as Hwa by (apply ample_wrap; [done..|lia]).
    pose proof (Nat.Div0.mul_div_le (length (pad8 plain)) 8).
    destruct (AES_Key_Wrap_call E k (pad8 plain) (length (pad8 plain)) (zeros 512)) as (_ & Hwl & _);
      [done|done|by rewrite take_ge by done; apply bytes_pad8|lia|rewrite length_zeros; lia|].
    rewrite take_ge, <- Hd in Hwl by done. rewrite Hwl. change LEN_PTK_KEK with 16.
    replace 16 with (Z.of_nat (length k)) by (by rewrite (proj1 Hkek)).
    rewrite (AES_Key_Unwrap_call E k (pad8 plain)), Some_bind;
      [|done|by apply bytes_pad8|done|lia|rewrite length_app; lia|by rewrite <- Hwl, take_app_length|rewrite length_zeros; lia].
    eexists. split; [rewrite put_zeros_0 by lia; done|]. cbn [default from_option id].
    rewrite SET_be_bytes by lia. done.
  - assert (length (m_data m) = length plain) as Hl by (rewrite Hd; rewrite length_xorl; [done|by rewrite length_keystream]).
    rewrite Hl, Nat2Z.id. unfold TKIP_GTK_KEY_UNWRAP.
    pose proof (TKIP_GTK_KEY_WRAP_eq E (pairwise_kek (PTK r)) (m_iv m) (zeros 255 ++ m_data m ++ rest) 255 (length plain) 0) as HW.
    change (Z.of_nat 255) with 255 in HW. change (Z.of_nat 0) with 0 in HW.
    rewrite HW, Some_bind by (rewrite ?length_app, ?length_zeros, ?(proj1 Hkek); first [apply HE; lia | lia]).
    clear HW. unfold sizeof_ARC4_CTX_STRUC. rewrite HE by lia.
    rewrite load_ok, Some_bind by (rewrite ?length_zeros; lia).
    exists (packet_for m mic (m_data m ++ rest)). split; [|cbn [KeyDataLen packet_for]; rewrite Hl; done]. do 4 f_equal.
    assert (slice (zeros 255 ++ m_data m ++ rest) 255 (length plain) = m_data m) as ->.
    { unfold slice. rewrite drop_app_length' by (by rewrite length_zeros). by rewrite <- Hl, take_app_length. }
    assert (xorl (m_data m) (keystream (gtk_ctx (pairwise_kek (PTK r)) (m_iv m)) (length plain)) = plain) as ->
      by (rewrite Hd; apply xorl_cancel_r; by rewrite length_keystream).
    rewrite put_start by (rewrite length_app, length_zeros; lia).
    rewrite drop_app_le by (rewrite length_zeros; lia).
    assert (drop (length plain) (zeros 255) = zeros (255 - length plain)) as -> by apply drop_replicate.
    rewrite app_assoc. apply take_app_length'. rewrite length_app, length_zeros. lia.
Qed.

Lemma pad8_tail plain :
  (length plain <= 232)%nat →
  ∃ b p, pad8 plain ++ zeros (255 - length (pad8 plain)) = plain ++ b ∧ kde_tail b ∧ (p <= 7)%nat ∧
         length (pad8 plain) = (length plain + p)%nat ∧ (p = 0%nat ∨ b.[0] = 0xdd).
Proof.
  intros H. pose proof (Nat.mod_upper_bound (length plain) 8 ltac:(lia)) as Hm.
  pose proof (Nat.div_mod_eq (length plain) 8) as Hd.
  unfold pad8. destruct (Nat.eqb_spec (length plain mod 8) 0) as [E|E].
  - exists (zeros (255 - length plain)), 0%nat. split_and!; [done|exists (255 - length plain)%nat; split; [lia|by left]|lia..|by left].
  - exists (0xdd :: zeros (7 - length plain mod 8 + (255 - (length plain + S (7 - length plain mod 8))))), (8 - length plain mod 8)%nat.
    rewrite length_app. cbn [length]. rewrite length_zeros. split_and!.
    + rewrite <- app_assoc. cbn [app]. unfold zeros. by rewrite replicate_add.
    + eexists. split; [|by right]. assert (length plain mod 8 + 8 * (length plain / 8) = length plain)%nat by lia. lia.
    + lia.
    + lia.
    + by right.
Qed.

(** What a message must carry to be understood: the group key in a group key
    element behind at most one RSN IE (WPA2) or bare (WPA), encrypted under
    the receiver's key; other messages an element that fits the buffer. *)
Definition carries (m : eapol_message) (kek g : list Z) : Prop :=
  if has_gtk (m_wpa2 m) (m_type m) then
    ∃ d, (if m_wpa2 m then rsn_element d ∧ bytes d ∧ (length d <= 192)%nat else d = []) ∧
         m_data m = wire_key_data (m_version m) (m_type m) (m_wpa2 m) kek (m_iv m)
                      (d ++ if m_wpa2 m then gtk_kde (m_idx m) g else g)
  else (length (m_data m) <= 255)%nat ∧ (has_rsn (m_type m) = false → m_data m = []).

Definition after_message (a : wpa_adapter) (m : eapol_message) (g : list Z) : wpa_adapter :=
  if has_gtk (m_wpa2 m) (m_type m) then gtk_installed a g (m_idx m & 3) else a.

Lemma wire_nonempty E version mt wpa2 kek iv l :
  ample E → field 16 kek → bytes l → (1 <= length l <= 320)%nat → has_gtk wpa2 mt = true →
  (0 < length (wire_key_data version mt wpa2 kek iv l))%nat.
Proof.
  intros HE Hk Hl Hn Hg. unfold wire_key_data. rewrite Hg. destruct (_ =? _).
  - assert (length (pad8 l) <= 327)%nat as Hp
      by (rewrite length_pad8; pose proof (Nat.Div0.mul_div_le (length l + 7) 8); lia).
    pose proof (Nat.Div0.mul_div_le (length (pad8 l)) 8).
    destruct (AES_Key_Wrap_call E kek (pad8 l) (length (pad8 l)) (zeros 512)) as (_ & Hw & _);
      [by apply ample_wrap; [..|lia]|done|by apply Forall_take, bytes_pad8|lia|rewrite length_zeros; lia|].
    rewrite take_ge in Hw by done. lia.
  - rewrite length_xorl by (by rewrite length_keystream). lia.
Qed.

(** Key data that is not encrypted is copied and not looked at. *)
Lemma key_data_copied E rnd r a m mic rest :
  message_wf m → has_gtk (m_wpa2 m) (m_type m) = false → has_rsn (m_type m) = true → (length (m_data m) <= 255)%nat →
  (o ← open_key_data E r (m_type m) (m_wpa2 m) (zeros 255) (packet_for m mic (m_data m ++ rest));
   match o with
   | None => Some (true, packet_for m mic (m_data m ++ rest), a)
   | Some (KEYDATA, pMsg, GroupKeyIndex) =>
       '(ok, a) ← RTMPParseEapolKeyData rnd a KEYDATA (CONV_ARRARY_TO_UINT16 (KeyDataLen pMsg))
                    GroupKeyIndex (m_type m) (m_wpa2 m);
       Some (ok, pMsg, a)
   end) = Some (true, packet_for m mic (m_data m ++ rest), a).
Proof.
  intros Hm Hg Hrsn Hl. unfold open_key_data.
  change ((m_type m =? EAPOL_PAIR_MSG_3) && m_wpa2 m || (m_type m =? EAPOL_GROUP_MSG_1))
    with (has_gtk (m_wpa2 m) (m_type m)). rewrite Hg.
  assert ((m_type m =? EAPOL_PAIR_MSG_2) || (m_type m =? EAPOL_PAIR_MSG_3) && negb (m_wpa2 m) = true) as Hcond.
  { unfold has_rsn, has_gtk, EAPOL_PAIR_MSG_2, EAPOL_PAIR_MSG_3 in *.
    destruct (m_type m =? 2); [done|]. destruct (m_type m =? 3); [|done]. by destruct (m_wpa2 m). }
  rewrite Hcond. cbn [KeyData KeyDataLen packet_for]. rewrite CONV_be_bytes by lia.
  rewrite load_ok, Some_bind by (rewrite ?length_app; lia).
  change (slice (m_data m ++ rest) (Z.to_nat 0) (Z.to_nat (Z.of_nat (length (m_data m)))))
    with (take (Z.to_nat (Z.of_nat (length (m_data m)))) (m_data m ++ rest)).
  rewrite Nat2Z.id, take_app_length, store_start, !Some_bind by (rewrite length_zeros; lia).
  unfold RTMPParseEapolKeyData. rewrite Hcond. done.
Qed.

(** Decrypting and parsing, when there is key data. *)
Lemma key_data_taken E rnd r a m mic rest g :
  ample E → field 64 (PTK r) → message_wf m → bytes rest → is_WPA2 r = m_wpa2 m →
  group_ready a → length g = gtk_size (GroupCipher a) → bytes g →
  carries m (pairwise_kek (PTK r)) g → has_gtk (m_wpa2 m) (m_type m) = true →
  ∃ p, (o ← open_key_data E r (m_type m) (m_wpa2 m) (zeros 255) (packet_for m mic (m_data m ++ rest));
        match o with
        | None => Some (true, packet_for m mic (m_data m ++ rest), a)
        | Some (KEYDATA, pMsg, GroupKeyIndex) =>
            '(ok, a) ← RTMPParseEapolKeyData rnd a KEYDATA (CONV_ARRARY_TO_UINT16 (KeyDataLen pMsg))
                         GroupKeyIndex (m_type m) (m_wpa2 m);
            Some (ok, pMsg, a)
        end) = Some (true, p, gtk_installed a g (m_idx m & 3)) ∧
       KeyInfo p = KeyInfo (packet_for m (zeros 16) []) ∧ ReplayCounter p = m_counter m ∧ KeyNonce p = m_nonce m.
Proof.
  intros HE HP Hm Hr Hw Ha Hg Hgb Hc Hgtk. unfold carries in Hc. rewrite Hgtk in Hc. destruct Hc as (d & Hd & Hdata).
  assert (16 <= length g <= 32)%nat as Hgl by (rewrite Hg; unfold gtk_size; destruct (_ =? _); lia).
  set (plain := d ++ if m_wpa2 m then gtk_kde (m_idx m) g else g) in *.
  assert (bytes plain ∧ (length plain <= 232)%nat) as [Hpb Hpl].
  { unfold plain. rewrite Forall_app, length_app. destruct (m_wpa2 m); [|subst d; split; [by split|cbn; lia]].
    destruct Hd as (_ & Hdb & Hdl). rewrite length_gtk_kde. split; [split; [done|apply bytes_gtk_kde; [done|lia]]|lia]. }
  destruct (open_key_data_ok E r m mic rest plain) as (p & -> & Hlen & Hp); [done..|lia|done|done|].
  rewrite Some_bind. exists p. split; [|done]. rewrite Hlen.
  assert (length (opened m plain) <= 240)%nat as Hol.
  { unfold opened. destruct (_ && _); [|lia]. rewrite length_pad8.
    pose proof (Nat.Div0.mul_div_le (length plain + 7) 8). lia. }
  rewrite CONV_be_bytes by lia.
  match goal with |- (?x ≫= _) = _ => assert (x = Some (true, gtk_installed a g (m_idx m & 3))) as -> end; [|done].
  destruct (m_wpa2 m) eqn:Ew.
  - destruct Hd as (Hd & _). assert (m_type m = 3 ∨ m_type m = 5) as Hmt.
    { unfold has_gtk in Hgtk. destruct (Z.eqb_spec (m_type m) 3); [by left|]. destruct (Z.eqb_spec (m_type m) 5); [by right|done]. }
    destruct (pad8_tail plain Hpl) as (b & k & Hb & Htail & Hk & Hlk & Hz).
    unfold opened. rewrite Ew, Hgtk. cbn [andb]. destruct (m_version m =? KEY_DESC_AES).
    + rewrite Hb, Hlk. by apply parse_wpa2.
    + rewrite <- (Nat.add_0_r (length plain)) at 2. apply parse_wpa2; try done; [|lia|by left].
      exists (255 - length plain)%nat. split; [lia|by left].
  - subst d. assert (m_type m = 5) as Hmt.
    { unfold has_gtk in Hgtk. rewrite andb_false_r in Hgtk. by apply Z.eqb_eq. }
    assert (opened m plain = g) as ->.
    { unfold opened, plain. cbn [app]. destruct (_ && _); [|done]. unfold pad8.
      assert (length g = 16%nat ∨ length g = 32%nat) as [-> | ->] by (rewrite Hg; unfold gtk_size; destruct (_ =? _); auto); done. }
    rewrite Hmt. apply parse_wpa1; [done..|]. apply (key_index_cases (m_idx m)); lia.
Qed.

(** A message that [carries] its key, sent under the receiver's PTK with a
    counter the receiver accepts, is taken; whatever is behind it in the
    buffer does not matter. *)
Lemma PeerWpaMessageSanity_ok E rnd r a m rest g :
  ample E → field 64 (PTK r) → message_wf m → bytes rest → is_WPA2 r = m_wpa2 m →
  group_ready a → length g = gtk_size (GroupCipher a) → bytes g →
  carries m (pairwise_kek (PTK r)) g → replay_differs r (m_type m) (m_counter m) = Some false →
  ∃ p, PeerWpaMessageSanity E rnd a (packet_of (eapol_frame m (take 16 (PTK r)) ++ rest)) (m_type m) r =
         Some (true, p, after_message a m g) ∧
       KeyInfo p = KeyInfo (packet_for m (zeros 16) []) ∧ ReplayCounter p = m_counter m ∧ KeyNonce p = m_nonce m.
Proof.
  intros HE HP Hm Hr Hw Ha Hg Hgb Hc Hrep. pose proof Hm as (_ & Hmt & _ & _ & _ & _ & _ & Hdb & Hdl).
  assert (cipher_memory E) as Hcm by (split; apply HE; unfold sizeof_AES_CTX_STRUC; lia).
  assert (field 16 (frame_mic m (take 16 (PTK r)))) as Hmic.
  { unfold frame_mic. destruct (m_type m =? 1); [split; [done|by apply fits_zeros]|].
    apply field_mic_ref; [by apply Forall_take, HP|rewrite length_take; destruct HP; lia|].
    apply Forall_app. split; [|done]. apply field_frame_header; [done|split; [done|by apply fits_zeros]]. }
  unfold eapol_frame. rewrite <- app_assoc, packet_of_frame; [|done|done|by apply Forall_app].
  unfold PeerWpaMessageSanity. rewrite HE by (unfold MAX_LEN_OF_RSNIE; lia). cbn [negb].
  unfold EAPOL_GROUP_MSG_2, EAPOL_PAIR_MSG_1.
  rewrite (proj2 (Z.ltb_ge 6 _)), (proj2 (Z.ltb_ge _ 1)) by lia. cbn [orb].
  change (ReplayCounter (packet_for _ _ _)) with (m_counter m). rewrite Hrep, Some_bind. cbv iota.
  assert (∃ mic, check_mic E r (m_type m) (packet_for m (frame_mic m (take 16 (PTK r))) (m_data m ++ rest)) =
                 Some (true, packet_for m mic (m_data m ++ rest))) as (mic & Hcheck).
  { destruct (decide (m_type m = 1)) as [H1|H1].
    - unfold check_mic. rewrite H1. by eexists.
    - rewrite check_mic_ok by done. rewrite bool_decide_true by done. by eexists. }
  rewrite Hcheck, Some_bind. cbn [negb].
  change (KeyDataLen (packet_for _ _ _)) with (be_bytes 2 (Z.of_nat (length (m_data m)))). rewrite CONV_be_bytes by lia.
  unfold after_message, carries in *. destruct (has_gtk (m_wpa2 m) (m_type m)) eqn:Hgtk.
  - rewrite (proj2 (Z.ltb_lt _ _)).
    + rewrite Hw. apply key_data_taken; try done. unfold carries. by rewrite Hgtk.
    + destruct Hc as (d & Hd & ->).
      enough (0 < length (wire_key_data (m_version m) (m_type m) (m_wpa2 m) (pairwise_kek (PTK r)) (m_iv m)
                    (d ++ if m_wpa2 m then gtk_kde (m_idx m) g else g)))%nat by lia.
      assert (16 <= length g <= 32)%nat as Hgl by (rewrite Hg; unfold gtk_size; destruct (_ =? _); lia).
      apply (wire_nonempty E); [done|by apply field_kek| | |done].
      * apply Forall_app. destruct (m_wpa2 m); [|subst d; by split]. split; [apply Hd|apply bytes_gtk_kde; [done|lia]].
      * rewrite length_app. destruct (m_wpa2 m); [|subst d; cbn; lia]. rewrite length_gtk_kde. lia.
  - destruct Hc as [Hl Hrsn]. destruct (Z.ltb_spec 0 (Z.of_nat (length (m_data m)))) as [Hpos|Hz].
    + rewrite Hw. eexists. split; [apply key_data_copied; try done|done].
      destruct (has_rsn (m_type m)) eqn:Hr2; [done|]. rewrite Hrsn in Hpos by done. done.
    + by eexists.
Qed.

Lemma message_of_carries E e gws mt idx Nonce TxRSC nonce rsc GTK RSNIE gtk ie n :
  construct_args E e mt GTK RSNIE gtk ie n → message_args e mt Nonce TxRSC nonce rsc →
  (n <= 190)%nat → (mt = 3 → is_WPA2 e = true → slice ie 2 3 = OUI_WPA2) →
  carries (message_of e gws mt idx nonce rsc gtk ie n) (pairwise_kek (PTK e)) (take (gtk_size gws) gtk).
Proof.
  intros [_ _ _ _ _ (H5 & Hn & _ & Hib)] [Hmt _ _ _ _ _] H190 Hoi. unfold carries, message_of.
  cbn [m_wpa2 m_type m_data m_version m_iv m_idx]. destruct (has_gtk (is_WPA2 e) mt) eqn:Hg.
  - assert (mt = 3 ∧ is_WPA2 e = true ∨ mt = 5) as Hcase.
    { unfold has_gtk in Hg. destruct (Z.eqb_spec mt 5); [by right|]. rewrite orb_false_r in Hg.
      apply andb_prop in Hg as [->%Z.eqb_eq Hw]. by left. }
    exists (if has_rsn mt && negb (n =? 0)%nat then rsn_ie ie n else []). split.
    + destruct Hcase as [[-> Hw]| ->].
      * rewrite Hw. cbn [has_rsn Z.eqb Pos.eqb orb andb]. destruct (n =? 0)%nat; cbn [negb];
          [split_and!; [by left|constructor|cbn; lia]|].
        split_and!; [right; exists ie, n; split_and!; [done|by apply Hoi|done|lia]|apply bytes_rsn_ie; [done|lia]|].
        rewrite length_rsn_ie by done. lia.
      * cbn [has_rsn Z.eqb Pos.eqb orb andb]. destruct (is_WPA2 e); [|done].
        split_and!; [by left|constructor|cbn; lia].
    + assert ((mt =? 1) || (mt =? 4) || (mt =? 6) = false) as -> by (by destruct Hcase as [[-> _]| ->]).
      unfold plain_key_data. by rewrite Hg.
  - destruct ((mt =? 1) || (mt =? 4) || (mt =? 6)) eqn:Hno; [split; [cbn; lia|done]|].
    unfold wire_key_data, plain_key_data. rewrite Hg, app_nil_r. split.
    + destruct (_ && _); [rewrite length_rsn_ie by done|cbn [length]]; lia.
    + by intros ->.
Qed.

(** The frame that the callers of [ConstructEapolMsg] send. *)
Definition sent (q : EAPOL_PACKET) : list Z :=
  take (Z.to_nat (CONV_ARRARY_TO_UINT16 (Body_Len q) + 4)) (packet_bytes q).

Lemma sent_frame m kck z : message_wf m → field 16 kck →
  sent (packet_for m (frame_mic m kck) (m_data m ++ z)) = eapol_frame m kck.
Proof.
  intros Hm [Hkl Hkb]. pose proof Hm as (_ & _ & _ & _ & _ & _ & _ & Hdb & Hdl).
  assert (field 16 (zeros 16)) as Hz by (split; [done|by apply fits_zeros]).
  assert (field 16 (frame_mic m kck)) as Hmic.
  { unfold frame_mic. destruct (_ =? _); [done|]. apply field_mic_ref; [done|done|].
    apply Forall_app. split; [by apply field_frame_header|done]. }
  unfold sent. cbn [Body_Len packet_for]. rewrite CONV_be_bytes by lia. unfold packet_bytes. rewrite packet_header_for.
  cbn [KeyData packet_for]. unfold eapol_frame. rewrite app_assoc. apply take_app_length'.
  rewrite length_app, (proj1 (field_frame_header m _ Hm Hmic)). lia.
Qed.

(** C8: A message built by [ConstructEapolMsg] and received by a peer with
    the same PTK and the same kind of network, at a replay counter that peer
    accepts, passes [PeerWpaMessageSanity] whatever stale bytes are behind it
    in the receive buffer: the peer computes the same MIC, recovers the same
    key data, and for message 3 of WPA2 and message 1 of the group handshake
    installs exactly the sender's group key under the sender's key index. *)
Theorem eapol_message_accepted E rnd e r a gws mt idx Nonce TxRSC nonce rsc GTK RSNIE gtk ie n len rest :
  construct_args E e mt GTK RSNIE gtk ie n → message_args e mt Nonce TxRSC nonce rsc → (400 <= len)%nat →
  (n <= 190)%nat → (mt = 3 → is_WPA2 e = true → slice ie 2 3 = OUI_WPA2) →
  PTK r = PTK e → is_WPA2 r = is_WPA2 e → group_ready a → GroupCipher a = gws → bytes rest →
  replay_differs r mt (R_Counter e) = Some false →
  ∃ q p, ConstructEapolMsg E e gws mt idx Nonce TxRSC GTK RSNIE (Z.of_nat n) (zero_packet len) = Some q ∧
    PeerWpaMessageSanity E rnd a (packet_of (sent q ++ rest)) mt r =
      Some (true, p, if has_gtk (is_WPA2 e) mt then gtk_installed a (take (gtk_size gws) gtk) (idx & 3) else a) ∧
    ReplayCounter p = R_Counter e ∧ (mt <= 3 → KeyNonce p = nonce).
Proof.
  intros Ha Hm Hlen Hn Hoi Hptk Hw Hr Hgc Hrest Hrep.
  set (m := message_of e gws mt idx nonce rsc gtk ie n).
  pose proof (message_of_wf E e gws mt idx Nonce TxRSC nonce rsc GTK RSNIE gtk ie n Ha Hm) as Hwf. fold m in Hwf.
  pose proof (args_ptk _ _ _ _ _ _ _ _ Ha) as HP. destruct (args_gtk _ _ _ _ _ _ _ _ Ha) as [Hgl Hgb].
  assert (field 16 (take 16 (PTK e))) as Hkck by (by apply field_kck).
  destruct (PeerWpaMessageSanity_ok E rnd r a m rest (take (gtk_size gws) gtk)) as (p & Hp & _ & Hrc & Hno).
  - apply Ha.
  - by rewrite Hptk.
  - done.
  - done.
  - by rewrite Hw.
  - done.
  - rewrite Hgc, length_take. pose proof (gtk_size_le gws). lia.
  - by apply Forall_take.
  - rewrite Hptk. by apply (message_of_carries E _ _ _ _ Nonce TxRSC nonce rsc GTK RSNIE).
  - done.
  - eexists _, p. rewrite (ConstructEapolMsg_ok E e gws mt idx _ _ nonce rsc _ _ gtk ie) by done. fold m.
    split; [done|]. rewrite sent_frame by done. rewrite Hptk in Hp. split; [exact Hp|]. split; [exact Hrc|].
    intros H3. rewrite Hno. unfold m, message_of. cbn [m_nonce]. rewrite (proj2 (Z.leb_le mt 3)) by done.
    destruct Hm as [_ _ _ [Hnl _] _ _]. cbn [orb]. by rewrite take_ge by lia.
Qed.

(** An adapter for the witnesses: station [1..6], the peer at entry 1. *)
Definition sample_adapter (cipher : Z) (peer : wpa_entry) : wpa_adapter :=
  {| CurrentAddress := seqZ 1 6; cfg_PMK := seqZ 60 32; GroupCipher := cipher; cfg_RSN_IE := sample_rsnie ++ zeros 24;
     cfg_RSNIE_Len := 20; bMixCipher := false; cfg_GTK := zeros 32; DefaultKeyId := 0; cfg_PTK := zeros 64;
     cfg_PortSecured := WPA_802_1X_PORT_NOT_SECURED; SharedKey := replicate 4 zero_key;
     Content := [peer; peer]; Hash := <[27%nat := Some 1%nat]> (replicate 256 None); closed := false; scanning := false;
     MlmeAux_Channel := 6; Channel := 6; log := [] |}.

Lemma eapol_message_accepted_witness :
  let e := sample_entry Ndis802_11AuthModeWPA2PSK Ndis802_11Encryption3Enabled (zeros 7 ++ [2]) (seqZ 100 64) in
  let r := sample_entry Ndis802_11AuthModeWPA2PSK Ndis802_11Encryption3Enabled (zeros 7 ++ [1]) (seqZ 100 64) in
  let a := sample_adapter Ndis802_11Encryption3Enabled r in
  ∃ q p, ConstructEapolMsg kmalloc_all e Ndis802_11Encryption3Enabled 3 1 (Some (seqZ 1 32)) (Some (seqZ 1 6))
           (Some (seqZ 50 32)) (Some sample_rsnie) (Z.of_nat 20) (zero_packet 400) = Some q ∧
    PeerWpaMessageSanity kmalloc_all (λ _, 0) a (packet_of (sent q ++ seqZ 0 100)) 3 r =
      Some (true, p, gtk_installed a (seqZ 50 16) 1) ∧
    ReplayCounter p = R_Counter e ∧ (3 <= 3 → KeyNonce p = seqZ 1 32).
Proof.
  apply (eapol_message_accepted kmalloc_all (λ _, 0)
    (sample_entry Ndis802_11AuthModeWPA2PSK Ndis802_11Encryption3Enabled (zeros 7 ++ [2]) (seqZ 100 64))
    (sample_entry Ndis802_11AuthModeWPA2PSK Ndis802_11Encryption3Enabled (zeros 7 ++ [1]) (seqZ 100 64))
    (sample_adapter Ndis802_11Encryption3Enabled
      (sample_entry Ndis802_11AuthModeWPA2PSK Ndis802_11Encryption3Enabled (zeros 7 ++ [1]) (seqZ 100 64)))
    Ndis802_11Encryption3Enabled 3 1 (Some (seqZ 1 32)) (Some (seqZ 1 6)) (seqZ 1 32) (seqZ 1 6)
    (Some (seqZ 50 32)) (Some sample_rsnie) (seqZ 50 32) sample_rsnie 20 400 (seqZ 0 100)).
  - split; [apply ample_all|split; [done|bytes_table]|done|split; [vm_compute; lia|bytes_table]|done|].
    split_and!; [vm_compute; lia..|bytes_table].
  - split; [lia|split; [done|bytes_table]|done|split; [done|bytes_table]|done|split; [done|bytes_table]].
  - lia.
  - lia.
  - done.
  - done.
  - done.
  - split; [by right|vm_compute; lia|done].
  - done.
  - bytes_table.
  - vm_compute. reflexivity.
Defined.

(** ** What is not accepted *)

(** The counter rule of the code. *)
Definition fresh (r : wpa_entry) (mt : Z) (c : list Z) : Prop :=
  if (mt =? 1) || (mt =? 3) || (mt =? 5) then be_word (R_Counter r) < be_word c ∨ be_word c = 0
  else c = R_Counter r.

Lemma be_word_zeros n : be_word (zeros n) = 0.
Proof.
  unfold be_word. assert (rev (zeros n) = zeros n) as -> by (rewrite rev_alt; apply reverse_replicate).
  induction n as [|n IH]; [done|]. change (zeros (S n)) with (0 :: zeros n). cbn [le_word]. by rewrite IH.
Qed.

Lemma replay_differs_spec r mt c :
  field 8 c → field 8 (R_Counter r) →
  ∃ b, replay_differs r mt c = Some b ∧ (b = false ↔ fresh r mt c).
Proof.
  intros [Hl Hb] [Hrl Hrb]. unfold replay_differs, fresh, EAPOL_PAIR_MSG_1, EAPOL_PAIR_MSG_3, EAPOL_GROUP_MSG_1.
  change LEN_KEY_DESC_REPLAY with (Z.of_nat 8). rewrite <- Hl.
  destruct ((mt =? 1) || (mt =? 3) || (mt =? 5)).
  - rewrite !RTMPCompareMemory_eq, !Some_bind by (done || lia || (by apply fits_zeros) || (rewrite Hl; done)).
    eexists. split; [done|]. rewrite be_word_zeros. pose proof (fits_be_word c Hb) as [H0 _].
    destruct (Z.compare_spec (be_word c) (be_word (R_Counter r))), (Z.compare_spec (be_word c) 0); cbn; split; intros; try done; lia.
  - unfold NdisEqualMemory. rewrite !load_all, !Some_bind by lia. eexists. split; [done|].
    destruct (bool_decide (c = R_Counter r)) eqn:Hd; cbn [negb]; split; intros; try done.
    + by apply bool_decide_eq_true in Hd.
    + by apply bool_decide_eq_false in Hd.
Qed.

Definition authentic (r : wpa_entry) (mt : Z) (p : EAPOL_PACKET) : Prop :=
  fresh r mt (ReplayCounter p) ∧
  (mt ≠ 1 → match packet_mic r p with Some mic => KeyMic p = mic | None => KeyMic p = zeros 16 end).


Definition sample_message4 : eapol_message :=
  {| m_wpa2 := true; m_version := 2; m_type := 4; m_idx := 0; m_keylen := 0; m_counter := zeros 7 ++ [1];
     m_nonce := zeros 32; m_iv := zeros 16; m_rsc := zeros 8; m_data := [] |}.


(** A key descriptor version without a MIC: group message 1 of a WPA network
    with version 0 and a MIC of zeros is accepted whatever the keys are. *)
Definition forged_group_message : EAPOL_PACKET :=
  packet_of (frame_header {| m_wpa2 := false; m_version := 0; m_type := 5; m_idx := 1; m_keylen := 32;
     m_counter := zeros 7 ++ [2]; m_nonce := zeros 32; m_iv := zeros 16; m_rsc := zeros 8; m_data := [] |} (zeros 16)).

Lemma unknown_version_needs_no_key ptk :
  let r := sample_entry Ndis802_11AuthModeWPAPSK Ndis802_11Encryption1Enabled (zeros 7 ++ [1]) ptk in
  let a := sample_adapter Ndis802_11Encryption1Enabled r in
  PeerWpaMessageSanity kmalloc_all (λ _, 0) a forged_group_message 5 r = Some (true, forged_group_message, a).
Proof. vm_compute. reflexivity. Qed.

(** ** The group key element *)

(** The walk ends: an element takes two bytes at least, so more fuel than
    there are pairs of bytes makes no difference. *)
Lemma kde_loop_fuel f : ∀ g buf off KDL s,
  0 <= off <= KDL → KDL <= 255 → bytes buf → KDL - off + 2 <= 2 * Z.of_nat f → (f <= g)%nat →
  kde_loop g buf off KDL s = kde_loop f buf off KDL s.
Proof.
  induction f as [|f IH]; intros g buf off KDL s Hoff H255 Hb Hf Hfg; [lia|].
  destruct g as [|g]; [lia|]. cbn [kde_loop].
  destruct (load buf (off + 1) 1) as [l|] eqn:Hl; [|done]. rewrite !Some_bind.
  assert (byte l.[0]) as [H0 _].
  { apply bytes_get. unfold load in Hl. destruct (_ && _); [|done]. injection Hl as <-. by apply bytes_slice. }
  destruct (Z.leb_spec (off + 2 + l.[0]) KDL) as [Hle|]; [|done].
  destruct (kde_element buf off l.[0] s) as [[s'|]|]; [|done..]. rewrite !Some_bind.
  rewrite u8_small by (unfold fits; lia). apply IH; try done; lia.
Qed.

(** C29: Key data that starts with a WPA2 group key element. A length field of
    6 to 10 is refused; one below 6 makes the 8-bit key length wrap around,
    and one above 38 exceeds the 32 bytes of the key buffer: in both cases the
    parser writes outside the buffer on its stack. *)
Theorem gtk_kde_length rnd a L idx rest KeyDataLen gki mt :
  byte L → length rest = 247%nat → 2 + L <= KeyDataLen <= 255 → mt = EAPOL_PAIR_MSG_3 ∨ mt = EAPOL_GROUP_MSG_1 →
  let KEYDATA := [WPA_KDE_TYPE; L] ++ OUI_WPA2 ++ [KDE_GTK; idx; 0] ++ rest in
  (L < 6 ∨ 38 < L → RTMPParseEapolKeyData rnd a KEYDATA KeyDataLen gki mt true = None) ∧
  (6 <= L <= 10 → RTMPParseEapolKeyData rnd a KEYDATA KeyDataLen gki mt true = Some (false, a)) ∧
  (11 <= L <= 38 →
   kde_element KEYDATA 0 L {| gtk_buf := zeros 32; gtk_len := 0; gtk_idx := 0 |} =
     Some (Some {| gtk_buf := put (zeros 32) 0 (take (Z.to_nat (L - 6)) rest); gtk_len := L - 6; gtk_idx := idx & 3 |})).
Proof.
  intros [HL0 HL] Hr HK Hmt KEYDATA. change (2 ^ 8) with 256 in HL.
  assert (length KEYDATA = 255%nat) as Hlen by (unfold KEYDATA; cbn [length app OUI_WPA2]; lia).
  assert (kde_element KEYDATA 0 L {| gtk_buf := zeros 32; gtk_len := 0; gtk_idx := 0 |} =
    if u8 (L - 6) <? LEN_WEP64 then Some None
    else g ← load KEYDATA 8 (u8 (L - 6)); GTK ← store (zeros 32) 0 g;
         Some (Some {| gtk_buf := GTK; gtk_len := u8 (L - 6); gtk_idx := idx & 3 |})) as Hel.
  { unfold kde_element, load. rewrite Hlen. done. }
  assert (load KEYDATA (0 + 1) 1 = Some [L]) as Hat1 by (unfold load; rewrite Hlen; done).
  assert (∀ n, 0 <= n <= 247 → load KEYDATA 8 n = Some (take (Z.to_nat n) rest)) as Hat8
    by (intros n Hn; rewrite load_ok by lia; done).
  assert (∀ n, 247 < n → load KEYDATA 8 n = None) as Hbad
    by (intros n Hn; unfold load; rewrite Hlen, (proj2 (Z.leb_gt (8 + n) _)) by lia; by rewrite andb_false_r).
  assert (∀ g, (32 < length g)%nat → store (zeros 32) 0 g = None) as Hover
    by (intros g Hg; unfold store; rewrite length_zeros, (proj2 (Z.leb_gt (0 + _) _)) by lia; done).
  clearbody KEYDATA.
  assert (RTMPParseEapolKeyData rnd a KEYDATA KeyDataLen gki mt true =
    (r ← (r ← kde_element KEYDATA 0 L {| gtk_buf := zeros 32; gtk_len := 0; gtk_idx := 0 |};
          match r with None => Some None | Some s => kde_loop 128 KEYDATA (u8 (0 + 2 + L)) KeyDataLen s end);
     match r with
     | None => Some (false, a)
     | Some s =>
        if 3 <? gtk_idx s then Some (false, a)
        else g ← load (gtk_buf s) 0 (gtk_len s); gtk ← store (cfg_GTK a) 0 g;
             let a := set_cfg a gtk (gtk_idx s) (cfg_PTK a) (cfg_PortSecured a) in
             a ← WPAInstallSharedKey rnd a (GroupCipher a) 0 (DefaultKeyId a) 0 false (cfg_GTK a) (gtk_len s);
             Some (true, a)
     end)) as Hparse.
  { unfold RTMPParseEapolKeyData. rewrite u8_small by (unfold fits; lia).
    destruct Hmt as [-> | ->]; cbn [EAPOL_GROUP_MSG_1 EAPOL_PAIR_MSG_2 EAPOL_PAIR_MSG_3 Z.eqb Pos.eqb orb andb negb];
    change 129%nat with (S 128); cbn [kde_loop]; rewrite Hat1, Some_bind; change [L].[0] with L;
    rewrite (proj2 (Z.leb_le (0 + 2 + L) KeyDataLen)) by lia; done. }
  rewrite Hparse, Hel. unfold LEN_WEP64. split_and!; intros H.
  - destruct (decide (L < 6)) as [H6|H6].
    + assert (u8 (L - 6) = L + 250) as -> by (unfold u8; symmetry; apply (Z.mod_unique _ _ (-1)); lia).
      rewrite (proj2 (Z.ltb_ge _ _)) by lia. by rewrite Hbad by lia.
    + assert (u8 (L - 6) = L - 6) as -> by (apply u8_small; unfold fits; lia).
      rewrite (proj2 (Z.ltb_ge _ _)) by lia. 
      destruct (decide (L <= 253)) as [H253|H253].
      2: { by rewrite Hbad by lia. }
      rewrite Hat8, Some_bind by lia. by rewrite Hover by (rewrite length_take; lia).
  - assert (u8 (L - 6) = L - 6) as -> by (apply u8_small; unfold fits; lia). by rewrite (proj2 (Z.ltb_lt _ _)) by lia.
  - assert (u8 (L - 6) = L - 6) as -> by (apply u8_small; unfold fits; lia). rewrite (proj2 (Z.ltb_ge _ _)) by lia.
    rewrite Hat8, Some_bind by lia. rewrite store_start by (rewrite length_take, length_zeros; lia). done.
Qed.

Lemma gtk_kde_length_witness :
  let KEYDATA := [WPA_KDE_TYPE; 5] ++ OUI_WPA2 ++ [KDE_GTK; 1; 0] ++ zeros 247 in
  let a := sample_adapter Ndis802_11Encryption3Enabled
    (sample_entry Ndis802_11AuthModeWPA2PSK Ndis802_11Encryption3Enabled (zeros 7 ++ [1]) (seqZ 100 64)) in
  5 < 6 ∧ RTMPParseEapolKeyData (λ _, 0) a KEYDATA 24 0 EAPOL_PAIR_MSG_3 true = None.
Proof.
  split; [lia|].
  apply (gtk_kde_length (λ _, 0) (sample_adapter Ndis802_11Encryption3Enabled
    (sample_entry Ndis802_11AuthModeWPA2PSK Ndis802_11Encryption3Enabled (zeros 7 ++ [1]) (seqZ 100 64))) 5 1 (zeros 247)).
  - unfold fits. lia.
  - apply length_zeros.
  - lia.
  - by left.
  - by left.
Defined.
