(* ===== verification/WpaSm.v ===== *)
(** * The WPA state machine

    Models the handlers of [linux/Arch/rt5370.driver/common/cmm_wpa.c] that a
    received EAPOL frame reaches: [WpaEAPOLKeyAction] with the handlers of the
    six messages of the 4-way and the group key handshake,
    [WpaEAPOLStartAction], and the functions that start a handshake.  The
    driver is a station: the authenticator's functions are compiled, but
    their addresses and keys are NULL ([pBssid], [pmk_ptr], ...), so they end
    where the source tests or dereferences them.

    The lemmas give the effect of a handler on a message of the reference
    authenticator; [WpaHandshake] puts them together. *)

From stdpp Require Import base list numbers list_numbers.
From Stdlib Require Import ZArith Lia.
From S2P Require Import Prelude Mlme Arc4 BlockHash Md5 Sha Hmac AesTables Aes AesCmac AesKeyWrap WpaCmm WpaKeys WpaData Wep Tkip EapolMsg EapolRecv.

(** ** The station table *)

Definition MAC_ADDR_HASH_INDEX (Addr : list Z) : Z :=
  (Addr.[0] ^^ Addr.[1] ^^ Addr.[2] ^^ Addr.[3] ^^ Addr.[4] ^^ Addr.[5]) & 255.

(** [while (pEntry && !IS_ENTRY_NONE(pEntry))] from entry [p]; the outer [None]
    is an index outside the table or a chain longer than the fuel. *)
Fixpoint lookup_chain (fuel : nat) (c : list wpa_entry) (p : option nat) (pAddr : list Z) : option (option nat) :=
  match p with
  | None => Some None
  | Some w =>
      match fuel with
      | O => None
      | S fuel =>
          e ← c !! w;
          if decide (EntryType e = ENTRY_NONE) then Some (Some w)
          else if bool_decide (Addr e = pAddr) then Some (Some w)
          else lookup_chain fuel c (pNext e) pAddr
      end
  end.

Definition table_lookup (h : list (option nat)) (c : list wpa_entry) (pAddr : list Z) : option (option nat) :=
  p ← h !! Z.to_nat (MAC_ADDR_HASH_INDEX pAddr);
  lookup_chain (length c) c p pAddr.

Definition MacTableLookup (a : wpa_adapter) (pAddr : list Z) : option (option nat) :=
  table_lookup (Hash a) (Content a) pAddr.

Definition BSSID_WCID : nat := 1.

Definition STA_PORT_SECURED (a : wpa_adapter) : option wpa_adapter :=
  let a := set_cfg a (cfg_GTK a) (DefaultKeyId a) (cfg_PTK a) WPA_802_1X_PORT_SECURED in
  let a := note a RTMP_IndicateMediaState in
  e ← Content a !! BSSID_WCID;
  let a := set_entry a BSSID_WCID (set_port e (cfg_PortSecured a) PrivFilterAcceptAll) in
  Some (note a RTMPCancelTimer_LinkDown).

(** ** Sending *)

Definition is_client_or_apcli (e : wpa_entry) : bool :=
  bool_decide (EntryType e = ENTRY_CLIENT) || bool_decide (EntryType e = ENTRY_APCLI).

(** The packet is allocated by the operating system and may fail. *)
Definition RTMPToWirelessSta (E : env) (a : wpa_adapter) (pEntry : wpa_entry) (pHeader802_3 pData : list Z)
    (DataLen : Z) (bClearFrame : bool) : option wpa_adapter :=
  if negb (is_client_or_apcli pEntry) then Some a
  else if negb (kmalloc E (14 + DataLen)) then Some a
  else
    data ← load pData 0 DataLen;
    Some (note a (SendPacket pHeader802_3 data bClearFrame (u8 (Aid pEntry)))).

Definition MAKE_802_3_HEADER (mac1 mac2 type : list Z) : list Z := mac1 ++ mac2 ++ type.

(** Send the frame [f] to [pEntry] from the address [src]. *)
Definition send_eapol (E : env) (a : wpa_adapter) (src : list Z) (pEntry : wpa_entry) (f : EAPOL_PACKET) (clear : bool)
    : option wpa_adapter :=
  RTMPToWirelessSta E a pEntry (MAKE_802_3_HEADER (Addr pEntry) src EAPOL_type) (packet_bytes f)
    (CONV_ARRARY_TO_UINT16 (Body_Len f) + 4) clear.

(** [pEapolFrame] in a zeroed buffer of [TX_EAPOL_BUFFER] bytes. *)
Definition pEapolFrame : EAPOL_PACKET := zero_packet 1401.

(** [(PEAPOL_PACKET) &Elem->Msg[LENGTH_802_11 + LENGTH_802_1_H]] *)
Definition elem_packet (Elem : MLME_QUEUE_ELEM) : EAPOL_PACKET := packet_of (drop 32 (Msg Elem)).

Definition min_eapol_key_frame : Z := LENGTH_802_11 + LENGTH_802_1_H + LENGTH_EAPOL_H + MIN_LEN_OF_EAPOL_KEY_MSG.

(** ** The authenticator's variables

    The functions of the authenticator take their addresses and keys from
    local pointers, which start as NULL; what would set them is not compiled
    for a station.  [station_vars] are the initial values. *)
Record auth_vars := {
  v_bssid : option (list Z);
  v_pmk : option (list Z);
  v_gnonce : option (list Z);
  v_gtk : option (list Z);
  v_key : Z;
  v_cipher : Z;
  v_rsnie : option (list Z);
  v_rsnie_len : Z;
}.

Definition station_vars : auth_vars :=
  {| v_bssid := None; v_pmk := None; v_gnonce := None; v_gtk := None; v_key := 0; v_cipher := Ndis802_11WEPDisabled;
     v_rsnie := None; v_rsnie_len := 0 |}.

Definition port_open (e : wpa_entry) : bool := PortSecured e =? WPA_802_1X_PORT_SECURED.

(** ** The 4-way handshake *)

Definition WPAStart4WayHS (E : env) (uptime : nat → Z) (v : auth_vars) (a : wpa_adapter) (w : nat) (TimeInterval : Z)
    : option wpa_adapter :=
  e ← Content a !! w;
  if closed a then Some a
  else
    match v_bssid v with
    | None => Some a
    | Some bssid =>
        if (AS_PTKSTART <? WpaState e) || (WpaState e <? AS_INITPMK) then Some a
        else
          let e := set_R_Counter e (ADD_ONE_To_64BIT_VAR (R_Counter e)) in
          anonce ← GenRandom E uptime bssid (ANonce e);
          let e := set_ANonce e anonce in
          let a := set_entry a w e in
          if negb (kmalloc E TX_EAPOL_BUFFER) then Some a
          else
            f ← ConstructEapolMsg E e (v_cipher v) EAPOL_PAIR_MSG_1 0 (Some (ANonce e)) None None None 0 pEapolFrame;
            a ← send_eapol E a bssid e f (negb (port_open e));
            let a := note a (RTMPModTimer_Retry w TimeInterval) in
            Some (set_entry a w (set_WpaState e AS_PTKSTART))
    end.

Definition PeerPairMsg1Action (E : env) (rnd uptime : nat → Z) (a : wpa_adapter) (w : nat) (Elem : MLME_QUEUE_ELEM)
    : option wpa_adapter :=
  e ← Content a !! w;
  if negb (is_client_or_apcli e) then Some a
  else if MsgLen Elem <? min_eapol_key_frame then Some a
  else
    '(ok, pMsg1, a) ← PeerWpaMessageSanity E rnd a (elem_packet Elem) EAPOL_PAIR_MSG_1 e;
    if negb ok then Some a
    else
      let e := set_R_Counter e (ReplayCounter pMsg1) in
      let e := set_ANonce e (KeyNonce pMsg1) in
      snonce ← GenRandom E uptime (CurrentAddress a) (SNonce e);
      let e := set_SNonce e snonce in
      ptk ← WpaDerivePTK E (cfg_PMK a) (ANonce e) (Addr e) (SNonce e) (CurrentAddress a) (local_array E 80) LEN_PTK;
      let e := set_PTK e (take 64 ptk) in
      let e := set_WpaState e AS_PTKINIT_NEGOTIATING in
      let a := set_entry a w e in
      if negb (kmalloc E TX_EAPOL_BUFFER) then Some a
      else
        f ← ConstructEapolMsg E e (GroupCipher a) EAPOL_PAIR_MSG_2 0 (Some (SNonce e)) None None
              (Some (cfg_RSN_IE a)) (cfg_RSNIE_Len a) pEapolFrame;
        send_eapol E a (CurrentAddress a) e f true.

Definition PEER_MSG3_RETRY_TIMER_CTR : Z := 10.
Definition PEER_MSG3_RETRY_EXEC_INTV : Z := 3000.

Definition PeerPairMsg2Action (E : env) (rnd : nat → Z) (v : auth_vars) (a : wpa_adapter) (w : nat) (Elem : MLME_QUEUE_ELEM)
    : option wpa_adapter :=
  e ← Content a !! w;
  if negb (bool_decide (EntryType e = ENTRY_CLIENT)) then Some a
  else if MsgLen Elem <? min_eapol_key_frame then Some a
  else if WpaState e <? AS_PTKSTART then Some a
  else
    let pMsg2 := elem_packet Elem in
    let e := set_SNonce e (KeyNonce pMsg2) in
    let a := set_entry a w e in
    match v_pmk v, v_bssid v with
    | Some pmk, Some bssid =>
        ptk ← WpaDerivePTK E pmk (ANonce e) bssid (SNonce e) (Addr e) (local_array E 80) LEN_PTK;
        let e := set_PTK e (take 64 ptk) in
        let a := set_entry a w e in
        '(ok, _, a) ← PeerWpaMessageSanity E rnd a pMsg2 EAPOL_PAIR_MSG_2 e;
        if negb ok then Some a
        else if negb (kmalloc E TX_EAPOL_BUFFER) then Some a
        else
          let a := note a (RTMPCancelTimer_Retry w) in
          let e := set_WpaState e AS_PTKINIT_NEGOTIATING in
          let e := set_R_Counter e (ADD_ONE_To_64BIT_VAR (R_Counter e)) in
          f ← ConstructEapolMsg E e (v_cipher v) EAPOL_PAIR_MSG_3 (v_key v) (Some (ANonce e)) (Some (local_array E 6))
                (v_gtk v) (v_rsnie v) (v_rsnie_len v) pEapolFrame;
          a ← send_eapol E a bssid e f (negb (port_open e));
          let e := set_retry e (GTKState e) PEER_MSG3_RETRY_TIMER_CTR in
          let a := note a (RTMPSetTimer_Retry w PEER_MSG3_RETRY_EXEC_INTV) in
          Some (set_entry a w (set_WpaState e AS_PTKINIT_NEGOTIATING))
    | _, _ => Some a
    end.

Definition PeerPairMsg3Action (E : env) (rnd : nat → Z) (a : wpa_adapter) (w : nat) (Elem : MLME_QUEUE_ELEM)
    : option wpa_adapter :=
  e ← Content a !! w;
  if negb (is_client_or_apcli e) then Some a
  else if MsgLen Elem <? min_eapol_key_frame then Some a
  else
    '(ok, pMsg3, a) ← PeerWpaMessageSanity E rnd a (elem_packet Elem) EAPOL_PAIR_MSG_3 e;
    if negb ok then Some a
    else
      let e := set_R_Counter e (ReplayCounter pMsg3) in
      let a := set_entry a w e in
      if negb (bool_decide (ANonce e = KeyNonce pMsg3)) then Some a
      else if negb (kmalloc E TX_EAPOL_BUFFER) then Some a
      else
        f ← ConstructEapolMsg E e (GroupCipher a) EAPOL_PAIR_MSG_4 0 None None None None 0 pEapolFrame;
        let e := set_WpaState e AS_PTKINITDONE in
        let a := set_entry a w e in
        let a := set_cfg a (cfg_GTK a) (DefaultKeyId a) (PTK e) (cfg_PortSecured a) in
        a ← WPAInstallPairwiseKey rnd a 0 w false;
        a ← (if is_WPA2 e then
               e ← Content a !! w;
               STA_PORT_SECURED (set_entry a w (set_port e WPA_802_1X_PORT_SECURED PrivFilterAcceptAll))
             else Some a);
        send_eapol E a (CurrentAddress a) e f true.

Definition IW_SET_KEY_DONE_WPA1_EVENT_FLAG : Z := 0x020D.
Definition IW_SET_KEY_DONE_WPA2_EVENT_FLAG : Z := 0x020E.
Definition PEER_MSG1_RETRY_TIMER_CTR : Z := 0.
Definition GROUP_MSG1_RETRY_TIMER_CTR : Z := 20.

Definition WPAStart2WayGroupHS (E : env) (v : auth_vars) (a : wpa_adapter) (w : nat) : option wpa_adapter :=
  e ← Content a !! w;
  if negb (bool_decide (EntryType e = ENTRY_CLIENT)) then Some a
  else if negb (kmalloc E TX_EAPOL_BUFFER) then Some a
  else
    let e := set_R_Counter e (ADD_ONE_To_64BIT_VAR (R_Counter e)) in
    f ← ConstructEapolMsg E e (v_cipher v) EAPOL_GROUP_MSG_1 (v_key v) (v_gnonce v) (Some (local_array E 6))
          (v_gtk v) None 0 pEapolFrame;
    let a := set_entry a w e in
    match v_bssid v with
    | None => Some a
    | Some bssid => send_eapol E a bssid e f false
    end.

Definition PeerPairMsg4Action (E : env) (rnd : nat → Z) (v : auth_vars) (a : wpa_adapter) (w : nat) (Elem : MLME_QUEUE_ELEM)
    : option wpa_adapter :=
  e ← Content a !! w;
  if negb (bool_decide (EntryType e = ENTRY_CLIENT)) then Some a
  else if MsgLen Elem <? min_eapol_key_frame then Some a
  else if WpaState e <? AS_PTKINIT_NEGOTIATING then Some a
  else
    '(ok, _, a) ← PeerWpaMessageSanity E rnd a (elem_packet Elem) EAPOL_PAIR_MSG_4 e;
    if negb ok then Some a
    else
      a ← WPAInstallPairwiseKey rnd a (apidx e) w true;
      e ← Content a !! w;
      let e := set_WpaState (set_port e WPA_802_1X_PORT_SECURED PrivFilterAcceptAll) AS_PTKINITDONE in
      let a := set_entry a w e in
      if is_WPA2 e then
        let a := set_entry a w (set_retry e REKEY_ESTABLISHED (ReTryCounter e)) in
        let a := note a (RTMPCancelTimer_Retry w) in
        Some (note a (RTMPSendWirelessEvent IW_SET_KEY_DONE_WPA2_EVENT_FLAG (Addr e) (apidx e)))
      else
        a ← WPAStart2WayGroupHS E v a w;
        e ← Content a !! w;
        let a := set_entry a w (set_retry e (GTKState e) GROUP_MSG1_RETRY_TIMER_CTR) in
        Some (note a (RTMPModTimer_Retry w PEER_MSG3_RETRY_EXEC_INTV)).

(** ** The group key handshake *)

Definition PeerGroupMsg1Action (E : env) (rnd : nat → Z) (a : wpa_adapter) (w : nat) (Elem : MLME_QUEUE_ELEM)
    : option wpa_adapter :=
  e ← Content a !! w;
  if negb (is_client_or_apcli e) then Some a
  else
    let default_key := DefaultKeyId a in
    '(ok, pGroup, a) ← PeerWpaMessageSanity E rnd a (elem_packet Elem) EAPOL_GROUP_MSG_1 e;
    if negb ok then Some a
    else
      let e := set_R_Counter e (ReplayCounter pGroup) in
      let a := set_entry a w e in
      if negb (kmalloc E TX_EAPOL_BUFFER) then Some a
      else
        f ← ConstructEapolMsg E e (GroupCipher a) EAPOL_GROUP_MSG_2 default_key None None None None 0 pEapolFrame;
        let a := set_entry a w (set_port e WPA_802_1X_PORT_SECURED PrivFilterAcceptAll) in
        a ← STA_PORT_SECURED a;
        let a := if scanning a && (MlmeAux_Channel a =? Channel a) then set_MlmeAux_Channel a 0 else a in
        send_eapol E a (CurrentAddress a) e f false.

(** [MsgLen] counts from behind the 802.11 header. *)
Definition PeerGroupMsg2Action (E : env) (rnd : nat → Z) (a : wpa_adapter) (w : nat) (Msg : list Z) (MsgLen : Z)
    : option wpa_adapter :=
  e ← Content a !! w;
  if negb (bool_decide (EntryType e = ENTRY_CLIENT)) then Some a
  else if MsgLen <? LENGTH_802_1_H + LENGTH_EAPOL_H + MIN_LEN_OF_EAPOL_KEY_MSG then Some a
  else if negb (WpaState e =? AS_PTKINITDONE) then Some a
  else
    '(ok, _, a) ← PeerWpaMessageSanity E rnd a (packet_of (drop 8 Msg)) EAPOL_GROUP_MSG_2 e;
    if negb ok then Some a
    else
      let a := note a (RTMPCancelTimer_Retry w) in
      let a := set_entry a w (set_retry e REKEY_ESTABLISHED (ReTryCounter e)) in
      let flag := if is_WPA2 e then IW_SET_KEY_DONE_WPA2_EVENT_FLAG else IW_SET_KEY_DONE_WPA1_EVENT_FLAG in
      Some (note a (RTMPSendWirelessEvent flag (Addr e) (apidx e))).

(** ** Dispatch *)

(** Which handler a frame goes to, by its key information. *)
Inductive eapol_handler := ToMsg1 | ToMsg2 | ToMsg3 | ToMsg4 | ToGroup1 | ToGroup2 | Ignored.

Definition eapol_dispatch (k : KEY_INFO) (KeyDataLen : Z) : eapol_handler :=
  if KeyAck k =? 1 then
    if (Secure k =? 0) && (Request k =? 0) && (Error_ k =? 0) && (KeyType k =? PAIRWISEKEY) then
      if KeyMicBit k =? 0 then ToMsg1 else ToMsg3
    else if (Secure k =? 1) && (KeyMicBit k =? 1) && (Request k =? 0) && (Error_ k =? 0) then
      if KeyType k =? PAIRWISEKEY then ToMsg3 else ToGroup1
    else Ignored
  else if (Request k =? 0) && (Error_ k =? 0) && (KeyMicBit k =? 1) then
    if (Secure k =? 0) && (KeyType k =? PAIRWISEKEY) then
      if KeyDataLen =? 0 then ToMsg4 else ToMsg2
    else if (Secure k =? 1) && (KeyType k =? PAIRWISEKEY) then ToMsg4
    else if (Secure k =? 1) && (KeyType k =? GROUPKEY) then ToGroup2
    else Ignored
  else Ignored.

(** The checks in front of the dispatch; [true] lets the frame pass. *)
Definition eapol_key_guard (e : wpa_entry) (Elem : MLME_QUEUE_ELEM) (p : EAPOL_PACKET) : bool :=
  let eapol_len := CONV_ARRARY_TO_UINT16 (Body_Len p) + LENGTH_EAPOL_H in
  is_client_or_apcli e &&
  negb (AuthMode e <? Ndis802_11AuthModeWPA) &&
  negb (u32 (MsgLen Elem - LENGTH_802_11 - LENGTH_802_1_H) <? eapol_len) &&
  negb ((negb (ProVer p =? EAPOL_VER) && negb (ProVer p =? EAPOL_VER2)) ||
        (negb (DescType p =? WPA1_KEY_DESC) && negb (DescType p =? WPA2_KEY_DESC))) &&
  negb ((WepStatus e =? Ndis802_11Encryption2Enabled) && negb (KeyDescVer (KeyInfo p) =? KEY_DESC_TKIP)) &&
  negb ((WepStatus e =? Ndis802_11Encryption3Enabled) && negb (KeyDescVer (KeyInfo p) =? KEY_DESC_AES) &&
        negb (KeyDescVer (KeyInfo p) =? KEY_DESC_EXT)) &&
  bool_decide (Sst e = SST_ASSOC) && (AS_INITPSK <=? WpaState e).

Definition WpaEAPOLKeyAction (E : env) (rnd uptime : nat → Z) (v : auth_vars) (a : wpa_adapter) (Elem : MLME_QUEUE_ELEM)
    : option wpa_adapter :=
  let p := elem_packet Elem in
  r ← MacTableLookup a (slice (Msg Elem) 10 6);
  match r with
  | None => Some a
  | Some w =>
      e ← Content a !! w;
      if negb (eapol_key_guard e Elem p) then Some a
      else
        match eapol_dispatch (KeyInfo p) (CONV_ARRARY_TO_UINT16 (KeyDataLen p)) with
        | ToMsg1 => PeerPairMsg1Action E rnd uptime a w Elem
        | ToMsg2 => PeerPairMsg2Action E rnd v a w Elem
        | ToMsg3 => PeerPairMsg3Action E rnd a w Elem
        | ToMsg4 => PeerPairMsg4Action E rnd v a w Elem
        | ToGroup1 => PeerGroupMsg1Action E rnd a w Elem
        | ToGroup2 => PeerGroupMsg2Action E rnd a w (drop 24 (Msg Elem)) (u32 (MsgLen Elem - LENGTH_802_11))
        | Ignored => Some a
        end
  end.

Definition PEER_MSG1_RETRY_EXEC_INTV : Z := 1000.

Definition WpaEAPOLStartAction (E : env) (uptime : nat → Z) (v : auth_vars) (a : wpa_adapter) (Elem : MLME_QUEUE_ELEM) : option wpa_adapter :=
  r ← MacTableLookup a (if MsgLen Elem =? 6 then slice (Msg Elem) 0 6 else slice (Msg Elem) 10 6);
  match r with
  | None => Some a
  | Some w =>
      e ← Content a !! w;
      if (PortSecured e =? WPA_802_1X_PORT_NOT_SECURED) && (WpaState e <? AS_PTKSTART) &&
         ((AuthMode e =? Ndis802_11AuthModeWPAPSK) || (AuthMode e =? Ndis802_11AuthModeWPA2PSK) ||
          ((AuthMode e =? Ndis802_11AuthModeWPA2) && PMKID_cached e))
      then
        let e := set_port e WPA_802_1X_PORT_NOT_SECURED PrivFilter8021xWEP in
        let e := set_handshake e AS_INITPSK (zeros 8) (ANonce e) (SNonce e) (PTK e) in
        let e := set_retry e (GTKState e) PEER_MSG1_RETRY_TIMER_CTR in
        WPAStart4WayHS E uptime v (set_entry a w e) w PEER_MSG1_RETRY_EXEC_INTV
      else Some a
  end.

(** [WpaStateMachineInit]: one state; the handlers of EAP packets, logoff and
    ASF alerts are empty. *)
Definition WPA_machine (E : env) (rnd uptime : nat → Z) (v : auth_vars) (MsgType : Z) (a : wpa_adapter) (Elem : MLME_QUEUE_ELEM)
    : option wpa_adapter :=
  if MsgType =? MT2_EAPOLStart then WpaEAPOLStartAction E uptime v a Elem
  else if MsgType =? MT2_EAPOLKey then WpaEAPOLKeyAction E rnd uptime v a Elem
  else Some a.

Definition EAPOL_START_PSK : Z := 1.

Definition EnqueueStartForPSKExec (a : wpa_adapter) (w : nat) : option wpa_adapter :=
  e ← Content a !! w;
  let a := if bool_decide (EntryType e = ENTRY_CLIENT) && (WpaState e <? AS_PTKSTART) &&
              (EnqueueEapolStartTimerRunning e =? EAPOL_START_PSK)
           then note a (MlmeEnqueue_EAPOLStart (Addr e)) else a in
  Some (set_entry a w (set_eapol_timer e EAPOL_START_DISABLE)).

(** ** The key of a session *)

(** The PTK of PMK, the two addresses (authenticator first) and nonces. *)
Definition session_ptk (PMK AA SPA ANonce SNonce : list Z) : list Z :=
  prf (take 32 PMK) PTK_Prefix (ptk_input AA SPA ANonce SNonce) 64.

(** The nonce the station draws. *)
Definition station_nonce (uptime : nat → Z) (mac : list Z) : list Z := take 32 (gen_random uptime mac 32).

Lemma field_station_nonce uptime mac : field 32 (station_nonce uptime mac).
Proof. split; [unfold station_nonce; rewrite length_take, length_gen_random; lia|apply Forall_take, bytes_gen_random]. Qed.

Lemma field_session_ptk PMK AA SPA an sn : field 64 (session_ptk PMK AA SPA an sn).
Proof. split; [apply length_prf|apply bytes_prf]. Qed.

(** ** Handlers *)

(** The state in which a handler meets entry [w] of the access point. *)
Record peer_ready (E : env) (a : wpa_adapter) (w : nat) (e : wpa_entry) (n : nat) : Prop := {
  ready_memory : ample E;
  ready_entry : Content a !! w = Some e;
  ready_type : is_client_or_apcli e = true;
  ready_addr : field 6 (Addr e);
  ready_own : field 6 (CurrentAddress a);
  ready_pmk : bytes (cfg_PMK a) ∧ (32 <= length (cfg_PMK a))%nat;
  ready_nonce : length (SNonce e) = 32%nat;
  ready_counter : field 8 (R_Counter e);
  ready_ptk : field 64 (PTK e);
  ready_group : group_ready a;
  ready_rsnie_len : cfg_RSNIE_Len a = Z.of_nat n;
  ready_rsnie : (5 <= length (cfg_RSN_IE a))%nat ∧ (n <= length (cfg_RSN_IE a))%nat ∧ (n <= 190)%nat ∧ bytes (cfg_RSN_IE a);
}.

(** A queued frame: [m] under [kck] behind 802.11 header and LLC. *)
Definition queued (Elem : MLME_QUEUE_ELEM) (m : eapol_message) (kck : list Z) : Prop :=
  ∃ rest, bytes rest ∧ drop 32 (Msg Elem) = eapol_frame m kck ++ rest ∧ MsgLen Elem = Z.of_nat (32 + length (eapol_frame m kck)).

Lemma frame_mic_field m kck : message_wf m → field 16 kck → field 16 (frame_mic m kck).
Proof.
  intros Hm [Hkl Hkb]. pose proof Hm as (_ & _ & _ & _ & _ & _ & _ & Hdb & Hdl).
  assert (field 16 (zeros 16)) as Hz by (split; [done|by apply fits_zeros]).
  unfold frame_mic. destruct (_ =? _); [done|]. apply field_mic_ref; [done|done|].
  apply Forall_app. split; [by apply field_frame_header|done].
Qed.

Lemma length_eapol_frame m kck : message_wf m → field 16 kck → length (eapol_frame m kck) = (99 + length (m_data m))%nat.
Proof.
  intros Hm Hk. unfold eapol_frame. rewrite length_app.
  by rewrite (proj1 (field_frame_header m _ Hm (frame_mic_field m kck Hm Hk))).
Qed.

Definition to_peer (src : list Z) (e : wpa_entry) (m : eapol_message) (clear : bool) : wpa_event :=
  SendPacket (Addr e ++ src ++ EAPOL_type) (eapol_frame m (take 16 (PTK e))) clear (u8 (Aid e)).

Lemma send_eapol_ok E a src e m z clear :
  ample E → is_client_or_apcli e = true → message_wf m → field 64 (PTK e) →
  send_eapol E a src e (packet_for m (frame_mic m (take 16 (PTK e))) (m_data m ++ z)) clear = Some (note a (to_peer src e m clear)).
Proof.
  intros HE Ht Hm [Hl Hb].
  pose proof (field_kck _ (conj Hl Hb)) as Hk.
  pose proof (sent_frame m _ z Hm Hk) as Hs. unfold sent in Hs.
  pose proof Hm as (_ & _ & _ & _ & _ & _ & _ & Hdb & Hdl). pose proof (frame_mic_field m _ Hm Hk) as Hmic.
  unfold send_eapol, RTMPToWirelessSta. rewrite Ht. cbn [negb].
  change (Body_Len (packet_for _ _ _)) with (be_bytes 2 (95 + Z.of_nat (length (m_data m)))) in *.
  rewrite CONV_be_bytes in * by lia. rewrite HE by lia. cbn [negb].
  rewrite load_ok, Some_bind.
  - unfold to_peer, MAKE_802_3_HEADER, slice. rewrite drop_0, Hs. done.
  - lia.
  - lia.
  - unfold packet_bytes. rewrite packet_header_for, length_app, (proj1 (field_frame_header m _ Hm Hmic)).
    cbn [KeyData packet_for]. rewrite length_app. lia.
Qed.

(** *** Message 1 *)

(** The entry after message 1. *)
Definition msg1_entry (uptime : nat → Z) (a : wpa_adapter) (e : wpa_entry) (m : eapol_message) : wpa_entry :=
  let sn := station_nonce uptime (CurrentAddress a) in
  set_handshake e AS_PTKINIT_NEGOTIATING (m_counter m) (m_nonce m) sn
    (session_ptk (cfg_PMK a) (Addr e) (CurrentAddress a) (m_nonce m) sn).

(** Messages 2 and 4 of the station. *)
Definition station_msg2 (a : wpa_adapter) (e : wpa_entry) (n : nat) : eapol_message :=
  message_of e (GroupCipher a) 2 0 (SNonce e) (zeros 6) (zeros 32) (cfg_RSN_IE a) n.
Definition station_msg4 (a : wpa_adapter) (e : wpa_entry) : eapol_message :=
  message_of e (GroupCipher a) 4 0 (zeros 32) (zeros 6) (zeros 32) (zeros 5) 0.
Definition station_group2 (a : wpa_adapter) (e : wpa_entry) (idx : Z) : eapol_message :=
  message_of e (GroupCipher a) 6 idx (zeros 32) (zeros 6) (zeros 32) (zeros 5) 0.

Lemma field_zeros n : field n (zeros n).
Proof. split; [apply length_zeros|by apply fits_zeros]. Qed.

(** [ConstructEapolMsg] with the arguments of the handlers: the frame is sent. *)
Lemma construct_and_send E src e gws mt idx nonce Nonce ie n RSNIE clear :
  ample E → is_client_or_apcli e = true → field 64 (PTK e) → field 8 (R_Counter e) → field 32 nonce →
  mt = 2 ∧ Nonce = Some nonce ∧ RSNIE = Some ie ∨ (mt = 4 ∨ mt = 6) ∧ n = 0%nat →
  (5 <= length ie)%nat → (n <= length ie)%nat → (n <= 190)%nat → bytes ie →
  ∃ q, ConstructEapolMsg E e gws mt idx Nonce None None RSNIE (Z.of_nat n) pEapolFrame = Some q ∧
       (let m := message_of e gws mt idx nonce (zeros 6) (zeros 32) ie n in
        ∀ a' e', Addr e' = Addr e → Aid e' = Aid e → PTK e' = PTK e → EntryType e' = EntryType e →
         send_eapol E a' src e' q clear = Some (note a' (to_peer src e m clear))).
Proof.
  intros HE Ht HP HR Hn Hmt H5 Hin H190 Hib.
  assert (construct_args E e mt None RSNIE (zeros 32) ie n) as Ha.
  { split; [done|done| | | |split_and!; [done|done|lia|done]].
    - intros Hg. exfalso. unfold has_gtk in Hg. destruct Hmt as [(-> & _)|([-> | ->] & _)]; done.
    - split; [done|by apply fits_zeros].
    - intros Hr Hnz. destruct Hmt as [(_ & _ & ->)|(_ & ->)]; done. }
  assert (message_args e mt Nonce None nonce (zeros 6)) as Hm.
  { split; [lia|done| |done| |apply field_zeros].
    - intros H. destruct Hmt as [(_ & -> & _)|([-> | ->] & _)]; [done|lia..].
    - intros Hg. exfalso. unfold has_gtk in Hg. destruct Hmt as [(-> & _)|([-> | ->] & _)]; done. }
  unfold pEapolFrame. rewrite (ConstructEapolMsg_ok E e gws mt idx _ _ nonce (zeros 6) _ _ (zeros 32) ie) by (done || lia).
  eexists. split; [done|]. cbv zeta. intros a' e' HA Hid Hk Hty.
  pose proof (message_of_wf E e gws mt idx Nonce None nonce (zeros 6) None RSNIE (zeros 32) ie n Ha Hm) as Hwf.
  rewrite <- Hk. rewrite send_eapol_ok.
  - unfold to_peer. by rewrite HA, Hk, Hid.
  - done.
  - unfold is_client_or_apcli. by rewrite Hty.
  - done.
  - by rewrite Hk.
Qed.

Section Handlers.
Context (E : env) (rnd uptime : nat → Z) (a : wpa_adapter) (w : nat) (e : wpa_entry) (n : nat).
Context (ready : peer_ready E a w e n) (m : eapol_message) (Elem : MLME_QUEUE_ELEM).
Context (m_ok : message_wf m) (m_kind : is_WPA2 e = m_wpa2 m).

(** What every handler does first. *)
Lemma handler_guards kck :
  field 16 kck → queued Elem m kck →
  (MsgLen Elem <? min_eapol_key_frame) = false ∧
  ∃ rest, bytes rest ∧ elem_packet Elem = packet_of (eapol_frame m kck ++ rest).
Proof.
  intros Hk (rest & Hr & Hmsg & Hlen). split.
  - rewrite Hlen, length_eapol_frame by done. apply Z.ltb_ge.
    change min_eapol_key_frame with 131. lia.
  - exists rest. split; [done|]. unfold elem_packet. by rewrite Hmsg.
Qed.

Lemma fresh_replay mt c : field 8 c → fresh e mt c → replay_differs e mt c = Some false.
Proof.
  intros Hc Hf. destruct (replay_differs_spec e mt c Hc (ready_counter _ _ _ _ _ ready)) as (b & -> & Hb).
  destruct b; [|done]. by apply Hb in Hf.
Qed.

Lemma PeerPairMsg1Action_ok kck :
  field 16 kck → queued Elem m kck → m_type m = 1 → m_data m = [] → fresh e 1 (m_counter m) →
  let e' := msg1_entry uptime a e m in
  PeerPairMsg1Action E rnd uptime a w Elem =
    Some (note (set_entry a w e') (to_peer (CurrentAddress a) e' (station_msg2 a e' n) true)).
Proof.
  intros Hkck Hq H1 Hd Hf e'. destruct (handler_guards kck Hkck Hq) as (Hlen & rest & Hrest & Hp).
  destruct ready as [HE Hw Ht HA Hown [Hpmk Hpl] Hsn HR HP Hg Hnl (H5 & Hin & H190 & Hib)].
  unfold PeerPairMsg1Action. rewrite Hw, Some_bind, Ht, Hlen, Hp. cbn [negb].
  pose proof m_ok as (_ & _ & _ & Hc & [Hnol Hnob] & _).
  assert (eapol_frame m kck = eapol_frame m (take 16 (PTK e))) as ->.
  { unfold eapol_frame, frame_mic. by rewrite H1. }
  destruct (PeerWpaMessageSanity_ok E rnd e a m rest (zeros (gtk_size (GroupCipher a))))
    as (p & Hs & _ & Hrc & Hkn); try done.
  { apply length_zeros. }
  { by apply fits_zeros. }
  { unfold carries. rewrite H1. cbn [has_gtk Z.eqb Pos.eqb andb orb]. rewrite Hd. split; [cbn; lia|done]. }
  { apply fresh_replay; [done|]. by rewrite H1. }
  unfold after_message in Hs. rewrite H1 in Hs. cbn [has_gtk Z.eqb Pos.eqb andb orb] in Hs.
  unfold EAPOL_PAIR_MSG_1. rewrite Hs, Some_bind. cbn [negb]. rewrite Hrc, Hkn.
  cbv zeta. cbn [set_R_Counter set_ANonce set_SNonce set_PTK set_WpaState set_handshake SNonce ANonce Addr WpaState R_Counter PTK].
  rewrite GenRandom_ok, Some_bind; [|apply HE; lia|apply Hown..|lia].
  set (sn := station_nonce uptime (CurrentAddress a)).
  pose proof (field_station_nonce uptime (CurrentAddress a)) as Hsf.
  rewrite (put_whole _ (take 32 _)) by (rewrite Hsn; apply Hsf). fold (station_nonce uptime (CurrentAddress a)) sn.
  fold sn in Hsf. destruct HA as [HAl HAb], Hown as [Hol Hob], Hsf as [Hsl Hsb].
  change LEN_PTK with (Z.of_nat 64).
  rewrite WpaDerivePTK_ok, Some_bind; [|apply HE; lia|done|lia|done|done|done|done|done|done|done|done| |].
  2: { rewrite length_local_array. cbn. lia. }
  2: { cbn. lia. }
  rewrite (take_put_blocks _ _ _ _ 64) by (rewrite length_local_array; cbn; lia).
  fold (session_ptk (cfg_PMK a) (Addr e) (CurrentAddress a) (m_nonce m) sn).
  unfold set_WpaState, set_PTK, set_SNonce, set_ANonce, set_R_Counter.
  cbn [set_handshake WpaState R_Counter ANonce SNonce PTK].
  match goal with |- context [set_entry a w ?x] => change x with e' end.
  rewrite HE by (unfold TX_EAPOL_BUFFER; lia). cbn [negb GroupCipher set_entry cfg_RSN_IE cfg_RSNIE_Len].
  rewrite Hnl.
  destruct (construct_and_send E (CurrentAddress a) e' (GroupCipher a) 2 0 sn (Some sn) (cfg_RSN_IE a) n
              (Some (cfg_RSN_IE a)) true) as (q & Hq2 & Hsend); try done.
  { apply field_session_ptk. }
  { by left. }
  match goal with |- context [ConstructEapolMsg E ?x _ _ _ _ _ _ _ _ _] => change x with e' end.
  unfold EAPOL_PAIR_MSG_2. change (SNonce e') with sn. rewrite Hq2, Some_bind. by rewrite Hsend.
Qed.
End Handlers.

(** *** Message 3 *)

(** The pairwise key of a station: TKIP swaps the two MIC keys. *)
Definition pairwise_key (wep : Z) (ptk : list Z) : CIPHER_KEY :=
  if wep =? Ndis802_11Encryption2Enabled
  then make_key CIPHER_TKIP 16 (slice ptk 32 16) (slice ptk 56 8) (slice ptk 48 8)
  else make_key CIPHER_AES 16 (slice ptk 32 16) (zeros 8) (zeros 8).

(** The packet number the hardware starts from after an installation: 1. *)
Definition first_iv : Z := 0x20000001.

Definition pairwise_events (e : wpa_entry) : list wpa_event :=
  let k := pairwise_key (WepStatus e) (PTK e) in
  [AsicAddPairwiseKeyEntry (u8 (Aid e)) k; AsicUpdateWCIDIVEIV (u8 (Aid e)) first_iv 0;
   AsicUpdateWcidAttributeEntry 0 0 (CipherAlg k) (u8 (Aid e)) PAIRWISEKEYTABLE].

Lemma WPAInstallPairwiseKey_ok rnd a w e :
  Content a !! w = Some e → group_cipher_ok (WepStatus e) → field 64 (PTK e) →
  WPAInstallPairwiseKey rnd a 0 w false =
    Some (foldl note (set_entry a w (set_key e (pairwise_key (WepStatus e) (PTK e)))) (pairwise_events e)).
Proof.
  intros Hw Hc [Hl Hb]. unfold WPAInstallPairwiseKey. rewrite Hw, Some_bind. unfold pairwise_events, pairwise_key, LEN_TK, LEN_TKIP_MIC.
  destruct Hc as [-> | ->]; cbn [Z.eqb Pos.eqb Ndis802_11Encryption2Enabled Ndis802_11Encryption3Enabled CIPHER_TKIP CIPHER_AES CIPHER_NONE];
    rewrite (load_ok _ 32), Some_bind by lia; rewrite (load_ok _ 48), Some_bind by lia;
    rewrite (load_ok _ 56), Some_bind by lia; done.
Qed.

Definition group_events (a : wpa_adapter) (m : eapol_message) (g : list Z) : list wpa_event :=
  if has_gtk (m_wpa2 m) (m_type m) then [AsicAddSharedKeyEntry 0 (m_idx m & 3) (group_key (GroupCipher a) g)] else [].

(** The entry once the handshake is complete. *)
Definition keyed_entry (e : wpa_entry) (m : eapol_message) : wpa_entry :=
  let e1 := set_handshake (set_key e (pairwise_key (WepStatus e) (PTK e))) AS_PTKINITDONE (m_counter m) (ANonce e)
              (SNonce e) (PTK e) in
  if is_WPA2 e then set_port e1 WPA_802_1X_PORT_SECURED PrivFilterAcceptAll else e1.

(** The keys that message 3 and message 1 of the group handshake leave. *)
Definition same_group_key (a' a : wpa_adapter) : Prop :=
  cfg_GTK a' = cfg_GTK a ∧ DefaultKeyId a' = DefaultKeyId a ∧ SharedKey a' = SharedKey a.

Lemma after_message_same a m g :
  let a' := after_message a m g in
  Content a' = Content a ∧ GroupCipher a' = GroupCipher a ∧ cfg_PTK a' = cfg_PTK a ∧
  cfg_PortSecured a' = cfg_PortSecured a ∧ CurrentAddress a' = CurrentAddress a ∧
  log a' = log a ++ group_events a m g.
Proof. unfold after_message, group_events. destruct (has_gtk _ _); cbn; rewrite ?app_nil_r; done. Qed.

Lemma set_entry_twice a w x y : set_entry (set_entry a w x) w y = set_entry a w y.
Proof. unfold set_entry. cbn. by rewrite list_insert_insert_eq. Qed.

(** The port of the access point's entry opens. *)
Lemma STA_PORT_SECURED_ok a e :
  (BSSID_WCID < length (Content a))%nat →
  ∃ a', STA_PORT_SECURED (set_entry a BSSID_WCID e) = Some a' ∧
        Content a' = <[BSSID_WCID := set_port e WPA_802_1X_PORT_SECURED PrivFilterAcceptAll]> (Content a) ∧
        same_group_key a' a ∧ cfg_PTK a' = cfg_PTK a ∧ cfg_PortSecured a' = WPA_802_1X_PORT_SECURED ∧
        CurrentAddress a' = CurrentAddress a ∧ GroupCipher a' = GroupCipher a ∧
        log a' = log a ++ [RTMP_IndicateMediaState; RTMPCancelTimer_LinkDown] ∧
        scanning a' = scanning a ∧ Channel a' = Channel a ∧ MlmeAux_Channel a' = MlmeAux_Channel a.
Proof.
  intros H. unfold STA_PORT_SECURED. cbn [note set_cfg set_entry Content].
  rewrite list_lookup_insert_eq, Some_bind by done. eexists. split; [reflexivity|].
  cbn [note set_cfg set_entry Content cfg_PTK cfg_PortSecured CurrentAddress GroupCipher log scanning Channel MlmeAux_Channel].
  rewrite list_insert_insert_eq, <- app_assoc. done.
Qed.

Section Message3.
Context (E : env) (rnd : nat → Z) (a : wpa_adapter) (w : nat) (e : wpa_entry) (n : nat).
Context (ready : peer_ready E a w e n) (m : eapol_message) (Elem : MLME_QUEUE_ELEM) (g : list Z).
Context (m_ok : message_wf m) (m_kind : is_WPA2 e = m_wpa2 m).
Context (g_size : length g = gtk_size (GroupCipher a)) (g_bytes : bytes g).
Context (m_carries : carries m (pairwise_kek (PTK e)) g) (m_fresh : fresh e (m_type m) (m_counter m)).
Context (m_queued : queued Elem m (take 16 (PTK e))).

Lemma sanity_passes :
  ∃ p, PeerWpaMessageSanity E rnd a (elem_packet Elem) (m_type m) e = Some (true, p, after_message a m g) ∧
       ReplayCounter p = m_counter m ∧ KeyNonce p = m_nonce m.
Proof.
  destruct (handler_guards m Elem m_ok _ (field_kck _ (ready_ptk _ _ _ _ _ ready)) m_queued) as (_ & rest & Hrest & ->).
  pose proof m_ok as (_ & _ & _ & Hc & _).
  destruct (PeerWpaMessageSanity_ok E rnd e a m rest g) as (p & Hp & _ & H1 & H2); try done; try apply ready.
  { by apply (fresh_replay E a w e n). }
  by exists p.
Qed.

Lemma PeerPairMsg3Action_ok :
  m_type m = 3 → group_cipher_ok (WepStatus e) → w = BSSID_WCID → m_nonce m = ANonce e →
  let e1 := set_R_Counter e (m_counter m) in
  ∃ a', PeerPairMsg3Action E rnd a w Elem = Some a' ∧ Content a' = <[w := keyed_entry e m]> (Content a) ∧
    same_group_key a' (after_message a m g) ∧ cfg_PTK a' = PTK e ∧
    cfg_PortSecured a' = (if is_WPA2 e then WPA_802_1X_PORT_SECURED else cfg_PortSecured a) ∧
    CurrentAddress a' = CurrentAddress a ∧ GroupCipher a' = GroupCipher a ∧
    log a' = log a ++ group_events a m g ++ pairwise_events e ++
             (if is_WPA2 e then [RTMP_IndicateMediaState; RTMPCancelTimer_LinkDown] else []) ++ [to_peer (CurrentAddress a) e (station_msg4 a e1) true].
Proof.
  intros H3 Hwep Hbss Hnonce e1. destruct (handler_guards m Elem m_ok _ (field_kck _ (ready_ptk _ _ _ _ _ ready)) m_queued) as (Hlen & _).
  destruct sanity_passes as (p & Hs & Hrc & Hkn). rewrite H3 in Hs.
  pose proof (after_message_same a m g) as (HC & HG & HPt & HPs & HCA & HL).
  set (a1 := after_message a m g) in *. clearbody a1.
  destruct ready as [HE Hw Ht HA Hown _ Hsn HR HP Hg _ _].
  assert (w < length (Content a))%nat as Hwl by (by eapply lookup_lt_Some).
  unfold PeerPairMsg3Action. rewrite Hw, Some_bind, Ht, Hlen. cbn [negb].
  unfold EAPOL_PAIR_MSG_3. rewrite Hs, Some_bind. cbn [negb]. rewrite Hrc, Hkn. fold e1.
  change (ANonce e1) with (ANonce e). rewrite Hnonce, bool_decide_true by done. cbn [negb].
  rewrite HE by (unfold TX_EAPOL_BUFFER; lia). cbn [negb GroupCipher set_entry]. rewrite HG.
  pose proof m_ok as (_ & _ & _ & Hc & _).
  destruct (construct_and_send E (CurrentAddress a) e1 (GroupCipher a) 4 0 (zeros 32) None (zeros 5) 0 None true) as (q & Hq & Hsend);
    try done; try (right; split; [by left|done]); try (cbn; lia); try apply field_zeros.
  change (Z.of_nat 0) with 0 in Hq. unfold EAPOL_PAIR_MSG_4. rewrite Hq, Some_bind.
  rewrite set_entry_twice.
  rewrite (WPAInstallPairwiseKey_ok rnd _ w (set_WpaState e1 AS_PTKINITDONE)); [|cbn|done|done].
  2: { rewrite HC. by apply list_lookup_insert_eq. }
  rewrite Some_bind. change (is_WPA2 (set_WpaState e1 AS_PTKINITDONE)) with (is_WPA2 e).
  set (e2 := set_key (set_WpaState e1 AS_PTKINITDONE) _).
  set (a2 := foldl note _ (pairwise_events _)).
  assert (Content a2 = <[w := e2]> (Content a) ∧ same_group_key a2 a1 ∧ cfg_PTK a2 = PTK e ∧
          cfg_PortSecured a2 = cfg_PortSecured a ∧ CurrentAddress a2 = CurrentAddress a ∧
          GroupCipher a2 = GroupCipher a ∧ log a2 = log a ++ group_events a m g ++ pairwise_events e)
    as (HC2 & Hsame & HPt2 & HPs2 & HCA2 & HG2 & HL2).
  { subst a2 e2. unfold pairwise_events. cbn. rewrite HC, !list_insert_insert_eq, HL, <- !app_assoc. done. }
  set (ev := to_peer (CurrentAddress a) e (station_msg4 a e1) true).
  assert (∀ a', CurrentAddress a' = CurrentAddress a →
            send_eapol E a' (CurrentAddress a') (set_WpaState e1 AS_PTKINITDONE) q true = Some (note a' ev)) as Hs2.
  { intros a' Ha'. rewrite Ha', (Hsend a' (set_WpaState e1 AS_PTKINITDONE)) by done. reflexivity. }
  clear Hsend. clearbody a2 ev. destruct (is_WPA2 e) eqn:Hw2.
  - rewrite HC2, list_lookup_insert_eq, Some_bind by done. subst w.
    destruct (STA_PORT_SECURED_ok a2 (set_port e2 WPA_802_1X_PORT_SECURED PrivFilterAcceptAll))
      as (a3 & -> & HC3 & (H3a & H3b & H3c) & HPt3 & HPs3 & HCA3 & HG3 & HL3 & _).
    { by rewrite HC2, length_insert. }
    rewrite Some_bind, Hs2 by (by rewrite HCA3). eexists. split; [reflexivity|].
    cbn [note Content cfg_GTK DefaultKeyId SharedKey cfg_PTK cfg_PortSecured CurrentAddress GroupCipher log].
    rewrite HC3, HC2, list_insert_insert_eq, HL3, HL2, <- !app_assoc.
    destruct Hsame as (Hs2a & Hs2b & Hs2c). unfold same_group_key. cbn [note cfg_GTK DefaultKeyId SharedKey].
    unfold keyed_entry. rewrite Hw2. split_and!; congruence || done.
  - rewrite Some_bind, Hs2 by done. eexists. split; [reflexivity|]. cbn [note set_entry set_cfg Content log cfg_GTK DefaultKeyId SharedKey cfg_PTK cfg_PortSecured CurrentAddress GroupCipher]. rewrite HC2.
    unfold keyed_entry. rewrite Hw2. split_and!; try done; try apply Hsame. rewrite HL2, <- !app_assoc. done.
Qed.
End Message3.

(** *** The group key handshake *)

Lemma PeerGroupMsg1Action_ok E rnd a e n m Elem g :
  peer_ready E a BSSID_WCID e n → message_wf m → is_WPA2 e = m_wpa2 m →
  length g = gtk_size (GroupCipher a) → bytes g → carries m (pairwise_kek (PTK e)) g →
  fresh e (m_type m) (m_counter m) → queued Elem m (take 16 (PTK e)) → m_type m = 5 →
  let e1 := set_R_Counter e (m_counter m) in
  ∃ a', PeerGroupMsg1Action E rnd a BSSID_WCID Elem = Some a' ∧
    Content a' = <[BSSID_WCID := set_port e1 WPA_802_1X_PORT_SECURED PrivFilterAcceptAll]> (Content a) ∧
    same_group_key a' (after_message a m g) ∧ cfg_PortSecured a' = WPA_802_1X_PORT_SECURED ∧
    CurrentAddress a' = CurrentAddress a ∧ GroupCipher a' = GroupCipher a ∧
    log a' = log a ++ group_events a m g ++ [RTMP_IndicateMediaState; RTMPCancelTimer_LinkDown] ++
             [to_peer (CurrentAddress a) e (station_group2 a e1 (DefaultKeyId a)) false].
Proof.
  intros ready m_ok m_kind g_size g_bytes m_carries m_fresh m_queued H5 e1.
  destruct (sanity_passes E rnd a BSSID_WCID e n ready m Elem g m_ok m_kind g_size g_bytes m_carries m_fresh m_queued)
    as (p & Hs & Hrc & _). rewrite H5 in Hs.
  pose proof (after_message_same a m g) as (HC & HG & HPt & HPs & HCA & HL).
  set (a1 := after_message a m g) in *. clearbody a1.
  destruct ready as [HE Hw Ht HA Hown _ Hsn HR HP Hg _ _].
  assert (BSSID_WCID < length (Content a))%nat as Hwl by (by eapply lookup_lt_Some).
  unfold PeerGroupMsg1Action. rewrite Hw, Some_bind, Ht. cbn [negb].
  unfold EAPOL_GROUP_MSG_1. rewrite Hs, Some_bind. cbn [negb]. rewrite Hrc. fold e1.
  rewrite HE by (unfold TX_EAPOL_BUFFER; lia). cbn [negb].
  change (GroupCipher (set_entry a1 BSSID_WCID e1)) with (GroupCipher a1). rewrite HG.
  pose proof m_ok as (_ & _ & _ & Hc & _).
  destruct (construct_and_send E (CurrentAddress a) e1 (GroupCipher a) 6 (DefaultKeyId a) (zeros 32) None (zeros 5) 0 None false) as (q & Hq & Hsend);
    try done; try (right; split; [by right|done]); try (cbn; lia); try apply field_zeros.
  change (Z.of_nat 0) with 0 in Hq. unfold EAPOL_GROUP_MSG_2. rewrite Hq, Some_bind, set_entry_twice.
  set (ev := to_peer (CurrentAddress a) e (station_group2 a e1 (DefaultKeyId a)) false).
  assert (∀ a', CurrentAddress a' = CurrentAddress a → send_eapol E a' (CurrentAddress a') e1 q false = Some (note a' ev)) as Hs2.
  { intros a' Ha'. rewrite Ha', (Hsend a' e1) by done. reflexivity. }
  clear Hsend. clearbody ev.
  destruct (STA_PORT_SECURED_ok a1 (set_port e1 WPA_802_1X_PORT_SECURED PrivFilterAcceptAll))
    as (a3 & Hsta & HC3 & (H3a & H3b & H3c) & HPt3 & HPs3 & HCA3 & HG3 & HL3 & _).
  { by rewrite HC. }
  rewrite Hsta, Some_bind. cbv zeta. set (a4 := if scanning a3 && _ then _ else _).
  assert (Content a4 = Content a3 ∧ same_group_key a4 a3 ∧ cfg_PortSecured a4 = cfg_PortSecured a3 ∧
          CurrentAddress a4 = CurrentAddress a3 ∧ GroupCipher a4 = GroupCipher a3 ∧ log a4 = log a3)
    as (HC4 & (H4a & H4b & H4c) & HPs4 & HCA4 & HG4 & HL4) by (unfold a4; by destruct (_ && _)).
  clearbody a4. rewrite Hs2 by congruence. eexists. split; [reflexivity|].
  unfold same_group_key. cbn [note Content cfg_GTK DefaultKeyId SharedKey cfg_PortSecured CurrentAddress GroupCipher log].
  rewrite HC4, HC3, HC, HL4, HL3, HL, <- !app_assoc. split_and!; congruence || done.
Qed.

(** ** Dispatch *)

(** For an entry of a TKIP or AES network WpaEAPOLKeyAction has excluded the
    versions that have no MIC before the message reaches its handler. *)
Lemma eapol_guard_has_mic e Elem p kck data :
  eapol_key_guard e Elem p = true →
  WepStatus e = Ndis802_11Encryption2Enabled ∨ WepStatus e = Ndis802_11Encryption3Enabled →
  is_Some (eapol_mic_ref (KeyDescVer (KeyInfo p)) kck data).
Proof.
  unfold eapol_key_guard. rewrite !andb_true_iff. intros [[[[_ H2] H3] _] _] [Hw|Hw]; rewrite Hw in H2, H3; unfold eapol_mic_ref.
  - change (_ =? Ndis802_11Encryption2Enabled) with true in H2. cbn [andb] in H2. apply negb_true_iff, negb_false_iff, Z.eqb_eq in H2. rewrite H2. by eexists.
  - change (Ndis802_11Encryption3Enabled =? Ndis802_11Encryption3Enabled) with true in H3. cbn [andb] in H3.
    apply negb_true_iff, andb_false_iff in H3 as [H3|H3]; apply negb_false_iff, Z.eqb_eq in H3; rewrite H3; by eexists.
Qed.

(** The handler of each message: message 2 without an RSN IE looks like
    message 4. *)
Definition handler_of (m : eapol_message) : eapol_handler :=
  if m_type m =? 1 then ToMsg1
  else if m_type m =? 2 then (if (length (m_data m) =? 0)%nat then ToMsg4 else ToMsg2)
  else if m_type m =? 3 then ToMsg3 else if m_type m =? 4 then ToMsg4
  else if m_type m =? 5 then ToGroup1 else ToGroup2.

Lemma dispatch_message m mic rest :
  message_wf m → (m_type m = 4 → m_data m = []) →
  let p := packet_for m mic rest in
  eapol_dispatch (KeyInfo p) (CONV_ARRARY_TO_UINT16 (KeyDataLen p)) = handler_of m.
Proof.
  intros (Hv & Hmt & _ & _ & _ & _ & _ & _ & Hdl) H4. cbv zeta. cbn [KeyInfo KeyDataLen packet_for].
  rewrite CONV_be_bytes by lia. rewrite <- construct_info_word by done. unfold handler_of.
  assert (m_type m = 1 ∨ m_type m = 2 ∨ m_type m = 3 ∨ m_type m = 4 ∨ m_type m = 5 ∨ m_type m = 6) as H by lia.
  destruct H as [H|[H|[H|[H|[H|H]]]]]; rewrite H in *; destruct (m_wpa2 m); unfold eapol_dispatch, construct_info;
    cbn [KeyAck Secure Request Error_ KeyType KeyMicBit]; try reflexivity; try (by rewrite H4);
    destruct (m_data m); reflexivity.
Qed.

Section Dispatch.
Context (E : env) (rnd uptime : nat → Z) (v : auth_vars) (a : wpa_adapter) (w : nat) (e : wpa_entry) (m : eapol_message).
Context (Elem : MLME_QUEUE_ELEM) (kck : list Z).

(** The entry is found and its port is waiting for EAPOL. *)
Record associated : Prop := {
  assoc_lookup : MacTableLookup a (Addr e) = Some (Some w);
  assoc_entry : Content a !! w = Some e;
  assoc_type : is_client_or_apcli e = true;
  assoc_auth : Ndis802_11AuthModeWPA <= AuthMode e;
  assoc_sst : Sst e = SST_ASSOC;
  assoc_state : AS_INITPSK <= WpaState e;
}.

(** The key descriptor version the pairwise cipher asks for. *)
Definition version_fits : Prop :=
  (WepStatus e = Ndis802_11Encryption2Enabled → m_version m = KEY_DESC_TKIP) ∧
  (WepStatus e = Ndis802_11Encryption3Enabled → m_version m = KEY_DESC_AES).

Lemma WpaEAPOLKeyAction_ok :
  associated → version_fits → message_wf m → (m_type m = 4 → m_data m = []) → field 16 kck →
  queued Elem m kck → slice (Msg Elem) 10 6 = Addr e →
  WpaEAPOLKeyAction E rnd uptime v a Elem =
    match handler_of m with
    | ToMsg1 => PeerPairMsg1Action E rnd uptime a w Elem
    | ToMsg2 => PeerPairMsg2Action E rnd v a w Elem
    | ToMsg3 => PeerPairMsg3Action E rnd a w Elem
    | ToMsg4 => PeerPairMsg4Action E rnd v a w Elem
    | ToGroup1 => PeerGroupMsg1Action E rnd a w Elem
    | ToGroup2 => PeerGroupMsg2Action E rnd a w (drop 24 (Msg Elem)) (u32 (MsgLen Elem - LENGTH_802_11))
    | Ignored => Some a
    end.
Proof.
  intros [Hlk He Ht Hau Hsst Hst] [Hv1 Hv2] Hm H4 Hk Hq Hsrc.
  destruct (handler_guards m Elem Hm kck Hk Hq) as (Hlen & rest & Hrest & Hp).
  destruct Hq as (_ & _ & _ & Hml). rewrite length_eapol_frame in Hml by done.
  pose proof Hm as (_ & _ & _ & _ & _ & _ & _ & Hdb & Hdl).
  unfold WpaEAPOLKeyAction. rewrite Hsrc, Hlk, Some_bind, He, Some_bind, Hp.
  unfold eapol_frame. rewrite <- app_assoc, packet_of_frame; [|done|by apply frame_mic_field|by apply Forall_app].
  rewrite dispatch_message by done.
  assert (eapol_key_guard e Elem (packet_for m (frame_mic m kck) (m_data m ++ rest)) = true) as ->; [|done].
  unfold eapol_key_guard. rewrite Ht, packet_for_version by done. cbn [Body_Len ProVer DescType packet_for].
  rewrite CONV_be_bytes, Hml by lia. rewrite u32_small by (unfold fits, LENGTH_802_11, LENGTH_802_1_H; lia).
  rewrite (proj2 (Z.ltb_ge (AuthMode e) _)) by done.
  rewrite (proj2 (Z.ltb_ge _ (95 + Z.of_nat (length (m_data m)) + LENGTH_EAPOL_H)))
    by (unfold LENGTH_802_11, LENGTH_802_1_H, LENGTH_EAPOL_H; lia).
  rewrite Hsst, bool_decide_true, (proj2 (Z.leb_le AS_INITPSK _)) by done.
  destruct (Z.eqb_spec (WepStatus e) Ndis802_11Encryption2Enabled) as [H2|H2];
    [rewrite (Hv1 H2)|]; destruct (Z.eqb_spec (WepStatus e) Ndis802_11Encryption3Enabled) as [H3|H3];
    try (rewrite (Hv2 H3)); destruct (m_wpa2 m); try done; rewrite H2 in H3; done.
Qed.
End Dispatch.

(** An entry that keeps its address and its place in the chain is found as
    before. *)
Lemma lookup_chain_same f c w e e' : ∀ p x,
  c !! w = Some e → EntryType e' = EntryType e → Addr e' = Addr e → pNext e' = pNext e →
  lookup_chain f (<[w := e']> c) p x = lookup_chain f c p x.
Proof.
  induction f as [|f IH]; intros [v|] x Hw H1 H2 H3; cbn [lookup_chain]; try done.
  assert (w < length c)%nat as Hl by (by eapply lookup_lt_Some).
  destruct (decide (v = w)) as [->|Hne].
  - rewrite list_lookup_insert_eq, Hw, !Some_bind by done. rewrite H1, H2, H3. by rewrite IH.
  - rewrite list_lookup_insert_ne by done. destruct (c !! v) as [ev|]; [|done]. rewrite !Some_bind. by rewrite IH.
Qed.

Lemma MacTableLookup_same a a' w e e' x :
  Content a !! w = Some e → Content a' = <[w := e']> (Content a) → Hash a' = Hash a →
  EntryType e' = EntryType e → Addr e' = Addr e → pNext e' = pNext e →
  MacTableLookup a' x = MacTableLookup a x.
Proof.
  intros Hw HC HH H1 H2 H3. unfold MacTableLookup, table_lookup. rewrite HH, HC, length_insert.
  destruct (Hash a !! _) as [p|]; [|done]. rewrite !Some_bind. by apply (lookup_chain_same _ _ _ e).
Qed.
