(* ===== verification/WpaHandshake.v ===== *)
(** * The handshakes

    What the handlers of [WpaSm] do together: the 4-way and the group key
    handshake of a station with an authenticator that sends the messages of
    [EapolMsg]'s reference, through the dispatch of [WpaEAPOLKeyAction]; and
    what the same handlers do with a repeated message 3, a message 1 that
    nobody authenticated and a message 4 that no station should get. *)

From stdpp Require Import base list numbers list_numbers.
From Stdlib Require Import ZArith Lia.
From S2P Require Import Prelude Mlme Arc4 BlockHash Md5 Sha Hmac AesTables Aes AesCmac AesKeyWrap WpaCmm WpaKeys WpaData Wep Tkip EapolMsg EapolRecv WpaSm.

(** ** Handshakes *)

Lemma station_reply_wf E e gws mt idx nonce ie n :
  ample E → field 64 (PTK e) → field 8 (R_Counter e) → field 32 nonce → mt = 2 ∨ (mt = 4 ∨ mt = 6) ∧ n = 0%nat →
  (5 <= length ie)%nat → (n <= length ie)%nat → (n <= 190)%nat → bytes ie →
  let m := message_of e gws mt idx nonce (zeros 6) (zeros 32) ie n in
  message_wf m ∧ carries m (pairwise_kek (PTK e)) (zeros (gtk_size gws)).
Proof.
  intros HE HP HR Hn Hmt H5 Hin H190 Hib m.
  assert (has_gtk (is_WPA2 e) mt = false) as Hg by (by destruct Hmt as [->|([-> | ->] & _)]).
  assert (construct_args E e mt None (Some ie) (zeros 32) ie n) as Ha.
  { split; [done|done|by rewrite Hg|split; [done|by apply fits_zeros]|done|split_and!; [done|done|lia|done]]. }
  assert (message_args e mt (Some nonce) None nonce (zeros 6)) as Hm.
  { split; [lia|done|done|done|by rewrite Hg|apply field_zeros]. }
  split; [by apply (message_of_wf E _ _ _ _ (Some nonce) None _ _ None (Some ie))|].
  assert (take (gtk_size gws) (zeros 32) = zeros (gtk_size gws)) as <- by (unfold gtk_size; by destruct (_ =? _)).
  apply (message_of_carries E _ _ _ _ (Some nonce) None nonce (zeros 6) None (Some ie)); try done.
  intros ->. lia.
Qed.

(** A peer with the same PTK takes a reply of the station: the frame, its
    nonce and its counter. *)
Definition peer_accepts (E : env) (rnd : nat → Z) (ap : wpa_entry) (mt : Z) (frame nonce : list Z) : Prop :=
  ∀ b rest, group_ready b → bytes rest →
  ∃ p, PeerWpaMessageSanity E rnd b (packet_of (frame ++ rest)) mt ap = Some (true, p, b) ∧ KeyNonce p = nonce.

Lemma reply_accepted E rnd ap e gws mt idx nonce ie n :
  ample E → field 64 (PTK e) → field 8 (R_Counter e) → field 32 nonce → mt = 2 ∨ (mt = 4 ∨ mt = 6) ∧ n = 0%nat →
  (5 <= length ie)%nat → (n <= length ie)%nat → (n <= 190)%nat → bytes ie →
  PTK ap = PTK e → is_WPA2 ap = is_WPA2 e → R_Counter ap = R_Counter e →
  let m := message_of e gws mt idx nonce (zeros 6) (zeros 32) ie n in
  peer_accepts E rnd ap mt (eapol_frame m (take 16 (PTK e))) (m_nonce m).
Proof.
  intros HE HP HR Hn Hmt H5 Hin H190 Hib Hk Hw Hc m b rest Hb Hrest.
  destruct (station_reply_wf E e gws mt idx nonce ie n HE HP HR Hn Hmt H5 Hin H190 Hib) as [Hm Hcar]. fold m in Hm, Hcar.
  assert (has_gtk (is_WPA2 e) mt = false) as Hg by (by destruct Hmt as [->|([-> | ->] & _)]).
  assert (∀ g, carries m (pairwise_kek (PTK e)) g) as Hcar'.
  { intros g. unfold carries in *. change (has_gtk (m_wpa2 m) (m_type m)) with (has_gtk (is_WPA2 e) mt) in *. by rewrite Hg in *. }
  destruct (PeerWpaMessageSanity_ok E rnd ap b m rest (zeros (gtk_size (GroupCipher b)))) as (p & Hp & _ & _ & Hkn).
  - done.
  - by rewrite Hk.
  - done.
  - done.
  - by rewrite Hw.
  - done.
  - apply length_zeros.
  - by apply fits_zeros.
  - rewrite Hk. apply Hcar'.
  - destruct (replay_differs_spec ap (m_type m) (m_counter m)) as (x & -> & Hx).
    { apply HR. }
    { by rewrite Hc. }
    destruct x; [|done]. exfalso. assert (true = false); [|done]. apply Hx. unfold fresh.
    change (m_type m) with mt. change (m_counter m) with (R_Counter e).
    destruct Hmt as [->|([-> | ->] & _)]; cbn [Z.eqb Pos.eqb orb]; done.
  - exists p. rewrite Hk in Hp. change (m_type m) with mt in Hp. split; [|done]. rewrite Hp.
    unfold after_message. change (has_gtk (m_wpa2 m) (m_type m)) with (has_gtk (is_WPA2 e) mt). by rewrite Hg.
Qed.

(** The station is ready for message 3 after message 1. *)
Lemma ready_after_msg1 E uptime a w e n m ev :
  peer_ready E a w e n → associated a w e → message_wf m →
  let e' := msg1_entry uptime a e m in
  let a' := note (set_entry a w e') ev in
  peer_ready E a' w e' n ∧ associated a' w e'.
Proof.
  intros Hr Ha Hm e' a'. pose proof Hm as (_ & _ & _ & Hc & _).
  assert (w < length (Content a))%nat as Hl by (eapply lookup_lt_Some, (ready_entry _ _ _ _ _ Hr)).
  assert (Content a' !! w = Some e') as He' by (by apply list_lookup_insert_eq).
  split.
  - destruct Hr as [HE Hw Ht HA Hown Hpmk Hsn HR HP [Hg1 Hg2 Hg3] Hnl Hie].
    split; try done; [apply field_station_nonce|apply field_session_ptk].
  - destruct Ha as [Hlk Hw Ht Hau Hsst Hst]. split; try done.
    rewrite <- Hlk. by apply (MacTableLookup_same a a' w e e').
Qed.

Definition ap_header (a : wpa_adapter) (e : wpa_entry) : list Z := Addr e ++ CurrentAddress a ++ EAPOL_type.

(** C7: The 4-way handshake, through [WpaEAPOLKeyAction].  A station that is
    associated receives message 1 and message 3 of an authenticator that
    follows the standard.  It answers message 1 with a message 2 that the
    authenticator accepts under the key it derives from the PMK, both
    addresses and the two nonces, and message 3 with a message 4 that the
    authenticator accepts; both sides then hold the same PTK, the pairwise
    key is installed and, with WPA2, the group key is the authenticator's and
    the port is open. *)
Theorem four_way_handshake E rnd uptime a e n m1 m3 g kck1 El1 El3 :
  let sn := station_nonce uptime (CurrentAddress a) in
  let K := session_ptk (cfg_PMK a) (Addr e) (CurrentAddress a) (m_nonce m1) sn in
  peer_ready E a BSSID_WCID e n → associated a BSSID_WCID e → group_cipher_ok (WepStatus e) →
  message_wf m1 → m_type m1 = 1 → m_data m1 = [] → is_WPA2 e = m_wpa2 m1 → version_fits e m1 →
  fresh e 1 (m_counter m1) → field 16 kck1 → queued El1 m1 kck1 → slice (Msg El1) 10 6 = Addr e →
  message_wf m3 → m_type m3 = 3 → is_WPA2 e = m_wpa2 m3 → version_fits e m3 → m_nonce m3 = m_nonce m1 →
  be_word (m_counter m1) < be_word (m_counter m3) →
  length g = gtk_size (GroupCipher a) → bytes g → carries m3 (pairwise_kek K) g →
  queued El3 m3 (take 16 K) → slice (Msg El3) 10 6 = Addr e →
  ∃ a1 a2 f2 f4 e2,
    WpaEAPOLKeyAction E rnd uptime station_vars a El1 = Some a1 ∧
    last (log a1) = Some (SendPacket (ap_header a e) f2 true (u8 (Aid e))) ∧
    (∀ ap, PTK ap = K → is_WPA2 ap = is_WPA2 e → R_Counter ap = m_counter m1 → peer_accepts E rnd ap 2 f2 sn) ∧
    WpaEAPOLKeyAction E rnd uptime station_vars a1 El3 = Some a2 ∧
    last (log a2) = Some (SendPacket (ap_header a e) f4 true (u8 (Aid e))) ∧
    (∀ ap, PTK ap = K → is_WPA2 ap = is_WPA2 e → R_Counter ap = m_counter m3 → peer_accepts E rnd ap 4 f4 (zeros 32)) ∧
    Content a2 !! BSSID_WCID = Some e2 ∧ PTK e2 = K ∧ PairwiseKey e2 = pairwise_key (WepStatus e) K ∧
    WpaState e2 = AS_PTKINITDONE ∧ cfg_PTK a2 = K ∧
    (is_WPA2 e = true →
     same_group_key a2 (gtk_installed a g (m_idx m3 & 3)) ∧ PortSecured e2 = WPA_802_1X_PORT_SECURED ∧
     PrivacyFilter e2 = PrivFilterAcceptAll ∧ cfg_PortSecured a2 = WPA_802_1X_PORT_SECURED).
Proof.
  intros sn K Hr Ha Hwep Hm1 Ht1 Hd1 Hk1 Hv1 Hf1 Hkck Hq1 Hs1 Hm3 Ht3 Hk3 Hv3 Hno Hc13 Hgl Hgb Hcar Hq3 Hs3.
  set (e1 := msg1_entry uptime a e m1).
  pose proof (PeerPairMsg1Action_ok E rnd uptime a BSSID_WCID e n Hr m1 El1 Hm1 Hk1 kck1 Hkck Hq1 Ht1 Hd1 Hf1) as H1.
  cbv zeta in H1. fold e1 in H1. set (ev := to_peer (CurrentAddress a) e1 (station_msg2 a e1 n) true) in H1.
  destruct (ready_after_msg1 E uptime a BSSID_WCID e n m1 ev Hr Ha Hm1) as [Hr1 Ha1]. fold e1 in Hr1, Ha1.
  set (a1 := note (set_entry a BSSID_WCID e1) ev) in *.
  assert (fresh e1 (m_type m3) (m_counter m3)) as Hf3 by (rewrite Ht3; by left).
  destruct (PeerPairMsg3Action_ok E rnd a1 BSSID_WCID e1 n Hr1 m3 El3 g Hm3 Hk3 Hgl Hgb Hcar Hf3 Hq3 Ht3 Hwep eq_refl Hno)
    as (a2 & H3 & HC2 & Hsame & HPt & HPs & _ & _ & HL).
  assert (m_counter m3 = m_counter m3 ∧ field 8 (m_counter m3)) as [_ Hc3] by (split; [done|apply Hm3]).
  assert (BSSID_WCID < length (Content a1))%nat as Hl by (eapply lookup_lt_Some, (ready_entry _ _ _ _ _ Hr1)).
  set (e3 := set_R_Counter e1 (m_counter m3)) in *.
  exists a1, a2, (eapol_frame (station_msg2 a e1 n) (take 16 K)), (eapol_frame (station_msg4 a1 e3) (take 16 K)), (keyed_entry e1 m3).
  split_and!.
  - rewrite (WpaEAPOLKeyAction_ok E rnd uptime station_vars a BSSID_WCID e m1 El1 kck1 Ha Hv1 Hm1) by (done || (rewrite Ht1; done)).
    unfold handler_of. by rewrite Ht1.
  - unfold a1. cbn [note set_entry log]. by rewrite last_snoc.
  - intros ap HK Hw Hc.
    destruct Hr as [HE _ _ _ _ _ _ _ _ _ _ (H5 & Hin & H190 & Hib)].
    assert (m_nonce (station_msg2 a e1 n) = sn) as Hsn
      by (apply (take_ge sn); pose proof (proj1 (field_station_nonce uptime (CurrentAddress a))); unfold sn; lia).
    rewrite <- Hsn.
    apply (reply_accepted E rnd ap e1 (GroupCipher a) 2 0 sn (cfg_RSN_IE a) n); try done;
      [apply Hr1|apply Hr1|apply field_station_nonce|by left].
  - rewrite (WpaEAPOLKeyAction_ok E rnd uptime station_vars a1 BSSID_WCID e1 m3 El3 (take 16 K) Ha1 Hv3 Hm3);
      [|by rewrite Ht3|apply field_kck, field_session_ptk|done|done].
    unfold handler_of. by rewrite Ht3.
  - rewrite HL, !app_assoc. by rewrite last_snoc.
  - intros ap HK Hw Hc.
    assert (m_nonce (station_msg4 a1 e3) = zeros 32) as <-
      by (unfold station_msg4, message_of; cbn [m_nonce]; by rewrite andb_false_r).
    apply (reply_accepted E rnd ap e3 (GroupCipher a) 4 0 (zeros 32) (zeros 5) 0); try done;
      [apply Hr1|apply Hr1|apply field_zeros|right; split; [by left|done]|cbn; lia|lia|apply field_zeros].
  - rewrite HC2. by apply list_lookup_insert_eq.
  - unfold keyed_entry. by destruct (is_WPA2 e1).
  - unfold keyed_entry. by destruct (is_WPA2 e1).
  - unfold keyed_entry. by destruct (is_WPA2 e1).
  - done.
  - intros Hw. change (is_WPA2 e1) with (is_WPA2 e) in HPs. rewrite Hw in HPs. split_and!; try done.
    + unfold same_group_key. destruct Hsame as (-> & -> & ->). unfold after_message. rewrite <- Hk3, Ht3, Hw. done.
    + unfold keyed_entry. change (is_WPA2 e1) with (is_WPA2 e). by rewrite Hw.
    + unfold keyed_entry. change (is_WPA2 e1) with (is_WPA2 e). by rewrite Hw.
Qed.

(** A handshake for the witnesses: WPA2-PSK with AES. *)
Module Sample.
Definition sta_entry (counter ptk : list Z) : wpa_entry :=
  sample_entry Ndis802_11AuthModeWPA2PSK Ndis802_11Encryption3Enabled counter ptk.
Definition e : wpa_entry := sta_entry (zeros 8) (zeros 64).
Definition a : wpa_adapter := sample_adapter Ndis802_11Encryption3Enabled e.
Definition uptime (i : nat) : Z := Z.of_nat i.
Notation sn := (station_nonce uptime (CurrentAddress a)).
Definition m1 : eapol_message :=
  message_of (sta_entry (zeros 7 ++ [1]) (zeros 64)) Ndis802_11Encryption3Enabled 1 0 (seqZ 1 32) (zeros 6) (zeros 32) (zeros 5) 0.
Notation K := (session_ptk (cfg_PMK a) (Addr e) (CurrentAddress a) (m_nonce m1) sn).
Definition m3 (ptk : list Z) : eapol_message :=
  message_of (sta_entry (zeros 7 ++ [2]) ptk) Ndis802_11Encryption3Enabled 3 1 (seqZ 1 32) (seqZ 1 6) (seqZ 50 32) sample_rsnie 20.
Definition frame (f : list Z) : MLME_QUEUE_ELEM :=
  {| Msg := (zeros 10 ++ Addr e ++ zeros 16) ++ f; Machine := WPA_STATE_MACHINE; MsgType := MT2_EAPOLKey;
     MsgLen := Z.of_nat (32 + length f); TimeStampLow := 0; TimeStampHigh := 0; Rssi0 := 0; Rssi1 := 0; Rssi2 := 0;
     Signal := 0; Elem_Channel := 0; Wcid := 0; Occupied := true; OpMode := 0; Priv := 0 |}.

Lemma m1_wf : message_wf m1.
Proof.
  apply (message_of_wf kmalloc_all _ _ _ _ (Some (seqZ 1 32)) None _ _ None None).
  - split; [apply ample_all|apply field_zeros|done|split; [done|bytes_table]|done|split_and!; [cbn; lia..|bytes_table]].
  - split; [lia|split; [done|bytes_table]|done|split; [done|bytes_table]|done|apply field_zeros].
Qed.

Lemma m3_args ptk : field 64 ptk →
  let ap := sta_entry (zeros 7 ++ [2]) ptk in
  construct_args kmalloc_all ap 3 (Some (seqZ 50 32)) (Some sample_rsnie) (seqZ 50 32) sample_rsnie 20 ∧
  message_args ap 3 (Some (seqZ 1 32)) (Some (seqZ 1 6)) (seqZ 1 32) (seqZ 1 6).
Proof.
  intros Hp. split.
  - split; [apply ample_all|done|done|split; [vm_compute; lia|bytes_table]|done|].
    split_and!; [vm_compute; lia..|bytes_table].
  - split; [lia|split; [done|bytes_table]|done|split; [done|bytes_table]|done|split; [done|bytes_table]].
Qed.

Lemma m3_wf ptk : field 64 ptk → message_wf (m3 ptk) ∧ carries (m3 ptk) (pairwise_kek ptk) (seqZ 50 16).
Proof.
  intros Hp. destruct (m3_args ptk Hp) as [Ha Hm]. split.
  - exact (message_of_wf kmalloc_all _ Ndis802_11Encryption3Enabled 3 1 _ _ _ _ _ _ _ _ 20 Ha Hm).
  - exact (message_of_carries kmalloc_all _ Ndis802_11Encryption3Enabled 3 1 _ _ _ _ _ _ _ _ 20 Ha Hm ltac:(lia) (λ _ _, eq_refl)).
Qed.

Lemma queued_frame m kck : queued (frame (eapol_frame m kck)) m kck.
Proof. by exists []; split; [constructor|]; rewrite app_nil_r. Qed.

Lemma a_ready : peer_ready kmalloc_all a BSSID_WCID e 20 ∧ associated a BSSID_WCID e.
Proof.
  split.
  - split; try done; try (split; [done|bytes_table]).
    + split; [bytes_table|vm_compute; lia].
    + split; [by right|vm_compute; lia|done].
    + split_and!; [vm_compute; lia..|bytes_table].
  - split; done.
Qed.
End Sample.

Lemma four_way_handshake_witness :
  let a := Sample.a in let e := Sample.e in let K := Sample.K in let m3 := Sample.m3 K in
  ∃ a1 a2 f2 f4 e2,
    WpaEAPOLKeyAction kmalloc_all (λ _, 0) Sample.uptime station_vars a (Sample.frame (eapol_frame Sample.m1 (zeros 16))) = Some a1 ∧
    last (log a1) = Some (SendPacket (ap_header a e) f2 true (u8 (Aid e))) ∧
    (∀ ap, PTK ap = K → is_WPA2 ap = is_WPA2 e → R_Counter ap = m_counter Sample.m1 →
           peer_accepts kmalloc_all (λ _, 0) ap 2 f2 Sample.sn) ∧
    WpaEAPOLKeyAction kmalloc_all (λ _, 0) Sample.uptime station_vars a1 (Sample.frame (eapol_frame m3 (take 16 K))) = Some a2 ∧
    last (log a2) = Some (SendPacket (ap_header a e) f4 true (u8 (Aid e))) ∧
    (∀ ap, PTK ap = K → is_WPA2 ap = is_WPA2 e → R_Counter ap = m_counter m3 →
           peer_accepts kmalloc_all (λ _, 0) ap 4 f4 (zeros 32)) ∧
    Content a2 !! BSSID_WCID = Some e2 ∧ PTK e2 = K ∧ PairwiseKey e2 = pairwise_key (WepStatus e) K ∧
    WpaState e2 = AS_PTKINITDONE ∧ cfg_PTK a2 = K ∧
    (is_WPA2 e = true →
     same_group_key a2 (gtk_installed a (seqZ 50 16) (m_idx m3 & 3)) ∧ PortSecured e2 = WPA_802_1X_PORT_SECURED ∧
     PrivacyFilter e2 = PrivFilterAcceptAll ∧ cfg_PortSecured a2 = WPA_802_1X_PORT_SECURED).
Proof.
  destruct Sample.a_ready as [Hr Ha]. destruct (Sample.m3_wf Sample.K) as [Hm3 Hc3].
  { apply field_session_ptk. }
  apply (four_way_handshake kmalloc_all (λ _, 0) Sample.uptime Sample.a Sample.e 20 Sample.m1 (Sample.m3 Sample.K)
    (seqZ 50 16) (zeros 16) (Sample.frame (eapol_frame Sample.m1 (zeros 16)))
    (Sample.frame (eapol_frame (Sample.m3 Sample.K) (take 16 Sample.K))) Hr Ha).
  - by right.
  - apply Sample.m1_wf.
  - reflexivity.
  - reflexivity.
  - reflexivity.
  - split; [discriminate|reflexivity].
  - left. vm_compute. reflexivity.
  - apply field_zeros.
  - apply Sample.queued_frame.
  - reflexivity.
  - exact Hm3.
  - reflexivity.
  - reflexivity.
  - split; [discriminate|reflexivity].
  - unfold Sample.m3, Sample.m1, message_of. cbn [m_nonce Z.leb Z.compare Pos.compare Pos.compare_cont orb]. reflexivity.
  - change (be_word (zeros 7 ++ [1]) < be_word (zeros 7 ++ [2])). vm_compute. reflexivity.
  - reflexivity.
  - bytes_table.
  - exact Hc3.
  - apply Sample.queued_frame.
  - reflexivity.
Defined.

(** C11: The group key handshake, through [WpaEAPOLKeyAction].  A station whose
    PTK is established and that receives message 1 of the group handshake
    with a newer counter, in WPA or WPA2, installs exactly the group key it
    carries, opens its port and answers with a message 2 that the
    authenticator accepts. *)
Theorem group_handshake E rnd uptime a e n m g El :
  peer_ready E a BSSID_WCID e n → associated a BSSID_WCID e →
  message_wf m → m_type m = 5 → is_WPA2 e = m_wpa2 m → version_fits e m →
  be_word (R_Counter e) < be_word (m_counter m) →
  length g = gtk_size (GroupCipher a) → bytes g → carries m (pairwise_kek (PTK e)) g →
  queued El m (take 16 (PTK e)) → slice (Msg El) 10 6 = Addr e →
  ∃ a' f2 e2,
    WpaEAPOLKeyAction E rnd uptime station_vars a El = Some a' ∧
    same_group_key a' (gtk_installed a g (m_idx m & 3)) ∧
    last (log a') = Some (SendPacket (ap_header a e) f2 false (u8 (Aid e))) ∧
    (∀ ap, PTK ap = PTK e → is_WPA2 ap = is_WPA2 e → R_Counter ap = m_counter m → peer_accepts E rnd ap 6 f2 (zeros 32)) ∧
    Content a' !! BSSID_WCID = Some e2 ∧ PTK e2 = PTK e ∧ R_Counter e2 = m_counter m ∧
    PortSecured e2 = WPA_802_1X_PORT_SECURED ∧ cfg_PortSecured a' = WPA_802_1X_PORT_SECURED.
Proof.
  intros Hr Ha Hm Ht Hk Hv Hc Hgl Hgb Hcar Hq Hs.
  pose proof (ready_ptk _ _ _ _ _ Hr) as HP.
  assert (fresh e (m_type m) (m_counter m)) as Hf by (rewrite Ht; by left).
  assert (BSSID_WCID < length (Content a))%nat as Hl by (eapply lookup_lt_Some, (ready_entry _ _ _ _ _ Hr)).
  destruct (PeerGroupMsg1Action_ok E rnd a e n m El g Hr Hm Hk Hgl Hgb Hcar Hf Hq Ht)
    as (a' & H5 & HC & Hsame & HPs & _ & _ & HL).
  set (e1 := set_R_Counter e (m_counter m)) in *.
  exists a', (eapol_frame (station_group2 a e1 (DefaultKeyId a)) (take 16 (PTK e))),
    (set_port e1 WPA_802_1X_PORT_SECURED PrivFilterAcceptAll). split_and!.
  - rewrite (WpaEAPOLKeyAction_ok E rnd uptime station_vars a BSSID_WCID e m El (take 16 (PTK e)) Ha Hv Hm);
      [|by rewrite Ht|by apply field_kck|done|done].
    unfold handler_of. by rewrite Ht.
  - unfold same_group_key, after_message in *. rewrite Ht in Hsame. unfold has_gtk in Hsame.
    rewrite orb_true_r in Hsame. exact Hsame.
  - rewrite HL, !app_assoc. by rewrite last_snoc.
  - intros ap HK Hw Hcn.
    assert (m_nonce (station_group2 a e1 (DefaultKeyId a)) = zeros 32) as <-
      by (unfold station_group2, message_of; cbn [m_nonce]; by rewrite andb_false_r).
    apply (reply_accepted E rnd ap e1 (GroupCipher a) 6 (DefaultKeyId a) (zeros 32) (zeros 5) 0); try done;
      [apply Hr|apply Hm|apply field_zeros|right; split; [by right|done]|cbn; lia|lia|apply field_zeros].
  - rewrite HC. by apply list_lookup_insert_eq.
  - done.
  - done.
  - done.
  - done.
Qed.

(** C25: A station that has completed the handshake takes message 3 again: when
    the authenticator, or somebody who holds back its frames, sends it once
    more with a newer counter, the same pairwise key is given to the hardware
    again and its packet number starts again from 1, so that packet numbers
    are used twice under one key. *)
Theorem msg3_reinstalls_key E rnd uptime a e n m g El :
  peer_ready E a BSSID_WCID e n → associated a BSSID_WCID e → group_cipher_ok (WepStatus e) →
  WpaState e = AS_PTKINITDONE → PairwiseKey e = pairwise_key (WepStatus e) (PTK e) → PortSecured e = WPA_802_1X_PORT_SECURED →
  message_wf m → m_type m = 3 → is_WPA2 e = m_wpa2 m → version_fits e m → m_nonce m = ANonce e →
  be_word (R_Counter e) < be_word (m_counter m) →
  length g = gtk_size (GroupCipher a) → bytes g → carries m (pairwise_kek (PTK e)) g →
  queued El m (take 16 (PTK e)) → slice (Msg El) 10 6 = Addr e →
  ∃ a' e2 before after,
    WpaEAPOLKeyAction E rnd uptime station_vars a El = Some a' ∧ Content a' !! BSSID_WCID = Some e2 ∧
    PairwiseKey e2 = PairwiseKey e ∧
    log a' = log a ++ before ++ [AsicAddPairwiseKeyEntry (u8 (Aid e)) (PairwiseKey e);
                                 AsicUpdateWCIDIVEIV (u8 (Aid e)) first_iv 0] ++ after.
Proof.
  intros Hr Ha Hwep _ Hpk _ Hm Ht Hk Hv Hno Hc Hgl Hgb Hcar Hq Hs.
  assert (fresh e (m_type m) (m_counter m)) as Hf by (rewrite Ht; by left).
  assert (BSSID_WCID < length (Content a))%nat as Hl by (eapply lookup_lt_Some, (ready_entry _ _ _ _ _ Hr)).
  destruct (PeerPairMsg3Action_ok E rnd a BSSID_WCID e n Hr m El g Hm Hk Hgl Hgb Hcar Hf Hq Ht Hwep eq_refl Hno)
    as (a' & H3 & HC & _ & _ & _ & _ & _ & HL).
  eexists a', (keyed_entry e m), (group_events a m g), _. split_and!.
  - rewrite (WpaEAPOLKeyAction_ok E rnd uptime station_vars a BSSID_WCID e m El (take 16 (PTK e)) Ha Hv Hm);
      [|by rewrite Ht|apply field_kck, Hr|done|done].
    unfold handler_of. by rewrite Ht.
  - rewrite HC. by apply list_lookup_insert_eq.
  - rewrite Hpk. unfold keyed_entry. by destruct (is_WPA2 e).
  - rewrite HL. unfold pairwise_events at 1. rewrite <- Hpk. reflexivity.
Qed.

(** C26: Message 1 carries no MIC, and a station that has completed the
    handshake still obeys it: any frame with a newer counter replaces the PTK
    and the replay counter of the entry, so that messages of the real
    authenticator are no longer accepted; the sender needs to know nothing. *)
Theorem forged_msg1_replaces_ptk E rnd uptime a e n m kck El :
  peer_ready E a BSSID_WCID e n → associated a BSSID_WCID e → WpaState e = AS_PTKINITDONE →
  message_wf m → m_type m = 1 → m_data m = [] → is_WPA2 e = m_wpa2 m → version_fits e m →
  be_word (R_Counter e) < be_word (m_counter m) → field 16 kck → queued El m kck → slice (Msg El) 10 6 = Addr e →
  ∃ a' e2,
    WpaEAPOLKeyAction E rnd uptime station_vars a El = Some a' ∧ Content a' !! BSSID_WCID = Some e2 ∧
    R_Counter e2 = m_counter m ∧ WpaState e2 = AS_PTKINIT_NEGOTIATING ∧
    PTK e2 = session_ptk (cfg_PMK a) (Addr e) (CurrentAddress a) (m_nonce m) (station_nonce uptime (CurrentAddress a)) ∧
    (∀ mt c, mt = 3 ∨ mt = 5 → field 8 c → 0 < be_word c <= be_word (m_counter m) → replay_differs e2 mt c = Some true).
Proof.
  intros Hr Ha _ Hm Ht Hd Hk Hv Hc Hkck Hq Hs.
  assert (fresh e 1 (m_counter m)) as Hf by (by left).
  assert (BSSID_WCID < length (Content a))%nat as Hl by (eapply lookup_lt_Some, (ready_entry _ _ _ _ _ Hr)).
  pose proof (PeerPairMsg1Action_ok E rnd uptime a BSSID_WCID e n Hr m El Hm Hk kck Hkck Hq Ht Hd Hf) as H1. cbv zeta in H1.
  eexists _, (msg1_entry uptime a e m). split_and!.
  - rewrite (WpaEAPOLKeyAction_ok E rnd uptime station_vars a BSSID_WCID e m El kck Ha Hv Hm); [|by rewrite Ht|done|done|done].
    unfold handler_of. rewrite Ht. exact H1.
  - by apply list_lookup_insert_eq.
  - done.
  - done.
  - done.
  - intros mt c Hmt Hcf Hrange.
    destruct (replay_differs_spec (msg1_entry uptime a e m) mt c Hcf ltac:(apply Hm)) as (b & -> & Hb).
    destruct b; [done|]. exfalso. assert (fresh (msg1_entry uptime a e m) mt c) as Hfr by (by apply Hb).
    unfold fresh in Hfr. change (R_Counter (msg1_entry uptime a e m)) with (m_counter m) in Hfr.
    destruct Hmt as [-> | ->]; cbn [Z.eqb Pos.eqb orb] in Hfr; lia.
Qed.

(** The sample station after its handshake, with PTK 100, 101, ... *)
Module Keyed.
Definition ptk : list Z := seqZ 100 64.
Definition e : wpa_entry :=
  set_port (set_handshake (set_key Sample.e (pairwise_key Ndis802_11Encryption3Enabled ptk)) AS_PTKINITDONE
              (zeros 8) (seqZ 1 32) (zeros 32) ptk) WPA_802_1X_PORT_SECURED PrivFilterAcceptAll.
Definition a : wpa_adapter := sample_adapter Ndis802_11Encryption3Enabled e.
Definition group1 : eapol_message :=
  message_of (Sample.sta_entry (zeros 7 ++ [2]) ptk) Ndis802_11Encryption3Enabled 5 2 (seqZ 1 32) (seqZ 1 6) (seqZ 50 32) (zeros 5) 0.

Lemma keyed_ready : peer_ready kmalloc_all a BSSID_WCID e 20 ∧ associated a BSSID_WCID e.
Proof.
  split.
  - split; try done; try (split; [done|bytes_table]).
    + split; [bytes_table|vm_compute; lia].
    + split; [by right|vm_compute; lia|done].
    + split_and!; [vm_compute; lia..|bytes_table].
  - split; done.
Qed.

Lemma group1_wf : message_wf group1 ∧ carries group1 (pairwise_kek ptk) (seqZ 50 16).
Proof.
  set (ap := Sample.sta_entry (zeros 7 ++ [2]) ptk).
  assert (construct_args kmalloc_all ap 5 (Some (seqZ 50 32)) None (seqZ 50 32) (zeros 5) 0) as Ha.
  { split; [apply ample_all|split; [done|bytes_table]|done|split; [vm_compute; lia|bytes_table]|done|].
    split_and!; [vm_compute; lia..|bytes_table]. }
  assert (message_args ap 5 (Some (seqZ 1 32)) (Some (seqZ 1 6)) (seqZ 1 32) (seqZ 1 6)) as Hm.
  { split; [lia|split; [done|bytes_table]|done|split; [done|bytes_table]|done|split; [done|bytes_table]]. }
  split.
  - exact (message_of_wf kmalloc_all _ Ndis802_11Encryption3Enabled 5 2 _ _ _ _ _ _ _ _ 0 Ha Hm).
  - exact (message_of_carries kmalloc_all _ Ndis802_11Encryption3Enabled 5 2 _ _ _ _ _ _ _ _ 0 Ha Hm ltac:(lia) ltac:(done)).
Qed.
End Keyed.

Lemma group_handshake_witness :
  let a := Keyed.a in let e := Keyed.e in let m := Keyed.group1 in
  ∃ a' f2 e2,
    WpaEAPOLKeyAction kmalloc_all (λ _, 0) Sample.uptime station_vars a (Sample.frame (eapol_frame m (take 16 Keyed.ptk))) = Some a' ∧
    same_group_key a' (gtk_installed a (seqZ 50 16) (m_idx m & 3)) ∧
    last (log a') = Some (SendPacket (ap_header a e) f2 false (u8 (Aid e))) ∧
    (∀ ap, PTK ap = PTK e → is_WPA2 ap = is_WPA2 e → R_Counter ap = m_counter m →
           peer_accepts kmalloc_all (λ _, 0) ap 6 f2 (zeros 32)) ∧
    Content a' !! BSSID_WCID = Some e2 ∧ PTK e2 = PTK e ∧ R_Counter e2 = m_counter m ∧
    PortSecured e2 = WPA_802_1X_PORT_SECURED ∧ cfg_PortSecured a' = WPA_802_1X_PORT_SECURED.
Proof.
  destruct Keyed.keyed_ready as [Hr Ha]. destruct Keyed.group1_wf as [Hm Hc].
  apply (group_handshake kmalloc_all (λ _, 0) Sample.uptime Keyed.a Keyed.e 20 Keyed.group1 (seqZ 50 16)
    (Sample.frame (eapol_frame Keyed.group1 (take 16 Keyed.ptk))) Hr Ha Hm).
  - reflexivity.
  - reflexivity.
  - split; [discriminate|reflexivity].
  - vm_compute. reflexivity.
  - reflexivity.
  - bytes_table.
  - exact Hc.
  - apply Sample.queued_frame.
  - reflexivity.
Defined.

Lemma msg3_reinstalls_key_witness :
  let a := Keyed.a in let e := Keyed.e in let m := Sample.m3 Keyed.ptk in
  ∃ a' e2 before after,
    WpaEAPOLKeyAction kmalloc_all (λ _, 0) Sample.uptime station_vars a (Sample.frame (eapol_frame m (take 16 Keyed.ptk))) = Some a' ∧
    Content a' !! BSSID_WCID = Some e2 ∧ PairwiseKey e2 = PairwiseKey e ∧
    log a' = log a ++ before ++ [AsicAddPairwiseKeyEntry (u8 (Aid e)) (PairwiseKey e);
                                 AsicUpdateWCIDIVEIV (u8 (Aid e)) first_iv 0] ++ after.
Proof.
  destruct Keyed.keyed_ready as [Hr Ha]. destruct (Sample.m3_wf Keyed.ptk) as [Hm Hc].
  { split; [done|bytes_table]. }
  apply (msg3_reinstalls_key kmalloc_all (λ _, 0) Sample.uptime Keyed.a Keyed.e 20 (Sample.m3 Keyed.ptk) (seqZ 50 16)
    (Sample.frame (eapol_frame (Sample.m3 Keyed.ptk) (take 16 Keyed.ptk))) Hr Ha).
  - by right.
  - reflexivity.
  - reflexivity.
  - reflexivity.
  - exact Hm.
  - reflexivity.
  - reflexivity.
  - split; [discriminate|reflexivity].
  - reflexivity.
  - vm_compute. reflexivity.
  - reflexivity.
  - bytes_table.
  - exact Hc.
  - apply Sample.queued_frame.
  - reflexivity.
Defined.

Lemma forged_msg1_replaces_ptk_witness :
  let a := Keyed.a in let e := Keyed.e in let m := Sample.m1 in
  ∃ a' e2,
    WpaEAPOLKeyAction kmalloc_all (λ _, 0) Sample.uptime station_vars a (Sample.frame (eapol_frame m (zeros 16))) = Some a' ∧
    Content a' !! BSSID_WCID = Some e2 ∧ R_Counter e2 = m_counter m ∧ WpaState e2 = AS_PTKINIT_NEGOTIATING ∧
    PTK e2 = session_ptk (cfg_PMK a) (Addr e) (CurrentAddress a) (m_nonce m) (station_nonce Sample.uptime (CurrentAddress a)) ∧
    (∀ mt c, mt = 3 ∨ mt = 5 → field 8 c → 0 < be_word c <= be_word (m_counter m) → replay_differs e2 mt c = Some true).
Proof.
  destruct Keyed.keyed_ready as [Hr Ha].
  apply (forged_msg1_replaces_ptk kmalloc_all (λ _, 0) Sample.uptime Keyed.a Keyed.e 20 Sample.m1 (zeros 16)
    (Sample.frame (eapol_frame Sample.m1 (zeros 16))) Hr Ha).
  - reflexivity.
  - apply Sample.m1_wf.
  - reflexivity.
  - reflexivity.
  - reflexivity.
  - split; [discriminate|reflexivity].
  - vm_compute. reflexivity.
  - apply field_zeros.
  - apply Sample.queued_frame.
  - reflexivity.
Defined.

(** A WPA station has no group key to send: a message 4 that is accepted
    leads to [WPAStart2WayGroupHS] with a NULL nonce. *)
Lemma WPAStart2WayGroupHS_null E a w e :
  ample E → Content a !! w = Some e → EntryType e = ENTRY_CLIENT → is_WPA2 e = false →
  WPAStart2WayGroupHS E station_vars a w = None.
Proof.
  intros HE Hw Ht Hk. unfold WPAStart2WayGroupHS. rewrite Hw, Some_bind, Ht, bool_decide_true by done. cbn [negb].
  rewrite HE by (unfold TX_EAPOL_BUFFER; lia). cbn [negb]. cbv zeta. set (e1 := set_R_Counter e _).
  assert (is_WPA2 e1 = false) as Hk1 by done. unfold ConstructEapolMsg. rewrite Hk1.
  destruct (kmalloc E 1500); reflexivity.
Qed.

(** Message 4 is for the authenticator, but a WPA station dispatches it
    too.  When the access point sends its station a message 4 with a right
    MIC, the station installs the pairwise key and then starts the group key
    handshake of an authenticator, whose nonce and key pointers are NULL: the
    handler reads through them. *)
Theorem msg4_dereferences_null E rnd uptime a w e n m El :
  peer_ready E a w e n → associated a w e → EntryType e = ENTRY_CLIENT → is_WPA2 e = false →
  group_cipher_ok (WepStatus e) → AS_PTKINIT_NEGOTIATING <= WpaState e →
  message_wf m → m_type m = 4 → m_data m = [] → m_wpa2 m = false → version_fits e m → m_counter m = R_Counter e →
  queued El m (take 16 (PTK e)) → slice (Msg El) 10 6 = Addr e →
  WpaEAPOLKeyAction E rnd uptime station_vars a El = None.
Proof.
  intros Hr Ha Hty Hk Hwep Hst Hm Ht Hd Hmk Hv Hc Hq Hs.
  pose proof (ready_ptk _ _ _ _ _ Hr) as HP. pose proof (field_kck _ HP) as Hkck.
  assert (w < length (Content a))%nat as Hl by (eapply lookup_lt_Some, (ready_entry _ _ _ _ _ Hr)).
  rewrite (WpaEAPOLKeyAction_ok E rnd uptime station_vars a w e m El (take 16 (PTK e)) Ha Hv Hm) by (done || (rewrite Ht; done)).
  unfold handler_of. rewrite Ht. cbn [Z.eqb Pos.eqb].
  destruct (handler_guards m El Hm _ Hkck Hq) as (Hlen & _).
  destruct (sanity_passes E rnd a w e n Hr m El (zeros (gtk_size (GroupCipher a)))) as (p & Hp & _); try done.
  { by rewrite Hk. }
  { apply length_zeros. }
  { by apply fits_zeros. }
  { unfold carries. rewrite Hmk, Ht. cbn [has_gtk Z.eqb Pos.eqb andb orb]. rewrite Hd. split; [cbn; lia|done]. }
  { rewrite Ht. exact Hc. }
  unfold after_message in Hp. rewrite Ht, Hmk in Hp. cbn [has_gtk Z.eqb Pos.eqb andb orb] in Hp.
  destruct Hr as [HE Hw _ _ _ _ _ _ _ _ _ _].
  unfold PeerPairMsg4Action. rewrite Hw, Some_bind, Hty, bool_decide_true, Hlen by done. cbn [negb].
  rewrite (proj2 (Z.ltb_ge _ _)) by done. unfold EAPOL_PAIR_MSG_4. rewrite Hp, Some_bind. cbn [negb].
  assert (∃ a2 k, WPAInstallPairwiseKey rnd a (apidx e) w true = Some a2 ∧ Content a2 = <[w := set_key e k]> (Content a))
    as (a2 & k & -> & HC2).
  { destruct HP as [HPl HPb]. unfold WPAInstallPairwiseKey. rewrite Hw, Some_bind. unfold LEN_TK, LEN_TKIP_MIC.
    rewrite !load_ok, !Some_bind by lia.
    destruct Hwep as [-> | ->]; eexists _, _; (split; [reflexivity|reflexivity]). }
  rewrite Some_bind, HC2, list_lookup_insert_eq, Some_bind by done. cbv zeta.
  set (e4 := set_WpaState _ _). change (is_WPA2 e4) with (is_WPA2 e). rewrite Hk.
  rewrite (WPAStart2WayGroupHS_null E _ w e4); [done|done| |done|done].
  unfold set_entry. cbn [Content]. rewrite HC2. apply list_lookup_insert_eq. by rewrite length_insert.
Qed.

Lemma msg4_dereferences_null_witness :
  let e := set_WpaState (sample_entry Ndis802_11AuthModeWPAPSK Ndis802_11Encryption3Enabled (zeros 8) Keyed.ptk)
             AS_PTKINITDONE in
  let a := sample_adapter Ndis802_11Encryption3Enabled e in
  let m := message_of e Ndis802_11Encryption3Enabled 4 0 (zeros 32) (zeros 6) (zeros 32) (zeros 5) 0 in
  WpaEAPOLKeyAction kmalloc_all (λ _, 0) Sample.uptime station_vars a (Sample.frame (eapol_frame m (take 16 Keyed.ptk))) = None.
Proof.
  cbv zeta. set (e := set_WpaState _ _). set (a := sample_adapter _ e).
  assert (peer_ready kmalloc_all a BSSID_WCID e 20) as Hr.
  { split; try done; try (split; [done|bytes_table]).
    - split; [bytes_table|vm_compute; lia].
    - split; [by right|vm_compute; lia|done].
    - split_and!; [vm_compute; lia..|bytes_table]. }
  assert (field 64 (PTK e)) as HP by (split; [done|bytes_table]).
  set (m := message_of _ _ _ _ _ _ _ _ _).
  destruct (station_reply_wf kmalloc_all e Ndis802_11Encryption3Enabled 4 0 (zeros 32) (zeros 5) 0) as [Hm _];
    [apply ample_all|exact HP|apply field_zeros|apply field_zeros|right; split; [by left|done]|cbn; lia|cbn; lia|lia|apply field_zeros|].
  apply (msg4_dereferences_null kmalloc_all (λ _, 0) Sample.uptime a BSSID_WCID e 20 m _ Hr).
  - split; done.
  - reflexivity.
  - reflexivity.
  - by right.
  - vm_compute. discriminate.
  - exact Hm.
  - reflexivity.
  - reflexivity.
  - reflexivity.
  - split; [discriminate|reflexivity].
  - reflexivity.
  - apply Sample.queued_frame.
  - reflexivity.
Defined.
