(* ===== verification/MacTable.v ===== *)
(** * The station table

    Models the table of stations of
    [linux/Arch/rt5370.driver/common/cmm_data.c] - 32 entries, found by
    address through 256 chains of entries - with the functions that change
    it: [MacTableInsertEntry], [MacTableDeleteEntry], [MacTableReset], and the
    registration of the access point's entry in [StaAddMacTableEntry]
    ([sta/assoc.c]) and its removal in [LinkDown] ([sta/connect.c]).
    [MacTableLookup] is in [WpaSm], whose handlers call it.

    An entry is the part of [MAC_TABLE_ENTRY] that [WpaData] has; a pointer to
    an entry is its index.  [None] is an index outside an array, or a chain
    without an end.  The lock around each function makes it an atomic step. *)

From stdpp Require Import base list numbers list_numbers sets relations.
From Stdlib Require Import ZArith Lia.
From S2P Require Import Prelude Mlme Arc4 BlockHash Md5 Sha Hmac AesTables Aes AesCmac AesKeyWrap WpaCmm WpaKeys WpaData Wep Tkip EapolMsg EapolRecv WpaSm.

#[local] Set Warnings "-clear-no-such-hyp".

(** ** State *)

Definition MAX_LEN_OF_MAC_TABLE : Z := 32.
Definition HASH_TABLE_SIZE : nat := Z.to_nat 256.
Definition AS_NOTUSE : Z := 0.

(** Calls that leave the model. *)
Inductive mac_event :=
| CancelEntryTimers (w : nat)
| CancelEapolTimer (w : nat)
| ReleaseEapolTimer (w : nat)
| RemovePairwiseKeyEntry (w : nat)
| StaEntryAdd (w : nat) (addr : list Z)
| StaEntryMacReset (w : nat)
| BASessionTearDownALL (aid : Z)
| ChainNotFound
| UpdateProtect.

(** [pAd->MacTab]. *)
Record mac_tab := {
  Hash_ : list (option nat);
  Content_ : list wpa_entry;
  Size : Z;
  tab_log : list mac_event;
}.

Definition with_table (t : mac_tab) (h : list (option nat)) (c : list wpa_entry) : mac_tab :=
  {| Hash_ := h; Content_ := c; Size := Size t; tab_log := tab_log t |}.
Definition with_size (t : mac_tab) (n : Z) : mac_tab :=
  {| Hash_ := Hash_ t; Content_ := Content_ t; Size := n; tab_log := tab_log t |}.
Definition with_event (t : mac_tab) (ev : mac_event) : mac_tab :=
  {| Hash_ := Hash_ t; Content_ := Content_ t; Size := Size t; tab_log := tab_log t ++ [ev] |}.

(** [pEntry->pNext = p], [pEntry->Addr = addr] with the type. *)
Definition set_next (e : wpa_entry) (p : option nat) : wpa_entry :=
  {| EntryType := EntryType e; Addr := Addr e; pNext := p; Aid := Aid e; apidx := apidx e; Sst := Sst e;
     AuthMode := AuthMode e; WepStatus := WepStatus e; WpaState := WpaState e; GTKState := GTKState e;
     PortSecured := PortSecured e; PrivacyFilter := PrivacyFilter e; R_Counter := R_Counter e; ANonce := ANonce e;
     SNonce := SNonce e; PTK := PTK e; ReTryCounter := ReTryCounter e; PairwiseKey := PairwiseKey e;
     PMKID_cached := PMKID_cached e; EnqueueEapolStartTimerRunning := EnqueueEapolStartTimerRunning e |}.

Definition set_identity (e : wpa_entry) (type : ENTRY_TYPE) (addr : list Z) (aid : Z) : wpa_entry :=
  {| EntryType := type; Addr := addr; pNext := pNext e; Aid := aid; apidx := apidx e; Sst := Sst e;
     AuthMode := AuthMode e; WepStatus := WepStatus e; WpaState := WpaState e; GTKState := GTKState e;
     PortSecured := PortSecured e; PrivacyFilter := PrivacyFilter e; R_Counter := R_Counter e; ANonce := ANonce e;
     SNonce := SNonce e; PTK := PTK e; ReTryCounter := ReTryCounter e; PairwiseKey := PairwiseKey e;
     PMKID_cached := PMKID_cached e; EnqueueEapolStartTimerRunning := EnqueueEapolStartTimerRunning e |}.

(** [NdisZeroMemory(pEntry, sizeof(MAC_TABLE_ENTRY))] *)
Definition zero_entry : wpa_entry :=
  {| EntryType := ENTRY_NONE; Addr := zeros 6; pNext := None; Aid := 0; apidx := 0; Sst := SST_NOT_AUTH;
     AuthMode := 0; WepStatus := 0; WpaState := AS_NOTUSE; GTKState := REKEY_NEGOTIATING; PortSecured := 0;
     PrivacyFilter := PrivFilterAcceptAll; R_Counter := zeros 8; ANonce := zeros 32; SNonce := zeros 32; PTK := zeros 64;
     ReTryCounter := 0; PairwiseKey := zero_key; PMKID_cached := true; EnqueueEapolStartTimerRunning := 0 |}.

Definition hash_of (addr : list Z) : nat := Z.to_nat (MAC_ADDR_HASH_INDEX addr).

(** ** Chains *)

(** [while (pCurrEntry->pNext != NULL) pCurrEntry = pCurrEntry->pNext;
    pCurrEntry->pNext = pEntry;] *)
Fixpoint link_last (fuel : nat) (c : list wpa_entry) (v i : nat) : option (list wpa_entry) :=
  match fuel with
  | O => None
  | S fuel =>
      e ← c !! v;
      match pNext e with
      | None => Some (<[v := set_next e (Some i)]> c)
      | Some v' => link_last fuel c v' i
      end
  end.

(** Add entry [i] at the end of chain [h]. *)
Definition link_entry (t : mac_tab) (h i : nat) : option mac_tab :=
  p ← Hash_ t !! h;
  match p with
  | None => Some (with_table t (<[h := Some i]> (Hash_ t)) (Content_ t))
  | Some v => c ← link_last (length (Content_ t)) (Content_ t) v i; Some (with_table t (Hash_ t) c)
  end.

(** The [do ... while (pProbeEntry)] of [MacTableDeleteEntry]; [found] is
    [pProbeEntry != NULL] at its end. *)
Fixpoint unlink_from (fuel : nat) (t : mac_tab) (h : nat) (prev : option nat) (probe i : nat) : option (bool * mac_tab) :=
  match fuel with
  | O => None
  | S fuel =>
      e ← Content_ t !! probe;
      if (probe =? i)%nat then
        match prev with
        | None => Some (true, with_table t (<[h := pNext e]> (Hash_ t)) (Content_ t))
        | Some q => eq ← Content_ t !! q; Some (true, with_table t (Hash_ t) (<[q := set_next eq (pNext e)]> (Content_ t)))
        end
      else
        match pNext e with
        | None => Some (false, t)
        | Some p => unlink_from fuel t h (Some probe) p i
        end
  end.

Definition unlink_entry (t : mac_tab) (h i : nat) : option mac_tab :=
  p ← Hash_ t !! h;
  '(found, t) ← (match p with
                 | None => Some (false, t)
                 | Some probe => unlink_from (length (Content_ t)) t h None probe i
                 end);
  Some (if (found : bool) then t else with_event t ChainNotFound).

(** ** Operations *)

(** [for (i = FirstWcid; i < MAX_LEN_OF_MAC_TABLE; i++) if IS_ENTRY_NONE(..)]
    from index [i], [n] of them; the inner [None] is no vacancy. *)
Fixpoint first_vacancy (c : list wpa_entry) (i n : nat) : option (option nat) :=
  match n with
  | O => Some None
  | S n => e ← c !! i; if decide (EntryType e = ENTRY_NONE) then Some (Some i) else first_vacancy c (S i) n
  end.

(** The entry a client gets; [AuthMode_] and [WepStatus_] are the station's. *)
Definition new_entry (i : nat) (pAddr : list Z) (apidx_ AuthMode_ WepStatus_ : Z) : wpa_entry :=
  {| EntryType := ENTRY_CLIENT; Addr := pAddr; pNext := None; Aid := Z.of_nat i; apidx := apidx_; Sst := SST_NOT_AUTH;
     AuthMode := AuthMode_; WepStatus := WepStatus_; WpaState := AS_NOTUSE; GTKState := REKEY_NEGOTIATING;
     PortSecured := WPA_802_1X_PORT_NOT_SECURED; PrivacyFilter := PrivFilterAcceptAll; R_Counter := zeros 8;
     ANonce := zeros 32; SNonce := zeros 32; PTK := zeros 64; ReTryCounter := PEER_MSG1_RETRY_TIMER_CTR;
     PairwiseKey := zero_key; PMKID_cached := false; EnqueueEapolStartTimerRunning := EAPOL_START_DISABLE |}.

(** [FirstWcid] is 2 in an infrastructure network, 1 otherwise.  The result is
    the entry, or NULL. *)
Definition MacTableInsertEntry (t : mac_tab) (FirstWcid : nat) (AuthMode_ WepStatus_ : Z) (pAddr : list Z) (apidx_ : Z)
    : option (option nat * mac_tab) :=
  if MAX_LEN_OF_MAC_TABLE <=? Size t then Some (None, t)
  else
    v ← first_vacancy (Content_ t) FirstWcid (Z.to_nat MAX_LEN_OF_MAC_TABLE - FirstWcid);
    match v with
    | None => Some (None, t)
    | Some i =>
        let t := with_event t (CancelEntryTimers i) in
        let t := with_table t (Hash_ t) (<[i := new_entry i pAddr apidx_ AuthMode_ WepStatus_]> (Content_ t)) in
        let t := with_size t (u16 (Size t + 1)) in
        let t := with_event (with_event t (RemovePairwiseKeyEntry i)) (StaEntryAdd i pAddr) in
        t ← link_entry t (hash_of pAddr) i;
        Some (Some i, t)
    end.

Definition MacTableDeleteEntry (t : mac_tab) (wcid : nat) (pAddr : list Z) : option (bool * mac_tab) :=
  if (Z.to_nat MAX_LEN_OF_MAC_TABLE <=? wcid)%nat then Some (false, t)
  else
    e ← Content_ t !! wcid;
    t ← (if decide (EntryType e = ENTRY_NONE) then Some t
         else
           let t := with_event t (CancelEntryTimers wcid) in
           if bool_decide (Addr e = pAddr) then
             let t := with_event (with_event t (BASessionTearDownALL (Aid e))) (StaEntryMacReset wcid) in
             t ← unlink_entry t (hash_of pAddr) wcid;
             e ← Content_ t !! wcid;
             let t := if EnqueueEapolStartTimerRunning e =? EAPOL_START_DISABLE then t else with_event t (CancelEapolTimer wcid) in
             let t := with_event t (ReleaseEapolTimer wcid) in
             let e := set_eapol_timer e EAPOL_START_DISABLE in
             let e := set_identity e ENTRY_NONE (zeros 6) (Aid e) in
             let t := with_table t (Hash_ t) (<[wcid := e]> (Content_ t)) in
             Some (with_size t (u16 (Size t - 1)))
           else Some t);
    Some (true, if Size t =? 0 then with_event t UpdateProtect else t).

Definition MacTableReset (t : mac_tab) : option mac_tab :=
  loop_opt 1 (Z.to_nat MAX_LEN_OF_MAC_TABLE - 1)
    (λ i t,
       e ← Content_ t !! i;
       let t := if decide (EntryType e = ENTRY_CLIENT)
                then with_event (with_table t (Hash_ t) (<[i := set_eapol_timer e EAPOL_START_DISABLE]> (Content_ t)))
                       (ReleaseEapolTimer i)
                else t in
       '(_, t) ← MacTableDeleteEntry t i (Addr e);
       Some t) t.

(** The security state [StaAddMacTableEntry] gives the entry of the access point. *)
Definition start_entry (e : wpa_entry) (AuthMode_ WepStatus_ : Z) : wpa_entry :=
  let wpa := negb (AuthMode_ <? Ndis802_11AuthModeWPA) in
  {| EntryType := EntryType e; Addr := Addr e; pNext := pNext e; Aid := Aid e; apidx := apidx e; Sst := SST_ASSOC;
     AuthMode := AuthMode_; WepStatus := WepStatus_; WpaState := if wpa then AS_INITPSK else AS_NOTUSE;
     GTKState := GTKState e; PortSecured := WPA_802_1X_PORT_SECURED;
     PrivacyFilter := if wpa then PrivFilter8021xWEP else PrivFilterAcceptAll; R_Counter := zeros 8;
     ANonce := ANonce e; SNonce := SNonce e; PTK := PTK e; ReTryCounter := ReTryCounter e; PairwiseKey := PairwiseKey e;
     PMKID_cached := PMKID_cached e; EnqueueEapolStartTimerRunning := EnqueueEapolStartTimerRunning e |}.

(** The end of [StaAddMacTableEntry] in an infrastructure network: the entry
    of the access point becomes entry [BSSID_WCID] of the table. *)
Definition register_bssid (t : mac_tab) (AuthMode_ WepStatus_ : Z) (Bssid : list Z) : option mac_tab :=
  e ← Content_ t !! BSSID_WCID;
  let t := with_table t (Hash_ t) (<[BSSID_WCID := start_entry e AuthMode_ WepStatus_]> (Content_ t)) in
  t ← link_entry t (hash_of Bssid) BSSID_WCID;
  e ← Content_ t !! BSSID_WCID;
  let t := with_table t (Hash_ t) (<[BSSID_WCID := set_identity e ENTRY_CLIENT Bssid (Z.of_nat BSSID_WCID)]> (Content_ t)) in
  Some (with_size t (u16 (Size t + 1))).

Definition PHY_11G : Z := 4.
Definition PHY_11N_2_4G : Z := 6.
Definition PHY_11N_5G : Z := 11.
Definition RATE_FIRST_OFDM_RATE : Z := 4.

(** [MaxSupportedRate], from 500 kbit/s: RATE_1 is 0, RATE_54 is 11. *)
Definition max_supported_rate (MaxSupportedRateIn500Kbps : Z) : Z :=
  default 3 (snd <$> List.find (λ x, x.1 =? MaxSupportedRateIn500Kbps)
    [(108, 11); (96, 10); (72, 9); (48, 8); (36, 7); (24, 6); (18, 5); (12, 4); (22, 3); (11, 2); (4, 1); (2, 0)]).

(** The two tests of [StaAddMacTableEntry] that return FALSE before the entry is
    touched. *)
Definition rates_accepted (PhyMode MaxSupportedRateIn500Kbps HtCapabilityLen : Z) : bool :=
  negb ((PhyMode =? PHY_11G) && (max_supported_rate MaxSupportedRateIn500Kbps <? RATE_FIRST_OFDM_RATE)) &&
  negb (((PhyMode =? PHY_11N_2_4G) || (PhyMode =? PHY_11N_5G)) && (HtCapabilityLen =? 0)).

(** What [PeerAssocRspAction] (and [PeerReassocRspAction]) do to the table on
    success: the entry of [CommonCfg.Bssid], if it is there, is deleted, and
    [MlmeAux.Bssid] is registered, unless [StaAddMacTableEntry] returns before
    that because of the rates ([phy_ok] is [rates_accepted]); its answer is
    ignored. *)
Definition assoc_table (t : mac_tab) (AuthMode_ WepStatus_ : Z) (CommonBssid AuxBssid : list Z) (phy_ok : bool) : option mac_tab :=
  pEntry ← table_lookup (Hash_ t) (Content_ t) CommonBssid;
  t ← (match pEntry with
       | None => Some t
       | Some w => e ← Content_ t !! w; '(_, t) ← MacTableDeleteEntry t (Z.to_nat (Aid e)) (Addr e); Some t
       end);
  if phy_ok then register_bssid t AuthMode_ WepStatus_ AuxBssid else Some t.

(** The loop of [LinkDown] over the clients, and the entry of the access point
    that it clears. *)
Definition link_down_entries (t : mac_tab) : option mac_tab :=
  loop_opt 1 (Z.to_nat MAX_LEN_OF_MAC_TABLE - 1)
    (λ i t,
       e ← Content_ t !! i;
       if decide (EntryType e = ENTRY_CLIENT)
       then '(_, t) ← MacTableDeleteEntry t (Z.to_nat (Aid e)) (Addr e); Some t
       else Some t) t.

Definition link_down_bssid (t : mac_tab) (port : Z) : option mac_tab :=
  e ← Content_ t !! BSSID_WCID;
  Some (with_table t (Hash_ t) (<[BSSID_WCID := set_port zero_entry port PrivFilterAcceptAll]> (Content_ t))).

(** ** Chains as lists *)

(** From [p] on, the entries [l] follow each other, and then NULL. *)
Fixpoint chain (c : list wpa_entry) (p : option nat) (l : list nat) : Prop :=
  match l with
  | [] => p = None
  | w :: l => p = Some w ∧ ∃ e, c !! w = Some e ∧ chain c (pNext e) l
  end.

Definition used (e : wpa_entry) : Prop := EntryType e ≠ ENTRY_NONE.

Lemma chain_frame c c' p l : chain c p l → (∀ w, w ∈ l → c' !! w = c !! w) → chain c' p l.
Proof.
  revert p. induction l as [|w l IH]; intros p; cbn [chain]; [done|].
  intros [-> (e & He & Hl)] Hf. split; [done|]. exists e. rewrite Hf by set_solver. split; [done|].
  apply IH; [done|]. intros v Hv. apply Hf. set_solver.
Qed.

Lemma chain_at c p l w m : chain c p (l ++ w :: m) → ∃ e, c !! w = Some e ∧ chain c (pNext e) m.
Proof.
  revert p. induction l as [|v l IH]; intros p; cbn [chain app].
  - intros [_ (e & He & Hm)]. by exists e.
  - intros [_ (e & _ & Hl)]. by apply (IH (pNext e)).
Qed.

(** Entry [w] of a chain gets another successor. *)
Lemma chain_splice c p l w m e r k :
  chain c p (l ++ w :: m) → c !! w = Some e → chain c r k → w ∉ l → w ∉ k →
  chain (<[w := set_next e r]> c) p (l ++ w :: k).
Proof.
  intros Hc He Hk Hl Hwk. pose proof (lookup_lt_Some _ _ _ He) as Hlt. revert p Hc.
  induction l as [|v l IH]; intros p; cbn [chain app].
  - intros [-> _]. split; [done|]. exists (set_next e r). rewrite list_lookup_insert_eq by done. split; [done|].
    eapply chain_frame; [exact Hk|]. intros x Hx. apply list_lookup_insert_ne. set_solver.
  - intros [-> (ev & Hv & Hc)]. split; [done|]. exists ev. rewrite list_lookup_insert_ne by set_solver.
    split; [done|]. apply IH; [set_solver|done].
Qed.

Lemma chain_head c p l : chain c p l → (p = None ↔ l = []).
Proof. destruct l; cbn; [tauto|]. intros [-> _]. split; discriminate. Qed.

(** *** Looking up *)

Fixpoint find_addr (c : list wpa_entry) (l : list nat) (addr : list Z) : option nat :=
  match l with
  | [] => None
  | w :: l => e ← c !! w; if bool_decide (Addr e = addr) then Some w else find_addr c l addr
  end.

Lemma lookup_chain_ok c l : ∀ fuel p addr,
  chain c p l → (∀ w e, w ∈ l → c !! w = Some e → used e) → (length l <= fuel)%nat →
  lookup_chain fuel c p addr = Some (find_addr c l addr).
Proof.
  induction l as [|w l IH]; intros fuel p addr Hc Hu Hf; cbn [chain] in Hc; [by subst; destruct fuel|].
  destruct Hc as [-> (e & He & Hc)]. destruct fuel as [|fuel]; [cbn in Hf; lia|]. cbn [lookup_chain find_addr].
  rewrite He, !Some_bind. rewrite decide_False by (eapply Hu; [|done]; set_solver).
  case_bool_decide; [done|]. apply IH; [done| |cbn in Hf; lia]. intros v ev Hv. apply Hu. set_solver.
Qed.

Lemma find_addr_Some c l addr w : find_addr c l addr = Some w → w ∈ l ∧ ∃ e, c !! w = Some e ∧ Addr e = addr.
Proof.
  induction l as [|v l IH]; cbn; [done|]. destruct (c !! v) as [e|] eqn:He; [|done]. rewrite Some_bind.
  case_bool_decide as Ha; [intros [= <-]; split; [left|by exists e]|]. intros H. destruct (IH H). split; [by right|done].
Qed.

Lemma find_addr_None c p l addr w e : find_addr c l addr = None → chain c p l → w ∈ l → c !! w = Some e → Addr e ≠ addr.
Proof.
  revert p. induction l as [|v l IH]; intros p; cbn; [set_solver|].
  intros Hf [_ (ev & Hv & Hc)] Hw He. rewrite Hv, Some_bind in Hf. case_bool_decide as Ha; [done|].
  apply elem_of_cons in Hw as [->|Hw]; [congruence|]. by apply (IH _ Hf Hc).
Qed.

(** *** Linking and unlinking *)

Lemma link_last_ok c i l : ∀ fuel v,
  chain c (Some v) (v :: l) → NoDup (v :: l) → (length (v :: l) <= fuel)%nat →
  ∃ x e, link_last fuel c v i = Some (<[x := set_next e (Some i)]> c) ∧ c !! x = Some e ∧ last (v :: l) = Some x.
Proof.
  induction l as [|w l IH]; intros fuel v [_ (e & He & Hc)] Hnd Hf; destruct fuel as [|fuel]; try (cbn in Hf; lia);
    cbn [link_last]; rewrite He, Some_bind; cbn [chain] in Hc.
  - rewrite Hc. by exists v, e.
  - destruct Hc as [Hn Hc]. rewrite Hn. apply NoDup_cons in Hnd as [_ Hnd].
    destruct (IH fuel w) as (x & ex & Hx & Hex & Hlast); [by split|done|cbn in *; lia|]. by exists x, ex.
Qed.

Lemma unlink_from_ok t h i ei l2 : ∀ l1 fuel prev p eprev,
  chain (Content_ t) (Some p) (l1 ++ i :: l2) → i ∉ l1 → (length l1 < fuel)%nat → Content_ t !! i = Some ei →
  (∀ q, prev = Some q → Content_ t !! q = Some eprev) →
  match last l1 with
  | Some q => ∃ eq, Content_ t !! q = Some eq ∧
      unlink_from fuel t h prev p i = Some (true, with_table t (Hash_ t) (<[q := set_next eq (pNext ei)]> (Content_ t)))
  | None =>
      unlink_from fuel t h prev p i =
      Some (true, match prev with
                  | Some q => with_table t (Hash_ t) (<[q := set_next eprev (pNext ei)]> (Content_ t))
                  | None => with_table t (<[h := pNext ei]> (Hash_ t)) (Content_ t)
                  end)
  end.
Proof.
  induction l1 as [|v l1 IH]; intros fuel prev p eprev; (destruct fuel as [|fuel]; [intros; cbn in *; lia|]);
    cbn [app chain unlink_from]; intros [[= ->] (e & He & Hc)] Hi Hf Hei Hprev; rewrite He, Some_bind.
  - rewrite Nat.eqb_refl. rewrite Hei in He. injection He as <-. cbn [last].
    destruct prev as [q|]; [|done]. by rewrite (Hprev q eq_refl), Some_bind.
  - destruct (Nat.eqb_spec v i) as [->|Hne]; [set_solver|].
    assert (∃ p', pNext e = Some p') as [p' Hp'].
    { destruct (l1 ++ i :: l2) eqn:Hl; [by destruct l1|]. destruct Hc as [-> _]. by eexists. }
    rewrite Hp' in *. specialize (IH fuel (Some v) p' e Hc ltac:(set_solver) ltac:(cbn in Hf; lia) Hei).
    specialize (IH ltac:(by intros q [= <-])). destruct l1 as [|v' l1]; [by exists e|].
    change (last (v :: v' :: l1)) with (last (v' :: l1)). destruct (last (v' :: l1)) eqn:Hl; [exact IH|by apply last_None in Hl].
Qed.

(** ** The invariant *)

(** Entry [w] belongs in chain [h]. *)
Definition member (c : list wpa_entry) (h w : nat) : Prop := ∃ e, c !! w = Some e ∧ used e ∧ hash_of (Addr e) = h.

(** Every bucket is a chain without repetition of the entries that [mem] puts there. *)
Definition chained (hs : list (option nat)) (c : list wpa_entry) (mem : nat → nat → Prop) : Prop :=
  ∀ h p, hs !! h = Some p → ∃ l, chain c p l ∧ NoDup l ∧ ∀ w, w ∈ l ↔ mem h w.

(** What the table knows of the entries, but for their place in a chain. *)
Definition ident (e : wpa_entry) : ENTRY_TYPE * list Z * Z := (EntryType e, Addr e, Aid e).
Definition idents (c : list wpa_entry) : list (ENTRY_TYPE * list Z * Z) := ident <$> c.

#[export] Instance used_dec e : Decision (used e).
Proof. unfold used. apply _. Defined.

Definition count_used (c : list wpa_entry) : nat := length (filter used c).

(** Entries in use are clients other than entry 0, know their index and have different addresses. *)
Record shaped (c : list wpa_entry) : Prop := {
  c_entry : ∀ i e, c !! i = Some e → used e → EntryType e = ENTRY_CLIENT ∧ Aid e = Z.of_nat i ∧ (0 < i)%nat;
  c_unique : ∀ i j ei ej, c !! i = Some ei → c !! j = Some ej → used ei → used ej → Addr ei = Addr ej → i = j;
}.

Record consistent (t : mac_tab) : Prop := {
  c_hash : length (Hash_ t) = HASH_TABLE_SIZE;
  c_content : length (Content_ t) = Z.to_nat MAX_LEN_OF_MAC_TABLE;
  c_chained : chained (Hash_ t) (Content_ t) (member (Content_ t));
  c_shaped : shaped (Content_ t);
  c_size : Size t = Z.of_nat (count_used (Content_ t));
}.

Lemma hash_bound addr : (hash_of addr < HASH_TABLE_SIZE)%nat.
Proof.
  unfold hash_of, MAC_ADDR_HASH_INDEX, HASH_TABLE_SIZE. pose proof (Z.mod_pos_bound
    (addr.[0] ^^ addr.[1] ^^ addr.[2] ^^ addr.[3] ^^ addr.[4] ^^ addr.[5]) (2 ^ 8)).
  change 255 with (Z.ones 8). rewrite Z.land_ones by lia. lia.
Qed.

Lemma bounded_length (l : list nat) n : NoDup l → (∀ w, w ∈ l → (w < n)%nat) → (length l <= n)%nat.
Proof.
  intros Hnd Hl. trans (length (seq 0 n)); [|by rewrite length_seq]. apply submseteq_length, NoDup_submseteq; [done|].
  intros w Hw. apply elem_of_seq. specialize (Hl w Hw). lia.
Qed.

Lemma chain_bound c p l w : chain c p l → w ∈ l → (w < length c)%nat.
Proof.
  intros Hc Hw. apply list_elem_of_split in Hw as (l1 & l2 & ->).
  apply chain_at in Hc as (e & He & _). by eapply lookup_lt_Some.
Qed.

Lemma chain_length c p l : chain c p l → NoDup l → (length l <= length c)%nat.
Proof. intros Hc Hnd. apply bounded_length; [done|]. intros w. by eapply chain_bound. Qed.

Lemma idents_insert c w e e' : c !! w = Some e → ident e' = ident e → idents (<[w := e']> c) = idents c.
Proof.
  intros He Hi. unfold idents. rewrite list_fmap_insert. apply list_insert_id. by rewrite list_lookup_fmap, He, Hi.
Qed.

Lemma idents_length c c' : idents c = idents c' → length c = length c'.
Proof. intros H. apply (f_equal length) in H. unfold idents in H. by rewrite !length_fmap in H. Qed.

Lemma idents_lookup c c' w e : idents c = idents c' → c !! w = Some e →
  ∃ e', c' !! w = Some e' ∧ EntryType e' = EntryType e ∧ Addr e' = Addr e ∧ Aid e' = Aid e.
Proof.
  intros Hu He. assert (idents c' !! w = Some (ident e)) as H.
  { rewrite <- Hu. unfold idents. by rewrite list_lookup_fmap, He. }
  unfold idents in H. rewrite list_lookup_fmap in H. apply fmap_Some in H as (e' & He' & [=]). by exists e'.
Qed.

Lemma member_idents c c' h w : idents c = idents c' → member c h w → member c' h w.
Proof.
  intros Hi (e & He & Hu & Hh). destruct (idents_lookup _ _ _ _ Hi He) as (e' & He' & Ht & Ha & _).
  exists e'. unfold used. by rewrite Ht, Ha.
Qed.

Lemma count_used_insert c i e e' : c !! i = Some e →
  (count_used (<[i := e']> c) + (if decide (used e) then 1 else 0) =
   count_used c + (if decide (used e') then 1 else 0))%nat.
Proof.
  intros He. pose proof (lookup_lt_Some _ _ _ He). unfold count_used.
  assert (count_used c = count_used (take i c ++ e :: drop (S i) c)) as Hc by (by rewrite take_drop_middle).
  unfold count_used in Hc. rewrite Hc, insert_take_drop by done. clear Hc.
  rewrite !filter_app, !length_app, !filter_cons. repeat case_decide; cbn [length]; lia.
Qed.

Lemma count_used_idents c : count_used c = length (filter (λ x, x.1.1 ≠ ENTRY_NONE) (idents c)).
Proof.
  unfold count_used, idents. induction c as [|e c IH]; [done|]. rewrite fmap_cons, !filter_cons.
  destruct (decide (used e)) as [H|H], (decide ((ident e).1.1 ≠ ENTRY_NONE)) as [H'|H']; try done; cbn [length]; by rewrite IH.
Qed.

(** *** Looking up *)

Lemma lookup_ok t addr : consistent t →
  ∃ r, table_lookup (Hash_ t) (Content_ t) addr = Some r ∧
    match r with
    | Some w => ∃ e, Content_ t !! w = Some e ∧ used e ∧ Addr e = addr
    | None => ∀ w e, Content_ t !! w = Some e → used e → Addr e ≠ addr
    end.
Proof.
  intros Ht. unfold table_lookup. change (Z.to_nat (MAC_ADDR_HASH_INDEX addr)) with (hash_of addr).
  destruct (lookup_lt_is_Some_2 (Hash_ t) (hash_of addr)) as [p Hp].
  { rewrite (c_hash _ Ht). apply hash_bound. }
  rewrite Hp, Some_bind. destruct (c_chained _ Ht _ _ Hp) as (l & Hl & Hnd & Hmem).
  assert (∀ w e, w ∈ l → Content_ t !! w = Some e → used e) as Hu.
  { intros w e Hw He. apply Hmem in Hw as (e' & He' & Hu & _). by simplify_eq. }
  rewrite (lookup_chain_ok _ l) by (try done; by eapply chain_length).
  eexists. split; [done|]. destruct (find_addr _ l addr) as [w|] eqn:Hf.
  - apply find_addr_Some in Hf as [Hw (e & He & Ha)]. exists e. split; [done|]. split; [by eapply Hu|done].
  - intros w e He Hue Ha. refine (find_addr_None _ _ _ _ w e Hf Hl _ He Ha). apply Hmem. exists e. by rewrite Ha.
Qed.

(** *** Linking and unlinking in the table *)

Definition disjoint_buckets (mem : nat → nat → Prop) : Prop := ∀ h1 h2 w, mem h1 w → mem h2 w → h1 = h2.

(** What a change of the links leaves alone. *)
Definition relinked (t t' : mac_tab) : Prop :=
  idents (Content_ t') = idents (Content_ t) ∧ length (Hash_ t') = length (Hash_ t) ∧ Size t' = Size t.

Lemma chained_ext hs c mem mem' : chained hs c mem → (∀ h w, h < length hs → mem h w ↔ mem' h w)%nat → chained hs c mem'.
Proof.
  intros Hc He h p Hp. destruct (Hc h p Hp) as (l & ? & ? & Hm). exists l. split; [done|]. split; [done|].
  intros w. rewrite Hm. apply He. by eapply lookup_lt_Some.
Qed.

(** A bucket and the successor of one of its entries change. *)
Lemma chained_update hs c mem mem' h p' l' x e r :
  chained hs c mem → disjoint_buckets mem → mem h x → c !! x = Some e →
  chain (<[x := set_next e r]> c) p' l' → NoDup l' → hs !! h = Some p' → (∀ w, w ∈ l' ↔ mem' h w) →
  (∀ h' w, h' ≠ h → mem' h' w ↔ mem h' w) →
  chained hs (<[x := set_next e r]> c) mem'.
Proof.
  intros Hc Hd Hx He Hl' Hnd Hh Hm' Hmem h' p Hp. destruct (decide (h' = h)) as [->|Hne].
  - simplify_eq. by exists l'.
  - destruct (Hc h' p Hp) as (l & Hl & Hn & Hm). exists l. split; [|split; [done|]].
    + eapply chain_frame; [exact Hl|]. intros w Hw. apply list_lookup_insert_ne. intros ->.
      apply Hne, (Hd h' h w); [by apply Hm|done].
    + intros w. rewrite Hm. symmetry. by apply Hmem.
Qed.

(** Only the head of a bucket changes. *)
Lemma chained_head hs c mem mem' h p' l' :
  chained hs c mem → chain c p' l' → NoDup l' → (∀ w, w ∈ l' ↔ mem' h w) → (∀ h' w, h' ≠ h → mem' h' w ↔ mem h' w) →
  chained (<[h := p']> hs) c mem'.
Proof.
  intros Hc Hl' Hnd Hm' Hmem h' p Hp. destruct (decide (h' = h)) as [->|Hne].
  - apply list_lookup_insert_Some in Hp as [(_ & <- & _)|[? _]]; [by exists l'|done].
  - rewrite list_lookup_insert_ne in Hp by done. destruct (Hc h' p Hp) as (l & Hl & Hn & Hm).
    exists l. split; [done|]. split; [done|]. intros w. rewrite Hm. symmetry. by apply Hmem.
Qed.

Lemma link_ok t h i e mem :
  chained (Hash_ t) (Content_ t) mem → disjoint_buckets mem → (∀ h, ¬ mem h i) →
  Content_ t !! i = Some e → pNext e = None → (h < length (Hash_ t))%nat →
  ∃ t', link_entry t h i = Some t' ∧ chained (Hash_ t') (Content_ t') (λ h' w, mem h' w ∨ h' = h ∧ w = i) ∧ relinked t t' ∧
    Content_ t' !! i = Some e.
Proof.
  intros Hc Hd Hi He Hn Hh. apply lookup_lt_is_Some_2 in Hh as [p Hp]. unfold link_entry. rewrite Hp, Some_bind.
  destruct (Hc _ _ Hp) as (l & Hl & Hnd & Hm).
  assert (chain (Content_ t) (Some i) [i]) as Hone by (split; [done|]; exists e; by rewrite Hn).
  destruct p as [v|].
  - destruct l as [|v' l]; [done|]. pose proof Hl as [[= <-] _].
    destruct (link_last_ok (Content_ t) i l (length (Content_ t)) v Hl Hnd (chain_length _ _ _ Hl Hnd)) as (x & ex & -> & Hx & Hlast).
    rewrite Some_bind. eexists. split; [done|]. apply last_Some in Hlast as [l' Hl'].
    rewrite Hl' in Hl, Hnd, Hm. cbn [Hash_ Content_ with_table].
    assert (mem h x) as Hmx by (apply Hm; set_solver).
    assert (x ≠ i) as Hxi by (intros ->; by apply (Hi h)).
    assert (i ∉ l' ++ [x]) as Hil by (intros Hin; apply Hm in Hin; by apply (Hi h)).
    apply NoDup_app in Hnd as (Hnd' & Hxl & _).
    split; [|split; [by split; [by eapply idents_insert|]|by rewrite list_lookup_insert_ne]].
    eapply (chained_update _ _ mem _ h (Some v) (l' ++ [x; i])); try done.
    + eapply chain_splice; [exact Hl|done|exact Hone| |set_solver]. intros Hin. apply (Hxl x Hin). set_solver.
    + apply NoDup_app. split; [done|]. split; [set_solver|]. apply NoDup_cons. split; [set_solver|]. apply NoDup_singleton.
    + intros w. rewrite <- Hm. set_solver.
    + intros h' w Hne. naive_solver.
  - apply chain_head in Hl as Hnil. destruct Hnil as [Hnil _]. rewrite Hnil in Hm by done.
    eexists. split; [done|]. cbn [Hash_ Content_ with_table].
    split; [|split; [by split; [done|split; [apply length_insert|]]|done]].
    apply (chained_head _ _ mem _ h (Some i) [i]); try done; [apply NoDup_singleton| |naive_solver].
    intros w. rewrite <- Hm. set_solver.
Qed.

Lemma unlink_ok t h i e mem :
  chained (Hash_ t) (Content_ t) mem → disjoint_buckets mem → mem h i → Content_ t !! i = Some e → (h < length (Hash_ t))%nat →
  ∃ t', unlink_entry t h i = Some t' ∧ chained (Hash_ t') (Content_ t') (λ h' w, mem h' w ∧ w ≠ i) ∧ relinked t t' ∧
    Content_ t' !! i = Some e.
Proof.
  intros Hc Hd Hi He Hh. apply lookup_lt_is_Some_2 in Hh as [p Hp]. unfold unlink_entry. rewrite Hp, Some_bind.
  destruct (Hc _ _ Hp) as (l & Hl & Hnd & Hm).
  pose proof (proj2 (Hm i) Hi) as Hin. apply list_elem_of_split in Hin as (l1 & l2 & ->).
  destruct p as [probe|]; [|by destruct l1; destruct Hl]. pose proof (chain_length _ _ _ Hl Hnd) as Hlen.
  rewrite length_app in Hlen. cbn in Hlen. pose proof Hnd as Hnd0. apply NoDup_app in Hnd as (Hn1 & Hn12 & Hn2).
  apply NoDup_cons in Hn2 as [Hi2 Hn2]. assert (i ∉ l1) as Hi1 by (intros Hin; apply (Hn12 i Hin); left).
  destruct (chain_at _ _ _ _ _ Hl) as (e' & He' & Hrest). rewrite He in He'. injection He' as <-.
  assert (NoDup (l1 ++ l2)) as Hnd'.
  { apply NoDup_app. split; [done|]. split; [|done]. intros w Hw Hw2. apply (Hn12 w Hw). by right. }
  assert (∀ w, w ∈ l1 ++ l2 ↔ mem h w ∧ w ≠ i) as Hm'.
  { intros w. rewrite <- Hm. set_solver. }
  assert (∀ h' w, h' ≠ h → mem h' w ∧ w ≠ i ↔ mem h' w) as Hother.
  { intros h' w Hne. split; [by intros []|]. intros Hw. split; [done|]. intros ->. by apply Hne, (Hd h' h i). }
  pose proof (unlink_from_ok t h i e l2 l1 (length (Content_ t)) None probe e Hl Hi1 ltac:(lia) He ltac:(done)) as Hun.
  destruct (last l1) as [q|] eqn:Hlast.
  - apply last_Some in Hlast as [l1' ->]. destruct Hun as (eq & Hq & ->). rewrite Some_bind. eexists. split; [done|].
    cbn [Hash_ Content_ with_table].
    split; [|split; [by split; [by eapply idents_insert|]|rewrite list_lookup_insert_ne; [done|set_solver]]].
    rewrite <- app_assoc in Hl, Hnd'. cbn [app] in Hl, Hnd'.
    apply (chained_update _ _ mem _ h (Some probe) (l1' ++ q :: l2)); try done; [apply Hm; set_solver| |].
    + eapply chain_splice; [exact Hl|done|exact Hrest| |]; apply NoDup_app in Hnd' as (_ & H1 & H2).
      * intros Hin. apply (H1 q Hin). left.
      * by apply NoDup_cons in H2 as [? _].
    + intros w. rewrite <- Hm'. by rewrite <- app_assoc.
  - apply last_None in Hlast as ->. rewrite Hun, Some_bind. eexists. split; [done|].
    cbn [Hash_ Content_ with_table app] in *. split; [|split; [by split; [done|split; [apply length_insert|]]|done]].
    by apply (chained_head _ _ mem _ h (pNext e) l2).
Qed.

(** *** Entries come and go *)

Lemma buckets_disjoint c : disjoint_buckets (member c).
Proof. intros h1 h2 w (e & He & _ & <-) (e' & He' & _ & <-). by simplify_eq. Qed.

Lemma consistent_size t : consistent t → 0 <= Size t <= MAX_LEN_OF_MAC_TABLE.
Proof.
  intros Ht. rewrite (c_size _ Ht). pose proof (length_filter used (Content_ t)) as H.
  unfold count_used. rewrite (c_content _ Ht) in H. unfold MAX_LEN_OF_MAC_TABLE in *. lia.
Qed.

Lemma shaped_idents c c' : idents c = idents c' → shaped c → shaped c'.
Proof.
  intros Hi [He Hu]. symmetry in Hi. split.
  - intros i e Hie Hue. destruct (idents_lookup _ _ _ _ Hi Hie) as (e' & He' & Hty & _ & Haid).
    unfold used in Hue. rewrite <- Hty in Hue. destruct (He _ _ He' Hue) as (? & ? & ?). by rewrite <- Hty, <- Haid.
  - intros i j ei ej Hei Hej Hui Huj Ha.
    destruct (idents_lookup _ _ _ _ Hi Hei) as (ei' & Hei' & Hti & Hai & _).
    destruct (idents_lookup _ _ _ _ Hi Hej) as (ej' & Hej' & Htj & Haj & _).
    unfold used in *. apply (Hu i j ei' ej'); unfold used; congruence.
Qed.

Lemma count_idents c c' : idents c = idents c' → count_used c = count_used c'.
Proof. intros Hi. by rewrite !count_used_idents, Hi. Qed.

(** The table with the contents [c] but for the links. *)
Lemma consistent_shape t c :
  idents (Content_ t) = idents c → length (Hash_ t) = HASH_TABLE_SIZE → length c = Z.to_nat MAX_LEN_OF_MAC_TABLE →
  chained (Hash_ t) (Content_ t) (member c) → shaped c → Size t = Z.of_nat (count_used c) → consistent t.
Proof.
  intros Hi Hl Hlc Hc Hs Hn. split; [done| | | |].
  - by rewrite (idents_length _ _ Hi).
  - eapply chained_ext; [exact Hc|]. intros h w _. split; by apply member_idents.
  - by eapply shaped_idents.
  - by rewrite (count_idents _ _ Hi).
Qed.

(** The events do not matter. *)
Lemma consistent_event t ev : consistent (with_event t ev) ↔ consistent t.
Proof. split; intros [H1 H2 H3 H4 H5]; by split. Qed.

(** Entry [i] is taken. *)
Lemma consistent_occupy t t' i e addr (e2 := set_identity e ENTRY_CLIENT addr (Z.of_nat i)) :
  consistent t → (0 < i)%nat → Content_ t !! i = Some e → ¬ used e →
  (∀ w e, Content_ t !! w = Some e → used e → Addr e ≠ addr) →
  idents (Content_ t') = idents (<[i := e2]> (Content_ t)) → length (Hash_ t') = length (Hash_ t) → Size t' = Size t + 1 →
  chained (Hash_ t') (Content_ t') (λ h w, member (Content_ t) h w ∨ h = hash_of addr ∧ w = i) → consistent t'.
Proof.
  intros Ht Hpos He Hn Hf Hi Hl Hs Hc. pose proof (lookup_lt_Some _ _ _ He) as Hlt. assert (used e2) as Hu2 by done.
  apply (consistent_shape t' (<[i := e2]> (Content_ t))); try done.
  - by rewrite Hl, (c_hash _ Ht).
  - by rewrite length_insert, (c_content _ Ht).
  - eapply chained_ext; [exact Hc|]. intros h w _. split.
    + intros [(x & Hx & Hu & <-)|[-> ->]]; [exists x; rewrite list_lookup_insert_ne by (intros ->; by simplify_eq); done|].
      exists e2. by rewrite list_lookup_insert_eq.
    + intros (x & Hx & Hu & <-). apply list_lookup_insert_Some in Hx as [(-> & <- & _)|[Hne Hx]]; [by right|].
      left. by exists x.
  - destruct (c_shaped _ Ht) as [Hen Hun]. split.
    + intros w x Hx Hu. apply list_lookup_insert_Some in Hx as [(-> & <- & _)|[Hne Hx]]; [done|]. by apply Hen.
    + intros w v x y Hx Hy Hux Huy Ha. apply list_lookup_insert_Some in Hx as [(-> & <- & _)|[Hnx Hx]];
        apply list_lookup_insert_Some in Hy as [(-> & <- & _)|[Hny Hy]]; try done.
      * by destruct (Hf v y Hy).
      * by destruct (Hf w x Hx).
      * by apply (Hun w v x y).
  - rewrite Hs, (c_size _ Ht). pose proof (count_used_insert _ _ _ e2 He) as H.
    rewrite decide_False, decide_True in H by done. lia.
Qed.

(** Entry [i] is freed. *)
Lemma consistent_vacate t t' i e addr aid (e2 := set_identity e ENTRY_NONE addr aid) :
  consistent t → Content_ t !! i = Some e → used e →
  idents (Content_ t') = idents (<[i := e2]> (Content_ t)) → length (Hash_ t') = length (Hash_ t) → Size t' = Size t - 1 →
  chained (Hash_ t') (Content_ t') (λ h w, member (Content_ t) h w ∧ w ≠ i) → consistent t'.
Proof.
  intros Ht He Hn Hi Hl Hs Hc. pose proof (lookup_lt_Some _ _ _ He) as Hlt.
  assert (¬ used e2) as Hu2 by (intros Hu; by apply Hu).
  assert (∀ w x, <[i := e2]> (Content_ t) !! w = Some x → used x → w ≠ i ∧ Content_ t !! w = Some x) as Hc2.
  { intros w x Hx Hu. apply list_lookup_insert_Some in Hx as [(-> & <- & _)|[Hne Hx]]; done. }
  apply (consistent_shape t' (<[i := e2]> (Content_ t))); try done.
  - by rewrite Hl, (c_hash _ Ht).
  - by rewrite length_insert, (c_content _ Ht).
  - eapply chained_ext; [exact Hc|]. intros h w _. split.
    + intros [(x & Hx & Hu & <-) Hne]. exists x. by rewrite list_lookup_insert_ne.
    + intros (x & Hx & Hu & <-). destruct (Hc2 w x Hx Hu). split; [by exists x|done].
  - destruct (c_shaped _ Ht) as [Hen Hun]. split.
    + intros w x Hx Hu. destruct (Hc2 w x Hx Hu). by apply Hen.
    + intros w v x y Hx Hy Hux Huy. destruct (Hc2 w x Hx Hux), (Hc2 v y Hy Huy). by apply (Hun w v x y).
  - rewrite Hs, (c_size _ Ht). pose proof (count_used_insert _ _ _ e2 He) as H.
    rewrite decide_True, decide_False in H by done. lia.
Qed.

(** ** The operations *)

Lemma first_vacancy_ok c n : ∀ i, (i + n <= length c)%nat →
  ∃ r, first_vacancy c i n = Some r ∧
    match r with
    | Some j => (i <= j < i + n)%nat ∧ ∃ e, c !! j = Some e ∧ ¬ used e
    | None => ∀ j e, (i <= j < i + n)%nat → c !! j = Some e → used e
    end.
Proof.
  induction n as [|n IH]; intros i Hn; cbn [first_vacancy]; [exists None; split; [done|lia]|].
  destruct (lookup_lt_is_Some_2 c i) as [e He]; [lia|]. rewrite He, Some_bind.
  destruct (decide (EntryType e = ENTRY_NONE)) as [Hne|Hne].
  - exists (Some i). split; [done|]. split; [lia|]. exists e. split; [done|]. intros Hu. by apply Hu.
  - destruct (IH (S i)) as (r & -> & Hr); [lia|]. exists r. split; [done|]. destruct r as [j|].
    + destruct Hr. split; [lia|done].
    + intros j x Hj Hx. destruct (decide (j = i)) as [->|]; [by simplify_eq|]. apply (Hr j x); [lia|done].
Qed.

(** A table with room counts less than its size. *)
Lemma count_used_vacant c j e : c !! j = Some e → ¬ used e → (count_used c < length c)%nat.
Proof.
  intros He Hu. set (e2 := set_identity e ENTRY_CLIENT (Addr e) 0).
  pose proof (count_used_insert c j e e2 He) as H. rewrite decide_False, decide_True in H by done.
  pose proof (length_filter used (<[j := e2]> c)) as Hl. rewrite length_insert in Hl. unfold count_used in *. lia.
Qed.

(** An address that is not in the table. *)
Definition absent (t : mac_tab) (addr : list Z) : Prop := ∀ w e, Content_ t !! w = Some e → used e → Addr e ≠ addr.

(** [t'] is [t] with another identity for entry [i]. *)
Definition retyped (t t' : mac_tab) (i : nat) (type : ENTRY_TYPE) (addr : list Z) (aid : Z) : Prop :=
  ∃ e, Content_ t !! i = Some e ∧ idents (Content_ t') = idents (<[i := set_identity e type addr aid]> (Content_ t)).

Lemma set_identity_ident e e' type addr aid : ident (set_identity e type addr aid) = ident (set_identity e' type addr aid).
Proof. done. Qed.

Lemma idents_insert_ident c i e e' : ident e = ident e' → idents (<[i := e]> c) = idents (<[i := e']> c).
Proof. intros He. unfold idents. by rewrite !list_fmap_insert, He. Qed.

Lemma idents_insert_congr c c' i e : idents c = idents c' → idents (<[i := e]> c) = idents (<[i := e]> c').
Proof. unfold idents. intros H. by rewrite !list_fmap_insert, H. Qed.

Lemma unused_nowhere t i e : Content_ t !! i = Some e → ¬ used e → ∀ h, ¬ member (Content_ t) h i.
Proof. intros He Hu h (e' & He' & Hu' & _). by simplify_eq. Qed.

(** Changing an entry that is in no chain. *)
Lemma chained_outside hs c mem i e : chained hs c mem → (∀ h, ¬ mem h i) → chained hs (<[i := e]> c) mem.
Proof.
  intros Hc Hi h p Hp. destruct (Hc h p Hp) as (l & Hl & Hn & Hm). exists l. split; [|done].
  eapply chain_frame; [exact Hl|]. intros w Hw. apply list_lookup_insert_ne. intros ->. by apply (Hi h), Hm.
Qed.

(** Changing an entry but for its successor. *)
Lemma chain_same_next c p l i e e' : chain c p l → c !! i = Some e → pNext e' = pNext e → chain (<[i := e']> c) p l.
Proof.
  intros Hc He Hn. pose proof (lookup_lt_Some _ _ _ He) as Hlt. revert p Hc.
  induction l as [|w l IH]; intros p; cbn [chain]; [done|]. intros [-> (x & Hx & Hl)]. split; [done|].
  destruct (decide (w = i)) as [->|Hne].
  - exists e'. rewrite list_lookup_insert_eq by done. simplify_eq. split; [done|]. rewrite Hn. by apply IH.
  - exists x. rewrite list_lookup_insert_ne by done. split; [done|]. by apply IH.
Qed.

Lemma chained_same_next hs c mem i e e' :
  chained hs c mem → c !! i = Some e → pNext e' = pNext e → chained hs (<[i := e']> c) mem.
Proof.
  intros Hc He Hn h p Hp. destruct (Hc h p Hp) as (l & Hl & Hr). exists l. split; [|done]. by eapply chain_same_next.
Qed.

Lemma size_step t n : consistent t → 0 <= Size t + n <= MAX_LEN_OF_MAC_TABLE → u16 (Size t + n) = Size t + n.
Proof. intros Ht Hn. unfold MAX_LEN_OF_MAC_TABLE in Hn. apply Z.mod_small. lia. Qed.

Lemma insert_ok t FirstWcid am ws addr apidx_ :
  consistent t → (1 <= FirstWcid <= 32)%nat → absent t addr →
  ∃ r t', MacTableInsertEntry t FirstWcid am ws addr apidx_ = Some (r, t') ∧ consistent t' ∧
    match r with
    | Some i => (FirstWcid <= i < 32)%nat ∧ retyped t t' i ENTRY_CLIENT addr (Z.of_nat i)
    | None => t' = t ∧ ∀ i e, (FirstWcid <= i)%nat → Content_ t !! i = Some e → used e
    end.
Proof.
  intros Ht Hf Ha. unfold MacTableInsertEntry. pose proof (c_content _ Ht) as Hlen.
  change (Z.to_nat MAX_LEN_OF_MAC_TABLE) with 32%nat in *. destruct (Z.leb_spec MAX_LEN_OF_MAC_TABLE (Size t)) as [Hs|Hs].
  - exists None, t. split; [done|]. split; [done|]. split; [done|]. intros i e _ He.
    destruct (decide (used e)) as [|Hu]; [done|]. pose proof (count_used_vacant _ _ _ He Hu) as Hc.
    rewrite (c_size _ Ht) in Hs. unfold MAX_LEN_OF_MAC_TABLE in Hs. lia.
  - destruct (first_vacancy_ok (Content_ t) (32 - FirstWcid) FirstWcid) as (r & -> & Hr); [lia|]. rewrite Some_bind.
    destruct r as [i|].
    + destruct Hr as (Hi & e & He & Hu). set (n := new_entry i addr apidx_ am ws).
      set (t0 := with_event (with_event (with_size (with_table (with_event t (CancelEntryTimers i)) (Hash_ t)
        (<[i := n]> (Content_ t))) (u16 (Size t + 1))) (RemovePairwiseKeyEntry i)) (StaEntryAdd i addr)).
      destruct (link_ok t0 (hash_of addr) i n (member (Content_ t))) as (t' & Hlink & Hc & (Hid & Hlh & Hsz) & _);
        [|apply buckets_disjoint|by eapply unused_nowhere|by apply list_lookup_insert_eq; lia|done| |].
      { apply chained_outside; [apply Ht|by eapply unused_nowhere]. }
      { rewrite (c_hash _ Ht : length (Hash_ t0) = _). apply hash_bound. }
      cbn beta iota zeta. change (link_entry _ _ _) with (link_entry t0 (hash_of addr) i). rewrite Hlink, Some_bind.
      exists (Some i), t'. split; [done|].
      assert (idents (Content_ t') = idents (<[i := set_identity e ENTRY_CLIENT addr (Z.of_nat i)]> (Content_ t))) as Hid'.
      { rewrite Hid. by apply idents_insert_ident. }
      split; [|split; [lia|by exists e]]. apply (consistent_occupy t t' i e addr); try done; [lia|].
      rewrite Hsz. pose proof (consistent_size t Ht). apply (size_step t 1 Ht). unfold MAX_LEN_OF_MAC_TABLE in *. lia.
    + exists None, t. split; [done|]. split; [done|]. split; [done|]. intros i e Hi He. apply (Hr i e); [|done].
      apply lookup_lt_Some in He. lia.
Qed.

Lemma register_ok t am ws addr e :
  consistent t → Content_ t !! 1%nat = Some e → ¬ used e → pNext e = None → absent t addr →
  ∃ t', register_bssid t am ws addr = Some t' ∧ consistent t' ∧ retyped t t' 1 ENTRY_CLIENT addr 1 ∧
    Content_ t' !! 1%nat = Some (set_identity (start_entry e am ws) ENTRY_CLIENT addr 1).
Proof.
  intros Ht He Hu Hn Ha. unfold register_bssid. change BSSID_WCID with 1%nat. rewrite He, Some_bind.
  set (e1 := start_entry e am ws). set (t0 := with_table t (Hash_ t) (<[1%nat := e1]> (Content_ t))). cbn beta iota zeta.
  pose proof (lookup_lt_Some _ _ _ He) as Hlt.
  destruct (link_ok t0 (hash_of addr) 1 e1 (member (Content_ t))) as (t1 & -> & Hc & (Hid & Hlh & Hsz) & He1);
    [|apply buckets_disjoint|by eapply unused_nowhere|by apply list_lookup_insert_eq|done| |].
  { apply chained_outside; [apply Ht|by eapply unused_nowhere]. }
  { rewrite (c_hash _ Ht : length (Hash_ t0) = _). apply hash_bound. }
  rewrite Some_bind, He1, Some_bind. eexists. split; [done|].
  set (e2 := set_identity e1 ENTRY_CLIENT addr (Z.of_nat 1)). pose proof (lookup_lt_Some _ _ _ He1) as Hlt1.
  assert (idents (<[1%nat := e2]> (Content_ t1)) = idents (<[1%nat := set_identity e ENTRY_CLIENT addr 1]> (Content_ t))) as Hid'.
  { rewrite (idents_insert_congr _ _ _ _ Hid). cbn [t0 Content_ with_table]. rewrite list_insert_insert_eq.
    by apply idents_insert_ident. }
  split; [|split; [by exists e|by apply list_lookup_insert_eq]].
  apply (consistent_occupy t _ 1 e addr); try done; try lia; cbn [Size Hash_ Content_ with_size with_table].
  - rewrite Hsz. pose proof (consistent_size t Ht). pose proof (count_used_vacant _ _ _ He Hu) as Hv.
    rewrite (c_content _ Ht) in Hv. apply (size_step t 1 Ht). rewrite (c_size _ Ht). unfold MAX_LEN_OF_MAC_TABLE in *. lia.
  - by apply (chained_same_next _ _ _ _ e1).
Qed.

(** [MacTableDeleteEntry] of an entry by its address. *)
Lemma delete_ok t i e :
  consistent t → Content_ t !! i = Some e → used e →
  ∃ t', MacTableDeleteEntry t i (Addr e) = Some (true, t') ∧ consistent t' ∧
    retyped t t' i ENTRY_NONE (zeros 6) (Aid e) ∧ ∃ e', Content_ t' !! i = Some e' ∧ pNext e' = pNext e.
Proof.
  intros Ht He Hu. pose proof (lookup_lt_Some _ _ _ He) as Hlt. rewrite (c_content _ Ht) in Hlt.
  unfold MacTableDeleteEntry. destruct (Nat.leb_spec (Z.to_nat MAX_LEN_OF_MAC_TABLE) i) as [?|_]; [lia|].
  rewrite He, Some_bind, decide_False, bool_decide_eq_true_2 by done. cbn beta iota zeta.
  match goal with |- context [unlink_entry ?t _ _] => set (t0 := t) end.
  destruct (unlink_ok t0 (hash_of (Addr e)) i e (member (Content_ t))) as (t1 & -> & Hc & (Hid & Hlh & Hsz) & He1);
    [apply Ht|apply buckets_disjoint|by exists e|done| |].
  { rewrite (c_hash _ Ht : length (Hash_ t0) = _). apply hash_bound. }
  rewrite Some_bind, He1, Some_bind. set (t2 := if EnqueueEapolStartTimerRunning e =? EAPOL_START_DISABLE then _ else _).
  assert (Content_ t2 = Content_ t1 ∧ Hash_ t2 = Hash_ t1 ∧ Size t2 = Size t1) as (HC & HH & HS) by (subst t2; by case_match).
  rewrite Some_bind. pose proof (lookup_lt_Some _ _ _ He1) as Hlt1. set (e2 := set_identity _ _ _ _).
  cbn [Content_ Hash_ Size with_event with_table]. rewrite HC, HH, HS.
  set (t3 := with_size _ _). exists (if Size t3 =? 0 then with_event t3 UpdateProtect else t3). split; [done|].
  assert (idents (<[i := e2]> (Content_ t1)) = idents (<[i := set_identity e ENTRY_NONE (zeros 6) (Aid e)]> (Content_ t))) as Hid'.
  { rewrite (idents_insert_congr _ _ _ _ Hid). by apply idents_insert_ident. }
  assert (Content_ (if Size t3 =? 0 then with_event t3 UpdateProtect else t3) = <[i := e2]> (Content_ t1)) as HC3 by by case_match.
  split; [|split; [exists e; by rewrite HC3|]].
  2: { exists e2. rewrite HC3. split; [by apply list_lookup_insert_eq|done]. }
  assert (consistent t3); [|case_match; by rewrite ?consistent_event].
  apply (consistent_vacate t t3 i e (zeros 6) (Aid e)); try done; cbn [t3 Size Hash_ Content_ with_size with_table].
  - rewrite Hsz. pose proof (consistent_size t Ht).
    assert (0 < count_used (Content_ t))%nat as Hpos.
    { pose proof (count_used_insert _ _ _ (set_identity e ENTRY_NONE [] 0) He) as H'.
      rewrite decide_True, decide_False in H' by (first [done|intros Hx; by apply Hx]). lia. }
    apply (size_step t (-1) Ht). rewrite (c_size _ Ht) in *. lia.
  - by apply (chained_same_next _ _ _ _ e).
Qed.

(** What the table is after an unused entry, or another address, is deleted. *)
Lemma delete_skip t i e addr :
  Content_ t !! i = Some e → ¬ (used e ∧ Addr e = addr) → (i < 32)%nat →
  ∃ t', MacTableDeleteEntry t i addr = Some (true, t') ∧ Content_ t' = Content_ t ∧ Hash_ t' = Hash_ t ∧ Size t' = Size t.
Proof.
  intros He Hn Hi. unfold MacTableDeleteEntry. change (Z.to_nat MAX_LEN_OF_MAC_TABLE) with 32%nat.
  destruct (Nat.leb_spec 32 i) as [?|_]; [lia|]. rewrite He, Some_bind.
  destruct (decide (EntryType e = ENTRY_NONE)) as [Ht|Ht]; [rewrite Some_bind; eexists; split; [done|]; by case_match|].
  cbn zeta. case_bool_decide; [by destruct Hn|]. rewrite Some_bind. eexists. split; [done|]. by case_match.
Qed.

Lemma consistent_fields t t' :
  Content_ t' = Content_ t → Hash_ t' = Hash_ t → Size t' = Size t → consistent t → consistent t'.
Proof. intros HC HH HS [H1 H2 H3 H4 H5]. split; rewrite ?HC, ?HH, ?HS; done. Qed.

(** *** Clearing the table *)

Definition unused_below (n : nat) (t : mac_tab) : Prop := ∀ w e, (0 < w < n)%nat → Content_ t !! w = Some e → ¬ used e.

Lemma retyped_lookup t t' i type addr aid w e :
  retyped t t' i type addr aid → Content_ t' !! w = Some e →
  (w = i ∧ EntryType e = type ∧ Addr e = addr ∧ Aid e = aid) ∨
  (w ≠ i ∧ ∃ e', Content_ t !! w = Some e' ∧ EntryType e' = EntryType e ∧ Addr e' = Addr e).
Proof.
  intros (e0 & He0 & Hid) He. destruct (idents_lookup _ _ _ _ Hid He) as (x & Hx & Hty & Ha & Haid).
  apply list_lookup_insert_Some in Hx as [(-> & <- & _)|[Hne Hx]]; [by left|right]. split; [done|]. by exists x.
Qed.

Lemma deleted_below t t' i addr aid :
  retyped t t' i ENTRY_NONE addr aid → unused_below i t → unused_below (S i) t'.
Proof.
  intros Hr Hb w x Hw Hx Hu. destruct (retyped_lookup _ _ _ _ _ _ _ _ Hr Hx) as [(_ & Hty & _)|(Hne & x' & Hx' & Hty & _)]; [done|].
  apply (Hb w x'); [lia|done|]. unfold used. by rewrite Hty.
Qed.

Lemma below_same t t' n : Content_ t' = Content_ t → unused_below n t → unused_below n t'.
Proof. intros HC Hb w e. rewrite HC. apply Hb. Qed.

Lemma below_next t i e : unused_below i t → Content_ t !! i = Some e → ¬ used e → unused_below (S i) t.
Proof.
  intros Hb He Hu w x Hw Hx. destruct (decide (w = i)) as [->|]; [by simplify_eq|]. apply (Hb w x); [lia|done].
Qed.

Lemma link_down_entries_ok t : consistent t → ∃ t', link_down_entries t = Some t' ∧ consistent t' ∧ unused_below 32 t'.
Proof.
  intros Ht. unfold link_down_entries.
  apply (loop_opt_inv_at (λ i t, consistent t ∧ unused_below i t) 1 31); [split; [done|intros w e ?; lia]|].
  intros i s Hi [Hs Hb]. destruct (lookup_lt_is_Some_2 (Content_ s) i) as [e He]; [rewrite (c_content _ Hs); change (Z.to_nat MAX_LEN_OF_MAC_TABLE) with 32%nat; lia|].
  rewrite He, Some_bind. destruct (decide (EntryType e = ENTRY_CLIENT)) as [Hty|Hty].
  - assert (used e) as Hu by (unfold used; by rewrite Hty). destruct (c_entry _ (c_shaped _ Hs) _ _ He Hu) as (_ & -> & _).
    rewrite Nat2Z.id. destruct (delete_ok s i e Hs He Hu) as (s' & -> & Hs' & Hr & _). rewrite Some_bind.
    exists s'. split; [done|]. split; [done|]. by eapply deleted_below.
  - exists s. split; [done|]. split; [done|]. eapply below_next; [done|done|].
    intros Hu. by destruct (c_entry _ (c_shaped _ Hs) _ _ He Hu).
Qed.

Lemma reset_ok t : consistent t → ∃ t', MacTableReset t = Some t' ∧ consistent t' ∧ unused_below 32 t'.
Proof.
  intros Ht. unfold MacTableReset.
  apply (loop_opt_inv_at (λ i t, consistent t ∧ unused_below i t) 1 31); [split; [done|intros w e ?; lia]|].
  intros i s Hi [Hs Hb]. destruct (lookup_lt_is_Some_2 (Content_ s) i) as [e He]; [rewrite (c_content _ Hs); change (Z.to_nat MAX_LEN_OF_MAC_TABLE) with 32%nat; lia|].
  rewrite He, Some_bind. cbn zeta. destruct (decide (EntryType e = ENTRY_CLIENT)) as [Hty|Hty].
  - set (e1 := set_eapol_timer e _). set (s1 := with_event _ _). pose proof (lookup_lt_Some _ _ _ He) as Hlt.
    assert (idents (Content_ s1) = idents (Content_ s)) as Hid by (by apply (idents_insert _ _ e)).
    assert (consistent s1) as Hs1.
    { apply (consistent_shape s1 (Content_ s)); [done|apply Hs|apply Hs| |apply Hs|apply Hs].
      apply (chained_same_next _ _ _ i e); [apply Hs|done|done]. }
    assert (Content_ s1 !! i = Some e1) as He1 by by apply list_lookup_insert_eq.
    assert (used e1) as Hu by (intros Hn; cbn in Hn; by rewrite Hn in Hty).
    destruct (delete_ok s1 i e1 Hs1 He1 Hu) as (s' & Hd & Hs' & Hr & _). change (Addr e) with (Addr e1). rewrite Hd, Some_bind.
    exists s'. split; [done|]. split; [done|]. eapply deleted_below; [done|].
    intros w x Hw Hx Hux. cbn [s1 Content_ with_event with_table] in Hx. rewrite list_lookup_insert_ne in Hx by lia. by apply (Hb w x).
  - assert (¬ used e) as Hu by (intros Hu; by destruct (c_entry _ (c_shaped _ Hs) _ _ He Hu)).
    destruct (delete_skip s i e (Addr e) He) as (s' & -> & HC & HH & HS); [by intros []|lia|]. rewrite Some_bind.
    exists s'. split; [done|]. split; [by eapply consistent_fields|]. eapply below_same; [done|]. by eapply below_next.
Qed.

Lemma consistent_unused t i e e' :
  consistent t → Content_ t !! i = Some e → ¬ used e → ¬ used e' →
  consistent (with_table t (Hash_ t) (<[i := e']> (Content_ t))).
Proof.
  intros Ht He Hu Hu'. pose proof (lookup_lt_Some _ _ _ He) as Hlt.
  assert (∀ w x, <[i := e']> (Content_ t) !! w = Some x ∧ used x ↔ Content_ t !! w = Some x ∧ used x) as Hsame.
  { intros w x. destruct (decide (w = i)) as [->|Hne]; [|by rewrite list_lookup_insert_ne].
    rewrite list_lookup_insert_eq by done. split; intros [??]; by simplify_eq. }
  split; cbn [Hash_ Content_ Size with_table].
  - apply Ht.
  - by rewrite length_insert, (c_content _ Ht).
  - apply (chained_ext _ _ (member (Content_ t))).
    + apply chained_outside; [apply Ht|by eapply unused_nowhere].
    + intros h w _. unfold member. split; intros (x & Hx & Hux & Hh); exists x; destruct (Hsame w x); naive_solver.
  - destruct (c_shaped _ Ht) as [Hen Hun]. split.
    + intros w x Hx Hux. apply (Hen w x); [by apply Hsame|done].
    + intros w v x y Hx Hy Hux Huy. apply (Hun w v x y); try done; by apply Hsame.
  - rewrite (c_size _ Ht). pose proof (count_used_insert _ _ _ e' He) as H. rewrite !decide_False in H by done. lia.
Qed.

(** ** The life of the table *)

(** What the station is in: no network, an ad-hoc network, the network of an
    access point whose address is [CommonCfg.Bssid], or closed. *)
Inductive network := Idle | Adhoc | Infra (bssid : list Z) | Closed.

(** The zeroed adapter. *)
Definition empty_table : mac_tab :=
  {| Hash_ := replicate HASH_TABLE_SIZE None; Content_ := replicate (Z.to_nat MAX_LEN_OF_MAC_TABLE) zero_entry;
     Size := 0; tab_log := [] |}.

(** The callers: [sync.c] adds a station of an ad-hoc network whose address is
    not in the table; [MlmeDeAuthAction] deletes a station it has found;
    an association, and another one after roaming. *)
Inductive mac_step : network * mac_tab → network * mac_tab → Prop :=
| step_adhoc t : mac_step (Idle, t) (Adhoc, t)
| step_insert t am ws addr apidx_ r t' :
    table_lookup (Hash_ t) (Content_ t) addr = Some None →
    MacTableInsertEntry t 1 am ws addr apidx_ = Some (r, t') → mac_step (Adhoc, t) (Adhoc, t')
| step_delete n t addr w e r t' :
    table_lookup (Hash_ t) (Content_ t) addr = Some (Some w) → Content_ t !! w = Some e →
    MacTableDeleteEntry t (Z.to_nat (Aid e)) (Addr e) = Some (r, t') → mac_step (n, t) (n, t')
| step_assoc t am ws common aux phy_ok t' :
    assoc_table t am ws common aux phy_ok = Some t' → mac_step (Idle, t) (Infra aux, t')
| step_roam t am ws common aux phy_ok t' :
    assoc_table t am ws common aux phy_ok = Some t' → mac_step (Infra common, t) (Infra aux, t')
| step_down n t t1 port t2 :
    n ≠ Closed → link_down_entries t = Some t1 → link_down_bssid t1 port = Some t2 → mac_step (n, t) (Idle, t2)
| step_close n t t' :
    MacTableReset t = Some t' → mac_step (n, t) (Closed, t').

Definition reachable_table (n : network) (t : mac_tab) : Prop := rtc mac_step (Idle, empty_table) (n, t).

(** At most the access point's entry is in use, and no entry follows it. *)
Record access_point (t : mac_tab) (bssid : option (list Z)) : Prop := {
  ap_only : ∀ w e, Content_ t !! w = Some e → used e → w = BSSID_WCID ∧ Some (Addr e) = bssid;
  ap_last : ∃ e, Content_ t !! BSSID_WCID = Some e ∧ pNext e = None;
}.

Definition network_ok (n : network) (t : mac_tab) : Prop :=
  match n with
  | Idle => access_point t None
  | Infra b => access_point t (Some b)
  | Adhoc | Closed => True
  end.

Lemma insert_shape t t' i ty addr aid b :
  access_point t b → retyped t t' i ty addr aid → (i = BSSID_WCID) → (∃ e', Content_ t' !! i = Some e' ∧ pNext e' = None) →
  ∀ b', (ty ≠ ENTRY_NONE → Some addr = b') → access_point t' b'.
Proof.
  intros Hap Hr -> Hn b' Hb. split; [|done]. intros w e He Hu.
  destruct (retyped_lookup _ _ _ _ _ _ _ _ Hr He) as [(-> & Hty & <- & _)|(Hne & e' & He' & Hty & _)].
  - split; [done|]. apply Hb. by rewrite <- Hty.
  - destruct (ap_only _ _ Hap w e' He'); [|done]. unfold used. by rewrite Hty.
Qed.

Lemma access_point_absent t : consistent t → access_point t None → ∀ addr, absent t addr.
Proof. intros _ Hap addr w e He Hu. by destruct (ap_only _ _ Hap w e He Hu). Qed.

(** The first half of an association: the table has no station. *)
Lemma forget_ok t common :
  consistent t → access_point t (Some common) →
  ∃ t', (pEntry ← table_lookup (Hash_ t) (Content_ t) common;
         match pEntry with
         | None => Some t
         | Some w => e ← Content_ t !! w; '(_, t) ← MacTableDeleteEntry t (Z.to_nat (Aid e)) (Addr e); Some t
         end) = Some t' ∧ consistent t' ∧ access_point t' None.
Proof.
  intros Ht Hap. destruct (lookup_ok t common Ht) as (r & -> & Hr). rewrite Some_bind. destruct r as [w|].
  - destruct Hr as (e & He & Hu & Ha). rewrite He, Some_bind. destruct (ap_only _ _ Hap w e He Hu) as [-> _].
    destruct (c_entry _ (c_shaped _ Ht) _ _ He Hu) as (_ & -> & _). rewrite Nat2Z.id.
    destruct (delete_ok t _ e Ht He Hu) as (t' & -> & Ht' & Hrt & e' & He' & Hn). rewrite Some_bind.
    exists t'. split; [done|]. split; [done|]. apply (insert_shape t t' _ _ _ _ _ Hap Hrt); try done.
    exists e'. split; [done|]. rewrite Hn. destruct (ap_last _ _ Hap) as (x & Hx & Hxn). by simplify_eq.
  - exists t. split; [done|]. split; [done|]. split; [|apply Hap]. intros w e He Hu.
    destruct (ap_only _ _ Hap w e He Hu) as [_ [=]]. by destruct (Hr w e He Hu).
Qed.

Lemma assoc_ok t am ws common aux (phy_ok : bool) :
  consistent t → access_point t (Some common) →
  ∃ t', assoc_table t am ws common aux phy_ok = Some t' ∧ consistent t' ∧ access_point t' (Some aux) ∧
    ∃ t0, consistent t0 ∧ access_point t0 None ∧ (if phy_ok then register_bssid t0 am ws aux else Some t0) = Some t' ∧
      (phy_ok = true → ∃ e, Content_ t' !! BSSID_WCID = Some (set_identity (start_entry e am ws) ENTRY_CLIENT aux 1)).
Proof.
  intros Ht Hap. destruct (forget_ok t common Ht Hap) as (t0 & Hf & Ht0 & Hap0). unfold assoc_table.
  destruct (table_lookup _ _ common) as [pEntry|]; [|done]. rewrite Some_bind in Hf |- *. rewrite Hf, Some_bind.
  destruct phy_ok; [|exists t0; split; [done|]; split; [done|]; split; [|by exists t0]].
  - destruct (ap_last _ _ Hap0) as (e & He & Hn). change BSSID_WCID with 1%nat in He.
    assert (¬ used e) as Hu by (intros Hu; by destruct (ap_only _ _ Hap0 _ e He Hu)).
    destruct (register_ok t0 am ws aux e Ht0 He Hu Hn (access_point_absent t0 Ht0 Hap0 aux)) as (t' & Hreg & Ht' & Hr & Hn').
    exists t'. split; [done|]. split; [done|]. split.
    + apply (insert_shape t0 t' _ _ _ _ _ Hap0 Hr); try done. by eexists.
    + exists t0. do 3 (split; [done|]). intros _. by exists e.
  - split; [|apply Hap0]. intros w e He Hu. by destruct (ap_only _ _ Hap0 w e He Hu).
Qed.

Lemma access_point_weaken t b : access_point t None → access_point t b.
Proof. intros Hap. split; [|apply Hap]. intros w e He Hu. by destruct (ap_only _ _ Hap w e He Hu). Qed.

Lemma below_all t : consistent t → unused_below 32 t → ∀ w e, Content_ t !! w = Some e → ¬ used e.
Proof.
  intros Ht Hb w e He Hu. destruct (c_entry _ (c_shaped _ Ht) _ _ He Hu) as (_ & _ & Hpos).
  apply (Hb w e); [|done|done]. apply lookup_lt_Some in He. rewrite (c_content _ Ht) in He.
  change (Z.to_nat MAX_LEN_OF_MAC_TABLE) with 32%nat in He. lia.
Qed.

Lemma down_ok t port : consistent t →
  ∃ t1 t2, link_down_entries t = Some t1 ∧ link_down_bssid t1 port = Some t2 ∧ consistent t2 ∧ access_point t2 None.
Proof.
  intros Ht. destruct (link_down_entries_ok t Ht) as (t1 & H1 & Ht1 & Hb). pose proof (below_all t1 Ht1 Hb) as Hno.
  destruct (lookup_lt_is_Some_2 (Content_ t1) BSSID_WCID) as [e He].
  { rewrite (c_content _ Ht1). change (1 < 32)%nat. lia. }
  exists t1. unfold link_down_bssid. rewrite He, Some_bind. eexists. split; [done|]. split; [done|].
  split; [by apply (consistent_unused t1 _ e); [|done|by eapply Hno|intros Hu; by apply Hu]|].
  split; cbn [Content_ with_table].
  - intros w x Hx Hu. apply list_lookup_insert_Some in Hx as [(_ & <- & _)|[_ Hx]]; [done|]. by destruct (Hno w x Hx).
  - eexists. split; [apply list_lookup_insert_eq; by eapply lookup_lt_Some|done].
Qed.

Lemma empty_ok : consistent empty_table ∧ access_point empty_table None.
Proof.
  assert (∀ w e, Content_ empty_table !! w = Some e → ¬ used e) as Hno.
  { intros w e He. apply lookup_replicate in He as [-> _]. intros Hu. by apply Hu. }
  split; [split|split].
  - apply length_replicate.
  - apply length_replicate.
  - intros h p Hp. apply lookup_replicate in Hp as [-> _]. exists []. split; [done|]. split; [constructor|].
    intros w. split; [by intros ?%elem_of_nil|]. intros (e & He & Hu & _). by destruct (Hno w e He).
  - split; intros; by exfalso; eapply Hno.
  - done.
  - intros w e He Hu. by destruct (Hno w e He).
  - by exists zero_entry.
Qed.

(** Deleting the station an address was looked up to. *)
Lemma delete_found t addr w e r t' :
  consistent t → table_lookup (Hash_ t) (Content_ t) addr = Some (Some w) → Content_ t !! w = Some e →
  MacTableDeleteEntry t (Z.to_nat (Aid e)) (Addr e) = Some (r, t') →
  consistent t' ∧ used e ∧ retyped t t' w ENTRY_NONE (zeros 6) (Aid e) ∧ ∃ e', Content_ t' !! w = Some e' ∧ pNext e' = pNext e.
Proof.
  intros Ht Hl He Hd. destruct (lookup_ok t addr Ht) as (r' & Hl' & Hr). rewrite Hl in Hl'. injection Hl' as <-.
  destruct Hr as (e' & He' & Hu & _). assert (e' = e) as -> by congruence. clear He'.
  destruct (c_entry _ (c_shaped _ Ht) _ _ He Hu) as (_ & Haid & _).
  destruct (delete_ok t w e Ht He Hu) as (t'' & Hd' & Ht'' & Hr & Hn). rewrite Haid, Nat2Z.id, Hd' in Hd.
  by injection Hd as <- <-.
Qed.

Lemma step_ok n t n' t' :
  mac_step (n, t) (n', t') → consistent t → network_ok n t → consistent t' ∧ network_ok n' t'.
Proof.
  intros Hstep Ht Hn. inversion Hstep; subst; cbn [network_ok] in *.
  - done.
  - destruct (lookup_ok t addr Ht) as (r' & Hl & Hr). simplify_eq.
    destruct (insert_ok t 1 am ws addr apidx_ Ht ltac:(lia) Hr) as (? & ? & Hi & ? & _). by simplify_eq.
  - edestruct delete_found as (Ht' & Hu & Hr & Hnext); try done. split; [done|]. destruct n'; cbn [network_ok] in *; try done.
    + by destruct (ap_only _ _ Hn w e).
    + destruct (ap_only _ _ Hn w e) as [-> _]; [done|done|]. eapply insert_shape; [exact Hn|exact Hr|done| |done].
      destruct Hnext as (e' & He' & Hnx). exists e'. split; [done|]. rewrite Hnx. destruct (ap_last _ _ Hn) as (x & Hx & ?). by simplify_eq.
  - destruct (assoc_ok t am ws common aux phy_ok Ht (access_point_weaken _ _ Hn)) as (x & Hx & ? & ? & _). by simplify_eq.
  - destruct (assoc_ok t am ws common aux phy_ok Ht Hn) as (x & Hx & ? & ? & _). by simplify_eq.
  - destruct (down_ok t port Ht) as (x & y & Hx & Hy & ? & ?). by simplify_eq.
  - destruct (reset_ok t Ht) as (x & Hx & ? & _). by simplify_eq.
Qed.

Lemma reachable_ok n t : reachable_table n t → consistent t ∧ network_ok n t.
Proof.
  assert (∀ s s', rtc mac_step s s' → consistent s.2 ∧ network_ok s.1 s.2 → consistent s'.2 ∧ network_ok s'.1 s'.2) as H.
  { intros s s' Hr. induction Hr as [|[n1 t1] [n2 t2] s' Hstep _ IH]; [done|]. intros [Ht Hn]. apply IH. by eapply step_ok. }
  intros Hr. apply (H _ _ Hr), empty_ok.
Qed.

Lemma lookup_iff t addr : consistent t →
  ∃ r, table_lookup (Hash_ t) (Content_ t) addr = Some r ∧
    ∀ w, r = Some w ↔ ∃ e, Content_ t !! w = Some e ∧ used e ∧ Addr e = addr.
Proof.
  intros Ht. destruct (lookup_ok t addr Ht) as (r & Hl & Hr). exists r. split; [done|]. intros w.
  split; [by intros ->|]. intros (e & He & Hu & Ha). destruct r as [v|]; [|by destruct (Hr w e He Hu)].
  destruct Hr as (e' & He' & Hu' & Ha'). f_equal. apply (c_unique _ (c_shaped _ Ht) v w e' e); congruence.
Qed.

Lemma count_none c : (∀ w e, c !! w = Some e → ¬ used e) → count_used c = 0%nat.
Proof.
  intros Hno. unfold count_used. destruct (filter used c) as [|x l] eqn:Hf; [done|].
  assert (x ∈ filter used c) as Hx by (rewrite Hf; left). apply list_elem_of_filter in Hx as [Hu Hx].
  apply list_elem_of_lookup in Hx as [w Hw]. by destruct (Hno w x Hw).
Qed.

Lemma one_entry t e b :
  consistent t → access_point t b → Content_ t !! BSSID_WCID = Some e → used e → Size t = 1.
Proof.
  intros Ht Hap He Hu. rewrite (c_size _ Ht). pose proof (lookup_lt_Some _ _ _ He) as Hlt.
  pose proof (count_used_insert _ _ _ zero_entry He) as H.
  rewrite decide_True, decide_False, count_none in H; [lia| |intros Hx; by apply Hx|done].
  intros w x Hx Hux. apply list_lookup_insert_Some in Hx as [(_ & <- & _)|[Hne Hx]]; [by apply Hux|].
  destruct (ap_only _ _ Hap w x Hx Hux) as [-> _]. done.
Qed.

Lemma cleared t : consistent t → (∀ w e, Content_ t !! w = Some e → ¬ used e) →
  Size t = 0 ∧ ∀ h p, Hash_ t !! h = Some p → p = None.
Proof.
  intros Ht Hno. split; [by rewrite (c_size _ Ht), count_none|].
  intros h p Hp. destruct (c_chained _ Ht h p Hp) as (l & Hl & _ & Hm). destruct l as [|w l]; [done|].
  destruct (proj1 (Hm w)) as (e & He & Hu & _); [left|]. by destruct (Hno w e He).
Qed.

(** ** What the table promises *)

Definition cleared_table (t : mac_tab) : Prop := Size t = 0 ∧ ∀ h p, Hash_ t !! h = Some p → p = None.

(** C27: Whatever stations came and went, an address is looked up in a bounded
    number of steps and gives the entry in use that has it, if there is one;
    an entry in use is a client and knows its index; [Size] is the number of
    entries in use; and leaving the network or closing the adapter empties
    every chain. *)
Theorem mac_table_invariant (n : network) (t : mac_tab) (Hr : reachable_table n t) :
  (∀ addr, ∃ r, table_lookup (Hash_ t) (Content_ t) addr = Some r ∧
     ∀ w, r = Some w ↔ ∃ e, Content_ t !! w = Some e ∧ EntryType e ≠ ENTRY_NONE ∧ Addr e = addr) ∧
  (∀ w e, Content_ t !! w = Some e → EntryType e ≠ ENTRY_NONE → EntryType e = ENTRY_CLIENT ∧ Aid e = Z.of_nat w ∧ (0 < w < 32)%nat) ∧
  Size t = Z.of_nat (length (filter used (Content_ t))) ∧
  (∃ t', MacTableReset t = Some t' ∧ cleared_table t') ∧
  (∀ port, ∃ t1 t2, link_down_entries t = Some t1 ∧ link_down_bssid t1 port = Some t2 ∧ cleared_table t2).
Proof.
  destruct (reachable_ok n t Hr) as [Ht _]. repeat split.
  - intros addr. by apply lookup_iff.
  - by apply (c_entry _ (c_shaped _ Ht) w).
  - by apply (c_entry _ (c_shaped _ Ht) w).
  - by apply (c_entry _ (c_shaped _ Ht) w e).
  - match goal with H : _ !! w = Some _ |- _ => apply lookup_lt_Some in H; by rewrite (c_content _ Ht) in H end.
  - apply Ht.
  - destruct (reset_ok t Ht) as (t' & Hres & Ht' & Hb). exists t'. split; [done|]. apply cleared; [done|]. by apply below_all.
  - intros port. destruct (down_ok t port Ht) as (t1 & t2 & H1 & H2 & Ht2 & Hap). exists t1, t2. do 2 (split; [done|]).
    apply cleared; [done|]. intros w e He Hu. by destruct (ap_only _ _ Hap w e He Hu).
Qed.

(** Without an entry in use no address is found. *)
Lemma unused_lookup t addr :
  consistent t → (∀ w e, Content_ t !! w = Some e → ¬ used e) → table_lookup (Hash_ t) (Content_ t) addr = Some None.
Proof.
  intros Ht Hno. destruct (lookup_iff t addr Ht) as ([w|] & Hl & Hi); [|done].
  destruct (proj1 (Hi w) eq_refl) as (e & He & Hu & _). by destruct (Hno w e He).
Qed.

(** C28: What an association does to the station table - the first one, or a later
    one while the entry of the access point that the station leaves is still
    there.  When the access point's rates suit the station's mode, one entry is
    left, the new access point's, and no other address is found; with a WPA mode
    it is in the state in which the receivers of EAPOL frames start the four-way
    handshake, without WPA it is open.  When they do not - an access point
    without OFDM for 802.11g only, without 802.11n for 802.11n only - nothing is
    registered although the association goes on: the table is empty. *)
Theorem association_registers (n : network) (t : mac_tab) (am ws : Z) (common aux : list Z) (PhyMode rate ht_len : Z)
    (Hr : reachable_table n t) (Hn : n = Idle ∨ n = Infra common) :
  ∃ t', assoc_table t am ws common aux (rates_accepted PhyMode rate ht_len) = Some t' ∧
    if rates_accepted PhyMode rate ht_len
    then ∃ e, Size t' = 1 ∧ Content_ t' !! BSSID_WCID = Some e ∧
      Addr e = aux ∧ AuthMode e = am ∧ WepStatus e = ws ∧ R_Counter e = zeros 8 ∧ PortSecured e = WPA_802_1X_PORT_SECURED ∧
      (WpaState e, PrivacyFilter e) =
        (if am <? Ndis802_11AuthModeWPA then (AS_NOTUSE, PrivFilterAcceptAll) else (AS_INITPSK, PrivFilter8021xWEP)) ∧
      ∀ a, Hash a = Hash_ t' → Content a = Content_ t' →
        MacTableLookup a aux = Some (Some BSSID_WCID) ∧
        (Ndis802_11AuthModeWPA <= am → associated a BSSID_WCID e) ∧
        ∀ addr, addr ≠ aux → MacTableLookup a addr = Some None
    else cleared_table t' ∧
      ∀ a addr, Hash a = Hash_ t' → Content a = Content_ t' → MacTableLookup a addr = Some None.
Proof.
  destruct (reachable_ok n t Hr) as [Ht Hnet].
  assert (access_point t (Some common)) as Hap by (by destruct Hn as [-> | ->]; [apply access_point_weaken|]).
  destruct (assoc_ok t am ws common aux (rates_accepted PhyMode rate ht_len) Ht Hap)
    as (t' & Hassoc & Ht' & Hap' & t0 & Ht0 & Hap0 & Hreg & He).
  exists t'. split; [done|]. destruct (rates_accepted _ _ _).
  2: { injection Hreg as ->.
       assert (∀ w e, Content_ t' !! w = Some e → ¬ used e) as Hno by (intros w e Hw Hu; by destruct (ap_only _ _ Hap0 w e Hw Hu)).
       split; [by apply cleared|]. intros a addr HH HC. unfold MacTableLookup. rewrite HH, HC. by apply unused_lookup. }
  destruct (He eq_refl) as (e0 & He1). set (e := set_identity _ _ _ _) in He1.
  assert (used e) as Hu by done. exists e. split; [by apply (one_entry t' e (Some aux))|].
  do 6 (split; [done|]). split; [cbn; by destruct (am <? _)|]. intros a HH HC.
  assert (∀ addr r, table_lookup (Hash_ t') (Content_ t') addr = Some r → MacTableLookup a addr = Some r) as Hlk
    by (intros addr r; unfold MacTableLookup; by rewrite HH, HC).
  destruct (lookup_iff t' aux Ht') as (r & Hl & Hi).
  assert (r = Some BSSID_WCID) as -> by (apply Hi; by exists e). split; [by apply Hlk|]. split.
  - intros Hwpa. assert ((am <? Ndis802_11AuthModeWPA) = false) as Ham by by apply Z.ltb_ge.
    split; cbn; rewrite ?HH, ?HC, ?Ham; try done. by apply Hlk.
  - intros addr Hne. clear Hl Hi. destruct (lookup_iff t' addr Ht') as (r & Hl & Hi). rewrite (Hlk _ _ Hl). f_equal.
    destruct r as [w|]; [|done]. destruct (proj1 (Hi w) eq_refl) as (x & Hx & Hux & Ha).
    destruct (ap_only _ _ Hap' w x Hx Hux) as [_ [= Hax]]. congruence.
Qed.

(** Why [PeerAssocRspAction] deletes the old entry first: if the entry of an
    access point is registered again in its bucket, it follows itself, and
    looking up any other address of that bucket does not end, whatever the
    number of steps allowed. *)
Theorem second_registration_loops (t : mac_tab) (e : wpa_entry) (am ws : Z) (bssid aux addr : list Z)
    (Ht : consistent t) (Hap : access_point t (Some bssid)) (He : Content_ t !! BSSID_WCID = Some e)
    (Hu : EntryType e ≠ ENTRY_NONE) (Hh : hash_of aux = hash_of bssid) (Ha : hash_of addr = hash_of aux) (Hne : addr ≠ aux) :
  ∃ t' p, register_bssid t am ws aux = Some t' ∧ Hash_ t' !! hash_of addr = Some p ∧
    ∀ fuel, lookup_chain fuel (Content_ t') p addr = None.
Proof.
  destruct (ap_only _ _ Hap _ _ He Hu) as [_ [= Haddr]]. destruct (ap_last _ _ Hap) as (x & Hx & Hn). assert (x = e) as -> by congruence.
  destruct (lookup_lt_is_Some_2 (Hash_ t) (hash_of aux)) as [p Hp]; [rewrite (c_hash _ Ht); apply hash_bound|].
  assert (p = Some BSSID_WCID) as ->.
  { destruct (c_chained _ Ht _ _ Hp) as (l & Hl & _ & Hm).
    assert (BSSID_WCID ∈ l) as Hin by (apply Hm; exists e; rewrite Haddr; done).
    destruct l as [|w l]; [by apply elem_of_nil in Hin|]. destruct Hl as [-> _].
    destruct (proj1 (Hm w)) as (y & Hy & Huy & _); [left|]. by destruct (ap_only _ _ Hap w y Hy Huy) as [-> _]. }
  pose proof (lookup_lt_Some _ _ _ He) as Hlt. unfold register_bssid, link_entry. rewrite He, Some_bind.
  cbn [Hash_ Content_ with_table]. rewrite Hp, Some_bind, length_insert.
  set (e1 := start_entry e am ws). destruct (length (Content_ t)) as [|n] eqn:Hlen; [lia|]. cbn [link_last].
  rewrite list_lookup_insert_eq, !Some_bind by lia. rewrite (Hn : pNext e1 = None), list_insert_insert_eq, !Some_bind.
  cbn [Hash_ Content_ with_table]. rewrite list_lookup_insert_eq, Some_bind by lia. eexists _, (Some BSSID_WCID).
  split; [done|]. split; [by rewrite Ha|]. cbn [Content_ with_size with_table]. rewrite list_insert_insert_eq.
  intros fuel. induction fuel as [|fuel IH]; [done|]. cbn [lookup_chain].
  rewrite list_lookup_insert_eq, Some_bind by lia. rewrite decide_False by done. rewrite bool_decide_false by (cbn; congruence).
  exact IH.
Qed.

Module Examples.
Definition sta1 : list Z := [0; 17; 34; 51; 68; 85].
Definition sta2 : list Z := [85; 68; 51; 34; 17; 0].

(** An ad-hoc network of two stations in one bucket. *)
Definition table1 : mac_tab := default empty_table (snd <$> MacTableInsertEntry empty_table 1 Ndis802_11AuthModeWPAPSK 6 sta1 0).
Definition table2 : mac_tab := default empty_table (snd <$> MacTableInsertEntry table1 1 Ndis802_11AuthModeWPAPSK 6 sta2 0).

(** The network of one access point. *)
Definition table3 : mac_tab := default empty_table (assoc_table empty_table Ndis802_11AuthModeWPAPSK 6 (zeros 6) sta1 true).

Lemma mac_table_invariant_witness :
  reachable_table Adhoc table2 ∧
  ∃ t', MacTableReset table2 = Some t' ∧ cleared_table t'.
Proof.
  assert (reachable_table Adhoc table2) as Hr.
  { eapply rtc_l; [apply step_adhoc|]. eapply rtc_l.
    - apply (step_insert _ Ndis802_11AuthModeWPAPSK 6 sta1 0 (Some 1%nat) table1); vm_compute; reflexivity.
    - eapply rtc_l; [|apply rtc_refl].
      apply (step_insert _ Ndis802_11AuthModeWPAPSK 6 sta2 0 (Some 2%nat) table2); vm_compute; reflexivity. }
  split; [exact Hr|]. apply (mac_table_invariant Adhoc table2 Hr).
Defined.

(** One that answers with 54 Mbit/s, and for a station of 802.11n only one
    without 802.11n. *)
Lemma association_registers_witness :
  reachable_table (Infra sta1) table3 ∧
  (∃ t' e, assoc_table table3 Ndis802_11AuthModeWPAPSK 6 sta1 sta2 (rates_accepted 0 108 0) = Some t' ∧ Size t' = 1 ∧ Addr e = sta2 ∧
     ∀ a, Hash a = Hash_ t' → Content a = Content_ t' → associated a BSSID_WCID e) ∧
  ∃ t', assoc_table table3 Ndis802_11AuthModeWPAPSK 6 sta1 sta2 (rates_accepted PHY_11N_2_4G 108 0) = Some t' ∧ cleared_table t'.
Proof.
  assert (reachable_table (Infra sta1) table3) as Hr.
  { eapply rtc_l; [|apply rtc_refl].
    apply (step_assoc _ Ndis802_11AuthModeWPAPSK 6 (zeros 6) sta1 true); vm_compute; reflexivity. }
  split; [exact Hr|]. split.
  - destruct (association_registers (Infra sta1) table3 Ndis802_11AuthModeWPAPSK 6 sta1 sta2 0 108 0 Hr (or_intror eq_refl))
      as (t' & H1 & e & H2 & _ & H3 & _ & _ & _ & _ & _ & H4).
    exists t', e. do 3 (split; [done|]). intros a Ha1 Ha2. apply (H4 a Ha1 Ha2). vm_compute. discriminate.
  - destruct (association_registers (Infra sta1) table3 Ndis802_11AuthModeWPAPSK 6 sta1 sta2 PHY_11N_2_4G 108 0 Hr (or_intror eq_refl))
      as (t' & H1 & H2 & _). exists t'. split; [exact H1|exact H2].
Defined.

Lemma second_registration_loops_witness :
  ∃ t' p, register_bssid table3 Ndis802_11AuthModeWPAPSK 6 sta1 = Some t' ∧ Hash_ t' !! hash_of sta2 = Some p ∧
    ∀ fuel, lookup_chain fuel (Content_ t') p sta2 = None.
Proof.
  assert (∃ t', assoc_table empty_table Ndis802_11AuthModeWPAPSK 6 (zeros 6) sta1 true = Some t' ∧
    consistent t' ∧ access_point t' (Some sta1)) as (t' & He & Ht & Hap).
  { destruct empty_ok as [H1 H2].
    destruct (assoc_ok empty_table Ndis802_11AuthModeWPAPSK 6 (zeros 6) sta1 true H1 (access_point_weaken _ _ H2))
      as (t' & ? & ? & ? & _). by exists t'. }
  assert (table3 = t') as <- by (unfold table3; rewrite He; reflexivity).
  eapply (second_registration_loops table3 _ _ _ sta1 sta1 sta2 Ht Hap); [vm_compute; reflexivity|vm_compute; discriminate| | |vm_compute; discriminate];
    vm_compute; reflexivity.
Defined.
End Examples.
