(* ===== verification/BssEntry.v ===== *)
(** * Entries of the scan table

    Models what the station keeps of a beacon or probe response:
    [BssEntrySet] and [BssCipherParse] of
    [linux/Arch/rt5370.driver/common/mlme.c].  The second reads the ciphers
    and key managements the access point announces out of its RSN and WPA
    elements.

    A pointer into [VarIEs] is a position in the list of its bytes, [None] an
    access outside an array.  The fields of [BSS_ENTRY] that neither these
    functions nor those of [BssTable] touch are left out, [EXT_BUILD_CHANNEL_LIST]
    is off. *)

From stdpp Require Import base list numbers list_numbers sets.
From Stdlib Require Import ZArith Lia.
From S2P Require Import Prelude WpaData EapolMsg EapolRecv RsnIe.

Definition MAX_LEN_OF_SSID : nat := 32.
Definition MAX_VIE_LEN : nat := 1024.
Definition MAX_LEN_OF_SUPPORTED_RATES : Z := 12.
Definition MAX_CUSTOM_LEN : Z := 128.
Definition BSS_ADHOC : Z := 0.
Definition BSS_INFRA : Z := 1.
Definition EXTCHA_ABOVE : Z := 1.
Definition EXTCHA_BELOW : Z := 3.
Definition BW_40 : Z := 1.
Definition Ndis802_11AuthModeOpen : Z := 0.
Definition Ndis802_11AuthModeMax : Z := 10.
Definition Ndis802_11WEPEnabled : Z := 0.
Definition WPS_OUI : list Z := [0x00; 0x50; 0xf2; 0x04].
Definition SES_OUI : list Z := [0x00; 0x90; 0x4c].
Definition ZeroSsid : list Z := zeros 32.

Definition CAP_IS_PRIVACY_ON (x : Z) : bool := negb (x & 0x0010 =? 0).

(** ** State *)

Record CIPHER_SUITE := { PairCipher : Z; PairCipherAux : Z; GroupCipher : Z; RsnCapability : Z; bMixMode : bool }.

(** The fields [BssCipherParse] writes. *)
Record bss_ciphers := {
  AuthMode : Z;
  AuthModeAux : Z;
  WepStatus : Z;
  WPA : CIPHER_SUITE;
  WPA2 : CIPHER_SUITE;
  bSES : bool;
}.

Record WPA_IE_ := { IELen : Z; IE : list Z }.

(** [EDCA_PARM], [QOS_CAPABILITY_PARM], [QBSS_LOAD_PARM]: the flag and the rest. *)
Record qos_parm := { bValid : bool; parm : list Z }.

Record CF_PARM := { cf_bValid : bool; cf_CfpCount : Z; cf_CfpPeriod : Z; cf_CfpMaxDuration : Z; cf_CfpDurRemaining : Z }.

(** The fields of [BSS_ENTRY] that [BssEntrySet] writes. *)
Record bss_desc := {
  Bssid : list Z;
  Channel : Z;
  CentralChannel : Z;
  BssType : Z;
  AtimWin : Z;
  BeaconPeriod : Z;
  SupRate : list Z;
  SupRateLen : Z;
  ExtRate : list Z;
  ExtRateLen : Z;
  HtCapability : list Z;
  HtCapabilityLen : Z;
  AddHtInfo : list Z;
  AddHtInfoLen : Z;
  NewExtChanOffset : Z;
  Rssi : Z;
  Privacy : bool;
  Hidden : bool;
  CapabilityInfo : Z;
  CfpCount : Z;
  CfpPeriod : Z;
  CfpMaxDuration : Z;
  CfpDurRemaining : Z;
  SsidLen : Z;
  Ssid : list Z;
  LastBeaconRxTime : Z;
  ciphers : bss_ciphers;
  FixIEs : list Z * Z * Z;
  VarIELen : Z;
  VarIEs : list Z;
  CkipFlag : Z;
  EdcaParm : qos_parm;
  QosCapability : qos_parm;
  QbssLoad : qos_parm;
  WpaIE : WPA_IE_;
  RsnIE : WPA_IE_;
  WpsIE : WPA_IE_;
}.

(** The arguments of [BssEntrySet] and [BssTableSetEntry], in their order. *)
Record bss_args := {
  a_Bssid : list Z;
  a_Ssid : list Z;
  a_SsidLen : Z;
  a_BssType : Z;
  a_BeaconPeriod : Z;
  a_CfParm : CF_PARM;
  a_AtimWin : Z;
  a_CapabilityInfo : Z;
  a_SupRate : list Z;
  a_SupRateLen : Z;
  a_ExtRate : list Z;
  a_ExtRateLen : Z;
  a_HtCapability : list Z;
  a_AddHtInfo : list Z;
  a_HtCapabilityLen : Z;
  a_AddHtInfoLen : Z;
  a_NewExtChanOffset : Z;
  a_Channel : Z;
  a_Rssi : Z;
  a_TimeStamp : list Z;
  a_CkipFlag : Z;
  a_EdcaParm : option qos_parm;
  a_QosCapability : option qos_parm;
  a_QbssLoad : option qos_parm;
  a_LengthVIE : Z;
  a_VIE : list Z;
}.

(** ** Ciphers and key managements *)

(** Assignments to one field. *)
Definition set_group (s : CIPHER_SUITE) (g : Z) : CIPHER_SUITE :=
  {| PairCipher := PairCipher s; PairCipherAux := PairCipherAux s; GroupCipher := g;
     RsnCapability := RsnCapability s; bMixMode := bMixMode s |}.
Definition set_aux (s : CIPHER_SUITE) (x : Z) : CIPHER_SUITE :=
  {| PairCipher := PairCipher s; PairCipherAux := x; GroupCipher := GroupCipher s;
     RsnCapability := RsnCapability s; bMixMode := bMixMode s |}.
Definition set_capability (s : CIPHER_SUITE) (x : Z) : CIPHER_SUITE :=
  {| PairCipher := PairCipher s; PairCipherAux := PairCipherAux s; GroupCipher := GroupCipher s;
     RsnCapability := x; bMixMode := bMixMode s |}.

(** [if (GroupCipher != PairCipher) bMixMode = TRUE;] *)
Definition set_mix (s : CIPHER_SUITE) : CIPHER_SUITE :=
  {| PairCipher := PairCipher s; PairCipherAux := PairCipherAux s; GroupCipher := GroupCipher s;
     RsnCapability := RsnCapability s; bMixMode := bMixMode s || negb (GroupCipher s =? PairCipher s) |}.

Definition set_WPA (c : bss_ciphers) (s : CIPHER_SUITE) : bss_ciphers :=
  {| AuthMode := AuthMode c; AuthModeAux := AuthModeAux c; WepStatus := WepStatus c; WPA := s; WPA2 := WPA2 c; bSES := bSES c |}.
Definition set_WPA2 (c : bss_ciphers) (s : CIPHER_SUITE) : bss_ciphers :=
  {| AuthMode := AuthMode c; AuthModeAux := AuthModeAux c; WepStatus := WepStatus c; WPA := WPA c; WPA2 := s; bSES := bSES c |}.
Definition set_WepStatus (c : bss_ciphers) (w : Z) : bss_ciphers :=
  {| AuthMode := AuthMode c; AuthModeAux := AuthModeAux c; WepStatus := w; WPA := WPA c; WPA2 := WPA2 c; bSES := bSES c |}.
Definition set_modes (c : bss_ciphers) (mode aux : Z) : bss_ciphers :=
  {| AuthMode := mode; AuthModeAux := aux; WepStatus := WepStatus c; WPA := WPA c; WPA2 := WPA2 c; bSES := bSES c |}.
Definition set_SES (c : bss_ciphers) : bss_ciphers :=
  {| AuthMode := AuthMode c; AuthModeAux := AuthModeAux c; WepStatus := WepStatus c; WPA := WPA c; WPA2 := WPA2 c; bSES := true |}.

(** [switch] over the suite type of the group cipher. *)
Definition group_cipher (type old : Z) : Z :=
  if type =? 1 then Ndis802_11GroupWEP40Enabled
  else if type =? 5 then Ndis802_11GroupWEP104Enabled
  else if type =? 2 then Ndis802_11Encryption2Enabled
  else if type =? 4 then Ndis802_11Encryption3Enabled
  else old.

(** [TmpCipher] *)
Definition pair_cipher (type : Z) : Z :=
  if (type =? 1) || (type =? 5) then Ndis802_11Encryption1Enabled
  else if type =? 2 then Ndis802_11Encryption2Enabled
  else if type =? 4 then Ndis802_11Encryption3Enabled
  else Ndis802_11WEPDisabled.

Definition add_pair (s : CIPHER_SUITE) (TmpCipher : Z) : CIPHER_SUITE :=
  if PairCipher s <? TmpCipher
  then {| PairCipher := TmpCipher; PairCipherAux := PairCipher s; GroupCipher := GroupCipher s;
          RsnCapability := RsnCapability s; bMixMode := bMixMode s |}
  else set_aux s TmpCipher.

(** [while (Count > 0)] over the pairwise suites; their OUI is skipped. *)
Fixpoint pair_loop (Count : nat) (m : list Z) (pTmp : Z) (s : CIPHER_SUITE) : option (CIPHER_SUITE * Z) :=
  match Count with
  | O => Some (s, pTmp)
  | S Count => type ← load8 m (pTmp + 3); pair_loop Count m (pTmp + 4) (add_pair s (pair_cipher type))
  end.

(** [if (AuthMode == Open) AuthMode = mode; else AuthModeAux = mode;] *)
Definition add_auth_mode (c : bss_ciphers) (mode : Z) : bss_ciphers :=
  if AuthMode c =? Ndis802_11AuthModeOpen then set_modes c mode (AuthModeAux c) else set_modes c (AuthMode c) mode.

Definition wpa_auth_mode (c : bss_ciphers) (type : Z) : bss_ciphers :=
  if type =? 1 then add_auth_mode c Ndis802_11AuthModeWPA
  else if type =? 2 then add_auth_mode c Ndis802_11AuthModeWPAPSK
  else c.

Definition wpa2_auth_mode (c : bss_ciphers) (type : Z) : bss_ciphers :=
  add_auth_mode c (if type =? 0 then Ndis802_11AuthModeWPANone
                   else if type =? 1 then Ndis802_11AuthModeWPA2
                   else if type =? 2 then Ndis802_11AuthModeWPA2PSK
                   else Ndis802_11AuthModeMax).

(** "Patched bugs for old driver" *)
Definition patch_aux (s : CIPHER_SUITE) : CIPHER_SUITE :=
  if PairCipherAux s =? Ndis802_11WEPDisabled then set_aux s (GroupCipher s) else s.

(** [case IE_WPA], the element at [pEid]. *)
Definition parse_wpa (m : list Z) (pEid BssType : Z) (c : bss_ciphers) : option bss_ciphers :=
  ses ← NdisEqualMemory m (pEid + 2) SES_OUI 0 3;
  Len ← load8 m (pEid + 1);
  if ses && (Len =? 7) then Some (set_SES c)
  else
    wpa ← NdisEqualMemory m (pEid + 2) WPA_OUI 0 4;
    if negb wpa then Some c
    else
      let pTmp := pEid + 11 in
      type ← load8 m pTmp;
      let s := set_group (WPA c) (group_cipher type (GroupCipher (WPA c))) in
      let pTmp := pTmp + 1 in
      Count ← load16 m pTmp;
      '(s, pTmp) ← pair_loop (Z.to_nat Count) m (pTmp + 2) s;
      Count ← load16 m pTmp;
      let pTmp := pTmp + 2 + 3 in
      type ← load8 m pTmp;
      let c := wpa_auth_mode c type in
      if BssType =? BSS_ADHOC
      then
        let c := set_modes c Ndis802_11AuthModeWPANone Ndis802_11AuthModeWPANone in
        let c := set_WepStatus c (GroupCipher s) in
        Some (set_WPA c (set_mix (patch_aux s)))
      else Some (set_WPA (set_WepStatus c (PairCipher s)) (set_mix s)).

(** [while (Count > 0)] over the key managements. *)
Fixpoint akm_loop (Count : nat) (m : list Z) (pTmp : Z) (c : bss_ciphers) : option (bss_ciphers * Z) :=
  match Count with
  | O => Some (c, pTmp)
  | S Count =>
      oui ← NdisEqualMemory m pTmp RSN_OUI 0 3;
      if negb oui then Some (c, pTmp)
      else type ← load8 m (pTmp + 3); akm_loop Count m (pTmp + 4) (wpa2_auth_mode c type)
  end.

(** [case IE_RSN] *)
Definition parse_rsn (m : list Z) (pEid BssType : Z) (c : bss_ciphers) : option bss_ciphers :=
  Version ← load16 m (pEid + 2);
  if negb (Version =? 1) then Some c
  else
    let pTmp := pEid + 4 in
    oui ← NdisEqualMemory m pTmp RSN_OUI 0 3;
    if negb oui then Some c
    else
      type ← load8 m (pTmp + 3);
      let s := set_group (WPA2 c) (group_cipher type (GroupCipher (WPA2 c))) in
      let pTmp := pTmp + 4 in
      Count ← load16 m pTmp;
      '(s, pTmp) ← pair_loop (Z.to_nat Count) m (pTmp + 2) s;
      Count ← load16 m pTmp;
      '(c, pTmp) ← akm_loop (Z.to_nat Count) m (pTmp + 2) c;
      let c :=
        if BssType =? BSS_ADHOC
        then
          let w := set_group (set_aux (WPA c) (PairCipherAux s)) (GroupCipher s) in
          set_WPA (set_WepStatus c (GroupCipher w)) (patch_aux w)
        else c in
      let c := set_WepStatus c (PairCipher s) in
      cap ← load16 m pTmp;
      Some (set_WPA2 c (set_mix (set_capability s cap))).

(** [while (Length > 0)] over the elements; [Length] an [INT]. *)
Fixpoint cipher_loop (fuel : nat) (m : list Z) (BssType VarIELen Length : Z) (c : bss_ciphers) : option bss_ciphers :=
  if Length <=? 0 then Some c
  else
    match fuel with
    | O => None
    | S fuel =>
        let pTmp := VarIELen - Length in
        Eid ← load8 m pTmp;
        c ← (if Eid =? IE_WPA then parse_wpa m pTmp BssType c
             else if Eid =? IE_RSN then parse_rsn m pTmp BssType c
             else Some c);
        Len ← load8 m (pTmp + 1);
        cipher_loop fuel m BssType VarIELen (Length - (Len + 2)) c
    end.

Definition no_cipher : CIPHER_SUITE :=
  {| PairCipher := Ndis802_11WEPDisabled; PairCipherAux := Ndis802_11WEPDisabled; GroupCipher := Ndis802_11WEPDisabled;
     RsnCapability := 0; bMixMode := false |}.

(** "Set default to disable & open authentication before parsing variable IE" *)
Definition no_security (Privacy bSES : bool) : bss_ciphers :=
  {| AuthMode := Ndis802_11AuthModeOpen; AuthModeAux := Ndis802_11AuthModeOpen;
     WepStatus := if Privacy then Ndis802_11WEPEnabled else Ndis802_11WEPDisabled;
     WPA := no_cipher; WPA2 := no_cipher; bSES := bSES |}.

(** The function reads [Privacy], [BssType], [VarIEs], [VarIELen] and keeps [bSES]. *)
Definition BssCipherParse (Privacy : bool) (BssType : Z) (VarIEs : list Z) (VarIELen : Z) (bSES : bool) : option bss_ciphers :=
  cipher_loop (Z.to_nat VarIELen) VarIEs BssType VarIELen VarIELen (no_security Privacy bSES).

(** ** Filling an entry *)

(** [NdisMoveMemory(dst, src, n)] *)
Definition NdisMoveMemory (dst src : list Z) (n : Z) : option (list Z) := b ← load src 0 n; store dst 0 b.

(** The SSID: what is in the entry, what the frame has. *)
Definition set_ssid (ssid : list Z) (len : Z) (newSsid : list Z) (newLen : Z) : option (list Z * Z * bool) :=
  if 0 <? newLen
  then
    zero ← NdisEqualMemory newSsid 0 ZeroSsid 0 newLen;
    if negb zero
    then s ← NdisMoveMemory (zeros MAX_LEN_OF_SSID) newSsid newLen; Some (s, newLen, false)
    else Some (ssid, len, true)
  else
    zero ← NdisEqualMemory ssid 0 ZeroSsid 0 len;
    Some (if (zero : bool) then (zeros MAX_LEN_OF_SSID, 0, true) else (ssid, len, true)).

(** One element of a kind that is kept whole; a longer one clears the length. *)
Definition save_ie (w : WPA_IE_) (m : list Z) (pEid Len : Z) : option WPA_IE_ :=
  if MAX_CUSTOM_LEN <? Len + 2 then Some {| IELen := 0; IE := IE w |}
  else ie ← NdisMoveMemory (IE w) (drop (Z.to_nat pEid) m) (u8 (Len + 2)); Some {| IELen := u8 (Len + 2); IE := ie |}.

Record saved_ies := { s_WpaIE : WPA_IE_; s_RsnIE : WPA_IE_; s_WpsIE : WPA_IE_ }.

(** The [switch] of the loop. *)
Definition save_element (m : list Z) (pEid Len : Z) (s : saved_ies) : option saved_ies :=
  Eid ← load8 m pEid;
  if Eid =? IE_WPA
  then
    wps ← NdisEqualMemory m (pEid + 2) WPS_OUI 0 4;
    if (wps : bool) then w ← save_ie (s_WpsIE s) m pEid Len; Some {| s_WpaIE := s_WpaIE s; s_RsnIE := s_RsnIE s; s_WpsIE := w |}
    else
      wpa ← NdisEqualMemory m (pEid + 2) WPA_OUI 0 4;
      if (wpa : bool) then w ← save_ie (s_WpaIE s) m pEid Len; Some {| s_WpaIE := w; s_RsnIE := s_RsnIE s; s_WpsIE := s_WpsIE s |}
      else Some s
  else if Eid =? IE_RSN
  then
    rsn ← NdisEqualMemory m (pEid + 2 + 2) RSN_OUI 0 3;
    if (rsn : bool) then w ← save_ie (s_RsnIE s) m pEid Len; Some {| s_WpaIE := s_WpaIE s; s_RsnIE := w; s_WpsIE := s_WpsIE s |}
    else Some s
  else Some s.

(** [while ((Length + 2 + pEid->Len) <= LengthVIE)]; [Length] is a [USHORT], [pEid]
    is [pVIE + Length]. *)
Fixpoint save_loop (fuel : nat) (m : list Z) (LengthVIE Length : Z) (s : saved_ies) : option saved_ies :=
  match fuel with
  | O => None
  | S fuel =>
      Len ← load8 m (Length + 1);
      if Length + 2 + Len <=? LengthVIE
      then s ← save_element m Length Len s; save_loop fuel m LengthVIE (u16 (Length + 2 + Len)) s
      else Some s
  end.

Definition no_ie : WPA_IE_ := {| IELen := 0; IE := zeros (Z.to_nat MAX_CUSTOM_LEN) |}.

Definition set_parm (old : qos_parm) (new : option qos_parm) : qos_parm :=
  match new with Some p => p | None => {| bValid := false; parm := parm old |} end.

(** The capability and operation elements of 802.11n, and the channel in the
    middle of the 40 MHz the access point uses. *)
Definition set_ht (b : bss_desc) (a : bss_args) : option (list Z * Z * list Z * Z * Z) :=
  if 0 <? a_HtCapabilityLen a
  then
    ht ← NdisMoveMemory (HtCapability b) (a_HtCapability a) (a_HtCapabilityLen a);
    if 0 <? a_AddHtInfoLen a
    then
      add ← NdisMoveMemory (AddHtInfo b) (a_AddHtInfo a) (a_AddHtInfoLen a);
      let ControlChan := (a_AddHtInfo a).[0] in
      let ExtChanOffset := (a_AddHtInfo a).[1] & 3 in
      let ChannelWidth := ((a_HtCapability a).[0] >> 1) & 1 in
      let central :=
        if (2 <? ControlChan) && (ExtChanOffset =? EXTCHA_BELOW) && (ChannelWidth =? BW_40) then u8 (ControlChan - 2)
        else if (ExtChanOffset =? EXTCHA_ABOVE) && (ChannelWidth =? BW_40) then u8 (ControlChan + 2)
        else a_Channel a in
      Some (ht, a_HtCapabilityLen a, add, a_AddHtInfoLen a, central)
    else Some (ht, a_HtCapabilityLen a, AddHtInfo b, 0, a_Channel a)
  else Some (HtCapability b, 0, AddHtInfo b, 0, a_Channel a).

(** [now] is what [NdisGetSystemUpTime] answers. *)
Definition BssEntrySet (now : Z) (b : bss_desc) (a : bss_args) : option bss_desc :=
  '(ssid, ssid_len, hidden) ← set_ssid (Ssid b) (SsidLen b) (a_Ssid a) (a_SsidLen a);
  let infra := a_BssType a =? BSS_INFRA in
  let cf := a_CfParm a in
  let keep (old new : Z) : Z := if infra && cf_bValid cf then new else old in
  let privacy := CAP_IS_PRIVACY_ON (a_CapabilityInfo a) in
  sup ← NdisMoveMemory (SupRate b) (a_SupRate a) (Z.min (a_SupRateLen a) MAX_LEN_OF_SUPPORTED_RATES);
  let ExtRateLen := Z.min (a_ExtRateLen a) MAX_LEN_OF_SUPPORTED_RATES in
  ext ← NdisMoveMemory (ExtRate b) (a_ExtRate a) ExtRateLen;
  vie ← (if negb (a_LengthVIE a =? 0) then NdisMoveMemory (VarIEs b) (a_VIE a) (a_LengthVIE a) else Some (VarIEs b));
  '(ht, ht_len, add, add_len, central) ← set_ht b a;
  c ← BssCipherParse privacy (a_BssType a) vie (a_LengthVIE a) (bSES (ciphers b));
  s ← save_loop (S (Z.to_nat (a_LengthVIE a))) (a_VIE a) (a_LengthVIE a) 0
        {| s_WpaIE := no_ie; s_RsnIE := no_ie; s_WpsIE := no_ie |};
  Some {|
    Bssid := a_Bssid a; Channel := a_Channel a; CentralChannel := central; BssType := a_BssType a;
    AtimWin := if infra then AtimWin b else a_AtimWin a; BeaconPeriod := a_BeaconPeriod a;
    SupRate := sup; SupRateLen := a_SupRateLen a; ExtRate := ext; ExtRateLen := ExtRateLen;
    HtCapability := ht; HtCapabilityLen := ht_len; AddHtInfo := add; AddHtInfoLen := add_len;
    NewExtChanOffset := a_NewExtChanOffset a; Rssi := a_Rssi a; Privacy := privacy; Hidden := hidden;
    CapabilityInfo := a_CapabilityInfo a;
    CfpCount := keep (CfpCount b) (cf_CfpCount cf); CfpPeriod := keep (CfpPeriod b) (cf_CfpPeriod cf);
    CfpMaxDuration := keep (CfpMaxDuration b) (cf_CfpMaxDuration cf);
    CfpDurRemaining := keep (CfpDurRemaining b) (cf_CfpDurRemaining cf);
    SsidLen := ssid_len; Ssid := ssid; LastBeaconRxTime := now; ciphers := c;
    FixIEs := (a_TimeStamp a, a_BeaconPeriod a, a_CapabilityInfo a);
    VarIELen := a_LengthVIE a; VarIEs := vie; CkipFlag := a_CkipFlag a;
    EdcaParm := set_parm (EdcaParm b) (a_EdcaParm a); QosCapability := set_parm (QosCapability b) (a_QosCapability a);
    QbssLoad := set_parm (QbssLoad b) (a_QbssLoad a);
    WpaIE := s_WpaIE s; RsnIE := s_RsnIE s; WpsIE := s_WpsIE s |}.

(** ** What an access point announces *)

Definition suite_type (s : list Z) : Z := s.[3].

(** The cipher suite selectors of IEEE 802.11, and the status the driver has for
    each, as group cipher and as pairwise cipher. *)
Inductive suite_cipher := Suite_WEP40 | Suite_TKIP | Suite_CCMP | Suite_WEP104.

#[export] Instance suite_cipher_eq_dec : EqDecision suite_cipher.
Proof. solve_decision. Defined.

Definition suite_selectors : list (Z * suite_cipher) :=
  [(1, Suite_WEP40); (2, Suite_TKIP); (4, Suite_CCMP); (5, Suite_WEP104)].

Definition suite_named (s : list Z) : option suite_cipher :=
  snd <$> List.find (λ x, x.1 =? suite_type s) suite_selectors.

Definition group_status (c : suite_cipher) : Z :=
  match c with
  | Suite_WEP40 => Ndis802_11GroupWEP40Enabled
  | Suite_TKIP => Ndis802_11Encryption2Enabled
  | Suite_CCMP => Ndis802_11Encryption3Enabled
  | Suite_WEP104 => Ndis802_11GroupWEP104Enabled
  end.

Definition pairwise_status (c : suite_cipher) : Z :=
  match c with
  | Suite_WEP40 | Suite_WEP104 => Ndis802_11Encryption1Enabled
  | Suite_TKIP => Ndis802_11Encryption2Enabled
  | Suite_CCMP => Ndis802_11Encryption3Enabled
  end.

Definition suite_status (s : list Z) : Z := from_option pairwise_status Ndis802_11WEPDisabled (suite_named s).

(** The suites of an element, in the order of the element, taken into account
    one by one; a group suite that names no cipher leaves the group cipher. *)
Definition add_suites (s : CIPHER_SUITE) (r : rsn) : CIPHER_SUITE :=
  foldl add_pair (set_group s (from_option group_status (GroupCipher s) (suite_named (r_group r))))
    (suite_status <$> r_pairwise r).

Definition announce_wpa (BssType : Z) (c : bss_ciphers) (r : rsn) : bss_ciphers :=
  let s := add_suites (WPA c) r in
  let c := wpa_auth_mode c (suite_type (hd [] (r_akm r))) in
  if BssType =? BSS_ADHOC
  then set_WPA (set_WepStatus (set_modes c Ndis802_11AuthModeWPANone Ndis802_11AuthModeWPANone) (GroupCipher s)) (set_mix (patch_aux s))
  else set_WPA (set_WepStatus c (PairCipher s)) (set_mix s).

Definition announce_rsn (BssType : Z) (c : bss_ciphers) (r : rsn) (cap : list Z) : bss_ciphers :=
  let s := add_suites (WPA2 c) r in
  let c := foldl wpa2_auth_mode c (suite_type <$> r_akm r) in
  let c :=
    if BssType =? BSS_ADHOC
    then set_WPA (set_WepStatus c (GroupCipher s)) (patch_aux (set_group (set_aux (WPA c) (PairCipherAux s)) (GroupCipher s)))
    else c in
  set_WPA2 (set_WepStatus c (PairCipher s)) (set_mix (set_capability s (le_word cap))).

(** An RSN or WPA element, the seven bytes of the SES element, or an element the
    parser passes over. *)
Inductive announced :=
| Suites (r : rsn)
| Ses (payload : list Z)
| Plain (x : element).

Definition element_of (i : announced) : element :=
  match i with
  | Suites r => (if r_wpa2 r then IE_RSN else IE_WPA, rsn_body r)
  | Ses payload => (IE_WPA, payload)
  | Plain x => x
  end.

Definition announced_bytes (l : list announced) : list Z := elements_bytes (element_of <$> l).

Definition announce (BssType : Z) (c : bss_ciphers) (i : announced) : bss_ciphers :=
  match i with
  | Suites r => match r_tail r with
                | Some (cap, _) => announce_rsn BssType c r cap
                | None => announce_wpa BssType c r
                end
  | Ses _ => set_SES c
  | Plain _ => c
  end.

(** Elements as they should be: an RSN element has its capabilities - the parser
    does not look whether they are there - and suites of 802.11. *)
Definition announced_wf (i : announced) : Prop :=
  match i with
  | Suites r => rsn_wf r ∧
      if r_wpa2 r
      then (∃ t, r_tail r = Some t) ∧ take 3 (r_group r) = RSN_OUI ∧ Forall (λ s, take 3 s = RSN_OUI) (r_akm r)
      else True
  | Ses payload => length payload = 7%nat ∧ take 3 payload = SES_OUI
  | Plain x => (length x.2 <= 255)%nat ∧
      (x.1 = IE_WPA → (4 <= length x.2)%nat ∧ take 4 x.2 ≠ WPA_OUI ∧ (length x.2 = 7%nat → take 3 x.2 ≠ SES_OUI)) ∧
      (x.1 = IE_RSN → (5 <= length x.2)%nat ∧ (le_word (take 2 x.2) ≠ 1 ∨ slice x.2 2 3 ≠ RSN_OUI))
  end.

(** ** Reading at a known place *)

Lemma NdisEqualMemory_at m p a x c y n :
  m = a ++ x ++ c → p = Z.of_nat (length a) → length x = Z.to_nat n → 0 <= n → length y = Z.to_nat n →
  NdisEqualMemory m p y 0 n = Some (bool_decide (x = y)).
Proof.
  intros Hm Hp Hx Hn Hy. unfold NdisEqualMemory. replace n with (Z.of_nat (length x)) at 1 by lia.
  rewrite (load_at m p a x c Hm Hp), Some_bind. rewrite load_ok by lia. by rewrite Some_bind, slice_all.
Qed.

Lemma load8_at m p a x c : m = a ++ x :: c → p = Z.of_nat (length a) → load8 m p = Some x.
Proof. intros Hm Hp. unfold load8. by rewrite (load_at m p a [x] c Hm Hp : load m p 1 = Some [x]). Qed.

Lemma suite_split s : length s = 4%nat → s = take 3 s ++ [suite_type s].
Proof. intros H. do 5 (destruct s; try discriminate). done. Qed.

Lemma pair_loop_at ls : ∀ m p a c s,
  m = a ++ concat ls ++ c → p = Z.of_nat (length a) → all_long 4 ls →
  pair_loop (length ls) m p s = Some (foldl add_pair s (pair_cipher ∘ suite_type <$> ls), p + Z.of_nat (length (concat ls))).
Proof.
  induction ls as [|l ls IH]; intros m p a c s Hm Hp Hk; cbn [length pair_loop concat].
  { cbn. f_equal. f_equal. lia. }
  apply Forall_cons in Hk as [Hl Hk]. cbn [concat] in Hm.
  rewrite (load8_at m (p + 3) (a ++ take 3 l) (suite_type l) (concat ls ++ c));
    [|by rewrite Hm, <- !app_assoc; f_equal; rewrite (suite_split l Hl) at 1; rewrite <- app_assoc|rewrite length_app, length_take; lia].
  rewrite Some_bind, (IH m (p + 4) (a ++ l) c); [|by rewrite Hm, <- !app_assoc|rewrite length_app; lia|done].
  rewrite fmap_cons. cbn [foldl]. rewrite length_app, Hl. do 2 f_equal. lia.
Qed.

Lemma akm_loop_at ls : ∀ m p a c s,
  m = a ++ concat ls ++ c → p = Z.of_nat (length a) → all_long 4 ls → Forall (λ x, take 3 x = RSN_OUI) ls →
  akm_loop (length ls) m p s = Some (foldl wpa2_auth_mode s (suite_type <$> ls), p + Z.of_nat (length (concat ls))).
Proof.
  induction ls as [|l ls IH]; intros m p a c s Hm Hp Hk Ho; cbn [length akm_loop concat].
  { cbn. f_equal. f_equal. lia. }
  apply Forall_cons in Hk as [Hl Hk]. apply Forall_cons in Ho as [Hlo Ho]. cbn [concat] in Hm.
  assert (m = a ++ take 3 l ++ suite_type l :: concat ls ++ c) as Hm'.
  { rewrite Hm. f_equal. rewrite (suite_split l Hl) at 1. by rewrite <- !app_assoc. }
  rewrite (NdisEqualMemory_at m p a (take 3 l) _ RSN_OUI 3 Hm' Hp) by (rewrite ?length_take, ?Hl; done).
  rewrite Hlo, bool_decide_eq_true_2, Some_bind by done. cbn [negb].
  rewrite (load8_at m (p + 3) (a ++ take 3 l) (suite_type l) (concat ls ++ c)); [|by rewrite Hm', <- app_assoc|rewrite length_app, length_take; lia].
  rewrite Some_bind, (IH m (p + 4) (a ++ l) c); [|by rewrite Hm, <- !app_assoc|rewrite length_app; lia|done|done].
  rewrite fmap_cons. cbn [foldl]. rewrite length_app, Hl. do 2 f_equal. lia.
Qed.

(** ** The cases of the parser on a well-formed element *)

(** Both sides of a [.._at] lemma: the bytes before a position, and their number. *)
Ltac at_place Hm :=
  first [ by rewrite Hm, <- ?app_assoc
        | rewrite ?length_app, ?length_le_bytes; cbn [length]; lia ].

Lemma load_n_at m p a b c n :
  m = a ++ b ++ c → p = Z.of_nat (length a) → Z.of_nat (length b) = n → load m p n = Some b.
Proof. intros Hm Hp <-. by apply (load_at m p a b c). Qed.

(** The two [switch]es follow the table of selectors. *)
Lemma group_cipher_named s old : group_cipher (suite_type s) old = from_option group_status old (suite_named s).
Proof.
  unfold group_cipher, suite_named, suite_selectors. cbn [List.find fst]. rewrite !(Z.eqb_sym (suite_type s)).
  destruct (Z.eqb_spec 1 (suite_type s)); [done|]. destruct (Z.eqb_spec 2 (suite_type s)) as [<-|]; [done|].
  destruct (Z.eqb_spec 4 (suite_type s)) as [<-|]; [done|]. by destruct (Z.eqb_spec 5 (suite_type s)).
Qed.

Lemma pair_cipher_named s : pair_cipher (suite_type s) = suite_status s.
Proof.
  unfold pair_cipher, suite_status, suite_named, suite_selectors. cbn [List.find fst]. rewrite !(Z.eqb_sym (suite_type s)).
  destruct (Z.eqb_spec 1 (suite_type s)); [done|]. destruct (Z.eqb_spec 2 (suite_type s)) as [<-|]; [done|].
  destruct (Z.eqb_spec 4 (suite_type s)) as [<-|]; [done|]. by destruct (Z.eqb_spec 5 (suite_type s)).
Qed.

Lemma add_suites_code s r :
  foldl add_pair (set_group s (group_cipher (suite_type (r_group r)) (GroupCipher s))) (pair_cipher ∘ suite_type <$> r_pairwise r) =
  add_suites s r.
Proof. unfold add_suites. rewrite group_cipher_named. f_equal. apply list_fmap_ext. intros ? ? _. apply pair_cipher_named. Qed.

Section Suites.
Context (r : rsn) (Hwf : rsn_wf r).

Lemma suite_counts :
  Z.of_nat (length (r_pairwise r)) < 65536 ∧ Z.of_nat (length (r_akm r)) < 65536.
Proof.
  pose proof (wf_length _ Hwf) as Hl. destruct (wf_pairwise _ Hwf) as [Hp _], (wf_akm _ Hwf) as [Ha _].
  unfold rsn_body in Hl. rewrite !length_app, (length_counted 4 _ Hp), (length_counted 4 _ Ha) in Hl. lia.
Qed.

Lemma first_akm : ∃ s l, r_akm r = s :: l ∧ length s = 4%nat.
Proof.
  destruct (wf_akm _ Hwf) as [Ha Hne]. destruct (r_akm r) as [|s l]; [done|]. apply Forall_cons in Ha as [Hs _]. eauto.
Qed.

(** The group suite at [q] and what follows it. *)
Lemma suites_at m q b d s :
  m = b ++ r_group r ++ counted (r_pairwise r) ++ counted (r_akm r) ++ d → q = Z.of_nat (length b) →
  let np := Z.of_nat (length (r_pairwise r)) in
  let after := q + 6 + Z.of_nat (length (concat (r_pairwise r))) in
  load8 m (q + 3) = Some (suite_type (r_group r)) ∧
  load16 m (q + 4) = Some np ∧
  pair_loop (Z.to_nat np) m (q + 6) s = Some (foldl add_pair s (pair_cipher ∘ suite_type <$> r_pairwise r), after) ∧
  load16 m after = Some (Z.of_nat (length (r_akm r))) ∧
  m = (b ++ r_group r ++ counted (r_pairwise r) ++ le_bytes 2 (Z.of_nat (length (r_akm r)))) ++ concat (r_akm r) ++ d ∧
  after + 2 = Z.of_nat (length (b ++ r_group r ++ counted (r_pairwise r) ++ le_bytes 2 (Z.of_nat (length (r_akm r))))).
Proof.
  intros Hm Hq np after. pose proof suite_counts as [Hnp Hna]. pose proof (wf_group _ Hwf) as Hg.
  destruct (wf_pairwise _ Hwf) as [Hp _]. unfold counted in *. rewrite <- !app_assoc in Hm. split_and!.
  - apply (load8_at m _ (b ++ take 3 (r_group r)) _ (le_bytes 2 np ++ concat (r_pairwise r) ++ le_bytes 2 (Z.of_nat (length (r_akm r))) ++ concat (r_akm r) ++ d)).
    + rewrite Hm, (suite_split _ Hg) at 1. by rewrite <- !app_assoc.
    + rewrite length_app, length_take. lia.
  - eapply (load16_at m _ (b ++ r_group r)); [at_place Hm..|lia].
  - unfold np. rewrite Nat2Z.id. eapply (pair_loop_at _ m _ (b ++ r_group r ++ le_bytes 2 np)); [at_place Hm..|done].
  - eapply (load16_at m _ (b ++ r_group r ++ le_bytes 2 np ++ concat (r_pairwise r))); [at_place Hm..|lia].
  - at_place Hm.
  - at_place Hm.
Qed.

Context (a c : list Z) (BssType : Z) (k : bss_ciphers).
Let m := a ++ rsn_encode r ++ c.
Let p := Z.of_nat (length a).
Let h := [if r_wpa2 r then IE_RSN else IE_WPA; Z.of_nat (length (rsn_body r))].

Lemma parse_rsn_at cap rest :
  r_wpa2 r = true → r_tail r = Some (cap, rest) →
  take 3 (r_group r) = RSN_OUI → Forall (λ s, take 3 s = RSN_OUI) (r_akm r) →
  parse_rsn m p BssType k = Some (announce_rsn BssType k r cap).
Proof.
  intros Hw Ht Hgo Hao. pose proof (wf_tail _ Hwf) as Hc. rewrite Ht in Hc. destruct Hc as (_ & Hc & _).
  pose proof (wf_group _ Hwf) as Hg. destruct (wf_akm _ Hwf) as [Ha _].
  set (t := match rest with None => [] | Some ls => counted ls end ++ c).
  assert (m = (a ++ h ++ le_bytes 2 1) ++ r_group r ++ counted (r_pairwise r) ++ counted (r_akm r) ++ cap ++ t) as Hm.
  { unfold m, rsn_encode, h, t. rewrite <- !app_assoc. do 2 f_equal. unfold rsn_body, rsn_head, rsn_tail. rewrite Hw, Ht.
    change (le_bytes 2 1) with [1; 0]. destruct rest; by rewrite <- !app_assoc. }
  assert (p + 4 = Z.of_nat (length (a ++ h ++ le_bytes 2 1))) as Hp.
  { unfold p, h. rewrite !length_app, length_le_bytes. cbn [length]. lia. }
  unfold parse_rsn. rewrite <- !app_assoc in Hm.
  rewrite (load16_at m (p + 2) (a ++ h) 1 (r_group r ++ counted (r_pairwise r) ++ counted (r_akm r) ++ cap ++ t));
    [|at_place Hm|unfold p, h; at_place Hm|done].
  rewrite Some_bind, Z.eqb_refl. cbn [negb].
  rewrite (NdisEqualMemory_at m (p + 4) (a ++ h ++ le_bytes 2 1) (take 3 (r_group r)) (suite_type (r_group r) :: counted (r_pairwise r) ++ counted (r_akm r) ++ cap ++ t));
    [|rewrite Hm, (suite_split _ Hg) at 1; by rewrite <- !app_assoc|done|by rewrite length_take, Hg|done|done].
  rewrite Hgo, bool_decide_eq_true_2, Some_bind by done. cbn [negb].
  destruct (suites_at m (p + 4) (a ++ h ++ le_bytes 2 1) (cap ++ t) (set_group (WPA2 k) (group_cipher (suite_type (r_group r)) (GroupCipher (WPA2 k)))))
    as (-> & Hn & Hloop & Hn' & Hm' & Hq); [by rewrite Hm, <- !app_assoc|done|]. rewrite Some_bind.
  rewrite Hn, Some_bind. replace (p + 4 + 4 + 2) with (p + 4 + 6) by lia. rewrite Hloop, Some_bind, Hn', Some_bind, Nat2Z.id.
  rewrite (akm_loop_at _ m _ _ (cap ++ t) _ Hm' Hq) by done. rewrite Some_bind. unfold load16.
  rewrite (load_n_at m _ ((a ++ h ++ le_bytes 2 1) ++ r_group r ++ counted (r_pairwise r) ++ le_bytes 2 (Z.of_nat (length (r_akm r))) ++ concat (r_akm r)) cap t);
    [|rewrite Hm' at 1; by rewrite <- !app_assoc|rewrite Hq, !length_app; lia|by rewrite Hc].
  rewrite add_suites_code. done.
Qed.

Lemma parse_wpa_at :
  r_wpa2 r = false → r_tail r = None → parse_wpa m p BssType k = Some (announce_wpa BssType k r).
Proof.
  intros Hw Ht. pose proof (wf_group _ Hwf) as Hg. destruct first_akm as (s1 & l1 & Hak & Hs1).
  assert (m = (a ++ h ++ WPA_OUI ++ le_bytes 2 1) ++ r_group r ++ counted (r_pairwise r) ++ counted (r_akm r) ++ c) as Hm.
  { unfold m, rsn_encode, h. rewrite <- !app_assoc. do 2 f_equal. unfold rsn_body, rsn_head, rsn_tail. rewrite Hw, Ht.
    by rewrite app_nil_r, <- !app_assoc. }
  assert (p + 8 = Z.of_nat (length (a ++ h ++ WPA_OUI ++ le_bytes 2 1))) as Hp.
  { unfold p, h. rewrite !length_app, length_le_bytes. cbn [length WPA_OUI]. lia. }
  unfold parse_wpa. rewrite <- !app_assoc in Hm.
  rewrite (NdisEqualMemory_at m (p + 2) (a ++ h) (take 3 WPA_OUI) ([0x01] ++ le_bytes 2 1 ++ r_group r ++ counted (r_pairwise r) ++ counted (r_akm r) ++ c) SES_OUI 3);
    [|at_place Hm|unfold p, h; at_place Hm|done..].
  rewrite Some_bind.
  rewrite (load8_at m (p + 1) (a ++ [if r_wpa2 r then IE_RSN else IE_WPA]) (Z.of_nat (length (rsn_body r))) (WPA_OUI ++ le_bytes 2 1 ++ r_group r ++ counted (r_pairwise r) ++ counted (r_akm r) ++ c));
    [|at_place Hm|unfold p, h; at_place Hm].
  rewrite Some_bind. change (bool_decide (take 3 WPA_OUI = SES_OUI)) with false. cbn [andb].
  rewrite (NdisEqualMemory_at m (p + 2) (a ++ h) WPA_OUI (le_bytes 2 1 ++ r_group r ++ counted (r_pairwise r) ++ counted (r_akm r) ++ c));
    [|at_place Hm|unfold p, h; at_place Hm|done..].
  rewrite bool_decide_eq_true_2, Some_bind by done. cbn [negb].
  destruct (suites_at m (p + 8) (a ++ h ++ WPA_OUI ++ le_bytes 2 1) c (set_group (WPA k) (group_cipher (suite_type (r_group r)) (GroupCipher (WPA k)))))
    as (Ht' & Hn & Hloop & Hn' & Hm' & Hq); [by rewrite Hm, <- !app_assoc|done|].
  replace (p + 11) with (p + 8 + 3) by lia. rewrite Ht', Some_bind. replace (p + 8 + 3 + 1) with (p + 8 + 4) by lia.
  rewrite Hn, Some_bind. replace (p + 8 + 4 + 2) with (p + 8 + 6) by lia. rewrite Hloop, Some_bind, Hn', Some_bind.
  set (pre := (a ++ h ++ _) ++ _) in Hm', Hq. clearbody pre.
  assert (m = (pre ++ take 3 s1) ++ suite_type s1 :: concat l1 ++ c) as Hs.
  { rewrite Hm', Hak. cbn [concat]. rewrite (suite_split _ Hs1) at 1. by rewrite <- !app_assoc. }
  rewrite (load8_at m _ _ _ _ Hs) by (rewrite length_app, length_take; lia).
  rewrite Some_bind, add_suites_code. unfold announce_wpa. rewrite Hak. cbn [hd].
  by destruct (BssType =? BSS_ADHOC).
Qed.
End Suites.

(** ** The parser on a sequence of elements *)

Section Loop.
Context (BssType : Z).

Lemma parse_element i a c k :
  announced_wf i →
  let m := a ++ element_bytes (element_of i) ++ c in
  let p := Z.of_nat (length a) in
  let Eid := (element_of i).1 in
  (if Eid =? IE_WPA then parse_wpa m p BssType k
   else if Eid =? IE_RSN then parse_rsn m p BssType k else Some k) = Some (announce BssType k i).
Proof.
  intros Hi m p Eid. destruct i as [r|payload|[eid body]]; cbn [announced_wf element_of announce fst snd] in *.
  - destruct Hi as [Hwf Hi]. pose proof (wf_tail _ Hwf) as Ht. subst Eid m. cbn [fst].
    destruct (r_wpa2 r) eqn:Hw.
    + destruct Hi as ([[cap rest] Htail] & Hg & Ha). rewrite Htail. change (element_bytes (IE_RSN, rsn_body r)) with ([IE_RSN; Z.of_nat (length (rsn_body r))] ++ rsn_body r).
      change (IE_RSN =? IE_WPA) with false. change (IE_RSN =? IE_RSN) with true.
      pose proof (parse_rsn_at r Hwf a c BssType k cap rest Hw Htail Hg Ha) as H. unfold rsn_encode in H. by rewrite Hw in H.
    + destruct (r_tail r) as [[cap rest]|] eqn:Htail; [by destruct Ht|].
      change (IE_WPA =? IE_WPA) with true.
      pose proof (parse_wpa_at r Hwf a c BssType k Hw Htail) as H. unfold rsn_encode in H. by rewrite Hw in H.
  - destruct Hi as [Hl Hs]. subst Eid. change (IE_WPA =? IE_WPA) with true. unfold parse_wpa.
    assert (m = (a ++ [IE_WPA; 7]) ++ take 3 payload ++ drop 3 payload ++ c) as Hm.
    { unfold m, element_bytes. cbn [fst snd]. rewrite Hl, <- !app_assoc. do 2 f_equal. by rewrite app_assoc, take_drop. }
    rewrite (NdisEqualMemory_at m (p + 2) _ _ _ SES_OUI 3 Hm) by (rewrite ?length_take, ?Hl, ?length_app; first [done|cbn; lia]).
    rewrite Hs, bool_decide_eq_true_2, Some_bind by done. rewrite <- app_assoc in Hm.
    rewrite (load8_at m (p + 1) (a ++ [IE_WPA]) 7 (take 3 payload ++ drop 3 payload ++ c)); [done|by rewrite Hm, <- app_assoc|rewrite length_app; cbn; lia].
  - destruct Hi as (Hl & Hv & Hr). subst Eid.
    assert (m = (a ++ [eid; Z.of_nat (length body)]) ++ body ++ c) as Hm.
    { unfold m, element_bytes. cbn [fst snd]. by rewrite <- !app_assoc. }
    assert (∀ off n y, (off + n <= length body)%nat → length y = n →
      NdisEqualMemory m (p + 2 + Z.of_nat off) y 0 (Z.of_nat n) = Some (bool_decide (slice body off n = y))) as Heq.
    { intros off n y Hle Hy.
      apply (NdisEqualMemory_at m _ ((a ++ [eid; Z.of_nat (length body)]) ++ take off body) _ (drop (off + n) body ++ c)); [|rewrite !length_app, length_take; cbn; lia|rewrite length_slice; lia|lia|lia].
      rewrite Hm, <- !app_assoc. do 2 f_equal. unfold slice.
      rewrite <- drop_drop, (app_assoc (take n _)), take_drop, app_assoc. by rewrite take_drop. }
    destruct (Z.eqb_spec eid IE_WPA) as [->|Hne].
    + destruct (Hv eq_refl) as (H4 & Hwpa & Hses). unfold parse_wpa.
      pose proof (Heq 0%nat 3%nat SES_OUI ltac:(lia) eq_refl) as H1. rewrite Z.add_0_r in H1. change (Z.of_nat 3) with 3 in H1. rewrite H1, Some_bind.
      rewrite (load8_at m (p + 1) (a ++ [IE_WPA]) (Z.of_nat (length body)) (body ++ c)); [|by rewrite Hm, <- !app_assoc|rewrite length_app; cbn; lia].
      rewrite Some_bind.
      assert (bool_decide (slice body 0 3 = SES_OUI) && (Z.of_nat (length body) =? 7) = false) as ->.
      { apply andb_false_iff. destruct (Z.eqb_spec (Z.of_nat (length body)) 7) as [H7|]; [left|by right].
        apply bool_decide_eq_false_2. apply Hses. lia. }
      pose proof (Heq 0%nat 4%nat WPA_OUI ltac:(lia) eq_refl) as H2. rewrite Z.add_0_r in H2. change (Z.of_nat 4) with 4 in H2. rewrite H2, Some_bind.
      by rewrite bool_decide_eq_false_2.
    + destruct (Z.eqb_spec eid IE_RSN) as [->|]; [|done]. destruct (Hr eq_refl) as (H5 & Hbad). unfold parse_rsn, load16.
      rewrite (load_n_at m (p + 2) (a ++ [IE_RSN; Z.of_nat (length body)]) (take 2 body) (drop 2 body ++ c));
        [|rewrite Hm; f_equal; by rewrite app_assoc, take_drop|rewrite length_app; cbn; lia|rewrite length_take; lia].
      rewrite !Some_bind. destruct (Z.eqb_spec (le_word (take 2 body)) 1) as [H1|]; [|done]. cbn [negb].
      pose proof (Heq 2%nat 3%nat RSN_OUI ltac:(lia) eq_refl) as H3. change (Z.of_nat 3) with 3 in H3.
      replace (p + 4) with (p + 2 + Z.of_nat 2) by lia. rewrite H3, Some_bind.
      rewrite bool_decide_eq_false_2; [done|]. by destruct Hbad.
Qed.

Lemma announced_cons i l : announced_bytes (i :: l) = element_bytes (element_of i) ++ announced_bytes l.
Proof. unfold announced_bytes, elements_bytes. by rewrite !fmap_cons. Qed.

Lemma cipher_loop_at l : ∀ a c k fuel,
  Forall announced_wf l → (length l <= fuel)%nat →
  cipher_loop fuel (a ++ announced_bytes l ++ c) BssType (Z.of_nat (length (a ++ announced_bytes l))) (Z.of_nat (length (announced_bytes l))) k =
    Some (foldl (announce BssType) k l).
Proof.
  induction l as [|i l IH]; intros a c k fuel Hl Hf.
  { destruct fuel; cbn [cipher_loop announced_bytes foldl]; by rewrite (proj2 (Z.leb_le _ _)) by (cbn; lia). }
  apply Forall_cons in Hl as [Hi Hl]. destruct fuel as [|fuel]; [cbn in Hf; lia|]. cbn [length] in Hf.
  pose proof (length_element (element_of i)) as He. rewrite announced_cons, !length_app.
  set (m := a ++ (element_bytes (element_of i) ++ announced_bytes l) ++ c).
  assert (m = a ++ element_bytes (element_of i) ++ announced_bytes l ++ c) as Hm by (unfold m; by rewrite <- !app_assoc).
  assert (m = (a ++ element_bytes (element_of i)) ++ announced_bytes l ++ c) as Hm2 by (by rewrite Hm, <- !app_assoc).
  cbn [cipher_loop]. rewrite (proj2 (Z.leb_gt _ _)) by lia.
  replace (_ - _) with (Z.of_nat (length a)) by lia.
  assert (load8 m (Z.of_nat (length a)) = Some (element_of i).1 ∧ load8 m (Z.of_nat (length a) + 1) = Some (Z.of_nat (length (element_of i).2))) as [-> HL].
  { split.
    - apply (load8_at m _ a _ ([Z.of_nat (length (element_of i).2)] ++ (element_of i).2 ++ announced_bytes l ++ c)); [|done].
      rewrite Hm. unfold element_bytes. by rewrite <- !app_assoc.
    - apply (load8_at m _ (a ++ [(element_of i).1]) _ ((element_of i).2 ++ announced_bytes l ++ c)); [|rewrite length_app; cbn; lia].
      rewrite Hm. unfold element_bytes. by rewrite <- !app_assoc. }
  pose proof (parse_element i a (announced_bytes l ++ c) k Hi) as Hp. cbv zeta in Hp. rewrite <- Hm in Hp.
  rewrite Some_bind, Hp, Some_bind, HL, Some_bind. cbn [foldl].
  rewrite <- (IH (a ++ element_bytes (element_of i)) c _ fuel) by (done || lia). rewrite Hm2. f_equal; rewrite ?length_app; lia.
Qed.

Lemma BssCipherParse_at l c Privacy ses :
  Forall announced_wf l →
  BssCipherParse Privacy BssType (announced_bytes l ++ c) (Z.of_nat (length (announced_bytes l))) ses =
    Some (foldl (announce BssType) (no_security Privacy ses) l).
Proof.
  intros Hl. unfold BssCipherParse. rewrite Nat2Z.id. apply (cipher_loop_at l []); [done|].
  clear. induction l as [|i l IH]; [done|]. rewrite announced_cons, length_app, length_element. cbn [length]. lia.
Qed.
End Loop.

(** ** What the ciphers mean *)

(** The strongest pairwise cipher of an element - AES before TKIP, and neither
    for an element that has WEP only - and the mode of its first key
    management. *)
Definition offers (c : suite_cipher) (l : list (list Z)) : bool := existsb (λ s, bool_decide (suite_named s = Some c)) l.

Definition strongest_of (l : list (list Z)) : Z :=
  if offers Suite_CCMP l then Ndis802_11Encryption3Enabled
  else if offers Suite_TKIP l then Ndis802_11Encryption2Enabled
  else Ndis802_11WEPDisabled.

Definition strongest (r : rsn) : Z := strongest_of (r_pairwise r).

Definition announced_mode (r : rsn) : Z :=
  let type := suite_type (hd [] (r_akm r)) in
  if r_wpa2 r
  then if type =? 0 then Ndis802_11AuthModeWPANone
       else if type =? 1 then Ndis802_11AuthModeWPA2
       else if type =? 2 then Ndis802_11AuthModeWPA2PSK else Ndis802_11AuthModeMax
  else if type =? 1 then Ndis802_11AuthModeWPA
       else if type =? 2 then Ndis802_11AuthModeWPAPSK else Ndis802_11AuthModeOpen.

Definition suites_of (l : list announced) : list rsn :=
  omap (λ i, match i with Suites r => Some r | _ => None end) l.

(** What a station that wants to join takes from the entry.  An ad hoc network
    with a WPA element has one key for all, that of its group cipher. *)
Definition wpa_none (BssType : Z) (r : rsn) : bool := (BssType =? BSS_ADHOC) && negb (r_wpa2 r).

Record describes (BssType : Z) (k : bss_ciphers) (r : rsn) (s : CIPHER_SUITE) : Prop := {
  d_group : GroupCipher s = from_option group_status Ndis802_11WEPDisabled (suite_named (r_group r));
  d_pair : PairCipher s = strongest r;
  d_status : WepStatus k = if wpa_none BssType r then GroupCipher s else strongest r;
  d_mix : bMixMode s = negb (GroupCipher s =? PairCipher s);
  d_mode : AuthMode k = if wpa_none BssType r then Ndis802_11AuthModeWPANone else announced_mode r;
}.

Lemma strongest_max l : ∀ acc, Ndis802_11WEPDisabled <= acc →
  foldl Z.max acc (suite_status <$> l) = Z.max acc (strongest_of l).
Proof.
  unfold suite_status, strongest_of, Ndis802_11Encryption3Enabled, Ndis802_11Encryption2Enabled, Ndis802_11WEPDisabled.
  induction l as [|s l IH]; intros acc Hacc; [cbn; lia|].
  rewrite fmap_cons. cbn [foldl offers existsb]. fold (offers Suite_CCMP l). fold (offers Suite_TKIP l).
  rewrite IH by lia. destruct (suite_named s) as [[]|]; cbn [from_option pairwise_status];
    unfold Ndis802_11Encryption1Enabled, Ndis802_11Encryption2Enabled, Ndis802_11Encryption3Enabled;
    repeat case_bool_decide; try done; cbn [orb]; destruct (offers Suite_CCMP l), (offers Suite_TKIP l); lia.
Qed.

Lemma foldl_add_pair ts : ∀ s,
  PairCipher (foldl add_pair s ts) = foldl Z.max (PairCipher s) ts ∧
  GroupCipher (foldl add_pair s ts) = GroupCipher s ∧ bMixMode (foldl add_pair s ts) = bMixMode s.
Proof.
  induction ts as [|t ts IH]; intros s; [done|]. cbn [foldl]. destruct (IH (add_pair s t)) as (-> & -> & ->).
  unfold add_pair. destruct (Z.ltb_spec (PairCipher s) t); cbn; split_and!; try done; f_equal; lia.
Qed.

Lemma modes_after_first k modes :
  AuthMode k ≠ Ndis802_11AuthModeOpen → AuthMode (foldl wpa2_auth_mode k modes) = AuthMode k.
Proof.
  revert k. induction modes as [|t modes IH]; intros k Hk; [done|]. cbn [foldl].
  assert (AuthMode (wpa2_auth_mode k t) = AuthMode k) as Hs.
  { unfold wpa2_auth_mode, add_auth_mode. by rewrite (proj2 (Z.eqb_neq _ _) Hk). }
  rewrite IH; [done|]. by rewrite Hs.
Qed.

Lemma added_suites r :
  let s := add_suites no_cipher r in
  PairCipher s = strongest r ∧
  GroupCipher s = from_option group_status Ndis802_11WEPDisabled (suite_named (r_group r)) ∧ bMixMode s = false.
Proof.
  unfold add_suites, strongest. cbv zeta. set (s0 := set_group _ _).
  destruct (foldl_add_pair (suite_status <$> r_pairwise r) s0) as (-> & -> & ->). split; [|done].
  change (PairCipher s0) with Ndis802_11WEPDisabled. rewrite strongest_max by done.
  apply Z.max_r. unfold strongest_of. by destruct (offers _ _); [|destruct (offers _ _)].
Qed.

(** Nothing announced yet. *)
Definition silent (k : bss_ciphers) : Prop :=
  AuthMode k = Ndis802_11AuthModeOpen ∧ WPA k = no_cipher ∧ WPA2 k = no_cipher.

Lemma foldl_wpa2_modes k : ∀ modes,
  WPA (foldl wpa2_auth_mode k modes) = WPA k ∧ WPA2 (foldl wpa2_auth_mode k modes) = WPA2 k.
Proof.
  intros modes. revert k. induction modes as [|t modes IH]; intros k; [done|]. cbn [foldl].
  destruct (IH (wpa2_auth_mode k t)) as [-> ->]. unfold wpa2_auth_mode, add_auth_mode. by destruct (AuthMode k =? _).
Qed.

Section Announced.
Context (BssType : Z).

Lemma patch_aux_keeps s :
  PairCipher (patch_aux s) = PairCipher s ∧ GroupCipher (patch_aux s) = GroupCipher s ∧ bMixMode (patch_aux s) = bMixMode s.
Proof. unfold patch_aux. by destruct (_ =? _). Qed.

(** The first key management decides. *)
Lemma first_mode k r s1 l1 :
  AuthMode k = Ndis802_11AuthModeOpen → r_wpa2 r = true → r_akm r = s1 :: l1 →
  AuthMode (foldl wpa2_auth_mode k (suite_type <$> r_akm r)) = announced_mode r.
Proof.
  intros Ho Hw Hak. rewrite Hak, fmap_cons. cbn [foldl]. unfold announced_mode. rewrite Hw, Hak. cbn [hd].
  assert (AuthMode (wpa2_auth_mode k (suite_type s1)) = (if suite_type s1 =? 0 then Ndis802_11AuthModeWPANone
     else if suite_type s1 =? 1 then Ndis802_11AuthModeWPA2
     else if suite_type s1 =? 2 then Ndis802_11AuthModeWPA2PSK else Ndis802_11AuthModeMax)) as Hmode.
  { unfold wpa2_auth_mode, add_auth_mode. by rewrite Ho. }
  rewrite modes_after_first; [done|]. rewrite Hmode. by repeat destruct (suite_type s1 =? _).
Qed.

Lemma announce_describes k r :
  silent k → announced_wf (Suites r) →
  let k' := announce BssType k (Suites r) in
  describes BssType k' r (if r_wpa2 r then WPA2 k' else WPA k').
Proof.
  intros (Ho & HW & HW2) [Hwf Hi] k'. destruct (first_akm r Hwf) as (s1 & l1 & Hak & _).
  pose proof (wf_tail _ Hwf) as Ht. subst k'. cbn [announce].
  destruct (added_suites r) as (Hp & Hg & Hm).
  destruct (r_wpa2 r) eqn:Hw.
  - destruct Hi as ([[cap rest] Htail] & _ & _). rewrite Htail. unfold announce_rsn. rewrite HW2.
    pose proof (first_mode k r s1 l1 Ho Hw Hak) as Hmode.
    assert (wpa_none BssType r = false) as Hn by (unfold wpa_none; by rewrite Hw, andb_false_r).
    split; rewrite ?Hn; cbn [WPA2 GroupCipher PairCipher bMixMode WepStatus set_WPA2 set_WepStatus set_mix set_capability];
      rewrite ?Hg, ?Hp, ?Hm; try done.
    by destruct (BssType =? BSS_ADHOC).
  - destruct (r_tail r) as [[cap rest]|]; [by destruct Ht|]. unfold announce_wpa. rewrite HW.
    destruct (patch_aux_keeps (add_suites no_cipher r)) as (Hp' & Hg' & Hm').
    assert (wpa_none BssType r = (BssType =? BSS_ADHOC)) as Hn by (unfold wpa_none; by rewrite Hw, andb_true_r).
    destruct (BssType =? BSS_ADHOC) eqn:Ha; (split; rewrite ?Hn;
      cbn [WPA AuthMode GroupCipher PairCipher bMixMode WepStatus set_WPA set_WepStatus set_modes set_mix];
      rewrite ?Hg', ?Hp', ?Hm', ?Hg, ?Hp, ?Hm; try done).
    unfold announced_mode, wpa_auth_mode, add_auth_mode. rewrite Hw, Hak, Ho. cbn [hd].
    destruct (suite_type s1 =? 1); [done|]. by destruct (suite_type s1 =? 2).
Qed.

Lemma announce_none l : ∀ k, suites_of l = [] →
  let k' := foldl (announce BssType) k l in
  AuthMode k' = AuthMode k ∧ WepStatus k' = WepStatus k ∧ WPA k' = WPA k ∧ WPA2 k' = WPA2 k.
Proof.
  induction l as [|[r|payload|x] l IH]; intros k Hl; [done|done| |]; cbn [foldl announce]; [|by apply IH].
  destruct (IH (set_SES k) Hl) as (-> & -> & -> & ->). done.
Qed.

Lemma describes_one l r : ∀ k,
  suites_of l = [r] → Forall announced_wf l → silent k →
  let k' := foldl (announce BssType) k l in
  describes BssType k' r (if r_wpa2 r then WPA2 k' else WPA k').
Proof.
  induction l as [|[r'|payload|x] l IH]; intros k Hl Hwf Hk; [done| | |]; apply Forall_cons in Hwf as [Hi Hwf];
    cbn [foldl]; [| |by apply IH].
  - cbn in Hl. injection Hl as -> Hl. destruct (announce_describes k r Hk Hi) as [H1 H2 H3 H4 H5].
    destruct (announce_none l (announce BssType k (Suites r)) Hl) as (Ha & Hb & Hc & Hd).
    split; rewrite ?Ha, ?Hb, ?Hc, ?Hd; done.
  - by apply IH.
Qed.
End Announced.

(** C24: The elements of a beacon, well formed, are taken into account in their
    order.  When a network has one RSN or WPA element, the entry gets the cipher
    IEEE 802.11 gives its group suite, AES when a pairwise suite is CCMP and
    otherwise TKIP when one is TKIP, and the mode of its first key management; an
    ad hoc network with a WPA element gets the mode WPA-None and the group
    cipher as its status. *)
Theorem BssCipherParse_spec Privacy BssType l pad ses :
  Forall announced_wf l →
  ∃ k, BssCipherParse Privacy BssType (announced_bytes l ++ pad) (Z.of_nat (length (announced_bytes l))) ses = Some k ∧
    k = foldl (announce BssType) (no_security Privacy ses) l ∧
    ∀ r, suites_of l = [r] → describes BssType k r (if r_wpa2 r then WPA2 k else WPA k).
Proof.
  intros Hl. eexists. split; [by apply BssCipherParse_at|]. split; [done|]. intros r Hr. by apply describes_one.
Qed.

(** The number of pairwise suites is not compared with the length of the element:
    a beacon with this element of eight bytes makes the parser read a quarter of a
    megabyte behind it. *)
Lemma BssCipherParse_overrun :
  let VarIEs := [IE_RSN; 8; 1; 0; 0x00; 0x0f; 0xac; 4; 0xff; 0xff] in
  BssCipherParse true BSS_INFRA (put (zeros MAX_VIE_LEN) 0 VarIEs) (Z.of_nat (length VarIEs)) false = None.
Proof. vm_compute. reflexivity. Qed.

(** A third pairwise suite hides the second: this access point offers TKIP, but
    the entry knows only AES and WEP. *)
Lemma pair_cipher_forgotten :
  let s := foldl add_pair no_cipher (pair_cipher <$> [4; 2; 5]) in
  PairCipher s = Ndis802_11Encryption3Enabled ∧ PairCipherAux s = Ndis802_11Encryption1Enabled.
Proof. done. Qed.

Module Sample.
Definition suite (n : Z) : list Z := RSN_OUI ++ [n].
Definition psk_ccmp : rsn :=
  {| r_wpa2 := true; r_group := suite 2; r_pairwise := [suite 4; suite 2]; r_akm := [suite 2]; r_tail := Some ([0; 0], None) |}.

Definition elements : list announced := [Plain (3, [1]); Suites psk_ccmp].

Lemma psk_ccmp_wf : rsn_wf psk_ccmp.
Proof. split; unfold all_long; cbn [psk_ccmp r_group r_pairwise r_akm r_tail r_wpa2]; split_and?; first [done | by repeat constructor | vm_compute; lia]. Qed.

Lemma elements_wf : Forall announced_wf elements.
Proof.
  unfold elements. apply Forall_cons. split; [|apply Forall_cons; split; [|by apply Forall_nil]].
  - split; [cbn; lia|]. by split.
  - split; [apply psk_ccmp_wf|]. split; [by eexists|]. split; [done|by repeat constructor].
Qed.

Lemma BssCipherParse_spec_witness :
  Forall announced_wf elements ∧
  ∃ k, BssCipherParse true BSS_INFRA (announced_bytes elements ++ []) (Z.of_nat (length (announced_bytes elements))) false = Some k ∧
    k = foldl (announce BSS_INFRA) (no_security true false) elements ∧
    ∀ r, suites_of elements = [r] → describes BSS_INFRA k r (if r_wpa2 r then WPA2 k else WPA k).
Proof. split; [exact elements_wf|]. apply (BssCipherParse_spec true BSS_INFRA elements [] false elements_wf). Defined.
End Sample.

(** ** The SSID of an entry *)

(** An SSID that names something: not empty and not only zero bytes. *)
Definition visible (ssid : list Z) (len : Z) : bool := negb (forallb (Z.eqb 0) (take (Z.to_nat len) ssid)).

Lemma zero_ssid ssid len :
  length ssid = MAX_LEN_OF_SSID → 0 <= len <= 32 →
  NdisEqualMemory ssid 0 ZeroSsid 0 len = Some (negb (visible ssid len)).
Proof.
  intros Hs Hl. unfold NdisEqualMemory, visible, MAX_LEN_OF_SSID in *. rewrite negb_involutive.
  rewrite !load_ok by (unfold ZeroSsid; rewrite ?length_zeros, ?Hs; lia). rewrite !Some_bind. unfold slice. rewrite !drop_0.
  f_equal. unfold ZeroSsid, zeros. rewrite take_replicate, Nat.min_l by lia.
  assert (length (take (Z.to_nat len) ssid) = Z.to_nat len) as Hlen by (rewrite length_take; lia).
  generalize dependent (take (Z.to_nat len) ssid). clear. generalize (Z.to_nat len) as n.
  intros n t. revert n. induction t as [|b t IH]; intros [|n] Hn; try done.
  cbn [replicate forallb]. rewrite <- (IH n) by (cbn in Hn; lia).
  destruct (Z.eqb_spec 0 b) as [<-|Hb]; cbn [andb].
  - apply bool_decide_ext. split; [by intros [= H]|by intros ->].
  - apply bool_decide_eq_false_2. congruence.
Qed.

(** A beacon with a visible SSID replaces the SSID; a hidden one never overwrites
    a visible SSID. *)
Lemma set_ssid_ok ssid len new newLen :
  length ssid = MAX_LEN_OF_SSID → 0 <= len <= 32 → length new = MAX_LEN_OF_SSID → 0 <= newLen <= 32 →
  set_ssid ssid len new newLen =
    Some (if visible new newLen then (put (zeros MAX_LEN_OF_SSID) 0 (take (Z.to_nat newLen) new), newLen, false)
          else if visible ssid len || (0 <? newLen) then (ssid, len, true) else (zeros MAX_LEN_OF_SSID, 0, true)).
Proof.
  intros Hs Hl Hn Hnl. unfold set_ssid. destruct (Z.ltb_spec 0 newLen) as [H0|H0].
  - rewrite zero_ssid, Some_bind, negb_involutive by done. destruct (visible new newLen); [|by rewrite orb_true_r].
    unfold NdisMoveMemory. rewrite load_ok by (unfold MAX_LEN_OF_SSID in *; lia). rewrite Some_bind.
    rewrite store_ok by (unfold MAX_LEN_OF_SSID in *; rewrite ?length_slice, ?length_zeros by lia; lia). done.
  - replace newLen with 0 by lia. rewrite zero_ssid, Some_bind by done. change (visible new 0) with false. rewrite orb_false_r.
    by destruct (visible ssid len).
Qed.

(** ** The elements kept whole *)

Definition ie_wf (x : element) : Prop :=
  (length x.2 <= 255)%nat ∧ (x.1 = IE_WPA → (4 <= length x.2)%nat) ∧ (x.1 = IE_RSN → (5 <= length x.2)%nat).

Definition stored (w : WPA_IE_) (x : element) : WPA_IE_ :=
  if (126 <? length x.2)%nat then {| IELen := 0; IE := IE w |}
  else {| IELen := Z.of_nat (length (element_bytes x)); IE := put (IE w) 0 (element_bytes x) |}.

Definition keep_ie (s : saved_ies) (x : element) : saved_ies :=
  if x.1 =? IE_WPA
  then if bool_decide (take 4 x.2 = WPS_OUI) then {| s_WpaIE := s_WpaIE s; s_RsnIE := s_RsnIE s; s_WpsIE := stored (s_WpsIE s) x |}
       else if bool_decide (take 4 x.2 = WPA_OUI) then {| s_WpaIE := stored (s_WpaIE s) x; s_RsnIE := s_RsnIE s; s_WpsIE := s_WpsIE s |}
       else s
  else if (x.1 =? IE_RSN) && bool_decide (slice x.2 2 3 = RSN_OUI)
  then {| s_WpaIE := s_WpaIE s; s_RsnIE := stored (s_RsnIE s) x; s_WpsIE := s_WpsIE s |}
  else s.

Definition long_ies (s : saved_ies) : Prop :=
  length (IE (s_WpaIE s)) = 128%nat ∧ length (IE (s_RsnIE s)) = 128%nat ∧ length (IE (s_WpsIE s)) = 128%nat.

Lemma keep_ie_long s x : long_ies s → long_ies (keep_ie s x).
Proof.
  intros (H1 & H2 & H3). unfold keep_ie, stored, long_ies.
  repeat case_match; cbn; rewrite ?length_put; done.
Qed.

Section Save.
Context (pad : list Z) (Hpad : (2 <= length pad)%nat) (Hbytes : bytes pad).

Lemma save_ie_at w a x c :
  length (IE w) = 128%nat → (length x.2 <= 255)%nat →
  save_ie w (a ++ element_bytes x ++ c) (Z.of_nat (length a)) (Z.of_nat (length x.2)) = Some (stored w x).
Proof.
  intros Hw Hx. unfold save_ie, stored, MAX_CUSTOM_LEN. pose proof (length_element x) as Hlx.
  destruct (Nat.ltb_spec 126 (length x.2)).
  - by rewrite (proj2 (Z.ltb_lt _ _)) by lia.
  - rewrite (proj2 (Z.ltb_ge _ _)) by lia. unfold u8. rewrite Z.mod_small by lia. rewrite Nat2Z.id, drop_app_length.
    unfold NdisMoveMemory. rewrite (load_n_at _ 0 [] (element_bytes x) c) by (done || lia). rewrite Some_bind, store_ok by lia.
    rewrite Some_bind. do 2 f_equal. lia.
Qed.

Lemma save_element_at a x c s :
  ie_wf x → long_ies s →
  save_element (a ++ element_bytes x ++ c) (Z.of_nat (length a)) (Z.of_nat (length x.2)) s = Some (keep_ie s x).
Proof.
  intros (Hx & Hv & Hr) (H1 & H2 & H3). destruct x as [eid body]. cbn [fst snd] in *.
  set (m := a ++ element_bytes (eid, body) ++ c). set (p := Z.of_nat (length a)).
  assert (m = (a ++ [eid; Z.of_nat (length body)]) ++ body ++ c) as Hm.
  { unfold m, element_bytes. cbn [fst snd]. by rewrite <- !app_assoc. }
  assert (∀ off n y, (off + n <= length body)%nat → length y = n →
    NdisEqualMemory m (p + 2 + Z.of_nat off) y 0 (Z.of_nat n) = Some (bool_decide (slice body off n = y))) as Heq.
  { intros off n y Hle Hy.
    apply (NdisEqualMemory_at m _ ((a ++ [eid; Z.of_nat (length body)]) ++ take off body) _ (drop (off + n) body ++ c)); [|rewrite !length_app, length_take; cbn; lia|rewrite length_slice; lia|lia|lia].
    rewrite Hm, <- !app_assoc. do 2 f_equal. unfold slice.
    rewrite <- drop_drop, (app_assoc (take n _)), take_drop, app_assoc. by rewrite take_drop. }
  unfold save_element. rewrite (load8_at m p a eid ([Z.of_nat (length body)] ++ body ++ c)) by (by rewrite ?Hm, <- ?app_assoc).
  rewrite Some_bind. unfold keep_ie. cbn [fst snd]. destruct (Z.eqb_spec eid IE_WPA) as [He|He].
  - pose proof (Heq 0%nat 4%nat WPS_OUI ltac:(auto) eq_refl) as E1. pose proof (Heq 0%nat 4%nat WPA_OUI ltac:(auto) eq_refl) as E2.
    rewrite Z.add_0_r in E1, E2. change (Z.of_nat 4) with 4 in E1, E2. rewrite E1, Some_bind.
    change (slice body 0 4) with (take 4 body) in *.
    destruct (bool_decide (take 4 body = WPS_OUI)); [by rewrite (save_ie_at _ a (eid, body) c)|].
    rewrite E2, Some_bind. destruct (bool_decide (take 4 body = WPA_OUI)); [by rewrite (save_ie_at _ a (eid, body) c)|done].
  - destruct (Z.eqb_spec eid IE_RSN) as [He'|He']; [|done]. cbn [andb].
    pose proof (Heq 2%nat 3%nat RSN_OUI ltac:(auto) eq_refl) as E1. change (Z.of_nat 3) with 3 in E1. change (Z.of_nat 2) with 2 in E1.
    rewrite E1, Some_bind. destruct (bool_decide _); [by rewrite (save_ie_at _ a (eid, body) c)|done].
Qed.

Lemma elements_cons x l : elements_bytes (x :: l) = element_bytes x ++ elements_bytes l.
Proof. unfold elements_bytes. by rewrite fmap_cons. Qed.

Lemma save_loop_at l : ∀ a s fuel,
  Forall ie_wf l → long_ies s → (length l < fuel)%nat →
  Z.of_nat (length (a ++ elements_bytes l)) < 65536 →
  save_loop fuel (a ++ elements_bytes l ++ pad) (Z.of_nat (length (a ++ elements_bytes l))) (Z.of_nat (length a)) s =
    Some (foldl keep_ie s l).
Proof.
  induction l as [|x l IH]; intros a s fuel Hl Hs Hf Hb; (destruct fuel as [|fuel]; [cbn in Hf; lia|]); cbn [save_loop].
  - change (elements_bytes []) with (@nil Z) in *. rewrite app_nil_r, app_nil_l in *.
    destruct pad as [|b0 [|b1 pad']]; [cbn in Hpad; lia..|].
    rewrite (load8_at _ _ (a ++ [b0]) b1 pad'); [|by rewrite <- app_assoc|rewrite length_app; cbn; lia]. rewrite Some_bind. cbn [foldl].
    rewrite !Forall_cons in Hbytes. destruct Hbytes as (_ & Hb1 & _). unfold fits in Hb1. by rewrite (proj2 (Z.leb_gt _ _)) by lia.
  - apply Forall_cons in Hl as [Hx Hl]. pose proof (length_element x) as Hlx. rewrite elements_cons in *. cbn [length] in Hf.
    set (m := a ++ (element_bytes x ++ elements_bytes l) ++ pad).
    assert (m = a ++ element_bytes x ++ elements_bytes l ++ pad) as Hm by (unfold m; by rewrite <- !app_assoc).
    rewrite (load8_at m _ (a ++ [x.1]) (Z.of_nat (length x.2)) (x.2 ++ elements_bytes l ++ pad));
      [|rewrite Hm; unfold element_bytes; by rewrite <- !app_assoc|rewrite length_app; cbn; lia].
    rewrite Some_bind. rewrite !length_app in *. rewrite (proj2 (Z.leb_le _ _)) by lia.
    pose proof (save_element_at a x (elements_bytes l ++ pad) s Hx Hs) as He. rewrite <- Hm in He. rewrite He, Some_bind. cbn [foldl].
    rewrite <- (IH (a ++ element_bytes x) (keep_ie s x) fuel); [|done|by apply keep_ie_long|lia|rewrite !length_app; lia].
    unfold u16. rewrite Z.mod_small by lia. rewrite Hm, <- app_assoc. f_equal; rewrite ?length_app; lia.
Qed.
End Save.

Lemma announced_ie_wf i : announced_wf i → ie_wf (element_of i).
Proof.
  destruct i as [r|payload|x]; cbn [announced_wf element_of]; unfold ie_wf; cbn [fst snd].
  - intros [Hwf _]. pose proof (wf_length _ Hwf). destruct (wf_pairwise _ Hwf) as [Hp _], (wf_akm _ Hwf) as [Ha _].
    pose proof (wf_group _ Hwf). unfold rsn_body in *. rewrite !length_app, (length_counted 4 _ Hp), (length_counted 4 _ Ha) in *. lia.
  - intros [Hl _]. rewrite Hl. lia.
  - intros (Hl & Hv & Hr). split; [done|]. split; intros He; [by destruct (Hv He)|by destruct (Hr He)].
Qed.

(** ** Filling an entry *)

(** The arrays of an entry, and the bounds the handlers of beacons check. *)
Record desc_ok (b : bss_desc) : Prop := {
  ok_ssid : length (Ssid b) = MAX_LEN_OF_SSID ∧ 0 <= SsidLen b <= 32;
  ok_rates : length (SupRate b) = 12%nat ∧ length (ExtRate b) = 12%nat;
  ok_ht : length (HtCapability b) = 26%nat ∧ length (AddHtInfo b) = 22%nat;
  ok_vie : length (VarIEs b) = MAX_VIE_LEN;
}.

Record args_ok (a : bss_args) (l : list announced) (pad : list Z) : Prop := {
  arg_ssid : length (a_Ssid a) = MAX_LEN_OF_SSID ∧ 0 <= a_SsidLen a <= 32;
  arg_rates : length (a_SupRate a) = 12%nat ∧ length (a_ExtRate a) = 12%nat ∧ 0 <= a_SupRateLen a ∧ 0 <= a_ExtRateLen a;
  arg_ht : length (a_HtCapability a) = 26%nat ∧ length (a_AddHtInfo a) = 22%nat ∧
    a_HtCapabilityLen a ∈ [0; 26] ∧ a_AddHtInfoLen a ∈ [0; 22];
  arg_vie : a_VIE a = announced_bytes l ++ pad ∧ a_LengthVIE a = Z.of_nat (length (announced_bytes l));
  arg_pad : (2 <= length pad)%nat ∧ bytes pad ∧ length (a_VIE a) = MAX_VIE_LEN;
  arg_wf : Forall announced_wf l;
}.

(** What a frame's SSID makes of an entry's. *)
Definition next_ssid (b : bss_desc) (a : bss_args) : list Z * Z * bool :=
  if visible (a_Ssid a) (a_SsidLen a)
  then (put (zeros MAX_LEN_OF_SSID) 0 (take (Z.to_nat (a_SsidLen a)) (a_Ssid a)), a_SsidLen a, false)
  else if visible (Ssid b) (SsidLen b) || (0 <? a_SsidLen a) then (Ssid b, SsidLen b, true)
  else (zeros MAX_LEN_OF_SSID, 0, true).

Lemma NdisMoveMemory_ok dst src n :
  0 <= n → n <= Z.of_nat (length src) → n <= Z.of_nat (length dst) →
  NdisMoveMemory dst src n = Some (put dst 0 (take (Z.to_nat n) src)).
Proof.
  intros H0 H1 H2. unfold NdisMoveMemory. rewrite load_ok, Some_bind by lia. unfold slice. rewrite drop_0.
  by rewrite store_ok by (rewrite ?length_take; lia).
Qed.

(** The first [n] bytes of [new] over those of [old]. *)
Definition over (old new : list Z) (n : Z) : list Z := take (Z.to_nat n) new ++ drop (Z.to_nat n) old.

Lemma length_over old new n : 0 <= n → n <= Z.of_nat (length new) → n <= Z.of_nat (length old) → length (over old new n) = length old.
Proof. intros. unfold over. rewrite length_app, length_take, length_drop. lia. Qed.

Lemma NdisMoveMemory_over dst src n :
  0 <= n → n <= Z.of_nat (length src) → n <= Z.of_nat (length dst) → NdisMoveMemory dst src n = Some (over dst src n).
Proof.
  intros. rewrite NdisMoveMemory_ok by done. unfold over. rewrite put_splice by (rewrite length_take; lia).
  rewrite length_take, Nat.min_l by lia. done.
Qed.

(** An access point is heard with the 802.11n capability element, and with both
    it and the operation element. *)
Definition has_ht (a : bss_args) : bool := 0 <? a_HtCapabilityLen a.
Definition has_ht_info (a : bss_args) : bool := has_ht a && (0 <? a_AddHtInfoLen a).

(** The centre of the channel or channels in use.  The operation element has the
    primary channel in its first byte and where the secondary channel is in the
    two low bits of the second one: 1 above, 3 below; bit 1 of the capabilities
    says that 40 MHz are supported. *)
Definition center_channel (a : bss_args) : Z :=
  let primary := (a_AddHtInfo a).[0] in
  let secondary := (a_AddHtInfo a).[1] `mod` 4 in
  if has_ht_info a && Z.testbit (a_HtCapability a).[0] 1 then
    if (secondary =? 3) && (2 <? primary) then (primary - 2) `mod` 256
    else if secondary =? 1 then (primary + 2) `mod` 256
    else a_Channel a
  else a_Channel a.

Lemma bit1_field x : ((x >> 1) & 1 =? 1) = Z.testbit x 1.
Proof.
  change 1 with (Z.ones 1) at 2. rewrite Z.land_ones by lia. change (2 ^ 1) with 2. rewrite <- Z.bit0_mod.
  rewrite Z.shiftr_spec by lia. by destruct (Z.testbit x _).
Qed.

Lemma set_ht_ok b a l pad :
  desc_ok b → args_ok a l pad →
  set_ht b a = Some (if has_ht a then over (HtCapability b) (a_HtCapability a) 26 else HtCapability b, a_HtCapabilityLen a,
    if has_ht_info a then over (AddHtInfo b) (a_AddHtInfo a) 22 else AddHtInfo b, if has_ht a then a_AddHtInfoLen a else 0,
    center_channel a).
Proof.
  intros [_ _ [Hb1 Hb2] _] [_ _ (H1 & H2 & H3 & H4) _ _ _]. unfold set_ht, center_channel, has_ht_info, has_ht.
  rewrite elem_of_cons, list_elem_of_singleton in H3. rewrite elem_of_cons, list_elem_of_singleton in H4.
  destruct H3 as [-> | ->]; [change (0 <? 0) with false|change (0 <? 26) with true]; cbv iota.
  - done.
  - rewrite (NdisMoveMemory_over (HtCapability b)), Some_bind by lia. destruct H4 as [-> | ->]; [change (0 <? 0) with false|change (0 <? 22) with true]; cbv iota.
    + done.
    + rewrite NdisMoveMemory_over, Some_bind by lia. cbn [andb]. do 2 f_equal.
      unfold BW_40, EXTCHA_BELOW, EXTCHA_ABOVE. rewrite bit1_field. change 3 with (Z.ones 2) at 1 3. rewrite Z.land_ones by lia.
      change (2 ^ 2) with 4. destruct (Z.testbit _ 1); rewrite ?andb_true_r, ?andb_false_r; [|done]. rewrite andb_comm. done.
Qed.

(** The elements of the frame in the entry's array. *)
Lemma stored_vie b a l pad :
  desc_ok b → args_ok a l pad →
  ∃ rest, (if negb (a_LengthVIE a =? 0) then NdisMoveMemory (VarIEs b) (a_VIE a) (a_LengthVIE a) else Some (VarIEs b)) =
    Some (announced_bytes l ++ rest) ∧ length (announced_bytes l ++ rest) = MAX_VIE_LEN.
Proof.
  intros [_ _ _ Hv] [_ _ _ [He Hn] (Hp & _ & Hl) _]. rewrite Hn. destruct (Z.eqb_spec (Z.of_nat (length (announced_bytes l))) 0) as [H0|H0]; cbn [negb].
  - exists (VarIEs b). destruct (announced_bytes l); [done|]. cbn in H0. lia.
  - rewrite He, length_app in Hl. unfold MAX_VIE_LEN in *.
    rewrite NdisMoveMemory_ok by (rewrite ?He, ?length_app; lia). rewrite Nat2Z.id, He, take_app_length.
    exists (drop (length (announced_bytes l)) (VarIEs b)). split; [|rewrite length_app, length_drop; lia].
    by rewrite put_splice by lia.
Qed.

(** A QoS parameter set of the frame, or the old one marked invalid. *)
Definition parm_in (new : option qos_parm) (old : qos_parm) : qos_parm :=
  match new with Some p => p | None => {| bValid := false; parm := parm old |} end.

(** An entry [b'] that describes a frame with the elements [l], where [b] was:
    every field [BssEntrySet] writes. *)
Record frame_in (now : Z) (a : bss_args) (l : list announced) (b b' : bss_desc) : Prop := {
  fr_bssid : Bssid b' = a_Bssid a;
  fr_channel : Channel b' = a_Channel a;
  fr_rssi : Rssi b' = a_Rssi a;
  fr_time : LastBeaconRxTime b' = now;
  fr_ssid : (Ssid b', SsidLen b', Hidden b') = next_ssid b a;
  fr_ciphers : ciphers b' =
    foldl (announce (a_BssType a)) (no_security (CAP_IS_PRIVACY_ON (a_CapabilityInfo a)) (bSES (ciphers b))) l;
  fr_ies : {| s_WpaIE := WpaIE b'; s_RsnIE := RsnIE b'; s_WpsIE := WpsIE b' |} =
    foldl keep_ie {| s_WpaIE := no_ie; s_RsnIE := no_ie; s_WpsIE := no_ie |} (element_of <$> l);
  fr_elements : VarIELen b' = Z.of_nat (length (announced_bytes l)) ∧
    take (Z.to_nat (VarIELen b')) (VarIEs b') = announced_bytes l;
  fr_type : BssType b' = a_BssType a;
  fr_capability : CapabilityInfo b' = a_CapabilityInfo a ∧ Privacy b' = Z.testbit (a_CapabilityInfo a) 4;
  fr_period : BeaconPeriod b' = a_BeaconPeriod a;
  fr_fixed : FixIEs b' = (a_TimeStamp a, a_BeaconPeriod a, a_CapabilityInfo a);
  fr_atim : AtimWin b' = if a_BssType a =? BSS_INFRA then AtimWin b else a_AtimWin a;
  fr_cfp : (CfpCount b', CfpPeriod b', CfpMaxDuration b', CfpDurRemaining b') =
    if (a_BssType a =? BSS_INFRA) && cf_bValid (a_CfParm a)
    then (cf_CfpCount (a_CfParm a), cf_CfpPeriod (a_CfParm a), cf_CfpMaxDuration (a_CfParm a), cf_CfpDurRemaining (a_CfParm a))
    else (CfpCount b, CfpPeriod b, CfpMaxDuration b, CfpDurRemaining b);
  fr_sup : SupRateLen b' = a_SupRateLen a ∧ SupRate b' = over (SupRate b) (a_SupRate a) (a_SupRateLen a `min` 12);
  fr_ext : ExtRateLen b' = a_ExtRateLen a `min` 12 ∧ ExtRate b' = over (ExtRate b) (a_ExtRate a) (a_ExtRateLen a `min` 12);
  fr_ht : HtCapabilityLen b' = a_HtCapabilityLen a ∧
    HtCapability b' = if has_ht a then over (HtCapability b) (a_HtCapability a) 26 else HtCapability b;
  fr_ht_info : AddHtInfoLen b' = (if has_ht a then a_AddHtInfoLen a else 0) ∧
    AddHtInfo b' = if has_ht_info a then over (AddHtInfo b) (a_AddHtInfo a) 22 else AddHtInfo b;
  fr_center : CentralChannel b' = center_channel a ∧ NewExtChanOffset b' = a_NewExtChanOffset a;
  fr_ckip : CkipFlag b' = a_CkipFlag a;
  fr_qos : EdcaParm b' = parm_in (a_EdcaParm a) (EdcaParm b) ∧
    QosCapability b' = parm_in (a_QosCapability a) (QosCapability b) ∧ QbssLoad b' = parm_in (a_QbssLoad a) (QbssLoad b);
}.

(** A mask of one bit. *)
Lemma mask_bit x i : 0 <= i → negb (x & 2 ^ i =? 0) = Z.testbit x i.
Proof.
  intros Hi. destruct (Z.testbit x i) eqn:Hx.
  - apply negb_true_iff, Z.eqb_neq. intros H. apply (f_equal (λ y, Z.testbit y i)) in H.
    by rewrite Z.land_spec, Hx, Z.pow2_bits_true, Z.bits_0 in H.
  - apply negb_false_iff, Z.eqb_eq. apply Z.bits_inj'. intros n Hn.
    rewrite Z.land_spec, Z.pow2_bits_eqb, Z.bits_0 by lia. destruct (Z.eqb_spec i n) as [<-|]; [by rewrite Hx|apply andb_false_r].
Qed.

Lemma privacy_bit x : CAP_IS_PRIVACY_ON x = Z.testbit x 4.
Proof. apply (mask_bit x 4). lia. Qed.

(** [BssEntrySet] never leaves the arrays, keeps their bounds, and the entry then
    describes the frame. *)
Lemma BssEntrySet_ok now b a l pad :
  desc_ok b → args_ok a l pad →
  ∃ b', BssEntrySet now b a = Some b' ∧ desc_ok b' ∧ frame_in now a l b b'.
Proof.
  intros Hb Ha. pose proof (set_ht_ok b a l pad Hb Ha) as Hht.
  assert (length (if has_ht a then over (HtCapability b) (a_HtCapability a) 26 else HtCapability b) = 26%nat) as Hl1.
  { destruct Hb as [_ _ [Hb _] _], Ha as [_ _ (H1 & _) _ _ _]. destruct (has_ht a); [rewrite length_over; lia|done]. }
  assert (length (if has_ht_info a then over (AddHtInfo b) (a_AddHtInfo a) 22 else AddHtInfo b) = 22%nat) as Hl2.
  { destruct Hb as [_ _ [_ Hb] _], Ha as [_ _ (_ & H1 & _) _ _ _]. destruct (has_ht_info a); [rewrite length_over; lia|done]. }
  pose proof (stored_vie b a l pad Hb Ha) as (rest & Hvie & Hlv).
  destruct Hb as [[Hs Hsl] [Hr1 Hr2] [Hh1 Hh2] Hv]. destruct Ha as [[As Asl] (Ar1 & Ar2 & Ar3 & Ar4) _ [Ae An] (Ap & Apb & Apl) Awf].
  unfold BssEntrySet. rewrite set_ssid_ok by done. fold (next_ssid b a). rewrite Some_bind.
  destruct (next_ssid b a) as [[ssid sl] hid] eqn:Hnext.
  rewrite (NdisMoveMemory_over (SupRate b)), Some_bind by (unfold MAX_LEN_OF_SUPPORTED_RATES; lia).
  rewrite (NdisMoveMemory_over (ExtRate b)), Some_bind by (unfold MAX_LEN_OF_SUPPORTED_RATES; lia).
  rewrite Hvie, Some_bind, Hht, Some_bind, An, BssCipherParse_at, Some_bind by done.
  set (s0 := {| s_WpaIE := no_ie; s_RsnIE := no_ie; s_WpsIE := no_ie |}).
  assert (save_loop (S (Z.to_nat (Z.of_nat (length (announced_bytes l))))) (announced_bytes l ++ pad)
    (Z.of_nat (length (announced_bytes l))) 0 s0 = Some (foldl keep_ie s0 (element_of <$> l))) as Hsave.
  { apply (save_loop_at pad Ap Apb (element_of <$> l) []).
    - apply Forall_fmap. eapply Forall_impl; [exact Awf|]. intros i. apply announced_ie_wf.
    - done.
    - rewrite length_fmap, Nat2Z.id. clear. induction l as [|i l IH]; [cbn; lia|].
      rewrite announced_cons, length_app, length_element. cbn [length]. lia.
    - rewrite app_nil_l. fold (announced_bytes l). rewrite Ae, length_app in Apl. unfold MAX_VIE_LEN in Apl. lia. }
  rewrite Ae, Hsave.
  rewrite Some_bind. eexists. split; [done|]. split; [|split; try done].
  - split; cbn; rewrite ?length_over by (unfold MAX_LEN_OF_SUPPORTED_RATES; lia); try done. unfold next_ssid in Hnext.
    destruct (visible (a_Ssid a) _); [|destruct (_ || _)]; injection Hnext as <- <- <-; rewrite ?length_put, ?length_zeros; unfold MAX_LEN_OF_SSID in *; lia.
  - cbn. by destruct (foldl keep_ie _ _).
  - cbn. by rewrite Nat2Z.id, take_app_length.
  - split; [done|]. apply privacy_bit.
  - cbn. by destruct (_ && _).
Qed.
