(* ===== verification/BssTable.v ===== *)
(** * The scan table

    Models the table of access points and ad-hoc networks a station hears:
    [BssTableInit], the searches, [BssTableSetEntry] and [BssTableDeleteEntry]
    of [linux/Arch/rt5370.driver/common/mlme.c], [MaintainBssTable] of
    [sta/connect.c] and the end of [PeerBeaconAtScanAction] of [sta/sync.c].

    Each entry points to a buffer for the elements of the last probe response;
    the buffers are a heap, a pointer is an index into it.  [None] is an access
    outside an array or through NULL.  [BssNr] and [BssOverlapNr] are [UCHAR]s
    that stay at most 64 and are numbers here. *)

From stdpp Require Import base list numbers list_numbers sets.
From Stdlib Require Import ZArith Lia.
From S2P Require Import Prelude WpaData EapolMsg EapolRecv RsnIe BssEntry.

#[local] Set Warnings "-clear-no-such-hyp".

(** ** State *)

Definition MAX_LEN_OF_BSS_TABLE : nat := 64.

Record BSS_ENTRY := {
  desc :> bss_desc;
  SameRxTimeCount : Z;
  LastBeaconRxTimeA : Z;
  VarIeFromProbeRspLen : Z;
  pVarIeFromProbRsp : option nat;
}.

Record BSS_TABLE := { BssNr : nat; BssOverlapNr : nat; BssEntry : list BSS_ENTRY }.

(** The buffers behind [pVarIeFromProbRsp]. *)
Definition heap := list (list Z).

Definition set_desc (e : BSS_ENTRY) (d : bss_desc) : BSS_ENTRY :=
  {| desc := d; SameRxTimeCount := SameRxTimeCount e; LastBeaconRxTimeA := LastBeaconRxTimeA e;
     VarIeFromProbeRspLen := VarIeFromProbeRspLen e; pVarIeFromProbRsp := pVarIeFromProbRsp e |}.
Definition set_times (e : BSS_ENTRY) (count time : Z) : BSS_ENTRY :=
  {| desc := desc e; SameRxTimeCount := count; LastBeaconRxTimeA := time;
     VarIeFromProbeRspLen := VarIeFromProbeRspLen e; pVarIeFromProbRsp := pVarIeFromProbRsp e |}.
Definition set_probe (e : BSS_ENTRY) (len : Z) (p : option nat) : BSS_ENTRY :=
  {| desc := desc e; SameRxTimeCount := SameRxTimeCount e; LastBeaconRxTimeA := LastBeaconRxTimeA e;
     VarIeFromProbeRspLen := len; pVarIeFromProbRsp := p |}.

(** [NdisZeroMemory(&Tab->BssEntry[i], sizeof(BSS_ENTRY))], [Rssi] afterwards. *)
Definition zero_suite : CIPHER_SUITE :=
  {| PairCipher := 0; PairCipherAux := 0; GroupCipher := 0; RsnCapability := 0; bMixMode := false |}.
Definition zero_ie : WPA_IE_ := {| IELen := 0; IE := zeros (Z.to_nat MAX_CUSTOM_LEN) |}.
Definition zero_parm (n : nat) : qos_parm := {| bValid := false; parm := zeros n |}.
Definition zero_desc (rssi : Z) : bss_desc :=
  {| Bssid := zeros 6; Channel := 0; CentralChannel := 0; BssType := 0; AtimWin := 0; BeaconPeriod := 0;
     SupRate := zeros 12; SupRateLen := 0; ExtRate := zeros 12; ExtRateLen := 0;
     HtCapability := zeros 26; HtCapabilityLen := 0; AddHtInfo := zeros 22; AddHtInfoLen := 0;
     NewExtChanOffset := 0; Rssi := rssi; Privacy := false; Hidden := false; CapabilityInfo := 0;
     CfpCount := 0; CfpPeriod := 0; CfpMaxDuration := 0; CfpDurRemaining := 0;
     SsidLen := 0; Ssid := zeros MAX_LEN_OF_SSID; LastBeaconRxTime := 0;
     ciphers := {| AuthMode := 0; AuthModeAux := 0; WepStatus := 0; WPA := zero_suite; WPA2 := zero_suite; bSES := false |};
     FixIEs := (zeros 8, 0, 0); VarIELen := 0; VarIEs := zeros MAX_VIE_LEN; CkipFlag := 0;
     EdcaParm := zero_parm 30; QosCapability := zero_parm 4; QbssLoad := zero_parm 6;
     WpaIE := zero_ie; RsnIE := zero_ie; WpsIE := zero_ie |}.
Definition zero_bss (rssi : Z) (p : option nat) : BSS_ENTRY :=
  {| desc := zero_desc rssi; SameRxTimeCount := 0; LastBeaconRxTimeA := 0; VarIeFromProbeRspLen := 0; pVarIeFromProbRsp := p |}.

(** [if (pOldAddr) RTMPZeroMemory(pOldAddr, MAX_VIE_LEN);] *)
Definition zero_buffer (h : heap) (p : option nat) : heap :=
  match p with Some a => <[a := zeros MAX_VIE_LEN]> h | None => h end.

(** [NdisMoveMemory(pOldAddr, src, n)] *)
Definition copy_buffer (h : heap) (a : nat) (src : option nat) (n : Z) : option heap :=
  match src with
  | None => if n =? 0 then Some h else None
  | Some b => s ← h !! b; d ← h !! a; d ← NdisMoveMemory d s n; Some (<[a := d]> h)
  end.

(** ** Initialisation and searches *)

Fixpoint init_entries (h : heap) (es : list BSS_ENTRY) : heap * list BSS_ENTRY :=
  match es with
  | [] => (h, [])
  | e :: es =>
      let p := pVarIeFromProbRsp e in
      let '(h, es) := init_entries (zero_buffer h p) es in
      (h, zero_bss (-127) p :: es)
  end.

Definition BssTableInit (h : heap) (Tab : BSS_TABLE) : heap * BSS_TABLE :=
  let '(h, es) := init_entries h (BssEntry Tab) in
  (h, {| BssNr := 0; BssOverlapNr := 0; BssEntry := es |}).

Definition MAC_ADDR_EQUAL (a b : list Z) : bool := bool_decide (a = b).

Definition SSID_EQUAL (ssid1 : list Z) (len1 : Z) (ssid2 : list Z) (len2 : Z) : option bool :=
  if len1 =? len2 then NdisEqualMemory ssid1 0 ssid2 0 len1 else Some false.

(** Both channels in the 2.4 GHz band or both above it. *)
Definition same_band (c1 c2 : Z) : bool := ((c1 <=? 14) && (c2 <=? 14)) || ((14 <? c1) && (14 <? c2)).

(** The first of the [n] entries that passes a test; [None] is [BSS_NOT_FOUND]. *)
Fixpoint find_from (p : BSS_ENTRY → bool) (i : nat) (es : list BSS_ENTRY) : option nat :=
  match es with
  | [] => None
  | e :: es => if p e then Some i else find_from p (S i) es
  end.

(** The same with a test that reads memory. *)
Fixpoint search_from (p : BSS_ENTRY → option bool) (i : nat) (es : list BSS_ENTRY) : option (option nat) :=
  match es with
  | [] => Some None
  | e :: es => b ← p e; if (b : bool) then Some (Some i) else search_from p (S i) es
  end.

Definition used (Tab : BSS_TABLE) : list BSS_ENTRY := take (BssNr Tab) (BssEntry Tab).

Definition BssTableSearch (Tab : BSS_TABLE) (pBssid : list Z) (channel : Z) : option nat :=
  find_from (λ e, same_band (Channel e) channel && MAC_ADDR_EQUAL (Bssid e) pBssid) 0 (used Tab).

Definition BssSsidTableSearch (Tab : BSS_TABLE) (pBssid pSsid : list Z) (len channel : Z) : option (option nat) :=
  search_from (λ e,
    if same_band (Channel e) channel && MAC_ADDR_EQUAL (Bssid e) pBssid
    then SSID_EQUAL pSsid len (Ssid e) (SsidLen e) else Some false) 0 (used Tab).

Definition BssTableSearchWithSSID (Tab : BSS_TABLE) (pBssid pSsid : list Z) (len channel : Z) : option (option nat) :=
  search_from (λ e,
    if same_band (Channel e) channel && MAC_ADDR_EQUAL (Bssid e) pBssid
    then
      same ← SSID_EQUAL pSsid len (Ssid e) (SsidLen e);
      if (same : bool) then Some true
      else
        zero ← NdisEqualMemory pSsid 0 ZeroSsid 0 len;
        if (zero : bool) then Some true else NdisEqualMemory (Ssid e) 0 ZeroSsid 0 (SsidLen e)
    else Some false) 0 (used Tab).

Definition BssSsidTableSearchBySSID (Tab : BSS_TABLE) (pSsid : list Z) (len : Z) : option (option nat) :=
  search_from (λ e, SSID_EQUAL pSsid len (Ssid e) (SsidLen e)) 0 (used Tab).

(** ** Deletion *)

Definition heap_entries := (heap * list BSS_ENTRY)%type.

(** The body of the loop over [j]: entry [j + 1] moves to [j], the contents of its
    buffer into the buffer of [j]. *)
Definition shift_entry (j : nat) (s : heap_entries) : option heap_entries :=
  let '(h, es) := s in
  e ← es !! j;
  e' ← es !! S j;
  match pVarIeFromProbRsp e with
  | None => Some (h, <[j := e']> es)
  | Some a =>
      h ← copy_buffer (zero_buffer h (Some a)) a (pVarIeFromProbRsp e') (VarIeFromProbeRspLen e');
      Some (h, <[j := set_probe e' (VarIeFromProbeRspLen e') (Some a)]> es)
  end.

(** Clearing the last entry; [keep] when its pointer is put back. *)
Definition clear_entry (keep : bool) (k : nat) (s : heap_entries) : option heap_entries :=
  let '(h, es) := s in
  e ← es !! k;
  let p := pVarIeFromProbRsp e in
  Some (zero_buffer h p, <[k := zero_bss 0 (if keep then p else None)]> es).

Definition remove_entry (keep : bool) (i n : nat) (s : heap_entries) : option heap_entries :=
  s ← loop_opt i (n - 1 - i) shift_entry s;
  clear_entry keep (n - 1) s.

Definition BssTableDeleteEntry (h : heap) (Tab : BSS_TABLE) (pBssid : list Z) (channel : Z) : option (heap * BSS_TABLE) :=
  match find_from (λ e, (Channel e =? channel) && MAC_ADDR_EQUAL (Bssid e) pBssid) 0 (used Tab) with
  | None => Some (h, Tab)
  | Some i =>
      '(h, es) ← remove_entry true i (BssNr Tab) (h, BssEntry Tab);
      Some (h, {| BssNr := BssNr Tab - 1; BssOverlapNr := BssOverlapNr Tab; BssEntry := es |})
  end.

(** ** Insertion *)

(** What [BssTableSetEntry] reads of the adapter: the two flags of a connection
    and the network the station wants to join. *)
Record connection := {
  MEDIA_STATE_CONNECTED : bool;
  AP_MEDIA_STATE_CONNECTED : bool;
  Mlme_Bssid : list Z;
  Mlme_Ssid : list Z;
  Mlme_SsidLen : Z;
}.

Definition set_entry (now : Z) (a : bss_args) (i : nat) (es : list BSS_ENTRY) : option (list BSS_ENTRY) :=
  e ← es !! i;
  d ← BssEntrySet now (desc e) a;
  Some (<[i := set_desc e d]> es).

(** The table and the index, [None] for [BSS_NOT_FOUND]. *)
Definition BssTableSetEntry (now : Z) (C : connection) (Tab : BSS_TABLE) (a : bss_args) : option (BSS_TABLE * option nat) :=
  match BssTableSearch Tab (a_Bssid a) (a_Channel a) with
  | Some i =>
      es ← set_entry now a i (BssEntry Tab);
      Some ({| BssNr := BssNr Tab; BssOverlapNr := BssOverlapNr Tab; BssEntry := es |}, Some i)
  | None =>
      if (MAX_LEN_OF_BSS_TABLE <=? BssNr Tab)%nat
      then
        if negb (MEDIA_STATE_CONNECTED C) || negb (AP_MEDIA_STATE_CONNECTED C)
        then
          wanted ← (if MAC_ADDR_EQUAL (Mlme_Bssid C) (a_Bssid a) then Some true
                    else SSID_EQUAL (Mlme_Ssid C) (Mlme_SsidLen C) (a_Ssid a) (a_SsidLen a));
          if (wanted : bool)
          then
            let Idx := BssOverlapNr Tab in
            _ ← BssEntry Tab !! Idx;
            es ← set_entry now a Idx (<[Idx := zero_bss 0 None]> (BssEntry Tab));
            Some ({| BssNr := BssNr Tab; BssOverlapNr := (Idx + 1) mod MAX_LEN_OF_BSS_TABLE; BssEntry := es |}, Some Idx)
          else Some (Tab, None)
        else Some (Tab, None)
      else
        es ← set_entry now a (BssNr Tab) (BssEntry Tab);
        Some ({| BssNr := BssNr Tab + 1; BssOverlapNr := BssOverlapNr Tab; BssEntry := es |}, Some (BssNr Tab))
  end.

(** The end of [PeerBeaconAtScanAction], for a probe response. *)
Definition save_probe_response (h : heap) (e : BSS_ENTRY) (pVIE : list Z) (LenVIE : Z) : option (heap * BSS_ENTRY) :=
  if LenVIE =? 0 then Some (h, e)
  else
    match pVarIeFromProbRsp e with
    | None => Some (h, set_probe e 0 None)
    | Some a =>
        b ← h !! a;
        b ← NdisMoveMemory (zeros MAX_VIE_LEN) pVIE LenVIE;
        Some (<[a := b]> h, set_probe e LenVIE (Some a))
    end.

(** [PeerBeaconAtScanAction] from the call of [BssTableSetEntry] on, for the fields
    modelled here. *)
Definition scan_frame (now : Z) (C : connection) (h : heap) (Tab : BSS_TABLE) (a : bss_args) (is_probe_rsp : bool)
    : option (heap * BSS_TABLE) :=
  '(Tab, Idx) ← BssTableSetEntry now C Tab a;
  match Idx with
  | None => Some (h, Tab)
  | Some k =>
      e ← BssEntry Tab !! k;
      if is_probe_rsp
      then
        '(h, e) ← save_probe_response h e (a_VIE a) (a_LengthVIE a);
        Some (h, {| BssNr := BssNr Tab; BssOverlapNr := BssOverlapNr Tab; BssEntry := <[k := e]> (BssEntry Tab) |})
      else Some (h, Tab)
  end.

(** ** Ageing *)

(** What [MaintainBssTable] reads of the adapter and of the system; the clock is
    read once for each entry. *)
Record ageing := {
  clock : nat → Z;
  OS_HZ : Z;
  connected : bool;
  Common_Ssid : list Z;
  Common_SsidLen : Z;
}.

(** Counting the scans in which nothing new was heard from the network. *)
Definition touch (e : BSS_ENTRY) : BSS_ENTRY :=
  if LastBeaconRxTimeA e =? LastBeaconRxTime e
  then set_times e (u8 (SameRxTimeCount e + 1)) (LastBeaconRxTimeA e)
  else set_times e 0 (LastBeaconRxTime e).

Definition expired (A : ageing) (now MaxRxTimeDiff MaxSameRxTimeCount : Z) (e : BSS_ENTRY) : option bool :=
  let del := RTMP_TIME_AFTER now (u32 (LastBeaconRxTime e + MaxRxTimeDiff * OS_HZ A)) || (MaxSameRxTimeCount <? SameRxTimeCount e) in
  if connected A
  then same ← NdisEqualMemory (Ssid e) 0 (Common_Ssid A) 0 (Common_SsidLen A); Some (del && negb same)
  else Some del.

(** [for (i = 0; i < total_bssNr; i++)] from [i] on; [turns] bounds the turns. *)
Fixpoint maintain (turns : nat) (A : ageing) (diff same : Z) (i total : nat) (s : heap_entries) : option (heap_entries * nat) :=
  match turns with
  | O => Some (s, total)
  | S turns =>
      if (i <? total)%nat
      then
        e ← s.2 !! i;
        let e := touch e in
        let s := (s.1, <[i := e]> s.2) in
        del ← expired A (clock A i) diff same e;
        if (del : bool)
        then s ← remove_entry false i total s; maintain turns A diff same (S i) (total - 1) s
        else maintain turns A diff same (S i) total s
      else Some (s, total)
  end.

Definition MaintainBssTable (A : ageing) (h : heap) (Tab : BSS_TABLE) (MaxRxTimeDiff MaxSameRxTimeCount : Z) : option (heap * BSS_TABLE) :=
  '((h, es), n) ← maintain (BssNr Tab) A MaxRxTimeDiff MaxSameRxTimeCount 0 (BssNr Tab) (h, BssEntry Tab);
  Some (h, {| BssNr := n; BssOverlapNr := BssOverlapNr Tab; BssEntry := es |}).

(** ** Well-formed tables *)

Definition heap_ok (h : heap) : Prop :=
  length h = MAX_LEN_OF_BSS_TABLE ∧ Forall (λ b, length b = MAX_VIE_LEN) h.

(** Pointers lead to buffers; an entry without one has no probe response. *)
Record entry_ok (e : BSS_ENTRY) : Prop := {
  eo_desc : desc_ok e;
  eo_pointer : match pVarIeFromProbRsp e with
               | Some a => (a < MAX_LEN_OF_BSS_TABLE)%nat
               | None => VarIeFromProbeRspLen e = 0
               end;
  eo_len : 0 <= VarIeFromProbeRspLen e <= Z.of_nat MAX_VIE_LEN;
}.

(** What tells two networks apart: BSSID and band. *)
Definition key (e : BSS_ENTRY) : list Z * bool := (Bssid e, 14 <? Channel e).

Record scan_ok (h : heap) (t : BSS_TABLE) : Prop := {
  so_heap : heap_ok h;
  so_length : length (BssEntry t) = MAX_LEN_OF_BSS_TABLE;
  so_number : (BssNr t <= MAX_LEN_OF_BSS_TABLE)%nat;
  so_overlap : (BssOverlapNr t < MAX_LEN_OF_BSS_TABLE)%nat;
  so_entries : Forall entry_ok (BssEntry t);
  so_keys : NoDup (key <$> used t);
  so_blank : ∀ k (e : BSS_ENTRY), BssEntry t !! k = Some e → (BssNr t <= k)%nat → SsidLen e = 0;
}.

(** Everything of an entry but its pointer. *)
Definition core (e : BSS_ENTRY) : bss_desc * Z * Z * Z :=
  (desc e, SameRxTimeCount e, LastBeaconRxTimeA e, VarIeFromProbeRspLen e).

Lemma same_band_key c1 c2 : same_band c1 c2 = bool_decide ((14 <? c1) = (14 <? c2)).
Proof.
  unfold same_band. destruct (Z.leb_spec c1 14), (Z.leb_spec c2 14), (Z.ltb_spec 14 c1), (Z.ltb_spec 14 c2); first [lia|done].
Qed.

Lemma zero_desc_ok rssi : desc_ok (zero_desc rssi).
Proof. split; cbn [Ssid SsidLen SupRate ExtRate HtCapability AddHtInfo VarIEs zero_desc]; rewrite ?length_zeros; unfold MAX_LEN_OF_SSID; split_and?; first [done|lia]. Qed.

Lemma zero_entry_ok rssi p : (∀ a, p = Some a → (a < MAX_LEN_OF_BSS_TABLE)%nat) → entry_ok (zero_bss rssi p).
Proof. intros Hp. split; [apply zero_desc_ok|cbn; destruct p; auto|cbn; unfold MAX_VIE_LEN; lia]. Qed.

Lemma heap_insert h a b : heap_ok h → length b = MAX_VIE_LEN → heap_ok (<[a := b]> h).
Proof. intros [H1 H2] Hb. split; [unfold heap in *; by rewrite length_insert|]. by apply Forall_insert. Qed.

Lemma zero_buffer_ok h p : heap_ok h → heap_ok (zero_buffer h p).
Proof. intros Hh. destruct p; [|done]. apply heap_insert; [done|]. by rewrite length_zeros. Qed.

Lemma heap_lookup h a : heap_ok h → (a < MAX_LEN_OF_BSS_TABLE)%nat → ∃ b, h !! a = Some b ∧ length b = MAX_VIE_LEN.
Proof.
  intros [H1 H2] Ha. destruct (lookup_lt_is_Some_2 h a) as [b Hb]; [lia|]. exists b. split; [done|].
  rewrite Forall_lookup in H2. eauto.
Qed.

Lemma copy_buffer_ok h a e :
  heap_ok h → entry_ok e → (a < MAX_LEN_OF_BSS_TABLE)%nat →
  ∃ h', copy_buffer h a (pVarIeFromProbRsp e) (VarIeFromProbeRspLen e) = Some h' ∧ heap_ok h'.
Proof.
  intros Hh [_ Hp Hl] Ha. unfold copy_buffer. destruct (pVarIeFromProbRsp e) as [b|]; [|rewrite Hp; by exists h].
  destruct (heap_lookup h b Hh Hp) as (s & -> & Hs), (heap_lookup h a Hh Ha) as (d & -> & Hd).
  rewrite !Some_bind, NdisMoveMemory_ok, Some_bind by lia. eexists. split; [done|].
  apply heap_insert; [done|]. by rewrite length_put.
Qed.

(** *** Searches *)

Lemma find_from_spec p es : ∀ i,
  match find_from p i es with
  | Some k => ∃ e, (i <= k)%nat ∧ es !! (k - i)%nat = Some e ∧ p e = true ∧
      ∀ j (e' : BSS_ENTRY), (j < k - i)%nat → es !! j = Some e' → p e' = false
  | None => ∀ e : BSS_ENTRY, e ∈ es → p e = false
  end.
Proof.
  induction es as [|e es IH]; intros i; cbn [find_from]; [by intros e ?%elem_of_nil|].
  destruct (p e) eqn:He.
  - exists e. rewrite Nat.sub_diag. split_and!; [lia|done|done|lia].
  - specialize (IH (S i)). destruct (find_from p (S i) es) as [k|].
    + destruct IH as (e' & Hk & Hl & Hp & Hmin). exists e'. replace (k - i)%nat with (S (k - S i)) by lia.
      split_and!; [lia|done|done|]. intros [|j] e0 Hj H0; [by injection H0 as ->|]. eapply Hmin; [|exact H0]. lia.
    + intros e' [->|H]%elem_of_cons; [done|]. by apply IH.
Qed.

Lemma used_lookup t k e : used t !! k = Some e ↔ BssEntry t !! k = Some e ∧ (k < BssNr t)%nat.
Proof. unfold used. rewrite lookup_take_Some. done. Qed.

(** [BssTableSearch] finds the entry in use with this BSSID in this band. *)
Lemma BssTableSearch_spec t bssid ch :
  match BssTableSearch t bssid ch with
  | Some k => ∃ e, used t !! k = Some e ∧ key e = (bssid, 14 <? ch)
  | None => (bssid, 14 <? ch) ∉ key <$> used t
  end.
Proof.
  unfold BssTableSearch.
  pose proof (find_from_spec (λ e, same_band (Channel e) ch && MAC_ADDR_EQUAL (Bssid e) bssid) (used t) 0) as H.
  assert (∀ e : BSS_ENTRY, same_band (Channel e) ch && MAC_ADDR_EQUAL (Bssid e) bssid = bool_decide (key e = (bssid, 14 <? ch))) as Hk.
  { intros e. rewrite same_band_key. unfold MAC_ADDR_EQUAL, key. rewrite <- bool_decide_and. apply bool_decide_ext.
    split; [by intros [-> ->]|by intros [= -> ->]]. }
  destruct (find_from _ 0 (used t)) as [k|].
  - destruct H as (e & _ & He & Hp & _). rewrite Nat.sub_0_r in He. exists e. split; [done|]. rewrite Hk in Hp. by apply bool_decide_eq_true in Hp.
  - intros (e & He & Hin)%list_elem_of_fmap. specialize (H e Hin). rewrite Hk in H. by apply bool_decide_eq_false in H.
Qed.

(** *** Moving entries up *)

(** The heap and the entries of a table, before [BssNr] is brought up to date. *)
Definition entries_ok (s : heap_entries) : Prop :=
  heap_ok s.1 ∧ length s.2 = MAX_LEN_OF_BSS_TABLE ∧ Forall entry_ok s.2.

Lemma set_probe_ok (e : BSS_ENTRY) a : entry_ok e → (a < MAX_LEN_OF_BSS_TABLE)%nat → entry_ok (set_probe e (VarIeFromProbeRspLen e) (Some a)).
Proof. intros [H1 H2 H3] Ha. by split. Qed.

Lemma entry_of (s : heap_entries) (j : nat) : entries_ok s → (j < MAX_LEN_OF_BSS_TABLE)%nat → ∃ e : BSS_ENTRY, s.2 !! j = Some e ∧ entry_ok e.
Proof.
  intros (_ & Hl & Hf) Hj. destruct (lookup_lt_is_Some_2 s.2 j) as [e He]; [lia|]. exists e. split; [done|].
  rewrite Forall_lookup in Hf. eauto.
Qed.

Lemma shift_entry_ok j s :
  entries_ok s → (S j < MAX_LEN_OF_BSS_TABLE)%nat →
  ∃ s', shift_entry j s = Some s' ∧ entries_ok s' ∧
    ∀ x : nat, core <$> s'.2 !! x = core <$> s.2 !! (if decide (x = j) then S j else x).
Proof.
  intros Hs Hj. destruct (entry_of s j Hs ltac:(lia)) as (e & He & Oe), (entry_of s (S j) Hs Hj) as (e' & He' & Oe').
  destruct s as [h es], Hs as (Hh & Hl & Hf). cbn [fst snd] in *. unfold shift_entry. rewrite He, Some_bind, He', Some_bind.
  assert (∀ v, core v = core e' → ∀ x : nat, core <$> <[j := v]> es !! x = core <$> es !! (if decide (x = j) then S j else x)) as Hc.
  { intros v Hv x. case_decide as Hx.
    - subst x. rewrite list_lookup_insert_eq, He' by lia. cbn. by rewrite Hv.
    - by rewrite list_lookup_insert_ne. }
  destruct (pVarIeFromProbRsp e) as [a|] eqn:Hp.
  - pose proof (eo_pointer _ Oe) as Ha. rewrite Hp in Ha.
    destruct (copy_buffer_ok (zero_buffer h (Some a)) a e') as (h' & -> & Hh'); [by apply zero_buffer_ok|done|done|].
    rewrite Some_bind. eexists. split; [done|]. split; [|by apply Hc].
    split; [done|]. cbn. rewrite length_insert. split; [done|]. apply Forall_insert; [done|]. by apply set_probe_ok.
  - eexists. split; [done|]. split; [|by apply Hc]. split; [done|]. cbn. rewrite length_insert. split; [done|]. by apply Forall_insert.
Qed.

Lemma shift_entries_ok k : ∀ i s,
  entries_ok s → (i + k < MAX_LEN_OF_BSS_TABLE)%nat →
  ∃ s', loop_opt i k shift_entry s = Some s' ∧ entries_ok s' ∧
    ∀ x : nat, core <$> s'.2 !! x = core <$> s.2 !! (if decide (i <= x < i + k)%nat then S x else x).
Proof.
  induction k as [|k IH]; intros i s Hs Hi; cbn [loop_opt].
  - exists s. split; [done|]. split; [done|]. intros x. by rewrite decide_False by lia.
  - destruct (shift_entry_ok i s Hs ltac:(lia)) as (s1 & -> & Hs1 & H1). rewrite Some_bind.
    destruct (IH (S i) s1 Hs1 ltac:(lia)) as (s' & Hl & Hs' & H'). exists s'. split; [done|]. split; [done|].
    intros x. rewrite H', H1. f_equal. f_equal. repeat case_decide; lia.
Qed.

(** Entry [i] of [n] is gone, those behind it are one place further up, and entry
    [n - 1] is blank. *)
Lemma remove_entry_ok keep i n s :
  entries_ok s → (i < n)%nat → (n <= MAX_LEN_OF_BSS_TABLE)%nat →
  ∃ s', remove_entry keep i n s = Some s' ∧ entries_ok s' ∧
    ∀ x : nat, core <$> s'.2 !! x =
      if decide (x = n - 1)%nat then Some (core (zero_bss 0 None))
      else core <$> s.2 !! (if decide (i <= x < n - 1)%nat then S x else x).
Proof.
  intros Hs Hi Hn. unfold remove_entry.
  destruct (shift_entries_ok (n - 1 - i) i s Hs ltac:(lia)) as (s1 & -> & Hs1 & H1). rewrite Some_bind.
  destruct (entry_of s1 (n - 1) Hs1 ltac:(lia)) as (e & He & Oe). destruct s1 as [h es], Hs1 as (Hh & Hl & Hf). cbn [fst snd] in *.
  unfold clear_entry. rewrite He, Some_bind. eexists. split; [done|]. split.
  - split; [by apply zero_buffer_ok|]. cbn. rewrite length_insert. split; [done|]. apply Forall_insert; [done|].
    apply zero_entry_ok. intros a Ha. pose proof (eo_pointer _ Oe) as Hp. destruct keep; [|done]. by rewrite Ha in Hp.
  - intros x. cbn [fst snd]. case_decide as Hx.
    + subst x. rewrite list_lookup_insert_eq by lia. done.
    + rewrite list_lookup_insert_ne, H1 by done. f_equal. f_equal. repeat case_decide; lia.
Qed.

(** The entries in use afterwards. *)
Lemma removed_used (es es' : list BSS_ENTRY) (i n : nat) :
  (i < n)%nat → (n <= length es)%nat → length es' = length es →
  (∀ x : nat, core <$> es' !! x =
      if decide (x = n - 1)%nat then Some (core (zero_bss 0 None))
      else core <$> es !! (if decide (i <= x < n - 1)%nat then S x else x)) →
  core <$> take (n - 1) es' = delete i (core <$> take n es).
Proof.
  intros Hi Hn Hl H. apply list_eq. intros x. rewrite list_lookup_fmap, lookup_take.
  destruct (decide (x < n - 1)%nat) as [Hx|Hx].
  - rewrite H, decide_False by lia. destruct (decide (x < i)%nat).
    + rewrite list_lookup_delete_lt, list_lookup_fmap, lookup_take, decide_False by lia. by rewrite decide_True by lia.
    + rewrite list_lookup_delete_ge, list_lookup_fmap, lookup_take, decide_True by lia. by rewrite decide_True by lia.
  - symmetry. apply lookup_ge_None_2.
    rewrite length_delete; [|by apply lookup_lt_is_Some_2; rewrite length_fmap, length_take; lia].
    rewrite length_fmap, length_take. lia.
Qed.

(** *** Operations on well-formed tables *)

Definition with_entries (t : BSS_TABLE) (n : nat) (es : list BSS_ENTRY) : BSS_TABLE :=
  {| BssNr := n; BssOverlapNr := BssOverlapNr t; BssEntry := es |}.

Definition core_key (c : bss_desc * Z * Z * Z) : list Z * bool := (Bssid c.1.1.1, 14 <? Channel c.1.1.1).

Lemma key_core (es : list BSS_ENTRY) : key <$> es = core_key <$> (core <$> es).
Proof. by rewrite <- list_fmap_compose. Qed.

Lemma scan_entries_ok h t : scan_ok h t → entries_ok (h, BssEntry t).
Proof. by intros []. Qed.

Lemma scan_ok_removed h t keep i :
  scan_ok h t → (i < BssNr t)%nat →
  ∃ h' es', remove_entry keep i (BssNr t) (h, BssEntry t) = Some (h', es') ∧
    scan_ok h' (with_entries t (BssNr t - 1) es') ∧
    core <$> used (with_entries t (BssNr t - 1) es') = delete i (core <$> used t).
Proof.
  intros Hs Hi. pose proof (so_number _ _ Hs) as Hn. pose proof (so_length _ _ Hs) as Hlen.
  destruct (remove_entry_ok keep i (BssNr t) (h, BssEntry t)) as ([h' es'] & Hr & (Hh & Hl & Hf) & Hc); [by apply scan_entries_ok|done|done|].
  cbn [fst snd] in *. exists h', es'. split; [done|].
  assert (core <$> take (BssNr t - 1) es' = delete i (core <$> used t)) as Hu by (apply removed_used; [lia..|done]).
  split; [|done]. split; cbn [BssEntry BssNr BssOverlapNr with_entries]; try done; [lia|apply Hs| |].
  - unfold used at 1. cbn [BssNr BssEntry with_entries]. rewrite key_core, Hu.
    eapply sublist_NoDup; [|apply fmap_sublist, (sublist_delete _ i)]. rewrite <- key_core. apply Hs.
  - intros k e Hk Hle. specialize (Hc k). rewrite Hk in Hc. cbn in Hc. case_decide as Hx.
    + injection Hc as Hd _ _ _. by rewrite Hd.
    + rewrite decide_False in Hc by lia. destruct (BssEntry t !! k) as [e0|] eqn:He0; [|done]. cbn in Hc. injection Hc as Hd _ _ _.
      rewrite Hd. apply (so_blank _ _ Hs k); [done|lia].
Qed.

Lemma BssTableDeleteEntry_ok h t bssid ch :
  scan_ok h t → ∃ h' t', BssTableDeleteEntry h t bssid ch = Some (h', t') ∧ scan_ok h' t'.
Proof.
  intros Hs. unfold BssTableDeleteEntry.
  pose proof (find_from_spec (λ e : BSS_ENTRY, (Channel e =? ch) && MAC_ADDR_EQUAL (Bssid e) bssid) (used t) 0) as H.
  destruct (find_from _ 0 (used t)) as [i|]; [|by eauto]. destruct H as (e & _ & He & _). rewrite Nat.sub_0_r in He.
  apply used_lookup in He as [_ Hi]. destruct (scan_ok_removed h t true i Hs Hi) as (h' & es' & -> & Hok & _).
  rewrite Some_bind. by eauto.
Qed.

(** Replacing one entry in place. *)
Lemma scan_ok_insert h t i (e e' : BSS_ENTRY) :
  scan_ok h t → BssEntry t !! i = Some e → entry_ok e' → (i < BssNr t)%nat →
  (∀ k : nat, k ≠ i → ∀ x : BSS_ENTRY, used t !! k = Some x → key x ≠ key e') →
  scan_ok h (with_entries t (BssNr t) (<[i := e']> (BssEntry t))).
Proof.
  intros Hs He Ho Hi Hk. split; cbn [BssEntry BssNr BssOverlapNr with_entries]; try apply Hs.
  - rewrite length_insert. apply Hs.
  - apply Forall_insert; [apply Hs|done].
  - unfold used. cbn [BssEntry BssNr with_entries]. rewrite take_insert_lt by done. rewrite list_fmap_insert. fold (used t).
    apply NoDup_alt. intros j1 j2 x Hj1 Hj2. pose proof (so_keys _ _ Hs) as Hnd. rewrite NoDup_alt in Hnd.
    assert (∀ j : nat, j ≠ i → (key <$> used t) !! j = Some x → key e' ≠ x) as Hdiff.
    { intros j Hj Hx. rewrite list_lookup_fmap in Hx. destruct (used t !! j) as [y|] eqn:Hy; [|done]. injection Hx as <-. intros Heq. by apply (Hk j Hj y Hy). }
    apply list_lookup_insert_Some in Hj1 as [(-> & <- & _)|[N1 Hj1]]; apply list_lookup_insert_Some in Hj2 as [(-> & E2 & _)|[N2 Hj2]]; try done.
    + by apply (Hdiff j2) in Hj2.
    + subst x. by apply (Hdiff j1) in Hj1.
    + by eapply Hnd.
  - intros k x Hx Hle. rewrite list_lookup_insert_ne in Hx by lia. by apply (so_blank _ _ Hs k).
Qed.

(** Filling the first free entry. *)
Lemma scan_ok_append h t (e' : BSS_ENTRY) :
  scan_ok h t → (BssNr t < MAX_LEN_OF_BSS_TABLE)%nat → entry_ok e' → key e' ∉ key <$> used t →
  scan_ok h (with_entries t (BssNr t + 1) (<[BssNr t := e']> (BssEntry t))).
Proof.
  intros Hs Hn Ho Hk. pose proof (so_length _ _ Hs) as Hl. split; cbn [BssEntry BssNr BssOverlapNr with_entries]; try apply Hs.
  - by rewrite length_insert.
  - lia.
  - apply Forall_insert; [apply Hs|done].
  - unfold used. cbn [BssEntry BssNr with_entries]. rewrite Nat.add_1_r, (take_S_r _ _ e') by (rewrite list_lookup_insert_eq by lia; done).
    rewrite take_insert_ge by lia. fold (used t). rewrite fmap_app. apply NoDup_app. split; [apply Hs|]. split; [|apply NoDup_singleton].
    intros x Hx Hin. apply list_elem_of_singleton in Hin. by subst.
  - intros k x Hx Hle. rewrite list_lookup_insert_ne in Hx by lia. apply (so_blank _ _ Hs k); [done|lia].
Qed.

(** *** Insertion *)

(** The station wants to join this network: by its BSSID or by its SSID. *)
Definition wants (C : connection) (a : bss_args) : bool :=
  MAC_ADDR_EQUAL (Mlme_Bssid C) (a_Bssid a) ||
  ((Mlme_SsidLen C =? a_SsidLen a) &&
   bool_decide (take (Z.to_nat (a_SsidLen a)) (Mlme_Ssid C) = take (Z.to_nat (a_SsidLen a)) (a_Ssid a))).

(** Where a frame's network goes: into its own entry, the first free one, or,
    when the table is full and the network is wanted, over the next entry in turn. *)
Definition slot_for (C : connection) (t : BSS_TABLE) (a : bss_args) : option nat :=
  match BssTableSearch t (a_Bssid a) (a_Channel a) with
  | Some i => Some i
  | None =>
      if (BssNr t <? MAX_LEN_OF_BSS_TABLE)%nat then Some (BssNr t)
      else if negb (MEDIA_STATE_CONNECTED C && AP_MEDIA_STATE_CONNECTED C) && wants C a then Some (BssOverlapNr t)
      else None
  end.

Definition connection_ok (C : connection) : Prop := length (Mlme_Ssid C) = MAX_LEN_OF_SSID ∧ 0 <= Mlme_SsidLen C <= 32.

Lemma SSID_EQUAL_ok s1 n1 s2 n2 :
  length s1 = MAX_LEN_OF_SSID → length s2 = MAX_LEN_OF_SSID → 0 <= n2 <= 32 →
  SSID_EQUAL s1 n1 s2 n2 = Some ((n1 =? n2) && bool_decide (take (Z.to_nat n2) s1 = take (Z.to_nat n2) s2)).
Proof.
  intros H1 H2 Hn. unfold SSID_EQUAL. destruct (Z.eqb_spec n1 n2) as [->|]; [|done]. unfold NdisEqualMemory.
  unfold MAX_LEN_OF_SSID in *. rewrite !load_ok, !Some_bind by lia. unfold slice. by rewrite !drop_0.
Qed.

Lemma frame_key now a l b (e : BSS_ENTRY) : frame_in now a l b e → key e = (a_Bssid a, 14 <? a_Channel a).
Proof. intros []. unfold key. congruence. Qed.

Lemma set_entry_ok now a l pad i es (e : BSS_ENTRY) :
  es !! i = Some e → entry_ok e → args_ok a l pad →
  ∃ d, set_entry now a i es = Some (<[i := set_desc e d]> es) ∧ frame_in now a l e d ∧ entry_ok (set_desc e d).
Proof.
  intros He [Hd Hp Hl] Ha. destruct (BssEntrySet_ok now e a l pad Hd Ha) as (d & Hset & Hok & Hf).
  exists d. unfold set_entry. rewrite He, Some_bind, Hset, Some_bind. split; [done|]. split; [done|]. by split.
Qed.

Lemma search_found h t k (e : BSS_ENTRY) bssid ch :
  scan_ok h t → used t !! k = Some e → key e = (bssid, 14 <? ch) → BssTableSearch t bssid ch = Some k.
Proof.
  intros Hs He Hk. pose proof (BssTableSearch_spec t bssid ch) as H. destruct (BssTableSearch t bssid ch) as [j|].
  - destruct H as (e' & He' & Hk'). f_equal. pose proof (so_keys _ _ Hs) as Hn. rewrite NoDup_alt in Hn.
    apply (Hn j k (bssid, 14 <? ch)); rewrite list_lookup_fmap, ?He, ?He'; cbn; by rewrite ?Hk, ?Hk'.
  - destruct H. apply list_elem_of_fmap. exists e. split; [done|]. by eapply list_elem_of_lookup_2.
Qed.

Lemma key_absent t (k : nat) (x : BSS_ENTRY) c : c ∉ key <$> used t → used t !! k = Some x → key x ≠ c.
Proof. intros Hn Hx <-. apply Hn. apply list_elem_of_fmap_2. by eapply list_elem_of_lookup_2. Qed.

Lemma with_overlap_ok h t k : scan_ok h t → (k < MAX_LEN_OF_BSS_TABLE)%nat →
  scan_ok h {| BssNr := BssNr t; BssOverlapNr := k; BssEntry := BssEntry t |}.
Proof. intros []. by split. Qed.

(** What a call has done when it is over. *)
Definition entry_set (now : Z) (a : bss_args) (l : list announced) (t t' : BSS_TABLE) (k : nat) : Prop :=
  (∃ (e : BSS_ENTRY) (old : bss_desc), BssEntry t' !! k = Some e ∧ frame_in now a l old e ∧
     match BssTableSearch t (a_Bssid a) (a_Channel a) with
     | Some _ => desc <$> BssEntry t !! k = Some old
     | None => SsidLen old = 0
     end) ∧
  (∀ j, j ≠ k → BssEntry t' !! j = BssEntry t !! j) ∧
  BssTableSearch t' (a_Bssid a) (a_Channel a) = Some k.

Section SetEntry.
Context (h : heap) (now : Z) (C : connection) (t : BSS_TABLE) (a : bss_args) (l : list announced) (pad : list Z).
Context (Hs : scan_ok h t) (Ha : args_ok a l pad).

Lemma set_known i :
  BssTableSearch t (a_Bssid a) (a_Channel a) = Some i →
  ∃ es, set_entry now a i (BssEntry t) = Some es ∧ scan_ok h (with_entries t (BssNr t) es) ∧
    entry_set now a l t (with_entries t (BssNr t) es) i.
Proof.
  intros Hi. pose proof (BssTableSearch_spec t (a_Bssid a) (a_Channel a)) as H. rewrite Hi in H. destruct H as (e & He & Hk).
  pose proof (proj1 (used_lookup t i e) He) as [Hl Hlt]. pose proof (so_entries _ _ Hs) as Ho. rewrite Forall_lookup in Ho.
  destruct (set_entry_ok now a l pad i _ e Hl (Ho _ _ Hl) Ha) as (d & Hset & Hf & Hok). eexists. split; [exact Hset|].
  pose proof (frame_key now a l e (set_desc e d) Hf) as Hkey.
  assert (scan_ok h (with_entries t (BssNr t) (<[i:=set_desc e d]> (BssEntry t)))) as Hs'.
  { apply (scan_ok_insert h t i e); [done..|]. intros k Hne x Hx. rewrite Hkey. intros Hx'.
    pose proof (search_found h t k x _ _ Hs Hx Hx') as Hk'. congruence. }
  split; [done|]. pose proof (lookup_lt_Some _ _ _ Hl). split; [|split].
  - exists (set_desc e d), e. cbn [BssEntry with_entries]. rewrite list_lookup_insert_eq, Hi, Hl by done. done.
  - intros j Hj. cbn [BssEntry with_entries]. by rewrite list_lookup_insert_ne.
  - eapply search_found; [done| |exact Hkey]. apply used_lookup. cbn [BssEntry with_entries BssNr]. by rewrite list_lookup_insert_eq.
Qed.

Context (Hnew : BssTableSearch t (a_Bssid a) (a_Channel a) = None).

Lemma new_key : (a_Bssid a, 14 <? a_Channel a) ∉ key <$> used t.
Proof. pose proof (BssTableSearch_spec t (a_Bssid a) (a_Channel a)) as H. by rewrite Hnew in H. Qed.

Lemma set_new :
  (BssNr t < MAX_LEN_OF_BSS_TABLE)%nat →
  ∃ es, set_entry now a (BssNr t) (BssEntry t) = Some es ∧ scan_ok h (with_entries t (BssNr t + 1) es) ∧
    entry_set now a l t (with_entries t (BssNr t + 1) es) (BssNr t).
Proof.
  intros Hlt. pose proof (so_length _ _ Hs) as Hlen. destruct (lookup_lt_is_Some_2 (BssEntry t) (BssNr t)) as [e Hl]; [lia|].
  pose proof (so_entries _ _ Hs) as Ho. rewrite Forall_lookup in Ho.
  destruct (set_entry_ok now a l pad (BssNr t) _ e Hl (Ho _ _ Hl) Ha) as (d & Hset & Hf & Hok). eexists. split; [exact Hset|].
  pose proof (frame_key now a l e (set_desc e d) Hf) as Hkey.
  assert (scan_ok h (with_entries t (BssNr t + 1) (<[BssNr t:=set_desc e d]> (BssEntry t)))) as Hs'.
  { apply scan_ok_append; [done..|]. rewrite Hkey. apply new_key. }
  split; [done|]. split; [|split].
  - exists (set_desc e d), e. cbn [BssEntry with_entries]. rewrite list_lookup_insert_eq, Hnew by lia.
    split_and!; [done..|]. by apply (so_blank _ _ Hs (BssNr t)).
  - intros j Hj. cbn [BssEntry with_entries]. by rewrite list_lookup_insert_ne.
  - eapply search_found; [done| |exact Hkey]. apply used_lookup. cbn [BssEntry with_entries BssNr]. rewrite list_lookup_insert_eq by lia. split; [done|lia].
Qed.

Lemma set_overlap :
  (MAX_LEN_OF_BSS_TABLE <= BssNr t)%nat →
  let k := BssOverlapNr t in
  ∃ es, set_entry now a k (<[k := zero_bss 0 None]> (BssEntry t)) = Some es ∧
    let t' := {| BssNr := BssNr t; BssOverlapNr := (k + 1) mod MAX_LEN_OF_BSS_TABLE; BssEntry := es |} in
    scan_ok h t' ∧ entry_set now a l t t' k.
Proof.
  intros Hfull k. pose proof (so_length _ _ Hs) as Hlen. pose proof (so_overlap _ _ Hs) as Hk. pose proof (so_number _ _ Hs) as Hn.
  fold k in Hk. destruct (lookup_lt_is_Some_2 (BssEntry t) k) as [e Hl]; [lia|].
  set (z := zero_bss 0 None). assert (entry_ok z) as Hz by (by apply zero_entry_ok).
  destruct (set_entry_ok now a l pad k (<[k := z]> (BssEntry t)) z) as (d & Hset & Hf & Hok); [by rewrite list_lookup_insert_eq by lia|done|done|].
  rewrite list_insert_insert_eq in Hset. eexists. split; [exact Hset|]. intros t'.
  pose proof (frame_key now a l z (set_desc z d) Hf) as Hkey.
  assert (scan_ok h t') as Hs'.
  { apply (with_overlap_ok h (with_entries t (BssNr t) (<[k:=set_desc z d]> (BssEntry t)))); [|unfold MAX_LEN_OF_BSS_TABLE in *; apply Nat.mod_upper_bound; lia].
    apply (scan_ok_insert h t k e); [done..|lia|]. intros j Hj x Hx. rewrite Hkey. by apply (key_absent t j x _ new_key). }
  split; [done|]. split; [|split].
  - exists (set_desc z d), z. cbn [BssEntry t']. rewrite list_lookup_insert_eq, Hnew by lia. done.
  - intros j Hj. cbn [BssEntry t']. by rewrite list_lookup_insert_ne.
  - eapply search_found; [done| |exact Hkey]. apply used_lookup. cbn [BssEntry t' BssNr]. rewrite list_lookup_insert_eq by lia. split; [done|lia].
Qed.
End SetEntry.

Lemma BssTableSetEntry_ok h now C t a l pad :
  scan_ok h t → args_ok a l pad → connection_ok C →
  ∃ t', BssTableSetEntry now C t a = Some (t', slot_for C t a) ∧ scan_ok h t' ∧
    match slot_for C t a with
    | Some k => entry_set now a l t t' k
    | None => t' = t
    end.
Proof.
  intros Hs Ha [HC HCl]. unfold BssTableSetEntry, slot_for.
  destruct (BssTableSearch t (a_Bssid a) (a_Channel a)) as [i|] eqn:Hi.
  { destruct (set_known h now t a l pad Hs Ha i Hi) as (es & -> & Hok & He). rewrite Some_bind. by eauto. }
  destruct (Nat.leb_spec MAX_LEN_OF_BSS_TABLE (BssNr t)) as [Hf|Hf].
  - rewrite (proj2 (Nat.ltb_ge _ _)) by done. rewrite <- negb_andb. destruct (negb _); cbn [andb]; [|by eauto].
    destruct (arg_ssid _ _ _ Ha) as [Has Hal]. rewrite SSID_EQUAL_ok by done.
    assert ((if MAC_ADDR_EQUAL (Mlme_Bssid C) (a_Bssid a) then Some true
             else Some ((Mlme_SsidLen C =? a_SsidLen a) && bool_decide (take (Z.to_nat (a_SsidLen a)) (Mlme_Ssid C) = take (Z.to_nat (a_SsidLen a)) (a_Ssid a)))) =
            Some (wants C a)) as -> by (unfold wants; by destruct (MAC_ADDR_EQUAL _ _)).
    rewrite Some_bind. destruct (wants C a); [|by eauto].
    destruct (lookup_lt_is_Some_2 (BssEntry t) (BssOverlapNr t)) as [e0 ->]; [pose proof (so_length _ _ Hs); pose proof (so_overlap _ _ Hs); lia|].
    rewrite Some_bind. destruct (set_overlap h now t a l pad Hs Ha Hi Hf) as (es & -> & Hok & He). rewrite Some_bind. by eauto.
  - rewrite (proj2 (Nat.ltb_lt _ _)) by done. destruct (set_new h now t a l pad Hs Ha Hi Hf) as (es & -> & Hok & He).
    rewrite Some_bind. by eauto.
Qed.

(** *** Ageing *)

Definition ageing_ok (A : ageing) : Prop := length (Common_Ssid A) = MAX_LEN_OF_SSID ∧ 0 <= Common_SsidLen A <= 32.

Lemma touch_ok (e : BSS_ENTRY) : entry_ok e → entry_ok (touch e) ∧ desc (touch e) = desc e.
Proof. intros [H1 H2 H3]. unfold touch. destruct (_ =? _); by split. Qed.

(** The network is the one the station is connected to, as far as [expired] can
    tell: the SSID begins with the other. *)
Definition same_network (A : ageing) (e : bss_desc) : bool :=
  connected A && bool_decide (take (Z.to_nat (Common_SsidLen A)) (Ssid e) = take (Z.to_nat (Common_SsidLen A)) (Common_Ssid A)).

(** Not heard for too long, or in too many scans. *)
Definition stale (A : ageing) (now diff same : Z) (e : BSS_ENTRY) : bool :=
  (RTMP_TIME_AFTER now (u32 (LastBeaconRxTime e + diff * OS_HZ A)) || (same <? SameRxTimeCount e)) && negb (same_network A e).

Lemma expired_ok A now diff same (e : BSS_ENTRY) :
  ageing_ok A → desc_ok e → expired A now diff same e = Some (stale A now diff same e).
Proof.
  intros [HA HAl] Hd. destruct (ok_ssid _ Hd) as [Hl _]. unfold expired, stale, same_network, NdisEqualMemory, MAX_LEN_OF_SSID in *.
  destruct (connected A); [|by rewrite andb_true_r].
  rewrite !load_ok, !Some_bind by lia. unfold slice. by rewrite !drop_0.
Qed.

Lemma touched_scan_ok h t i (e : BSS_ENTRY) :
  scan_ok h t → used t !! i = Some e → scan_ok h (with_entries t (BssNr t) (<[i := touch e]> (BssEntry t))).
Proof.
  intros Hs He. pose proof (proj1 (used_lookup t i e) He) as [Hl Hlt].
  pose proof (so_entries _ _ Hs) as Ho. rewrite Forall_lookup in Ho. destruct (touch_ok e (Ho _ _ Hl)) as [Hok Hd].
  apply (scan_ok_insert h t i e); [done..|]. intros k Hk x Hx Heq. apply Hk.
  assert (key x = key e) as Heq' by (rewrite Heq; unfold key; by rewrite Hd).
  pose proof (so_keys _ _ Hs) as Hn. rewrite NoDup_alt in Hn.
  apply (Hn k i (key e)); rewrite list_lookup_fmap, ?Hx, ?He; cbn; by rewrite ?Heq'.
Qed.

(** What one pass leaves of the entries in use: a stale one goes, and the one
    behind it, which takes its place, is not looked at. *)
Fixpoint aged (A : ageing) (diff same : Z) (i : nat) (es : list BSS_ENTRY) : list BSS_ENTRY :=
  match es with
  | [] => []
  | e :: es =>
      if stale A (clock A i) diff same (touch e)
      then match es with
           | [] => []
           | e' :: es => e' :: aged A diff same (S i) es
           end
      else touch e :: aged A diff same (S i) es
  end.

Section Maintain.
Context (A : ageing) (diff same : Z) (HA : ageing_ok A).

(** Ageing does not look at the pointers. *)
Lemma aged_core i es1 : ∀ es2, core <$> es1 = core <$> es2 → core <$> aged A diff same i es1 = core <$> aged A diff same i es2.
Proof.
  assert (∀ e1 e2 : BSS_ENTRY, core e1 = core e2 → core (touch e1) = core (touch e2) ∧
    ∀ now, stale A now diff same (touch e1) = stale A now diff same (touch e2)) as Hcore.
  { intros [d1 c1 t1 n1 p1] [d2 c2 t2 n2 p2] [= -> -> -> ->]. unfold touch, stale, same_network. cbn. by destruct (_ =? _). }
  revert i. induction es1 as [es1 IH] using (well_founded_induction (well_founded_ltof _ length)). intros i es2 H.
  destruct es1 as [|e1 es1], es2 as [|e2 es2]; [done|discriminate H|discriminate H|]. rewrite !fmap_cons in H.
  apply (inj2 cons) in H as [Hc H]. destruct (Hcore e1 e2 Hc) as [Ht Hst]. cbn [aged]. rewrite Hst.
  destruct (stale _ _ _ _ _).
  - destruct es1 as [|e1' es1], es2 as [|e2' es2]; [done|discriminate H|discriminate H|]. rewrite !fmap_cons in H |- *.
    apply (inj2 cons) in H as [Hc' H]. f_equal; [done|]. apply IH; [unfold ltof; cbn; lia|done].
  - rewrite !fmap_cons, Ht. f_equal. apply IH; [unfold ltof; cbn; lia|done].
Qed.

(** One turn: the table, and whether its entry [i] was removed. *)
Lemma maintain_turn h t i (e : BSS_ENTRY) :
  scan_ok h t → used t !! i = Some e →
  ∃ h' es' total,
    (let s := (h, <[i := touch e]> (BssEntry t)) in
     del ← expired A (clock A i) diff same (touch e);
     if (del : bool)
     then s ← remove_entry false i (BssNr t) s; Some (s, BssNr t - 1)%nat
     else Some (s, BssNr t)) = Some ((h', es'), total) ∧
    scan_ok h' (with_entries t total es') ∧
    core <$> used (with_entries t total es') =
      if stale A (clock A i) diff same (touch e) then delete i (core <$> used t) else <[i := core (touch e)]> (core <$> used t).
Proof.
  intros Hs He. pose proof (proj1 (used_lookup t i e) He) as [Hl Hlt]. pose proof (touched_scan_ok h t i e Hs He) as Ht.
  pose proof (so_entries _ _ Hs) as Ho. rewrite Forall_lookup in Ho. destruct (touch_ok e (Ho _ _ Hl)) as [Hok _].
  assert (core <$> used (with_entries t (BssNr t) (<[i := touch e]> (BssEntry t))) = <[i := core (touch e)]> (core <$> used t)) as Hc.
  { unfold used. cbn [BssEntry BssNr with_entries]. by rewrite take_insert_lt, list_fmap_insert. }
  cbv zeta. rewrite expired_ok, Some_bind by (done || apply Hok). destruct (stale _ _ _ _ _).
  - destruct (scan_ok_removed h (with_entries t (BssNr t) (<[i:=touch e]> (BssEntry t))) false i Ht) as (h' & es' & Hr & Hok' & Hu); [done|].
    cbn [BssEntry BssNr with_entries] in Hr. rewrite Hr, Some_bind. exists h', es', (BssNr t - 1)%nat. split; [done|]. split; [done|].
    change (core <$> used (with_entries t (BssNr t - 1) es') = delete i (core <$> used (with_entries t (BssNr t) (<[i:=touch e]> (BssEntry t))))) in Hu.
    rewrite Hu, Hc. apply list_eq. intros x. destruct (decide (x < i)%nat).
    + by rewrite !list_lookup_delete_lt, list_lookup_insert_ne by lia.
    + by rewrite !list_lookup_delete_ge, list_lookup_insert_ne by lia.
  - by eexists _, _, _.
Qed.

Lemma maintain_aged turns : ∀ i h t,
  scan_ok h t → (BssNr t <= i + turns)%nat →
  ∃ h' es' n, maintain turns A diff same i (BssNr t) (h, BssEntry t) = Some ((h', es'), n) ∧
    scan_ok h' (with_entries t n es') ∧
    core <$> used (with_entries t n es') = take i (core <$> used t) ++ (core <$> aged A diff same i (drop i (used t))).
Proof.
  induction turns as [|turns IH]; intros i h t Hs Hi; cbn [maintain].
  { exists h, (BssEntry t), (BssNr t). split; [done|]. split; [by destruct t|]. rewrite take_ge, drop_ge by (rewrite ?length_fmap; unfold used; rewrite length_take; lia).
    by rewrite app_nil_r. }
  destruct (Nat.ltb_spec i (BssNr t)) as [Hlt|Hge].
  2: { exists h, (BssEntry t), (BssNr t). split; [done|]. split; [by destruct t|]. rewrite take_ge, drop_ge by (rewrite ?length_fmap; unfold used; rewrite length_take; lia).
    by rewrite app_nil_r. }
  pose proof (so_length _ _ Hs) as Hlen. pose proof (so_number _ _ Hs) as Hnum.
  destruct (lookup_lt_is_Some_2 (used t) i) as [e He]; [unfold used; rewrite length_take; lia|].
  pose proof (proj1 (used_lookup t i e) He) as [Hl _]. cbn [fst snd]. rewrite Hl, Some_bind. cbv zeta.
  destruct (maintain_turn h t i e Hs He) as (h1 & es1 & n1 & Hturn & Hs1 & Hu1). cbv zeta in Hturn.
  pose proof (so_entries _ _ Hs) as Ho. rewrite Forall_lookup in Ho. destruct (touch_ok e (Ho _ _ Hl)) as [Hok _].
  rewrite expired_ok, Some_bind in Hturn by (done || apply Hok). rewrite expired_ok, Some_bind by (done || apply Hok).
  rewrite (drop_S _ e) by done. cbn [aged].
  assert (length (core <$> used t) = BssNr t) as Hcl by (rewrite length_fmap; unfold used; rewrite length_take; lia).
  destruct (stale A (clock A i) diff same (touch e)).
  - destruct (remove_entry false i (BssNr t) (h, <[i:=touch e]> (BssEntry t))) as [s1|]; [|done]. rewrite Some_bind in *. injection Hturn as -> <-.
    destruct (IH (S i) h1 (with_entries t (BssNr t - 1) es1) Hs1) as (h' & es' & n & Hm & Hs' & Hu'); [cbn [BssNr with_entries]; lia|].
    cbn [BssNr BssEntry with_entries] in Hm. exists h', es', n. split; [exact Hm|]. split; [exact Hs'|]. change (with_entries (with_entries t (BssNr t - 1) es1) n es') with (with_entries t n es') in Hu'.
    rewrite Hu', Hu1. assert (delete i (core <$> used t) = take i (core <$> used t) ++ drop (S i) (core <$> used t)) as Hdel by apply delete_take_drop.
    assert (length (take i (core <$> used t)) = i) as Hti by (rewrite length_take; lia).
    rewrite (aged_core (S i) _ (drop 1 (drop (S i) (used t)))).
    2: { rewrite fmap_drop, Hu1, Hdel, !fmap_drop. rewrite drop_app_ge, Hti by lia. by replace (S i - i)%nat with 1%nat by lia. }
    rewrite Hdel, take_app_ge, Hti by lia. replace (S i - i)%nat with 1%nat by lia. rewrite <- fmap_drop, <- app_assoc. f_equal.
    by destruct (drop (S i) (used t)).
  - injection Hturn as <- <- <-.
    destruct (IH (S i) h (with_entries t (BssNr t) (<[i:=touch e]> (BssEntry t))) Hs1) as (h' & es' & n & Hm & Hs' & Hu'); [cbn [BssNr with_entries]; lia|].
    cbn [BssNr BssEntry with_entries] in Hm. exists h', es', n. split; [exact Hm|]. split; [exact Hs'|].
    change (with_entries (with_entries t (BssNr t) (<[i:=touch e]> (BssEntry t))) n es') with (with_entries t n es') in Hu'.
    rewrite Hu', Hu1. rewrite (aged_core (S i) _ (drop (S i) (used t))) by (by rewrite !fmap_drop, Hu1, drop_insert_lt by lia).
    rewrite (take_S_r _ i (core (touch e))) by (by rewrite list_lookup_insert_eq by lia). rewrite take_insert_ge, fmap_cons, <- app_assoc by lia. done.
Qed.

(** [MaintainBssTable] keeps the table well-formed, and what it leaves is [aged]. *)
Lemma MaintainBssTable_ok h t :
  scan_ok h t →
  ∃ h' t', MaintainBssTable A h t diff same = Some (h', t') ∧ scan_ok h' t' ∧
    core <$> used t' = core <$> aged A diff same 0 (used t).
Proof.
  intros Hs. unfold MaintainBssTable. destruct (maintain_aged (BssNr t) 0 h t Hs) as (h' & es' & n & -> & Hs' & Hu); [lia|].
  rewrite Some_bind. by eexists _, _.
Qed.
End Maintain.

(** ** Probe responses and deletion *)

(** Slot [k] has buffer [k], as [rtmp_init.c] sets them up. *)
Definition owned (es : list BSS_ENTRY) : Prop := ∀ (k : nat) (e : BSS_ENTRY), es !! k = Some e → pVarIeFromProbRsp e = Some k.

(** The elements of the last probe response. *)
Definition probe (h : heap) (e : BSS_ENTRY) : option (list Z) :=
  p ← pVarIeFromProbRsp e; b ← h !! p; Some (take (Z.to_nat (VarIeFromProbeRspLen e)) b).

Lemma probe_at h (e : BSS_ENTRY) k :
  pVarIeFromProbRsp e = Some k → probe h e = (b ← h !! k; Some (take (Z.to_nat (VarIeFromProbeRspLen e)) b)).
Proof. intros Hp. unfold probe. by rewrite Hp. Qed.

(** All that an entry tells about its network. *)
Definition snapshot (h : heap) (e : BSS_ENTRY) : bss_desc * Z * Z * Z * option (list Z) := (core e, probe h e).

Lemma shift_entry_owned j s :
  entries_ok s → owned s.2 → (S j < MAX_LEN_OF_BSS_TABLE)%nat →
  ∃ s', shift_entry j s = Some s' ∧ entries_ok s' ∧ owned s'.2 ∧
    ∀ x : nat, snapshot s'.1 <$> s'.2 !! x = snapshot s.1 <$> s.2 !! (if decide (x = j) then S j else x).
Proof.
  intros Hs Hown Hj. destruct (shift_entry_ok j s Hs Hj) as (s' & Hsh & Hs' & _). exists s'. split; [done|]. split; [done|].
  destruct (entry_of s j Hs ltac:(lia)) as (e & He & Oe), (entry_of s (S j) Hs Hj) as (e' & He' & Oe').
  destruct s as [h es], Hs as (Hh & Hl & _). cbn [fst snd] in *. pose proof (eo_len _ Oe') as Hlen.
  unfold shift_entry in Hsh. rewrite He, Some_bind, He', Some_bind, (Hown j e He), (Hown (S j) e' He') in Hsh.
  unfold copy_buffer, zero_buffer in Hsh.
  destruct (heap_lookup h (S j) Hh Hj) as (b & Hb & Hbl). pose proof (proj1 Hh) as Hhl. pose proof Hh as [Hh1 Hh2]. unfold heap in *.
  rewrite (list_lookup_insert_ne h j (S j)), Hb, Some_bind, list_lookup_insert_eq, Some_bind in Hsh by lia.
  rewrite NdisMoveMemory_ok, !Some_bind in Hsh by (rewrite ?length_zeros; lia). injection Hsh as <-. cbn [fst snd]. split.
  - intros k x Hx. apply list_lookup_insert_Some in Hx as [(-> & <- & _)|[_ Hx]]; [done|by apply Hown].
  - intros x. case_decide as Hx.
    + subst x. rewrite list_lookup_insert_eq, He' by lia. apply (f_equal Some), (f_equal2 pair); [done|].
      rewrite (probe_at _ _ j), (probe_at _ e' (S j)) by (done || by apply Hown).
      unfold heap. rewrite list_lookup_insert_eq, Hb, !Some_bind by (rewrite length_insert; lia). f_equal. cbn [set_probe VarIeFromProbeRspLen].
      set (n := Z.to_nat (VarIeFromProbeRspLen e')). assert (length (take n b) = n) as Hn by (rewrite length_take; lia).
      rewrite put_splice by (rewrite length_zeros; lia). rewrite app_nil_l, take_app_le by lia. apply take_ge. lia.
    + rewrite list_lookup_insert_ne by done. destruct (es !! x) as [y|] eqn:Hy; [|done].
      apply (f_equal Some), (f_equal2 pair); [done|]. rewrite !(probe_at _ y x) by by apply Hown. unfold heap. by rewrite !list_lookup_insert_ne.
Qed.

Lemma shift_entries_owned k : ∀ i s,
  entries_ok s → owned s.2 → (i + k < MAX_LEN_OF_BSS_TABLE)%nat →
  ∃ s', loop_opt i k shift_entry s = Some s' ∧ entries_ok s' ∧ owned s'.2 ∧
    ∀ x : nat, snapshot s'.1 <$> s'.2 !! x = snapshot s.1 <$> s.2 !! (if decide (i <= x < i + k)%nat then S x else x).
Proof.
  induction k as [|k IH]; intros i s Hs Ho Hi; cbn [loop_opt].
  - exists s. split_and!; try done. intros x. by rewrite decide_False by lia.
  - destruct (shift_entry_owned i s Hs Ho ltac:(lia)) as (s1 & -> & Hs1 & Ho1 & H1). rewrite Some_bind.
    destruct (IH (S i) s1 Hs1 Ho1 ltac:(lia)) as (s' & Hl & Hs' & Ho' & H'). exists s'. split_and!; try done.
    intros x. rewrite H', H1. f_equal. f_equal. repeat case_decide; lia.
Qed.

Lemma remove_entry_owned i n h es :
  entries_ok (h, es) → owned es → (i < n)%nat → (n <= MAX_LEN_OF_BSS_TABLE)%nat →
  ∃ h' es', remove_entry true i n (h, es) = Some (h', es') ∧ owned es' ∧
    snapshot h' <$> take (n - 1) es' = delete i (snapshot h <$> take n es).
Proof.
  intros Hs Ho Hi Hn. unfold remove_entry.
  destruct (shift_entries_owned (n - 1 - i) i (h, es) Hs Ho ltac:(lia)) as ([h1 es1] & -> & Hs1 & Ho1 & H1). rewrite Some_bind.
  destruct (entry_of (h1, es1) (n - 1) Hs1 ltac:(lia)) as (e & He & Oe). cbn [fst snd] in *. unfold clear_entry. rewrite He, Some_bind.
  pose proof (Ho1 _ _ He) as Hp. rewrite Hp. eexists _, _. split; [done|]. destruct Hs as (_ & Hl & _), Hs1 as (_ & Hl1 & _). cbn [fst snd] in *. split.
  - intros k x Hx. apply list_lookup_insert_Some in Hx as [(-> & <- & _)|[_ Hx]]; [done|by apply Ho1].
  - apply list_eq. intros x. rewrite take_insert_ge by lia. rewrite list_lookup_fmap, lookup_take.
    destruct (decide (x < n - 1)%nat) as [Hx|Hx].
    + transitivity (snapshot h1 <$> es1 !! x).
      { destruct (es1 !! x) as [y|] eqn:Hy; [|done]. apply (f_equal Some), (f_equal2 pair); [done|].
        rewrite !(probe_at _ y x) by by apply Ho1. unfold zero_buffer, heap. by rewrite list_lookup_insert_ne by lia. }
      rewrite H1. destruct (decide (x < i)%nat).
      * rewrite list_lookup_delete_lt, list_lookup_fmap, lookup_take, decide_False by lia. by rewrite decide_True by lia.
      * rewrite list_lookup_delete_ge, list_lookup_fmap, lookup_take, decide_True by lia. by rewrite decide_True by lia.
    + symmetry. apply lookup_ge_None_2.
      rewrite length_delete; [|by apply lookup_lt_is_Some_2; rewrite length_fmap, length_take; lia].
      rewrite length_fmap, length_take. lia.
Qed.

(** C23: As long as every slot has the buffer [UserCfgInit] gave it ([owned]), deleting a
    network removes its entry and no other: the rest keep their order, their
    description and their last probe response, and every slot its buffer.
    [MaintainBssTable] and the replacement of an entry in a full table take slots
    their buffers; [probe_response_wiped] shows a deletion after that. *)
Theorem BssTableDeleteEntry_spec h t bssid ch :
  scan_ok h t → owned (BssEntry t) →
  ∃ h' t', BssTableDeleteEntry h t bssid ch = Some (h', t') ∧ scan_ok h' t' ∧ owned (BssEntry t') ∧
    (∀ (i : nat) (e : BSS_ENTRY), used t !! i = Some e → Bssid e = bssid → Channel e = ch →
       snapshot h' <$> used t' = delete i (snapshot h <$> used t)) ∧
    ((∀ e : BSS_ENTRY, e ∈ used t → Bssid e = bssid → Channel e ≠ ch) → h' = h ∧ t' = t).
Proof.
  intros Hs Ho. destruct (BssTableDeleteEntry_ok h t bssid ch Hs) as (h' & t' & Hd & Hs'). exists h', t'. split; [done|]. split; [done|].
  unfold BssTableDeleteEntry in Hd. pose proof (find_from_spec (λ e : BSS_ENTRY, (Channel e =? ch) && MAC_ADDR_EQUAL (Bssid e) bssid) (used t) 0) as H.
  assert (∀ e : BSS_ENTRY, (Channel e =? ch) && MAC_ADDR_EQUAL (Bssid e) bssid = true ↔ Bssid e = bssid ∧ Channel e = ch) as Hp.
  { intros e. unfold MAC_ADDR_EQUAL. rewrite andb_true_iff, bool_decide_eq_true, Z.eqb_eq. tauto. }
  destruct (find_from _ 0 (used t)) as [i|].
  - destruct H as (e & _ & He & [Hb Hc]%Hp & _). rewrite Nat.sub_0_r in He. pose proof (proj1 (used_lookup t i e) He) as [Hl Hlt].
    destruct (remove_entry_owned i (BssNr t) h (BssEntry t)) as (h1 & es1 & Hr & Ho1 & Hu); [by apply scan_entries_ok|done|done|apply Hs|].
    rewrite Hr, Some_bind in Hd. injection Hd as -> <-. split; [done|]. split.
    + intros j e' He' Hb' Hc'. assert (j = i) as ->; [|exact Hu].
      pose proof (so_keys _ _ Hs) as Hn. rewrite NoDup_alt in Hn. apply (Hn j i (key e)); rewrite list_lookup_fmap, ?He, ?He'; cbn; [|done].
      unfold key. by rewrite Hb, Hc, Hb', Hc'.
    + intros Hno. by destruct (Hno e (list_elem_of_lookup_2 _ _ _ He) Hb).
  - injection Hd as <- <-. split; [done|]. split; [|done]. intros i e He Hb Hc.
    pose proof (H e (list_elem_of_lookup_2 _ _ _ He)) as Hf. by rewrite (proj2 (Hp e)) in Hf.
Qed.

(** ** Every sequence of operations *)

Lemma init_entries_ok es : ∀ h,
  heap_ok h → Forall entry_ok es →
  let '(h', es') := init_entries h es in
  heap_ok h' ∧ length es' = length es ∧ Forall entry_ok es' ∧ Forall (λ e : BSS_ENTRY, SsidLen e = 0) es'.
Proof.
  induction es as [|e es IH]; intros h Hh Hf; [done|]. apply Forall_cons in Hf as [He Hf]. cbn [init_entries].
  specialize (IH (zero_buffer h (pVarIeFromProbRsp e)) ltac:(by apply zero_buffer_ok) Hf).
  destruct (init_entries _ es) as [h' es']. destruct IH as (H1 & H2 & H3 & H4). split; [done|]. split; [cbn; by rewrite H2|].
  split; apply Forall_cons; (split; [|done]); [|done]. apply zero_entry_ok. intros a Ha. pose proof (eo_pointer _ He) as Hp. by rewrite Ha in Hp.
Qed.

Lemma BssTableInit_ok h t :
  heap_ok h → length (BssEntry t) = MAX_LEN_OF_BSS_TABLE → Forall entry_ok (BssEntry t) →
  let '(h', t') := BssTableInit h t in scan_ok h' t' ∧ BssNr t' = 0%nat.
Proof.
  intros Hh Hl Hf. unfold BssTableInit. pose proof (init_entries_ok (BssEntry t) h Hh Hf) as H.
  destruct (init_entries h (BssEntry t)) as [h' es']. destruct H as (H1 & H2 & H3 & H4). split; [|done].
  split; cbn [BssEntry BssNr BssOverlapNr]; try done; [lia|unfold MAX_LEN_OF_BSS_TABLE; lia..|apply NoDup_nil_2|].
  intros k e He _. rewrite Forall_lookup in H4. eauto.
Qed.

Lemma scan_frame_ok h now C t a l pad rsp :
  scan_ok h t → args_ok a l pad → connection_ok C →
  ∃ h' t', scan_frame now C h t a rsp = Some (h', t') ∧ scan_ok h' t'.
Proof.
  intros Hs Ha HC. unfold scan_frame. destruct (BssTableSetEntry_ok h now C t a l pad Hs Ha HC) as (t1 & -> & Hs1 & Hset).
  rewrite Some_bind. destruct (slot_for C t a) as [k|]; [|by eauto]. destruct Hset as ((e & old & He & _) & _ & Hfound).
  rewrite He, Some_bind. destruct rsp; [|by eauto].
  pose proof (so_entries _ _ Hs1) as Ho. rewrite Forall_lookup in Ho. pose proof (Ho _ _ He) as Hok.
  assert (used t1 !! k = Some e) as Hu.
  { pose proof (BssTableSearch_spec t1 (a_Bssid a) (a_Channel a)) as H. rewrite Hfound in H. destruct H as (x & Hx & _).
    pose proof (proj1 (used_lookup _ _ _) Hx) as [Hx' _]. congruence. }
  pose proof (proj1 (used_lookup _ _ _) Hu) as [_ Hlt].
  assert (∀ n p h', heap_ok h' → match p with Some q => (q < MAX_LEN_OF_BSS_TABLE)%nat | None => n = 0 end → 0 <= n <= Z.of_nat MAX_VIE_LEN →
    scan_ok h' (with_entries t1 (BssNr t1) (<[k := set_probe e n p]> (BssEntry t1)))) as Hins.
  { intros n p h' Hh' Hp Hn. assert (scan_ok h' t1) as Hs1' by (destruct Hs1; by split).
    apply (scan_ok_insert h' t1 k e); [done..| |done|].
    - split; [apply Hok|exact Hp|exact Hn].
    - intros j Hj x Hx Heq. apply Hj. pose proof (so_keys _ _ Hs1) as Hnd. rewrite NoDup_alt in Hnd.
      apply (Hnd j k (key e)); rewrite list_lookup_fmap, ?Hx, ?Hu; cbn; [|done]. f_equal. exact Heq. }
  pose proof (arg_vie _ _ _ Ha) as [Hv Hn]. pose proof (arg_pad _ _ _ Ha) as (_ & _ & Hvl). rewrite Hv, length_app in Hvl.
  unfold save_probe_response. destruct (Z.eqb_spec (a_LengthVIE a) 0) as [H0|H0].
  - rewrite Some_bind. eexists _, _. split; [done|]. rewrite list_insert_id by done. by destruct t1.
  - destruct (pVarIeFromProbRsp e) as [q|] eqn:Hq.
    + pose proof (eo_pointer _ Hok) as Hp. rewrite Hq in Hp. destruct (heap_lookup h q (so_heap _ _ Hs) Hp) as (b & -> & _).
      rewrite Some_bind, NdisMoveMemory_ok, !Some_bind by (rewrite ?length_zeros, ?Hv, ?length_app; lia).
      eexists _, _. split; [done|]. apply Hins; [|done|lia]. apply heap_insert; [apply Hs|]. by rewrite length_put, length_zeros.
    + rewrite Some_bind. eexists _, _. split; [done|]. apply Hins; [apply Hs|done|unfold MAX_VIE_LEN; lia].
Qed.

(** A received beacon or probe response, the end of a scan, a lost network, a new
    scan. *)
Inductive scan_op :=
| Frame (now : Z) (C : connection) (a : bss_args) (l : list announced) (pad : list Z) (is_probe_rsp : bool)
| EndOfScan (A : ageing) (MaxRxTimeDiff MaxSameRxTimeCount : Z)
| Forget (bssid : list Z) (ch : Z)
| Clear.

Definition admissible (op : scan_op) : Prop :=
  match op with
  | Frame _ C a l pad _ => args_ok a l pad ∧ connection_ok C
  | EndOfScan A _ _ => ageing_ok A
  | _ => True
  end.

Definition scan_step (op : scan_op) (s : heap * BSS_TABLE) : option (heap * BSS_TABLE) :=
  let '(h, t) := s in
  match op with
  | Frame now C a _ _ rsp => scan_frame now C h t a rsp
  | EndOfScan A diff same => MaintainBssTable A h t diff same
  | Forget bssid ch => BssTableDeleteEntry h t bssid ch
  | Clear => Some (BssTableInit h t)
  end.

Fixpoint scan_run (ops : list scan_op) (s : heap * BSS_TABLE) : option (heap * BSS_TABLE) :=
  match ops with
  | [] => Some s
  | op :: ops => s ← scan_step op s; scan_run ops s
  end.

(** As [UserCfgInit] leaves it when all buffers could be allocated. *)
Definition scan_initial : heap * BSS_TABLE :=
  (replicate MAX_LEN_OF_BSS_TABLE (zeros MAX_VIE_LEN),
   {| BssNr := 0; BssOverlapNr := 0; BssEntry := (λ k, zero_bss 0 (Some k)) <$> seq 0 MAX_LEN_OF_BSS_TABLE |}).

Lemma scan_initial_ok : scan_ok scan_initial.1 scan_initial.2.
Proof.
  split; cbn [scan_initial fst snd BssEntry BssNr BssOverlapNr].
  - split; [by rewrite length_replicate|]. apply Forall_replicate. by rewrite length_zeros.
  - by rewrite length_fmap, length_seq.
  - unfold MAX_LEN_OF_BSS_TABLE. lia.
  - unfold MAX_LEN_OF_BSS_TABLE. lia.
  - apply Forall_fmap, Forall_forall. intros k Hk. rewrite elem_of_seq in Hk. apply zero_entry_ok. intros a [= <-]. lia.
  - apply NoDup_nil_2.
  - intros k e He _. apply list_lookup_fmap_Some_1 in He as (j & -> & _). done.
Qed.

Lemma scan_step_ok op h t :
  admissible op → scan_ok h t → ∃ h' t', scan_step op (h, t) = Some (h', t') ∧ scan_ok h' t'.
Proof.
  intros Hop Hs. destruct op as [now C a l pad rsp|A diff same|bssid ch|]; cbn [admissible scan_step] in *.
  - destruct Hop. by eapply scan_frame_ok.
  - destruct (MaintainBssTable_ok A diff same Hop h t Hs) as (h' & t' & H1 & H2 & _). eauto.
  - by apply BssTableDeleteEntry_ok.
  - pose proof (BssTableInit_ok h t (so_heap _ _ Hs) (so_length _ _ Hs) (so_entries _ _ Hs)) as H.
    destruct (BssTableInit h t) as [h' t']. destruct H. eauto.
Qed.

Lemma scan_run_ok ops : ∀ h t,
  scan_ok h t → Forall admissible ops → ∃ h' t', scan_run ops (h, t) = Some (h', t') ∧ scan_ok h' t'.
Proof.
  induction ops as [|op ops IH]; intros h t Hs Hops; [by exists h, t|]. apply Forall_cons in Hops as [Hop Hops]. cbn [scan_run].
  destruct (scan_step_ok op h t Hop Hs) as (h1 & t1 & -> & Hs1). rewrite Some_bind. by apply IH.
Qed.

Lemma scan_table_reached ops :
  Forall admissible ops → ∃ h t, scan_run ops scan_initial = Some (h, t) ∧ scan_ok h t.
Proof. exact (scan_run_ok ops _ _ scan_initial_ok). Qed.

(** C18: After any sequence of received frames whose elements are well formed and leave
    two bytes of VarIE ([args_ok]), of ageing, deletions and resets, every
    operation has returned without leaving an array or following NULL, the table
    does not hold a network (BSSID and band) twice, and [BssTableSearch] finds
    exactly the networks it holds.  [BssCipherParse_overrun] and
    [stored_elements_overrun] show what other elements do. *)
Theorem scan_table_invariant ops :
  Forall admissible ops →
  ∃ h t, scan_run ops scan_initial = Some (h, t) ∧ scan_ok h t ∧
    ∀ bssid ch, match BssTableSearch t bssid ch with
                | Some k => ∃ e : BSS_ENTRY, used t !! k = Some e ∧ key e = (bssid, 14 <? ch)
                | None => (bssid, 14 <? ch) ∉ key <$> used t
                end.
Proof.
  intros Hops. destruct (scan_table_reached ops Hops) as (h & t & Hr & Hs). exists h, t. split; [exact Hr|]. split; [done|].
  intros bssid ch. apply BssTableSearch_spec.
Qed.

(** C22: What hearing a network does, by a frame whose elements are well formed: the
    entry [slot_for] names holds every field of the frame - addresses, channel and
    its centre, SSID, network type, beacon period, capabilities and privacy, rates,
    802.11n elements, contention-free and QoS parameters, ciphers and the elements
    themselves ([frame_in]) - and is the one a search finds, no other entry
    changes, and a frame without a slot changes nothing.  A network keeps its
    entry, and the SSID it is known by when the frame hides it. *)
Theorem BssTableSetEntry_spec h now C t a l pad :
  scan_ok h t → args_ok a l pad → connection_ok C →
  ∃ t', BssTableSetEntry now C t a = Some (t', slot_for C t a) ∧ scan_ok h t' ∧
    match slot_for C t a with
    | Some k => entry_set now a l t t' k
    | None => t' = t
    end.
Proof. apply BssTableSetEntry_ok. Qed.

(** ** Searches with an SSID *)

Lemma search_from_find (p : BSS_ENTRY → option bool) (q : BSS_ENTRY → bool) es : ∀ i,
  (∀ e : BSS_ENTRY, e ∈ es → p e = Some (q e)) → search_from p i es = Some (find_from q i es).
Proof.
  induction es as [|e es IH]; intros i H; [done|]. cbn [search_from find_from]. rewrite H, Some_bind by apply list_elem_of_here.
  destruct (q e); [done|]. apply IH. intros e' He'. apply H. by apply list_elem_of_further.
Qed.

Definition named (pSsid : list Z) (len : Z) (e : bss_desc) : bool :=
  (len =? SsidLen e) && bool_decide (take (Z.to_nat (SsidLen e)) pSsid = take (Z.to_nat (SsidLen e)) (Ssid e)).

Definition hears (bssid : list Z) (ch : Z) (e : bss_desc) : bool := same_band (Channel e) ch && MAC_ADDR_EQUAL (Bssid e) bssid.

(** The searches with an SSID read inside the arrays and find the first entry that
    has it; [BssTableSearchWithSSID] takes a hidden SSID, asked for or stored, for
    any other. *)
Lemma ssid_searches h t bssid ssid len ch :
  scan_ok h t → length ssid = MAX_LEN_OF_SSID → 0 <= len <= 32 →
  BssSsidTableSearchBySSID t ssid len = Some (find_from (λ e, named ssid len e) 0 (used t)) ∧
  BssSsidTableSearch t bssid ssid len ch = Some (find_from (λ e, hears bssid ch e && named ssid len e) 0 (used t)) ∧
  BssTableSearchWithSSID t bssid ssid len ch =
    Some (find_from (λ e, hears bssid ch e && (named ssid len e || negb (visible ssid len) || negb (visible (Ssid e) (SsidLen e)))) 0 (used t)).
Proof.
  intros Hs Hl Hlen.
  assert (∀ e : BSS_ENTRY, e ∈ used t → length (Ssid e) = MAX_LEN_OF_SSID ∧ 0 <= SsidLen e <= 32) as Hok.
  { intros e He. apply elem_of_take in He as (k & He & _). pose proof (so_entries _ _ Hs) as Ho. rewrite Forall_lookup in Ho.
    apply (eo_desc _ (Ho _ _ He)). }
  assert (∀ e : BSS_ENTRY, e ∈ used t → SSID_EQUAL ssid len (Ssid e) (SsidLen e) = Some (named ssid len e)) as Heq.
  { intros e He. destruct (Hok e He). by apply SSID_EQUAL_ok. }
  split_and!; apply search_from_find; intros e He; unfold hears.
  - by apply Heq.
  - destruct (same_band _ _ && _); [|done]. by apply Heq.
  - destruct (same_band _ _ && _); [|done]. rewrite Heq, Some_bind by done. destruct (named ssid len e); [done|].
    rewrite (zero_ssid ssid len), Some_bind by done. destruct (Hok e He). destruct (visible ssid len); cbn [negb orb andb]; [by apply zero_ssid|done].
Qed.

(** ** Weaknesses *)

(** The loop of [MaintainBssTable] goes on behind the entry that took the place of
    a removed one: of two stale networks in a row, one stays. *)
Lemma aged_skips_next A diff same i (e1 e2 : BSS_ENTRY) es :
  stale A (clock A i) diff same (touch e1) = true →
  aged A diff same i (e1 :: e2 :: es) = e2 :: aged A diff same (S i) es.
Proof. intros H. cbn [aged]. by rewrite H. Qed.

(** With a connection every network whose SSID begins with the SSID in use stays,
    however old. *)
Lemma prefix_kept A now diff same (e : BSS_ENTRY) :
  connected A = true → take (Z.to_nat (Common_SsidLen A)) (Ssid e) = take (Z.to_nat (Common_SsidLen A)) (Common_Ssid A) →
  stale A now diff same e = false.
Proof.
  intros Hc Hp. unfold stale, same_network. rewrite Hc, bool_decide_eq_true_2 by done. cbn [andb negb]. by rewrite andb_false_r.
Qed.

Module Sample.
Import BssEntry.Sample.

Definition pad : list Z := zeros (MAX_VIE_LEN - length (announced_bytes elements)).

Definition frame (last channel rssi : Z) (ssid : list Z) : bss_args :=
  {| a_Bssid := [2; 0; 0; 0; 0; last]; a_Ssid := ssid ++ zeros (MAX_LEN_OF_SSID - length ssid); a_SsidLen := Z.of_nat (length ssid);
     a_BssType := BSS_INFRA; a_BeaconPeriod := 100;
     a_CfParm := {| cf_bValid := false; cf_CfpCount := 0; cf_CfpPeriod := 0; cf_CfpMaxDuration := 0; cf_CfpDurRemaining := 0 |};
     a_AtimWin := 0; a_CapabilityInfo := 0x11; a_SupRate := zeros 12; a_SupRateLen := 8; a_ExtRate := zeros 12; a_ExtRateLen := 4;
     a_HtCapability := zeros 26; a_AddHtInfo := zeros 22; a_HtCapabilityLen := 26; a_AddHtInfoLen := 22; a_NewExtChanOffset := 0;
     a_Channel := channel; a_Rssi := rssi; a_TimeStamp := zeros 8; a_CkipFlag := 0; a_EdcaParm := None; a_QosCapability := None;
     a_QbssLoad := None; a_LengthVIE := Z.of_nat (length (announced_bytes elements)); a_VIE := announced_bytes elements ++ pad |}.

Definition idle : connection :=
  {| MEDIA_STATE_CONNECTED := false; AP_MEDIA_STATE_CONNECTED := false; Mlme_Bssid := zeros 6; Mlme_Ssid := zeros 32; Mlme_SsidLen := 0 |}.
Definition alone (now : Z) : ageing :=
  {| clock := λ _, now; OS_HZ := 100; connected := false; Common_Ssid := zeros 32; Common_SsidLen := 0 |}.

Lemma frame_ok last channel rssi ssid : (length ssid <= 32)%nat → args_ok (frame last channel rssi ssid) elements pad.
Proof.
  intros Hl. split; cbn [frame a_Ssid a_SsidLen a_SupRate a_ExtRate a_SupRateLen a_ExtRateLen a_HtCapability a_AddHtInfo
    a_HtCapabilityLen a_AddHtInfoLen a_VIE a_LengthVIE].
  - rewrite length_app, length_zeros. unfold MAX_LEN_OF_SSID. lia.
  - done.
  - split_and!; try done; apply elem_of_cons; right; by apply list_elem_of_singleton.
  - done.
  - split; [vm_compute; lia|]. split; [apply fits_zeros; lia|done].
  - apply elements_wf.
Qed.

Lemma idle_connection_ok : connection_ok idle.
Proof. done. Qed.

Definition frame_op (now last channel : Z) (ssid : list Z) : scan_op := Frame now idle (frame last channel (-50) ssid) elements pad true.

Definition history : list scan_op :=
  [frame_op 0 1 1 [97]; frame_op 1000 2 6 [98]; EndOfScan (alone 600) 5 2; frame_op 1000 3 36 [99]; frame_op 1000 4 11 [100]].

Lemma history_ok : Forall admissible history.
Proof.
  assert (∀ now last ch ssid, (length ssid <= 32)%nat → admissible (frame_op now last ch ssid)) as Hf.
  { intros now last ch ssid Hl. split; [by apply frame_ok|apply idle_connection_ok]. }
  unfold history. repeat (apply Forall_cons; split); try (apply Hf; cbn; lia); [|by apply Forall_nil].
  split; [done|cbn; lia].
Qed.

Lemma scan_table_invariant_witness :
  Forall admissible history ∧
  ∃ h t, scan_run history scan_initial = Some (h, t) ∧ scan_ok h t ∧
    ∀ bssid ch, match BssTableSearch t bssid ch with
                | Some k => ∃ e : BSS_ENTRY, used t !! k = Some e ∧ key e = (bssid, 14 <? ch)
                | None => (bssid, 14 <? ch) ∉ key <$> used t
                end.
Proof. split; [apply history_ok|]. apply scan_table_invariant, history_ok. Defined.

Lemma BssTableSetEntry_spec_witness :
  ∃ t', BssTableSetEntry 7 idle scan_initial.2 (frame 1 6 (-50) [97]) = Some (t', Some 0%nat) ∧ scan_ok scan_initial.1 t' ∧
    entry_set 7 (frame 1 6 (-50) [97]) elements scan_initial.2 t' 0.
Proof.
  apply (BssTableSetEntry_spec scan_initial.1 7 idle scan_initial.2 (frame 1 6 (-50) [97]) elements pad);
    [apply scan_initial_ok|apply frame_ok; cbn; lia|apply idle_connection_ok].
Defined.

Lemma scan_initial_owned : owned (BssEntry scan_initial.2).
Proof. intros k e He. apply list_lookup_fmap_Some_1 in He as (j & -> & Hj). by apply lookup_seq in Hj as [-> _]. Qed.


(** After [MaintainBssTable] has removed a network, a slot has no buffer any more;
    a later deletion moves a pointer into that slot, two slots share a buffer, and
    clearing the last one wipes the probe response of a network that stays. *)
Lemma probe_response_wiped :
  match scan_run (history ++ [Forget [2; 0; 0; 0; 0; 2] 6]) scan_initial with
  | Some (h, t) => match (BssEntry t !! 1%nat : option BSS_ENTRY), (BssEntry t !! 2%nat : option BSS_ENTRY) with
                   | Some e1, Some e2 =>
                       Bssid e1 = [2; 0; 0; 0; 0; 4] ∧ VarIeFromProbeRspLen e1 = Z.of_nat (length (announced_bytes elements)) ∧
                       probe h e1 = Some (zeros (length (announced_bytes elements))) ∧ pVarIeFromProbRsp e1 = pVarIeFromProbRsp e2
                   | _, _ => False
                   end
  | None => False
  end.
Proof. vm_compute. repeat split. Qed.

(** [BssTableDeleteEntry] compares channels where the searches compare bands: a
    network found under another channel of its band is not deleted under it. *)
Lemma delete_on_another_channel :
  match scan_run [frame_op 0 1 1 [97]] scan_initial with
  | Some (h, t) => BssTableSearch t [2; 0; 0; 0; 0; 1] 6 = Some 0%nat ∧
      BssTableDeleteEntry h t [2; 0; 0; 0; 0; 1] 6 = Some (h, t) ∧ BssNr t = 1%nat
  | None => False
  end.
Proof. vm_compute. repeat split. Qed.

(** Three networks with their probe responses. *)
Definition three : list scan_op := [frame_op 0 1 1 [97]; frame_op 1 2 6 [98]; frame_op 2 3 36 [99]].
Definition three_run : heap * BSS_TABLE := default scan_initial (scan_run three scan_initial).

Lemma three_ok : scan_ok three_run.1 three_run.2 ∧ owned (BssEntry three_run.2).
Proof.
  split.
  - destruct (scan_table_reached three) as (h & t & Hr & Hs).
    { unfold three. repeat (apply Forall_cons; split); try (split; [apply frame_ok; cbn; lia|apply idle_connection_ok]). by apply Forall_nil. }
    unfold three_run. by rewrite Hr.
  - assert (Forall (λ p, p.2 = Some p.1) (imap (λ k (e : BSS_ENTRY), (k, pVarIeFromProbRsp e)) (BssEntry three_run.2))) as H.
    { vm_compute. repeat constructor. }
    intros k e He. rewrite Forall_lookup in H. specialize (H k (k, pVarIeFromProbRsp e)). apply H. rewrite list_lookup_imap. by rewrite He.
Qed.

Lemma BssTableDeleteEntry_spec_witness :
  let '(h, t) := three_run in
  (λ e : BSS_ENTRY, (Bssid e, Channel e)) <$> used t = [([2; 0; 0; 0; 0; 1], 1); ([2; 0; 0; 0; 0; 2], 6); ([2; 0; 0; 0; 0; 3], 36)] ∧
  ∃ h' t', BssTableDeleteEntry h t [2; 0; 0; 0; 0; 2] 6 = Some (h', t') ∧ scan_ok h' t' ∧ owned (BssEntry t') ∧
    (∀ (i : nat) (e : BSS_ENTRY), used t !! i = Some e → Bssid e = [2; 0; 0; 0; 0; 2] → Channel e = 6 →
       snapshot h' <$> used t' = delete i (snapshot h <$> used t)) ∧
    ((∀ e : BSS_ENTRY, e ∈ used t → Bssid e = [2; 0; 0; 0; 0; 2] → Channel e ≠ 6) → h' = h ∧ t' = t).
Proof.
  pose proof three_ok as [Hs Ho]. rewrite (surjective_pairing three_run). split; [by vm_compute|].
  apply (BssTableDeleteEntry_spec three_run.1 three_run.2 [2; 0; 0; 0; 0; 2] 6 Hs Ho).
Defined.
End Sample.
