(* ===== verification/BssSort.v ===== *)
(** * Choosing a network

    Models how the station selects the networks it may join:
    [BssTableSsidSort] and [BssTableSortByRssi] of
    [linux/Arch/rt5370.driver/common/mlme.c], with [RadarChannelCheck] of
    [common/cmm_radar.c].  The networks of the scan table that fit the SSID and
    the security settings are copied into another table, strongest signal first.

    [WPA_SUPPLICANT_SUPPORT] and [DOT11_N_SUPPORT] are on,
    [CARRIER_DETECTION_SUPPORT] and [EXT_BUILD_CHANNEL_LIST] off. *)

From stdpp Require Import base list numbers list_numbers sets sorting.
From Stdlib Require Import ZArith Lia.
From S2P Require Import Prelude WpaData EapolMsg EapolRecv RsnIe BssEntry BssTable.

#[local] Set Warnings "-clear-no-such-hyp".

Definition PHY_11N_2_4G : Z := 6.
Definition PHY_11GN_MIXED : Z := 7.
Definition PHY_11N_5G : Z := 11.

(** What the functions read of the adapter. *)
Record join_cfg := {
  bAutoConnectIfNoSSID : bool;
  bIEEE80211H : bool;
  Mlme_Channel : Z;
  ChannelList : list (Z * bool);
  Sta_BssType : Z;
  Sta_AuthMode : Z;
  Sta_WepStatus : Z;
  WpaSupplicantUP : Z;
  PhyMode : Z;
}.

(** [DfsReq] of the first channel of that number. *)
Fixpoint RadarChannelCheck (ChannelList : list (Z * bool)) (Ch : Z) : bool :=
  match ChannelList with
  | [] => false
  | (Channel, DfsReq) :: l => if Ch =? Channel then DfsReq else RadarChannelCheck l Ch
  end.

(** ** Sorting *)

Definition exchange (i j : nat) (es : list BSS_ENTRY) : option (list BSS_ENTRY) :=
  a ← es !! i;
  b ← es !! j;
  Some (if Rssi (b : BSS_ENTRY) >? Rssi (a : BSS_ENTRY) then <[i := b]> (<[j := a]> es) else es).

(** [alloc] is whether [os_alloc_mem] finds room for one entry; [BssNr - 1] is an
    [int], so an empty table has no turn. *)
Definition BssTableSortByRssi (alloc : bool) (Tab : BSS_TABLE) : option BSS_TABLE :=
  if negb alloc then Some Tab
  else
    let n := BssNr Tab in
    es ← loop_opt 0 (n - 1) (λ i es, loop_opt (S i) (n - (S i)) (λ j es, exchange i j es) es) (BssEntry Tab);
    Some {| BssNr := n; BssOverlapNr := BssOverlapNr Tab; BssEntry := es |}.

(** ** Selection *)

(** What the body of the loop does with an entry: [continue], copy it and
    [continue], copy it, or nothing; after the last two the table may be full. *)
Inductive verdict := Skip | CopySkip | Copy | Pass.
#[export] Instance verdict_eq_dec : EqDecision verdict.
Proof. solve_decision. Defined.

Section Select.
Context (cfg : join_cfg).

(** "2.4G/5G N only mode" and the mode without 802.11b. *)
Definition wrong_phy (b : bss_desc) : bool :=
  ((HtCapabilityLen b =? 0) && ((PhyMode cfg =? PHY_11N_2_4G) || (PhyMode cfg =? PHY_11N_5G))) ||
  ((PhyMode cfg =? PHY_11GN_MIXED) && (SupRateLen b + ExtRateLen b <? 12)).

(** "None matched" *)
Definition wrong_mode (b : bss_desc) : bool :=
  negb (Sta_AuthMode cfg =? AuthMode (ciphers b)) && negb (Sta_AuthMode cfg =? AuthModeAux (ciphers b)).

(** "If it's not mixed mode, we should only let BSS pass with the same encryption" *)
Definition wrong_unmixed (s : CIPHER_SUITE) : bool := negb (bMixMode s) && negb (Sta_WepStatus cfg =? GroupCipher s).

(** "check group cipher", the suite whose strength is compared and the one whose
    WEP is let pass. *)
Definition wrong_group (strength wep : CIPHER_SUITE) : bool :=
  (Sta_WepStatus cfg <? GroupCipher strength) &&
  negb (GroupCipher wep =? Ndis802_11GroupWEP40Enabled) && negb (GroupCipher wep =? Ndis802_11GroupWEP104Enabled).

(** The same of the second branch, for a station that does not ask for an SSID. *)
Definition wrong_group_any (s : CIPHER_SUITE) : bool := Sta_WepStatus cfg <? GroupCipher s.

(** "If profile set to TKIP, we must find one mateched" *)
Definition wrong_pair (s : CIPHER_SUITE) : bool :=
  (Sta_WepStatus cfg =? Ndis802_11Encryption2Enabled) &&
  negb (Sta_WepStatus cfg =? PairCipher s) && negb (Sta_WepStatus cfg =? PairCipherAux s).

Definition is_WPA_mode : bool := (Sta_AuthMode cfg =? Ndis802_11AuthModeWPA) || (Sta_AuthMode cfg =? Ndis802_11AuthModeWPAPSK).
Definition is_WPA2_mode : bool := (Sta_AuthMode cfg =? Ndis802_11AuthModeWPA2) || (Sta_AuthMode cfg =? Ndis802_11AuthModeWPA2PSK).

(** The security checks of the two branches. *)
Definition unfit (b : bss_desc) : bool :=
  let c := ciphers b in
  if Ndis802_11AuthModeWPA <=? Sta_AuthMode cfg
  then wrong_mode b ||
    (if is_WPA_mode then wrong_unmixed (WPA c) || wrong_group (WPA c) (WPA c) || wrong_pair (WPA c)
     else if is_WPA2_mode then wrong_unmixed (WPA2 c) || wrong_group (WPA c) (WPA2 c) || wrong_pair (WPA2 c)
     else false)
  else negb (Sta_WepStatus cfg =? WepStatus c) && negb (bSES c).

Definition unfit_any (b : bss_desc) : bool :=
  let c := ciphers b in
  if Ndis802_11AuthModeWPA <=? Sta_AuthMode cfg
  then wrong_mode b ||
    (if is_WPA_mode then wrong_unmixed (WPA c) || wrong_group_any (WPA c) || wrong_pair (WPA c)
     else if is_WPA2_mode then wrong_unmixed (WPA2 c) || wrong_group_any (WPA2 c) || wrong_pair (WPA2 c)
     else false)
  else negb (Sta_WepStatus cfg =? WepStatus c).

(** A hidden network on a channel that needs radar detection may be the wanted one. *)
Definition hidden_included (b : bss_desc) : bool :=
  bIEEE80211H cfg && (14 <? Mlme_Channel cfg) && RadarChannelCheck (ChannelList cfg) (Channel b) && Hidden b.

Context (wantSsid : list Z) (wantLen : Z).

(** The body of the loop for one entry. *)
Definition judge (b : bss_desc) : option verdict :=
  let type_ok := BssType b =? Sta_BssType cfg in
  fits ← (if type_ok
          then same ← SSID_EQUAL wantSsid wantLen (Ssid b) (SsidLen b); Some (same || hidden_included b)
          else Some false);
  Some (if (fits : bool)
        then if negb (WpaSupplicantUP cfg & 0x80 =? 0) then CopySkip
             else if wrong_phy b || unfit b then Skip
             else if wantLen =? 0 then Skip
             else Copy
        else if type_ok && (wantLen =? 0)
        then if wrong_phy b || unfit_any b then Skip else Copy
        else Pass).

(** [*pOutBss = *pInBss; OutTab->BssNr++] *)
Definition copy_out (e : BSS_ENTRY) (Out : BSS_TABLE) : option BSS_TABLE :=
  _ ← BssEntry Out !! BssNr Out;
  Some {| BssNr := BssNr Out + 1; BssOverlapNr := BssOverlapNr Out; BssEntry := <[BssNr Out := e]> (BssEntry Out) |}.

Fixpoint select (es : list BSS_ENTRY) (Out : BSS_TABLE) : option BSS_TABLE :=
  match es with
  | [] => Some Out
  | e :: es =>
      v ← judge e;
      Out ← (match v with Copy | CopySkip => copy_out e Out | _ => Some Out end);
      match v with
      | Skip | CopySkip => select es Out
      | _ => if (MAX_LEN_OF_BSS_TABLE <=? BssNr Out)%nat then Some Out else select es Out
      end
  end.
End Select.

(** The copies share the buffers of the scan table's entries, so the heap is the
    one of both; initialising [OutTab] clears the buffers its entries point to. *)
Definition BssTableSsidSort (alloc : bool) (cfg : join_cfg) (h : heap) (ScanTab OutTab : BSS_TABLE) (wantSsid : list Z) (wantLen : Z)
    : option (heap * BSS_TABLE) :=
  let '(h, Out) := BssTableInit h OutTab in
  if (wantLen =? 0) && negb (bAutoConnectIfNoSSID cfg) then Some (h, Out)
  else
    Out ← select cfg wantSsid wantLen (used ScanTab) Out;
    Out ← BssTableSortByRssi alloc Out;
    Some (h, Out).

(** ** The sort *)

(** The entry at [i] is received at least as strongly as the one at [x]. *)
Definition stronger (es : list BSS_ENTRY) (i x : nat) : Prop :=
  ∀ a b : BSS_ENTRY, es !! i = Some a → es !! x = Some b → Rssi b <= Rssi a.

(** [es'] is a reordering of [es] that leaves everything outside [[lo, hi)] in place. *)
Record reordered (lo hi : nat) (es es' : list BSS_ENTRY) : Prop := {
  re_perm : es' ≡ₚ es;
  re_out : ∀ x : nat, (x < lo ∨ hi <= x)%nat → es' !! x = es !! x;
  re_in : ∀ x : nat, (lo <= x < hi)%nat → ∃ y : nat, (lo <= y < hi)%nat ∧ es' !! x = es !! y;
}.

Lemma reordered_refl lo hi es : reordered lo hi es es.
Proof. split; [done|done|eauto]. Qed.

Lemma reordered_trans lo hi es1 es2 es3 : reordered lo hi es1 es2 → reordered lo hi es2 es3 → reordered lo hi es1 es3.
Proof.
  intros [P1 O1 I1] [P2 O2 I2]. split.
  - by rewrite P2.
  - intros x Hx. by rewrite O2, O1.
  - intros x Hx. destruct (I2 x Hx) as (y & Hy & ->). destruct (I1 y Hy) as (z & Hz & ->). eauto.
Qed.

Lemma exchange_ok i j hi es :
  (i < j < hi)%nat → (hi <= length es)%nat →
  ∃ es', exchange i j es = Some es' ∧ reordered i hi es es' ∧ stronger es' i j ∧
    ∀ x, (i < x < hi)%nat → x ≠ j → stronger es i x → stronger es' i x.
Proof.
  intros Hij Hhi. destruct (lookup_lt_is_Some_2 es i) as [a Ha]; [lia|]. destruct (lookup_lt_is_Some_2 es j) as [b Hb]; [lia|].
  unfold exchange. rewrite Ha, Some_bind, Hb, Some_bind. rewrite Z.gtb_ltb. destruct (Z.ltb_spec (Rssi a) (Rssi b)) as [Hlt|Hge].
  - eexists. split; [done|].
    assert (∀ x, <[i:=b]> (<[j:=a]> es) !! x = if decide (x = i) then Some b else if decide (x = j) then Some a else es !! x) as Hl.
    { intros x. case_decide as H1; [subst x; by rewrite list_lookup_insert_eq by (rewrite length_insert; lia)|].
      rewrite list_lookup_insert_ne by done. case_decide as H2; [subst x; by rewrite list_lookup_insert_eq by lia|].
      by rewrite list_lookup_insert_ne. }
    split; [split|split].
    + by apply Permutation_insert_swap.
    + intros x Hx. rewrite Hl. by rewrite !decide_False by lia.
    + intros x Hx. rewrite Hl. case_decide; [exists j; split; [lia|done]|]. case_decide; [exists i; split; [lia|done]|]. by exists x.
    + intros u v. rewrite !Hl, decide_True by done. rewrite decide_False, decide_True by lia. intros [= <-] [= <-]. lia.
    + intros x Hx Hne Hs u v. rewrite !Hl, decide_True by done. rewrite !decide_False by lia. intros [= <-] Hv. specialize (Hs a v Ha Hv). lia.
  - exists es. split; [done|]. split; [apply reordered_refl|]. split; [|auto]. intros u v Hu Hv. simplify_eq. lia.
Qed.

(** One turn of the outer loop brings the strongest of the rest to [i]. *)
Lemma inner_loop_ok i n es :
  (i < n)%nat → (n <= length es)%nat →
  ∃ es', loop_opt (S i) (n - S i) (λ j es, exchange i j es) es = Some es' ∧ reordered i n es es' ∧
    ∀ x, (i < x < n)%nat → stronger es' i x.
Proof.
  intros Hi Hn.
  destruct (loop_opt_inv_at (λ j es', reordered i n es es' ∧ ∀ x, (i < x < j)%nat → stronger es' i x) (S i) (n - S i) (λ j es, exchange i j es) es)
    as (es' & Hl & Hr & Hs).
  - split; [apply reordered_refl|lia].
  - intros j es1 Hj [Hr Hs]. pose proof (Permutation_length (re_perm _ _ _ _ Hr)) as Hlen.
    destruct (exchange_ok i j n es1) as (es2 & -> & Hr2 & H1 & H2); [lia|lia|]. exists es2. split; [done|].
    split; [by eapply reordered_trans|]. intros x Hx. destruct (decide (x = j)) as [->|]; [done|]. apply H2; [lia|done|]. apply Hs. lia.
  - exists es'. split; [done|]. split; [done|]. intros x Hx. apply Hs. lia.
Qed.

Lemma reordered_weaken lo lo' hi es es' : (lo' <= lo)%nat → reordered lo hi es es' → reordered lo' hi es es'.
Proof.
  intros Hle [P O I]. split; [done| |].
  - intros x Hx. apply O. lia.
  - intros x Hx. destruct (decide (lo <= x)%nat) as [Hl|Hl]; [|exists x; split; [done|apply O; lia]].
    destruct (I x) as (y & Hy & He); [lia|]. exists y. split; [lia|done].
Qed.

Lemma sort_loop_ok n es :
  (n <= length es)%nat →
  ∃ es', loop_opt 0 (n - 1) (λ i es, loop_opt (S i) (n - S i) (λ j es, exchange i j es) es) es = Some es' ∧
    reordered 0 n es es' ∧ ∀ x y, (x < y < n)%nat → stronger es' x y.
Proof.
  intros Hn.
  destruct (loop_opt_inv_at (λ i es', reordered 0 n es es' ∧ ∀ x y, (x < i)%nat → (x < y < n)%nat → stronger es' x y) 0 (n - 1)
    (λ i es, loop_opt (S i) (n - S i) (λ j es, exchange i j es) es) es) as (es' & Hl & Hr & Hs).
  - split; [apply reordered_refl|lia].
  - intros i es1 Hi [Hr Hs]. pose proof (Permutation_length (re_perm _ _ _ _ Hr)) as Hlen.
    destruct (inner_loop_ok i n es1) as (es2 & -> & Hr2 & H2); [lia|lia|]. exists es2. split; [done|].
    split; [eapply reordered_trans; [done|]; eapply reordered_weaken; [|done]; lia|].
    intros x y Hx Hy. destruct (decide (x = i)) as [->|]; [by apply H2|]. intros a b Ha Hb.
    rewrite (re_out _ _ _ _ Hr2) in Ha by lia. destruct (decide (y < i)%nat).
    + rewrite (re_out _ _ _ _ Hr2) in Hb by lia. by apply (Hs x y ltac:(lia) Hy).
    + destruct (re_in _ _ _ _ Hr2 y) as (z & Hz & He); [lia|]. rewrite He in Hb. apply (Hs x z); [lia|lia|done|done].
  - exists es'. split; [done|]. split; [done|]. intros x y Hxy. apply Hs; lia.
Qed.

Definition falling (a b : BSS_ENTRY) : Prop := Rssi b <= Rssi a.

Lemma stronger_sorted es : (∀ x y, (x < y < length es)%nat → stronger es x y) → StronglySorted falling es.
Proof.
  induction es as [|e es IH]; intros H; constructor.
  - apply IH. intros x y Hxy a b Ha Hb. by apply (H (S x) (S y) ltac:(cbn; lia)).
  - apply Forall_forall. intros b Hb. apply list_elem_of_lookup_1 in Hb as [x Hx]. pose proof (lookup_lt_Some _ _ _ Hx).
    by apply (H 0%nat (S x) ltac:(cbn; lia)).
Qed.

(** Without memory the table stays as it is; otherwise its entries in use are put
    in the order of falling signal strength. *)
Lemma BssTableSortByRssi_ok alloc t :
  (BssNr t <= length (BssEntry t))%nat →
  ∃ t', BssTableSortByRssi alloc t = Some t' ∧ BssNr t' = BssNr t ∧ BssOverlapNr t' = BssOverlapNr t ∧
    length (BssEntry t') = length (BssEntry t) ∧ used t' ≡ₚ used t ∧
    if alloc then StronglySorted falling (used t') else t' = t.
Proof.
  intros Hn. unfold BssTableSortByRssi. destruct alloc; cbn [negb]; [|by exists t].
  destruct (sort_loop_ok (BssNr t) (BssEntry t) Hn) as (es' & -> & [Hp Ho _] & Hs). rewrite Some_bind. eexists. split; [done|].
  split_and!; try done; cbn [BssEntry].
  - by apply Permutation_length.
  - unfold used. cbn [BssNr BssEntry].
    assert (drop (BssNr t) es' = drop (BssNr t) (BssEntry t)) as Hd.
    { apply list_eq. intros x. rewrite !lookup_drop. apply Ho. lia. }
    rewrite <- (take_drop (BssNr t) es'), <- (take_drop (BssNr t) (BssEntry t)), Hd in Hp. by apply Permutation_app_inv_r in Hp.
  - pose proof (Permutation_length Hp) as Hl. apply stronger_sorted. unfold used. cbn [BssNr BssEntry]. rewrite length_take. intros x y Hxy a b Ha Hb.
    rewrite lookup_take_Some in Ha, Hb. apply (Hs x y); [lia|apply Ha|apply Hb].
Qed.

(** ** The selection *)

Section SelectSpec.
Context (cfg : join_cfg) (wantSsid : list Z) (wantLen : Z).
Context (Hssid : length wantSsid = MAX_LEN_OF_SSID).

(** The verdict of [judge], without reading memory. *)
Definition verdict_of (b : bss_desc) : verdict :=
  let type_ok := BssType b =? Sta_BssType cfg in
  if type_ok && (named wantSsid wantLen b || hidden_included cfg b)
  then if negb (WpaSupplicantUP cfg & 0x80 =? 0) then CopySkip
       else if wrong_phy cfg b || unfit cfg b || (wantLen =? 0) then Skip else Copy
  else if type_ok && (wantLen =? 0)
  then if wrong_phy cfg b || unfit_any cfg b then Skip else Copy
  else Pass.

Definition selected (b : bss_desc) : bool := match verdict_of b with Copy | CopySkip => true | _ => false end.

Lemma judge_ok b : desc_ok b → judge cfg wantSsid wantLen b = Some (verdict_of b).
Proof.
  intros [[Hs Hl] _ _ _]. unfold judge, verdict_of, named. rewrite SSID_EQUAL_ok by done.
  destruct (BssType b =? Sta_BssType cfg); cbn [andb]; [|done]. rewrite !Some_bind.
  destruct (_ || hidden_included cfg b); [|done]. destruct (negb (_ =? 0)); [done|].
  destruct (wrong_phy cfg b || unfit cfg b); [done|]. by destruct (wantLen =? 0).
Qed.

Lemma copy_out_ok (e : BSS_ENTRY) Out :
  (BssNr Out < length (BssEntry Out))%nat →
  ∃ Out', copy_out e Out = Some Out' ∧ BssNr Out' = (BssNr Out + 1)%nat ∧
    length (BssEntry Out') = length (BssEntry Out) ∧ used Out' = used Out ++ [e].
Proof.
  intros Hn. unfold copy_out. destruct (lookup_lt_is_Some_2 _ _ Hn) as [x ->]. rewrite Some_bind. eexists. split; [done|].
  cbn [BssNr BssEntry]. rewrite length_insert. split_and!; try done. unfold used. cbn [BssNr BssEntry].
  rewrite Nat.add_1_r, (take_S_r _ _ e) by (by rewrite list_lookup_insert_eq). by rewrite take_insert_ge.
Qed.

Lemma select_ok es : ∀ Out,
  Forall desc_ok (desc <$> es) → length (BssEntry Out) = MAX_LEN_OF_BSS_TABLE → (BssNr Out + length es <= MAX_LEN_OF_BSS_TABLE)%nat →
  ∃ Out', select cfg wantSsid wantLen es Out = Some Out' ∧ length (BssEntry Out') = MAX_LEN_OF_BSS_TABLE ∧
    used Out' = used Out ++ filter (λ e : BSS_ENTRY, selected e) es ∧ (BssNr Out' <= MAX_LEN_OF_BSS_TABLE)%nat.
Proof.
  induction es as [|e es IH]; intros Out Hd Hl Hn; cbn [select].
  { exists Out. rewrite filter_nil, app_nil_r. cbn in Hn. split_and!; (done || lia). }
  rewrite fmap_cons in Hd. apply Forall_cons in Hd as [He Hd]. cbn [length] in Hn. rewrite judge_ok, Some_bind by done.
  rewrite filter_cons.
  assert (∀ Out1, length (BssEntry Out1) = MAX_LEN_OF_BSS_TABLE → (BssNr Out1 + length es <= MAX_LEN_OF_BSS_TABLE)%nat →
    (MAX_LEN_OF_BSS_TABLE <= BssNr Out1)%nat → es = [] ∧ (BssNr Out1 <= MAX_LEN_OF_BSS_TABLE)%nat) as Hfull.
  { intros Out1 _ H1 H2. destruct es; [split; [done|cbn in H1; lia]|cbn in H1; lia]. }
  destruct (verdict_of e) eqn:Hv.
  - rewrite Some_bind, decide_False by (unfold selected; rewrite Hv; by intros []). apply IH; [done|done|lia].
  - destruct (copy_out_ok e Out) as (Out1 & -> & Hn1 & Hl1 & Hu1); [lia|]. rewrite Some_bind, decide_True by (unfold selected; by rewrite Hv).
    destruct (IH Out1) as (Out' & Hs & Hl' & Hu' & Hn'); [done|lia|lia|]. exists Out'. rewrite Hu', Hu1, <- app_assoc. done.
  - destruct (copy_out_ok e Out) as (Out1 & -> & Hn1 & Hl1 & Hu1); [lia|]. rewrite Some_bind, decide_True by (unfold selected; by rewrite Hv).
    destruct (Nat.leb_spec MAX_LEN_OF_BSS_TABLE (BssNr Out1)) as [Hf|Hf].
    + destruct (Hfull Out1) as [-> Hle]; [lia|lia|done|]. exists Out1. split_and!; [done|lia|done|done].
    + destruct (IH Out1) as (Out' & Hs & Hl' & Hu' & Hn'); [done|lia|lia|]. exists Out'. rewrite Hu', Hu1, <- app_assoc. done.
  - rewrite Some_bind, decide_False by (unfold selected; rewrite Hv; by intros []). destruct (Nat.leb_spec MAX_LEN_OF_BSS_TABLE (BssNr Out)) as [Hf|Hf].
    + destruct (Hfull Out) as [-> Hle]; [lia|lia|done|]. exists Out. rewrite filter_nil, app_nil_r. done.
    + apply IH; [done|done|lia].
Qed.

(** Which networks the station means to try.  The 802.11n mode: *)
Definition phy_fits (b : bss_desc) : Prop :=
  (PhyMode cfg = PHY_11N_2_4G ∨ PhyMode cfg = PHY_11N_5G → HtCapabilityLen b ≠ 0) ∧
  (PhyMode cfg = PHY_11GN_MIXED → 12 <= SupRateLen b + ExtRateLen b).

(** A suite that fits a station with TKIP or AES: unless it is mixed its group
    cipher is the station's; the group cipher is not AES for a station with TKIP,
    and an old WEP cipher only if the station names the network ([lenient]); and
    a station with TKIP finds TKIP among the pairwise ciphers. *)
Definition wep_group (s : CIPHER_SUITE) : Prop :=
  GroupCipher s = Ndis802_11GroupWEP40Enabled ∨ GroupCipher s = Ndis802_11GroupWEP104Enabled.

Definition suite_fits (lenient : bool) (s : CIPHER_SUITE) : Prop :=
  (bMixMode s = false → GroupCipher s = Sta_WepStatus cfg) ∧
  (Sta_WepStatus cfg = Ndis802_11Encryption2Enabled → GroupCipher s ≠ Ndis802_11Encryption3Enabled) ∧
  (wep_group s → lenient = true) ∧
  (Sta_WepStatus cfg = Ndis802_11Encryption2Enabled →
    PairCipher s = Ndis802_11Encryption2Enabled ∨ PairCipherAux s = Ndis802_11Encryption2Enabled).

Definition station_WPA : Prop := Sta_AuthMode cfg = Ndis802_11AuthModeWPA ∨ Sta_AuthMode cfg = Ndis802_11AuthModeWPAPSK.
Definition station_WPA2 : Prop := Sta_AuthMode cfg = Ndis802_11AuthModeWPA2 ∨ Sta_AuthMode cfg = Ndis802_11AuthModeWPA2PSK.

(** Without WPA the encryption is the same - or, for a named network, its key
    comes from SES; with WPA the network offers the station's mode, and the
    suite of that mode fits. *)
Definition security_fits (lenient : bool) (c : bss_ciphers) : Prop :=
  if Sta_AuthMode cfg <? Ndis802_11AuthModeWPA
  then Sta_WepStatus cfg = WepStatus c ∨ lenient = true ∧ bSES c = true
  else (Sta_AuthMode cfg = AuthMode c ∨ Sta_AuthMode cfg = AuthModeAux c) ∧
       (station_WPA → suite_fits lenient (WPA c)) ∧ (station_WPA2 → suite_fits lenient (WPA2 c)).

(** The network has the name the station looks for, or hides its name on a
    channel where radar must be looked for first. *)
Definition found_by_name (b : bss_desc) : Prop :=
  (wantLen = SsidLen b ∧ take (Z.to_nat wantLen) wantSsid = take (Z.to_nat wantLen) (Ssid b)) ∨
  (bIEEE80211H cfg = true ∧ 14 < Mlme_Channel cfg ∧ Hidden b = true ∧
   (snd <$> List.find (λ x, Channel b =? x.1) (ChannelList cfg)) = Some true).

(** A supplicant that chooses for itself gets every network of the name; a station
    that names no network any whose security fits. *)
Definition candidate (b : bss_desc) : Prop :=
  BssType b = Sta_BssType cfg ∧
  ((found_by_name b ∧ (Z.testbit (WpaSupplicantUP cfg) 7 = true ∨
      wantLen ≠ 0 ∧ phy_fits b ∧ security_fits true (ciphers b))) ∨
   (¬ found_by_name b ∧ wantLen = 0 ∧ phy_fits b ∧ security_fits false (ciphers b))).

#[export] Instance security_fits_dec lenient c : Decision (security_fits lenient c).
Proof. unfold security_fits, suite_fits, station_WPA, station_WPA2, wep_group. destruct (_ <? _); apply _. Defined.

#[export] Instance candidate_dec b : Decision (candidate b).
Proof. unfold candidate, found_by_name, phy_fits. apply _. Defined.

(** A station with WPA has TKIP or AES, and the scan table the group ciphers
    BssCipherParse stores. *)
Definition known_group (s : CIPHER_SUITE) : Prop :=
  GroupCipher s ∈ [Ndis802_11WEPDisabled; Ndis802_11Encryption2Enabled; Ndis802_11Encryption3Enabled;
    Ndis802_11GroupWEP40Enabled; Ndis802_11GroupWEP104Enabled].

Definition station_ok : Prop :=
  Ndis802_11AuthModeWPA <= Sta_AuthMode cfg →
  Sta_WepStatus cfg = Ndis802_11Encryption2Enabled ∨ Sta_WepStatus cfg = Ndis802_11Encryption3Enabled.

(** For a named WPA2 network the code compares the group cipher of the WPA element
    in place of that of the WPA2 element; both give the same answer. *)
Definition groups_agree (c : bss_ciphers) : Prop :=
  station_WPA2 → wep_group (WPA2 c) ∨
  ¬ wep_group (WPA c) ∧
  (Sta_WepStatus cfg = Ndis802_11Encryption2Enabled →
   GroupCipher (WPA c) = Ndis802_11Encryption3Enabled ↔ GroupCipher (WPA2 c) = Ndis802_11Encryption3Enabled).

Definition network_ok (b : bss_desc) : Prop :=
  known_group (WPA (ciphers b)) ∧ known_group (WPA2 (ciphers b)) ∧ groups_agree (ciphers b).

(** *** The tests of the code are these *)

Lemma mask_bit7 x : negb (x & 0x80 =? 0) = Z.testbit x 7.
Proof. apply (mask_bit x 7). lia. Qed.

Lemma phy_fits_spec b : wrong_phy cfg b = false ↔ phy_fits b.
Proof.
  unfold wrong_phy, phy_fits. rewrite orb_false_iff, !andb_false_iff, orb_false_iff, !Z.eqb_neq, Z.ltb_ge.
  destruct (decide (HtCapabilityLen b = 0)), (decide (PhyMode cfg = PHY_11GN_MIXED)); split; intros; intuition.
Qed.

Lemma find_radar b :
  RadarChannelCheck (ChannelList cfg) (Channel b) = true ↔
  (snd <$> List.find (λ x, Channel b =? x.1) (ChannelList cfg)) = Some true.
Proof.
  induction (ChannelList cfg) as [|[ch dfs] l IH]; cbn; [done|]. destruct (Channel b =? ch); cbn; [|done].
  split; [by intros ->|by intros [= ->]].
Qed.

Lemma found_by_name_spec b : named wantSsid wantLen b || hidden_included cfg b = true ↔ found_by_name b.
Proof.
  unfold named, hidden_included, found_by_name.
  rewrite orb_true_iff, !andb_true_iff, Z.eqb_eq, Z.ltb_lt, bool_decide_eq_true, find_radar.
  split; (intros [[He Ht]|H]; [left; split; [done|]|right; tauto]); [by rewrite He|by rewrite <- He].
Qed.

Lemma mode_fits b : wrong_mode cfg b = false ↔ Sta_AuthMode cfg = AuthMode (ciphers b) ∨ Sta_AuthMode cfg = AuthModeAux (ciphers b).
Proof. unfold wrong_mode. rewrite andb_false_iff, !negb_false_iff, !Z.eqb_eq. done. Qed.

Section Station.
Context (Hsta : station_ok) (HWPA : Ndis802_11AuthModeWPA <= Sta_AuthMode cfg).

Ltac station :=
  unfold wep_group, Ndis802_11WEPDisabled, Ndis802_11Encryption2Enabled, Ndis802_11Encryption3Enabled,
    Ndis802_11GroupWEP40Enabled, Ndis802_11GroupWEP104Enabled in *.

Lemma suite_fits_strict s :
  known_group s → wrong_unmixed cfg s || wrong_group_any cfg s || wrong_pair cfg s = false ↔ suite_fits false s.
Proof.
  intros Hk. unfold known_group in Hk. rewrite !elem_of_cons, elem_of_nil in Hk. specialize (Hsta HWPA).
  unfold wrong_unmixed, wrong_group_any, wrong_pair, suite_fits. station.
  rewrite !orb_false_iff, !andb_false_iff, !negb_false_iff, !Z.eqb_eq, Z.ltb_ge, Z.eqb_neq.
  destruct (bMixMode s), Hsta as [Hs|Hs]; rewrite Hs in *; destruct_or? Hk; try done; rewrite Hk; intuition lia.
Qed.

Lemma suite_fits_lenient s' s :
  known_group s' → known_group s →
  wep_group s ∨ ¬ wep_group s' ∧
    (Sta_WepStatus cfg = Ndis802_11Encryption2Enabled → GroupCipher s' = Ndis802_11Encryption3Enabled ↔ GroupCipher s = Ndis802_11Encryption3Enabled) →
  wrong_unmixed cfg s || wrong_group cfg s' s || wrong_pair cfg s = false ↔ suite_fits true s.
Proof.
  intros Hk' Hk Ha. unfold known_group in Hk, Hk'. rewrite !elem_of_cons, elem_of_nil in Hk, Hk'. specialize (Hsta HWPA).
  unfold wrong_unmixed, wrong_group, wrong_pair, suite_fits. station.
  rewrite !orb_false_iff, !andb_false_iff, !negb_false_iff, !Z.eqb_eq, Z.ltb_ge, Z.eqb_neq.
  destruct (bMixMode s), Hsta as [Hs|Hs]; rewrite Hs in *; destruct_or? Hk; try done; destruct_or? Hk'; try done; rewrite Hk, Hk' in *; intuition lia.
Qed.
End Station.

Lemma is_WPA_spec : is_WPA_mode cfg = true ↔ station_WPA.
Proof. unfold is_WPA_mode, station_WPA. by rewrite orb_true_iff, !Z.eqb_eq. Qed.

Lemma is_WPA2_spec : is_WPA2_mode cfg = true ↔ station_WPA2.
Proof. unfold is_WPA2_mode, station_WPA2. by rewrite orb_true_iff, !Z.eqb_eq. Qed.

Lemma one_mode : station_WPA → ¬ station_WPA2.
Proof.
  unfold station_WPA, station_WPA2, Ndis802_11AuthModeWPA, Ndis802_11AuthModeWPAPSK, Ndis802_11AuthModeWPA2, Ndis802_11AuthModeWPA2PSK. lia.
Qed.

(** The two forms of the security tests, from those of the suites. *)
Lemma security_cases b lenient (wpa wpa2 : bool) :
  Ndis802_11AuthModeWPA <= Sta_AuthMode cfg →
  (wpa = false ↔ suite_fits lenient (WPA (ciphers b))) →
  (station_WPA2 → wpa2 = false ↔ suite_fits lenient (WPA2 (ciphers b))) →
  wrong_mode cfg b || (if is_WPA_mode cfg then wpa else if is_WPA2_mode cfg then wpa2 else false) = false ↔
  security_fits lenient (ciphers b).
Proof.
  intros HM H1 H2. unfold security_fits. rewrite (proj2 (Z.ltb_ge _ _) HM), orb_false_iff, mode_fits.
  pose proof is_WPA_spec as Hw. pose proof is_WPA2_spec as Hw2. pose proof one_mode as Hone.
  destruct (is_WPA_mode cfg), (is_WPA2_mode cfg); intuition (done || congruence).
Qed.

Lemma unfit_spec b : station_ok → network_ok b → unfit cfg b = false ↔ security_fits true (ciphers b).
Proof.
  intros Hsta (Hk & Hk2 & Ha). unfold unfit. destruct (Z.leb_spec Ndis802_11AuthModeWPA (Sta_AuthMode cfg)) as [HM|HM].
  - apply security_cases; [done| |].
    + apply suite_fits_lenient; try done. destruct (decide (wep_group (WPA (ciphers b)))); [by left|right]. done.
    + intros H2. apply suite_fits_lenient; try done. by apply Ha.
  - unfold security_fits. rewrite (proj2 (Z.ltb_lt _ _)) by lia. rewrite andb_false_iff, !negb_false_iff, Z.eqb_eq. cbv iota. intuition.
Qed.

Lemma unfit_any_spec b : station_ok → network_ok b → unfit_any cfg b = false ↔ security_fits false (ciphers b).
Proof.
  intros Hsta (Hk & Hk2 & Ha). unfold unfit_any. destruct (Z.leb_spec Ndis802_11AuthModeWPA (Sta_AuthMode cfg)) as [HM|HM].
  - apply security_cases; [done| |]; [|intros _]; by apply suite_fits_strict.
  - unfold security_fits. rewrite (proj2 (Z.ltb_lt _ _)) by lia. rewrite negb_false_iff, Z.eqb_eq.
    split; [by left|]. by intros [?|[? _]].
Qed.

Lemma selected_candidate b : station_ok → network_ok b → selected b = true ↔ candidate b.
Proof.
  intros Hsta Hb. unfold selected, verdict_of, candidate.
  pose proof (found_by_name_spec b) as Hn. pose proof (phy_fits_spec b) as Hp.
  pose proof (unfit_spec b Hsta Hb) as Hu. pose proof (unfit_any_spec b Hsta Hb) as Hua.
  replace (WpaSupplicantUP cfg & 0x80 =? 0) with (negb (Z.testbit (WpaSupplicantUP cfg) 7)) by (rewrite <- mask_bit7; apply negb_involutive).
  destruct (Z.eqb_spec (BssType b) (Sta_BssType cfg)) as [Ht|Ht]; cbn [andb]; [|split; [done|by intros [? _]]].
  destruct (Z.eqb_spec wantLen 0) as [H0|H0], (named wantSsid wantLen b || hidden_included cfg b), (Z.testbit (WpaSupplicantUP cfg) 7),
    (wrong_phy cfg b), (unfit cfg b), (unfit_any cfg b); cbn [negb orb]; intuition congruence.
Qed.

End SelectSpec.

Lemma list_filter_iff_in {A} (P Q : A → Prop) `{!∀ x, Decision (P x), !∀ x, Decision (Q x)} (l : list A) :
  (∀ x, x ∈ l → P x ↔ Q x) → filter P l = filter Q l.
Proof.
  induction l as [|x l IH]; intros Heq; [done|]. rewrite !filter_cons, IH by (intros y Hy; apply Heq; by apply list_elem_of_further).
  pose proof (Heq x (list_elem_of_here _ _)) as Hx. destruct (decide (P x)), (decide (Q x)); tauto.
Qed.

(** C21: The table of networks to try holds exactly the entries of the scan table that
    are of the station's type, have its SSID or hide theirs behind a radar
    channel, and fit its 802.11n mode and its security ([candidate]), each once - all
    of that name when a supplicant chooses - and, when there is memory for one
    entry, in the order of falling signal strength.  The station has TKIP or AES
    when it has WPA; for a station with WPA2 the group ciphers of the WPA and of
    the WPA2 element of each network must agree, since the code compares the
    former where it should compare the latter ([wpa2_group_of_wpa]). *)
Theorem BssTableSsidSort_spec alloc cfg h ScanTab OutTab wantSsid wantLen :
  scan_ok h ScanTab → length (BssEntry OutTab) = MAX_LEN_OF_BSS_TABLE →
  length wantSsid = MAX_LEN_OF_SSID →
  station_ok cfg → Forall (λ e : BSS_ENTRY, network_ok cfg e) (used ScanTab) →
  ∃ h' Out, BssTableSsidSort alloc cfg h ScanTab OutTab wantSsid wantLen = Some (h', Out) ∧
    length (BssEntry Out) = MAX_LEN_OF_BSS_TABLE ∧ (BssNr Out <= MAX_LEN_OF_BSS_TABLE)%nat ∧
    used Out ≡ₚ (if (wantLen =? 0) && negb (bAutoConnectIfNoSSID cfg) then []
                 else filter (λ e : BSS_ENTRY, candidate cfg wantSsid wantLen e) (used ScanTab)) ∧
    (alloc = true → StronglySorted falling (used Out)).
Proof.
  intros Hs Ho Hssid Hsta Hnet. unfold BssTableSsidSort, BssTableInit. destruct (init_entries h (BssEntry OutTab)) as [h1 es1] eqn:Hi.
  assert (length es1 = MAX_LEN_OF_BSS_TABLE) as Hl1.
  { rewrite <- Ho. revert h h1 es1 Hi Hs. generalize (BssEntry OutTab) as es. clear. induction es as [|e es IH]; intros h h1 es1 Hi Hs; cbn in Hi.
    - by injection Hi as <- <-.
    - destruct (init_entries _ es) as [h' es'] eqn:He. injection Hi as <- <-. cbn. f_equal. eapply (IH _ _ _ He).
      destruct Hs. split; try done. by apply zero_buffer_ok. }
  destruct ((wantLen =? 0) && negb (bAutoConnectIfNoSSID cfg)).
  { eexists _, _. split; [done|]. unfold used. cbn [BssEntry BssNr take]. split_and!; first [done|lia|intros _; constructor]. }
  destruct (select_ok cfg wantSsid wantLen Hssid (used ScanTab) {| BssNr := 0; BssOverlapNr := 0; BssEntry := es1 |}) as (Out1 & Hsel & Hl & Hu & Hn).
  - apply Forall_fmap. unfold used. apply Forall_take. eapply Forall_impl; [apply Hs|]. intros e He. apply He.
  - done.
  - cbn [BssNr]. unfold used. rewrite length_take. pose proof (so_number _ _ Hs). lia.
  - rewrite Hsel, Some_bind. destruct (BssTableSortByRssi_ok alloc Out1) as (Out & -> & H1 & _ & H2 & H3 & H4); [lia|].
    rewrite Some_bind. exists h1, Out. split; [done|]. unfold used at 2 in Hu. cbn [BssNr BssEntry take app] in Hu.
    split; [lia|]. split; [lia|]. split; [|by intros ->]. rewrite H3, Hu. apply reflexive_eq, list_filter_iff_in.
    intros e He. rewrite Is_true_true. apply selected_candidate; [done|done|]. rewrite Forall_forall in Hnet. by apply Hnet.
Qed.

(** The group ciphers that BssCipherParse stores are known. *)
Lemma added_known s r : known_group s → known_group (add_suites s r).
Proof.
  intros Hs. unfold add_suites, known_group. destruct (foldl_add_pair (suite_status <$> r_pairwise r)
    (set_group s (from_option group_status (GroupCipher s) (suite_named (r_group r))))) as (_ & -> & _).
  cbn [GroupCipher set_group]. destruct (suite_named _) as [[]|]; cbn [from_option group_status]; [set_solver..|done].
Qed.

Lemma announced_known BssType l : ∀ k,
  known_group (WPA k) → known_group (WPA2 k) →
  known_group (WPA (foldl (announce BssType) k l)) ∧ known_group (WPA2 (foldl (announce BssType) k l)).
Proof.
  induction l as [|[r|payload|x] l IH]; intros k H1 H2; [done| |by apply IH..]. cbn [foldl]. cbn [announce].
  pose proof (added_known _ r H1) as Ha1. pose proof (added_known _ r H2) as Ha2.
  destruct (r_tail r) as [[cap rest]|].
  - destruct (foldl_wpa2_modes k (suite_type <$> r_akm r)) as [Hm1 Hm2].
    apply IH; unfold announce_rsn; [|done]. destruct (BssType =? BSS_ADHOC); cbn [WPA set_WPA2 set_WPA set_WepStatus]; [|by rewrite Hm1].
    unfold known_group in *. destruct (patch_aux_keeps (set_group (set_aux (WPA (foldl wpa2_auth_mode k (suite_type <$> r_akm r)))
      (PairCipherAux (add_suites (WPA2 k) r))) (GroupCipher (add_suites (WPA2 k) r)))) as (_ & -> & _). done.
  - assert (∀ t, WPA2 (wpa_auth_mode k t) = WPA2 k) as Hm.
    { intros t. unfold wpa_auth_mode, add_auth_mode. by repeat case_match. }
    unfold announce_wpa. destruct (BssType =? BSS_ADHOC); apply IH; cbn [WPA WPA2 set_WPA set_WepStatus set_modes]; rewrite ?Hm; try done.
    unfold known_group, set_mix in *. cbn [GroupCipher]. destruct (patch_aux_keeps (add_suites (WPA k) r)) as (_ & -> & _). done.
Qed.

(** ** Weaknesses *)

(** The group cipher of a WPA2 network is compared by the strength of its WPA
    suite: this one, with AES and a TKIP group key under WPA2 and a WEP group key
    under WPA, is passed over by a station that names its SSID and taken by one
    that takes any network. *)
Lemma wpa2_group_of_wpa cfg b s :
  Sta_AuthMode cfg = Ndis802_11AuthModeWPA2PSK → Sta_WepStatus cfg = Ndis802_11Encryption3Enabled →
  AuthMode (ciphers b) = Ndis802_11AuthModeWPA2PSK → WPA2 (ciphers b) = s → bMixMode s = true →
  GroupCipher s = Ndis802_11Encryption2Enabled → GroupCipher (WPA (ciphers b)) = Ndis802_11GroupWEP40Enabled →
  unfit cfg b = true ∧ unfit_any cfg b = false.
Proof.
  intros H1 H2 H3 H4 H5 H6 H7.
  unfold unfit, unfit_any, wrong_mode, wrong_unmixed, wrong_group, wrong_group_any, wrong_pair, is_WPA_mode, is_WPA2_mode.
  rewrite H1, H2, H3, H4, H5, H6, H7. by cbn.
Qed.

Module Sample.
Import BssEntry.Sample BssTable.Sample.

(** A station with a pre-shared key and TKIP that looks for the network "a". *)
Definition tkip_station : join_cfg :=
  {| bAutoConnectIfNoSSID := false; bIEEE80211H := false; Mlme_Channel := 1; ChannelList := []; Sta_BssType := BSS_INFRA;
     Sta_AuthMode := Ndis802_11AuthModeWPA2PSK; Sta_WepStatus := Ndis802_11Encryption2Enabled; WpaSupplicantUP := 0; PhyMode := 9 |}.
Definition name_a : list Z := [97] ++ zeros 31.
Definition weaker_first : list scan_op :=
  [Frame 0 idle (frame 1 1 (-80) [97]) elements pad true; Frame 0 idle (frame 2 6 (-40) [98]) elements pad true;
   Frame 0 idle (frame 3 11 (-60) [97]) elements pad true].
Definition scanned : heap * BSS_TABLE := default scan_initial (scan_run weaker_first scan_initial).
Definition empty_table : BSS_TABLE :=
  {| BssNr := 0; BssOverlapNr := 0; BssEntry := replicate MAX_LEN_OF_BSS_TABLE (zero_bss 0 None) |}.

Lemma scanned_ok : scan_ok scanned.1 scanned.2.
Proof.
  destruct (scan_table_reached weaker_first) as (h & t & Hr & Hs).
  { unfold weaker_first. repeat (apply Forall_cons; split); try (split; [apply frame_ok; cbn; lia|apply idle_connection_ok]). by apply Forall_nil. }
  unfold scanned. by rewrite Hr.
Qed.

Lemma scanned_networks : Forall (λ e : BSS_ENTRY, network_ok tkip_station e) (used scanned.2).
Proof.
  apply (bool_decide_unpack _). vm_compute. exact I.
Qed.

Lemma BssTableSsidSort_spec_witness :
  match BssTableSsidSort true tkip_station scanned.1 scanned.2 empty_table name_a 1 with
  | Some (_, t) => (λ e : BSS_ENTRY, (Bssid e, Rssi e)) <$> used t = [([2; 0; 0; 0; 0; 3], -60); ([2; 0; 0; 0; 0; 1], -80)]
  | None => False
  end ∧
  ∃ h' Out, BssTableSsidSort true tkip_station scanned.1 scanned.2 empty_table name_a 1 = Some (h', Out) ∧
    length (BssEntry Out) = MAX_LEN_OF_BSS_TABLE ∧ (BssNr Out <= MAX_LEN_OF_BSS_TABLE)%nat ∧
    used Out ≡ₚ filter (λ e : BSS_ENTRY, candidate tkip_station name_a 1 e) (used scanned.2) ∧
    (true = true → StronglySorted falling (used Out)).
Proof.
  split; [by vm_compute|].
  apply (BssTableSsidSort_spec true tkip_station scanned.1 scanned.2 empty_table name_a 1 scanned_ok); [done|done|by left|].
  apply scanned_networks.
Defined.

(** The chosen entries point to the buffers of the scan table: the next selection
    clears, through them, the probe responses of the networks in the scan table. *)
Lemma second_selection_wipes :
  match BssTableSsidSort true tkip_station scanned.1 scanned.2 empty_table name_a 1 with
  | Some (h1, t1) =>
      match BssTableSsidSort true tkip_station h1 scanned.2 t1 name_a 1 with
      | Some (h2, _) =>
          match used scanned.2 with
          | e :: _ => probe h1 e = Some (announced_bytes elements) ∧ probe h2 e = Some (zeros (length (announced_bytes elements)))
          | [] => False
          end
      | None => False
      end
  | None => False
  end.
Proof. vm_compute. repeat split. Qed.
End Sample.
