(* ===== verification/Sanity.v ===== *)
(** * Parsers of management frames

    Models [linux/Arch/rt5370.driver/sta/sanity.c] and, of
    [common/cmm_sanity.c], the functions the handlers of association,
    authentication and scanning call first: [PeerAssocRspSanity],
    [PeerAuthSanity], [PeerDeauthSanity], [PeerDisassocSanity],
    [PeerProbeReqSanity], [PeerBeaconAndProbeRspSanity2], [MlmeAuthReqSanity],
    [MlmeScanReqSanity], [MlmeStartReqSanity], [ChannelSanity],
    [NetworkTypeInUseSanity] and [GetTimBit].

    [m] is the memory from the first byte of the message on, of which the
    message is the first [MsgLen] bytes: an element of the queue is followed by
    others, and the parsers read some bytes behind the message.  An output the
    caller has not initialised keeps the value it had, which is an argument
    here. *)

From stdpp Require Import base list numbers list_numbers.
From Stdlib Require Import ZArith Lia.
From S2P Require Import Prelude Mlme WpaData RsnIe BssEntry.

(** ** Constants *)

Definition IE_SSID : Z := 0.
Definition IE_SUPP_RATES : Z := 1.
Definition IE_FH_PARM : Z := 2.
Definition IE_DS_PARM : Z := 3.
Definition IE_CF_PARM : Z := 4.
Definition IE_TIM : Z := 5.
Definition IE_IBSS_PARM : Z := 6.
Definition IE_QBSS_LOAD : Z := 11.
Definition IE_CHANNEL_SWITCH_ANNOUNCEMENT : Z := 37.
Definition IE_ERP : Z := 42.
Definition IE_HT_CAP : Z := 45.
Definition IE_EXT_SUPP_RATES : Z := 50.
Definition IE_HT_CAP2 : Z := 52.
Definition IE_ADD_HT2 : Z := 53.
Definition IE_SUPP_REG_CLASS : Z := 59.
Definition IE_ADD_HT : Z := 61.
Definition IE_SECONDARY_CH_OFFSET : Z := 62.
Definition IE_OVERLAPBSS_SCAN_PARM : Z := 74.
Definition IE_EXT_CAPABILITY : Z := 127.
Definition IE_AIRONET_CKIP : Z := 133.
Definition IE_AP_TX_POWER : Z := 150.
Definition IE_VENDOR_SPECIFIC : Z := 221.
Definition SIZE_HT_CAP_IE : Z := 26.
Definition SIZE_ADD_HT_INFO_IE : Z := 22.
Definition CIPHER_TEXT_LEN : Z := 128.
Definition MLME_SUCCESS : Z := 0.
Definition BSS_ANY : Z := 2.
Definition SCAN_PASSIVE : Z := 18.
Definition SCAN_ACTIVE : Z := 19.
Definition SCAN_2040_BSS_COEXIST : Z := 26.
Definition QID_AC_BE : nat := 0.
Definition QID_AC_BK : nat := 1.
Definition QID_AC_VI : nat := 2.
Definition QID_AC_VO : nat := 3.
Definition CW_MIN_IN_BITS : Z := 4.
Definition CW_MAX_IN_BITS : Z := 10.
Definition WME_INFO_ELEM : list Z := [0x00; 0x50; 0xf2; 0x02; 0x00; 0x01].
Definition WME_PARM_ELEM : list Z := [0x00; 0x50; 0xf2; 0x02; 0x01; 0x01].

(** ** Walking over elements *)

(** [pEid->Octet[i]] of the element at [p]. *)
Definition Octet (m : list Z) (p i : Z) : option Z := load8 m (p + 2 + i).

(** [while ((Length + 2 + pEid->Len) <= MsgLen)]: [pEid] always points [Length]
    bytes behind the start of the message.  The body gets position, identifier and
    length of an element, and answers whether the loop goes on. *)
Fixpoint walk {S} (fuel : nat) (m : list Z) (MsgLen : Z) (body : Z → Z → Z → S → option (S * bool)) (Length : Z) (s : S)
    : option S :=
  L ← load8 m (Length + 1);
  if negb (Length + 2 + L <=? MsgLen) then Some s
  else
    match fuel with
    | O => None
    | Datatypes.S fuel =>
        Eid ← load8 m Length;
        '(s, go) ← body Length Eid L s;
        if (go : bool) then walk fuel m MsgLen body (Length + 2 + L) s else Some s
    end.

(** [NdisMoveMemory(dst, m + p, n)] *)
Definition move_at (dst m : list Z) (p n : Z) : option (list Z) := b ← load m p n; store dst 0 b.

(** ** Parameters of the access categories *)

(** An [EDCA_PARM] behind [bValid], without the padding before [Txop]: [bAdd],
    [bQAck], [bQueueRequest], [bTxopRequest], [bAPSDCapable], [EdcaUpdateCount],
    [Aifsn], [Cwmin], [Cwmax] and [bACM] of one byte each, [Txop] of two. *)
Definition edca_size : nat := 30.

Definition set_ac (parm : list Z) (aci : nat) (ACM Aifsn Cwmin Cwmax Txop : Z) : list Z :=
  let parm := parm.[26 + aci <- ACM] in
  let parm := parm.[6 + aci <- Aifsn] in
  let parm := parm.[10 + aci <- Cwmin] in
  let parm := parm.[14 + aci <- Cwmax] in
  put parm (18 + 2 * aci) (le_bytes 2 Txop).

(** What the WME parameter and the WME information element have in common. *)
Definition wme_header (m : list Z) (p : Z) (parm : list Z) : option (list Z) :=
  o ← Octet m p 6;
  let parm := parm.[1 <- 0] in
  let parm := parm.[2 <- 0] in
  let parm := parm.[3 <- 0] in
  let parm := parm.[5 <- o & 0x0f] in
  Some parm.[4 <- if o & 0x80 =? 0 then 0 else 1].

Definition wme_parameters (m : list Z) (p : Z) (old : qos_parm) : option qos_parm :=
  parm ← wme_header m p (parm old);
  parm ← loop_opt 0 4 (λ i parm,
    q ← load m (p + 2 + 8 + 4 * Z.of_nat i) 4;
    let aci := Z.to_nat ((q.[0] & 0x60) >> 5) in
    Some (set_ac parm aci (if q.[0] & 0x10 =? 0x10 then 1 else 0) (q.[0] & 0x0f) (q.[1] & 0x0f) (q.[1] >> 4)
            (q.[2] + 256 * q.[3]))) parm;
  Some {| bValid := true; parm := parm |}.

(** The defaults of a WME information element. *)
Definition wme_information (m : list Z) (p : Z) (old : qos_parm) : option qos_parm :=
  parm ← wme_header m p (parm old);
  let parm := set_ac parm QID_AC_BE 0 3 CW_MIN_IN_BITS CW_MAX_IN_BITS 0 in
  let parm := set_ac parm QID_AC_BK 0 7 CW_MIN_IN_BITS CW_MAX_IN_BITS 0 in
  let parm := set_ac parm QID_AC_VI 0 2 (CW_MIN_IN_BITS - 1) CW_MAX_IN_BITS 96 in
  let parm := set_ac parm QID_AC_VO 0 2 (CW_MIN_IN_BITS - 2) (CW_MAX_IN_BITS - 1) 48 in
  Some {| bValid := true; parm := parm |}.

(** ** The traffic indication map *)

Record tim := { TimLen : Z; BcastFlag : bool; DtimCount : Z; DtimPeriod : Z; MessageToMe : bool }.

(** [GetTimBit]; [Ptr] is the position of the element. *)
Definition GetTimBit (m : list Z) (Ptr Aid : Z) : option tim :=
  TimLen ← load8 m (Ptr + 1);
  DtimCount ← load8 m (Ptr + 2);
  DtimPeriod ← load8 m (Ptr + 3);
  BitCntl ← load8 m (Ptr + 4);
  let BcastFlag := (DtimCount =? 0) && negb (BitCntl & 0x01 =? 0) in
  let N1 := BitCntl & 0xfe in
  let N2 := u8 (TimLen - 4 + N1) in
  if (Aid <? Z.shiftl N1 3) || (Z.shiftl (N2 + 1) 3 <=? Aid)
  then Some {| TimLen := TimLen; BcastFlag := BcastFlag; DtimCount := DtimCount; DtimPeriod := DtimPeriod; MessageToMe := false |}
  else
    let MyByte := u8 ((Aid >> 3) - N1) in
    let MyBit := u8 (Aid mod 16 - (if MyByte & 0x01 =? 0 then 0 else 8)) in
    o ← load8 m (Ptr + 4 + (MyByte + 1));
    Some {| TimLen := TimLen; BcastFlag := BcastFlag; DtimCount := DtimCount; DtimPeriod := DtimPeriod;
            MessageToMe := negb (o & Z.shiftl 0x01 MyBit =? 0) |}.

(** ** The answer to an association request *)

(** An array and the length that goes with it are a pair.  [EXT_CAP_INFO_ELEMENT]
    has one byte. *)
Record assoc_ies := {
  x_ExtRate : list Z * Z;
  x_HtCapability : list Z * Z;
  x_AddHtInfo : list Z * Z;
  x_NewExtChannelOffset : Z;
  x_EdcaParm : qos_parm;
  x_ExtCapInfo : Z;
}.

Record assoc_rsp := {
  r_Addr2 : list Z;
  r_CapabilityInfo : Z;
  r_Status : Z;
  r_Aid : Z;
  r_SupRate : list Z * Z;
  r_CkipFlag : Z;
  r_ies : assoc_ies;
}.

Definition set_ExtRate (s : assoc_ies) v := Build_assoc_ies v (x_HtCapability s) (x_AddHtInfo s) (x_NewExtChannelOffset s) (x_EdcaParm s) (x_ExtCapInfo s).
Definition set_HtCapability (s : assoc_ies) v := Build_assoc_ies (x_ExtRate s) v (x_AddHtInfo s) (x_NewExtChannelOffset s) (x_EdcaParm s) (x_ExtCapInfo s).
Definition set_AddHtInfo (s : assoc_ies) v := Build_assoc_ies (x_ExtRate s) (x_HtCapability s) v (x_NewExtChannelOffset s) (x_EdcaParm s) (x_ExtCapInfo s).
Definition set_NewExtChannelOffset (s : assoc_ies) v := Build_assoc_ies (x_ExtRate s) (x_HtCapability s) (x_AddHtInfo s) v (x_EdcaParm s) (x_ExtCapInfo s).
Definition set_EdcaParm (s : assoc_ies) v := Build_assoc_ies (x_ExtRate s) (x_HtCapability s) (x_AddHtInfo s) (x_NewExtChannelOffset s) v (x_ExtCapInfo s).
Definition set_ExtCapInfo (s : assoc_ies) v := Build_assoc_ies (x_ExtRate s) (x_HtCapability s) (x_AddHtInfo s) (x_NewExtChannelOffset s) (x_EdcaParm s) v.

(** [switch (pEid->Eid)] *)
Definition assoc_element (m : list Z) (p Eid L : Z) (s : assoc_ies) : option assoc_ies :=
  if Eid =? IE_EXT_SUPP_RATES then
    if L <=? MAX_LEN_OF_SUPPORTED_RATES
    then a ← move_at (x_ExtRate s).1 m (p + 2) L; Some (set_ExtRate s (a, L)) else Some s
  else if (Eid =? IE_HT_CAP) || (Eid =? IE_HT_CAP2) then
    if SIZE_HT_CAP_IE <=? L
    then a ← move_at (x_HtCapability s).1 m (p + 2) SIZE_HT_CAP_IE; Some (set_HtCapability s (a, SIZE_HT_CAP_IE)) else Some s
  else if (Eid =? IE_ADD_HT) || (Eid =? IE_ADD_HT2) then
    if SIZE_ADD_HT_INFO_IE <=? L
    then a ← move_at (x_AddHtInfo s).1 m (p + 2) SIZE_ADD_HT_INFO_IE; Some (set_AddHtInfo s (a, SIZE_ADD_HT_INFO_IE)) else Some s
  else if Eid =? IE_SECONDARY_CH_OFFSET then
    if L =? 1 then o ← Octet m p 0; Some (set_NewExtChannelOffset s o) else Some s
  else if Eid =? IE_VENDOR_SPECIFIC then
    wme ← equal_at m (p + 2) WME_PARM_ELEM;
    if wme && (L =? 24) then e ← wme_parameters m p (x_EdcaParm s); Some (set_EdcaParm s e) else Some s
  else if Eid =? IE_EXT_CAPABILITY then
    if 1 <=? L then o ← Octet m p 0; Some (set_ExtCapInfo s o) else Some s
  else Some s.

(** The answer and the outputs, which are [old] before the call. *)
Definition PeerAssocRspSanity (old : assoc_rsp) (m : list Z) (MsgLen : Z) : option (bool * assoc_rsp) :=
  Addr2 ← load m 10 6;
  CapabilityInfo ← load16 m LENGTH_802_11;
  Status ← load16 m (LENGTH_802_11 + 2);
  let x := r_ies old in
  let x := {| x_ExtRate := ((x_ExtRate x).1, 0); x_HtCapability := ((x_HtCapability x).1, 0);
              x_AddHtInfo := ((x_AddHtInfo x).1, 0); x_NewExtChannelOffset := 0xff;
              x_EdcaParm := {| bValid := false; parm := parm (x_EdcaParm x) |}; x_ExtCapInfo := x_ExtCapInfo x |} in
  let result Aid rates x :=
    {| r_Addr2 := Addr2; r_CapabilityInfo := CapabilityInfo; r_Status := Status; r_Aid := Aid; r_SupRate := rates;
       r_CkipFlag := 0; r_ies := x |} in
  if negb (Status =? MLME_SUCCESS) then Some (true, result (r_Aid old) (r_SupRate old) x)
  else
    Aid ← load16 m (LENGTH_802_11 + 4);
    let Aid := Aid & 0x3fff in
    IeType ← load8 m (LENGTH_802_11 + 6);
    SupRateLen ← load8 m (LENGTH_802_11 + 7);
    if negb (IeType =? IE_SUPP_RATES) || (MAX_LEN_OF_SUPPORTED_RATES <? SupRateLen)
    then Some (false, result Aid ((r_SupRate old).1, SupRateLen) x)
    else
      rates ← move_at (r_SupRate old).1 m (LENGTH_802_11 + 8) SupRateLen;
      x ← walk (Z.to_nat MsgLen) m MsgLen (λ p Eid L x, x ← assoc_element m p Eid L x; Some (x, true))
            (LENGTH_802_11 + 6 + 2 + SupRateLen) x;
      Some (true, result Aid (rates, SupRateLen) x).

(** ** Authentication, deauthentication, disassociation *)

Record auth_frame := { f_Addr : list Z; f_Alg : Z; f_Seq : Z; f_Status : Z; f_ChlgText : list Z }.

Definition PeerAuthSanity (m : list Z) (ChlgText : list Z) : option (bool * auth_frame) :=
  Addr ← load m 10 6;
  Alg ← load16 m LENGTH_802_11;
  Seq ← load16 m (LENGTH_802_11 + 2);
  Status ← load16 m (LENGTH_802_11 + 4);
  let frame text := {| f_Addr := Addr; f_Alg := Alg; f_Seq := Seq; f_Status := Status; f_ChlgText := text |} in
  if Alg =? AUTH_MODE_OPEN then Some ((Seq =? 1) || (Seq =? 2), frame ChlgText)
  else if Alg =? AUTH_MODE_KEY then
    if (Seq =? 1) || (Seq =? 4) then Some (true, frame ChlgText)
    else if (Seq =? 2) || (Seq =? 3)
    then text ← move_at ChlgText m (LENGTH_802_11 + 8) CIPHER_TEXT_LEN; Some (true, frame text)
    else Some (false, frame ChlgText)
  else Some (false, frame ChlgText).

(** [pAddr1], [pAddr2], [pAddr3] and [*pReason]; the answer is always TRUE. *)
Definition PeerDeauthSanity (m : list Z) : option (bool * (list Z * list Z * list Z * Z)) :=
  Addr1 ← load m 4 6;
  Addr2 ← load m 10 6;
  Addr3 ← load m 16 6;
  Reason ← load16 m LENGTH_802_11;
  Some (true, (Addr1, Addr2, Addr3, Reason)).

Definition PeerDisassocSanity (m : list Z) : option (bool * (list Z * Z)) :=
  Addr2 ← load m 10 6;
  Reason ← load16 m LENGTH_802_11;
  Some (true, (Addr2, Reason)).

(** ** Probe requests *)

(** The loop of [PeerProbeReqSanity], with [RSSI_FEEDBACK] off: its [switch] only
    compares bytes.  [Ptr] is [LENGTH_802_11]. *)
Fixpoint probe_req_loop (fuel : nat) (m : list Z) (MsgLen eid eid_len eid_data total_ie_len : Z) : option unit :=
  if negb (eid_data + eid_len <=? MsgLen) then Some ()
  else
    match fuel with
    | O => None
    | S fuel =>
        _ ← (if (eid =? IE_VENDOR_SPECIFIC) && (4 <? eid_len) then equal_at m eid_data WPS_OUI else Some false);
        eid ← load8 m (LENGTH_802_11 + total_ie_len);
        eid_len ← load8 m (LENGTH_802_11 + total_ie_len + 1);
        probe_req_loop fuel m MsgLen eid eid_len (LENGTH_802_11 + total_ie_len + 2) (total_ie_len + (eid_len + 2))
    end.

(** The answer, [pAddr2], and [Ssid] with [*SsidLen]. *)
Definition PeerProbeReqSanity (Ssid m : list Z) (MsgLen : Z) : option (bool * (list Z * (list Z * Z))) :=
  Addr2 ← load m 10 6;
  eid ← load8 m LENGTH_802_11;
  len ← load8 m (LENGTH_802_11 + 1);
  if negb (eid =? IE_SSID) || (Z.of_nat MAX_LEN_OF_SSID <? len) then Some (false, (Addr2, (Ssid, 0)))
  else
    Ssid ← move_at Ssid m (LENGTH_802_11 + 2) len;
    _ ← probe_req_loop (Z.to_nat MsgLen) m MsgLen eid len (LENGTH_802_11 + 2) (len + 2);
    Some (true, (Addr2, (Ssid, len))).

(** ** Parameters of 802.11n coexistence in a beacon *)

(** [brc], [*BssScan] and [*RegClass]. *)
Definition coexist_element (m : list Z) (p Eid L : Z) (s : bool * list Z * Z) : option (bool * list Z * Z) :=
  let '(brc, BssScan, RegClass) := s in
  if Eid =? IE_SUPP_REG_CLASS then
    if 0 <? L then o ← Octet m p 0; Some (brc, BssScan, o) else Some s
  else if Eid =? IE_OVERLAPBSS_SCAN_PARM then
    if L =? 14 then b ← move_at BssScan m (p + 2) 14; Some (true, b, RegClass) else Some s
  else Some s.

Definition PeerBeaconAndProbeRspSanity2 (m : list Z) (MsgLen : Z) : option (bool * list Z * Z) :=
  walk (Z.to_nat MsgLen) m MsgLen (λ p Eid L s, s ← coexist_element m p Eid L s; Some (s, true))
    (LENGTH_802_11 + 8 + 2 + 2) (false, zeros 14, 0).

(** ** The driver's own requests *)

Definition MlmeAuthReqSanity (Addr : list Z) (Alg : Z) : bool :=
  ((Alg =? AUTH_MODE_KEY) || (Alg =? AUTH_MODE_OPEN)) && (Addr.[0] & 0x01 =? 0).

(** [Info->Ssid] has 32 bytes; [Ssid] is the caller's array. *)
Definition MlmeScanReqSanity (Ssid InfoSsid : list Z) (SsidLen BssType ScanType : Z) : option (bool * list Z) :=
  Ssid ← move_at Ssid InfoSsid 0 SsidLen;
  Some (((BssType =? BSS_INFRA) || (BssType =? BSS_ADHOC) || (BssType =? BSS_ANY)) &&
        ((ScanType =? SCAN_ACTIVE) || (ScanType =? SCAN_PASSIVE) || (ScanType =? SCAN_2040_BSS_COEXIST)), Ssid).

Definition MlmeStartReqSanity (Ssid InfoSsid : list Z) (SsidLen : Z) : option (bool * list Z) :=
  if Z.of_nat MAX_LEN_OF_SSID <? SsidLen then Some (false, Ssid)
  else Ssid ← move_at Ssid InfoSsid 0 SsidLen; Some (true, Ssid).

(** ** Channels and network types *)

Definition ChannelSanity (ChannelList : list Z) (channel : Z) : bool := existsb (Z.eqb channel) ChannelList.

Inductive network_type := Ndis802_11DS | Ndis802_11OFDM24 | Ndis802_11OFDM5 | Ndis802_11OFDM24_N | Ndis802_11OFDM5_N.

(** [for (i = 0; i < n; i++)] over a rate array: is there a rate that is not one of
    802.11b?  [None] when the loop leaves the array. *)
Fixpoint ofdm_rate (rates : list Z) (i n : nat) : option bool :=
  match n with
  | O => Some false
  | S n =>
      r ← rates !! i;
      let rate := r & 0x7f in
      if (rate =? 2) || (rate =? 4) || (rate =? 11) || (rate =? 22) then ofdm_rate rates (S i) n else Some true
  end.

(** The second loop reads [SupRate], too. *)
Definition NetworkTypeInUseSanity (b : bss_desc) : option network_type :=
  type ← (if Channel b <=? 14 then
            ofdm ← ofdm_rate (SupRate b) 0 (Z.to_nat (SupRateLen b));
            ofdm ← (if (ofdm : bool) then Some true else ofdm_rate (SupRate b) 0 (Z.to_nat (ExtRateLen b)));
            Some (if (ofdm : bool) then Ndis802_11OFDM24 else Ndis802_11DS)
          else Some Ndis802_11OFDM5);
  Some (if HtCapabilityLen b =? 0 then type
        else match type with Ndis802_11OFDM5 => Ndis802_11OFDM5_N | _ => Ndis802_11OFDM24_N end).

(** ** The loops end and stay inside *)

Lemma load8_some m p : bytes m → 0 <= p < Z.of_nat (length m) → ∃ x, load8 m p = Some x ∧ 0 <= x < 256.
Proof.
  intros Hm Hp. unfold load8. rewrite load_ok by lia. eexists. split; [reflexivity|].
  unfold slice. destruct (drop (Z.to_nat p) m) as [|x r] eqn:Hd.
  - apply (f_equal length) in Hd. rewrite length_drop in Hd. cbn in Hd. lia.
  - apply (Forall_drop _ (Z.to_nat p)) in Hm. rewrite Hd in Hm. by apply Forall_cons in Hm as [Hx _].
Qed.

Lemma load16_some m p : bytes m → 0 <= p → p + 2 <= Z.of_nat (length m) → ∃ x, load16 m p = Some x.
Proof. intros Hm H0 H1. unfold load16. rewrite load_ok by lia. eauto. Qed.

Lemma load_some m p n : 0 <= p → 0 <= n → p + n <= Z.of_nat (length m) → ∃ b, load m p n = Some b ∧ Z.of_nat (length b) = n.
Proof. intros H0 H1 H2. rewrite load_ok by lia. eexists. split; [done|]. rewrite length_slice; lia. Qed.

Lemma equal_at_some m p b : 0 <= p → p + Z.of_nat (length b) <= Z.of_nat (length m) → ∃ r, equal_at m p b = Some r.
Proof. intros H0 H1. rewrite equal_at_ok by done. eauto. Qed.

Lemma move_at_some dst m p n :
  0 <= p → 0 <= n → p + n <= Z.of_nat (length m) → n <= Z.of_nat (length dst) →
  ∃ a, move_at dst m p n = Some a ∧ length a = length dst.
Proof.
  intros H0 H1 H2 H3. unfold move_at. destruct (load_some m p n) as (b & -> & Hb); [done..|]. rewrite Some_bind.
  rewrite store_ok by lia. eexists. split; [done|]. by rewrite length_put.
Qed.

(** An invariant of a walk over any bytes: [P] holds at the elements it gets to, [Q]
    of the result. *)
Lemma walk_inv {S} m MsgLen (body : Z → Z → Z → S → option (S * bool)) (P : Z → S → Prop) (Q : S → Prop) :
  bytes m → MsgLen + 2 <= Z.of_nat (length m) →
  (∀ p Eid L s, 0 <= p → p + 2 + L <= MsgLen → 0 <= L < 256 → load8 m p = Some Eid → load8 m (p + 1) = Some L → P p s →
    ∃ s' go, body p Eid L s = Some (s', go) ∧ if (go : bool) then P (p + 2 + L) s' else Q s') →
  (∀ p s, P p s → Q s) →
  ∀ fuel p s, 0 <= p → p + 2 <= Z.of_nat (length m) → MsgLen - p <= Z.of_nat fuel → P p s →
  ∃ s', walk fuel m MsgLen body p s = Some s' ∧ Q s'.
Proof.
  intros Hm Hl Hbody HQ. induction fuel as [|fuel IH]; intros p s H0 Hp Hf HP; cbn [walk];
    (destruct (load8_some m (p + 1)) as (L & HL & HLb); [done|lia|]); rewrite HL, Some_bind;
    (destruct (Z.leb_spec (p + 2 + L) MsgLen) as [Hle|]; cbn [negb]; [|by eauto]).
  - lia.
  - destruct (load8_some m p) as (Eid & HE & _); [done|lia|]. rewrite HE, Some_bind.
    destruct (Hbody p Eid L s) as (s' & go & -> & Hgo); [done..|]. rewrite Some_bind. destruct go; [|by eauto].
    apply IH; [lia..|done].
Qed.

(** A walk over well-formed elements meets each of them, in their order; [I] holds of
    those it has seen. *)
Lemma walk_elements {S} m a l tail fuel (body : Z → Z → Z → S → option (S * bool)) (I : list element → S → Prop) s :
  m = a ++ elements_bytes l ++ tail → (2 <= length tail)%nat → bytes tail → Forall (λ x, (length x.2 <= 255)%nat) l →
  (length (elements_bytes l) <= fuel)%nat →
  (∀ seen x rest s, l = seen ++ x :: rest → I seen s →
    ∃ s', body (Z.of_nat (length (a ++ elements_bytes seen))) x.1 (Z.of_nat (length x.2)) s = Some (s', true) ∧ I (seen ++ [x]) s') →
  I [] s →
  ∃ s', walk fuel m (Z.of_nat (length (a ++ elements_bytes l))) body (Z.of_nat (length a)) s = Some s' ∧ I l s'.
Proof.
  intros Hm Ht Hb Hl Hf Hbody HI.
  assert (∀ rest seen s fuel, l = seen ++ rest → (length (elements_bytes rest) <= fuel)%nat → I seen s →
    ∃ s', walk fuel m (Z.of_nat (length (a ++ elements_bytes l))) body (Z.of_nat (length (a ++ elements_bytes seen))) s = Some s' ∧ I l s') as H.
  2: { destruct (H l [] s fuel) as (s' & Hs & HI'); [done..|]. exists s'. split; [|done]. revert Hs. unfold elements_bytes at 2. cbn [fmap list_fmap concat]. by rewrite app_nil_r. }
  clear s fuel Hf HI. induction rest as [|x rest IH]; intros seen s fuel Hseen Hf HI.
  - rewrite app_nil_r in Hseen. subst seen. destruct fuel as [|fuel]; cbn [walk];
      (destruct tail as [|t0 [|t1 tail]]; cbn [length] in Ht; [lia..|]);
      apply Forall_cons in Hb as [_ Hb]; apply Forall_cons in Hb as [Hb _];
      rewrite (load8_at m (_ + 1) (a ++ elements_bytes l ++ [t0]) t1 tail ltac:(by rewrite Hm, <- !app_assoc)), Some_bind by (rewrite !length_app; cbn [length]; lia);
      unfold fits in Hb; rewrite (proj2 (Z.leb_gt _ _)) by lia; cbn [negb]; eauto.
  - assert (m = (a ++ elements_bytes seen) ++ x.1 :: Z.of_nat (length x.2) :: x.2 ++ elements_bytes rest ++ tail) as Hmx.
    { rewrite Hm, Hseen. unfold elements_bytes. rewrite fmap_app, concat_app, fmap_cons. cbn [concat]. unfold element_bytes at 2.
      by rewrite <- !app_assoc. }
    rewrite elements_cons, length_app, length_element in Hf. destruct fuel as [|fuel]; [lia|]. cbn [walk].
    rewrite (load8_at m (_ + 1) ((a ++ elements_bytes seen) ++ [x.1]) _ _ ltac:(by rewrite Hmx, <- !app_assoc)), Some_bind by (rewrite (length_app _ [_]); cbn [length]; lia).
    rewrite (proj2 (Z.leb_le _ _)); cbn [negb].
    2: { rewrite Hseen. unfold elements_bytes. rewrite !length_app, fmap_app, concat_app, length_app, fmap_cons. cbn [concat]. rewrite length_app, length_element. lia. }
    rewrite (load8_at m _ (a ++ elements_bytes seen) _ _ Hmx), Some_bind by done.
    destruct (Hbody seen x rest s Hseen HI) as (s' & -> & HI'). rewrite Some_bind.
    destruct (IH (seen ++ [x]) s' fuel) as (s'' & Hs & HI''); [by rewrite Hseen, <- app_assoc|lia|done|]. exists s''. split; [|done].
    rewrite <- Hs. f_equal. unfold elements_bytes. rewrite fmap_app, concat_app. cbn [fmap list_fmap concat]. rewrite app_nil_r, !length_app, length_element. lia.
Qed.

(** ** The traffic indication map *)

(** The bit of a station in the virtual bitmap of IEEE 802.11, of which the element
    has the bytes from [ctrl & 0xfe] on. *)
Definition traffic (ctrl : Z) (bitmap : list Z) (Aid : Z) : bool :=
  let n := Aid / 8 - (ctrl & 0xfe) in
  (0 <=? n) && match bitmap !! Z.to_nat n with Some o => Z.testbit o (Aid mod 8) | None => false end.

Lemma single_bit o k : 0 <= k → negb (o & Z.shiftl 1 k =? 0) = Z.testbit o k.
Proof.
  intros Hk. rewrite Z.shiftl_1_l. destruct (Z.testbit o k) eqn:Hb.
  - apply negb_true_iff, Z.eqb_neq. intros H. apply (f_equal (λ x, Z.testbit x k)) in H.
    by rewrite Z.land_spec, Hb, Z.pow2_bits_true, Z.bits_0 in H by lia.
  - apply negb_false_iff, Z.eqb_eq. apply Z.bits_inj'. intros i Hi. rewrite Z.land_spec, Z.bits_0.
    destruct (decide (i = k)) as [->|Hne]; [by rewrite Hb|]. by rewrite Z.pow2_bits_false, andb_false_r by lia.
Qed.

Lemma even_part c : 0 <= c < 256 → 0 <= c & 0xfe < 256 ∧ (c & 0xfe) mod 2 = 0.
Proof.
  intros Hc. split; [apply (fits_land_r 8); unfold fits; lia|].
  rewrite <- (Z.land_ones _ 1) by lia. rewrite <- Z.land_assoc. by rewrite Z.land_0_r.
Qed.

(** The bit inside a byte, as the code computes it from half words. *)
Lemma bit_in_byte Aid N1 : N1 mod 2 = 0 → 0 <= Aid →
  Aid mod 16 - (if (Aid / 8 - N1) & 1 =? 0 then 0 else 8) = Aid mod 8.
Proof.
  intros HN H0. change 1 with (Z.ones 1). rewrite Z.land_ones by lia. change (2 ^ 1) with 2.
  assert ((Aid / 8 - N1) mod 2 = Aid / 8 mod 2) as ->.
  { rewrite Zminus_mod, HN, Z.sub_0_r, Z.mod_mod by lia. done. }
  pose proof (Z.mod_pos_bound (Aid / 8) 2).
  change 16 with (8 * 2). rewrite Z.rem_mul_r by lia. destruct (Z.eqb_spec (Aid / 8 mod 2) 0); lia.
Qed.

(** C30: A station learns from a TIM element what IEEE 802.11 says: whether frames for
    it, and whether group frames, wait at the access point. *)
Theorem GetTimBit_spec m a count period ctrl bitmap c Aid :
  m = a ++ element_bytes (IE_TIM, [count; period; ctrl] ++ bitmap) ++ c →
  0 <= ctrl < 256 → (1 <= length bitmap)%nat → (ctrl & 0xfe) + Z.of_nat (length bitmap) <= 256 → 0 <= Aid →
  GetTimBit m (Z.of_nat (length a)) Aid =
    Some {| TimLen := 3 + Z.of_nat (length bitmap); BcastFlag := (count =? 0) && Z.testbit ctrl 0;
            DtimCount := count; DtimPeriod := period; MessageToMe := traffic ctrl bitmap Aid |}.
Proof.
  intros Hm Hc Hb Hn HA. cbn [element_bytes fst snd app] in Hm. unfold element_bytes in Hm. cbn [fst snd app length] in Hm.
  pose proof (even_part ctrl Hc) as [HN He]. set (N1 := ctrl & 0xfe) in *. unfold GetTimBit.
  set (L := Z.of_nat (S (S (S (length bitmap))))) in Hm.
  rewrite (load8_at m (_ + 1) (a ++ [IE_TIM]) L _ ltac:(by rewrite Hm, <- !app_assoc)), Some_bind by (rewrite length_app; cbn [length]; lia).
  rewrite (load8_at m (_ + 2) (a ++ [IE_TIM; L]) count _ ltac:(by rewrite Hm, <- !app_assoc)), Some_bind by (rewrite length_app; cbn [length]; lia).
  rewrite (load8_at m (_ + 3) (a ++ [IE_TIM; L; count]) period _ ltac:(by rewrite Hm, <- !app_assoc)), Some_bind by (rewrite length_app; cbn [length]; lia).
  rewrite (load8_at m (_ + 4) (a ++ [IE_TIM; L; count; period]) ctrl _ ltac:(by rewrite Hm, <- !app_assoc)), Some_bind by (rewrite length_app; cbn [length]; lia).
  fold N1. rewrite (single_bit ctrl 0 : _ → negb (ctrl & 1 =? 0) = _) by lia.
  rewrite !Z.shiftl_mul_pow2, Z.shiftr_div_pow2 by lia. change (2 ^ 3) with 8.
  assert (u8 (L - 4 + N1) = Z.of_nat (length bitmap) - 1 + N1) as ->. { unfold u8. rewrite Z.mod_small; lia. }
  replace L with (3 + Z.of_nat (length bitmap)) by lia. unfold traffic. fold N1.
  pose proof (Z.div_mod Aid 8 ltac:(lia)) as Hd. pose proof (Z.mod_pos_bound Aid 8 ltac:(lia)) as Hr.
  destruct (Z.ltb_spec Aid (N1 * 8)) as [Hlo|Hlo]; cbn [orb].
  { by rewrite (proj2 (Z.leb_gt 0 _)) by lia. }
  rewrite (proj2 (Z.leb_le 0 _)) by lia. cbn [andb]. destruct (Z.leb_spec ((Z.of_nat (length bitmap) - 1 + N1 + 1) * 8) Aid) as [Hhi|Hhi].
  { by rewrite lookup_ge_None_2 by lia. }
  assert (u8 (Aid / 8 - N1) = Aid / 8 - N1) as ->. { unfold u8. rewrite Z.mod_small; lia. }
  rewrite bit_in_byte by done. assert (u8 (Aid mod 8) = Aid mod 8) as ->. { unfold u8. rewrite Z.mod_small; lia. }
  destruct (lookup_lt_is_Some_2 bitmap (Z.to_nat (Aid / 8 - N1))) as [o Ho]; [lia|]. rewrite Ho.
  rewrite <- (take_drop_middle bitmap _ o Ho) in Hm.
  rewrite (load8_at m _ (a ++ [IE_TIM; L; count; period; ctrl] ++ take (Z.to_nat (Aid / 8 - N1)) bitmap) o
    (drop (S (Z.to_nat (Aid / 8 - N1))) bitmap ++ c)), Some_bind; [|by rewrite Hm, <- !app_assoc|].
  - by rewrite single_bit by lia.
  - rewrite !length_app, length_take. cbn [length]. lia.
Qed.

(** ** The answer to an association request *)

(** The arrays of the caller, and the lengths that go with them. *)
Record ies_ok (s : assoc_ies) : Prop := {
  xo_rates : length (x_ExtRate s).1 = 12%nat ∧ 0 <= (x_ExtRate s).2 <= 12;
  xo_ht : length (x_HtCapability s).1 = 26%nat ∧ (x_HtCapability s).2 ∈ [0; 26];
  xo_add : length (x_AddHtInfo s).1 = 22%nat ∧ (x_AddHtInfo s).2 ∈ [0; 22];
  xo_edca : length (parm (x_EdcaParm s)) = edca_size;
}.

Lemma length_set_ac parm aci a b c d e : length (set_ac parm aci a b c d e) = length parm.
Proof. unfold set_ac. by rewrite length_put, !length_insert. Qed.

Lemma wme_header_some m p parm :
  bytes m → 0 <= p → p + 9 <= Z.of_nat (length m) →
  ∃ parm', wme_header m p parm = Some parm' ∧ length parm' = length parm.
Proof.
  intros Hm H0 H1. unfold wme_header, Octet. destruct (load8_some m (p + 2 + 6)) as (o & -> & _); [done|lia|].
  rewrite Some_bind. eexists. split; [done|]. by rewrite !length_insert.
Qed.

Lemma wme_parameters_some m p e :
  bytes m → 0 <= p → p + 26 <= Z.of_nat (length m) →
  ∃ e', wme_parameters m p e = Some e' ∧ length (parm e') = length (parm e).
Proof.
  intros Hm H0 H1. unfold wme_parameters. destruct (wme_header_some m p (parm e)) as (parm1 & -> & Hl); [done|lia..|].
  rewrite Some_bind. edestruct (loop_opt_inv_at (λ _ (l : list Z), length l = length (parm e))) as (parm2 & Hp & Hl2).
  3: { cbv beta in Hl2. rewrite Hp, Some_bind. eexists. split; [done|]. exact Hl2. }
  - done.
  - intros i s Hi Hs. cbv beta in *. destruct (load_some m (p + 2 + 8 + 4 * Z.of_nat i) 4) as (q & -> & _); [lia..|].
    rewrite Some_bind. eexists. split; [done|]. by rewrite length_set_ac.
Qed.

Lemma wme_information_some m p e :
  bytes m → 0 <= p → p + 9 <= Z.of_nat (length m) →
  ∃ e', wme_information m p e = Some e' ∧ length (parm e') = length (parm e).
Proof.
  intros Hm H0 H1. unfold wme_information. destruct (wme_header_some m p (parm e)) as (parm1 & -> & Hl); [done|lia..|].
  rewrite Some_bind. eexists. split; [done|]. cbn [parm]. by rewrite !length_set_ac.
Qed.

Lemma Octet_some m p i : bytes m → 0 <= p → 0 <= i → p + 3 + i <= Z.of_nat (length m) → ∃ o, Octet m p i = Some o ∧ 0 <= o < 256.
Proof. intros. unfold Octet. apply load8_some; [done|lia]. Qed.

Lemma assoc_element_ok m p Eid L s :
  bytes m → 0 <= p → 0 <= L → p + 2 + L + 6 <= Z.of_nat (length m) → ies_ok s →
  ∃ s', assoc_element m p Eid L s = Some s' ∧ ies_ok s'.
Proof.
  intros Hm H0 HL Hp [[Hr Hrl] [Hh Hhl] [Ha Hal] He]. unfold assoc_element, MAX_LEN_OF_SUPPORTED_RATES, SIZE_HT_CAP_IE, SIZE_ADD_HT_INFO_IE.
  repeat case_match; rewrite ?andb_true_iff, ?Z.leb_le, ?Z.eqb_eq in *;
    try (destruct (move_at_some (x_ExtRate s).1 m (p + 2) L) as (a & -> & Hla); [lia..|]; rewrite Some_bind);
    try (destruct (move_at_some (x_HtCapability s).1 m (p + 2) 26) as (a & -> & Hla); [lia..|]; rewrite Some_bind);
    try (destruct (move_at_some (x_AddHtInfo s).1 m (p + 2) 22) as (a & -> & Hla); [lia..|]; rewrite Some_bind);
    try (destruct (Octet_some m p 0) as (o & -> & _); [done|lia..|]; rewrite Some_bind);
    try (eexists; split; [reflexivity|]; split; cbn; rewrite ?Hla, ?Hr, ?Hh, ?Ha; first [done|by repeat constructor]); try (by exists s).
  destruct (equal_at_some m (p + 2) WME_PARM_ELEM) as (w & ->); [lia|cbn [length WME_PARM_ELEM]; lia|]. rewrite Some_bind.
  destruct (w && (L =? 24)) eqn:Hw; [|by exists s]. apply andb_true_iff in Hw as [_ Hw%Z.eqb_eq].
  destruct (wme_parameters_some m p (x_EdcaParm s)) as (e & -> & Hle); [done|lia..|]. rewrite Some_bind.
  eexists. split; [reflexivity|]. split; cbn; by rewrite ?Hle.
Qed.

Definition assoc_ok (r : assoc_rsp) : Prop := length (r_SupRate r).1 = 12%nat ∧ ies_ok (r_ies r).

(** Whatever the access point answers, the parser returns without leaving an array
    of the caller or the queue behind the message, and with TRUE the lengths it
    reports are inside the arrays. *)
Lemma PeerAssocRspSanity_ok old m MsgLen :
  assoc_ok old → bytes m → MsgLen + 8 <= Z.of_nat (length m) → 46 <= Z.of_nat (length m) →
  ∃ ok r, PeerAssocRspSanity old m MsgLen = Some (ok, r) ∧ assoc_ok r ∧
    (ok = true → r_Status r = MLME_SUCCESS → 0 <= (r_SupRate r).2 <= 12).
Proof.
  intros [Ho Hi] Hm Hl Hl'. unfold PeerAssocRspSanity, LENGTH_802_11.
  destruct (load_some m 10 6) as (addr & -> & _); [lia..|]. rewrite Some_bind.
  destruct (load16_some m 24) as (cap & ->); [done|lia..|]. rewrite Some_bind.
  destruct (load16_some m (24 + 2)) as (st & ->); [done|lia..|]. rewrite Some_bind.
  assert (ies_ok {| x_ExtRate := ((x_ExtRate (r_ies old)).1, 0); x_HtCapability := ((x_HtCapability (r_ies old)).1, 0);
    x_AddHtInfo := ((x_AddHtInfo (r_ies old)).1, 0); x_NewExtChannelOffset := 0xff;
    x_EdcaParm := {| bValid := false; parm := parm (x_EdcaParm (r_ies old)) |}; x_ExtCapInfo := x_ExtCapInfo (r_ies old) |}) as Hx.
  { destruct Hi as [[? ?] [? ?] [? ?] ?]. split; cbn; rewrite ?elem_of_cons; auto with lia. }
  revert Hx. generalize ({| x_ExtRate := ((x_ExtRate (r_ies old)).1, 0); x_HtCapability := ((x_HtCapability (r_ies old)).1, 0);
    x_AddHtInfo := ((x_AddHtInfo (r_ies old)).1, 0); x_NewExtChannelOffset := 0xff;
    x_EdcaParm := {| bValid := false; parm := parm (x_EdcaParm (r_ies old)) |}; x_ExtCapInfo := x_ExtCapInfo (r_ies old) |}) as x. intros x Hx.
  destruct (Z.eqb_spec st MLME_SUCCESS) as [Hst|Hst]; cbn [negb].
  2: { eexists _, _. split; [done|]. split; [by split|]. by intros _ ?. }
  destruct (load16_some m (24 + 4)) as (aid & ->); [done|lia..|]. rewrite Some_bind.
  destruct (load8_some m (24 + 6)) as (ie & -> & _); [done|lia|]. rewrite Some_bind.
  destruct (load8_some m (24 + 7)) as (n & -> & Hn); [done|lia|]. rewrite Some_bind. unfold MAX_LEN_OF_SUPPORTED_RATES.
  destruct (negb (ie =? IE_SUPP_RATES) || (12 <? n)) eqn:Hbad.
  { eexists _, _. split; [done|]. by split. }
  apply orb_false_iff in Hbad as [_ Hle%Z.ltb_ge].
  destruct (move_at_some (r_SupRate old).1 m (24 + 8) n) as (rates & -> & Hlr); [lia..|]. rewrite Some_bind.
  edestruct (walk_inv m MsgLen (λ p Eid L x, x ← assoc_element m p Eid L x; Some (x, true)) (λ _, ies_ok) ies_ok Hm) with
    (fuel := Z.to_nat MsgLen) (p := 24 + 6 + 2 + n) (s := x) as (x' & Hw & Hx'); [lia| |done|lia..|done|].
  - intros p Eid L s Hp HpL HL _ _ Hs. destruct (assoc_element_ok m p Eid L s) as (s' & Hs' & Hok); [done|lia..|done|].
    exists s', true. by rewrite Hs', Some_bind.
  - rewrite Hw, Some_bind. eexists _, _. split; [done|]. split; [split; [by rewrite <- Ho|done]|]. cbn. lia.
Qed.

(** ** Probe requests *)

Lemma probe_req_loop_ok m MsgLen fuel : ∀ eid eid_len eid_data,
  bytes m → MsgLen + 2 <= Z.of_nat (length m) → LENGTH_802_11 <= eid_data → 0 <= eid_len → MsgLen - eid_data < Z.of_nat fuel →
  probe_req_loop fuel m MsgLen eid eid_len eid_data (eid_data + eid_len - LENGTH_802_11) = Some ().
Proof.
  unfold LENGTH_802_11. induction fuel as [|fuel IH]; intros eid eid_len eid_data Hm Hl Hd Hn Hf; cbn [probe_req_loop];
    (destruct (Z.leb_spec (eid_data + eid_len) MsgLen); cbn [negb]; [|done]); [lia|]. unfold LENGTH_802_11.
  assert (∃ r, (if (eid =? IE_VENDOR_SPECIFIC) && (4 <? eid_len) then equal_at m eid_data WPS_OUI else Some false) = Some r) as [r ->].
  { destruct (_ && _) eqn:H4; [|eauto]. apply andb_true_iff in H4 as [_ H4%Z.ltb_lt]. apply equal_at_some; [lia|]. cbn [length WPS_OUI]. lia. }
  rewrite Some_bind. replace (24 + (eid_data + eid_len - 24)) with (eid_data + eid_len) by lia.
  destruct (load8_some m (eid_data + eid_len)) as (e & -> & _); [done|lia|]. rewrite Some_bind.
  destruct (load8_some m (eid_data + eid_len + 1)) as (n & -> & Hb); [done|lia|]. rewrite Some_bind.
  replace (eid_data + eid_len - 24 + (n + 2)) with ((eid_data + eid_len + 2) + n - 24) by lia.
  apply IH; [done|done|lia..].
Qed.

(** Any probe request is read inside the queue; its SSID has at most 32 bytes. *)
Lemma PeerProbeReqSanity_ok Ssid m MsgLen :
  bytes m → length Ssid = MAX_LEN_OF_SSID → MsgLen + 2 <= Z.of_nat (length m) → 58 <= Z.of_nat (length m) →
  ∃ ok addr ssid len, PeerProbeReqSanity Ssid m MsgLen = Some (ok, (addr, (ssid, len))) ∧ length ssid = MAX_LEN_OF_SSID ∧ 0 <= len <= 32.
Proof.
  intros Hm Hs Hl Hl'. unfold PeerProbeReqSanity, LENGTH_802_11. destruct (load_some m 10 6) as (addr & -> & _); [lia..|]. rewrite Some_bind.
  destruct (load8_some m 24) as (e & -> & _); [done|lia|]. rewrite Some_bind.
  destruct (load8_some m (24 + 1)) as (n & -> & Hb); [done|lia|]. rewrite Some_bind. unfold MAX_LEN_OF_SSID in *.
  destruct (negb (e =? IE_SSID) || (Z.of_nat 32 <? n)) eqn:Hbad; [by eexists _, _, _, _|]. apply orb_false_iff in Hbad as [_ Hle%Z.ltb_ge].
  destruct (move_at_some Ssid m (24 + 2) n) as (ssid & -> & Hls); [lia..|]. rewrite Some_bind.
  replace (n + 2) with ((24 + 2) + n - LENGTH_802_11) by (unfold LENGTH_802_11; lia).
  destruct (Z.leb_spec (24 + 2 + n) MsgLen).
  - rewrite probe_req_loop_ok, Some_bind by (unfold LENGTH_802_11; first [done|lia]). eexists _, _, _, _. split; [done|]. lia.
  - assert (∀ fuel t, probe_req_loop fuel m MsgLen e n (24 + 2) t = Some ()) as ->.
    { intros [|fuel] t; cbn [probe_req_loop]; by rewrite (proj2 (Z.leb_gt _ _)) by lia. }
    rewrite Some_bind. eexists _, _, _, _. split; [done|]. lia.
Qed.

(** ** Weaknesses *)

(** The challenge text of a shared-key authentication is copied out of the frame
    whatever its length: from a frame that ends behind its status the station takes
    the 128 bytes that follow in the queue, and sends them back encrypted. *)
Lemma challenge_read_behind frame behind text :
  length frame = 30%nat → load16 frame 24 = Some AUTH_MODE_KEY → load16 frame 26 = Some 2 →
  (130 <= length behind)%nat → length text = 128%nat →
  ∃ f, PeerAuthSanity (frame ++ behind) text = Some (true, f) ∧ f_ChlgText f = slice behind 2 128.
Proof.
  intros Hf Ha Hq Hb Ht. unfold PeerAuthSanity, LENGTH_802_11.
  assert (∀ p n, 0 <= p → 0 <= n → p + n <= 30 → load (frame ++ behind) p n = load frame p n) as Hload.
  { intros p n H0 H1 H2. rewrite !load_ok by (rewrite ?length_app; lia). by rewrite slice_app_l by lia. }
  unfold load16 in *. rewrite !Hload by lia. rewrite (load_ok frame 10), Some_bind by lia.
  rewrite Ha, Some_bind. change (24 + 2) with 26. rewrite Hq, Some_bind, (load_ok frame (24 + 4)), !Some_bind by lia. cbn [Z.eqb AUTH_MODE_OPEN AUTH_MODE_KEY orb].
  unfold move_at. change CIPHER_TEXT_LEN with 128. rewrite load_ok, Some_bind by (rewrite ?length_app; lia).
  assert (slice (frame ++ behind) (Z.to_nat (24 + 8)) (Z.to_nat 128) = slice behind 2 128) as ->.
  { replace (Z.to_nat (24 + 8)) with (length frame + 2)%nat by lia. apply slice_app_r. }
  rewrite store_ok, Some_bind by (rewrite ?length_slice; lia). eexists. split; [done|]. cbn [f_ChlgText].
  rewrite put_splice by (rewrite ?length_slice; lia). rewrite length_slice, drop_ge by lia. cbn [take app]. by rewrite app_nil_r.
Qed.

(** [SsidLen] of a scan request is not checked, unlike that of a start request. *)
Lemma scan_request_overrun Ssid InfoSsid n type scan :
  length InfoSsid = 32%nat → 32 < n → MlmeScanReqSanity Ssid InfoSsid n type scan = None.
Proof.
  intros Hi Hn. unfold MlmeScanReqSanity, move_at, load. rewrite Hi.
  rewrite (proj2 (Z.leb_gt (0 + n) _)) by lia. by rewrite andb_false_r.
Qed.

(** The second loop of [NetworkTypeInUseSanity] is meant for the extended rates and
    reads the supported ones again: four basic rates of 802.11b and any extended
    rates make an 802.11b network. *)
Lemma extended_rates_ignored b :
  Channel b <= 14 → HtCapabilityLen b = 0 → take 4 (SupRate b) = [0x82; 0x84; 0x8b; 0x96] → SupRateLen b = 4 → ExtRateLen b = 4 →
  NetworkTypeInUseSanity b = Some Ndis802_11DS.
Proof.
  intros Hc Hh Hr Hs He. unfold NetworkTypeInUseSanity. rewrite (proj2 (Z.leb_le _ _) Hc), Hs, He, Hh.
  destruct (SupRate b) as [|r0 [|r1 [|r2 [|r3 r]]]]; try done. by injection Hr as -> -> -> ->.
Qed.

Module Sample.
(** Station 13 has frames waiting: bit 5 of byte 1 of the bitmap. *)
Definition beacon_tim : list Z := element_bytes (IE_TIM, [0; 3; 1] ++ [0; 0x20]).

Lemma GetTimBit_spec_witness :
  GetTimBit beacon_tim (Z.of_nat (length (@nil Z))) 13 =
    Some {| TimLen := 5; BcastFlag := true; DtimCount := 0; DtimPeriod := 3; MessageToMe := true |}.
Proof.
  refine (GetTimBit_spec beacon_tim [] 0 3 1 [0; 0x20] [] 13 _ _ _ _ _); [reflexivity|lia|cbn; lia|vm_compute; discriminate|lia].
Defined.
End Sample.
