(* ===== verification/Beacon.v ===== *)
(** * Beacons and probe responses

    Models [PeerBeaconAndProbeRspSanity] of
    [linux/Arch/rt5370.driver/common/cmm_sanity.c], the parser of beacons and
    probe responses, and [PeerBeaconAtScanAction] of [sta/sync.c], which hands
    what it finds to the scan table of [BssTable].

    The theorems: no frame makes the parser leave an array, unless it holds a
    malformed element of Wi-Fi Protected Setup or is longer than 1060 bytes; and
    a scanned frame of well-formed elements makes the step of the scan table that
    belongs to its header, SSID, channel and elements.

    [NATIVE_WPA_SUPPLICANT_SUPPORT] is on.  Left out of [PeerBeaconAtScanAction]
    are the time stamps, [MinSNR] and [MacAddr] it puts into the entry and the
    table of 20/40 coexistence; the signal strength is an argument. *)

From stdpp Require Import base list numbers list_numbers.
From Stdlib Require Import ZArith Lia.
From S2P Require Import Prelude Mlme WpaData EapolMsg EapolRecv RsnIe BssEntry BssTable Sanity.

Definition RALINK_OUI : list Z := [0x00; 0x0c; 0x43].
Definition PRE_N_HT_OUI : list Z := [0x00; 0x90; 0x4c].
Definition CISCO_OUI : list Z := [0x00; 0x40; 0x96].
Definition OUI_PREN_HT_CAP : Z := 51.
Definition OUI_PREN_ADD_HT : Z := 52.
Definition CKIP_NEGOTIATION_LENGTH : Z := 30.
Definition TIMESTAMP_LEN : Z := 8.

Definition CAP_IS_ESS_ON (x : Z) : bool := negb (x & 0x0001 =? 0).

(** ** State *)

(** What the parser reads of the adapter. *)
Record rx_cfg := {
  LatchRfChannel : Z;
  rx_ChannelList : list Z;
  rx_INFRA_ON : bool;
  Common_Bssid : list Z;
  StaActive_Aid : Z;
}.

(** The outputs taken from the fixed part of a frame. *)
Record fixed_part := {
  h_SubType : Z;
  h_Addr2 : list Z;
  h_Bssid : list Z;
  h_Timestamp : list Z;
  h_BeaconPeriod : Z;
  h_CapabilityInfo : Z;
  h_BssType : Z;
}.

(** The outputs taken from elements; [b_ies] are those an association response has,
    too, [b_Tim] the four of the traffic indication map.  An array and the length
    that goes with it are a pair. *)
Record beacon_info := {
  b_Ssid : list Z * Z;
  b_Channel : Z;
  b_NewChannel : Z;
  b_CfParm : CF_PARM;
  b_AtimWin : Z;
  b_Erp : Z;
  b_Tim : tim;
  b_SupRate : list Z * Z;
  b_CkipFlag : Z;
  b_AironetCellPowerLimit : Z;
  b_QbssLoad : qos_parm;
  b_QosCapability : qos_parm;
  b_RalinkIe : Z;
  b_PreNHtCapabilityLen : Z;
  b_SelReg : Z;
  b_ies : assoc_ies;
  b_VIE : list Z * Z;
}.

(** The way out of the loop over the elements: its end, [goto SanityCheck] or
    [return FALSE]. *)
Inductive exit := EndOfLoop | SanityCheck | ReturnFalse.

(** Local variables; [p_PeerWscIe] is [None] when its allocation failed. *)
Record progress := {
  p_Sanity : Z;
  p_CtrlChannel : Z;
  p_PeerWscIe : option (list Z);
  p_PeerWscIeLen : Z;
  p_bWscCheck : bool;
  p_exit : exit;
}.

(** Assignments to one field. *)
Definition put_Ssid (s : beacon_info) v := Build_beacon_info v (b_Channel s) (b_NewChannel s) (b_CfParm s) (b_AtimWin s) (b_Erp s) (b_Tim s) (b_SupRate s) (b_CkipFlag s) (b_AironetCellPowerLimit s) (b_QbssLoad s) (b_QosCapability s) (b_RalinkIe s) (b_PreNHtCapabilityLen s) (b_SelReg s) (b_ies s) (b_VIE s).
Definition put_Channel (s : beacon_info) v := Build_beacon_info (b_Ssid s) v (b_NewChannel s) (b_CfParm s) (b_AtimWin s) (b_Erp s) (b_Tim s) (b_SupRate s) (b_CkipFlag s) (b_AironetCellPowerLimit s) (b_QbssLoad s) (b_QosCapability s) (b_RalinkIe s) (b_PreNHtCapabilityLen s) (b_SelReg s) (b_ies s) (b_VIE s).
Definition put_NewChannel (s : beacon_info) v := Build_beacon_info (b_Ssid s) (b_Channel s) v (b_CfParm s) (b_AtimWin s) (b_Erp s) (b_Tim s) (b_SupRate s) (b_CkipFlag s) (b_AironetCellPowerLimit s) (b_QbssLoad s) (b_QosCapability s) (b_RalinkIe s) (b_PreNHtCapabilityLen s) (b_SelReg s) (b_ies s) (b_VIE s).
Definition put_CfParm (s : beacon_info) v := Build_beacon_info (b_Ssid s) (b_Channel s) (b_NewChannel s) v (b_AtimWin s) (b_Erp s) (b_Tim s) (b_SupRate s) (b_CkipFlag s) (b_AironetCellPowerLimit s) (b_QbssLoad s) (b_QosCapability s) (b_RalinkIe s) (b_PreNHtCapabilityLen s) (b_SelReg s) (b_ies s) (b_VIE s).
Definition put_AtimWin (s : beacon_info) v := Build_beacon_info (b_Ssid s) (b_Channel s) (b_NewChannel s) (b_CfParm s) v (b_Erp s) (b_Tim s) (b_SupRate s) (b_CkipFlag s) (b_AironetCellPowerLimit s) (b_QbssLoad s) (b_QosCapability s) (b_RalinkIe s) (b_PreNHtCapabilityLen s) (b_SelReg s) (b_ies s) (b_VIE s).
Definition put_Erp (s : beacon_info) v := Build_beacon_info (b_Ssid s) (b_Channel s) (b_NewChannel s) (b_CfParm s) (b_AtimWin s) v (b_Tim s) (b_SupRate s) (b_CkipFlag s) (b_AironetCellPowerLimit s) (b_QbssLoad s) (b_QosCapability s) (b_RalinkIe s) (b_PreNHtCapabilityLen s) (b_SelReg s) (b_ies s) (b_VIE s).
Definition put_Tim (s : beacon_info) v := Build_beacon_info (b_Ssid s) (b_Channel s) (b_NewChannel s) (b_CfParm s) (b_AtimWin s) (b_Erp s) v (b_SupRate s) (b_CkipFlag s) (b_AironetCellPowerLimit s) (b_QbssLoad s) (b_QosCapability s) (b_RalinkIe s) (b_PreNHtCapabilityLen s) (b_SelReg s) (b_ies s) (b_VIE s).
Definition put_SupRate (s : beacon_info) v := Build_beacon_info (b_Ssid s) (b_Channel s) (b_NewChannel s) (b_CfParm s) (b_AtimWin s) (b_Erp s) (b_Tim s) v (b_CkipFlag s) (b_AironetCellPowerLimit s) (b_QbssLoad s) (b_QosCapability s) (b_RalinkIe s) (b_PreNHtCapabilityLen s) (b_SelReg s) (b_ies s) (b_VIE s).
Definition put_CkipFlag (s : beacon_info) v := Build_beacon_info (b_Ssid s) (b_Channel s) (b_NewChannel s) (b_CfParm s) (b_AtimWin s) (b_Erp s) (b_Tim s) (b_SupRate s) v (b_AironetCellPowerLimit s) (b_QbssLoad s) (b_QosCapability s) (b_RalinkIe s) (b_PreNHtCapabilityLen s) (b_SelReg s) (b_ies s) (b_VIE s).
Definition put_AironetCellPowerLimit (s : beacon_info) v := Build_beacon_info (b_Ssid s) (b_Channel s) (b_NewChannel s) (b_CfParm s) (b_AtimWin s) (b_Erp s) (b_Tim s) (b_SupRate s) (b_CkipFlag s) v (b_QbssLoad s) (b_QosCapability s) (b_RalinkIe s) (b_PreNHtCapabilityLen s) (b_SelReg s) (b_ies s) (b_VIE s).
Definition put_QbssLoad (s : beacon_info) v := Build_beacon_info (b_Ssid s) (b_Channel s) (b_NewChannel s) (b_CfParm s) (b_AtimWin s) (b_Erp s) (b_Tim s) (b_SupRate s) (b_CkipFlag s) (b_AironetCellPowerLimit s) v (b_QosCapability s) (b_RalinkIe s) (b_PreNHtCapabilityLen s) (b_SelReg s) (b_ies s) (b_VIE s).
Definition put_RalinkIe (s : beacon_info) v := Build_beacon_info (b_Ssid s) (b_Channel s) (b_NewChannel s) (b_CfParm s) (b_AtimWin s) (b_Erp s) (b_Tim s) (b_SupRate s) (b_CkipFlag s) (b_AironetCellPowerLimit s) (b_QbssLoad s) (b_QosCapability s) v (b_PreNHtCapabilityLen s) (b_SelReg s) (b_ies s) (b_VIE s).
Definition put_PreNHtCapabilityLen (s : beacon_info) v := Build_beacon_info (b_Ssid s) (b_Channel s) (b_NewChannel s) (b_CfParm s) (b_AtimWin s) (b_Erp s) (b_Tim s) (b_SupRate s) (b_CkipFlag s) (b_AironetCellPowerLimit s) (b_QbssLoad s) (b_QosCapability s) (b_RalinkIe s) v (b_SelReg s) (b_ies s) (b_VIE s).
Definition put_SelReg (s : beacon_info) v := Build_beacon_info (b_Ssid s) (b_Channel s) (b_NewChannel s) (b_CfParm s) (b_AtimWin s) (b_Erp s) (b_Tim s) (b_SupRate s) (b_CkipFlag s) (b_AironetCellPowerLimit s) (b_QbssLoad s) (b_QosCapability s) (b_RalinkIe s) (b_PreNHtCapabilityLen s) v (b_ies s) (b_VIE s).
Definition put_ies (s : beacon_info) v := Build_beacon_info (b_Ssid s) (b_Channel s) (b_NewChannel s) (b_CfParm s) (b_AtimWin s) (b_Erp s) (b_Tim s) (b_SupRate s) (b_CkipFlag s) (b_AironetCellPowerLimit s) (b_QbssLoad s) (b_QosCapability s) (b_RalinkIe s) (b_PreNHtCapabilityLen s) (b_SelReg s) v (b_VIE s).
Definition put_VIE (s : beacon_info) v := Build_beacon_info (b_Ssid s) (b_Channel s) (b_NewChannel s) (b_CfParm s) (b_AtimWin s) (b_Erp s) (b_Tim s) (b_SupRate s) (b_CkipFlag s) (b_AironetCellPowerLimit s) (b_QbssLoad s) (b_QosCapability s) (b_RalinkIe s) (b_PreNHtCapabilityLen s) (b_SelReg s) (b_ies s) v.

Definition put_Sanity (s : progress) v := Build_progress v (p_CtrlChannel s) (p_PeerWscIe s) (p_PeerWscIeLen s) (p_bWscCheck s) (p_exit s).
Definition put_CtrlChannel (s : progress) v := Build_progress (p_Sanity s) v (p_PeerWscIe s) (p_PeerWscIeLen s) (p_bWscCheck s) (p_exit s).
Definition put_PeerWscIe (s : progress) v := Build_progress (p_Sanity s) (p_CtrlChannel s) v (p_PeerWscIeLen s) (p_bWscCheck s) (p_exit s).
Definition put_PeerWscIeLen (s : progress) v := Build_progress (p_Sanity s) (p_CtrlChannel s) (p_PeerWscIe s) v (p_bWscCheck s) (p_exit s).
Definition put_bWscCheck (s : progress) v := Build_progress (p_Sanity s) (p_CtrlChannel s) (p_PeerWscIe s) (p_PeerWscIeLen s) v (p_exit s).
Definition put_exit (s : progress) v := Build_progress (p_Sanity s) (p_CtrlChannel s) (p_PeerWscIe s) (p_PeerWscIeLen s) (p_bWscCheck s) v.

(** ** The elements *)

Definition state := (beacon_info * progress)%type.

(** [NdisMoveMemory(pVIE + *LengthVIE, pEid, pEid->Len + 2); *LengthVIE += ...] *)
Definition append_VIE (m : list Z) (p L : Z) (o : beacon_info) : option beacon_info :=
  x ← load m p (L + 2);
  vie ← store (b_VIE o).1 (b_VIE o).2 x;
  Some (put_VIE o (vie, u16 ((b_VIE o).2 + (L + 2)))).

(** The search for the attribute "selected registrar"; [pSelReg] points to one byte. *)
Fixpoint selected_registrar (fuel : nat) (m : list Z) (pData Len SelReg : Z) : option Z :=
  if negb (0 <? Len) then Some SelReg
  else
    match fuel with
    | O => None
    | S fuel =>
        ie ← load m pData 5;
        let Length := be_word (slice ie 2 2) in
        if be_word (take 2 ie) =? 0x1041
        then b ← move_at [SelReg] m (pData + 4) Length; Some b.[0]
        else selected_registrar fuel m (pData + (Length + 4)) (Len - (Length + 4)) SelReg
    end.

(** An element of Wi-Fi Protected Setup. *)
Definition wps_element (m : list Z) (SubType p L : Z) (s : state) : option state :=
  let '(o, l) := s in
  l ← match p_PeerWscIe l with
      | Some buf =>
          first ← Octet m p 4;
          if first =? 0x10 then
            d ← load m (p + 2 + 4) (L - 4);
            buf ← store buf 0 d;
            Some (put_PeerWscIeLen (put_PeerWscIe l (Some buf)) (L - 4))
          else if p_PeerWscIeLen l + (L - 4) <=? 512 then
            d ← load m (p + 2 + 4) (L - 4);
            buf ← store buf (p_PeerWscIeLen l) d;
            Some (put_PeerWscIeLen (put_PeerWscIe l (Some buf)) (p_PeerWscIeLen l + (L - 4)))
          else Some (put_bWscCheck l false)
      | None => Some (put_bWscCheck l false)
      end;
  if SubType =? SUBTYPE_BEACON
  then r ← selected_registrar 64 m (p + 2 + 4) (L - 4) (b_SelReg o); Some (put_SelReg o r, l)
  else Some (o, l).

(** [case IE_VENDOR_SPECIFIC] *)
Definition vendor_element (m : list Z) (SubType p L : Z) (s : state) : option state :=
  let '(o, l) := s in
  let x := b_ies o in
  ralink ← equal_at m (p + 2) RALINK_OUI;
  if ralink && (L =? 7) then
    t ← Octet m p 3; Some (put_RalinkIe o (if negb (t =? 0) then t else 0xf0000000), l)
  else
    pre_n ← (if (x_HtCapability x).2 =? 0 then equal_at m (p + 2) PRE_N_HT_OUI else Some false);
    if pre_n && (4 <=? L) then
      t ← Octet m p 3;
      o ← (if (t =? OUI_PREN_HT_CAP) && (30 <=? L)
           then a ← move_at (x_HtCapability x).1 m (p + 2 + 4) SIZE_HT_CAP_IE;
                Some (put_PreNHtCapabilityLen (put_ies o (set_HtCapability x (a, (x_HtCapability x).2))) SIZE_HT_CAP_IE)
           else Some o);
      o ← (if (t =? OUI_PREN_ADD_HT) && (26 <=? L)
           then a ← move_at (x_AddHtInfo x).1 m (p + 2 + 4) SIZE_ADD_HT_INFO_IE;
                Some (put_ies o (set_AddHtInfo (b_ies o) (a, SIZE_ADD_HT_INFO_IE)))
           else Some o);
      Some (o, l)
    else
      wpa ← equal_at m (p + 2) WPA_OUI;
      if (wpa : bool) then o ← append_VIE m p L o; Some (o, l)
      else
        wme ← equal_at m (p + 2) WME_PARM_ELEM;
        if wme && (L =? 24) then e ← wme_parameters m p (x_EdcaParm x); Some (put_ies o (set_EdcaParm x e), l)
        else
          info ← equal_at m (p + 2) WME_INFO_ELEM;
          if info && (L =? 7) then e ← wme_information m p (x_EdcaParm x); Some (put_ies o (set_EdcaParm x e), l)
          else
            wps ← equal_at m (p + 2) WPS_OUI;
            if (wps : bool) then wps_element m SubType p L s else Some s.

(** [Sanity |= bit] *)
Definition found (l : progress) (bit : Z) : progress := put_Sanity l (p_Sanity l .| bit).

(** [switch(pEid->Eid)] *)
Definition switch_element (cfg : rx_cfg) (hd : fixed_part) (m : list Z) (p Eid L : Z) (s : state) : option state :=
  let '(o, l) := s in
  let x := b_ies o in
  if Eid =? IE_SSID then
    if negb (p_Sanity l & 0x1 =? 0) then Some s
    else if L <=? Z.of_nat MAX_LEN_OF_SSID
    then a ← move_at (b_Ssid o).1 m (p + 2) L; Some (put_Ssid o (a, L), found l 0x1)
    else Some (o, put_exit l SanityCheck)
  else if Eid =? IE_SUPP_RATES then
    if L <=? MAX_LEN_OF_SUPPORTED_RATES
    then a ← move_at (b_SupRate o).1 m (p + 2) L; Some (put_SupRate o (a, L), found l 0x2)
    else Some (o, put_exit l SanityCheck)
  else if Eid =? IE_HT_CAP then
    if SIZE_HT_CAP_IE <=? L
    then a ← move_at (x_HtCapability x).1 m (p + 2) SIZE_HT_CAP_IE;
         o ← append_VIE m p L (put_PreNHtCapabilityLen (put_ies o (set_HtCapability x (a, SIZE_HT_CAP_IE))) 0);
         Some (o, l)
    else Some s
  else if Eid =? IE_ADD_HT then
    if SIZE_ADD_HT_INFO_IE <=? L
    then a ← move_at (x_AddHtInfo x).1 m (p + 2) SIZE_ADD_HT_INFO_IE;
         o ← append_VIE m p L (put_ies o (set_AddHtInfo x (a, SIZE_ADD_HT_INFO_IE)));
         Some (o, put_CtrlChannel l a.[0])
    else Some s
  else if Eid =? IE_SECONDARY_CH_OFFSET then
    if L =? 1 then t ← Octet m p 0; Some (put_ies o (set_NewExtChannelOffset x t), l) else Some s
  else if Eid =? IE_DS_PARM then
    if L =? 1
    then t ← Octet m p 0;
         Some (put_Channel o t, if ChannelSanity (rx_ChannelList cfg) t then found l 0x4 else put_exit l SanityCheck)
    else Some (o, put_exit l SanityCheck)
  else if Eid =? IE_CF_PARM then
    if L =? 6
    then q ← load m (p + 2) 6;
         Some (put_CfParm o {| cf_bValid := true; cf_CfpCount := q.[0]; cf_CfpPeriod := q.[1];
                               cf_CfpMaxDuration := q.[2] + 256 * q.[3]; cf_CfpDurRemaining := q.[4] + 256 * q.[5] |}, l)
    else Some (o, put_exit l ReturnFalse)
  else if Eid =? IE_IBSS_PARM then
    if L =? 2 then w ← load16 m (p + 2); Some (put_AtimWin o w, l) else Some (o, put_exit l ReturnFalse)
  else if Eid =? IE_TIM then
    if (h_SubType hd =? SUBTYPE_BEACON) && rx_INFRA_ON cfg && bool_decide (h_Bssid hd = Common_Bssid cfg)
    then t ← GetTimBit m p (StaActive_Aid cfg); Some (put_Tim o t, l) else Some s
  else if Eid =? IE_CHANNEL_SWITCH_ANNOUNCEMENT then
    if L =? 3 then t ← Octet m p 1; Some (put_NewChannel o t, l) else Some s
  else if Eid =? IE_VENDOR_SPECIFIC then vendor_element m (h_SubType hd) p L s
  else if Eid =? IE_EXT_SUPP_RATES then
    if L <=? MAX_LEN_OF_SUPPORTED_RATES
    then a ← move_at (x_ExtRate x).1 m (p + 2) L; Some (put_ies o (set_ExtRate x (a, L)), l) else Some s
  else if Eid =? IE_ERP then
    if L =? 1 then t ← Octet m p 0; Some (put_Erp o t, l) else Some s
  else if Eid =? IE_AIRONET_CKIP then
    if L <? CKIP_NEGOTIATION_LENGTH - 2 then Some s else t ← Octet m p 8; Some (put_CkipFlag o t, l)
  else if Eid =? IE_AP_TX_POWER then
    if negb (L =? 0x06) then Some s
    else
      cisco ← equal_at m (p + 2) CISCO_OUI;
      if (cisco : bool) then t ← Octet m p 4; Some (put_AironetCellPowerLimit o t, l) else Some s
  else if Eid =? IE_RSN then
    rsn ← equal_at m (p + 2 + 2) RSN_OUI;
    if (rsn : bool) then o ← append_VIE m p L o; Some (o, l) else Some s
  else if Eid =? IE_QBSS_LOAD then
    if L =? 5
    then q ← load m (p + 2) 5;
         o ← append_VIE m p L (put_QbssLoad o {| bValid := true; parm := [q.[0]; q.[1]; q.[2]; (parm (b_QbssLoad o)).[3]; q.[3]; q.[4]] |});
         Some (o, l)
    else Some s
  else if Eid =? IE_EXT_CAPABILITY then
    if 1 <=? L then t ← Octet m p 0; Some (put_ies o (set_ExtCapInfo x t), l) else Some s
  else Some s.

(** The body of the loop; it ends when [pVIE] has no room for the element. *)
Definition beacon_element (cfg : rx_cfg) (hd : fixed_part) (m : list Z) (p Eid L : Z) (s : state) : option (state * bool) :=
  if Z.of_nat MAX_VIE_LEN <=? (b_VIE s.1).2 + L + 2 then Some (s, false)
  else
    s ← switch_element cfg hd m p Eid L s;
    Some (s, match p_exit s.2 with EndOfLoop => true | _ => false end).

(** ** The parser *)

Definition read_fixed (m : list Z) : option fixed_part :=
  fc ← load8 m 0;
  Addr2 ← load m 10 6;
  Bssid ← load m 16 6;
  Timestamp ← load m LENGTH_802_11 TIMESTAMP_LEN;
  BeaconPeriod ← load16 m (LENGTH_802_11 + 8);
  CapabilityInfo ← load16 m (LENGTH_802_11 + 10);
  Some {| h_SubType := fc >> 4; h_Addr2 := Addr2; h_Bssid := Bssid; h_Timestamp := Timestamp;
          h_BeaconPeriod := BeaconPeriod; h_CapabilityInfo := CapabilityInfo;
          h_BssType := if CAP_IS_ESS_ON CapabilityInfo then BSS_INFRA else BSS_ADHOC |}.

(** The outputs when the loop starts; what is not set keeps its value. *)
Definition reset (old : beacon_info) : beacon_info :=
  let x := b_ies old in
  {| b_Ssid := b_Ssid old; b_Channel := b_Channel old; b_NewChannel := 0;
     b_CfParm := {| cf_bValid := false; cf_CfpCount := cf_CfpCount (b_CfParm old); cf_CfpPeriod := cf_CfpPeriod (b_CfParm old);
                    cf_CfpMaxDuration := cf_CfpMaxDuration (b_CfParm old); cf_CfpDurRemaining := cf_CfpDurRemaining (b_CfParm old) |};
     b_AtimWin := 0; b_Erp := 0;
     b_Tim := {| TimLen := 0; BcastFlag := false; DtimCount := 0; DtimPeriod := 0; MessageToMe := false |};
     b_SupRate := b_SupRate old; b_CkipFlag := 0; b_AironetCellPowerLimit := 0xFF;
     b_QbssLoad := {| bValid := false; parm := parm (b_QbssLoad old) |};
     b_QosCapability := {| bValid := false; parm := parm (b_QosCapability old) |};
     b_RalinkIe := 0; b_PreNHtCapabilityLen := 0; b_SelReg := 0;
     b_ies := {| x_ExtRate := ((x_ExtRate x).1, 0); x_HtCapability := ((x_HtCapability x).1, 0);
                 x_AddHtInfo := ((x_AddHtInfo x).1, 0); x_NewExtChannelOffset := 0xff;
                 x_EdcaParm := {| bValid := false; parm := parm (x_EdcaParm x) |}; x_ExtCapInfo := 0 |};
     b_VIE := ((b_VIE old).1, 0) |}.

(** What follows the loop at its end: the channel of an access point that does not
    tell it, and the reassembled element of Wi-Fi Protected Setup. *)
Definition after_loop (cfg : rx_cfg) (MsgChannel : Z) (s : state) : option state :=
  let '(o, l) := s in
  let '(o, l) :=
    if (14 <? LatchRfChannel cfg) && (p_Sanity l & 0x4 =? 0)
    then (put_Channel o (if negb (p_CtrlChannel l =? 0) then p_CtrlChannel l else MsgChannel), found l 0x4)
    else (o, l) in
  let x := b_ies o in
  let o :=
    if negb (p_Sanity l & 0x4 =? 0) && negb (p_CtrlChannel l =? 0) && negb (p_CtrlChannel l =? b_Channel o)
    then put_ies o (set_AddHtInfo x ((x_AddHtInfo x).1.[0 <- b_Channel o], (x_AddHtInfo x).2))
    else o in
  match p_PeerWscIe l with
  | Some buf =>
      if (0 <? p_PeerWscIeLen l) && (p_PeerWscIeLen l <=? 512) && p_bWscCheck l
      then
        let n := (b_VIE o).2 in
        vie ← store (b_VIE o).1 n [0xdd; u8 (p_PeerWscIeLen l + 4); 0x00; 0x50; 0xF2; 0x04];
        d ← load buf 0 (p_PeerWscIeLen l);
        vie ← store vie (n + 6) d;
        Some (put_VIE o (vie, u16 (n + (p_PeerWscIeLen l + 6))), l)
      else Some (o, l)
  | None => Some (o, l)
  end.

(** The answer and the outputs. *)
Definition PeerBeaconAndProbeRspSanity (E : env) (cfg : rx_cfg) (old : beacon_info) (m : list Z) (MsgLen MsgChannel : Z)
    : option (bool * fixed_part * beacon_info) :=
  hd ← read_fixed m;
  let l := {| p_Sanity := 0; p_CtrlChannel := 0;
              p_PeerWscIe := if kmalloc E 512 then Some (local_array E 512) else None;
              p_PeerWscIeLen := 0; p_bWscCheck := true; p_exit := EndOfLoop |} in
  s ← walk (Z.to_nat MsgLen) m MsgLen (beacon_element cfg hd m) (LENGTH_802_11 + 8 + 2 + 2) (reset old, l);
  match p_exit s.2 with
  | ReturnFalse => Some (false, hd, s.1)
  | e =>
      s ← (match e with EndOfLoop => after_loop cfg MsgChannel s | _ => Some s end);
      Some ((p_Sanity s.2 =? 0x7) && p_bWscCheck s.2, hd, s.1)
  end.

(** ** Scanning *)

(** The variables of [PeerBeaconAtScanAction] before the call. *)
Definition scan_locals (E : env) : beacon_info :=
  let none := {| TimLen := 0; BcastFlag := false; DtimCount := 0; DtimPeriod := 0; MessageToMe := false |} in
  {| b_Ssid := (zeros MAX_LEN_OF_SSID, 0); b_Channel := 0; b_NewChannel := 0;
     b_CfParm := {| cf_bValid := false; cf_CfpCount := 0; cf_CfpPeriod := 0; cf_CfpMaxDuration := 0; cf_CfpDurRemaining := 0 |};
     b_AtimWin := 0; b_Erp := 0; b_Tim := none; b_SupRate := (local_array E 12, 0); b_CkipFlag := 0;
     b_AironetCellPowerLimit := 0; b_QbssLoad := zero_parm 6;
     b_QosCapability := {| bValid := false; parm := local_array E 4 |};
     b_RalinkIe := 0; b_PreNHtCapabilityLen := 0; b_SelReg := 0;
     b_ies := {| x_ExtRate := (local_array E 12, 0); x_HtCapability := (zeros 26, 0); x_AddHtInfo := (zeros 22, 0);
                 x_NewExtChannelOffset := 0xff; x_EdcaParm := {| bValid := false; parm := local_array E edca_size |};
                 x_ExtCapInfo := 0 |};
     b_VIE := ((local_array E MAX_VIE_LEN).[1 <- 0], 0) |}.

(** The arguments of [BssTableSetEntry]. *)
Definition scan_args (hd : fixed_part) (o : beacon_info) (Rssi : Z) : bss_args :=
  let x := b_ies o in
  {| a_Bssid := h_Bssid hd; a_Ssid := (b_Ssid o).1; a_SsidLen := (b_Ssid o).2; a_BssType := h_BssType hd;
     a_BeaconPeriod := h_BeaconPeriod hd; a_CfParm := b_CfParm o; a_AtimWin := b_AtimWin o; a_CapabilityInfo := h_CapabilityInfo hd;
     a_SupRate := (b_SupRate o).1; a_SupRateLen := (b_SupRate o).2; a_ExtRate := (x_ExtRate x).1; a_ExtRateLen := (x_ExtRate x).2;
     a_HtCapability := (x_HtCapability x).1; a_AddHtInfo := (x_AddHtInfo x).1;
     a_HtCapabilityLen := if (0 <? (x_HtCapability x).2) || (0 <? b_PreNHtCapabilityLen o) then SIZE_HT_CAP_IE else (x_HtCapability x).2;
     a_AddHtInfoLen := (x_AddHtInfo x).2; a_NewExtChanOffset := x_NewExtChannelOffset x; a_Channel := b_Channel o; a_Rssi := Rssi;
     a_TimeStamp := h_Timestamp hd; a_CkipFlag := b_CkipFlag o; a_EdcaParm := Some (x_EdcaParm x);
     a_QosCapability := Some (b_QosCapability o); a_QbssLoad := Some (b_QbssLoad o);
     a_LengthVIE := (b_VIE o).2; a_VIE := (b_VIE o).1 |}.

(** A received frame of [MsgLen] bytes at [m]; [Rssi] is [RTMPMaxRssi] of its three
    signal strengths. *)
Definition PeerBeaconAtScanAction (E : env) (cfg : rx_cfg) (now : Z) (C : connection) (h : heap) (Tab : BSS_TABLE)
    (m : list Z) (MsgLen MsgChannel Rssi : Z) : option (heap * BSS_TABLE) :=
  if negb (kmalloc E (Z.of_nat MAX_LEN_OF_SSID) && kmalloc E (Z.of_nat MAX_VIE_LEN) && kmalloc E 26 && kmalloc E 22) then Some (h, Tab)
  else
    '(ok, hd, o) ← PeerBeaconAndProbeRspSanity E cfg (scan_locals E) m MsgLen MsgChannel;
    if (ok : bool) then scan_frame now C h Tab (scan_args hd o Rssi) (h_SubType hd =? SUBTYPE_PROBE_RSP) else Some (h, Tab).

(** ** Staying inside the arrays *)

(** The arrays of the caller and the lengths reported with them. *)
Record out_ok (o : beacon_info) : Prop := {
  bo_ssid : length (b_Ssid o).1 = MAX_LEN_OF_SSID ∧ 0 <= (b_Ssid o).2 <= 32;
  bo_rates : length (b_SupRate o).1 = 12%nat ∧ 0 <= (b_SupRate o).2 <= 12;
  bo_ies : ies_ok (b_ies o);
  bo_vie : length (b_VIE o).1 = MAX_VIE_LEN ∧ bytes (b_VIE o).1 ∧ 0 <= (b_VIE o).2 <= 1024;
}.

(** In the loop, after [n] bytes of elements: what goes into [pVIE] at the end, the
    reassembled element included, is no more than what was read. *)
Record loop_ok (n : Z) (s : state) : Prop := {
  lo_out : out_ok s.1;
  lo_vie : (b_VIE s.1).2 <= 1023;
  lo_wsc : match p_PeerWscIe s.2 with
           | Some buf => length buf = 512%nat ∧ bytes buf
           | None => p_PeerWscIeLen s.2 = 0
           end;
  lo_len : 0 <= p_PeerWscIeLen s.2 <= 512;
  lo_sum : (b_VIE s.1).2 + p_PeerWscIeLen s.2 + (if p_PeerWscIeLen s.2 =? 0 then 0 else 6) <= n;
}.

Lemma loop_ok_le n n' s : loop_ok n s → n <= n' → loop_ok n' s.
Proof. intros [] ?. split; try done. lia. Qed.

(** An assignment that leaves [pVIE] and the reassembly alone. *)
Lemma loop_ok_same n o l o' l' :
  loop_ok n (o, l) → out_ok o' → b_VIE o' = b_VIE o →
  p_PeerWscIe l' = p_PeerWscIe l → p_PeerWscIeLen l' = p_PeerWscIeLen l → loop_ok n (o', l').
Proof. intros [] Ho Hv Hw Hn. cbn [fst snd] in *. split; cbn [fst snd]; rewrite ?Hv, ?Hw, ?Hn; done. Qed.

Lemma bytes_load m p n b : bytes m → load m p n = Some b → bytes b.
Proof.
  intros Hm H. unfold load in H. destruct (_ && _); [|done]. injection H as <-. unfold slice.
  by apply Forall_take, Forall_drop.
Qed.

Lemma append_VIE_ok m p L o :
  out_ok o → bytes m → 0 <= p → 0 <= L → p + 2 + L <= Z.of_nat (length m) → (b_VIE o).2 + L + 2 <= 1023 →
  ∃ x, load m p (L + 2) = Some x ∧
    append_VIE m p L o = Some (put_VIE o (put (b_VIE o).1 (Z.to_nat (b_VIE o).2) x, (b_VIE o).2 + (L + 2))) ∧
    out_ok (put_VIE o (put (b_VIE o).1 (Z.to_nat (b_VIE o).2) x, (b_VIE o).2 + (L + 2))).
Proof.
  intros [Hs Hr Hi (Hv & Hvb & Hn)] Hm H0 HL Hp Hle. unfold MAX_VIE_LEN in *.
  destruct (load_some m p (L + 2)) as (x & Hx & Hlx); [lia..|]. exists x. split; [done|]. unfold append_VIE. rewrite Hx, Some_bind.
  rewrite store_ok, Some_bind by lia. split.
  - do 3 f_equal. unfold u16. rewrite Z.mod_small; lia.
  - split; try done. cbn. rewrite length_put. unfold MAX_VIE_LEN. split; [done|]. split; [|lia]. apply bytes_put; [done|]. by eapply bytes_load.
Qed.

Lemma GetTimBit_some m p Aid :
  bytes m → 0 <= p → p + 261 <= Z.of_nat (length m) → ∃ t, GetTimBit m p Aid = Some t.
Proof.
  intros Hm H0 H1. unfold GetTimBit. destruct (load8_some m (p + 1)) as (a & -> & _); [done|lia|]. rewrite Some_bind.
  destruct (load8_some m (p + 2)) as (b & -> & _); [done|lia|]. rewrite Some_bind.
  destruct (load8_some m (p + 3)) as (c & -> & _); [done|lia|]. rewrite Some_bind.
  destruct (load8_some m (p + 4)) as (d & -> & _); [done|lia|]. rewrite Some_bind. destruct (_ || _); [by eauto|].
  destruct (load8_some m (p + 4 + (u8 ((Aid >> 3) - (d & 0xfe)) + 1))) as (e & -> & _); [done| |by eauto].
  pose proof (fits_u8 ((Aid >> 3) - (d & 0xfe))) as H. unfold fits in H. lia.
Qed.

(** *** Wi-Fi Protected Setup *)

(** The attribute "selected registrar" of an element, if there is one, has at most
    the one byte it is copied into. *)
Fixpoint selector_ok (fuel : nat) (m : list Z) (pData Len : Z) : bool :=
  if negb (0 <? Len) then true
  else
    match fuel with
    | O => true
    | S fuel =>
        match load m pData 5 with
        | Some ie =>
            let Length := be_word (slice ie 2 2) in
            if be_word (take 2 ie) =? 0x1041 then Length <=? 1 else selector_ok fuel m (pData + (Length + 4)) (Len - (Length + 4))
        | None => true
        end
    end.

(** The elements of Wi-Fi Protected Setup in a frame are long enough for their OUI,
    and their attribute fits. *)
Definition wps_sound (m : list Z) (MsgLen : Z) : Prop :=
  ∀ p L, 36 <= p → p + 2 + L <= MsgLen → load8 m p = Some IE_VENDOR_SPECIFIC → load8 m (p + 1) = Some L →
    load m (p + 2) 4 = Some WPS_OUI → 4 <= L ∧ selector_ok 64 m (p + 6) (L - 4) = true.

Lemma be_word_nonneg b : bytes b → 0 <= be_word b.
Proof.
  intros Hb. unfold be_word. assert (bytes (rev b)) as Hr by by apply Forall_rev. revert Hr. generalize (rev b). clear.
  induction l as [|x l IH]; intros Hl; [done|]. apply Forall_cons in Hl as [[Hx _] Hl]. cbn [le_word].
  apply Z.lor_nonneg. split; [done|]. apply Z.shiftl_nonneg. by apply IH.
Qed.

Lemma selected_registrar_some m fuel : ∀ p Len r,
  bytes m → 0 <= p → p + Z.max Len 0 + 6 <= Z.of_nat (length m) → Len <= 4 * Z.of_nat fuel →
  selector_ok fuel m p Len = true → ∃ r', selected_registrar fuel m p Len r = Some r'.
Proof.
  induction fuel as [|fuel IH]; intros p Len r Hm H0 Hp Hf Hok; cbn [selected_registrar selector_ok] in *;
    (destruct (Z.ltb_spec 0 Len); cbn [negb] in *; [|by eauto]); [lia|].
  destruct (load_some m p 5) as (ie & Hie & Hl); [lia..|]. rewrite Hie, Some_bind in *. pose proof (bytes_load _ _ _ _ Hm Hie) as Hb.
  assert (0 <= be_word (slice ie 2 2)) as H2. { apply be_word_nonneg. unfold slice. by apply Forall_take, Forall_drop. }
  destruct (_ =? 0x1041).
  - apply Z.leb_le in Hok. destruct (move_at_some [r] m (p + 4) (be_word (slice ie 2 2))) as (b & -> & _); [cbn; lia..|]. rewrite Some_bind. by eauto.
  - destruct (Z.ltb_spec 0 (Len - (be_word (slice ie 2 2) + 4))).
    + apply IH; [done|lia..|done].
    + destruct fuel; cbn [selected_registrar]; rewrite (proj2 (Z.ltb_ge 0 _)) by lia; by eauto.
Qed.

Lemma wps_element_ok m SubType p L o l n :
  loop_ok n (o, l) → bytes m → 0 <= p → 4 <= L < 256 → p + 2 + L + 6 <= Z.of_nat (length m) → selector_ok 64 m (p + 6) (L - 4) = true →
  ∃ s', wps_element m SubType p L (o, l) = Some s' ∧ loop_ok (n + 2 + L) s'.
Proof.
  intros Ho Hm H0 HL Hp Hsel. unfold wps_element.
  assert (∃ l', match p_PeerWscIe l with
      | Some buf =>
          first ← Octet m p 4;
          if first =? 0x10 then
            d ← load m (p + 2 + 4) (L - 4);
            buf ← store buf 0 d;
            Some (put_PeerWscIeLen (put_PeerWscIe l (Some buf)) (L - 4))
          else if p_PeerWscIeLen l + (L - 4) <=? 512 then
            d ← load m (p + 2 + 4) (L - 4);
            buf ← store buf (p_PeerWscIeLen l) d;
            Some (put_PeerWscIeLen (put_PeerWscIe l (Some buf)) (p_PeerWscIeLen l + (L - 4)))
          else Some (put_bWscCheck l false)
      | None => Some (put_bWscCheck l false)
      end = Some l' ∧ loop_ok (n + 2 + L) (o, l')) as (l' & -> & Hl').
  { destruct Ho as [Ho Hv Hw Hn Hs]. cbn [fst snd] in *. destruct (p_PeerWscIe l) as [buf|] eqn:Hbuf.
    2: { eexists. split; [done|]. split; cbn; rewrite ?Hbuf; try done. destruct (_ =? 0); lia. }
    destruct Hw as [Hlb Hbb]. destruct (Octet_some m p 4) as (first & -> & _); [done|lia..|]. rewrite Some_bind.
    destruct (load_some m (p + 2 + 4) (L - 4)) as (d & Hd & Hld); [lia..|]. rewrite Hd. pose proof (bytes_load _ _ _ _ Hm Hd) as Hdb.
    destruct (first =? 16); [|destruct (Z.leb_spec (p_PeerWscIeLen l + (L - 4)) 512)].
    - rewrite Some_bind, store_ok, Some_bind by lia. eexists. split; [done|]. split; cbn; try done; rewrite ?length_put; try lia.
      + split; [done|]. by apply bytes_put.
      + destruct (_ =? 0), (_ =? 0); lia.
    - rewrite Some_bind, store_ok, Some_bind by lia. eexists. split; [done|]. split; cbn; try done; rewrite ?length_put; try lia.
      + split; [done|]. by apply bytes_put.
      + destruct (Z.eqb_spec (p_PeerWscIeLen l) 0), (_ =? 0); lia.
    - eexists. split; [done|]. split; cbn; rewrite ?Hbuf; try done. destruct (_ =? 0); lia. }
  rewrite Some_bind. destruct (SubType =? SUBTYPE_BEACON); [|by eauto].
  destruct (selected_registrar_some m 64 (p + 2 + 4) (L - 4) (b_SelReg o)) as (r & ->); [done|lia..| |].
  - by replace (p + 2 + 4) with (p + 6) by lia.
  - rewrite Some_bind. eexists. split; [done|]. eapply loop_ok_same; [exact Hl'| |done..]. by destruct Hl' as [[]].
Qed.

(** *** The other elements *)

(** Outputs other than [pVIE] change inside their bounds. *)
Lemma out_ok_ies o x : out_ok o → ies_ok x → out_ok (put_ies o x).
Proof. intros []. by split. Qed.

Lemma vendor_element_ok m MsgLen SubType p L o l n :
  loop_ok n (o, l) → bytes m → 36 <= p → 0 <= L < 256 → p + 2 + L <= MsgLen → MsgLen + 6 <= Z.of_nat (length m) →
  load8 m p = Some IE_VENDOR_SPECIFIC → load8 m (p + 1) = Some L → wps_sound m MsgLen → (b_VIE o).2 + L + 2 <= 1023 →
  ∃ s', vendor_element m SubType p L (o, l) = Some s' ∧ loop_ok (n + 2 + L) s'.
Proof.
  intros Ho Hm H0 HL Hp Hl HE Hlen Hwps Hroom. pose proof Ho as [Hout _ _ _ _]. cbn [fst] in Hout. pose proof (bo_ies _ Hout) as Hies.
  assert (∀ o', out_ok o' → b_VIE o' = b_VIE o → loop_ok (n + 2 + L) (o', l)) as Hsame.
  { intros o' Ho' Hv. apply (loop_ok_le n); [|lia]. by eapply loop_ok_same. }
  unfold vendor_element, SIZE_HT_CAP_IE, SIZE_ADD_HT_INFO_IE.
  destruct (equal_at_some m (p + 2) RALINK_OUI) as (r1 & ->); [lia|cbn [length RALINK_OUI]; lia|]. rewrite Some_bind.
  destruct (r1 && (L =? 7)) eqn:H1.
  { apply andb_true_iff in H1 as [_ H1%Z.eqb_eq]. destruct (Octet_some m p 3) as (t & -> & _); [done|lia..|]. rewrite Some_bind.
    eexists. split; [done|]. apply Hsame; [|done]. by destruct Hout. }
  assert (∃ r, (if (x_HtCapability (b_ies o)).2 =? 0 then equal_at m (p + 2) PRE_N_HT_OUI else Some false) = Some r) as (r2 & ->).
  { destruct (_ =? 0); [|by eauto]. apply equal_at_some; [lia|cbn [length PRE_N_HT_OUI]; lia]. }
  rewrite Some_bind. destruct (r2 && (4 <=? L)) eqn:H2.
  { apply andb_true_iff in H2 as [_ H2%Z.leb_le]. destruct (Octet_some m p 3) as (t & -> & _); [done|lia..|]. rewrite Some_bind.
    assert (∃ o1, (if (t =? OUI_PREN_HT_CAP) && (30 <=? L)
      then a ← move_at (x_HtCapability (b_ies o)).1 m (p + 2 + 4) 26;
           Some (put_PreNHtCapabilityLen (put_ies o (set_HtCapability (b_ies o) (a, (x_HtCapability (b_ies o)).2))) 26)
      else Some o) = Some o1 ∧ out_ok o1 ∧ b_VIE o1 = b_VIE o) as (o1 & -> & Ho1 & Hv1).
    { destruct Hies as [? [Hh ?] ? ?]. destruct (_ && (30 <=? L)) eqn:H3; [|by eauto]. apply andb_true_iff in H3 as [_ H3%Z.leb_le].
      destruct (move_at_some (x_HtCapability (b_ies o)).1 m (p + 2 + 4) 26) as (a & -> & Ha); [lia..|]. rewrite Some_bind.
      eexists. split; [done|]. split; [|done]. destruct Hout. split; try done. split; cbn; by rewrite ?Ha. }
    rewrite Some_bind. destruct (bo_ies _ Ho1) as [? ? [Hh ?] ?]. destruct (_ && (26 <=? L)) eqn:H3.
    - apply andb_true_iff in H3 as [_ H3%Z.leb_le].
      destruct (move_at_some (x_AddHtInfo (b_ies o)).1 m (p + 2 + 4) 22) as (a & -> & Ha); [destruct Hies as [_ _ [? _] _]; lia..|]. rewrite !Some_bind.
      eexists. split; [done|]. apply Hsame; [|done]. apply out_ok_ies; [done|]. destruct Hies as [_ _ [? _] _]. split; cbn; rewrite ?Ha; try done.
      split; [done|by repeat constructor].
    - rewrite Some_bind. eexists. split; [done|]. by apply Hsame. }
  destruct (equal_at_some m (p + 2) WPA_OUI) as (r3 & ->); [lia|cbn [length WPA_OUI]; lia|]. rewrite Some_bind. destruct r3.
  { destruct (append_VIE_ok m p L o) as (x & _ & -> & Ho'); [done|done|lia..|]. rewrite Some_bind. eexists. split; [done|].
    destruct Ho. cbn [fst snd] in *. split; cbn [fst snd]; try done; cbn; lia. }
  destruct (equal_at_some m (p + 2) WME_PARM_ELEM) as (r4 & ->); [lia|cbn [length WME_PARM_ELEM]; lia|]. rewrite Some_bind.
  destruct (r4 && (L =? 24)) eqn:H4.
  { apply andb_true_iff in H4 as [_ H4%Z.eqb_eq]. destruct (wme_parameters_some m p (x_EdcaParm (b_ies o))) as (e & -> & He); [done|lia..|].
    rewrite Some_bind. eexists. split; [done|]. apply Hsame; [|done]. apply out_ok_ies; [done|]. destruct Hies. split; cbn; by rewrite ?He. }
  destruct (equal_at_some m (p + 2) WME_INFO_ELEM) as (r5 & ->); [lia|cbn [length WME_INFO_ELEM]; lia|]. rewrite Some_bind.
  destruct (r5 && (L =? 7)) eqn:H5.
  { apply andb_true_iff in H5 as [_ H5%Z.eqb_eq]. destruct (wme_information_some m p (x_EdcaParm (b_ies o))) as (e & -> & He); [done|lia..|].
    rewrite Some_bind. eexists. split; [done|]. apply Hsame; [|done]. apply out_ok_ies; [done|]. destruct Hies. split; cbn; by rewrite ?He. }
  destruct (equal_at m (p + 2) WPS_OUI) as [r6|] eqn:Hw.
  2: { destruct (equal_at_some m (p + 2) WPS_OUI) as (r & Hr); [lia|cbn [length WPS_OUI]; lia|]. by rewrite Hw in Hr. }
  rewrite Some_bind. destruct r6; [|eexists; split; [done|by apply Hsame]].
  assert (load m (p + 2) 4 = Some WPS_OUI) as Hld.
  { unfold equal_at in Hw. destruct (load m (p + 2) _) as [c|] eqn:Hc; [|done]. cbn in Hw. injection Hw as Hw%bool_decide_eq_true. by subst c. }
  destruct (Hwps p L) as [HL4 Hsel]; [done..|]. apply wps_element_ok; [done|done|lia..|done].
Qed.

(** The end of a case whose assignments leave [pVIE], the reassembly and the bounds
    alone, and the one that reads the byte [i] of the element. *)
Ltac leaf Hout Hsame :=
  rewrite Some_bind; eexists; split; [done|]; apply Hsame; [by destruct Hout; repeat (split; try done)|by try destruct (ChannelSanity _ _)..].
Ltac octet_leaf Hoct i Hout Hsame :=
  destruct (Hoct i) as (? & -> & _); [lia..|]; leaf Hout Hsame.

Section Switch.
Context (cfg : rx_cfg) (hd : fixed_part) (m : list Z) (MsgLen p L n : Z) (o : beacon_info) (l : progress).
Context (Ho : loop_ok n (o, l)) (Hm : bytes m) (H0 : 36 <= p) (HL : 0 <= L < 256) (Hp : p + 2 + L <= MsgLen)
  (Hl : MsgLen + 260 <= Z.of_nat (length m)) (Hroom : (b_VIE o).2 + L + 2 <= 1023).

Let Hout : out_ok o := lo_out _ _ Ho.

Lemma unchanged o' l' : out_ok o' → b_VIE o' = b_VIE o → p_PeerWscIe l' = p_PeerWscIe l → p_PeerWscIeLen l' = p_PeerWscIeLen l →
  loop_ok (n + 2 + L) (o', l').
Proof. intros Ho' Hv Hw Hn. apply (loop_ok_le n); [|lia]. by eapply loop_ok_same. Qed.

Lemma appended o1 l' : out_ok o1 → b_VIE o1 = b_VIE o → p_PeerWscIe l' = p_PeerWscIe l → p_PeerWscIeLen l' = p_PeerWscIeLen l →
  ∃ o', append_VIE m p L o1 = Some o' ∧ loop_ok (n + 2 + L) (o', l').
Proof.
  intros Ho1 Hv1 Hw Hn. destruct (append_VIE_ok m p L o1) as (x & _ & Ha & Ho'); [done|done|lia..|rewrite Hv1; lia|].
  eexists. split; [exact Ha|]. destruct Ho. cbn [fst snd] in *. split; cbn [fst snd]; rewrite ?Hw, ?Hn; try done; cbn; rewrite Hv1; lia.
Qed.

Lemma octet i : 0 <= i → i <= 9 → ∃ t, Octet m p i = Some t ∧ 0 <= t < 256.
Proof using Hm H0 HL Hp Hl. intros ??. apply Octet_some; [done|lia..]. Qed.

(** An array of [k] bytes filled from an element of at least [k]. *)
Lemma array_of a k : length a = Z.to_nat k → 0 <= k → k <= L → ∃ b, move_at a m (p + 2) k = Some b ∧ length b = length a.
Proof using Hm H0 HL Hp Hl. intros. apply move_at_some; lia. Qed.

Lemma switch_element_ok Eid :
  load8 m p = Some Eid → load8 m (p + 1) = Some L → wps_sound m MsgLen →
  ∃ s', switch_element cfg hd m p Eid L (o, l) = Some s' ∧ loop_ok (n + 2 + L) s'.
Proof using All.
  intros HE Hlen Hwps. unfold switch_element, SIZE_HT_CAP_IE, SIZE_ADD_HT_INFO_IE, MAX_LEN_OF_SUPPORTED_RATES, CKIP_NEGOTIATION_LENGTH.
  assert (∃ s', Some (o, l) = Some s' ∧ loop_ok (n + 2 + L) s') as Hskip by (eexists; split; [done|by apply unchanged]).
  assert (∀ e, ∃ s', Some (o, put_exit l e) = Some s' ∧ loop_ok (n + 2 + L) s') as Hexit by (intros e; eexists; split; [done|by apply unchanged]).
  pose proof octet as Hoct. pose proof unchanged as Hsame. pose proof appended as Happend. pose proof Hout as Hok.
  pose proof (bo_ssid _ Hout) as [Hs1 Hs2]. pose proof (bo_rates _ Hout) as [Hr1 Hr2]. pose proof (bo_ies _ Hout) as Hies. pose proof Hies as [[He1 He2] [Hh1 Hh2] [Ha1 Ha2] Hed].
  repeat match goal with |- context [if Eid =? ?c then _ else _] => destruct (Z.eqb_spec Eid c); [subst Eid|] end; try exact Hskip.
  - destruct (negb _); [done|]. destruct (Z.leb_spec L (Z.of_nat MAX_LEN_OF_SSID)) as [Hle|]; [|done]. unfold MAX_LEN_OF_SSID in *.
    destruct (move_at_some (b_Ssid o).1 m (p + 2) L) as (a & -> & Ha); [lia..|]. rewrite Some_bind. eexists. split; [done|].
    apply Hsame; [|done..]. destruct Hout. split; try done. cbn. unfold MAX_LEN_OF_SSID. lia.
  - destruct (Z.leb_spec L 12) as [Hle|]; [|done].
    destruct (move_at_some (b_SupRate o).1 m (p + 2) L) as (a & -> & Ha); [lia..|]. rewrite Some_bind. eexists. split; [done|].
    apply Hsame; [|done..]. destruct Hout. split; try done. cbn. lia.
  - destruct (Z.leb_spec 26 L); [|done]. destruct (array_of _ 26 Hh1) as (a & -> & Ha); [lia..|]. rewrite Some_bind.
    edestruct (Happend (put_PreNHtCapabilityLen (put_ies o (set_HtCapability (b_ies o) (a, 26))) 0) l) as (o' & -> & Ho'); [|done..|rewrite Some_bind; eauto].
    destruct Hout. split; try done. split; cbn; try done. split; [lia|by repeat constructor].
  - destruct (Z.leb_spec 22 L); [|done]. destruct (array_of _ 22 Ha1) as (a & -> & Ha); [lia..|]. rewrite Some_bind.
    edestruct (Happend (put_ies o (set_AddHtInfo (b_ies o) (a, 22))) (put_CtrlChannel l a.[0])) as (o' & -> & Ho'); [|done..|rewrite Some_bind; eauto].
    destruct Hout. split; try done. split; cbn; try done. split; [lia|by repeat constructor].
  - destruct (L =? 1); [|done]. octet_leaf Hoct 0 Hok Hsame.
  - destruct (L =? 1); [|done]. octet_leaf Hoct 0 Hok Hsame.
  - destruct (Z.eqb_spec L 6); [|done]. destruct (load_some m (p + 2) 6) as (q & -> & _); [lia..|]. leaf Hok Hsame.
  - destruct (Z.eqb_spec L 2); [|done]. destruct (load16_some m (p + 2)) as (q & ->); [done|lia..|]. leaf Hok Hsame.
  - destruct (_ && _); [|done]. destruct (GetTimBit_some m p (StaActive_Aid cfg)) as (t & ->); [done|lia..|]. leaf Hok Hsame.
  - destruct (L =? 3); [|done]. octet_leaf Hoct 1 Hok Hsame.
  - apply (vendor_element_ok m MsgLen); try done. lia.
  - destruct (Z.leb_spec L 12) as [Hle|]; [|done].
    destruct (move_at_some (x_ExtRate (b_ies o)).1 m (p + 2) L) as (a & -> & Ha); [lia..|]. rewrite Some_bind. eexists. split; [done|].
    apply Hsame; [|done..]. apply out_ok_ies; [done|]. split; cbn; try done. lia.
  - destruct (L =? 1); [|done]. octet_leaf Hoct 0 Hok Hsame.
  - destruct (L <? 30 - 2); [done|]. octet_leaf Hoct 8 Hok Hsame.
  - destruct (negb _); [done|]. destruct (equal_at_some m (p + 2) CISCO_OUI) as (r & ->); [lia|cbn [length CISCO_OUI]; lia|]. rewrite Some_bind.
    destruct r; [|done]. octet_leaf Hoct 4 Hok Hsame.
  - destruct (equal_at_some m (p + 2 + 2) RSN_OUI) as (r & ->); [lia|cbn [length RSN_OUI]; lia|]. rewrite Some_bind. destruct r; [|done].
    destruct (Happend o l) as (o' & -> & Ho'); [done..|]. rewrite Some_bind. by eauto.
  - destruct (Z.eqb_spec L 5); [|done]. destruct (load_some m (p + 2) 5) as (q & -> & _); [lia..|]. rewrite Some_bind.
    edestruct (Happend (put_QbssLoad o {| bValid := true; parm := [q.[0]; q.[1]; q.[2]; (parm (b_QbssLoad o)).[3]; q.[3]; q.[4]] |}) l) as (o' & -> & Ho');
      [by destruct Hout|done..|]. rewrite Some_bind. by eauto.
  - destruct (Z.leb_spec 1 L); [|done]. octet_leaf Hoct 0 Hok Hsame.
Qed.
End Switch.

Lemma read_fixed_some m : bytes m → 38 <= Z.of_nat (length m) → ∃ hd, read_fixed m = Some hd.
Proof.
  intros Hm Hl. unfold read_fixed, LENGTH_802_11, TIMESTAMP_LEN.
  destruct (load8_some m 0) as (a & -> & _); [done|lia|]. rewrite Some_bind.
  destruct (load_some m 10 6) as (b & -> & _); [lia..|]. rewrite Some_bind.
  destruct (load_some m 16 6) as (c & -> & _); [lia..|]. rewrite Some_bind.
  destruct (load_some m 24 8) as (d & -> & _); [lia..|]. rewrite Some_bind.
  destruct (load16_some m (24 + 8)) as (e & ->); [done|lia..|]. rewrite Some_bind.
  destruct (load16_some m (24 + 10)) as (f & ->); [done|lia..|]. rewrite Some_bind. by eauto.
Qed.

Lemma bytes_local_array E n : bytes (garbage E) → bytes (local_array E n).
Proof. intros H. apply Forall_take, Forall_app. split; [done|]. apply Forall_replicate. unfold fits. lia. Qed.

Lemma outputs_reset_ok old : out_ok old → out_ok (reset old) ∧ b_VIE (reset old) = ((b_VIE old).1, 0).
Proof.
  intros [? ? [[? ?] [? ?] [? ?] ?] (? & ? & ?)]. split; [|done]. split; try done.
  split; cbn; try done; (split; [done|]; first [lia|by repeat constructor]).
Qed.

(** The local variables when the loop starts. *)
Definition start (E : env) : progress :=
  {| p_Sanity := 0; p_CtrlChannel := 0; p_PeerWscIe := if kmalloc E 512 then Some (local_array E 512) else None;
     p_PeerWscIeLen := 0; p_bWscCheck := true; p_exit := EndOfLoop |}.

Lemma loop_start_ok E old : bytes (garbage E) → out_ok old → loop_ok 0 (reset old, start E).
Proof.
  intros HE Hold. destruct (outputs_reset_ok old Hold) as [Ho Hv]. split; cbn [fst snd start p_PeerWscIe p_PeerWscIeLen]; rewrite ?Hv; cbn [fst snd]; try done; try lia.
  destruct (kmalloc E 512); [|done]. split; [apply length_local_array|by apply bytes_local_array].
Qed.

(** After the loop over a frame of at most 1060 bytes the reassembled element still
    fits [pVIE]. *)
Lemma after_loop_ok cfg MsgChannel o l :
  loop_ok 1024 (o, l) → ∃ s, after_loop cfg MsgChannel (o, l) = Some s ∧ out_ok s.1.
Proof.
  intros [Ho Hv Hw Hn Hs]. cbn [fst snd] in *. unfold after_loop.
  set (s1 := if (14 <? LatchRfChannel cfg) && _ then _ else (o, l)).
  assert (out_ok s1.1 ∧ b_VIE s1.1 = b_VIE o ∧ p_PeerWscIe s1.2 = p_PeerWscIe l ∧ p_PeerWscIeLen s1.2 = p_PeerWscIeLen l) as (Ho1 & Hv1 & Hw1 & Hn1).
  { unfold s1. destruct (_ && _); [|done]. split; [|done]. destruct Ho. by split. }
  destruct s1 as [o1 l1]. cbn [fst snd] in *. set (o2 := if negb _ && _ && _ then _ else o1).
  assert (out_ok o2 ∧ b_VIE o2 = b_VIE o) as [Ho2 Hv2].
  { unfold o2. destruct (_ && _); [|done]. split; [|done]. apply out_ok_ies; [done|]. destruct (bo_ies _ Ho1) as [? ? [Ha ?] ?]. split; try done.
    cbn. by rewrite length_insert. }
  clearbody o2. rewrite Hw1, Hn1, Hv2. destruct (p_PeerWscIe l) as [buf|]; [|by exists (o2, l1)]. destruct Hw as [Hlb Hbb].
  destruct (_ && _) eqn:Hc; [|by exists (o2, l1)]. rewrite !andb_true_iff, Z.ltb_lt in Hc. destruct Hc as [[Hpos _] _].
  rewrite (proj2 (Z.eqb_neq _ _)) in Hs by lia. destruct (bo_vie _ Ho) as (Hl & Hb & Hr). unfold MAX_VIE_LEN in *.
  assert (bytes [221; u8 (p_PeerWscIeLen l + 4); 0; 80; 242; 4]) as Hhdr.
  { repeat (apply Forall_cons; split; [first [apply fits_u8|unfold fits; lia]|]). constructor. }
  rewrite store_ok, Some_bind by (rewrite ?Hl; cbn [length]; lia).
  destruct (load_some buf 0 (p_PeerWscIeLen l)) as (d & Hd & Hld); [lia..|]. rewrite Hd, Some_bind.
  rewrite store_ok, Some_bind by (rewrite ?length_put, ?Hl; lia). eexists. split; [done|]. cbn [fst].
  destruct Ho2 as [? ? ? _]. split; try done. cbn [b_VIE put_VIE fst snd]. rewrite !length_put. unfold MAX_VIE_LEN. split; [done|]. split.
  - apply bytes_put; [by apply bytes_put|exact (bytes_load _ _ _ _ Hbb Hd)].
  - unfold u16. rewrite Z.mod_small; lia.
Qed.

(** C20: No beacon and no probe response of at most 1060 bytes makes the parser leave an
    array, whatever its bytes, unless it holds a malformed element of Wi-Fi Protected
    Setup; every length it reports is inside the array it belongs to.  [MsgLen] and
    the 260 bytes behind the message are inside the queue. *)
Theorem beacon_in_bounds E cfg old m MsgLen MsgChannel :
  out_ok old → bytes (garbage E) → bytes m → MsgLen <= 1060 → 38 <= Z.of_nat (length m) → MsgLen + 260 <= Z.of_nat (length m) →
  wps_sound m MsgLen →
  ∃ ok hd o, PeerBeaconAndProbeRspSanity E cfg old m MsgLen MsgChannel = Some (ok, hd, o) ∧ out_ok o.
Proof.
  intros Hold HE Hm Hmax H38 Hl Hwps. unfold PeerBeaconAndProbeRspSanity. destruct (read_fixed_some m Hm H38) as (hd & ->). rewrite Some_bind. fold (start E).
  pose proof (loop_start_ok E old HE Hold) as H0. change (LENGTH_802_11 + 8 + 2 + 2) with 36.
  edestruct (walk_inv m MsgLen (beacon_element cfg hd m) (λ p s, 36 <= p <= Z.max 36 MsgLen ∧ loop_ok (p - 36) s) (loop_ok 1024) Hm) with
    (fuel := Z.to_nat MsgLen) (p := 36) (s := (reset old, start E)) as ([o l] & Hw & Hol); [lia| |intros p s [Hp Hs]; apply (loop_ok_le _ _ _ Hs); lia|lia..|split; [lia|exact H0]|].
  - intros p Eid L [o l] Hp HpL HL HEid HLen [Hp36 Hs]. unfold beacon_element. cbn [fst snd]. destruct (Z.leb_spec (Z.of_nat MAX_VIE_LEN) ((b_VIE o).2 + L + 2)).
    { eexists _, _. split; [done|]. cbv iota. apply (loop_ok_le _ _ _ Hs). lia. }
    unfold MAX_VIE_LEN in *. destruct (switch_element_ok cfg hd m MsgLen p L (p - 36) o l) with (Eid := Eid) as ([o' l'] & -> & Hs'); [done|done|lia..|done|done|done|].
    rewrite Some_bind. eexists _, _. split; [done|]. cbn [snd]. replace (p - 36 + 2 + L) with (p + 2 + L - 36) in Hs' by lia.
    destruct (p_exit l'); [split; [lia|done]|apply (loop_ok_le _ _ _ Hs'); lia..].
  - rewrite Hw, Some_bind. cbn [fst snd]. pose proof (lo_out _ _ Hol) as Ho. destruct (p_exit l).
    + destruct (after_loop_ok cfg MsgChannel o l Hol) as (s & -> & Hso). rewrite Some_bind. by eauto.
    + rewrite Some_bind. by eauto.
    + by eauto.
Qed.

(** ** What a well-formed frame leaves *)

(** The elements [pVIE] gets. *)
Definition kept (x : element) : bool :=
  let n := Z.of_nat (length x.2) in
  if x.1 =? IE_HT_CAP then SIZE_HT_CAP_IE <=? n
  else if x.1 =? IE_ADD_HT then SIZE_ADD_HT_INFO_IE <=? n
  else if x.1 =? IE_VENDOR_SPECIFIC then bool_decide (take 4 x.2 = WPA_OUI)
  else if x.1 =? IE_RSN then bool_decide (slice x.2 2 3 = RSN_OUI)
  else if x.1 =? IE_QBSS_LOAD then n =? 5
  else false.

Definition is_wps (x : element) : bool := (x.1 =? IE_VENDOR_SPECIFIC) && bool_decide (take 4 x.2 = WPS_OUI).

(** Elements of the lengths IEEE 802.11 gives them, on a channel in use; one of Wi-Fi
    Protected Setup is the first of its fragments. *)
Record standard (cfg : rx_cfg) (x : element) : Prop := {
  st_length : (length x.2 <= 255)%nat;
  st_ssid : x.1 = IE_SSID → (length x.2 <= 32)%nat;
  st_rates : x.1 = IE_SUPP_RATES → (length x.2 <= 12)%nat;
  st_ds : x.1 = IE_DS_PARM → length x.2 = 1%nat ∧ ChannelSanity (rx_ChannelList cfg) x.2.[0] = true;
  st_cf : x.1 = IE_CF_PARM → length x.2 = 6%nat;
  st_ibss : x.1 = IE_IBSS_PARM → length x.2 = 2%nat;
  st_vendor : x.1 = IE_VENDOR_SPECIFIC → (4 <= length x.2)%nat;
  st_wps : is_wps x = true → (5 <= length x.2)%nat ∧ x.2.[4] = 0x10;
  st_rsn : x.1 = IE_RSN → (5 <= length x.2)%nat;
}.

(** *** One element *)

Section Element.
Context (cfg : rx_cfg) (hd : fixed_part) (m a c : list Z) (x : element) (o : beacon_info) (l : progress) (buf : list Z).
Context (Hm : m = a ++ element_bytes x ++ c) (Hx : standard cfg x) (Hbuf : p_PeerWscIe l = Some buf).

Let p := Z.of_nat (length a).
Let L := Z.of_nat (length x.2).

Lemma payload_at k n : (k + n <= length x.2)%nat → load m (p + 2 + Z.of_nat k) (Z.of_nat n) = Some (slice x.2 k n).
Proof using Hm.
  intros H. rewrite load_ok.
  - replace (Z.to_nat (p + 2 + Z.of_nat k)) with (length a + (2 + k))%nat by (unfold p; lia). rewrite Hm, slice_app_r, Nat2Z.id.
    rewrite slice_app_l by (rewrite length_element; lia). unfold element_bytes. change (2 + k)%nat with (length [x.1; Z.of_nat (length x.2)] + k)%nat.
    by rewrite slice_app_r.
  - unfold p. lia.
  - lia.
  - rewrite Hm, !length_app, length_element. unfold p. lia.
Qed.

Lemma equal_payload k b r :
  (k + length b <= length x.2)%nat → equal_at m (p + 2 + Z.of_nat k) b = Some r → r = bool_decide (slice x.2 k (length b) = b).
Proof using Hm. intros H. unfold equal_at. rewrite payload_at by done. cbn. by intros [= <-]. Qed.

(** A comparison that may look behind the element. *)
Lemma equal_prefix b j : equal_at m (p + 2) b = Some true → (j <= length b)%nat → (j <= length x.2)%nat → take j x.2 = take j b.
Proof using Hm.
  intros H Hj Hjx. unfold equal_at in H. destruct (load m (p + 2) (Z.of_nat (length b))) as [y|] eqn:Hl; [|done].
  cbn in H. injection H as H%bool_decide_eq_true. subst y. unfold load in Hl. destruct (_ && _); [|done]. injection Hl as Hl.
  apply (f_equal (take j)) in Hl. unfold slice in Hl. rewrite Nat2Z.id, take_take, Nat.min_l in Hl by done. rewrite <- Hl, Hm.
  replace (Z.to_nat (p + 2)) with (length a + 2)%nat by (unfold p; lia). rewrite <- drop_drop, drop_app_length.
  unfold element_bytes. rewrite <- app_assoc. cbn [app drop]. by rewrite drop_0, take_app_le by done.
Qed.

Lemma append_at o1 o' :
  append_VIE m p L o1 = Some o' → 0 <= (b_VIE o1).2 → (b_VIE o1).2 + L + 2 <= 1023 →
  o' = put_VIE o1 (put (b_VIE o1).1 (Z.to_nat (b_VIE o1).2) (element_bytes x), (b_VIE o1).2 + (L + 2)).
Proof using Hm.
  intros H H0 Hr. unfold append_VIE in H.
  assert (load m p (L + 2) = Some (element_bytes x)) as Hl.
  { apply (load_n_at m p a (element_bytes x) c); [done|done|]. rewrite length_element. unfold L. lia. }
  rewrite Hl, Some_bind in H. unfold store in H. destruct (_ && _); [|done]. rewrite Some_bind in H. injection H as <-.
  do 2 f_equal. unfold u16. rewrite Z.mod_small; unfold L in *; lia.
Qed.

(** What the rest of the development wants to know about the state [s'] after the
    element. *)
Record tracked (s' : state) : Prop := {
  tr_exit : p_exit s'.2 = p_exit l;
  tr_check : p_bWscCheck s'.2 = p_bWscCheck l;
  tr_vie : b_VIE s'.1 =
    if kept x then (put (b_VIE o).1 (Z.to_nat (b_VIE o).2) (element_bytes x), (b_VIE o).2 + (L + 2)) else b_VIE o;
  tr_sanity : p_Sanity s'.2 =
    p_Sanity l .| (if x.1 =? IE_SSID then 1 else if x.1 =? IE_SUPP_RATES then 2 else if x.1 =? IE_DS_PARM then 4 else 0);
  tr_ssid : b_Ssid s'.1 = if (x.1 =? IE_SSID) && (p_Sanity l & 1 =? 0) then (put (b_Ssid o).1 0 x.2, L) else b_Ssid o;
  tr_channel : b_Channel s'.1 = if x.1 =? IE_DS_PARM then x.2.[0] else b_Channel o;
  tr_wsc : if is_wps x then p_PeerWscIe s'.2 = Some (put buf 0 (drop 4 x.2)) ∧ p_PeerWscIeLen s'.2 = L - 4
           else p_PeerWscIe s'.2 = Some buf ∧ p_PeerWscIeLen s'.2 = p_PeerWscIeLen l;
}.

Lemma equal_first b r :
  (length b <= length x.2)%nat → equal_at m (p + 2) b = Some r → r = bool_decide (take (length b) x.2 = b).
Proof using Hm. intros H He. apply (equal_payload 0 b r H). by rewrite Z.add_0_r. Qed.

Lemma octet_at k : (k < length x.2)%nat → Octet m p (Z.of_nat k) = Some x.2.[k].
Proof using Hm.
  intros Hk. unfold Octet, load8. change 1 with (Z.of_nat 1). rewrite payload_at, Some_bind by lia. by rewrite get_slice, Nat.add_0_r by lia.
Qed.

(** Only outputs that are not followed here change. *)
Lemma tracked_same s' :
  kept x = false → is_wps x = false → x.1 ≠ IE_SSID → x.1 ≠ IE_SUPP_RATES → x.1 ≠ IE_DS_PARM →
  b_VIE s'.1 = b_VIE o → b_Ssid s'.1 = b_Ssid o → b_Channel s'.1 = b_Channel o →
  p_exit s'.2 = p_exit l → p_bWscCheck s'.2 = p_bWscCheck l → p_Sanity s'.2 = p_Sanity l →
  p_PeerWscIe s'.2 = p_PeerWscIe l → p_PeerWscIeLen s'.2 = p_PeerWscIeLen l → tracked s'.
Proof using Hbuf.
  intros Hk Hw H1 H2 H3 Hv Hs Hc He Hb Hsan Hp Hl.
  split; rewrite ?Hk, ?Hw, ?(proj2 (Z.eqb_neq _ _) H1), ?(proj2 (Z.eqb_neq _ _) H2), ?(proj2 (Z.eqb_neq _ _) H3); cbn [andb]; try done.
  - by rewrite Z.lor_0_r.
  - by rewrite Hp.
Qed.

Lemma wps_track SubType s' :
  wps_element m SubType p L (o, l) = Some s' → x.1 = IE_VENDOR_SPECIFIC → take 4 x.2 = WPS_OUI → tracked s'.
Proof using Hm Hx Hbuf.
  intros H He Hw. unfold wps_element in H. rewrite Hbuf in H.
  assert (is_wps x = true) as Hwps by (unfold is_wps; by rewrite He, Hw, bool_decide_eq_true_2).
  destruct (st_wps _ _ Hx Hwps) as [H5 H16]. pose proof (octet_at 4 H5) as Ho4. change (Z.of_nat 4) with 4 in Ho4. rewrite Ho4, Some_bind, H16 in H. cbn [Z.eqb Pos.eqb] in H.
  assert (load m (p + 2 + 4) (L - 4) = Some (drop 4 x.2)) as Hd.
  { replace (L - 4) with (Z.of_nat (length x.2 - 4)) by (unfold L; lia). change (p + 2 + 4) with (p + 2 + Z.of_nat 4). rewrite payload_at by lia.
    unfold slice. by rewrite take_ge by (rewrite length_drop; lia). }
  rewrite Hd, Some_bind in H. unfold store in H. destruct (_ && _); [|done]. rewrite !Some_bind in H.
  assert (kept x = false) as Hk. { unfold kept. rewrite He, Hw. done. }
  set (l1 := put_PeerWscIeLen _ _) in H.
  assert (∃ r, s' = (r, l1) ∧ b_VIE r = b_VIE o ∧ b_Ssid r = b_Ssid o ∧ b_Channel r = b_Channel o) as (r & -> & Hv & Hs & Hc).
  { destruct (SubType =? SUBTYPE_BEACON); [|injection H as <-; by exists o].
    destruct (selected_registrar _ _ _ _ _) as [t|]; [|done]. rewrite Some_bind in H. injection H as <-. by eexists. }
  split; rewrite ?Hk, ?Hwps, ?He; cbn; rewrite ?Hv, ?Hs, ?Hc, ?Z.lor_0_r; done.
Qed.

Lemma vendor_track SubType s' :
  vendor_element m SubType p L (o, l) = Some s' → x.1 = IE_VENDOR_SPECIFIC → 0 <= (b_VIE o).2 → (b_VIE o).2 + L + 2 <= 1023 → tracked s'.
Proof using Hm Hx Hbuf.
  intros H He H0 Hroom. pose proof (st_vendor _ _ Hx He) as H4.
  assert (∀ u s1, take 3 x.2 = u → u ≠ take 3 WPA_OUI → b_VIE s1.1 = b_VIE o → b_Ssid s1.1 = b_Ssid o → b_Channel s1.1 = b_Channel o →
    s1.2 = l → tracked s1) as Hother.
  { intros u [o1 l1] Hu Hne Hv Hs Hc Hl. cbn [fst snd] in *. subst l1.
    assert (∀ w, take 3 w = take 3 WPA_OUI → take 4 x.2 ≠ w) as Hd.
    { intros w Hw3 Hw4. apply Hne. rewrite <- Hu, <- Hw3, <- Hw4. by rewrite take_take. }
    apply tracked_same; cbn [fst snd]; rewrite ?He; try done.
    - unfold kept. rewrite He. cbn. apply bool_decide_eq_false_2. by apply Hd.
    - unfold is_wps. rewrite He. cbn. apply bool_decide_eq_false_2. by apply Hd. }
  assert (∀ s1, take 4 x.2 ≠ WPA_OUI → take 4 x.2 ≠ WPS_OUI → b_VIE s1.1 = b_VIE o → b_Ssid s1.1 = b_Ssid o → b_Channel s1.1 = b_Channel o →
    s1.2 = l → tracked s1) as Hsame.
  { intros [o1 l1] Hw1 Hw2 Hv Hs Hc Hl. cbn [fst snd] in *. subst l1.
    apply tracked_same; cbn [fst snd]; rewrite ?He; try done; unfold kept, is_wps; rewrite He; cbn; by apply bool_decide_eq_false_2. }
  unfold vendor_element in H.
  destruct (equal_at m (p + 2) RALINK_OUI) as [r1|] eqn:E1; [|done]. rewrite Some_bind in H. apply equal_first in E1; [|cbn; lia].
  destruct (r1 && (L =? 7)) eqn:C1.
  { apply andb_true_iff in C1 as [-> _]. symmetry in E1. apply bool_decide_eq_true in E1.
    destruct (Octet m p 3) as [t|]; [|done]. rewrite Some_bind in H. injection H as <-. by apply (Hother _ _ E1). }
  destruct (if (x_HtCapability (b_ies o)).2 =? 0 then equal_at m (p + 2) PRE_N_HT_OUI else Some false) as [r2|] eqn:E2; [|done].
  rewrite Some_bind in H. destruct (r2 && (4 <=? L)) eqn:C2.
  { apply andb_true_iff in C2 as [-> _]. destruct (_ =? 0) in E2; [|done]. apply equal_first in E2; [|cbn; lia].
    symmetry in E2. apply bool_decide_eq_true in E2. destruct (Octet m p 3) as [t|]; [|done]. rewrite Some_bind in H.
    apply bind_Some in H as (o1 & Ho1 & H). apply bind_Some in H as (o2 & Ho2 & H). injection H as <-.
    assert (∀ u v, b_VIE u = b_VIE v ∧ b_Ssid u = b_Ssid v ∧ b_Channel u = b_Channel v ↔ (b_VIE u, b_Ssid u, b_Channel u) = (b_VIE v, b_Ssid v, b_Channel v)) as Hpair.
    { intros u v. split; [by intros (-> & -> & ->)|by intros [= -> -> ->]]. }
    assert ((b_VIE o1, b_Ssid o1, b_Channel o1) = (b_VIE o, b_Ssid o, b_Channel o)) as Heq1.
    { destruct (_ && _) in Ho1; [|by injection Ho1 as <-]. apply bind_Some in Ho1 as (? & _ & Ho1). by injection Ho1 as <-. }
    assert ((b_VIE o2, b_Ssid o2, b_Channel o2) = (b_VIE o1, b_Ssid o1, b_Channel o1)) as Heq2.
    { destruct (_ && _) in Ho2; [|by injection Ho2 as <-]. apply bind_Some in Ho2 as (? & _ & Ho2). by injection Ho2 as <-. }
    rewrite Heq1 in Heq2. apply Hpair in Heq2 as (? & ? & ?). by apply (Hother _ _ E2). }
  destruct (equal_at m (p + 2) WPA_OUI) as [r3|] eqn:E3; [|done]. rewrite Some_bind in H. apply equal_first in E3; [|cbn; lia]. destruct r3.
  { symmetry in E3. apply bool_decide_eq_true in E3. apply bind_Some in H as (o1 & Ha & H). injection H as <-. apply append_at in Ha as ->; [|done..].
    change (length WPA_OUI) with 4%nat in E3.
    assert (kept x = true) as Hk by (unfold kept; rewrite He, E3; done). assert (is_wps x = false) as Hw by (unfold is_wps; rewrite He, E3; done).
    split; rewrite ?Hk, ?Hw, ?He; cbn; rewrite ?Z.lor_0_r; done. }
  symmetry in E3. apply bool_decide_eq_false in E3. change (length WPA_OUI) with 4%nat in E3.
  assert (∀ b e s1, equal_at m (p + 2) b = Some true → take 4 b = e → (4 <= length b)%nat → e ≠ WPS_OUI →
    b_VIE s1.1 = b_VIE o → b_Ssid s1.1 = b_Ssid o → b_Channel s1.1 = b_Channel o → s1.2 = l → tracked s1) as Hwme.
  { intros b e s1 Hb He4 Hlb Hne. intros. apply Hsame; try done. by rewrite (equal_prefix b 4 Hb Hlb H4), He4. }
  destruct (equal_at m (p + 2) WME_PARM_ELEM) as [r4|] eqn:E4; [|done]. rewrite Some_bind in H. destruct (r4 && (L =? 24)) eqn:C4.
  { apply andb_true_iff in C4 as [-> _]. apply bind_Some in H as (e & _ & H). injection H as <-. eapply Hwme; [exact E4|reflexivity|cbn; lia|done..]. }
  destruct (equal_at m (p + 2) WME_INFO_ELEM) as [r5|] eqn:E5; [|done]. rewrite Some_bind in H. destruct (r5 && (L =? 7)) eqn:C5.
  { apply andb_true_iff in C5 as [-> _]. apply bind_Some in H as (e & _ & H). injection H as <-. eapply Hwme; [exact E5|reflexivity|cbn; lia|done..]. }
  destruct (equal_at m (p + 2) WPS_OUI) as [r6|] eqn:E6; [|done]. rewrite Some_bind in H. apply equal_first in E6; [|cbn; lia].
  change (length WPS_OUI) with 4%nat in E6. destruct r6; symmetry in E6.
  - apply bool_decide_eq_true in E6. by eapply wps_track.
  - apply bool_decide_eq_false in E6. injection H as <-. by apply Hsame.
Qed.

(** Solves the cases whose outputs are not followed. *)
Ltac same_leaf He :=
  apply tracked_same; cbn [fst snd]; rewrite ?He; try done; unfold kept, is_wps; rewrite He; done.

Lemma lor_one s : (s & 1 =? 0) = false → s .| 1 = s.
Proof.
  intros H. assert (Z.testbit s 0 = true) as H0.
  { rewrite <- single_bit by lia. change (Z.shiftl 1 0) with 1. by rewrite H. }
  apply Z.bits_inj'. intros i Hi. rewrite Z.lor_spec. destruct (decide (i = 0)) as [->|Hne]; [by rewrite H0|].
  change 1 with (2 ^ 0). by rewrite Z.pow2_bits_false, orb_false_r by lia.
Qed.

Lemma move_payload dst n b : move_at dst m (p + 2) n = Some b → n = L → b = put dst 0 x.2.
Proof using Hm.
  intros H ->. unfold move_at in H. pose proof (payload_at 0 (length x.2) ltac:(lia)) as Hl. cbn [Z.of_nat] in Hl. rewrite Z.add_0_r in Hl.
  unfold L in H. rewrite Hl, Some_bind in H. rewrite slice_all in H by done. unfold store in H. destruct (_ && _); [|done]. by injection H as <-.
Qed.

Lemma switch_track s' :
  switch_element cfg hd m p x.1 L (o, l) = Some s' → 0 <= (b_VIE o).2 → (b_VIE o).2 + L + 2 <= 1023 → tracked s'.
Proof using Hm Hx Hbuf.
  intros H H0 Hroom. pose proof (st_length _ _ Hx) as Hlen.
  assert (∀ o1 o2, append_VIE m p L o1 = Some o2 → b_VIE o1 = b_VIE o →
    o2 = put_VIE o1 (put (b_VIE o).1 (Z.to_nat (b_VIE o).2) (element_bytes x), (b_VIE o).2 + (L + 2))) as Happend.
  { intros o1 o2 Ha Hv. rewrite <- Hv. apply append_at; [done|by rewrite Hv..]. }
  assert (∀ o1 l1, kept x = true → is_wps x = false → x.1 ≠ IE_SSID → x.1 ≠ IE_SUPP_RATES → x.1 ≠ IE_DS_PARM →
    b_Ssid o1 = b_Ssid o → b_Channel o1 = b_Channel o → p_exit l1 = p_exit l → p_bWscCheck l1 = p_bWscCheck l → p_Sanity l1 = p_Sanity l →
    p_PeerWscIe l1 = p_PeerWscIe l → p_PeerWscIeLen l1 = p_PeerWscIeLen l →
    tracked (put_VIE o1 (put (b_VIE o).1 (Z.to_nat (b_VIE o).2) (element_bytes x), (b_VIE o).2 + (L + 2)), l1)) as Htr.
  { intros o1 l1 Hk Hw N1 N2 N3 E1 E2 E3 E4 E5 E6 E7. split; cbn [fst snd]; rewrite ?Hk, ?Hw, ?(proj2 (Z.eqb_neq _ _) N1), ?(proj2 (Z.eqb_neq _ _) N2), ?(proj2 (Z.eqb_neq _ _) N3); cbn [andb]; try done.
    - by rewrite Z.lor_0_r. - by rewrite E6. }
  unfold switch_element in H.
  repeat match type of H with context [if x.1 =? ?k then _ else _] => destruct (Z.eqb_spec x.1 k) as [He|]; [clear - H He H0 Hroom Hlen Happend Htr Hm Hx Hbuf|] end.
  - destruct (p_Sanity l & 1 =? 0) eqn:Hs; cbn [negb] in H.
    + pose proof (st_ssid _ _ Hx He). rewrite (proj2 (Z.leb_le _ _)) in H by (unfold L, MAX_LEN_OF_SSID; lia).
      apply bind_Some in H as (b & Hb & H). apply move_payload in Hb as ->; [|done]. injection H as <-.
      split; unfold kept, is_wps; rewrite ?He, ?Hs; done.
    + injection H as <-. split; unfold kept, is_wps; rewrite ?He; cbn [fst snd andb Z.eqb IE_SSID]; rewrite ?Hs; try done. cbn. by rewrite lor_one.
  - pose proof (st_rates _ _ Hx He). rewrite (proj2 (Z.leb_le _ _)) in H by (unfold L, MAX_LEN_OF_SUPPORTED_RATES; lia).
    apply bind_Some in H as (b & Hb & H). injection H as <-. split; unfold kept, is_wps; rewrite ?He; done.
  - destruct (SIZE_HT_CAP_IE <=? L) eqn:Hl.
    + apply bind_Some in H as (b & _ & H). apply bind_Some in H as (o1 & Ha & H). injection H as <-. apply Happend in Ha as ->; [|done].
      apply Htr; rewrite ?He; try done; unfold kept, is_wps; rewrite He; done.
    + injection H as <-. apply tracked_same; rewrite ?He; try done; unfold kept, is_wps; rewrite He; done.
  - destruct (SIZE_ADD_HT_INFO_IE <=? L) eqn:Hl.
    + apply bind_Some in H as (b & _ & H). apply bind_Some in H as (o1 & Ha & H). injection H as <-. apply Happend in Ha as ->; [|done].
      apply Htr; rewrite ?He; try done; unfold kept, is_wps; rewrite He; done.
    + injection H as <-. apply tracked_same; rewrite ?He; try done; unfold kept, is_wps; rewrite He; done.
  - destruct (L =? 1); [apply bind_Some in H as (t & _ & H)|]; injection H as <-; same_leaf He.
  - destruct (st_ds _ _ Hx He) as [H1 Hch]. unfold L in H. rewrite H1 in H. cbn [Z.of_nat Z.eqb Pos.of_succ_nat Pos.eqb] in H.
    rewrite (octet_at 0 ltac:(lia) : Octet m p 0 = _), Some_bind, Hch in H. injection H as <-. split; unfold kept, is_wps; rewrite ?He; done.
  - pose proof (st_cf _ _ Hx He) as H6. unfold L in H. rewrite H6 in H. apply bind_Some in H as (t & _ & H); injection H as <-; same_leaf He.
  - pose proof (st_ibss _ _ Hx He) as H6. unfold L in H. rewrite H6 in H. apply bind_Some in H as (t & _ & H); injection H as <-; same_leaf He.
  - destruct (_ && _); [apply bind_Some in H as (t & _ & H)|]; injection H as <-; same_leaf He.
  - destruct (L =? 3); [apply bind_Some in H as (t & _ & H)|]; injection H as <-; same_leaf He.
  - by eapply vendor_track.
  - destruct (L <=? _); [apply bind_Some in H as (t & _ & H)|]; injection H as <-; same_leaf He.
  - destruct (L =? 1); [apply bind_Some in H as (t & _ & H)|]; injection H as <-; same_leaf He.
  - destruct (L <? _); [|apply bind_Some in H as (t & _ & H)]; injection H as <-; same_leaf He.
  - destruct (negb _); [|apply bind_Some in H as (r & _ & H); destruct r; [apply bind_Some in H as (t & _ & H)|]]; injection H as <-; same_leaf He.
  - apply bind_Some in H as (r & Hr & H). apply (equal_payload 2 RSN_OUI) in Hr; [|pose proof (st_rsn _ _ Hx He); cbn; lia]. change (length RSN_OUI) with 3%nat in Hr. destruct r; symmetry in Hr.
    + apply bind_Some in H as (o1 & Ha & H). injection H as <-. apply Happend in Ha as ->; [|done].
      apply Htr; rewrite ?He; try done; unfold kept, is_wps; rewrite He; done.
    + injection H as <-. apply tracked_same; rewrite ?He; try done; unfold kept, is_wps; rewrite He; done.
  - destruct (L =? 5) eqn:Hl.
    + apply bind_Some in H as (q & _ & H). apply bind_Some in H as (o1 & Ha & H). injection H as <-. apply Happend in Ha as ->; [|done].
      apply Htr; rewrite ?He; try done; unfold kept, is_wps; rewrite He; done.
    + injection H as <-. apply tracked_same; rewrite ?He; try done; unfold kept, is_wps; rewrite He; done.
  - destruct (1 <=? L); [apply bind_Some in H as (t & _ & H)|]; injection H as <-; same_leaf He.
  - injection H as <-. apply tracked_same; try done; unfold kept, is_wps, IE_WPA in *.
    + by rewrite !(proj2 (Z.eqb_neq _ _)) by done.
    + by rewrite !(proj2 (Z.eqb_neq _ _)) by done.
Qed.
End Element.

(** ** Frames *)

Fixpoint first_ssid (l : list element) : option (list Z) :=
  match l with
  | [] => None
  | x :: l => if x.1 =? IE_SSID then Some x.2 else first_ssid l
  end.

Definition has (Eid : Z) (l : list element) : bool := existsb (λ x : element, x.1 =? Eid) l.

(** What a frame says about the network: the first SSID, and the last channel. *)
Definition frame_ssid (l : list element) : list Z * Z :=
  match first_ssid l with
  | Some s => (put (zeros MAX_LEN_OF_SSID) 0 s, Z.of_nat (length s))
  | None => (zeros MAX_LEN_OF_SSID, 0)
  end.

Definition frame_channel (l : list element) : Z :=
  foldl (λ c (x : element), if x.1 =? IE_DS_PARM then x.2.[0] else c) 0 l.

(** The three elements a frame must have. *)
Definition complete (l : list element) : bool := has IE_SSID l && has IE_SUPP_RATES l && has IE_DS_PARM l.

Definition sanity_bits (l : list element) : Z :=
  (if has IE_SSID l then 1 else 0) + (if has IE_SUPP_RATES l then 2 else 0) + (if has IE_DS_PARM l then 4 else 0).

(** The elements that reach the scan table, in their order there. *)
Definition stored_elements (l : list element) : list element := filter (λ x, kept x) l ++ filter (λ x, is_wps x) l.

Lemma has_snoc Eid l x : has Eid (l ++ [x]) = has Eid l || (x.1 =? Eid).
Proof. unfold has. rewrite existsb_app. cbn. by rewrite orb_false_r. Qed.

Lemma first_ssid_snoc l x :
  first_ssid (l ++ [x]) = match first_ssid l with Some s => Some s | None => if x.1 =? IE_SSID then Some x.2 else None end.
Proof. induction l as [|y l IH]; [done|]. cbn [app first_ssid]. by destruct (y.1 =? IE_SSID). Qed.

Lemma has_ssid l : has IE_SSID l = bool_decide (is_Some (first_ssid l)).
Proof. induction l as [|y l IH]; [done|]. cbn [has existsb first_ssid]. destruct (y.1 =? IE_SSID); [done|exact IH]. Qed.

Lemma sanity_snoc l x :
  sanity_bits l .| (if x.1 =? IE_SSID then 1 else if x.1 =? IE_SUPP_RATES then 2 else if x.1 =? IE_DS_PARM then 4 else 0) = sanity_bits (l ++ [x]).
Proof.
  unfold sanity_bits. rewrite !has_snoc.
  destruct (Z.eqb_spec x.1 IE_SSID) as [He|_]; [rewrite He; by destruct (has IE_SSID l), (has IE_SUPP_RATES l), (has IE_DS_PARM l)|].
  destruct (Z.eqb_spec x.1 IE_SUPP_RATES) as [He|_]; [rewrite He; by destruct (has IE_SSID l), (has IE_SUPP_RATES l), (has IE_DS_PARM l)|].
  destruct (x.1 =? IE_DS_PARM); by destruct (has IE_SSID l), (has IE_SUPP_RATES l), (has IE_DS_PARM l).
Qed.

Lemma sanity_ssid l : (sanity_bits l & 1 =? 0) = negb (has IE_SSID l).
Proof. unfold sanity_bits. by destruct (has IE_SSID l), (has IE_SUPP_RATES l), (has IE_DS_PARM l). Qed.

Lemma sanity_channel l : (sanity_bits l & 4 =? 0) = negb (has IE_DS_PARM l).
Proof. unfold sanity_bits. by destruct (has IE_SSID l), (has IE_SUPP_RATES l), (has IE_DS_PARM l). Qed.

Lemma sanity_complete l : (sanity_bits l =? 7) = complete l.
Proof. unfold sanity_bits, complete. by destruct (has IE_SSID l), (has IE_SUPP_RATES l), (has IE_DS_PARM l). Qed.

Lemma elements_app l l' : elements_bytes (l ++ l') = elements_bytes l ++ elements_bytes l'.
Proof. unfold elements_bytes. by rewrite fmap_app, concat_app. Qed.

(** The state after the elements [seen]. *)
Record walked (seen : list element) (s : state) : Prop := {
  wk_ok : loop_ok (Z.of_nat (length (elements_bytes seen))) s;
  wk_exit : p_exit s.2 = EndOfLoop;
  wk_check : p_bWscCheck s.2 = true;
  wk_vie : ∃ rest, (b_VIE s.1).1 = elements_bytes (filter (λ x, kept x) seen) ++ rest;
  wk_len : (b_VIE s.1).2 = Z.of_nat (length (elements_bytes (filter (λ x, kept x) seen)));
  wk_sanity : p_Sanity s.2 = sanity_bits seen;
  wk_ssid : b_Ssid s.1 = frame_ssid seen;
  wk_channel : b_Channel s.1 = frame_channel seen;
  wk_wsc : ∃ buf, p_PeerWscIe s.2 = Some buf ∧
    match filter (λ x, is_wps x) seen with
    | [] => p_PeerWscIeLen s.2 = 0
    | y :: _ => p_PeerWscIeLen s.2 = Z.of_nat (length y.2) - 4 ∧ ∃ r, buf = drop 4 y.2 ++ r
    end;
}.

Lemma filter_snoc (P : element → bool) l x : filter (λ y, P y) (l ++ [x]) = filter (λ y, P y) l ++ (if P x then [x] else []).
Proof. rewrite filter_app. f_equal. rewrite filter_cons, filter_nil. by destruct (P x). Qed.

(** Writing behind what an array already holds. *)
Lemma put_behind (a rest b : list Z) :
  (length b <= length rest)%nat → put (a ++ rest) (length a) b = (a ++ b) ++ drop (length b) rest.
Proof.
  intros H. rewrite put_splice by (rewrite length_app; lia). rewrite take_app_length, <- drop_drop, drop_app_length. by rewrite app_assoc.
Qed.

Section Walk.
Context (cfg : rx_cfg) (hd : fixed_part) (hdr tail : list Z) (l : list element).
Let m := hdr ++ elements_bytes l ++ tail.
Let MsgLen := Z.of_nat (length (hdr ++ elements_bytes l)).
Context (Hhdr : length hdr = 36%nat) (Hm : bytes m) (Htail : (260 <= length tail)%nat) (Hshort : (length (elements_bytes l) <= 1022)%nat)
  (Hl : Forall (standard cfg) l) (Hone : (length (filter (λ x, is_wps x) l) <= 1)%nat) (Hwps : wps_sound m MsgLen).

Lemma walk_step seen x rest s :
  l = seen ++ x :: rest → walked seen s →
  ∃ s', beacon_element cfg hd m (Z.of_nat (length (hdr ++ elements_bytes seen))) x.1 (Z.of_nat (length x.2)) s = Some (s', true) ∧ walked (seen ++ [x]) s'.
Proof using All.
  intros Hseen [Hok Hexit Hcheck (vr & Hvie) Hlen Hsan Hssid Hch (buf & Hbuf & Hwsc)]. destruct s as [o p]. cbn [fst snd] in *.
  set (a := hdr ++ elements_bytes seen). assert (m = a ++ element_bytes x ++ (elements_bytes rest ++ tail)) as Hmx.
  { unfold m, a. rewrite Hseen, elements_app, elements_cons. by rewrite <- !app_assoc. }
  assert (standard cfg x) as Hx. { rewrite Hseen in Hl. apply Forall_app in Hl as [_ Hl2]. by apply Forall_cons in Hl2 as [? _]. }
  pose proof (st_length _ _ Hx) as H255.
  assert (length (elements_bytes l) = length (elements_bytes seen) + (2 + length x.2) + length (elements_bytes rest))%nat as Hsum.
  { rewrite Hseen, elements_app, elements_cons, !length_app, length_element. lia. }
  assert (Z.of_nat (length a) = 36 + Z.of_nat (length (elements_bytes seen))) as Ha by (unfold a; rewrite length_app; lia).
  pose proof (lo_sum _ _ Hok) as Hle. pose proof (lo_len _ _ Hok) as Hwl. cbn [fst snd] in Hle, Hwl.
  assert ((b_VIE o).2 + Z.of_nat (length x.2) + 2 <= 1022) as Hroom by (destruct (_ =? 0); lia).
  assert (MsgLen = Z.of_nat (36 + length (elements_bytes l))) as HML by (unfold MsgLen; rewrite length_app; lia).
  unfold beacon_element. cbn [fst]. unfold MAX_VIE_LEN. rewrite (proj2 (Z.leb_gt _ _)) by lia.
  destruct (switch_element_ok cfg hd m MsgLen (Z.of_nat (length a)) (Z.of_nat (length x.2)) (Z.of_nat (length (elements_bytes seen))) o p) with (Eid := x.1)
    as (s' & Hs & Hok'); [done|done|lia|lia|lia| |lia| | |done|].
  { unfold m. rewrite !length_app. lia. }
  { by apply (load8_at m _ a x.1 (Z.of_nat (length x.2) :: x.2 ++ elements_bytes rest ++ tail)). }
  { apply (load8_at m _ (a ++ [x.1]) (Z.of_nat (length x.2)) (x.2 ++ elements_bytes rest ++ tail)); [by rewrite Hmx, <- app_assoc|rewrite (length_app a); cbn [length]; lia]. }
  rewrite Hs, Some_bind. destruct (switch_track cfg hd m a _ x o p buf Hmx Hx Hbuf s' Hs) as [T1 T2 T3 T4 T5 T6 T7]; [lia..|].
  rewrite T1, Hexit. exists s'. split; [done|]. split.
  - rewrite elements_app, length_app. unfold elements_bytes at 2. cbn [fmap list_fmap concat]. rewrite app_nil_r, length_element.
    by replace (Z.of_nat (length (elements_bytes seen) + (2 + length x.2))) with (Z.of_nat (length (elements_bytes seen)) + 2 + Z.of_nat (length x.2)) by lia.
  - by rewrite T1.
  - by rewrite T2.
  - rewrite T3, filter_snoc. destruct (kept x); [|rewrite app_nil_r; by exists vr]. cbn [fst]. rewrite Hvie, Hlen, Nat2Z.id.
    pose proof (bo_vie _ (lo_out _ _ Hok)) as (Hvl & _). cbn [fst] in Hvl. rewrite Hvie, length_app in Hvl. unfold MAX_VIE_LEN in Hvl.
    rewrite put_behind by (rewrite length_element; lia). rewrite elements_app. unfold elements_bytes at 3. cbn [fmap list_fmap concat]. rewrite app_nil_r. by eexists.
  - rewrite T3, filter_snoc. destruct (kept x); [|by rewrite app_nil_r]. cbn [snd]. rewrite elements_app, length_app, Hlen.
    unfold elements_bytes at 3. cbn [fmap list_fmap concat]. rewrite app_nil_r, length_element. lia.
  - by rewrite T4, Hsan, sanity_snoc.
  - rewrite T5, Hsan, sanity_ssid, has_ssid, Hssid. unfold frame_ssid. rewrite first_ssid_snoc. destruct (first_ssid seen); cbn; [by rewrite andb_false_r|].
    rewrite andb_true_r. by destruct (x.1 =? IE_SSID).
  - rewrite T6, Hch. unfold frame_channel. by rewrite foldl_app.
  - rewrite filter_snoc. destruct (is_wps x) eqn:Hw; destruct T7 as [-> T7].
    + rewrite Hseen, filter_app, filter_cons_True, length_app in Hone by by rewrite Hw. cbn [length] in Hone.
      destruct (filter (λ y, is_wps y) seen); [|cbn [length] in Hone; lia]. eexists. split; [done|]. cbn [app]. split; [done|].
      pose proof (lo_wsc _ _ Hok) as Hb. cbn [snd] in Hb. rewrite Hbuf in Hb. destruct Hb as [Hb _].
      exists (drop (length (drop 4 x.2)) buf). rewrite put_splice by (rewrite length_drop; lia). done.
    + rewrite app_nil_r, T7. by exists buf.
Qed.
End Walk.

(** The element of Wi-Fi Protected Setup is put together again as it was. *)
Lemma wps_element_bytes cfg x :
  standard cfg x → is_wps x = true →
  [0xdd; u8 (Z.of_nat (length x.2) - 4 + 4); 0x00; 0x50; 0xF2; 0x04] ++ drop 4 x.2 = element_bytes x.
Proof.
  intros Hx Hw. pose proof (st_length _ _ Hx). unfold is_wps in Hw. apply andb_true_iff in Hw as [He%Z.eqb_eq Hw%bool_decide_eq_true].
  unfold element_bytes. rewrite He. change IE_VENDOR_SPECIFIC with 0xdd. unfold u8.
  rewrite Z.mod_small by lia. replace (Z.of_nat (length x.2) - 4 + 4) with (Z.of_nat (length x.2)) by lia.
  rewrite <- (take_drop 4 x.2) at 4. by rewrite Hw.
Qed.

Lemma stored_length l : (length (elements_bytes (filter (λ x, kept x) l)) + length (elements_bytes (filter (λ x, is_wps x) l)) <= length (elements_bytes l))%nat.
Proof.
  induction l as [|x l IH]; [done|]. rewrite !filter_cons, elements_cons, length_app.
  assert (kept x → is_wps x → False) as Hno.
  { unfold kept, is_wps. rewrite !Is_true_true, andb_true_iff. intros Hk [He%Z.eqb_eq Hw%bool_decide_eq_true]. by rewrite He, Hw in Hk. }
  destruct (decide (kept x)) as [Hk|], (decide (is_wps x)) as [Hw|]; rewrite ?elements_cons, ?length_app; first [lia|by destruct (Hno Hk Hw)].
Qed.

Lemma after_loop_walked cfg MsgChannel l s :
  walked l s → LatchRfChannel cfg <= 14 → Forall (standard cfg) l → (length (elements_bytes l) <= 1022)%nat →
  (length (filter (λ x, is_wps x) l) <= 1)%nat →
  ∃ s' rest, after_loop cfg MsgChannel s = Some s' ∧ out_ok s'.1 ∧ b_Ssid s'.1 = frame_ssid l ∧ b_Channel s'.1 = frame_channel l ∧
    p_Sanity s'.2 = sanity_bits l ∧ p_bWscCheck s'.2 = true ∧
    b_VIE s'.1 = (elements_bytes (stored_elements l) ++ rest, Z.of_nat (length (elements_bytes (stored_elements l)))).
Proof.
  intros [Hok Hexit Hcheck (vr & Hvie) Hlen Hsan Hssid Hch (buf & Hbuf & Hwsc)] Hlow Hstd Hshort Hone.
  destruct s as [o p]. cbn [fst snd] in *. pose proof (stored_length l) as Hsl.
  destruct (after_loop_ok cfg MsgChannel o p) as (s' & Hs' & Hout); [apply (loop_ok_le _ _ _ Hok); lia|].
  exists s'. rewrite Hs'. unfold after_loop in Hs'. rewrite (proj2 (Z.ltb_ge _ _) Hlow) in Hs'. cbn [andb] in Hs'.
  set (o1 := if negb _ && _ && _ then _ else o) in Hs'.
  assert (b_VIE o1 = b_VIE o ∧ b_Ssid o1 = b_Ssid o ∧ b_Channel o1 = b_Channel o) as (Hv1 & Hs1 & Hc1) by (unfold o1; by destruct (_ && _)).
  rewrite Hbuf, Hv1 in Hs'. clearbody o1. unfold stored_elements. rewrite elements_app.
  destruct (filter (λ x, is_wps x) l) as [|y ws] eqn:Hws.
  - rewrite Hwsc in Hs'. cbn in Hs'. injection Hs' as <-. exists vr. cbn [fst snd]. rewrite Hs1, Hc1, Hv1. split_and!; try done.
    unfold elements_bytes at 2 4. cbn [fmap list_fmap concat]. rewrite app_nil_r, <- Hvie, <- Hlen. by destruct (b_VIE o).
  - destruct ws; [|cbn [length] in Hone; lia]. destruct Hwsc as [Hn (r & Hr)].
    assert (y ∈ filter (λ x, is_wps x) l) as Hy by (rewrite Hws; apply list_elem_of_here).
    apply list_elem_of_filter in Hy as [Hyw Hyl]. apply Is_true_true in Hyw. pose proof (proj1 (Forall_forall _ _) Hstd _ Hyl) as Hyx.
    pose proof (st_length _ _ Hyx). pose proof (st_wps _ _ Hyx Hyw) as [H5 _].
    rewrite Hn, (proj2 (Z.ltb_lt _ _)), (proj2 (Z.leb_le _ _)), Hcheck in Hs' by lia. cbn [andb] in Hs'.
    rewrite Hr, (load_n_at _ 0 [] (drop 4 y.2) r) in Hs' by (first [done|rewrite length_drop; lia]).
    change (elements_bytes [y]) with (element_bytes y ++ []) in *. rewrite app_nil_r in *. rewrite length_element in Hsl.
    pose proof (bo_vie _ (lo_out _ _ Hok)) as (Hvl & _). cbn [fst] in Hvl. rewrite Hvie, length_app in Hvl. unfold MAX_VIE_LEN in Hvl.
    set (K := elements_bytes (filter (λ x, kept x) l)) in *. set (hd6 := [_; _; _; _; _; _]) in Hs'.
    assert (hd6 ++ drop 4 y.2 = element_bytes y) as Hel by exact (wps_element_bytes cfg y Hyx Hyw).
    rewrite store_ok, Some_bind in Hs' by (rewrite ?Hvie, ?length_app, ?Hlen; cbn [length hd6]; lia).
    rewrite Some_bind, store_ok, Some_bind in Hs' by (rewrite ?length_put, ?length_drop, ?Hvie, ?length_app, ?Hlen; lia). injection Hs' as <-.
    exists (drop (length (element_bytes y)) vr). cbn [fst snd b_Ssid b_Channel b_VIE put_VIE]. rewrite Hs1, Hc1. split_and!; try done.
    rewrite Hlen, Hvie. replace (Z.to_nat (Z.of_nat (length K) + 6)) with (Z.to_nat (Z.of_nat (length K)) + length hd6)%nat by (cbn [length hd6]; lia).
    rewrite put_put_adjacent by (rewrite length_app, length_drop; cbn [length hd6]; lia).
    rewrite Hel, Nat2Z.id, put_behind by (rewrite length_element; lia). f_equal.
    unfold u16. rewrite length_app, length_element, Z.mod_small; lia.
Qed.

Lemma scan_locals_ok E : bytes (garbage E) → out_ok (scan_locals E).
Proof.
  intros HE. split; cbn [scan_locals b_Ssid b_SupRate b_ies b_VIE fst snd].
  - by split; [rewrite length_zeros|lia].
  - rewrite length_local_array. lia.
  - split; cbn [x_ExtRate x_HtCapability x_AddHtInfo x_EdcaParm parm fst snd]; rewrite ?length_local_array, ?length_zeros; try done; (split; [done|]); first [lia|by repeat constructor].
  - rewrite length_insert, length_local_array. split; [done|]. split; [|lia]. apply Forall_insert; [by apply bytes_local_array|]. unfold fits. lia.
Qed.

(** The parser's loop over the whole frame. *)
Lemma walk_frame E cfg hd hdr l tail :
  let m := hdr ++ elements_bytes l ++ tail in
  let MsgLen := Z.of_nat (length (hdr ++ elements_bytes l)) in
  length hdr = 36%nat → bytes m → (260 <= length tail)%nat → (length (elements_bytes l) <= 1022)%nat → Forall (standard cfg) l →
  (length (filter (λ x, is_wps x) l) <= 1)%nat → wps_sound m MsgLen → bytes (garbage E) → kmalloc E 512 = true →
  ∃ s, walk (Z.to_nat MsgLen) m MsgLen (beacon_element cfg hd m) 36 (reset (scan_locals E), start E) = Some s ∧ walked l s.
Proof.
  intros m MsgLen Hhdr Hm Ht Hshort Hl Hone Hwps HE Hmem.
  destruct (walk_elements m hdr l tail (Z.to_nat MsgLen) (beacon_element cfg hd m) walked (reset (scan_locals E), start E)) as (s & Hs & Hw).
  - done.
  - lia.
  - apply Forall_app in Hm as [_ Hm]. by apply Forall_app in Hm as [_ Hm].
  - eapply Forall_impl; [exact Hl|]. intros x Hx. exact (st_length _ _ Hx).
  - unfold MsgLen. rewrite length_app. lia.
  - intros seen x rest s. by apply walk_step.
  - split; try done.
    + apply loop_start_ok; [done|by apply scan_locals_ok].
    + by eexists.
    + exists (local_array E 512). unfold start. cbn [snd p_PeerWscIe]. by rewrite Hmem.
  - exists s. rewrite Hhdr in Hs. by split.
Qed.

(** *** From a frame to the scan table *)

(** The elements of a frame that reach the scan table, in their order there. *)
Definition table_elements (l : list announced) : list announced :=
  filter (λ i, kept (element_of i)) l ++ filter (λ i, is_wps (element_of i)) l.

Lemma filter_element_of (P : element → bool) (l : list announced) :
  element_of <$> filter (λ i, P (element_of i)) l = filter (λ x, P x) (element_of <$> l).
Proof.
  induction l as [|i l IH]; [done|]. rewrite fmap_cons, !filter_cons. destruct (decide (P (element_of i))); [|done].
  by rewrite fmap_cons, IH.
Qed.

Lemma stored_bytes l : announced_bytes (table_elements l) = elements_bytes (stored_elements (element_of <$> l)).
Proof. unfold announced_bytes, table_elements, stored_elements. by rewrite fmap_app, !filter_element_of. Qed.

Lemma stored_wf l : Forall announced_wf l → Forall announced_wf (table_elements l).
Proof. intros H. apply Forall_app. split; (apply Forall_forall; intros i Hi; apply list_elem_of_filter in Hi as [_ Hi]; by apply (proj1 (Forall_forall _ _) H)). Qed.

(** Every suite a frame announces is stored; the element of SES never is. *)
Lemma suites_kept r : announced_wf (Suites r) → kept (element_of (Suites r)) = true.
Proof.
  intros [Hwf Hr]. unfold kept, element_of, rsn_body, rsn_head. cbn [fst snd]. pose proof (wf_group _ Hwf) as Hg. destruct (r_wpa2 r) eqn:Hw.
  - destruct Hr as (_ & Hg3 & _). cbn. apply bool_decide_eq_true. unfold slice. cbn. by rewrite drop_0, take_app_le by lia.
  - done.
Qed.

Lemma ses_dropped payload : announced_wf (Ses payload) → kept (element_of (Ses payload)) = false ∧ is_wps (element_of (Ses payload)) = false.
Proof.
  intros [Hl Hs]. unfold kept, is_wps, element_of. cbn [fst snd]. cbn [Z.eqb Pos.eqb andb IE_WPA IE_HT_CAP IE_ADD_HT IE_VENDOR_SPECIFIC].
  assert (∀ w, take 3 w ≠ SES_OUI → take 4 payload ≠ w) as H.
  { intros w Hw He. apply Hw. by rewrite <- He, take_take. }
  split; apply bool_decide_eq_false_2; by apply H.
Qed.

Lemma scan_args_ok hd o Rssi l rest :
  out_ok o → b_VIE o = (announced_bytes l ++ rest, Z.of_nat (length (announced_bytes l))) → (2 <= length rest)%nat → Forall announced_wf l →
  args_ok (scan_args hd o Rssi) l rest.
Proof.
  intros [Hs Hr [He Hh Ha Hed] (Hv & Hb & _)] Hvie Hrest Hwf. rewrite Hvie in Hv, Hb. cbn [fst] in Hv, Hb.
  split; cbn [scan_args a_Ssid a_SsidLen a_SupRate a_ExtRate a_SupRateLen a_ExtRateLen a_HtCapability a_AddHtInfo
    a_HtCapabilityLen a_AddHtInfoLen a_VIE a_LengthVIE]; rewrite ?Hvie; cbn [fst snd]; try done.
  - destruct Hr, He. split_and!; [done|done|lia|lia].
  - destruct Hh as [? Hh], Ha as [? Ha]. split_and!; try done. destruct (_ || _); [by repeat constructor|done].
  - split; [done|]. split; [|done]. by apply Forall_app in Hb as [_ Hb].
Qed.

(** C19: A frame of well-formed elements makes the step of the scan table that belongs to
    what it says: to the BSSID and the fixed fields of its header, its first SSID,
    its channel, and those of its elements the table keeps, byte for byte; a frame
    without SSID, rates or channel changes nothing. *)
Theorem beacon_scanned E cfg now C h t hdr l tail MsgChannel Rssi :
  let m := hdr ++ announced_bytes l ++ tail in
  let MsgLen := Z.of_nat (length (hdr ++ announced_bytes l)) in
  let els := element_of <$> l in
  length hdr = 36%nat → bytes m → (260 <= length tail)%nat → (length (announced_bytes l) <= 1022)%nat →
  Forall announced_wf l → Forall (standard cfg) els → (length (filter (λ x, is_wps x) els) <= 1)%nat → wps_sound m MsgLen →
  LatchRfChannel cfg <= 14 → bytes (garbage E) → (∀ n, kmalloc E n = true) →
  ∃ hd a pad, read_fixed m = Some hd ∧ args_ok a (table_elements l) pad ∧
    (a_Bssid a, a_BssType a, a_BeaconPeriod a, a_CapabilityInfo a, a_TimeStamp a, a_Rssi a) =
      (h_Bssid hd, h_BssType hd, h_BeaconPeriod hd, h_CapabilityInfo hd, h_Timestamp hd, Rssi) ∧
    (a_Ssid a, a_SsidLen a) = frame_ssid els ∧ a_Channel a = frame_channel els ∧
    PeerBeaconAtScanAction E cfg now C h t m MsgLen MsgChannel Rssi =
      if complete els then scan_step (Frame now C a (table_elements l) pad (h_SubType hd =? SUBTYPE_PROBE_RSP)) (h, t) else Some (h, t).
Proof.
  intros m MsgLen els Hhdr Hm Ht Hshort Hwf Hstd Hone Hwps Hlow HE Hmem.
  destruct (read_fixed_some m Hm) as (hd & Hhd); [unfold m; rewrite !length_app; lia|].
  destruct (walk_frame E cfg hd hdr els tail Hhdr Hm Ht Hshort Hstd Hone Hwps HE (Hmem _)) as ([o p] & Hw & Hwalked).
  destruct (after_loop_walked cfg MsgChannel els _ Hwalked Hlow Hstd Hshort Hone) as ([o' p'] & rest & Ha & Hout & Hs & Hc & Hsan & Hchk & Hvie).
  cbn [fst snd] in *. unfold els in Hvie. rewrite <- stored_bytes in Hvie.
  exists hd, (scan_args hd o' Rssi), rest. split; [done|]. split; [|split; [done|split; [|split; [done|]]]].
  - apply scan_args_ok; [done|done| |by apply stored_wf]. destruct (bo_vie _ Hout) as (Hl & _). rewrite Hvie in Hl. cbn [fst] in Hl.
    rewrite length_app, stored_bytes in Hl. pose proof (stored_length els) as Hsl. unfold stored_elements in Hl. rewrite elements_app, length_app in Hl.
    unfold MAX_VIE_LEN, els in *. unfold announced_bytes in Hshort. lia.
  - cbn [scan_args a_Ssid a_SsidLen]. rewrite Hs. by destruct (frame_ssid els).
  - unfold PeerBeaconAtScanAction. rewrite !Hmem. cbn [andb negb]. unfold PeerBeaconAndProbeRspSanity. rewrite Hhd, Some_bind. fold (start E).
    change (LENGTH_802_11 + 8 + 2 + 2) with 36. unfold MsgLen, m, announced_bytes. fold els. rewrite Hw, Some_bind.
    pose proof (wk_exit _ _ Hwalked) as Hex. cbn [snd] in Hex |- *. rewrite Hex, Ha, !Some_bind. cbn [fst snd].
    rewrite Hsan, sanity_complete, Hchk, andb_true_r. by destruct (complete els).
Qed.

(** ** Weaknesses *)

(** The header of a beacon. *)
Definition beacon_header : list Z :=
  [0x80; 0; 0; 0] ++ replicate 6 0xff ++ [2; 0; 0; 0; 0; 7] ++ [2; 0; 0; 0; 0; 7] ++ [0; 0] ++ zeros 8 ++ [100; 0] ++ [0x11; 0].

(** A queue element with the elements [l] and zeros behind them, as the parser gets it. *)
Definition queue_element (l : list element) : list Z := beacon_header ++ elements_bytes l ++ zeros 300.
Definition received_length (l : list element) : Z := Z.of_nat (length (beacon_header ++ elements_bytes l)).

Definition system : env := {| kmalloc := λ _, true; garbage := [7; 7; 7] |}.
Definition channels : rx_cfg :=
  {| LatchRfChannel := 6; rx_ChannelList := [1; 6; 11]; rx_INFRA_ON := false; Common_Bssid := zeros 6; StaActive_Aid := 0 |}.

Definition parse (l : list element) : option (bool * fixed_part * beacon_info) :=
  PeerBeaconAndProbeRspSanity system channels (scan_locals system) (queue_element l) (received_length l) 6.

(** An element of Wi-Fi Protected Setup shorter than its OUI: the number of bytes to
    copy is negative. *)
Lemma wps_too_short :
  PeerBeaconAndProbeRspSanity system channels (scan_locals system)
    (beacon_header ++ [IE_VENDOR_SPECIFIC; 0] ++ WPS_OUI ++ [0x10] ++ zeros 300) 38 6 = None.
Proof. vm_compute. reflexivity. Qed.

(** The attribute "selected registrar" goes to one byte on the stack, however long it
    says it is. *)
Lemma registrar_overruns :
  parse [(IE_VENDOR_SPECIFIC, WPS_OUI ++ [0x10; 0x41; 0; 1; 1])] ≠ None ∧
  parse [(IE_VENDOR_SPECIFIC, WPS_OUI ++ [0x10; 0x41; 0; 2; 1; 1])] = None.
Proof. split; vm_compute; [discriminate|reflexivity]. Qed.

(** The room for the reassembled element is not checked: a frame of 1290 bytes makes
    the parser write behind [pVIE]. *)
Lemma reassembly_overruns :
  let wpa := (IE_VENDOR_SPECIFIC, WPA_OUI ++ zeros 246) in
  let wps := (IE_VENDOR_SPECIFIC, WPS_OUI ++ [0x10; 0x4a] ++ zeros 200) in
  received_length [wps; wpa; wpa; wpa; wpa] <= 1300 ∧
  parse [wpa; wpa; wpa; wpa] ≠ None ∧ parse [wps; wpa; wpa; wpa; wpa] = None.
Proof. split; [|split]; vm_compute; [discriminate|discriminate|reflexivity]. Qed.

(** The loop ends when [pVIE] would be full; one byte less fills it to where the
    parser of the stored elements looks for the length of one more. *)
Lemma stored_elements_overrun :
  let wpa n := (IE_VENDOR_SPECIFIC, WPA_OUI ++ zeros n) in
  let l := [(IE_SSID, [97]); (IE_SUPP_RATES, [0x82]); (IE_DS_PARM, [6])] in
  let scan l := PeerBeaconAtScanAction system channels 0 BssTable.Sample.idle scan_initial.1 scan_initial.2 (queue_element l) (received_length l) 6 (-50) in
  scan (l ++ [wpa 251%nat; wpa 251%nat; wpa 251%nat; wpa 245%nat]) ≠ None ∧ scan (l ++ [wpa 251%nat; wpa 251%nat; wpa 251%nat; wpa 246%nat]) = None.
Proof. split; vm_compute; [discriminate|reflexivity]. Qed.

(** ** Instances *)

(** A check of [wps_sound] by evaluation. *)
Definition wps_soundb (m : list Z) : bool :=
  forallb (λ k, let p := Z.of_nat k in
    match load8 m p, load8 m (p + 1), load m (p + 2) 4 with
    | Some e, Some L, Some oui => negb ((e =? IE_VENDOR_SPECIFIC) && bool_decide (oui = WPS_OUI)) || ((4 <=? L) && selector_ok 64 m (p + 6) (L - 4))
    | _, _, _ => true
    end) (seq 0 (length m)).

Lemma wps_soundb_ok m MsgLen : wps_soundb m = true → wps_sound m MsgLen.
Proof.
  intros H p L Hp _ He HL Ho. unfold wps_soundb in H. rewrite forallb_forall in H. specialize (H (Z.to_nat p)).
  rewrite Z2Nat.id, He, HL, Ho in H by lia. cbn [Z.eqb Pos.eqb] in H.
  rewrite bool_decide_eq_true_2 in H by done. change (IE_VENDOR_SPECIFIC =? IE_VENDOR_SPECIFIC) with true in H. cbn [andb negb orb] in H.
  apply andb_true_iff in H as [H4%Z.leb_le Hs]; [done|]. apply in_seq. split; [lia|].
  unfold load8, load in He. destruct (_ && _) eqn:Hc in He; [|discriminate He]. rewrite !andb_true_iff, !Z.leb_le in Hc. lia.
Qed.

Module Sample.
Definition heard : list announced :=
  [Plain (IE_SSID, [97; 98]); Plain (IE_SUPP_RATES, [0x82; 0x84; 0x8b; 0x96]); Plain (IE_DS_PARM, [6]);
   Plain (IE_VENDOR_SPECIFIC, WPS_OUI ++ [0x10; 0x4a; 0; 1; 0x10]); Suites BssEntry.Sample.psk_ccmp].

Lemma heard_wf : Forall announced_wf heard.
Proof.
  unfold heard. repeat (apply Forall_cons; split); [split; [cbn; lia|by split]..| | |by apply Forall_nil].
  - split; [cbn; lia|]. split; [|done]. intros _. split; [cbn; lia|]. split; [done|]. done.
  - split; [apply BssEntry.Sample.psk_ccmp_wf|]. split; [by eexists|]. split; [done|by repeat constructor].
Qed.

Lemma heard_standard : Forall (standard channels) (element_of <$> heard).
Proof. repeat (apply Forall_cons; split); [split; try done; vm_compute; lia..|by apply Forall_nil]. Qed.

Lemma beacon_in_bounds_witness :
  ∃ ok hd o, PeerBeaconAndProbeRspSanity system channels (scan_locals system) (queue_element (element_of <$> heard)) (received_length (element_of <$> heard)) 6 =
    Some (ok, hd, o) ∧ out_ok o.
Proof.
  apply beacon_in_bounds.
  - apply scan_locals_ok. repeat constructor; unfold fits; lia.
  - repeat constructor; unfold fits; lia.
  - repeat (apply Forall_cons; split; [unfold fits; vm_compute; split; [discriminate|reflexivity]|]); apply Forall_nil; exact I.
  - vm_compute. discriminate.
  - vm_compute. discriminate.
  - vm_compute. discriminate.
  - apply wps_soundb_ok. vm_compute. reflexivity.
Defined.

Lemma beacon_scanned_witness :
  let els := element_of <$> heard in
  let m := beacon_header ++ announced_bytes heard ++ zeros 300 in
  ∃ hd a pad, read_fixed m = Some hd ∧ args_ok a (table_elements heard) pad ∧
    (a_Bssid a, a_BssType a, a_BeaconPeriod a, a_CapabilityInfo a, a_TimeStamp a, a_Rssi a) =
      (h_Bssid hd, h_BssType hd, h_BeaconPeriod hd, h_CapabilityInfo hd, h_Timestamp hd, -50) ∧
    (a_Ssid a, a_SsidLen a) = frame_ssid els ∧ a_Channel a = frame_channel els ∧
    PeerBeaconAtScanAction system channels 0 BssTable.Sample.idle scan_initial.1 scan_initial.2 m (received_length els) 6 (-50) =
      if complete els
      then scan_step (Frame 0 BssTable.Sample.idle a (table_elements heard) pad (h_SubType hd =? SUBTYPE_PROBE_RSP)) (scan_initial.1, scan_initial.2)
      else Some (scan_initial.1, scan_initial.2).
Proof.
  apply beacon_scanned.
  - reflexivity.
  - repeat (apply Forall_cons; split; [unfold fits; vm_compute; split; [discriminate|reflexivity]|]); apply Forall_nil; exact I.
  - apply Nat.leb_le. reflexivity.
  - apply Nat.leb_le. vm_compute. reflexivity.
  - apply heard_wf.
  - apply heard_standard.
  - apply Nat.leb_le. vm_compute. reflexivity.
  - apply wps_soundb_ok. vm_compute. reflexivity.
  - vm_compute. discriminate.
  - repeat constructor; unfold fits; lia.
  - reflexivity.
Defined.

(** The network of the sample is in the table: "ab" on channel 6, with CCMP. *)
Lemma heard_in_table :
  let m := beacon_header ++ announced_bytes heard ++ zeros 300 in
  match PeerBeaconAtScanAction system channels 0 BssTable.Sample.idle scan_initial.1 scan_initial.2 m (received_length (element_of <$> heard)) 6 (-50) with
  | Some (_, t) =>
      match used t with
      | [e] => take 2 (Ssid e) = [97; 98] ∧ SsidLen e = 2 ∧ key e = ([2; 0; 0; 0; 0; 7], false) ∧ Channel e = 6 ∧
               take (length (announced_bytes (table_elements heard))) (VarIEs e) = announced_bytes (table_elements heard)
      | _ => False
      end
  | None => False
  end.
Proof. vm_compute. by split_and!. Qed.
End Sample.
