(* ===== verification/Dot11.v ===== *)
(** * Frame headers of IEEE 802.11 and the CCMP inputs made from them

    The reference the CCMP routines of
    [linux/Arch/rt5370.driver/common/cmm_aes.c] are compared with: which
    address and control fields a header has, and the additional
    authentication data and the nonce the standard (IEEE Std 802.11-2007,
    8.3.3.3) makes from a data header and a packet number. *)

From stdpp Require Import base list numbers list_numbers.
From Stdlib Require Import ZArith Lia.
From S2P Require Import Prelude.

(** The fourth address is present between two access points. *)
Definition has_a4 (h : list Z) : bool := Z.testbit h.[1] 0 && Z.testbit h.[1] 1.

(** Type data, and the subtypes QoS data with or without CF-Ack and CF-Poll. *)
Definition is_data (h : list Z) : bool := (h.[0] >> 2) & 3 =? 2.
Definition has_qc (h : list Z) : bool := Z.testbit h.[0] 7 && negb (Z.testbit h.[0] 6).

Definition hdr_len (h : list Z) : nat :=
  (24 + (if has_a4 h then 6 else 0) + (if has_qc h then 2 else 0))%nat.

(** The priority: the low bits of the QoS control field. *)
Definition qc_tid (h : list Z) : Z := h.[if has_a4 h then 30 else 24] & 0x0f.

(** Subtype, retry, power management and more data masked, protected frame
    set; the sequence number masked; of the QoS control field the TID. *)
Definition ccmp_aad (h : list Z) : list Z :=
  [h.[0] & 0x8f; (h.[1] & 0xc7) .| 0x40] ++ slice h 4 18 ++ [h.[22] & 0x0f; 0] ++
  (if has_a4 h then slice h 24 6 else []) ++ (if has_qc h then [qc_tid h; 0] else []).

(** Priority, transmitter address, packet number from its last octet. *)
Definition ccmp_nonce (h pn : list Z) : list Z :=
  [if has_qc h then qc_tid h else 0] ++ slice h 10 6 ++ rev pn.

Lemma hdr_len_bounds h : (24 <= hdr_len h <= 32)%nat.
Proof. unfold hdr_len. destruct (has_a4 h), (has_qc h); lia. Qed.

Lemma length_ccmp_aad h : (hdr_len h <= length h)%nat → length (ccmp_aad h) = (hdr_len h - 2)%nat.
Proof.
  intros Hl. unfold ccmp_aad, hdr_len in *.
  rewrite !length_app, (length_slice h 4) by (destruct (has_a4 h), (has_qc h); lia).
  destruct (has_a4 h), (has_qc h); cbn [length]; rewrite ?length_slice by lia; lia.
Qed.

Lemma length_ccmp_nonce h pn :
  (24 <= length h)%nat → length pn = 6%nat → length (ccmp_nonce h pn) = 13%nat.
Proof.
  intros Hl Hp. unfold ccmp_nonce. rewrite !length_app, length_rev, length_slice by lia.
  cbn [length]. lia.
Qed.

Lemma byte_qc_tid h : byte (qc_tid h).
Proof. unfold qc_tid. apply fits_land_r; [lia|]. unfold fits. lia. Qed.

Lemma bytes_ccmp_nonce h pn : bytes h → bytes pn → bytes (ccmp_nonce h pn).
Proof.
  intros Hh Hp. unfold ccmp_nonce. rewrite !Forall_app. split_and!.
  - constructor; [|constructor]. destruct (has_qc h); [apply byte_qc_tid|unfold fits; lia].
  - by apply bytes_slice.
  - by apply Forall_rev.
Qed.

Lemma bytes_ccmp_aad h : bytes h → bytes (ccmp_aad h).
Proof.
  intros Hh. pose proof (λ i, bytes_get h i Hh) as Hg.
  assert (byte 0) as H0 by (unfold fits; lia). assert (byte 0x40) as H40 by (unfold fits; lia).
  unfold ccmp_aad. rewrite !Forall_app. split_and!.
  - apply Forall_cons; split; [auto with rt|]. apply Forall_cons; split; [|constructor].
    apply fits_lor; [lia|auto with rt|done].
  - by apply bytes_slice.
  - apply Forall_cons; split; [auto with rt|]. by apply Forall_cons; split.
  - destruct (has_a4 h); [by apply bytes_slice|constructor].
  - destruct (has_qc h); [|constructor]. apply Forall_cons; split; [apply byte_qc_tid|].
    by apply Forall_cons; split.
Qed.

(** What the code computes from the two frame control bytes. *)
Lemma a4_bits x : byte x → negb (((x & 0x2) >> 1) & (x & 0x1) =? 0) = Z.testbit x 0 && Z.testbit x 1.
Proof.
  intros Hx. apply eqb_prop. revert x Hx. apply all_bytes_spec. vm_compute. reflexivity.
Qed.

Lemma qc_bits x : byte x →
  (let s := (x >> 4) & 0x0f in (s =? 0x08) || (s =? 0x09) || (s =? 0x0a) || (s =? 0x0b)) =
  Z.testbit x 7 && negb (Z.testbit x 6).
Proof.
  intros Hx. apply eqb_prop. revert x Hx. apply all_bytes_spec. vm_compute. reflexivity.
Qed.
