(* ===== verification/SoftAes.v ===== *)
(** * The software AES decryption of the rt5370 driver

    Models the first half of [linux/Arch/rt5370.driver/common/cmm_aes.c]: a
    byte-wise AES-128 with an on-the-fly key schedule, and
    [RTMPSoftDecryptAES], which decrypts a whole CCMP frame with it.  The
    frame is the memory [pData] points to; [None] is an access outside it. *)

From stdpp Require Import base list numbers list_numbers.
From Stdlib Require Import ZArith Lia Btauto.
From S2P Require Import Prelude AesTables Aes AesChain AesCcm WpaCmm Dot11.

Definition SboxTable : list Z :=
  [0x63; 0x7c; 0x77; 0x7b; 0xf2; 0x6b; 0x6f; 0xc5; 0x30; 0x01; 0x67; 0x2b; 0xfe; 0xd7; 0xab; 0x76;
   0xca; 0x82; 0xc9; 0x7d; 0xfa; 0x59; 0x47; 0xf0; 0xad; 0xd4; 0xa2; 0xaf; 0x9c; 0xa4; 0x72; 0xc0;
   0xb7; 0xfd; 0x93; 0x26; 0x36; 0x3f; 0xf7; 0xcc; 0x34; 0xa5; 0xe5; 0xf1; 0x71; 0xd8; 0x31; 0x15;
   0x04; 0xc7; 0x23; 0xc3; 0x18; 0x96; 0x05; 0x9a; 0x07; 0x12; 0x80; 0xe2; 0xeb; 0x27; 0xb2; 0x75;
   0x09; 0x83; 0x2c; 0x1a; 0x1b; 0x6e; 0x5a; 0xa0; 0x52; 0x3b; 0xd6; 0xb3; 0x29; 0xe3; 0x2f; 0x84;
   0x53; 0xd1; 0x00; 0xed; 0x20; 0xfc; 0xb1; 0x5b; 0x6a; 0xcb; 0xbe; 0x39; 0x4a; 0x4c; 0x58; 0xcf;
   0xd0; 0xef; 0xaa; 0xfb; 0x43; 0x4d; 0x33; 0x85; 0x45; 0xf9; 0x02; 0x7f; 0x50; 0x3c; 0x9f; 0xa8;
   0x51; 0xa3; 0x40; 0x8f; 0x92; 0x9d; 0x38; 0xf5; 0xbc; 0xb6; 0xda; 0x21; 0x10; 0xff; 0xf3; 0xd2;
   0xcd; 0x0c; 0x13; 0xec; 0x5f; 0x97; 0x44; 0x17; 0xc4; 0xa7; 0x7e; 0x3d; 0x64; 0x5d; 0x19; 0x73;
   0x60; 0x81; 0x4f; 0xdc; 0x22; 0x2a; 0x90; 0x88; 0x46; 0xee; 0xb8; 0x14; 0xde; 0x5e; 0x0b; 0xdb;
   0xe0; 0x32; 0x3a; 0x0a; 0x49; 0x06; 0x24; 0x5c; 0xc2; 0xd3; 0xac; 0x62; 0x91; 0x95; 0xe4; 0x79;
   0xe7; 0xc8; 0x37; 0x6d; 0x8d; 0xd5; 0x4e; 0xa9; 0x6c; 0x56; 0xf4; 0xea; 0x65; 0x7a; 0xae; 0x08;
   0xba; 0x78; 0x25; 0x2e; 0x1c; 0xa6; 0xb4; 0xc6; 0xe8; 0xdd; 0x74; 0x1f; 0x4b; 0xbd; 0x8b; 0x8a;
   0x70; 0x3e; 0xb5; 0x66; 0x48; 0x03; 0xf6; 0x0e; 0x61; 0x35; 0x57; 0xb9; 0x86; 0xc1; 0x1d; 0x9e;
   0xe1; 0xf8; 0x98; 0x11; 0x69; 0xd9; 0x8e; 0x94; 0x9b; 0x1e; 0x87; 0xe9; 0xce; 0x55; 0x28; 0xdf;
   0x8c; 0xa1; 0x89; 0x0d; 0xbf; 0xe6; 0x42; 0x68; 0x41; 0x99; 0x2d; 0x0f; 0xb0; 0x54; 0xbb; 0x16].

Definition xor_32 (a b out : list Z) : list Z :=
  loop 0 4 (λ i out, out.[i <- a.[i] ^^ b.[i]]) out.

Definition xor_128 (a b out : list Z) : list Z :=
  loop 0 16 (λ i out, out.[i <- a.[i] ^^ b.[i]]) out.

Definition RTMPCkipSbox (a : Z) : Z := SboxTable.[Z.to_nat a].

Definition rcon_table : list Z :=
  [0x01; 0x02; 0x04; 0x08; 0x10; 0x20; 0x40; 0x80; 0x1b; 0x36; 0x36; 0x36].

(** [xor_32(&key[4 * dst], b, &key[4 * dst])] *)
Definition xor_key (key : list Z) (dst : nat) (b : list Z) : list Z :=
  put key (4 * dst) (xor_32 (slice key (4 * dst) 4) b (slice key (4 * dst) 4)).

Definition next_key (key : list Z) (round : nat) : list Z :=
  let sbox_key := [RTMPCkipSbox key.[13]; RTMPCkipSbox key.[14];
                   RTMPCkipSbox key.[15]; RTMPCkipSbox key.[12]] in
  let rcon := rcon_table.[round] in
  let key := xor_key key 0 sbox_key in
  let key := key.[0 <- key.[0] ^^ rcon] in
  let key := xor_key key 1 (slice key 0 4) in
  let key := xor_key key 2 (slice key 4 4) in
  xor_key key 3 (slice key 8 4).

Definition byte_sub (in_ out : list Z) : list Z :=
  loop 0 16 (λ i out, out.[i <- RTMPCkipSbox in_.[i]]) out.

Definition bitwise_xor (ina inb out : list Z) : list Z :=
  loop 0 16 (λ i out, out.[i <- ina.[i] ^^ inb.[i]]) out.

Definition shift_row (in_ out : list Z) : list Z :=
  let out := out.[0 <- in_.[0]] in
  let out := out.[1 <- in_.[5]] in
  let out := out.[2 <- in_.[10]] in
  let out := out.[3 <- in_.[15]] in
  let out := out.[4 <- in_.[4]] in
  let out := out.[5 <- in_.[9]] in
  let out := out.[6 <- in_.[14]] in
  let out := out.[7 <- in_.[3]] in
  let out := out.[8 <- in_.[8]] in
  let out := out.[9 <- in_.[13]] in
  let out := out.[10 <- in_.[2]] in
  let out := out.[11 <- in_.[7]] in
  let out := out.[12 <- in_.[12]] in
  let out := out.[13 <- in_.[1]] in
  let out := out.[14 <- in_.[6]] in
  out.[15 <- in_.[11]].

(** The new column [out] of the column [in]. *)
Definition mix_column (in_ out : list Z) : list Z :=
  let add1b := loop 0 4 (λ i add1b,
    add1b.[i <- if in_.[i] & 0x80 =? 0x80 then 0x1b else 0x00]) (zeros 4) in
  let swap_halfs := [in_.[2]; in_.[3]; in_.[0]; in_.[1]] in
  let rotl := [in_.[3]; in_.[0]; in_.[1]; in_.[2]] in
  let andf7 := [in_.[0] & 0x7f; in_.[1] & 0x7f; in_.[2] & 0x7f; in_.[3] & 0x7f] in
  let andf7 := loop_down 1 3 (λ i andf7,
    let andf7 := andf7.[i <- andf7.[i] <<8 1] in
    if andf7.[i - 1] & 0x80 =? 0x80 then andf7.[i <- andf7.[i] .| 0x01] else andf7) andf7 in
  let andf7 := andf7.[0 <- andf7.[0] <<8 1] in
  let andf7 := andf7.[0 <- andf7.[0] & 0xfe] in
  let add1bf7 := xor_32 add1b andf7 (zeros 4) in
  let rotr := xor_32 in_ add1bf7 (zeros 4) in
  let temp0 := rotr.[0] in
  let rotr := rotr.[0 <- rotr.[1]] in
  let rotr := rotr.[1 <- rotr.[2]] in
  let rotr := rotr.[2 <- rotr.[3]] in
  let rotr := rotr.[3 <- temp0] in
  let temp := xor_32 add1bf7 rotr (zeros 4) in
  let tempb := xor_32 swap_halfs rotl (zeros 4) in
  xor_32 temp tempb out.

(** [mix_column(&b[4 * c], &a[4 * c])] *)
Definition mix_column_at (b : list Z) (c : nat) (a : list Z) : list Z :=
  put a (4 * c) (mix_column (slice b (4 * c) 4) (slice a (4 * c) 4)).

(** The state is [round_key], [ciphertext] and the two intermediates. *)
Definition aes128k128d_round (data : list Z) (round : nat)
    (s : list Z * list Z * list Z * list Z) : list Z * list Z * list Z * list Z :=
  let '(round_key, ciphertext, intermediatea, intermediateb) := s in
  if (round =? 0)%nat then
    let ciphertext := xor_128 round_key data ciphertext in
    (next_key round_key round, ciphertext, intermediatea, intermediateb)
  else if (round =? 10)%nat then
    let intermediatea := byte_sub ciphertext intermediatea in
    let intermediateb := shift_row intermediatea intermediateb in
    (round_key, xor_128 intermediateb round_key ciphertext, intermediatea, intermediateb)
  else
    let intermediatea := byte_sub ciphertext intermediatea in
    let intermediateb := shift_row intermediatea intermediateb in
    let intermediatea := mix_column_at intermediateb 0 intermediatea in
    let intermediatea := mix_column_at intermediateb 1 intermediatea in
    let intermediatea := mix_column_at intermediateb 2 intermediatea in
    let intermediatea := mix_column_at intermediateb 3 intermediatea in
    let ciphertext := xor_128 intermediatea round_key ciphertext in
    (next_key round_key round, ciphertext, intermediatea, intermediateb).

(** The arrays [ciphertext] and the two intermediates are overwritten before
    they are read, whatever they hold. *)
Definition aes128k128d (key data ciphertext : list Z) : list Z :=
  let round_key := loop 0 16 (λ i rk, rk.[i <- key.[i]]) (zeros 16) in
  let '(_, ciphertext, _, _) :=
    loop 0 11 (aes128k128d_round data) (round_key, ciphertext, zeros 16, zeros 16) in
  ciphertext.

(** The first block of header fields; [header_length] is that of the frame
    header. *)
Definition construct_mic_header1 (header_length : Z) (mpdu : list Z) : list Z :=
  [u8 ((header_length - 2) / 256); u8 ((header_length - 2) mod 256); mpdu.[0] & 0xcf; mpdu.[1] & 0xc7;
   mpdu.[4]; mpdu.[5]; mpdu.[6]; mpdu.[7]; mpdu.[8]; mpdu.[9];
   mpdu.[10]; mpdu.[11]; mpdu.[12]; mpdu.[13]; mpdu.[14]; mpdu.[15]].

(** [for (i = 0; i < 6; i++) a[8 + i] = mpdu[24 + i]] *)
Definition copy_a4 (mpdu a : list Z) : list Z := loop 0 6 (λ i a, a.[8 + i <- mpdu.[24 + i]]) a.

Definition construct_mic_header2 (mpdu : list Z) (a4_exists qc_exists : bool) : list Z :=
  let a := zeros 16 in
  let a := a.[0 <- mpdu.[16]] in
  let a := a.[1 <- mpdu.[17]] in
  let a := a.[2 <- mpdu.[18]] in
  let a := a.[3 <- mpdu.[19]] in
  let a := a.[4 <- mpdu.[20]] in
  let a := a.[5 <- mpdu.[21]] in
  let a := a.[6 <- mpdu.[22] & 0x0f] in
  let a := a.[7 <- 0x00] in
  let a := if negb qc_exists && a4_exists then copy_a4 mpdu a else a in
  let a := if qc_exists && negb a4_exists
           then (a.[8 <- mpdu.[24] & 0x0f]).[9 <- mpdu.[25] & 0x00] else a in
  if qc_exists && a4_exists
  then let a := copy_a4 mpdu a in (a.[14 <- mpdu.[30] & 0x0f]).[15 <- mpdu.[31] & 0x00]
  else a.

Definition construct_mic_iv (mic_iv : list Z) (qc_exists a4_exists : bool) (mpdu : list Z)
    (payload_length : Z) (pn_vector : list Z) : list Z :=
  let a := mic_iv.[0 <- 0x59] in
  let a := if qc_exists && a4_exists then a.[1 <- mpdu.[30] & 0x0f] else a in
  let a := if qc_exists && negb a4_exists then a.[1 <- mpdu.[24] & 0x0f] else a in
  let a := if negb qc_exists then a.[1 <- 0x00] else a in
  let a := loop 2 6 (λ i a, a.[i <- mpdu.[i + 8]]) a in
  let a := loop 8 6 (λ i a, a.[i <- pn_vector.[13 - i]]) a in
  let a := a.[14 <- u8 (payload_length / 256)] in
  a.[15 <- u8 (payload_length mod 256)].

Definition construct_ctr_preload (a4_exists qc_exists : bool) (mpdu pn_vector : list Z) (c : Z) : list Z :=
  let a := zeros 16 in
  let a := a.[0 <- 0x01] in
  let a := if qc_exists && a4_exists then a.[1 <- mpdu.[30] & 0x0f] else a in
  let a := if qc_exists && negb a4_exists then a.[1 <- mpdu.[24] & 0x0f] else a in
  let a := loop 2 6 (λ i a, a.[i <- mpdu.[i + 8]]) a in
  let a := loop 8 6 (λ i a, a.[i <- pn_vector.[13 - i]]) a in
  let a := a.[14 <- u8 (c / 256)] in
  a.[15 <- u8 (c mod 256)].

(** [*(pData + i)] for a header byte, and the frame after a store there. *)
Definition force_protected (m : list Z) : list Z := m.[1 <- m.[1] .| 0x40].

(** One block of the decryption; [payload_index] runs behind the output by
    the eight bytes of the CCMP header. *)
Definition decrypt_block_step (E : env) (key PN : list Z) (a4_exists qc_exists : bool) (i : nat)
    (s : list Z * Z) : option (list Z * Z) :=
  let '(m, payload_index) := s in
  let ctr_preload := construct_ctr_preload a4_exists qc_exists m PN (Z.of_nat i + 1) in
  let aes_out := aes128k128d key ctr_preload (local_array E 16) in
  src ← load m payload_index 16;
  m ← store m (payload_index - 8) (bitwise_xor aes_out src (local_array E 16));
  Some (m, payload_index + 16).

(** One block of the MIC. *)
Definition mic_block_step (E : env) (key m : list Z) (i : nat) (s : list Z * Z)
    : option (list Z * Z) :=
  let '(aes_out, payload_index) := s in
  src ← load m payload_index 16;
  let chain_buffer := bitwise_xor aes_out src (local_array E 16) in
  Some (aes128k128d key chain_buffer aes_out, payload_index + 16).

(** Decrypt the full blocks, then the short final one; the frame and
    [payload_index] after it. *)
Definition decrypt_payload (E : env) (key PN : list Z) (a4_exists qc_exists : bool)
    (num_blocks payload_remainder : Z) (m : list Z) (payload_index : Z) : option (list Z * Z) :=
  '(m, payload_index) ←
    loop_opt 0 (Z.to_nat num_blocks) (decrypt_block_step E key PN a4_exists qc_exists) (m, payload_index);
  if 0 <? payload_remainder then
    let ctr_preload := construct_ctr_preload a4_exists qc_exists m PN (num_blocks + 1) in
    src ← load m payload_index payload_remainder;
    let padded_buffer := put (zeros 16) 0 src in
    let aes_out := aes128k128d key ctr_preload (local_array E 16) in
    let chain_buffer := bitwise_xor aes_out padded_buffer (local_array E 16) in
    m ← store m (payload_index - 8) (take (Z.to_nat payload_remainder) chain_buffer);
    Some (m, payload_index + payload_remainder)
  else Some (m, payload_index).

(** Chain the full blocks and the padded final one into [aes_out]. *)
Definition mic_payload (E : env) (key m : list Z) (num_blocks payload_remainder : Z)
    (aes_out : list Z) (payload_index : Z) : option (list Z) :=
  '(aes_out, payload_index) ←
    loop_opt 0 (Z.to_nat num_blocks) (mic_block_step E key m) (aes_out, payload_index);
  if 0 <? payload_remainder then
    src ← load m payload_index payload_remainder;
    let padded_buffer := put (zeros 16) 0 src in
    let chain_buffer := bitwise_xor aes_out padded_buffer (local_array E 16) in
    Some (aes128k128d key chain_buffer aes_out)
  else Some aes_out.

(** The answer and the frame.  The local arrays are filled anew wherever the
    code uses them, so each use starts from an indeterminate array. *)
Definition RTMPSoftDecryptAES (E : env) (pData : list Z) (DataByteCnt : Z) (pWpaKey : CIPHER_KEY)
    : option (bool * list Z) :=
  fc ← load pData 0 2;
  let frame_subtype := (fc.[0] >> 4) & 0x0f in
  let from_ds := (fc.[1] & 0x2) >> 1 in
  let to_ds := fc.[1] & 0x1 in
  let a4_exists := negb (from_ds & to_ds =? 0) in
  let qc_exists := (frame_subtype =? 0x08) || (frame_subtype =? 0x09) ||
                   (frame_subtype =? 0x0a) || (frame_subtype =? 0x0b) in
  let HeaderLen := 24 in
  let HeaderLen := if a4_exists then HeaderLen + 6 else HeaderLen in
  let HeaderLen := if qc_exists then HeaderLen + 2 else HeaderLen in
  if KeyLen pWpaKey =? 0 then Some (false, pData)
  else
    iv ← load pData HeaderLen 8;
    let PN := [iv.[0]; iv.[1]; iv.[4]; iv.[5]; iv.[6]; iv.[7]] in
    let payload_len := u32 (DataByteCnt - HeaderLen - 8 - 8) in
    let payload_remainder := payload_len mod 16 in
    let num_blocks := payload_len / 16 in
    '(m, payload_index) ← decrypt_payload E (Key pWpaKey) PN a4_exists qc_exists num_blocks payload_remainder
      pData (HeaderLen + 8);
    let ctr_preload := construct_ctr_preload a4_exists qc_exists m PN 0 in
    src ← load m payload_index 8;
    let padded_buffer := put (zeros 16) 0 src in
    let aes_out := aes128k128d (Key pWpaKey) ctr_preload (local_array E 16) in
    let TrailMIC := take 8 (bitwise_xor aes_out padded_buffer (local_array E 16)) in
    let m := force_protected m in
    let mic_iv := construct_mic_iv (local_array E 16) qc_exists a4_exists m payload_len PN in
    let mic_header1 := construct_mic_header1 HeaderLen m in
    let mic_header2 := construct_mic_header2 m a4_exists qc_exists in
    let aes_out := aes128k128d (Key pWpaKey) mic_iv aes_out in
    let chain_buffer := bitwise_xor aes_out mic_header1 (local_array E 16) in
    let aes_out := aes128k128d (Key pWpaKey) chain_buffer aes_out in
    let chain_buffer := bitwise_xor aes_out mic_header2 (local_array E 16) in
    let aes_out := aes128k128d (Key pWpaKey) chain_buffer aes_out in
    aes_out ← mic_payload E (Key pWpaKey) m num_blocks payload_remainder aes_out HeaderLen;
    let MIC := take 8 aes_out in
    Some (bool_decide (MIC = TrailMIC), m).

(** ** The steps are those of FIPS 197 *)

(** A loop that fills an array whatever it holds. *)
Lemma fill_loop (f : nat → Z) n out :
  length out = n → loop 0 n (λ i out, out.[i <- f i]) out = map f (seq 0 n).
Proof.
  intros Hl.
  assert (∀ k, (k <= n)%nat → loop 0 k (λ i out, out.[i <- f i]) out = map f (seq 0 k) ++ drop k out) as H.
  { intros k. induction k as [|k IH]; intros Hk; [done|]. rewrite loop_snoc, IH by lia. cbn [Nat.add].
    rewrite seq_S, map_app, insert_app_r_alt by (rewrite length_map, length_seq; lia).
    rewrite length_map, length_seq, Nat.sub_diag, <- app_assoc. f_equal.
    rewrite (drop_S _ out.[k]) by (apply get_lookup; lia). done. }
  rewrite H by done. rewrite drop_ge by lia. apply app_nil_r.
Qed.

Lemma map_get_seq l n : length l = n → map (λ i, l.[i]) (seq 0 n) = l.
Proof.
  intros H. rewrite <- (slice_map_seq l 0) by lia. unfold slice. rewrite drop_0. by apply take_ge; lia.
Qed.

Lemma xorl_map_seq a b n :
  length a = n → length b = n → map (λ i, a.[i] ^^ b.[i]) (seq 0 n) = xorl a b.
Proof.
  intros Ha Hb. apply list_get_ext; [rewrite length_map, length_seq, length_xorl; lia|].
  intros i Hi. rewrite length_map, length_seq in Hi. rewrite get_map_seq by done. symmetry.
  unfold get, xorl. rewrite !nth_lookup, lookup_zip_with.
  destruct (lookup_lt_is_Some_2 a i) as [x ->]; [lia|].
  destruct (lookup_lt_is_Some_2 b i) as [y ->]; [lia|]. done.
Qed.

Lemma xor_128_xorl a b out :
  length a = 16%nat → length b = 16%nat → length out = 16%nat → xor_128 a b out = xorl a b.
Proof. intros Ha Hb Ho. unfold xor_128. rewrite fill_loop by done. by apply xorl_map_seq. Qed.

Lemma bitwise_xor_xorl a b out :
  length a = 16%nat → length b = 16%nat → length out = 16%nat → bitwise_xor a b out = xorl a b.
Proof. apply xor_128_xorl. Qed.

Lemma xor_32_xorl a b out :
  length a = 4%nat → length b = 4%nat → length out = 4%nat → xor_32 a b out = xorl a b.
Proof. intros Ha Hb Ho. unfold xor_32. rewrite fill_loop by done. by apply xorl_map_seq. Qed.

Lemma RTMPCkipSbox_tab : RTMPCkipSbox = tab aes_sbox_enc.
Proof. reflexivity. Qed.

Lemma byte_sub_spec b out : length b = 16%nat → length out = 16%nat → byte_sub b out = sub_bytes b.
Proof.
  intros Hb Ho. unfold byte_sub. rewrite fill_loop by done. rewrite RTMPCkipSbox_tab.
  unfold sub_bytes. rewrite <- (map_map (get b) (tab aes_sbox_enc)). by rewrite map_get_seq.
Qed.

Lemma shift_row_spec b out : length out = 16%nat → shift_row b out = shift_rows b.
Proof. intros Ho. destruct_16 out Ho. reflexivity. Qed.

(** Doubling, the way [mix_column] does it. *)
Lemma double_byte x :
  byte x → (if x & 0x80 =? 0x80 then 0x1b else 0x00) ^^ ((x & 0x7f) <<8 1) = gmul 2 x.
Proof. intros Hx. by_all_bytes x Hx. Qed.

Lemma double_byte_0 x :
  byte x → (if x & 0x80 =? 0x80 then 0x1b else 0x00) ^^ (((x & 0x7f) <<8 1) & 0xfe) = gmul 2 x.
Proof. intros Hx. by_all_bytes x Hx. Qed.

Lemma no_carry x : byte x → ((x & 0x7f) & 0x80 =? 0x80) = false.
Proof. intros Hx. apply negb_true_iff. revert x Hx. apply all_bytes_spec. vm_compute. reflexivity. Qed.

Lemma gmul_3 x : byte x → gmul 2 x ^^ x = gmul 3 x.
Proof. intros Hx. by_all_bytes x Hx. Qed.

Lemma mix_column_spec a b c d out :
  byte a → byte b → byte c → byte d → length out = 4%nat →
  mix_column [a; b; c; d] out =
    [gmul 2 a ^^ gmul 3 b ^^ c ^^ d; a ^^ gmul 2 b ^^ gmul 3 c ^^ d;
     a ^^ b ^^ gmul 2 c ^^ gmul 3 d; gmul 3 a ^^ b ^^ c ^^ gmul 2 d].
Proof.
  intros Ha Hb Hc Hd Ho. unfold mix_column.
  destruct out as [|o0 [|o1 [|o2 [|o3 [|]]]]]; try discriminate Ho.
  unfold xor_32, loop, loop_down, zeros, get.
  cbn [seq foldl rev app replicate insert list_insert nth Nat.sub].
  repeat (rewrite no_carry by done; cbn [insert list_insert nth]).
  rewrite double_byte_0, !double_byte, <- !gmul_3 by done.
  repeat match goal with |- _ :: _ = _ :: _ => f_equal end; zbits.
Qed.

Lemma mix_columns_spec b a :
  bytes b → length b = 16%nat → length a = 16%nat →
  mix_column_at b 3 (mix_column_at b 2 (mix_column_at b 1 (mix_column_at b 0 a))) = mix_columns b.
Proof.
  intros Hb Hl Ha. unfold mix_columns. rewrite mix_explicit.
  assert (∀ c l, (c < 4)%nat → length l = 16%nat → mix_column_at b c l = put l (4 * c)
    [gmul 2 b.[4 * c] ^^ gmul 3 b.[4 * c + 1] ^^ b.[4 * c + 2] ^^ b.[4 * c + 3];
     b.[4 * c] ^^ gmul 2 b.[4 * c + 1] ^^ gmul 3 b.[4 * c + 2] ^^ b.[4 * c + 3];
     b.[4 * c] ^^ b.[4 * c + 1] ^^ gmul 2 b.[4 * c + 2] ^^ gmul 3 b.[4 * c + 3];
     gmul 3 b.[4 * c] ^^ b.[4 * c + 1] ^^ b.[4 * c + 2] ^^ gmul 2 b.[4 * c + 3]]) as H.
  { intros c l Hc Hll. unfold mix_column_at. f_equal. rewrite (slice_map_seq b) by lia.
    cbn [seq map]. rewrite Nat.add_0_r. apply mix_column_spec; try (by apply bytes_get).
    apply length_slice. lia. }
  pose proof (λ i, bytes_get b i Hb) as Hg.
  rewrite (H 0%nat a), (H 1%nat), (H 2%nat), (H 3%nat) by (rewrite ?length_put; lia).
  destruct_16 a Ha. cbn [flat_map seq app]. rewrite !gmul_1, !Z.lxor_0_l by apply Hg.
  reflexivity.
Qed.

(** ** The key schedule *)

Lemma key_word_4 p q i :
  (4 <= i)%nat → length p = (4 * (i - 4))%nat → length q = 16%nat →
  key_word 4 i (p ++ q) =
    p ++ q ++ xorl (take 4 q) (if (i mod 4 =? 0)%nat
      then xorl (sub_bytes (rot_word (drop 12 q))) (rcon (i / 4)) else drop 12 q).
Proof.
  intros Hi Hp Hq. unfold key_word. rewrite <- app_assoc. do 2 f_equal.
  replace (4 * (i - 1))%nat with (length p + 12)%nat by lia. rewrite slice_app_r.
  assert (slice q 12 4 = drop 12 q) as -> by (apply take_ge; rewrite length_drop; lia).
  replace (4 * (i - 4))%nat with (length p + 0)%nat by lia. rewrite slice_app_r.
  by destruct (i mod 4 =? 0)%nat.
Qed.

Lemma rcon_table_xtime r : (r <= 9)%nat → rcon_table.[r] = Nat.iter r xtime 1.
Proof. intros H. do 10 (destruct r as [|r]; [reflexivity|]). lia. Qed.

Lemma length_next_key k r : length k = 16%nat → length (next_key k r) = 16%nat.
Proof. intros Hk. unfold next_key, xor_key. by rewrite !length_put, length_insert, length_put. Qed.

(** Four words of the expansion at once. *)
Lemma next_key_expansion p k r :
  length p = (16 * r)%nat → length k = 16%nat → (r <= 9)%nat →
  loop (4 * r + 4) 4 (key_word 4) (p ++ k) = (p ++ k) ++ next_key k r.
Proof.
  intros Hp Hk Hr. rewrite !loop_S, loop_0.
  assert (∀ j i, (j < 4)%nat → i = (4 * r + 4 + j)%nat → (i mod 4 = j)%nat) as Hmod.
  { intros j i Hj ->. replace (4 * r + 4 + j)%nat with (j + S r * 4)%nat by lia.
    by rewrite Nat.Div0.mod_add, Nat.mod_small by lia. }
  assert ((4 * r + 4) / 4 = S r)%nat as Hdiv.
  { replace (4 * r + 4)%nat with (S r * 4)%nat by lia. by apply Nat.div_mul. }
  assert (∀ q i, length q = 16%nat → (r * 4 + 4 <= i < r * 4 + 8)%nat →
    ∀ u, length u = (4 * (i - 4))%nat → key_word 4 i (u ++ q) = (u ++ take 4 q) ++ drop 4 q ++
      xorl (take 4 q) (if (i mod 4 =? 0)%nat
        then xorl (sub_bytes (rot_word (drop 12 q))) (rcon (i / 4)) else drop 12 q)) as HW.
  { intros q i Hq Hi u Hu. rewrite key_word_4 by lia.
    rewrite <- (take_drop 4 q) at 1. by rewrite <- !app_assoc. }
  destruct_16 k Hk.
  assert (∀ a b c d, xorl (sub_bytes (rot_word [a; b; c; d])) (rcon (S r)) =
    [tab aes_sbox_enc b ^^ Nat.iter r xtime 1; tab aes_sbox_enc c ^^ 0;
     tab aes_sbox_enc d ^^ 0; tab aes_sbox_enc a ^^ 0]) as HR.
  { intros. unfold rcon. cbn [Nat.sub]. rewrite Nat.sub_0_r. reflexivity. }
  rewrite (HW _ (4 * r + 4)%nat) by (cbn [length]; lia). rewrite (Hmod 0%nat), Hdiv by lia.
  cbn [take drop Nat.eqb]. rewrite HR. cbn [app xorl zip_with].
  rewrite (HW _ (S (4 * r + 4))) by (rewrite ?length_app; cbn; lia). rewrite (Hmod 1%nat) by lia.
  cbn [take drop Nat.eqb app xorl zip_with].
  rewrite (HW _ (S (S (4 * r + 4)))) by (rewrite ?length_app; cbn; lia). rewrite (Hmod 2%nat) by lia.
  cbn [take drop Nat.eqb app xorl zip_with].
  rewrite (HW _ (S (S (S (4 * r + 4))))) by (rewrite ?length_app; cbn; lia). rewrite (Hmod 3%nat) by lia.
  cbn [take drop Nat.eqb app xorl zip_with]. rewrite <- !app_assoc. cbn [app]. do 17 f_equal.
  unfold next_key, xor_key. rewrite rcon_table_xtime by done. rewrite !RTMPCkipSbox_tab. 
  unfold xor_32, loop, slice, put, get. cbn. rewrite !Z.lxor_0_r, !Z.lxor_assoc. reflexivity.
Qed.

(** ** [aes128k128d] is the FIPS 197 cipher *)

Section Cipher.
Context (key : list Z) (key_bytes : bytes key) (key_length : length key = 16%nat).

Let w := key_expansion key.

(** The expansion after [r] turns of the schedule. *)
Definition expansion (r : nat) : list Z := loop 4 (4 * r) (key_word 4) key.

Lemma expansion_S r : (r <= 9)%nat →
  length (expansion r) = (16 * (r + 1))%nat ∧
  expansion (S r) = expansion r ++ next_key (slice (expansion r) (16 * r) 16) r.
Proof.
  assert (∀ r, (r <= 10)%nat → length (expansion r) = (16 * (r + 1))%nat ∧
    ((0 < r)%nat → expansion r = expansion (r - 1) ++
       next_key (slice (expansion (r - 1)) (16 * (r - 1)) 16) (r - 1))) as H.
  { intros n. induction n as [|n IH]; intros Hn; [split; [unfold expansion; rewrite loop_0; lia|lia]|].
    destruct IH as [IH _]; [lia|]. rewrite Nat.sub_succ, Nat.sub_0_r.
    assert (expansion (S n) = expansion n ++ next_key (slice (expansion n) (16 * n) 16) n) as E.
    { unfold expansion at 1. replace (4 * S n)%nat with (4 * n + 4)%nat by lia. rewrite loop_add.
      fold (expansion n). rewrite (Nat.add_comm 4).
      rewrite <- (take_drop (16 * n) (expansion n)) at 1.
      rewrite next_key_expansion; [|rewrite length_take; lia|rewrite length_drop; lia|lia].
      rewrite take_drop. do 2 f_equal. unfold slice. symmetry. apply take_ge. rewrite length_drop. lia. }
    split; [|done]. rewrite E, length_app, length_next_key; [lia|]. apply length_slice. lia. }
  intros Hr. split; [apply H; lia|]. destruct (H (S r)) as [_ H']; [lia|].
  rewrite H' by lia. by rewrite Nat.sub_succ, Nat.sub_0_r.
Qed.

Lemma expansion_prefix r k : (r + k <= 10)%nat → ∃ t, expansion (r + k) = expansion r ++ t.
Proof.
  induction k as [|k IH]; intros Hk; [exists []; by rewrite Nat.add_0_r, app_nil_r|].
  destruct IH as [t Ht]; [lia|]. rewrite Nat.add_succ_r.
  destruct (expansion_S (r + k)) as [_ ->]; [lia|]. rewrite Ht, <- app_assoc. by eexists.
Qed.

Lemma expansion_all : w = expansion 10.
Proof.
  unfold w, key_expansion, expansion. rewrite key_length. change (16 / 4)%nat with 4%nat.
  change (4 * (4 + 7) - 4)%nat with (4 * 10)%nat. reflexivity.
Qed.

(** The round keys follow one another by [next_key]. *)
Lemma round_key_0 : slice w 0 16 = key.
Proof.
  rewrite expansion_all. change (expansion 10) with (expansion (0 + 10)).
  destruct (expansion_prefix 0 10) as [t ->]; [lia|].
  unfold expansion. rewrite loop_0, slice_app_l by lia. by apply slice_all.
Qed.

Lemma round_key_S r : (r <= 9)%nat → slice w (16 * S r) 16 = next_key (slice w (16 * r) 16) r.
Proof.
  intros Hr. rewrite expansion_all.
  replace (expansion 10) with (expansion (S r + (9 - r))) by (f_equal; lia). destruct (expansion_prefix (S r) (9 - r)) as [t ->]; [lia|].
  destruct (expansion_S r) as [Hl ->]; [lia|].
  assert (length (slice (expansion r) (16 * r) 16) = 16%nat) as Hs by (apply length_slice; lia).
  pose proof (length_next_key _ r Hs) as Hn.
  rewrite <- app_assoc. replace (16 * S r)%nat with (length (expansion r) + 0)%nat by lia.
  rewrite slice_app_r, slice_app_l, slice_all by lia. by rewrite slice_app_l by lia.
Qed.

(** The arrays between two rounds: [r] rounds done, the cipher state [b]. *)
Definition between (r : nat) (b : list Z) (s : list Z * list Z * list Z * list Z) : Prop :=
  let '(rk, c, ia, ib) := s in
  rk = slice w (16 * r) 16 ∧ length rk = 16%nat ∧ c = b ∧ length c = 16%nat ∧ bytes c ∧
  length ia = 16%nat ∧ length ib = 16%nat.

Lemma bytes_w : bytes w ∧ length w = 176%nat.
Proof.
  assert (AES_KeyLength_ok (Z.of_nat (length key)) = true) as Hok by (by rewrite key_length).
  destruct (expanded key key_bytes Hok (zeros 240) eq_refl) as (_ & Hl & Hb & _).
  rewrite key_length in Hl. done.
Qed.

Lemma round_key_ok r : (r <= 10)%nat → length (slice w (16 * r) 16) = 16%nat ∧ bytes (slice w (16 * r) 16).
Proof. intros Hr. destruct bytes_w. split; [apply length_slice; lia|by apply bytes_slice]. Qed.

Lemma length_shift_rows b : length (shift_rows b) = 16%nat.
Proof. done. Qed.

Lemma length_mix_columns b : length (mix_columns b) = 16%nat.
Proof. done. Qed.

Lemma between_step r data b s :
  (1 <= r <= 9)%nat → between r b s →
  between (S r) (add_round_key w r (mix_columns (shift_rows (sub_bytes b)))) (aes128k128d_round data r s).
Proof.
  intros Hr. destruct s as [[[rk c] ia] ib]. intros (-> & Hrk & -> & Hc & Hcb & Hia & Hib).
  unfold aes128k128d_round.
  destruct (Nat.eqb_spec r 0); [lia|]. destruct (Nat.eqb_spec r 10); [lia|].
  rewrite byte_sub_spec, shift_row_spec by done.
  assert (length (sub_bytes b) = 16%nat) as Hs by (by apply length_sub_bytes).
  rewrite mix_columns_spec by (done || auto with rt).
  rewrite xor_128_xorl by done. fold (add_round_key w r (mix_columns (shift_rows (sub_bytes b)))).
  destruct (round_key_ok (S r)) as [Hl' _]; [lia|]. destruct bytes_w as [Hw Hwl].
  unfold between. rewrite round_key_S by lia. rewrite round_key_S in Hl' by lia.
  split_and!; try done.
  - apply length_add_round_key; [done|lia].
  - apply bytes_add_round_key; [|done]. unfold mix_columns. auto with rt.
Qed.

Lemma aes128k128d_cipher data ct :
  length data = 16%nat → bytes data → length ct = 16%nat → aes128k128d key data ct = cipher key data.
Proof.
  intros Hd Hdb Hct. unfold aes128k128d, cipher. rewrite key_length. fold w.
  change (16 / 4 + 6)%nat with 10%nat. change (10 - 1)%nat with 9%nat.
  rewrite fill_loop, map_get_seq by done. destruct bytes_w as [Hw Hwl].
  assert (∃ ia ib, loop 0 1 (aes128k128d_round data) (key, ct, zeros 16, zeros 16) =
    (slice w 16 16, add_round_key w 0 data, ia, ib) ∧ length ia = 16%nat ∧ length ib = 16%nat)
    as (ia & ib & H0 & Hia & Hib).
  { exists (zeros 16), (zeros 16). split; [|done]. rewrite loop_S, loop_0. unfold aes128k128d_round.
    cbn [Nat.eqb]. rewrite xor_128_xorl by done. unfold add_round_key. change (16 * 0)%nat with 0%nat.
    assert (slice w 16 16 = next_key (slice w 0 16) 0) as -> by (apply (round_key_S 0); lia).
    by rewrite !round_key_0, xorl_comm. }
  rewrite (loop_add 0 1 10 (aes128k128d_round data)), H0.
  rewrite (loop_add _ 9 1 (aes128k128d_round data)). cbn [Nat.add].
  set (b1 := add_round_key w 0 data).
  assert (between 10 (loop 1 9 (λ r b, add_round_key w r (mix_columns (shift_rows (sub_bytes b)))) b1)
    (loop 1 9 (aes128k128d_round data) (slice w 16 16, b1, ia, ib))) as H.
  { assert (∀ n, (n <= 9)%nat →
      between (1 + n) (loop 1 n (λ r b, add_round_key w r (mix_columns (shift_rows (sub_bytes b)))) b1)
        (loop 1 n (aes128k128d_round data) (slice w 16 16, b1, ia, ib))) as H; [|by apply (H 9%nat)].
    intros n. induction n as [|n IH]; intros Hn.
    - rewrite !loop_0. change 16%nat with (16 * 1)%nat at 1. unfold between.
      destruct (round_key_ok 1) as [? _]; [lia|]. split_and!; try done.
      + apply length_add_round_key; [done|lia].
      + by apply bytes_add_round_key.
    - rewrite !loop_snoc, Nat.add_succ_r. apply between_step; [lia|]. apply IH. lia. }
  destruct (loop 1 9 _ (_, _, _, _)) as [[[rk c] ia'] ib']. destruct H as (-> & Hrk & -> & Hc & Hcb & Hia' & Hib').
  rewrite loop_S, loop_0. unfold aes128k128d_round. cbn [Nat.add Nat.eqb].
  rewrite byte_sub_spec, shift_row_spec, xor_128_xorl by done. reflexivity.
Qed.
End Cipher.

(** ** The blocks made from the header *)

Section Header.
Context (h : list Z) (h_bytes : bytes h) (h_length : length h = hdr_len h).
Lemma get_header r i : (i < hdr_len h)%nat → (h ++ r).[i] = h.[i].
Proof. intros Hi. apply get_app_l. lia. Qed.

(** The two blocks are the encoded AAD, padded.  The protected bit has been
    forced by then, and the reserved subtype bit of a data frame is 0. *)
Lemma construct_mic_headers_eq r :
  Z.testbit h.[0] 6 = false →
  let m := h.[1 <- h.[1] .| 0x40] ++ r in
  construct_mic_header1 (Z.of_nat (hdr_len h)) m ++
  construct_mic_header2 m (has_a4 h) (has_qc h) =
    ccm_aad (ccmp_aad h) ++ zeros (32 - hdr_len h).
Proof.
  intros H6 m. pose proof (hdr_len_bounds h) as Hb. pose proof (λ i, bytes_get h i h_bytes) as Hby.
  assert (∀ i, i ≠ 1%nat → (i < hdr_len h)%nat → m.[i] = h.[i]) as Hg.
  { intros i Hi Hl. unfold m. rewrite get_app_l by (rewrite length_insert; lia).
    by apply get_insert_ne. }
  assert (m.[1] = h.[1] .| 0x40) as H1.
  { unfold m. rewrite get_app_l by (rewrite length_insert; lia). apply get_insert_eq. lia. }
  assert (h.[0] & 0xcf = h.[0] & 0x8f) as E0.
  { assert (Z.testbit h.[0] 6 || (h.[0] & 0xcf =? h.[0] & 0x8f) = true) as H.
    { generalize (Hby 0%nat). generalize h.[0]. apply all_bytes_spec. vm_compute. reflexivity. }
    rewrite H6 in H. cbn [orb] in H. by apply Z.eqb_eq. }
  assert ((h.[1] .| 0x40) & 0xc7 = (h.[1] & 0xc7) .| 0x40) as E1.
  { generalize (Hby 1%nat). generalize h.[1]. intros x Hx. by_all_bytes x Hx. }
  assert (ccmp_aad h ≠ []) as Hne by done.
  unfold ccm_aad. rewrite decide_False, length_ccmp_aad by (done || lia).
  unfold ccmp_aad, qc_tid, construct_mic_header1, construct_mic_header2, copy_a4, loop, zeros.
  rewrite (slice_map_seq h 4) by lia. rewrite H1, E1, (Hg 0%nat), E0 by lia.
  clearbody m. clear H1 E1 E0 Hne Hby H6.
  unfold hdr_len in *. destruct (has_a4 h), (has_qc h); try rewrite (slice_map_seq h 24) by lia;
    cbn [andb negb Nat.add Nat.sub seq map foldl replicate insert list_insert app] in *;
    repeat (rewrite Hg by lia); rewrite ?Z.land_0_r; reflexivity.
Qed.

Context (PN : list Z) (PN_length : length PN = 6%nat).

Lemma nonce_explicit :
  ccmp_nonce h PN = [if has_qc h then qc_tid h else 0; h.[10]; h.[11]; h.[12]; h.[13]; h.[14]; h.[15];
    PN.[5]; PN.[4]; PN.[3]; PN.[2]; PN.[1]; PN.[0]].
Proof.
  unfold ccmp_nonce. pose proof (hdr_len_bounds h). rewrite slice_map_seq by lia.
  destruct PN as [|p0 [|p1 [|p2 [|p3 [|p4 [|p5 [|]]]]]]]; try discriminate PN_length. reflexivity.
Qed.

(** The QoS byte the code looks at. *)
Lemma qc_byte r d :
  (let a := d in
   let a := if has_qc h && has_a4 h then (h ++ r).[30] & 0x0f else a in
   if has_qc h && negb (has_a4 h) then (h ++ r).[24] & 0x0f else a) = if has_qc h then qc_tid h else d.
Proof.
  unfold qc_tid. pose proof (get_header r) as Hg. unfold hdr_len in Hg.
  destruct (has_a4 h), (has_qc h); cbn [andb negb] in *; try rewrite Hg by lia; done.
Qed.

Lemma construct_ctr_preload_eq r c :
  construct_ctr_preload (has_a4 h) (has_qc h) (h ++ r) PN c =
    [1] ++ ccmp_nonce h PN ++ [u8 (c / 256); u8 (c mod 256)].
Proof.
  rewrite nonce_explicit. unfold construct_ctr_preload, zeros, loop.
  pose proof (hdr_len_bounds h) as Hb. pose proof (qc_byte r 0) as Hq. revert Hq.
  assert (∀ i, (i < 24)%nat → (h ++ r).[i] = h.[i]) as Hg by (intros; apply get_header; lia).
  cbn [replicate insert list_insert seq foldl Nat.add Nat.sub].
  rewrite (Hg 10%nat), (Hg 11%nat), (Hg 12%nat), (Hg 13%nat), (Hg 14%nat), (Hg 15%nat) by lia.
  destruct (has_a4 h), (has_qc h); cbn; try intros ->; reflexivity.
Qed.

Lemma construct_mic_iv_eq E n r :
  construct_mic_iv (local_array E 16) (has_qc h) (has_a4 h) (h ++ r) n PN =
    [0x59] ++ ccmp_nonce h PN ++ [u8 (n / 256); u8 (n mod 256)].
Proof.
  rewrite nonce_explicit. unfold construct_mic_iv, loop.
  destruct (list_as_map _ _ (length_local_array E 16)) as [g ->].
  pose proof (hdr_len_bounds h) as Hb. pose proof (qc_byte r 0) as Hq. revert Hq.
  assert (∀ i, (i < 24)%nat → (h ++ r).[i] = h.[i]) as Hg by (intros; apply get_header; lia).
  cbn [map insert list_insert seq foldl Nat.add Nat.sub].
  rewrite (Hg 10%nat), (Hg 11%nat), (Hg 12%nat), (Hg 13%nat), (Hg 14%nat), (Hg 15%nat) by lia.
  destruct (has_a4 h), (has_qc h); cbn; try intros ->; reflexivity.
Qed.

Lemma length_headers r :
  length (construct_mic_header1 (Z.of_nat (hdr_len h)) r) = 16%nat ∧
  length (construct_mic_header2 r (has_a4 h) (has_qc h)) = 16%nat.
Proof. split; [done|]. by destruct (has_a4 h), (has_qc h). Qed.
End Header.

(** ** Key stream and chaining, block by block *)

Lemma slice_xorl a b off n : slice (xorl a b) off n = xorl (slice a off n) (slice b off n).
Proof. unfold slice, xorl. by rewrite zip_with_drop, zip_with_take. Qed.

Lemma take_slice_snoc (l : list Z) a n : take (a + n) l = take a l ++ slice l a n.
Proof. unfold slice. by rewrite take_take_drop. Qed.

(** CBC one block further. *)
Lemma cbc_fold_snoc key k x l :
  cbc_fold key (S k) x l = cipher key (xorl (pad16 (slice l (16 * k) 16)) (cbc_fold key k x l)).
Proof.
  revert x l. induction k as [|k IH]; intros x l; [done|].
  change (cbc_fold key (S (S k)) x l) with
    (cbc_fold key (S k) (cipher key (xorl (pad16 (take 16 l)) x)) (drop 16 l)).
  rewrite IH. cbn [cbc_fold]. do 3 f_equal. unfold slice. rewrite drop_drop. do 2 f_equal. lia.
Qed.
Section Counter.
Context (nonce : list Z) (nonce_bytes : bytes nonce) (nonce_length : length nonce = 13%nat).

Lemma ccm_ctr_13 (c : nat) :
  [1] ++ nonce ++ [u8 (Z.of_nat c / 256); u8 (Z.of_nat c mod 256)] = ccm_ctr nonce c.
Proof.
  unfold ccm_ctr. rewrite nonce_length. cbn [Nat.sub]. rewrite be_bytes_2, !land_255.
  rewrite Z.shiftr_div_pow2 by lia. change (2 ^ 8) with 256. unfold u8. by rewrite Z.mod_mod by lia.
Qed.

Lemma block_ctr_13 c : block (ccm_ctr nonce c).
Proof.
  unfold ccm_ctr. rewrite nonce_length. split.
  - rewrite !length_app, length_be_bytes, nonce_length. done.
  - rewrite !Forall_app. split_and!; [|done|apply bytes_be_bytes].
    apply Forall_cons; split; [unfold fits; cbn; lia|constructor].
Qed.

End Counter.

Section Stream.
Context (key : list Z) (key_bytes : bytes key) (key_length : length key = 16%nat).
Context (nonce : list Z) (nonce_bytes : bytes nonce) (nonce_length : length nonce = 13%nat).

Lemma block_stream c : block (cipher key (ccm_ctr nonce c)).
Proof. apply block_cipher; [done..|]. by apply block_ctr_13. Qed.

Lemma length_stream_13 s k : length (ccm_stream key nonce s k) = (16 * k)%nat.
Proof.
  revert s. induction k as [|k IH]; intros s; [done|]. cbn [ccm_stream].
  rewrite length_app, IH. destruct (block_stream s) as [-> _]. lia.
Qed.

Lemma bytes_stream_13 s k : bytes (ccm_stream key nonce s k).
Proof.
  revert s. induction k as [|k IH]; intros s; [constructor|]. cbn [ccm_stream].
  apply Forall_app. split; [apply block_stream|apply IH].
Qed.

Lemma slice_stream s k i : (i < k)%nat →
  slice (ccm_stream key nonce s k) (16 * i) 16 = cipher key (ccm_ctr nonce (s + i)).
Proof.
  revert s i. induction k as [|k IH]; intros s i Hi; [lia|]. cbn [ccm_stream].
  destruct (block_stream s) as [Hl _]. destruct i as [|i].
  - rewrite Nat.add_0_r. rewrite slice_app_l by lia. by apply slice_all.
  - replace (16 * S i)%nat with (length (cipher key (ccm_ctr nonce s)) + 16 * i)%nat by lia.
    rewrite slice_app_r, IH by lia. do 2 f_equal. lia.
Qed.

Lemma length_xor_13 l : length (ccm_xor key nonce l) = length l.
Proof.
  unfold ccm_xor. apply length_xorl_le. rewrite length_stream_13. pose proof (blocks_bounds (length l)). lia.
Qed.

Lemma bytes_xor_13 l : bytes l → bytes (ccm_xor key nonce l).
Proof. intros. apply xorl_bytes; [done|apply bytes_stream_13]. Qed.

(** Block [i] of an encryption or decryption. *)
Lemma slice_ccm_xor l i k :
  (k <= 16)%nat → (0 < k)%nat → (16 * i + k <= length l)%nat →
  slice (ccm_xor key nonce l) (16 * i) k = take k (xorl (cipher key (ccm_ctr nonce (S i))) (pad16 (slice l (16 * i) k))).
Proof.
  intros Hk H0 Hl. unfold ccm_xor. rewrite slice_xorl.
  pose proof (blocks_bounds (length l)).
  assert (slice (ccm_stream key nonce 1 (blocks (length l))) (16 * i) k =
    take k (cipher key (ccm_ctr nonce (S i)))) as ->.
  { change (S i) with (1 + i)%nat. rewrite <- (slice_stream 1 (blocks (length l)) i) by lia. unfold slice. rewrite take_take.
    f_equal. lia. }
  rewrite xorl_comm. unfold pad16. unfold xorl at 2. rewrite zip_with_take.
  rewrite take_app_le, (take_ge (slice l _ _)) by (rewrite length_slice; lia). done.
Qed.

(** The first block of the MIC and the tag are bytes. *)
Lemma block_b0_13 aad msg : block (ccm_b0 8 nonce aad msg).
Proof. apply (block_b0 key); [done..|lia|unfold M_ok; auto]. Qed.

Lemma bytes_seal_tag_13 aad msg :
  bytes aad → bytes msg → bytes (ccm_seal_tag key 8 nonce aad msg).
Proof.
  intros Ha Hm. unfold ccm_seal_tag. apply xorl_bytes; [|apply block_stream].
  apply Forall_take, block_cbc_mac; [done..| |done].
  apply block_cbc_mac; [done..| |by apply bytes_ccm_aad].
  apply block_cipher; [done..|apply block_b0_13].
Qed.
End Stream.

(** ** A frame: header [h], then [r] *)

Lemma put_app_r a b k bs : put (a ++ b) (length a + k) bs = a ++ put b k bs.
Proof. apply list_inserts_app_r. Qed.

Lemma store_app_r a b k bs :
  (k + length bs <= length b)%nat →
  store (a ++ b) (Z.of_nat (length a + k)) bs = Some (a ++ put b k bs).
Proof. intros H. by rewrite store_ok, Nat2Z.id, put_app_r by (rewrite ?length_app; lia). Qed.

Lemma slice_put_after a off bs j n :
  (off + length bs <= j)%nat → (off + length bs <= length a)%nat → slice (put a off bs) j n = slice a j n.
Proof. intros Hj Ha. unfold slice. by rewrite drop_put. Qed.

Lemma slice_slice (l : list Z) off n i k : (i + k <= n)%nat → slice (slice l off n) i k = slice l (off + i) k.
Proof. intros H. unfold slice. rewrite skipn_firstn_comm, take_take, drop_drop. f_equal. lia. Qed.

Section Frame.
Context (E : env) (key : list Z) (key_bytes : bytes key) (key_length : length key = 16%nat).
Context (h : list Z) (h_bytes : bytes h) (h_length : length h = hdr_len h).
Context (PN : list Z) (PN_bytes : bytes PN) (PN_length : length PN = 6%nat).
Let nonce := ccmp_nonce h PN.

Lemma nonce_ok : bytes nonce ∧ length nonce = 13%nat.
Proof.
  clear dependent key.
  pose proof (hdr_len_bounds h). split; [by apply bytes_ccmp_nonce|apply length_ccmp_nonce; lia].
Qed.

Lemma ctr_preload_ok r' (c : nat) :
  construct_ctr_preload (has_a4 h) (has_qc h) (h ++ r') PN (Z.of_nat c) = ccm_ctr nonce c.
Proof.
  rewrite construct_ctr_preload_eq by done. apply ccm_ctr_13. apply nonce_ok.
Qed.

(** The cipher block of counter [c]. *)
Lemma ctr_cipher_ok r' (c : nat) :
  aes128k128d key (construct_ctr_preload (has_a4 h) (has_qc h) (h ++ r') PN (Z.of_nat c))
    (local_array E 16) = cipher key (ccm_ctr nonce c).
Proof.
  rewrite ctr_preload_ok. destruct nonce_ok as [Hnb Hnl].
  destruct (block_ctr_13 nonce Hnb Hnl c) as [Hl Hb].
  apply aes128k128d_cipher; [done..|apply length_local_array].
Qed.

Lemma xor_block_ok a b : length a = 16%nat → length b = 16%nat →
  bitwise_xor a b (local_array E 16) = xorl a b.
Proof. intros. apply bitwise_xor_xorl; [done..|apply length_local_array]. Qed.

Lemma length_stream_block c : length (cipher key (ccm_ctr nonce c)) = 16%nat.
Proof. destruct nonce_ok as [Hnb Hnl]. apply (block_stream key key_bytes key_length nonce Hnb Hnl). Qed.

Context (r : list Z) (r_bytes : bytes r) (n : nat) (r_length : (n + 16 <= length r)%nat).

Let ct := slice r 8 n.
Let msg := ccm_xor key nonce ct.

Lemma length_ct : length ct = n.
Proof. apply length_slice. lia. Qed.

Lemma msg_ok : length msg = n ∧ bytes msg.
Proof.
  destruct nonce_ok. unfold msg. rewrite length_xor_13 by done. split; [apply length_ct|].
  apply bytes_xor_13; [done..|]. by apply bytes_slice.
Qed.

(** Decryption of [i] blocks. *)
Lemma decrypt_step_ok i (Hi : (16 * S i <= n)%nat) :
  decrypt_block_step E key PN (has_a4 h) (has_qc h) i
    (h ++ put r 0 (take (16 * i) msg), Z.of_nat (length h + (8 + 16 * i))) =
  Some (h ++ put r 0 (take (16 * S i) msg), Z.of_nat (length h + (8 + 16 * S i))).
Proof.
  destruct msg_ok as [Hml _]. destruct nonce_ok as [Hnb Hnl].
  assert (length (take (16 * i) msg) = (16 * i)%nat) as Htl by (rewrite length_take; lia).
  unfold decrypt_block_step. replace (Z.of_nat i + 1) with (Z.of_nat (S i)) by lia.
  rewrite ctr_cipher_ok. rewrite load_app_r, Some_bind by (rewrite ?length_put; lia).
  change (Z.to_nat 16) with 16%nat.
  rewrite slice_put_after by lia.
  assert (slice r (8 + 16 * i) 16 = slice ct (16 * i) 16) as ->.
  { unfold ct. rewrite slice_slice by lia. done. }
  assert (length (slice ct (16 * i) 16) = 16%nat) as Hs by (apply length_slice; rewrite length_ct; lia).
  rewrite xor_block_ok by (done || apply length_stream_block).
  replace (Z.of_nat (length h + (8 + 16 * i)) - 8) with (Z.of_nat (length h + 16 * i)) by lia.
  pose proof (length_stream_block (S i)) as Hc.
  rewrite store_app_r, Some_bind by (rewrite length_put, length_xorl by lia; lia).
  do 2 f_equal; [|lia]. f_equal.
  rewrite <- Htl at 2. change (length (take (16 * i) msg)) with (0 + length (take (16 * i) msg))%nat.
  rewrite put_put_adjacent by (rewrite length_xorl; lia). f_equal.
  replace (16 * S i)%nat with (16 * i + 16)%nat by lia. rewrite take_slice_snoc. f_equal.
  unfold msg. rewrite (slice_ccm_xor key key_bytes key_length nonce) by (done || (rewrite ?length_ct; lia)).
  unfold pad16. rewrite Hs, app_nil_r. rewrite take_ge; [done|]. rewrite length_xorl; lia.
Qed.

Lemma decrypt_loop_ok k : (16 * k <= n)%nat →
  loop_opt 0 k (decrypt_block_step E key PN (has_a4 h) (has_qc h)) (h ++ r, Z.of_nat (length h + 8)) =
  Some (h ++ put r 0 (take (16 * k) msg), Z.of_nat (length h + (8 + 16 * k))).
Proof.
  induction k as [|k IH]; intros Hk.
  - cbn [loop_opt]. change (16 * 0)%nat with 0%nat. by rewrite take_0, put_nil.
  - rewrite loop_opt_snoc, IH, Some_bind by lia. apply decrypt_step_ok. lia.
Qed.

(** The whole payload: full blocks, then the rest. *)
Lemma decrypt_all_ok :
  decrypt_payload E key PN (has_a4 h) (has_qc h) (Z.of_nat n / 16) (Z.of_nat n mod 16)
    (h ++ r) (Z.of_nat (length h + 8)) =
  Some (h ++ put r 0 msg, Z.of_nat (length h + (8 + n))).
Proof.
  unfold decrypt_payload.
  destruct msg_ok as [Hml _]. destruct nonce_ok as [Hnb Hnl].
  set (k := (n / 16)%nat). set (t := (n mod 16)%nat).
  assert (Z.of_nat n / 16 = Z.of_nat k) as -> by (unfold k; by rewrite Nat2Z.inj_div).
  assert (Z.of_nat n mod 16 = Z.of_nat t) as -> by (unfold t; by rewrite Nat2Z.inj_mod).
  assert (n = 16 * k + t)%nat as Hn by apply Nat.div_mod_eq.
  assert (t < 16)%nat as Ht by (by apply Nat.mod_upper_bound).
  rewrite !Nat2Z.id, decrypt_loop_ok, Some_bind by lia.
  assert (length (take (16 * k) msg) = (16 * k)%nat) as Htl by (rewrite length_take; lia).
  destruct (Z.ltb_spec 0 (Z.of_nat t)) as [Ht0|Ht0].
  2: { assert (t = 0%nat) as E0 by lia. rewrite take_ge by lia. do 3 f_equal. lia. }
  replace (Z.of_nat k + 1) with (Z.of_nat (S k)) by lia. cbv zeta. rewrite ctr_cipher_ok.
  rewrite load_app_r, Some_bind by (rewrite ?length_put; lia). rewrite Nat2Z.id, slice_put_after by lia.
  assert (slice r (8 + 16 * k) t = slice ct (16 * k) t) as -> by (unfold ct; by rewrite slice_slice by lia).
  assert (length (slice ct (16 * k) t) = t) as Hs by (apply length_slice; rewrite length_ct; lia).
  rewrite pad16_put by lia. pose proof (length_stream_block (S k)) as Hc.
  rewrite xor_block_ok by (done || (rewrite length_pad16; lia)).
  replace (Z.of_nat (length h + (8 + 16 * k)) - 8) with (Z.of_nat (length h + 16 * k)) by lia.
  rewrite store_app_r, Some_bind by (rewrite length_put, length_take; lia).
  do 2 f_equal; [|lia]. f_equal.
  rewrite <- Htl at 2. change (length (take (16 * k) msg)) with (0 + length (take (16 * k) msg))%nat.
  rewrite put_put_adjacent by (rewrite !length_take; lia). f_equal.
  unfold msg. rewrite <- (slice_ccm_xor key key_bytes key_length nonce) by (done || (rewrite ?length_ct; lia)).
  fold msg. rewrite <- take_slice_snoc. apply take_ge. lia.
Qed.

(** The MIC over the decrypted payload. *)
Lemma mic_loop_ok h' r' x k :
  length h' = length h → length r' = length r → slice r' 0 n = msg → block x → (16 * k <= n)%nat →
  loop_opt 0 k (mic_block_step E key (h' ++ r')) (x, Z.of_nat (length h)) =
    Some (cbc_fold key k x msg, Z.of_nat (length h + 16 * k)).
Proof.
  intros Hh' Hr' Hmsg Hx. destruct msg_ok as [Hml Hmb]. rewrite <- Hh'.
  induction k as [|k IH]; intros Hk.
  - cbn [loop_opt cbc_fold]. do 3 f_equal. lia.
  - rewrite loop_opt_snoc, IH, Some_bind by lia. unfold mic_block_step.
    rewrite load_app_r, Some_bind by lia. change (Z.to_nat 16) with 16%nat.
    assert (slice r' (16 * k) 16 = slice msg (16 * k) 16) as ->
      by (rewrite <- Hmsg; by rewrite slice_slice by lia).
    assert (block (cbc_fold key k x msg)) as [Hfl Hfb] by (by apply block_cbc_fold).
    assert (length (slice msg (16 * k) 16) = 16%nat) as Hs by (apply length_slice; lia).
    rewrite xor_block_ok by done. rewrite cbc_fold_snoc. unfold pad16. rewrite Hs, app_nil_r, xorl_comm.
    rewrite aes128k128d_cipher; [|done|done|rewrite length_xorl; lia|auto with rt|done].
    do 2 f_equal. lia.
Qed.

Lemma mic_all_ok h' r' x :
  length h' = length h → length r' = length r → slice r' 0 n = msg → block x →
  mic_payload E key (h' ++ r') (Z.of_nat n / 16) (Z.of_nat n mod 16) x (Z.of_nat (length h)) =
    Some (cbc_mac key x msg).
Proof.
  unfold mic_payload.
  intros Hh' Hr' Hmsg Hx. destruct msg_ok as [Hml Hmb]. unfold cbc_mac. rewrite Hml.
  set (k := (n / 16)%nat). set (t := (n mod 16)%nat).
  assert (Z.of_nat n / 16 = Z.of_nat k) as -> by (unfold k; by rewrite Nat2Z.inj_div).
  assert (Z.of_nat n mod 16 = Z.of_nat t) as -> by (unfold t; by rewrite Nat2Z.inj_mod).
  assert (n = 16 * k + t)%nat as Hn by apply Nat.div_mod_eq.
  assert (t < 16)%nat as Ht by (by apply Nat.mod_upper_bound).
  pose proof (blocks_bounds n) as Hbl.
  rewrite !Nat2Z.id, mic_loop_ok, Some_bind by (done || lia).
  assert (block (cbc_fold key k x msg)) as [Hfl Hfb] by (by apply block_cbc_fold).
  destruct (Z.ltb_spec 0 (Z.of_nat t)) as [Ht0|Ht0].
  2: { do 2 f_equal. lia. }
  rewrite <- Hh', load_app_r, Some_bind by lia. rewrite Nat2Z.id.
  assert (slice r' (16 * k) t = slice msg (16 * k) t) as ->
    by (rewrite <- Hmsg; by rewrite slice_slice by lia).
  assert (slice msg (16 * k) 16 = slice msg (16 * k) t) as Hst.
  { unfold slice. rewrite !take_ge; rewrite ?length_drop; done || lia. }
  assert (length (slice msg (16 * k) t) = t) as Hs by (apply length_slice; lia).
  replace (blocks n) with (S k) by lia. cbv zeta. rewrite cbc_fold_snoc, Hst, pad16_put by lia.
  rewrite xor_block_ok by (done || (rewrite length_pad16; lia)). f_equal.
  rewrite xorl_comm. apply aes128k128d_cipher; [done|done|rewrite length_xorl, length_pad16; rewrite ?length_pad16; lia| |done].
  apply xorl_bytes; [|done]. apply bytes_pad16. by apply bytes_slice.
Qed.
End Frame.

(** ** The frame *)

(** The header with the protected frame bit set. *)
Definition protect (h : list Z) : list Z := h.[1 <- h.[1] .| 0x40].

Section Protect.
Context (h : list Z) (h_bytes : bytes h) (h_length : length h = hdr_len h).

Lemma get_protect_ne i : i ≠ 1%nat → (protect h).[i] = h.[i].
Proof. intros Hi. unfold protect. by apply get_insert_ne. Qed.

Lemma get_protect_1 : (protect h).[1] = h.[1] .| 0x40.
Proof. apply get_insert_eq. pose proof (hdr_len_bounds h). lia. Qed.

Lemma has_a4_protect : has_a4 (protect h) = has_a4 h.
Proof. unfold has_a4. rewrite get_protect_1, !Z.lor_spec. by rewrite !orb_false_r. Qed.

Lemma has_qc_protect : has_qc (protect h) = has_qc h.
Proof. unfold has_qc. by rewrite get_protect_ne by lia. Qed.

Lemma hdr_len_protect : hdr_len (protect h) = hdr_len h.
Proof. unfold hdr_len. by rewrite has_a4_protect, has_qc_protect. Qed.

Lemma length_protect : length (protect h) = length h.
Proof. apply length_insert. Qed.

Lemma bytes_protect : bytes (protect h).
Proof.
  apply Forall_insert; [done|]. apply fits_lor; [lia|by apply bytes_get|unfold fits; lia].
Qed.

Lemma ccmp_nonce_protect PN : length PN = 6%nat → ccmp_nonce (protect h) PN = ccmp_nonce h PN.
Proof.
  intros Hp. rewrite (nonce_explicit h h_length PN Hp), (nonce_explicit (protect h));
    [|by rewrite length_protect, hdr_len_protect|done].
  unfold qc_tid. rewrite has_a4_protect, has_qc_protect. rewrite !get_protect_ne; [done|lia..|].
  destruct (has_a4 h); lia.
Qed.
End Protect.

Lemma force_protected_app h r : (1 < length h)%nat → force_protected (h ++ r) = protect h ++ r.
Proof.
  intros H. unfold force_protected, protect. rewrite get_app_l by lia. by rewrite insert_app_l.
Qed.

(** The first block of the MIC is B_0 of RFC 3610 with an 8-byte tag. *)
Lemma mic_iv_b0 (h PN msg : list Z) (n : nat) :
  length (ccmp_nonce h PN) = 13%nat → length msg = n →
  [0x59] ++ ccmp_nonce h PN ++ [u8 (Z.of_nat n / 256); u8 (Z.of_nat n mod 256)] =
    ccm_b0 8 (ccmp_nonce h PN) (ccmp_aad h) msg.
Proof.
  intros Hn Hm. unfold ccm_b0. rewrite Hn, Hm, decide_False by done. cbn [Nat.sub].
  rewrite be_bytes_2, !land_255. rewrite Z.shiftr_div_pow2 by lia. change (2 ^ 8) with 256.
  unfold u8. by rewrite Z.mod_mod by lia.
Qed.

(** Two blocks of chaining. *)
Lemma cbc_mac_two key x l : (16 < length l <= 32)%nat →
  cbc_mac key x l =
    cipher key (xorl (pad16 (drop 16 l)) (cipher key (xorl (take 16 l) x))).
Proof.
  intros Hl. rewrite cbc_mac_step by lia. rewrite cbc_mac_step by (rewrite length_drop; lia).
  unfold cbc_mac. rewrite !length_drop. replace (length l - 16 - 16)%nat with 0%nat by lia.
  rewrite blocks_0. cbn [cbc_fold]. rewrite (take_ge (drop 16 l)) by (rewrite length_drop; lia).
  do 4 f_equal. unfold pad16. rewrite length_take, Nat.min_l by lia. apply app_nil_r.
Qed.

(** The chaining over the two header blocks. *)
Lemma mic_headers_ok (E : env) (key h r x : list Z) :
  bytes key → length key = 16%nat → bytes h → length h = hdr_len h → bytes r →
  Z.testbit h.[0] 6 = false → block x →
  let b1 := construct_mic_header1 (Z.of_nat (hdr_len h)) (protect h ++ r) in
  let b2 := construct_mic_header2 (protect h ++ r) (has_a4 h) (has_qc h) in
  let y := aes128k128d key (bitwise_xor x b1 (local_array E 16)) x in
  aes128k128d key (bitwise_xor y b2 (local_array E 16)) y = cbc_mac key x (ccm_aad (ccmp_aad h)).
Proof.
  intros Hk Hkl Hh Hhl Hr H6 [Hxl Hxb]. cbv zeta.
  pose proof (construct_mic_headers_eq h Hh Hhl r H6) as Heq. cbv zeta in Heq. fold (protect h) in Heq.
  pose proof (hdr_len_bounds h) as Hb.
  destruct (length_headers h (protect h ++ r)) as [L1 L2].
  set (b1 := construct_mic_header1 _ _) in *. set (b2 := construct_mic_header2 _ _ _) in *.
  clearbody b1 b2.
  assert (length (ccm_aad (ccmp_aad h)) = hdr_len h) as La.
  { unfold ccm_aad. rewrite decide_False by done.
    rewrite length_app, length_be_bytes, length_ccmp_aad by lia. lia. }
  assert (bytes (ccm_aad (ccmp_aad h))) as Ba by (apply bytes_ccm_aad; by apply bytes_ccmp_aad).
  set (A := ccm_aad (ccmp_aad h)) in *. clearbody A.
  assert (b1 = take 16 A) as ->.
  { rewrite <- (take_app_length' b1 b2 16), Heq, take_app_le by lia. done. }
  assert (b2 = pad16 (drop 16 A)) as ->.
  { rewrite <- (drop_app_length' (take 16 A) b2 16), Heq, drop_app_le by lia.
    unfold pad16. rewrite length_drop, La. do 2 f_equal; lia. }
  assert (bytes (take 16 A)) as Bt by (by apply Forall_take).
  assert (bytes (drop 16 A)) as Bd by (by apply Forall_drop).
  rewrite cbc_mac_two by lia.
  rewrite (bitwise_xor_xorl x) by (done || apply length_local_array).
  rewrite (aes128k128d_cipher key Hk Hkl (xorl x _)); [|rewrite length_xorl; lia|auto with rt|done].
  assert (block (cipher key (xorl x (take 16 A)))) as [Hyl Hyb].
  { apply block_cipher; [done..|]. split; [rewrite length_xorl; lia|auto with rt]. }
  rewrite bitwise_xor_xorl by (done || apply length_local_array).
  rewrite (aes128k128d_cipher key Hk Hkl); [|rewrite length_xorl; lia|auto with rt|done].
  by rewrite (xorl_comm (cipher key _)), (xorl_comm x).
Qed.

(** The packet number of a CCMP header. *)
Definition ccmp_pn (l : list Z) : list Z := [l.[0]; l.[1]; l.[4]; l.[5]; l.[6]; l.[7]].

Lemma ccmp_pn_ok l : bytes l → bytes (ccmp_pn l) ∧ length (ccmp_pn l) = 6%nat.
Proof. intros H. split; [|done]. unfold ccmp_pn. repeat (apply Forall_cons; split; [by apply bytes_get|]). constructor. Qed.

(** What the code reads of the frame control field. *)
Lemma frame_control h r :
  bytes h → length h = hdr_len h →
  ∃ fc, load (h ++ r) 0 2 = Some fc ∧
    negb (((fc.[1] & 0x2) >> 1) & (fc.[1] & 0x1) =? 0) = has_a4 h ∧
    (let s := (fc.[0] >> 4) & 0x0f in (s =? 0x08) || (s =? 0x09) || (s =? 0x0a) || (s =? 0x0b)) = has_qc h.
Proof.
  intros Hb Hl. pose proof (hdr_len_bounds h). exists (slice (h ++ r) 0 2).
  split; [by apply load_ok; rewrite ?length_app; lia|].
  assert (slice (h ++ r) 0 2 = [h.[0]; h.[1]]) as ->.
  { rewrite slice_app_l by lia. by rewrite slice_map_seq by lia. }
  change ([h.[0]; h.[1]].[0]) with (h.[0]). change ([h.[0]; h.[1]].[1]) with (h.[1]).
  split; [apply a4_bits|apply qc_bits]; by apply bytes_get.
Qed.

Lemma hdr_len_code h :
  (let HeaderLen := 24 in let HeaderLen := if has_a4 h then HeaderLen + 6 else HeaderLen in
   if has_qc h then HeaderLen + 2 else HeaderLen) = Z.of_nat (hdr_len h).
Proof. unfold hdr_len. by destruct (has_a4 h), (has_qc h). Qed.

(** A masked tag compared with the tag or the tag with the masked one. *)
Lemma tag_compare mac c t :
  length mac = 16%nat → length c = 16%nat → length t = 8%nat →
  take 8 mac = take 8 (xorl c (pad16 t)) ↔ t = xorl (take 8 mac) c.
Proof.
  intros Hm Hc Ht.
  assert (take 8 (xorl c (pad16 t)) = xorl t c) as ->.
  { rewrite <- (xorl_take_r t c 8), (xorl_comm t) by lia. unfold xorl, pad16.
    by rewrite zip_with_take, (take_app_length' t) by lia. }
  split.
  - intros ->. by rewrite xorl_cancel_r by lia.
  - intros ->. rewrite xorl_cancel_r; [done|]. rewrite length_take. lia.
Qed.

(** The decrypted frame and its verdict. *)
Definition ccmp_frame_open (key h r : list Z) (n : nat) : bool * list Z :=
  let nonce := ccmp_nonce h (ccmp_pn r) in
  let msg := ccm_xor key nonce (slice r 8 n) in
  (bool_decide (slice r (8 + n) 8 = ccm_seal_tag key 8 nonce (ccmp_aad h) msg),
   protect h ++ put r 0 msg).

Section Decrypt.
Context (E : env) (k : CIPHER_KEY).
Context (key_bytes : bytes (Key k)) (key_length : length (Key k) = 16%nat) (key_set : KeyLen k ≠ 0).

Lemma RTMPSoftDecryptAES_eq h r (n : nat) :
  bytes h → length h = hdr_len h → Z.testbit h.[0] 6 = false →
  bytes r → (n + 16 <= length r)%nat → Z.of_nat n < 2 ^ 32 - 48 →
  RTMPSoftDecryptAES E (h ++ r) (Z.of_nat (hdr_len h + 16 + n)) k = Some (ccmp_frame_open (Key k) h r n).
Proof.
  intros Hh Hhl H6 Hr Hrl Hn. pose proof (hdr_len_bounds h) as Hb.
  destruct (frame_control h r Hh Hhl) as (fc & Hfc & Ha4 & Hqc).
  destruct (ccmp_pn_ok r Hr) as [Pb Pl].
  unfold RTMPSoftDecryptAES. rewrite Hfc, Some_bind. cbv zeta in Hqc |- *. rewrite Ha4, Hqc.
  pose proof (hdr_len_code h) as Hc. cbv zeta in Hc. rewrite Hc. clear Hc.
  destruct (Z.eqb_spec (KeyLen k) 0); [done|].
  replace (Z.of_nat (hdr_len h)) with (Z.of_nat (length h + 0)) at 1 by lia.
  rewrite load_app_r, Some_bind by lia. change (Z.to_nat 8) with 8%nat.
  assert ([(slice r 0 8).[0]; (slice r 0 8).[1]; (slice r 0 8).[4]; (slice r 0 8).[5];
           (slice r 0 8).[6]; (slice r 0 8).[7]] = ccmp_pn r) as ->.
  { by rewrite slice_map_seq by lia. }
  assert (u32 (Z.of_nat (hdr_len h + 16 + n) - Z.of_nat (hdr_len h) - 8 - 8) = Z.of_nat n) as ->.
  { rewrite u32_small; unfold fits; lia. }
  replace (Z.of_nat (hdr_len h) + 8) with (Z.of_nat (length h + 8)) by lia.
  rewrite (decrypt_all_ok E (Key k) key_bytes key_length h Hh Hhl (ccmp_pn r) Pb Pl r Hr n Hrl), Some_bind.
  set (nonce := ccmp_nonce h (ccmp_pn r)).
  destruct (msg_ok (Key k) key_bytes key_length h Hh Hhl (ccmp_pn r) Pb Pl r Hr n Hrl) as [Ml Mb].
  unfold ccmp_frame_open. fold nonce in Ml, Mb |- *. cbv zeta.
  set (msg := ccm_xor (Key k) nonce (slice r 8 n)) in *.
  rewrite load_app_r, Some_bind by (rewrite ?length_put; lia). change (Z.to_nat 8) with 8%nat.
  rewrite slice_put_after by lia. set (tag := slice r (8 + n) 8).
  assert (length tag = 8%nat) as Tl by (apply length_slice; lia).
  rewrite force_protected_app by lia. rewrite pad16_put by lia.
  set (r' := put r 0 msg).
  assert (length r' = length r) as Rl by apply length_put.
  assert (bytes r') as Rb by (by apply bytes_put).
  pose proof (ctr_cipher_ok E (Key k) key_bytes key_length h Hh Hhl (ccmp_pn r) Pb Pl r' 0) as C0.
  change (Z.of_nat 0) with 0 in C0. rewrite C0. fold nonce. clear C0.
  destruct (nonce_ok h Hh Hhl (ccmp_pn r) Pb Pl) as [Nb Nl]. fold nonce in Nb, Nl.
  pose proof (construct_mic_iv_eq (protect h)) as Hiv.
  rewrite (has_a4_protect h), (has_qc_protect h) in Hiv by done.
  rewrite Hiv; [|by rewrite length_protect, hdr_len_protect|done].
  rewrite ccmp_nonce_protect by done.
  rewrite (mic_iv_b0 h (ccmp_pn r) msg n) by done. fold nonce.
  destruct (block_b0_13 (Key k) key_length nonce Nb Nl (ccmp_aad h) msg) as [B0l B0b].
  destruct (block_stream (Key k) key_bytes key_length nonce Nb Nl 0) as [C0l C0b].
  rewrite (aes128k128d_cipher (Key k) key_bytes key_length (ccm_b0 _ _ _ _)) by done.
  rewrite (mic_headers_ok E (Key k) h r') by (done || by apply block_cipher).
  assert (block (cbc_mac (Key k) (cipher (Key k) (ccm_b0 8 nonce (ccmp_aad h) msg)) (ccm_aad (ccmp_aad h)))) as Hx.
  { apply block_cbc_mac; [done..| |apply bytes_ccm_aad; by apply bytes_ccmp_aad].
    by apply block_cipher. }
  replace (Z.of_nat (hdr_len h)) with (Z.of_nat (length h)) by lia.
  assert (slice r' 0 n = msg) as Hs.
  { rewrite <- Ml. apply slice_put_eq. lia. }
  rewrite (mic_all_ok E (Key k) key_bytes key_length h Hh Hhl (ccmp_pn r) Pb Pl r Hr n Hrl (protect h) r');
    [|by rewrite length_protect|done|done|done].
  rewrite Some_bind. do 2 f_equal. apply bool_decide_ext. fold nonce msg.
  assert (block (cbc_mac (Key k) (cbc_mac (Key k) (cipher (Key k) (ccm_b0 8 nonce (ccmp_aad h) msg))
    (ccm_aad (ccmp_aad h))) msg)) as [Tml _] by (by apply block_cbc_mac).
  rewrite bitwise_xor_xorl by (done || apply length_local_array || (rewrite length_pad16; lia)).
  by rewrite tag_compare.
Qed.
End Decrypt.

(** The loop over blocks of a frame stays where its memory is. *)
Lemma decrypt_loop_bound E key PN a4 qc k i m p :
  match loop_opt i k (decrypt_block_step E key PN a4 qc) (m, p) with
  | Some (m', p') => length m' = length m ∧ p' = p + 16 * Z.of_nat k ∧ ((0 < k)%nat → p' <= Z.of_nat (length m))
  | None => True
  end.
Proof.
  revert i m p. induction k as [|k IH]; intros i m p; cbn [loop_opt]; [split_and!; lia|].
  destruct (decrypt_block_step E key PN a4 qc i (m, p)) as [[m1 p1]|] eqn:E1; [|done]. rewrite Some_bind.
  assert (length m1 = length m ∧ p1 = p + 16 ∧ p1 <= Z.of_nat (length m)) as (L1 & -> & B1).
  { unfold decrypt_block_step in E1.
    destruct (load m p 16) as [src|] eqn:El; [|discriminate]. rewrite Some_bind in E1.
    apply load_spec in El as (_ & _ & Hb & _).
    destruct (store m (p - 8) _) as [m2|] eqn:Es; [|discriminate]. rewrite Some_bind in E1.
    injection E1 as <- <-. unfold store in Es. case_match; [|discriminate]. injection Es as <-. rewrite length_put. split_and!; lia. }
  specialize (IH (S i) m1 (p + 16)). destruct (loop_opt _ k _ _) as [[m' p']|]; [|done].
  destruct IH as (IL & IP & IB). split_and!; [lia|lia|]. intros _. destruct k; [|specialize (IB ltac:(lia))]; lia.
Qed.

(** A frame too short for its header, the CCMP header and the MIC: the
    length wraps around and the decryption leaves the frame. *)
Lemma RTMPSoftDecryptAES_short_frame E h r n k :
  bytes h → length h = hdr_len h → KeyLen k ≠ 0 → bytes r → (8 <= length r)%nat →
  Z.of_nat (length (h ++ r)) < 2 ^ 31 → 0 <= n < Z.of_nat (hdr_len h) + 16 →
  RTMPSoftDecryptAES E (h ++ r) n k = None.
Proof.
  intros Hh Hhl Hk Hr Hrl Hsz Hn. pose proof (hdr_len_bounds h) as Hb.
  destruct (frame_control h r Hh Hhl) as (fc & Hfc & Ha4 & Hqc).
  unfold RTMPSoftDecryptAES. rewrite Hfc, Some_bind. cbv zeta in Hqc |- *. rewrite Ha4, Hqc.
  pose proof (hdr_len_code h) as Hc. cbv zeta in Hc. rewrite Hc. clear Hc.
  destruct (Z.eqb_spec (KeyLen k) 0); [done|].
  rewrite load_ok, Some_bind by (rewrite ?length_app; lia).
  assert (u32 (n - Z.of_nat (hdr_len h) - 8 - 8) = n - Z.of_nat (hdr_len h) - 16 + 2 ^ 32) as ->.
  { unfold u32. symmetry. apply Z.mod_unique with (-1); lia. }
  set (N := n - Z.of_nat (hdr_len h) - 16 + 2 ^ 32). assert (2 ^ 32 - 48 <= N) as HN by lia.
  unfold decrypt_payload at 1. set (l := [_; _; _; _; _; _]).
  pose proof (decrypt_loop_bound E (Key k) l (has_a4 h) (has_qc h) (Z.to_nat (N / 16)) 0 (h ++ r)
    (Z.of_nat (hdr_len h) + 8)) as H.
  destruct (loop_opt 0 _ _ _) as [[m' p']|]; [|done]. destruct H as (_ & -> & H). exfalso.
  assert (2 ^ 28 - 3 <= N / 16) by (apply Z.div_le_lower_bound; lia). lia.
Qed.

(** the driver's second AES, byte-wise and with its key schedule computed
    on the way, is the cipher of FIPS 197 for 128-bit keys. *)
Theorem aes128k128d_correct key data ciphertext :
  bytes key → length key = 16%nat → bytes data → length data = 16%nat → length ciphertext = 16%nat →
  aes128k128d key data ciphertext = cipher key data.
Proof. intros. by apply aes128k128d_cipher. Qed.

Lemma aes128k128d_correct_witness :
  aes128k128d (seqZ 0 16) (map (λ i, 17 * i) (seqZ 0 16)) (zeros 16) =
    cipher (seqZ 0 16) (map (λ i, 17 * i) (seqZ 0 16)).
Proof. apply aes128k128d_correct; (bytes_table || reflexivity). Defined.

(** [RTMPSoftDecryptAES] is CCMP decryption of a whole frame.  Without a
    key it refuses and changes nothing.  Otherwise the plain text replaces
    CCMP header and cipher text from the end of the 802.11 header on, the
    protected bit is set, and TRUE is answered exactly when the eight bytes
    behind the cipher text are the CCM tag for the AAD of the header and the
    nonce of header and packet number. *)
Theorem RTMPSoftDecryptAES_spec E h r n k :
  bytes h → length h = hdr_len h → bytes r → (n + 16 <= length r)%nat →
  Z.of_nat n < 2 ^ 32 - 48 → length (Key k) = 16%nat → bytes (Key k) → Z.testbit h.[0] 6 = false →
  RTMPSoftDecryptAES E (h ++ r) (Z.of_nat (hdr_len h + 16 + n)) k =
  Some (if KeyLen k =? 0 then (false, h ++ r) else ccmp_frame_open (Key k) h r n).
Proof.
  intros Hh Hhl Hr Hrl Hn Hkl Hkb H6. destruct (Z.eqb_spec (KeyLen k) 0) as [H0|H0].
  - destruct (frame_control h r Hh Hhl) as (fc & Hfc & _). unfold RTMPSoftDecryptAES.
    rewrite Hfc, Some_bind. by rewrite H0.
  - by apply RTMPSoftDecryptAES_eq.
Qed.

(** The test vector of IEEE Std 802.11: header, and what follows it. *)
Definition ccmp_vector_header : list Z :=
  [0x08; 0x48; 0xc3; 0x2c; 0x0f; 0xd2; 0xe1; 0x28; 0xa5; 0x7c; 0x50; 0x30;
   0xf1; 0x84; 0x44; 0x08; 0xab; 0xae; 0xa5; 0xb8; 0xfc; 0xba; 0x80; 0x33].

Definition ccmp_vector_body : list Z :=
  [0x0c; 0xe7; 0x00; 0x20; 0x76; 0x97; 0x03; 0xb5;
   0xf3; 0xd0; 0xa2; 0xfe; 0x9a; 0x3d; 0xbf; 0x23; 0x42; 0xa6; 0x43; 0xe4; 0x32; 0x46; 0xe8; 0x0c;
   0x3c; 0x04; 0xd0; 0x19; 0x78; 0x45; 0xce; 0x0b; 0x16; 0xf9; 0x76; 0x23].

Definition ccmp_vector_plain : list Z :=
  [0xf8; 0xba; 0x1a; 0x55; 0xd0; 0x2f; 0x85; 0xae; 0x96; 0x7b; 0xb6; 0x2f; 0xb6; 0xcd; 0xa8; 0xeb;
   0x7e; 0x78; 0xa0; 0x50].

Definition ccmp_vector_key : CIPHER_KEY :=
  {| Key := [0xc9; 0x7c; 0x1f; 0x67; 0xce; 0x37; 0x11; 0x85; 0x51; 0x4a; 0x8a; 0x19; 0xf2; 0xbd; 0xd5; 0x2f];
     TxMic := zeros 8; RxMic := zeros 8; TxTsc := zeros 16; RxTsc := zeros 16;
     CipherAlg := 4; KeyLen := 16; Type_ := 0 |}.

Lemma RTMPSoftDecryptAES_spec_witness :
  let E := {| kmalloc := λ _, false; garbage := [7; 8] |} in
  RTMPSoftDecryptAES E (ccmp_vector_header ++ ccmp_vector_body) (Z.of_nat (hdr_len ccmp_vector_header + 16 + 20))
    ccmp_vector_key =
  Some (true, ccmp_vector_header ++ ccmp_vector_plain ++ slice ccmp_vector_body 20 16).
Proof.
  intros E. etransitivity; [apply RTMPSoftDecryptAES_spec|vm_compute; reflexivity];
    first [bytes_table | reflexivity | cbn; lia].
Defined.
