(* ===== verification/Ccmp.v ===== *)
(** * CCMP of the rt5370 driver

    Models the second half of [linux/Arch/rt5370.driver/common/cmm_aes.c]:
    the additional authentication data, the nonce and the CCMP header, the
    in-place [RTMPSoftEncryptCCMP] and [RTMPSoftDecryptCCMP] on top of the
    AES-CCM of [crypt_aes.c], and the driver's own test vector.  Header and
    data are separate areas; [None] is an access outside the data. *)

From stdpp Require Import base list numbers list_numbers.
From Stdlib Require Import ZArith Lia Btauto.
From S2P Require Import Prelude AesTables Aes AesChain AesCcm WpaCmm Dot11 SoftAes.

Definition BTYPE_MGMT : Z := 0.
Definition BTYPE_DATA : Z := 2.
Definition SUBTYPE_QDATA : Z := 8.
Definition SUBTYPE_QDATA_CFACK : Z := 9.
Definition SUBTYPE_QDATA_CFPOLL : Z := 10.
Definition SUBTYPE_QDATA_CFACK_CFPOLL : Z := 11.
Definition LEN_PN : Z := 6.

(** The array [aad_hdr] and [*aad_len]. *)
Definition RTMPConstructCCMPAAD (pHdr : list Z) (isDataFrame a4_exists qc_exists : bool)
    (aad_hdr : list Z) : list Z * Z :=
  let aad_hdr := if isDataFrame then aad_hdr.[0 <- pHdr.[0] & 0x8f] else aad_hdr.[0 <- pHdr.[0]] in
  let aad_hdr := aad_hdr.[1 <- pHdr.[1] & 0xc7] in
  let aad_hdr := aad_hdr.[1 <- aad_hdr.[1] .| 0x40] in
  let len := 2%nat in
  let aad_hdr := put aad_hdr len (slice pHdr 4 (3 * Z.to_nat MAC_ADDR_LEN)) in
  let len := (len + 3 * Z.to_nat MAC_ADDR_LEN)%nat in
  let aad_hdr := aad_hdr.[len <- pHdr.[22] & 0x0f] in
  let aad_hdr := aad_hdr.[len + 1 <- 0x00] in
  let len := (len + 2)%nat in
  let '(aad_hdr, len) :=
    if a4_exists
    then (put aad_hdr len (slice pHdr 24 (Z.to_nat MAC_ADDR_LEN)), (len + Z.to_nat MAC_ADDR_LEN)%nat)
    else (aad_hdr, len) in
  let '(aad_hdr, len) :=
    if qc_exists && a4_exists
    then ((aad_hdr.[len <- pHdr.[30] & 0x0f]).[len + 1 <- 0x00], (len + 2)%nat)
    else if qc_exists && negb a4_exists
    then ((aad_hdr.[len <- pHdr.[24] & 0x0f]).[len + 1 <- 0x00], (len + 2)%nat)
    else (aad_hdr, len) in
  (aad_hdr, Z.of_nat len).

(** The array [nonce_hdr] and [*nonce_hdr_len]. *)
Definition RTMPConstructCCMPNonce (pHdr : list Z) (a4_exists qc_exists isMgmtFrame : bool)
    (pn nonce_hdr : list Z) : list Z * Z :=
  let n_offset := 0%nat in
  let nonce_hdr := if qc_exists && a4_exists then nonce_hdr.[0 <- pHdr.[30] & 0x0f] else nonce_hdr in
  let nonce_hdr := if qc_exists && negb a4_exists then nonce_hdr.[0 <- pHdr.[24] & 0x0f] else nonce_hdr in
  let n_offset := (n_offset + 1)%nat in
  let nonce_hdr := put nonce_hdr n_offset (slice pHdr 10 (Z.to_nat MAC_ADDR_LEN)) in
  let n_offset := (n_offset + Z.to_nat MAC_ADDR_LEN)%nat in
  let nonce_hdr := loop 0 6 (λ i nonce_hdr, nonce_hdr.[n_offset + i <- pn.[5 - i]]) nonce_hdr in
  let n_offset := (n_offset + Z.to_nat LEN_PN)%nat in
  (nonce_hdr, Z.of_nat n_offset).

Definition RTMPConstructCCMPHdr (key_idx : Z) (pn ccmp_hdr : list Z) : list Z :=
  let ccmp_hdr := put ccmp_hdr 0 (zeros (Z.to_nat LEN_CCMP_HDR)) in
  let ccmp_hdr := ccmp_hdr.[0 <- pn.[0]] in
  let ccmp_hdr := ccmp_hdr.[1 <- pn.[1]] in
  let ccmp_hdr := ccmp_hdr.[3 <- (key_idx <<8 6) .| 0x20] in
  let ccmp_hdr := ccmp_hdr.[4 <- pn.[2]] in
  let ccmp_hdr := ccmp_hdr.[5 <- pn.[3]] in
  let ccmp_hdr := ccmp_hdr.[6 <- pn.[4]] in
  ccmp_hdr.[7 <- pn.[5]].

(** [frame_type], [a4_exists] and [qc_exists], as both directions compute
    them. *)
Definition ccmp_frame_fields (pHdr : list Z) : Z * bool * bool :=
  let frame_type := (pHdr.[0] >> 2) & 0x03 in
  let frame_subtype := (pHdr.[0] >> 4) & 0x0f in
  let from_ds := (pHdr.[1] & 0x2) >> 1 in
  let to_ds := pHdr.[1] & 0x1 in
  let a4_exists := negb (from_ds & to_ds =? 0) in
  let qc_exists :=
    if frame_type =? BTYPE_DATA
    then (frame_subtype =? SUBTYPE_QDATA) || (frame_subtype =? SUBTYPE_QDATA_CFACK) ||
         (frame_subtype =? SUBTYPE_QDATA_CFPOLL) || (frame_subtype =? SUBTYPE_QDATA_CFACK_CFPOLL)
    else false in
  (frame_type, a4_exists, qc_exists).

(** The AAD as the area [aad_hdr, aad_len], and the nonce likewise. *)
Definition ccmp_inputs (pHdr pn : list Z) : list Z * Z * (list Z * Z) :=
  let '(frame_type, a4_exists, qc_exists) := ccmp_frame_fields pHdr in
  let '(aad_hdr, aad_len) :=
    RTMPConstructCCMPAAD pHdr (frame_type =? BTYPE_DATA) a4_exists qc_exists (zeros 30) in
  (take (Z.to_nat aad_len) aad_hdr, aad_len,
   RTMPConstructCCMPNonce pHdr a4_exists qc_exists (frame_type =? BTYPE_MGMT) pn (zeros 13)).

(** The answer and the data. *)
Definition RTMPSoftEncryptCCMP (E : env) (pHdr pIV pKey pData : list Z) (DataLen : Z)
    : option (bool * list Z) :=
  let out_len := u32 (DataLen + 8) in
  let '(aad_hdr, aad_len, (nonce_hdr, nonce_hdr_len)) := ccmp_inputs pHdr pIV in
  '(code, pData, _) ← AES_CCM_Encrypt E pData 0 DataLen pKey 16 nonce_hdr nonce_hdr_len
                        aad_hdr aad_len LEN_CCMP_MIC 0 out_len;
  Some (code =? 0, pData).

(** The answer, the data and [*DataLen]. *)
Definition RTMPSoftDecryptCCMP (E : env) (pHdr : list Z) (pKey : CIPHER_KEY) (pData : list Z)
    (DataLen : Z) : option (bool * list Z * Z) :=
  if KeyLen pKey =? 0 then Some (false, pData, DataLen)
  else
    hdr ← load pData 0 8;
    let pn := [hdr.[0]; hdr.[1]; hdr.[4]; hdr.[5]; hdr.[6]; hdr.[7]] in
    let cipherData_ptr := LEN_CCMP_HDR in
    let cipherData_len := u32 (DataLen - LEN_CCMP_HDR) in
    if DataLen <=? LEN_CCMP_HDR then Some (false, pData, DataLen)
    else
      let '(aad_hdr, aad_len, (nonce_hdr, nonce_hdr_len)) := ccmp_inputs pHdr pn in
      '(code, pData, out_len) ←
        AES_CCM_Decrypt E pData cipherData_ptr cipherData_len (Key pKey) 16 nonce_hdr nonce_hdr_len
          aad_hdr aad_len LEN_CCMP_MIC 0 DataLen;
      if negb (code =? 0) then Some (false, pData, DataLen) else Some (true, pData, u16 out_len).

(** The verdicts printed by [CCMP_test_vector], [true] for "OK"; a failing
    [AES_CCM_Encrypt] or [AES_CCM_Decrypt] prints nothing. *)
Definition CCMP_test_vector (E : env) : option (list bool) :=
  let Key_ID := 0 in
  let TK := [0xc9; 0x7c; 0x1f; 0x67; 0xce; 0x37; 0x11; 0x85;
             0x51; 0x4a; 0x8a; 0x19; 0xf2; 0xbd; 0xd5; 0x2f] in
  let PN := [0x0C; 0xE7; 0x76; 0x97; 0x03; 0xB5] in
  let HDR := [0x08; 0x48; 0xc3; 0x2c; 0x0f; 0xd2; 0xe1; 0x28;
              0xa5; 0x7c; 0x50; 0x30; 0xf1; 0x84; 0x44; 0x08;
              0xab; 0xae; 0xa5; 0xb8; 0xfc; 0xba; 0x80; 0x33] in
  let AAD := [0x08; 0x40; 0x0f; 0xd2; 0xe1; 0x28; 0xa5; 0x7c;
              0x50; 0x30; 0xf1; 0x84; 0x44; 0x08; 0xab; 0xae;
              0xa5; 0xb8; 0xfc; 0xba; 0x00; 0x00] in
  let CCMP_HDR := [0x0c; 0xe7; 0x00; 0x20; 0x76; 0x97; 0x03; 0xb5] in
  let CCM_NONCE := [0x00; 0x50; 0x30; 0xf1; 0x84; 0x44; 0x08; 0xb5; 0x03; 0x97; 0x76; 0xe7; 0x0c] in
  let P_TEXT_DATA := [0xf8; 0xba; 0x1a; 0x55; 0xd0; 0x2f; 0x85; 0xae;
                      0x96; 0x7b; 0xb6; 0x2f; 0xb6; 0xcd; 0xa8; 0xeb;
                      0x7e; 0x78; 0xa0; 0x50] in
  let C_TEXT_DATA := [0xf3; 0xd0; 0xa2; 0xfe; 0x9a; 0x3d; 0xbf; 0x23;
                      0x42; 0xa6; 0x43; 0xe4; 0x32; 0x46; 0xe8; 0x0c;
                      0x3c; 0x04; 0xd0; 0x19; 0x78; 0x45; 0xce; 0x0b;
                      0x16; 0xf9; 0x76; 0x23] in
  let '(res_buf, res_len) := RTMPConstructCCMPAAD HDR true false false (zeros 100) in
  let aad_ok := (res_len =? 22) && bool_decide (take (Z.to_nat res_len) res_buf = AAD) in
  let '(res_buf, res_len) := RTMPConstructCCMPNonce HDR false false false PN (zeros 100) in
  let nonce_ok := (res_len =? 13) && bool_decide (take (Z.to_nat res_len) res_buf = CCM_NONCE) in
  let res_buf := RTMPConstructCCMPHdr Key_ID PN (zeros 100) in
  let hdr_ok := bool_decide (take 8 res_buf = CCMP_HDR) in
  let res_buf := put (zeros 100) 0 P_TEXT_DATA in
  '(code, res_buf, res_len) ← AES_CCM_Encrypt E res_buf 0 20 TK 16 CCM_NONCE 13 AAD 22 8 0 28;
  let encrypt_ok :=
    if code =? 0
    then [(res_len =? 28) && bool_decide (take (Z.to_nat res_len) res_buf = C_TEXT_DATA)] else [] in
  let res_buf := put (zeros 100) 0 C_TEXT_DATA in
  '(code, res_buf, res_len) ← AES_CCM_Decrypt E res_buf 0 28 TK 16 CCM_NONCE 13 AAD 22 8 0 20;
  let decrypt_ok :=
    if code =? 0
    then [(res_len =? 20) && bool_decide (take (Z.to_nat res_len) res_buf = P_TEXT_DATA)] else [] in
  Some ([aad_ok; nonce_ok; hdr_ok] ++ encrypt_ok ++ decrypt_ok).

(** ** Headers *)

Lemma ccmp_frame_fields_eq h :
  bytes h → is_data h = true → ccmp_frame_fields h = (BTYPE_DATA, has_a4 h, has_qc h).
Proof.
  intros Hb Hd. unfold ccmp_frame_fields. unfold is_data in Hd. apply Z.eqb_eq in Hd.
  change 0x03 with 3. rewrite Hd. f_equal; [f_equal; apply a4_bits; by apply bytes_get|].
  apply qc_bits. by apply bytes_get.
Qed.

Lemma RTMPConstructCCMPAAD_eq h :
  (hdr_len h <= length h)%nat →
  let '(a, n) := RTMPConstructCCMPAAD h true (has_a4 h) (has_qc h) (zeros 30) in
  n = Z.of_nat (hdr_len h - 2) ∧ take (Z.to_nat n) a = ccmp_aad h.
Proof.
  intros Hl. unfold RTMPConstructCCMPAAD, ccmp_aad, qc_tid, hdr_len in *.
  change (Z.to_nat MAC_ADDR_LEN) with 6%nat. change (3 * 6)%nat with 18%nat.
  rewrite (slice_map_seq h 4) by (destruct (has_a4 h), (has_qc h); lia).
  destruct (has_a4 h), (has_qc h); try rewrite (slice_map_seq h 24) by lia; split; reflexivity.
Qed.

Lemma RTMPConstructCCMPNonce_eq h pn b :
  (24 <= length h)%nat → length pn = 6%nat →
  RTMPConstructCCMPNonce h (has_a4 h) (has_qc h) b pn (zeros 13) = (ccmp_nonce h pn, 13).
Proof.
  intros Hl Hp. unfold RTMPConstructCCMPNonce, ccmp_nonce, qc_tid.
  change (Z.to_nat MAC_ADDR_LEN) with 6%nat. rewrite (slice_map_seq h 10) by lia.
  destruct pn as [|p0 [|p1 [|p2 [|p3 [|p4 [|p5 [|]]]]]]]; try discriminate Hp.
  destruct (has_a4 h), (has_qc h); reflexivity.
Qed.

Lemma ccmp_inputs_eq h pn :
  bytes h → (hdr_len h <= length h)%nat → length pn = 6%nat → is_data h = true →
  ccmp_inputs h pn = (ccmp_aad h, Z.of_nat (length (ccmp_aad h)), (ccmp_nonce h pn, 13)).
Proof.
  intros Hb Hl Hp Hd. pose proof (hdr_len_bounds h). unfold ccmp_inputs. rewrite ccmp_frame_fields_eq by done.
  change (BTYPE_DATA =? BTYPE_DATA) with true.
  pose proof (RTMPConstructCCMPAAD_eq h Hl) as HA.
  destruct (RTMPConstructCCMPAAD _ _ _ _ _) as [a n]. destruct HA as [-> ->].
  rewrite RTMPConstructCCMPNonce_eq by (done || lia). by rewrite length_ccmp_aad by done.
Qed.

(** ** Encryption and decryption *)

Definition ccmp_hdr_ok (h : list Z) : Prop :=
  bytes h ∧ (hdr_len h <= length h)%nat ∧ is_data h = true.

Section Ccmp.
Context (E : env) (memory : kmalloc E sizeof_AES_CTX_STRUC = true).
Context (h : list Z) (h_ok : ccmp_hdr_ok h).

Lemma aad_length_ok : Z.of_nat (length (ccmp_aad h)) < 0xFF00.
Proof.
  destruct h_ok as (Hb & Hl & Hd). rewrite length_ccmp_aad by done. pose proof (hdr_len_bounds h). lia.
Qed.

Lemma ccmp_nonce_ok pn : bytes pn → length pn = 6%nat →
  bytes (ccmp_nonce h pn) ∧ length (ccmp_nonce h pn) = 13%nat.
Proof.
  destruct h_ok as (Hb & Hl & Hd). intros Hp Hpl. pose proof (hdr_len_bounds h).
  split; [by apply bytes_ccmp_nonce|apply length_ccmp_nonce; lia].
Qed.

Lemma RTMPSoftEncryptCCMP_eq pn key m (n : nat) :
  bytes pn → length pn = 6%nat → bytes key → length key = 16%nat → bytes m →
  (n <= 4080)%nat → (n + 8 <= length m)%nat →
  let nonce := ccmp_nonce h pn in
  let msg := slice m 0 n in
  RTMPSoftEncryptCCMP E h pn key m (Z.of_nat n) =
    Some (true, put m 0 (ccm_xor key nonce msg ++ ccm_seal_tag key 8 nonce (ccmp_aad h) msg)).
Proof.
  intros Hp Hpl Hk Hkl Hm Hn Hnl nonce msg. destruct (ccmp_nonce_ok pn Hp Hpl) as [Nb Nl].
  pose proof aad_length_ok as Ha. destruct h_ok as (Hb & Hl & Hd).
  unfold RTMPSoftEncryptCCMP. rewrite ccmp_inputs_eq by done.
  pose proof (AES_CCM_Encrypt_ok E key Hk Hkl memory nonce Nb ltac:(unfold nonce; lia) 8 ltac:(unfold M_ok; auto)
    (ccmp_aad h) (bytes_ccmp_aad h Hb) Ha m 0 0 n (u32 (Z.of_nat n + 8)) Hm Hn ltac:(lia) ltac:(lia)
    ltac:(lia)) as H.
  fold nonce in Nl. rewrite Nl in H. unfold LEN_CCMP_MIC. fold nonce. change 13 with (Z.of_nat 13).
  change 8 with (Z.of_nat 8) at 1. change 0 with (Z.of_nat 0). rewrite H; [done|].
  rewrite u32_small; [lia|unfold fits; lia].
Qed.

Context (k : CIPHER_KEY) (key_bytes : bytes (Key k)) (key_length : length (Key k) = 16%nat).

(** What a frame decrypts to. *)
Definition ccmp_open (l : list Z) (n : nat) : bool * list Z :=
  let nonce := ccmp_nonce h (ccmp_pn l) in
  let msg := ccm_xor (Key k) nonce (slice l 8 n) in
  (bool_decide (slice l (8 + n) 8 = ccm_seal_tag (Key k) 8 nonce (ccmp_aad h) msg), msg).

Lemma ccmp_pn_slice m : (8 <= length m)%nat →
  (let hdr := slice m 0 8 in [hdr.[0]; hdr.[1]; hdr.[4]; hdr.[5]; hdr.[6]; hdr.[7]]) = ccmp_pn m.
Proof. intros H. cbv zeta. by rewrite slice_map_seq by lia. Qed.

Lemma RTMPSoftDecryptCCMP_eq m (n : nat) :
  KeyLen k ≠ 0 → bytes m → (n <= 4080)%nat → (n + 16 <= length m)%nat →
  RTMPSoftDecryptCCMP E h k m (Z.of_nat (n + 16)) =
    Some (let '(ok, msg) := ccmp_open m n in
          (ok, put m 0 msg, if ok then Z.of_nat n else Z.of_nat (n + 16))).
Proof.
  intros Hk0 Hm Hn Hnl. destruct (ccmp_pn_ok m Hm) as [Pb Pl].
  destruct (ccmp_nonce_ok (ccmp_pn m) Pb Pl) as [Nb Nl].
  pose proof aad_length_ok as Ha. destruct h_ok as (Hb & Hl & Hd).
  unfold RTMPSoftDecryptCCMP, LEN_CCMP_HDR, LEN_CCMP_MIC. destruct (Z.eqb_spec (KeyLen k) 0); [done|].
  rewrite load_ok, Some_bind by lia. change (Z.to_nat 0) with 0%nat. change (Z.to_nat 8) with 8%nat.
  pose proof (ccmp_pn_slice m ltac:(lia)) as Hpn. cbv zeta in Hpn |- *. rewrite Hpn.
  destruct (Z.leb_spec (Z.of_nat (n + 16)) 8); [lia|].
  rewrite ccmp_inputs_eq by done. set (nonce := ccmp_nonce h (ccmp_pn m)) in *.
  pose proof (AES_CCM_Decrypt_ok E (Key k) key_bytes key_length memory nonce Nb ltac:(lia) 8
    ltac:(unfold M_ok; auto) (ccmp_aad h) (bytes_ccmp_aad h Hb) Ha m 8 0 n (Z.of_nat (n + 16)) Hm Hn ltac:(lia)
    ltac:(lia) ltac:(lia) ltac:(lia)) as HD.
  rewrite Nl in HD.
  assert (u32 (Z.of_nat (n + 16) - 8) = Z.of_nat (n + 8)) as ->
    by (rewrite u32_small; [lia|unfold fits; lia]).
  change (Z.of_nat 13) with 13 in HD. change (Z.of_nat 8) with 8 in HD. change (Z.of_nat 0) with 0 in HD.
  rewrite HD, Some_bind. unfold ccmp_open. fold nonce. case_bool_decide as He.
  - rewrite decide_True by done. change (0 =? 0) with true. cbn [negb]. unfold u16. by rewrite Z.mod_small by lia.
  - by rewrite decide_False by done.
Qed.

(** Frames that cannot hold the CCMP header and the MIC. *)
Lemma RTMPSoftDecryptCCMP_refuse m n :
  KeyLen k = 0 ∨ ((8 <= length m)%nat ∧ 0 <= n < 16) →
  RTMPSoftDecryptCCMP E h k m n = Some (false, m, n).
Proof.
  unfold RTMPSoftDecryptCCMP, LEN_CCMP_HDR, LEN_CCMP_MIC.
  intros [->|[Hm Hn]]; [done|]. destruct (Z.eqb_spec (KeyLen k) 0); [done|].
  rewrite load_ok, Some_bind by lia. cbv zeta. destruct (Z.leb_spec n 8); [done|].
  destruct (ccmp_inputs h _) as [[aad al] [nn nl]] eqn:E0.
  assert (nl = 13) as ->.
  { unfold ccmp_inputs in E0. destruct (ccmp_frame_fields h) as [[? ?] ?].
    destruct (RTMPConstructCCMPAAD _ _ _ _ _). by injection E0 as <- <- <- <-. }
  assert (u32 (u32 (n - 8) - 8) = n - 16 + 2 ^ 32) as Hw.
  { rewrite (u32_small (n - 8)) by (unfold fits; lia). unfold u32. symmetry.
    apply Z.mod_unique with (-1); lia. }
  unfold AES_CCM_Decrypt. rewrite Hw. unfold CCM_check.
  change (16 =? 16) with true. change ((13 <? 7) || (13 <? 13)) with false. change (CCM_MACLength_ok 8) with true.
  cbn [negb]. destruct (Z.ltb_spec n (n - 16 + 2 ^ 32)); [|lia]. done.
Qed.
End Ccmp.

(** ** What the header may lose on the way *)

(** Retry, power management, more data and protected bits, duration and
    sequence number differ. *)
Definition same_but_mutable (h h' : list Z) : Prop :=
  length h' = length h ∧ h'.[1] & 0x87 = h.[1] & 0x87 ∧ h'.[22] & 0x0f = h.[22] & 0x0f ∧
  ∀ i : nat, (i = 0 ∨ 4 <= i < 22 ∨ 24 <= i)%nat → h'.[i] = h.[i].

Lemma slice_ext (a b : list Z) off n :
  length a = length b → (∀ i, (off <= i < off + n)%nat → a.[i] = b.[i]) → slice a off n = slice b off n.
Proof.
  intros Hl H. apply list_eq. intros i. unfold slice. destruct (decide (i < n)%nat).
  - rewrite !lookup_take_lt, !lookup_drop by done. destruct (decide (off + i < length a)%nat).
    + rewrite !get_lookup by lia. f_equal. apply H. lia.
    + rewrite !lookup_ge_None_2 by lia. done.
  - by rewrite !lookup_take_ge by lia.
Qed.

Lemma land_mask x m m' : m & m' = m' → x & m' = (x & m) & m'.
Proof. intros H. by rewrite <- Z.land_assoc, H. Qed.

Lemma ccmp_inputs_mutable h h' pn : same_but_mutable h h' → ccmp_inputs h' pn = ccmp_inputs h pn.
Proof.
  intros (Hl & H1 & H22 & H).
  assert (∀ m, 0x87 & m = m → h'.[1] & m = h.[1] & m) as Hm.
  { intros m Hm. by rewrite (land_mask h'.[1] 0x87), (land_mask h.[1] 0x87), H1. }
  unfold ccmp_inputs, ccmp_frame_fields. rewrite (H 0%nat), (Hm 0x2), (Hm 0x1) by (done || lia).
  generalize ((h.[0] >> 2) & 0x03 =? BTYPE_DATA) as isdata.
  generalize (negb (((h.[1] & 0x2) >> 1) & (h.[1] & 0x1) =? 0)) as a4. intros a4 isdata.
  set (qc := if isdata then _ else false). clearbody qc.
  assert (slice h' 4 18 = slice h 4 18) as S4.
  { apply slice_ext; [done|]. intros i Hi. apply H. lia. }
  assert (slice h' 24 6 = slice h 24 6) as S24.
  { apply slice_ext; [done|]. intros i Hi. apply H. lia. }
  assert (slice h' 10 6 = slice h 10 6) as S10.
  { apply slice_ext; [done|]. intros i Hi. apply H. lia. }
  unfold RTMPConstructCCMPAAD, RTMPConstructCCMPNonce.
  change (3 * Z.to_nat MAC_ADDR_LEN)%nat with 18%nat. change (Z.to_nat MAC_ADDR_LEN) with 6%nat.
  assert (∀ l : list Z, (1 < length l)%nat →
    (l.[1 <- h'.[1] & 0xc7]).[1 <- (l.[1 <- h'.[1] & 0xc7]).[1] .| 0x40] =
    (l.[1 <- h.[1] & 0xc7]).[1 <- (l.[1 <- h.[1] & 0xc7]).[1] .| 0x40]) as Hfc.
  { intros l Hl1. rewrite !get_insert_eq, !list_insert_insert_eq by done. f_equal.
    assert (∀ x, (x & 0xc7) .| 0x40 = (x & 0x87) .| 0x40) as Hx; [|by rewrite !Hx, H1].
    intros x. apply Z.bits_inj'. intros i Hi. rewrite !Z.lor_spec, !Z.land_spec.
    change 0xc7 with (0x87 .| 0x40). rewrite Z.lor_spec. btauto. }
  rewrite S4, S24, S10, (H 0%nat), (H 24%nat), (H 30%nat), H22 by lia.
  rewrite Hfc by (destruct isdata; rewrite length_insert; cbn; lia). done.
Qed.

(** The CCMP header carries the packet number. *)
Lemma RTMPConstructCCMPHdr_eq key_idx pn hdr :
  bytes pn → length pn = 6%nat → length hdr = 8%nat →
  let hd := RTMPConstructCCMPHdr key_idx pn hdr in
  length hd = 8%nat ∧ bytes hd ∧ ∀ c, ccmp_pn (hd ++ c) = pn.
Proof.
  intros Hp Hpl Hhl.
  destruct hdr as [|? [|? [|? [|? [|? [|? [|? [|? [|]]]]]]]]]; try discriminate Hhl.
  destruct pn as [|? [|? [|? [|? [|? [|? [|]]]]]]]; try discriminate Hpl.
  rewrite !Forall_cons in Hp. destruct Hp as (? & ? & ? & ? & ? & ? & _).
  split; [done|split; [|done]]. cbn.
  repeat (apply Forall_cons; split; [first [done | unfold fits; cbn; lia
    | apply fits_lor; [lia|apply fits_u8|unfold fits; lia]]|]).
  constructor.
Qed.

(** ** The properties *)

(** [RTMPSoftDecryptCCMP] on every branch.  Without a key, or for data
    that cannot hold CCMP header and MIC, it refuses and changes nothing.
    Otherwise the plain text replaces the data from its start, and TRUE is
    answered, with the length of the plain text, exactly when the last eight
    bytes are the CCM tag for the AAD and nonce of IEEE 802.11; a refusal
    leaves the length as it was. *)
Theorem RTMPSoftDecryptCCMP_spec E h k m (n : nat) :
  kmalloc E sizeof_AES_CTX_STRUC = true → ccmp_hdr_ok h →
  bytes (Key k) → length (Key k) = 16%nat →
  bytes m → (16 <= length m)%nat → (n <= length m)%nat → Z.of_nat n <= 4096 →
  RTMPSoftDecryptCCMP E h k m (Z.of_nat n) =
  Some (if (KeyLen k =? 0) || (Z.of_nat n <? 16) then (false, m, Z.of_nat n)
        else let '(ok, msg) := ccmp_open h k m (n - 16) in
             (ok, put m 0 msg, if ok then Z.of_nat n - 16 else Z.of_nat n)).
Proof.
  intros HE Hh Hk Hkl Hm Hm16 Hnm Hn.
  destruct (Z.eqb_spec (KeyLen k) 0) as [H0|H0]; cbn [orb].
  { apply RTMPSoftDecryptCCMP_refuse; [done|by left]. }
  destruct (Z.ltb_spec (Z.of_nat n) 16) as [H16|H16].
  { apply RTMPSoftDecryptCCMP_refuse; [done|right; lia]. }
  pose proof (RTMPSoftDecryptCCMP_eq E HE h Hh k Hk Hkl m (n - 16) H0 Hm ltac:(lia) ltac:(lia)) as H.
  replace (n - 16 + 16)%nat with n in H by lia. rewrite H.
  destruct (ccmp_open h k m (n - 16)) as [[] msg]; [|done]. do 2 f_equal. lia.
Qed.

Lemma RTMPSoftDecryptCCMP_spec_witness :
  let h := ccmp_vector_header in
  let k := ccmp_vector_key in
  let E := {| kmalloc := λ _, true; garbage := [1] |} in
  RTMPSoftDecryptCCMP E h k ccmp_vector_body (Z.of_nat 36) =
    Some (true, ccmp_vector_plain ++ slice ccmp_vector_body 20 16, 20) ∧
  RTMPSoftDecryptCCMP E h k ccmp_vector_body (Z.of_nat 15) = Some (false, ccmp_vector_body, 15).
Proof.
  intros h k E. assert (ccmp_hdr_ok h) by (split; [bytes_table|split; [vm_compute; lia|reflexivity]]).
  split; (etransitivity; [apply RTMPSoftDecryptCCMP_spec|vm_compute; reflexivity]);
    first [assumption | bytes_table | reflexivity | vm_compute; lia | vm_compute; congruence].
Defined.

(** data encrypted by [RTMPSoftEncryptCCMP] and framed with the header of
    [RTMPConstructCCMPHdr] is accepted and restored by
    [RTMPSoftDecryptCCMP], for every header that differs from the sender's
    only in the fields a retransmission changes. *)
Theorem ccmp_roundtrip E1 E2 h h' k pn key_idx m hdr (n : nat) :
  kmalloc E1 sizeof_AES_CTX_STRUC = true → kmalloc E2 sizeof_AES_CTX_STRUC = true →
  ccmp_hdr_ok h → same_but_mutable h h' →
  bytes (Key k) → length (Key k) = 16%nat → KeyLen k ≠ 0 →
  bytes pn → length pn = 6%nat → bytes m → length m = (n + 8)%nat → (n <= 4080)%nat →
  length hdr = 8%nat →
  ∃ c out,
    RTMPSoftEncryptCCMP E1 h pn (Key k) m (Z.of_nat n) = Some (true, c) ∧ length c = (n + 8)%nat ∧
    RTMPSoftDecryptCCMP E2 h' k (RTMPConstructCCMPHdr key_idx pn hdr ++ c) (Z.of_nat (n + 16)) =
      Some (true, out, Z.of_nat n) ∧
    take n out = take n m.
Proof.
  intros HE1 HE2 Hh Hmut Hk Hkl Hk0 Hp Hpl Hm Hml Hn Hhl.
  destruct (ccmp_nonce_ok h Hh pn Hp Hpl) as [Nb Nl]. pose proof Hh as (Hb & Hl & Hd).
  set (nonce := ccmp_nonce h pn) in *. set (msg := slice m 0 n).
  assert (length msg = n) as Ml by (apply length_slice; lia).
  assert (bytes msg) as Mb by (by apply bytes_slice).
  set (ct := ccm_xor (Key k) nonce msg). set (tag := ccm_seal_tag (Key k) 8 nonce (ccmp_aad h) msg).
  assert (length ct = n) as Cl by (unfold ct; rewrite length_xor_13; done).
  assert (length tag = 8%nat) as Tl.
  { apply length_seal_tag; [done..|lia|by unfold M_ok; auto|by apply bytes_ccmp_aad|done]. }
  pose proof (RTMPSoftEncryptCCMP_eq E1 HE1 h Hh pn (Key k) m n Hp Hpl Hk Hkl Hm Hn ltac:(lia)) as He.
  cbv zeta in He. fold nonce msg ct tag in He. rewrite put_all in He by (rewrite length_app; lia).
  set (hd := RTMPConstructCCMPHdr key_idx pn hdr).
  destruct (RTMPConstructCCMPHdr_eq key_idx pn hdr Hp Hpl Hhl) as (Hdl & Hdb & Hdp). fold hd in Hdl, Hdb, Hdp.
  exists (ct ++ tag), (put (hd ++ ct ++ tag) 0 msg).
  split_and!; [done|rewrite length_app; lia| |].
  - assert (RTMPSoftDecryptCCMP E2 h' k (hd ++ ct ++ tag) (Z.of_nat (n + 16)) =
      RTMPSoftDecryptCCMP E2 h k (hd ++ ct ++ tag) (Z.of_nat (n + 16))) as ->.
    { unfold RTMPSoftDecryptCCMP. case_match; [done|]. destruct (load _ 0 8); [|done].
      rewrite !Some_bind. by rewrite (ccmp_inputs_mutable h h'). }
    rewrite (RTMPSoftDecryptCCMP_eq E2 HE2 h Hh k); [|done|done|done| |done|rewrite !length_app; lia].
    2:{ rewrite !Forall_app. split_and!; [done|by apply bytes_xor_13|].
        by apply bytes_seal_tag_13; [..|apply bytes_ccmp_aad|]. }
    unfold ccmp_open. rewrite Hdp. fold nonce.
    assert (slice (hd ++ ct ++ tag) 8 n = ct) as ->.
    { rewrite <- Hdl, <- (Nat.add_0_r (length hd)), slice_app_r, slice_app_l by lia. by apply slice_all. }
    assert (slice (hd ++ ct ++ tag) (8 + n) 8 = tag) as ->.
    { replace (8 + n)%nat with (length hd + (length ct + 0))%nat by lia.
      rewrite !slice_app_r. apply slice_all. done. }
    assert (ccm_xor (Key k) nonce ct = msg) as -> by (apply ccm_xor_involutive; done || lia).
    by rewrite bool_decide_eq_true_2.
  - rewrite put_splice by (rewrite !length_app; lia). rewrite take_0, app_nil_l, take_app_length' by done.
    unfold msg, slice. by rewrite drop_0.
Qed.

Lemma ccmp_vector_header_ok : ccmp_hdr_ok ccmp_vector_header.
Proof. split; [bytes_table|split; [vm_compute; lia|reflexivity]]. Qed.

(** A retransmission of that frame, with another duration and the next
    sequence number. *)
Definition ccmp_vector_retry : list Z :=
  ((ccmp_vector_header.[1 <- 0x78]).[2 <- 0]).[23 <- 0x34].

Lemma ccmp_vector_retry_ok : same_but_mutable ccmp_vector_header ccmp_vector_retry.
Proof.
  split_and!; [reflexivity..|]. intros i Hi. unfold ccmp_vector_retry.
  by rewrite !get_insert_ne by lia.
Qed.

Lemma ccmp_roundtrip_witness :
  let E := {| kmalloc := λ _, true; garbage := [1] |} in
  ∃ c out,
    RTMPSoftEncryptCCMP E ccmp_vector_header (seqZ 1 6) (Key ccmp_vector_key) (zeros 48) (Z.of_nat 40) =
      Some (true, c) ∧ length c = (40 + 8)%nat ∧
    RTMPSoftDecryptCCMP E ccmp_vector_retry ccmp_vector_key (RTMPConstructCCMPHdr 2 (seqZ 1 6) (zeros 8) ++ c)
      (Z.of_nat (40 + 16)) = Some (true, out, Z.of_nat 40) ∧
    take 40 out = take 40 (zeros 48).
Proof.
  intros E. apply (ccmp_roundtrip E E); first [reflexivity | apply ccmp_vector_header_ok
    | apply ccmp_vector_retry_ok | bytes_table | lia | discriminate].
Defined.

(** The two CCMP decryptions of the driver, [RTMPSoftDecryptAES] with its
    own cipher over a frame and [RTMPSoftDecryptCCMP] with AES-CCM over the
    frame's body, give the same verdict and the same plain text. *)
Lemma ccmp_decryptors_agree E1 E2 h r k (n : nat) :
  kmalloc E2 sizeof_AES_CTX_STRUC = true →
  ccmp_hdr_ok h → length h = hdr_len h → Z.testbit h.[0] 6 = false →
  bytes (Key k) → length (Key k) = 16%nat →
  bytes r → (n + 16 <= length r)%nat → (n <= 4080)%nat →
  ∃ ok h' body len,
    RTMPSoftDecryptAES E1 (h ++ r) (Z.of_nat (hdr_len h + 16 + n)) k = Some (ok, h' ++ body) ∧
    length h' = length h ∧
    RTMPSoftDecryptCCMP E2 h k r (Z.of_nat (n + 16)) = Some (ok, body, len).
Proof.
  intros HE Hh Hhl H6 Hk Hkl Hr Hrl Hn. pose proof Hh as (Hb & Hl & Hd).
  destruct (Z.eqb_spec (KeyLen k) 0) as [H0|H0].
  - exists false, h, r, (Z.of_nat (n + 16)). split_and!; [|done|].
    + destruct (frame_control h r Hb Hhl) as (fc & Hfc & _). unfold RTMPSoftDecryptAES.
      rewrite Hfc, Some_bind. by rewrite H0.
    + apply RTMPSoftDecryptCCMP_refuse; [done|by left].
  - rewrite RTMPSoftDecryptAES_eq by (done || lia). rewrite RTMPSoftDecryptCCMP_eq by (done || lia).
    do 4 eexists. split_and!; [reflexivity|by rewrite length_protect|]. reflexivity.
Qed.

Lemma ccmp_decryptors_agree_witness :
  let E := {| kmalloc := λ _, true; garbage := [1] |} in
  ∃ ok h' body len,
    RTMPSoftDecryptAES E (ccmp_vector_header ++ ccmp_vector_body) (Z.of_nat (24 + 16 + 20)) ccmp_vector_key =
      Some (ok, h' ++ body) ∧ length h' = 24%nat ∧
    RTMPSoftDecryptCCMP E ccmp_vector_header ccmp_vector_key ccmp_vector_body (Z.of_nat (20 + 16)) =
      Some (ok, body, len).
Proof.
  intros E. apply (ccmp_decryptors_agree E E); first [reflexivity | apply ccmp_vector_header_ok
    | bytes_table | cbn; lia].
Defined.

(** The driver's test of its CCMP routines against the vector of IEEE
    Std 802.11 prints "OK" five times, whatever uninitialised memory
    holds. *)
Lemma CCMP_test_vector_passes garbage :
  CCMP_test_vector {| kmalloc := λ _, true; garbage := garbage |} = Some [true; true; true; true; true].
Proof.
  set (E := {| kmalloc := λ _, true; garbage := garbage |}).
  set (nonce := [0x00; 0x50; 0x30; 0xf1; 0x84; 0x44; 0x08; 0xb5; 0x03; 0x97; 0x76; 0xe7; 0x0c]).
  set (aad := [0x08; 0x40; 0x0f; 0xd2; 0xe1; 0x28; 0xa5; 0x7c; 0x50; 0x30; 0xf1; 0x84; 0x44; 0x08; 0xab; 0xae;
               0xa5; 0xb8; 0xfc; 0xba; 0x00; 0x00]).
  pose proof (AES_CCM_Encrypt_ok E (Key ccmp_vector_key) ltac:(bytes_table) eq_refl eq_refl nonce ltac:(bytes_table)
    ltac:(cbn; lia) 8 ltac:(unfold M_ok; auto) aad ltac:(bytes_table) ltac:(cbn; lia)
    (put (zeros 100) 0 ccmp_vector_plain) 0 0 20 28 ltac:(bytes_table) ltac:(lia) ltac:(lia) ltac:(vm_compute; lia)
    ltac:(vm_compute; lia) ltac:(lia)) as He.
  pose proof (AES_CCM_Decrypt_ok E (Key ccmp_vector_key) ltac:(bytes_table) eq_refl eq_refl nonce ltac:(bytes_table)
    ltac:(cbn; lia) 8 ltac:(unfold M_ok; auto) aad ltac:(bytes_table) ltac:(cbn; lia)
    (put (zeros 100) 0 (drop 8 ccmp_vector_body)) 0 0 20 20 ltac:(bytes_table) ltac:(lia) ltac:(lia)
    ltac:(vm_compute; lia) ltac:(vm_compute; lia) ltac:(lia)) as Hd.
  unfold CCMP_test_vector. cbv zeta in He, Hd |- *.
  destruct (RTMPConstructCCMPAAD _ _ _ _ _) as [a an] eqn:Ea. vm_compute in Ea. injection Ea as <- <-.
  destruct (RTMPConstructCCMPNonce _ _ _ _ _ _) as [b bn] eqn:Eb. vm_compute in Eb. injection Eb as <- <-.
  cbn [Key ccmp_vector_key] in He, Hd.
  change (Z.of_nat 0) with 0 in He, Hd. change (Z.of_nat 20) with 20 in He, Hd.
  change (Z.of_nat 8) with 8 in He, Hd. change (Z.of_nat (length nonce)) with 13 in He, Hd.
  change (Z.of_nat (length aad)) with 22 in He, Hd. change (Z.of_nat (20 + 8)) with 28 in He, Hd.
  unfold ccmp_vector_plain at 1 in He. unfold nonce at 1 in He. unfold aad at 1 in He.
  unfold nonce at 1 in Hd. unfold aad at 1 in Hd.
  change (drop 8 ccmp_vector_body) with [0xf3; 0xd0; 0xa2; 0xfe; 0x9a; 0x3d; 0xbf; 0x23; 0x42; 0xa6; 0x43; 0xe4; 0x32; 0x46; 0xe8; 0x0c;
   0x3c; 0x04; 0xd0; 0x19; 0x78; 0x45; 0xce; 0x0b; 0x16; 0xf9; 0x76; 0x23] in Hd.
  rewrite He, Some_bind, Hd, Some_bind. vm_compute. reflexivity.
Qed.
