(* ===== verification/SoftCrypt.v ===== *)
(** * Encryption by software

    Models the last part of [linux/Arch/rt5370.driver/common/cmm_wpa.c]: which
    key and which cipher a frame is encrypted or decrypted with when the chip
    does not do it.  The ciphers are those of [Wep], [Tkip] and [Ccmp].

    [None] is an access outside a buffer or an array; a NULL key is the inner
    [None]. *)

From stdpp Require Import base list numbers list_numbers.
From Stdlib Require Import ZArith Lia.
From S2P Require Import Prelude Mlme Arc4 BlockHash Md5 Sha Hmac AesTables Aes AesChain AesCcm AesCmac AesKeyWrap WpaCmm WpaKeys WpaData Wep Tkip Dot11 SoftAes Ccmp.

(** ** The key of a received frame *)

(** The part of [RX_BLK] that is read. *)
Record rx_block := {
  U2M : bool;
  fRX_APCLI : bool;
  fRX_WDS : bool;
  fRX_MESH : bool;
}.

Definition RTMPExtractKeyIdxFromIVHdr (pIV : list Z) (CipherAlg : Z) : option Z :=
  if (CipherAlg =? Ndis802_11Encryption1Enabled) || (CipherAlg =? Ndis802_11Encryption2Enabled) ||
     (CipherAlg =? Ndis802_11Encryption3Enabled) || (CipherAlg =? Ndis802_11GroupWEP40Enabled) ||
     (CipherAlg =? Ndis802_11GroupWEP104Enabled)
  then b ← pIV !! 3%nat; Some ((b & 0xc0) >> 6)
  else Some 0xff.

(** [pAd->SharedKey] has a row of four keys per interface. *)
Definition RTMPSwCipherKeySelection (SharedKey : list (list CIPHER_KEY)) (GroupCipher : Z) (pIV : list Z)
    (pRxBlk : rx_block) (pEntry : option wpa_entry) : option (option CIPHER_KEY) :=
  match pEntry with
  | None => Some None
  | Some e =>
      if fRX_APCLI pRxBlk || fRX_WDS pRxBlk || fRX_MESH pRxBlk then Some None
      else
        let CipherAlg := u8 (if U2M pRxBlk then WepStatus e else GroupCipher) in
        keyIdx ← RTMPExtractKeyIdxFromIVHdr pIV CipherAlg;
        if 3 <? keyIdx then Some None
        else
          let shared := row ← SharedKey !! Z.to_nat (apidx e); k ← row !! Z.to_nat keyIdx; Some (Some k) in
          if (CipherAlg =? Ndis802_11Encryption1Enabled) || (CipherAlg =? Ndis802_11GroupWEP40Enabled) ||
             (CipherAlg =? Ndis802_11GroupWEP104Enabled)
          then shared
          else if (CipherAlg =? Ndis802_11Encryption2Enabled) || (CipherAlg =? Ndis802_11Encryption3Enabled)
          then (if U2M pRxBlk then Some (Some (PairwiseKey e)) else shared)
          else Some None
  end.

(** ** Decryption *)

(** [soft_success] is [NDIS_STATUS_SUCCESS]; [soft_live] counts the buffers
    that stay allocated. *)
Record soft_result := {
  soft_success : bool;
  soft_data : list Z;
  soft_cnt : Z;
  soft_Tx : TKIP_KEY_INFO;
  soft_mic_failure : bool;
  soft_live : nat;
}.

Definition RTMPSoftDecryptionAction (E : env) (Tx : TKIP_KEY_INFO) (pHdr : list Z) (UserPriority : Z) (pKey : CIPHER_KEY)
    (pData : list Z) (DataByteCnt : Z) : option soft_result :=
  let result ok d n tx f live :=
    {| soft_success := ok; soft_data := d; soft_cnt := n; soft_Tx := tx; soft_mic_failure := f; soft_live := live |} in
  if (CipherAlg pKey =? CIPHER_WEP64) || (CipherAlg pKey =? CIPHER_WEP128) then
    '(ok, d, n, live) ← RTMPSoftDecryptWEP E pKey pData DataByteCnt;
    Some (result ok d n Tx false live)
  else if CipherAlg pKey =? CIPHER_TKIP then
    r ← RTMPSoftDecryptTKIP E Tx pHdr UserPriority pKey pData DataByteCnt;
    Some (result (tkip_ok r) (tkip_data r) (tkip_cnt r) (tkip_Tx r) (tkip_mic_failure r) 0%nat)
  else if CipherAlg pKey =? CIPHER_AES then
    '(ok, d, n) ← RTMPSoftDecryptCCMP E pHdr pKey pData DataByteCnt;
    Some (result ok d n Tx false 0%nat)
  else Some (result false pData DataByteCnt Tx false 0%nat).

(** ** Encryption *)

(** The header buffer and [*hdr_iv_len]. *)
Definition RTMPSoftConstructIVHdr (CipherAlg key_id : Z) (pTxIv pHdrIv : list Z) : option (list Z * Z) :=
  if (CipherAlg =? CIPHER_WEP64) || (CipherAlg =? CIPHER_WEP128) then
    iv_hdr ← RTMPConstructWEPIVHdr key_id pTxIv;
    pHdrIv ← store pHdrIv 0 iv_hdr;
    Some (pHdrIv, LEN_WEP_IV_HDR)
  else if CipherAlg =? CIPHER_TKIP then Some (pHdrIv, 0)
  else if CipherAlg =? CIPHER_AES then
    if (length pHdrIv <? 8)%nat then None
    else Some (RTMPConstructCCMPHdr key_id pTxIv pHdrIv, LEN_CCMP_HDR)
  else Some (pHdrIv, 0).

(** The data buffer and [*ext_len]; what the ciphers return is dropped. *)
Definition RTMPSoftEncryptionAction (E : env) (CipherAlg : Z) (pHdr pSrcBufData : list Z) (SrcBufLen : Z) (pKey : CIPHER_KEY)
    : option (list Z * Z) :=
  if (CipherAlg =? CIPHER_WEP64) || (CipherAlg =? CIPHER_WEP128) then
    '(_, d, _) ← RTMPSoftEncryptWEP E (TxTsc pKey) pKey pSrcBufData SrcBufLen;
    Some (d, LEN_ICV)
  else if CipherAlg =? CIPHER_TKIP then Some (pSrcBufData, 0)
  else if CipherAlg =? CIPHER_AES then
    '(_, d) ← RTMPSoftEncryptCCMP E pHdr (TxTsc pKey) (Key pKey) pSrcBufData SrcBufLen;
    Some (d, LEN_CCMP_MIC)
  else Some (pSrcBufData, 0).

(** ** What a station decrypts *)

Definition is_wep (alg : Z) : bool := (alg =? CIPHER_WEP64) || (alg =? CIPHER_WEP128).

(** The receiver looks for the sender's cipher, and its key is in the place
    where it looks: the pairwise key for a unicast frame under CCMP, and the
    shared key of the frame's index otherwise. *)
Definition receiver_has_key (SharedKey : list (list CIPHER_KEY)) (GroupCipher : Z) (blk : rx_block) (e : wpa_entry) (key_idx : Z)
    (k : CIPHER_KEY) : Prop :=
  let shared := ∃ row, SharedKey !! Z.to_nat (apidx e) = Some row ∧ row !! Z.to_nat key_idx = Some k in
  let cipher := if U2M blk then WepStatus e else GroupCipher in
  if is_wep (CipherAlg k)
  then cipher ∈ [Ndis802_11Encryption1Enabled; Ndis802_11GroupWEP40Enabled; Ndis802_11GroupWEP104Enabled] ∧ shared
  else cipher = Ndis802_11Encryption3Enabled ∧ (if U2M blk then PairwiseKey e = k else shared).

(** The frame comes straight from the access point. *)
Definition direct (blk : rx_block) : Prop := fRX_APCLI blk = false ∧ fRX_WDS blk = false ∧ fRX_MESH blk = false.

Lemma key_index_bits key_idx x : 0 <= key_idx < 4 → byte x → x & 0xc0 = 0 → ((key_idx <<8 6 .| x) & 0xc0) >> 6 = key_idx.
Proof.
  intros Hk Hx H0. assert (key_idx = 0 ∨ key_idx = 1 ∨ key_idx = 2 ∨ key_idx = 3) as Hc by lia.
  rewrite Z.land_lor_distr_l, H0, Z.lor_0_r. destruct Hc as [-> | [-> | [-> | ->]]]; reflexivity.
Qed.

Lemma key_selected SharedKey GroupCipher blk e key_idx k pIV :
  direct blk → 0 <= key_idx < 4 → receiver_has_key SharedKey GroupCipher blk e key_idx k →
  (∃ b, pIV !! 3%nat = Some b ∧ (b & 0xc0) >> 6 = key_idx) →
  RTMPSwCipherKeySelection SharedKey GroupCipher pIV blk (Some e) = Some (Some k).
Proof.
  intros (H1 & H2 & H3) Hi Hk (b & Hb & Hbi). unfold RTMPSwCipherKeySelection. rewrite H1, H2, H3. cbn [orb]. cbv zeta.
  unfold receiver_has_key in Hk. assert ((3 <? key_idx) = false) as Hle by (apply Z.ltb_ge; lia).
  unfold RTMPExtractKeyIdxFromIVHdr. rewrite Hb. destruct (is_wep (CipherAlg k)).
  - destruct Hk as [Hc (row & Hr & Hrk)]. rewrite !elem_of_cons, elem_of_nil in Hc.
    destruct Hc as [-> | [-> | [-> | []]]]; decide_constants; rewrite !Some_bind, Hbi, Hle, Hr, Some_bind; by rewrite Hrk.
  - destruct Hk as [-> Hk]. decide_constants. rewrite !Some_bind, Hbi, Hle. destruct (U2M blk); [by rewrite Hk|].
    destruct Hk as (row & Hr & Hrk). rewrite Hr, Some_bind. by rewrite Hrk.
Qed.

(** Keys that decrypt each other's frames. *)
Definition same_secret (k k' : CIPHER_KEY) : Prop :=
  Key k' = Key k ∧ KeyLen k' = KeyLen k ∧ CipherAlg k' = CipherAlg k.

Lemma wep_header key_idx a b c pn :
  RTMPConstructWEPIVHdr key_idx (a :: b :: c :: pn) = Some [a; b; c; key_idx <<8 6].
Proof.
  unfold RTMPConstructWEPIVHdr, LEN_WEP_TSC, LEN_WEP_IV_HDR. rewrite load_ok by (cbn [length]; lia).
  rewrite Some_bind. rewrite store_ok; [reflexivity|lia|vm_compute; discriminate].
Qed.

Lemma RTMPSoftEncryptWEP_iv E iv iv' k d n :
  load iv 0 3 = load iv' 0 3 → RTMPSoftEncryptWEP E iv k d n = RTMPSoftEncryptWEP E iv' k d n.
Proof. intros H. unfold RTMPSoftEncryptWEP, RTMPInitWepEngine. by rewrite H. Qed.

Lemma RTMPSoftDecryptWEP_key E k k' d n : same_secret k k' → RTMPSoftDecryptWEP E k' d n = RTMPSoftDecryptWEP E k d n.
Proof. intros (H1 & H2 & _). unfold RTMPSoftDecryptWEP. by rewrite H1, H2. Qed.

Lemma RTMPSoftDecryptCCMP_key E h k k' d n : same_secret k k' → RTMPSoftDecryptCCMP E h k' d n = RTMPSoftDecryptCCMP E h k d n.
Proof. intros (H1 & H2 & _). unfold RTMPSoftDecryptCCMP. by rewrite H1, H2. Qed.

Lemma receiver_same SharedKey gc blk e i k k' :
  same_secret k k' → receiver_has_key SharedKey gc blk e i k' → is_wep (CipherAlg k') = is_wep (CipherAlg k).
Proof. intros (_ & _ & ->). done. Qed.

(** The sealed frame: the header that is put in front, and the data with its trailer. *)
Definition sealed (E : env) (h : list Z) (k : CIPHER_KEY) (key_idx : Z) (d pad : list Z) (frame : list Z) (extra : Z) : Prop :=
  ∃ iv n c ext,
    RTMPSoftConstructIVHdr (CipherAlg k) key_idx (TxTsc k) (zeros 8) = Some (iv, n) ∧
    RTMPSoftEncryptionAction E (CipherAlg k) h (d ++ pad) (Z.of_nat (length d)) k = Some (c, ext) ∧
    length c = (length d + Z.to_nat ext)%nat ∧ frame = take (Z.to_nat n) iv ++ c ∧ extra = n + ext.

Definition opened (E : env) (Tx : TKIP_KEY_INFO) (h : list Z) (prio : Z) (k : CIPHER_KEY) (frame : list Z) (len : Z)
    (d : list Z) : Prop :=
  ∃ r, RTMPSoftDecryptionAction E Tx h prio k frame len = Some r ∧ soft_success r = true ∧
    soft_cnt r = Z.of_nat (length d) ∧ take (length d) (soft_data r) = d ∧ soft_live r = 0%nat.

Lemma wep_sealed_opened E1 E2 Tx h h' prio k k' key_idx d pad :
  is_wep (CipherAlg k) = true → same_secret k k' →
  kmalloc E1 264 = true → kmalloc E1 16 = true → kmalloc E2 264 = true → kmalloc E2 16 = true →
  key_wf k → 0 < KeyLen k <= 13 → bytes (TxTsc k) → (3 <= length (TxTsc k))%nat →
  bytes d → bytes pad → length pad = 4%nat → Z.of_nat (length d) + 8 < 65536 →
  ∃ frame, sealed E1 h k key_idx d pad frame 8 ∧ frame !! 3%nat = Some (key_idx <<8 6) ∧
    opened E2 Tx h' prio k' frame (Z.of_nat (length d) + 8) d.
Proof.
  intros Hw Hs H1 H2 H3 H4 Hk Hl Hpn Hpl Hd Hpad Hp4 Hb.
  destruct (wep_roundtrip E2 k key_idx (TxTsc k) d pad) as (hdr & c & m & Hh & He & Hdec & Ht); try done.
  assert (RTMPSoftEncryptWEP E1 (TxTsc k) k (d ++ pad) (Z.of_nat (length d)) = Some (true, c, 0%nat)) as He1.
  { rewrite (RTMPSoftEncryptWEP_iv _ _ hdr); [|]. 2: { destruct (TxTsc k) as [|x [|y [|z pn]]]; try (cbn in Hpl; lia).
      rewrite wep_header in Hh. injection Hh as <-. rewrite !load_ok by (cbn [length]; lia). reflexivity. }
    assert (3 <= length hdr)%nat as Hlh.
    { destruct (TxTsc k) as [|x [|y [|z pn]]]; try (cbn in Hpl; lia). rewrite wep_header in Hh. injection Hh as <-. cbn. lia. }
    rewrite <- He. rewrite !RTMPSoftEncryptWEP_eq; try (done || lia || (rewrite ?length_app; lia)); by apply Forall_app. }
  destruct (TxTsc k) as [|x [|y [|z pn]]] eqn:Hpn0; try (cbn in Hpl; lia).
  rewrite wep_header in Hh. injection Hh as <-. rewrite <- Hpn0 in He1, Hpn.
  exists ([x; y; z; key_idx <<8 6] ++ c). split; [|split; [done|]].
  - exists ([x; y; z; key_idx <<8 6] ++ zeros 4), 4, c, 4. unfold RTMPSoftConstructIVHdr, RTMPSoftEncryptionAction.
    unfold is_wep in Hw. rewrite Hw, Hpn0, wep_header, Some_bind, <- Hpn0, He1, Some_bind. split; [reflexivity|].
    split; [done|]. split; [|done].
    rewrite RTMPSoftEncryptWEP_eq in He1; try (done || lia || (rewrite ?length_app; lia));
      [|by rewrite Hpn0|by apply Forall_app]. injection He1 as <-.
    rewrite length_put, length_app by (rewrite length_wep_seal, take_app_length, length_app; lia). lia.
  - unfold opened, RTMPSoftDecryptionAction. destruct Hs as (HK & HL & Hc). rewrite Hc. unfold is_wep in Hw. rewrite Hw.
    rewrite (RTMPSoftDecryptWEP_key E2 k k'), Hdec, Some_bind by done. eexists. split; [done|]. done.
Qed.

Lemma ccmp_header_index key_idx pn hdr :
  0 <= key_idx < 4 → length hdr = 8%nat →
  ∃ b, RTMPConstructCCMPHdr key_idx pn hdr !! 3%nat = Some b ∧ (b & 0xc0) >> 6 = key_idx.
Proof.
  intros Hi Hl. exists (key_idx <<8 6 .| 0x20). split; [|by apply key_index_bits].
  unfold RTMPConstructCCMPHdr. do 4 (rewrite list_lookup_insert_ne by done). apply list_lookup_insert_eq.
  rewrite !length_insert, length_put by (rewrite length_zeros; unfold LEN_CCMP_HDR; lia). lia.
Qed.

Lemma ccmp_sealed_opened E1 E2 Tx h h' prio k k' key_idx d pad :
  CipherAlg k = CIPHER_AES → same_secret k k' → 0 <= key_idx < 4 →
  kmalloc E1 sizeof_AES_CTX_STRUC = true → kmalloc E2 sizeof_AES_CTX_STRUC = true →
  ccmp_hdr_ok h → same_but_mutable h h' → key_wf k → KeyLen k ≠ 0 → bytes (TxTsc k) → length (TxTsc k) = 6%nat →
  bytes d → bytes pad → length pad = 8%nat → (length d <= 4080)%nat →
  ∃ frame, sealed E1 h k key_idx d pad frame 16 ∧ (∃ b, frame !! 3%nat = Some b ∧ (b & 0xc0) >> 6 = key_idx) ∧
    opened E2 Tx h' prio k' frame (Z.of_nat (length d) + 16) d.
Proof.
  intros Hc Hs Hi H1 H2 Hh Hm Hk Hl Hpn Hpl Hd Hpad Hp8 Hb. destruct Hk as (Hkl & Hkb & _).
  destruct (ccmp_roundtrip E1 E2 h h' k (TxTsc k) key_idx (d ++ pad) (zeros 8) (length d)) as (c & out & He & Hcl & Hdec & Ht);
    try done; [by apply Forall_app|rewrite length_app; lia|].
  destruct (RTMPConstructCCMPHdr_eq key_idx (TxTsc k) (zeros 8) Hpn Hpl eq_refl) as (Hhl & _).
  set (hd := RTMPConstructCCMPHdr key_idx (TxTsc k) (zeros 8)) in *.
  exists (hd ++ c). split; [|split].
  - exists hd, 8, c, 8. unfold RTMPSoftConstructIVHdr, RTMPSoftEncryptionAction. rewrite Hc, He.
    split; [done|]. split; [done|]. split; [lia|]. split; [|done]. rewrite take_ge; [done|]. rewrite Hhl. done.
  - destruct (ccmp_header_index key_idx (TxTsc k) (zeros 8) Hi eq_refl) as (b & Hb3 & Hbi). exists b. split; [|done].
    rewrite lookup_app_l; [done|]. fold hd. rewrite Hhl. lia.
  - unfold opened, RTMPSoftDecryptionAction. destruct Hs as (HK & HL & Hc'). rewrite Hc', Hc.
    rewrite (RTMPSoftDecryptCCMP_key E2 h' k k') by done.
    replace (Z.of_nat (length d) + 16) with (Z.of_nat (length d + 16)) by lia. rewrite Hdec. cbn [orb].
    eexists. split; [reflexivity|]. cbn. rewrite Ht, take_app_length. done.
Qed.

(** C38: A data frame encrypted by software under WEP or CCMP is decrypted by
    software with the same secret, whoever of the two ends sends it.  The header
    that [RTMPSoftConstructIVHdr] puts in front tells the receiver's
    [RTMPSwCipherKeySelection] which key it is - the shared key of its index, or
    the pairwise key for a unicast CCMP frame - and [RTMPSoftDecryptionAction]
    restores the data and its length, also when the 802.11 header was changed by
    a retransmission. *)
Theorem soft_crypto_roundtrip E1 E2 Tx h h' prio k k' key_idx d pad SharedKey GroupCipher blk e :
  let wep := is_wep (CipherAlg k) in
  let extra := if wep then 8 else 16 in
  (∀ n, kmalloc E1 n = true) → (∀ n, kmalloc E2 n = true) →
  (wep = true ∨ CipherAlg k = CIPHER_AES) → same_secret k k' → key_wf k →
  0 < KeyLen k ≤ (if wep then 13 else 16) → bytes (TxTsc k) → length (TxTsc k) = 6%nat → 0 <= key_idx < 4 →
  ccmp_hdr_ok h → same_but_mutable h h' →
  bytes d → bytes pad → length pad = (if wep then 4 else 8)%nat → (length d <= 4080)%nat →
  direct blk → receiver_has_key SharedKey GroupCipher blk e key_idx k' →
  ∃ frame, sealed E1 h k key_idx d pad frame extra ∧
    RTMPSwCipherKeySelection SharedKey GroupCipher frame blk (Some e) = Some (Some k') ∧
    opened E2 Tx h' prio k' frame (Z.of_nat (length d) + extra) d.
Proof.
  intros wep extra HE1 HE2 Halg Hs Hk Hl Hpn Hpl Hi Hh Hm Hd Hpad Hp Hb Hdir Hkey. subst wep extra.
  destruct (is_wep (CipherAlg k)) eqn:Hw.
  - destruct (wep_sealed_opened E1 E2 Tx h h' prio k k' key_idx d pad) as (frame & Hsl & Hb3 & Ho); try done; try lia.
    exists frame. split; [done|]. split; [|done]. apply (key_selected _ _ _ _ key_idx); try done. eexists. split; [exact Hb3|].
    rewrite <- (Z.lor_0_r (key_idx <<8 6)). by apply key_index_bits.
  - destruct Halg as [?|Halg]; [done|].
    destruct (ccmp_sealed_opened E1 E2 Tx h h' prio k k' key_idx d pad) as (frame & Hsl & Hb3 & Ho); try done; try lia.
    exists frame. split; [done|]. split; [|done]. by apply (key_selected _ _ _ _ key_idx).
Qed.

(** The answer of the cipher is dropped: when the ARC4 context cannot be
    allocated, or the key is empty, the data goes on as it was, in the clear,
    and is said to be followed by a checksum. *)
Theorem soft_encryption_failure_unnoticed E h d len k :
  is_wep (CipherAlg k) = true → kmalloc E sizeof_ARC4_CTX_STRUC = false ∨ KeyLen k = 0 →
  RTMPSoftEncryptionAction E (CipherAlg k) h d len k = Some (d, LEN_ICV).
Proof.
  intros Hw Hf. unfold RTMPSoftEncryptionAction. unfold is_wep in Hw. rewrite Hw. unfold RTMPSoftEncryptWEP.
  destruct (kmalloc E sizeof_ARC4_CTX_STRUC) eqn:Hk; cbn [negb]; [|done].
  destruct Hf as [?| ->]; [done|]. done.
Qed.

Module Sample.
Definition pairwise : CIPHER_KEY :=
  {| Key := seqZ 10 16; TxMic := zeros 8; RxMic := zeros 8; TxTsc := [1; 2; 3; 4; 5; 6]; RxTsc := zeros 6;
     CipherAlg := CIPHER_AES; KeyLen := 16; Type_ := 0 |}.
Definition peer : wpa_entry :=
  {| EntryType := ENTRY_CLIENT; Addr := zeros 6; pNext := None; Aid := 1; apidx := 0; Sst := SST_ASSOC;
     AuthMode := 0; WepStatus := Ndis802_11Encryption3Enabled; WpaState := 0; GTKState := REKEY_NEGOTIATING; PortSecured := 0;
     PrivacyFilter := PrivFilterAcceptAll; R_Counter := zeros 8; ANonce := zeros 32; SNonce := zeros 32; PTK := zeros 64;
     ReTryCounter := 0; PairwiseKey := pairwise; PMKID_cached := false; EnqueueEapolStartTimerRunning := 0 |}.
Definition unicast : rx_block := {| U2M := true; fRX_APCLI := false; fRX_WDS := false; fRX_MESH := false |}.
Definition memory : env := {| kmalloc := λ _, true; garbage := [7] |}.

Lemma pairwise_wf : key_wf pairwise.
Proof. split_and!; first [reflexivity | bytes_table | vm_compute; split; (discriminate || reflexivity)]. Qed.

Definition engine : TKIP_KEY_INFO :=
  {| nBytesInM := 0; IV16 := 0; IV32 := 0; K0 := 0; K1 := 0; L := 0; R := 0; M := 0; RC4KEY := zeros 16; MIC := zeros 8 |}.

Lemma soft_crypto_roundtrip_witness :
  ∃ frame, sealed memory ccmp_vector_header pairwise 0 (zeros 20) (zeros 8) frame 16 ∧
    RTMPSwCipherKeySelection [] 0 frame unicast (Some peer) = Some (Some pairwise) ∧
    opened memory engine ccmp_vector_retry 0 pairwise frame (Z.of_nat (length (zeros 20)) + 16) (zeros 20).
Proof.
  apply (soft_crypto_roundtrip memory memory engine ccmp_vector_header ccmp_vector_retry 0 pairwise pairwise 0 (zeros 20) (zeros 8)
    [] 0 unicast peer); first [reflexivity | by right | by apply pairwise_wf | apply ccmp_vector_header_ok
    | apply ccmp_vector_retry_ok | bytes_table | done | vm_compute; split; (discriminate || reflexivity) | cbn; lia].
Defined.

Lemma soft_encryption_failure_unnoticed_witness :
  let E := {| kmalloc := λ _, false; garbage := [] |} in
  RTMPSoftEncryptionAction E (CipherAlg wep40) ccmp_vector_header [1; 2; 3; 0; 0; 0; 0] 3 wep40 =
    Some ([1; 2; 3; 0; 0; 0; 0], 4).
Proof. intros E. apply (soft_encryption_failure_unnoticed E); [reflexivity|left; reflexivity]. Defined.
End Sample.
