(* ===== verification/BaReorder.v ===== *)
(** * The block-ack reordering buffer of the rt5370 driver

    Models the recipient side of [linux/Arch/rt5370.driver/common/ba_action.c]
    for one block-ack session: the sorted list of frames that wait for a
    missing one, the pool its blocks come from, the loops that pass frames up,
    the timeout, the reception of a data frame and of a block-ack request.
    Calls that leave the model (frames passed up or released, failed
    assertions, which only print) are recorded in a trace, in order.

    A packet is its 802.11 sequence number and an identity; what the driver
    does to its bytes before passing it up is not modelled.  [None] is the
    dereference of a null pointer or a loop out of fuel; theorems show that
    neither happens. *)

From stdpp Require Import base list numbers list_numbers.
From Stdlib Require Import ZArith Lia Btauto.
From S2P Require Import Prelude.

Definition MAXSEQ : Z := 0xFFF.
Definition RESET_RCV_SEQ : Z := 0xFFFF.
Definition MAX_RX_PKT_LEN : Z := 1520.

Definition SEQ_STEPONE (a b limit : Z) : bool := a =? (b + 1) & limit.
Definition SEQ_SMALLER (a b limit : Z) : bool := negb ((a - b) & ((limit + 1) >> 1) =? 0).

Record packet := { pkt_Sequence : Z; pkt_id : Z }.

Record RX_BLK := {
  pRxPacket : packet;
  fRX_AMSDU : bool;
  fRX_EAP : bool;
  rx_OpMode : Z;
  DataSize : Z;
}.

Record reordering_mpdu := { pPacket : option packet; Sequence : Z; bAMSDU : bool; OpMode : Z }.

Record reordering_list := { next : list reordering_mpdu; qlen : Z }.

Record BA_REC_ENTRY := {
  BAWinSize : Z;
  LastIndSeq : Z;
  LastIndSeqAtTimer : Z;
  nDropPacket : Z;
  rcvSeq : Z;
  list_ : reordering_list;
}.

Inductive event :=
  | BA_Reorder_AMSDU_Annnounce (p : option packet) (mode : Z)
  | ANNOUNCE_OR_FORWARD_802_3_PACKET (p : option packet)
  | Indicate_AMSDU_Packet (p : packet)
  | Indicate_EAPOL_Packet (p : packet)
  | Indicate_Legacy_Packet (p : packet)
  | RELEASE_NDIS_PACKET (p : packet) (success : bool)
  | ASSERT_failed
  | RTMP_ADD_BA_SESSION_TO_ASIC (wcid tid : Z)
  | RTMP_DEL_BA_SESSION_FROM_ASIC (wcid tid : Z)
  | MlmeDELBAAction (wcid tid initiator : Z)
  | MlmeEnqueue_ADDBA (wcid bufsize timeout tid token : Z)
  | Send_ADDBA_REQ (wcid tid bufsize token timeout seq : Z)
  | Send_ADDBA_RSP (wcid token status tid bufsize : Z)
  | Send_BAR (wcid seq tid : Z)
  | RECBATimer_init (wcid tid : Z)
  | RECBATimer_cancel (wcid tid : Z).

(** The session, the shared pool of blocks and the trace. *)
Record st := { ent : BA_REC_ENTRY; freelist : reordering_list; trace : list event }.

Definition upd_list (s : st) (l : reordering_list) : st :=
  {| ent := {| BAWinSize := BAWinSize (ent s); LastIndSeq := LastIndSeq (ent s);
               LastIndSeqAtTimer := LastIndSeqAtTimer (ent s); nDropPacket := nDropPacket (ent s);
               rcvSeq := rcvSeq (ent s); list_ := l |};
     freelist := freelist s; trace := trace s |}.

Definition upd_Last (s : st) (v : Z) : st :=
  {| ent := {| BAWinSize := BAWinSize (ent s); LastIndSeq := v;
               LastIndSeqAtTimer := LastIndSeqAtTimer (ent s); nDropPacket := nDropPacket (ent s);
               rcvSeq := rcvSeq (ent s); list_ := list_ (ent s) |};
     freelist := freelist s; trace := trace s |}.

Definition upd_AtTimer (s : st) (v : Z) : st :=
  {| ent := {| BAWinSize := BAWinSize (ent s); LastIndSeq := LastIndSeq (ent s);
               LastIndSeqAtTimer := v; nDropPacket := nDropPacket (ent s);
               rcvSeq := rcvSeq (ent s); list_ := list_ (ent s) |};
     freelist := freelist s; trace := trace s |}.

Definition upd_rcvSeq (s : st) (v : Z) : st :=
  {| ent := {| BAWinSize := BAWinSize (ent s); LastIndSeq := LastIndSeq (ent s);
               LastIndSeqAtTimer := LastIndSeqAtTimer (ent s); nDropPacket := nDropPacket (ent s);
               rcvSeq := v; list_ := list_ (ent s) |};
     freelist := freelist s; trace := trace s |}.

(** [nDropPacket++] *)
Definition count_drop (s : st) : st :=
  {| ent := {| BAWinSize := BAWinSize (ent s); LastIndSeq := LastIndSeq (ent s);
               LastIndSeqAtTimer := LastIndSeqAtTimer (ent s); nDropPacket := u32 (nDropPacket (ent s) + 1);
               rcvSeq := rcvSeq (ent s); list_ := list_ (ent s) |};
     freelist := freelist s; trace := trace s |}.

Definition upd_pool (s : st) (l : reordering_list) : st :=
  {| ent := ent s; freelist := l; trace := trace s |}.

Definition emit (s : st) (e : event) : st :=
  {| ent := ent s; freelist := freelist s; trace := trace s ++ [e] |}.

(** [ASSERT(b)] *)
Definition ASSERT (s : st) (b : bool) : st := if b then s else emit s ASSERT_failed.

(** ** The list and the pool *)

(** [Announce_Reordering_Packet], in station mode. *)
Definition Announce_Reordering_Packet (s : st) (mpdu : reordering_mpdu) : st :=
  emit s (if bAMSDU mpdu then BA_Reorder_AMSDU_Annnounce (pPacket mpdu) (OpMode mpdu)
          else ANNOUNCE_OR_FORWARD_802_3_PACKET (pPacket mpdu)).

(** The scan of the insertion; [None] for a duplicate. *)
Fixpoint insert_scan (l : list reordering_mpdu) (mpdu : reordering_mpdu) : option (list reordering_mpdu) :=
  match l with
  | [] => Some [mpdu]
  | x :: r =>
      if SEQ_SMALLER (Sequence x) (Sequence mpdu) MAXSEQ then r' ← insert_scan r mpdu; Some (x :: r')
      else if Sequence x =? Sequence mpdu then None
      else Some (mpdu :: x :: r)
  end.

Definition ba_reordering_mpdu_insertsorted (l : reordering_list) (mpdu : reordering_mpdu)
    : bool * reordering_list :=
  match insert_scan (next l) mpdu with
  | None => (false, l)
  | Some l' => (true, {| next := l'; qlen := qlen l + 1 |})
  end.

Definition ba_enqueue (l : reordering_list) (mpdu_blk : reordering_mpdu) : reordering_list :=
  {| next := mpdu_blk :: next l; qlen := qlen l + 1 |}.

Definition ba_dequeue (l : reordering_list) : option reordering_mpdu * reordering_list :=
  if negb (qlen l =? 0) then
    match next l with
    | mpdu_blk :: r => (Some mpdu_blk, {| next := r; qlen := qlen l - 1 |})
    | [] => (None, {| next := []; qlen := qlen l - 1 |})
    end
  else (None, l).

Definition ba_reordering_mpdu_probe (l : reordering_list) : option reordering_mpdu := head (next l).

Definition zero_mpdu : reordering_mpdu := {| pPacket := None; Sequence := 0; bAMSDU := false; OpMode := 0 |}.

(** [ba_reordering_resource_init(pAd, num)]; [None] when the memory is
    refused. *)
Definition ba_reordering_resource_init (memory : bool) (num : nat) : option reordering_list :=
  if memory then
    Some (loop 0 num (λ _ freelist, ba_enqueue freelist zero_mpdu) {| next := []; qlen := 0 |})
  else None.

Definition ba_mpdu_blk_alloc (s : st) : option reordering_mpdu * st :=
  let '(mpdu_blk, l) := ba_dequeue (freelist s) in
  (match mpdu_blk with Some _ => Some zero_mpdu | None => None end, upd_pool s l).

Definition ba_mpdu_blk_free (s : st) (mpdu_blk : reordering_mpdu) : st :=
  upd_pool s (ba_enqueue (freelist s) mpdu_blk).

(** ** Passing frames up *)

(** The loop of [ba_indicate_reordering_mpdus_in_order]. *)
Fixpoint in_order_loop (fuel : nat) (s : st) (StartSeq LastInd : Z) : option (st * Z) :=
  match fuel with
  | O => None
  | S fuel =>
      match ba_reordering_mpdu_probe (list_ (ent s)) with
      | None => Some (s, LastInd)
      | Some mpdu_blk =>
          if negb (SEQ_STEPONE (Sequence mpdu_blk) StartSeq MAXSEQ) then Some (s, LastInd)
          else
            let '(mpdu_blk, l) := ba_dequeue (list_ (ent s)) in
            let s := upd_list s l in
            mpdu_blk ← mpdu_blk;
            let s := Announce_Reordering_Packet s mpdu_blk in
            let StartSeq := u16 (Sequence mpdu_blk) in
            let LastInd := StartSeq in
            let s := ba_mpdu_blk_free s mpdu_blk in
            in_order_loop fuel s StartSeq LastInd
      end
  end.

Definition list_fuel (s : st) : nat := S (length (next (list_ (ent s)))).

Definition ba_indicate_reordering_mpdus_in_order (s : st) (StartSeq : Z) : option (st * Z) :=
  in_order_loop (list_fuel s) s StartSeq RESET_RCV_SEQ.

Fixpoint le_seq_loop (fuel : nat) (s : st) (seq : Z) : option st :=
  match fuel with
  | O => None
  | S fuel =>
      match ba_reordering_mpdu_probe (list_ (ent s)) with
      | None => Some s
      | Some mpdu_blk =>
          if (Sequence mpdu_blk =? seq) || SEQ_SMALLER (Sequence mpdu_blk) seq MAXSEQ then
            let '(mpdu_blk, l) := ba_dequeue (list_ (ent s)) in
            let s := upd_list s l in
            mpdu_blk ← mpdu_blk;
            let s := Announce_Reordering_Packet s mpdu_blk in
            let s := ba_mpdu_blk_free s mpdu_blk in
            le_seq_loop fuel s seq
          else Some s
      end
  end.

Definition ba_indicate_reordering_mpdus_le_seq (s : st) (seq : Z) : option st :=
  le_seq_loop (list_fuel s) s seq.

Fixpoint refresh_loop (fuel : nat) (s : st) : option st :=
  match fuel with
  | O => None
  | S fuel =>
      let '(mpdu_blk, l) := ba_dequeue (list_ (ent s)) in
      let s := upd_list s l in
      match mpdu_blk with
      | None => Some s
      | Some mpdu_blk =>
          let s := Announce_Reordering_Packet s mpdu_blk in
          let s := upd_Last s (u16 (Sequence mpdu_blk)) in
          let s := ba_mpdu_blk_free s mpdu_blk in
          refresh_loop fuel s
      end
  end.

Definition ba_refresh_reordering_mpdus (s : st) : option st :=
  s ← refresh_loop (list_fuel s) s;
  let s := ASSERT s (qlen (list_ (ent s)) =? 0) in
  Some (upd_Last s RESET_RCV_SEQ).

(** [INDICATE_LEGACY_OR_AMSDU] *)
Definition INDICATE_LEGACY_OR_AMSDU (s : st) (pRxBlk : RX_BLK) : st :=
  emit s (if fRX_AMSDU pRxBlk then Indicate_AMSDU_Packet (pRxPacket pRxBlk)
          else if fRX_EAP pRxBlk then Indicate_EAPOL_Packet (pRxPacket pRxBlk)
          else Indicate_Legacy_Packet (pRxPacket pRxBlk)).

(** A block that is allocated for an EAPOL frame is neither queued nor
    freed. *)
Definition ba_enqueue_reordering_packet (s : st) (pRxBlk : RX_BLK) : option st :=
  let seq := u16 (pkt_Sequence (pRxPacket pRxBlk)) in
  let '(mpdu_blk, s) := ba_mpdu_blk_alloc s in
  if (match mpdu_blk with Some _ => true | None => false end) && negb (fRX_EAP pRxBlk) then
    let mpdu_blk := {| pPacket := Some (pRxPacket pRxBlk); Sequence := seq;
                       bAMSDU := fRX_AMSDU pRxBlk; OpMode := rx_OpMode pRxBlk |} in
    let '(inserted, l) := ba_reordering_mpdu_insertsorted (list_ (ent s)) mpdu_blk in
    let s := upd_list s l in
    let s := if negb inserted
             then ba_mpdu_blk_free (emit s (RELEASE_NDIS_PACKET (pRxPacket pRxBlk) true)) mpdu_blk else s in
    Some (ASSERT s ((0 <=? qlen (list_ (ent s))) && (qlen (list_ (ent s)) <=? BAWinSize (ent s))))
  else
    s ← ba_indicate_reordering_mpdus_le_seq s seq;
    let s := upd_Last s seq in
    Some (INDICATE_LEGACY_OR_AMSDU s pRxBlk).

Section Timers.
Context (OS_HZ : Z).

Definition REORDERING_PACKET_TIMEOUT : Z := (100 * OS_HZ) / 1000.
Definition MAX_REORDERING_PACKET_TIMEOUT : Z := (3000 * OS_HZ) / 1000.

Definition ba_flush_reordering_timeout_mpdus (s : st) (Now32 : Z) : option st :=
  if qlen (list_ (ent s)) <=? 0 then Some s
  else if RTMP_TIME_AFTER Now32 (u32 (LastIndSeqAtTimer (ent s) + MAX_REORDERING_PACKET_TIMEOUT / 6))
          && (1 <? qlen (list_ (ent s))) then
    s ← ba_refresh_reordering_mpdus s;
    Some (upd_AtTimer s Now32)
  else if RTMP_TIME_AFTER Now32 (u32 (LastIndSeqAtTimer (ent s) + REORDERING_PACKET_TIMEOUT))
          && (0 <? qlen (list_ (ent s))) then
    let seq := (LastIndSeq (ent s) + 1) & MAXSEQ in
    s ← ba_indicate_reordering_mpdus_le_seq s seq;
    let s := upd_AtTimer s Now32 in
    let s := upd_Last s seq in
    '(s, seq) ← ba_indicate_reordering_mpdus_in_order s seq;
    Some (if negb (seq =? RESET_RCV_SEQ) then upd_Last s seq else s)
  else Some s.

(** [Indicate_AMPDU_Packet] from the session on. *)
Definition Indicate_AMPDU_entry (s : st) (pRxBlk : RX_BLK) (Now32 : Z) : option st :=
  let seq := pkt_Sequence (pRxPacket pRxBlk) in
  let s := upd_rcvSeq s seq in
  s ← ba_flush_reordering_timeout_mpdus s Now32;
  let s := upd_AtTimer s Now32 in
  if LastIndSeq (ent s) =? RESET_RCV_SEQ then
    let s := ASSERT s ((qlen (list_ (ent s)) =? 0) && bool_decide (length (next (list_ (ent s))) = 0%nat)) in
    let s := upd_Last s seq in
    let s := upd_AtTimer s Now32 in
    Some (INDICATE_LEGACY_OR_AMSDU s pRxBlk)
  else if SEQ_STEPONE seq (LastIndSeq (ent s)) MAXSEQ then
    let s := upd_Last s seq in
    let s := INDICATE_LEGACY_OR_AMSDU s pRxBlk in
    '(s, LastInd) ← ba_indicate_reordering_mpdus_in_order s (LastIndSeq (ent s));
    let s := if negb (LastInd =? RESET_RCV_SEQ) then upd_Last s LastInd else s in
    Some (upd_AtTimer s Now32)
  else if seq =? LastIndSeq (ent s) then
    Some (emit (count_drop s) (RELEASE_NDIS_PACKET (pRxPacket pRxBlk) false))
  else if SEQ_SMALLER seq (LastIndSeq (ent s)) MAXSEQ then
    Some (emit (count_drop s) (RELEASE_NDIS_PACKET (pRxPacket pRxBlk) false))
  else if SEQ_SMALLER seq ((LastIndSeq (ent s) + BAWinSize (ent s) + 1) & MAXSEQ) MAXSEQ then
    ba_enqueue_reordering_packet s pRxBlk
  else
    let TmpSeq := seq - BAWinSize (ent s) - 1 in
    let TmpSeq := if TmpSeq <? 0 then (MAXSEQ + 1) + TmpSeq else TmpSeq in
    let WinStartSeq := (TmpSeq + 1) & MAXSEQ in
    s ← ba_indicate_reordering_mpdus_le_seq s WinStartSeq;
    let s := upd_Last s WinStartSeq in
    let s := upd_AtTimer s Now32 in
    s ← ba_enqueue_reordering_packet s pRxBlk;
    '(s, TmpSeq) ← ba_indicate_reordering_mpdus_in_order s (LastIndSeq (ent s));
    Some (if negb (TmpSeq =? RESET_RCV_SEQ) then upd_Last s TmpSeq else s).

(** A frame: the length check, then the session. *)
Definition Indicate_AMPDU_session (s : st) (pRxBlk : RX_BLK) (Now32 : Z) : option st :=
  if negb (fRX_AMSDU pRxBlk) && (MAX_RX_PKT_LEN <? DataSize pRxBlk)
  then Some (emit s (RELEASE_NDIS_PACKET (pRxPacket pRxBlk) false))
  else Indicate_AMPDU_entry s pRxBlk Now32.
End Timers.

(** A block-ack request for the session, once its checks have passed. *)
Definition CntlEnqueueForRecv_entry (s : st) (StartSeq : Z) : option st :=
  if SEQ_SMALLER (LastIndSeq (ent s)) StartSeq MAXSEQ then
    s ← ba_indicate_reordering_mpdus_le_seq s StartSeq;
    Some (upd_Last s (if StartSeq =? 0 then MAXSEQ else StartSeq - 1))
  else Some s.

(** ** Sequence numbers of unbounded frame numbers *)

Lemma land_2048 x : (x & 2048 =? 0) = negb (2048 <=? x mod 4096).
Proof.
  assert (Z.testbit x 11 = (2048 <=? x mod 4096)) as Hb.
  { rewrite <- (Z.mod_pow2_bits_low x 12 11) by lia. change (2 ^ 12) with 4096.
    pose proof (Z.mod_pos_bound x 4096 ltac:(lia)) as Hm. set (y := x mod 4096) in *. clearbody y.
    rewrite Z.testbit_eqb by lia. change (2 ^ 11) with 2048.
    destruct (Z.leb_spec 2048 y).
    - assert (y / 2048 = 1) as -> by (symmetry; apply Z.div_unique with (y - 2048); lia). done.
    - rewrite Z.div_small by lia. done. }
  rewrite <- Hb. destruct (Z.testbit x 11) eqn:Ht; cbn [negb].
  - apply Z.eqb_neq. intros H0. assert (Z.testbit (x & 2048) 11 = false) as H by (by rewrite H0, Z.bits_0).
    rewrite Z.land_spec, Ht in H. discriminate H.
  - apply Z.eqb_eq. apply Z.bits_inj'. intros i Hi. rewrite Z.land_spec, Z.bits_0.
    change 2048 with (2 ^ 11). rewrite Z.pow2_bits_eqb by lia.
    destruct (Z.eqb_spec 11 i) as [<-|]; [by rewrite Ht|apply andb_false_r].
Qed.

Lemma land_MAXSEQ x : x & MAXSEQ = x mod 4096.
Proof. change MAXSEQ with (Z.ones 12). by rewrite Z.land_ones by lia. Qed.

Lemma SEQ_SMALLER_mod a b : SEQ_SMALLER a b MAXSEQ = (2048 <=? (a - b) mod 4096).
Proof.
  unfold SEQ_SMALLER. change ((MAXSEQ + 1) >> 1) with 2048. by rewrite land_2048, negb_involutive.
Qed.

(** Comparing two frames less than half the space apart. *)
Lemma SEQ_SMALLER_near a b : -2048 <= a - b < 2048 → SEQ_SMALLER (a mod 4096) (b mod 4096) MAXSEQ = (a <? b).
Proof.
  intros H. rewrite SEQ_SMALLER_mod, <- Zminus_mod.
  destruct (Z.ltb_spec a b).
  - rewrite <- (Z.mod_unique (a - b) 4096 (-1) (a - b + 4096)) by lia. apply Z.leb_le. lia.
  - rewrite Z.mod_small by lia. apply Z.leb_gt. lia.
Qed.

Lemma seq_eqb_near a b : -4096 < a - b < 4096 → (a mod 4096 =? b mod 4096) = (a =? b).
Proof.
  intros H. destruct (Z.eqb_spec a b) as [->|Hne]; [apply Z.eqb_refl|]. apply Z.eqb_neq. intros He.
  assert ((a - b) mod 4096 = 0) as H0 by (rewrite Zminus_mod, He, Z.sub_diag; done).
  apply Z.mod_divide in H0 as [q Hq]; lia.
Qed.

Lemma seq_succ a : (a mod 4096 + 1) & MAXSEQ = (a + 1) mod 4096.
Proof. rewrite land_MAXSEQ. apply Zplus_mod_idemp_l. Qed.

Lemma SEQ_STEPONE_near a b :
  -4096 < a - (b + 1) < 4096 → SEQ_STEPONE (a mod 4096) (b mod 4096) MAXSEQ = (a =? b + 1).
Proof. intros H. unfold SEQ_STEPONE. rewrite seq_succ. by apply seq_eqb_near. Qed.

Lemma u16_seq a : u16 (a mod 4096) = a mod 4096.
Proof. unfold u16. apply Z.mod_small. pose proof (Z.mod_pos_bound a 4096). lia. Qed.

Lemma seq_not_reset a : a mod 4096 ≠ RESET_RCV_SEQ.
Proof. pose proof (Z.mod_pos_bound a 4096). unfold RESET_RCV_SEQ. lia. Qed.

(** ** Increasing frame numbers *)

(** All above [lo], increasing, none above [hi]. *)
Fixpoint incr (lo : Z) (l : list Z) (hi : Z) : Prop :=
  match l with
  | [] => lo <= hi
  | x :: r => lo < x ∧ incr x r hi
  end.

Lemma incr_le lo l hi : incr lo l hi → lo <= hi.
Proof. revert lo. induction l as [|x l IH]; intros lo; cbn; [done|]. intros [? ?%IH]. lia. Qed.

Lemma incr_weaken lo lo' l hi hi' : lo' <= lo → hi <= hi' → incr lo l hi → incr lo' l hi'.
Proof.
  revert lo lo'. induction l as [|x l IH]; intros lo lo' Hl Hh; cbn; [lia|].
  intros [? ?]. split; [lia|]. by apply (IH x x); [|lia|].
Qed.

Lemma incr_bounds lo l hi x : incr lo l hi → x ∈ l → lo < x <= hi.
Proof.
  revert lo. induction l as [|y l IH]; intros lo; cbn; [by intros _ ?%not_elem_of_nil|].
  intros [H1 H2] [->|Hx]%elem_of_cons; [apply incr_le in H2; lia|]. specialize (IH y H2 Hx). lia.
Qed.

Lemma incr_app lo a mid b hi : incr lo a mid → incr mid b hi → incr lo (a ++ b) hi.
Proof.
  revert lo. induction a as [|x a IH]; intros lo; cbn; [intros H; by apply incr_weaken|].
  intros [? ?] ?. split; [done|]. by apply IH.
Qed.

Lemma incr_length lo l hi : incr lo l hi → Z.of_nat (length l) <= hi - lo.
Proof.
  revert lo. induction l as [|x l IH]; intros lo; cbn [incr length]; [lia|].
  intros [? ?%IH]. lia.
Qed.

(** How many frames follow [n] directly, and how many are at most [t]. *)
Fixpoint consec (n : Z) (l : list Z) : nat :=
  match l with
  | x :: r => if x =? n + 1 then S (consec x r) else O
  | [] => O
  end.

Fixpoint upto (t : Z) (l : list Z) : nat :=
  match l with
  | x :: r => if x <=? t then S (upto t r) else O
  | [] => O
  end.

Lemma consec_le n l : (consec n l <= length l)%nat.
Proof. revert n. induction l as [|x l IH]; intros n; cbn; [done|]. case_match; [|lia]. specialize (IH x). lia. Qed.

Lemma upto_le t l : (upto t l <= length l)%nat.
Proof. induction l as [|x l IH]; cbn; [done|]. case_match; lia. Qed.

Lemma consec_take n l : incr n (take (consec n l) l) (n + Z.of_nat (consec n l)).
Proof.
  revert n. induction l as [|x l IH]; intros n; cbn [consec take incr]; [lia|].
  destruct (Z.eqb_spec x (n + 1)) as [->|]; cbn [take incr]; [|lia]. split; [lia|].
  specialize (IH (n + 1)). eapply incr_weaken; [| |exact IH]; lia.
Qed.

Lemma consec_drop n l hi hi' :
  incr n l hi → hi <= hi' → n + Z.of_nat (consec n l) + 1 <= hi' →
  incr (n + Z.of_nat (consec n l) + 1) (drop (consec n l) l) hi'.
Proof.
  revert n. induction l as [|x l IH]; intros n; cbn [consec incr drop]; [lia|].
  intros [Hx Hl] Hh. destruct (Z.eqb_spec x (n + 1)) as [->|]; intros Hc.
  - cbn [drop]. replace (n + Z.of_nat (S (consec (n + 1) l)) + 1)
      with (n + 1 + Z.of_nat (consec (n + 1) l) + 1) in * by lia. by apply IH.
  - cbn [drop incr]. split; [lia|]. by apply (incr_weaken x x l hi).
Qed.

Lemma upto_take lo l hi t : incr lo l hi → lo <= t → incr lo (take (upto t l) l) t.
Proof.
  revert lo. induction l as [|x l IH]; intros lo; cbn [upto incr take]; [done|].
  intros [Hx Hl] Ht. destruct (Z.leb_spec x t); cbn [take incr]; [|done]. split; [done|]. by apply IH.
Qed.

Lemma upto_drop lo l hi t : incr lo l hi → t <= hi → incr t (drop (upto t l) l) hi.
Proof.
  revert lo. induction l as [|x l IH]; intros lo; cbn [upto incr drop]; [done|].
  intros [Hx Hl] Ht. destruct (Z.leb_spec x t); cbn [drop incr]; [by apply (IH x)|].
  split; [lia|done].
Qed.

(** ** Frames in the buffer *)

Abbreviation buffer s := (next (list_ (ent s))).

(** The lengths the code keeps are those of the lists. *)
Definition lens_ok (s : st) : Prop :=
  qlen (list_ (ent s)) = Z.of_nat (length (buffer s)) ∧ qlen (freelist s) = Z.of_nat (length (next (freelist s))).

(** Blocks in the buffer and in the pool. *)
Definition total_blocks (s : st) : Z := qlen (list_ (ent s)) + qlen (freelist s).

Section Numbering.
(** The numbers of the frames before reduction. *)
Context (num : packet → Z).

Definition good_packet (p : packet) : Prop := pkt_Sequence p = num p mod 4096.

Definition good (m : reordering_mpdu) : Prop :=
  ∃ p, pPacket m = Some p ∧ good_packet p ∧ Sequence m = pkt_Sequence p.

Definition mid (m : reordering_mpdu) : Z :=
  match pPacket m with Some p => num p | None => 0 end.

Abbreviation ids s := (map mid (buffer s)).

Lemma good_Sequence m : good m → Sequence m = mid m mod 4096.
Proof. intros (p & Hp & Hg & ->). unfold mid. by rewrite Hp. Qed.

Definition announcement (m : reordering_mpdu) : event :=
  if bAMSDU m then BA_Reorder_AMSDU_Annnounce (pPacket m) (OpMode m)
  else ANNOUNCE_OR_FORWARD_802_3_PACKET (pPacket m).

(** [k] frames passed up from the head. *)
Definition popped (k : nat) (s : st) : st :=
  {| ent := {| BAWinSize := BAWinSize (ent s); LastIndSeq := LastIndSeq (ent s);
               LastIndSeqAtTimer := LastIndSeqAtTimer (ent s); nDropPacket := nDropPacket (ent s);
               rcvSeq := rcvSeq (ent s);
               list_ := {| next := drop k (buffer s); qlen := qlen (list_ (ent s)) - Z.of_nat k |} |};
     freelist := {| next := rev (take k (buffer s)) ++ next (freelist s);
                    qlen := qlen (freelist s) + Z.of_nat k |};
     trace := trace s ++ map announcement (take k (buffer s)) |}.

Lemma popped_0 s : popped 0 s = s.
Proof.
  destruct s as [[? ? ? ? ? [? ?]] [? ?] ?]. unfold popped. cbn.
  by rewrite app_nil_r, Z.sub_0_r, Z.add_0_r.
Qed.

(** What one turn of the loops does to a non-empty buffer. *)
Definition pop_one (s : st) (m : reordering_mpdu) (r : list reordering_mpdu) : st :=
  ba_mpdu_blk_free (Announce_Reordering_Packet
    (upd_list s {| next := r; qlen := qlen (list_ (ent s)) - 1 |}) m) m.

Lemma popped_S k s m r : buffer s = m :: r → popped k (pop_one s m r) = popped (S k) s.
Proof.
  destruct s as [[? ? ? ? ? [l q]] [fl fq] tr]. cbn. intros ->.
  unfold popped, pop_one, ba_mpdu_blk_free, ba_enqueue, Announce_Reordering_Packet. cbn.
  rewrite <- !app_assoc. cbn [app]. fold (announcement m).
  replace (q - 1 - Z.of_nat k) with (q - Z.of_nat (S k)) by lia.
  by replace (fq + 1 + Z.of_nat k) with (fq + Z.of_nat (S k)) by lia.
Qed.

Lemma lens_ok_pop s m r : buffer s = m :: r → lens_ok s → lens_ok (pop_one s m r).
Proof. unfold lens_ok. intros Hb. rewrite Hb. cbn. lia. Qed.

Lemma lens_ok_popped k s : (k <= length (buffer s))%nat → lens_ok s → lens_ok (popped k s).
Proof.
  unfold lens_ok. intros Hk. cbn. rewrite length_drop, length_app, length_rev, length_take. lia.
Qed.

Lemma dequeue_cons s m r :
  buffer s = m :: r → lens_ok s →
  ba_dequeue (list_ (ent s)) = (Some m, {| next := r; qlen := qlen (list_ (ent s)) - 1 |}).
Proof.
  intros Hb [Hq _]. unfold ba_dequeue. rewrite Hb in Hq |- *. cbn [length] in Hq.
  destruct (Z.eqb_spec (qlen (list_ (ent s))) 0); [lia|done].
Qed.

(** The loops, on numbered frames no further apart than half the space. *)
Lemma in_order_loop_eq fuel s n v :
  lens_ok s → Forall good (buffer s) → incr n (ids s) (n + 4000) → (length (buffer s) < fuel)%nat →
  in_order_loop fuel s (n mod 4096) v =
    Some (popped (consec n (ids s)) s,
          if (consec n (ids s) =? 0)%nat then v else (n + Z.of_nat (consec n (ids s))) mod 4096).
Proof.
  revert s n v. induction fuel as [|fuel IH]; intros s n v Hl Hg Hi Hf; [lia|].
  cbn [in_order_loop]. unfold ba_reordering_mpdu_probe. destruct (buffer s) as [|m r] eqn:Hb.
  { cbn. by rewrite popped_0. }
  cbn [head]. apply Forall_cons in Hg as [Hm Hr]. cbn [map incr] in Hi. destruct Hi as [Hi1 Hi2].
  pose proof (incr_le _ _ _ Hi2) as Hle.
  rewrite (good_Sequence m Hm), SEQ_STEPONE_near by lia. cbn [map consec].
  destruct (Z.eqb_spec (mid m) (n + 1)) as [He|He]; cbn [negb]; [|by rewrite popped_0].
  rewrite (dequeue_cons s m r) by done. rewrite Some_bind, (good_Sequence m Hm), u16_seq, He.
  fold (pop_one s m r). assert (buffer (pop_one s m r) = r) as Hb' by done.
  rewrite IH, Hb', (popped_S _ _ _ _ Hb); [| |by rewrite Hb'| |rewrite Hb'; cbn [length] in Hf; lia].
  - f_equal. f_equal. cbn [Nat.eqb].
    destruct (Nat.eqb_spec (consec (n + 1) (map mid r)) 0) as [->|_]; f_equal; lia.
  - by apply lens_ok_pop.
  - rewrite Hb'. rewrite He in Hi2. eapply incr_weaken; [| |exact Hi2]; lia.
Qed.

Lemma in_order_eq s n :
  lens_ok s → Forall good (buffer s) → incr n (ids s) (n + 4000) →
  ba_indicate_reordering_mpdus_in_order s (n mod 4096) =
    Some (popped (consec n (ids s)) s,
          if (consec n (ids s) =? 0)%nat then RESET_RCV_SEQ else (n + Z.of_nat (consec n (ids s))) mod 4096).
Proof. intros. unfold ba_indicate_reordering_mpdus_in_order, list_fuel. apply in_order_loop_eq; done || lia. Qed.

Lemma le_seq_loop_eq fuel s t :
  lens_ok s → Forall good (buffer s) → (∀ x, x ∈ ids s → -2048 <= x - t < 2048) →
  (length (buffer s) < fuel)%nat →
  le_seq_loop fuel s (t mod 4096) = Some (popped (upto t (ids s)) s).
Proof.
  revert s. induction fuel as [|fuel IH]; intros s Hl Hg Hi Hf; [lia|].
  cbn [le_seq_loop]. unfold ba_reordering_mpdu_probe. destruct (buffer s) as [|m r] eqn:Hb.
  { cbn. by rewrite popped_0. }
  cbn [head]. apply Forall_cons in Hg as [Hm Hr]. cbn [map] in Hi.
  assert (-2048 <= mid m - t < 2048) as Hmt by (apply Hi; left).
  rewrite (good_Sequence m Hm), SEQ_SMALLER_near, seq_eqb_near by lia. cbn [map upto].
  assert ((mid m =? t) || (mid m <? t) = (mid m <=? t)) as ->.
  { destruct (Z.eqb_spec (mid m) t), (Z.ltb_spec (mid m) t), (Z.leb_spec (mid m) t); done || lia. }
  destruct (Z.leb_spec (mid m) t) as [He|He]; [|by rewrite popped_0].
  rewrite (dequeue_cons s m r) by done. rewrite Some_bind.
  fold (pop_one s m r). assert (buffer (pop_one s m r) = r) as Hb' by done.
  rewrite IH, Hb', (popped_S _ _ _ _ Hb); [done| |by rewrite Hb'| |rewrite Hb'; cbn [length] in Hf; lia].
  - by apply lens_ok_pop.
  - rewrite Hb'. intros x Hx. apply Hi. by right.
Qed.

Lemma le_seq_eq s t :
  lens_ok s → Forall good (buffer s) → (∀ x, x ∈ ids s → -2048 <= x - t < 2048) →
  ba_indicate_reordering_mpdus_le_seq s (t mod 4096) = Some (popped (upto t (ids s)) s).
Proof. intros. unfold ba_indicate_reordering_mpdus_le_seq, list_fuel. apply le_seq_loop_eq; done || lia. Qed.

Lemma refresh_loop_eq fuel s :
  lens_ok s → (length (buffer s) < fuel)%nat →
  ∃ v, refresh_loop fuel s = Some (upd_Last (popped (length (buffer s)) s) v).
Proof.
  revert s. induction fuel as [|fuel IH]; intros s Hl Hf; [lia|].
  cbn [refresh_loop]. destruct (buffer s) as [|m r] eqn:Hb.
  { exists (LastIndSeq (ent s)). unfold ba_dequeue. destruct Hl as [Hq _]. rewrite Hb in Hq |- *. rewrite Hq. cbn [length].
    rewrite popped_0. by destruct s as [[? ? ? ? ? [? ?]] ? ?]. }
  rewrite (dequeue_cons s m r) by done.
  set (s1 := ba_mpdu_blk_free _ m).
  assert (s1 = upd_Last (pop_one s m r) (u16 (Sequence m))) as E1 by done.
  assert (lens_ok s1) as Hl1.
  { rewrite E1. pose proof (lens_ok_pop s m r Hb Hl) as H. exact H. }
  assert (buffer s1 = r) as Hb1 by done.
  destruct (IH s1) as [v Hv]; [done|rewrite Hb1; cbn [length] in Hf; lia|].
  exists v. rewrite Hv, Hb1, E1. f_equal. cbn [length].
  rewrite <- (popped_S (length r) s m r Hb). done.
Qed.

Lemma refresh_eq s :
  lens_ok s → ba_refresh_reordering_mpdus s = Some (upd_Last (popped (length (buffer s)) s) RESET_RCV_SEQ).
Proof.
  intros Hl. unfold ba_refresh_reordering_mpdus, list_fuel.
  destruct (refresh_loop_eq (S (length (buffer s))) s Hl) as [v ->]; [lia|]. rewrite Some_bind.
  assert ((qlen (list_ (ent (upd_Last (popped (length (buffer s)) s) v))) =? 0) = true) as ->.
  { cbn. destruct Hl as [-> _]. apply Z.eqb_eq. lia. }
  done.
Qed.

(** ** The trace *)

Definition up (e : event) : option packet :=
  match e with
  | BA_Reorder_AMSDU_Annnounce p _ | ANNOUNCE_OR_FORWARD_802_3_PACKET p => p
  | Indicate_AMSDU_Packet p | Indicate_EAPOL_Packet p | Indicate_Legacy_Packet p => Some p
  | _ => None
  end.

Definition down (e : event) : option packet :=
  match e with RELEASE_NDIS_PACKET p _ => Some p | _ => None end.

(** The packets passed up, and those released, in order. *)
Definition delivered (ev : list event) : list packet := omap up ev.
Definition released (ev : list event) : list packet := omap down ev.

(** The packets in the buffer. *)
Definition held (l : list reordering_mpdu) : list packet := omap pPacket l.

Lemma delivered_app a b : delivered (a ++ b) = delivered a ++ delivered b.
Proof. apply omap_app. Qed.

Lemma released_app a b : released (a ++ b) = released a ++ released b.
Proof. apply omap_app. Qed.

Lemma delivered_announcements l : delivered (map announcement l) = held l.
Proof.
  induction l as [|m l IH]; [done|]. unfold delivered, held in *. cbn.
  assert (up (announcement m) = pPacket m) as -> by (unfold announcement; by destruct (bAMSDU m)).
  rewrite IH. done.
Qed.

Lemma released_announcements l : released (map announcement l) = [].
Proof.
  induction l as [|m l IH]; [done|]. unfold released in *. cbn.
  assert (down (announcement m) = None) as -> by (unfold announcement; by destruct (bAMSDU m)). done.
Qed.

Lemma announcements_no_assert l : ASSERT_failed ∉ map announcement l.
Proof.
  induction l as [|m l IH]; cbn [map]; [apply not_elem_of_nil|]. apply not_elem_of_cons. split; [|done].
  unfold announcement. by destruct (bAMSDU m).
Qed.

Lemma held_app a b : held (a ++ b) = held a ++ held b.
Proof. apply omap_app. Qed.

Lemma held_ids l : Forall good l → map num (held l) = map mid l.
Proof.
  induction 1 as [|m l (p & Hp & _) Hl IH]; [done|]. unfold held in *. cbn. unfold mid at 1. rewrite Hp. cbn.
  by rewrite IH.
Qed.

Lemma held_Permutation a b : a ≡ₚ b → held a ≡ₚ held b.
Proof. intros H. unfold held. by rewrite H. Qed.

(** ** Queueing a frame *)

Definition mpdu_of (rx : RX_BLK) : reordering_mpdu :=
  {| pPacket := Some (pRxPacket rx); Sequence := pkt_Sequence (pRxPacket rx);
     bAMSDU := fRX_AMSDU rx; OpMode := rx_OpMode rx |}.

Lemma good_mpdu_of rx : good_packet (pRxPacket rx) → good (mpdu_of rx).
Proof. intros H. by exists (pRxPacket rx). Qed.

Lemma insert_scan_spec lo hi l m :
  Forall good l → good m → incr lo (map mid l) hi → lo < mid m <= hi → hi - lo <= 2047 →
  match insert_scan l m with
  | Some l' => (mid m ∉ map mid l) ∧ (l' ≡ₚ m :: l) ∧ incr lo (map mid l') hi
  | None => mid m ∈ map mid l
  end.
Proof.
  intros Hg Hm. revert lo. induction Hg as [|x l Hx Hl IH]; intros lo Hi Hb Hr.
  { cbn. split_and!; [apply not_elem_of_nil|done|lia|lia]. }
  cbn [insert_scan]. cbn [map incr] in Hi |- *. destruct Hi as [Hi1 Hi2]. pose proof (incr_le _ _ _ Hi2).
  rewrite (good_Sequence x Hx), (good_Sequence m Hm), SEQ_SMALLER_near, seq_eqb_near by lia.
  destruct (Z.ltb_spec (mid x) (mid m)) as [Hlt|Hge].
  - specialize (IH (mid x) Hi2 ltac:(lia) ltac:(lia)). destruct (insert_scan l m) as [l'|].
    + rewrite Some_bind. destruct IH as (Hn & Hp & Hi'). split_and!.
      * apply not_elem_of_cons. split; [lia|done].
      * rewrite Hp. apply Permutation_swap.
      * cbn [map incr]. done.
    + by right.
  - destruct (Z.eqb_spec (mid x) (mid m)) as [<-|Hne]; [by left|]. split_and!.
    + apply not_elem_of_cons. split; [lia|]. intros Hin.
      pose proof (incr_bounds _ _ _ _ Hi2 Hin). lia.
    + done.
    + cbn [map incr]. split_and!; [lia|lia|done].
Qed.

Definition same_window (s s' : st) : Prop :=
  BAWinSize (ent s') = BAWinSize (ent s) ∧ LastIndSeq (ent s') = LastIndSeq (ent s) ∧
  LastIndSeqAtTimer (ent s') = LastIndSeqAtTimer (ent s) ∧ total_blocks s' = total_blocks s.

(** With a block left in the pool a frame of the window is queued, or
    released as a duplicate; the assertion about the window holds. *)
Lemma enqueue_ok s rx lo hi :
  lens_ok s → next (freelist s) ≠ [] → Forall good (buffer s) →
  good_packet (pRxPacket rx) → fRX_EAP rx = false →
  incr lo (ids s) hi → lo < num (pRxPacket rx) <= hi → hi - lo <= BAWinSize (ent s) →
  BAWinSize (ent s) <= 255 →
  ∃ s' ev, ba_enqueue_reordering_packet s rx = Some s' ∧ trace s' = trace s ++ ev ∧ same_window s s' ∧
    lens_ok s' ∧ Forall good (buffer s') ∧ incr lo (ids s') hi ∧
    (ev = [] ∧ (num (pRxPacket rx) ∉ ids s) ∧ (buffer s' ≡ₚ mpdu_of rx :: buffer s) ∨
     ev = [RELEASE_NDIS_PACKET (pRxPacket rx) true] ∧ num (pRxPacket rx) ∈ ids s ∧ buffer s' = buffer s).
Proof.
  intros [Hq1 Hq2] Hf Hg Hp He Hi Hx Hr HW. unfold ba_enqueue_reordering_packet, ba_mpdu_blk_alloc.
  destruct s as [e fl tr]. cbn [ent freelist trace] in *.
  destruct fl as [[|b fl] fq]; [done|]. cbn [next qlen length] in Hq2.
  unfold ba_dequeue. cbn [next qlen]. destruct (Z.eqb_spec fq 0) as [|_]; [lia|]. cbn [negb]. rewrite He.
  cbn [andb negb]. rewrite Hp, u16_seq. unfold ba_reordering_mpdu_insertsorted, upd_pool. cbn [ent freelist trace].
  rewrite <- Hp. fold (mpdu_of rx).
  pose proof (insert_scan_spec lo hi (next (list_ e)) (mpdu_of rx) Hg (good_mpdu_of rx Hp) Hi Hx ltac:(lia)) as Hs.
  destruct (insert_scan _ _) as [l'|] eqn:Es; cbn [negb].
  - destruct Hs as (Hn & Hperm & Hi'). pose proof (Permutation_length Hperm) as Hlen. cbn [length] in Hlen.
    pose proof (incr_length _ _ _ Hi') as Hil. rewrite length_map in Hil.
    unfold upd_list, ASSERT. cbn.
    destruct (Z.leb_spec 0 (qlen (list_ e) + 1)); [|lia].
    destruct (Z.leb_spec (qlen (list_ e) + 1) (BAWinSize e)); [|lia]. cbn.
    eexists _, []. split_and!; [reflexivity|by rewrite app_nil_r|split_and!; [done..|unfold total_blocks; cbn; lia]|split; cbn; lia| |done|by left].
    cbn. rewrite Hperm. apply Forall_cons. split; [by apply good_mpdu_of|done].
  - pose proof (incr_length _ _ _ Hi) as Hil. rewrite length_map in Hil.
    unfold upd_list, ASSERT, ba_mpdu_blk_free, emit, upd_pool. cbn.
    destruct (Z.leb_spec 0 (qlen (list_ e))); [|lia].
    destruct (Z.leb_spec (qlen (list_ e)) (BAWinSize e)); [|lia]. cbn.
    eexists _, _. split_and!; [reflexivity|reflexivity|split_and!; [done..|unfold total_blocks; cbn; lia]|split; cbn; lia|done|done|by right].
Qed.

(** ** The invariant of a session *)

(** [N] is the last frame passed up, before reduction: the buffer holds
    frames above its successor, increasing, inside the window. *)
Definition window_ok (N : Z) (s : st) : Prop :=
  LastIndSeq (ent s) = N mod 4096 ∧ incr (N + 1) (ids s) (N + BAWinSize (ent s)).

Definition buffer_ok (s : st) : Prop :=
  lens_ok s ∧ 1 <= BAWinSize (ent s) <= 255 ∧ Forall good (buffer s).

Definition session_inv (N : Z) (s : st) : Prop :=
  buffer_ok s ∧ (LastIndSeq (ent s) = RESET_RCV_SEQ ∧ buffer s = [] ∨ window_ok N s).

Lemma window_not_reset N s : window_ok N s → LastIndSeq (ent s) ≠ RESET_RCV_SEQ.
Proof. intros [-> _]. apply seq_not_reset. Qed.

(** What a call did: from [s] to [s'], past frame [N'], with the events
    [ev]; frames passed up are above [lo], increasing, at most [N']. *)
Definition advanced (lo N' : Z) (s s' : st) (ev : list event) : Prop :=
  trace s' = trace s ++ ev ∧ buffer_ok s' ∧ window_ok N' s' ∧
  incr lo (map num (delivered ev)) N' ∧ (ASSERT_failed ∉ ev) ∧
  BAWinSize (ent s') = BAWinSize (ent s) ∧ total_blocks s' = total_blocks s.

Lemma Forall_good_drop k l : Forall good l → Forall good (drop k l).
Proof. apply Forall_drop. Qed.

Lemma ids_popped k s : ids (popped k s) = drop k (ids s).
Proof. cbn. by rewrite skipn_map. Qed.

Lemma delivered_popped k s :
  Forall good (buffer s) →
  map num (delivered (map announcement (take k (buffer s)))) = take k (ids s).
Proof.
  intros Hg. rewrite delivered_announcements, held_ids by (by apply Forall_take). by rewrite firstn_map.
Qed.

(** Passing up what follows the frame [n] directly closes the gap at the
    head of the buffer. *)
Lemma release_ok s n :
  buffer_ok s → LastIndSeq (ent s) = n mod 4096 → incr n (ids s) (n + BAWinSize (ent s)) →
  let k := consec n (ids s) in
  let s' := (if negb ((if (k =? 0)%nat then RESET_RCV_SEQ else (n + Z.of_nat k) mod 4096) =? RESET_RCV_SEQ)
             then upd_Last (popped k s) (if (k =? 0)%nat then RESET_RCV_SEQ else (n + Z.of_nat k) mod 4096)
             else popped k s) in
  ba_indicate_reordering_mpdus_in_order s (n mod 4096) =
    Some (popped k s, if (k =? 0)%nat then RESET_RCV_SEQ else (n + Z.of_nat k) mod 4096) ∧
  advanced n (n + Z.of_nat k) s s' (map announcement (take k (buffer s))) ∧
  buffer s' = drop k (buffer s).
Proof.
  intros (Hl & HW & Hg) HL Hi k s'.
  assert (k <= length (buffer s))%nat as Hk by (rewrite <- (length_map mid); apply consec_le).
  split; [apply in_order_eq; [done..|]; eapply incr_weaken; [| |exact Hi]; lia|].
  assert (LastIndSeq (ent s') = (n + Z.of_nat k) mod 4096 ∧ list_ (ent s') = list_ (ent (popped k s)) ∧
    freelist s' = freelist (popped k s) ∧ trace s' = trace (popped k s) ∧
    BAWinSize (ent s') = BAWinSize (ent s)) as (EL & El & Ef & Et & EW).
  { unfold s'. destruct (Nat.eqb_spec k 0) as [E0|].
    - change (RESET_RCV_SEQ =? RESET_RCV_SEQ) with true. cbn [negb]. by rewrite E0, popped_0, Z.add_0_r, HL.
    - destruct (Z.eqb_spec ((n + Z.of_nat k) mod 4096) RESET_RCV_SEQ) as [H|_];
        [by apply seq_not_reset in H|done]. }
  split; [|by rewrite El].
  assert (buffer s' = drop k (buffer s)) as Eb by (by rewrite El).
  unfold advanced, buffer_ok, window_ok, lens_ok. rewrite EL, Eb, Ef, Et, EW, El. split_and!; try done.
  - apply (lens_ok_popped k s Hk Hl).
  - apply (lens_ok_popped k s Hk Hl).
  - lia.
  - lia.
  - by apply Forall_drop.
  - rewrite <- skipn_map. apply (consec_drop n (ids s) (n + BAWinSize (ent s))); [done|lia..].
  - rewrite delivered_popped by done. apply consec_take.
  - apply announcements_no_assert.
  - unfold total_blocks. rewrite El, Ef. cbn. lia.
Qed.

Lemma held_split k l : held (drop k l) ++ held (take k l) ≡ₚ held l.
Proof. rewrite <- (take_drop k l) at 3. rewrite held_app. apply Permutation_app_comm. Qed.

(** Nothing is lost: what was held and the new packet are what is held,
    passed up or released afterwards. *)
Definition conserved (s s' : st) (ev : list event) (p : packet) : Prop :=
  held (buffer s') ++ delivered ev ++ released ev ≡ₚ p :: held (buffer s).

Lemma conserved_released s s' p b :
  held (buffer s') = held (buffer s) → conserved s s' [RELEASE_NDIS_PACKET p b] p.
Proof. intros E. unfold conserved. rewrite E. cbn. symmetry. apply Permutation_cons_append. Qed.

Definition indicated (rx : RX_BLK) : event :=
  if fRX_AMSDU rx then Indicate_AMSDU_Packet (pRxPacket rx)
  else if fRX_EAP rx then Indicate_EAPOL_Packet (pRxPacket rx)
  else Indicate_Legacy_Packet (pRxPacket rx).

Lemma delivered_indicated rx : delivered [indicated rx] = [pRxPacket rx].
Proof. unfold indicated. by destruct (fRX_AMSDU rx), (fRX_EAP rx). Qed.

Lemma released_indicated rx : released [indicated rx] = [].
Proof. unfold indicated. by destruct (fRX_AMSDU rx), (fRX_EAP rx). Qed.

Lemma indicated_no_assert rx : ASSERT_failed ∉ [indicated rx].
Proof. rewrite list_elem_of_singleton. unfold indicated. by destruct (fRX_AMSDU rx), (fRX_EAP rx). Qed.

(** Putting two steps of one call together. *)
Lemma advanced_trans lo n1 n2 s s1 s2 ev1 ev2 :
  trace s1 = trace s ++ ev1 → BAWinSize (ent s1) = BAWinSize (ent s) → total_blocks s1 = total_blocks s →
  incr lo (map num (delivered ev1)) n1 → ASSERT_failed ∉ ev1 →
  advanced n1 n2 s1 s2 ev2 → advanced lo n2 s s2 (ev1 ++ ev2).
Proof.
  intros Ht HW HT Hi Ha (Ht2 & Hb & Hw & Hi2 & Ha2 & HW2 & HT2). unfold advanced.
  rewrite delivered_app, map_app, Ht2, Ht, app_assoc, HW2, HW, HT2, HT. split_and!; try done.
  - by apply (incr_app lo _ n1).
  - rewrite not_elem_of_app. done.
Qed.

Section Receive.
Context (OS_HZ : Z).

Definition no_timeout (s : st) (Now32 : Z) : Prop :=
  buffer s = [] ∨
  (RTMP_TIME_AFTER Now32 (u32 (LastIndSeqAtTimer (ent s) + MAX_REORDERING_PACKET_TIMEOUT OS_HZ / 6))
     && (1 <? qlen (list_ (ent s))) = false ∧
   RTMP_TIME_AFTER Now32 (u32 (LastIndSeqAtTimer (ent s) + REORDERING_PACKET_TIMEOUT OS_HZ)) = false).

Lemma flush_quiet s Now32 :
  lens_ok s → no_timeout s Now32 → ba_flush_reordering_timeout_mpdus OS_HZ s Now32 = Some s.
Proof.
  intros [Hq _] Hn. unfold ba_flush_reordering_timeout_mpdus.
  destruct (Z.leb_spec (qlen (list_ (ent s))) 0); [done|].
  destruct Hn as [Hb|[-> ->]]; [rewrite Hb in Hq; cbn in Hq; lia|done].
Qed.

(** The four cases of a frame near the window. *)
Section Cases.
Context (N : Z) (s : st) (rx : RX_BLK) (Now32 : Z).
Context (s_ok : buffer_ok s) (s_window : window_ok N s) (quiet : no_timeout s Now32).
Context (rx_good : good_packet (pRxPacket rx)) (rx_plain : fRX_EAP rx = false).
Let n := num (pRxPacket rx).
Context (rx_near : -2048 <= n - N < 2048).

Let s1 := upd_AtTimer (upd_rcvSeq s (pkt_Sequence (pRxPacket rx))) Now32.

Definition received (N' : Z) (s' : st) (ev : list event) : Prop :=
  Indicate_AMPDU_entry OS_HZ s rx Now32 = Some s' ∧ advanced N N' s s' ev ∧
  conserved s s' ev (pRxPacket rx) ∧ N <= N' < N + 4096.

Lemma receive_start : (LastIndSeq (ent s1) =? RESET_RCV_SEQ) = false.
Proof. apply Z.eqb_neq. by apply (window_not_reset N s). Qed.

Lemma rx_Sequence : pkt_Sequence (pRxPacket rx) = n mod 4096.
Proof. exact rx_good. Qed.

Lemma receive_old : n <= N → ∃ s', received N s' [RELEASE_NDIS_PACKET (pRxPacket rx) false].
Proof.
  intros Hn. destruct s_ok as (Hl & HW & Hg). pose proof s_window as [HL Hi].
  exists (emit (count_drop s1) (RELEASE_NDIS_PACKET (pRxPacket rx) false)).
  split; [|split_and!; [|by apply conserved_released|lia|lia]].
  - unfold Indicate_AMPDU_entry. rewrite flush_quiet, Some_bind by (done || apply quiet). cbv zeta. fold s1.
    rewrite receive_start. change (LastIndSeq (ent s1)) with (LastIndSeq (ent s)).
    rewrite HL, rx_Sequence, SEQ_STEPONE_near, seq_eqb_near, SEQ_SMALLER_near by lia.
    destruct (Z.eqb_spec n (N + 1)); [lia|]. destruct (Z.eqb_spec n N); [done|].
    destruct (Z.ltb_spec n N); [done|lia].
  - unfold advanced. split_and!; [done|done|done| |by rewrite list_elem_of_singleton|done|done]. cbn. lia.
Qed.

Lemma receive_next : n = N + 1 → ∃ N' s' ev, received N' s' ev ∧ n <= N' ∧ pRxPacket rx ∈ delivered ev.
Proof.
  intros Hn. destruct s_ok as (Hl & HW & Hg). pose proof s_window as [HL Hi].
  set (s2 := emit (upd_Last s1 (pkt_Sequence (pRxPacket rx))) (indicated rx)).
  assert (buffer_ok s2) as H2 by done.
  assert (incr n (ids s2) (n + BAWinSize (ent s2))) as Hi2.
  { rewrite Hn. change (ids s2) with (ids s). change (BAWinSize (ent s2)) with (BAWinSize (ent s)).
    eapply incr_weaken; [| |exact Hi]; lia. }
  destruct (release_ok s2 n H2 rx_Sequence Hi2) as (Hr & Ha & Hb).
  set (k := consec n (ids s2)) in *. set (s3 := if negb _ then _ else _) in *.
  assert (Z.of_nat k <= BAWinSize (ent s)) as Hk.
  { pose proof (consec_le n (ids s2)). pose proof (incr_length _ _ _ Hi2) as Hc.
    change (BAWinSize (ent s2)) with (BAWinSize (ent s)) in Hc. lia. }
  exists (n + Z.of_nat k), (upd_AtTimer s3 Now32), ([indicated rx] ++ map announcement (take k (buffer s2))).
  split; [split; [|split_and!]|split].
  - unfold Indicate_AMPDU_entry. rewrite flush_quiet, Some_bind by (done || apply quiet). cbv zeta. fold s1.
    rewrite receive_start. change (LastIndSeq (ent s1)) with (LastIndSeq (ent s)).
    rewrite HL, rx_Sequence, SEQ_STEPONE_near by lia. destruct (Z.eqb_spec n (N + 1)); [|lia].
    unfold INDICATE_LEGACY_OR_AMSDU. fold (indicated rx). rewrite <- rx_Sequence. fold s2.
    change (LastIndSeq (ent s2)) with (pkt_Sequence (pRxPacket rx)). rewrite rx_Sequence, Hr, Some_bind.
    fold s3. done.
  - apply (advanced_trans N n _ s s2); [done|done|done| |apply indicated_no_assert|exact Ha].
    rewrite delivered_indicated. cbn. fold n. lia.
  - unfold conserved. change (buffer (upd_AtTimer s3 Now32)) with (buffer s3).
    rewrite Hb, delivered_app, released_app, delivered_indicated, released_indicated, delivered_announcements,
      released_announcements, app_nil_r. cbn [app].
    rewrite <- Permutation_middle. f_equiv. apply held_split.
  - lia.
  - lia.
  - lia.
  - rewrite delivered_app, delivered_indicated. by left.
Qed.
Context (pool_left : next (freelist s) ≠ []).

Lemma receive_within :
  N + 2 <= n <= N + BAWinSize (ent s) →
  ∃ s' ev, received N s' ev ∧ delivered ev = [] ∧
    (ev = [] ∧ (n ∉ ids s) ∧ (buffer s' ≡ₚ mpdu_of rx :: buffer s) ∨ n ∈ ids s ∧ buffer s' = buffer s).
Proof.
  intros Hn. pose proof s_ok as (Hl & HW & Hg). pose proof s_window as [HL Hi].
  destruct (enqueue_ok s1 rx (N + 1) (N + BAWinSize (ent s1)) Hl pool_left Hg rx_good rx_plain Hi)
    as (s' & ev & He & Ht & (EW & EL & _ & ET) & Hl' & Hg' & Hi' & Hcase);
    [change (BAWinSize (ent s1)) with (BAWinSize (ent s)); fold n; lia..|].
  change (BAWinSize (ent s1)) with (BAWinSize (ent s)) in EW, Hi'.
  exists s', ev. split; [split; [|split_and!; [| |lia|lia]]|split].
  - unfold Indicate_AMPDU_entry. rewrite flush_quiet, Some_bind by (done || apply quiet). cbv zeta. fold s1.
    rewrite receive_start. change (LastIndSeq (ent s1)) with (LastIndSeq (ent s)).
    change (BAWinSize (ent s1)) with (BAWinSize (ent s)).
    rewrite HL, rx_Sequence, SEQ_STEPONE_near, seq_eqb_near, SEQ_SMALLER_near by lia.
    destruct (Z.eqb_spec n (N + 1)); [lia|]. destruct (Z.eqb_spec n N); [lia|].
    destruct (Z.ltb_spec n N); [lia|].
    rewrite <- Z.add_assoc, land_MAXSEQ, Zplus_mod_idemp_l, SEQ_SMALLER_near by lia.
    destruct (Z.ltb_spec n (N + (BAWinSize (ent s) + 1))); [done|lia].
  - unfold advanced, buffer_ok, window_ok. rewrite EW, EL. split_and!; try done.
    + lia.
    + lia.
    + destruct Hcase as [(-> & _)|(-> & _)]; cbn; lia.
    + destruct Hcase as [(-> & _)|(-> & _)]; [apply not_elem_of_nil|by rewrite list_elem_of_singleton].
  - unfold conserved. destruct Hcase as [(-> & _ & Hp)|(-> & _ & ->)].
    + cbn. rewrite app_nil_r. rewrite (held_Permutation _ _ Hp). done.
    + cbn. symmetry. apply Permutation_cons_append.
  - by destruct Hcase as [(-> & _)|(-> & _)].
  - destruct Hcase as [(-> & H1 & H2)|(-> & H1 & H2)]; [by left|by right].
Qed.

(** The new window starts at [t]. *)
Lemma window_start (w : Z) : 1 <= w <= 255 →
  (let TmpSeq := n mod 4096 - w - 1 in
   let TmpSeq := if TmpSeq <? 0 then (MAXSEQ + 1) + TmpSeq else TmpSeq in
   (TmpSeq + 1) & MAXSEQ) = (n - w) mod 4096.
Proof.
  intros Hw. cbv zeta. rewrite land_MAXSEQ. change (MAXSEQ + 1) with 4096.
  destruct (Z.ltb_spec (n mod 4096 - w - 1) 0).
  - replace (4096 + (n mod 4096 - w - 1) + 1) with (n mod 4096 - w + 1 * 4096) by lia.
    rewrite Z.mod_add by lia. rewrite Zminus_mod_idemp_l. done.
  - replace (n mod 4096 - w - 1 + 1) with (n mod 4096 - w) by lia. by rewrite Zminus_mod_idemp_l.
Qed.

Lemma receive_beyond :
  N + BAWinSize (ent s) < n → ∃ N' s' ev, received N' s' ev ∧ n - BAWinSize (ent s) <= N' ∧ N' <= n + 255.
Proof.
  intros Hn. pose proof s_ok as (Hl & HW & Hg). pose proof s_window as [HL Hi].
  set (w := BAWinSize (ent s)) in *. set (t := n - w). assert (N < t) as Ht by lia.
  assert (incr (N + 1) (ids s) n) as Hin by (eapply incr_weaken; [| |exact Hi]; lia).
  set (k1 := upto t (ids s)).
  assert (k1 <= length (buffer s))%nat as Hk1 by (rewrite <- (length_map mid); apply upto_le).
  set (s2 := upd_AtTimer (upd_Last (popped k1 s1) (t mod 4096)) Now32).
  assert (lens_ok s2) as Hl2 by exact (lens_ok_popped k1 s1 Hk1 Hl).
  assert (ids s2 = drop k1 (ids s)) as Ids2 by exact (ids_popped k1 s1).
  assert (incr t (ids s2) n) as Hi2 by (rewrite Ids2; apply (upto_drop (N + 1)); [done|lia]).
  assert (Forall good (buffer s2)) as Hg2 by (by apply Forall_drop).
  assert (BAWinSize (ent s2) = w) as EW2 by done.
  assert (next (freelist s2) ≠ []) as Hf2 by (cbn; by intros [_ ?]%app_eq_nil).
  destruct (enqueue_ok s2 rx t n Hl2 Hf2 Hg2 rx_good rx_plain Hi2)
    as (s3 & ev3 & He & Ht3 & (EW & EL & _ & ET) & Hl3 & Hg3 & Hi3 & Hcase);
    [rewrite ?EW2; fold n; lia..|].
  assert (buffer_ok s3) as H3 by (split_and!; [done..|lia|lia|done]).
  assert (LastIndSeq (ent s3) = t mod 4096) as EL3 by done.
  destruct (release_ok s3 t H3 EL3) as (Hr & Ha & Hb).
  { eapply incr_weaken; [| |exact Hi3]; lia. }
  set (k := consec t (ids s3)) in *. set (s4 := if negb _ then _ else _) in *.
  assert (Z.of_nat k <= w) as Hk.
  { pose proof (consec_le t (ids s3)). pose proof (incr_length _ _ _ Hi3) as Hc. lia. }
  exists (t + Z.of_nat k), s4, (map announcement (take k1 (buffer s)) ++ ev3 ++ map announcement (take k (buffer s3))).
  split; [split; [|split_and!]|split]; [| | |lia|lia|lia|lia].
  - unfold Indicate_AMPDU_entry. rewrite flush_quiet, Some_bind by (done || apply quiet). cbv zeta. fold s1.
    rewrite receive_start. change (LastIndSeq (ent s1)) with (LastIndSeq (ent s)).
    change (BAWinSize (ent s1)) with w.
    rewrite HL, rx_Sequence, SEQ_STEPONE_near, seq_eqb_near, SEQ_SMALLER_near by lia.
    destruct (Z.eqb_spec n (N + 1)); [lia|]. destruct (Z.eqb_spec n N); [lia|].
    destruct (Z.ltb_spec n N); [lia|].
    rewrite <- Z.add_assoc, land_MAXSEQ, Zplus_mod_idemp_l, SEQ_SMALLER_near by lia.
    destruct (Z.ltb_spec n (N + (w + 1))); [lia|].
    pose proof (window_start w HW) as Hws. cbv zeta in Hws. rewrite Hws. fold t.
    rewrite (le_seq_eq s1 t), Some_bind; [|done|done|].
    2:{ intros x Hx. pose proof (incr_bounds _ _ _ _ Hi Hx). lia. }
    change (ids s1) with (ids s). fold k1. fold s2. rewrite He, Some_bind, EL3, Hr, Some_bind.
    fold s4. done.
  - apply (advanced_trans N t _ s s2); [done|done|unfold total_blocks; cbn; lia| |apply announcements_no_assert|].
    + rewrite delivered_popped by done. apply (incr_weaken (N + 1) N _ t t); [lia|lia|].
      apply (upto_take (N + 1) _ n); [done|lia].
    + apply (advanced_trans t t _ s2 s3); [done|done|done| | |exact Ha].
      * destruct Hcase as [(-> & _)|(-> & _)]; cbn; lia.
      * destruct Hcase as [(-> & _)|(-> & _)]; [apply not_elem_of_nil|by rewrite list_elem_of_singleton].
  - unfold conserved. rewrite Hb, !delivered_app, !released_app, !delivered_announcements, !released_announcements.
    rewrite app_nil_r. cbn [app].
    assert (held (buffer s3) ++ delivered ev3 ++ released ev3 ≡ₚ pRxPacket rx :: held (buffer s2)) as Hc3.
    { destruct Hcase as [(-> & _ & Hp)|(-> & _ & ->)].
      - cbn. rewrite app_nil_r, (held_Permutation _ _ Hp). done.
      - cbn. symmetry. apply Permutation_cons_append. }
    change (buffer s2) with (drop k1 (buffer s)) in Hc3.
    rewrite <- (held_split k1 (buffer s)), <- (held_split k (buffer s3)) in *.
    rewrite app_comm_cons, <- Hc3. solve_Permutation.
Qed.
End Cases.
End Receive.
End Numbering.

(** ** The first frame of a session, the timeout and the request *)

Section Session.
Context (num : packet → Z) (OS_HZ : Z) (hz : 0 <= OS_HZ <= 100000).

Lemma receive_first s rx Now32 :
  buffer_ok num s → LastIndSeq (ent s) = RESET_RCV_SEQ → buffer s = [] → good_packet num (pRxPacket rx) →
  ∃ s', Indicate_AMPDU_entry OS_HZ s rx Now32 = Some s' ∧
    advanced num (num (pRxPacket rx) - 1) (num (pRxPacket rx)) s s' [indicated rx].
Proof.
  intros Hok HL Hb Hg. pose proof Hok as (Hl & HW & _). pose proof Hl as [Hq _].
  rewrite Hb in Hq. cbn [length] in Hq.
  set (s2 := upd_AtTimer (upd_Last (upd_AtTimer (upd_rcvSeq s (pkt_Sequence (pRxPacket rx))) Now32)
    (pkt_Sequence (pRxPacket rx))) Now32).
  exists (emit s2 (indicated rx)). split.
  - unfold Indicate_AMPDU_entry.
    rewrite (flush_quiet OS_HZ (upd_rcvSeq s _)), Some_bind by (done || by left). cbv zeta.
    change (LastIndSeq (ent (upd_AtTimer (upd_rcvSeq s (pkt_Sequence (pRxPacket rx))) Now32)))
      with (LastIndSeq (ent s)). rewrite HL.
    change (RESET_RCV_SEQ =? RESET_RCV_SEQ) with true. cbv iota.
    change (qlen (list_ (ent (upd_AtTimer (upd_rcvSeq s (pkt_Sequence (pRxPacket rx))) Now32))))
      with (qlen (list_ (ent s))).
    change (buffer (upd_AtTimer (upd_rcvSeq s (pkt_Sequence (pRxPacket rx))) Now32)) with (buffer s).
    rewrite Hq, Hb. done.
  - unfold advanced, window_ok. split_and!; try done.
    + change (map (mid num) (buffer (emit s2 (indicated rx)))) with (map (mid num) (buffer s)).
      rewrite Hb. cbn. change (BAWinSize (ent (emit s2 (indicated rx)))) with (BAWinSize (ent s)). lia.
    + rewrite delivered_indicated. cbn. lia.
    + apply indicated_no_assert.
Qed.

(** Passing up the whole buffer. *)
Definition flushed (s s' : st) : Prop :=
  trace s' = trace s ++ map announcement (buffer s) ∧ buffer_ok num s' ∧ buffer s' = [] ∧
  LastIndSeq (ent s') = RESET_RCV_SEQ ∧ BAWinSize (ent s') = BAWinSize (ent s) ∧ total_blocks s' = total_blocks s ∧
  rcvSeq (ent s') = rcvSeq (ent s).

Lemma flush_all_ok s Now32 :
  buffer_ok num s → ∃ s1, ba_refresh_reordering_mpdus s = Some s1 ∧ flushed s (upd_AtTimer s1 Now32) ∧ flushed s s1.
Proof.
  intros (Hl & HW & Hg). rewrite refresh_eq by done. eexists. split; [reflexivity|].
  set (s1 := upd_Last _ _).
  assert (buffer s1 = []) as Hb by (unfold s1; cbn; apply drop_all).
  pose proof (lens_ok_popped (length (buffer s)) s (le_n _) Hl) as Hl1.
  assert (trace s1 = trace s ++ map announcement (buffer s)) as Ht by (unfold s1; cbn; by rewrite take_ge).
  assert (total_blocks s1 = total_blocks s) as HT by (unfold s1, total_blocks; cbn; lia).
  unfold flushed, buffer_ok. rewrite Ht. change (buffer (upd_AtTimer s1 Now32)) with (buffer s1).
  rewrite Hb. split_and!; first [done | exact Hl1 | exact HT | apply HW | constructor].
Qed.

(** What the timeout does, by its two thresholds. *)
Lemma flush_cases N s Now32 :
  session_inv num N s →
  let all := RTMP_TIME_AFTER Now32 (u32 (LastIndSeqAtTimer (ent s) + MAX_REORDERING_PACKET_TIMEOUT OS_HZ / 6))
             && (1 <? qlen (list_ (ent s))) in
  let one := RTMP_TIME_AFTER Now32 (u32 (LastIndSeqAtTimer (ent s) + REORDERING_PACKET_TIMEOUT OS_HZ)) in
  ∃ s', ba_flush_reordering_timeout_mpdus OS_HZ s Now32 = Some s' ∧
    ((buffer s = [] ∨ all = false ∧ one = false) ∧ s' = s ∨
     buffer s ≠ [] ∧ all = true ∧ flushed s s' ∧ LastIndSeqAtTimer (ent s') = Now32 ∨
     buffer s ≠ [] ∧ all = false ∧ one = true ∧ LastIndSeqAtTimer (ent s') = Now32 ∧
     rcvSeq (ent s') = rcvSeq (ent s) ∧ ∃ k, advanced num (N + 1) (N + 1 + Z.of_nat k) s s' (map announcement (take k (buffer s))) ∧
       buffer s' = drop k (buffer s)).
Proof.
  intros [Hok Hw] all one. pose proof Hok as (Hl & HW & Hg). pose proof Hl as [Hq _].
  unfold ba_flush_reordering_timeout_mpdus. fold all.
  destruct (Z.leb_spec (qlen (list_ (ent s))) 0) as [H0|H0].
  { exists s. split; [done|]. left. split; [|done]. left. apply nil_length_inv. lia. }
  assert (buffer s ≠ []) as Hne by (intros Hb; rewrite Hb in Hq; cbn in Hq; lia).
  destruct all eqn:Eall.
  { destruct (flush_all_ok s Now32 Hok) as (s1 & -> & Hf & _). rewrite Some_bind. eexists. split; [reflexivity|].
    right. left. done. }
  fold one. destruct (Z.ltb_spec 0 (qlen (list_ (ent s)))) as [_|]; [|lia]. rewrite andb_true_r.
  destruct one eqn:Eone.
  2: { exists s. split; [done|]. left. split; [by right|done]. }
  destruct Hw as [[_ ?]|[HL Hi]]; [done|]. cbv zeta. rewrite HL, seq_succ.
  rewrite (le_seq_eq num s (N + 1)), Some_bind; [|done..|].
  2: { intros x Hx. pose proof (incr_bounds _ _ _ _ Hi Hx). lia. }
  assert (upto (N + 1) (map (mid num) (buffer s)) = 0%nat) as ->.
  { destruct (map (mid num) (buffer s)) as [|x l]; [done|]. cbn in Hi |- *.
    destruct (Z.leb_spec x (N + 1)); [lia|done]. }
  rewrite popped_0. set (s2 := upd_Last (upd_AtTimer s Now32) ((N + 1) mod 4096)).
  destruct (release_ok num s2 (N + 1)) as (Hr & Ha & Hb); [done|done| |].
  { eapply incr_weaken; [| |exact Hi]; [lia|].
    change (BAWinSize (ent s2)) with (BAWinSize (ent s)). lia. }
  rewrite Hr, Some_bind. eexists. split; [reflexivity|]. right. right.
  set (k := consec (N + 1) (map (mid num) (buffer s2))) in *. set (s4 := if negb _ then _ else _) in *.
  split_and!; try done.
  - unfold s4. by destruct (negb _).
  - unfold s4. by destruct (negb _).
  - exists k. split; [exact Ha|exact Hb].
Qed.

Lemma signed32_small x : 0 <= x < 0x80000000 → signed32 x = x.
Proof.
  intros H. unfold signed32. rewrite u32_small by (unfold fits; lia).
  destruct (Z.ltb_spec x 0x80000000); lia.
Qed.

(** No timeout at the time of the last activity. *)
Lemma no_timeout_now s Now32 : LastIndSeqAtTimer (ent s) = Now32 → no_timeout OS_HZ s Now32.
Proof.
  intros <-. right.
  assert (∀ T, 0 <= T < 0x80000000 → RTMP_TIME_AFTER (LastIndSeqAtTimer (ent s))
    (u32 (LastIndSeqAtTimer (ent s) + T)) = false) as H.
  { intros T HT. unfold RTMP_TIME_AFTER. apply Z.ltb_ge. set (a := LastIndSeqAtTimer (ent s)).
    assert (signed32 (u32 (a + T) - a) = signed32 T) as ->.
    { unfold signed32. assert (u32 (u32 (a + T) - a) = u32 T) as ->; [|done].
      unfold u32. rewrite Zminus_mod_idemp_l. f_equal. lia. }
    rewrite signed32_small by done. lia. }
  unfold MAX_REORDERING_PACKET_TIMEOUT, REORDERING_PACKET_TIMEOUT.
  split; [apply andb_false_intro1|]; apply H.
  - assert (0 <= 3000 * OS_HZ / 1000 <= 300000) as Hd.
    { split; [apply Z.div_pos; lia|apply Z.div_le_upper_bound; lia]. }
    split; [apply Z.div_pos; lia|]. assert (3000 * OS_HZ / 1000 / 6 <= 300000) by (apply Z.div_le_upper_bound; lia). lia.
  - assert (0 <= 100 * OS_HZ / 1000 <= 10000) as Hd.
    { split; [apply Z.div_pos; lia|apply Z.div_le_upper_bound; lia]. }
    lia.
Qed.
End Session.

(** ** Numbering frames from the window *)

(** The number nearest to [N] that a sequence number can stand for. *)
Definition canon (N : Z) (p : packet) : Z := N - 2048 + (pkt_Sequence p - (N - 2048)) mod 4096.

Lemma canon_good N p : 0 <= pkt_Sequence p < 4096 → good_packet (canon N) p.
Proof.
  intros H. unfold good_packet, canon. rewrite Zplus_mod_idemp_r.
  replace (N - 2048 + (pkt_Sequence p - (N - 2048))) with (pkt_Sequence p) by lia. by rewrite Z.mod_small.
Qed.

Lemma canon_near N p : -2048 <= canon N p - N < 2048.
Proof. unfold canon. pose proof (Z.mod_pos_bound (pkt_Sequence p - (N - 2048)) 4096). lia. Qed.

Lemma canon_unique num N p : good_packet num p → -2048 <= num p - N < 2048 → canon N p = num p.
Proof.
  unfold good_packet, canon. intros -> H. rewrite Zminus_mod_idemp_l.
  rewrite Z.mod_small by lia. lia.
Qed.

Lemma canon_session num N s : session_inv num N s → session_inv (canon N) N s.
Proof.
  intros [(Hl & HW & Hg) Hw].
  assert (Forall (good (canon N)) (buffer s)) as Hg'.
  { eapply Forall_impl; [exact Hg|]. intros m (p & Hp & Hgp & Hs). exists p. split_and!; [done| |done].
    apply canon_good. unfold good_packet in Hgp. rewrite Hgp. apply Z.mod_pos_bound. lia. }
  split; [done|]. destruct Hw as [Hw|[HL Hi]]; [by left|right]. split; [done|].
  assert (map (mid (canon N)) (buffer s) = map (mid num) (buffer s)) as ->; [|done].
  apply map_ext_in. intros m Hm%list_elem_of_In. rewrite Forall_forall in Hg.
  destruct (Hg m Hm) as (p & Hp & Hgp & _). unfold mid. rewrite Hp. apply canon_unique; [done|].
  assert (mid num m ∈ map (mid num) (buffer s)) as Hin by (by apply list_elem_of_fmap_2).
  pose proof (incr_bounds _ _ _ _ Hi Hin) as Hb. unfold mid in Hb. rewrite Hp in Hb. lia.
Qed.

(** ** The session as a state machine *)

Inductive input :=
  | Frame (rx : RX_BLK) (Now32 : Z)
  | Tick (Now32 : Z)
  | BlockAckReq (StartSeq : Z).

Definition handle (OS_HZ : Z) (s : st) (i : input) : option st :=
  match i with
  | Frame rx Now32 => Indicate_AMPDU_session OS_HZ s rx Now32
  | Tick Now32 => ba_flush_reordering_timeout_mpdus OS_HZ s Now32
  | BlockAckReq StartSeq => CntlEnqueueForRecv_entry s StartSeq
  end.

(** Sequence numbers have 12 bits; frames that the buffer takes find a
    block, and are not EAPOL frames. *)
Definition admissible (s : st) (i : input) : Prop :=
  match i with
  | Frame rx _ => 0 <= pkt_Sequence (pRxPacket rx) < 4096 ∧ fRX_EAP rx = false ∧ next (freelist s) ≠ []
  | Tick _ => True
  | BlockAckReq q => 0 <= q < 4096
  end.

(** A session as [BARecSessionAdd] sets it up, with a pool of [pool]
    blocks. *)
Definition new_session (w pool : Z) (blocks : list reordering_mpdu) : st :=
  {| ent := {| BAWinSize := w; LastIndSeq := RESET_RCV_SEQ; LastIndSeqAtTimer := 0; nDropPacket := 0;
               rcvSeq := 0; list_ := {| next := []; qlen := 0 |} |};
     freelist := {| next := blocks; qlen := pool |}; trace := [] |}.

Inductive reachable (OS_HZ w : Z) (pool : nat) : st → Prop :=
  | reach_start blocks :
      length blocks = pool → reachable OS_HZ w pool (new_session w (Z.of_nat pool) blocks)
  | reach_step s i s' :
      reachable OS_HZ w pool s → admissible s i → handle OS_HZ s i = Some s' → reachable OS_HZ w pool s'.

(** What every input preserves. *)
Definition steady (w pool : Z) (s : st) : Prop :=
  (∃ num N, session_inv num N s) ∧ BAWinSize (ent s) = w ∧ total_blocks s = pool ∧ ASSERT_failed ∉ trace s.

Lemma steady_advanced num w pool lo N s s' ev :
  steady w pool s → advanced num lo N s s' ev → steady w pool s'.
Proof.
  intros (_ & HW & HT & Ha) (Ht & Hb & Hw & _ & Hn & HW' & HT'). split_and!.
  - exists num, N. by split; [|right].
  - by rewrite HW'.
  - by rewrite HT'.
  - rewrite Ht, not_elem_of_app. done.
Qed.

Lemma steady_flushed num w pool s s' : steady w pool s → flushed num s s' → steady w pool s'.
Proof.
  intros (_ & HW & HT & Ha) (Ht & Hb & He & HL & HW' & HT' & _). split_and!.
  - exists num, 0. split; [done|by left].
  - by rewrite HW'.
  - by rewrite HT'.
  - rewrite Ht, not_elem_of_app. split; [done|apply announcements_no_assert].
Qed.


Lemma pool_kept s s' :
  lens_ok s → lens_ok s' → total_blocks s' = total_blocks s →
  (length (buffer s') <= length (buffer s))%nat → next (freelist s) ≠ [] → next (freelist s') ≠ [].
Proof.
  unfold lens_ok, total_blocks. intros [H1 H2] [H3 H4] HT Hle Hne He. rewrite He in H4. cbn in H4.
  destruct (next (freelist s)) as [|b l]; [done|]. cbn [length] in H2. lia.
Qed.

(** A block-ack request from the frame number [q]. *)
Lemma request_ok num N s q :
  buffer_ok num s → window_ok num N s → -2047 <= q - N <= 2048 →
  let k := upto q (map (mid num) (buffer s)) in
  CntlEnqueueForRecv_entry s (q mod 4096) =
    Some (if N <? q then upd_Last (popped k s) ((q - 1) mod 4096) else s) ∧
  (N < q → buffer_ok num (upd_Last (popped k s) ((q - 1) mod 4096)) ∧
           window_ok num (q - 1) (upd_Last (popped k s) ((q - 1) mod 4096))).
Proof.
  intros (Hl & HW & Hg) [HL Hi] Hq k. unfold CntlEnqueueForRecv_entry. rewrite HL.
  assert (SEQ_SMALLER (N mod 4096) (q mod 4096) MAXSEQ = (N <? q)) as ->.
  { destruct (Z.eqb_spec (q - N) 2048) as [He|]; [|apply SEQ_SMALLER_near; lia].
    rewrite SEQ_SMALLER_mod, <- Zminus_mod, <- (Z.mod_unique (N - q) 4096 (-1) 2048) by lia.
    destruct (Z.ltb_spec N q); done || lia. }
  destruct (Z.ltb_spec N q) as [Hlt|]; [|by split; [|lia]].
  rewrite (le_seq_eq num s q), Some_bind; [|done..|].
  2: { intros x Hx. pose proof (incr_bounds _ _ _ _ Hi Hx). lia. }
  fold k.
  assert ((if q mod 4096 =? 0 then MAXSEQ else q mod 4096 - 1) = (q - 1) mod 4096) as ->.
  { pose proof (Z.mod_pos_bound q 4096 ltac:(lia)) as Hb. pose proof (Z.div_mod q 4096 ltac:(lia)) as Hd.
    destruct (Z.eqb_spec (q mod 4096) 0) as [H0|H0].
    - apply Z.mod_unique with (q / 4096 - 1); unfold MAXSEQ; lia.
    - apply Z.mod_unique with (q / 4096); lia. }
  split; [done|]. intros _.
  assert (k <= length (buffer s))%nat as Hk by (rewrite <- (length_map (mid num)); apply upto_le).
  split.
  - split; [exact (lens_ok_popped k s Hk Hl)|]. split; [exact HW|]. by apply Forall_drop.
  - split; [done|]. replace (q - 1 + 1) with q by lia.
    change (map (mid num) (buffer (upd_Last (popped k s) ((q - 1) mod 4096))))
      with (map (mid num) (buffer (popped k s))). rewrite ids_popped.
    change (BAWinSize (ent (upd_Last (popped k s) ((q - 1) mod 4096)))) with (BAWinSize (ent s)).
    apply (upto_drop (N + 1)); [|lia]. eapply incr_weaken; [| |exact Hi]; lia.
Qed.

Lemma steady_request w pool s q :
  steady w pool s → 0 <= q < 4096 → ∃ s', CntlEnqueueForRecv_entry s q = Some s' ∧ steady w pool s'.
Proof.
  intros Hs Hq. pose proof Hs as ((num & N & Hok & Hw) & HW & HT & Ha).
  destruct Hw as [[HL Hb]|Hw].
  - unfold CntlEnqueueForRecv_entry. destruct (SEQ_SMALLER _ _ _); [|by exists s].
    pose proof Hok as (Hl & HW' & Hg).
    assert (ba_indicate_reordering_mpdus_le_seq s q = Some s) as ->.
    { unfold ba_indicate_reordering_mpdus_le_seq, list_fuel. cbn [le_seq_loop].
      unfold ba_reordering_mpdu_probe. by rewrite Hb. }
    rewrite Some_bind. eexists. split; [reflexivity|]. set (v := if q =? 0 then MAXSEQ else q - 1).
    split_and!; [|done|done|done]. exists num, v. split; [done|]. right. split.
    + assert (0 <= v < 4096) by (unfold v, MAXSEQ; destruct (Z.eqb_spec q 0); lia).
      by rewrite Z.mod_small.
    + change (buffer (upd_Last s v)) with (buffer s). rewrite Hb. cbn.
      change (BAWinSize (ent (upd_Last s v))) with (BAWinSize (ent s)). lia.
  - set (q' := N - 2047 + (q - (N - 2047)) mod 4096).
    assert (q = q' mod 4096) as Eq.
    { unfold q'. rewrite Zplus_mod_idemp_r. replace (N - 2047 + (q - (N - 2047))) with q by lia.
      by rewrite Z.mod_small. }
    destruct (request_ok num N s q' Hok Hw) as [Hr Hinv].
    { unfold q'. pose proof (Z.mod_pos_bound (q - (N - 2047)) 4096). lia. }
    rewrite Eq, Hr. eexists. split; [reflexivity|]. destruct (Z.ltb_spec N q') as [Hlt|]; [|done].
    destruct (Hinv Hlt) as [Hok' Hw'].
    assert (upto q' (map (mid num) (buffer s)) <= length (buffer s))%nat as Hk
      by (rewrite <- (length_map (mid num)); apply upto_le).
    split_and!; [|done| |].
    + exists num, (q' - 1). split; [done|by right].
    + revert HT. unfold total_blocks. cbn. lia.
    + cbn. rewrite not_elem_of_app. split; [done|apply announcements_no_assert].
Qed.


Lemma steady_tick OS_HZ w pool s Now32 :
  steady w pool s →
  ∃ s', ba_flush_reordering_timeout_mpdus OS_HZ s Now32 = Some s' ∧ steady w pool s' ∧
    (next (freelist s) ≠ [] → next (freelist s') ≠ []) ∧
    rcvSeq (ent s') = rcvSeq (ent s) ∧
    (s' = s ∧ no_timeout OS_HZ s Now32 ∨ LastIndSeqAtTimer (ent s') = Now32).
Proof.
  intros Hs. pose proof Hs as ((num & N & Hinv) & HW & HT & Ha).
  pose proof Hinv as [(Hl & _) _].
  destruct (flush_cases num OS_HZ N s Now32 Hinv) as (s' & He & Hc).
  exists s'. split; [done|]. destruct Hc as [(Hq & ->)|[(Hne & _ & Hf & Ht)|(Hne & _ & _ & Ht & Hr & k & Hadv & Hb)]].
  - split; [done|]. split; [done|]. split; [done|]. by left.
  - pose proof Hf as (_ & (Hl' & _) & Hb & _ & _ & HT' & Hr). split; [by apply (steady_flushed num w pool s)|].
    split; [|split; [done|by right]]. apply pool_kept; [done..|]. rewrite Hb. cbn. lia.
  - pose proof Hadv as (_ & (Hl' & _) & _ & _ & _ & _ & HT'). split; [by eapply steady_advanced|].
    split; [|split; [done|by right]]. apply pool_kept; [done..|]. rewrite Hb, length_drop. lia.
Qed.

(** Receiving starts with the timeout; afterwards none is pending. *)
Lemma Indicate_after_flush OS_HZ s s' rx Now32 :
  ba_flush_reordering_timeout_mpdus OS_HZ (upd_rcvSeq s (pkt_Sequence (pRxPacket rx))) Now32 = Some s' →
  lens_ok s' → no_timeout OS_HZ s' Now32 → rcvSeq (ent s') = pkt_Sequence (pRxPacket rx) →
  Indicate_AMPDU_entry OS_HZ s rx Now32 = Indicate_AMPDU_entry OS_HZ s' rx Now32.
Proof.
  intros Hf Hl Hn Hr. unfold Indicate_AMPDU_entry. rewrite Hf, Some_bind.
  assert (upd_rcvSeq s' (pkt_Sequence (pRxPacket rx)) = s') as ->.
  { rewrite <- Hr. by destruct s' as [[] ? ?]. }
  by rewrite (flush_quiet OS_HZ s' Now32 Hl Hn), Some_bind.
Qed.

(** A frame near the window, whichever case it is. *)
Lemma receive_any num OS_HZ N s rx Now32 :
  buffer_ok num s → window_ok num N s → no_timeout OS_HZ s Now32 → good_packet num (pRxPacket rx) →
  fRX_EAP rx = false → -2048 <= num (pRxPacket rx) - N < 2048 → next (freelist s) ≠ [] →
  ∃ N' s' ev, received num OS_HZ N s rx Now32 N' s' ev.
Proof.
  intros Hok Hw Hq Hg He Hn Hf. pose proof Hok as (_ & HW & _). set (n := num (pRxPacket rx)) in *.
  destruct (Z.le_gt_cases n N).
  { destruct (receive_old num OS_HZ N s rx Now32) as (s' & H'); [done..|]. by exists N, s', [RELEASE_NDIS_PACKET (pRxPacket rx) false]. }
  destruct (Z.eqb_spec n (N + 1)).
  { destruct (receive_next num OS_HZ N s rx Now32) as (N' & s' & ev & H' & _); [done..|]. by exists N', s', ev. }
  destruct (Z.le_gt_cases n (N + BAWinSize (ent s))).
  { destruct (receive_within num OS_HZ N s rx Now32) as (s' & ev & H' & _); [done..|fold n; lia|]. by exists N, s', ev. }
  destruct (receive_beyond num OS_HZ N s rx Now32) as (N' & s' & ev & H' & _); [done..|]. by exists N', s', ev.
Qed.

Lemma steady_frame OS_HZ w pool s rx Now32 :
  0 <= OS_HZ <= 100000 → steady w pool s → admissible s (Frame rx Now32) →
  ∃ s', Indicate_AMPDU_session OS_HZ s rx Now32 = Some s' ∧ steady w pool s'.
Proof.
  intros hz Hs (Hseq & He & Hf). unfold Indicate_AMPDU_session.
  destruct (negb (fRX_AMSDU rx) && (MAX_RX_PKT_LEN <? DataSize rx)).
  { eexists. split; [reflexivity|]. destruct Hs as (Hi & HW & HT & Ha). split_and!; [exact Hi|done|done|].
    cbn. rewrite not_elem_of_app, list_elem_of_singleton. done. }
  set (s0 := upd_rcvSeq s (pkt_Sequence (pRxPacket rx))).
  assert (steady w pool s0) as Hs0 by exact Hs.
  destruct (steady_tick OS_HZ w pool s0 Now32 Hs0) as (s1 & Hfl & Hs1 & Hp & Hr & Hq).
  specialize (Hp Hf). pose proof Hs1 as ((num & N & Hinv) & _).
  assert (no_timeout OS_HZ s1 Now32) as Hq1.
  { destruct Hq as [[-> Hq]|Hq]; [exact Hq|by apply no_timeout_now]. }
  rewrite (Indicate_after_flush OS_HZ s s1 rx Now32 Hfl) by (done || apply Hinv).
  destruct Hinv as [Hok [[HL Hb]|Hw]].
  - destruct (receive_first (canon 0) OS_HZ s1 rx Now32) as (s' & Hi & Ha); [|done..|by apply canon_good|].
    { destruct Hok as (Hl & HW & _). split; [done|]. split; [done|]. by rewrite Hb. }
    exists s'. split; [done|]. by eapply steady_advanced.
  - pose proof (canon_session num N s1 (conj Hok (or_intror Hw))) as [Hok' [[HL _]|Hw']].
    { by apply window_not_reset in Hw. }
    destruct (receive_any (canon N) OS_HZ N s1 rx Now32) as (N' & s' & ev & Hi & Ha & _);
      [done..|by apply canon_good|done|apply canon_near|done|].
    exists s'. split; [done|]. by eapply steady_advanced.
Qed.

Lemma steady_handle OS_HZ w pool s i :
  0 <= OS_HZ <= 100000 → steady w pool s → admissible s i →
  ∃ s', handle OS_HZ s i = Some s' ∧ steady w pool s'.
Proof.
  intros hz Hs Hi. destruct i as [rx t|t|q]; cbn [handle].
  - by apply steady_frame.
  - destruct (steady_tick OS_HZ w pool s t Hs) as (s' & He & Hs' & _). by exists s'.
  - by apply steady_request.
Qed.

Lemma steady_start w pool blocks :
  1 <= w <= 255 → length blocks = pool → steady w (Z.of_nat pool) (new_session w (Z.of_nat pool) blocks).
Proof.
  intros Hw Hb. split_and!; [|done|done|apply not_elem_of_nil].
  exists (canon 0), 0. split; [|by left]. split; [|split; [done|constructor]]. split; cbn; lia.
Qed.

Lemma reachable_steady OS_HZ w pool s :
  0 <= OS_HZ <= 100000 → 1 <= w <= 255 → reachable OS_HZ w pool s → steady w (Z.of_nat pool) s.
Proof.
  intros hz Hw. induction 1 as [blocks Hb|s i s' Hr IH Ha Hi]; [by apply steady_start|].
  destruct (steady_handle OS_HZ w (Z.of_nat pool) s i hz IH Ha) as (s2 & He & Hs2). congruence.
Qed.

(** ** Sequences of frames *)

Fixpoint receive_frames (OS_HZ : Z) (s : st) (l : list (RX_BLK * Z)) : option st :=
  match l with
  | [] => Some s
  | (rx, Now32) :: l => s' ← Indicate_AMPDU_session OS_HZ s rx Now32; receive_frames OS_HZ s' l
  end.

(** The number of the last frame passed up, before reduction, in a state
    reached from one where it was [N]. *)
Definition position (N : Z) (s : st) : Z := N + (LastIndSeq (ent s) - N) mod 4096.

(** No timeout is pending when the frames arrive, a block is left, none is an
    EAPOL frame or too long, and each is less than half the sequence space
    from the last one passed up. *)
Fixpoint well_timed (num : packet → Z) (OS_HZ N : Z) (s : st) (l : list (RX_BLK * Z)) : Prop :=
  match l with
  | [] => True
  | (rx, Now32) :: l =>
      no_timeout OS_HZ s Now32 ∧ good_packet num (pRxPacket rx) ∧ fRX_EAP rx = false ∧
      DataSize rx <= MAX_RX_PKT_LEN ∧ next (freelist s) ≠ [] ∧ -2048 <= num (pRxPacket rx) - N < 2048 ∧
      ∀ s', Indicate_AMPDU_session OS_HZ s rx Now32 = Some s' → well_timed num OS_HZ (position N s') s' l
  end.

Lemma position_eq num N N' s : window_ok num N' s → N <= N' < N + 4096 → position N s = N'.
Proof.
  intros [HL _] H. unfold position. rewrite HL, Zminus_mod_idemp_l, Z.mod_small by lia. lia.
Qed.

Lemma receive_frames_ok num OS_HZ N s l :
  buffer_ok num s → window_ok num N s → well_timed num OS_HZ N s l →
  ∃ N' s' ev, receive_frames OS_HZ s l = Some s' ∧ trace s' = trace s ++ ev ∧
    buffer_ok num s' ∧ window_ok num N' s' ∧ incr N (map num (delivered ev)) N' ∧
    held (buffer s') ++ delivered ev ++ released ev ≡ₚ map (pRxPacket ∘ fst) l ++ held (buffer s).
Proof.
  revert N s. induction l as [|[rx t] l IH]; intros N s Hok Hw.
  { intros _. exists N, s, []. cbn. rewrite !app_nil_r. split_and!; done || lia. }
  intros (Hq & Hg & He & Hd & Hf & Hn & Hrest).
  destruct (receive_any num OS_HZ N s rx t) as (N1 & s1 & ev1 & Hi & Ha & Hc & HN1); [done..|].
  assert (Indicate_AMPDU_session OS_HZ s rx t = Some s1) as Hp.
  { unfold Indicate_AMPDU_session. rewrite (proj2 (Z.ltb_ge _ _)) by done. by rewrite andb_false_r. }
  specialize (Hrest s1 Hp). pose proof Ha as (Ht & Hok1 & Hw1 & Hi1 & _).
  rewrite (position_eq num N N1) in Hrest by done.
  destruct (IH N1 s1 Hok1 Hw1 Hrest) as (N2 & s2 & ev2 & Hr & Ht2 & Hok2 & Hw2 & Hi2 & Hc2).
  exists N2, s2, (ev1 ++ ev2). cbn [receive_frames]. rewrite Hp, Some_bind, Hr. split_and!; try done.
  - by rewrite Ht2, Ht, app_assoc.
  - rewrite delivered_app, map_app. by apply (incr_app N _ N1).
  - rewrite delivered_app, released_app. unfold conserved in Hc. cbn.
    rewrite Permutation_middle, <- Hc.
    transitivity (delivered ev1 ++ released ev1 ++ held (buffer s2) ++ delivered ev2 ++ released ev2);
      [solve_Permutation|]. rewrite Hc2. solve_Permutation.
Qed.

(** Draining by timeouts: each comes after the period since the last. *)
Fixpoint overdue (OS_HZ at_ : Z) (l : list Z) : Prop :=
  match l with
  | [] => True
  | t :: l => RTMP_TIME_AFTER t (u32 (at_ + REORDERING_PACKET_TIMEOUT OS_HZ)) = true ∧ overdue OS_HZ t l
  end.

Fixpoint ticks (OS_HZ : Z) (s : st) (l : list Z) : option st :=
  match l with
  | [] => Some s
  | t :: l => s' ← ba_flush_reordering_timeout_mpdus OS_HZ s t; ticks OS_HZ s' l
  end.

Lemma ticks_empty OS_HZ s l : qlen (list_ (ent s)) = 0 → ticks OS_HZ s l = Some s.
Proof.
  intros Hq. induction l as [|t l IH]; [done|]. cbn [ticks]. unfold ba_flush_reordering_timeout_mpdus.
  rewrite Hq. cbn. exact IH.
Qed.

Lemma incr_lower_hi lo l hi hi' : incr lo l hi → l ≠ [] → (∀ x, x ∈ l → x <= hi') → incr lo l hi'.
Proof.
  revert lo. induction l as [|x l IH]; intros lo; [done|]. intros [Hx Hl] _ Hb. split; [done|].
  destruct l as [|y l]; [cbn; apply Hb; left|]. apply IH; [done|done|]. intros z Hz. apply Hb. by right.
Qed.

Lemma drain_ok num OS_HZ N s l d :
  buffer_ok num s → window_ok num N s → incr (N + 1) (map (mid num) (buffer s)) (N + Z.of_nat d) →
  (d <= S (length l))%nat → overdue OS_HZ (LastIndSeqAtTimer (ent s)) l →
  ∃ s', ticks OS_HZ s l = Some s' ∧ buffer s' = [] ∧
    trace s' = trace s ++ map announcement (buffer s).
Proof.
  revert N s d. induction l as [|t l IH]; intros N s d Hok Hw Hi Hd Ho.
  { cbn [length] in Hd. pose proof (incr_length _ _ _ Hi) as Hc. rewrite length_map in Hc.
    assert (buffer s = []) as Hb by (apply nil_length_inv; lia).
    exists s. rewrite Hb. cbn. by rewrite app_nil_r. }
  destruct (decide (length (buffer s) = 0%nat)) as [Hb%nil_length_inv|Hne].
  { exists s. rewrite ticks_empty; [rewrite Hb; cbn; by rewrite app_nil_r|].
    destruct Hok as ([-> _] & _). by rewrite Hb. }
  cbn [ticks]. destruct Ho as [Hone Ho].
  destruct (flush_cases num OS_HZ N s t (conj Hok (or_intror Hw))) as (s1 & -> & Hc). rewrite Some_bind.
  rewrite Hone in Hc.
  destruct Hc as [([Hb|[_ ?]] & _)|[(_ & _ & Hf & _)|(_ & _ & _ & Ht & _ & k & Hadv & Hb)]];
    [by rewrite Hb in Hne|done| |].
  - destruct Hf as (Htr & ((Hq & _) & _) & Hb & _). rewrite Hb in Hq.
    exists s1. by rewrite ticks_empty.
  - pose proof Hadv as (Htr & Hok1 & Hw1 & _).
    destruct (decide (length (buffer s1) = 0%nat)) as [Hb1%nil_length_inv|Hne1].
    { exists s1. pose proof Hok1 as ([Hq1 _] & _). rewrite Hb1 in Hq1. rewrite ticks_empty by done.
      split_and!; [done|done|]. rewrite Htr. do 2 f_equal. apply take_ge. rewrite Hb in Hb1.
      apply (f_equal length) in Hb1. rewrite length_drop in Hb1. cbn in Hb1. lia. }
    pose proof Hw1 as [_ Hi1].
    assert (incr (N + 1 + Z.of_nat k + 1) (map (mid num) (buffer s1)) (N + Z.of_nat d)) as Hi2.
    { apply (incr_lower_hi _ _ _ _ Hi1).
      - intros E. apply (f_equal length) in E. rewrite length_map in E. done.
      - intros x Hx. rewrite Hb, <- skipn_map in Hx. apply list_elem_of_lookup in Hx as [j Hj].
        rewrite lookup_drop in Hj. eapply incr_bounds; [exact Hi|]. by eapply list_elem_of_lookup_2. }
    pose proof (incr_le _ _ _ Hi2) as Hle.
    destruct (IH (N + 1 + Z.of_nat k) s1 (d - 1 - k)%nat) as (s' & -> & Hb' & Htr'); [done|done| |cbn [length] in Hd; lia|by rewrite Ht|].
    { replace (N + 1 + Z.of_nat k + Z.of_nat (d - 1 - k)) with (N + Z.of_nat d) by lia. exact Hi2. }
    exists s'. split_and!; [done|done|]. rewrite Htr', Htr, Hb, <- app_assoc, <- map_app. by rewrite take_drop.
Qed.

(** ** A session for the examples: window 8, frame 5 passed up, 7 and 8
    buffered, two of four blocks left. *)

Definition demo_frame (n : Z) : RX_BLK :=
  {| pRxPacket := {| pkt_Sequence := n mod 4096; pkt_id := n |}; fRX_AMSDU := false; fRX_EAP := false;
     rx_OpMode := 0; DataSize := 100 |}.

Definition demo_mpdu (n : Z) : reordering_mpdu := mpdu_of (demo_frame n).

Definition demo : st :=
  {| ent := {| BAWinSize := 8; LastIndSeq := 5; LastIndSeqAtTimer := 12; nDropPacket := 0; rcvSeq := 7;
               list_ := {| next := [demo_mpdu 7; demo_mpdu 8]; qlen := 2 |} |};
     freelist := {| next := [zero_mpdu; zero_mpdu]; qlen := 2 |};
     trace := [Indicate_Legacy_Packet (pRxPacket (demo_frame 5))] |}.

Lemma demo_reachable : reachable 100 8 4 demo.
Proof.
  assert (∀ n, 0 <= n < 4096 → 0 <= pkt_Sequence (pRxPacket (demo_frame n)) < 4096) as Hn
    by (intros n Hn; cbn; rewrite Z.mod_small; done).
  eapply (reach_step 100 8 4 _ (Frame (demo_frame 7) 12));
    [eapply (reach_step 100 8 4 _ (Frame (demo_frame 8) 11));
      [eapply (reach_step 100 8 4 _ (Frame (demo_frame 5) 10));
        [exact (reach_start 100 8 4 (repeat zero_mpdu 4) eq_refl)| |vm_compute; reflexivity]
      | |vm_compute; reflexivity]
    | |vm_compute; reflexivity];
    (split_and!; [apply Hn; lia|apply Hn; lia|reflexivity|discriminate]).
Qed.

Lemma demo_ok : buffer_ok pkt_id demo ∧ window_ok pkt_id 5 demo.
Proof.
  split; [|vm_compute; split_and!; congruence || lia || done].
  split; [done|]. split; [cbn; lia|]. repeat (apply Forall_cons; split; [by eexists|]). constructor.
Qed.

(** ** The properties *)

(** How far a buffered frame is ahead of the last one passed up. *)
Definition ahead (s : st) (m : reordering_mpdu) : Z := (Sequence m - LastIndSeq (ent s)) mod 4096.

Lemma ahead_ids num N s :
  window_ok num N s → Forall (good num) (buffer s) → BAWinSize (ent s) <= 255 →
  map (ahead s) (buffer s) = map (λ x, x - N) (map (mid num) (buffer s)).
Proof.
  intros [HL Hi] Hg HW. rewrite map_map. apply map_ext_in. intros m Hm%list_elem_of_In.
  rewrite Forall_forall in Hg. unfold ahead. rewrite HL, (good_Sequence num m) by (by apply Hg).
  rewrite <- Zminus_mod. apply Z.mod_small.
  assert (mid num m ∈ map (mid num) (buffer s)) as Hin by (by apply list_elem_of_fmap_2).
  pose proof (incr_bounds _ _ _ _ Hi Hin). lia.
Qed.

Lemma incr_shift lo l hi N : incr lo l hi → incr (lo - N) (map (λ x, x - N) l) (hi - N).
Proof. revert lo. induction l as [|x l IH]; intros lo; cbn; [lia|]. intros [? ?%IH]. split; [lia|done]. Qed.

(** C2: in every state of a session that admissible inputs reach - frames that are
    not EAPOL frames and arrive while a block is free, timeouts and block-ack
    requests - the buffer is what the driver relies on: empty while no frame has
    been received, and otherwise its frames are at strictly increasing distances
    ahead of the last frame passed up, none of them the next one, all inside the
    negotiated window; blocks are neither lost nor made.  An EAPOL frame inside
    the window does lose a block ([eapol_frame_leaks_block]). *)
Theorem reorder_buffer_invariant OS_HZ w pool s :
  0 <= OS_HZ <= 100000 → 1 <= w <= 255 → reachable OS_HZ w pool s →
  (LastIndSeq (ent s) = RESET_RCV_SEQ ∧ buffer s = [] ∨
   0 <= LastIndSeq (ent s) < 4096 ∧ incr 1 (map (ahead s) (buffer s)) w) ∧
  BAWinSize (ent s) = w ∧
  (length (buffer s) + length (next (freelist s)) = pool)%nat.
Proof.
  intros hz Hw Hr. destruct (reachable_steady OS_HZ w pool s hz Hw Hr) as ((num & N & Hinv) & HW & HT & _).
  destruct Hinv as [(Hl & HW' & Hg) Hc]. split_and!; [|done|].
  - destruct Hc as [?|Hwin]; [by left|right]. split.
    + destruct Hwin as [-> _]. apply Z.mod_pos_bound. lia.
    + rewrite (ahead_ids num N) by (done || lia). destruct Hwin as [_ Hi].
      pose proof (incr_shift _ _ _ N Hi) as H. rewrite HW in H.
      replace (N + 1 - N) with 1 in H by lia. by replace (N + w - N) with w in H by lia.
  - unfold total_blocks in HT. destruct Hl as [H1 H2]. lia.
Qed.

Lemma reorder_buffer_invariant_witness :
  (LastIndSeq (ent demo) = RESET_RCV_SEQ ∧ buffer demo = [] ∨
   0 <= LastIndSeq (ent demo) < 4096 ∧ incr 1 (map (ahead demo) (buffer demo)) 8) ∧
  BAWinSize (ent demo) = 8 ∧ (length (buffer demo) + length (next (freelist demo)) = 4)%nat.
Proof. apply (reorder_buffer_invariant 100 8 4 demo); [lia|lia|apply demo_reachable]. Defined.

(** in every reachable state the length the code keeps for the buffer is
    the number of buffered frames and fits the window, and no assertion of
    the code has failed on the way. *)
Theorem reorder_buffer_bounded OS_HZ w pool s :
  0 <= OS_HZ <= 100000 → 1 <= w <= 255 → reachable OS_HZ w pool s →
  qlen (list_ (ent s)) = Z.of_nat (length (buffer s)) ∧ 0 <= qlen (list_ (ent s)) < w ∧
  ASSERT_failed ∉ trace s.
Proof.
  intros hz Hw Hr. destruct (reachable_steady OS_HZ w pool s hz Hw Hr) as ((num & N & Hinv) & HW & _ & Ha).
  destruct Hinv as [(Hl & HW' & Hg) Hc]. pose proof Hl as [Hq _]. split_and!; [done|lia| |done].
  destruct Hc as [[_ Hb]|[_ Hi]]; [rewrite Hb in Hq; cbn in Hq; lia|].
  pose proof (incr_length _ _ _ Hi) as H. rewrite length_map in H. lia.
Qed.

Lemma reorder_buffer_bounded_witness :
  qlen (list_ (ent demo)) = Z.of_nat (length (buffer demo)) ∧ 0 <= qlen (list_ (ent demo)) < 8 ∧
  ASSERT_failed ∉ trace demo.
Proof. apply (reorder_buffer_bounded 100 8 4 demo); [lia|lia|apply demo_reachable]. Defined.

(** C4: every input is handled in a reachable state: the loops end and no
    null pointer is followed. *)
Theorem reorder_handles_input OS_HZ w pool s i :
  0 <= OS_HZ <= 100000 → 1 <= w <= 255 → reachable OS_HZ w pool s → admissible s i →
  ∃ s', handle OS_HZ s i = Some s' ∧ reachable OS_HZ w pool s'.
Proof.
  intros hz Hw Hr Ha.
  destruct (steady_handle OS_HZ w (Z.of_nat pool) s i hz (reachable_steady OS_HZ w pool s hz Hw Hr) Ha)
    as (s' & He & _).
  exists s'. split; [done|]. by apply (reach_step _ _ _ s i).
Qed.

Lemma reorder_handles_input_witness :
  ∃ s', handle 100 demo (BlockAckReq 8) = Some s' ∧ reachable 100 8 4 s'.
Proof. apply (reorder_handles_input 100 8 4 demo); [lia|lia|apply demo_reachable|cbn; lia]. Defined.

(** C1: a run of data frames of one session is passed up in order and once: if no
    reordering timeout is pending when a frame arrives, none is an EAPOL frame or
    too long, a block is free for each, each is less than half the sequence space
    from the last one passed up, and no block-ack request comes between them, the
    frames passed up have strictly increasing numbers, and every packet received
    or buffered before is passed up, released or still buffered.  Otherwise
    [eapol_frame_leaks_block] shows an EAPOL frame passed up out of order, and
    [block_ack_request_repeats_frame] a frame passed up twice. *)
Theorem ampdu_in_order num OS_HZ N s l :
  buffer_ok num s → window_ok num N s → well_timed num OS_HZ N s l →
  ∃ N' s' ev, receive_frames OS_HZ s l = Some s' ∧ trace s' = trace s ++ ev ∧
    incr N (map num (delivered ev)) N' ∧
    held (buffer s') ++ delivered ev ++ released ev ≡ₚ map (pRxPacket ∘ fst) l ++ held (buffer s).
Proof.
  intros Hok Hw Ht. destruct (receive_frames_ok num OS_HZ N s l Hok Hw Ht)
    as (N' & s' & ev & H1 & H2 & _ & _ & H3 & H4). by exists N', s', ev.
Qed.

Lemma ampdu_in_order_witness :
  ∃ N' s' ev, receive_frames 100 demo [(demo_frame 6, 15); (demo_frame 6, 16)] = Some s' ∧
    trace s' = trace demo ++ ev ∧ incr 5 (map pkt_id (delivered ev)) N' ∧
    held (buffer s') ++ delivered ev ++ released ev ≡ₚ
      map (pRxPacket ∘ fst) [(demo_frame 6, 15); (demo_frame 6, 16)] ++ held (buffer demo).
Proof.
  apply (ampdu_in_order pkt_id 100 5 demo); [apply demo_ok|apply demo_ok|].
  split_and!; [right; done|done|done|cbn; unfold MAX_RX_PKT_LEN; lia|done|cbn; lia|cbn; lia|].
  intros s' H. vm_compute in H. injection H as <-. cbn [well_timed].
  split_and!; [by left|done|done|cbn; unfold MAX_RX_PKT_LEN; lia|done|vm_compute; congruence|vm_compute; congruence|done].
Defined.

(** C3: no frame waits for ever.  With a buffer of [w] frames at most, [w - 1]
    timeouts that come each after the period empty it, and what it held has
    been passed up in its order. *)
Theorem reorder_timeout_drains num OS_HZ N s l :
  buffer_ok num s → window_ok num N s →
  BAWinSize (ent s) <= Z.of_nat (S (length l)) → overdue OS_HZ (LastIndSeqAtTimer (ent s)) l →
  ∃ s', ticks OS_HZ s l = Some s' ∧ buffer s' = [] ∧
    delivered (trace s') = delivered (trace s) ++ held (buffer s).
Proof.
  intros Hok Hw Hl Ho. pose proof Hok as (_ & HW & _). pose proof Hw as [_ Hi].
  destruct (drain_ok num OS_HZ N s l (Z.to_nat (BAWinSize (ent s))) Hok Hw) as (s' & Hs & Hb & Ht);
    [by replace (Z.of_nat (Z.to_nat (BAWinSize (ent s)))) with (BAWinSize (ent s)) by lia|lia|done|].
  exists s'. split_and!; [done|done|]. by rewrite Ht, delivered_app, delivered_announcements.
Qed.

Lemma reorder_timeout_drains_witness :
  ∃ s', ticks 100 demo [30; 45; 60; 75; 90; 105; 120] = Some s' ∧ buffer s' = [] ∧
    delivered (trace s') = delivered (trace demo) ++ held (buffer demo).
Proof.
  apply (reorder_timeout_drains pkt_id 100 5 demo); [apply demo_ok|apply demo_ok|cbn; lia|].
  repeat split.
Defined.

(** an EAPOL frame inside the window costs a block of the pool: it is
    passed up at once, ahead of the frames it overtakes, and the block
    allocated for it is in neither list afterwards. *)
Theorem eapol_frame_leaks_block num OS_HZ N s rx Now32 :
  buffer_ok num s → window_ok num N s → no_timeout OS_HZ s Now32 →
  good_packet num (pRxPacket rx) → fRX_EAP rx = true → next (freelist s) ≠ [] →
  N + 2 <= num (pRxPacket rx) <= N + BAWinSize (ent s) →
  ∃ s' ev, Indicate_AMPDU_entry OS_HZ s rx Now32 = Some s' ∧ trace s' = trace s ++ ev ∧
    pRxPacket rx ∈ delivered ev ∧
    (length (buffer s') + length (next (freelist s')) + 1 = length (buffer s) + length (next (freelist s)))%nat.
Proof.
  intros (Hl & HW & Hg) [HL Hi] Hq Hp He Hf Hn. set (n := num (pRxPacket rx)) in *.
  assert (pkt_Sequence (pRxPacket rx) = n mod 4096) as Hp' by exact Hp.
  set (s1 := upd_AtTimer (upd_rcvSeq s (pkt_Sequence (pRxPacket rx))) Now32).
  destruct (next (freelist s)) as [|b fl] eqn:Ef; [done|].
  set (s2 := upd_pool s1 {| next := fl; qlen := qlen (freelist s) - 1 |}).
  set (k := upto n (map (mid num) (buffer s))).
  assert (k <= length (buffer s))%nat as Hk by (rewrite <- (length_map (mid num)); apply upto_le).
  pose proof Hl as [_ Hq2]. rewrite Ef in Hq2. cbn [length] in Hq2.
  exists (emit (upd_Last (popped k s2) (n mod 4096)) (indicated rx)),
    (map announcement (take k (buffer s)) ++ [indicated rx]).
  split; [|split_and!].
  - unfold Indicate_AMPDU_entry.
    rewrite (flush_quiet OS_HZ (upd_rcvSeq s _)), Some_bind by (done || exact Hq). cbv zeta. fold s1.
    change (LastIndSeq (ent s1)) with (LastIndSeq (ent s)). change (BAWinSize (ent s1)) with (BAWinSize (ent s)).
    rewrite HL, Hp'. destruct (Z.eqb_spec (N mod 4096) RESET_RCV_SEQ) as [H|_]; [by apply seq_not_reset in H|].
    rewrite SEQ_STEPONE_near, seq_eqb_near, SEQ_SMALLER_near by lia.
    destruct (Z.eqb_spec n (N + 1)); [lia|]. destruct (Z.eqb_spec n N); [lia|].
    destruct (Z.ltb_spec n N); [lia|].
    rewrite <- Z.add_assoc, land_MAXSEQ, Zplus_mod_idemp_l, SEQ_SMALLER_near by lia.
    destruct (Z.ltb_spec n (N + (BAWinSize (ent s) + 1))); [|lia].
    unfold ba_enqueue_reordering_packet, ba_mpdu_blk_alloc, ba_dequeue.
    change (freelist s1) with (freelist s). rewrite Ef.
    destruct (Z.eqb_spec (qlen (freelist s)) 0); [lia|]. cbn [negb]. rewrite He. cbn [negb andb].
    fold s2. rewrite Hp', u16_seq. rewrite (le_seq_eq num s2 n), Some_bind; [|split; [apply Hl|cbn; lia]|done|].
    + done.
    + intros x Hx. pose proof (incr_bounds _ _ _ _ Hi Hx). lia.
  - cbn. by rewrite <- app_assoc.
  - rewrite delivered_app, delivered_indicated. apply elem_of_app. right. left.
  - cbn. rewrite length_app, length_rev, length_drop, length_take. lia.
Qed.

Lemma eapol_frame_leaks_block_witness :
  let rx := {| pRxPacket := {| pkt_Sequence := 9; pkt_id := 9 |}; fRX_AMSDU := false; fRX_EAP := true;
               rx_OpMode := 0; DataSize := 100 |} in
  ∃ s' ev, Indicate_AMPDU_entry 100 demo rx 15 = Some s' ∧ trace s' = trace demo ++ ev ∧
    pRxPacket rx ∈ delivered ev ∧
    (length (buffer s') + length (next (freelist s')) + 1 = 4)%nat.
Proof.
  intros rx. apply (eapol_frame_leaks_block pkt_id 100 5 demo rx 15);
    [apply demo_ok|apply demo_ok|right; done|done|done|done|cbn; lia].
Defined.

(** after a block-ack request whose starting frame is in the buffer that
    frame has been passed up, yet the driver expects it next: a
    retransmission of it is passed up a second time. *)
Theorem block_ack_request_repeats_frame num OS_HZ N s q rx Now32 :
  buffer_ok num s → window_ok num N s → N < q <= N + BAWinSize (ent s) → q ∈ map (mid num) (buffer s) →
  good_packet num (pRxPacket rx) → num (pRxPacket rx) = q → fRX_EAP rx = false →
  (∀ s1, CntlEnqueueForRecv_entry s (q mod 4096) = Some s1 → no_timeout OS_HZ s1 Now32) →
  ∃ s1 s2 ev1 ev2, CntlEnqueueForRecv_entry s (q mod 4096) = Some s1 ∧ trace s1 = trace s ++ ev1 ∧
    q ∈ map num (delivered ev1) ∧
    Indicate_AMPDU_entry OS_HZ s1 rx Now32 = Some s2 ∧ trace s2 = trace s1 ++ ev2 ∧
    q ∈ map num (delivered ev2).
Proof.
  intros Hok Hw Hq Hin Hg Hn He Ht. pose proof Hok as (_ & HW & Hgood).
  destruct (request_ok num N s q Hok Hw ltac:(lia)) as [Hr Hinv].
  destruct (Z.ltb_spec N q); [|lia]. destruct (Hinv ltac:(lia)) as [Hok1 Hw1].
  set (k := upto q (map (mid num) (buffer s))) in *.
  set (s1 := upd_Last _ _) in *.
  destruct (receive_next num OS_HZ (q - 1) s1 rx Now32 Hok1 Hw1 (Ht s1 Hr) Hg) as (N' & s2 & ev2 & (Hi & Ha & _) & _ & Hd);
    [lia|lia|].
  exists s1, s2, (map announcement (take k (buffer s))), ev2. split_and!; [done|done| |done|apply Ha|].
  - rewrite delivered_popped by done. unfold k. pose proof Hw as [_ Hi2]. revert Hi2 Hin.
    generalize (map (mid num) (buffer s)) as l, (N + 1) as lo. induction l as [|x l IH]; intros lo.
    { by intros _ ?%not_elem_of_nil. }
    intros [_ Hi2] Hin. cbn [upto]. destruct (Z.leb_spec x q) as [Hx|Hx]; cbn [take].
    + apply elem_of_cons in Hin as [->|Hin]; [left|right; by apply (IH x)].
    + apply elem_of_cons in Hin as [->|Hin]; [lia|]. pose proof (incr_bounds _ _ _ _ Hi2 Hin). lia.
  - rewrite <- Hn. by apply list_elem_of_fmap_2.
Qed.

Lemma block_ack_request_repeats_frame_witness :
  ∃ s1 s2 ev1 ev2, CntlEnqueueForRecv_entry demo (7 mod 4096) = Some s1 ∧ trace s1 = trace demo ++ ev1 ∧
    7 ∈ map pkt_id (delivered ev1) ∧
    Indicate_AMPDU_entry 100 s1 (demo_frame 7) 15 = Some s2 ∧ trace s2 = trace s1 ++ ev2 ∧
    7 ∈ map pkt_id (delivered ev2).
Proof.
  apply (block_ack_request_repeats_frame pkt_id 100 5 demo 7 (demo_frame 7) 15);
    [apply demo_ok|apply demo_ok|cbn; lia|left|done|done|done|].
  intros s1 H. vm_compute in H. injection H as <-. right. split; reflexivity.
Defined.
