(* ===== verification/Link.v ===== *)
(** * Entries and the indices that lead to them

    Both session tables of the block-ack code keep their entries in an array
    and, for each station and TID, the index of its entry, 0 for none.  This
    file has the invariant they share, that index and entry refer to each
    other, and its preservation when one entry is linked or unlinked. *)

From stdpp Require Import base list numbers list_numbers.
From Stdlib Require Import ZArith Lia.
From S2P Require Import Prelude.

Section Linked.
Context {A : Type} (used : A → Prop) (station tid : A → nat).

(** [arr w t] is the index of station [w] and TID [t]. *)
Record linked (arr : nat → nat → option nat) (l : list A) : Prop := {
  link_entry w t i : arr w t = Some i → i ≠ 0%nat → ∃ r, l !! i = Some r ∧ used r ∧ station r = w ∧ tid r = t;
  link_index i r : l !! i = Some r → used r → i ≠ 0%nat ∧ arr (station r) (tid r) = Some i;
}.

(** Two places never lead to the same entry. *)
Lemma linked_inj arr l w t w' t' i :
  linked arr l → arr w t = Some i → arr w' t' = Some i → i ≠ 0%nat → w' = w ∧ t' = t.
Proof.
  intros H H1 H2 Hi. destruct (link_entry _ _ H w t i H1 Hi) as (r & Hr & _ & <- & <-).
  destruct (link_entry _ _ H w' t' i H2 Hi) as (r' & Hr' & _ & <- & <-). by assert (r' = r) as -> by congruence.
Qed.

(** Entry [i] becomes [r'], and the index of [(w, t)] becomes [j]: [i] if
    [r'] is in use, 0 if it is not. *)
Lemma linked_update arr arr' l i j r r' w t :
  linked arr l → l !! i = Some r → i ≠ 0%nat →
  (arr w t = Some i ∨ arr w t = Some 0%nat ∧ ¬ used r) →
  (j = i ∧ used r' ∧ station r' = w ∧ tid r' = t ∨ j = 0%nat ∧ ¬ used r') →
  arr' w t = Some j → (∀ w' t', ¬ (w' = w ∧ t' = t) → arr' w' t' = arr w' t') →
  linked arr' (<[i := r']> l).
Proof.
  intros H Hr Hi Hidx Hr' Hj Harr. pose proof (lookup_lt_Some _ _ _ Hr) as Hlt.
  assert (∀ w1 t1, arr w1 t1 = Some i → w1 = w ∧ t1 = t) as Hown.
  { intros w1 t1 H1. destruct (link_entry _ _ H w1 t1 i H1 Hi) as (r1 & Hr1 & Hu & <- & <-).
    assert (r1 = r) as -> by congruence. destruct Hidx as [Hw|[_ Hw]]; [|done].
    destruct (linked_inj arr l _ _ _ _ i H Hw H1 Hi) as [-> ->]. done. }
  split.
  - intros w1 t1 k Hk Hk0. destruct (decide (w1 = w ∧ t1 = t)) as [[-> ->]|Hne].
    + assert (k = j) as -> by congruence. destruct Hr' as [(-> & Hu & Hw & Ht)|[-> _]]; [|done].
      exists r'. by rewrite list_lookup_insert_eq by done.
    + rewrite Harr in Hk by done. destruct (link_entry _ _ H w1 t1 k Hk Hk0) as (r1 & ? & ?). exists r1.
      rewrite list_lookup_insert_ne; [done|]. intros ->. by apply Hne, Hown.
  - intros k r1 Hk Hu. apply list_lookup_insert_Some in Hk as [(<- & <- & _)|[Hne Hk]].
    + destruct Hr' as [(-> & _ & -> & ->)|[_ ?]]; [|done]. done.
    + destruct (link_index _ _ H k r1 Hk Hu) as [Hk0 Hx]. split; [done|]. rewrite Harr; [done|].
      intros [Hw Ht]. rewrite Hw, Ht in Hx. destruct Hidx as [Hi'|[Hi' _]]; congruence.
Qed.

(** An entry changes without its place. *)
Lemma linked_same arr l i r r' :
  linked arr l → l !! i = Some r → (used r' ↔ used r) → (used r → station r' = station r ∧ tid r' = tid r) →
  linked arr (<[i := r']> l).
Proof.
  intros H Hr Hu Hp. pose proof (lookup_lt_Some _ _ _ Hr) as Hlt. split.
  - intros w t k Hk Hk0. destruct (link_entry _ _ H w t k Hk Hk0) as (r1 & Hr1 & Hu1 & Hw & Ht).
    destruct (decide (i = k)) as [<-|Hne].
    + assert (r1 = r) as -> by congruence. destruct (Hp Hu1) as [Hw' Ht']. exists r'.
      rewrite list_lookup_insert_eq by done. split_and!; [done|by apply Hu|congruence|congruence].
    + exists r1. by rewrite list_lookup_insert_ne.
  - intros k r1 Hk Hu1. apply list_lookup_insert_Some in Hk as [(<- & <- & _)|[Hne Hk]].
    + apply Hu in Hu1. destruct (Hp Hu1) as [-> ->]. by apply (link_index _ _ H).
    + by apply (link_index _ _ H).
Qed.

Lemma linked_ext arr arr' l : linked arr l → (∀ w t, arr' w t = arr w t) → linked arr' l.
Proof.
  intros H E. split.
  - intros w t i. rewrite E. apply (link_entry _ _ H).
  - intros i r Hi Hu. rewrite E. by apply (link_index _ _ H).
Qed.
End Linked.

(** Counting entries. *)
Section Sum.
Context {A : Type}.
Implicit Types (f : A → nat) (l : list A).

Definition sumf f l : nat := foldr (λ x n, (f x + n)%nat) 0%nat l.

Lemma sumf_insert f l i x y : l !! i = Some x → (sumf f (<[i:=y]> l) + f x = sumf f l + f y)%nat.
Proof.
  revert i. induction l as [|z l IH]; intros [|i] H; try discriminate H.
  - injection H as ->. unfold sumf. cbn. lia.
  - cbn in H. specialize (IH i H). change (<[S i:=y]> (z :: l)) with (z :: <[i:=y]> l).
    unfold sumf in *. cbn [foldr]. lia.
Qed.

Lemma sumf_insert_same f l i x y : l !! i = Some x → f y = f x → sumf f (<[i:=y]> l) = sumf f l.
Proof. intros H E. pose proof (sumf_insert f l i x y H). lia. Qed.

Lemma sumf_le_length f l : (∀ x, (f x <= 1)%nat) → (sumf f l <= length l)%nat.
Proof. intros H. unfold sumf. induction l as [|x l IH]; cbn; [done|]. specialize (H x). lia. Qed.

Lemma sumf_full f l : Forall (λ x, f x = 1%nat) l → sumf f l = length l.
Proof. intros H. unfold sumf. induction H as [|x l Hx Hl IH]; cbn; lia. Qed.

Lemma sumf_replicate f n x : f x = 0%nat → sumf f (replicate n x) = 0%nat.
Proof. intros H. unfold sumf. induction n as [|n IH]; cbn; lia. Qed.

(** Counting with a decidable property. *)
Lemma sumf_filter (P : A → Prop) `{HP : !∀ x, Decision (P x)} f l :
  (∀ x, f x = if decide (P x) then 1%nat else 0%nat) → sumf f l = length (filter P l).
Proof.
  intros Hf. induction l as [|x l IH]; [done|]. rewrite filter_cons. unfold sumf in *. cbn [foldr]. rewrite IH, Hf.
  by destruct (decide (P x)).
Qed.

(** A positive element makes the sum positive. *)
Lemma sumf_pos f l i x : l !! i = Some x → (f x <= sumf f l)%nat.
Proof.
  revert i. induction l as [|z l IH]; intros [|i] H; try discriminate H; unfold sumf in *; cbn [foldr].
  - injection H as ->. lia.
  - specialize (IH i H). lia.
Qed.
End Sum.

Arguments sumf : simpl never.
