(* ===== verification/BaSession.v ===== *)
(** * Block-ack sessions of the rt5370 driver

    Models the recipient's session table of
    [linux/Arch/rt5370.driver/common/ba_action.c]: allocation, set-up and
    tear-down of sessions, and the entry points that find the session of a
    frame, a block-ack request or a timer and call the reordering buffer
    ([BaReorder]).  The pool of blocks and the trace are shared by all
    sessions.  [None] is an access outside one of the tables. *)

From stdpp Require Import base list numbers list_numbers.
From Stdlib Require Import ZArith Lia Btauto.
From S2P Require Import Prelude BaReorder Link.

Definition NUM_OF_TID : nat := 8.
Definition MAX_LEN_OF_MAC_TABLE : nat := 32.
Definition MAX_LEN_OF_BA_REC_TABLE : nat := (NUM_OF_TID * MAX_LEN_OF_MAC_TABLE) / 2.
Definition REC_BA_SESSION_IDLE_TIMEOUT : Z := 1000.
Definition MGMT_DMA_BUFFER_SIZE : Z := 1600.
Definition sizeof_FRAME_BA_REQ : Z := 20.
Definition ORIGINATOR : Z := 1.
Definition RECIPIENT : Z := 0.

Inductive REC_BLOCKACK_STATUS := Recipient_NONE | Recipient_USED | Recipient_HandleRes | Recipient_Accept.

#[export] Instance status_eq_dec : EqDecision REC_BLOCKACK_STATUS.
Proof. solve_decision. Defined.

Record MAC_TABLE_ENTRY := {
  entry_none : bool;
  Aid : Z;
  RXBAbitmap : Z;
  BADeclineBitmap : Z;
  BARecWcidArray : list nat;
}.

(** The entry of the table: the part the buffer uses, and the rest. *)
Record rec_entry := {
  ba : BA_REC_ENTRY;
  REC_BA_Status : REC_BLOCKACK_STATUS;
  Wcid : nat;
  TID : nat;
  TimeOutValue : Z;
}.

Record adapter := {
  Content : list MAC_TABLE_ENTRY;
  BARecEntry : list rec_entry;
  numAsRecipient : Z;
  RxBAWinLimit : Z;
  halted : bool;
  mpdu_blk_pool : reordering_list;
  log : list event;
}.

Definition set_entry (a : adapter) (i : nat) (r : rec_entry) : adapter :=
  {| Content := Content a; BARecEntry := <[i := r]> (BARecEntry a); numAsRecipient := numAsRecipient a;
     RxBAWinLimit := RxBAWinLimit a; halted := halted a; mpdu_blk_pool := mpdu_blk_pool a; log := log a |}.

Definition set_mac (a : adapter) (w : nat) (e : MAC_TABLE_ENTRY) : adapter :=
  {| Content := <[w := e]> (Content a); BARecEntry := BARecEntry a; numAsRecipient := numAsRecipient a;
     RxBAWinLimit := RxBAWinLimit a; halted := halted a; mpdu_blk_pool := mpdu_blk_pool a; log := log a |}.

Definition set_count (a : adapter) (n : Z) : adapter :=
  {| Content := Content a; BARecEntry := BARecEntry a; numAsRecipient := n;
     RxBAWinLimit := RxBAWinLimit a; halted := halted a; mpdu_blk_pool := mpdu_blk_pool a; log := log a |}.

Definition note (a : adapter) (e : event) : adapter :=
  {| Content := Content a; BARecEntry := BARecEntry a; numAsRecipient := numAsRecipient a;
     RxBAWinLimit := RxBAWinLimit a; halted := halted a; mpdu_blk_pool := mpdu_blk_pool a;
     log := log a ++ [e] |}.

Definition set_status (r : rec_entry) (v : REC_BLOCKACK_STATUS) : rec_entry :=
  {| ba := ba r; REC_BA_Status := v; Wcid := Wcid r; TID := TID r; TimeOutValue := TimeOutValue r |}.

Definition set_ba (r : rec_entry) (b : BA_REC_ENTRY) : rec_entry :=
  {| ba := b; REC_BA_Status := REC_BA_Status r; Wcid := Wcid r; TID := TID r; TimeOutValue := TimeOutValue r |}.

(** [BAWinSize] and [LastIndSeq] of an entry. *)
Definition set_window (b : BA_REC_ENTRY) (w v : Z) : BA_REC_ENTRY :=
  {| BAWinSize := w; LastIndSeq := v; LastIndSeqAtTimer := LastIndSeqAtTimer b; nDropPacket := nDropPacket b;
     rcvSeq := rcvSeq b; list_ := list_ b |}.

Definition set_index (e : MAC_TABLE_ENTRY) (tid : nat) (idx : nat) : MAC_TABLE_ENTRY :=
  {| entry_none := entry_none e; Aid := Aid e; RXBAbitmap := RXBAbitmap e; BADeclineBitmap := BADeclineBitmap e;
     BARecWcidArray := <[tid := idx]> (BARecWcidArray e) |}.

Definition set_bitmaps (e : MAC_TABLE_ENTRY) (rx decline : Z) : MAC_TABLE_ENTRY :=
  {| entry_none := entry_none e; Aid := Aid e; RXBAbitmap := rx; BADeclineBitmap := decline;
     BARecWcidArray := BARecWcidArray e |}.

(** A call of the reordering buffer with the pool and the trace. *)
Definition session_of (a : adapter) (r : rec_entry) : st :=
  {| ent := ba r; freelist := mpdu_blk_pool a; trace := log a |}.

Definition on_entry (a : adapter) (idx : nat) (f : st → option st) : option adapter :=
  r ← BARecEntry a !! idx;
  s ← f (session_of a r);
  Some {| Content := Content a; BARecEntry := <[idx := set_ba r (ent s)]> (BARecEntry a);
          numAsRecipient := numAsRecipient a; RxBAWinLimit := RxBAWinLimit a; halted := halted a;
          mpdu_blk_pool := freelist s; log := trace s |}.

(** ** Allocating and freeing entries *)

(** The loop from entry [i] on: the first entry in state [Recipient_NONE]. *)
Fixpoint find_none (l : list rec_entry) (i : nat) : option nat :=
  match l with
  | [] => None
  | r :: l => if decide (REC_BA_Status r = Recipient_NONE) then Some i else find_none l (S i)
  end.

(** The pointer returned, [*Idx] if it is assigned, and the table.  A loop
    that finds nothing leaves the pointer at the last entry. *)
Definition BATableAllocRecEntry (a : adapter) : option nat * option nat * adapter :=
  if (Z.of_nat MAX_LEN_OF_BA_REC_TABLE - 1 <=? numAsRecipient a) then (None, None, a)
  else
    match find_none (drop 1 (BARecEntry a)) 1 with
    | Some i =>
        let a := set_count a (u32 (numAsRecipient a + 1)) in
        match BARecEntry a !! i with
        | Some r => (Some i, Some i, set_entry a i (set_status r Recipient_USED))
        | None => (None, None, a)
        end
    | None => (Some (MAX_LEN_OF_BA_REC_TABLE - 1)%nat, None, a)
    end.

Definition BATableFreeRecEntry (a : adapter) (Idx : nat) : option adapter :=
  if (Idx =? 0)%nat || (MAX_LEN_OF_BA_REC_TABLE <=? Idx)%nat then Some a
  else
    r ← BARecEntry a !! Idx;
    if decide (REC_BA_Status r = Recipient_NONE) then Some a
    else
      e ← Content a !! Wcid r;
      _ ← BARecWcidArray e !! TID r;
      let a := set_mac a (Wcid r) (set_index e (TID r) 0) in
      let a := if numAsRecipient a =? 0 then note a ASSERT_failed else a in
      let a := set_count a (u32 (numAsRecipient a - 1)) in
      Some (set_entry a Idx (set_status r Recipient_NONE)).

(** ** Setting up and tearing down *)

Record FRAME_ADDBA_REQ := { req_TID : nat; req_BufSize : Z; req_TimeOutValue : Z }.

Definition BARecSessionAdd (a : adapter) (w : nat) (pFrame : FRAME_ADDBA_REQ) : option (bool * adapter) :=
  pEntry ← Content a !! w;
  let tid := req_TID pFrame in
  let win := Z.min (u8 (req_BufSize pFrame)) (u8 (RxBAWinLimit a)) in
  let win := if win =? 0 then 64 else win in
  Idx ← BARecWcidArray pEntry !! tid;
  '(pBAEntry, Idx, a) ←
    (if (Idx =? 0)%nat then
       let '(p, i, a) := BATableAllocRecEntry a in
       Some (p, match i with Some i => i | None => Idx end, a)
     else
       a ← on_entry a Idx ba_refresh_reordering_mpdus;
       Some (Some Idx, Idx, a));
  match pBAEntry with
  | None => Some (false, a)
  | Some p =>
      r ← BARecEntry a !! p;
      let a := if qlen (list_ (ba r)) =? 0 then a else note a ASSERT_failed in
      let r := {| ba := set_window (ba r) win RESET_RCV_SEQ; REC_BA_Status := Recipient_Accept;
                  Wcid := Z.to_nat (u8 (Aid pEntry)); TID := tid;
                  TimeOutValue := req_TimeOutValue pFrame |} in
      let a := set_entry a p r in
      let a := note a (if Z.testbit (RXBAbitmap pEntry) (Z.of_nat tid)
                       then RECBATimer_cancel (Z.of_nat w) (Z.of_nat tid)
                       else RECBATimer_init (Z.of_nat w) (Z.of_nat tid)) in
      let bit := Z.shiftl 1 (Z.of_nat tid) in
      let e := set_index (set_bitmaps pEntry (u16 (RXBAbitmap pEntry .| bit))
                            (u16 (BADeclineBitmap pEntry & Z.lnot bit))) tid Idx in
      let a := set_mac a w e in
      Some (true, note a (RTMP_ADD_BA_SESSION_TO_ASIC (Aid pEntry) (Z.of_nat tid)))
  end.

(** [memory]: whether the element for the DELBA request can be allocated. *)
Definition BARecSessionTearDown (memory : bool) (a : adapter) (w tid : nat) (bPassive : bool) : option adapter :=
  if (MAX_LEN_OF_MAC_TABLE <=? w)%nat then Some a
  else
    e ← Content a !! w;
    Idx ← BARecWcidArray e !! tid;
    if (Idx =? 0)%nat then Some a
    else
      r ← BARecEntry a !! Idx;
      if (tid =? TID r)%nat && bool_decide (REC_BA_Status r = Recipient_Accept) then
        let a := note a (RECBATimer_cancel (Z.of_nat w) (Z.of_nat tid)) in
        if negb bPassive && negb memory then Some a
        else
          let a := if negb bPassive then note a (MlmeDELBAAction (Z.of_nat w) (Z.of_nat tid) RECIPIENT) else a in
          a ← on_entry a Idx ba_refresh_reordering_mpdus;
          r ← BARecEntry a !! Idx;
          let a := set_entry a Idx (set_ba r (set_window (ba r) 0 RESET_RCV_SEQ)) in
          let e := set_index (set_bitmaps e (u16 (RXBAbitmap e & Z.lnot (Z.shiftl 1 (Z.of_nat (TID r)))))
                                (BADeclineBitmap e)) tid 0 in
          let a := set_mac a w e in
          let a := note a (RTMP_DEL_BA_SESSION_FROM_ASIC (Z.of_nat w) (Z.of_nat tid)) in
          BATableFreeRecEntry a Idx
      else BATableFreeRecEntry a Idx.

(** ** Frames, requests and timers *)

Section Entry.
Context (OS_HZ : Z).

(** The station and the TID are those of the receive descriptor. *)
Definition Indicate_AMPDU_Packet (a : adapter) (pRxBlk : RX_BLK) (w tid : nat) (Now32 : Z) : option adapter :=
  if negb (fRX_AMSDU pRxBlk) && (MAX_RX_PKT_LEN <? DataSize pRxBlk)
  then Some (note a (RELEASE_NDIS_PACKET (pRxPacket pRxBlk) false))
  else if (w <? MAX_LEN_OF_MAC_TABLE)%nat then
    e ← Content a !! w;
    Idx ← BARecWcidArray e !! tid;
    if (Idx =? 0)%nat then
      Some (note a (if fRX_AMSDU pRxBlk then Indicate_AMSDU_Packet (pRxPacket pRxBlk)
                    else if fRX_EAP pRxBlk then Indicate_EAPOL_Packet (pRxPacket pRxBlk)
                    else Indicate_Legacy_Packet (pRxPacket pRxBlk)))
    else on_entry a Idx (λ s, Indicate_AMPDU_entry OS_HZ s pRxBlk Now32)
  else Some (note (note a ASSERT_failed) (RELEASE_NDIS_PACKET (pRxPacket pRxBlk) false)).

Definition CntlEnqueueForRecv (a : adapter) (w : nat) (MsgLen : Z) (tid : nat) (StartSeq : Z)
    : option (bool * adapter) :=
  if halted a then Some (false, a)
  else if MGMT_DMA_BUFFER_SIZE <? MsgLen then Some (false, a)
  else if negb (MsgLen =? sizeof_FRAME_BA_REQ) then Some (false, a)
  else if (w <? MAX_LEN_OF_MAC_TABLE)%nat && (tid <? 8)%nat then
    e ← Content a !! w;
    Idx ← BARecWcidArray e !! tid;
    a ← on_entry a Idx (λ s, CntlEnqueueForRecv_entry s StartSeq);
    Some (true, a)
  else Some (false, a).

Definition BARecSessionIdleTimeout (a : adapter) (Idx : nat) (Now32 : Z) : option adapter :=
  r ← BARecEntry a !! Idx;
  if bool_decide (REC_BA_Status r = Recipient_Accept) &&
     RTMP_TIME_AFTER Now32 (u32 (LastIndSeqAtTimer (ba r) + REC_BA_SESSION_IDLE_TIMEOUT))
  then on_entry a Idx ba_refresh_reordering_mpdus
  else Some a.

Definition Maintain_tid (Now32 : Z) (w tid : nat) (a : adapter) : option adapter :=
  e ← Content a !! w;
  Idx ← BARecWcidArray e !! tid;
  on_entry a Idx (λ s, ba_flush_reordering_timeout_mpdus OS_HZ s Now32).

Definition BaReOrderingBufferMaintain (a : adapter) (Now32 : Z) : option adapter :=
  loop_opt 1 (MAX_LEN_OF_MAC_TABLE - 1) (λ w a,
    e ← Content a !! w;
    if entry_none e then Some a else loop_opt 0 NUM_OF_TID (Maintain_tid Now32 w) a) a.
End Entry.

(** [BATableInit], with [BARecWcidArray] zeroed as the MAC table is. *)
Definition BATableInit (stations : list bool) (limit : Z) (pool : reordering_list) : adapter :=
  {| Content := imap (λ w none, {| entry_none := none; Aid := Z.of_nat w; RXBAbitmap := 0; BADeclineBitmap := 0;
                                   BARecWcidArray := replicate NUM_OF_TID 0%nat |}) stations;
     BARecEntry := replicate MAX_LEN_OF_BA_REC_TABLE
       {| ba := {| BAWinSize := 0; LastIndSeq := 0; LastIndSeqAtTimer := 0; nDropPacket := 0; rcvSeq := 0;
                   list_ := {| next := []; qlen := 0 |} |};
          REC_BA_Status := Recipient_NONE; Wcid := 0; TID := 0; TimeOutValue := 0 |};
     numAsRecipient := 0; RxBAWinLimit := limit; halted := false; mpdu_blk_pool := pool; log := [] |}.

(** ** The invariant of the table *)

(** An entry's buffer, with the pool and the trace left aside. *)
Definition entry_inv (r : rec_entry) : Prop :=
  ∃ num N, session_inv num N {| ent := ba r; freelist := {| next := []; qlen := 0 |}; trace := [] |}.

Definition buffered (r : rec_entry) : nat := length (next (list_ (ba r))).

Definition free_ok (r : rec_entry) : Prop := buffered r = 0%nat ∧ qlen (list_ (ba r)) = 0.

Definition used (r : rec_entry) : nat := if decide (REC_BA_Status r = Recipient_NONE) then 0%nat else 1%nat.

(** [B] blocks in all: in the pool and in the buffers. *)
Record table_ok (B : nat) (a : adapter) : Prop := {
  ok_mac : length (Content a) = MAX_LEN_OF_MAC_TABLE;
  ok_rec : length (BARecEntry a) = MAX_LEN_OF_BA_REC_TABLE;
  ok_station w e : Content a !! w = Some e → Aid e = Z.of_nat w ∧ length (BARecWcidArray e) = NUM_OF_TID;
  ok_index w e t i : Content a !! w = Some e → BARecWcidArray e !! t = Some i → i ≠ 0%nat →
    ∃ r, BARecEntry a !! i = Some r ∧ REC_BA_Status r = Recipient_Accept ∧ Wcid r = w ∧ TID r = t;
  ok_used i r : BARecEntry a !! i = Some r → REC_BA_Status r ≠ Recipient_NONE →
    i ≠ 0%nat ∧ (∃ e, Content a !! Wcid r = Some e ∧ BARecWcidArray e !! TID r = Some i) ∧ entry_inv r;
  ok_free i r : BARecEntry a !! i = Some r → REC_BA_Status r = Recipient_NONE → free_ok r;
  ok_count : numAsRecipient a = Z.of_nat (sumf used (BARecEntry a));
  ok_pool : qlen (mpdu_blk_pool a) = Z.of_nat (length (next (mpdu_blk_pool a)));
  ok_blocks : (length (next (mpdu_blk_pool a)) + sumf buffered (BARecEntry a) = B)%nat;
  ok_assert : ASSERT_failed ∉ log a;
}.

Lemma used_none r : REC_BA_Status r = Recipient_NONE → used r = 0%nat.
Proof. intros H. unfold used. by rewrite decide_True. Qed.

Lemma used_some r : REC_BA_Status r ≠ Recipient_NONE → used r = 1%nat.
Proof. intros H. unfold used. by rewrite decide_False. Qed.

Lemma used_le r : (used r <= 1)%nat.
Proof. unfold used. destruct (decide _); lia. Qed.

(** The indices of the stations lead to the accepted entries. *)
Definition index_of (a : adapter) (w t : nat) : option nat := e ← Content a !! w; BARecWcidArray e !! t.

Lemma table_linked B a :
  table_ok B a → linked (λ r, REC_BA_Status r ≠ Recipient_NONE) Wcid TID (index_of a) (BARecEntry a).
Proof.
  intros Ha. split.
  - intros w t i Hi Hi0. unfold index_of in Hi. destruct (Content a !! w) as [e|] eqn:He; [|done].
    destruct (ok_index _ _ Ha w e t i He Hi Hi0) as (r & Hr & Hs & ?). exists r. by rewrite Hs.
  - intros i r Hr Hu. destruct (ok_used _ _ Ha i r Hr Hu) as (Hi0 & (e & He & Hx) & _). split; [done|].
    unfold index_of. by rewrite He.
Qed.

(** An entry in use, with the shared parts, is a steady session. *)
Lemma session_steady B a r :
  table_ok B a → entry_inv r →
  steady (BAWinSize (ba r)) (total_blocks (session_of a r)) (session_of a r).
Proof.
  intros Ha (num & N & ((Hl & _) & HW & Hg) & Hc). split_and!; [|done|done|apply Ha].
  exists num, N. split; [|exact Hc]. split; [|done]. split; [exact Hl|]. apply (ok_pool _ _ Ha).
Qed.

Lemma steady_entry w pool s r :
  steady w pool s → entry_inv (set_ba r (ent s)) ∧ qlen (freelist s) = Z.of_nat (length (next (freelist s))) ∧
    qlen (list_ (ent s)) = Z.of_nat (length (next (list_ (ent s)))) ∧ ASSERT_failed ∉ trace s.
Proof.
  intros ((num & N & ((Hl & Hp) & HW & Hg) & Hc) & _ & _ & Ha). split_and!; [|done..].
  exists num, N. split; [|exact Hc]. split; [|done]. split; [exact Hl|done].
Qed.

Lemma refresh_steady w pool s :
  steady w pool s → ∃ s', ba_refresh_reordering_mpdus s = Some s' ∧ steady w pool s' ∧
    next (list_ (ent s')) = [] ∧ LastIndSeq (ent s') = RESET_RCV_SEQ ∧ BAWinSize (ent s') = BAWinSize (ent s).
Proof.
  intros Hs. pose proof Hs as ((num & N & Hok & _) & _).
  destruct (flush_all_ok num s 0 Hok) as (s' & He & _ & Hf). exists s'.
  pose proof Hf as (_ & _ & Hb & HL & HW & _). split_and!; try done. by apply (steady_flushed num w pool s).
Qed.

Lemma entry_total a r : total_blocks (session_of a r) = qlen (list_ (ba r)) + qlen (mpdu_blk_pool a).
Proof. done. Qed.

Lemma entry_lens r : entry_inv r → qlen (list_ (ba r)) = Z.of_nat (buffered r).
Proof. intros (num & N & ((Hl & _) & _) & _). exact Hl. Qed.

(** A call on an entry in use keeps the table in order. *)
Lemma on_entry_ok B a i r f s' :
  table_ok B a → BARecEntry a !! i = Some r → REC_BA_Status r ≠ Recipient_NONE →
  f (session_of a r) = Some s' → steady (BAWinSize (ba r)) (total_blocks (session_of a r)) s' →
  ∃ a', on_entry a i f = Some a' ∧ table_ok B a' ∧ Content a' = Content a ∧
    BARecEntry a' = <[i := set_ba r (ent s')]> (BARecEntry a) ∧ numAsRecipient a' = numAsRecipient a.
Proof.
  intros Ha Hr Hu Hf Hs. unfold on_entry. rewrite Hr, Some_bind, Hf, Some_bind.
  eexists. split; [reflexivity|]. split; [|done].
  destruct (ok_used _ _ Ha i r Hr Hu) as (Hi0 & Hidx & Hinv).
  destruct (steady_entry _ _ s' r Hs) as (Hinv' & Hp & Hl & Hass). destruct Hs as (_ & _ & HT & _).
  pose proof (lookup_lt_Some _ _ _ Hr) as Hlt.
  rewrite entry_total, (entry_lens r Hinv), (ok_pool _ _ Ha) in HT. unfold total_blocks in HT. rewrite Hp, Hl in HT.
  split; cbn.
  - apply Ha.
  - rewrite length_insert. apply Ha.
  - apply Ha.
  - intros w e t j He Hj Hj0. destruct (ok_index _ _ Ha w e t j He Hj Hj0) as (r' & Hr' & ? & ? & ?).
    destruct (decide (i = j)) as [<-|Hne].
    + rewrite list_lookup_insert_eq by done. assert (r' = r) as -> by congruence. by eexists.
    + rewrite list_lookup_insert_ne by done. by exists r'.
  - intros j r' Hj Hu'. apply list_lookup_insert_Some in Hj as [(<- & <- & _)|[Hne Hj]].
    + by split_and!.
    + by apply (ok_used _ _ Ha).
  - intros j r' Hj Hn. apply list_lookup_insert_Some in Hj as [(<- & <- & _)|[Hne Hj]]; [done|].
    by apply (ok_free _ _ Ha j).
  - rewrite (sumf_insert_same used _ _ r); [apply Ha|done|done].
  - exact Hp.
  - pose proof (sumf_insert buffered _ i r (set_ba r (ent s')) Hr) as H.
    pose proof (ok_blocks _ _ Ha). unfold buffered at 2 4 in H. cbn in H. unfold buffered in HT. lia.
  - exact Hass.
Qed.

Lemma note_ok B a e : table_ok B a → e ≠ ASSERT_failed → table_ok B (note a e).
Proof.
  intros Ha He. destruct Ha. split; try done. cbn. rewrite not_elem_of_app. split; [done|].
  rewrite list_elem_of_singleton. done.
Qed.

(** A call on a free entry that touches neither buffer nor pool. *)
Lemma on_free_ok B a i r f s' :
  table_ok B a → BARecEntry a !! i = Some r → REC_BA_Status r = Recipient_NONE →
  f (session_of a r) = Some s' → list_ (ent s') = list_ (ba r) → freelist s' = mpdu_blk_pool a →
  trace s' = log a → ∃ a', on_entry a i f = Some a' ∧ table_ok B a'.
Proof.
  intros Ha Hr Hn Hf El Ef Et. unfold on_entry. rewrite Hr, Some_bind, Hf, Some_bind.
  eexists. split; [reflexivity|]. pose proof (lookup_lt_Some _ _ _ Hr) as Hlt.
  pose proof (ok_free _ _ Ha i r Hr Hn) as [Hb Hq].
  split; cbn; rewrite ?Ef, ?Et; try apply Ha.
  - rewrite length_insert. apply Ha.
  - intros w e t j He Hj Hj0. destruct (ok_index _ _ Ha w e t j He Hj Hj0) as (r' & Hr' & Ha' & ? & ?).
    destruct (decide (i = j)) as [<-|Hne]; [congruence|].
    rewrite list_lookup_insert_ne by done. by exists r'.
  - intros j r' Hj Hu'. apply list_lookup_insert_Some in Hj as [(<- & <- & _)|[Hne Hj]]; [done|].
    by apply (ok_used _ _ Ha).
  - intros j r' Hj Hn'. apply list_lookup_insert_Some in Hj as [(<- & <- & _)|[Hne Hj]].
    + unfold free_ok, buffered in *. cbn. by rewrite El.
    + by apply (ok_free _ _ Ha j).
  - rewrite (sumf_insert_same used _ _ r); [apply Ha|done|done].
  - rewrite (sumf_insert_same buffered _ _ r); [apply Ha|done|]. unfold buffered. cbn. by rewrite El.
Qed.

(** The entry behind an index of the MAC table. *)
Lemma index_entry B a w e t i :
  table_ok B a → Content a !! w = Some e → BARecWcidArray e !! t = Some i →
  ∃ r, BARecEntry a !! i = Some r ∧
    (i = 0%nat ∧ REC_BA_Status r = Recipient_NONE ∨
     i ≠ 0%nat ∧ REC_BA_Status r = Recipient_Accept ∧ Wcid r = w ∧ TID r = t ∧ entry_inv r).
Proof.
  intros Ha He Hi. destruct (decide (i = 0%nat)) as [->|Hi0].
  - destruct (lookup_lt_is_Some_2 (BARecEntry a) 0) as [r Hr]; [rewrite (ok_rec _ _ Ha); vm_compute; lia|].
    exists r. split; [done|]. left. split; [done|]. destruct (decide (REC_BA_Status r = Recipient_NONE)); [done|].
    by destruct (ok_used _ _ Ha 0%nat r Hr).
  - destruct (ok_index _ _ Ha w e t i He Hi Hi0) as (r & Hr & Hs & Hw & Ht). exists r. split; [done|]. right.
    split_and!; try done. apply (ok_used _ _ Ha i r Hr). by rewrite Hs.
Qed.

Lemma mac_index B a w t :
  table_ok B a → (w < MAX_LEN_OF_MAC_TABLE)%nat → (t < NUM_OF_TID)%nat →
  ∃ e i, Content a !! w = Some e ∧ BARecWcidArray e !! t = Some i.
Proof.
  intros Ha Hw Ht. destruct (lookup_lt_is_Some_2 (Content a) w) as [e He]; [by rewrite (ok_mac _ _ Ha)|].
  destruct (lookup_lt_is_Some_2 (BARecWcidArray e) t) as [i Hi]; [by rewrite (proj2 (ok_station _ _ Ha w e He))|].
  by exists e, i.
Qed.

Lemma indicate_ok OS_HZ B a rx w t Now32 :
  0 <= OS_HZ <= 100000 → table_ok B a → (t < NUM_OF_TID)%nat → (w < MAX_LEN_OF_MAC_TABLE)%nat →
  0 <= pkt_Sequence (pRxPacket rx) < 4096 → fRX_EAP rx = false → next (mpdu_blk_pool a) ≠ [] →
  ∃ a', Indicate_AMPDU_Packet OS_HZ a rx w t Now32 = Some a' ∧ table_ok B a'.
Proof.
  intros hz Ha Ht Hw Hs He Hp. unfold Indicate_AMPDU_Packet.
  destruct (negb (fRX_AMSDU rx) && (MAX_RX_PKT_LEN <? DataSize rx)) eqn:Hlen.
  { eexists. split; [reflexivity|]. by apply note_ok. }
  destruct (Nat.ltb_spec w MAX_LEN_OF_MAC_TABLE); [|lia].
  destruct (mac_index B a w t Ha Hw Ht) as (e & i & Hmac & Hi). rewrite Hmac, Some_bind, Hi, Some_bind.
  destruct (index_entry B a w e t i Ha Hmac Hi) as (r & Hr & [(-> & Hn)|(Hi0 & Hacc & _ & _ & Hinv)]).
  { eexists. split; [reflexivity|]. apply note_ok; [done|]. by destruct (fRX_AMSDU rx), (fRX_EAP rx). }
  destruct (Nat.eqb_spec i 0); [done|].
  destruct (steady_frame OS_HZ _ _ _ rx Now32 hz (session_steady B a r Ha Hinv)) as (s' & Hf & Hs'); [done|].
  unfold Indicate_AMPDU_session in Hf. rewrite Hlen in Hf.
  destruct (on_entry_ok B a i r (λ s, Indicate_AMPDU_entry OS_HZ s rx Now32) s' Ha Hr ltac:(by rewrite Hacc) Hf Hs') as (a' & H1 & H2 & _). by exists a'.
Qed.

Lemma request_free s q : next (list_ (ent s)) = [] →
  ∃ s', CntlEnqueueForRecv_entry s q = Some s' ∧ list_ (ent s') = list_ (ent s) ∧
    freelist s' = freelist s ∧ trace s' = trace s.
Proof.
  intros Hb. unfold CntlEnqueueForRecv_entry. destruct (SEQ_SMALLER _ _ _); [|by exists s].
  assert (ba_indicate_reordering_mpdus_le_seq s q = Some s) as ->.
  { unfold ba_indicate_reordering_mpdus_le_seq, list_fuel. cbn [le_seq_loop].
    unfold ba_reordering_mpdu_probe. by rewrite Hb. }
  rewrite Some_bind. by eexists.
Qed.

Lemma request_table_ok B a w MsgLen t q :
  table_ok B a → 0 <= q < 4096 →
  ∃ b a', CntlEnqueueForRecv a w MsgLen t q = Some (b, a') ∧ table_ok B a'.
Proof.
  intros Ha Hq. unfold CntlEnqueueForRecv.
  destruct (halted a); [by exists false, a|]. destruct (_ <? MsgLen); [by exists false, a|].
  destruct (negb _); [by exists false, a|].
  destruct (Nat.ltb_spec w MAX_LEN_OF_MAC_TABLE) as [Hw|]; cbn [andb]; [|by exists false, a].
  destruct (Nat.ltb_spec t 8) as [Ht|]; [|by exists false, a].
  destruct (mac_index B a w t Ha Hw Ht) as (e & i & Hmac & Hi). rewrite Hmac, Some_bind, Hi, Some_bind.
  destruct (index_entry B a w e t i Ha Hmac Hi) as (r & Hr & [(-> & Hn)|(Hi0 & Hacc & _ & _ & Hinv)]).
  - destruct (ok_free _ _ Ha 0%nat r Hr Hn) as [Hb _].
    destruct (request_free (session_of a r) q) as (s' & Hf & H1 & H2 & H3); [by apply nil_length_inv|].
    destruct (on_free_ok B a 0 r (λ s, CntlEnqueueForRecv_entry s q) s' Ha Hr Hn Hf H1 H2 H3) as (a' & -> & ?).
    rewrite Some_bind. by exists true, a'.
  - destruct (steady_request _ _ _ q (session_steady B a r Ha Hinv) Hq) as (s' & Hf & Hs').
    destruct (on_entry_ok B a i r (λ s, CntlEnqueueForRecv_entry s q) s' Ha Hr ltac:(by rewrite Hacc) Hf Hs')
      as (a' & -> & ? & _). rewrite Some_bind. by exists true, a'.
Qed.

Lemma flush_free OS_HZ s Now32 : qlen (list_ (ent s)) = 0 →
  ba_flush_reordering_timeout_mpdus OS_HZ s Now32 = Some s.
Proof. intros Hq. unfold ba_flush_reordering_timeout_mpdus. by rewrite Hq. Qed.

Lemma maintain_tid_ok OS_HZ B a Now32 w t :
  table_ok B a → (w < MAX_LEN_OF_MAC_TABLE)%nat → (t < NUM_OF_TID)%nat →
  ∃ a', Maintain_tid OS_HZ Now32 w t a = Some a' ∧ table_ok B a'.
Proof.
  intros Ha Hw Ht. unfold Maintain_tid.
  destruct (mac_index B a w t Ha Hw Ht) as (e & i & Hmac & Hi). rewrite Hmac, Some_bind, Hi, Some_bind.
  destruct (index_entry B a w e t i Ha Hmac Hi) as (r & Hr & [(-> & Hn)|(Hi0 & Hacc & _ & _ & Hinv)]).
  - destruct (ok_free _ _ Ha 0%nat r Hr Hn) as [_ Hq].
    destruct (on_free_ok B a 0 r (λ s, ba_flush_reordering_timeout_mpdus OS_HZ s Now32) (session_of a r) Ha Hr Hn)
      as (a' & ? & ?); [by apply flush_free|done|done|done|]. by exists a'.
  - destruct (steady_tick OS_HZ _ _ _ Now32 (session_steady B a r Ha Hinv)) as (s' & Hf & Hs' & _).
    destruct (on_entry_ok B a i r (λ s, ba_flush_reordering_timeout_mpdus OS_HZ s Now32) s' Ha Hr
      ltac:(by rewrite Hacc) Hf Hs') as (a' & ? & ? & _). by exists a'.
Qed.

Lemma maintain_ok OS_HZ B a Now32 :
  table_ok B a → ∃ a', BaReOrderingBufferMaintain OS_HZ a Now32 = Some a' ∧ table_ok B a'.
Proof.
  intros Ha. unfold BaReOrderingBufferMaintain. apply loop_opt_inv; [done|]. intros w a1 Hw Ha1.
  assert (w < MAX_LEN_OF_MAC_TABLE)%nat as Hw' by (unfold MAX_LEN_OF_MAC_TABLE in *; lia).
  destruct (lookup_lt_is_Some_2 (Content a1) w) as [e He]; [by rewrite (ok_mac _ _ Ha1)|].
  rewrite He, Some_bind. destruct (entry_none e); [by exists a1|].
  apply loop_opt_inv; [done|]. intros t a2 Ht Ha2. apply maintain_tid_ok; [done|done|lia].
Qed.

Lemma idle_ok B a i Now32 :
  table_ok B a → (i < MAX_LEN_OF_BA_REC_TABLE)%nat →
  ∃ a', BARecSessionIdleTimeout a i Now32 = Some a' ∧ table_ok B a'.
Proof.
  intros Ha Hi. unfold BARecSessionIdleTimeout.
  destruct (lookup_lt_is_Some_2 (BARecEntry a) i) as [r Hr]; [by rewrite (ok_rec _ _ Ha)|].
  rewrite Hr, Some_bind. destruct (bool_decide_reflect (REC_BA_Status r = Recipient_Accept)) as [Hs|]; cbn [andb]; [|by exists a].
  destruct (RTMP_TIME_AFTER _ _); [|by exists a].
  assert (REC_BA_Status r ≠ Recipient_NONE) as Hu by (by rewrite Hs).
  destruct (ok_used _ _ Ha i r Hr Hu) as (_ & _ & Hinv).
  destruct (refresh_steady _ _ _ (session_steady B a r Ha Hinv)) as (s' & Hf & Hs' & _).
  destruct (on_entry_ok B a i r ba_refresh_reordering_mpdus s' Ha Hr Hu Hf Hs') as (a' & ? & ? & _). by exists a'.
Qed.

(** ** Linking and unlinking an entry *)

(** Entry [i] becomes [r'] and the index of [(w, t)] follows it. *)
Lemma relink_linked B a a' i r r' w e e' t :
  table_ok B a → BARecEntry a !! i = Some r → i ≠ 0%nat → Content a !! w = Some e →
  (BARecWcidArray e !! t = Some i ∨ BARecWcidArray e !! t = Some 0%nat ∧ REC_BA_Status r = Recipient_NONE) →
  BARecWcidArray e' = <[t := if decide (REC_BA_Status r' = Recipient_NONE) then 0%nat else i]> (BARecWcidArray e) →
  (REC_BA_Status r' = Recipient_NONE ∨ REC_BA_Status r' = Recipient_Accept ∧ Wcid r' = w ∧ TID r' = t) →
  Content a' = <[w := e']> (Content a) → BARecEntry a' = <[i := r']> (BARecEntry a) →
  linked (λ r, REC_BA_Status r ≠ Recipient_NONE) Wcid TID (index_of a') (BARecEntry a').
Proof.
  intros Ha Hr Hi0 He Hidx Harr Hr' EC ER. rewrite ER. pose proof (lookup_lt_Some _ _ _ He) as Hltw.
  assert (t < length (BARecWcidArray e))%nat as Hltt by (destruct Hidx as [H|[H _]]; by apply lookup_lt_Some in H).
  apply (linked_update _ _ _ (index_of a) (index_of a') (BARecEntry a) i
    (if decide (REC_BA_Status r' = Recipient_NONE) then 0%nat else i) r r' w t (table_linked B a Ha)); try done.
  - unfold index_of. rewrite He. cbn [mbind option_bind]. destruct Hidx as [H|[H ->]]; [by left|right].
    split; [done|]. by intros [].
  - destruct Hr' as [Hs|(Hs & Hw & Ht)].
    + right. rewrite decide_True by done. split; [done|]. by intros [].
    + left. rewrite Hs. by rewrite decide_False.
  - unfold index_of. rewrite EC, list_lookup_insert_eq by done. cbn. by rewrite Harr, list_lookup_insert_eq.
  - intros w1 t1 Hne. unfold index_of. rewrite EC. destruct (decide (w = w1)) as [<-|Hw].
    + rewrite list_lookup_insert_eq, He by done. cbn. rewrite Harr, list_lookup_insert_ne; [done|].
      intros <-. by apply Hne.
    + by rewrite list_lookup_insert_ne.
Qed.

Lemma relink_ok B a i r r' w e e' t n lim h lg :
  table_ok B a → BARecEntry a !! i = Some r → i ≠ 0%nat → Content a !! w = Some e →
  (BARecWcidArray e !! t = Some i ∨ BARecWcidArray e !! t = Some 0%nat ∧ REC_BA_Status r = Recipient_NONE) →
  Aid e' = Aid e →
  BARecWcidArray e' = <[t := if decide (REC_BA_Status r' = Recipient_NONE) then 0%nat else i]> (BARecWcidArray e) →
  (REC_BA_Status r' = Recipient_NONE ∧ free_ok r' ∨
   REC_BA_Status r' = Recipient_Accept ∧ Wcid r' = w ∧ TID r' = t ∧ entry_inv r') →
  buffered r' = buffered r →
  n = numAsRecipient a + Z.of_nat (used r') - Z.of_nat (used r) → ASSERT_failed ∉ lg →
  table_ok B {| Content := <[w := e']> (Content a); BARecEntry := <[i := r']> (BARecEntry a); numAsRecipient := n;
                RxBAWinLimit := lim; halted := h; mpdu_blk_pool := mpdu_blk_pool a; log := lg |}.
Proof.
  intros Ha Hr Hi0 He Hidx Haid Harr Hr' Hbuf Hn Hlg.
  pose proof (lookup_lt_Some _ _ _ Hr) as Hlt. pose proof (lookup_lt_Some _ _ _ He) as Hltw.
  set (a' := {| Content := _ |}).
  assert (linked (λ r, REC_BA_Status r ≠ Recipient_NONE) Wcid TID (index_of a') (BARecEntry a')) as HL.
  { apply (relink_linked B a a' i r r' w e e' t); try done. destruct Hr' as [[? _]|(? & ? & ? & _)]; [by left|by right]. }
  assert (∀ j r1, BARecEntry a' !! j = Some r1 → REC_BA_Status r1 ≠ Recipient_NONE →
    REC_BA_Status r1 = Recipient_Accept ∧ entry_inv r1) as Hacc.
  { intros j r1 Hj Hu. apply list_lookup_insert_Some in Hj as [(<- & <- & _)|[_ Hj]].
    - destruct Hr' as [[? _]|(? & _ & _ & ?)]; done.
    - destruct (ok_used _ _ Ha j r1 Hj Hu) as (Hj0 & (e1 & He1 & Hx) & Hinv). split; [|done].
      destruct (ok_index _ _ Ha _ e1 _ j He1 Hx Hj0) as (r2 & Hr2 & Hs & _). congruence. }
  split.
  - cbn. rewrite length_insert. apply Ha.
  - cbn. rewrite length_insert. apply Ha.
  - intros w1 e1 H. apply list_lookup_insert_Some in H as [(<- & <- & _)|[_ H]]; [|by apply (ok_station _ _ Ha)].
    rewrite Haid, Harr, length_insert. by apply (ok_station _ _ Ha).
  - intros w1 e1 t1 j H1 Hj Hj0. destruct (link_entry _ _ _ _ _ HL w1 t1 j) as (r1 & Hr1 & Hu & ? & ?);
      [unfold index_of; by rewrite H1|done|]. exists r1. split_and!; [done|by apply (Hacc j)|done|done].
  - intros j r1 Hj Hu. destruct (link_index _ _ _ _ _ HL j r1 Hj Hu) as [Hj0 Hx]. split_and!; [done| |by apply (Hacc j)].
    unfold index_of in Hx. destruct (Content a' !! Wcid r1) as [e1|]; [by exists e1|done].
  - intros j r1 Hj Hn1. apply list_lookup_insert_Some in Hj as [(<- & <- & _)|[Hne Hj]].
    + destruct Hr' as [[_ ?]|(Hs' & _)]; [done|congruence].
    + by apply (ok_free _ _ Ha j).
  - pose proof (sumf_insert used _ i r r' Hr). cbn. rewrite Hn, (ok_count _ _ Ha). lia.
  - apply Ha.
  - cbn. rewrite (sumf_insert_same buffered _ _ r) by done. apply Ha.
  - done.
Qed.

(** An empty buffer with a window of its own. *)
Lemma fresh_inv r w st_ wc t tv :
  free_ok r → 1 <= w <= 255 →
  entry_inv {| ba := set_window (ba r) w RESET_RCV_SEQ; REC_BA_Status := st_; Wcid := wc; TID := t;
               TimeOutValue := tv |}.
Proof.
  intros [Hb Hq] Hw. apply nil_length_inv in Hb. exists (canon 0), 0.
  split; [split; [split|split]|left; by split].
  - change (qlen (list_ (ba r)) = Z.of_nat (length (next (list_ (ba r))))). by rewrite Hb, Hq.
  - done.
  - done.
  - change (Forall (good (canon 0)) (next (list_ (ba r)))). rewrite Hb. constructor.
Qed.

Lemma find_none_Some l i j :
  find_none l i = Some j → ∃ r, (i <= j)%nat ∧ l !! (j - i)%nat = Some r ∧ REC_BA_Status r = Recipient_NONE.
Proof.
  revert i. induction l as [|r l IH]; intros i; cbn [find_none]; [done|].
  destruct (decide _) as [Hs|Hs]; intros H.
  - injection H as <-. exists r. by rewrite Nat.sub_diag.
  - destruct (IH _ H) as (r' & Hj & Hl & Hs'). exists r'. split; [lia|]. split; [|done].
    replace (j - i)%nat with (S (j - S i)) by lia. done.
Qed.

Lemma find_none_None l i : find_none l i = None → Forall (λ r, REC_BA_Status r ≠ Recipient_NONE) l.
Proof.
  revert i. induction l as [|r l IH]; intros i; cbn [find_none]; [by constructor|].
  destruct (decide _); intros H; [done|]. constructor; [done|by apply (IH (S i))].
Qed.

(** The allocation fails only when the table is full. *)
Lemma BATableAllocRecEntry_ok B a :
  table_ok B a →
  BATableAllocRecEntry a = (None, None, a) ∧ 127 <= numAsRecipient a ∨
  ∃ i r, i ≠ 0%nat ∧ BARecEntry a !! i = Some r ∧ REC_BA_Status r = Recipient_NONE ∧ numAsRecipient a < 127 ∧
    BATableAllocRecEntry a =
      (Some i, Some i, set_entry (set_count a (numAsRecipient a + 1)) i (set_status r Recipient_USED)).
Proof.
  intros Ha. unfold BATableAllocRecEntry. change (Z.of_nat MAX_LEN_OF_BA_REC_TABLE - 1) with 127.
  pose proof (ok_count _ _ Ha) as Hc.
  destruct (Z.leb_spec 127 (numAsRecipient a)) as [|Hlt]; [by left|right].
  destruct (find_none _ 1) as [i|] eqn:Hf.
  - destruct (find_none_Some _ _ _ Hf) as (r & Hi & Hr & Hs). rewrite lookup_drop in Hr.
    replace (1 + (i - 1))%nat with i in Hr by lia. exists i, r. split; [lia|]. split_and!; [done..|].
    change (BARecEntry (set_count _ _)) with (BARecEntry a). rewrite Hr. by rewrite u32_small by (unfold word; lia).
  - apply find_none_None, (Forall_impl _ (λ r, used r = 1%nat) _) in Hf; [|apply used_some]. apply sumf_full in Hf. rewrite length_drop, (ok_rec _ _ Ha) in Hf.
    destruct (BARecEntry a) as [|r0 l] eqn:El; [pose proof (ok_rec _ _ Ha) as H; by rewrite El in H|].
    rewrite Hc in Hlt. unfold sumf in Hlt. cbn [foldr] in Hlt. unfold sumf in Hf. cbn [drop] in Hf. rewrite drop_0 in Hf. rewrite Hf in Hlt.
    change (MAX_LEN_OF_BA_REC_TABLE) with 128%nat in Hlt. lia.
Qed.

(** ** Set-up and tear-down keep the table in order *)

Lemma not_failed_app l e : ASSERT_failed ∉ l → e ≠ ASSERT_failed → ASSERT_failed ∉ l ++ [e].
Proof. intros Hl He. rewrite not_elem_of_app, list_elem_of_singleton. done. Qed.

Lemma aid_index w : (w < MAX_LEN_OF_MAC_TABLE)%nat → Z.to_nat (u8 (Z.of_nat w)) = w.
Proof. intros H. unfold MAX_LEN_OF_MAC_TABLE in H. rewrite u8_small by (unfold byte; lia). lia. Qed.

Lemma refreshed_entry B a i r :
  table_ok B a → BARecEntry a !! i = Some r → REC_BA_Status r ≠ Recipient_NONE →
  ∃ b a', on_entry a i ba_refresh_reordering_mpdus = Some a' ∧ table_ok B a' ∧ Content a' = Content a ∧
    BARecEntry a' !! i = Some (set_ba r b) ∧ free_ok (set_ba r b) ∧ LastIndSeq b = RESET_RCV_SEQ.
Proof.
  intros Ha Hr Hu. destruct (ok_used _ _ Ha i r Hr Hu) as (_ & _ & Hinv).
  destruct (refresh_steady _ _ _ (session_steady B a r Ha Hinv)) as (s' & Hf & Hs' & Hb & HL & _).
  destruct (on_entry_ok B a i r ba_refresh_reordering_mpdus s' Ha Hr Hu Hf Hs') as (a' & H1 & H2 & H3 & H4 & _).
  exists (ent s'), a'. split_and!; try done.
  - rewrite H4. apply list_lookup_insert_eq. by eapply lookup_lt_Some.
  - destruct (steady_entry _ _ s' r Hs') as (_ & _ & Hl & _). split; unfold buffered; cbn; rewrite ?Hl; by rewrite Hb.
Qed.

(** The window a set-up agrees to. *)
Definition agreed_window (a : adapter) (f : FRAME_ADDBA_REQ) : Z :=
  let n := Z.min (u8 (req_BufSize f)) (u8 (RxBAWinLimit a)) in if n =? 0 then 64 else n.

Lemma agreed_window_range a f : 1 <= agreed_window a f <= 255.
Proof.
  unfold agreed_window. set (m := Z.min _ _). assert (0 <= m <= 255).
  { unfold m, u8. pose proof (Z.mod_pos_bound (req_BufSize f) 256 ltac:(lia)).
    pose proof (Z.mod_pos_bound (RxBAWinLimit a) 256 ltac:(lia)). lia. }
  clearbody m. cbv zeta. destruct (Z.eqb_spec m 0); lia.
Qed.

Lemma on_entry_limit a i f a' : on_entry a i f = Some a' → RxBAWinLimit a' = RxBAWinLimit a.
Proof.
  unfold on_entry. destruct (BARecEntry a !! i) as [r|]; [|done]. rewrite Some_bind.
  destruct (f (session_of a r)) as [s|]; [|done]. rewrite Some_bind. intros H. by injection H as <-.
Qed.

(** A session accepted with its window, or a full table. *)
Definition added (a a' : adapter) (w : nat) (f : FRAME_ADDBA_REQ) (b : bool) : Prop :=
  RxBAWinLimit a' = RxBAWinLimit a ∧
  if b then ∃ i r, index_of a' w (req_TID f) = Some i ∧ BARecEntry a' !! i = Some r ∧
              REC_BA_Status r = Recipient_Accept ∧ BAWinSize (ba r) = agreed_window a f ∧
              LastIndSeq (ba r) = RESET_RCV_SEQ ∧ next (list_ (ba r)) = []
  else a' = a ∧ 127 <= numAsRecipient a.

Lemma added_entry a a' w f e' arr C i r' :
  RxBAWinLimit a' = RxBAWinLimit a → Content a' = <[w := e']> C → (w < length C)%nat →
  BARecWcidArray e' = <[req_TID f := i]> arr → (req_TID f < length arr)%nat → BARecEntry a' !! i = Some r' →
  REC_BA_Status r' = Recipient_Accept → BAWinSize (ba r') = agreed_window a f → LastIndSeq (ba r') = RESET_RCV_SEQ →
  next (list_ (ba r')) = [] → added a a' w f true.
Proof.
  intros HL HC Hw HA Ht Hr H1 H2 H3 H4. split; [done|]. exists i, r'. split_and!; try done.
  unfold index_of. rewrite HC, list_lookup_insert_eq by done. cbn. by rewrite HA, list_lookup_insert_eq.
Qed.

Lemma add_ok B a w f :
  table_ok B a → (w < MAX_LEN_OF_MAC_TABLE)%nat → (req_TID f < NUM_OF_TID)%nat →
  ∃ b a', BARecSessionAdd a w f = Some (b, a') ∧ table_ok B a' ∧ added a a' w f b.
Proof.
  intros Ha Hw Ht. unfold BARecSessionAdd. set (t := req_TID f) in *.
  destruct (mac_index B a w t Ha Hw Ht) as (e & i & He & Hi). rewrite He, Some_bind. cbv zeta. rewrite Hi, Some_bind.
  pose proof (proj1 (ok_station _ _ Ha w e He)) as Haid.
  change (if Z.min (u8 (req_BufSize f)) (u8 (RxBAWinLimit a)) =? 0 then 64
          else Z.min (u8 (req_BufSize f)) (u8 (RxBAWinLimit a))) with (agreed_window a f).
  pose proof (agreed_window_range a f) as Hwin.
  pose proof (lookup_lt_Some _ _ _ He) as Hltw. pose proof (lookup_lt_Some _ _ _ Hi) as Hltt.
  destruct (Nat.eqb_spec i 0) as [->|Hi0].
  - destruct (BATableAllocRecEntry_ok B a Ha) as [[-> ?]|(i & r & Hi0 & Hr & Hs & Hc & ->)].
    { rewrite Some_bind. exists false, a. split_and!; done. }
    rewrite Some_bind. pose proof (lookup_lt_Some _ _ _ Hr) as Hlt. cbn [BARecEntry set_entry set_count].
    rewrite list_lookup_insert_eq, Some_bind by done. change (ba (set_status r Recipient_USED)) with (ba r).
    destruct (ok_free _ _ Ha i r Hr Hs) as [Hb Hq]. rewrite Hq. cbn [Z.eqb].
    eexists true, _. split; [reflexivity|]. split.
    2: { eapply (added_entry _ _ w f _ (BARecWcidArray e) (Content a) i);
           [done|done|done|done|done|cbn; apply list_lookup_insert_eq; by rewrite length_insert|done|done|done
           |by apply nil_length_inv]. }
    unfold note, set_mac, set_entry, set_count. cbn. rewrite list_insert_insert_eq.
    apply (relink_ok B a i r _ w e _ t); try done.
    + by right.
    + right. split_and!; try done.
      * cbn. by rewrite Haid, aid_index.
      * by apply fresh_inv.
    + rewrite (used_none r Hs), used_some by done. lia.
    + repeat apply not_failed_app; [apply Ha| |done]. by destruct (Z.testbit _ _).
  - destruct (ok_index _ _ Ha w e t i He Hi Hi0) as (r & Hr & Hs & Hrw & Hrt).
    assert (REC_BA_Status r ≠ Recipient_NONE) as Hu by (by rewrite Hs).
    destruct (refreshed_entry B a i r Ha Hr Hu) as (b & a1 & Eon & Ha1 & HC & Hr1 & Hf & _). rewrite Eon.
    rewrite !Some_bind. rewrite Hr1, Some_bind. pose proof Hf as [_ Hq]. cbn in Hq. cbn [ba set_ba]. rewrite Hq. cbn [Z.eqb].
    eexists true, _. split; [reflexivity|]. split.
    2: { eapply (added_entry _ _ w f _ (BARecWcidArray e) (Content a1) i);
           [by apply (on_entry_limit _ _ _ _ Eon)|done|by rewrite HC|done|done
           |cbn; apply list_lookup_insert_eq; by eapply lookup_lt_Some|done|done|done|by apply nil_length_inv, Hf]. }
    unfold note, set_mac, set_entry. cbn.
    apply (relink_ok B a1 i (set_ba r b) _ w e _ t); try done.
    + by rewrite HC.
    + by left.
    + right. split_and!; try done.
      * cbn. by rewrite Haid, aid_index.
      * by apply (fresh_inv (set_ba r b)).
    + rewrite (used_some (set_ba r b) Hu), used_some by done. lia.
    + repeat apply not_failed_app; [apply Ha1| |done]. by destruct (Z.testbit _ _).
Qed.

Lemma teardown_ok B memory a w t p :
  table_ok B a → (t < NUM_OF_TID)%nat →
  ∃ a', BARecSessionTearDown memory a w t p = Some a' ∧ table_ok B a'.
Proof.
  intros Ha Ht. unfold BARecSessionTearDown.
  destruct (Nat.leb_spec MAX_LEN_OF_MAC_TABLE w) as [|Hw]; [by exists a|].
  destruct (mac_index B a w t Ha Hw Ht) as (e & i & He & Hi). rewrite He, Some_bind, Hi, Some_bind.
  destruct (Nat.eqb_spec i 0) as [->|Hi0]; [by exists a|].
  destruct (ok_index _ _ Ha w e t i He Hi Hi0) as (r & Hr & Hs & Hrw & Hrt). rewrite Hr, Some_bind, Hrt, Nat.eqb_refl.
  rewrite bool_decide_true by done. cbn [andb]. cbv zeta.
  set (a0 := note a _). assert (table_ok B a0) as Ha0 by (by apply note_ok).
  destruct (negb p && negb memory); [by exists a0|].
  set (a1 := if negb p then _ else _).
  assert (table_ok B a1 ∧ Content a1 = Content a ∧ BARecEntry a1 = BARecEntry a) as (Ha1 & HC1 & HR1).
  { unfold a1. destruct (negb p); [|done]. split; [by apply note_ok|done]. }
  clearbody a1. rewrite <- HR1 in Hr. rewrite <- HC1 in He. clear a0 Ha0 Ha HC1 HR1 a.
  assert (REC_BA_Status r ≠ Recipient_NONE) as Hu by (by rewrite Hs).
  destruct (refreshed_entry B a1 i r Ha1 Hr Hu) as (b & a2 & -> & Ha2 & HC & Hr2 & Hf & _).
  rewrite Some_bind, Hr2, Some_bind. pose proof (lookup_lt_Some _ _ _ Hr2) as Hlt.
  assert (0 < numAsRecipient a2 <= 128) as Hc.
  { rewrite (ok_count _ _ Ha2). pose proof (sumf_insert used _ i _ (set_status r Recipient_NONE) Hr2) as H.
    assert (used (set_ba r b) = 1%nat) as Hub by (by apply used_some).
    assert (used (set_status r Recipient_NONE) = 0%nat) as Hun by (by apply used_none).
    pose proof (sumf_le_length used (BARecEntry a2)) as Hle. rewrite (ok_rec _ _ Ha2) in Hle.
    change MAX_LEN_OF_BA_REC_TABLE with 128%nat in Hle. rewrite Hub, Hun in H.
    specialize (Hle used_le). lia. }
  unfold BATableFreeRecEntry. destruct (Nat.eqb_spec i 0); [done|]. rewrite (ok_rec _ _ Ha2) in Hlt.
  destruct (Nat.leb_spec MAX_LEN_OF_BA_REC_TABLE i); [lia|]. cbn [orb].
  cbn. rewrite list_lookup_insert_eq by (by rewrite (ok_rec _ _ Ha2)). rewrite Some_bind. cbn. rewrite Hs.
  rewrite decide_False by done. rewrite Hrw, Hrt. rewrite <- HC in He. pose proof (lookup_lt_Some _ _ _ He) as Hltw.
  rewrite list_lookup_insert_eq, Some_bind by done. cbn.
  rewrite list_lookup_insert_eq by (by eapply lookup_lt_Some). rewrite Some_bind.
  destruct (Z.eqb_spec (numAsRecipient a2) 0); [lia|]. cbn.
  eexists. split; [reflexivity|]. unfold set_entry, set_count, set_mac. cbn. rewrite !list_insert_insert_eq.
  apply (relink_ok B a2 i (set_ba r b) _ w e _ t); try done.
  - by left.
  - cbn. by rewrite list_insert_insert_eq.
  - by left.
  - rewrite (used_some (set_ba r b) Hu), used_none by done. rewrite u32_small by (unfold word; lia). lia.
  - apply not_failed_app; [apply Ha2|done].
Qed.

(** ** The reachable tables *)

Inductive table_input :=
  | AddSession (w : nat) (f : FRAME_ADDBA_REQ)
  | TearDown (memory : bool) (w tid : nat) (bPassive : bool)
  | DataFrame (rx : RX_BLK) (w tid : nat) (Now32 : Z)
  | BarFrame (w : nat) (MsgLen : Z) (tid : nat) (StartSeq : Z)
  | IdleTimer (Idx : nat) (Now32 : Z)
  | Maintain (Now32 : Z).

Definition table_handle (OS_HZ : Z) (a : adapter) (i : table_input) : option adapter :=
  match i with
  | AddSession w f => snd <$> BARecSessionAdd a w f
  | TearDown memory w tid p => BARecSessionTearDown memory a w tid p
  | DataFrame rx w tid Now32 => Indicate_AMPDU_Packet OS_HZ a rx w tid Now32
  | BarFrame w len tid q => snd <$> CntlEnqueueForRecv a w len tid q
  | IdleTimer Idx Now32 => BARecSessionIdleTimeout a Idx Now32
  | Maintain Now32 => BaReOrderingBufferMaintain OS_HZ a Now32
  end.

(** TIDs below eight, stations and timers of the tables, 12-bit sequence
    numbers, a block left in the pool, no EAPOL frame. *)
Definition table_admissible (a : adapter) (i : table_input) : Prop :=
  match i with
  | AddSession w f => (w < MAX_LEN_OF_MAC_TABLE)%nat ∧ (req_TID f < NUM_OF_TID)%nat
  | TearDown _ _ tid _ => (tid < NUM_OF_TID)%nat
  | DataFrame rx w tid _ =>
      (w < MAX_LEN_OF_MAC_TABLE)%nat ∧ (tid < NUM_OF_TID)%nat ∧ 0 <= pkt_Sequence (pRxPacket rx) < 4096 ∧
      fRX_EAP rx = false ∧ next (mpdu_blk_pool a) ≠ []
  | BarFrame _ _ _ q => 0 <= q < 4096
  | IdleTimer Idx _ => (Idx < MAX_LEN_OF_BA_REC_TABLE)%nat
  | Maintain _ => True
  end.

(** The table of a driver that starts with [num] blocks. *)
Inductive table_reachable (OS_HZ : Z) (num : nat) : adapter → Prop :=
  | table_start stations limit pool :
      length stations = MAX_LEN_OF_MAC_TABLE → ba_reordering_resource_init true num = Some pool →
      table_reachable OS_HZ num (BATableInit stations limit pool)
  | table_step a i a' :
      table_reachable OS_HZ num a → table_admissible a i → table_handle OS_HZ a i = Some a' →
      table_reachable OS_HZ num a'.

Lemma resource_init_ok num pool :
  ba_reordering_resource_init true num = Some pool →
  length (next pool) = num ∧ qlen pool = Z.of_nat num.
Proof.
  intros H. unfold ba_reordering_resource_init in H. injection H as <-.
  enough (∀ lo n l, let l' := loop lo n (λ _ freelist, ba_enqueue freelist zero_mpdu) l in
    length (next l') = (n + length (next l))%nat ∧ qlen l' = Z.of_nat n + qlen l) as H.
  { destruct (H 0%nat num {| next := []; qlen := 0 |}) as [-> ->]. cbn. lia. }
  intros lo n. revert lo. induction n as [|n IH]; intros lo l; cbv zeta; [cbn; lia|].
  change (loop lo (S n) _ l) with (loop (S lo) n (λ _ freelist, ba_enqueue freelist zero_mpdu) (ba_enqueue l zero_mpdu)).
  destruct (IH (S lo) (ba_enqueue l zero_mpdu)) as [-> ->]. cbn. lia.
Qed.

Lemma init_ok num stations limit pool :
  length stations = MAX_LEN_OF_MAC_TABLE → ba_reordering_resource_init true num = Some pool →
  table_ok num (BATableInit stations limit pool).
Proof.
  intros Hst Hp. destruct (resource_init_ok num pool Hp) as [Hl Hq].
  assert (∀ w e, Content (BATableInit stations limit pool) !! w = Some e →
    Aid e = Z.of_nat w ∧ BARecWcidArray e = replicate NUM_OF_TID 0%nat) as He.
  { intros w e H. cbn [Content BATableInit] in H. rewrite list_lookup_imap in H.
    destruct (stations !! w); [|done]. injection H as <-. done. }
  split; cbn [Content BARecEntry numAsRecipient mpdu_blk_pool log BATableInit].
  - by rewrite length_imap.
  - apply length_replicate.
  - intros w e H. destruct (He w e H) as [? ->]. split; [done|apply length_replicate].
  - intros w e t i H Hi Hi0. destruct (He w e H) as [_ E]. rewrite E in Hi.
    apply lookup_replicate in Hi as [-> _]. done.
  - intros i r H Hu. apply lookup_replicate in H as [-> _]. by destruct Hu.
  - intros i r H _. apply lookup_replicate in H as [-> _]. done.
  - rewrite sumf_replicate; [done|by apply used_none].
  - by rewrite Hl.
  - rewrite sumf_replicate; [lia|done].
  - apply not_elem_of_nil.
Qed.

Lemma table_handle_ok OS_HZ B a i :
  0 <= OS_HZ <= 100000 → table_ok B a → table_admissible a i →
  ∃ a', table_handle OS_HZ a i = Some a' ∧ table_ok B a'.
Proof.
  intros hz Ha Hi. destruct i as [w f|m w t p|rx w t n|w len t q|i n|n]; cbn [table_handle table_admissible] in *.
  - destruct Hi as [Hw Ht]. destruct (add_ok B a w f Ha Hw Ht) as (b & a' & -> & ? & _). by exists a'.
  - by apply teardown_ok.
  - destruct Hi as (Hw & Ht & Hs & He & Hp). by apply (indicate_ok OS_HZ B).
  - destruct (request_table_ok B a w len t q Ha Hi) as (b & a' & -> & ?). by exists a'.
  - by apply idle_ok.
  - by apply maintain_ok.
Qed.

Lemma reachable_table_ok OS_HZ num a : 0 <= OS_HZ <= 100000 → table_reachable OS_HZ num a → table_ok num a.
Proof.
  intros hz. induction 1 as [stations limit pool Hst Hp|a i a' _ IH Hi Hs]; [by apply init_ok|].
  destruct (table_handle_ok OS_HZ num a i hz IH Hi) as (a1 & H1 & H2). by assert (a' = a1) as -> by congruence.
Qed.

Lemma count_accepted l :
  (∀ i r, l !! i = Some r → REC_BA_Status r = Recipient_NONE ∨ REC_BA_Status r = Recipient_Accept) →
  sumf used l = length (filter (λ r, REC_BA_Status r = Recipient_Accept) l).
Proof.
  induction l as [|r l IH]; intros H; [done|].
  assert (sumf used l = length (filter (λ r, REC_BA_Status r = Recipient_Accept) l)) as E
    by (apply IH; intros i; apply (H (S i))).
  unfold sumf in *. cbn [foldr]. rewrite E. destruct (H 0%nat r eq_refl) as [Hs|Hs].
  - rewrite (used_none r Hs), filter_cons_False by congruence. done.
  - rewrite (used_some r), filter_cons_True by congruence. done.
Qed.

(** ** The properties *)

(** The stations and TIDs of a table, and its entries. *)
Definition points_to (a : adapter) (w t i : nat) : Prop :=
  ∃ e, Content a !! w = Some e ∧ BARecWcidArray e !! t = Some i.

(** C5: in every reachable table an entry is free or an accepted session;
    the index of a station and TID leads to the entry of that station and TID,
    and every accepted entry is led to, so two sessions never share a
    reordering buffer; the count of sessions is the number of accepted entries,
    and entry 0, which stands for no session, is never one; free entries hold
    no frame. *)
Theorem ba_table_consistent OS_HZ num a :
  0 <= OS_HZ <= 100000 → table_reachable OS_HZ num a →
  (∀ i r, BARecEntry a !! i = Some r →
    REC_BA_Status r = Recipient_NONE ∧ next (list_ (ba r)) = [] ∨
    REC_BA_Status r = Recipient_Accept ∧ i ≠ 0%nat ∧ points_to a (Wcid r) (TID r) i) ∧
  (∀ w t i, points_to a w t i → i ≠ 0%nat →
    ∃ r, BARecEntry a !! i = Some r ∧ REC_BA_Status r = Recipient_Accept ∧ Wcid r = w ∧ TID r = t) ∧
  numAsRecipient a = Z.of_nat (length (filter (λ r, REC_BA_Status r = Recipient_Accept) (BARecEntry a))) ∧
  0 <= numAsRecipient a < Z.of_nat MAX_LEN_OF_BA_REC_TABLE.
Proof.
  intros hz Hr. pose proof (reachable_table_ok OS_HZ num a hz Hr) as Ha.
  assert (∀ i r, BARecEntry a !! i = Some r → REC_BA_Status r ≠ Recipient_NONE →
    REC_BA_Status r = Recipient_Accept ∧ i ≠ 0%nat ∧ points_to a (Wcid r) (TID r) i) as Huse.
  { intros i r Hi Hu. destruct (ok_used _ _ Ha i r Hi Hu) as (Hi0 & (e & He & Hx) & _).
    destruct (ok_index _ _ Ha _ e _ i He Hx Hi0) as (r' & Hr' & Hs & _). assert (r' = r) as -> by congruence.
    split_and!; [done..|]. by exists e. }
  assert (numAsRecipient a = Z.of_nat (length (filter (λ r, REC_BA_Status r = Recipient_Accept) (BARecEntry a)))) as Hn.
  { rewrite (ok_count _ _ Ha). f_equal. apply count_accepted. intros i r Hi.
    destruct (decide (REC_BA_Status r = Recipient_NONE)) as [?|Hu]; [by left|right]. by apply (Huse i). }
  split_and!; [| |done|rewrite (ok_count _ _ Ha); lia|].
  - intros i r Hi. destruct (decide (REC_BA_Status r = Recipient_NONE)) as [Hu|Hu]; [left|right; by apply Huse].
    split; [done|]. apply nil_length_inv. by apply (ok_free _ _ Ha i r Hi Hu).
  - intros w t i (e & He & Hx) Hi0. by apply (ok_index _ _ Ha w e t i).
  - rewrite (ok_count _ _ Ha). destruct (BARecEntry a) as [|r0 l] eqn:El; [done|].
    assert (used r0 = 0%nat) as H0.
    { unfold used. destruct (decide _); [done|]. by destruct (Huse 0%nat r0) as (_ & ? & _); [|done|]. }
    pose proof (sumf_le_length used l) as Hle. pose proof (ok_rec _ _ Ha) as HL. rewrite El in HL. cbn [length] in HL.
    specialize (Hle used_le). unfold sumf in *. cbn [foldr]. lia.
Qed.

(** C6: every input of a reachable table is handled: no access leaves a
    table, no loop runs on, no assertion fails, and no block of the pool is
    lost or made. *)
Theorem ba_table_handles_input OS_HZ num a i :
  0 <= OS_HZ <= 100000 → table_reachable OS_HZ num a → table_admissible a i →
  ∃ a', table_handle OS_HZ a i = Some a' ∧ table_reachable OS_HZ num a' ∧ (ASSERT_failed ∉ log a') ∧
    (length (next (mpdu_blk_pool a')) + sumf buffered (BARecEntry a') = num)%nat.
Proof.
  intros hz Hr Hi. destruct (table_handle_ok OS_HZ num a i hz (reachable_table_ok _ _ _ hz Hr) Hi) as (a' & Hs & Ha).
  exists a'. split_and!; [done|by apply (table_step _ _ a i)|apply Ha|apply Ha].
Qed.

(** C34: a TID of eight or more, which the four bits of an ADDBA request, a
    DELBA frame and the receive descriptor allow, is used as an index outside
    [BARecWcidArray]: nothing checks it but the handler of block-ack
    requests, which refuses it. *)
Theorem ba_tid_unchecked OS_HZ num a w tid :
  0 <= OS_HZ <= 100000 → table_reachable OS_HZ num a → (w < MAX_LEN_OF_MAC_TABLE)%nat → (NUM_OF_TID <= tid)%nat →
  (∀ f, req_TID f = tid → BARecSessionAdd a w f = None) ∧
  (∀ memory p, BARecSessionTearDown memory a w tid p = None) ∧
  (∀ rx Now32, fRX_AMSDU rx = true ∨ DataSize rx <= MAX_RX_PKT_LEN →
    Indicate_AMPDU_Packet OS_HZ a rx w tid Now32 = None) ∧
  (∀ len q, CntlEnqueueForRecv a w len tid q = Some (false, a)).
Proof.
  intros hz Hr Hw Ht. pose proof (reachable_table_ok OS_HZ num a hz Hr) as Ha.
  destruct (lookup_lt_is_Some_2 (Content a) w) as [e He]; [by rewrite (ok_mac _ _ Ha)|].
  assert (BARecWcidArray e !! tid = None) as Hn.
  { apply lookup_ge_None_2. by rewrite (proj2 (ok_station _ _ Ha w e He)). }
  split_and!.
  - intros f <-. unfold BARecSessionAdd. rewrite He, Some_bind. cbv zeta. by rewrite Hn.
  - intros m p. unfold BARecSessionTearDown. destruct (Nat.leb_spec MAX_LEN_OF_MAC_TABLE w); [lia|].
    by rewrite He, Some_bind, Hn.
  - intros rx n Hx. unfold Indicate_AMPDU_Packet.
    assert (negb (fRX_AMSDU rx) && (MAX_RX_PKT_LEN <? DataSize rx) = false) as ->.
    { destruct Hx as [->|Hx]; [done|]. destruct (Z.ltb_spec MAX_RX_PKT_LEN (DataSize rx)); [lia|]. apply andb_false_r. }
    destruct (Nat.ltb_spec w MAX_LEN_OF_MAC_TABLE); [|lia]. by rewrite He, Some_bind, Hn.
  - intros len q. unfold CntlEnqueueForRecv. destruct (halted a); [done|]. destruct (_ <? len); [done|].
    destruct (negb _); [done|]. destruct (Nat.ltb_spec tid 8) as [H|_]; [by apply Nat.le_ngt in Ht|].
    by rewrite andb_false_r.
Qed.

(** ** A table for the examples: six blocks, station 1 with a session on TID 0
    that buffers frame 7 and one on TID 5 that has been torn down. *)

Definition demo_request (tid : nat) : FRAME_ADDBA_REQ := {| req_TID := tid; req_BufSize := 8; req_TimeOutValue := 0 |}.

Definition demo_inputs : list table_input :=
  [AddSession 1 (demo_request 5); AddSession 1 (demo_request 0); DataFrame (demo_frame 5) 1 0 10;
   DataFrame (demo_frame 7) 1 0 11; TearDown true 1 5 false; Maintain 12].

Fixpoint table_run (OS_HZ : Z) (l : list table_input) (a : adapter) : option adapter :=
  match l with
  | [] => Some a
  | i :: l => a' ← table_handle OS_HZ a i; table_run OS_HZ l a'
  end.

Fixpoint admissible_run (OS_HZ : Z) (l : list table_input) (a : adapter) : Prop :=
  match l with
  | [] => True
  | i :: l => table_admissible a i ∧
      match table_handle OS_HZ a i with Some a' => admissible_run OS_HZ l a' | None => False end
  end.

Lemma table_run_reachable OS_HZ num l a a' :
  table_reachable OS_HZ num a → admissible_run OS_HZ l a → table_run OS_HZ l a = Some a' →
  table_reachable OS_HZ num a'.
Proof.
  revert a. induction l as [|i l IH]; intros a Ha; cbn [admissible_run table_run].
  - intros _ H. by injection H as <-.
  - intros [Hi Hl] H. destruct (table_handle OS_HZ a i) as [a1|] eqn:E; [|done]. rewrite Some_bind in H.
    apply (IH a1); [by apply (table_step _ _ a i)|done|done].
Qed.

Definition demo_start : adapter :=
  BATableInit (replicate 32 false) 16 (default {| next := []; qlen := 0 |} (ba_reordering_resource_init true 6)).

Definition demo_table : adapter := default demo_start (table_run 100 demo_inputs demo_start).

Lemma demo_table_reachable : table_reachable 100 6 demo_table.
Proof.
  apply (table_run_reachable 100 6 demo_inputs demo_start).
  - by apply (table_start 100 6 (replicate 32 false) 16).
  - vm_compute. split_and!; first [done|lia|congruence].
  - vm_compute. reflexivity.
Qed.

Lemma ba_table_consistent_witness :
  (∀ i r, BARecEntry demo_table !! i = Some r →
    REC_BA_Status r = Recipient_NONE ∧ next (list_ (ba r)) = [] ∨
    REC_BA_Status r = Recipient_Accept ∧ i ≠ 0%nat ∧ points_to demo_table (Wcid r) (TID r) i) ∧
  (∀ w t i, points_to demo_table w t i → i ≠ 0%nat →
    ∃ r, BARecEntry demo_table !! i = Some r ∧ REC_BA_Status r = Recipient_Accept ∧ Wcid r = w ∧ TID r = t) ∧
  numAsRecipient demo_table =
    Z.of_nat (length (filter (λ r, REC_BA_Status r = Recipient_Accept) (BARecEntry demo_table))) ∧
  0 <= numAsRecipient demo_table < Z.of_nat MAX_LEN_OF_BA_REC_TABLE.
Proof. apply (ba_table_consistent 100 6 demo_table); [lia|apply demo_table_reachable]. Defined.

Lemma ba_table_handles_input_witness :
  ∃ a', table_handle 100 demo_table (AddSession 1 (demo_request 0)) = Some a' ∧ table_reachable 100 6 a' ∧
    (ASSERT_failed ∉ log a') ∧
    (length (next (mpdu_blk_pool a')) + sumf buffered (BARecEntry a') = 6)%nat.
Proof.
  apply (ba_table_handles_input 100 6 demo_table); [lia|apply demo_table_reachable|].
  split; apply Nat.ltb_lt; reflexivity.
Defined.

Lemma ba_tid_unchecked_witness :
  (∀ f, req_TID f = 8%nat → BARecSessionAdd demo_table 1 f = None) ∧
  (∀ memory p, BARecSessionTearDown memory demo_table 1 8 p = None) ∧
  (∀ rx Now32, fRX_AMSDU rx = true ∨ DataSize rx <= MAX_RX_PKT_LEN →
    Indicate_AMPDU_Packet 100 demo_table rx 1 8 Now32 = None) ∧
  (∀ len q, CntlEnqueueForRecv demo_table 1 len 8 q = Some (false, demo_table)).
Proof.
  apply (ba_tid_unchecked 100 6 demo_table 1 8); [lia|apply demo_table_reachable| |];
    [apply Nat.ltb_lt|apply Nat.leb_le]; reflexivity.
Defined.
