(* ===== verification/BaOriginator.v ===== *)
(** * Block-ack negotiation of the rt5370 driver

    Models the originator's session table of
    [linux/Arch/rt5370.driver/common/ba_action.c], the retries of an
    unanswered ADDBA request, and the handlers of the ADDBA request, ADDBA
    response and DELBA frames, which work on both tables.  The receive fields
    of the stations and the recipient's table are those of [BaSession]; the
    transmit fields are a second list with the same index.  A timer is the
    value it has been started with, if it is pending. *)

From stdpp Require Import base list numbers list_numbers.
From Stdlib Require Import ZArith Lia Btauto.
From S2P Require Import Prelude BaReorder Link BaSession.

Definition MAX_LEN_OF_BA_ORI_TABLE : nat := (NUM_OF_TID * MAX_LEN_OF_MAC_TABLE) / 2.
Definition ORI_SESSION_MAX_RETRY : Z := 8.
Definition ORI_BA_SESSION_TIMEOUT : Z := 2000.
Definition FIXED_TXMODE_HT : Z := 0.
Definition IMMED_BA : Z := 1.
Definition sizeof_FRAME_ADDBA_REQ : Z := 33.
Definition sizeof_FRAME_ADDBA_RSP : Z := 33.
Definition sizeof_FRAME_DELBA_REQ : Z := 30.

Inductive ORI_BLOCKACK_STATUS := Originator_NONE | Originator_USED | Originator_WaitRes | Originator_Done.

#[export] Instance ori_status_eq_dec : EqDecision ORI_BLOCKACK_STATUS.
Proof. solve_decision. Defined.

Record BA_ORI_ENTRY := {
  o_Wcid : nat;
  o_TID : nat;
  o_BAWinSize : Z;
  Token : Z;
  o_Sequence : Z;
  o_TimeOutValue : Z;
  ORI_BA_Status : ORI_BLOCKACK_STATUS;
  ORIBATimer : option Z;
}.

(** The transmit fields of [MAC_TABLE_ENTRY]. *)
Record station := {
  TXBAbitmap : Z;
  BAOriWcidArray : list nat;
  TxSeq : list Z;
  MaxRAmpduFactor : Z;
  MCSSet2 : Z;
  ralink_chipset : bool;
  ht_station : bool;
}.

Record device := {
  rx : adapter;
  stations : list station;
  BAOriEntry : list BA_ORI_ENTRY;
  numAsOriginator : Z;
  numDoneOriginator : Z;
}.

(** What the handlers read of the configuration and the state of the link. *)
Record config := {
  AutoBA : bool;
  FixedTxMode : Z;
  bBADecline : bool;
  TxPath : Z;
  monitor_on : bool;
  scanning : bool;
  tgn_wifi_on : bool;
}.

Definition on_rx (d : device) (a : adapter) : device :=
  {| rx := a; stations := stations d; BAOriEntry := BAOriEntry d; numAsOriginator := numAsOriginator d;
     numDoneOriginator := numDoneOriginator d |}.

Definition dnote (d : device) (e : event) : device := on_rx d (note (rx d) e).

Definition set_station (d : device) (w : nat) (s : station) : device :=
  {| rx := rx d; stations := <[w := s]> (stations d); BAOriEntry := BAOriEntry d;
     numAsOriginator := numAsOriginator d; numDoneOriginator := numDoneOriginator d |}.

Definition set_ori (d : device) (i : nat) (r : BA_ORI_ENTRY) : device :=
  {| rx := rx d; stations := stations d; BAOriEntry := <[i := r]> (BAOriEntry d);
     numAsOriginator := numAsOriginator d; numDoneOriginator := numDoneOriginator d |}.

Definition set_counts (d : device) (n done : Z) : device :=
  {| rx := rx d; stations := stations d; BAOriEntry := BAOriEntry d; numAsOriginator := n;
     numDoneOriginator := done |}.

Definition set_ori_index (s : station) (tid idx : nat) : station :=
  {| TXBAbitmap := TXBAbitmap s; BAOriWcidArray := <[tid := idx]> (BAOriWcidArray s); TxSeq := TxSeq s;
     MaxRAmpduFactor := MaxRAmpduFactor s; MCSSet2 := MCSSet2 s; ralink_chipset := ralink_chipset s;
     ht_station := ht_station s |}.

Definition set_txbitmap (s : station) (b : Z) : station :=
  {| TXBAbitmap := b; BAOriWcidArray := BAOriWcidArray s; TxSeq := TxSeq s;
     MaxRAmpduFactor := MaxRAmpduFactor s; MCSSet2 := MCSSet2 s; ralink_chipset := ralink_chipset s;
     ht_station := ht_station s |}.

Definition set_timer (r : BA_ORI_ENTRY) (t : option Z) : BA_ORI_ENTRY :=
  {| o_Wcid := o_Wcid r; o_TID := o_TID r; o_BAWinSize := o_BAWinSize r; Token := Token r;
     o_Sequence := o_Sequence r; o_TimeOutValue := o_TimeOutValue r; ORI_BA_Status := ORI_BA_Status r;
     ORIBATimer := t |}.

Definition set_ori_status (r : BA_ORI_ENTRY) (v : ORI_BLOCKACK_STATUS) (token : Z) : BA_ORI_ENTRY :=
  {| o_Wcid := o_Wcid r; o_TID := o_TID r; o_BAWinSize := o_BAWinSize r; Token := token;
     o_Sequence := o_Sequence r; o_TimeOutValue := o_TimeOutValue r; ORI_BA_Status := v;
     ORIBATimer := ORIBATimer r |}.

(** [RTMPSetTimer]: nothing happens while the driver halts. *)
Definition RTMPSetTimer (d : device) (r : BA_ORI_ENTRY) (v : Z) : BA_ORI_ENTRY :=
  if halted (rx d) then r else set_timer r (Some v).

(** ** The table *)

Fixpoint find_ori_none (l : list BA_ORI_ENTRY) (i : nat) : option nat :=
  match l with
  | [] => None
  | r :: l => if decide (ORI_BA_Status r = Originator_NONE) then Some i else find_ori_none l (S i)
  end.

Definition BATableAllocOriEntry (d : device) : option nat * option nat * device :=
  if Z.of_nat MAX_LEN_OF_BA_ORI_TABLE - 1 <=? numAsOriginator d then (None, None, d)
  else
    match find_ori_none (drop 1 (BAOriEntry d)) 1 with
    | Some i =>
        let d := set_counts d (u32 (numAsOriginator d + 1)) (numDoneOriginator d) in
        match BAOriEntry d !! i with
        | Some r => (Some i, Some i, set_ori d i (set_ori_status r Originator_USED (Token r)))
        | None => (None, None, d)
        end
    | None => (Some (MAX_LEN_OF_BA_ORI_TABLE - 1)%nat, None, d)
    end.

Definition BATableFreeOriEntry (d : device) (Idx : nat) : option device :=
  if (Idx =? 0)%nat || (MAX_LEN_OF_BA_ORI_TABLE <=? Idx)%nat then Some d
  else
    r ← BAOriEntry d !! Idx;
    if decide (ORI_BA_Status r = Originator_NONE) then Some d
    else
      s ← stations d !! o_Wcid r;
      _ ← BAOriWcidArray s !! o_TID r;
      let s := set_ori_index s (o_TID r) 0 in
      let done := bool_decide (ORI_BA_Status r = Originator_Done) in
      let s := if done then set_txbitmap s (u16 (TXBAbitmap s & Z.lnot (Z.shiftl 1 (Z.of_nat (o_TID r))))) else s in
      let d := set_counts d (numAsOriginator d) (if done then u32 (numDoneOriginator d - 1) else numDoneOriginator d) in
      let d := set_station d (o_Wcid r) s in
      let d := if numAsOriginator d =? 0 then dnote d ASSERT_failed else d in
      let d := set_counts d (u32 (numAsOriginator d - 1)) (numDoneOriginator d) in
      Some (set_ori d Idx (set_ori_status r Originator_NONE 0)).

(** ** Sessions *)

Definition status_ge_WaitRes (v : ORI_BLOCKACK_STATUS) : bool :=
  match v with Originator_WaitRes | Originator_Done => true | _ => false end.

Definition BAOriSessionSetUp (c : config) (d : device) (w tid : nat) (TimeOut DelayTime : Z) (isForced : bool)
    : option device :=
  if (NUM_OF_TID <=? tid)%nat then Some (dnote d ASSERT_failed)
  else if negb (AutoBA c) && negb isForced then Some d
  else if negb (FixedTxMode c =? FIXED_TXMODE_HT) then Some d
  else
    e ← Content (rx d) !! w;
    s ← stations d !! w;
    let DelayTime := if Z.testbit (BADeclineBitmap e) (Z.of_nat tid) && negb isForced then 3000 else DelayTime in
    Idx ← BAOriWcidArray s !! tid;
    let '(p, Idx, d) :=
      if (Idx =? 0)%nat then
        let '(p, i, d) := BATableAllocOriEntry d in (p, match i with Some i => i | None => Idx end, d)
      else (Some Idx, Idx, d) in
    match p with
    | None => Some d
    | Some p =>
        r ← BAOriEntry d !! p;
        if status_ge_WaitRes (ORI_BA_Status r) then Some d
        else
          seq ← TxSeq s !! tid;
          let d := set_station d w (set_ori_index s tid Idx) in
          let r := {| o_Wcid := Z.to_nat (u8 (Aid e)); o_TID := tid; o_BAWinSize := u8 (RxBAWinLimit (rx d));
                      Token := 1; o_Sequence := seq; o_TimeOutValue := TimeOut;
                      ORI_BA_Status := Originator_WaitRes; ORIBATimer := ORIBATimer r |} in
          (* [RTMPInitTimer] or [RTMPCancelTimer] *)
          let r := set_timer r None in
          Some (set_ori d p (RTMPSetTimer d r DelayTime))
    end.

(** [BA_MaxWinSizeReasign]; the sizes are bytes. *)
Definition BA_MaxWinSizeReasign (c : config) (s : station) (WinSize : Z) : Z :=
  let MaxPeerRxSize := u8 ((Z.shiftl 1 (MaxRAmpduFactor s + 3) * 10) / 16 - 1) in
  let MaxSize := if (TxPath c =? 3) && negb (MCSSet2 s =? 0) then 31 else 20 in
  let MaxSize := if negb (ralink_chipset s) then Z.min MaxPeerRxSize MaxSize else MaxSize in
  if MaxSize <? WinSize then MaxSize else WinSize.

Record FRAME_ADDBA_RSP := { rsp_StatusCode : Z; rsp_TID : nat; rsp_Policy : Z; rsp_BufSize : Z; rsp_TimeOutValue : Z }.

(** [memory]: whether the block-ack request that follows can be allocated.
    The timer is not started again: its value has just been set to 0. *)
Definition BAOriSessionAdd (c : config) (memory : bool) (d : device) (w : nat) (pFrame : FRAME_ADDBA_RSP)
    : option device :=
  s ← stations d !! w;
  let TID := rsp_TID pFrame in
  Idx ← BAOriWcidArray s !! TID;
  r ← BAOriEntry d !! Idx;
  if negb (Idx =? 0)%nat && (o_TID r =? TID)%nat && bool_decide (ORI_BA_Status r = Originator_WaitRes) then
    let MaxPeerBufSize := u8 (rsp_BufSize pFrame) in
    let MaxPeerBufSize := if 0 <? MaxPeerBufSize then MaxPeerBufSize - 1 else 0 in
    seq ← TxSeq s !! TID;
    let r := {| o_Wcid := o_Wcid r; o_TID := o_TID r;
                o_BAWinSize := BA_MaxWinSizeReasign c s (Z.min (o_BAWinSize r) MaxPeerBufSize);
                Token := Token r; o_Sequence := seq; o_TimeOutValue := rsp_TimeOutValue pFrame;
                ORI_BA_Status := Originator_Done; ORIBATimer := None |} in
    let d := set_counts d (numAsOriginator d) (u32 (numDoneOriginator d + 1)) in
    let d := set_ori d Idx r in
    let d := set_station d w (set_txbitmap s (u16 (TXBAbitmap s .| Z.shiftl 1 (Z.of_nat TID)))) in
    Some (if memory then dnote d (Send_BAR (Z.of_nat (o_Wcid r)) (o_Sequence r) (Z.of_nat (o_TID r))) else d)
  else Some d.

(** [memory]: whether the element for the DELBA request can be allocated. *)
Definition BAOriSessionTearDown (memory : bool) (d : device) (w tid : nat) (bPassive bForceSend : bool)
    : option device :=
  if (MAX_LEN_OF_MAC_TABLE <=? w)%nat then Some d
  else
    s ← stations d !! w;
    Idx ← BAOriWcidArray s !! tid;
    if (Idx =? 0)%nat || (MAX_LEN_OF_BA_ORI_TABLE <=? Idx)%nat then
      Some (if bForceSend && memory then dnote d (MlmeDELBAAction (Z.of_nat w) (Z.of_nat tid) ORIGINATOR) else d)
    else
      r ← BAOriEntry d !! Idx;
      let send := negb bPassive && (tid =? o_TID r)%nat && bool_decide (ORI_BA_Status r = Originator_Done) in
      if send && negb memory then Some d
      else
        let d := if send then dnote d (MlmeDELBAAction (Z.of_nat w) (Z.of_nat (o_TID r)) ORIGINATOR) else d in
        let d := set_ori d Idx (set_timer r None) in
        BATableFreeOriEntry d Idx.

Definition BASessionTearDownALL (memory : bool) (d : device) (w : nat) : option device :=
  loop_opt 0 NUM_OF_TID (λ tid d,
    d ← BAOriSessionTearDown memory d w tid false false;
    a ← BARecSessionTearDown memory (rx d) w tid false;
    Some (on_rx d a)) d.

(** ** The timer of a session, and the request it sends *)

(** [scanning]: infrastructure mode, connected, and a scan in progress. *)
Definition BAOriSessionSetupTimeout (c : config) (d : device) (Idx : nat) : option device :=
  r ← BAOriEntry d !! Idx;
  (* the timer that fired is no longer pending *)
  let r := set_timer r None in
  let d := set_ori d Idx r in
  if monitor_on c then Some d
  else
    e ← Content (rx d) !! o_Wcid r;
    s ← stations d !! o_Wcid r;
    if bool_decide (ORI_BA_Status r = Originator_WaitRes) && (Token r <? ORI_SESSION_MAX_RETRY) then
      if scanning c then Some (set_ori d Idx (RTMPSetTimer d r ORI_BA_SESSION_TIMEOUT))
      else
        let d := dnote d (MlmeEnqueue_ADDBA (u8 (Aid e)) (u8 (RxBAWinLimit (rx d))) 0 (Z.of_nat (o_TID r)) (Token r)) in
        let r := set_ori_status r (ORI_BA_Status r) (u8 (Token r + 1)) in
        Some (set_ori d Idx (RTMPSetTimer d r ORI_BA_SESSION_TIMEOUT))
    else
      i ← BAOriWcidArray s !! o_TID r;
      BATableFreeOriEntry d i.

(** [MlmeADDBAAction] on a request that [MlmeEnqueue_ADDBA] records; [unicast]
    is the check of the peer's address, [memory] that of the frame's buffer. *)
Definition MlmeADDBAAction (unicast memory : bool) (d : device) (w : nat) (BaBufSize TimeOutValue : Z) (tid : nat)
    (token : Z) : option device :=
  if (w <? MAX_LEN_OF_MAC_TABLE)%nat && unicast && (0 <? w)%nat && (w <? MAX_LEN_OF_MAC_TABLE)%nat && memory then
    s ← stations d !! w;
    Idx ← BAOriWcidArray s !! tid;
    if (Idx =? 0)%nat then Some d
    else
      seq ← TxSeq s !! tid;
      Some (dnote d (Send_ADDBA_REQ (Z.of_nat w) (Z.of_nat tid) BaBufSize token TimeOutValue seq))
  else Some d.

(** ** The frames of the peer *)

(** An ADDBA request with the fields [BARecSessionAdd] reads, its token and
    its policy. *)
Record addba_request := { areq : FRAME_ADDBA_REQ; areq_Token : Z; areq_Policy : Z }.

Record FRAME_DELBA_REQ := { del_Initiator : Z; del_TID : nat }.

Definition PeerAddBAReqActionSanity (f : addba_request) (MsgLen : Z) : bool :=
  negb (MsgLen <? sizeof_FRAME_ADDBA_REQ) && (areq_Policy f =? IMMED_BA).

Definition PeerAddBARspActionSanity (f : FRAME_ADDBA_RSP) (MsgLen : Z) : bool :=
  negb (MsgLen <? sizeof_FRAME_ADDBA_RSP) && (rsp_Policy f =? IMMED_BA).

Definition PeerDelBAActionSanity (w : nat) (MsgLen : Z) : bool :=
  (MsgLen =? sizeof_FRAME_DELBA_REQ) && negb (MAX_LEN_OF_MAC_TABLE <=? w)%nat.

(** The window of the response. *)
Definition answered_window (a : adapter) (f : FRAME_ADDBA_REQ) : Z :=
  let n := Z.min (u8 (req_BufSize f)) (u8 (RxBAWinLimit a)) in
  if n =? 0 then 64 else n.

(** The assertion on the association state of the sender is left out. *)
Definition PeerAddBAReqAction (c : config) (memory : bool) (d : device) (w : nat) (MsgLen : Z) (f : addba_request)
    : option device :=
  if (MAX_LEN_OF_MAC_TABLE <=? w)%nat then Some d
  else
    s ← stations d !! w;
    '(Status, d) ←
      (if PeerAddBAReqActionSanity f MsgLen then
         if negb (bBADecline c) && ht_station s then
           '(ok, a) ← BARecSessionAdd (rx d) w (areq f);
           Some (if ok : bool then 0 else 38, on_rx d a)
         else Some (37, d)
       else Some (1, d));
    if negb memory then Some d
    else Some (dnote d (Send_ADDBA_RSP (Z.of_nat w) (areq_Token f) Status (Z.of_nat (req_TID (areq f)))
                          (answered_window (rx d) (areq f)))).

Definition PeerAddBARspAction (c : config) (memory : bool) (d : device) (w : nat) (MsgLen : Z) (f : FRAME_ADDBA_RSP)
    : option device :=
  if (MAX_LEN_OF_MAC_TABLE <=? w)%nat then Some d
  else if PeerAddBARspActionSanity f MsgLen then
    d ← (if rsp_StatusCode f =? 0 then BAOriSessionAdd c memory d w f
         else BAOriSessionTearDown memory d w (rsp_TID f) true false);
    if (rsp_StatusCode f =? 37) || (tgn_wifi_on c && negb (rsp_StatusCode f =? 0)) then
      e ← Content (rx d) !! w;
      Some (on_rx d (set_mac (rx d) w (set_bitmaps e (RXBAbitmap e)
              (u16 (BADeclineBitmap e .| Z.shiftl 1 (Z.of_nat (rsp_TID f)))))))
    else Some d
  else Some d.

Definition PeerDelBAAction (memory : bool) (d : device) (w : nat) (MsgLen : Z) (f : FRAME_DELBA_REQ) : option device :=
  if PeerDelBAActionSanity w MsgLen then
    if del_Initiator f =? ORIGINATOR then
      a ← BARecSessionTearDown memory (rx d) w (del_TID f) true;
      Some (on_rx d a)
    else BAOriSessionTearDown memory d w (del_TID f) true false
  else Some d.

Inductive ba_frame := ADDBA_REQ (f : addba_request) | ADDBA_RESP (f : FRAME_ADDBA_RSP) | DELBA (f : FRAME_DELBA_REQ).

Definition PeerBAAction (c : config) (memory : bool) (d : device) (w : nat) (MsgLen : Z) (f : ba_frame)
    : option device :=
  match f with
  | ADDBA_REQ f => PeerAddBAReqAction c memory d w MsgLen f
  | ADDBA_RESP f => PeerAddBARspAction c memory d w MsgLen f
  | DELBA f => PeerDelBAAction memory d w MsgLen f
  end.

(** ** The invariant of the originator's table *)

Definition ori_index (d : device) (w t : nat) : option nat := s ← stations d !! w; BAOriWcidArray s !! t.

Definition ori_used (r : BA_ORI_ENTRY) : nat := if decide (ORI_BA_Status r = Originator_NONE) then 0%nat else 1%nat.
Definition ori_done (r : BA_ORI_ENTRY) : nat := if decide (ORI_BA_Status r = Originator_Done) then 1%nat else 0%nat.

(** Entries at rest: only a request that waits has a timer. *)
Definition entry_state (r : BA_ORI_ENTRY) : Prop :=
  match ORI_BA_Status r with
  | Originator_NONE | Originator_Done => ORIBATimer r = None
  | Originator_USED => False
  | Originator_WaitRes => 1 <= Token r <= ORI_SESSION_MAX_RETRY ∧ byte (o_BAWinSize r)
  end.

(** Whether a session is established. *)
Definition done_at (d : device) (w t : nat) : bool :=
  match ori_index d w t with
  | Some i => match BAOriEntry d !! i with
              | Some r => bool_decide (ORI_BA_Status r = Originator_Done)
              | None => false
              end
  | None => false
  end.

Record ori_ok (d : device) : Prop := {
  oo_stations : length (stations d) = MAX_LEN_OF_MAC_TABLE;
  oo_entries : length (BAOriEntry d) = MAX_LEN_OF_BA_ORI_TABLE;
  oo_arrays w s : stations d !! w = Some s → length (BAOriWcidArray s) = NUM_OF_TID ∧ length (TxSeq s) = NUM_OF_TID;
  oo_linked : linked (λ r, ORI_BA_Status r ≠ Originator_NONE) o_Wcid o_TID (ori_index d) (BAOriEntry d);
  oo_state i r : BAOriEntry d !! i = Some r → entry_state r;
  oo_bitmap w s t : stations d !! w = Some s → (t < NUM_OF_TID)%nat →
    Z.testbit (TXBAbitmap s) (Z.of_nat t) = done_at d w t;
  oo_used : numAsOriginator d = Z.of_nat (sumf ori_used (BAOriEntry d));
  oo_done : numDoneOriginator d = Z.of_nat (sumf ori_done (BAOriEntry d));
}.

Lemma ori_used_none r : ORI_BA_Status r = Originator_NONE → ori_used r = 0%nat.
Proof. intros H. unfold ori_used. by rewrite decide_True. Qed.

Lemma ori_used_some r : ORI_BA_Status r ≠ Originator_NONE → ori_used r = 1%nat.
Proof. intros H. unfold ori_used. by rewrite decide_False. Qed.

Lemma ori_used_le r : (ori_used r <= 1)%nat.
Proof. unfold ori_used. destruct (decide _); lia. Qed.

Lemma ori_done_le r : (ori_done r <= 1)%nat.
Proof. unfold ori_done. destruct (decide _); lia. Qed.

Lemma ori_place d w t :
  ori_ok d → (w < MAX_LEN_OF_MAC_TABLE)%nat → (t < NUM_OF_TID)%nat →
  ∃ s i q, stations d !! w = Some s ∧ BAOriWcidArray s !! t = Some i ∧ TxSeq s !! t = Some q.
Proof.
  intros Hd Hw Ht. destruct (lookup_lt_is_Some_2 (stations d) w) as [s Hs]; [by rewrite (oo_stations _ Hd)|].
  destruct (oo_arrays _ Hd w s Hs) as [H1 H2].
  destruct (lookup_lt_is_Some_2 (BAOriWcidArray s) t) as [i Hi]; [by rewrite H1|].
  destruct (lookup_lt_is_Some_2 (TxSeq s) t) as [q Hq]; [by rewrite H2|]. by exists s, i, q.
Qed.

Lemma ori_entry d w s t i :
  ori_ok d → stations d !! w = Some s → BAOriWcidArray s !! t = Some i → i ≠ 0%nat →
  ∃ r, BAOriEntry d !! i = Some r ∧ o_Wcid r = w ∧ o_TID r = t ∧
    (ORI_BA_Status r = Originator_WaitRes ∨ ORI_BA_Status r = Originator_Done).
Proof.
  intros Hd Hs Hi Hi0. destruct (link_entry _ _ _ _ _ (oo_linked _ Hd) w t i) as (r & Hr & Hu & Hw & Ht);
    [unfold ori_index; by rewrite Hs|done|].
  exists r. split_and!; [done..|]. pose proof (oo_state _ Hd i r Hr) as H. unfold entry_state in H.
  destruct (ORI_BA_Status r); [done|done|by left|by right].
Qed.

Lemma ori_index_inj d w s t w' s' t' i :
  ori_ok d → stations d !! w = Some s → BAOriWcidArray s !! t = Some i →
  stations d !! w' = Some s' → BAOriWcidArray s' !! t' = Some i → i ≠ 0%nat → w' = w ∧ t' = t.
Proof.
  intros Hd Hs Hi Hs' Hi' Hi0. apply (linked_inj _ _ _ _ _ _ _ _ _ i (oo_linked _ Hd)); [| |done].
  - unfold ori_index. by rewrite Hs.
  - unfold ori_index. by rewrite Hs'.
Qed.

(** ** Bits of the 16-bit maps *)

Lemma testbit_u16 x b : (b < 16)%nat → Z.testbit (u16 x) (Z.of_nat b) = Z.testbit x (Z.of_nat b).
Proof. intros H. unfold u16. change 65536 with (2 ^ 16). apply Z.mod_pow2_bits_low. lia. Qed.

Lemma testbit_bit t b : Z.testbit (Z.shiftl 1 (Z.of_nat t)) (Z.of_nat b) = bool_decide (b = t).
Proof.
  rewrite Z.shiftl_1_l, Z.pow2_bits_eqb by lia.
  destruct (Z.eqb_spec (Z.of_nat t) (Z.of_nat b)); [rewrite bool_decide_true by lia|rewrite bool_decide_false by lia]; done.
Qed.

Lemma set_bit x t b : (b < 16)%nat →
  Z.testbit (u16 (x .| Z.shiftl 1 (Z.of_nat t))) (Z.of_nat b) =
  if decide (b = t) then true else Z.testbit x (Z.of_nat b).
Proof.
  intros H. rewrite testbit_u16, Z.lor_spec, testbit_bit by done. destruct (decide (b = t)) as [->|Hne].
  - rewrite bool_decide_true by done. apply orb_true_r.
  - rewrite bool_decide_false by done. apply orb_false_r.
Qed.

Lemma clear_bit x t b : (b < 16)%nat →
  Z.testbit (u16 (x & Z.lnot (Z.shiftl 1 (Z.of_nat t)))) (Z.of_nat b) =
  if decide (b = t) then false else Z.testbit x (Z.of_nat b).
Proof.
  intros H. rewrite testbit_u16, Z.land_spec, Z.lnot_spec, testbit_bit by lia. destruct (decide (b = t)) as [->|Hne].
  - rewrite bool_decide_true by done. apply andb_false_r.
  - rewrite bool_decide_false by done. apply andb_true_r.
Qed.

(** ** Linking and unlinking *)

(** Entry [i] becomes [r'], and the index and the bit of [(w, t)] follow. *)
Lemma ori_relink d a i r r' w s s' t n nd :
  ori_ok d → BAOriEntry d !! i = Some r → i ≠ 0%nat → stations d !! w = Some s →
  (BAOriWcidArray s !! t = Some i ∨ BAOriWcidArray s !! t = Some 0%nat ∧ ORI_BA_Status r = Originator_NONE) →
  BAOriWcidArray s' = <[t := if decide (ORI_BA_Status r' = Originator_NONE) then 0%nat else i]> (BAOriWcidArray s) →
  TxSeq s' = TxSeq s →
  (∀ b, (b < 16)%nat → Z.testbit (TXBAbitmap s') (Z.of_nat b) =
     if decide (b = t) then bool_decide (ORI_BA_Status r' = Originator_Done) else Z.testbit (TXBAbitmap s) (Z.of_nat b)) →
  (ORI_BA_Status r' ≠ Originator_NONE → o_Wcid r' = w ∧ o_TID r' = t) → entry_state r' →
  n = numAsOriginator d + Z.of_nat (ori_used r') - Z.of_nat (ori_used r) →
  nd = numDoneOriginator d + Z.of_nat (ori_done r') - Z.of_nat (ori_done r) →
  ori_ok {| rx := a; stations := <[w := s']> (stations d); BAOriEntry := <[i := r']> (BAOriEntry d);
            numAsOriginator := n; numDoneOriginator := nd |}.
Proof.
  intros Hd Hr Hi0 Hs Hidx Harr Hseq Hbit Hpl Hst Hn Hnd. set (d' := {| rx := a |}).
  pose proof (lookup_lt_Some _ _ _ Hr) as Hlt. pose proof (lookup_lt_Some _ _ _ Hs) as Hltw.
  assert (t < length (BAOriWcidArray s))%nat as Hltt by (destruct Hidx as [H|[H _]]; by apply lookup_lt_Some in H).
  assert (∀ w' t', ¬ (w' = w ∧ t' = t) → ori_index d' w' t' = ori_index d w' t') as Hother.
  { intros w1 t1 Hne. unfold ori_index. cbn. destruct (decide (w = w1)) as [<-|Hw].
    - rewrite list_lookup_insert_eq, Hs by done. cbn. rewrite Harr, list_lookup_insert_ne; [done|].
      intros <-. by apply Hne.
    - by rewrite list_lookup_insert_ne. }
  assert (ori_index d' w t = Some (if decide (ORI_BA_Status r' = Originator_NONE) then 0%nat else i)) as Hhere.
  { unfold ori_index. cbn. rewrite list_lookup_insert_eq by done. cbn. by rewrite Harr, list_lookup_insert_eq. }
  assert (linked (λ r, ORI_BA_Status r ≠ Originator_NONE) o_Wcid o_TID (ori_index d') (BAOriEntry d')) as HL.
  { apply (linked_update _ _ _ (ori_index d) (ori_index d') (BAOriEntry d) i
      (if decide (ORI_BA_Status r' = Originator_NONE) then 0%nat else i) r r' w t (oo_linked _ Hd)); try done.
    - unfold ori_index. rewrite Hs. cbn. destruct Hidx as [H|[H ->]]; [by left|right]. split; [done|]. by intros [].
    - destruct (decide _) as [E|E]; [right; split; [done|]; by intros []|left]. by split_and!; [..|apply Hpl|apply Hpl]. }
  split; [cbn; by rewrite length_insert, (oo_stations _ Hd)|cbn; by rewrite length_insert, (oo_entries _ Hd)| |done| | |..].
  - intros w1 s1 H. apply list_lookup_insert_Some in H as [(<- & <- & _)|[_ H]]; [|by apply (oo_arrays _ Hd w1)].
    rewrite Harr, Hseq, length_insert. by apply (oo_arrays _ Hd w).
  - intros j r1 Hj. apply list_lookup_insert_Some in Hj as [(<- & <- & _)|[_ Hj]]; [done|by apply (oo_state _ Hd j)].
  - intros w1 s1 t1 Hs1 Ht1. unfold done_at. destruct (decide (w1 = w ∧ t1 = t)) as [[-> ->]|Hne].
    + cbn in Hs1. rewrite list_lookup_insert_eq in Hs1 by done. injection Hs1 as <-. rewrite Hhere, Hbit, decide_True
        by (done || unfold NUM_OF_TID in Ht1; lia).
      destruct (decide _) as [E|E].
      * rewrite E. destruct (BAOriEntry d' !! 0%nat) as [r0|] eqn:H0; [|done]. symmetry. apply bool_decide_false.
        intros H. destruct (link_index _ _ _ _ _ HL 0%nat r0 H0); [by rewrite H|done].
      * cbn. by rewrite list_lookup_insert_eq.
    + assert (Z.testbit (TXBAbitmap s1) (Z.of_nat t1) = done_at d w1 t1) as ->.
      { cbn in Hs1. apply list_lookup_insert_Some in Hs1 as [(<- & <- & _)|[_ Hs1]]; [|by apply (oo_bitmap _ Hd)].
        rewrite Hbit, decide_False by (unfold NUM_OF_TID in Ht1; lia || by intros ->; apply Hne).
        by apply (oo_bitmap _ Hd). }
      unfold done_at. rewrite Hother by done. destruct (ori_index d w1 t1) as [k|] eqn:Hk; [|done].
      destruct (decide (k = i)) as [->|Hki]; [|cbn; by rewrite list_lookup_insert_ne].
      destruct (link_entry _ _ _ _ _ (oo_linked _ Hd) w1 t1 i Hk Hi0) as (r1 & Hr1 & Hu1 & Hw1 & Htt1).
      assert (r1 = r) as -> by congruence. destruct Hidx as [H|[_ H]]; [|by destruct Hu1].
      destruct Hne. unfold ori_index in Hk. destruct (stations d !! w1) as [s2|] eqn:Hs2; [|done].
      by apply (ori_index_inj d w s t w1 s2 t1 i).
  - cbn. pose proof (sumf_insert ori_used _ i r r' Hr). rewrite Hn, (oo_used _ Hd). lia.
  - cbn. pose proof (sumf_insert ori_done _ i r r' Hr). rewrite Hnd, (oo_done _ Hd). lia.
Qed.

(** ** The operations keep the table in order *)

Lemma ori_done_yes r : ORI_BA_Status r = Originator_Done → ori_done r = 1%nat.
Proof. intros H. unfold ori_done. by rewrite decide_True. Qed.

Lemma ori_done_no r : ORI_BA_Status r ≠ Originator_Done → ori_done r = 0%nat.
Proof. intros H. unfold ori_done. by rewrite decide_False. Qed.

Lemma ori_rx d a : ori_ok d → ori_ok (on_rx d a).
Proof. intros Hd. by destruct Hd; split. Qed.

(** An entry changes but for its status and place. *)
Lemma ori_same d i r r' :
  ori_ok d → BAOriEntry d !! i = Some r → ORI_BA_Status r' = ORI_BA_Status r → o_Wcid r' = o_Wcid r →
  o_TID r' = o_TID r → entry_state r' → ori_ok (set_ori d i r').
Proof.
  intros Hd Hr Es Ew Et Hst. pose proof (lookup_lt_Some _ _ _ Hr) as Hlt. split; cbn.
  - apply Hd.
  - rewrite length_insert. apply Hd.
  - apply Hd.
  - apply (linked_same _ _ _ _ _ _ r r' (oo_linked _ Hd) Hr); [by rewrite Es|done].
  - intros j r1 Hj. apply list_lookup_insert_Some in Hj as [(<- & <- & _)|[_ Hj]]; [done|by apply (oo_state _ Hd j)].
  - intros w s t Hs Ht. rewrite (oo_bitmap _ Hd w s t Hs Ht). unfold done_at.
    change (ori_index (set_ori d i r')) with (ori_index d). destruct (ori_index d w t) as [k|]; [|done]. cbn.
    destruct (decide (i = k)) as [<-|Hne].
    + by rewrite list_lookup_insert_eq, Hr, Es.
    + by rewrite list_lookup_insert_ne.
  - rewrite (sumf_insert_same ori_used _ i r r'); [apply Hd|done|]. unfold ori_used. by rewrite Es.
  - rewrite (sumf_insert_same ori_done _ i r r'); [apply Hd|done|]. unfold ori_done. by rewrite Es.
Qed.

Lemma ori_used_index d i r :
  ori_ok d → BAOriEntry d !! i = Some r → ORI_BA_Status r ≠ Originator_NONE →
  i ≠ 0%nat ∧ (i < MAX_LEN_OF_BA_ORI_TABLE)%nat ∧
  ∃ s, stations d !! o_Wcid r = Some s ∧ BAOriWcidArray s !! o_TID r = Some i.
Proof.
  intros Hd Hr Hu. destruct (link_index _ _ _ _ _ (oo_linked _ Hd) i r Hr Hu) as [Hi0 Hx]. split; [done|]. split.
  - rewrite <- (oo_entries _ Hd). by eapply lookup_lt_Some.
  - unfold ori_index in Hx. destruct (stations d !! o_Wcid r) as [s|]; [|done]. by exists s.
Qed.

Lemma ori_counts d i r :
  ori_ok d → BAOriEntry d !! i = Some r → ORI_BA_Status r ≠ Originator_NONE →
  0 < numAsOriginator d <= 128 ∧ Z.of_nat (ori_done r) <= numDoneOriginator d <= 128.
Proof.
  intros Hd Hr Hu. pose proof (sumf_pos ori_used _ i r Hr) as H1. rewrite ori_used_some in H1 by done.
  pose proof (sumf_pos ori_done _ i r Hr) as H2. pose proof (sumf_le_length ori_used (BAOriEntry d) ori_used_le) as H3.
  pose proof (sumf_le_length ori_done (BAOriEntry d) ori_done_le) as H4.
  rewrite (oo_entries _ Hd) in H3, H4. change MAX_LEN_OF_BA_ORI_TABLE with 128%nat in *.
  rewrite (oo_used _ Hd), (oo_done _ Hd). lia.
Qed.

Lemma ori_free_ok d i r :
  ori_ok d → BAOriEntry d !! i = Some r → ORI_BA_Status r ≠ Originator_NONE → ORIBATimer r = None →
  ∃ d', BATableFreeOriEntry d i = Some d' ∧ ori_ok d' ∧ rx d' = rx d ∧
    BAOriEntry d' = <[i := set_ori_status r Originator_NONE 0]> (BAOriEntry d) ∧
    ori_index d' (o_Wcid r) (o_TID r) = Some 0%nat.
Proof.
  intros Hd Hr Hu Htm. destruct (ori_used_index d i r Hd Hr Hu) as (Hi0 & Hlt & s & Hs & Hx).
  destruct (ori_counts d i r Hd Hr Hu) as [Hn Hnd]. unfold BATableFreeOriEntry.
  destruct (Nat.eqb_spec i 0); [done|]. destruct (Nat.leb_spec MAX_LEN_OF_BA_ORI_TABLE i); [lia|]. cbn [orb].
  rewrite Hr, Some_bind, decide_False by done. rewrite Hs, Some_bind, Hx, Some_bind. cbv zeta.
  set (s' := if bool_decide _ then set_txbitmap _ _ else _). set (nd := if bool_decide _ then u32 _ else _).
  unfold set_counts, set_station, set_ori. cbn [numAsOriginator rx stations BAOriEntry numDoneOriginator].
  destruct (Z.eqb_spec (numAsOriginator d) 0); [lia|]. cbn [numAsOriginator rx stations BAOriEntry numDoneOriginator].
  eexists. split; [reflexivity|]. split; [|split; [done|split; [done|]]].
  - apply (ori_relink d _ i r _ (o_Wcid r) s s' (o_TID r)); try done.
    + by left.
    + unfold s'. by destruct (bool_decide _).
    + unfold s'. by destruct (bool_decide _).
    + intros b Hb. unfold s'. destruct (bool_decide_reflect (ORI_BA_Status r = Originator_Done)) as [Hdn|Hdn].
      * cbn [TXBAbitmap set_txbitmap set_ori_index]. by rewrite clear_bit.
      * destruct (decide (b = o_TID r)) as [->|]; [|done]. cbn.
        destruct (oo_arrays _ Hd _ s Hs) as [Hl _]. apply lookup_lt_Some in Hx as Hxl. rewrite Hl in Hxl.
        rewrite (oo_bitmap _ Hd _ s _ Hs Hxl). unfold done_at, ori_index. rewrite Hs. cbn. rewrite Hx, Hr.
        by apply bool_decide_false.
    + rewrite (ori_used_some r), ori_used_none by done. rewrite u32_small by (unfold word; lia). lia.
    + unfold nd. rewrite (ori_done_no (set_ori_status r Originator_NONE 0)) by done.
      destruct (bool_decide_reflect (ORI_BA_Status r = Originator_Done)) as [Hdn|Hdn].
      * rewrite (ori_done_yes r Hdn) in *. rewrite u32_small by (unfold word; lia). lia.
      * rewrite (ori_done_no r Hdn). lia.
  - unfold ori_index. cbn. rewrite list_lookup_insert_eq by (by eapply lookup_lt_Some).
    unfold s'. cbn. destruct (bool_decide _); cbn; rewrite list_lookup_insert_eq; try done; by eapply lookup_lt_Some.
Qed.

Lemma ori_teardown_ok memory d w t p fs :
  ori_ok d → (t < NUM_OF_TID)%nat → ∃ d' l, BAOriSessionTearDown memory d w t p fs = Some d' ∧ ori_ok d' ∧
    rx d' = foldl note (rx d) l ∧ (ASSERT_failed ∉ l).
Proof.
  intros Hd Ht. unfold BAOriSessionTearDown. destruct (Nat.leb_spec MAX_LEN_OF_MAC_TABLE w) as [|Hw].
  { exists d, []. split_and!; [done..|apply not_elem_of_nil]. }
  destruct (ori_place d w t Hd Hw Ht) as (s & i & _ & Hs & Hi & _). rewrite Hs, Some_bind, Hi, Some_bind.
  destruct (Nat.eqb_spec i 0) as [->|Hi0]; cbn [orb].
  { destruct (fs && memory); [exists (dnote d (MlmeDELBAAction (Z.of_nat w) (Z.of_nat t) ORIGINATOR)), [MlmeDELBAAction (Z.of_nat w) (Z.of_nat t) ORIGINATOR]|exists d, []].
    - split_and!; [done|by apply ori_rx|done|]. by intros ?%list_elem_of_singleton.
    - split_and!; [done..|apply not_elem_of_nil]. }
  destruct (ori_entry d w s t i Hd Hs Hi Hi0) as (r & Hr & Hrw & Hrt & Hst). rewrite Hr, Some_bind.
  pose proof (lookup_lt_Some _ _ _ Hr) as Hlt. rewrite (oo_entries _ Hd) in Hlt.
  destruct (Nat.leb_spec MAX_LEN_OF_BA_ORI_TABLE i); [lia|]. cbv zeta. set (send := negb p && _ && _).
  destruct (send && negb memory); [exists d, []; split_and!; [done..|apply not_elem_of_nil]|].
  set (d1 := if send then _ else d).
  assert (ori_ok d1 ∧ BAOriEntry d1 = BAOriEntry d ∧ ∃ l, rx d1 = foldl note (rx d) l ∧ ASSERT_failed ∉ l)
    as (Hd1 & E1 & l & Hl & Hl').
  { unfold d1. destruct send.
    - split_and!; [by apply ori_rx|done|]. exists [MlmeDELBAAction (Z.of_nat w) (Z.of_nat (o_TID r)) ORIGINATOR].
      split; [done|]. by intros ?%list_elem_of_singleton.
    - split_and!; [done..|]. exists []. split; [done|apply not_elem_of_nil]. }
  assert (ORI_BA_Status r ≠ Originator_NONE) as Hu by (by destruct Hst as [-> | ->]).
  rewrite <- E1 in Hr. assert (entry_state (set_timer r None)) as Hes.
  { pose proof (oo_state _ Hd1 i r Hr) as Hes. unfold entry_state in *. cbn. by destruct (ORI_BA_Status r). }
  pose proof (ori_same d1 i r (set_timer r None) Hd1 Hr eq_refl eq_refl eq_refl Hes) as Hd2.
  destruct (ori_free_ok (set_ori d1 i (set_timer r None)) i (set_timer r None) Hd2) as (d' & H1 & H2 & H3 & _); try done.
  { cbn. apply list_lookup_insert_eq. by eapply lookup_lt_Some. }
  exists d', l. by split_and!; [..|rewrite H3|].
Qed.

Lemma find_ori_none_Some l i j :
  find_ori_none l i = Some j → ∃ r, (i <= j)%nat ∧ l !! (j - i)%nat = Some r ∧ ORI_BA_Status r = Originator_NONE.
Proof.
  revert i. induction l as [|r l IH]; intros i; cbn [find_ori_none]; [done|].
  destruct (decide _) as [Hs|Hs]; intros H.
  - injection H as <-. exists r. by rewrite Nat.sub_diag.
  - destruct (IH _ H) as (r' & Hj & Hl & Hs'). exists r'. split; [lia|]. split; [|done].
    replace (j - i)%nat with (S (j - S i)) by lia. done.
Qed.

Lemma find_ori_none_None l i : find_ori_none l i = None → Forall (λ r, ori_used r = 1%nat) l.
Proof.
  revert i. induction l as [|r l IH]; intros i; cbn [find_ori_none]; [by constructor|].
  destruct (decide _); intros H; [done|]. constructor; [by apply ori_used_some|by apply (IH (S i))].
Qed.

(** The allocation fails only when the table is full. *)
Lemma BATableAllocOriEntry_ok d :
  ori_ok d →
  BATableAllocOriEntry d = (None, None, d) ∧ 127 <= numAsOriginator d ∨
  ∃ i r, i ≠ 0%nat ∧ BAOriEntry d !! i = Some r ∧ ORI_BA_Status r = Originator_NONE ∧
    BATableAllocOriEntry d = (Some i, Some i,
      set_ori (set_counts d (numAsOriginator d + 1) (numDoneOriginator d)) i (set_ori_status r Originator_USED (Token r))).
Proof.
  intros Hd. unfold BATableAllocOriEntry. change (Z.of_nat MAX_LEN_OF_BA_ORI_TABLE - 1) with 127.
  pose proof (oo_used _ Hd) as Hc. destruct (Z.leb_spec 127 (numAsOriginator d)) as [|Hlt]; [by left|right].
  destruct (find_ori_none _ 1) as [i|] eqn:Hf.
  - destruct (find_ori_none_Some _ _ _ Hf) as (r & Hi & Hr & Hs). rewrite lookup_drop in Hr.
    replace (1 + (i - 1))%nat with i in Hr by lia. exists i, r. split; [lia|]. split_and!; [done..|].
    change (BAOriEntry (set_counts _ _ _)) with (BAOriEntry d). rewrite Hr. by rewrite u32_small by (unfold word; lia).
  - apply find_ori_none_None, sumf_full in Hf. rewrite length_drop, (oo_entries _ Hd) in Hf.
    destruct (BAOriEntry d) as [|r0 l] eqn:El; [pose proof (oo_entries _ Hd) as H; by rewrite El in H|].
    rewrite Hc in Hlt. unfold sumf in *. cbn [foldr drop] in *. rewrite drop_0 in Hf. rewrite Hf in Hlt.
    change MAX_LEN_OF_BA_ORI_TABLE with 128%nat in Hlt. lia.
Qed.

(** The receive fields that the originator reads. *)
Definition table_ok_mac (d : device) : Prop :=
  ∀ w, (w < MAX_LEN_OF_MAC_TABLE)%nat → ∃ e, Content (rx d) !! w = Some e ∧ Aid e = Z.of_nat w.

Lemma table_mac B d : table_ok B (rx d) → table_ok_mac d.
Proof.
  intros Ha w Hw. destruct (lookup_lt_is_Some_2 (Content (rx d)) w) as [e He]; [by rewrite (ok_mac _ _ Ha)|].
  exists e. split; [done|]. by apply (ok_station _ _ Ha w e He).
Qed.

(** Setting up a session leaves a session that waits or is established alone,
    and otherwise starts one, unless the table is full. *)
Lemma setup_ok c d w t to delay forced :
  ori_ok d → table_ok_mac d → (w < MAX_LEN_OF_MAC_TABLE)%nat → (t < NUM_OF_TID)%nat →
  ∃ d', BAOriSessionSetUp c d w t to delay forced = Some d' ∧ ori_ok d' ∧ rx d' = rx d.
Proof.
  intros Hd Hm Hw Ht. unfold BAOriSessionSetUp. destruct (Nat.leb_spec NUM_OF_TID t); [lia|].
  destruct (negb (AutoBA c) && negb forced); [by exists d|]. destruct (negb (FixedTxMode c =? _)); [by exists d|].
  destruct (Hm w Hw) as (e & He & Haid).
  destruct (ori_place d w t Hd Hw Ht) as (s & i & q & Hs & Hi & Hq).
  rewrite He, Some_bind, Hs, Some_bind. cbv zeta. rewrite Hi, Some_bind. set (dl := if _ && _ then 3000 else delay).
  clearbody dl. destruct (Nat.eqb_spec i 0) as [->|Hi0].
  - destruct (BATableAllocOriEntry_ok d Hd) as [[-> _]|(i & r & Hi0 & Hr & Hst & ->)]; [by exists d|].
    pose proof (lookup_lt_Some _ _ _ Hr) as Hlt. cbn [BAOriEntry set_ori set_counts].
    rewrite list_lookup_insert_eq, Some_bind by done. cbn [ORI_BA_Status set_ori_status status_ge_WaitRes].
    rewrite Hq, Some_bind. eexists. split; [reflexivity|]. unfold set_ori, set_station, set_counts. cbn.
    split; [|done]. rewrite list_insert_insert_eq.
    set (r' := RTMPSetTimer _ _ _). assert (ORI_BA_Status r' = Originator_WaitRes ∧ o_Wcid r' = w ∧ o_TID r' = t ∧
      Token r' = 1 ∧ byte (o_BAWinSize r')) as (E1 & E2 & E3 & E4 & E5).
    { unfold r', RTMPSetTimer. destruct (halted _); cbn; rewrite Haid, aid_index by done; split_and!; try done; apply fits_u8. }
    apply (ori_relink d _ i r r' w s _ t); try done.
    + by right.
    + cbn. by rewrite decide_False by (by rewrite E1).
    + intros b Hb. cbn. destruct (decide (b = t)) as [->|]; [|done]. rewrite (oo_bitmap _ Hd w s t Hs Ht).
      unfold done_at, ori_index. rewrite Hs. cbn. rewrite Hi. rewrite bool_decide_false by (by rewrite E1).
      destruct (BAOriEntry d !! 0%nat) as [r0|] eqn:H0; [|done]. apply bool_decide_false. intros H1.
      destruct (link_index _ _ _ _ _ (oo_linked _ Hd) 0%nat r0 H0); [by rewrite H1|done].
    + unfold entry_state. rewrite E1, E4. unfold ORI_SESSION_MAX_RETRY. split; [lia|done].
    + rewrite (ori_used_none r Hst), (ori_used_some r') by (by rewrite E1). lia.
    + rewrite (ori_done_no r), (ori_done_no r') by congruence. lia.
  - destruct (ori_entry d w s t i Hd Hs Hi Hi0) as (r & Hr & _ & _ & Hst). rewrite Hr, Some_bind.
    exists d. by destruct Hst as [-> | ->].
Qed.

Lemma ori_add_ok c memory d w f :
  ori_ok d → (w < MAX_LEN_OF_MAC_TABLE)%nat → (rsp_TID f < NUM_OF_TID)%nat →
  ∃ d' l, BAOriSessionAdd c memory d w f = Some d' ∧ ori_ok d' ∧ rx d' = foldl note (rx d) l ∧ (ASSERT_failed ∉ l).
Proof.
  intros Hd Hw Ht. unfold BAOriSessionAdd. set (t := rsp_TID f) in *.
  destruct (ori_place d w t Hd Hw Ht) as (s & i & q & Hs & Hi & Hq).
  rewrite Hs, Some_bind. cbv zeta. rewrite Hi, Some_bind.
  destruct (lookup_lt_is_Some_2 (BAOriEntry d) i) as [r Hr].
  { rewrite (oo_entries _ Hd). destruct (decide (i = 0%nat)) as [->|Hi0]; [apply Nat.ltb_lt; reflexivity|].
    destruct (ori_entry d w s t i Hd Hs Hi Hi0) as (r & Hr & _). rewrite <- (oo_entries _ Hd). by eapply lookup_lt_Some. }
  rewrite Hr, Some_bind. destruct (Nat.eqb_spec i 0) as [|Hi0]; cbn [negb andb].
  { exists d, []. split_and!; [done..|apply not_elem_of_nil]. }
  destruct (Nat.eqb_spec (o_TID r) t) as [Hrt|]; cbn [andb]; [|exists d, []; split_and!; [done..|apply not_elem_of_nil]].
  destruct (bool_decide_reflect (ORI_BA_Status r = Originator_WaitRes)) as [Hst|];
    [|exists d, []; split_and!; [done..|apply not_elem_of_nil]].
  rewrite Hq, Some_bind. set (r' := {| o_Wcid := o_Wcid r |}).
  assert (ORI_BA_Status r ≠ Originator_NONE) as Hu by (by rewrite Hst).
  destruct (ori_counts d i r Hd Hr Hu) as [_ Hnd]. rewrite (ori_done_no r) in Hnd by (by rewrite Hst).
  destruct (ori_entry d w s t i Hd Hs Hi Hi0) as (r1 & Hr1 & Hrw & _). assert (r1 = r) as -> by congruence. clear Hr1.
  set (d1 := set_station _ _ _). assert (ori_ok d1) as Hd1.
  { apply (ori_relink d _ i r r' w s _ t); try done.
    - by left.
    - cbn. rewrite decide_False by done. symmetry. by apply list_insert_id.
    - intros b Hb. cbn [TXBAbitmap set_txbitmap]. rewrite set_bit by done. by destruct (decide (b = t)).
    - rewrite (ori_used_some r), (ori_used_some r') by done. unfold set_ori, set_counts. cbn [numAsOriginator]. lia.
    - rewrite (ori_done_no r) by (by rewrite Hst). rewrite (ori_done_yes r') by done.
      unfold set_ori, set_counts. cbn [numDoneOriginator]. rewrite u32_small by (unfold word; lia). lia. }
  destruct memory.
  - eexists (dnote d1 _), [_]. split; [reflexivity|]. split_and!; [by apply ori_rx|done|]. by intros ?%list_elem_of_singleton.
  - exists d1, []. split_and!; [done..|apply not_elem_of_nil].
Qed.

(** ** The retries *)

Lemma rearm_state d r r' v :
  ORI_BA_Status r = Originator_WaitRes → 1 <= Token r <= ORI_SESSION_MAX_RETRY ∧ byte (o_BAWinSize r) →
  r' = RTMPSetTimer d r v → entry_state r' ∧ ORI_BA_Status r' = ORI_BA_Status r ∧ o_Wcid r' = o_Wcid r ∧
    o_TID r' = o_TID r ∧ Token r' = Token r ∧ (halted (rx d) = false → ORIBATimer r' = Some v).
Proof.
  intros Hs Ht ->. unfold RTMPSetTimer, entry_state. destruct (halted (rx d)); cbn; rewrite Hs; (split; [exact Ht|]);
    by split_and!.
Qed.

(** A timer that fires for a request still waiting. *)
Lemma timer_fires c d i r :
  ori_ok d → table_ok_mac d → BAOriEntry d !! i = Some r → ORI_BA_Status r = Originator_WaitRes →
  ∃ d' l, BAOriSessionSetupTimeout c d i = Some d' ∧ ori_ok d' ∧ rx d' = foldl note (rx d) l ∧ (ASSERT_failed ∉ l) ∧
    (monitor_on c = false → scanning c = false →
      (Token r < ORI_SESSION_MAX_RETRY →
        l = [MlmeEnqueue_ADDBA (Z.of_nat (o_Wcid r)) (u8 (RxBAWinLimit (rx d))) 0 (Z.of_nat (o_TID r)) (Token r)] ∧
        ∃ r', BAOriEntry d' !! i = Some r' ∧ ORI_BA_Status r' = Originator_WaitRes ∧ o_Wcid r' = o_Wcid r ∧
          o_TID r' = o_TID r ∧ Token r' = Token r + 1 ∧
          (halted (rx d) = false → ORIBATimer r' = Some ORI_BA_SESSION_TIMEOUT)) ∧
      (Token r = ORI_SESSION_MAX_RETRY →
        l = [] ∧ ori_index d' (o_Wcid r) (o_TID r) = Some 0%nat ∧
        ∃ r', BAOriEntry d' !! i = Some r' ∧ ORI_BA_Status r' = Originator_NONE ∧ ORIBATimer r' = None)).
Proof.
  intros Hd Hm Hr Hs. pose proof (oo_state _ Hd i r Hr) as Hst. unfold entry_state in Hst. rewrite Hs in Hst.
  assert (ORI_BA_Status r ≠ Originator_NONE) as Hu by (by rewrite Hs).
  pose proof (lookup_lt_Some _ _ _ Hr) as Hlt.
  set (r0 := set_timer r None). set (d0 := set_ori d i r0).
  assert (ori_ok d0) as Hd0 by (apply (ori_same d i r); try done; unfold entry_state; cbn; by rewrite Hs).
  assert (BAOriEntry d0 !! i = Some r0) as Hr0 by (cbn; by rewrite list_lookup_insert_eq).
  destruct (ori_used_index d i r Hd Hr Hu) as (Hi0 & _ & s & Hs1 & Hx).
  assert (o_Wcid r < MAX_LEN_OF_MAC_TABLE)%nat as Hw by (rewrite <- (oo_stations _ Hd); by eapply lookup_lt_Some).
  destruct (Hm _ Hw) as (e & He & Haid).
  unfold BAOriSessionSetupTimeout. rewrite Hr, Some_bind. fold r0 d0.
  destruct (monitor_on c) eqn:Emon.
  { exists d0, []. split_and!; [done..|apply not_elem_of_nil|done]. }
  change (o_Wcid r0) with (o_Wcid r). change (o_TID r0) with (o_TID r). change (ORI_BA_Status r0) with (ORI_BA_Status r).
  change (Token r0) with (Token r). change (Content (rx d0)) with (Content (rx d)). change (stations d0) with (stations d).
  rewrite He, Some_bind, Hs1, Some_bind, bool_decide_true by done. cbn [andb].
  destruct (Z.ltb_spec (Token r) ORI_SESSION_MAX_RETRY) as [Htk|Htk].
  - destruct (scanning c).
    + set (r1 := RTMPSetTimer _ _ _). destruct (rearm_state d0 r0 r1 _ Hs Hst eq_refl) as (A1 & A2 & A3 & A4 & _).
      exists (set_ori d0 i r1), []. split_and!; [done|by apply (ori_same d0 i r0)|done|apply not_elem_of_nil|done].
    + set (ev := MlmeEnqueue_ADDBA _ _ _ _ _). set (r1 := set_ori_status r0 _ _).
      assert (Token r1 = Token r + 1) as Ht1.
      { cbn. rewrite u8_small; [done|]. unfold byte, ORI_SESSION_MAX_RETRY in *. lia. }
      set (r2 := RTMPSetTimer _ _ _). destruct (rearm_state (dnote d0 ev) r1 r2 ORI_BA_SESSION_TIMEOUT) as (A1 & A2 & A3 & A4 & A5 & A6); [done| |done|].
      { rewrite Ht1. unfold ORI_SESSION_MAX_RETRY in *. split; [lia|apply Hst]. }
      exists (set_ori (dnote d0 ev) i r2), [ev].
      split_and!; [done|by apply (ori_same _ i r0); [apply ori_rx|..]|done|by intros ?%list_elem_of_singleton|].
      intros _ _. split; [|lia]. intros _. split.
      { unfold ev. change (RxBAWinLimit (rx d0)) with (RxBAWinLimit (rx d)).
        by rewrite Haid, u8_small by (unfold byte, MAX_LEN_OF_MAC_TABLE in *; lia). }
      exists r2. cbn. rewrite list_insert_insert_eq, list_lookup_insert_eq by done. split_and!; try done; [by rewrite A2|by rewrite A5].
  - rewrite Hx, Some_bind.
    destruct (ori_free_ok d0 i r0 Hd0 Hr0 Hu eq_refl) as (d' & H1 & H2 & H3 & H4 & H5).
    exists d', []. split_and!; [done|done|by rewrite H3|apply not_elem_of_nil|]. intros _ _. split; [lia|]. intros _.
    split_and!; [done|done|]. eexists. rewrite H4. split; [apply list_lookup_insert_eq; by eapply lookup_lt_Some|done].
Qed.

(** ** Both tables *)

Definition device_ok (B : nat) (d : device) : Prop := table_ok B (rx d) ∧ ori_ok d.

Lemma notes_ok B a l : table_ok B a → ASSERT_failed ∉ l → table_ok B (foldl note a l).
Proof.
  revert a. induction l as [|e l IH]; intros a Ha Hl; [done|]. apply not_elem_of_cons in Hl as [He Hl].
  cbn. apply IH; [|done]. by apply note_ok.
Qed.

Lemma device_notes B d d' l :
  table_ok B (rx d) → ori_ok d' → rx d' = foldl note (rx d) l → ASSERT_failed ∉ l → device_ok B d'.
Proof. intros Ha Hd Hr Hl. split; [|done]. rewrite Hr. by apply notes_ok. Qed.

(** The bitmaps of a station change. *)
Lemma bitmaps_ok B a w e x y :
  table_ok B a → Content a !! w = Some e → table_ok B (set_mac a w (set_bitmaps e x y)).
Proof.
  intros Ha He. pose proof (lookup_lt_Some _ _ _ He) as Hlt.
  assert (∀ w1 e1, <[w := set_bitmaps e x y]> (Content a) !! w1 = Some e1 →
    ∃ e2, Content a !! w1 = Some e2 ∧ Aid e1 = Aid e2 ∧ BARecWcidArray e1 = BARecWcidArray e2) as Hback.
  { intros w1 e1 H. apply list_lookup_insert_Some in H as [(<- & <- & _)|[_ H]]; [by exists e|by exists e1]. }
  split; cbn; try apply Ha.
  - rewrite length_insert. apply Ha.
  - intros w1 e1 H. destruct (Hback w1 e1 H) as (e2 & H2 & -> & ->). by apply (ok_station _ _ Ha).
  - intros w1 e1 t i H. destruct (Hback w1 e1 H) as (e2 & H2 & _ & ->). by apply (ok_index _ _ Ha).
  - intros i r Hr Hu. destruct (ok_used _ _ Ha i r Hr Hu) as (Hi0 & (e1 & He1 & Hx) & Hinv). split_and!; [done| |done].
    destruct (decide (w = Wcid r)) as [Hw|Hw].
    + assert (e1 = e) as -> by congruence. exists (set_bitmaps e x y). rewrite <- Hw, list_lookup_insert_eq by done. done.
    + exists e1. by rewrite list_lookup_insert_ne.
Qed.

Lemma teardown_all_ok B memory d w :
  device_ok B d → ∃ d', BASessionTearDownALL memory d w = Some d' ∧ device_ok B d'.
Proof.
  intros Hd. unfold BASessionTearDownALL. apply loop_opt_inv; [done|]. intros t d1 Ht [Ha Ho].
  assert (t < NUM_OF_TID)%nat as Ht' by lia.
  destruct (ori_teardown_ok memory d1 w t false false Ho Ht') as (d2 & l & -> & Ho2 & Hr & Hl). rewrite Some_bind.
  destruct (device_notes B d1 d2 l Ha Ho2 Hr Hl) as [Ha2 _].
  destruct (teardown_ok B memory (rx d2) w t false Ha2 Ht') as (a & -> & Ha3). rewrite Some_bind.
  eexists. split; [reflexivity|]. split; [done|by apply ori_rx].
Qed.

Definition frame_tid (f : ba_frame) : nat :=
  match f with ADDBA_REQ f => req_TID (areq f) | ADDBA_RESP f => rsp_TID f | DELBA f => del_TID f end.

Lemma addba_req_ok B c memory d w len f :
  device_ok B d → (req_TID (areq f) < NUM_OF_TID)%nat →
  ∃ d', PeerAddBAReqAction c memory d w len f = Some d' ∧ device_ok B d'.
Proof.
  intros [Ha Ho] Ht. unfold PeerAddBAReqAction. destruct (Nat.leb_spec MAX_LEN_OF_MAC_TABLE w) as [|Hw]; [by exists d|].
  destruct (lookup_lt_is_Some_2 (stations d) w) as [s Hs]; [by rewrite (oo_stations _ Ho)|]. rewrite Hs, Some_bind.
  set (m := if PeerAddBAReqActionSanity f len then _ else _).
  assert (∃ st d1, m = Some (st, d1) ∧ device_ok B d1) as (st & d1 & -> & Hd1).
  { unfold m. destruct (PeerAddBAReqActionSanity f len); [|by exists 1, d].
    destruct (negb (bBADecline c) && ht_station s); [|by exists 37, d].
    destruct (add_ok B (rx d) w (areq f) Ha Hw Ht) as (b & a & -> & Ha' & _). rewrite Some_bind.
    eexists _, _. split; [reflexivity|]. split; [done|by apply ori_rx]. }
  rewrite Some_bind. destruct memory; cbn [negb]; [|by exists d1].
  eexists. split; [reflexivity|]. destruct Hd1 as [Ha1 Ho1]. split; [by apply note_ok|by apply ori_rx].
Qed.

Lemma addba_rsp_ok B c memory d w len f :
  device_ok B d → (rsp_TID f < NUM_OF_TID)%nat →
  ∃ d', PeerAddBARspAction c memory d w len f = Some d' ∧ device_ok B d'.
Proof.
  intros [Ha Ho] Ht. unfold PeerAddBARspAction. destruct (Nat.leb_spec MAX_LEN_OF_MAC_TABLE w) as [|Hw]; [by exists d|].
  destruct (PeerAddBARspActionSanity f len); [|by exists d].
  set (m := if rsp_StatusCode f =? 0 then _ else _).
  assert (∃ d1 l, m = Some d1 ∧ ori_ok d1 ∧ rx d1 = foldl note (rx d) l ∧ (ASSERT_failed ∉ l))
    as (d1 & l & -> & Ho1 & Hr & Hl).
  { unfold m. destruct (rsp_StatusCode f =? 0); [by apply ori_add_ok|by apply ori_teardown_ok]. }
  rewrite Some_bind. destruct (device_notes B d d1 l Ha Ho1 Hr Hl) as [Ha1 _].
  destruct (_ || _); [|by exists d1].
  destruct (lookup_lt_is_Some_2 (Content (rx d1)) w) as [e He]; [by rewrite (ok_mac _ _ Ha1)|]. rewrite He, Some_bind.
  eexists. split; [reflexivity|]. split; [by apply bitmaps_ok|by apply ori_rx].
Qed.

Lemma peer_ok B c memory d w len f :
  device_ok B d → (frame_tid f < NUM_OF_TID)%nat →
  ∃ d', PeerBAAction c memory d w len f = Some d' ∧ device_ok B d'.
Proof.
  intros Hd Ht. destruct f as [f|f|f]; cbn [PeerBAAction frame_tid] in *.
  - by apply addba_req_ok.
  - by apply addba_rsp_ok.
  - destruct Hd as [Ha Ho]. unfold PeerDelBAAction. destruct (PeerDelBAActionSanity w len); [|by exists d].
    destruct (del_Initiator f =? ORIGINATOR).
    + destruct (teardown_ok B memory (rx d) w (del_TID f) true Ha Ht) as (a & -> & Ha'). rewrite Some_bind.
      eexists. split; [reflexivity|]. split; [done|by apply ori_rx].
    + destruct (ori_teardown_ok memory d w (del_TID f) true false Ho Ht) as (d' & l & -> & Ho' & Hr & Hl).
      exists d'. split; [done|]. by apply (device_notes B d d' l).
Qed.

(** ** The device as a state machine *)

Inductive device_input :=
  | Receive (i : table_input)
  | SetUp (w tid : nat) (TimeOut DelayTime : Z) (isForced : bool)
  | OriTearDown (w tid : nat) (bPassive bForceSend : bool)
  | TearDownAll (w : nat)
  | TimerFires (Idx : nat)
  | SendRequest (unicast : bool) (w : nat) (BaBufSize TimeOutValue : Z) (tid : nat) (token : Z)
  | PeerFrame (w : nat) (MsgLen : Z) (f : ba_frame).

(** One input, with the configuration and the answer of the allocator at that
    time. *)
Definition device_handle (OS_HZ : Z) (c : config) (memory : bool) (d : device) (i : device_input) : option device :=
  match i with
  | Receive i => a ← table_handle OS_HZ (rx d) i; Some (on_rx d a)
  | SetUp w tid to delay forced => BAOriSessionSetUp c d w tid to delay forced
  | OriTearDown w tid p fs => BAOriSessionTearDown memory d w tid p fs
  | TearDownAll w => BASessionTearDownALL memory d w
  | TimerFires Idx => BAOriSessionSetupTimeout c d Idx
  | SendRequest unicast w n to tid token => MlmeADDBAAction unicast memory d w n to tid token
  | PeerFrame w len f => PeerBAAction c memory d w len f
  end.

(** A timer fires if it is pending. *)
Definition device_admissible (d : device) (i : device_input) : Prop :=
  match i with
  | Receive i => table_admissible (rx d) i
  | SetUp w tid _ _ _ => (w < MAX_LEN_OF_MAC_TABLE)%nat ∧ (tid < NUM_OF_TID)%nat
  | OriTearDown _ tid _ _ => (tid < NUM_OF_TID)%nat
  | TearDownAll _ => True
  | TimerFires Idx => ∃ r v, BAOriEntry d !! Idx = Some r ∧ ORIBATimer r = Some v
  | SendRequest _ _ _ _ tid _ => (tid < NUM_OF_TID)%nat
  | PeerFrame _ _ f => (frame_tid f < NUM_OF_TID)%nat
  end.

(** The tables after [BATableInit]; the stations are zeroed. *)
Definition free_ori : BA_ORI_ENTRY :=
  {| o_Wcid := 0; o_TID := 0; o_BAWinSize := 0; Token := 0; o_Sequence := 0; o_TimeOutValue := 0;
     ORI_BA_Status := Originator_NONE; ORIBATimer := None |}.

Definition device_start (a : adapter) (l : list station) : device :=
  {| rx := a; stations := l; BAOriEntry := replicate MAX_LEN_OF_BA_ORI_TABLE free_ori; numAsOriginator := 0;
     numDoneOriginator := 0 |}.

Definition fresh_station (s : station) : Prop :=
  TXBAbitmap s = 0 ∧ BAOriWcidArray s = replicate NUM_OF_TID 0%nat ∧ length (TxSeq s) = NUM_OF_TID.

Inductive device_reachable (OS_HZ : Z) (num : nat) : device → Prop :=
  | device_init nones limit pool l :
      length nones = MAX_LEN_OF_MAC_TABLE → ba_reordering_resource_init true num = Some pool →
      length l = MAX_LEN_OF_MAC_TABLE → Forall fresh_station l →
      device_reachable OS_HZ num (device_start (BATableInit nones limit pool) l)
  | device_step c memory d i d' :
      device_reachable OS_HZ num d → device_admissible d i → device_handle OS_HZ c memory d i = Some d' →
      device_reachable OS_HZ num d'.

Lemma start_ok l a : length l = MAX_LEN_OF_MAC_TABLE → Forall fresh_station l → ori_ok (device_start a l).
Proof.
  intros Hl Hf.
  assert (∀ w s, l !! w = Some s → fresh_station s) as Hs by (intros w s H; by eapply Forall_lookup_1).
  assert (∀ i r, BAOriEntry (device_start a l) !! i = Some r → r = free_ori) as He.
  { intros i r H. by apply lookup_replicate in H as [-> _]. }
  assert (∀ w t i, ori_index (device_start a l) w t = Some i → i = 0%nat) as Hx.
  { intros w t i H. unfold ori_index in H. destruct (stations (device_start a l) !! w) as [s|] eqn:E; [|done].
    destruct (Hs w s E) as (_ & E' & _). cbn in H. rewrite E' in H. by apply lookup_replicate in H as [-> _]. }
  split; [done|apply length_replicate| | | | |..].
  - intros w s H. destruct (Hs w s H) as (_ & -> & ->). split; [apply length_replicate|done].
  - split.
    + intros w t i Hi Hi0. by apply Hx in Hi.
    + intros i r Hr Hu. by rewrite (He i r Hr) in Hu.
  - intros i r Hr. by rewrite (He i r Hr).
  - intros w s t H _. destruct (Hs w s H) as (-> & _). rewrite Z.bits_0. unfold done_at.
    destruct (ori_index _ w t) as [i|]; [|done]. destruct (BAOriEntry _ !! i) as [r|] eqn:Hr; [|done].
    by rewrite (He i r Hr).
  - cbn [device_start BAOriEntry numAsOriginator numDoneOriginator]. rewrite sumf_replicate; [done|by apply ori_used_none].
  - cbn [device_start BAOriEntry numAsOriginator numDoneOriginator]. rewrite sumf_replicate; [done|by apply ori_done_no].
Qed.

Lemma device_handle_ok OS_HZ B c memory d i :
  0 <= OS_HZ <= 100000 → device_ok B d → device_admissible d i →
  ∃ d', device_handle OS_HZ c memory d i = Some d' ∧ device_ok B d'.
Proof.
  intros hz [Ha Ho] Hi. destruct i as [i|w t to dl fo|w t p fs|w|i|u w n to t tok|w len f]; cbn [device_handle device_admissible] in *.
  - destruct (table_handle_ok OS_HZ B (rx d) i hz Ha Hi) as (a & -> & Ha'). rewrite Some_bind.
    eexists. split; [reflexivity|]. split; [done|by apply ori_rx].
  - destruct (setup_ok c d w t to dl fo Ho (table_mac B d Ha)) as (d' & -> & Ho' & Hr); [apply Hi..|].
    exists d'. split; [done|]. split; [by rewrite Hr|done].
  - destruct (ori_teardown_ok memory d w t p fs Ho Hi) as (d' & l & -> & Ho' & Hr & Hl).
    exists d'. split; [done|]. by apply (device_notes B d d' l).
  - by apply teardown_all_ok.
  - destruct Hi as (r & v & Hr & Hv). assert (ORI_BA_Status r = Originator_WaitRes) as Hs.
    { pose proof (oo_state _ Ho i r Hr) as H. unfold entry_state in H. by destruct (ORI_BA_Status r); [congruence|..|congruence]. }
    destruct (timer_fires c d i r Ho (table_mac B d Ha) Hr Hs) as (d' & l & -> & Ho' & Hr' & Hl & _).
    exists d'. split; [done|]. by apply (device_notes B d d' l).
  - unfold MlmeADDBAAction. destruct (Nat.ltb_spec w MAX_LEN_OF_MAC_TABLE) as [Hw|]; cbn [andb]; [|by exists d].
    destruct u; cbn [andb]; [|by exists d]. destruct ((0 <? w)%nat && true && memory); [|by exists d].
    destruct (ori_place d w t Ho Hw Hi) as (s & j & q & Hs & Hj & Hq). rewrite Hs, Some_bind, Hj, Some_bind.
    destruct (j =? 0)%nat; [by exists d|]. rewrite Hq, Some_bind.
    eexists. split; [reflexivity|]. split; [by apply note_ok|by apply ori_rx].
  - by apply peer_ok.
Qed.

Lemma device_reachable_ok OS_HZ num d : 0 <= OS_HZ <= 100000 → device_reachable OS_HZ num d → device_ok num d.
Proof.
  intros hz. induction 1 as [nones limit pool l Hn Hp Hl Hf|c memory d i d' _ IH Hi Hs].
  - split; [by apply init_ok|by apply start_ok].
  - destruct (device_handle_ok OS_HZ num c memory d i hz IH Hi) as (d1 & H1 & H2). by assert (d' = d1) as -> by congruence.
Qed.

(** ** The properties *)

(** [n] timeouts of entry [i] in a row. *)
Fixpoint fire (c : config) (d : device) (i n : nat) : option device :=
  match n with
  | O => Some d
  | S n => d ← BAOriSessionSetupTimeout c d i; fire c d i n
  end.

(** The requests queued by timeouts that find the tokens from [tok] on. *)
Definition requests (d : device) (r : BA_ORI_ENTRY) (n : nat) : list event :=
  map (λ j, MlmeEnqueue_ADDBA (Z.of_nat (o_Wcid r)) (u8 (RxBAWinLimit (rx d))) 0 (Z.of_nat (o_TID r)) (Token r + Z.of_nat j))
    (seq 0 n).

Lemma foldl_note a l : log (foldl note a l) = log a ++ l ∧ RxBAWinLimit (foldl note a l) = RxBAWinLimit a ∧
  halted (foldl note a l) = halted a ∧ Content (foldl note a l) = Content a.
Proof.
  revert a. induction l as [|e l IH]; intros a; cbn; [by rewrite app_nil_r|].
  destruct (IH (note a e)) as (-> & -> & -> & ->). cbn. by rewrite <- app_assoc.
Qed.

Lemma fire_waits c n : ∀ d i r,
  monitor_on c = false → scanning c = false → ori_ok d → table_ok_mac d → halted (rx d) = false →
  BAOriEntry d !! i = Some r → ORI_BA_Status r = Originator_WaitRes → Token r + Z.of_nat n <= ORI_SESSION_MAX_RETRY →
  ∃ d' r', fire c d i n = Some d' ∧ ori_ok d' ∧ table_ok_mac d' ∧ halted (rx d') = false ∧
    BAOriEntry d' !! i = Some r' ∧ ORI_BA_Status r' = Originator_WaitRes ∧ o_Wcid r' = o_Wcid r ∧ o_TID r' = o_TID r ∧
    Token r' = Token r + Z.of_nat n ∧ (n ≠ 0%nat → ORIBATimer r' = Some ORI_BA_SESSION_TIMEOUT) ∧
    log (rx d') = log (rx d) ++ requests d r n.
Proof.
  induction n as [|n IH]; intros d i r Hmon Hscan Hd Hm Hh Hr Hs Ht.
  - exists d, r. split_and!; try done; [lia|]. unfold requests. by rewrite app_nil_r.
  - destruct (timer_fires c d i r Hd Hm Hr Hs) as (d1 & l & Hf & Hd1 & Hrx & _ & Hstep).
    destruct (proj1 (Hstep Hmon Hscan) ltac:(lia)) as (-> & r1 & Hr1 & Hs1 & Hw1 & Ht1 & Htok & Htm).
    assert (table_ok_mac d1) as Hm1 by (intros w Hw; rewrite Hrx; by apply Hm).
    assert (halted (rx d1) = false) as Hh1 by (by rewrite Hrx).
    destruct (IH d1 i r1 Hmon Hscan Hd1 Hm1 Hh1 Hr1 Hs1 ltac:(lia))
      as (d' & r' & Hf' & A1 & A2 & A3 & A4 & A5 & A6 & A7 & A8 & A9 & A10).
    exists d', r'. cbn [fire]. rewrite Hf, Some_bind. split_and!; try done; [congruence|congruence|lia| |].
    + intros _. destruct n as [|n]; [|by apply A9]. cbn in Hf'. injection Hf' as <-.
      assert (r' = r1) as -> by congruence. by apply Htm.
    + rewrite A10, Hrx. cbn. rewrite <- app_assoc. f_equal. unfold requests. rewrite Hw1, Ht1, Htok, Hrx. cbn.
      f_equal; [f_equal; lia|]. rewrite <- seq_shift, map_map. apply map_ext. intros j. f_equal. lia.
Qed.

(** a request for a session that the peer never answers is given up.
    While the driver is neither in monitor mode nor scanning, each timeout of
    a waiting session queues one more request with the next token and starts
    the timer again, until token 7 has been sent; the timeout after that
    frees the entry and its index, and leaves no timer. *)
Theorem ba_request_given_up OS_HZ num c d i r :
  0 <= OS_HZ <= 100000 → device_reachable OS_HZ num d → monitor_on c = false → scanning c = false →
  halted (rx d) = false → BAOriEntry d !! i = Some r → ORI_BA_Status r = Originator_WaitRes →
  let k := Z.to_nat (ORI_SESSION_MAX_RETRY - Token r) in
  (∀ n, (n <= k)%nat → ∃ d' r', fire c d i n = Some d' ∧ BAOriEntry d' !! i = Some r' ∧
    ORI_BA_Status r' = Originator_WaitRes ∧ (n ≠ 0%nat → ORIBATimer r' = Some ORI_BA_SESSION_TIMEOUT) ∧
    log (rx d') = log (rx d) ++ requests d r n) ∧
  ∃ d' r', fire c d i (S k) = Some d' ∧ BAOriEntry d' !! i = Some r' ∧ ORI_BA_Status r' = Originator_NONE ∧
    ORIBATimer r' = None ∧ ori_index d' (o_Wcid r) (o_TID r) = Some 0%nat ∧
    log (rx d') = log (rx d) ++ requests d r k.
Proof.
  intros hz Hreach Hmon Hscan Hh Hr Hs k. destruct (device_reachable_ok OS_HZ num d hz Hreach) as [Ha Ho].
  pose proof (table_mac num d Ha) as Hm. pose proof (oo_state _ Ho i r Hr) as Hst. unfold entry_state in Hst.
  rewrite Hs in Hst. assert (Z.of_nat k = ORI_SESSION_MAX_RETRY - Token r) as Hk by (unfold k; lia). split.
  - intros n Hn. destruct (fire_waits c n d i r Hmon Hscan Ho Hm Hh Hr Hs ltac:(lia))
      as (d' & r' & Hf & _ & _ & _ & A1 & A2 & _ & _ & _ & A3 & A4). by exists d', r'.
  - destruct (fire_waits c k d i r Hmon Hscan Ho Hm Hh Hr Hs ltac:(lia))
      as (d1 & r1 & Hf & A1 & A2 & A3 & A4 & A5 & A6 & A7 & A8 & _ & A9).
    destruct (timer_fires c d1 i r1 A1 A2 A4 A5) as (d' & l & Hf' & _ & Hrx & _ & Hstep).
    destruct (proj2 (Hstep Hmon Hscan) ltac:(lia)) as (-> & Hx & r' & Hr' & Hs' & Htm).
    exists d', r'. split_and!; try done.
    + assert (∀ n d0, fire c d0 i (S n) = d2 ← fire c d0 i n; BAOriSessionSetupTimeout c d2 i) as E.
      { induction n as [|n IHn]; intros d0; cbn [fire].
        - rewrite Some_bind. by destruct (BAOriSessionSetupTimeout c d0 i).
        - destruct (BAOriSessionSetupTimeout c d0 i) as [d2|] eqn:E0; [|done]. rewrite !Some_bind. apply IHn. }
      rewrite E, Hf, Some_bind. exact Hf'.
    + by rewrite <- A6, <- A7.
    + by rewrite Hrx.
Qed.

(** C33: in every reachable device the originator's table is in order: an entry
    is free, waits for an answer or is established, and then the index of its
    station and TID, and no other, leads to it; the bit of a station for a TID
    is set exactly when its session is established; both counts are right;
    only a request that waits can have a timer, and its token is at most 8. *)
Theorem ba_originator_consistent OS_HZ num d :
  0 <= OS_HZ <= 100000 → device_reachable OS_HZ num d →
  (∀ i r, BAOriEntry d !! i = Some r →
    ORI_BA_Status r = Originator_NONE ∧ ORIBATimer r = None ∨
    i ≠ 0%nat ∧ ori_index d (o_Wcid r) (o_TID r) = Some i ∧
      (∀ w t, ori_index d w t = Some i → w = o_Wcid r ∧ t = o_TID r) ∧
      (ORI_BA_Status r = Originator_WaitRes ∧ 1 <= Token r <= 8 ∨
       ORI_BA_Status r = Originator_Done ∧ ORIBATimer r = None)) ∧
  (∀ w s t, stations d !! w = Some s → (t < NUM_OF_TID)%nat →
    Z.testbit (TXBAbitmap s) (Z.of_nat t) = true ↔
    ∃ i r, ori_index d w t = Some i ∧ BAOriEntry d !! i = Some r ∧ ORI_BA_Status r = Originator_Done) ∧
  numAsOriginator d = Z.of_nat (length (filter (λ r, ORI_BA_Status r ≠ Originator_NONE) (BAOriEntry d))) ∧
  numDoneOriginator d = Z.of_nat (length (filter (λ r, ORI_BA_Status r = Originator_Done) (BAOriEntry d))).
Proof.
  intros hz Hreach. destruct (device_reachable_ok OS_HZ num d hz Hreach) as [_ Ho]. split_and!.
  - intros i r Hr. pose proof (oo_state _ Ho i r Hr) as Hst. unfold entry_state in Hst.
    destruct (decide (ORI_BA_Status r = Originator_NONE)) as [E|Hu]; [left; by rewrite E in Hst|right].
    destruct (link_index _ _ _ _ _ (oo_linked _ Ho) i r Hr Hu) as [Hi0 Hx]. split_and!; [done|done| |].
    + intros w t Hw. by apply (linked_inj _ _ _ _ _ _ _ _ _ i (oo_linked _ Ho)).
    + destruct (ORI_BA_Status r); [done|done|left|right]; (split; [done|]); [apply Hst|done].
  - intros w s t Hs Ht. rewrite (oo_bitmap _ Ho w s t Hs Ht). unfold done_at. split.
    + destruct (ori_index d w t) as [i|]; [|done]. destruct (BAOriEntry d !! i) as [r|] eqn:Hr; [|done].
      intros H%bool_decide_eq_true. by exists i, r.
    + intros (i & r & -> & -> & Hdn). by apply bool_decide_eq_true.
  - rewrite (oo_used _ Ho). f_equal. apply sumf_filter. intros r. unfold ori_used.
    by destruct (decide (ORI_BA_Status r = Originator_NONE)), (decide (ORI_BA_Status r ≠ Originator_NONE)).
  - rewrite (oo_done _ Ho). f_equal. apply sumf_filter. intros r. unfold ori_done. by destruct (decide _).
Qed.

Lemma BA_MaxWinSizeReasign_le c s x : 0 <= x → 0 <= BA_MaxWinSizeReasign c s x <= x.
Proof.
  intros Hx. unfold BA_MaxWinSizeReasign. set (p := u8 _). assert (0 <= p) by apply fits_u8. clearbody p. cbv zeta.
  set (m := if (TxPath c =? 3) && _ then 31 else 20). assert (20 <= m) by (unfold m; destruct (_ && _); lia). clearbody m.
  set (k := if negb (ralink_chipset s) then Z.min p m else m). assert (0 <= k) by (unfold k; destruct (negb _); lia).
  clearbody k. destruct (Z.ltb_spec k x); lia.
Qed.

(** A positive answer to a request means a session with the window of the
    answer. *)
Lemma answer_accepts B c d w len req tok t n d' :
  device_ok B d → (w < MAX_LEN_OF_MAC_TABLE)%nat → (req_TID (areq req) < NUM_OF_TID)%nat →
  PeerAddBAReqAction c true d w len req = Some d' →
  last (log (rx d')) = Some (Send_ADDBA_RSP (Z.of_nat w) tok 0 t n) →
  1 <= n <= 255 ∧ ∃ j r, index_of (rx d') w (req_TID (areq req)) = Some j ∧ BARecEntry (rx d') !! j = Some r ∧
    REC_BA_Status r = Recipient_Accept ∧ BAWinSize (ba r) = n ∧ LastIndSeq (ba r) = RESET_RCV_SEQ ∧
    next (list_ (ba r)) = [].
Proof.
  intros [Ha Ho] Hw Ht. unfold PeerAddBAReqAction. destruct (Nat.leb_spec MAX_LEN_OF_MAC_TABLE w); [lia|].
  destruct (lookup_lt_is_Some_2 (stations d) w) as [s Hs]; [by rewrite (oo_stations _ Ho)|]. rewrite Hs, Some_bind.
  assert (∀ st d1, st ≠ 0 →
    ('(Status, d) ← Some (st, d1); if negb true then Some d else Some (dnote d (Send_ADDBA_RSP (Z.of_nat w) (areq_Token req)
        Status (Z.of_nat (req_TID (areq req))) (answered_window (rx d) (areq req))))) = Some d' →
    last (log (rx d')) ≠ Some (Send_ADDBA_RSP (Z.of_nat w) tok 0 t n)) as Hno.
  { intros st d1 Hst. rewrite Some_bind. cbn [negb]. intros E. injection E as <-. cbn. rewrite last_snoc.
    intros E. by injection E as _ E _ _. }
  destruct (PeerAddBAReqActionSanity req len); [|intros E F; by destruct (Hno 1 d ltac:(done) E)].
  destruct (negb (bBADecline c) && ht_station s); [|intros E F; by destruct (Hno 37 d ltac:(done) E)].
  destruct (add_ok B (rx d) w (areq req) Ha Hw Ht) as (b & a & -> & _ & Hlim & Hadd). rewrite Some_bind.
  destruct b; [|intros E F; by destruct (Hno 38 (on_rx d a) ltac:(done) E)].
  rewrite Some_bind. cbn [negb]. intros E F. injection E as <-. cbn in F. rewrite last_snoc in F. injection F as _ _ Hn.
  assert (answered_window a (areq req) = agreed_window (rx d) (areq req)) as E.
  { unfold answered_window, agreed_window. by rewrite Hlim. }
  rewrite E in Hn. subst n. split; [apply agreed_window_range|].
  destruct Hadd as (j & r & H1 & H2 & H3 & H4 & H5 & H6). exists j, r. by split_and!.
Qed.

(** C32: when a peer that runs this driver answers a waiting request with
    status 0, both ends have an established session, and the originator's
    window is smaller than the reordering buffer the recipient starts with:
    the originator never has more frames under way than the recipient can
    hold, whatever the request asked for. *)
Theorem ba_handshake OS_HZ numA numB cA cB mA dA dB i r w len req tok n dB' :
  0 <= OS_HZ <= 100000 → device_reachable OS_HZ numA dA → device_reachable OS_HZ numB dB →
  BAOriEntry dA !! i = Some r → ORI_BA_Status r = Originator_WaitRes →
  (w < MAX_LEN_OF_MAC_TABLE)%nat → req_TID (areq req) = o_TID r →
  PeerAddBAReqAction cB true dB w len req = Some dB' →
  last (log (rx dB')) = Some (Send_ADDBA_RSP (Z.of_nat w) tok 0 (Z.of_nat (o_TID r)) n) →
  let rsp := {| rsp_StatusCode := 0; rsp_TID := o_TID r; rsp_Policy := IMMED_BA; rsp_BufSize := n;
                rsp_TimeOutValue := 0 |} in
  ∃ dA' rA j rB, PeerAddBARspAction cA mA dA (o_Wcid r) sizeof_FRAME_ADDBA_RSP rsp = Some dA' ∧
    BAOriEntry dA' !! i = Some rA ∧ ORI_BA_Status rA = Originator_Done ∧ ORIBATimer rA = None ∧
    index_of (rx dB') w (o_TID r) = Some j ∧ BARecEntry (rx dB') !! j = Some rB ∧
    REC_BA_Status rB = Recipient_Accept ∧ LastIndSeq (ba rB) = RESET_RCV_SEQ ∧ next (list_ (ba rB)) = [] ∧
    0 <= o_BAWinSize rA < BAWinSize (ba rB).
Proof.
  intros hz HA HB Hr Hs Hw Hreq Hans Hlast rsp.
  destruct (device_reachable_ok OS_HZ numA dA hz HA) as [_ Ho]. pose proof (device_reachable_ok OS_HZ numB dB hz HB) as HdB.
  assert (ORI_BA_Status r ≠ Originator_NONE) as Hu by (by rewrite Hs).
  destruct (ori_used_index dA i r Ho Hr Hu) as (Hi0 & _ & s & Hst & Hx).
  destruct (oo_arrays _ Ho _ s Hst) as [Hl1 Hl2]. apply lookup_lt_Some in Hx as Hlt. rewrite Hl1 in Hlt.
  destruct (lookup_lt_is_Some_2 (TxSeq s) (o_TID r)) as [q Hq]; [by rewrite Hl2|].
  destruct (answer_accepts numB cB dB w len req tok _ n dB' HdB Hw ltac:(by rewrite Hreq) Hans Hlast)
    as (Hn & j & rB & H1 & H2 & H3 & H4 & H5 & H6).
  pose proof (oo_state _ Ho i r Hr) as Hes. unfold entry_state in Hes. rewrite Hs in Hes. destruct Hes as [_ Hwin].
  assert (o_Wcid r < MAX_LEN_OF_MAC_TABLE)%nat as Hww by (rewrite <- (oo_stations _ Ho); by eapply lookup_lt_Some).
  unfold PeerAddBARspAction. destruct (Nat.leb_spec MAX_LEN_OF_MAC_TABLE (o_Wcid r)); [lia|].
  unfold PeerAddBARspActionSanity. cbn [rsp_Policy rsp rsp_StatusCode]. rewrite Z.ltb_irrefl, Z.eqb_refl. cbn [negb andb Z.eqb orb].
  unfold BAOriSessionAdd. rewrite Hst, Some_bind. cbv zeta. cbn [rsp_TID rsp]. rewrite Hx, Some_bind, Hr, Some_bind.
  destruct (Nat.eqb_spec i 0); [done|]. rewrite Nat.eqb_refl, bool_decide_true by done. cbn [negb andb].
  rewrite Hq, Some_bind, Some_bind. cbn [rsp_StatusCode rsp Z.eqb orb andb negb]. rewrite andb_false_r.
  eexists _, _, j, rB. split; [reflexivity|]. rewrite Hreq in H1.
  split; [destruct mA; cbn; by rewrite list_lookup_insert_eq by (by eapply lookup_lt_Some)|].
  split_and!; try done; cbn [o_BAWinSize rsp_BufSize rsp]; rewrite ?H4; set (m := Z.min _ _);
    (assert (0 <= m < n) as Hm;
      [unfold m; rewrite u8_small by (unfold byte; lia); destruct (Z.ltb_spec 0 n); unfold byte in Hwin; lia|]);
    pose proof (BA_MaxWinSizeReasign_le cA s m ltac:(lia)); lia.
Qed.

(** ** Two devices for the examples: one has asked station 1 for a session on
    TID 0 once, the other has not been asked yet. *)

Definition demo_config : config :=
  {| AutoBA := true; FixedTxMode := 0; bBADecline := false; TxPath := 1; monitor_on := false; scanning := false;
     tgn_wifi_on := false |}.

Definition demo_station : station :=
  {| TXBAbitmap := 0; BAOriWcidArray := replicate NUM_OF_TID 0%nat; TxSeq := replicate NUM_OF_TID 100;
     MaxRAmpduFactor := 3; MCSSet2 := 0; ralink_chipset := false; ht_station := true |}.

Definition demo_idle : device := device_start demo_start (replicate MAX_LEN_OF_MAC_TABLE demo_station).

Definition demo_asking : device :=
  default demo_idle
    (d ← device_handle 100 demo_config true demo_idle (SetUp 1 0 0 10 false);
     device_handle 100 demo_config true d (TimerFires 1)).

Definition demo_waiting : BA_ORI_ENTRY := default free_ori (BAOriEntry demo_asking !! 1%nat).

Definition demo_ask : addba_request :=
  {| areq := {| req_TID := 0; req_BufSize := 16; req_TimeOutValue := 0 |}; areq_Token := 1; areq_Policy := IMMED_BA |}.

Definition demo_answered : device :=
  default demo_idle (PeerAddBAReqAction demo_config true demo_idle 2 sizeof_FRAME_ADDBA_REQ demo_ask).

Lemma demo_idle_reachable : device_reachable 100 6 demo_idle.
Proof.
  apply (device_init 100 6 (replicate 32 false) 16); [done|done|apply length_replicate|].
  apply Forall_replicate. by split_and!.
Qed.

Lemma demo_asking_reachable : device_reachable 100 6 demo_asking.
Proof.
  eapply (device_step 100 6 demo_config true _ (TimerFires 1)).
  - eapply (device_step 100 6 demo_config true demo_idle (SetUp 1 0 0 10 false));
      [apply demo_idle_reachable|split; apply Nat.ltb_lt; reflexivity|].
    exact (eq_refl : _ = Some (default demo_idle (device_handle 100 demo_config true demo_idle (SetUp 1 0 0 10 false)))).
  - eexists _, _. split; vm_compute; reflexivity.
  - vm_compute. reflexivity.
Qed.

Lemma ba_request_given_up_witness :
  (∀ n, (n <= 6)%nat → ∃ d' r', fire demo_config demo_asking 1 n = Some d' ∧ BAOriEntry d' !! 1%nat = Some r' ∧
    ORI_BA_Status r' = Originator_WaitRes ∧ (n ≠ 0%nat → ORIBATimer r' = Some ORI_BA_SESSION_TIMEOUT) ∧
    log (rx d') = log (rx demo_asking) ++ requests demo_asking demo_waiting n) ∧
  ∃ d' r', fire demo_config demo_asking 1 7 = Some d' ∧ BAOriEntry d' !! 1%nat = Some r' ∧
    ORI_BA_Status r' = Originator_NONE ∧ ORIBATimer r' = None ∧
    ori_index d' (o_Wcid demo_waiting) (o_TID demo_waiting) = Some 0%nat ∧
    log (rx d') = log (rx demo_asking) ++ requests demo_asking demo_waiting 6.
Proof.
  apply (ba_request_given_up 100 6 demo_config demo_asking 1 demo_waiting);
    [lia|apply demo_asking_reachable|vm_compute; reflexivity..].
Defined.

Lemma ba_originator_consistent_witness :
  (∀ i r, BAOriEntry demo_asking !! i = Some r →
    ORI_BA_Status r = Originator_NONE ∧ ORIBATimer r = None ∨
    i ≠ 0%nat ∧ ori_index demo_asking (o_Wcid r) (o_TID r) = Some i ∧
      (∀ w t, ori_index demo_asking w t = Some i → w = o_Wcid r ∧ t = o_TID r) ∧
      (ORI_BA_Status r = Originator_WaitRes ∧ 1 <= Token r <= 8 ∨
       ORI_BA_Status r = Originator_Done ∧ ORIBATimer r = None)) ∧
  (∀ w s t, stations demo_asking !! w = Some s → (t < NUM_OF_TID)%nat →
    Z.testbit (TXBAbitmap s) (Z.of_nat t) = true ↔
    ∃ i r, ori_index demo_asking w t = Some i ∧ BAOriEntry demo_asking !! i = Some r ∧ ORI_BA_Status r = Originator_Done) ∧
  numAsOriginator demo_asking =
    Z.of_nat (length (filter (λ r, ORI_BA_Status r ≠ Originator_NONE) (BAOriEntry demo_asking))) ∧
  numDoneOriginator demo_asking =
    Z.of_nat (length (filter (λ r, ORI_BA_Status r = Originator_Done) (BAOriEntry demo_asking))).
Proof. apply (ba_originator_consistent 100 6 demo_asking); [lia|apply demo_asking_reachable]. Defined.

Lemma ba_handshake_witness :
  ∃ dA' rA j rB, PeerAddBARspAction demo_config true demo_asking (o_Wcid demo_waiting) sizeof_FRAME_ADDBA_RSP
      {| rsp_StatusCode := 0; rsp_TID := o_TID demo_waiting; rsp_Policy := IMMED_BA; rsp_BufSize := 16;
         rsp_TimeOutValue := 0 |} = Some dA' ∧
    BAOriEntry dA' !! 1%nat = Some rA ∧ ORI_BA_Status rA = Originator_Done ∧ ORIBATimer rA = None ∧
    index_of (rx demo_answered) 2 (o_TID demo_waiting) = Some j ∧ BARecEntry (rx demo_answered) !! j = Some rB ∧
    REC_BA_Status rB = Recipient_Accept ∧ LastIndSeq (ba rB) = RESET_RCV_SEQ ∧ next (list_ (ba rB)) = [] ∧
    0 <= o_BAWinSize rA < BAWinSize (ba rB).
Proof.
  apply (ba_handshake 100 6 6 demo_config demo_config true demo_asking demo_idle 1 demo_waiting 2
    sizeof_FRAME_ADDBA_REQ demo_ask 1 16 demo_answered);
    [lia|apply demo_asking_reachable|apply demo_idle_reachable|vm_compute; reflexivity|vm_compute; reflexivity| |
     vm_compute; reflexivity..].
  apply Nat.ltb_lt. reflexivity.
Defined.
